(* ===== verification/_CoqProject ===== *)
-Q . S2P
Prelude.v
Tool.v
Bitmap.v
Bytes.v
Super.v
SuperExamples.v
Ihash.v
IhashSpec.v
Kernel.v
InodeCnv.v
Cluster.v
Alloc.v
AllocSpec.v
ClusterAlloc.v
AllocExamples.v
ClusterExamples.v
Extents.v
ExtentsSpec.v
Frame.v
Bmap.v
BmapSpec.v
Balloc.v
BallocSpec.v
FileExamples.v
Dir.v
DirSpec.v
DirSearch.v
DirOps.v
ReadWrite.v
MetaRead.v
DirExamples.v
Inode.v
Vget.v
Vnops.v
FrameOps.v
Mount.v
MountSpec.v
UnmountSpec.v
MountExamples.v
UpdateSpec.v
RwSpec.v
VnopsSpec.v
VgetSpec.v
VgetExamples.v
VnopsExamples.v
TruncSpec.v
RwExamples.v
TruncExamples.v
Newfs.v
NewfsSpec.v
NewfsOps.v
NewfsExamples.v
Fsck.v
FsckInode.v
FsckDir.v
FsckPass.v
FsckSetup.v
FsckKeep.v
FsckSpec.v
FsckInodeSpec.v
FsckSetupSpec.v
FsckCache.v
FsckMaps.v
FsckExamples.v
