(* ===== verification/Prelude.v ===== *)
(** * ext2fs: a model of the file system, newfs_ext2fs and fsck_ext2fs

    The repository holds a kernel extension for ext2 (src/kext, with its headers
    in src/include/fs/ext2fs) and the programs around it (src/fs). This
    development models the kernel extension, newfs_ext2fs and fsck_ext2fs as
    functions on explicit states and proves what makes them correct, or where
    they are not. Definitions carry the names of the C functions; loops are
    functions of their own, named after the function they are in.

    ** Conventions

    An integer of the C code is the [Z] it denotes; wrap-around is written out
    with [u8] to [u64] and [s8] to [s64], division truncates where the operands
    are signed ([cdiv], [crem]). Memory accesses return [res]: a [fault] stands
    for undefined behaviour (an access out of bounds, a null pointer, a division
    by zero, a misused lock or allocation), for a panic, or for fuel that ran
    out. Byte order conversions are the identity, as on the machines the code is
    built for. On-disk structures are bytes with an explicit layout (Bytes.v).

    There are two monads. [M] (Prelude.v) is that of the kernel extension: a
    state and a result or a fault; [wp] is its weakest precondition. [Tool]
    (Tool.v) is that of the programs: it can also end the process; [twp] has one
    postcondition for the return and one for the exit. [keeps], [always] and the
    frames of Frame.v are invariants of runs, closed under composition by the
    tactics and hint databases of the same names.

    ** The kernel extension

    Kernel.v: [world], one mounted volume as one thread sees it, with the
    counters of the in-core superblock, the descriptor table, the cluster
    summary, the device behind the buffer cache, the buffers and the lock the
    thread holds, the in-core inodes and their hash, and its I/O counts; the
    class [KernelEnv] holds what the code relies on but does not contain: the
    buffer cache, the clock, and what other threads do wherever the thread may
    sleep or releases the lock ([KernelEnv] steps are arbitrary but for the
    invariant a theorem names).

    - Super.v (ext2fs.h, fs.h, parts of ext2_vfsops.c and ext2_alloc.c):
      [check_sb_compat], [mountfs_admit], [compute_sb_data], [cg_has_sb],
      [statfs_internal] and the address macros. Proved: which superblocks are
      admitted, that the geometry is consistent and its table allocated, or
      overrun where the size wraps, which groups have a copy, and the blocks
      that are reported.
    - Bitmap.v, Cluster.v, Alloc.v (ext2_subr.c, ext2_alloc.c): bitmaps, the
      cluster summary, allocation and release of blocks and inodes; AllocSpec.v
      proves them against the abstract volume (a set of used blocks and inodes
      and counters that agree with it) under interference: from the state a call
      starts in to the one it ends in there are only steps of other threads and
      the one step that takes or gives back a block ([reach]), and an answer of
      no space has its reason. ClusterAlloc.v has the allocation of runs of
      blocks.
    - Extents.v, Bmap.v, Balloc.v (ext2_extents.c, ext2_bmap.c, ext2_balloc.c):
      the extent tree, block mapping and blocks for a file; ExtentsSpec.v,
      BmapSpec.v, BallocSpec.v.
    - Dir.v (ext2_lookup.c): the search and the changes of a directory; DirSpec.v
      reads a block as a list of entries ([chain], [in_use]), DirSearch.v and
      DirOps.v prove search, entry and removal against it.
    - ReadWrite.v (ext2_readwrite.c), MetaRead.v, RwSpec.v: reading and writing,
      the synchronous and the appending write included.
    - Ihash.v (ext2_ihash.c), InodeCnv.v (ext2_inode_cnv.c), Inode.v
      (ext2_inode.c), Vget.v (ext2_vfsops.c), Vnops.v (ext2_vnops.c): the hash of
      inodes on its real pointers, the two forms of an inode, truncation, inodes
      coming into memory, and the vnode operations; IhashSpec.v refines the hash
      to a set, VgetSpec.v ties it to the in-core inodes while other threads
      leave them alone; VnopsSpec.v has the vnode operations, TruncSpec.v the
      blocks a truncation frees, UpdateSpec.v the inode that is written.
    - Mount.v (ext2_vfsops.c): mount, unmount, sync and journal replay, with the
      heap as the set of live allocations and the arrays at the sizes they are
      asked with; MountSpec.v, UnmountSpec.v.

    An inode in memory is identified by its number, one per mount; a vnode by its
    inode.

    ** newfs_ext2fs

    Newfs.v (mke2fs.c): [mke2fs] and every function it calls, on the state
    [newfs_state] (the superblock, the descriptors, the device as a function from
    offsets to bytes). NewfsSpec.v proves that what is prepared is a consistent
    volume that the driver mounts with the same geometry, and what the bitmaps
    say; NewfsOps.v that no run that writes ends normally on a machine where a
    division by zero traps; on arm64 it gives 0, and a run ends.

    ** fsck_ext2fs

    Fsck.v has the state [fsck_state] of the globals of main.c, the transfers,
    the buffers (utilities.c) and the functions applied to blocks; FsckInode.v
    inode.c and the directory scan; FsckDir.v dir.c and the check of an entry;
    FsckPass.v the passes; FsckSetup.v setup.c, [ckfini] and [checkfilesys].
    Pointers to buffers and directory records are indices. FsckKeep.v proves of
    whole runs that a read-only check leaves the device alone and that preening
    asks nothing; FsckSpec.v that the block map and the list of duplicates count
    the owners of every block; FsckCache.v that the buffers are a write-back cache
    of the device (a refinement to the [view] of a reader); FsckMaps.v what pass 5
    computes; FsckInodeSpec.v and FsckSetupSpec.v inodes, entries, names and the
    place of the superblock.

    ** Fuel

    Loops without a structural bound take fuel: the number of bytes of the block
    that is scanned for entries (every round consumes at least one), the length
    of the table or bitmap for searches, the number of steps other threads may
    force in the hash. Where the original may run forever, running out of fuel is
    the fault [NoFuel], and theorems about termination say when it does not
    happen ([ihashinit_spec], [ihashget_returns]) or that it must
    ([drop_refs_diverges]). [propagate] of fsck gets the square of the number of
    directories, more than any walk that ends can take.

    ** Not modelled

    The page and cluster I/O behind regular files, the name cache, credentials
    beyond what the code compares, locks of single inodes and [i_modrev] are
    parameters or left out; so is all text that is only printed. Not modelled are the registration of the file
    system (ext2fs.c of the kext), the command lines of newfs_ext2fs and
    fsck_ext2fs with their signals and device names, mount_ext2fs, ext2fs.util,
    bsdcompat (option parsing and single system calls), e2undel (a third-party
    tool) and the ExtFS Manager (Objective-C). *)
From stdpp Require Export base tactics option list gmap strings numbers.
From Stdlib Require Export ZArith Lia.
#[global] Open Scope Z_scope.

(** * C integers: a value of a w-bit type is the [Z] it denotes *)

Definition u8 (z : Z) : Z := z mod 2 ^ 8.
Definition u16 (z : Z) : Z := z mod 2 ^ 16.
Definition u32 (z : Z) : Z := z mod 2 ^ 32.
Definition u64 (z : Z) : Z := z mod 2 ^ 64.
Definition s16 (z : Z) : Z := (z + 2 ^ 15) mod 2 ^ 16 - 2 ^ 15.
Definition s32 (z : Z) : Z := (z + 2 ^ 31) mod 2 ^ 32 - 2 ^ 31.
Definition s64 (z : Z) : Z := (z + 2 ^ 63) mod 2 ^ 64 - 2 ^ 63.

Definition u8_ok (z : Z) : Prop := 0 <= z < 2 ^ 8.
Definition u16_ok (z : Z) : Prop := 0 <= z < 2 ^ 16.
Definition u32_ok (z : Z) : Prop := 0 <= z < 2 ^ 32.
Definition u64_ok (z : Z) : Prop := 0 <= z < 2 ^ 64.
Definition s32_ok (z : Z) : Prop := - 2 ^ 31 <= z < 2 ^ 31.
Definition s64_ok (z : Z) : Prop := - 2 ^ 63 <= z < 2 ^ 63.

(** Signed C division truncates towards zero. *)
Definition cdiv (a b : Z) : Z := Z.quot a b.
Definition crem (a b : Z) : Z := Z.rem a b.

(** [howmany(x, y)] of <sys/param.h> and [roundup2] of ext2_apple.h. *)
Definition howmany (x y : Z) : Z := (x + (y - 1)) / y.
Definition NBBY : Z := 8.

(** * Faults: the ways a C function may fail to return *)

Inductive fault : Type :=
| Panic (msg : string)      (* panic() *)
| OutOfBounds               (* an access outside an array or buffer *)
| LockMisuse                (* lock/unlock/assert against the owner state *)
| BufMisuse                 (* release of a buffer that is not held, or a second bread of a held one *)
| NullDeref                 (* a null pointer is dereferenced *)
| HeapMisuse                (* memory is freed that is not allocated *)
| DivByZero
| IntOverflow               (* signed overflow *)
| UndefShift                (* a shift whose result C leaves undefined *)
| NoFuel.                   (* the bound given to a loop was too small *)

Inductive res (A : Type) : Type :=
| Ok (a : A)
| Fault (f : fault).
Arguments Ok {A} a.
Arguments Fault {A} f.

#[global] Instance res_ret : MRet res := fun A a => Ok a.
#[global] Instance res_bind : MBind res := fun A B k m =>
  match m with Ok a => k a | Fault f => Fault f end.

(** An option read as a memory access: [None] is out of bounds. *)
Definition access {A} (o : option A) : res A :=
  match o with Some a => Ok a | None => Fault OutOfBounds end.

Definition is_ok {A} (r : res A) : Prop := exists a, r = Ok a.

(** [a << n] on a nonnegative [int]. *)
Definition shl_int (a n : Z) : res Z :=
  if (0 <=? n) && (n <? 32) && (Z.shiftl a n <? 2 ^ 31) then mret (Z.shiftl a n)
  else Fault UndefShift.

(** Signed multiplication of nonnegative [int]s. *)
Definition mul_int (a k : Z) : res Z :=
  if a * k <? 2 ^ 31 then mret (a * k) else Fault IntOverflow.

(** * The state monad of the kernel code *)

Definition M (W A : Type) : Type := W -> res (A * W).

#[global] Instance M_ret (W : Type) : MRet (M W) := fun A a w => Ok (a, w).
#[global] Instance M_bind (W : Type) : MBind (M W) := fun A B k m w =>
  match m w with Ok (a, w') => k a w' | Fault f => Fault f end.

Definition gets {W A : Type} (f : W -> A) : M W A := fun w => Ok (f w, w).
Definition modify {W : Type} (f : W -> W) : M W unit := fun w => Ok (tt, f w).
Definition halt {W A : Type} (f : fault) : M W A := fun _ => Fault f.
Definition lift {W A : Type} (r : res A) : M W A := fun w =>
  match r with Ok a => Ok (a, w) | Fault f => Fault f end.

(** Weakest precondition: [m] returns from [w], and the result satisfies [Q].
    A fault never satisfies it, so [wp] is total correctness. *)
Definition wp {W A : Type} (m : M W A) (Q : A -> W -> Prop) (w : W) : Prop :=
  match m w with Ok (a, w') => Q a w' | Fault _ => False end.

Create HintDb ext2.
Create Rewrite HintDb ext2_simpl.

Lemma wp_ret {W A} (a : A) (Q : A -> W -> Prop) w : Q a w -> wp (mret a) Q w.
Proof. done. Qed.

Lemma wp_bind {W A B} (m : M W A) (k : A -> M W B) (Q : B -> W -> Prop) w :
  wp m (fun a => wp (k a) Q) w -> wp (m ≫= k) Q w.
Proof. unfold wp, mbind, M_bind. by destruct (m w) as [[a w']|]. Qed.

Lemma wp_mono {W A} (m : M W A) (P Q : A -> W -> Prop) w :
  wp m P w -> (forall a w', P a w' -> Q a w') -> wp m Q w.
Proof. unfold wp. destruct (m w) as [[a w']|]; [auto|done]. Qed.

Lemma wp_gets {W A} (f : W -> A) (Q : A -> W -> Prop) w : Q (f w) w -> wp (gets f) Q w.
Proof. done. Qed.

Lemma wp_modify {W} (f : W -> W) (Q : unit -> W -> Prop) w : Q tt (f w) -> wp (modify f) Q w.
Proof. done. Qed.

Lemma wp_lift {W A} (r : res A) (a : A) (Q : A -> W -> Prop) w :
  r = Ok a -> Q a w -> wp (lift r) Q w.
Proof. intros ->. done. Qed.

(** Running a sequence whose first part is known. *)
Lemma bind_run {W A B} (m : M W A) (k : A -> M W B) w a w' :
  m w = Ok (a, w') -> (m ≫= k) w = k a w'.
Proof. unfold mbind, M_bind. by intros ->. Qed.

Lemma bind_fault {W A B} (m : M W A) (k : A -> M W B) w f : m w = Fault f -> (m ≫= k) w = Fault f.
Proof. unfold mbind, M_bind. by intros ->. Qed.

(** A sequence that returns, taken apart. *)
Lemma bind_Ok {W A B} (m : M W A) (k : A -> M W B) w b w' :
  (m ≫= k) w = Ok (b, w') -> exists a w1, m w = Ok (a, w1) /\ k a w1 = Ok (b, w').
Proof. unfold mbind, M_bind. destruct (m w) as [[a w1]|]; [eauto|done]. Qed.

Lemma lift_run {W A} (r : res A) (a : A) (w : W) : r = Ok a -> lift r w = Ok (a, w).
Proof. by intros ->. Qed.

(** [wp] determines the run: what the executable definition computes. *)
Lemma wp_run {W A} (m : M W A) (Q : A -> W -> Prop) w :
  wp m Q w -> exists a w', m w = Ok (a, w') /\ Q a w'.
Proof. unfold wp. destruct (m w) as [[a w']|]; [eauto|done]. Qed.

(** One step of symbolic execution. *)
Ltac wp_step :=
  lazymatch goal with
  | |- wp (mret _) _ _ => apply wp_ret
  | |- wp (_ ≫= _) _ _ => apply wp_bind
  | |- wp (gets _) _ _ => apply wp_gets
  | |- wp (modify _) _ _ => apply wp_modify
  end.
Ltac wp_steps := repeat wp_step; cbn beta.

(** * Record update *)

(** [mk_setter eta proj] builds the function that updates field [proj] of a
    record, where [eta r] is [r] written as its constructor on its fields. *)
Ltac mk_setter eta proj :=
  let f := fresh "f" in let r := fresh "r" in
  intros f r;
  let e := eval cbv beta delta [eta] in (eta r) in
  let a := eval pattern (proj r) in e in
  lazymatch a with
  | ?g _ => let t := eval cbv beta in (g (f (proj r))) in exact t
  end.

(** * Lists indexed by [Z] *)

(** An access of a C array: a negative or too large index is out of bounds. *)
Definition zlookup {A} (l : list A) (i : Z) : option A :=
  if i <? 0 then None else l !! Z.to_nat i.
Definition zinsert {A} (i : Z) (x : A) (l : list A) : list A :=
  <[Z.to_nat i := x]> l.
Definition zlen {A} (l : list A) : Z := Z.of_nat (length l).

Notation "l !z i" := (zlookup l i) (at level 20).

Definition sumZ (l : list Z) : Z := foldr Z.add 0 l.

Lemma zlookup_Some_inv {A} (l : list A) i x :
  l !z i = Some x -> 0 <= i < zlen l /\ l !! Z.to_nat i = Some x.
Proof.
  unfold zlookup, zlen. case_match eqn:E; [done|].
  intros Hl. apply Z.ltb_ge in E. split; [|done].
  apply lookup_lt_Some in Hl. lia.
Qed.

Lemma zlookup_lt {A} (l : list A) i : 0 <= i < zlen l -> exists x, l !z i = Some x.
Proof.
  unfold zlookup, zlen. intros Hi. case_match eqn:E; [lia|].
  apply lookup_lt_is_Some_2. lia.
Qed.

Lemma zlookup_nonneg {A} (l : list A) i : 0 <= i -> l !z i = l !! Z.to_nat i.
Proof. unfold zlookup. intros. case_match; [lia|done]. Qed.

Lemma zlen_app {A} (l1 l2 : list A) : zlen (l1 ++ l2) = zlen l1 + zlen l2.
Proof. unfold zlen. rewrite length_app. lia. Qed.

Lemma zlen_zinsert {A} i x (l : list A) : zlen (zinsert i x l) = zlen l.
Proof. unfold zlen, zinsert. by rewrite length_insert. Qed.

Lemma zlookup_zinsert_eq {A} (l : list A) i x :
  0 <= i < zlen l -> zinsert i x l !z i = Some x.
Proof.
  unfold zlen, zinsert. intros Hi. rewrite zlookup_nonneg by lia.
  apply list_lookup_insert_eq. lia.
Qed.

Lemma zlookup_zinsert_ne {A} (l : list A) i j x :
  0 <= i -> i <> j -> zinsert i x l !z j = l !z j.
Proof.
  unfold zlookup, zinsert. intros Hi Hj. case_match eqn:E; [done|].
  apply list_lookup_insert_ne. lia.
Qed.

Lemma sumZ_insert l i (x y : Z) :
  l !! i = Some x -> sumZ (<[i := y]> l) = sumZ l - x + y.
Proof.
  revert i. induction l as [|z l IH]; intros [|i]; simpl; try done.
  - intros [= ->]. lia.
  - intros Hl. rewrite (IH _ Hl). lia.
Qed.

Lemma sumZ_lookup_le l i (x : Z) :
  (forall y, y ∈ l -> 0 <= y) -> l !! i = Some x -> x <= sumZ l.
Proof.
  revert i. induction l as [|z l IH]; intros i Hp Hl; [done|].
  assert (0 <= sumZ l) as Hs.
  { assert (forall y, y ∈ l -> 0 <= y) as Hl' by set_solver. revert Hl'. clear.
    induction l as [|y l IH]; intros Hp; simpl; [lia|].
    assert (0 <= y) by (apply Hp; set_solver).
    assert (0 <= sumZ l) by (apply IH; set_solver). lia. }
  assert (0 <= z) by (apply Hp; set_solver).
  destruct i as [|i]; simpl in *.
  - simplify_eq. lia.
  - assert (x <= sumZ l); [|lia]. apply (IH i); [set_solver|done].
Qed.

#[export] Hint Rewrite @zlen_zinsert : ext2_simpl.
#[export] Hint Resolve zlookup_zinsert_eq : ext2.

(** * Wrap-around is the identity on values in range *)

Lemma u16_id z : u16_ok z -> u16 z = z.
Proof. unfold u16, u16_ok. intros. by apply Z.mod_small. Qed.
Lemma u32_id z : u32_ok z -> u32 z = z.
Proof. unfold u32, u32_ok. intros. by apply Z.mod_small. Qed.
Lemma u8_id z : u8_ok z -> u8 z = z.
Proof. unfold u8, u8_ok. intros. by apply Z.mod_small. Qed.
Lemma s32_id z : s32_ok z -> s32 z = z.
Proof. unfold s32, s32_ok. intros. rewrite Z.mod_small; lia. Qed.
Lemma s64_id z : s64_ok z -> s64 z = z.
Proof. unfold s64, s64_ok. intros. rewrite Z.mod_small; lia. Qed.

Lemma u32_range z : u32_ok (u32 z).
Proof. unfold u32, u32_ok. apply Z.mod_pos_bound. lia. Qed.
Lemma u16_range z : u16_ok (u16 z).
Proof. unfold u16, u16_ok. apply Z.mod_pos_bound. lia. Qed.
Lemma s32_range z : s32_ok (s32 z).
Proof. unfold s32, s32_ok. pose proof (Z.mod_pos_bound (z + 2^31) (2^32)). lia. Qed.

#[export] Hint Resolve u32_range u16_range s32_range : ext2.

Lemma cdiv_nonneg a b : 0 <= a -> 0 < b -> cdiv a b = a / b.
Proof. intros. unfold cdiv. apply Z.quot_div_nonneg; lia. Qed.
Lemma crem_nonneg a b : 0 <= a -> 0 < b -> crem a b = a mod b.
Proof. intros. unfold crem. apply Z.rem_mod_nonneg; lia. Qed.
