(* ===== verification/Tool.v ===== *)
(** The monad of the user-land programs: a step of newfs_ext2fs or fsck_ext2fs
    returns a value, ends the process ([errx], [err], [errexit]) or faults.
    [twp] is the weakest precondition, with one postcondition for the return
    and one for the exit; the state at the exit matters, because what has been
    written to the device stays there. *)
From S2P Require Import Prelude.

Inductive outcome (A : Type) : Type :=
| Done (a : A)
| Exit (msg : string).
Arguments Done {A} a.
Arguments Exit {A} msg.

Definition Tool (W A : Type) : Type := W -> res (outcome A * W).

#[global] Instance Tool_ret (W : Type) : MRet (Tool W) := fun A a w => Ok (Done a, w).
#[global] Instance Tool_bind (W : Type) : MBind (Tool W) := fun A B k m w =>
  match m w with
  | Ok (Done a, w') => k a w'
  | Ok (Exit s, w') => Ok (Exit s, w')
  | Fault f => Fault f
  end.
#[global] Typeclasses Opaque Tool.

Definition errx {W A : Type} (msg : string) : Tool W A := fun w => Ok (Exit msg, w).
Definition tgets {W A : Type} (f : W -> A) : Tool W A := fun w => Ok (Done (f w), w).
Definition tmodify {W : Type} (f : W -> W) : Tool W unit := fun w => Ok (Done tt, f w).
Definition tlift {W A : Type} (r : res A) : Tool W A := fun w =>
  match r with Ok a => Ok (Done a, w) | Fault f => Fault f end.

(** [errx] unless the test succeeds. *)
Definition require {W : Type} (b : bool) (msg : string) : Tool W unit := if b then mret tt else errx msg.

(** [for (i = first; i < first + n; i++)]. *)
Fixpoint tfor {W : Type} (first : Z) (n : nat) (body : Z -> Tool W unit) : Tool W unit :=
  match n with
  | O => mret tt
  | S n' => _ ← body first; tfor (first + 1) n' body
  end.

Definition twp {W A : Type} (m : Tool W A) (Q : A -> W -> Prop) (X : W -> Prop) (w : W) : Prop :=
  match m w with
  | Ok (Done a, w') => Q a w'
  | Ok (Exit _, w') => X w'
  | Fault _ => False
  end.

Lemma twp_ret {W A} (a : A) Q X (w : W) : Q a w -> twp (mret a) Q X w.
Proof. done. Qed.

Lemma twp_bind {W A B} (m : Tool W A) (k : A -> Tool W B) Q X w :
  twp m (fun a => twp (k a) Q X) X w -> twp (m ≫= k) Q X w.
Proof. unfold twp, mbind, Tool_bind. by destruct (m w) as [[[a|s] w']|]. Qed.

Lemma twp_mono {W A} (m : Tool W A) (P Q : A -> W -> Prop) (X Y : W -> Prop) w :
  twp m P X w -> (forall a w', P a w' -> Q a w') -> (forall w', X w' -> Y w') -> twp m Q Y w.
Proof. unfold twp. destruct (m w) as [[[a|s] w']|]; auto. Qed.

Lemma twp_gets {W A} (f : W -> A) Q X w : Q (f w) w -> twp (tgets f) Q X w.
Proof. done. Qed.

Lemma twp_modify {W} (f : W -> W) Q X w : Q tt (f w) -> twp (tmodify f) Q X w.
Proof. done. Qed.

Lemma twp_errx {W A} msg (Q : A -> W -> Prop) (X : W -> Prop) w : X w -> twp (errx msg) Q X w.
Proof. done. Qed.

Lemma twp_lift {W A} (r : res A) (a : A) Q X (w : W) : r = Ok a -> Q a w -> twp (tlift r) Q X w.
Proof. by intros ->. Qed.

Lemma twp_require {W} (b : bool) msg Q (X : W -> Prop) w :
  (b = true -> Q tt w) -> (b = false -> X w) -> twp (require b msg) Q X w.
Proof. unfold require. destruct b; intros H1 H2; [apply twp_ret|apply twp_errx]; auto. Qed.

(** A counting loop, by its invariant. *)
Lemma twp_for {W} (I : Z -> W -> Prop) (X : W -> Prop) first n (body : Z -> Tool W unit) w :
  I first w ->
  (forall i w, first <= i < first + Z.of_nat n -> I i w -> twp (body i) (fun _ => I (i + 1)) X w) ->
  twp (tfor first n body) (fun _ => I (first + Z.of_nat n)) X w.
Proof.
  revert first w. induction n as [|n IH]; intros first w H0 Hb; cbn [tfor].
  - replace (first + Z.of_nat 0) with first by lia. by apply twp_ret.
  - apply twp_bind. apply (twp_mono _ _ _ _ _ _ (Hb first w ltac:(lia) H0)); [|done].
    intros _ w' H1. replace (first + Z.of_nat (S n)) with (first + 1 + Z.of_nat n) by lia.
    apply IH; [done|]. intros i v Hi. apply Hb. lia.
Qed.

(** A run whose first step is known. *)
Lemma tbind_run {W A B} (m : Tool W A) (k : A -> Tool W B) w a w' :
  m w = Ok (Done a, w') -> (m ≫= k) w = k a w'.
Proof. unfold mbind, Tool_bind. by intros ->. Qed.

Lemma tbind_fault {W A B} (m : Tool W A) (k : A -> Tool W B) w f : m w = Fault f -> (m ≫= k) w = Fault f.
Proof. unfold mbind, Tool_bind. by intros ->. Qed.

Lemma twp_run {W A} (m : Tool W A) (Q : A -> W -> Prop) X w :
  twp m Q X w -> (exists a w', m w = Ok (Done a, w') /\ Q a w') \/ (exists s w', m w = Ok (Exit s, w') /\ X w').
Proof. unfold twp. destruct (m w) as [[[a|s] w']|]; [left; eauto|right; eauto|done]. Qed.

Lemma twp_of_run {W A} (m : Tool W A) a w w' (Q : A -> W -> Prop) X : m w = Ok (Done a, w') -> Q a w' -> twp m Q X w.
Proof. unfold twp. by intros ->. Qed.

Ltac twp_step :=
  lazymatch goal with
  | |- twp (mret _) _ _ _ => apply twp_ret
  | |- twp (_ ≫= _) _ _ _ => apply twp_bind
  | |- twp (tgets _) _ _ _ => apply twp_gets
  | |- twp (tmodify _) _ _ _ => apply twp_modify
  | |- twp (errx _) _ _ _ => apply twp_errx
  end.
Ltac twp_steps := repeat twp_step; cbn beta.

(** An equation between boolean tests of integers, by cases on the tests. *)
Ltac bool_cases :=
  repeat match goal with
  | |- context [?a =? ?b] => destruct (Z.eqb_spec a b)
  | |- context [?a <=? ?b] => destruct (Z.leb_spec a b)
  | |- context [?a <? ?b] => destruct (Z.ltb_spec a b)
  end; cbn [andb orb negb]; try reflexivity; try (exfalso; lia).

(** Partial correctness: [P] holds when [m] returns from [w]; nothing is said of
    an exit or a fault. [keeps I m]: whenever [m] returns, it preserves [I]. *)
Definition tpart {W A : Type} (m : Tool W A) (P : A -> W -> Prop) (w : W) : Prop :=
  match m w with Ok (Done a, w') => P a w' | _ => True end.

Definition keeps {W A : Type} (I : W -> Prop) (m : Tool W A) : Prop := forall w, I w -> tpart m (fun _ => I) w.

Lemma tpart_bind {W A B} (m : Tool W A) (k : A -> Tool W B) P w :
  tpart m (fun a => tpart (k a) P) w -> tpart (m ≫= k) P w.
Proof. unfold tpart, mbind, Tool_bind. by destruct (m w) as [[[a|s] w']|]. Qed.

Lemma tpart_mono {W A} (m : Tool W A) (P Q : A -> W -> Prop) w :
  tpart m P w -> (forall a w', P a w' -> Q a w') -> tpart m Q w.
Proof. unfold tpart. destruct (m w) as [[[a|s] w']|]; auto. Qed.

Lemma tpart_lift {W A} (r : res A) (P : A -> W -> Prop) w : (forall a, r = Ok a -> P a w) -> tpart (tlift r) P w.
Proof. unfold tpart, tlift. destruct r; auto. Qed.

Lemma tpart_require {W} (b : bool) msg (P : unit -> W -> Prop) w : (b = true -> P tt w) -> tpart (require b msg) P w.
Proof. unfold tpart, require. destruct b; [by intros H; apply H|done]. Qed.

(** Any step, when the rest does not depend on what it returns. *)
Lemma tpart_keeps {W A B} I (m : Tool W A) (k : A -> Tool W B) P w :
  keeps I m -> I w -> (forall a w', I w' -> tpart (k a) P w') -> tpart (m ≫= k) P w.
Proof. intros Hm Hw Hk. apply tpart_bind. eapply tpart_mono; [by apply Hm|]. auto. Qed.

Section keeps.
Context {W : Type} (I : W -> Prop).

Lemma inv_ret {A} (a : A) : keeps I (mret a).
Proof. by intros w Hw. Qed.
Lemma keeps_bind {A B} (m : Tool W A) (k : A -> Tool W B) : keeps I m -> (forall a, keeps I (k a)) -> keeps I (m ≫= k).
Proof. intros Hm Hk w Hw. eapply tpart_keeps; [done..|]. intros a w'. apply Hk. Qed.
Lemma keeps_gets {A} (f : W -> A) : keeps I (tgets f).
Proof. by intros w Hw. Qed.
Lemma keeps_errx {A} msg : keeps I (errx (A := A) msg).
Proof. by intros w Hw. Qed.
Lemma keeps_lift {A} (r : res A) : keeps I (tlift r).
Proof. intros w Hw. by apply tpart_lift. Qed.
Lemma keeps_require b msg : keeps I (require b msg).
Proof. intros w Hw. by apply tpart_require. Qed.
Lemma keeps_modify (f : W -> W) : (forall w, I w -> I (f w)) -> keeps I (tmodify f).
Proof. intros Hf w Hw. by apply Hf. Qed.
Lemma keeps_for (body : Z -> Tool W unit) : (forall i, keeps I (body i)) -> forall n i, keeps I (tfor i n body).
Proof. intros Hb. induction n as [|n IH]; intros i; cbn [tfor]; [apply inv_ret|]. apply keeps_bind; auto. Qed.
End keeps.

(** Splits a program into its steps and leaves those that change the state. *)
Ltac keeps_tac :=
  repeat first
    [ apply inv_ret | apply keeps_gets | apply keeps_errx | apply keeps_lift | apply keeps_require
    | solve [eauto with keeps]
    | apply keeps_bind; [|intros ?]
    | match goal with
      | |- keeps _ (match ?x with _ => _ end) => destruct x
      end ].
Create HintDb keeps.

(** [always I m]: [m] preserves [I] whether it returns or exits. *)
Definition always {W A : Type} (I : W -> Prop) (m : Tool W A) : Prop :=
  forall w, I w -> match m w with Ok (_, w') => I w' | Fault _ => True end.

Section always.
Context {W : Type} (I : W -> Prop).

Lemma always_ret {A} (a : A) : always I (mret a).
Proof. by intros w Hw. Qed.
Lemma always_bind {A B} (m : Tool W A) (k : A -> Tool W B) : always I m -> (forall a, always I (k a)) -> always I (m ≫= k).
Proof.
  intros Hm Hk w Hw. specialize (Hm w Hw). unfold mbind, Tool_bind.
  destruct (m w) as [[[a|s] w']|]; [by apply Hk|done|done].
Qed.
Lemma always_gets {A} (f : W -> A) : always I (tgets f).
Proof. by intros w Hw. Qed.
Lemma always_errx {A} msg : always I (errx (A := A) msg).
Proof. by intros w Hw. Qed.
Lemma always_lift {A} (r : res A) : always I (tlift r).
Proof. intros w Hw. unfold tlift. by destruct r. Qed.
Lemma always_require b msg : always I (require b msg).
Proof. intros w Hw. unfold require. by destruct b. Qed.
Lemma always_modify (f : W -> W) : (forall w, I w -> I (f w)) -> always I (tmodify f).
Proof. intros Hf w Hw. by apply Hf. Qed.
Lemma always_for (body : Z -> Tool W unit) : (forall i, always I (body i)) -> forall n i, always I (tfor i n body).
Proof. intros Hb. induction n as [|n IH]; intros i; cbn [tfor]; [apply always_ret|]. apply always_bind; auto. Qed.
End always.

Create HintDb always discriminated.
#[export] Hint Constants Opaque : always.

(** Splits a program into its steps; those that change the state are closed by
    [upd], the named ones by the hints. *)
Ltac always_tac upd :=
  cbv zeta;
  repeat lazymatch goal with
  | |- always _ (mret _) => apply always_ret
  | |- always _ (tgets _) => apply always_gets
  | |- always _ (errx _) => apply always_errx
  | |- always _ (tlift _) => apply always_lift
  | |- always _ (require _ _) => apply always_require
  | |- always _ (tmodify _) => apply always_modify; upd
  | |- always _ (tfor _ _ _) => apply always_for; intros ?
  | |- always _ (_ ≫= _) => apply always_bind; [|intros ?]
  | |- always _ (match ?x with _ => _ end) => destruct x
  | |- always _ _ => solve [eauto with always]
  end.
