(* ===== verification/Bitmap.v ===== *)
(** Bitmaps: the bit macros of <sys/param.h> as the kext uses them on block
    and inode bitmaps, [memcchr] and [ext2_fls] of ext2_apple.h, and the
    abstract view of a bitmap as the function [bit] from positions to booleans
    with [count_clear] its number of free positions. *)
From S2P Require Import Prelude.

(** * The operations *)

(** A byte of a [char *] buffer. *)
Definition byte_at (bbp : list Z) (loc : Z) : res Z := access (bbp !z loc).

Definition isset (bbp : list Z) (i : Z) : res bool :=
  if i <? 0 then Fault OutOfBounds else
  b ← byte_at bbp (i / NBBY);
  mret (negb (Z.land b (Z.shiftl 1 (i mod NBBY)) =? 0)).

Definition isclr (bbp : list Z) (i : Z) : res bool :=
  s ← isset bbp i; mret (negb s).

Definition setbit (bbp : list Z) (i : Z) : res (list Z) :=
  if i <? 0 then Fault OutOfBounds else
  b ← byte_at bbp (i / NBBY);
  mret (zinsert (i / NBBY) (Z.lor b (Z.shiftl 1 (i mod NBBY))) bbp).

Definition clrbit (bbp : list Z) (i : Z) : res (list Z) :=
  if i <? 0 then Fault OutOfBounds else
  b ← byte_at bbp (i / NBBY);
  mret (zinsert (i / NBBY) (Z.ldiff b (Z.shiftl 1 (i mod NBBY))) bbp).

(** A byte read through a signed [char *]. *)
Definition s8 (b : Z) : Z := if b <? 128 then b else b - 256.

Fixpoint ctz (p : positive) : Z :=
  match p with xO q => 1 + ctz q | _ => 0 end.

(** [ffs]: one plus the index of the lowest set bit, 0 for 0. *)
Definition ffs (v : Z) : Z :=
  match v with Z0 => 0 | Zpos p => 1 + ctz p | Zneg p => 1 + ctz p end.

(** [ext2_fls]: one plus the index of the highest set bit, 0 for 0. *)
Definition ext2_fls (v : Z) : Z := if v =? 0 then 0 else Z.log2 v + 1.

(** [memcchr(&bs[start], c, len)]: index of the first byte that differs from
    [c] among [len] bytes; reading past the buffer is out of bounds. The
    length is a [size_t], so a negative [int] length becomes a huge one. *)
Fixpoint memcchr_loop (l : list Z) (c i n : Z) : res (option Z) :=
  if n =? 0 then mret None else
  match l with
  | [] => Fault OutOfBounds
  | b :: l' => if negb (b =? c) then mret (Some i) else memcchr_loop l' c (i + 1) (n - 1)
  end.

Definition memcchr (bs : list Z) (start c len : Z) : res (option Z) :=
  if start <? 0 then Fault OutOfBounds else
  memcchr_loop (drop (Z.to_nat start) bs) c start (u64 len).

(** * The abstract view *)

Definition bit (bbp : list Z) (i : Z) : bool :=
  match bbp !z (i / NBBY) with
  | Some b => Z.testbit b (i mod NBBY)
  | None => false
  end.

(** Number of clear bits among the first [n]. *)
Fixpoint count_clear (bbp : list Z) (n : nat) : Z :=
  match n with
  | O => 0
  | S m => count_clear bbp m + (if bit bbp (Z.of_nat m) then 0 else 1)
  end.

Definition bytes_ok (bs : list Z) : Prop := Forall u8_ok bs.

(** * Lemmas *)

Lemma shiftl_1_testbit k j : 0 <= k -> 0 <= j -> Z.testbit (Z.shiftl 1 k) j = (j =? k).
Proof.
  intros Hk Hj. rewrite Z.shiftl_1_l, Z.pow2_bits_eqb by done. by rewrite Z.eqb_sym.
Qed.

Lemma land_pow2_testbit b k : 0 <= k -> negb (Z.land b (Z.shiftl 1 k) =? 0) = Z.testbit b k.
Proof.
  intros Hk. destruct (Z.testbit b k) eqn:E.
  - apply negb_true_iff, Z.eqb_neq. intros H.
    assert (Z.testbit (Z.land b (Z.shiftl 1 k)) k = true) as Ht.
    { rewrite Z.land_spec, shiftl_1_testbit, E by done. by rewrite Z.eqb_refl. }
    rewrite H, Z.bits_0 in Ht. done.
  - apply negb_false_iff, Z.eqb_eq. apply Z.bits_inj'. intros j Hj.
    rewrite Z.land_spec, shiftl_1_testbit, Z.bits_0 by done.
    destruct (j =? k) eqn:Ek; [|apply andb_false_r].
    apply Z.eqb_eq in Ek. subst. by rewrite E.
Qed.

Lemma bit_pos_inv i j : i / NBBY = j / NBBY -> i mod NBBY = j mod NBBY -> i = j.
Proof. unfold NBBY. intros. rewrite (Z.div_mod i 8), (Z.div_mod j 8) by lia. lia. Qed.

Lemma byte_at_ok bs loc : 0 <= loc < zlen bs -> exists b, byte_at bs loc = Ok b /\ bs !z loc = Some b.
Proof. intros H. destruct (zlookup_lt bs loc H) as [b Hb]. exists b. unfold byte_at. by rewrite Hb. Qed.

Lemma div_NBBY_range i n : 0 <= i < 8 * n -> 0 <= i / NBBY < n.
Proof. unfold NBBY. intros. split; [apply Z.div_pos; lia|]. apply Z.div_lt_upper_bound; lia. Qed.

Lemma mod_NBBY_range i : 0 <= i mod NBBY < 8.
Proof. unfold NBBY. apply Z.mod_pos_bound. lia. Qed.

Lemma isset_ok bs i : 0 <= i < 8 * zlen bs -> isset bs i = Ok (bit bs i).
Proof.
  intros Hi. unfold isset, bit. case_match eqn:E; [lia|].
  destruct (byte_at_ok bs (i / NBBY)) as (b & Hb & Hl); [by apply div_NBBY_range|].
  rewrite Hb, Hl. simpl. rewrite land_pow2_testbit; [done|]. apply mod_NBBY_range.
Qed.

Lemma isclr_ok bs i : 0 <= i < 8 * zlen bs -> isclr bs i = Ok (negb (bit bs i)).
Proof. intros Hi. unfold isclr. by rewrite isset_ok. Qed.

(** A write of one byte of the buffer changes no other position. *)
Lemma bit_zinsert bs i b j :
  0 <= i / NBBY < zlen bs -> 0 <= j ->
  bit (zinsert (i / NBBY) b bs) j =
  if j / NBBY =? i / NBBY then Z.testbit b (j mod NBBY) else bit bs j.
Proof.
  intros Hi Hj. unfold bit. destruct (Z.eqb_spec (j / NBBY) (i / NBBY)) as [E|E].
  - rewrite E, zlookup_zinsert_eq by done. done.
  - rewrite zlookup_zinsert_ne; [done|lia|auto].
Qed.

Lemma setbit_ok bs i :
  0 <= i < 8 * zlen bs ->
  exists bs', setbit bs i = Ok bs' /\ zlen bs' = zlen bs /\
    forall j, 0 <= j -> bit bs' j = (j =? i) || bit bs j.
Proof.
  intros Hi. pose proof (div_NBBY_range _ _ Hi) as Hd.
  unfold setbit. case_match eqn:E; [lia|].
  destruct (byte_at_ok bs (i / NBBY) Hd) as (b & Hb & Hl).
  rewrite Hb. eexists. split; [done|]. split; [by rewrite zlen_zinsert|].
  intros j Hj. rewrite bit_zinsert by done. unfold bit.
  destruct (Z.eqb_spec (j / NBBY) (i / NBBY)) as [Eq|Ne].
  - rewrite Z.lor_spec, shiftl_1_testbit by apply mod_NBBY_range.
    rewrite Eq, Hl, orb_comm. f_equal.
    destruct (Z.eqb_spec (j mod NBBY) (i mod NBBY)), (Z.eqb_spec j i); try done; subst; try done.
    by pose proof (bit_pos_inv j i Eq e).
  - destruct (Z.eqb_spec j i); [by subst|done].
Qed.

Lemma clrbit_ok bs i :
  0 <= i < 8 * zlen bs ->
  exists bs', clrbit bs i = Ok bs' /\ zlen bs' = zlen bs /\
    forall j, 0 <= j -> bit bs' j = negb (j =? i) && bit bs j.
Proof.
  intros Hi. pose proof (div_NBBY_range _ _ Hi) as Hd.
  unfold clrbit. case_match eqn:E; [lia|].
  destruct (byte_at_ok bs (i / NBBY) Hd) as (b & Hb & Hl).
  rewrite Hb. eexists. split; [done|]. split; [by rewrite zlen_zinsert|].
  intros j Hj. rewrite bit_zinsert by done. unfold bit.
  destruct (Z.eqb_spec (j / NBBY) (i / NBBY)) as [Eq|Ne].
  - rewrite Z.ldiff_spec, shiftl_1_testbit by apply mod_NBBY_range.
    rewrite Eq, Hl, andb_comm. f_equal.
    destruct (Z.eqb_spec (j mod NBBY) (i mod NBBY)), (Z.eqb_spec j i); try done; subst; try done.
    by pose proof (bit_pos_inv j i Eq e).
  - destruct (Z.eqb_spec j i); [by subst|done].
Qed.

Lemma testbit_byte_high b k : u8_ok b -> 8 <= k -> Z.testbit b k = false.
Proof. intros Hb Hk. rewrite <- (u8_id b Hb). unfold u8. apply Z.mod_pow2_bits_high. lia. Qed.

(** A byte buffer is determined by its bits. *)
Lemma bit_ext_bytes bs bs' :
  zlen bs = zlen bs' -> bytes_ok bs -> bytes_ok bs' ->
  (forall j, 0 <= j < 8 * zlen bs -> bit bs j = bit bs' j) -> bs = bs'.
Proof.
  intros Hlen H1 H2 Hbit. unfold zlen in *. apply list_eq_same_length with (length bs); [lia|lia|].
  intros i x y Hi Hx Hy.
  pose proof (Forall_lookup_1 _ _ _ _ H1 Hx) as Hxr. pose proof (Forall_lookup_1 _ _ _ _ H2 Hy) as Hyr.
  apply Z.bits_inj'. intros k Hk. destruct (decide (k < 8)) as [Hk8|Hk8].
  - specialize (Hbit (8 * Z.of_nat i + k)). unfold bit, NBBY in Hbit.
    rewrite Z.mul_comm, Z.div_add_l, (Z.div_small k) in Hbit by lia.
    rewrite Z.add_comm, Z.mod_add, (Z.mod_small k) in Hbit by lia.
    rewrite Z.add_0_r, !zlookup_nonneg, Nat2Z.id in Hbit by lia.
    rewrite Hx, Hy in Hbit. apply Hbit. lia.
  - by rewrite !testbit_byte_high by (done || lia).
Qed.

Lemma bytes_ok_insert bs i b : bytes_ok bs -> u8_ok b -> bytes_ok (zinsert i b bs).
Proof. intros Hbs Hb. by apply Forall_insert. Qed.

(** Case analysis of a byte property by evaluation on all 256 values. *)
Lemma byte_forall (P : Z -> bool) : forallb P (seqZ 0 256) = true -> forall b, u8_ok b -> P b = true.
Proof.
  intros H b Hb. rewrite forallb_forall in H. apply H.
  apply list_elem_of_In, elem_of_seqZ. unfold u8_ok in Hb. lia.
Qed.

Definition bit_index : list Z := seqZ 0 8.

Lemma byte_bits_forall (P : Z -> Z -> bool) :
  forallb (fun b => forallb (P b) bit_index) (seqZ 0 256) = true ->
  forall b k, u8_ok b -> 0 <= k < 8 -> P b k = true.
Proof.
  intros H b k Hb Hk. pose proof (byte_forall _ H b Hb) as Hf. cbn beta in Hf.
  rewrite forallb_forall in Hf. apply Hf, list_elem_of_In, elem_of_seqZ. lia.
Qed.

Lemma setbit_bytes_ok bs i bs' : bytes_ok bs -> setbit bs i = Ok bs' -> bytes_ok bs'.
Proof.
  intros Hbs. unfold setbit. case_match; [done|]. unfold byte_at, access.
  destruct (bs !z (i / NBBY)) as [b|] eqn:Hb; [|done]. cbn. intros [= <-].
  apply bytes_ok_insert; [done|].
  apply zlookup_Some_inv in Hb as [_ Hb]. pose proof (Forall_lookup_1 _ _ _ _ Hbs Hb) as Hr.
  pose proof (byte_bits_forall (fun b k => (0 <=? Z.lor b (Z.shiftl 1 k)) && (Z.lor b (Z.shiftl 1 k) <? 256))
    ltac:(vm_compute; reflexivity) b (i mod NBBY) Hr (mod_NBBY_range i)) as Hc.
  cbn beta in Hc. unfold u8_ok. lia.
Qed.

Lemma clrbit_bytes_ok bs i bs' : bytes_ok bs -> clrbit bs i = Ok bs' -> bytes_ok bs'.
Proof.
  intros Hbs. unfold clrbit. case_match; [done|]. unfold byte_at, access.
  destruct (bs !z (i / NBBY)) as [b|] eqn:Hb; [|done]. cbn. intros [= <-].
  apply bytes_ok_insert; [done|].
  apply zlookup_Some_inv in Hb as [_ Hb]. pose proof (Forall_lookup_1 _ _ _ _ Hbs Hb) as Hr.
  pose proof (byte_bits_forall (fun b k => (0 <=? Z.ldiff b (Z.shiftl 1 k)) && (Z.ldiff b (Z.shiftl 1 k) <? 256))
    ltac:(vm_compute; reflexivity) b (i mod NBBY) Hr (mod_NBBY_range i)) as Hc.
  cbn beta in Hc. unfold u8_ok. lia.
Qed.

(** ** Counting clear bits *)

Lemma count_clear_range bs n : 0 <= count_clear bs n <= Z.of_nat n.
Proof. induction n as [|n IH]; simpl; [lia|]. case_match; lia. Qed.

Lemma count_clear_ext bs bs' n :
  (forall j, 0 <= j < Z.of_nat n -> bit bs j = bit bs' j) -> count_clear bs n = count_clear bs' n.
Proof.
  induction n as [|n IH]; intros H; simpl; [done|]. rewrite IH by (intros; apply H; lia).
  by rewrite (H (Z.of_nat n)) by lia.
Qed.

(** Changing one position changes the count by what that position counts. *)
Lemma count_clear_update bs bs' i v n :
  0 <= i < Z.of_nat n ->
  (forall j, 0 <= j -> bit bs' j = if j =? i then v else bit bs j) ->
  count_clear bs' n = count_clear bs n - (if bit bs i then 0 else 1) + (if v then 0 else 1).
Proof.
  intros Hi H. induction n as [|n IH]; [lia|]. simpl. rewrite (H (Z.of_nat n)) by lia.
  destruct (Z.eqb_spec (Z.of_nat n) i) as [<-|Hne].
  - rewrite (count_clear_ext bs' bs); [repeat case_match; lia|].
    intros j Hj. rewrite H by lia. destruct (Z.eqb_spec j (Z.of_nat n)); [lia|done].
  - rewrite IH by lia. lia.
Qed.

Lemma count_clear_pos bs n :
  0 < count_clear bs n -> exists j, 0 <= j < Z.of_nat n /\ bit bs j = false.
Proof.
  induction n as [|n IH]; simpl; [lia|]. destruct (bit bs (Z.of_nat n)) eqn:E.
  - intros H. destruct IH as (j & Hj & Hb); [lia|]. exists j. split; [lia|done].
  - intros _. exists (Z.of_nat n). split; [lia|done].
Qed.

Lemma count_clear_0 bs n j :
  0 <= j < Z.of_nat n -> bit bs j = false -> 0 < count_clear bs n.
Proof.
  induction n as [|n IH]; simpl; [lia|]. intros Hj Hb. pose proof (count_clear_range bs n).
  destruct (Z.eq_dec j (Z.of_nat n)) as [->|]; [rewrite Hb; lia|].
  assert (0 < count_clear bs n) by (apply IH; [lia|done]). case_match; lia.
Qed.

(** ** Bytes and their bits *)

Lemma bit_byte bs loc b k :
  bs !z loc = Some b -> 0 <= k < 8 -> bit bs (loc * 8 + k) = Z.testbit b k.
Proof.
  intros Hb Hk. unfold bit, NBBY.
  rewrite Z.div_add_l, (Z.div_small k), Z.add_0_r, Hb by lia.
  by rewrite Z.add_comm, Z.mod_add, Z.mod_small by lia.
Qed.

Lemma bytes_ok_at bs loc b : bytes_ok bs -> bs !z loc = Some b -> u8_ok b.
Proof. intros H Hb. apply zlookup_Some_inv in Hb as [_ Hb]. by eapply Forall_lookup_1. Qed.

(** [ffs(~c) - 1] is the position of a clear bit of a byte other than 0xff. *)
Lemma ffs_lnot_byte b :
  u8_ok b -> b <> 255 ->
  let k := ffs (Z.lnot (s8 b)) - 1 in 0 <= k < 8 /\ Z.testbit b k = false.
Proof.
  intros Hb Hne k.
  pose proof (byte_forall (fun b => (b =? 255) ||
     let k := ffs (Z.lnot (s8 b)) - 1 in (0 <=? k) && (k <? 8) && negb (Z.testbit b k))
     ltac:(vm_compute; reflexivity) b Hb) as H. cbn beta zeta in H. fold k in H.
  destruct (Z.testbit b k); lia.
Qed.

(** The bits of a byte below its lowest set bit, and from [ext2_fls] on, are clear. *)
Lemma ffs_below b k :
  u8_ok b -> b <> 0 -> 0 <= k < ffs b - 1 -> Z.testbit b k = false.
Proof.
  intros Hb Hne Hk.
  pose proof (byte_forall (fun b => (b =? 0) || (ffs b - 1 <? 8)) ltac:(vm_compute; reflexivity) b Hb) as H8.
  pose proof (byte_bits_forall (fun b k => (b =? 0) || negb (k <? ffs b - 1) || negb (Z.testbit b k))
     ltac:(vm_compute; reflexivity) b k Hb) as H. cbn beta in H, H8.
  destruct (Z.testbit b k); [|done]. lia.
Qed.

Lemma ffs_range b : u8_ok b -> b <> 0 -> 0 <= ffs b - 1 < 8.
Proof.
  intros Hb Hne.
  pose proof (byte_forall (fun b => (b =? 0) || (0 <=? ffs b - 1) && (ffs b - 1 <? 8))
    ltac:(vm_compute; reflexivity) b Hb) as H8. cbn beta in H8. lia.
Qed.

Lemma ext2_fls_above b k : u8_ok b -> ext2_fls b <= k -> Z.testbit b k = false.
Proof.
  unfold ext2_fls. intros Hb Hk. destruct (Z.eqb_spec b 0) as [->|]; [apply Z.bits_0|].
  unfold u8_ok in Hb. apply Z.bits_above_log2; lia.
Qed.

Lemma ext2_fls_range b : u8_ok b -> 0 <= ext2_fls b <= 8.
Proof.
  unfold ext2_fls, u8_ok. intros Hb. destruct (Z.eqb_spec b 0); [lia|].
  pose proof (Z.log2_nonneg b). assert (Z.log2 b < 8); [|lia]. apply Z.log2_lt_pow2; lia.
Qed.

(** ** memcchr *)

Lemma memcchr_loop_spec l c i n :
  0 <= n <= zlen l ->
  (exists k b, memcchr_loop l c i n = Ok (Some (i + k)) /\ 0 <= k < n /\ l !z k = Some b /\ b <> c) \/
  (memcchr_loop l c i n = Ok None /\ forall k b, 0 <= k < n -> l !z k = Some b -> b = c).
Proof.
  unfold zlen. revert i n. induction l as [|x l IH]; intros i n Hn; simpl in *.
  - assert (n = 0) as -> by lia. right. split; [done|lia].
  - destruct (Z.eqb_spec n 0) as [->|Hn0]; [right; split; [done|lia]|].
    destruct (Z.eqb_spec x c) as [->|Hne]; simpl.
    + destruct (IH (i + 1) (n - 1)) as [(k & b & He & Hk & Hb & Hc)|[He Hall]]; [lia| |].
      * left. exists (k + 1), b. rewrite He. split; [do 2 f_equal; lia|]. split; [lia|]. split; [|done].
        rewrite zlookup_nonneg in * by lia. by replace (Z.to_nat (k + 1)) with (S (Z.to_nat k)) by lia.
      * right. split; [done|]. intros k b Hk Hb. destruct (Z.eq_dec k 0) as [->|].
        { injection Hb. congruence. }
        apply (Hall (k - 1)); [lia|]. rewrite zlookup_nonneg in * by lia.
        by replace (Z.to_nat k) with (S (Z.to_nat (k - 1))) in Hb by lia.
    + left. exists 0, x. split; [do 2 f_equal; lia|]. split; [lia|done].
Qed.

(** [memcchr] within the buffer finds a byte other than [c], or there is none. *)
Lemma memcchr_spec bs start c len :
  0 <= start -> 0 <= len -> start + len <= zlen bs -> u64_ok len ->
  (exists loc b, memcchr bs start c len = Ok (Some loc) /\ start <= loc < start + len /\ bs !z loc = Some b /\ b <> c) \/
  (memcchr bs start c len = Ok None /\ forall loc b, start <= loc < start + len -> bs !z loc = Some b -> b = c).
Proof.
  intros Hs Hl Hb Hu. unfold memcchr. case_match eqn:E; [lia|].
  assert (u64 len = len) as -> by (unfold u64, u64_ok in *; by apply Z.mod_small).
  assert (forall k, 0 <= k -> drop (Z.to_nat start) bs !z k = bs !z (start + k)) as Hd.
  { intros k Hk. rewrite !zlookup_nonneg, lookup_drop by lia. f_equal. lia. }
  destruct (memcchr_loop_spec (drop (Z.to_nat start) bs) c start len) as [(k & b & He & Hk & Hb' & Hc)|[He Hall]].
  - unfold zlen in *. rewrite length_drop. lia.
  - left. exists (start + k), b. rewrite Hd in Hb' by lia. split; [done|]. split; [lia|done].
  - right. split; [done|]. intros loc b Hloc Hb'. apply (Hall (loc - start)); [lia|].
    rewrite Hd by lia. by replace (start + (loc - start)) with loc by lia.
Qed.
