(* ===== verification/Bytes.v ===== *)
(** Byte buffers: the little-endian integers that the on-disk structures are
    made of, read and written at a byte offset of a buffer with the access
    checked against the buffer's length. *)
From S2P Require Import Prelude Bitmap.

Fixpoint le_combine (l : list Z) : Z :=
  match l with [] => 0 | b :: l' => b + 256 * le_combine l' end.

Fixpoint le_split (n : nat) (v : Z) : list Z :=
  match n with O => [] | S n' => v mod 256 :: le_split n' (v / 256) end.

(** [n] bytes of [bs] from offset [off]. *)
Definition get_bytes (bs : list Z) (off : Z) (n : nat) : res (list Z) :=
  if (0 <=? off) && (off + Z.of_nat n <=? zlen bs)
  then mret (take n (drop (Z.to_nat off) bs)) else Fault OutOfBounds.

(** [memcpy(bs + off, new, len)]. *)
Definition put_bytes (bs : list Z) (off : Z) (new : list Z) : res (list Z) :=
  if (0 <=? off) && (off + zlen new <=? zlen bs)
  then mret (take (Z.to_nat off) bs ++ new ++ drop (Z.to_nat off + length new) bs)
  else Fault OutOfBounds.

Definition get_le (bs : list Z) (off : Z) (n : nat) : res Z :=
  l ← get_bytes bs off n; mret (le_combine l).
Definition put_le (bs : list Z) (off : Z) (n : nat) (v : Z) : res (list Z) :=
  put_bytes bs off (le_split n v).

Definition get8 bs off := get_le bs off 1.
Definition get16 bs off := get_le bs off 2.
Definition get32 bs off := get_le bs off 4.
Definition put8 bs off v := put_le bs off 1 v.
Definition put16 bs off v := put_le bs off 2 v.
Definition put32 bs off v := put_le bs off 4 v.

(** * Lemmas *)

Lemma length_le_split n v : length (le_split n v) = n.
Proof. revert v. induction n; intros; simpl; auto. Qed.

Lemma le_split_bytes_ok n v : bytes_ok (le_split n v).
Proof.
  revert v. induction n; intros v; constructor; [|apply IHn].
  unfold u8_ok. apply Z.mod_pos_bound. lia.
Qed.

Lemma le_combine_split n v : le_combine (le_split n v) = v mod 2 ^ (8 * Z.of_nat n).
Proof.
  revert v. induction n as [|n IH]; intros v; cbn [le_split le_combine].
  - by rewrite Z.mod_1_r.
  - rewrite IH. replace (8 * Z.of_nat (S n)) with (8 + 8 * Z.of_nat n) by lia.
    rewrite Z.pow_add_r by lia. change (2 ^ 8) with 256.
    rewrite Z.rem_mul_r by lia. lia.
Qed.

Lemma le_split_combine n l :
  length l = n -> bytes_ok l -> le_split n (le_combine l) = l.
Proof.
  revert l. induction n as [|n IH]; intros [|b l] Hl Hok; try done; simpl.
  inversion Hok as [|? ? Hb Hok']; subst. unfold u8_ok in Hb.
  assert ((b + 256 * le_combine l) mod 256 = b /\ (b + 256 * le_combine l) / 256 = le_combine l) as [-> ->].
  { rewrite (Z.mul_comm 256), Z_mod_plus_full, Z_div_plus_full, Z.mod_small, Z.div_small by lia. lia. }
  rewrite IH; [done| |done]. simpl in Hl. lia.
Qed.

Lemma le_combine_range l : bytes_ok l -> 0 <= le_combine l < 2 ^ (8 * zlen l).
Proof.
  unfold zlen. induction 1 as [|b l Hb _ IH]; simpl; [lia|].
  replace (8 * Z.of_nat (S (length l))) with (8 + 8 * Z.of_nat (length l)) by lia.
  rewrite Z.pow_add_r by lia. unfold u8_ok in Hb. change (2 ^ 8) with 256 in *. lia.
Qed.

Lemma get_bytes_ok bs off n :
  0 <= off -> off + Z.of_nat n <= zlen bs ->
  get_bytes bs off n = Ok (take n (drop (Z.to_nat off) bs)).
Proof.
  intros. unfold get_bytes.
  rewrite (proj2 (Z.leb_le 0 off)), (proj2 (Z.leb_le (off + Z.of_nat n) (zlen bs))) by done. done.
Qed.

Lemma get_le_ok bs off n :
  0 <= off -> off + Z.of_nat n <= zlen bs ->
  get_le bs off n = Ok (le_combine (take n (drop (Z.to_nat off) bs))).
Proof. intros. unfold get_le. by rewrite get_bytes_ok. Qed.

Lemma put_bytes_ok bs off new :
  0 <= off -> off + zlen new <= zlen bs ->
  put_bytes bs off new = Ok (take (Z.to_nat off) bs ++ new ++ drop (Z.to_nat off + length new) bs).
Proof.
  intros. unfold put_bytes.
  rewrite (proj2 (Z.leb_le 0 off)), (proj2 (Z.leb_le (off + zlen new) (zlen bs))) by done. done.
Qed.

Lemma put_bytes_len bs off new bs' : put_bytes bs off new = Ok bs' -> zlen bs' = zlen bs.
Proof.
  unfold put_bytes, zlen. case_match eqn:E; [|done]. intros [= <-].
  apply andb_true_iff in E as [E1%Z.leb_le E2%Z.leb_le].
  rewrite !length_app, length_take, length_drop. lia.
Qed.

(** Reading back what was just written. *)
Lemma get_put_bytes_same bs off new bs' :
  put_bytes bs off new = Ok bs' -> get_bytes bs' off (length new) = Ok new.
Proof.
  intros H. pose proof (put_bytes_len _ _ _ _ H) as Hlen. revert H.
  unfold put_bytes. case_match eqn:E; [|done]. intros [= Hbs'].
  apply andb_true_iff in E as [E1%Z.leb_le E2%Z.leb_le].
  rewrite get_bytes_ok; [|done|unfold zlen in *; lia]. f_equal. subst bs'. unfold zlen in *.
  rewrite drop_app_length' by (rewrite length_take; lia). by rewrite take_app_length.
Qed.

(** A read elsewhere is not affected. *)
Lemma get_put_bytes_disj bs off new bs' off2 n :
  put_bytes bs off new = Ok bs' -> off2 + Z.of_nat n <= off \/ off + zlen new <= off2 ->
  get_bytes bs' off2 n = get_bytes bs off2 n.
Proof.
  intros H Hd. pose proof (put_bytes_len _ _ _ _ H) as Hlen. unfold get_bytes. rewrite Hlen.
  case_match eqn:E2; [|done]. f_equal. apply andb_true_iff in E2 as [E3%Z.leb_le E4%Z.leb_le].
  revert H. unfold put_bytes. case_match eqn:E; [|done]. intros [= <-].
  apply andb_true_iff in E as [E1%Z.leb_le E2%Z.leb_le].
  unfold zlen in *. apply list_eq. intros i.
  rewrite !lookup_take. case_match; [|done]. rewrite !lookup_drop.
  destruct Hd as [Hd|Hd].
  - rewrite lookup_app_l by (rewrite length_take; lia). by rewrite lookup_take_lt by lia.
  - rewrite lookup_app_r by (rewrite length_take; lia). rewrite length_take.
    rewrite lookup_app_r by lia. rewrite lookup_drop. f_equal. lia.
Qed.

Lemma put_le_len bs off n v bs' : put_le bs off n v = Ok bs' -> zlen bs' = zlen bs.
Proof. apply put_bytes_len. Qed.

Lemma put_le_ok bs off n v :
  0 <= off -> off + Z.of_nat n <= zlen bs -> exists bs', put_le bs off n v = Ok bs'.
Proof.
  intros. unfold put_le. eexists. apply put_bytes_ok; [done|]. unfold zlen in *. rewrite length_le_split. lia.
Qed.

Lemma get_put_le_same bs off n v bs' :
  put_le bs off n v = Ok bs' -> get_le bs' off n = Ok (v mod 2 ^ (8 * Z.of_nat n)).
Proof.
  intros H%get_put_bytes_same. rewrite length_le_split in H. unfold get_le. rewrite H. simpl.
  by rewrite <- le_combine_split.
Qed.

Lemma get_put_le_disj bs off n v bs' off2 n2 :
  put_le bs off n v = Ok bs' -> off2 + Z.of_nat n2 <= off \/ off + Z.of_nat n <= off2 ->
  get_le bs' off2 n2 = get_le bs off2 n2.
Proof.
  intros H Hd. unfold get_le. rewrite (get_put_bytes_disj _ _ _ _ _ _ H); [done|].
  unfold zlen. rewrite length_le_split. done.
Qed.

Lemma put_bytes_bytes_ok bs off new bs' :
  bytes_ok bs -> bytes_ok new -> put_bytes bs off new = Ok bs' -> bytes_ok bs'.
Proof.
  intros H1 H2. unfold put_bytes. case_match; [|done]. intros [= <-].
  repeat apply Forall_app_2; [by apply Forall_take|done|by apply Forall_drop].
Qed.

Lemma put_le_bytes_ok bs off n v bs' : bytes_ok bs -> put_le bs off n v = Ok bs' -> bytes_ok bs'.
Proof. intros H. apply put_bytes_bytes_ok; [done|apply le_split_bytes_ok]. Qed.

Lemma get_le_range bs off n v : bytes_ok bs -> get_le bs off n = Ok v -> 0 <= v < 2 ^ (8 * Z.of_nat n).
Proof.
  intros Hok. unfold get_le, get_bytes. case_match eqn:E; [|done]. intros [= <-].
  apply andb_true_iff in E as [E1%Z.leb_le E2%Z.leb_le].
  pose proof (le_combine_range (take n (drop (Z.to_nat off) bs))) as H.
  unfold zlen in *. rewrite length_take, length_drop in H.
  replace (Z.of_nat (n `min` (length bs - Z.to_nat off))) with (Z.of_nat n) in H by lia.
  apply H. by apply Forall_take, Forall_drop.
Qed.

#[export] Hint Resolve put_le_bytes_ok put_le_len : ext2.

(** * Structs: consecutive little-endian fields of given widths *)

Definition layout_size (ws : list nat) : Z := sumZ (Z.of_nat <$> ws).

Fixpoint fields_get (bs : list Z) (off : Z) (ws : list nat) : res (list Z) :=
  match ws with
  | [] => mret []
  | w :: ws' => v ← get_le bs off w; vs ← fields_get bs (off + Z.of_nat w) ws'; mret (v :: vs)
  end.

Fixpoint fields_encode (ws : list nat) (vs : list Z) : list Z :=
  match ws, vs with
  | w :: ws', v :: vs' => le_split w v ++ fields_encode ws' vs'
  | _, _ => []
  end.

Definition fields_put (bs : list Z) (off : Z) (ws : list nat) (vs : list Z) : res (list Z) :=
  put_bytes bs off (fields_encode ws vs).

(** Each value fits the field it is stored in. *)
Definition fields_fit (ws : list nat) (vs : list Z) : Prop :=
  Forall2 (fun w v => 0 <= v < 2 ^ (8 * Z.of_nat w)) ws vs.

Lemma layout_size_cons w ws : layout_size (w :: ws) = Z.of_nat w + layout_size ws.
Proof. done. Qed.

Lemma layout_size_nonneg ws : 0 <= layout_size ws.
Proof. induction ws as [|w ws IH]; [done|]. rewrite layout_size_cons. lia. Qed.

Lemma fields_encode_len ws vs :
  length ws = length vs -> zlen (fields_encode ws vs) = layout_size ws.
Proof.
  revert vs. induction ws as [|w ws IH]; intros [|v vs] Hl; try done.
  rewrite layout_size_cons, <- (IH vs) by (simpl in Hl; lia). unfold zlen. cbn [fields_encode].
  rewrite length_app, length_le_split. lia.
Qed.

(** A field in the middle of a written record. *)
Lemma get_le_in_bytes bs off new bs' pre mid post n :
  put_bytes bs off new = Ok bs' -> new = pre ++ mid ++ post -> length mid = n ->
  get_le bs' (off + zlen pre) n = Ok (le_combine mid).
Proof.
  intros H -> Hn. pose proof (get_put_bytes_same _ _ _ _ H) as Hg.
  pose proof (put_bytes_len _ _ _ _ H) as Hlen.
  unfold put_bytes in H. case_match eqn:E; [|done]. apply andb_true_iff in E as [E1%Z.leb_le E2%Z.leb_le].
  rewrite get_bytes_ok in Hg by (unfold zlen in *; lia). injection Hg as Hg.
  unfold zlen in *. rewrite !length_app in *.
  rewrite get_le_ok by (unfold zlen in *; lia). do 2 f_equal.
  replace (Z.to_nat (off + Z.of_nat (length pre))) with (Z.to_nat off + length pre)%nat by lia.
  rewrite <- drop_drop. apply (f_equal (drop (length pre))) in Hg.
  rewrite drop_app_length, <- take_drop_commute in Hg.
  apply (f_equal (take n)) in Hg. rewrite take_take in Hg.
  replace (n `min` _)%nat with n in Hg by lia. rewrite <- Hn in Hg at 2. rewrite take_app_length in Hg. done.
Qed.

Lemma fields_get_suffix bs off new bs' ws vs : forall pre,
  put_bytes bs off new = Ok bs' -> new = pre ++ fields_encode ws vs -> fields_fit ws vs ->
  fields_get bs' (off + zlen pre) ws = Ok vs.
Proof.
  revert vs. induction ws as [|w ws IH]; intros vs pre H Hn Hf; inversion Hf as [|? v ? vs' Hv Hf']; subst; [done|].
  cbn [fields_get]. cbn [fields_encode] in H.
  rewrite (get_le_in_bytes _ _ _ _ pre (le_split w v) (fields_encode ws vs') w H eq_refl (length_le_split _ _)).
  rewrite le_combine_split, Z.mod_small by done. cbn.
  specialize (IH vs' (pre ++ le_split w v) H). rewrite <- app_assoc in IH. specialize (IH eq_refl Hf').
  unfold zlen in *. rewrite length_app, length_le_split, Nat2Z.inj_add, Z.add_assoc in IH. by rewrite IH.
Qed.

(** A struct is read back as it was stored. *)
Lemma fields_get_put bs off ws vs bs' :
  fields_put bs off ws vs = Ok bs' -> fields_fit ws vs -> fields_get bs' off ws = Ok vs.
Proof.
  intros H Hf. pose proof (fields_get_suffix _ _ _ _ ws vs [] H eq_refl Hf) as Hg.
  unfold zlen in Hg. simpl in Hg. by rewrite Z.add_0_r in Hg.
Qed.

(** A store elsewhere leaves a struct alone. *)
Lemma fields_get_disj bs off new bs' ws : forall off2,
  put_bytes bs off new = Ok bs' -> off2 + layout_size ws <= off \/ off + zlen new <= off2 ->
  fields_get bs' off2 ws = fields_get bs off2 ws.
Proof.
  induction ws as [|w ws IH]; intros off2 H Hd; [done|]. cbn [fields_get].
  pose proof (layout_size_nonneg ws). rewrite layout_size_cons in Hd.
  unfold get_le. rewrite (get_put_bytes_disj _ _ _ _ off2 w H) by lia.
  rewrite IH by (done || lia). done.
Qed.

Lemma fields_get_ok bs ws : forall off,
  0 <= off -> off + layout_size ws <= zlen bs ->
  exists vs, fields_get bs off ws = Ok vs /\ length vs = length ws.
Proof.
  induction ws as [|w ws IH]; intros off H1 H2; [by exists []|]. cbn [fields_get].
  pose proof (layout_size_nonneg ws). rewrite layout_size_cons in H2.
  rewrite get_le_ok by lia. cbn. destruct (IH (off + Z.of_nat w)) as (vs & -> & Hl); [lia..|].
  cbn. eexists. split; [done|]. simpl. lia.
Qed.

Lemma fields_get_fit bs off ws vs : bytes_ok bs -> fields_get bs off ws = Ok vs -> fields_fit ws vs.
Proof.
  intros Hb. revert off vs. induction ws as [|w ws IH]; intros off vs H; cbn in H; [injection H as <-; constructor|].
  destruct (get_le bs off w) as [v|] eqn:Hv; [|done]. cbn in H.
  destruct (fields_get bs (off + Z.of_nat w) ws) as [vs'|] eqn:Hvs; [|done]. cbn in H. injection H as <-.
  constructor; [by eapply get_le_range|by eapply IH].
Qed.
