(* ===== verification/Super.v ===== *)
(** The superblock and the group descriptors: struct ext2fs and
    struct m_ext2fs of ext2fs.h, the address macros of fs.h, the mount checks
    [ext2_check_sb_compat] and [compute_sb_data], [cg_has_sb] of ext2_alloc.c
    and the block accounting of [ext2_statfs_internal] of ext2_vfsops.c. *)
From S2P Require Import Prelude Bitmap Bytes.

(** * Constants *)

Definition E2FS_MAGIC : Z := 0xEF53.
Definition E2FS_REV0 : Z := 0.
Definition E2FS_REV1 : Z := 1.
Definition E2FS_REV0_INODE_SIZE : Z := 128.
Definition EXT2_FIRSTINO : Z := 11.
Definition EXT2_ROOTINO : Z := 2.
Definition SBSIZE : Z := 1024.
Definition SBLOCK : Z := 2.
Definition E2FS_ISCLEAN : Z := 1.
Definition E2FS_ERRORS : Z := 2.
Definition EXT2_MIN_GD_SIZE : Z := 32.
Definition EXT2_MIN_BLOCK_LOG_SIZE : Z := 10.
Definition EXT2_MIN_FRAG_SIZE : Z := 1024.
(** [sizeof(struct ext2fs_dinode)]: 116 bytes of the old inode, 12 of the OS
    dependent part and 28 of the extra fields of large inodes. *)
Definition SIZEOF_DINODE : Z := 156.

Definition EIO : Z := 5.
Definition ENOMEM : Z := 12.
Definition EINVAL : Z := 22.
Definition EFBIG : Z := 27.
Definition ENOSPC : Z := 28.
Definition EROFS : Z := 30.
Definition EPERM : Z := 1.
Definition ENOTSUP : Z := 45.

Definition EXT2F_COMPAT_HASJOURNAL : Z := 0x0004.
Definition EXT2F_COMPAT_RESIZE : Z := 0x0010.
Definition EXT2F_ROCOMPAT_SPARSESUPER : Z := 0x0001.
Definition EXT2F_ROCOMPAT_LARGEFILE : Z := 0x0002.
Definition EXT2F_ROCOMPAT_HUGE_FILE : Z := 0x0008.
Definition EXT2F_ROCOMPAT_EXTRA_ISIZE : Z := 0x0040.
Definition EXT2F_INCOMPAT_FTYPE : Z := 0x0002.
Definition EXT2F_INCOMPAT_RECOVER : Z := 0x0004.
Definition EXT2F_INCOMPAT_META_BG : Z := 0x0010.
Definition EXT2F_INCOMPAT_EXTENTS : Z := 0x0040.
Definition EXT2F_INCOMPAT_64BIT : Z := 0x0080.
Definition EXT2F_INCOMPAT_FLEX_BG : Z := 0x0200.
Definition EXT2F_INCOMPAT_CSUM_SEED : Z := 0x2000.

Definition EXT2F_ROCOMPAT_SUPP : Z :=
  Z.lor (Z.lor EXT2F_ROCOMPAT_SPARSESUPER EXT2F_ROCOMPAT_LARGEFILE) EXT2F_ROCOMPAT_EXTRA_ISIZE.
Definition EXT2F_INCOMPAT_SUPP : Z :=
  Z.lor (Z.lor (Z.lor EXT2F_INCOMPAT_FTYPE EXT2F_INCOMPAT_EXTENTS) EXT2F_INCOMPAT_FLEX_BG)
        EXT2F_INCOMPAT_META_BG.
Definition EXT4F_RO_INCOMPAT_SUPP : Z :=
  Z.lor (Z.lor EXT2F_INCOMPAT_RECOVER EXT2F_INCOMPAT_64BIT) EXT2F_INCOMPAT_CSUM_SEED.

(** * The structures *)

(** struct ext2fs, the superblock as it lies on disk. *)
Record ext2fs : Type := mk_ext2fs {
  e2fs_icount : Z; e2fs_bcount : Z; e2fs_rbcount : Z; e2fs_fbcount : Z; e2fs_ficount : Z;
  e2fs_first_dblock : Z; e2fs_log_bsize : Z; e2fs_log_fsize : Z;
  e2fs_bpg : Z; e2fs_fpg : Z; e2fs_ipg : Z;
  e2fs_mtime : Z; e2fs_wtime : Z; e2fs_mnt_count : Z; e2fs_max_mnt_count : Z;
  e2fs_magic : Z; e2fs_state : Z; e2fs_beh : Z; e2fs_minrev : Z;
  e2fs_lastfsck : Z; e2fs_fsckintv : Z; e2fs_creator : Z; e2fs_rev : Z;
  e2fs_ruid : Z; e2fs_rgid : Z;
  e2fs_first_ino : Z; e2fs_inode_size : Z; e2fs_block_group_nr : Z;
  e2fs_features_compat : Z; e2fs_features_incompat : Z; e2fs_features_rocompat : Z;
  e2fs_uuid : list Z; e2fs_vname : list Z; e2fs_fsmnt : list Z;
  e2fs_algo : Z; e2fs_prealloc : Z; e2fs_dir_prealloc : Z; e2fs_reserved_ngdb : Z;
  e3fs_journal_uuid : list Z; e3fs_journal_inum : Z; e3fs_journal_dev : Z; e3fs_last_orphan : Z;
  e3fs_hash_seed : list Z; e3fs_def_hash_version : Z; e3fs_jnl_backup_type : Z;
  e3fs_desc_size : Z; e3fs_default_mount_opts : Z; e3fs_first_meta_bg : Z; e3fs_mkfs_time : Z;
  e3fs_jnl_blks : list Z;
  e4fs_bcount_hi : Z; e4fs_rbcount_hi : Z; e4fs_fbcount_hi : Z;
  e4fs_min_extra_isize : Z; e4fs_want_extra_isize : Z; e4fs_flags : Z;
  e4fs_raid_stride : Z; e4fs_mmpintv : Z; e4fs_mmpblk : Z; e4fs_raid_stripe_wid : Z;
  e4fs_log_gpf : Z; e4fs_char_pad2 : Z; e4fs_pad : Z; e4fs_kbytes_written : Z
}.

(** struct ext2_gd, a block group descriptor. *)
Record ext2_gd : Type := mk_gd {
  ext2bgd_b_bitmap : Z; ext2bgd_i_bitmap : Z; ext2bgd_i_tables : Z;
  ext2bgd_nbfree : Z; ext2bgd_nifree : Z; ext2bgd_ndirs : Z; ext4bgd_flags : Z;
  ext4bgd_x_bitmap : Z; ext4bgd_b_bmap_csum : Z; ext4bgd_i_bmap_csum : Z;
  ext4bgd_i_unused : Z; ext4bgd_csum : Z
}.

(** struct m_ext2fs as [compute_sb_data] leaves it; [m_gd] is the byte copy of
    the descriptor table that [EXT2_GD] walks. *)
Record m_ext2fs : Type := mk_m_ext2fs {
  m_e2fs : ext2fs;
  m_bsize : Z; m_bshift : Z; m_bpg : Z; m_qbmask : Z; m_fsbtodb : Z;
  m_ipg : Z; m_ipb : Z; m_itpg : Z; m_fsize : Z; m_fpb : Z; m_fpg : Z;
  m_gdbcount : Z; m_gcount : Z; m_isize : Z; m_total_dir : Z;
  m_contigdirs : list Z; m_maxfilesize : Z; m_gd : list Z; m_gdsize : Z
}.

Definition has_feature (features mask : Z) : bool := negb (Z.land features mask =? 0).

(** * Reading a descriptor: [EXT2_GD(fs, cg)] on the byte table *)

Definition gd_layout : list nat := [4; 4; 4; 2; 2; 2; 2; 4; 2; 2; 2; 2]%nat.

Definition gd_fields (gd : ext2_gd) : list Z :=
  [ext2bgd_b_bitmap gd; ext2bgd_i_bitmap gd; ext2bgd_i_tables gd; ext2bgd_nbfree gd;
   ext2bgd_nifree gd; ext2bgd_ndirs gd; ext4bgd_flags gd; ext4bgd_x_bitmap gd;
   ext4bgd_b_bmap_csum gd; ext4bgd_i_bmap_csum gd; ext4bgd_i_unused gd; ext4bgd_csum gd].

Definition gd_of_fields (l : list Z) : res ext2_gd :=
  match l with
  | [f0; f1; f2; f3; f4; f5; f6; f7; f8; f9; f10; f11] =>
      mret (mk_gd f0 f1 f2 f3 f4 f5 f6 f7 f8 f9 f10 f11)
  | _ => Fault OutOfBounds
  end.

Definition gd_decode (tbl : list Z) (off : Z) : res ext2_gd :=
  fields_get tbl off gd_layout ≫= gd_of_fields.

Definition EXT2_GD (tbl : list Z) (gdsize cg : Z) : res ext2_gd := gd_decode tbl (cg * gdsize).

(** Storing a descriptor through the pointer [EXT2_GD] gives. *)
Definition EXT2_GD_store (tbl : list Z) (gdsize cg : Z) (gd : ext2_gd) : res (list Z) :=
  fields_put tbl (cg * gdsize) gd_layout (gd_fields gd).

(** * The mount checks *)

(** Every test in the order of the code; the printed names are left out. *)
Definition check_sb_compat (es : ext2fs) (ronly : bool) : Z :=
  if negb (e2fs_magic es =? E2FS_MAGIC) then 1
  else if e2fs_log_bsize es >? 2 then 1
  else if e2fs_bpg es =? 0 then 1
  else if e2fs_rev es >? E2FS_REV1 then 1
  else if e2fs_rev es =? E2FS_REV0 then 0
  else if negb (e2fs_first_ino es =? EXT2_FIRSTINO) then 1
  else
    let tmp := e2fs_features_incompat es in
    let mask := Z.ldiff tmp (Z.lor EXT2F_INCOMPAT_SUPP EXT4F_RO_INCOMPAT_SUPP) in
    if negb (mask =? 0) then 3
    else
      let tmp := Z.ldiff tmp EXT2F_INCOMPAT_SUPP in
      if negb ronly && negb (tmp =? 0) then 2
      else
        let tmp := Z.ldiff (e2fs_features_rocompat es) EXT2F_ROCOMPAT_SUPP in
        if negb ronly && negb (tmp =? 0) then 2
        else 0.

(** The decision of [ext2_mountfs] before anything is allocated: an error, or
    permission to go on. *)
Definition mountfs_admit (es : ext2fs) (ronly force : bool) : option Z :=
  match check_sb_compat es ronly with
  | 0 =>
      if ((Z.land (e2fs_state es) E2FS_ISCLEAN =? 0) || has_feature (e2fs_state es) E2FS_ERRORS)
         && negb (ronly || force)
      then Some EPERM else None
  | 2 => Some EROFS
  | 3 => Some ENOTSUP
  | _ => Some EINVAL
  end.

(** Whether [ext2_mountfs] goes on to call [ext2_journal_replay]. *)
Definition mountfs_replays (es : ext2fs) (ronly force : bool) : bool :=
  match mountfs_admit es ronly force with
  | Some _ => false
  | None => negb ronly && has_feature (e2fs_features_incompat es) EXT2F_INCOMPAT_RECOVER
  end.

(** Sum of [ext2bgd_ndirs] over groups [i], ..., [i + n - 1], in uint32_t. *)
Fixpoint total_dir_loop (tbl : list Z) (gdsize i : Z) (n : nat) (acc : Z) : res Z :=
  match n with
  | O => mret acc
  | S n' => gd ← EXT2_GD tbl gdsize i;
            total_dir_loop tbl gdsize (i + 1) n' (u32 (acc + ext2bgd_ndirs gd))
  end.

(** The bytes asked of [_MALLOC] for the table: a product of 32 bits. *)
Definition gd_alloc (bsize db_count : Z) : Z := u32 (db_count * bsize).

(** The read loop of [compute_sb_data]: [db_count] blocks, one after the other,
    copied into the [size] bytes of the table. *)
Fixpoint read_gd_blocks (bread : Z -> Z -> list Z + Z) (fsbtodb bsize size first : Z) (n : nat)
  (tbl : list Z) : res (list Z + Z) :=
  match n with
  | O => mret (inl tbl)
  | S n' =>
      match bread (Z.shiftl first fsbtodb) bsize with
      | inr error => mret (inr error)
      | inl data =>
          if zlen tbl + bsize >? size then Fault OutOfBounds
          else read_gd_blocks bread fsbtodb bsize size (first + 1) n' (tbl ++ data)
      end
  end.

(** [ext2fs_maxfilesize]: the smaller of what the block tree reaches and what
    [i_blocks] can count. *)
Definition maxfilesize (es : ext2fs) (bsize : Z) : Z :=
  if (e2fs_rev es =? E2FS_REV0)
     || negb (has_feature (e2fs_features_rocompat es) EXT2F_ROCOMPAT_LARGEFILE)
  then 0x7fffffff
  else
    let huge := has_feature (e2fs_features_rocompat es) EXT2F_ROCOMPAT_HUGE_FILE in
    let b := bsize / 4 in
    let physically := s64 ((if huge then Z.shiftl 1 48 - 1 else 2 ^ 32 - 1) * 512) in
    let logically := s64 ((12 + b + b * b + b * b * b) * bsize) in
    Z.min logically physically.

(** The geometry in [compute_sb_data], before anything is allocated: the in-core
    superblock without its table, and the number of descriptor blocks. *)
Definition sb_geometry (es : ext2fs) : res (m_ext2fs * Z + Z) :=
  let bshift := u32 (EXT2_MIN_BLOCK_LOG_SIZE + e2fs_log_bsize es) in
  let bsize := u32 (Z.shiftl 1 bshift) in
  let fsbtodb := u32 (e2fs_log_bsize es + 1) in
  let qbmask := u32 (bsize - 1) in
  fsize ← (shl_int EXT2_MIN_FRAG_SIZE (e2fs_log_fsize es));
  let fpb := if fsize =? 0 then 0 else bsize / fsize in
  let bpg := e2fs_bpg es in
  let ipg := e2fs_ipg es in
  let isize := if e2fs_rev es =? E2FS_REV0 then E2FS_REV0_INODE_SIZE else e2fs_inode_size es in
  if negb (e2fs_rev es =? E2FS_REV0)
     && ((isize <? E2FS_REV0_INODE_SIZE) || (isize >? bsize)
         || negb (Z.land isize (isize - 1) =? 0))
  then mret (inr EIO)
  else if has_feature (e2fs_features_rocompat es) EXT2F_ROCOMPAT_EXTRA_ISIZE
          && (isize <? SIZEOF_DINODE)
  then mret (inr EINVAL)
  else if isize =? 0 then Fault DivByZero
  else
  let ipb := bsize / isize in
  if (ipb =? 0) || (bpg =? 0) then Fault DivByZero
  else
  let itpg := ipg / ipb in
  let gcount := u32 (e2fs_bcount es - e2fs_first_dblock es + bpg - 1) / bpg in
  let gdsize :=
    if (e2fs_rev es >? E2FS_REV0) && has_feature (e2fs_features_incompat es) EXT2F_INCOMPAT_64BIT
       && negb (e3fs_desc_size es =? 0)
    then e3fs_desc_size es else EXT2_MIN_GD_SIZE in
  if (gdsize <? EXT2_MIN_GD_SIZE) || negb (Z.land gdsize (gdsize - 1) =? 0) || (gdsize >? bsize)
  then mret (inr EINVAL)
  else
  let descpb := bsize / gdsize in
  let db_count := s32 (u32 (gcount + descpb - 1) / descpb) in
  mret (inl (mk_m_ext2fs es bsize bshift bpg qbmask fsbtodb ipg ipb itpg fsize fpb
    (e2fs_fpg es) (u32 db_count) gcount isize 0 [] 0 [] gdsize, db_count)).

(** The block before the first descriptor block. *)
Definition logic_sb_block (bsize : Z) : Z := if bsize >? SBSIZE then 0 else 1.

(** What is filled in once the table [tbl] has been read. *)
Definition with_table (fs : m_ext2fs) (tbl : list Z) (total_dir : Z) : m_ext2fs :=
  let es := m_e2fs fs in
  mk_m_ext2fs es (m_bsize fs) (m_bshift fs) (m_bpg fs) (m_qbmask fs) (m_fsbtodb fs) (m_ipg fs) (m_ipb fs)
    (m_itpg fs) (m_fsize fs) (m_fpb fs) (m_fpg fs) (m_gdbcount fs) (m_gcount fs) (m_isize fs) total_dir
    (replicate (Z.to_nat (m_gcount fs)) 0) (maxfilesize es (m_bsize fs)) tbl (m_gdsize fs).

(** [compute_sb_data]: the in-core superblock, or an errno. [bread] is the
    buffer cache: a block of the device by its 512-byte address and size. *)
Definition compute_sb_data (bread : Z -> Z -> list Z + Z) (es : ext2fs) : res (m_ext2fs + Z) :=
  g ← sb_geometry es;
  match g with
  | inr error => mret (inr error)
  | inl (fs, db_count) =>
      r ← read_gd_blocks bread (m_fsbtodb fs) (m_bsize fs) (gd_alloc (m_bsize fs) db_count)
            (logic_sb_block (m_bsize fs) + 1) (Z.to_nat db_count) [];
      match r with
      | inr error => mret (inr error)
      | inl tbl =>
          total_dir ← total_dir_loop tbl (m_gdsize fs) 0 (Z.to_nat (s32 (m_gcount fs))) 0;
          mret (inl (with_table fs tbl total_dir))
      end
  end.

(** * Backup superblocks: [cg_has_sb] *)

(** The loop, with [a3], [a5], [a7] multiplied as [int]s. The fuel bounds the
    number of rounds. *)

Fixpoint cg_has_sb_loop (fuel : nat) (i a3 a5 a7 : Z) : res Z :=
  match fuel with
  | O => Fault NoFuel
  | S fuel' =>
      if (a3 <=? i) || (a5 <=? i) || (a7 <=? i) then
        if (i =? a3) || (i =? a5) || (i =? a7) then mret 1
        else
          a3' ← mul_int a3 3; a5' ← mul_int a5 5; a7' ← mul_int a7 7;
          cg_has_sb_loop fuel' i a3' a5' a7'
      else mret 0
  end.

Definition cg_has_sb (i : Z) : res Z :=
  if (i =? 0) || (i =? 1) then mret 1 else cg_has_sb_loop 32 i 3 5 7.

(** * The block accounting *)

Record vfsstatfs : Type := mk_statfs {
  f_bsize : Z; f_iosize : Z; f_blocks : Z; f_bfree : Z; f_bavail : Z; f_files : Z; f_ffree : Z
}.

Fixpoint count_sb_groups (n : nat) : res Z :=
  match n with
  | O => mret 0
  | S m => c ← count_sb_groups m; h ← cg_has_sb (Z.of_nat m);
           mret (if h =? 0 then c else c + 1)
  end.

Definition statfs_internal (fs : m_ext2fs) : res (vfsstatfs + Z) :=
  let es := m_e2fs fs in
  if negb (e2fs_magic es =? E2FS_MAGIC) then mret (inr EINVAL) else
  let overhead_per_group := u32 (1 + 1 + m_itpg fs) in
  let overhead := u32 (e2fs_first_dblock es + m_gcount fs * overhead_per_group) in
  ngroups ← (if (e2fs_rev es >? E2FS_REV0)
                && has_feature (e2fs_features_rocompat es) EXT2F_ROCOMPAT_SPARSESUPER
             then count_sb_groups (Z.to_nat (s32 (m_gcount fs)))
             else mret (s32 (m_gcount fs)));
  let ngdb := if (e2fs_rev es >? E2FS_REV0)
                 && has_feature (e2fs_features_compat es) EXT2F_COMPAT_RESIZE
              then u32 (m_gdbcount fs + e2fs_reserved_ngdb es) else m_gdbcount fs in
  let overhead := u32 (overhead + u32 ngroups * (1 + ngdb)) in
  let bfree := e2fs_fbcount es in
  mret (inl (mk_statfs (m_fsize fs) (m_bsize fs) (u32 (e2fs_bcount es - overhead)) bfree
    (if bfree >? e2fs_rbcount es then bfree - e2fs_rbcount es else 0)
    (e2fs_icount es) (e2fs_ficount es))).

(** * Group arithmetic: the macros of fs.h on int64_t block numbers *)

Section addresses.
Context (fs : m_ext2fs).

Definition fsbtodb (b : Z) : Z := s64 (Z.shiftl b (m_fsbtodb fs)).
Definition dtog (d : Z) : Z := cdiv (d - e2fs_first_dblock (m_e2fs fs)) (m_bpg fs).
Definition dtogd (d : Z) : Z := crem (d - e2fs_first_dblock (m_e2fs fs)) (m_bpg fs).
Definition ino_to_cg (x : Z) : Z := u64 (x - 1) / m_ipg fs.
Definition ino_to_fsbo (x : Z) : Z := u64 (x - 1) mod m_ipb fs.
Definition ino_to_fsba (gd : ext2_gd) (x : Z) : Z :=
  ext2bgd_i_tables gd + u64 (x - 1) mod e2fs_ipg (m_e2fs fs) / m_ipb fs.
Definition blkoff (loc : Z) : Z := Z.land loc (m_qbmask fs).
Definition lblktosize (blk : Z) : Z := Z.shiftl blk (m_bshift fs).
Definition lblkno (loc : Z) : Z := Z.shiftr loc (m_bshift fs).
End addresses.

(** * Specifications *)

(** A bit of a feature word. *)
Definition feature_set (features k : Z) : Prop := Z.testbit features k = true.

Definition incompat_supported (k : Z) : Prop := k = 1 \/ k = 6 \/ k = 9 \/ k = 4.
Definition incompat_readable (k : Z) : Prop := k = 2 \/ k = 7 \/ k = 13.
Definition rocompat_supported (k : Z) : Prop := k = 0 \/ k = 1 \/ k = 6.

(** The volumes the driver accepts. *)
Definition sb_mountable (es : ext2fs) (ronly : bool) : Prop :=
  e2fs_magic es = E2FS_MAGIC /\ e2fs_log_bsize es <= 2 /\ e2fs_bpg es <> 0 /\
  e2fs_rev es <= E2FS_REV1 /\
  (e2fs_rev es = E2FS_REV0 \/
   e2fs_first_ino es = EXT2_FIRSTINO /\
   (forall k, 0 <= k -> feature_set (e2fs_features_incompat es) k ->
      incompat_supported k \/ (ronly = true /\ incompat_readable k)) /\
   (ronly = false -> forall k, 0 <= k -> feature_set (e2fs_features_rocompat es) k ->
      rocompat_supported k)).

(** Groups that carry a backup superblock under sparse_super. *)
Definition sb_group (i : Z) : Prop :=
  i = 0 \/ exists k, 0 <= k /\ (i = 3 ^ k \/ i = 5 ^ k \/ i = 7 ^ k).

(** What the rest of the driver relies on after [compute_sb_data]. *)
Record geometry_ok (fs : m_ext2fs) : Prop := mk_geometry_ok {
  go_bsize : m_bsize fs = 1024 \/ m_bsize fs = 2048 \/ m_bsize fs = 4096;
  go_bshift : m_bsize fs = 2 ^ m_bshift fs;
  go_fsbtodb : m_bsize fs = 512 * 2 ^ m_fsbtodb fs;
  go_fsbtodb_nonneg : 0 <= m_fsbtodb fs;
  go_qbmask : m_qbmask fs = m_bsize fs - 1;
  go_bpg : 0 < m_bpg fs;
  go_bpg_sb : m_bpg fs = e2fs_bpg (m_e2fs fs);
  go_gcount : 0 < m_gcount fs < 2 ^ 31;
  go_gcount_lo : (m_gcount fs - 1) * m_bpg fs < e2fs_bcount (m_e2fs fs) - e2fs_first_dblock (m_e2fs fs);
  go_gcount_hi : e2fs_bcount (m_e2fs fs) - e2fs_first_dblock (m_e2fs fs) <= m_gcount fs * m_bpg fs;
  go_ipb : 0 < m_ipb fs /\ m_ipb fs * m_isize fs = m_bsize fs;
  go_gdsize : 32 <= m_gdsize fs;
  go_gd : m_gcount fs * m_gdsize fs <= zlen (m_gd fs)
}.

(** * Theorems *)

Lemma ldiff_0_iff a b : Z.ldiff a b = 0 <-> forall k, 0 <= k -> Z.testbit a k = true -> Z.testbit b k = true.
Proof.
  split.
  - intros H k Hk Ha. assert (Z.testbit (Z.ldiff a b) k = false) as E by (rewrite H; apply Z.bits_0).
    rewrite Z.ldiff_spec, Ha in E. simpl in E. by destruct (Z.testbit b k).
  - intros H. apply Z.bits_inj'. intros k Hk. rewrite Z.ldiff_spec, Z.bits_0.
    destruct (Z.testbit a k) eqn:Ea; [|done]. by rewrite (H k Hk Ea).
Qed.

(** A small constant mask tested bit by bit. *)
Lemma mask_testbit_forall m n (P : Z -> bool) k :
  0 <= m < 2 ^ n -> 0 <= n ->
  forallb (fun k => Bool.eqb (Z.testbit m k) (P k)) (seqZ 0 n) = true ->
  0 <= k -> (Z.testbit m k = true -> P k = true) /\ (k < n -> P k = true -> Z.testbit m k = true).
Proof.
  intros Hm Hn H Hk. rewrite forallb_forall in H. destruct (decide (k < n)) as [Hkn|Hkn].
  - specialize (H k). rewrite <- list_elem_of_In, elem_of_seqZ in H.
    apply Bool.eqb_prop in H; [|lia]. rewrite H. done.
  - split; [|lia]. rewrite <- (Z.mod_small m (2 ^ n)), Z.mod_pow2_bits_high by lia. done.
Qed.

Lemma incompat_supp_bits k : 0 <= k -> Z.testbit EXT2F_INCOMPAT_SUPP k = true <-> incompat_supported k.
Proof.
  intros Hk. destruct (mask_testbit_forall EXT2F_INCOMPAT_SUPP 16
    (fun k => (k =? 1) || (k =? 6) || (k =? 9) || (k =? 4)) k) as [H1 H2];
    [by vm_compute|done|by vm_compute|done|]. unfold incompat_supported.
  split; intros H; [apply H1 in H|apply H2]; lia.
Qed.

Lemma incompat_all_bits k : 0 <= k ->
  Z.testbit (Z.lor EXT2F_INCOMPAT_SUPP EXT4F_RO_INCOMPAT_SUPP) k = true <->
  incompat_supported k \/ incompat_readable k.
Proof.
  intros Hk. destruct (mask_testbit_forall (Z.lor EXT2F_INCOMPAT_SUPP EXT4F_RO_INCOMPAT_SUPP) 16
    (fun k => (k =? 1) || (k =? 6) || (k =? 9) || (k =? 4) || (k =? 2) || (k =? 7) || (k =? 13)) k) as [H1 H2];
    [by vm_compute|done|by vm_compute|done|]. unfold incompat_supported, incompat_readable.
  split; intros H; [apply H1 in H|apply H2]; lia.
Qed.

Lemma rocompat_supp_bits k : 0 <= k -> Z.testbit EXT2F_ROCOMPAT_SUPP k = true <-> rocompat_supported k.
Proof.
  intros Hk. destruct (mask_testbit_forall EXT2F_ROCOMPAT_SUPP 16
    (fun k => (k =? 0) || (k =? 1) || (k =? 6)) k) as [H1 H2];
    [by vm_compute|done|by vm_compute|done|]. unfold rocompat_supported.
  split; intros H; [apply H1 in H|apply H2]; lia.
Qed.

Lemma incompat_check es ronly :
  (Z.ldiff (e2fs_features_incompat es) (Z.lor EXT2F_INCOMPAT_SUPP EXT4F_RO_INCOMPAT_SUPP) = 0 /\
   (ronly = false -> Z.ldiff (e2fs_features_incompat es) EXT2F_INCOMPAT_SUPP = 0)) <->
  (forall k, 0 <= k -> feature_set (e2fs_features_incompat es) k ->
      incompat_supported k \/ (ronly = true /\ incompat_readable k)).
Proof.
  rewrite !ldiff_0_iff. unfold feature_set. split.
  - intros [H1 H2] k Hk Hf. destruct ronly.
    + pose proof (proj1 (incompat_all_bits k Hk) (H1 k Hk Hf)). tauto.
    + left. apply incompat_supp_bits; [done|]. by apply H2.
  - intros H. split.
    + intros k Hk Hf. apply incompat_all_bits; [done|]. destruct (H k Hk Hf); tauto.
    + intros -> k Hk Hf. apply incompat_supp_bits; [done|]. by destruct (H k Hk Hf) as [|[]].
Qed.

(** [ext2_check_sb_compat] accepts the mountable superblocks. *)
Lemma check_sb_compat_iff es ronly : check_sb_compat es ronly = 0 <-> sb_mountable es ronly.
Proof.
  unfold check_sb_compat, sb_mountable. rewrite <- incompat_check.
  assert ((ronly = false -> Z.ldiff (e2fs_features_rocompat es) EXT2F_ROCOMPAT_SUPP = 0) <->
    (ronly = false -> forall k, 0 <= k -> feature_set (e2fs_features_rocompat es) k ->
      rocompat_supported k)) as <-.
  { rewrite ldiff_0_iff. unfold feature_set. split; intros H Hr k Hk Hf;
      [apply rocompat_supp_bits|apply rocompat_supp_bits; [done|]]; auto. }
  unfold E2FS_REV0, E2FS_REV1. destruct ronly; simpl; repeat case_match; lia.
Qed.


(** On a volume of revision 1 the mount code never reaches
    [ext2_journal_replay]: a read-write mount of a volume whose journal needs
    recovery is refused with EROFS, whatever its other fields say. *)
Theorem mountfs_never_replays_rev1 es ronly force :
  e2fs_rev es <> E2FS_REV0 ->
  mountfs_replays es ronly force = false /\
  (sb_mountable es true -> has_feature (e2fs_features_incompat es) EXT2F_INCOMPAT_RECOVER = true ->
   mountfs_admit es false force = Some EROFS).
Proof.
  intros Hrev.
  assert (has_feature (e2fs_features_incompat es) EXT2F_INCOMPAT_RECOVER =
          Z.testbit (e2fs_features_incompat es) 2) as Hf.
  { unfold has_feature. change EXT2F_INCOMPAT_RECOVER with (Z.shiftl 1 2). by apply land_pow2_testbit. }
  assert (Z.testbit (e2fs_features_incompat es) 2 = true ->
    Z.ldiff (e2fs_features_incompat es) EXT2F_INCOMPAT_SUPP <> 0) as Hnz.
  { intros Ht H0. rewrite ldiff_0_iff in H0. by pose proof (H0 2 ltac:(lia) Ht). }
  split.
  - unfold mountfs_replays, mountfs_admit. destruct (check_sb_compat es ronly) as [|p|p] eqn:Ec; try done;
      [|by repeat case_match..].
    case_match; [done|]. destruct ronly; [done|]. simpl. rewrite Hf.
    destruct (Z.testbit _ 2) eqn:Et; [|done]. apply check_sb_compat_iff in Ec.
    destruct Ec as (_ & _ & _ & _ & [?|(_ & Hb & _)]); [done|].
    destruct (Hb 2) as [[|[|[|]]]|[]]; done || lia.
  - intros Hm Hr. rewrite Hf in Hr. unfold mountfs_admit.
    assert (check_sb_compat es false = 2) as ->; [|done].
    apply check_sb_compat_iff in Hm. revert Hm. unfold check_sb_compat. specialize (Hnz Hr).
    repeat case_match; simpl in *; lia.
Qed.

(** ** Backup superblocks *)

Lemma pow_le_mono_base a b k : 0 <= a <= b -> 0 <= k -> a ^ k <= b ^ k.
Proof. intros. apply Z.pow_le_mono_l. lia. Qed.

Lemma cg_has_sb_loop_spec (n : nat) : forall (fuel : nat) (k i : Z),
  0 <= i < 3 ^ 11 -> 1 <= k -> k + Z.of_nat n = 11 -> (n < fuel)%nat ->
  exists r, cg_has_sb_loop fuel i (3 ^ k) (5 ^ k) (7 ^ k) = Ok r /\
    (r = 1 \/ r = 0) /\
    (r = 1 <-> exists j, k <= j /\ (i = 3 ^ j \/ i = 5 ^ j \/ i = 7 ^ j)).
Proof.
  assert (forall j k : Z, 0 <= k <= j -> 3 ^ k <= 3 ^ j /\ 3 ^ j <= 5 ^ j /\ 3 ^ j <= 7 ^ j /\
     5 ^ k <= 5 ^ j /\ 7 ^ k <= 7 ^ j) as Hmono.
  { intros j k Hk. repeat split; (apply Z.pow_le_mono_r; lia) || (apply Z.pow_le_mono_l; lia). }
  induction n as [|n IH]; intros [|fuel] k i Hi Hk Hn Hf; try lia; simpl.
  - assert (k = 11) as -> by lia. destruct (Hmono 11 11) as (_ & H5 & H7 & _); [lia|].
    rewrite !(proj2 (Z.leb_gt _ i)) by lia. simpl. exists 0. split; [done|]. split; [lia|].
    split; [lia|]. intros (j & Hj & He). destruct (Hmono j 11); lia.
  - destruct ((3 ^ k <=? i) || (5 ^ k <=? i) || (7 ^ k <=? i)) eqn:Ele.
    + destruct ((i =? 3 ^ k) || (i =? 5 ^ k) || (i =? 7 ^ k)) eqn:Eeq.
      * exists 1. split; [done|]. split; [lia|]. split; [|done]. intros _. exists k. lia.
      * assert (7 ^ (k + 1) < 2 ^ 31) as H7 by (apply Z.le_lt_trans with (7 ^ 11); [apply Z.pow_le_mono_r; lia|done]).
        assert (3 ^ (k + 1) <= 7 ^ (k + 1) /\ 5 ^ (k + 1) <= 7 ^ (k + 1)) as [H3 H5]
          by (split; apply Z.pow_le_mono_l; lia).
        assert (forall b, b ^ k * b = b ^ (k + 1)) as Hp by (intros b; rewrite Z.pow_add_r, Z.pow_1_r by lia; done).
        unfold mul_int. rewrite !Hp, !(proj2 (Z.ltb_lt _ (2 ^ 31))) by lia. cbn.
        destruct (IH fuel (k + 1) i) as (r & Hr & Hr01 & Hiff); [lia..|].
        exists r. split; [done|]. split; [done|]. rewrite Hiff. split; intros (j & Hj & He).
        { exists j. split; [lia|done]. }
        exists j. split; [|done]. destruct (Z.eq_dec j k) as [->|]; lia.
    + exists 0. split; [done|]. split; [lia|]. split; [lia|]. intros (j & Hj & He).
      destruct (Hmono j k); lia.
Qed.

Lemma cg_has_sb_ok i :
  0 <= i < 3 ^ 11 ->
  exists r, cg_has_sb i = Ok r /\ (r = 1 \/ r = 0) /\ (r = 1 <-> sb_group i).
Proof.
  intros Hi. unfold cg_has_sb, sb_group.
  destruct ((i =? 0) || (i =? 1)) eqn:E.
  - exists 1. split; [done|]. split; [lia|]. split; [|done]. intros _.
    destruct (Z.eq_dec i 0); [by left|]. right. exists 0. cbn. lia.
  - destruct (cg_has_sb_loop_spec 10 32 1 i) as (r & Hr & H01 & Hiff); [lia..|].
    exists r. split; [done|]. split; [done|]. rewrite Hiff. split.
    + intros (j & Hj & He). right. exists j. split; [lia|done].
    + intros [->|(j & Hj & He)]; [lia|]. exists j. split; [|done].
      destruct (Z.eq_dec j 0) as [->|]; [|lia]. cbn in He. lia.
Qed.

(** C36: [cg_has_sb] answers whether a group holds a backup superblock under
    sparse_super: group 0, group 1 and the powers of 3, 5 and 7. Its loop ends
    and none of its [int] products overflows for the groups below 3^11; at
    3^11 + 1 the product of sevens does overflow. *)
Theorem cg_has_sb_spec :
  (forall i, 0 <= i < 3 ^ 11 ->
     exists r, cg_has_sb i = Ok r /\ (r = 1 \/ r = 0) /\ (r = 1 <-> sb_group i)) /\
  cg_has_sb (3 ^ 11 + 1) = Fault IntOverflow.
Proof. split; [exact cg_has_sb_ok|]. vm_compute. reflexivity. Qed.

(** ** The geometry *)

Definition pow2_sizes : list Z := [1024; 2048; 4096].

Lemma pow2_sizes_bound b : b ∈ pow2_sizes -> 1024 <= b <= 4096.
Proof. unfold pow2_sizes. rewrite !elem_of_cons, elem_of_nil. lia. Qed.

(** A power of two that is at most the block size divides it. *)
Lemma pow2_divides bsize x :
  bsize ∈ pow2_sizes -> 32 <= x <= bsize -> Z.land x (x - 1) = 0 -> bsize / x * x = bsize /\ 0 < bsize / x.
Proof.
  intros Hb Hx Hl.
  assert (forall b, b ∈ pow2_sizes -> forallb (fun x =>
    negb (Z.land x (x - 1) =? 0) || negb (x <=? b) || ((b / x * x =? b) && (0 <? b / x))) (seqZ 32 4065) = true) as H.
  { intros b Hb'. unfold pow2_sizes in Hb'.
    repeat (apply elem_of_cons in Hb' as [->|Hb']; [by vm_compute|]). by apply elem_of_nil in Hb'. }
  specialize (H bsize Hb). rewrite forallb_forall in H. specialize (H x).
  rewrite <- list_elem_of_In, elem_of_seqZ in H.
  pose proof (pow2_sizes_bound _ Hb). lia.
Qed.

Lemma read_gd_blocks_len bread shift bsize size : forall n first tbl tbl',
  (forall j d, first <= j < first + Z.of_nat n -> bread (Z.shiftl j shift) bsize = inl d -> zlen d = bsize) ->
  read_gd_blocks bread shift bsize size first n tbl = Ok (inl tbl') ->
  zlen tbl' = zlen tbl + Z.of_nat n * bsize /\ (n <> O -> zlen tbl' <= size).
Proof.
  induction n as [|n IH]; intros first tbl tbl' Hd H; cbn [read_gd_blocks] in H; [injection H as <-; split; [lia|done]|].
  destruct (bread (first ≪ shift) bsize) as [d|] eqn:E; [|done].
  destruct (Z.gtb_spec (zlen tbl + bsize) size) as [|Hfit]; [done|].
  pose proof H as Hn. apply IH in H as [Hl Hs]; [|intros j d' Hj; apply Hd; lia]. apply Hd in E; [|lia].
  assert (zlen (tbl ++ d) = zlen tbl + bsize) as Happ by (unfold zlen in *; rewrite length_app; lia).
  rewrite Happ in Hl. split; [lia|]. intros _. destruct n as [|n]; [lia|by apply Hs].
Qed.

(** With room for the whole table the loop does not fault; without, it never
    gets to its end. *)
Lemma read_gd_blocks_fault bread shift bsize size f : forall n first tbl,
  (forall j d, first <= j < first + Z.of_nat n -> bread (Z.shiftl j shift) bsize = inl d -> zlen d = bsize) ->
  0 <= bsize -> read_gd_blocks bread shift bsize size first n tbl = Fault f ->
  f = OutOfBounds /\ size < zlen tbl + Z.of_nat n * bsize.
Proof.
  induction n as [|n IH]; intros first tbl Hd Hb H; cbn [read_gd_blocks] in H; [done|].
  destruct (bread (first ≪ shift) bsize) as [d|] eqn:E; [|done].
  destruct (Z.gtb_spec (zlen tbl + bsize) size) as [Hgt|Hfit]; [injection H as <-; split; [done|nia]|].
  apply IH in H as [-> Hs]; [|intros j d' Hj; apply Hd; lia|done]. apply Hd in E; [|lia].
  split; [done|]. unfold zlen in *. rewrite length_app in Hs. lia.
Qed.

Lemma gd_decode_ok tbl off : 0 <= off -> off + 32 <= zlen tbl -> exists gd, gd_decode tbl off = Ok gd.
Proof.
  intros H1 H2. unfold gd_decode. destruct (fields_get_ok tbl gd_layout off H1) as (vs & Hvs & Hl).
  - change (layout_size gd_layout) with 32. lia.
  - rewrite Hvs. cbn. do 12 (destruct vs as [|? vs]; [done|]). destruct vs; [eauto|done].
Qed.

Lemma total_dir_loop_ok tbl gdsize :
  32 <= gdsize -> forall n i acc, 0 <= i -> (i + Z.of_nat n) * gdsize <= zlen tbl ->
  exists t, total_dir_loop tbl gdsize i n acc = Ok t.
Proof.
  intros Hg. induction n as [|n IH]; intros i acc Hi Hl; simpl; [eauto|].
  destruct (gd_decode_ok tbl (i * gdsize)) as [gd Hgd]; [nia..|].
  unfold EXT2_GD. rewrite Hgd. simpl. apply IH; lia.
Qed.

(** The fields of a superblock block are unsigned 32-bit words. *)
Record es_ranges (es : ext2fs) : Prop := mk_es_ranges {
  er_bcount : 0 <= e2fs_bcount es; er_fdb : 0 <= e2fs_first_dblock es;
  er_bpg : 0 <= e2fs_bpg es; er_log_bsize : 0 <= e2fs_log_bsize es;
  er_log_fsize : 0 <= e2fs_log_fsize es
}.

Lemma bsize_cases lb : 0 <= lb <= 2 ->
  u32 (Z.shiftl 1 (u32 (EXT2_MIN_BLOCK_LOG_SIZE + lb))) ∈ pow2_sizes /\
  u32 (Z.shiftl 1 (u32 (EXT2_MIN_BLOCK_LOG_SIZE + lb))) = 2 ^ u32 (EXT2_MIN_BLOCK_LOG_SIZE + lb) /\
  u32 (Z.shiftl 1 (u32 (EXT2_MIN_BLOCK_LOG_SIZE + lb))) = 512 * 2 ^ u32 (lb + 1) /\
  0 <= u32 (lb + 1).
Proof.
  intros H. assert (lb = 0 \/ lb = 1 \/ lb = 2) as [->|[->| ->]] by lia;
  (split; [unfold pow2_sizes; rewrite !elem_of_cons; vm_compute; auto|by vm_compute]).
Qed.

(** The count of groups covers the data blocks, with no group empty. *)
Lemma gcount_spec n bpg :
  0 < bpg -> 0 < n -> n + bpg - 1 < 2 ^ 31 ->
  let g := u32 (n + bpg - 1) / bpg in
  0 < g < 2 ^ 31 /\ (g - 1) * bpg < n <= g * bpg.
Proof.
  intros Hb Hn Hlt. cbn zeta. rewrite u32_id by (unfold u32_ok; lia).
  pose proof (Z.div_mod (n + bpg - 1) bpg ltac:(lia)) as Hdm.
  pose proof (Z.mod_pos_bound (n + bpg - 1) bpg Hb).
  assert ((n + bpg - 1) / bpg < 2 ^ 31) by (apply Z.div_lt_upper_bound; nia).
  nia.
Qed.

(** Enough descriptor blocks are read for every group. *)
Lemma db_count_spec gcount descpb :
  0 < gcount < 2 ^ 31 -> 0 < descpb <= 128 ->
  let db := s32 (u32 (gcount + descpb - 1) / descpb) in
  0 <= db < 2 ^ 31 /\ gcount <= db * descpb.
Proof.
  intros Hg Hd. cbn zeta. rewrite u32_id by (unfold u32_ok; lia).
  pose proof (Z.div_mod (gcount + descpb - 1) descpb ltac:(lia)) as Hdm.
  pose proof (Z.mod_pos_bound (gcount + descpb - 1) descpb ltac:(lia)).
  assert (0 <= (gcount + descpb - 1) / descpb <= gcount).
  { split; [apply Z.div_pos; lia|]. apply Z.div_le_upper_bound; nia. }
  rewrite s32_id by (unfold s32_ok; lia). nia.
Qed.

Lemma gd_table_covers gcount db descpb gdsize bsize :
  0 < gdsize -> gcount <= db * descpb -> descpb * gdsize = bsize -> gcount * gdsize <= db * bsize.
Proof. intros Hg Hc <-. rewrite Z.mul_assoc. by apply Z.mul_le_mono_pos_r. Qed.

(** What the checks of the superblock leave of its geometry. *)
Record sb_geometry_ok (es : ext2fs) (fs : m_ext2fs) (n : Z) : Prop := mk_sb_geometry_ok {
  sg_es : m_e2fs fs = es;
  sg_bsize : m_bsize fs = 1024 \/ m_bsize fs = 2048 \/ m_bsize fs = 4096;
  sg_gdsize : 32 <= m_gdsize fs;
  sg_gcount : 0 <= m_gcount fs < 2 ^ 31;
  sg_blocks : 0 <= n < 2 ^ 31;
  sg_gdbcount : m_gdbcount fs = n;
  sg_covers : m_gcount fs * m_gdsize fs <= n * m_bsize fs;
  sg_ok : forall tbl total, m_gcount fs * m_gdsize fs <= zlen tbl -> geometry_ok (with_table fs tbl total)
}.

Lemma sb_geometry_spec es ronly :
  check_sb_compat es ronly = 0 -> es_ranges es -> e2fs_log_fsize es <= 20 ->
  e2fs_first_dblock es < e2fs_bcount es ->
  e2fs_bcount es - e2fs_first_dblock es + e2fs_bpg es - 1 < 2 ^ 31 ->
  (exists errno, sb_geometry es = Ok (inr errno)) \/
  (exists fs n, sb_geometry es = Ok (inl (fs, n)) /\ sb_geometry_ok es fs n).
Proof.
  intros Hc Hr Hfs Hlt Hmax. apply check_sb_compat_iff in Hc as (_ & Hlb & Hbpg & Hrev & _).
  destruct Hr as [Hbc Hfd Hbp Hlb0 Hlf0].
  destruct (bsize_cases (e2fs_log_bsize es)) as (Hbs & Hbs2 & Hdb & Hdb0); [lia|].
  unfold sb_geometry. revert Hbs Hbs2 Hdb Hdb0.
  set (bsize := u32 (Z.shiftl 1 _)). set (bshift := u32 (EXT2_MIN_BLOCK_LOG_SIZE + _)).
  set (dbsh := u32 (e2fs_log_bsize es + 1)). clearbody bsize bshift dbsh. intros Hbs Hbs2 Hdb Hdb0.
  pose proof (pow2_sizes_bound _ Hbs) as Hbsb. cbv zeta.
  assert (exists fz, shl_int EXT2_MIN_FRAG_SIZE (e2fs_log_fsize es) = Ok fz) as [fz Hfz].
  { unfold shl_int. assert (1024 ≪ e2fs_log_fsize es < 2 ^ 31).
    { rewrite Z.shiftl_mul_pow2 by done. pose proof (Z.pow_le_mono_r 2 (e2fs_log_fsize es) 20). lia. }
    unfold EXT2_MIN_FRAG_SIZE. case_match eqn:E; [eauto|]. lia. }
  rewrite Hfz. cbn [mbind res_bind].
  set (isize := if e2fs_rev es =? E2FS_REV0 then _ else _).
  destruct (negb (e2fs_rev es =? E2FS_REV0) && _) eqn:Eis; [left; by eexists|].
  destruct (has_feature (e2fs_features_rocompat es) EXT2F_ROCOMPAT_EXTRA_ISIZE && _) eqn:Ex; [left; by eexists|].
  assert (32 <= isize <= bsize /\ Z.land isize (isize - 1) = 0) as [Hisr Hisp].
  { subst isize. unfold E2FS_REV0_INODE_SIZE in *. destruct (Z.eqb_spec (e2fs_rev es) E2FS_REV0); [by split; [lia|]|].
    simpl in Eis. apply orb_false_iff in Eis as [?%orb_false_iff ?]. lia. }
  destruct (pow2_divides bsize isize Hbs Hisr Hisp) as [Hipb Hipb0].
  rewrite (proj2 (Z.eqb_neq isize 0)), (proj2 (Z.eqb_neq (bsize / isize) 0)),
    (proj2 (Z.eqb_neq (e2fs_bpg es) 0)) by lia. cbn [orb].
  set (gdsize := if (e2fs_rev es >? E2FS_REV0) && _ && _ then _ else _).
  destruct ((gdsize <? EXT2_MIN_GD_SIZE) || _ || _) eqn:Egd; [left; by eexists|].
  apply orb_false_iff in Egd as [[Eg1 Eg2]%orb_false_iff Eg3]. unfold EXT2_MIN_GD_SIZE in Eg1.
  destruct (pow2_divides bsize gdsize Hbs) as [Hdpb Hdpb0]; [lia..|].
  destruct (gcount_spec (e2fs_bcount es - e2fs_first_dblock es) (e2fs_bpg es)) as [Hgc Hgc2]; [lia..|].
  set (gcount := u32 _ / e2fs_bpg es) in *.
  destruct (db_count_spec gcount (bsize / gdsize)) as [Hdbc Hdbc2]; [lia| |].
  { split; [done|]. apply Z.div_le_upper_bound; lia. }
  set (db := s32 _) in *. right. eexists _, _. split; [reflexivity|].
  assert (gcount * gdsize <= db * bsize) as Hcov by (apply gd_table_covers with (descpb := bsize / gdsize); lia).
  unfold pow2_sizes in Hbs. rewrite !elem_of_cons, elem_of_nil in Hbs.
  constructor; cbn [m_e2fs m_bsize m_gdsize m_gcount m_gdbcount]; try lia; [done|apply u32_id; unfold u32_ok; lia|].
  intros tbl total Htbl. cbn in Htbl. constructor; cbn; try done; try lia. apply u32_id. unfold u32_ok. lia.
Qed.

(** A table that fits 32 bits gets its size. *)
Lemma gd_alloc_fits bsize n : 0 <= bsize -> 0 <= n -> gd_alloc bsize n = n * bsize <-> n * bsize < 2 ^ 32.
Proof.
  intros Hb Hn. unfold gd_alloc, u32. split; intros H; [|apply Z.mod_small; nia].
  rewrite <- H. by apply Z.mod_pos_bound.
Qed.

(** C35: for an admitted superblock whose fragment shift is defined and whose
    block count lies past its first data block, [compute_sb_data] reports an
    errno, or returns the geometry the rest of the driver relies on, with a
    descriptor table that has its bytes allocated and covers every group, or it
    copies a block of descriptors behind its table. The last is the case of a
    table of 2^32 bytes or more, for which too little is allocated: then it
    never returns a geometry. *)
Theorem compute_sb_data_geometry bread es ronly :
  check_sb_compat es ronly = 0 -> es_ranges es -> e2fs_log_fsize es <= 20 ->
  e2fs_first_dblock es < e2fs_bcount es ->
  e2fs_bcount es - e2fs_first_dblock es + e2fs_bpg es - 1 < 2 ^ 31 ->
  (forall b n d, 0 <= n -> bread b n = inl d -> zlen d = n) ->
  (exists errno, compute_sb_data bread es = Ok (inr errno)) \/
  (exists fs n, sb_geometry es = Ok (inl (fs, n)) /\
    if n * m_bsize fs <? 2 ^ 32
    then exists fs', compute_sb_data bread es = Ok (inl fs') /\ m_e2fs fs' = es /\ geometry_ok fs' /\
           zlen (m_gd fs') = gd_alloc (m_bsize fs) n
    else compute_sb_data bread es = Fault OutOfBounds).
Proof.
  intros Hc Hr Hfs Hlt Hmax Hread. unfold compute_sb_data.
  destruct (sb_geometry_spec es ronly Hc Hr Hfs Hlt Hmax) as [[errno ->]|(fs & n & -> & [])]; [left; by eexists|].
  cbn [mbind res_bind]. assert (0 < m_bsize fs) by lia.
  assert (m_gdbcount fs = 0 -> n = 0) as Hn0 by lia. pose proof (gd_alloc_fits (m_bsize fs) n ltac:(lia) ltac:(lia)) as Hfit.
  destruct (read_gd_blocks _ _ _ _ _ _ _) as [[tbl|errno]|f] eqn:Ert; [|left; by eexists|]; right; exists fs, n; (split; [done|]); cbn [mbind res_bind].
  - apply read_gd_blocks_len in Ert as [Hlen Hsize]; [|intros j d _; apply Hread; lia]. unfold zlen in Hlen at 2. cbn [length] in Hlen.
    rewrite Z2Nat.id in Hlen by lia. destruct (Z.ltb_spec (n * m_bsize fs) (2 ^ 32)) as [Hlt'|Hge].
    + destruct (total_dir_loop_ok tbl (m_gdsize fs)) with (n := Z.to_nat (s32 (m_gcount fs))) (i := 0) (acc := 0) as [t Ht];
        [lia|lia|rewrite s32_id by (unfold s32_ok; lia); rewrite Z2Nat.id by lia; lia|].
      rewrite Ht. cbn. eexists. split; [done|]. split; [done|]. split; [apply sg_ok0; lia|]. cbn. rewrite (proj2 Hfit Hlt'). lia.
    + exfalso. assert (Z.to_nat n <> O) as Hnz by nia. specialize (Hsize Hnz).
      assert (gd_alloc (m_bsize fs) n < 2 ^ 32) by (apply Z.mod_pos_bound; lia). lia.
  - apply read_gd_blocks_fault in Ert as [-> Hs]; [|intros j d _; apply Hread; lia|lia]. unfold zlen in Hs. cbn [length] in Hs.
    rewrite Z2Nat.id in Hs by lia. destruct (Z.ltb_spec (n * m_bsize fs) (2 ^ 32)) as [Hlt'|Hge]; [|done].
    rewrite (proj2 Hfit Hlt') in Hs. lia.
Qed.

(** ** The descriptor table at its stride *)

Definition gd_in_range (gd : ext2_gd) : Prop := fields_fit gd_layout (gd_fields gd).

Lemma gd_store_get tbl gdsize cg gd tbl' :
  32 <= gdsize -> gd_in_range gd -> EXT2_GD_store tbl gdsize cg gd = Ok tbl' ->
  EXT2_GD tbl' gdsize cg = Ok gd /\
  (forall cg', cg' <> cg -> EXT2_GD tbl' gdsize cg' = EXT2_GD tbl gdsize cg').
Proof.
  intros Hs Hr H. unfold EXT2_GD, gd_decode, EXT2_GD_store in *. split.
  - rewrite (fields_get_put _ _ _ _ _ H Hr). by destruct gd.
  - intros cg' Hne. rewrite (fields_get_disj _ _ _ _ _ _ H); [done|].
    rewrite fields_encode_len by done. change (layout_size gd_layout) with 32. nia.
Qed.

(** With descriptors [gdsize] bytes apart, 32 or more, storing a group's
    descriptor makes it readable again at its group and leaves every other
    group's descriptor as it was. *)
Theorem EXT2_GD_store_get tbl gdsize cg gd tbl' :
  32 <= gdsize -> gd_in_range gd -> EXT2_GD_store tbl gdsize cg gd = Ok tbl' ->
  EXT2_GD tbl' gdsize cg = Ok gd /\
  (forall cg', cg' <> cg -> EXT2_GD tbl' gdsize cg' = EXT2_GD tbl gdsize cg').
Proof. apply gd_store_get. Qed.

(** [blkoff] with the mask of a power of two. *)
Lemma blkoff_pow2 fs k loc : 0 <= k -> m_bsize fs = 2 ^ k -> m_qbmask fs = m_bsize fs - 1 -> blkoff fs loc = loc mod m_bsize fs.
Proof.
  intros Hk Hb Hq. unfold blkoff. rewrite Hq, Hb.
  replace (2 ^ k - 1) with (Z.ones k) by (rewrite Z.ones_equiv; lia). by apply Z.land_ones.
Qed.

(** ** Blocks and their groups *)

(** Every block of the volume past the first data block lies in a group
    that has a descriptor, and the group and the offset [dtog] and [dtogd]
    compute determine the block. *)
Theorem dtog_dtogd fs d :
  geometry_ok fs -> 0 <= e2fs_first_dblock (m_e2fs fs) ->
  e2fs_first_dblock (m_e2fs fs) <= d < e2fs_bcount (m_e2fs fs) ->
  0 <= dtog fs d < m_gcount fs /\ 0 <= dtogd fs d < m_bpg fs /\
  dtog fs d * m_bpg fs + e2fs_first_dblock (m_e2fs fs) + dtogd fs d = d.
Proof.
  intros Hg Hf Hd. pose proof (go_bpg _ Hg) as Hb. pose proof (go_gcount_hi _ Hg) as Hhi. unfold dtog, dtogd.
  rewrite cdiv_nonneg, crem_nonneg by lia.
  set (x := d - e2fs_first_dblock (m_e2fs fs)) in *.
  pose proof (Z.div_mod x (m_bpg fs) ltac:(lia)). pose proof (Z.mod_pos_bound x (m_bpg fs) Hb).
  split; [split; [apply Z.div_pos; lia|apply Z.div_lt_upper_bound; lia]|]. lia.
Qed.

(** ** Block accounting *)

(** The groups below [n] that hold a backup superblock. *)
Fixpoint sb_groups_below (n : nat) (P : Z -> bool) : Z :=
  match n with
  | O => 0
  | S m => sb_groups_below m P + (if P (Z.of_nat m) then 1 else 0)
  end.

Lemma sb_groups_below_range n P : 0 <= sb_groups_below n P <= Z.of_nat n.
Proof. induction n; simpl; [lia|]. case_match; lia. Qed.

Lemma sb_groups_below_pos n P : (0 < n)%nat -> P 0 = true -> 1 <= sb_groups_below n P.
Proof.
  intros Hn H0. induction n as [|n IH]; [lia|]. simpl. destruct n as [|n]; [change (Z.of_nat 0) with 0; by rewrite H0|].
  specialize (IH ltac:(lia)). case_match; lia.
Qed.

Lemma count_sb_groups_ok (P : Z -> bool) n :
  (forall i, 0 <= i < Z.of_nat n -> P i = true <-> sb_group i) -> Z.of_nat n <= 3 ^ 11 ->
  count_sb_groups n = Ok (sb_groups_below n P).
Proof.
  intros HP. induction n as [|n IH]; intros Hn; [done|]. cbn [count_sb_groups sb_groups_below].
  rewrite IH; [|intros i Hi; apply HP; lia|lia]. destruct (cg_has_sb_ok (Z.of_nat n)) as (r & Hr & H01 & Hiff); [lia|].
  cbn. rewrite Hr. cbn. specialize (HP (Z.of_nat n) ltac:(lia)).
  destruct (P (Z.of_nat n)), (Z.eqb_spec r 0); cbn; f_equal; try lia; exfalso; intuition (congruence || lia).
Qed.

(** The groups that carry file system structures besides their bitmaps. *)
Definition sb_copies (fs : m_ext2fs) (P : Z -> bool) : Z :=
  if (e2fs_rev (m_e2fs fs) >? E2FS_REV0)
     && has_feature (e2fs_features_rocompat (m_e2fs fs)) EXT2F_ROCOMPAT_SPARSESUPER
  then sb_groups_below (Z.to_nat (m_gcount fs)) P else m_gcount fs.

Definition gd_blocks (fs : m_ext2fs) : Z :=
  m_gdbcount fs +
  (if (e2fs_rev (m_e2fs fs) >? E2FS_REV0)
      && has_feature (e2fs_features_compat (m_e2fs fs)) EXT2F_COMPAT_RESIZE
   then e2fs_reserved_ngdb (m_e2fs fs) else 0).

(** Blocks taken by file system structures. *)
Definition overhead_spec (fs : m_ext2fs) (P : Z -> bool) : Z :=
  e2fs_first_dblock (m_e2fs fs) + m_gcount fs * (2 + m_itpg fs) + sb_copies fs P * (1 + gd_blocks fs).

(** C40: The block count [ext2_statfs_internal] reports is the volume's blocks
    less the blocks before the first data block, the bitmaps and inode tables
    of every group, and the superblock and descriptor copies of the groups that
    hold them; the blocks available are the free ones less the reserve, never
    below zero. *)
Theorem statfs_internal_spec fs (P : Z -> bool) :
  (forall i, 0 <= i < m_gcount fs -> P i = true <-> sb_group i) ->
  e2fs_magic (m_e2fs fs) = E2FS_MAGIC -> 0 < m_gcount fs <= 3 ^ 11 ->
  0 <= m_itpg fs -> 0 <= m_gdbcount fs -> 0 <= e2fs_reserved_ngdb (m_e2fs fs) ->
  0 <= e2fs_first_dblock (m_e2fs fs) -> u32_ok (e2fs_bcount (m_e2fs fs)) ->
  overhead_spec fs P <= e2fs_bcount (m_e2fs fs) ->
  exists st, statfs_internal fs = Ok (inl st) /\
    f_blocks st = e2fs_bcount (m_e2fs fs) - overhead_spec fs P /\
    f_bfree st = e2fs_fbcount (m_e2fs fs) /\
    f_bavail st = Z.max 0 (e2fs_fbcount (m_e2fs fs) - e2fs_rbcount (m_e2fs fs)).
Proof.
  intros HP Hm Hgc Hit Hgdb Hres Hfd Hbc Hov. unfold statfs_internal. rewrite Hm, Z.eqb_refl. cbn [negb].
  assert (s32 (m_gcount fs) = m_gcount fs) as -> by (apply s32_id; unfold s32_ok; lia).
  assert ((if (e2fs_rev (m_e2fs fs) >? E2FS_REV0) && has_feature (e2fs_features_rocompat (m_e2fs fs))
      EXT2F_ROCOMPAT_SPARSESUPER then count_sb_groups (Z.to_nat (m_gcount fs)) else mret (m_gcount fs))
    = Ok (sb_copies fs P)) as ->.
  { unfold sb_copies. case_match; [|done]. apply count_sb_groups_ok; [intros i Hi; apply HP; lia|lia]. }
  cbn [mbind res_bind].
  assert (1 <= sb_copies fs P <= m_gcount fs) as Hcp.
  { unfold sb_copies. case_match; [|lia]. pose proof (sb_groups_below_range (Z.to_nat (m_gcount fs)) P).
    split; [|lia]. apply sb_groups_below_pos; [lia|]. apply HP; [lia|]. by left. }
  assert (0 <= gd_blocks fs) by (unfold gd_blocks; case_match; lia).
  unfold overhead_spec in *.
  assert (1 + gd_blocks fs <= sb_copies fs P * (1 + gd_blocks fs)) by nia.
  assert (2 + m_itpg fs <= m_gcount fs * (2 + m_itpg fs)) by nia. unfold u32_ok in Hbc.
  assert ((if (e2fs_rev (m_e2fs fs) >? E2FS_REV0) && has_feature (e2fs_features_compat (m_e2fs fs))
      EXT2F_COMPAT_RESIZE then u32 (m_gdbcount fs + e2fs_reserved_ngdb (m_e2fs fs)) else m_gdbcount fs)
    = gd_blocks fs) as ->.
  { unfold gd_blocks in *. case_match; [apply u32_id; unfold u32_ok|]; lia. }
  assert (u32 (1 + 1 + m_itpg fs) = 2 + m_itpg fs) as -> by (rewrite u32_id; [lia|unfold u32_ok; lia]).
  rewrite (u32_id (sb_copies fs P)) by (unfold u32_ok; lia).
  rewrite (u32_id (e2fs_first_dblock _ + _)) by (unfold u32_ok; lia).
  rewrite (u32_id (e2fs_first_dblock _ + _ + _)) by (unfold u32_ok; lia).
  rewrite (u32_id (e2fs_bcount _ - _)) by (unfold u32_ok; lia).
  eexists. split; [done|]. cbn. split; [lia|]. split; [done|]. case_match; lia.
Qed.
