(* ===== verification/SuperExamples.v ===== *)
(** A small superblock on which the theorems of Super.v apply. *)
From S2P Require Import Prelude Bitmap Bytes Super.

(** 33 blocks of 1024 bytes in two groups of sixteen. *)
Definition es0 : ext2fs :=
  mk_ext2fs 16 33 1 20 13 1 0 0 16 16 8 0 0 0 20 E2FS_MAGIC 1 1 0 0 0 0 1 0 0 11 128 0 0 2 1
    [] [] [] 0 0 0 0 [] 0 0 0 [] 0 0 0 0 0 0 [] 0 0 0 0 0 0 0 0 0 0 0 0 0 0.

(** The same with a journal to recover. *)
Definition es0_recover : ext2fs :=
  mk_ext2fs 16 33 1 20 13 1 0 0 16 16 8 0 0 0 20 E2FS_MAGIC 1 1 0 0 0 0 1 0 0 11 128 0 4 6 1
    [] [] [] 0 0 0 0 [] 0 0 0 [] 0 0 0 0 0 0 [] 0 0 0 0 0 0 0 0 0 0 0 0 0 0.

Definition fs0 : m_ext2fs :=
  mk_m_ext2fs es0 1024 10 16 1023 1 8 8 1 1024 1 16 1 2 128 0 [0; 0] 0x7fffffff (replicate 64 0) 32.

Definition bread0 (b n : Z) : list Z + Z := inl (replicate (Z.to_nat n) 0).

(** The backup groups among the small ones. *)
Definition sb_group_b (i : Z) : bool :=
  match cg_has_sb i with Ok r => r =? 1 | Fault _ => false end.

Lemma mountfs_never_replays_rev1_witness :
  e2fs_rev es0_recover <> E2FS_REV0 /\
  mountfs_replays es0_recover false true = false /\
  (sb_mountable es0_recover true ->
   has_feature (e2fs_features_incompat es0_recover) EXT2F_INCOMPAT_RECOVER = true ->
   mountfs_admit es0_recover false true = Some EROFS).
Proof. split; [discriminate|]. apply mountfs_never_replays_rev1. discriminate. Defined.

Lemma compute_sb_data_geometry_witness :
  check_sb_compat es0 false = 0 /\
  ((exists errno, compute_sb_data bread0 es0 = Ok (inr errno)) \/
   (exists fs n, sb_geometry es0 = Ok (inl (fs, n)) /\
     if n * m_bsize fs <? 2 ^ 32
     then exists fs', compute_sb_data bread0 es0 = Ok (inl fs') /\ m_e2fs fs' = es0 /\ geometry_ok fs' /\
            zlen (m_gd fs') = gd_alloc (m_bsize fs) n
     else compute_sb_data bread0 es0 = Fault OutOfBounds)).
Proof.
  split; [reflexivity|]. apply (compute_sb_data_geometry bread0 es0 false); try (vm_compute; congruence).
  - constructor; vm_compute; discriminate.
  - intros b n d Hn [= <-]. unfold zlen. rewrite length_replicate. lia.
Defined.

(** An image of 2^30 blocks of 4096 bytes in groups of eight is admitted. Its
    table has 2^20 blocks, for which the product of 32 bits is zero: the first
    block of descriptors is copied behind what was allocated. *)
Definition es_many : ext2fs :=
  mk_ext2fs 16 (2 ^ 30) 1 20 13 0 2 2 8 8 32 0 0 0 20 E2FS_MAGIC 1 1 0 0 0 0 1 0 0 11 128 0 0 2 1
    [] [] [] 0 0 0 0 [] 0 0 0 [] 0 0 0 0 0 0 [] 0 0 0 0 0 0 0 0 0 0 0 0 0 0.

Lemma gd_table_overflow : mountfs_admit es_many false false = None /\ gd_alloc 4096 (2 ^ 20) = 0 /\
  compute_sb_data bread0 es_many = Fault OutOfBounds.
Proof. split_and!; vm_compute; reflexivity. Qed.

Definition gd0 : ext2_gd := mk_gd 3 4 5 8 5 1 0 0 0 0 0 0.

Lemma EXT2_GD_store_get_witness :
  exists tbl', EXT2_GD_store (replicate 64 0) 32 1 gd0 = Ok tbl' /\ EXT2_GD tbl' 32 1 = Ok gd0 /\
    (forall cg', cg' <> 1 -> EXT2_GD tbl' 32 cg' = EXT2_GD (replicate 64 0) 32 cg').
Proof.
  eexists. split; [reflexivity|]. apply (EXT2_GD_store_get (replicate 64 0) 32 1 gd0); [lia| |reflexivity].
  repeat constructor; vm_compute; congruence.
Defined.

Lemma geometry_ok0 : geometry_ok fs0.
Proof. constructor; vm_compute; try done; auto; split; congruence. Qed.

Lemma dtog_dtogd_witness :
  0 <= dtog fs0 20 < m_gcount fs0 /\ 0 <= dtogd fs0 20 < m_bpg fs0 /\
  dtog fs0 20 * m_bpg fs0 + e2fs_first_dblock (m_e2fs fs0) + dtogd fs0 20 = 20.
Proof.
  apply (dtog_dtogd fs0 20 geometry_ok0); vm_compute; [congruence|split; congruence].
Defined.

Lemma sb_group_b_ok i : 0 <= i < m_gcount fs0 -> sb_group_b i = true <-> sb_group i.
Proof.
  intros Hi. change (m_gcount fs0) with 2 in Hi. destruct (cg_has_sb_ok i) as (r & Hr & H01 & Hiff); [lia|].
  unfold sb_group_b. rewrite Hr. rewrite <- Hiff. apply Z.eqb_eq.
Qed.

Lemma statfs_internal_spec_witness :
  exists st, statfs_internal fs0 = Ok (inl st) /\
    f_blocks st = e2fs_bcount (m_e2fs fs0) - overhead_spec fs0 sb_group_b /\
    f_bfree st = e2fs_fbcount (m_e2fs fs0) /\
    f_bavail st = Z.max 0 (e2fs_fbcount (m_e2fs fs0) - e2fs_rbcount (m_e2fs fs0)).
Proof.
  apply (statfs_internal_spec fs0 sb_group_b sb_group_b_ok);
    try (vm_compute; congruence); vm_compute; split; congruence.
Defined.
