(* ===== verification/Ihash.v ===== *)
(** The hash of in-core inodes, ext2_ihash.c, with the lists of <sys/queue.h>
    as the pointers they are: the table holds the first inode of each chain, an
    inode the one after it and where the pointer to it is stored. *)
From stdpp Require Import gmap.
From S2P Require Import Prelude Super.

(** Where a [struct inode *] is stored: [&head->lh_first] of a chain, or
    [&ip->i_hash.le_next] of an inode. *)
Inductive link : Type := Head (chain : Z) | Next (ip : Z).

#[export] Instance link_eq_dec : EqDecision link.
Proof. solve_decision. Defined.

(** What the hash uses of a struct inode. *)
Record hinode : Type := mk_hinode {
  h_number : Z;
  h_ump : Z;
  h_vnode : option Z;
  h_vid : Z;
  le_next : option Z;
  le_prev : option link
}.

Definition hinode_eta (i : hinode) : hinode :=
  mk_hinode (h_number i) (h_ump i) (h_vnode i) (h_vid i) (le_next i) (le_prev i).
Definition upd_le_next : (option Z -> option Z) -> hinode -> hinode := ltac:(mk_setter hinode_eta le_next).
Definition upd_le_prev : (option link -> option link) -> hinode -> hinode := ltac:(mk_setter hinode_eta le_prev).

(** The three statics of the file, the inodes in memory, and a count of the
    calls that let other threads run. The mutex is allocated or not, and locked
    or not. *)
Record ihash : Type := mk_ihash {
  ih_tbl : option (list (option Z));
  ih_mask : Z;
  ih_mtx : option bool;
  ih_inodes : gmap Z hinode;
  ih_tick : nat
}.

Definition ihash_eta (h : ihash) : ihash := mk_ihash (ih_tbl h) (ih_mask h) (ih_mtx h) (ih_inodes h) (ih_tick h).
Definition upd_ih_tbl : (option (list (option Z)) -> option (list (option Z))) -> ihash -> ihash := ltac:(mk_setter ihash_eta ih_tbl).
Definition upd_ih_mask : (Z -> Z) -> ihash -> ihash := ltac:(mk_setter ihash_eta ih_mask).
Definition upd_ih_mtx : (option bool -> option bool) -> ihash -> ihash := ltac:(mk_setter ihash_eta ih_mtx).
Definition upd_ih_inodes : (gmap Z hinode -> gmap Z hinode) -> ihash -> ihash := ltac:(mk_setter ihash_eta ih_inodes).
Definition upd_ih_tick : (nat -> nat) -> ihash -> ihash := ltac:(mk_setter ihash_eta ih_tick).

(** What the kernel answers: whether an allocation gives NULL, the errno of the
    [n]-th [vnode_getwithvid], and what other threads do before this one gets
    the mutex. *)
Class HashEnv : Type := mk_hash_env {
  he_desiredvnodes : Z;
  he_malloc_null : bool;
  he_lck_null : bool;
  he_getwithvid : nat -> Z -> Z -> Z;
  he_sched : nat -> ihash -> ihash
}.

Section ihash.
Context `{HashEnv}.

Abbreviation HM := (M ihash).

(** [lck_mtx_lock] and [lck_mtx_unlock] of [ext2_ihash_mtx]. *)
Definition hash_lock : HM unit := fun h =>
  match ih_mtx h with
  | Some false => Ok (tt, upd_ih_tick S (upd_ih_mtx (fun _ => Some true) (he_sched (ih_tick h) h)))
  | Some true => Fault LockMisuse
  | None => Fault NullDeref
  end.
Definition hash_unlock : HM unit := fun h =>
  match ih_mtx h with
  | Some true => Ok (tt, upd_ih_mtx (fun _ => Some false) h)
  | Some false => Fault LockMisuse
  | None => Fault NullDeref
  end.

Definition hash_deref (ip : Z) : HM hinode := fun h =>
  match ih_inodes h !! ip with Some i => Ok (i, h) | None => Fault NullDeref end.
Definition hash_upd (ip : Z) (f : hinode -> hinode) : HM unit := fun h =>
  match ih_inodes h !! ip with
  | Some i => Ok (tt, upd_ih_inodes (insert ip (f i)) h)
  | None => Fault NullDeref
  end.

(** A chain of the table, and a store through a pointer to a pointer. *)
Definition lh_first (chain : Z) : HM (option Z) := fun h =>
  match ih_tbl h with
  | Some t => match t !z chain with Some p => Ok (p, h) | None => Fault OutOfBounds end
  | None => Fault NullDeref
  end.
Definition set_link (l : link) (p : option Z) : HM unit :=
  match l with
  | Head chain => fun h =>
      match ih_tbl h with
      | Some t =>
          if (0 <=? chain) && (chain <? zlen t)
          then Ok (tt, upd_ih_tbl (fun _ => Some (zinsert chain p t)) h) else Fault OutOfBounds
      | None => Fault NullDeref
      end
  | Next ip => hash_upd ip (upd_le_next (fun _ => p))
  end.

(** [LIST_INSERT_HEAD] and [LIST_REMOVE] of <sys/queue.h>. *)
Definition LIST_INSERT_HEAD (chain ip : Z) : HM unit :=
  first ← lh_first chain;
  hash_upd ip (upd_le_next (fun _ => first));;
  (match first with
   | Some ip' => hash_upd ip' (upd_le_prev (fun _ => Some (Next ip)))
   | None => mret tt
   end);;
  set_link (Head chain) (Some ip);;
  hash_upd ip (upd_le_prev (fun _ => Some (Head chain))).

Definition LIST_REMOVE (ip : Z) : HM unit :=
  i ← hash_deref ip;
  (match le_next i with
   | Some ip' => hash_upd ip' (upd_le_prev (fun _ => le_prev i))
   | None => mret tt
   end);;
  i ← hash_deref ip;
  match le_prev i with
  | Some l => set_link l (le_next i)
  | None => halt NullDeref
  end.

(** The index of a chain. *)
Definition EXT2_IHASH (mask ump ino : Z) : Z := Z.land (Z.lxor (Z.shiftr ump 8) ino) mask.

(** The least power of two above [nelem], in an unsigned long. *)
Fixpoint hashsize_loop (fuel : nat) (nelem hashsize : Z) : res Z :=
  if hashsize <=? nelem then
    match fuel with O => Fault NoFuel | S fuel' => hashsize_loop fuel' nelem (u64 (Z.shiftl hashsize 1)) end
  else mret hashsize.

Definition ext2_ihashinit : HM Z :=
  t ← gets ih_tbl;
  match t with
  | Some _ => mret 0
  | None =>
      let nelem := u64 he_desiredvnodes in
      let nelem := if nelem <? 64 then 64 else nelem in
      hashsize ← lift (hashsize_loop 64 nelem 1);
      let hashsize := Z.shiftr hashsize 1 in
      if he_malloc_null then mret ENOMEM
      else
        modify (upd_ih_tbl (fun _ => Some (replicate (Z.to_nat hashsize) None)));;
        if he_lck_null then
          modify (upd_ih_mtx (fun _ => None));;
          modify (upd_ih_tbl (fun _ => None));;
          mret ENOMEM
        else
          modify (upd_ih_mtx (fun _ => Some false));;
          modify (upd_ih_mask (fun _ => hashsize - 1));;
          mret 0
  end.

Definition ext2_ihashdestroy : HM unit :=
  modify (upd_ih_mtx (fun _ => None));;
  modify (upd_ih_tbl (fun _ => None));;
  modify (upd_ih_mask (fun _ => 0)).

(** The walk over a chain: the vnode and the vid of the first inode that is
    the one looked for and has a vnode. *)
Fixpoint hash_walk (fuel : nat) (ump ino : Z) (p : option Z) : HM (option (Z * Z)) :=
  match p with
  | None => mret None
  | Some ip =>
      match fuel with
      | O => halt NoFuel
      | S fuel' =>
          i ← hash_deref ip;
          if negb (h_number i =? ino) || negb (h_ump i =? ump) then hash_walk fuel' ump ino (le_next i)
          else
            match h_vnode i with
            | None => hash_walk fuel' ump ino (le_next i)
            | Some vp => mret (Some (vp, h_vid i))
            end
      end
  end.

(** No chain has more inodes than there are. *)
Definition chain_fuel (h : ihash) : nat := S (size (ih_inodes h)).

Definition vnode_getwithvid (vp vid : Z) : HM Z := fun h => Ok (he_getwithvid (ih_tick h) vp vid, upd_ih_tick S h).

(** [restarts] bounds the jumps back to [restart]. *)
Fixpoint ext2_ihashget (restarts : nat) (ump ino : Z) : HM (Z * option Z) :=
  t ← gets ih_tbl;
  match t with
  | None => mret (0, None)
  | Some _ =>
      hash_lock;;
      mask ← gets ih_mask;
      first ← lh_first (EXT2_IHASH mask ump ino);
      fuel ← gets chain_fuel;
      r ← hash_walk fuel ump ino first;
      match r with
      | None => hash_unlock;; mret (0, None)
      | Some (vp, vid) =>
          hash_unlock;;
          error ← vnode_getwithvid vp vid;
          if negb (error =? 0) then
            match restarts with O => halt NoFuel | S n => ext2_ihashget n ump ino end
          else mret (0, Some vp)
      end
  end.

Definition ext2_ihashins (ip : Z) : HM unit :=
  hash_lock;;
  i ← hash_deref ip;
  mask ← gets ih_mask;
  LIST_INSERT_HEAD (EXT2_IHASH mask (h_ump i) (h_number i)) ip;;
  hash_unlock.

Definition ext2_ihashrem (ip : Z) : HM unit :=
  t ← gets ih_tbl;
  match t with
  | None => mret tt
  | Some _ =>
      hash_lock;;
      i ← hash_deref ip;
      (match le_prev i with
       | Some _ =>
           LIST_REMOVE ip;;
           hash_upd ip (upd_le_prev (fun _ => None));;
           hash_upd ip (upd_le_next (fun _ => None))
       | None => mret tt
       end);;
      hash_unlock
  end.

End ihash.
