(* ===== verification/IhashSpec.v ===== *)
(** The hash of in-core inodes is a set of inodes that can be searched by mount
    and number, whatever other threads do to it between the critical sections. *)
From stdpp Require Import gmap.
From S2P Require Import Prelude Super Ihash.
From stdpp Require Import list.
#[local] Open Scope Z_scope.

(** * Chains *)

(** The inodes [l] are the chain that starts with the pointer [p], which is
    stored at [prev]. *)
Fixpoint seg (I : gmap Z hinode) (prev : link) (p : option Z) (l : list Z) : Prop :=
  match l with
  | [] => p = None
  | ip :: l' => p = Some ip /\ exists i, I !! ip = Some i /\ le_prev i = Some prev /\ seg I (Next ip) (le_next i) l'
  end.

Definition links (i : hinode) : option Z * option link := (le_next i, le_prev i).

(** Two memories that agree on the links of [l]. *)
Definition same_links (I I' : gmap Z hinode) (l : list Z) : Prop := forall ip, ip ∈ l -> links <$> I !! ip = links <$> I' !! ip.

Lemma same_links_at I I' l ip i :
  same_links I I' l -> ip ∈ l -> I !! ip = Some i -> exists i', I' !! ip = Some i' /\ le_next i' = le_next i /\ le_prev i' = le_prev i.
Proof.
  intros Hs Hin Hi. pose proof (Hs ip Hin) as He. rewrite Hi in He.
  destruct (I' !! ip) as [i'|]; [|done]. exists i'. unfold links in He. cbn in He. by simplify_eq.
Qed.

Lemma seg_frame I I' l : forall prev p, same_links I I' l -> seg I prev p l -> seg I' prev p l.
Proof.
  induction l as [|ip l IH]; [done|]. intros prev p Hs [-> (i & Hi & Hp & Hseg)]. split; [done|].
  destruct (same_links_at I I' (ip :: l) ip i Hs) as (i' & Hi' & Hn & Hpv); [left|done|].
  exists i'. split; [done|]. split; [congruence|]. rewrite Hn. apply IH; [|done]. intros q Hq. apply Hs. by right.
Qed.

Lemma same_links_insert I l ip i : ip ∉ l -> same_links I (<[ip := i]> I) l.
Proof. intros Hn q Hq. rewrite lookup_insert_ne; [done|]. by intros ->. Qed.

Lemma same_links_trans I1 I2 I3 l : same_links I1 I2 l -> same_links I2 I3 l -> same_links I1 I3 l.
Proof. intros H1 H2 q Hq. by rewrite (H1 q Hq), (H2 q Hq). Qed.

Lemma seg_mem I l : forall prev p ip, seg I prev p l -> ip ∈ l -> exists i, I !! ip = Some i /\ is_Some (le_prev i).
Proof.
  induction l as [|a l IH]; intros prev p ip Hs Hin; [by apply elem_of_nil in Hin|].
  destruct Hs as [_ (i & Hi & Hp & Hs)]. apply elem_of_cons in Hin as [->|Hin]; [|by eapply IH].
  exists i. split; [done|]. by eexists.
Qed.

(** The pointer to the first inode is stored somewhere else. *)
Definition reprev (prev : link) (p : option Z) (I : gmap Z hinode) : gmap Z hinode :=
  match p with
  | Some ip => match I !! ip with Some i => <[ip := upd_le_prev (fun _ => Some prev) i]> I | None => I end
  | None => I
  end.

Lemma seg_reprev I prev prev' p l : NoDup l -> seg I prev p l -> seg (reprev prev' p I) prev' p l.
Proof.
  destruct l as [|ip l]; [by intros _ ->|]. intros [Hn _]%NoDup_cons [-> (i & Hi & Hp & Hs)]. cbn. rewrite Hi.
  split; [done|]. eexists. rewrite lookup_insert_eq. split; [done|]. split; [done|]. cbn.
  eapply seg_frame; [|exact Hs]. by apply same_links_insert.
Qed.

Lemma reprev_same I prev p l' : (forall ip, p = Some ip -> ip ∉ l') -> same_links I (reprev prev p I) l'.
Proof.
  intros Hn. unfold reprev. destruct p as [ip|]; [|done]. destruct (I !! ip); [|done].
  by apply same_links_insert, Hn.
Qed.

Lemma reprev_other I prev p q : p <> Some q -> reprev prev p I !! q = I !! q.
Proof. unfold reprev. intros Hn. destruct p as [ip|]; [|done]. case_match; [|done]. apply lookup_insert_ne. congruence. Qed.

(** Where the pointer to [ip] is stored. *)
Definition last_link (prev : link) (l : list Z) : link := from_option Next prev (last l).

Lemma last_link_cons prev a l : last_link prev (a :: l) = last_link (Next a) l.
Proof. unfold last_link. rewrite last_cons. by destruct (last l). Qed.

Lemma seg_at I l1 : forall prev p ip l2, seg I prev p (l1 ++ ip :: l2) ->
  exists i, I !! ip = Some i /\ le_prev i = Some (last_link prev l1) /\ seg I (Next ip) (le_next i) l2.
Proof.
  induction l1 as [|a l1 IH]; intros prev p ip l2 Hs.
  - destruct Hs as [_ (i & Hi & Hp & Hs)]. eauto.
  - destruct Hs as [_ (ia & _ & _ & Hs)]. rewrite last_link_cons. by eapply IH.
Qed.

(** What [LIST_REMOVE] leaves of the links. *)
Definition unlink (ip : Z) (i : hinode) (I : gmap Z hinode) : gmap Z hinode :=
  match le_prev i with
  | Some (Next q) =>
      let I := reprev (Next q) (le_next i) I in
      match I !! q with Some j => <[q := upd_le_next (fun _ => le_next i) j]> I | None => I end
  | Some (Head b) => reprev (Head b) (le_next i) I
  | None => I
  end.

Lemma seg_remove I l1 : forall prev p ip i l2, NoDup (l1 ++ ip :: l2) ->
  (forall q, prev = Next q -> q ∉ l1 ++ ip :: l2) -> I !! ip = Some i -> seg I prev p (l1 ++ ip :: l2) ->
  seg (unlink ip i I) prev (match l1 with [] => le_next i | _ => p end) (l1 ++ l2).
Proof.
  induction l1 as [|a l1 IH]; intros prev p ip i l2 Hnd Hq Hi Hs; cbn [app] in *.
  - destruct Hs as [_ (i' & Hi' & Hp & Hs)]. simplify_eq. unfold unlink. rewrite Hp. apply NoDup_cons in Hnd as [Hnot Hnd].
    destruct prev as [b|q]; [by eapply seg_reprev|]. cbn zeta.
    assert (q ∉ l2) as Hq2 by (specialize (Hq q eq_refl); set_solver).
    pose proof (seg_reprev I _ (Next q) _ _ Hnd Hs) as Hs'. case_match; [|done].
    eapply seg_frame; [|exact Hs']. by apply same_links_insert.
  - destruct Hs as [-> (ia & Hia & Hpa & Hs)]. apply NoDup_cons in Hnd as [Hna Hnd]. split; [done|].
    pose proof (IH (Next a) (le_next ia) ip i l2 Hnd ltac:(intros q [= <-]; done) Hi Hs) as IHs.
    destruct (seg_at I l1 _ _ _ _ Hs) as (i' & Hi' & Hpi & Hsi). simplify_eq.
    assert (le_next i <> Some a) as Hna'.
    { intros Heq. destruct l2 as [|c l2]; cbn in Hsi; [congruence|]. destruct Hsi as [Hc _]. simplify_eq. set_solver. }
    destruct l1 as [|a' l1].
    + cbn in Hpi. exists (upd_le_next (fun _ => le_next i) ia). split; [|by split].
      unfold unlink. rewrite Hpi. cbn zeta. rewrite reprev_other, Hia by done. by rewrite lookup_insert_eq.
    + exists ia. split; [|by split]. unfold unlink. rewrite Hpi. unfold last_link.
      destruct (last (a' :: l1)) as [q|] eqn:El; cbn [from_option]; [|by apply last_None in El].
      assert (q <> a) as Hqa. { intros ->. apply Hna. apply elem_of_app. left. by apply last_Some_elem_of in El. }
      case_match; [rewrite lookup_insert_ne by done|]; by rewrite reprev_other.
Qed.

(** * The table *)

Definition key (i : hinode) : Z * Z * option Z * Z := (h_number i, h_ump i, h_vnode i, h_vid i).
Definition chain_of (h : ihash) (i : hinode) : Z := EXT2_IHASH (ih_mask h) (h_ump i) (h_number i).

(** The chains [C] are what the table holds, and an inode is on the chain of its
    number and mount exactly when its [le_prev] is not NULL. *)
Record hash_ok (h : ihash) (C : Z -> list Z) : Prop := mk_hash_ok {
  hk_mtx : is_Some (ih_mtx h);
  hk_mask : 0 <= ih_mask h;
  hk_tbl : exists t, ih_tbl h = Some t /\ zlen t = ih_mask h + 1 /\
    forall b p, t !z b = Some p -> seg (ih_inodes h) (Head b) p (C b);
  hk_nodup : forall b, NoDup (C b);
  hk_chain : forall b ip, ip ∈ C b -> exists i, ih_inodes h !! ip = Some i /\ b = chain_of h i;
  hk_hashed : forall ip i, ih_inodes h !! ip = Some i -> is_Some (le_prev i) -> ip ∈ C (chain_of h i)
}.

(** The inodes that are in the hash. *)
Definition is_hashed (h : ihash) (ip : Z) : Prop := exists i, ih_inodes h !! ip = Some i /\ is_Some (le_prev i).

Lemma chain_range h i : 0 <= ih_mask h -> 0 <= chain_of h i <= ih_mask h.
Proof.
  intros Hm. unfold chain_of, EXT2_IHASH. set (x := Z.lxor _ _). split; [apply Z.land_nonneg; by right|].
  assert (Z.ldiff (Z.land x (ih_mask h)) (ih_mask h) = 0) as Hd.
  { apply Z.bits_inj'. intros n _. rewrite Z.ldiff_spec, Z.land_spec, Z.bits_0. by destruct (Z.testbit x n), (Z.testbit (ih_mask h) n). }
  apply Z.sub_nocarry_ldiff in Hd. assert (0 <= Z.ldiff (ih_mask h) (Z.land x (ih_mask h))); [|lia].
  apply Z.ldiff_nonneg. by left.
Qed.

Lemma hashed_chain h C ip i : hash_ok h C -> ih_inodes h !! ip = Some i -> is_Some (le_prev i) <-> ip ∈ C (chain_of h i).
Proof.
  intros Hok Hi. split; [by apply (hk_hashed _ _ Hok)|]. intros Hin. destruct (hk_tbl _ _ Hok) as (t & _ & Hlen & Hseg).
  pose proof (chain_range h i (hk_mask _ _ Hok)).
  destruct (zlookup_lt t (chain_of h i)) as [p Hp]; [lia|].
  destruct (seg_mem _ _ _ _ _ (Hseg _ _ Hp) Hin) as (i' & Hi' & Hs). by simplify_eq.
Qed.

Lemma chain_hashed h C b ip : hash_ok h C -> ip ∈ C b -> is_hashed h ip.
Proof.
  intros Hok Hin. destruct (hk_chain _ _ Hok _ _ Hin) as (i & Hi & ->). exists i. split; [done|]. by apply (hashed_chain h C ip i Hok Hi).
Qed.

(** A change of the links of one chain, and of one inode that belongs to it. *)
Record relinked (h h' : ihash) (b : Z) (p' : option Z) (S : list Z) : Prop := mk_relinked {
  rl_mtx : is_Some (ih_mtx h');
  rl_mask : ih_mask h' = ih_mask h;
  rl_tbl : ih_tbl h' = zinsert b p' <$> ih_tbl h;
  rl_key : forall q, key <$> ih_inodes h' !! q = key <$> ih_inodes h !! q;
  rl_links : forall l, (forall q, q ∈ l -> q ∉ S) -> same_links (ih_inodes h) (ih_inodes h') l
}.

Lemma key_chain h h' i i' : ih_mask h' = ih_mask h -> key i' = key i -> chain_of h' i' = chain_of h i.
Proof. unfold chain_of, key. intros -> [= -> -> _ _]. done. Qed.

Lemma relinked_inode h h' b p' S q i' : relinked h h' b p' S -> ih_inodes h' !! q = Some i' ->
  exists i, ih_inodes h !! q = Some i /\ key i = key i' /\ chain_of h i = chain_of h' i'.
Proof.
  intros Hr Hi. pose proof (rl_key _ _ _ _ _ Hr q) as Hk. rewrite Hi in Hk. destruct (ih_inodes h !! q) as [i|]; [|done].
  apply (inj Some) in Hk. exists i. split; [done|]. split; [done|]. symmetry. by apply key_chain; [apply Hr|].
Qed.

Lemma relinked_inode_back h h' b p' S q i : relinked h h' b p' S -> ih_inodes h !! q = Some i ->
  exists i', ih_inodes h' !! q = Some i' /\ key i' = key i /\ chain_of h' i' = chain_of h i.
Proof.
  intros Hr Hi. pose proof (rl_key _ _ _ _ _ Hr q) as Hk. rewrite Hi in Hk. destruct (ih_inodes h' !! q) as [i'|] eqn:Hi'; [|done].
  apply (inj Some) in Hk. exists i'. split; [done|]. split; [done|]. by apply key_chain; [apply Hr|].
Qed.

Lemma hash_ok_relinked h h' C ip i b p' l' :
  hash_ok h C -> ih_inodes h !! ip = Some i -> b = chain_of h i -> relinked h h' b p' (ip :: C b) ->
  seg (ih_inodes h') (Head b) p' l' -> NoDup l' -> (forall q, q ∈ l' -> q ∈ ip :: C b) ->
  (forall q j, q ∈ ip :: C b -> q ∉ l' -> ih_inodes h' !! q = Some j -> le_prev j = None) ->
  hash_ok h' (fun c => if c =? b then l' else C c).
Proof.
  intros Hok Hi -> Hr Hseg Hnd Hsub Hout. destruct Hok as [Hmtx Hmask (t & Ht & Hlen & Hsegs) Hnds Hch Hha] eqn:E. clear E.
  set (b := chain_of h i) in *. pose proof (chain_range h i Hmask) as Hb. fold b in Hb.
  assert (forall q c, q ∈ C c -> c <> b -> q ∉ ip :: C b) as Hdisj.
  { intros q c Hq Hc. destruct (Hch _ _ Hq) as (j & Hj & ->). rewrite not_elem_of_cons. split.
    - intros ->. by simplify_eq.
    - intros Hq'. destruct (Hch _ _ Hq') as (j' & Hj' & ?). by simplify_eq. }
  constructor.
  - apply Hr.
  - by rewrite (rl_mask _ _ _ _ _ Hr).
  - exists (zinsert b p' t). rewrite (rl_tbl _ _ _ _ _ Hr), Ht, (rl_mask _ _ _ _ _ Hr), zlen_zinsert. split; [done|]. split; [done|].
    intros c p Hc. destruct (Z.eqb_spec c b) as [->|Hne]; [rewrite zlookup_zinsert_eq in Hc by lia; by simplify_eq|].
    rewrite zlookup_zinsert_ne in Hc by lia. eapply seg_frame; [|by apply Hsegs]. apply (rl_links _ _ _ _ _ Hr).
    intros q Hq. by eapply Hdisj.
  - intros c. by case_match.
  - intros c q. case_match eqn:Ec.
    + apply Z.eqb_eq in Ec as ->. intros Hq%Hsub. apply elem_of_cons in Hq as [->|Hq].
      * destruct (relinked_inode_back _ _ _ _ _ _ _ Hr Hi) as (i' & Hi' & _ & Hc). by exists i'.
      * destruct (Hch _ _ Hq) as (j & Hj & Hbj). destruct (relinked_inode_back _ _ _ _ _ _ _ Hr Hj) as (j' & Hj' & _ & Hc).
        exists j'. split; [done|congruence].
    + intros Hq. destruct (Hch _ _ Hq) as (j & Hj & Hbj). destruct (relinked_inode_back _ _ _ _ _ _ _ Hr Hj) as (j' & Hj' & _ & Hc).
      exists j'. split; [done|congruence].
  - intros q j' Hj' Hs. destruct (relinked_inode _ _ _ _ _ _ _ Hr Hj') as (j & Hj & _ & Hc). rewrite <- Hc.
    destruct (decide (q ∈ ip :: C b)) as [Hin|Hin].
    + assert (chain_of h j = b) as ->.
      { apply elem_of_cons in Hin as [->|Hin]; [by simplify_eq|]. destruct (Hch _ _ Hin) as (j2 & Hj2 & ->). by simplify_eq. }
      rewrite Z.eqb_refl. destruct (decide (q ∈ l')) as [|Hn]; [done|]. rewrite (Hout q j' Hin Hn Hj') in Hs. by destruct Hs.
    + assert (is_Some (le_prev j)) as Hsj.
      { pose proof (rl_links _ _ _ _ _ Hr [q] ltac:(set_solver) q ltac:(set_solver)) as Hl. rewrite Hj, Hj' in Hl.
        unfold links in Hl. cbn in Hl. simplify_eq. congruence. }
      pose proof (Hha q j Hj Hsj) as Hq. destruct (Z.eqb_spec (chain_of h j) b) as [Heq|]; [|done].
      rewrite Heq in Hq. set_solver.
Qed.

(** * The operations *)

Lemma wp_hash_deref (Q : hinode -> ihash -> Prop) h ip i : ih_inodes h !! ip = Some i -> Q i h -> wp (hash_deref ip) Q h.
Proof. intros Hi HQ. unfold wp, hash_deref. by rewrite Hi. Qed.

Lemma wp_hash_upd (Q : unit -> ihash -> Prop) h ip i f :
  ih_inodes h !! ip = Some i -> Q tt (upd_ih_inodes (insert ip (f i)) h) -> wp (hash_upd ip f) Q h.
Proof. intros Hi HQ. unfold wp, hash_upd. by rewrite Hi. Qed.

Lemma wp_lh_first (Q : option Z -> ihash -> Prop) h t b p : ih_tbl h = Some t -> t !z b = Some p -> Q p h -> wp (lh_first b) Q h.
Proof. intros Ht Hp HQ. unfold wp, lh_first. by rewrite Ht, Hp. Qed.

Lemma wp_set_head (Q : unit -> ihash -> Prop) h t b p :
  ih_tbl h = Some t -> 0 <= b < zlen t -> Q tt (upd_ih_tbl (fun _ => Some (zinsert b p t)) h) -> wp (set_link (Head b) p) Q h.
Proof.
  intros Ht Hb HQ. unfold wp, set_link. rewrite Ht.
  destruct (Z.leb_spec 0 b), (Z.ltb_spec b (zlen t)); [done|lia..].
Qed.

(** The store of [le_prev] in the first inode of a chain. *)
Lemma wp_reprev (Q : unit -> ihash -> Prop) h prev p :
  (forall q, p = Some q -> is_Some (ih_inodes h !! q)) ->
  Q tt (upd_ih_inodes (fun I => reprev prev p I) h) ->
  wp (match p with Some q => hash_upd q (upd_le_prev (fun _ => Some prev)) | None => mret tt end) Q h.
Proof.
  intros Hp HQ. destruct p as [q|]; [|by destruct h]. destruct (Hp q eq_refl) as [j Hj].
  eapply wp_hash_upd; [done|]. revert HQ. unfold upd_ih_inodes, reprev. by rewrite Hj.
Qed.

Lemma seg_first I prev q l : seg I prev (Some q) l -> exists l', l = q :: l' /\ is_Some (I !! q).
Proof. destruct l as [|a l]; [done|]. intros [[= ->] (i & Hi & _)]. exists l. split; [done|by exists i]. Qed.

Lemma insert_wp (Q : unit -> ihash -> Prop) h C ip i :
  hash_ok h C -> ih_inodes h !! ip = Some i -> le_prev i = None -> let b := chain_of h i in
  (forall h', hash_ok h' (fun c => if c =? b then ip :: C b else C c) ->
     relinked h h' b (Some ip) (ip :: C b) -> ih_mtx h' = ih_mtx h -> ih_tick h' = ih_tick h -> Q tt h') ->
  wp (LIST_INSERT_HEAD b ip) Q h.
Proof.
  intros Hok Hi Hprev b HQ. pose proof (chain_range h i (hk_mask _ _ Hok)) as Hb. fold b in Hb.
  assert (ip ∉ C b) as Hnot by (intros Hin; apply (hashed_chain h C ip i Hok Hi) in Hin; rewrite Hprev in Hin; by destruct Hin).
  destruct (hk_tbl _ _ Hok) as (t & Ht & Hlen & Hsegs). destruct (zlookup_lt t b) as [p Hp]; [lia|].
  pose proof (Hsegs _ _ Hp) as Hseg. pose proof (hk_nodup _ _ Hok b) as Hnd.
  assert (forall q, p = Some q -> q <> ip /\ is_Some (ih_inodes h !! q)) as Hfirst.
  { intros q ->. destruct (seg_first _ _ _ _ Hseg) as (l' & Hl & Hq). split; [|done]. intros ->. rewrite Hl in Hnot. set_solver. }
  unfold LIST_INSERT_HEAD. wp_steps. eapply wp_lh_first; [done..|]. wp_steps. eapply wp_hash_upd; [done|]. wp_steps.
  apply wp_reprev; [intros q Hq; cbn; destruct (Hfirst q Hq); by rewrite lookup_insert_ne|]. wp_steps.
  eapply wp_set_head; [done|lia|]. set (i1 := upd_le_next (fun _ => p) i).
  assert (reprev (Next ip) p (<[ip := i1]> (ih_inodes h)) !! ip = Some i1) as Hi1.
  { rewrite reprev_other, lookup_insert_eq; [done|]. intros ->. by destruct (Hfirst ip eq_refl). }
  eapply wp_hash_upd; [exact Hi1|]. set (h' := upd_ih_inodes _ _).
  assert (relinked h h' b (Some ip) (ip :: C b)) as Hr.
  { constructor; [by apply Hok|done|by rewrite Ht| |].
    - intros q. unfold h'. cbn. destruct (decide (q = ip)) as [->|Hne]; [by rewrite lookup_insert_eq, Hi|].
      rewrite lookup_insert_ne by done. unfold reprev. destruct p as [q'|]; [|by rewrite lookup_insert_ne].
      destruct (Hfirst q' eq_refl) as [Hq' [j Hj]]. rewrite lookup_insert_ne, Hj by done.
      destruct (decide (q = q')) as [->|]; [by rewrite lookup_insert_eq, Hj|]. by rewrite !lookup_insert_ne.
    - intros l Hl. unfold h'. cbn. eapply same_links_trans; [apply (same_links_insert _ l ip i1); intros H1; apply (Hl _ H1); left|].
      eapply same_links_trans; [apply (reprev_same _ (Next ip) p l)|apply same_links_insert; intros H1; apply (Hl _ H1); left].
      intros q -> Hq. destruct (seg_first _ _ _ _ Hseg) as (l' & Hl' & _). apply (Hl q Hq). rewrite Hl'. right. left. }
  apply HQ; [|done|done|done]. eapply (hash_ok_relinked h h' C ip i b); try done.
  - split; [done|]. exists (upd_le_prev (fun _ => Some (Head b)) i1). split; [unfold h'; cbn; by rewrite lookup_insert_eq|].
    split; [done|]. cbn. eapply seg_frame; [by apply same_links_insert|]. apply seg_reprev with (prev := Head b); [done|].
    eapply seg_frame; [|exact Hseg]. by apply same_links_insert.
  - by apply NoDup_cons.
Qed.

Lemma wp_set_link_next (Q : unit -> ihash -> Prop) h q j p :
  ih_inodes h !! q = Some j -> Q tt (upd_ih_inodes (insert q (upd_le_next (fun _ => p) j)) h) -> wp (set_link (Next q) p) Q h.
Proof. intros Hj HQ. by eapply wp_hash_upd. Qed.

(** Key and links of a memory after [reprev] and [unlink]. *)
Lemma reprev_key prev p I q : key <$> reprev prev p I !! q = key <$> I !! q.
Proof.
  unfold reprev. destruct p as [a|]; [|done]. case_match eqn:Ha; [|done].
  destruct (decide (a = q)) as [->|]; [by rewrite lookup_insert_eq, Ha|]. by rewrite lookup_insert_ne.
Qed.

Lemma insert_key (I : gmap Z hinode) a j f q : I !! a = Some j -> key (f j) = key j -> key <$> <[a := f j]> I !! q = key <$> I !! q.
Proof. intros Ha Hf. destruct (decide (a = q)) as [->|]; [rewrite lookup_insert_eq, Ha; cbn; by f_equal|]. by rewrite lookup_insert_ne. Qed.

Lemma unlink_key ip i I q : key <$> unlink ip i I !! q = key <$> I !! q.
Proof.
  unfold unlink. destruct (le_prev i) as [[b|a]|]; [apply reprev_key| |done]. cbn zeta.
  case_match eqn:Ha; [|apply reprev_key]. rewrite insert_key by done. apply reprev_key.
Qed.

(** The removal of a hashed inode, with its links cleared. *)
Definition remove_and_clear `{HashEnv} (ip : Z) : M ihash unit :=
  LIST_REMOVE ip;; hash_upd ip (upd_le_prev (fun _ => None));; hash_upd ip (upd_le_next (fun _ => None)).

Definition cleared (i : hinode) : hinode := upd_le_next (fun _ => None) (upd_le_prev (fun _ => None) i).

Lemma unlink_same ip i I l1 l2 b p l :
  seg I (Head b) p (l1 ++ ip :: l2) -> I !! ip = Some i -> NoDup (l1 ++ ip :: l2) ->
  (forall q, q ∈ l -> q ∉ l1 ++ ip :: l2) -> same_links I (unlink ip i I) l.
Proof.
  intros Hseg Hi Hnd Hl. destruct (seg_at _ _ _ _ _ _ Hseg) as (i' & Hi' & Hlink & Hs2). simplify_eq.
  assert (same_links I (reprev (last_link (Head b) l1) (le_next i) I) l) as Hre.
  { apply reprev_same. intros q Hq Hin. apply (Hl q Hin). rewrite Hq in Hs2. destruct (seg_first _ _ _ _ Hs2) as (l' & -> & _). set_solver. }
  unfold unlink. rewrite Hlink. unfold last_link in *. destruct (last l1) as [q|] eqn:El; cbn [from_option] in *; [|done].
  case_match; [|done]. eapply same_links_trans; [exact Hre|]. apply same_links_insert. intros Hin. apply (Hl q Hin).
  apply elem_of_app. left. by apply last_Some_elem_of in El.
Qed.

Section remove.
Context (h : ihash) (t : list (option Z)) (b ip : Z) (i : hinode) (p : option Z) (l1 l2 : list Z).
Context (Ht : ih_tbl h = Some t) (Hb : 0 <= b < zlen t) (Hp : t !z b = Some p) (Hi : ih_inodes h !! ip = Some i).
Context (Hseg : seg (ih_inodes h) (Head b) p (l1 ++ ip :: l2)) (Hnd : NoDup (l1 ++ ip :: l2)).
#[local] Abbreviation lk := (last_link (Head b) l1).

Lemma remove_link : le_prev i = Some lk /\ seg (ih_inodes h) (Next ip) (le_next i) l2.
Proof. destruct (seg_at _ _ _ _ _ _ Hseg) as (i' & Hi' & Hlink & Hs2). by simplify_eq. Qed.

Lemma remove_apart : ip ∉ l1 /\ ip ∉ l2.
Proof. apply NoDup_app in Hnd as (_ & Hd & [? _]%NoDup_cons). split; [intros H1; apply (Hd _ H1); left|done]. Qed.

Lemma remove_next q : le_next i = Some q -> q ∈ l2 /\ is_Some (ih_inodes h !! q).
Proof.
  intros Hq. destruct remove_link as [_ Hs2]. rewrite Hq in Hs2.
  destruct (seg_first _ _ _ _ Hs2) as (l' & -> & ?). split; [left|done].
Qed.

Lemma remove_reprev : reprev lk (le_next i) (ih_inodes h) !! ip = Some i.
Proof. rewrite reprev_other; [done|]. intros Heq. destruct (remove_next ip Heq) as [? _]. by destruct remove_apart. Qed.

(** The inode before, when there is one. *)
Lemma remove_before q : last l1 = Some q -> q <> ip /\ is_Some (reprev lk (le_next i) (ih_inodes h) !! q).
Proof.
  intros El. apply last_Some_elem_of in El. split; [intros ->; by destruct remove_apart|]. rewrite reprev_other.
  - destruct (seg_mem _ _ _ _ q Hseg) as (j & Hj & _); [set_solver|by exists j].
  - intros Heq. destruct (remove_next q Heq) as [Hq2 _]. apply NoDup_app in Hnd as (_ & Hd & _). apply (Hd q El). by right.
Qed.

Lemma unlink_self : unlink ip i (ih_inodes h) !! ip = Some i.
Proof.
  pose proof remove_reprev as Hr. pose proof remove_before as Hbef. unfold unlink. rewrite (proj1 remove_link).
  unfold last_link in *. destruct (last l1) as [q|]; cbn [from_option] in *; [|done].
  destruct (Hbef q eq_refl) as [? _]. case_match; [by rewrite lookup_insert_ne|done].
Qed.

(** The pointer to the first inode of the chain afterwards. *)
Definition new_first : option Z := match l1 with [] => le_next i | _ => p end.

Lemma LIST_REMOVE_wp `{HashEnv} (Q : unit -> ihash -> Prop) :
  Q tt (upd_ih_tbl (fun _ => Some (zinsert b new_first t)) (upd_ih_inodes (unlink ip i) h)) -> wp (LIST_REMOVE ip) Q h.
Proof.
  intros HQ. destruct remove_link as [Hlink _]. pose proof remove_reprev as Hr. pose proof remove_before as Hbef.
  unfold LIST_REMOVE. wp_steps. eapply wp_hash_deref; [done|]. rewrite Hlink. wp_steps.
  apply wp_reprev; [intros q Hq; by apply remove_next|]. wp_steps. eapply wp_hash_deref; [exact Hr|]. rewrite Hlink.
  unfold unlink in HQ. rewrite Hlink in HQ. unfold last_link, new_first in *. destruct (last l1) as [q|] eqn:El; cbn [from_option] in *.
  - destruct (Hbef q eq_refl) as [_ [j Hj]]. eapply wp_set_link_next; [exact Hj|]. destruct l1 as [|a l1']; [done|].
    unfold upd_ih_tbl, upd_ih_inodes, zinsert in *. cbn in *. rewrite Hj in HQ. rewrite Ht.
    rewrite list_insert_id in HQ; [done|]. by apply zlookup_Some_inv in Hp as [_ ?].
  - apply last_None in El. subst l1. by eapply wp_set_head.
Qed.
End remove.

Lemma remove_wp `{HashEnv} (Q : unit -> ihash -> Prop) h C ip i :
  hash_ok h C -> ih_inodes h !! ip = Some i -> is_Some (le_prev i) -> let b := chain_of h i in
  (forall h' l', hash_ok h' (fun c => if c =? b then l' else C c) -> (forall q, q ∈ l' <-> q ∈ C b /\ q <> ip) ->
     (forall q, key <$> ih_inodes h' !! q = key <$> ih_inodes h !! q) ->
     ih_mask h' = ih_mask h -> ih_mtx h' = ih_mtx h -> ih_tick h' = ih_tick h -> Q tt h') ->
  wp (remove_and_clear ip) Q h.
Proof.
  intros Hok Hi Hprev b HQ. pose proof (chain_range h i (hk_mask _ _ Hok)) as Hb. fold b in Hb.
  assert (ip ∈ C b) as Hin by by apply (hashed_chain h C ip i Hok Hi).
  destruct (hk_tbl _ _ Hok) as (t & Ht & Hlen & Hsegs). destruct (zlookup_lt t b) as [p Hp]; [lia|].
  pose proof (Hsegs _ _ Hp) as Hseg. pose proof (hk_nodup _ _ Hok b) as Hnd.
  destruct (list_elem_of_split _ _ Hin) as (l1 & l2 & HC). rewrite HC in Hseg, Hnd.
  destruct (remove_apart _ _ _ Hnd) as [Hn1 Hn2].
  unfold remove_and_clear. apply wp_bind. eapply (LIST_REMOVE_wp h t b); try done; [lia|].
  wp_steps. eapply wp_hash_upd; [eapply (unlink_self h t b); first [eassumption|lia]|]. eapply wp_hash_upd; [apply lookup_insert_eq|].
  set (h' := upd_ih_inodes _ _).
  assert (ih_inodes h' = <[ip := cleared i]> (unlink ip i (ih_inodes h))) as HI by (unfold h'; cbn; by rewrite insert_insert_eq).
  assert (forall q, key <$> ih_inodes h' !! q = key <$> ih_inodes h !! q) as Hkey.
  { intros q. rewrite HI. destruct (decide (ip = q)) as [<-|]; [by rewrite lookup_insert_eq, Hi|].
    rewrite lookup_insert_ne by done. apply unlink_key. }
  apply (HQ _ (l1 ++ l2)); [|rewrite HC|done..].
  - eapply (hash_ok_relinked h h' C ip i b (new_first i p l1)); [done..| | | | |].
    + constructor; [by apply Hok|done|by rewrite Ht|done|].
      intros l Hl. rewrite HI. eapply same_links_trans; [eapply unlink_same; [exact Hseg|done|done|]|].
      * intros q Hq Hq'. apply (Hl q Hq). right. by rewrite HC.
      * apply same_links_insert. intros Hq. apply (Hl _ Hq). left.
    + rewrite HI. eapply seg_frame; [apply same_links_insert; set_solver|]. apply seg_remove; done.
    + apply NoDup_app in Hnd as (? & Hd & [? ?]%NoDup_cons). apply NoDup_app. split; [done|]. split; [|done]. intros q Hq Hq'. apply (Hd q Hq). by right.
    + intros q Hq. right. rewrite HC. set_solver.
    + intros q j Hq Hq' Hj. assert (q = ip) as -> by (rewrite HC in Hq; set_solver).
      rewrite HI, lookup_insert_eq in Hj. by simplify_eq.
  - intros q. rewrite !elem_of_app, elem_of_cons. split; [|tauto].
    intros Hq. assert (q <> ip) by (intros ->; tauto). tauto.
Qed.

Section refinement.
Context `{KE : HashEnv}.

(** What other threads may do while this one waits for the mutex: anything that
    leaves a well-formed table. An inode is put in and taken out by its owner
    only, and its mount, number and vnode do not change. *)
Record hash_env : Prop := mk_hash_env_ok {
  hv_ok : forall n h C, hash_ok h C -> exists C', hash_ok (he_sched n h) C';
  hv_same : forall n h, ih_mtx (he_sched n h) = ih_mtx h /\ ih_mask (he_sched n h) = ih_mask h /\ ih_tick (he_sched n h) = ih_tick h
}.
Definition leaves_alone (mine : Z) : Prop := forall n h i, ih_inodes h !! mine = Some i ->
  exists i', ih_inodes (he_sched n h) !! mine = Some i' /\ key i' = key i /\ (is_Some (le_prev i') <-> is_Some (le_prev i)).
Context (He : hash_env).

(** The two updates of the hash and what they mean for the set of hashed inodes. *)
Inductive hash_op : Type := Ins (ip : Z) | Rem (ip : Z).
Definition op_inode (o : hash_op) : Z := match o with Ins ip | Rem ip => ip end.
Definition run_op (o : hash_op) : M ihash unit := match o with Ins ip => ext2_ihashins ip | Rem ip => ext2_ihashrem ip end.
Definition abs_op (o : hash_op) (S : Z -> Prop) (q : Z) : Prop :=
  match o with Ins ip => S q \/ q = ip | Rem ip => S q /\ q <> ip end.
Definition op_allowed (h : ihash) (o : hash_op) : Prop :=
  match o with Ins ip => exists i, ih_inodes h !! ip = Some i /\ le_prev i = None | Rem ip => is_Some (ih_inodes h !! ip) end.

Lemma hash_ok_mtx h C b n : hash_ok h C -> hash_ok (upd_ih_tick n (upd_ih_mtx (fun _ => Some b) h)) C.
Proof. intros []. constructor; try done. Qed.

Lemma hash_lock_wp (Q : unit -> ihash -> Prop) h C :
  hash_ok h C -> ih_mtx h = Some false ->
  (forall C', hash_ok (he_sched (ih_tick h) h) C' -> Q tt (upd_ih_tick S (upd_ih_mtx (fun _ => Some true) (he_sched (ih_tick h) h)))) ->
  wp hash_lock Q h.
Proof. intros Hok Hm HQ. unfold wp, hash_lock. rewrite Hm. destruct (hv_ok He (ih_tick h) h C Hok) as [C' HC']. by eapply HQ. Qed.

Lemma hash_unlock_wp (Q : unit -> ihash -> Prop) h : ih_mtx h = Some true -> Q tt (upd_ih_mtx (fun _ => Some false) h) -> wp hash_unlock Q h.
Proof. intros Hm HQ. unfold wp, hash_unlock. by rewrite Hm. Qed.

Lemma is_hashed_iff h C ip i : hash_ok h C -> ih_inodes h !! ip = Some i -> is_hashed h ip <-> ip ∈ C (chain_of h i).
Proof.
  intros Hok Hi. rewrite <- (hashed_chain h C ip i Hok Hi). split; [|intros; by exists i].
  intros (i' & Hi' & ?). by simplify_eq.
Qed.

(** Membership after one chain was changed. *)
Lemma hashed_after h h' C b l' q :
  hash_ok h C -> hash_ok h' (fun c => if c =? b then l' else C c) -> ih_mask h' = ih_mask h ->
  (forall q, key <$> ih_inodes h' !! q = key <$> ih_inodes h !! q) ->
  is_hashed h' q <-> (exists i, ih_inodes h !! q = Some i /\ if chain_of h i =? b then q ∈ l' else is_hashed h q).
Proof.
  intros Hok Hok' Hm Hkey. pose proof (Hkey q) as Hk. split.
  - intros (i' & Hi' & Hs). rewrite Hi' in Hk. destruct (ih_inodes h !! q) as [i|] eqn:Hi; [|done].
    apply (inj Some) in Hk. exists i. split; [done|]. pose proof (hk_hashed _ _ Hok' q i' Hi' Hs) as Hin. cbn in Hin.
    rewrite (key_chain h h' i i' Hm Hk) in Hin. case_match; [done|]. by apply (is_hashed_iff h C q i Hok Hi).
  - intros (i & Hi & Hs). rewrite Hi in Hk. destruct (ih_inodes h' !! q) as [i'|] eqn:Hi'; [|done].
    apply (inj Some) in Hk. apply (is_hashed_iff _ _ q i' Hok' Hi'). cbn. rewrite (key_chain h h' i i' Hm Hk).
    case_match; [done|]. by apply (is_hashed_iff h C q i Hok Hi).
Qed.

(** What an update leaves, [h1] being the state in which the mutex was had. *)
Definition op_done (o : hash_op) (h1 h' : ihash) : Prop :=
  (exists C', hash_ok h' C') /\ ih_mtx h' = Some false /\
  (forall q, key <$> ih_inodes h' !! q = key <$> ih_inodes h1 !! q) /\
  (forall q, is_hashed h' q <-> abs_op o (is_hashed h1) q).

Lemma ihashins_wp h C ip i0 :
  leaves_alone ip -> hash_ok h C -> ih_mtx h = Some false -> ih_inodes h !! ip = Some i0 -> le_prev i0 = None ->
  wp (ext2_ihashins ip) (fun _ h' => op_done (Ins ip) (he_sched (ih_tick h) h) h') h.
Proof.
  intros Hal Hok Hm Hi0 Hp0. unfold ext2_ihashins. wp_steps. eapply hash_lock_wp; [done..|]. intros C1 Hok1.
  set (h1 := he_sched _ _) in *. destruct (Hal (ih_tick h) h i0 Hi0) as (i & Hi & Hk & Hs). fold h1 in Hi.
  assert (le_prev i = None) as Hp by (apply eq_None_not_Some; rewrite Hs, Hp0; by intros [? ?]).
  wp_steps. eapply wp_hash_deref; [exact Hi|]. wp_steps.
  set (h2 := upd_ih_tick _ _). eapply (insert_wp _ h2 C1 ip i); [by apply hash_ok_mtx|done|done|].
  intros h3 Hok3 Hr Hm3 _. apply hash_unlock_wp; [by rewrite Hm3|].
  split; [eexists; by apply (hash_ok_mtx h3 _ false (fun n => n))|]. split; [done|].
  split; [apply (rl_key _ _ _ _ _ Hr)|]. intros q. cbn. transitivity (is_hashed h3 q); [done|].
  rewrite (hashed_after h2 h3 C1 _ _ q (hash_ok_mtx _ _ true S Hok1) Hok3 (rl_mask _ _ _ _ _ Hr) (rl_key _ _ _ _ _ Hr)). split.
  - intros (j & Hj & Hin). case_match eqn:Eb; [|by left]. apply Z.eqb_eq in Eb. apply elem_of_cons in Hin as [->|Hin]; [by right|left].
    by apply (chain_hashed h1 C1 _ _ Hok1 Hin).
  - intros [(j & Hj & Hs')| ->]; [|exists i; split; [done|]; rewrite Z.eqb_refl; by left].
    exists j. split; [done|]. case_match eqn:Eb; [|by exists j]. apply Z.eqb_eq in Eb. right. rewrite <- Eb. by apply (hk_hashed _ _ Hok1).
Qed.

Lemma ihashrem_wp h C ip i0 :
  leaves_alone ip -> hash_ok h C -> ih_mtx h = Some false -> ih_inodes h !! ip = Some i0 ->
  wp (ext2_ihashrem ip) (fun _ h' => op_done (Rem ip) (he_sched (ih_tick h) h) h') h.
Proof.
  intros Hal Hok Hm Hi0. unfold ext2_ihashrem. wp_steps. destruct (hk_tbl _ _ Hok) as (t & Ht & _). rewrite Ht.
  wp_steps. eapply hash_lock_wp; [done..|]. intros C1 Hok1. set (h1 := he_sched _ _) in *.
  destruct (Hal (ih_tick h) h i0 Hi0) as (i & Hi & Hk & Hs). fold h1 in Hi.
  wp_steps. eapply wp_hash_deref; [exact Hi|]. wp_steps. set (h2 := upd_ih_tick _ _).
  destruct (le_prev i) as [lk|] eqn:Hp.
  - eapply (remove_wp _ h2 C1 ip i); [by apply hash_ok_mtx|done|by rewrite Hp|].
    intros h3 l' Hok3 Hl' Hkey Hmask Hm3 _. apply hash_unlock_wp; [by rewrite Hm3|].
    split; [eexists; by apply (hash_ok_mtx h3 _ false (fun n => n))|]. split; [done|]. split; [done|]. intros q. cbn.
    transitivity (is_hashed h3 q); [done|]. rewrite (hashed_after h2 h3 C1 _ _ q (hash_ok_mtx _ _ true S Hok1) Hok3 Hmask Hkey). split.
    + intros (j & Hj & Hin). case_match eqn:Eb.
      * apply Hl' in Hin as [Hin Hne]. split; [|done]. by apply (chain_hashed h1 C1 _ _ Hok1 Hin).
      * split; [done|]. intros ->. cbn in Hj. rewrite Hi in Hj. injection Hj as <-. by rewrite Z.eqb_refl in Eb.
    + intros [(j & Hj & Hs') Hne]. exists j. split; [done|]. case_match eqn:Eb; [|by exists j]. apply Z.eqb_eq in Eb.
      apply Hl'. split; [|done]. rewrite <- Eb. by apply (hk_hashed _ _ Hok1).
  - apply wp_ret, hash_unlock_wp; [done|].
    split; [exists C1; by apply (hash_ok_mtx h2 C1 false (fun n => n)), hash_ok_mtx|]. split; [done|]. split; [done|].
    intros q. cbn. split; [|by intros [? _]]. intros (j & Hj & Hs'). split; [by exists j|]. intros ->. cbn in Hj.
    rewrite Hi in Hj. injection Hj as <-. rewrite Hp in Hs'. by destruct Hs'.
Qed.

(** C33: [ext2_ihashins] and [ext2_ihashrem], on chains of pointers shared with
    other threads, are the insertion into and the removal from a set of inodes,
    done in one step when the mutex is had; removing an inode twice does no
    harm. The table stays well formed and the mutex is released. *)
Theorem ihash_refines_set o h C :
  leaves_alone (op_inode o) -> hash_ok h C -> ih_mtx h = Some false -> op_allowed h o ->
  wp (run_op o) (fun _ h' => let h1 := he_sched (ih_tick h) h in
    (exists C', hash_ok h' C') /\ ih_mtx h' = Some false /\
    (forall q, key <$> ih_inodes h' !! q = key <$> ih_inodes h1 !! q) /\
    (forall q, is_hashed h' q <-> abs_op o (is_hashed h1) q)) h.
Proof.
  intros Hal Hok Hm Hallow. destruct o as [ip|ip].
  - destruct Hallow as (i0 & ? & ?). by eapply ihashins_wp.
  - destruct Hallow as [i0 ?]. by eapply ihashrem_wp.
Qed.

(** ** Looking up *)

(** An inode with a vnode, in the hash under this mount and number. *)
Definition in_core (h : ihash) (ump ino ip vp vid : Z) : Prop :=
  is_hashed h ip /\ (key <$> ih_inodes h !! ip) = Some (ino, ump, Some vp, vid).

Lemma seg_elem_size I prev p l : seg I prev p l -> NoDup l -> (length l <= size I)%nat.
Proof.
  intros Hs Hnd. rewrite <- (size_list_to_set (C := gset Z)) by done. rewrite <- size_dom.
  apply subseteq_size. intros q Hq. apply elem_of_list_to_set in Hq. apply elem_of_dom.
  destruct (seg_mem _ _ _ _ _ Hs Hq) as (i & ? & _). by exists i.
Qed.

(** What the walk over a chain finds. *)
Lemma hash_walk_wp h ump ino l : forall fuel prev p, seg (ih_inodes h) prev p l -> (length l < fuel)%nat ->
  wp (hash_walk fuel ump ino p) (fun r h' => h' = h /\
    match r with
    | Some (vp, vid) => exists ip, ip ∈ l /\ (key <$> ih_inodes h !! ip) = Some (ino, ump, Some vp, vid)
    | None => forall ip vp vid, ip ∈ l -> (key <$> ih_inodes h !! ip) <> Some (ino, ump, Some vp, vid)
    end) h.
Proof.
  induction l as [|ip l IH]; intros fuel prev p Hs Hf; cbn [length] in Hf.
  - cbn in Hs. subst p. destruct fuel; (apply wp_ret; split; [done|]; set_solver).
  - destruct Hs as [-> (i & Hi & Hp & Hs)]. destruct fuel as [|fuel]; [lia|]. cbn [hash_walk]. wp_steps. eapply wp_hash_deref; [done|].
    assert (forall vp vid, (key <$> ih_inodes h !! ip) = Some (ino, ump, Some vp, vid) ->
              h_number i = ino /\ h_ump i = ump /\ h_vnode i = Some vp) as Hkey.
    { intros vp vid. rewrite Hi. unfold key. cbn. intros Hk. by injection Hk. }
    assert (forall k, (forall vp vid, (key <$> ih_inodes h !! ip) <> Some (ino, ump, Some vp, vid)) ->
              k = hash_walk fuel ump ino (le_next i) ->
              wp k (fun r h' => h' = h /\ match r with
                | Some (vp, vid) => exists ip', ip' ∈ ip :: l /\ (key <$> ih_inodes h !! ip') = Some (ino, ump, Some vp, vid)
                | None => forall ip' vp vid, ip' ∈ ip :: l -> (key <$> ih_inodes h !! ip') <> Some (ino, ump, Some vp, vid) end) h) as Hskip.
    { intros k Hno ->. eapply wp_mono; [by apply (IH fuel (Next ip)); [|lia]|]. intros [[vp vid]|] h' [-> Hr]; (split; [done|]).
      - destruct Hr as (q & ? & ?). exists q. split; [by right|done].
      - intros q vp vid [->|Hq]%elem_of_cons; [apply Hno|by apply Hr]. }
    destruct (Z.eqb_spec (h_number i) ino) as [En|En]; cbn [negb orb]; [|apply Hskip; [|done]; intros vp vid Hk; by destruct (Hkey _ _ Hk)].
    destruct (Z.eqb_spec (h_ump i) ump) as [Eu|Eu]; cbn [negb]; [|apply Hskip; [|done]; intros vp vid Hk; by destruct (Hkey _ _ Hk) as (? & ? & ?)].
    destruct (h_vnode i) as [vp|] eqn:Ev; [|apply Hskip; [|done]; intros vp vid Hk; by destruct (Hkey _ _ Hk) as (? & ? & ?)].
    apply wp_ret. split; [done|]. exists ip. split; [left|]. rewrite Hi. cbn. unfold key. by rewrite En, Eu, Ev.
Qed.

(** What the caller of [ext2_ihashget] gets. *)
Definition get_post (ump ino : Z) (r : Z * option Z) (h' : ihash) : Prop :=
  (exists C', hash_ok h' C') /\ ih_mtx h' = Some false /\ fst r = 0 /\
  match snd r with
  | Some vp => exists ip vid t, in_core h' ump ino ip vp vid /\ he_getwithvid t vp vid = 0
  | None => forall ip vp vid, ~ in_core h' ump ino ip vp vid
  end.

Lemma wp_getwithvid (Q : Z -> ihash -> Prop) h vp vid :
  Q (he_getwithvid (ih_tick h) vp vid) (upd_ih_tick S h) -> wp (vnode_getwithvid vp vid) Q h.
Proof. done. Qed.

(** One walk under the mutex; [again] is the jump back to [restart]. *)
Lemma get_attempt h C ump ino (again : M ihash (Z * option Z)) :
  hash_ok h C -> ih_mtx h = Some false ->
  (forall h' C' vp vid, hash_ok h' C' -> ih_mtx h' = Some false -> he_getwithvid (S (ih_tick h)) vp vid <> 0 ->
     ih_tick h' = S (S (ih_tick h)) -> wp again (get_post ump ino) h') ->
  wp (hash_lock;;
      mask ← gets ih_mask;
      first ← lh_first (EXT2_IHASH mask ump ino);
      fuel ← gets chain_fuel;
      r ← hash_walk fuel ump ino first;
      match r with
      | None => hash_unlock;; mret (0, None)
      | Some (vp, vid) =>
          hash_unlock;;
          error ← vnode_getwithvid vp vid;
          if negb (error =? 0) then again else mret (0, Some vp)
      end) (get_post ump ino) h.
Proof.
  intros Hok Hm Hagain. wp_steps. eapply hash_lock_wp; [done..|]. intros C1 Hok1. set (h1 := he_sched _ _) in *.
  set (h2 := upd_ih_tick _ _). pose proof (hash_ok_mtx h1 C1 true S Hok1) as Hok2. fold h2 in Hok2.
  destruct (hv_same He (ih_tick h) h) as (_ & _ & Htick). fold h1 in Htick.
  pose proof (chain_range h2 (mk_hinode ino ump None 0 None None) (hk_mask _ _ Hok2)) as Hb.
  destruct (hk_tbl _ _ Hok2) as (t & Ht & Hlen & Hsegs). change (chain_of h2 _) with (EXT2_IHASH (ih_mask h2) ump ino) in Hb.
  set (b := EXT2_IHASH (ih_mask h2) ump ino) in *. destruct (zlookup_lt t b) as [p Hp]; [lia|].
  wp_steps. eapply wp_lh_first; [done..|]. wp_steps.
  eapply wp_mono; [apply (hash_walk_wp h2 ump ino (C1 b) _ (Head b)); [by apply Hsegs|]|].
  { unfold chain_fuel. pose proof (seg_elem_size _ _ _ _ (Hsegs _ _ Hp) (hk_nodup _ _ Hok2 b)). lia. }
  intros [[vp vid]|] h' [-> Hr]; wp_steps; apply hash_unlock_wp; try done.
  - destruct Hr as (ip & Hin & Hk). wp_steps. apply wp_getwithvid. change (ih_tick (upd_ih_mtx _ h2)) with (ih_tick h2). cbn beta.
    destruct (Z.eqb_spec (he_getwithvid (ih_tick h2) vp vid) 0) as [E|E]; cbn [negb].
    + apply wp_ret. split; [exists C1; by apply (hash_ok_mtx h2 C1 false S)|]. split; [done|]. split; [done|]. cbn.
      exists ip, vid, (ih_tick h2). split; [|done]. split; [by apply (chain_hashed h2 C1 b ip Hok2)|done].
    + eapply (Hagain _ C1); [by apply (hash_ok_mtx h2 C1 false S)|done| |cbn; by rewrite Htick]. by rewrite <- Htick.
  - apply wp_ret. split; [exists C1; by apply (hash_ok_mtx h2 C1 false (fun n => n))|]. split; [done|]. split; [done|]. cbn.
    intros ip vp vid [Hh Hk]. apply (Hr ip vp vid); [|done].
    destruct Hh as (i & Hi & Hs). pose proof (hk_hashed _ _ Hok2 ip i Hi Hs) as Hin. cbn in Hk. cbn in Hi. rewrite Hi in Hk.
    unfold key in Hk. cbn in Hk. injection Hk as En Eu _ _. revert Hin. unfold chain_of. by rewrite En, Eu.
Qed.

Lemma ihashget_wp n h C ump ino :
  hash_ok h C -> ih_mtx h = Some false ->
  (forall t vp vid, (ih_tick h + 2 * n <= t)%nat -> he_getwithvid t vp vid = 0) ->
  wp (ext2_ihashget n ump ino) (get_post ump ino) h.
Proof.
  revert h C. induction n as [|n IH]; intros h C Hok Hm Hlive; cbn [ext2_ihashget]; apply wp_bind, wp_gets;
    destruct (hk_tbl _ _ Hok) as (t0 & -> & _); eapply get_attempt; try done.
  - intros h' C' vp vid _ _ Hne _. exfalso. apply Hne, Hlive. lia.
  - intros h' C' vp vid Hok' Hm' _ Ht. apply (IH h' C' Hok' Hm'). intros t vp' vid' Hle. apply Hlive. lia.
Qed.

(** C34: [ext2_ihashget] returns, with the mutex released and the table well
    formed, once the vnodes it finds can be had: from its [n]-th attempt on when
    [vnode_getwithvid] stops failing there. It gives the vnode of a hashed inode
    of that mount and number for which [vnode_getwithvid] succeeded, or none when
    there is no such inode with a vnode. *)
Theorem ihashget_returns n h C ump ino :
  hash_ok h C -> ih_mtx h = Some false ->
  (forall t vp vid, (ih_tick h + 2 * n <= t)%nat -> he_getwithvid t vp vid = 0) ->
  wp (ext2_ihashget n ump ino) (fun r h' => (exists C', hash_ok h' C') /\ ih_mtx h' = Some false /\ fst r = 0 /\
    match snd r with
    | Some vp => exists ip vid t, in_core h' ump ino ip vp vid /\ he_getwithvid t vp vid = 0
    | None => forall ip vp vid, ~ in_core h' ump ino ip vp vid
    end) h.
Proof. apply ihashget_wp. Qed.
End refinement.

(** * Setting up and tearing down *)

Lemma hashsize_loop_spec nelem : 0 <= nelem < 2 ^ 63 -> forall fuel k, 0 <= k -> k + Z.of_nat fuel = 64 -> 2 ^ (k - 1) <= nelem \/ k = 0 ->
  exists m, hashsize_loop fuel nelem (2 ^ k) = Ok (2 ^ m) /\ k <= m <= 63 /\ nelem < 2 ^ m /\ (2 ^ (m - 1) <= nelem \/ m = 0).
Proof.
  intros Hn. induction fuel as [|fuel IH]; intros k Hk Hf Hle.
  - assert (k = 64) as -> by lia. destruct Hle as [Hle|]; [|lia]. exfalso. change (2 ^ 63 <= nelem) in Hle. lia.
  - cbn [hashsize_loop]. destruct (Z.leb_spec (2 ^ k) nelem) as [H1|H1].
    + assert (k < 63) by (apply (Z.pow_lt_mono_r_iff 2); lia).
      rewrite Z.shiftl_mul_pow2, Z.pow_1_r by lia. assert (u64 (2 ^ k * 2) = 2 ^ (k + 1)) as ->.
      { rewrite Z.pow_add_r, Z.pow_1_r by lia. apply Z.mod_small. assert (2 ^ (k + 1) < 2 ^ 64) as Hlt by (apply Z.pow_lt_mono_r; lia).
        rewrite Z.pow_add_r, Z.pow_1_r in Hlt by lia. lia. }
      destruct (IH (k + 1)) as (m & ? & ? & ? & ?); [lia|lia|left; by replace (k + 1 - 1) with k by lia|]. exists m. split; [done|]. split; [lia|]. done.
    + exists k. split; [done|]. split; [lia|]. done.
Qed.

(** C38: [ext2_ihashinit] returns for every setting of [desiredvnodes] that is
    not negative: with an empty well-formed table whose size is the greatest
    power of two not above the number of vnodes, 64 at least, or with ENOMEM and
    nothing left allocated; and a second call changes nothing. *)
Theorem ihashinit_spec `{HashEnv} h :
  0 <= he_desiredvnodes < 2 ^ 63 -> (forall ip, ~ is_hashed h ip) ->
  wp ext2_ihashinit (fun r h' =>
    (r = 0 /\ h' = h /\ is_Some (ih_tbl h)) \/
    (r = ENOMEM /\ ih_tbl h = None /\ ih_tbl h' = None) \/
    (r = 0 /\ hash_ok h' (fun _ => []) /\ ih_mtx h' = Some false /\
     exists k, 6 <= k /\ ih_mask h' = 2 ^ k - 1 /\ 2 ^ k <= Z.max 64 he_desiredvnodes < 2 ^ (k + 1))) h.
Proof.
  intros Hd Hno. unfold ext2_ihashinit. wp_steps. destruct (ih_tbl h) as [t|] eqn:Ht; [apply wp_ret; left; split; [done|]; split; [done|]; by eexists|].
  set (nelem := if u64 he_desiredvnodes <? 64 then 64 else u64 he_desiredvnodes).
  assert (nelem = Z.max 64 he_desiredvnodes) as Hne.
  { unfold nelem, u64. rewrite Z.mod_small by lia. destruct (Z.ltb_spec he_desiredvnodes 64); lia. }
  destruct (hashsize_loop_spec nelem ltac:(lia) 64 0) as (m & Hm & Hmr & Hlt & Hle); [lia..|by right|].
  destruct Hle as [Hle| ->]; [|change (2 ^ 0) with 1 in Hlt; lia].
  assert (7 <= m) as Hm7. { apply Z.nlt_ge. intros H7. assert (2 ^ m <= 2 ^ 6) by (apply Z.pow_le_mono_r; lia). change (2 ^ 6) with 64 in *. lia. }
  cbv zeta. wp_steps. eapply wp_lift; [exact Hm|]. rewrite Z.shiftr_div_pow2, <- Z.pow_sub_r by lia.
  destruct he_malloc_null; [apply wp_ret; by right; left|]. wp_steps.
  destruct he_lck_null; wp_steps; [by right; left|]. right. right. split; [done|].
  assert (0 < 2 ^ (m - 1)) by (apply Z.pow_pos_nonneg; lia).
  split; [|split; [done|]; exists (m - 1); cbn; replace (m - 1 + 1) with m by lia; split; [lia|]; split; [done|lia]].
  constructor; cbn; [done|lia| |intros b; constructor|intros b ip Hin; by apply elem_of_nil in Hin|].
  - eexists. split; [done|]. split; [unfold zlen; rewrite length_replicate; lia|]. intros b p Hp.
    apply zlookup_Some_inv in Hp as [_ Hp]. apply lookup_replicate in Hp as [<- _]. done.
  - intros ip i Hi Hs. exfalso. apply (Hno ip). by exists i.
Qed.

(** ** The hypotheses on concrete inputs *)

(** A volume with three inodes, two on one chain; the first [vnode_getwithvid]
    fails, other threads do nothing. *)
#[local] Instance hash_env0 : HashEnv := mk_hash_env 100 false false (fun n _ _ => if Nat.ltb n 2 then 2 else 0) (fun _ h => h).

Definition inodes0 : gmap Z hinode :=
  {[ 1 := mk_hinode 5 1024 (Some 11) 7 (Some 2) (Some (Head 1));
     2 := mk_hinode 7 1024 (Some 12) 8 None (Some (Next 1));
     3 := mk_hinode 13 1024 (Some 13) 9 None None ]}.
Definition hash0 : ihash := mk_ihash (Some [None; Some 1]) 1 (Some false) inodes0 0.
Definition chains0 (b : Z) : list Z := if b =? 1 then [1; 2] else [].

Lemma inodes0_cases ip i : inodes0 !! ip = Some i -> ip = 1 \/ ip = 2 \/ ip = 3.
Proof. unfold inodes0. rewrite !lookup_insert_Some, lookup_singleton_Some. naive_solver. Qed.

Lemma hash_ok0 : hash_ok hash0 chains0.
Proof.
  constructor; [by eexists|done| | | |].
  - eexists. split; [done|]. split; [done|]. intros b p Hp. pose proof (zlookup_Some_inv _ _ _ Hp) as [Hb _]. change (0 <= b < 2) in Hb.
    assert (b = 0 \/ b = 1) as [-> | ->] by lia; vm_compute in Hp; simplify_eq; [done|].
    split; [done|]. eexists. split; [reflexivity|]. split; [done|]. split; [done|]. eexists. split; [reflexivity|]. by split.
  - intros b. unfold chains0. case_match; [|constructor]. apply NoDup_cons. split; [set_solver|]. apply NoDup_singleton.
  - intros b ip. unfold chains0. case_match eqn:E; [|by intros ?%elem_of_nil]. apply Z.eqb_eq in E as ->.
    intros [->|[->|Hn%elem_of_nil]%elem_of_cons]%elem_of_cons; [| |done]; (eexists; split; [reflexivity|done]).
  - intros ip i Hi Hs. destruct (inodes0_cases ip i Hi) as [->|[->| ->]]; vm_compute in Hi; simplify_eq; cbn; [left|right; left|by destruct Hs].
Qed.

Lemma hash_env_ok0 : hash_env.
Proof. constructor; [intros n h C Hok; by exists C|done]. Qed.

Lemma ihash_refines_set_witness :
  (hash_env /\ leaves_alone 3 /\ hash_ok hash0 chains0 /\ ih_mtx hash0 = Some false /\ op_allowed hash0 (Ins 3)) /\
  wp (run_op (Ins 3)) (fun _ h' => let h1 := he_sched (ih_tick hash0) hash0 in
    (exists C', hash_ok h' C') /\ ih_mtx h' = Some false /\
    (forall q, key <$> ih_inodes h' !! q = key <$> ih_inodes h1 !! q) /\
    (forall q, is_hashed h' q <-> abs_op (Ins 3) (is_hashed h1) q)) hash0.
Proof.
  assert (leaves_alone 3) as Hal by (intros n h i Hi; by exists i).
  assert (op_allowed hash0 (Ins 3)) as Hop by (eexists; split; reflexivity).
  split; [split; [apply hash_env_ok0|]; split; [done|]; split; [apply hash_ok0|done]|].
  apply (ihash_refines_set hash_env_ok0 (Ins 3) hash0 chains0 Hal hash_ok0 eq_refl Hop).
Defined.

Lemma ihashget_returns_witness :
  (hash_env /\ hash_ok hash0 chains0 /\ ih_mtx hash0 = Some false /\
   (forall t vp vid, (ih_tick hash0 + 2 * 1 <= t)%nat -> he_getwithvid t vp vid = 0)) /\
  wp (ext2_ihashget 1 1024 7) (fun r h' => (exists C', hash_ok h' C') /\ ih_mtx h' = Some false /\ fst r = 0 /\
    match snd r with
    | Some vp => exists ip vid t, in_core h' 1024 7 ip vp vid /\ he_getwithvid t vp vid = 0
    | None => forall ip vp vid, ~ in_core h' 1024 7 ip vp vid
    end) hash0 /\
  (exists h', ext2_ihashget 1 1024 7 hash0 = Ok ((0, Some 12), h')).
Proof.
  assert (forall t vp vid, (ih_tick hash0 + 2 * 1 <= t)%nat -> he_getwithvid t vp vid = 0) as Hlive.
  { intros t vp vid Ht. cbn in *. destruct t as [|[|t]]; [lia..|done]. }
  split; [split; [apply hash_env_ok0|]; split; [apply hash_ok0|done]|].
  split; [apply (ihashget_returns hash_env_ok0 1 hash0 chains0 1024 7 hash_ok0 eq_refl Hlive)|].
  eexists. vm_compute. reflexivity.
Defined.

Lemma ihashinit_spec_witness :
  (0 <= he_desiredvnodes < 2 ^ 63 /\ (forall ip, ~ is_hashed (mk_ihash None 0 None ∅ 0) ip)) /\
  wp ext2_ihashinit (fun r h' => let h := mk_ihash None 0 None ∅ 0 in
    (r = 0 /\ h' = h /\ is_Some (ih_tbl h)) \/
    (r = ENOMEM /\ ih_tbl h = None /\ ih_tbl h' = None) \/
    (r = 0 /\ hash_ok h' (fun _ => []) /\ ih_mtx h' = Some false /\
     exists k, 6 <= k /\ ih_mask h' = 2 ^ k - 1 /\ 2 ^ k <= Z.max 64 he_desiredvnodes < 2 ^ (k + 1))) (mk_ihash None 0 None ∅ 0).
Proof.
  assert (0 <= he_desiredvnodes < 2 ^ 63) as Hd by (cbn; lia).
  assert (forall ip, ~ is_hashed (mk_ihash None 0 None ∅ 0) ip) as Hno by (intros ip (i & Hi & _); exact (lookup_empty_Some _ _ Hi)).
  split; [done|]. apply (ihashinit_spec (mk_ihash None 0 None ∅ 0) Hd Hno).
Defined.
