(* ===== verification/Kernel.v ===== *)
(** The state the kext works on and the kernel services it calls.

    [world] is one mounted volume as one thread sees it: the counters of the
    in-core superblock that change while mounted, the descriptor table, the
    cluster summary, the device behind the buffer cache, the buffers this thread
    holds, the mount lock, the in-core inodes and their hash, and the I/O counts
    this thread holds on vnodes. The services of XNU that the
    kext calls (buffer cache, random numbers, clock, and the scheduler that lets
    other threads run) are the fields of the class [KernelEnv]. *)
From stdpp Require Import gmap.
From S2P Require Import Prelude Bitmap Bytes Super Ihash.

(** * In-core inodes: struct inode of inode.h *)

Record inode : Type := mk_inode {
  i_flag : Z;
  i_number : Z;
  i_vid : Z;
  i_count : Z;
  i_endoff : Z;
  i_diroff : Z;
  i_offset : Z;
  i_block_group : Z;
  i_next_alloc_block : Z;
  i_next_alloc_goal : Z;
  i_mode : Z;
  i_nlink : Z;
  i_uid : Z;
  i_gid : Z;
  i_size : Z;
  i_blocks : Z;
  i_atime : Z;
  i_mtime : Z;
  i_ctime : Z;
  i_birthtime : Z;
  i_mtimensec : Z;
  i_atimensec : Z;
  i_ctimensec : Z;
  i_birthnsec : Z;
  i_gen : Z;
  i_flags : Z;
  i_db : list Z;
  i_ib : list Z;
  ec_start : Z;
  ec_blk : Z;
  ec_len : Z;
  ec_type : Z
}.

Definition inode_eta (ip : inode) : inode :=
  mk_inode (i_flag ip) (i_number ip) (i_vid ip) (i_count ip) (i_endoff ip) (i_diroff ip)
    (i_offset ip) (i_block_group ip) (i_next_alloc_block ip) (i_next_alloc_goal ip)
    (i_mode ip) (i_nlink ip) (i_uid ip) (i_gid ip) (i_size ip) (i_blocks ip) (i_atime ip)
    (i_mtime ip) (i_ctime ip) (i_birthtime ip) (i_mtimensec ip) (i_atimensec ip)
    (i_ctimensec ip) (i_birthnsec ip) (i_gen ip) (i_flags ip) (i_db ip) (i_ib ip)
    (ec_start ip) (ec_blk ip) (ec_len ip) (ec_type ip).

Definition upd_i_flag : (Z -> Z) -> inode -> inode := ltac:(mk_setter inode_eta i_flag).
Definition upd_i_count : (Z -> Z) -> inode -> inode := ltac:(mk_setter inode_eta i_count).
Definition upd_i_endoff : (Z -> Z) -> inode -> inode := ltac:(mk_setter inode_eta i_endoff).
Definition upd_i_diroff : (Z -> Z) -> inode -> inode := ltac:(mk_setter inode_eta i_diroff).
Definition upd_i_offset : (Z -> Z) -> inode -> inode := ltac:(mk_setter inode_eta i_offset).
Definition upd_i_block_group : (Z -> Z) -> inode -> inode := ltac:(mk_setter inode_eta i_block_group).
Definition upd_i_next_alloc_block : (Z -> Z) -> inode -> inode := ltac:(mk_setter inode_eta i_next_alloc_block).
Definition upd_i_next_alloc_goal : (Z -> Z) -> inode -> inode := ltac:(mk_setter inode_eta i_next_alloc_goal).
Definition upd_i_mode : (Z -> Z) -> inode -> inode := ltac:(mk_setter inode_eta i_mode).
Definition upd_i_nlink : (Z -> Z) -> inode -> inode := ltac:(mk_setter inode_eta i_nlink).
Definition upd_i_uid : (Z -> Z) -> inode -> inode := ltac:(mk_setter inode_eta i_uid).
Definition upd_i_gid : (Z -> Z) -> inode -> inode := ltac:(mk_setter inode_eta i_gid).
Definition upd_i_size : (Z -> Z) -> inode -> inode := ltac:(mk_setter inode_eta i_size).
Definition upd_i_blocks : (Z -> Z) -> inode -> inode := ltac:(mk_setter inode_eta i_blocks).
Definition upd_i_atime : (Z -> Z) -> inode -> inode := ltac:(mk_setter inode_eta i_atime).
Definition upd_i_mtime : (Z -> Z) -> inode -> inode := ltac:(mk_setter inode_eta i_mtime).
Definition upd_i_ctime : (Z -> Z) -> inode -> inode := ltac:(mk_setter inode_eta i_ctime).
Definition upd_i_birthtime : (Z -> Z) -> inode -> inode := ltac:(mk_setter inode_eta i_birthtime).
Definition upd_i_mtimensec : (Z -> Z) -> inode -> inode := ltac:(mk_setter inode_eta i_mtimensec).
Definition upd_i_atimensec : (Z -> Z) -> inode -> inode := ltac:(mk_setter inode_eta i_atimensec).
Definition upd_i_ctimensec : (Z -> Z) -> inode -> inode := ltac:(mk_setter inode_eta i_ctimensec).
Definition upd_i_birthnsec : (Z -> Z) -> inode -> inode := ltac:(mk_setter inode_eta i_birthnsec).
Definition upd_i_gen : (Z -> Z) -> inode -> inode := ltac:(mk_setter inode_eta i_gen).
Definition upd_i_flags : (Z -> Z) -> inode -> inode := ltac:(mk_setter inode_eta i_flags).
Definition upd_i_db : ((list Z) -> (list Z)) -> inode -> inode := ltac:(mk_setter inode_eta i_db).
Definition upd_i_ib : ((list Z) -> (list Z)) -> inode -> inode := ltac:(mk_setter inode_eta i_ib).
Definition upd_ec_start : (Z -> Z) -> inode -> inode := ltac:(mk_setter inode_eta ec_start).
Definition upd_ec_blk : (Z -> Z) -> inode -> inode := ltac:(mk_setter inode_eta ec_blk).
Definition upd_ec_len : (Z -> Z) -> inode -> inode := ltac:(mk_setter inode_eta ec_len).
Definition upd_ec_type : (Z -> Z) -> inode -> inode := ltac:(mk_setter inode_eta ec_type).

Definition IN_ACCESS : Z := 0x0001.
Definition IN_CHANGE : Z := 0x0002.
Definition IN_UPDATE : Z := 0x0004.
Definition IN_MODIFIED : Z := 0x0008.
Definition IN_RENAME : Z := 0x0010.
Definition IN_HASHED : Z := 0x0020.
Definition IN_LAZYMOD : Z := 0x0040.
Definition IN_LAZYACCESS : Z := 0x0100.
Definition IN_E4INDEX : Z := 0x010000.
Definition IN_E4EXTENTS : Z := 0x020000.
Definition IFMT : Z := 0xF000.
Definition IFDIR : Z := 0x4000.
Definition IFREG : Z := 0x8000.
Definition NDADDR : Z := 12.
Definition NIADDR : Z := 3.

(** struct csum: the cluster summary of a group. *)
Record csum : Type := mk_csum { cs_init : Z; cs_sum : list Z }.

(** * The volume *)

Record world : Type := mk_world {
  w_fbcount : Z;
  w_ficount : Z;
  w_fmod : Z;
  w_total_dir : Z;
  w_gd : list ext2_gd;
  w_contigdirs : list Z;
  w_maxcluster : list Z;
  w_clustersum : list csum;
  w_dev : gmap Z (list Z);
  w_bufs : gmap Z (list Z);
  w_others : gset Z;
  w_locked : bool;
  w_inodes : gmap Z inode;
  w_tick : nat;
  w_fdata : gmap (Z * Z) (list Z);
  w_fbufs : gmap (Z * Z) (list Z);
  w_hash : ihash;
  w_iocount : gmap Z Z
}.

Definition world_eta (w : world) : world :=
  mk_world (w_fbcount w) (w_ficount w) (w_fmod w) (w_total_dir w) (w_gd w) (w_contigdirs w)
    (w_maxcluster w) (w_clustersum w) (w_dev w) (w_bufs w) (w_others w) (w_locked w)
    (w_inodes w) (w_tick w) (w_fdata w) (w_fbufs w) (w_hash w) (w_iocount w).

Definition upd_w_fbcount : (Z -> Z) -> world -> world := ltac:(mk_setter world_eta w_fbcount).
Definition upd_w_ficount : (Z -> Z) -> world -> world := ltac:(mk_setter world_eta w_ficount).
Definition upd_w_fmod : (Z -> Z) -> world -> world := ltac:(mk_setter world_eta w_fmod).
Definition upd_w_total_dir : (Z -> Z) -> world -> world := ltac:(mk_setter world_eta w_total_dir).
Definition upd_w_gd : ((list ext2_gd) -> (list ext2_gd)) -> world -> world := ltac:(mk_setter world_eta w_gd).
Definition upd_w_contigdirs : ((list Z) -> (list Z)) -> world -> world := ltac:(mk_setter world_eta w_contigdirs).
Definition upd_w_maxcluster : ((list Z) -> (list Z)) -> world -> world := ltac:(mk_setter world_eta w_maxcluster).
Definition upd_w_clustersum : ((list csum) -> (list csum)) -> world -> world := ltac:(mk_setter world_eta w_clustersum).
Definition upd_w_dev : ((gmap Z (list Z)) -> (gmap Z (list Z))) -> world -> world := ltac:(mk_setter world_eta w_dev).
Definition upd_w_bufs : ((gmap Z (list Z)) -> (gmap Z (list Z))) -> world -> world := ltac:(mk_setter world_eta w_bufs).
Definition upd_w_others : ((gset Z) -> (gset Z)) -> world -> world := ltac:(mk_setter world_eta w_others).
Definition upd_w_locked : (bool -> bool) -> world -> world := ltac:(mk_setter world_eta w_locked).
Definition upd_w_inodes : ((gmap Z inode) -> (gmap Z inode)) -> world -> world := ltac:(mk_setter world_eta w_inodes).
Definition upd_w_tick : (nat -> nat) -> world -> world := ltac:(mk_setter world_eta w_tick).
Definition upd_w_fdata : (gmap (Z * Z) (list Z) -> gmap (Z * Z) (list Z)) -> world -> world :=
  ltac:(mk_setter world_eta w_fdata).
Definition upd_w_fbufs : (gmap (Z * Z) (list Z) -> gmap (Z * Z) (list Z)) -> world -> world :=
  ltac:(mk_setter world_eta w_fbufs).
Definition upd_w_hash : (ihash -> ihash) -> world -> world := ltac:(mk_setter world_eta w_hash).
Definition upd_w_iocount : (gmap Z Z -> gmap Z Z) -> world -> world := ltac:(mk_setter world_eta w_iocount).

Definition ext2_gd_eta (gd : ext2_gd) : ext2_gd :=
  mk_gd (ext2bgd_b_bitmap gd) (ext2bgd_i_bitmap gd) (ext2bgd_i_tables gd) (ext2bgd_nbfree gd)
    (ext2bgd_nifree gd) (ext2bgd_ndirs gd) (ext4bgd_flags gd) (ext4bgd_x_bitmap gd)
    (ext4bgd_b_bmap_csum gd) (ext4bgd_i_bmap_csum gd) (ext4bgd_i_unused gd) (ext4bgd_csum gd).

Definition upd_ext2bgd_nbfree : (Z -> Z) -> ext2_gd -> ext2_gd := ltac:(mk_setter ext2_gd_eta ext2bgd_nbfree).
Definition upd_ext2bgd_nifree : (Z -> Z) -> ext2_gd -> ext2_gd := ltac:(mk_setter ext2_gd_eta ext2bgd_nifree).
Definition upd_ext2bgd_ndirs : (Z -> Z) -> ext2_gd -> ext2_gd := ltac:(mk_setter ext2_gd_eta ext2bgd_ndirs).

(** * The services of the kernel *)

(** At the [n]-th call of a service: the errno a read or write of a device
    block fails with, whether [buf_getblk] returns NULL, the stale contents of
    a buffer that [buf_getblk] returns, a random word, the clock, and what the
    other threads do before this thread goes on. [ke_wait] is the same while a
    buffer that another thread holds is waited for. *)
Class KernelEnv : Type := mk_env {
  ke_read_error : nat -> Z -> option Z;
  ke_write_error : nat -> Z -> option Z;
  ke_getblk_null : nat -> Z -> bool;
  ke_stale : nat -> Z -> Z -> list Z;
  ke_random : nat -> Z;
  ke_now : nat -> Z * Z;
  ke_sched : nat -> world -> world;
  ke_wait : nat -> Z -> world -> world
}.

Section services.
Context `{KernelEnv}.

Abbreviation K := (M world).

Definition tick : K nat := fun w => Ok (w_tick w, upd_w_tick S w).

Definition EXT2_LOCK : K unit := fun w =>
  if w_locked w then Fault LockMisuse
  else let w' := ke_sched (w_tick w) w in
       Ok (tt, upd_w_tick S (upd_w_locked (fun _ => true) w')).

Definition EXT2_UNLOCK : K unit := fun w =>
  if w_locked w then Ok (tt, upd_w_locked (fun _ => false) w) else Fault LockMisuse.

(** LCK_MTX_ASSERT(EXT2_MTX(ump), LCK_MTX_ASSERT_OWNED) *)
Definition LCK_MTX_ASSERT_OWNED : K unit := fun w =>
  if w_locked w then Ok (tt, w) else Fault LockMisuse.

(** [buf_meta_bread] of [size] bytes at device block [b]. The buffer is held
    on return, in the error case too; asking again for a buffer this thread
    holds would wait forever. *)
Definition buf_meta_bread (b size : Z) : K Z := fun w =>
  match w_bufs w !! b with
  | Some _ => Fault BufMisuse
  | None =>
      let w' := upd_w_tick S (ke_wait (w_tick w) b w) in
      match ke_read_error (w_tick w) b with
      | Some e => Ok (e, upd_w_bufs (insert b []) w')
      | None =>
          match w_dev w' !! b with
          | Some data =>
              if zlen data =? size then Ok (0, upd_w_bufs (insert b data) w') else Fault BufMisuse
          | None => Ok (EIO, upd_w_bufs (insert b []) w')
          end
      end
  end.

(** [buf_getblk]: false when it returns NULL. *)
Definition buf_getblk (b size : Z) : K bool := fun w =>
  match w_bufs w !! b with
  | Some _ => Fault BufMisuse
  | None =>
      let w' := upd_w_tick S (ke_wait (w_tick w) b w) in
      if ke_getblk_null (w_tick w) b then Ok (false, w')
      else Ok (true, upd_w_bufs (insert b (ke_stale (w_tick w) b size)) w')
  end.

(** The bytes behind [buf_dataptr], read and overwritten. *)
Definition buf_dataptr (b : Z) : K (list Z) := fun w =>
  match w_bufs w !! b with Some d => Ok (d, w) | None => Fault BufMisuse end.

Definition buf_store (b : Z) (d : list Z) : K unit := fun w =>
  match w_bufs w !! b with
  | Some _ => Ok (tt, upd_w_bufs (insert b d) w)
  | None => Fault BufMisuse
  end.

(** A buffer that is only released loses what was stored into it. *)
Definition buf_brelse (b : Z) : K unit := fun w =>
  match w_bufs w !! b with
  | Some _ => Ok (tt, upd_w_bufs (delete b) w)
  | None => Fault BufMisuse
  end.

(** [buf_bdwrite]: the contents become what every later reader sees. *)
Definition buf_bdwrite (b : Z) : K unit := fun w =>
  match w_bufs w !! b with
  | Some d => Ok (tt, upd_w_bufs (delete b) (upd_w_dev (insert b d) w))
  | None => Fault BufMisuse
  end.

(** [buf_bwrite]: the same, waiting for the device, which may fail. *)
Definition buf_bwrite (b : Z) : K Z := fun w =>
  match w_bufs w !! b with
  | Some d =>
      let w' := upd_w_tick S (upd_w_bufs (delete b) w) in
      match ke_write_error (w_tick w) b with
      | Some e => Ok (e, w')
      | None => Ok (0, upd_w_dev (insert b d) w')
      end
  | None => Fault BufMisuse
  end.

(** The same services on the vnode of a file, whose buffers are named by the
    file and its logical block; [w_fdata] is what a reader of the file's vnode
    sees. How the kernel finds the device block behind one is its own affair. *)
Inductive bufref : Type := DevBuf (b : Z) | FileBuf (ip lbn : Z).

Definition file_meta_bread (ip lbn size : Z) : K Z := fun w =>
  match w_fbufs w !! (ip, lbn) with
  | Some _ => Fault BufMisuse
  | None =>
      let w' := upd_w_tick S (ke_wait (w_tick w) lbn w) in
      match ke_read_error (w_tick w) lbn with
      | Some e => Ok (e, upd_w_fbufs (insert (ip, lbn) []) w')
      | None =>
          match w_fdata w' !! (ip, lbn) with
          | Some data =>
              if zlen data =? size then Ok (0, upd_w_fbufs (insert (ip, lbn) data) w') else Fault BufMisuse
          | None => Ok (EIO, upd_w_fbufs (insert (ip, lbn) []) w')
          end
      end
  end.

(** [buf_getblk] on a file's vnode. *)
Definition file_getblk (ip lbn size : Z) : K bool := fun w =>
  match w_fbufs w !! (ip, lbn) with
  | Some _ => Fault BufMisuse
  | None =>
      let w' := upd_w_tick S (ke_wait (w_tick w) lbn w) in
      if ke_getblk_null (w_tick w) lbn then Ok (false, w')
      else Ok (true, upd_w_fbufs (insert (ip, lbn) (ke_stale (w_tick w) lbn size)) w')
  end.

Definition ref_dataptr (r : bufref) : K (list Z) :=
  match r with
  | DevBuf b => buf_dataptr b
  | FileBuf ip lbn => fun w =>
      match w_fbufs w !! (ip, lbn) with Some d => Ok (d, w) | None => Fault BufMisuse end
  end.

Definition ref_store (r : bufref) (d : list Z) : K unit :=
  match r with
  | DevBuf b => buf_store b d
  | FileBuf ip lbn => fun w =>
      match w_fbufs w !! (ip, lbn) with
      | Some _ => Ok (tt, upd_w_fbufs (insert (ip, lbn) d) w)
      | None => Fault BufMisuse
      end
  end.

Definition ref_brelse (r : bufref) : K unit :=
  match r with
  | DevBuf b => buf_brelse b
  | FileBuf ip lbn => fun w =>
      match w_fbufs w !! (ip, lbn) with
      | Some _ => Ok (tt, upd_w_fbufs (delete (ip, lbn)) w)
      | None => Fault BufMisuse
      end
  end.

Definition ref_bdwrite (r : bufref) : K unit :=
  match r with
  | DevBuf b => buf_bdwrite b
  | FileBuf ip lbn => fun w =>
      match w_fbufs w !! (ip, lbn) with
      | Some d => Ok (tt, upd_w_fbufs (delete (ip, lbn)) (upd_w_fdata (insert (ip, lbn) d) w))
      | None => Fault BufMisuse
      end
  end.

Definition ref_bwrite (r : bufref) : K Z :=
  match r with
  | DevBuf b => buf_bwrite b
  | FileBuf ip lbn => fun w =>
      match w_fbufs w !! (ip, lbn) with
      | Some d =>
          let w' := upd_w_tick S (upd_w_fbufs (delete (ip, lbn)) w) in
          match ke_write_error (w_tick w) lbn with
          | Some e => Ok (e, w')
          | None => Ok (0, upd_w_fdata (insert (ip, lbn) d) w')
          end
      | None => Fault BufMisuse
      end
  end.

(** [buf_clear] zeroes the whole of a buffer. *)
Definition buf_clear (r : bufref) : K unit :=
  d ← ref_dataptr r; ref_store r (replicate (length d) 0).

(** [buf_bawrite] starts the write and does not wait for it. *)
Definition ref_bawrite (r : bufref) : K unit := ref_bdwrite r.

Definition read_random : K Z := fun w => Ok (ke_random (w_tick w), upd_w_tick S w).
Definition nanotime : K (Z * Z) := fun w => Ok (ke_now (w_tick w), upd_w_tick S w).

(** An in-core inode by the pointer the code passes around. *)
Definition VTOI (ino : Z) : K inode := fun w =>
  match w_inodes w !! ino with Some ip => Ok (ip, w) | None => Fault NullDeref end.

Definition upd_inode (ino : Z) (f : inode -> inode) : K unit := fun w =>
  match w_inodes w !! ino with
  | Some ip => Ok (tt, upd_w_inodes (insert ino (f ip)) w)
  | None => Fault NullDeref
  end.

(** EXT2_GD(fs, cg) of the running volume, read and updated in place. *)
Definition GD (cg : Z) : K ext2_gd := fun w =>
  match w_gd w !z cg with Some gd => Ok (gd, w) | None => Fault OutOfBounds end.

Definition upd_GD (cg : Z) (f : ext2_gd -> ext2_gd) : K unit := fun w =>
  match w_gd w !z cg with
  | Some gd => Ok (tt, upd_w_gd (zinsert cg (f gd)) w)
  | None => Fault OutOfBounds
  end.

(** An operation of the inode hash, on its part of the state. *)
Definition on_hash {A} (m : M ihash A) : K A := fun w =>
  match m (w_hash w) with Ok (a, h) => Ok (a, upd_w_hash (fun _ => h) w) | Fault f => Fault f end.

(** [ip->i_flag |= m] *)
Definition or_flag (m : Z) : inode -> inode := upd_i_flag (fun f => Z.lor f m).

(** [ip->i_flag &= ~m] *)
Definition clear_flag (m : Z) : inode -> inode := upd_i_flag (fun f => Z.ldiff f m).

(** The I/O counts of vnodes: [vnode_put] panics when there is none to release.
    What the vnode layer does when the last one goes, [ext2_inactive] and
    [ext2_reclaim], are operations of their own. *)
Definition iocount (w : world) (vp : Z) : Z := default 0 (w_iocount w !! vp).
Definition vnode_ref (vp : Z) : K unit := fun w => Ok (tt, upd_w_iocount (insert vp (iocount w vp + 1)) w).
Definition vnode_put (vp : Z) : K unit := fun w =>
  if iocount w vp <? 1 then Fault (Panic "vnode_put") else Ok (tt, upd_w_iocount (insert vp (iocount w vp - 1)) w).

End services.
