(* ===== verification/InodeCnv.v ===== *)
(** Inodes on disk and in core: struct ext2fs_dinode of ext2_dinode.h, the two
    conversions of ext2_inode_cnv.c and what a trip through the disk keeps. *)
From stdpp Require Import gmap.
From S2P Require Import Prelude Bitmap Bytes Super Kernel.

Definition EXT2_IMMUTABLE : Z := 0x10.
Definition EXT2_APPEND : Z := 0x20.
Definition EXT2_NODUMP : Z := 0x40.
Definition EXT4_INDEX : Z := 0x1000.
Definition EXT4_HUGE_FILE : Z := 0x40000.
Definition EXT4_EXTENTS : Z := 0x80000.

(** <sys/stat.h> *)
Definition UF_NODUMP : Z := 0x1.
Definition SF_IMMUTABLE : Z := 0x20000.
Definition SF_APPEND : Z := 0x40000.
Definition S_ISREG (mode : Z) : bool := Z.land mode IFMT =? IFREG.
Definition S_ISDIR (mode : Z) : bool := Z.land mode IFMT =? IFDIR.

Record ext2fs_dinode : Type := mk_dinode {
  e2di_mode : Z; e2di_uid : Z; e2di_size : Z; e2di_atime : Z; e2di_ctime : Z; e2di_mtime : Z;
  e2di_dtime : Z; e2di_gid : Z; e2di_nlink : Z; e2di_nblock : Z; e2di_flags : Z; e2di_version : Z;
  e2di_blocks : list Z;
  e2di_gen : Z; e2di_facl : Z; e2di_size_high : Z; e2di_faddr : Z; e2di_nblock_high : Z;
  e2di_facl_high : Z; e2di_uid_high : Z; e2di_gid_high : Z; e2di_chksum_lo : Z; e2di_lx_reserved : Z;
  e2di_extra_isize : Z; e2di_chksum_hi : Z; e2di_ctime_extra : Z; e2di_mtime_extra : Z;
  e2di_atime_extra : Z; e2di_crtime : Z; e2di_crtime_extra : Z; e2di_version_hi : Z
}.

(** The first 128 bytes, and the 28 behind them that only large inodes have. *)
Definition dinode_layout : list nat :=
  [2; 2; 4; 4; 4; 4; 4; 2; 2; 4; 4; 4]%nat ++ replicate 15 4%nat ++ [4; 4; 4; 4; 2; 2; 2; 2; 2; 2]%nat.
Definition dinode_extra_layout : list nat := [2; 2; 4; 4; 4; 4; 4; 4]%nat.

Definition dinode_fields (ei : ext2fs_dinode) : list Z :=
  [e2di_mode ei; e2di_uid ei; e2di_size ei; e2di_atime ei; e2di_ctime ei; e2di_mtime ei;
   e2di_dtime ei; e2di_gid ei; e2di_nlink ei; e2di_nblock ei; e2di_flags ei; e2di_version ei] ++
  e2di_blocks ei ++
  [e2di_gen ei; e2di_facl ei; e2di_size_high ei; e2di_faddr ei; e2di_nblock_high ei;
   e2di_facl_high ei; e2di_uid_high ei; e2di_gid_high ei; e2di_chksum_lo ei; e2di_lx_reserved ei].
Definition dinode_extra_fields (ei : ext2fs_dinode) : list Z :=
  [e2di_extra_isize ei; e2di_chksum_hi ei; e2di_ctime_extra ei; e2di_mtime_extra ei;
   e2di_atime_extra ei; e2di_crtime ei; e2di_crtime_extra ei; e2di_version_hi ei].

Definition dinode_of_fields (l x : list Z) : res ext2fs_dinode :=
  match l, drop 27 l, x with
  | f0 :: f1 :: f2 :: f3 :: f4 :: f5 :: f6 :: f7 :: f8 :: f9 :: f10 :: f11 :: rest,
    [g0; g1; g2; g3; g4; g5; g6; g7; g8; g9], [x0; x1; x2; x3; x4; x5; x6; x7] =>
      mret (mk_dinode f0 f1 f2 f3 f4 f5 f6 f7 f8 f9 f10 f11 (take 15 rest)
              g0 g1 g2 g3 g4 g5 g6 g7 g8 g9 x0 x1 x2 x3 x4 x5 x6 x7)
  | _, _, _ => Fault OutOfBounds
  end.

Section cnv.
Context (fs : m_ext2fs).

Definition E2DI_HAS_XTIME : bool := has_feature (e2fs_features_rocompat (m_e2fs fs)) EXT2F_ROCOMPAT_EXTRA_ISIZE.
Definition E2DI_HAS_HUGE_FILE : bool := has_feature (e2fs_features_rocompat (m_e2fs fs)) EXT2F_ROCOMPAT_HUGE_FILE.

(** The inode at byte [off] of a block of the inode table. The extra part is
    touched under E2DI_HAS_XTIME only. *)
Definition dinode_load (bs : list Z) (off : Z) : res ext2fs_dinode :=
  l ← fields_get bs off dinode_layout;
  x ← (if E2DI_HAS_XTIME then fields_get bs (off + 128) dinode_extra_layout else mret (replicate 8 0));
  dinode_of_fields l x.

Definition dinode_store (bs : list Z) (off : Z) (ei : ext2fs_dinode) : res (list Z) :=
  bs ← fields_put bs off dinode_layout (dinode_fields ei);
  if E2DI_HAS_XTIME then fields_put bs (off + 128) dinode_extra_layout (dinode_extra_fields ei) else mret bs.

(** EXT3_NSEC_MASK is 64 bits wide; the macros work on 32-bit values. The left
    shift of [t] is two's complement. *)
Definition XTIME_TO_NSEC (x : Z) : Z := Z.shiftr (Z.land x 0xfffffffffffffffc) 2.
Definition NSEC_TO_XTIME (t : Z) : Z := u32 (Z.land (u32 (Z.shiftl t 2)) 0xfffffffffffffffc).

Definition flag_if (features mask flag : Z) : Z := if has_feature features mask then flag else 0.

(** [ext2_ei2i]: [ip] is the inode before. *)
Definition ext2_ei2i (ei : ext2fs_dinode) (ip : inode) : inode :=
  let nlink := s16 (e2di_nlink ei) in
  let mode := if negb (e2di_nlink ei =? 0) then e2di_mode ei else 0 in
  let size := e2di_size ei in
  let size := if S_ISREG mode then Z.lor size (Z.shiftl (e2di_size_high ei) 32) else size in
  let xtime (x old : Z) := if E2DI_HAS_XTIME then s32 (XTIME_TO_NSEC x) else old in
  let flags := Z.lor (Z.lor (flag_if (e2di_flags ei) EXT2_APPEND SF_APPEND)
                            (flag_if (e2di_flags ei) EXT2_IMMUTABLE SF_IMMUTABLE))
                     (flag_if (e2di_flags ei) EXT2_NODUMP UF_NODUMP) in
  let flag := Z.lor (Z.lor (i_flag ip) (flag_if (e2di_flags ei) EXT4_INDEX IN_E4INDEX))
                    (flag_if (e2di_flags ei) EXT4_EXTENTS IN_E4EXTENTS) in
  let blocks := e2di_nblock ei in
  let blocks :=
    if E2DI_HAS_HUGE_FILE then
      let blocks := Z.lor blocks (Z.shiftl (e2di_nblock_high ei) 32) in
      if has_feature (e2di_flags ei) EXT4_HUGE_FILE then u64 (fsbtodb fs blocks) else blocks
    else blocks in
  mk_inode flag (i_number ip) (i_vid ip) (i_count ip) (i_endoff ip) (i_diroff ip) (i_offset ip)
    (i_block_group ip) (i_next_alloc_block ip) (i_next_alloc_goal ip)
    mode nlink (e2di_uid ei) (e2di_gid ei) size blocks
    (s32 (e2di_atime ei)) (s32 (e2di_mtime ei)) (s32 (e2di_ctime ei))
    (if E2DI_HAS_XTIME then s32 (e2di_crtime ei) else i_birthtime ip)
    (xtime (e2di_mtime_extra ei) (i_mtimensec ip)) (xtime (e2di_atime_extra ei) (i_atimensec ip))
    (xtime (e2di_ctime_extra ei) (i_ctimensec ip)) (xtime (e2di_crtime_extra ei) (i_birthnsec ip))
    (e2di_gen ei) flags (take 12 (e2di_blocks ei)) (take 3 (drop 12 (e2di_blocks ei)))
    (ec_start ip) (ec_blk ip) (ec_len ip) (ec_type ip).

(** [ext2_i2ei]: [ei] is the inode on disk before. *)
Definition ext2_i2ei (ip : inode) (ei : ext2fs_dinode) : ext2fs_dinode :=
  let nlink := u16 (i_nlink ip) in
  let extra (ns old : Z) := if E2DI_HAS_XTIME then NSEC_TO_XTIME ns else old in
  let flags := Z.lor (Z.lor (Z.lor (Z.lor (flag_if (i_flags ip) SF_APPEND EXT2_APPEND)
                            (flag_if (i_flags ip) SF_IMMUTABLE EXT2_IMMUTABLE))
                            (flag_if (i_flags ip) UF_NODUMP EXT2_NODUMP))
                            (flag_if (i_flag ip) IN_E4INDEX EXT4_INDEX))
                            (flag_if (i_flag ip) IN_E4EXTENTS EXT4_EXTENTS) in
  mk_dinode (i_mode ip) (u16 (i_uid ip)) (u32 (i_size ip)) (u32 (i_atime ip)) (u32 (i_ctime ip)) (u32 (i_mtime ip))
    (if negb (nlink =? 0) then 0 else u32 (i_mtime ip)) (u16 (i_gid ip)) nlink
    (Z.land (i_blocks ip) 0xffffffff) flags (e2di_version ei)
    (i_db ip ++ i_ib ip)
    (i_gen ip) (e2di_facl ei)
    (if S_ISREG (i_mode ip) then u32 (Z.shiftr (i_size ip) 32) else e2di_size_high ei)
    (e2di_faddr ei) (Z.land (Z.shiftr (i_blocks ip) 32) 0xffff)
    (e2di_facl_high ei) (e2di_uid_high ei) (e2di_gid_high ei) (e2di_chksum_lo ei) (e2di_lx_reserved ei)
    (e2di_extra_isize ei) (e2di_chksum_hi ei)
    (extra (i_ctimensec ip) (e2di_ctime_extra ei)) (extra (i_mtimensec ip) (e2di_mtime_extra ei))
    (extra (i_atimensec ip) (e2di_atime_extra ei))
    (if E2DI_HAS_XTIME then u32 (i_birthtime ip) else e2di_crtime ei)
    (extra (i_birthnsec ip) (e2di_crtime_extra ei)) (e2di_version_hi ei).

End cnv.

(** * What a trip through the disk keeps *)

(** An inode in core that belongs to a file: its fields are in the range of
    their C types, and it is not a nanosecond count above a second. *)
Record inode_in_range (ip : inode) : Prop := mk_inode_in_range {
  ir_mode : u16_ok (i_mode ip);
  ir_nlink : 0 < i_nlink ip < 2 ^ 15;
  ir_uid : u32_ok (i_uid ip); ir_gid : u32_ok (i_gid ip);
  ir_size : 0 <= i_size ip < 2 ^ 63;
  ir_blocks : 0 <= i_blocks ip < 2 ^ 48;
  ir_atime : s32_ok (i_atime ip); ir_mtime : s32_ok (i_mtime ip);
  ir_ctime : s32_ok (i_ctime ip); ir_birthtime : s32_ok (i_birthtime ip);
  ir_ansec : 0 <= i_atimensec ip < 2 ^ 30; ir_mnsec : 0 <= i_mtimensec ip < 2 ^ 30;
  ir_cnsec : 0 <= i_ctimensec ip < 2 ^ 30; ir_bnsec : 0 <= i_birthnsec ip < 2 ^ 30;
  ir_gen : u32_ok (i_gen ip);
  ir_flags : i_flags ip = Z.land (i_flags ip) (Z.lor (Z.lor SF_APPEND SF_IMMUTABLE) UF_NODUMP);
  ir_db : length (i_db ip) = 12%nat; ir_ib : length (i_ib ip) = 3%nat
}.

Lemma xtime_roundtrip t : 0 <= t < 2 ^ 30 -> s32 (XTIME_TO_NSEC (NSEC_TO_XTIME t)) = t.
Proof.
  intros Ht. assert (0 <= Z.shiftl t 2 < 2 ^ 32) as Hs by (rewrite Z.shiftl_mul_pow2 by lia; lia).
  assert (forall z, 0 <= z < 2 ^ 32 -> Z.land (4 * (z / 4)) 0xfffffffffffffffc = 4 * (z / 4)) as Hmask.
  { intros z Hz. pose proof (Z.div_pos z 4 ltac:(lia) ltac:(lia)). pose proof (Z.mul_div_le z 4 ltac:(lia)).
    apply Z.bits_inj'. intros k Hk. rewrite Z.land_spec.
    destruct (decide (k < 2)).
    - replace (4 * (z / 4)) with (Z.shiftl (z / 4) 2) by (rewrite Z.shiftl_mul_pow2 by lia; lia).
      by rewrite Z.shiftl_spec_low by lia.
    - destruct (decide (k < 64)).
      + replace 0xfffffffffffffffc with (Z.shiftl (Z.ones 62) 2) by reflexivity.
        rewrite Z.shiftl_spec, Z.ones_spec_low by lia. apply andb_true_r.
      + rewrite (Z.bits_above_log2 (4 * (z / 4)) k); [done|lia|].
        destruct (decide (4 * (z / 4) = 0)) as [->|]; [cbn; lia|].
        apply Z.log2_lt_pow2; [lia|]. apply Z.le_lt_trans with z; [lia|].
        apply Z.lt_le_trans with (2 ^ 32); [lia|]. apply Z.pow_le_mono_r; lia. }
  assert (Z.shiftl t 2 = 4 * (Z.shiftl t 2 / 4)) as Hdiv.
  { rewrite Z.shiftl_mul_pow2 by lia. change (2 ^ 2) with 4. rewrite Z.div_mul by lia. lia. }
  unfold NSEC_TO_XTIME, XTIME_TO_NSEC. rewrite !(u32_id (Z.shiftl t 2)) by done.
  rewrite Hdiv, Hmask by done. rewrite <- Hdiv, u32_id by done. rewrite Hdiv, Hmask by done. rewrite <- Hdiv.
  rewrite Z.shiftr_shiftl_l by lia. cbn. rewrite Z.shiftl_0_r. apply s32_id. unfold s32_ok. lia.
Qed.

Lemma flag_if_land features mask flag k : 0 <= k ->
  Z.testbit (flag_if features mask flag) k = has_feature features mask && Z.testbit flag k.
Proof. intros _. unfold flag_if. destruct (has_feature features mask); [done|apply Z.bits_0]. Qed.

Lemma lor_split v n : 0 <= n -> 0 <= v -> Z.lor (v mod 2 ^ n) (Z.shiftl (Z.shiftr v n) n) = v.
Proof.
  intros Hn Hv. apply Z.bits_inj'. intros k Hk. rewrite Z.lor_spec. destruct (decide (k < n)).
  - rewrite Z.mod_pow2_bits_low, Z.shiftl_spec_low, orb_false_r by lia. done.
  - rewrite Z.mod_pow2_bits_high, Z.shiftl_spec, Z.shiftr_spec by lia. cbn. f_equal. lia.
Qed.

(** The three file flags survive: each is translated there and back. *)
Lemma has_feature_bit f k : 0 <= k -> has_feature f (2 ^ k) = Z.testbit f k.
Proof.
  intros Hk. unfold has_feature. destruct (Z.testbit f k) eqn:Hb.
  - apply negb_true_iff, Z.eqb_neq. intros H0. apply (f_equal (fun z => Z.testbit z k)) in H0.
    rewrite Z.land_spec, Hb, Z.pow2_bits_true, Z.bits_0 in H0 by done. done.
  - apply negb_false_iff, Z.eqb_eq, Z.bits_inj'. intros j Hj. rewrite Z.land_spec, Z.bits_0, Z.pow2_bits_eqb by done.
    destruct (Z.eqb_spec k j) as [<-|]; [by rewrite Hb|apply andb_false_r].
Qed.

Section roundtrip.
Context (fs : m_ext2fs).

Definition disk_flags (ip : inode) : Z :=
  Z.lor (Z.lor (Z.lor (Z.lor (flag_if (i_flags ip) SF_APPEND EXT2_APPEND)
    (flag_if (i_flags ip) SF_IMMUTABLE EXT2_IMMUTABLE)) (flag_if (i_flags ip) UF_NODUMP EXT2_NODUMP))
    (flag_if (i_flag ip) IN_E4INDEX EXT4_INDEX)) (flag_if (i_flag ip) IN_E4EXTENTS EXT4_EXTENTS).

Lemma disk_flags_has ip :
  has_feature (disk_flags ip) EXT2_APPEND = has_feature (i_flags ip) SF_APPEND /\
  has_feature (disk_flags ip) EXT2_IMMUTABLE = has_feature (i_flags ip) SF_IMMUTABLE /\
  has_feature (disk_flags ip) EXT2_NODUMP = has_feature (i_flags ip) UF_NODUMP /\
  has_feature (disk_flags ip) EXT4_INDEX = has_feature (i_flag ip) IN_E4INDEX /\
  has_feature (disk_flags ip) EXT4_EXTENTS = has_feature (i_flag ip) IN_E4EXTENTS /\
  has_feature (disk_flags ip) EXT4_HUGE_FILE = false.
Proof.
  unfold disk_flags, flag_if.
  destruct (has_feature (i_flags ip) SF_APPEND), (has_feature (i_flags ip) SF_IMMUTABLE),
    (has_feature (i_flags ip) UF_NODUMP), (has_feature (i_flag ip) IN_E4INDEX),
    (has_feature (i_flag ip) IN_E4EXTENTS); vm_compute; done.
Qed.

Lemma file_flags_back ip :
  i_flags ip = Z.land (i_flags ip) (Z.lor (Z.lor SF_APPEND SF_IMMUTABLE) UF_NODUMP) ->
  Z.lor (Z.lor (flag_if (i_flags ip) SF_APPEND SF_APPEND) (flag_if (i_flags ip) SF_IMMUTABLE SF_IMMUTABLE))
    (flag_if (i_flags ip) UF_NODUMP UF_NODUMP) = i_flags ip.
Proof.
  intros H. rewrite H at 4. apply Z.bits_inj'. intros k Hk.
  rewrite !Z.lor_spec, !flag_if_land, Z.land_spec, !Z.lor_spec by done.
  change SF_APPEND with (2 ^ 18). change SF_IMMUTABLE with (2 ^ 17). change UF_NODUMP with (2 ^ 0).
  rewrite !has_feature_bit, !Z.pow2_bits_eqb by lia.
  destruct (Z.eqb_spec 18 k) as [<-|]; [|destruct (Z.eqb_spec 17 k) as [<-|]; [|destruct (Z.eqb_spec 0 k) as [<-|]]];
    cbn [Z.eqb Pos.eqb andb orb]; rewrite ?andb_true_r, ?andb_false_r, ?orb_false_r; done.
Qed.

Lemma s16_id z : - 2 ^ 15 <= z < 2 ^ 15 -> s16 z = z.
Proof. unfold s16. intros. rewrite Z.mod_small; lia. Qed.

Lemma size_back (mode size high : Z) :
  0 <= size < 2 ^ 63 ->
  (if S_ISREG mode
   then Z.lor (u32 size) (Z.shiftl (if S_ISREG mode then u32 (Z.shiftr size 32) else high) 32) else u32 size) =
  (if S_ISREG mode then size else size mod 2 ^ 32).
Proof.
  intros Hs. destruct (S_ISREG mode); [|done]. rewrite (u32_id (Z.shiftr size 32)); [apply lor_split; lia|].
  unfold u32_ok. rewrite Z.shiftr_div_pow2 by lia. split; [apply Z.div_pos; lia|apply Z.div_lt_upper_bound; lia].
Qed.

Lemma blocks_back (huge : bool) (blocks : Z) :
  0 <= blocks < 2 ^ 48 ->
  (if huge then Z.lor (blocks mod 2 ^ 32) (Z.shiftl (Z.shiftr blocks 32 mod 2 ^ 16) 32) else blocks mod 2 ^ 32) =
  (if huge then blocks else blocks mod 2 ^ 32).
Proof.
  intros Hb. destruct huge; [|done]. rewrite (Z.mod_small (Z.shiftr blocks 32)); [apply lor_split; lia|].
  rewrite Z.shiftr_div_pow2 by lia. split; [apply Z.div_pos; lia|apply Z.div_lt_upper_bound; lia].
Qed.

(** The inode that is read back into [ip0] after [ip] was written over [ei]. *)
Definition reread (ip ip0 : inode) (ei : ext2fs_dinode) : inode := ext2_ei2i fs (ext2_i2ei fs ip ei) ip0.

(** What [ext2_i2ei] writes [ext2_ei2i] reads back: mode, link count,
    times, generation, file flags, block pointers, the size (of a regular file
    in full, of others up to 32 bits) and the block count (in full under
    HUGE_FILE, else up to 32 bits); nanoseconds and birth time survive under
    EXTRA_ISIZE only, and of the owners only the lower 16 bits. *)
Theorem inode_disk_roundtrip ip ip0 ei :
  inode_in_range ip ->
  let r := reread ip ip0 ei in
  i_mode r = i_mode ip /\ i_nlink r = i_nlink ip /\
  i_atime r = i_atime ip /\ i_mtime r = i_mtime ip /\ i_ctime r = i_ctime ip /\
  i_gen r = i_gen ip /\ i_flags r = i_flags ip /\ i_db r = i_db ip /\ i_ib r = i_ib ip /\
  i_size r = (if S_ISREG (i_mode ip) then i_size ip else i_size ip mod 2 ^ 32) /\
  i_blocks r = (if E2DI_HAS_HUGE_FILE fs then i_blocks ip else i_blocks ip mod 2 ^ 32) /\
  i_uid r = i_uid ip mod 2 ^ 16 /\ i_gid r = i_gid ip mod 2 ^ 16 /\
  (E2DI_HAS_XTIME fs = true ->
     i_atimensec r = i_atimensec ip /\ i_mtimensec r = i_mtimensec ip /\ i_ctimensec r = i_ctimensec ip /\
     i_birthtime r = i_birthtime ip /\ i_birthnsec r = i_birthnsec ip) /\
  (forall k, 0 <= k -> Z.testbit (i_flag r) k = Z.testbit (i_flag ip0) k ||
     (Z.testbit (i_flag ip) k && (Z.testbit IN_E4INDEX k || Z.testbit IN_E4EXTENTS k))).
Proof.
  intros []. cbv zeta. unfold reread, ext2_ei2i, ext2_i2ei. cbv zeta. fold (disk_flags ip).
  cbn [e2di_mode e2di_nlink e2di_size e2di_size_high e2di_atime e2di_mtime e2di_ctime e2di_flags e2di_nblock
    e2di_nblock_high e2di_gen e2di_uid e2di_gid e2di_blocks e2di_crtime e2di_crtime_extra e2di_atime_extra
    e2di_mtime_extra e2di_ctime_extra i_mode i_nlink i_size i_blocks i_atime i_mtime i_ctime i_gen i_flags i_db i_ib
    i_uid i_gid i_flag i_atimensec i_mtimensec i_ctimensec i_birthtime i_birthnsec].
  destruct (disk_flags_has ip) as (F1 & F2 & F3 & F4 & F5 & F6).
  assert (u16 (i_nlink ip) = i_nlink ip) as Hnl by (apply u16_id; unfold u16_ok; lia).
  rewrite Hnl, (proj2 (Z.eqb_neq (i_nlink ip) 0)) by lia. cbn [negb].
  assert (forall t, s32_ok t -> s32 (u32 t) = t) as Ht.
  { intros t [? ?]. unfold s32, u32. rewrite Zplus_mod_idemp_l. rewrite Z.mod_small; lia. }
  rewrite !Ht by done. rewrite F6.
  assert (forall f, flag_if (disk_flags ip) EXT2_APPEND f = flag_if (i_flags ip) SF_APPEND f) as G1
    by (intros f; unfold flag_if; by rewrite F1).
  assert (forall f, flag_if (disk_flags ip) EXT2_IMMUTABLE f = flag_if (i_flags ip) SF_IMMUTABLE f) as G2
    by (intros f; unfold flag_if; by rewrite F2).
  assert (forall f, flag_if (disk_flags ip) EXT2_NODUMP f = flag_if (i_flags ip) UF_NODUMP f) as G3
    by (intros f; unfold flag_if; by rewrite F3).
  rewrite G1, G2, G3, file_flags_back by done.
  change 0xffffffff with (Z.ones 32). change 0xffff with (Z.ones 16). rewrite !Z.land_ones by lia.
  split; [done|]. split; [apply s16_id; lia|]. do 5 (split; [done|]).
  split; [by rewrite <- ir_db0, take_app_length|].
  split; [by rewrite <- ir_db0, drop_app_length, <- ir_ib0, firstn_all|].
  split; [by apply size_back|]. split; [by apply blocks_back|]. do 2 (split; [done|]).
  split; [intros ->; cbv iota; by rewrite !xtime_roundtrip, Ht|].
  intros k Hk. rewrite !Z.lor_spec, !flag_if_land by done. rewrite F4, F5.
  change IN_E4INDEX with (2 ^ 16). change IN_E4EXTENTS with (2 ^ 17).
  rewrite !has_feature_bit, !Z.pow2_bits_eqb by lia.
  destruct (Z.eqb_spec 16 k) as [<-|]; [|destruct (Z.eqb_spec 17 k) as [<-|]]; cbn [Z.eqb Pos.eqb];
    rewrite ?andb_true_r, ?andb_false_r, ?orb_false_r; try done.
Qed.
End roundtrip.

(** * The inode table *)

Record dinode_in_range (ei : ext2fs_dinode) : Prop := mk_dinode_in_range {
  dr_blocks : length (e2di_blocks ei) = 15%nat;
  dr_base : fields_fit dinode_layout (dinode_fields ei);
  dr_extra : fields_fit dinode_extra_layout (dinode_extra_fields ei)
}.

Lemma dinode_of_fields_ok ei x :
  length (e2di_blocks ei) = 15%nat -> length x = 8%nat ->
  exists ei', dinode_of_fields (dinode_fields ei) x = Ok ei' /\ dinode_fields ei' = dinode_fields ei /\ dinode_extra_fields ei' = x.
Proof.
  destruct ei as [f0 f1 f2 f3 f4 f5 f6 f7 f8 f9 f10 f11 bl]. cbn [e2di_blocks]. intros Hb Hx.
  do 15 (destruct bl as [|? bl]; [done|]). destruct bl; [|done].
  do 8 (destruct x as [|? x]; [done|]). destruct x; [|done].
  eexists. split; [reflexivity|]. split; reflexivity.
Qed.

(** The neighbours of a slot that is stored to. *)
Lemma dinode_store_other fs bs off ei bs' :
  length (e2di_blocks ei) = 15%nat -> dinode_store fs bs off ei = Ok bs' ->
  zlen bs' = zlen bs /\
  (forall off2, let size := if E2DI_HAS_XTIME fs then 156 else 128 in
     off2 + size <= off \/ off + size <= off2 -> dinode_load fs bs' off2 = dinode_load fs bs off2).
Proof.
  intros Hbl H. unfold dinode_store in H.
  destruct (fields_put bs off dinode_layout (dinode_fields ei)) as [bs1|f] eqn:H1; [|done]. cbn [mbind res_bind] in H.
  unfold fields_put in H1.
  assert (zlen (fields_encode dinode_layout (dinode_fields ei)) = 128) as L1.
  { rewrite fields_encode_len; [reflexivity|]. unfold dinode_fields, dinode_layout. rewrite !length_app, Hbl. reflexivity. }
  assert (zlen (fields_encode dinode_extra_layout (dinode_extra_fields ei)) = 28) as L2 by (by rewrite fields_encode_len).
  change (layout_size dinode_layout) with 128 in *.
  destruct (E2DI_HAS_XTIME fs) eqn:HX.
  - unfold fields_put in H. split; [rewrite (put_bytes_len _ _ _ _ H); by eapply put_bytes_len|].
    cbv zeta. intros off2 Hd. unfold dinode_load. rewrite HX.
    rewrite !(fields_get_disj _ _ _ _ dinode_layout off2 H), !(fields_get_disj _ _ _ _ dinode_extra_layout (off2 + 128) H),
      !(fields_get_disj _ _ _ _ dinode_layout off2 H1), !(fields_get_disj _ _ _ _ dinode_extra_layout (off2 + 128) H1)
      by (change (layout_size dinode_layout) with 128; change (layout_size dinode_extra_layout) with 28; lia). done.
  - injection H as <-. split; [by eapply put_bytes_len|].
    cbv zeta. intros off2 Hd. unfold dinode_load. rewrite HX.
    rewrite (fields_get_disj _ _ _ _ dinode_layout off2 H1) by (change (layout_size dinode_layout) with 128; lia). done.
Qed.

(** A slot of the inode table holds what was last stored in it, whatever
    its neighbours are stored: slots do not overlap as long as they are at
    least 128 bytes apart, or 156 under EXTRA_ISIZE. *)
Theorem dinode_store_load fs bs off ei bs' :
  dinode_in_range ei -> dinode_store fs bs off ei = Ok bs' ->
  zlen bs' = zlen bs /\
  (exists ei', dinode_load fs bs' off = Ok ei' /\ dinode_fields ei' = dinode_fields ei /\
     (E2DI_HAS_XTIME fs = true -> dinode_extra_fields ei' = dinode_extra_fields ei)) /\
  (forall off2, let size := if E2DI_HAS_XTIME fs then 156 else 128 in
     off2 + size <= off \/ off + size <= off2 -> dinode_load fs bs' off2 = dinode_load fs bs off2).
Proof.
  intros [Hbl Hbase Hextra] H. destruct (dinode_store_other fs bs off ei bs' Hbl H) as [Hlen Hother].
  split; [done|]. split; [|done]. unfold dinode_store in H.
  destruct (fields_put bs off dinode_layout (dinode_fields ei)) as [bs1|f] eqn:H1; [|done]. cbn [mbind res_bind] in H.
  pose proof (fields_get_put _ _ _ _ _ H1 Hbase) as G1.
  destruct (E2DI_HAS_XTIME fs) eqn:HX.
  - pose proof (fields_get_put _ _ _ _ _ H Hextra) as G2. unfold fields_put in H.
    destruct (dinode_of_fields_ok ei (dinode_extra_fields ei) Hbl eq_refl) as (ei' & He & Hf & Hx).
    exists ei'. split; [|done]. unfold dinode_load. rewrite HX.
    rewrite (fields_get_disj _ _ _ _ dinode_layout off H) by (change (layout_size dinode_layout) with 128; lia).
    rewrite G1. cbn [mbind res_bind]. rewrite G2. exact He.
  - injection H as <-. destruct (dinode_of_fields_ok ei (replicate 8 0) Hbl eq_refl) as (ei' & He & Hf & _).
    exists ei'. split; [|done]. unfold dinode_load. rewrite HX, G1. exact He.
Qed.

(** * A concrete inode *)

Definition inode_ex : inode :=
  mk_inode IN_E4EXTENTS 12 1 0 0 0 0 0 0 0 0x81A4 1 70000 100 (2 ^ 33 + 5) 16 10 (-20) 30 40 5 6 7 8 77 SF_APPEND
    (replicate 12 9) (replicate 3 4) 0 0 0 0.

Definition dinode_ex : ext2fs_dinode :=
  mk_dinode 0 0 0 0 0 0 0 0 0 0 0 0 (replicate 15 0) 0 0 0 0 0 0 0 0 0 0 32 0 0 0 0 0 0 0.
