(* ===== verification/Cluster.v ===== *)
(** The cluster summary: [ext2_clusteracct] of ext2_subr.c keeps, for every
    group, how many maximal runs of free blocks there are of each length, runs
    of [contigsumsize] and more counted together. *)
From S2P Require Import Prelude Bitmap Bytes Super Kernel.

(** [sump[k] += d], in int32_t. *)
Definition bump (sump : list Z) (k d : Z) : res (list Z) :=
  v ← access (sump !z k); mret (zinsert k (s32 (v + d)) sump).

(** The step [loc], [bit] takes from position [i] to the next one. *)
Definition next_pos (i loc bt : Z) : Z * Z :=
  if negb (Z.land i (NBBY - 1) =? NBBY - 1) then (loc, Z.shiftl bt 1) else (loc + 1, 1).

Definition prev_pos (i loc bt : Z) : Z * Z :=
  if negb (Z.land i (NBBY - 1) =? 0) then (loc, Z.shiftr bt 1) else (loc - 1, Z.shiftl 1 (NBBY - 1)).

Section clusteracct.
Context (csz : Z).  (* fs->e2fs_contigsumsize *)

(** A finished run is counted under its length, cut at [csz]. *)
Definition end_run (sump : list Z) (run : Z) : res (list Z) :=
  bump sump (if run >? csz then csz else run) 1.

(** The loop that fills the summary in from the bitmap. *)
Fixpoint init_loop (bbp : list Z) (n : nat) (i loc bt run : Z) (sump : list Z) : res (Z * list Z) :=
  match n with
  | O => mret (run, sump)
  | S n' =>
      b ← byte_at bbp loc;
      st ← (if Z.land b bt =? 0 then mret (run + 1, sump)
            else if negb (run =? 0) then sump' ← end_run sump run; mret (0, sump')
            else mret (run, sump));
      let '(loc', bt') := next_pos i loc bt in
      init_loop bbp n' (i + 1) loc' bt' st.1 st.2
  end.

Definition cs_initialize (bbp : list Z) (fpg : Z) (cs : csum) : res csum :=
  if cs_init cs =? 0 then
    st ← init_loop bbp (Z.to_nat fpg) 0 0 1 0 (cs_sum cs);
    sump ← (if negb (st.1 =? 0) then end_run st.2 st.1 else mret st.2);
    mret (mk_csum 1 sump)
  else mret cs.

(** Scan of the clear bits from [i] on, [n] positions at most: where it stops. *)
Fixpoint forw_loop (bbp : list Z) (n : nat) (i loc bt : Z) : res Z :=
  match n with
  | O => mret i
  | S n' =>
      b ← byte_at bbp loc;
      if negb (Z.land b bt =? 0) then mret i
      else let '(loc', bt') := next_pos i loc bt in forw_loop bbp n' (i + 1) loc' bt'
  end.

Fixpoint back_loop (bbp : list Z) (n : nat) (i loc bt : Z) : res Z :=
  match n with
  | O => mret i
  | S n' =>
      b ← byte_at bbp loc;
      if negb (Z.land b bt =? 0) then mret i
      else let '(loc', bt') := prev_pos i loc bt in back_loop bbp n' (i - 1) loc' bt'
  end.

(** The largest length, from [i] down, that some run has; 0 if none has. *)
Fixpoint max_loop (sump : list Z) (i : nat) : res Z :=
  match i with
  | O => mret 0
  | S i' => v ← access (sump !z Z.of_nat i);
            if v >? 0 then mret (Z.of_nat i) else max_loop sump i'
  end.

(** [ext2_clusteracct] on the summary of the group: the new summary, and the
    new entry of [e2fs_maxcluster] when it is written. *)
Definition clusteracct (fpg : Z) (bbp : list Z) (cs : csum) (bno cnt : Z) : res (csum * option Z) :=
  cs ← cs_initialize bbp fpg cs;
  if csz <=? 0 then mret (cs, None) else
  let start := s32 bno + 1 in
  let e := Z.min (start + csz) fpg in
  i ← forw_loop bbp (Z.to_nat (e - start)) start (cdiv start NBBY) (Z.shiftl 1 (crem start NBBY));
  let forw := i - start in
  let start := s32 bno - 1 in
  let e := if start - csz <? 0 then -1 else start - csz in
  i ← back_loop bbp (Z.to_nat (start - e)) start (cdiv start NBBY) (Z.shiftl 1 (crem start NBBY));
  let back := start - i in
  let i := back + forw + 1 in
  sump ← bump (cs_sum cs) (if i >? csz then csz else i) cnt;
  sump ← (if back >? 0 then bump sump back (- cnt) else mret sump);
  sump ← (if forw >? 0 then bump sump forw (- cnt) else mret sump);
  i ← max_loop sump (Z.to_nat csz);
  mret (mk_csum (cs_init cs) sump, Some i).

End clusteracct.

(** * Lemmas *)

Lemma bump_ok sump k d : 0 <= k < zlen sump ->
  exists v, sump !z k = Some v /\ bump sump k d = Ok (zinsert k (s32 (v + d)) sump).
Proof.
  intros Hk. destruct (zlookup_lt sump k Hk) as [v Hv]. exists v. unfold bump. by rewrite Hv.
Qed.

Lemma bump_len sump k d sump' : bump sump k d = Ok sump' -> zlen sump' = zlen sump.
Proof.
  unfold bump, access. destruct (sump !z k); [|done]. intros [= <-]. apply zlen_zinsert.
Qed.

(** [loc] and [bit] point at position [i]. *)
Definition pos_at (i loc bt : Z) : Prop := loc = i / NBBY /\ bt = Z.shiftl 1 (i mod NBBY).

Lemma land_7 i : Z.land i (NBBY - 1) = i mod NBBY.
Proof. change (NBBY - 1) with (Z.ones 3). by rewrite Z.land_ones by lia. Qed.

Lemma next_pos_at i loc bt loc' bt' :
  0 <= i -> pos_at i loc bt -> next_pos i loc bt = (loc', bt') -> pos_at (i + 1) loc' bt'.
Proof.
  unfold next_pos, pos_at. rewrite land_7. intros Hi [-> ->].
  pose proof (Z.div_mod i NBBY ltac:(done)). pose proof (mod_NBBY_range i).
  destruct (Z.eqb_spec (i mod NBBY) (NBBY - 1)) as [E|E]; intros [= <- <-]; unfold NBBY in *.
  - assert ((i + 1) / 8 = i / 8 + 1 /\ (i + 1) mod 8 = 0) as [-> ->] by (Z.div_mod_to_equations; lia). done.
  - assert ((i + 1) / 8 = i / 8 /\ (i + 1) mod 8 = i mod 8 + 1) as [-> ->] by (Z.div_mod_to_equations; lia).
    split; [done|]. by rewrite Z.shiftl_shiftl by lia.
Qed.

Lemma prev_pos_at i loc bt loc' bt' :
  0 <= i -> pos_at i loc bt -> prev_pos i loc bt = (loc', bt') -> pos_at (i - 1) loc' bt'.
Proof.
  unfold prev_pos, pos_at. rewrite land_7. intros Hi [-> ->].
  pose proof (Z.div_mod i NBBY ltac:(done)). pose proof (mod_NBBY_range i).
  destruct (Z.eqb_spec (i mod NBBY) 0) as [E|E]; intros [= <- <-]; unfold NBBY in *.
  - assert ((i - 1) / 8 = i / 8 - 1 /\ (i - 1) mod 8 = 7) as [-> ->] by (Z.div_mod_to_equations; lia). done.
  - assert ((i - 1) / 8 = i / 8 /\ (i - 1) mod 8 = i mod 8 - 1) as [-> ->] by (Z.div_mod_to_equations; lia).
    split; [done|]. rewrite Z.shiftr_shiftl_l by lia. done.
Qed.

(** The test at a position reads the bit there. *)
Lemma pos_test bbp i loc bt :
  0 <= i < 8 * zlen bbp -> pos_at i loc bt ->
  exists b, byte_at bbp loc = Ok b /\ negb (Z.land b bt =? 0) = bit bbp i.
Proof.
  intros Hi [-> ->]. destruct (byte_at_ok bbp (i / NBBY)) as (b & Hb & Hl); [by apply div_NBBY_range|].
  exists b. split; [done|]. unfold bit. rewrite Hl. apply land_pow2_testbit. apply mod_NBBY_range.
Qed.

Lemma forw_loop_spec bbp n : forall i loc bt,
  0 <= i -> i + Z.of_nat n <= 8 * zlen bbp -> pos_at i loc bt ->
  exists j, forw_loop bbp n i loc bt = Ok j /\ i <= j <= i + Z.of_nat n /\
    (forall k, i <= k < j -> bit bbp k = false) /\
    (j < i + Z.of_nat n -> bit bbp j = true).
Proof.
  induction n as [|n IH]; intros i loc bt Hi Hn Hp; simpl.
  - exists i. split; [done|]. split; [lia|]. split; lia.
  - destruct (pos_test bbp i loc bt) as (b & -> & Ht); [lia|done|]. cbn. rewrite Ht.
    destruct (bit bbp i) eqn:Eb.
    + exists i. split; [done|]. split; [lia|]. split; [lia|done].
    + destruct (next_pos i loc bt) as [loc' bt'] eqn:En.
      destruct (IH (i + 1) loc' bt') as (j & Hj & Hr & Hc & Hs); [lia|lia|by eapply next_pos_at|].
      exists j. split; [done|]. split; [lia|]. split; [|intros; apply Hs; lia].
      intros k Hk. destruct (Z.eq_dec k i) as [->|]; [done|]. apply Hc. lia.
Qed.

Lemma back_loop_spec bbp n : forall i loc bt,
  i < 8 * zlen bbp -> -1 <= i - Z.of_nat n -> (0 <= i -> pos_at i loc bt) ->
  exists j, back_loop bbp n i loc bt = Ok j /\ i - Z.of_nat n <= j <= i /\
    (forall k, j < k <= i -> bit bbp k = false) /\
    (i - Z.of_nat n < j -> bit bbp j = true).
Proof.
  induction n as [|n IH]; intros i loc bt Hi Hn Hp; simpl.
  - exists i. split; [done|]. split; [lia|]. split; lia.
  - destruct (pos_test bbp i loc bt) as (b & -> & Ht); [lia|apply Hp; lia|]. cbn. rewrite Ht.
    destruct (bit bbp i) eqn:Eb.
    + exists i. split; [done|]. split; [lia|]. split; [lia|done].
    + destruct (prev_pos i loc bt) as [loc' bt'] eqn:En.
      destruct (IH (i - 1) loc' bt') as (j & Hj & Hr & Hc & Hs); [lia|lia|intros; eapply prev_pos_at; eauto; [lia|apply Hp; lia]|].
      exists j. split; [done|]. split; [lia|]. split; [|intros; apply Hs; lia].
      intros k Hk. destruct (Z.eq_dec k i) as [->|]; [done|]. apply Hc. lia.
Qed.

Lemma max_loop_spec sump n :
  Z.of_nat n < zlen sump ->
  exists i, max_loop sump n = Ok i /\ 0 <= i <= Z.of_nat n /\
    (forall k v, i < k <= Z.of_nat n -> sump !z k = Some v -> v <= 0) /\
    (0 < i -> exists v, sump !z i = Some v /\ 0 < v).
Proof.
  induction n as [|n IH]; intros Hn; cbn [max_loop]; [exists 0; repeat split; lia|].
  destruct (zlookup_lt sump (Z.of_nat (S n))) as [v Hv]; [lia|]. rewrite Hv. cbn.
  destruct (Z.gtb_spec v 0).
  - exists (Z.of_nat (S n)). split; [done|]. split; [lia|]. split; [lia|]. eauto.
  - destruct IH as (i & -> & Hi & Hz & Hp); [lia|]. exists i. split; [done|]. split; [lia|]. split; [|done].
    intros k x Hk Hx. destruct (Z.eq_dec k (Z.of_nat (S n))) as [->|]; [simplify_eq; lia|].
    apply (Hz k); [lia|done].
Qed.

Lemma init_loop_len csz bbp n : forall i loc bt run sump,
  0 <= i -> i + Z.of_nat n <= 8 * zlen bbp -> pos_at i loc bt -> 0 <= run -> zlen sump = csz + 1 -> 0 <= csz ->
  exists st, init_loop csz bbp n i loc bt run sump = Ok st /\ 0 <= st.1 /\ zlen st.2 = csz + 1.
Proof.
  induction n as [|n IH]; intros i loc bt run sump Hi Hn Hp Hr Hl Hc; cbn [init_loop]; [by exists (run, sump)|].
  destruct (pos_test bbp i loc bt) as (b & -> & Ht); [lia|done|].
  destruct (next_pos i loc bt) as [loc' bt'] eqn:En. cbn.
  pose proof (next_pos_at _ _ _ _ _ Hi Hp En) as Hp'.
  destruct (Z.land b bt =? 0); [apply IH; try done; simpl; lia|].
  destruct (negb (run =? 0)) eqn:Er; [|apply IH; try done; simpl; lia]. unfold end_run.
  destruct (bump_ok sump (if run >? csz then csz else run) 1) as (v & Hv & Hb); [case_match; lia|].
  rewrite Hb. cbn. apply IH; try done; simpl; rewrite ?zlen_zinsert; lia.
Qed.

Lemma end_run_ok csz sump run :
  0 <= run -> 0 <= csz -> zlen sump = csz + 1 ->
  exists v, sump !z Z.min run csz = Some v /\ end_run csz sump run = Ok (zinsert (Z.min run csz) (s32 (v + 1)) sump).
Proof.
  intros Hr Hc Hl. unfold end_run.
  replace (if run >? csz then csz else run) with (Z.min run csz) by (case_match; lia).
  apply bump_ok. lia.
Qed.

Lemma cs_initialize_ok csz bbp fpg cs :
  0 <= fpg <= 8 * zlen bbp -> 0 <= csz -> zlen (cs_sum cs) = csz + 1 ->
  exists cs', cs_initialize csz bbp fpg cs = Ok cs' /\ zlen (cs_sum cs') = csz + 1.
Proof.
  intros Hf Hc Hl. unfold cs_initialize. case_match; [|by exists cs].
  destruct (init_loop_len csz bbp (Z.to_nat fpg) 0 0 1 0 (cs_sum cs)) as (st & -> & Hst & Hlen); try lia; [done|].
  cbn. destruct (negb (st.1 =? 0)); [|cbn; eauto].
  destruct (end_run_ok csz st.2 st.1) as (v & Hv & ->); [lia..|]. cbn. eexists. split; [done|].
  cbn. by rewrite zlen_zinsert.
Qed.

(** [ext2_clusteracct] stays inside the bitmap and inside the summary. *)
Lemma clusteracct_ok csz fpg bbp cs bno cnt :
  0 < csz -> 0 <= bno < fpg -> fpg <= 8 * zlen bbp -> fpg + csz < 2 ^ 31 -> zlen (cs_sum cs) = csz + 1 ->
  exists cs' m, clusteracct csz fpg bbp cs bno cnt = Ok (cs', Some m) /\
    zlen (cs_sum cs') = csz + 1 /\ 0 <= m <= csz.
Proof.
  intros Hc Hb Hf Hmax Hl. unfold clusteracct.
  destruct (cs_initialize_ok csz bbp fpg cs) as (cs1 & -> & Hl1); [lia..|]. cbn [mbind res_bind].
  rewrite (proj2 (Z.leb_gt csz 0)) by lia. rewrite s32_id by (unfold s32_ok; lia). cbv zeta.
  set (e := Z.min (bno + 1 + csz) fpg).
  destruct (forw_loop_spec bbp (Z.to_nat (e - (bno + 1))) (bno + 1) (cdiv (bno + 1) NBBY)
    (Z.shiftl 1 (crem (bno + 1) NBBY))) as (j & -> & Hj & _ & _); [lia..| |].
  { rewrite cdiv_nonneg, crem_nonneg by (unfold NBBY; lia). done. }
  cbn [mbind res_bind].
  set (e' := if bno - 1 - csz <? 0 then -1 else bno - 1 - csz).
  assert (-1 <= e' /\ bno - 1 - csz <= e' <= bno - 1) as He' by (subst e'; case_match; lia).
  destruct (back_loop_spec bbp (Z.to_nat (bno - 1 - e')) (bno - 1) (cdiv (bno - 1) NBBY)
    (Z.shiftl 1 (crem (bno - 1) NBBY))) as (j' & -> & Hj' & _ & _); [lia..| |].
  { intros. rewrite cdiv_nonneg, crem_nonneg by (unfold NBBY; lia). done. }
  cbn [mbind res_bind].
  set (back := bno - 1 - j'). set (forw := j - (bno + 1)).
  assert (0 <= back <= csz /\ 0 <= forw <= csz) as [Hbk Hfw] by lia.
  set (k := if back + forw + 1 >? csz then csz else back + forw + 1).
  assert (0 <= k <= csz) as Hk by (subst k; case_match; lia).
  destruct (bump_ok (cs_sum cs1) k cnt) as (v & _ & ->); [lia|]. cbn [mbind res_bind].
  set (s1 := zinsert _ _ (cs_sum cs1)). assert (zlen s1 = csz + 1) as Hs1 by (subst s1; by rewrite zlen_zinsert).
  assert (exists s2, (if back >? 0 then bump s1 back (- cnt) else mret s1) = Ok s2 /\ zlen s2 = csz + 1)
    as (s2 & -> & Hs2).
  { case_match; [|by exists s1]. destruct (bump_ok s1 back (- cnt)) as (v2 & _ & ->); [lia|].
    eexists. split; [done|]. by rewrite zlen_zinsert. }
  cbn [mbind res_bind].
  assert (exists s3, (if forw >? 0 then bump s2 forw (- cnt) else mret s2) = Ok s3 /\ zlen s3 = csz + 1)
    as (s3 & -> & Hs3).
  { case_match; [|by exists s2]. destruct (bump_ok s2 forw (- cnt)) as (v2 & _ & ->); [lia|].
    eexists. split; [done|]. by rewrite zlen_zinsert. }
  cbn [mbind res_bind].
  destruct (max_loop_spec s3 (Z.to_nat csz)) as (m & -> & Hm & _); [lia|]. cbn.
  eexists _, _. split; [done|]. split; [done|]. lia.
Qed.
