(* ===== verification/Alloc.v ===== *)
(** The block and inode allocator, ext2_alloc.c.

    [ext2_alloc] and the inode allocation path search the groups through
    [ext2_hashalloc] with [ext2_alloccg] and [ext2_nodealloccg]; [ext2_blkfree]
    and [ext2_vfree] give blocks and inodes back. Bitmaps are changed in a
    buffer this thread holds, the counters under the mount lock. *)
From stdpp Require Import gmap.
From S2P Require Import Prelude Bitmap Bytes Super Kernel Cluster.

(** * The search of a block bitmap *)

(** The loop that looks for eight free blocks in a row, [n] bytes from [loc]. *)
Fixpoint run8_loop (bbp : list Z) (n : nat) (loc runlen runstart : Z) : res (option Z) :=
  match n with
  | O => mret None
  | S n' =>
      b ← byte_at bbp loc;
      if b =? 0xff then run8_loop bbp n' (loc + 1) 0 runstart
      else
        st ← (if runlen =? 0 then
                let bit := ext2_fls b in mret (inr (NBBY - bit, loc * NBBY + bit))
              else if b =? 0 then mret (inr (runlen + NBBY, runstart))
              else
                let bit := ffs b - 1 in
                if runlen + bit >=? 8 then mret (inl runstart)
                else let bit := ext2_fls b in mret (inr (NBBY - bit, loc * NBBY + bit)));
        match (st : Z + Z * Z) with
        | inl bno => mret (Some bno)
        | inr (runlen', runstart') =>
            if runlen' >=? 8 then mret (Some runstart')
            else run8_loop bbp n' (loc + 1) runlen' runstart'
        end
  end.

(** The two passes of the loop: from [start], then from the beginning. *)
Definition run8_search (bbp : list Z) (fpg start : Z) : res (option Z) :=
  let e := s32 (howmany fpg NBBY - start) in
  r ← run8_loop bbp (Z.to_nat (e - start)) start 0 0;
  match r with
  | Some bno => mret (Some bno)
  | None => if negb (start =? 0) then run8_loop bbp (Z.to_nat start) 0 0 0 else mret None
  end.

(** First byte with a clear bit from [start] on, then from the beginning. *)
Definition free_byte (bbp : list Z) (start len : Z) (msg : string) : res Z :=
  loc ← memcchr bbp start 0xff len;
  match loc with
  | Some loc => mret loc
  | None =>
      loc ← memcchr bbp 0 0xff (start + 1);
      match loc with Some loc => mret loc | None => Fault (Panic msg) end
  end.

(** The clear bit of that byte. *)
Definition free_bit (bbp : list Z) (loc : Z) : res Z :=
  b ← byte_at bbp loc; mret (loc * NBBY + ffs (Z.lnot (s8 b)) - 1).

Section alloc.
Context `{KernelEnv} (fs : m_ext2fs) (MAXPHYS : Z).

Abbreviation K := (M world).

Definition EXT2_MAXCONTIG : Z := 32.
Definition AFPDIR : Z := 64.
Definition AVGDIRSIZE : Z := 1048576.

(** The value [ext2_mountfs] gives e2fs_contigsumsize. *)
Definition contigsumsize : Z := Z.min (Z.max 1 (MAXPHYS / m_bsize fs)) EXT2_MAXCONTIG.

Definition first_dblock : Z := e2fs_first_dblock (m_e2fs fs).
Definition sb_fpg : Z := e2fs_fpg (m_e2fs fs).
Definition sb_ipg : Z := e2fs_ipg (m_e2fs fs).

Definition ext2_mapsearch (bbp : list Z) (bpref : Z) : res Z :=
  let start := if negb (bpref =? 0) then dtogd fs bpref / NBBY else 0 in
  let len := s32 (howmany sb_fpg NBBY - start) in
  loc ← free_byte bbp start len "ext2_mapsearch: map corrupted";
  free_bit bbp loc.

(** The choice of a position in the bitmap, from the label at the top of the
    search down to gotit. *)
Definition alloccg_pick (bbp : list Z) (cg bpref : Z) : res Z :=
  let bpref := if negb (dtog fs bpref =? cg) then 0 else bpref in
  '(bpref, is_free) ← (if negb (bpref =? 0) then
                         let bpref := dtogd fs bpref in
                         c ← isclr bbp bpref; mret (bpref, c)
                       else mret (bpref, false) : res (Z * bool));
  if (is_free : bool) then mret bpref else
  let start := if negb (bpref =? 0) then dtogd fs bpref / NBBY else 0 in
  r ← run8_search bbp sb_fpg start;
  match r with
  | Some bno => mret bno
  | None => ext2_mapsearch bbp bpref
  end.

(** [ext2_clusteracct] on the running volume. *)
Definition ext2_clusteracct (bbp : list Z) (cg bno cnt : Z) : K unit :=
  cs ← gets w_clustersum;
  c ← lift (access (cs !z cg));
  r ← lift (clusteracct contigsumsize sb_fpg bbp c bno cnt);
  modify (upd_w_clustersum (zinsert cg r.1));;
  match r.2 with
  | Some m => modify (upd_w_maxcluster (zinsert cg m))
  | None => mret tt
  end.

(** [ext2_alloccg]: 0 with the mount lock held again, or the block with the
    lock released. *)
Definition ext2_alloccg (ip cg bpref size : Z) : K Z :=
  gd ← GD cg;
  if ext2bgd_nbfree gd =? 0 then mret 0 else
  EXT2_UNLOCK;;
  let bp := fsbtodb fs (ext2bgd_b_bitmap gd) in
  error ← buf_meta_bread bp (m_bsize fs);
  if negb (error =? 0) then (buf_brelse bp;; EXT2_LOCK;; mret 0) else
  gd ← GD cg;
  if ext2bgd_nbfree gd =? 0 then (buf_brelse bp;; EXT2_LOCK;; mret 0) else
  bbp ← buf_dataptr bp;
  bno ← lift (alloccg_pick bbp cg bpref);
  if bno <? 0 then (buf_brelse bp;; EXT2_LOCK;; mret 0) else
  bbp ← lift (setbit bbp bno);
  buf_store bp bbp;;
  EXT2_LOCK;;
  ext2_clusteracct bbp cg bno (-1);;
  modify (upd_w_fbcount (fun c => u32 (c - 1)));;
  upd_GD cg (upd_ext2bgd_nbfree (fun c => u16 (c - 1)));;
  modify (upd_w_fmod (fun _ => 1));;
  EXT2_UNLOCK;;
  buf_bdwrite bp;;
  mret (cg * sb_fpg + first_dblock + bno).

(** [ext2_nodealloccg]: the same for an inode. *)
Definition nodealloccg_pick (ibp : list Z) (ipref : Z) : res Z :=
  '(ipref, is_free) ← (if negb (ipref =? 0) then
                         let ipref := crem ipref sb_ipg in
                         c ← isclr ibp ipref; mret (ipref, c)
                       else mret (ipref, false) : res (Z * bool));
  if (is_free : bool) then mret ipref else
  let start := ipref / NBBY in
  loc ← free_byte ibp start (s32 (howmany (sb_ipg - ipref) NBBY)) "ext2fs_nodealloccg: map corrupted";
  free_bit ibp loc.

Definition is_dir (mode : Z) : bool := Z.land mode IFMT =? IFDIR.

Definition ext2_nodealloccg (ip cg ipref mode : Z) : K Z :=
  let ipref := ipref - 1 in
  let ipref := if ipref =? -1 then 0 else ipref in
  gd ← GD cg;
  if ext2bgd_nifree gd =? 0 then mret 0 else
  EXT2_UNLOCK;;
  let bp := fsbtodb fs (ext2bgd_i_bitmap gd) in
  error ← buf_meta_bread bp (m_bsize fs);
  if negb (error =? 0) then (buf_brelse bp;; EXT2_LOCK;; mret 0) else
  gd ← GD cg;
  if ext2bgd_nifree gd =? 0 then (buf_brelse bp;; EXT2_LOCK;; mret 0) else
  ibp ← buf_dataptr bp;
  ipref ← lift (nodealloccg_pick ibp ipref);
  ibp ← lift (setbit ibp ipref);
  buf_store bp ibp;;
  EXT2_LOCK;;
  upd_GD cg (upd_ext2bgd_nifree (fun c => u16 (c - 1)));;
  modify (upd_w_ficount (fun c => u32 (c - 1)));;
  modify (upd_w_fmod (fun _ => 1));;
  (if is_dir mode then
     upd_GD cg (upd_ext2bgd_ndirs (fun c => u16 (c + 1)));;
     modify (upd_w_total_dir (fun c => u32 (c + 1)))
   else mret tt);;
  EXT2_UNLOCK;;
  buf_bdwrite bp;;
  mret (cg * sb_ipg + ipref + 1).

(** [ext2_hashalloc]: the preferred group, a quadratic rehash, every group. *)
Section hashalloc.
Context (allocator : Z -> Z -> Z -> Z -> K Z) (ip size : Z).

Fixpoint quad_loop (fuel : nat) (i cg : Z) : K Z :=
  match fuel with
  | O => halt NoFuel
  | S fuel' =>
      if i <? m_gcount fs then
        let cg := cg + i in
        let cg := if cg >=? m_gcount fs then cg - m_gcount fs else cg in
        result ← allocator ip cg 0 size;
        if negb (result =? 0) then mret result
        else i' ← lift (mul_int i 2); quad_loop fuel' i' cg
      else mret 0
  end.

(** [n] rounds of the last loop. *)
Fixpoint brute_loop (n : nat) (cg : Z) : K Z :=
  match n with
  | O => mret 0
  | S n' =>
      result ← allocator ip cg 0 size;
      if negb (result =? 0) then mret result
      else let cg := cg + 1 in brute_loop n' (if cg =? m_gcount fs then 0 else cg)
  end.

Definition ext2_hashalloc (cg pref : Z) : K Z :=
  LCK_MTX_ASSERT_OWNED;;
  result ← allocator ip cg pref size;
  if negb (result =? 0) then mret result else
  result ← quad_loop 32 1 cg;
  if negb (result =? 0) then mret result else
  brute_loop (Z.to_nat (m_gcount fs - 2)) ((cg + 2) mod m_gcount fs).
End hashalloc.

(** [ext2_alloc]: an errno and the block. [uid] is kauth_cred_getuid(cred). *)
Definition ext2_alloc (ip lbn bpref size uid : Z) : K (Z * Z) :=
  LCK_MTX_ASSERT_OWNED;;
  fbcount ← gets w_fbcount;
  if (size =? m_bsize fs) && (fbcount =? 0) then (EXT2_UNLOCK;; mret (ENOSPC, 0)) else
  if negb (uid =? 0) && (fbcount <? e2fs_rbcount (m_e2fs fs)) then (EXT2_UNLOCK;; mret (ENOSPC, 0)) else
  let bpref := if bpref >=? e2fs_bcount (m_e2fs fs) then 0 else bpref in
  let cg := if bpref =? 0 then ino_to_cg fs ip else dtog fs bpref in
  r ← ext2_hashalloc ext2_alloccg ip (m_bsize fs) (s32 cg) bpref;
  let bno := s32 r in
  if bno >? 0 then
    upd_inode ip (fun i =>
      or_flag (Z.lor IN_CHANGE IN_UPDATE)
        (upd_i_blocks (fun n => u64 (n + m_bsize fs / 512))
          (upd_i_next_alloc_goal (fun _ => u32 bno) (upd_i_next_alloc_block (fun _ => u32 lbn) i))));;
    mret (0, bno)
  else (EXT2_UNLOCK;; mret (ENOSPC, 0)).

(** [ext2_blkfree]. *)
Definition ext2_blkfree (ip bno size : Z) : K unit :=
  let cg := s32 (dtog fs bno) in
  if u32 bno >=? e2fs_bcount (m_e2fs fs) then mret tt else
  gd ← GD cg;
  let bp := fsbtodb fs (ext2bgd_b_bitmap gd) in
  error ← buf_meta_bread bp (m_bsize fs);
  if negb (error =? 0) then buf_brelse bp else
  bbp ← buf_dataptr bp;
  let bno := dtogd fs bno in
  c ← lift (isclr bbp bno);
  if (c : bool) then halt (Panic "ext2_blkfree: freeing free block") else
  bbp ← lift (clrbit bbp bno);
  buf_store bp bbp;;
  EXT2_LOCK;;
  ext2_clusteracct bbp cg bno 1;;
  modify (upd_w_fbcount (fun c => u32 (c + 1)));;
  upd_GD cg (upd_ext2bgd_nbfree (fun c => u16 (c + 1)));;
  modify (upd_w_fmod (fun _ => 1));;
  EXT2_UNLOCK;;
  buf_bdwrite bp;;
  mret tt.

(** [ext2_vfree]; [ronly] is fs->e2fs_ronly. *)
Definition ext2_vfree (ronly : bool) (ino mode : Z) : K Z :=
  if u32 ino >? u32 (m_ipg fs * m_gcount fs) then halt (Panic "ext2_vfree: range") else
  let cg := s32 (ino_to_cg fs ino) in
  gd ← GD cg;
  let bp := fsbtodb fs (ext2bgd_i_bitmap gd) in
  error ← buf_meta_bread bp (m_bsize fs);
  if negb (error =? 0) then (buf_brelse bp;; mret 0) else
  ibp ← buf_dataptr bp;
  let ino := u64 (ino - 1) mod sb_ipg in
  c ← lift (isclr ibp ino);
  if c && negb ronly then halt (Panic "ext2_vfree: freeing free inode") else
  ibp ← lift (clrbit ibp ino);
  buf_store bp ibp;;
  EXT2_LOCK;;
  modify (upd_w_ficount (fun c => u32 (c + 1)));;
  upd_GD cg (upd_ext2bgd_nifree (fun c => u16 (c + 1)));;
  (if is_dir mode then
     upd_GD cg (upd_ext2bgd_ndirs (fun c => u16 (c - 1)));;
     modify (upd_w_total_dir (fun c => u32 (c - 1)))
   else mret tt);;
  modify (upd_w_fmod (fun _ => 1));;
  EXT2_UNLOCK;;
  buf_bdwrite bp;;
  mret 0.

(** [ext2_blkpref]: where the next block of a file should go. [bap] is the
    array of earlier pointers, when there is one. *)
Fixpoint last_nonzero (bap : list Z) (n : nat) : res (option Z) :=
  match n with
  | O => mret None
  | S n' => v ← access (bap !z Z.of_nat n');
            if negb (v =? 0) then mret (Some v) else last_nonzero bap n'
  end.

Definition blkpref (ip : inode) (lbn indx : Z) (bap : option (list Z)) (blocknr : Z) : res Z :=
  if (i_next_alloc_block ip =? lbn) && negb (i_next_alloc_goal ip =? 0)
  then mret (i_next_alloc_goal ip)
  else
    near ← (match bap with
            | Some l => last_nonzero l (Z.to_nat indx)
            | None => mret None
            end);
    match near with
    | Some v => mret v
    | None =>
        mret (if negb (blocknr =? 0) then blocknr
              else u32 (u32 (i_block_group ip * m_bpg fs) + first_dblock))
    end.

Definition ext2_blkpref (ip lbn indx : Z) (bap : option (list Z)) (blocknr : Z) : K Z :=
  LCK_MTX_ASSERT_OWNED;;
  i ← VTOI ip;
  lift (blkpref i lbn indx bap blocknr).

(** ** [ext2_dirpref] *)

(** Group [cg] in the descriptor table of the running volume. *)
Definition gd_at (gds : list ext2_gd) (cg : Z) : res ext2_gd := access (gds !z cg).

(** First-level directories: the group with the fewest directories among those
    with at least average free inodes and blocks, [n] groups from [cg]. *)
Fixpoint scan_mindirs (gds : list ext2_gd) (avgifree avgbfree : Z) (n : nat) (cg mincg minndir : Z)
  : res (Z * Z) :=
  match n with
  | O => mret (mincg, minndir)
  | S n' =>
      gd ← gd_at gds cg;
      if (ext2bgd_ndirs gd <? minndir) && (ext2bgd_nifree gd >=? avgifree) && (ext2bgd_nbfree gd >=? avgbfree)
      then scan_mindirs gds avgifree avgbfree n' (cg + 1) cg (ext2bgd_ndirs gd)
      else scan_mindirs gds avgifree avgbfree n' (cg + 1) mincg minndir
  end.

(** The first of [n] groups from [cg] on that passes [P]. *)
Fixpoint scan_first (P : Z -> res bool) (n : nat) (cg : Z) : res (option Z) :=
  match n with
  | O => mret None
  | S n' => p ← P cg; if (p : bool) then mret (Some cg) else scan_first P n' (cg + 1)
  end.

(** Both scans go from [prefcg] to the last group, then over the ones before. *)
Definition scan_from (P : Z -> res bool) (gcount prefcg : Z) : res (option Z) :=
  r ← scan_first P (Z.to_nat (gcount - prefcg)) prefcg;
  match r with
  | Some cg => mret (Some cg)
  | None => scan_first P (Z.to_nat prefcg) 0
  end.

Definition umin (a b : Z) : Z := if a <? b then a else b.

Definition roomy (gds : list ext2_gd) (contigdirs : list Z) (maxndir minifree minbfree maxcontigdirs cg : Z)
  : res bool :=
  gd ← gd_at gds cg;
  if (ext2bgd_ndirs gd <? maxndir) && (ext2bgd_nifree gd >=? minifree) && (ext2bgd_nbfree gd >=? minbfree)
  then c ← access (contigdirs !z cg); mret (c <? maxcontigdirs)
  else mret false.

Definition backstop (gds : list ext2_gd) (avgifree cg : Z) : res bool :=
  gd ← gd_at gds cg; mret (ext2bgd_nifree gd >=? avgifree).

(** The limits on a group, from the volume's averages. *)
Definition dir_maxndir (avgndir : Z) : Z := umin (u32 (avgndir + m_ipg fs / 16)) (m_ipg fs).
Definition three_quarters (avg : Z) : Z := let m := avg - avg / 4 in if m <? 1 then 1 else m.
Definition dir_maxcontig (avgbfree avgndir : Z) : Z :=
  let cgsize := u32 (m_fsize fs * m_fpg fs) in
  let curdirsize := if negb (avgndir =? 0) then u32 (cgsize - avgbfree * m_bsize fs) / avgndir else 0 in
  let dirsize := if AVGDIRSIZE <? curdirsize then curdirsize else AVGDIRSIZE in
  let m := umin (u32 (avgbfree * m_bsize fs) / dirsize) 255 in
  let m := umin m (m_ipg fs / AFPDIR) in
  if m =? 0 then 1 else m.

Definition dirpref_root (gds : list ext2_gd) (avgifree avgbfree r : Z) : res Z :=
  let prefcg := r mod m_gcount fs in
  '(mincg, minndir) ← scan_mindirs gds avgifree avgbfree (Z.to_nat (m_gcount fs - prefcg)) prefcg prefcg (m_ipg fs);
  '(mincg, _) ← scan_mindirs gds avgifree avgbfree (Z.to_nat prefcg) 0 mincg minndir;
  mret mincg.

Definition dirpref_nonroot (gds : list ext2_gd) (contigdirs : list Z) (avgifree avgbfree avgndir prefcg : Z) : res Z :=
  r ← scan_from (roomy gds contigdirs (dir_maxndir avgndir) (three_quarters avgifree) (three_quarters avgbfree)
                   (dir_maxcontig avgbfree avgndir)) (m_gcount fs) prefcg;
  match r with
  | Some cg => mret cg
  | None =>
      r ← scan_from (backstop gds avgifree) (m_gcount fs) prefcg;
      mret (match r with Some cg => cg | None => prefcg end)
  end.

Definition ext2_dirpref (pip : Z) : K Z :=
  LCK_MTX_ASSERT_OWNED;;
  if m_gcount fs =? 0 then halt DivByZero else
  ficount ← gets w_ficount;
  fbcount ← gets w_fbcount;
  total_dir ← gets w_total_dir;
  let avgifree := ficount / m_gcount fs in
  let avgbfree := fbcount / m_gcount fs in
  let avgndir := total_dir / m_gcount fs in
  gds ← gets w_gd;
  contigdirs ← gets w_contigdirs;
  if pip =? EXT2_ROOTINO then
    r ← read_random;
    lift (dirpref_root gds avgifree avgbfree (u32 r))
  else lift (dirpref_nonroot gds contigdirs avgifree avgbfree avgndir (s32 (ino_to_cg fs pip))).

End alloc.

(** * Lemmas on the bitmap searches *)

(** Bits [a], ..., [b - 1] are free. *)
Definition clear_range (bbp : list Z) (a b : Z) : Prop := forall k, a <= k < b -> bit bbp k = false.

Lemma byte_clear_range bbp loc b (lo hi : Z) :
  bbp !z loc = Some b -> 0 <= lo -> hi <= 8 ->
  (forall k, lo <= k < hi -> Z.testbit b k = false) ->
  clear_range bbp (loc * 8 + lo) (loc * 8 + hi).
Proof.
  intros Hb Hlo Hhi Hc k Hk. replace k with (loc * 8 + (k - loc * 8)) by lia.
  rewrite (bit_byte _ _ b) by (done || lia). apply Hc. lia.
Qed.

Lemma clear_range_join bbp a b c : clear_range bbp a b -> clear_range bbp b c -> clear_range bbp a c.
Proof. intros H1 H2 k Hk. destruct (decide (k < b)); [apply H1|apply H2]; lia. Qed.

(** The run being grown when the loop is about to look at byte [loc]. *)
Definition run_state (bbp : list Z) (lo loc runlen runstart : Z) : Prop :=
  runlen = 0 \/
  (0 < runlen < 8 /\ runlen = loc * 8 - runstart /\ lo * 8 <= runstart /\ clear_range bbp runstart (loc * 8)).

(** Eight free positions between bytes [lo] and [hi]. *)
Definition run8_found (bbp : list Z) (lo hi r : Z) : Prop :=
  lo * 8 <= r /\ r + 8 <= hi * 8 /\ clear_range bbp r (r + 8).

(** The high clear bits of a byte start a run. *)
Lemma start_run bbp lo loc b :
  bytes_ok bbp -> bbp !z loc = Some b -> lo <= loc ->
  let runlen := NBBY - ext2_fls b in let runstart := loc * NBBY + ext2_fls b in
  (runlen >= 8 -> run8_found bbp lo (loc + 1) runstart) /\
  (runlen < 8 -> run_state bbp lo (loc + 1) runlen runstart).
Proof.
  intros Hok Hb Hlo. pose proof (bytes_ok_at _ _ _ Hok Hb) as Hbr. pose proof (ext2_fls_range b Hbr) as Hf.
  unfold NBBY. cbv zeta.
  assert (clear_range bbp (loc * 8 + ext2_fls b) (loc * 8 + 8)) as Hc.
  { eapply byte_clear_range; try done; try lia. intros k Hk. apply ext2_fls_above; [done|lia]. }
  split; intros Hr.
  - repeat split; try lia. intros k Hk. apply Hc. lia.
  - destruct (Z.eq_dec (ext2_fls b) 8); [left; lia|]. right. repeat split; try lia.
    intros k Hk. apply Hc. lia.
Qed.

Lemma run8_loop_spec bbp lo : bytes_ok bbp -> forall n loc runlen runstart,
  0 <= lo <= loc -> loc + Z.of_nat n <= zlen bbp -> run_state bbp lo loc runlen runstart ->
  (exists r, run8_loop bbp n loc runlen runstart = Ok (Some r) /\ run8_found bbp lo (loc + Z.of_nat n) r) \/
  (run8_loop bbp n loc runlen runstart = Ok None /\
   forall k b, loc <= k < loc + Z.of_nat n -> bbp !z k = Some b -> b <> 0).
Proof.
  intros Hok. induction n as [|n IH]; intros loc runlen runstart Hlo Hn Hst; cbn [run8_loop]; [right; split; [done|lia]|].
  destruct (byte_at_ok bbp loc) as (b & -> & Hb); [lia|]. cbn [mbind res_bind].
  pose proof (bytes_ok_at _ _ _ Hok Hb) as Hbr.
  (* the rest of the loop, from a state that fits the next byte *)
  assert (forall rl rs, run_state bbp lo (loc + 1) rl rs -> b <> 0 ->
    (exists r, run8_loop bbp n (loc + 1) rl rs = Ok (Some r) /\ run8_found bbp lo (loc + Z.of_nat (S n)) r) \/
    (run8_loop bbp n (loc + 1) rl rs = Ok None /\
      forall k b, loc <= k < loc + Z.of_nat (S n) -> bbp !z k = Some b -> b <> 0)) as Hnext.
  { intros rl rs Hs Hb0. destruct (IH (loc + 1) rl rs) as [(r & Hr & Hf)|[Hr Hz]]; [lia|lia|done| |].
    - left. exists r. split; [done|]. by replace (loc + Z.of_nat (S n)) with (loc + 1 + Z.of_nat n) by lia.
    - right. split; [done|]. intros k x Hk Hx. destruct (Z.eq_dec k loc) as [->|]; [by simplify_eq|].
      apply (Hz k x); [lia|done]. }
  assert (forall r, run8_found bbp lo (loc + 1) r -> run8_found bbp lo (loc + Z.of_nat (S n)) r) as Hwk.
  { intros r (H1 & H2 & H3). repeat split; [lia|lia|done]. }
  destruct (Z.eqb_spec b 0xff) as [->|Hff]; [apply Hnext; [by left|done]|].
  (* a fresh run from this byte *)
  assert (forall rl rs, rl = NBBY - ext2_fls b -> rs = loc * NBBY + ext2_fls b -> (b = 0 -> 8 <= rl) ->
    (exists r, (if rl >=? 8 then mret (Some rs) else run8_loop bbp n (loc + 1) rl rs) = Ok (Some r) /\
       run8_found bbp lo (loc + Z.of_nat (S n)) r) \/
    ((if rl >=? 8 then mret (Some rs) else run8_loop bbp n (loc + 1) rl rs) = Ok None /\
      forall k b, loc <= k < loc + Z.of_nat (S n) -> bbp !z k = Some b -> b <> 0)) as Hfresh.
  { intros rl rs -> -> Hb0. destruct (start_run bbp lo loc b Hok Hb ltac:(lia)) as [Hge Hlt].
    destruct (Z.geb_spec (NBBY - ext2_fls b) 8).
    - left. eexists. split; [done|]. apply Hwk, Hge. lia.
    - apply Hnext; [apply Hlt; lia|]. intros ->. specialize (Hb0 eq_refl). lia. }
  destruct (Z.eqb_spec runlen 0) as [->|Hrl].
  { apply Hfresh; [done|done|]. by intros ->. }
  destruct Hst as [|(Hrl8 & Hrle & Hrs & Hcl)]; [done|].
  destruct (Z.eqb_spec b 0) as [->|Hb0].
  - left. exists runstart. split.
    + cbn. destruct (Z.geb_spec (runlen + NBBY) 8); [done|unfold NBBY in *; lia].
    + split; [lia|]. split; [lia|]. intros k Hk. destruct (decide (k < loc * 8)); [apply Hcl; lia|].
      replace k with (loc * 8 + (k - loc * 8)) by lia. rewrite (bit_byte _ _ 0) by (done || lia). apply Z.bits_0.
  - pose proof (ffs_range b Hbr Hb0) as Hfr. cbn [mbind res_bind].
    destruct (Z.geb_spec (runlen + (ffs b - 1)) 8).
    + left. exists runstart. split; [done|]. split; [lia|]. split; [lia|].
      intros k Hk. destruct (decide (k < loc * 8)); [apply Hcl; lia|].
      replace k with (loc * 8 + (k - loc * 8)) by lia. rewrite (bit_byte _ _ b) by (done || lia).
      apply ffs_below; [done|done|lia].
    + apply Hfresh; [done|done|done].
Qed.

Lemma run8_search_spec bbp fpg start :
  bytes_ok bbp -> 0 <= start <= fpg / 8 -> fpg mod 8 = 0 -> fpg <= 8 * zlen bbp -> fpg < 2 ^ 31 ->
  exists o, run8_search bbp fpg start = Ok o /\
    match o with
    | Some r => run8_found bbp 0 (fpg / 8) r
    | None => start = 0 -> forall k b, 0 <= k < fpg / 8 -> bbp !z k = Some b -> b <> 0
    end.
Proof.
  intros Hok Hs Hm Hl Hmax. unfold run8_search.
  assert (howmany fpg NBBY = fpg / 8) as Hh by (unfold howmany, NBBY; Z.div_mod_to_equations; lia).
  assert (fpg / 8 <= zlen bbp) by (Z.div_mod_to_equations; lia).
  assert (0 <= fpg / 8 < 2 ^ 31) by (Z.div_mod_to_equations; lia).
  rewrite Hh, s32_id by (unfold s32_ok; lia). cbv zeta.
  assert (forall r hi lo, 0 <= lo -> hi <= fpg / 8 -> run8_found bbp lo hi r -> run8_found bbp 0 (fpg / 8) r) as Hwk.
  { intros r hi lo H1 H2 (? & ? & ?). repeat split; [lia|lia|done]. }
  destruct (run8_loop_spec bbp start Hok (Z.to_nat (fpg / 8 - start - start)) start 0 0)
    as [(r & -> & Hf)|[-> Hz]]; [lia|lia|by left| |]; cbn [mbind res_bind].
  - exists (Some r). split; [done|]. apply (Hwk _ (start + Z.of_nat (Z.to_nat (fpg / 8 - start - start))) start); [lia..|done].
  - destruct (Z.eqb_spec start 0) as [->|Hs0]; cbn [negb].
    + exists None. split; [done|]. intros _ k b Hk. apply Hz. lia.
    + destruct (run8_loop_spec bbp 0 Hok (Z.to_nat start) 0 0 0) as [(r & -> & Hf)|[-> _]]; [lia|lia|by left| |].
      * exists (Some r). split; [done|]. apply (Hwk _ (0 + Z.of_nat (Z.to_nat start)) 0); [lia..|done].
      * exists None. done.
Qed.

(** A clear position among the first [hi] bytes makes the search succeed. *)
Lemma free_byte_spec bbp start len hi j msg :
  bytes_ok bbp -> 0 <= start < hi -> start + len = hi -> hi <= zlen bbp -> hi < 2 ^ 31 ->
  0 <= j < hi * 8 -> bit bbp j = false ->
  exists loc b, free_byte bbp start len msg = Ok loc /\ 0 <= loc < hi /\ bbp !z loc = Some b /\ b <> 255.
Proof.
  intros Hok Hs Hl Hhi Hmax Hj Hbj. unfold free_byte.
  assert (exists b, bbp !z (j / 8) = Some b /\ b <> 255) as (bj & Hbj1 & Hbj2).
  { destruct (zlookup_lt bbp (j / 8)) as [b Hb]; [Z.div_mod_to_equations; lia|]. exists b. split; [done|].
    intros ->. unfold bit, NBBY in Hbj. rewrite Hb in Hbj.
    assert (0 <= j mod 8 < 8) by (Z.div_mod_to_equations; lia).
    assert (Z.testbit 255 (j mod 8) = true) as Ht by (by apply (Z.ones_spec_low 8)). congruence. }
  destruct (memcchr_spec bbp start 255 len) as [(loc & b & -> & Hr & Hb & Hne)|[-> Hall]];
    [lia|lia|lia|unfold u64_ok; lia| |]; cbn [mbind res_bind].
  { exists loc, b. split; [done|]. split; [lia|done]. }
  destruct (memcchr_spec bbp 0 255 (start + 1)) as [(loc & b & -> & Hr & Hb & Hne)|[-> Hall2]];
    [lia|lia|lia|unfold u64_ok; lia| |]; cbn [mbind res_bind].
  { exists loc, b. split; [done|]. split; [lia|done]. }
  exfalso. destruct (decide (start <= j / 8)).
  - apply Hbj2, (Hall (j / 8)); [Z.div_mod_to_equations; lia|done].
  - apply Hbj2, (Hall2 (j / 8)); [Z.div_mod_to_equations; lia|done].
Qed.

Lemma free_bit_spec bbp loc b :
  bytes_ok bbp -> 0 <= loc -> bbp !z loc = Some b -> b <> 255 ->
  exists i, free_bit bbp loc = Ok i /\ loc * 8 <= i < loc * 8 + 8 /\ bit bbp i = false.
Proof.
  intros Hok Hl Hb Hne. unfold free_bit, byte_at. rewrite Hb. cbn.
  destruct (ffs_lnot_byte b (bytes_ok_at _ _ _ Hok Hb) Hne) as [Hr Ht]. eexists. split; [done|].
  unfold NBBY. split; [lia|].
  replace (loc * 8 + ffs (Z.lnot (s8 b)) - 1) with (loc * 8 + (ffs (Z.lnot (s8 b)) - 1)) by lia.
  by rewrite (bit_byte _ _ b).
Qed.

(** What the allocator needs of the group geometry. *)
Record group_ok (fs : m_ext2fs) : Prop := mk_group_ok {
  gr_bpg : m_bpg fs = sb_fpg fs;
  gr_fpg : 0 < sb_fpg fs <= 8 * m_bsize fs;
  gr_fpg8 : sb_fpg fs mod 8 = 0;
  gr_ipg : 0 < sb_ipg fs <= 8 * m_bsize fs;
  gr_ipg8 : sb_ipg fs mod 8 = 0;
  gr_m_ipg : m_ipg fs = sb_ipg fs;
  gr_bsize : 1024 <= m_bsize fs <= 4096;
  gr_fdb : 0 <= first_dblock fs <= 1;
  gr_shift : 0 <= m_fsbtodb fs <= 3;
  gr_gcount : 0 < m_gcount fs <= 2 ^ 30;
  gr_cover : e2fs_bcount (m_e2fs fs) - first_dblock fs <= m_gcount fs * sb_fpg fs
}.

Definition bpref_ok (fs : m_ext2fs) (bpref : Z) : Prop := bpref = 0 \/ first_dblock fs <= bpref.

Lemma dtogd_range fs d : group_ok fs -> first_dblock fs <= d -> 0 <= dtogd fs d < sb_fpg fs.
Proof.
  intros [] Hd. unfold dtogd. fold (first_dblock fs). rewrite gr_bpg0, crem_nonneg by lia. apply Z.mod_pos_bound. lia.
Qed.

Lemma mapsearch_spec fs bbp bpref j :
  group_ok fs -> bytes_ok bbp -> zlen bbp = m_bsize fs -> bpref_ok fs bpref ->
  0 <= j < sb_fpg fs -> bit bbp j = false ->
  exists i, ext2_mapsearch fs bbp bpref = Ok i /\ 0 <= i < sb_fpg fs /\ bit bbp i = false.
Proof.
  intros Hg Hok Hlen Hp Hj Hbj. pose proof Hg as []. unfold ext2_mapsearch.
  set (start := if negb (bpref =? 0) then _ else 0).
  assert (0 <= start < sb_fpg fs / 8) as Hs.
  { subst start. destruct (Z.eqb_spec bpref 0); cbn [negb]; [Z.div_mod_to_equations; lia|].
    destruct Hp as [|Hp]; [done|]. pose proof (dtogd_range fs bpref Hg Hp). unfold NBBY. Z.div_mod_to_equations; lia. }
  assert (howmany (sb_fpg fs) NBBY = sb_fpg fs / 8) as -> by (unfold howmany, NBBY; Z.div_mod_to_equations; lia).
  cbv zeta. rewrite s32_id by (unfold s32_ok; Z.div_mod_to_equations; lia).
  destruct (free_byte_spec bbp start (sb_fpg fs / 8 - start) (sb_fpg fs / 8) j "ext2_mapsearch: map corrupted")
    as (loc & b & -> & Hloc & Hb & Hne); try done; try lia; try (Z.div_mod_to_equations; lia).
  cbn [mbind res_bind].
  destruct (free_bit_spec bbp loc b) as (i & Hi & Hir & Hbi); [done|lia|done|done|].
  exists i. split; [done|]. split; [|done]. Z.div_mod_to_equations; lia.
Qed.

(** The search [ext2_alloccg] makes, on a bitmap with a free block. *)
Lemma alloccg_pick_ok fs bbp cg bpref :
  group_ok fs -> bytes_ok bbp -> zlen bbp = m_bsize fs -> bpref_ok fs bpref ->
  0 < count_clear bbp (Z.to_nat (sb_fpg fs)) ->
  exists bno, alloccg_pick fs bbp cg bpref = Ok bno /\ 0 <= bno < sb_fpg fs /\ bit bbp bno = false /\
    (bpref <> 0 -> dtog fs bpref = cg -> bit bbp (dtogd fs bpref) = false -> bno = dtogd fs bpref).
Proof.
  intros Hg Hok Hlen Hp Hfree. apply count_clear_pos in Hfree as (j & Hj & Hbj). pose proof Hg as [].
  unfold alloccg_pick.
  assert (forall bp, bpref_ok fs bp -> exists bno,
    (r ← run8_search bbp (sb_fpg fs) (if negb (bp =? 0) then dtogd fs bp / NBBY else 0);
     match r with Some bno => mret bno | None => ext2_mapsearch fs bbp bp end) = Ok bno /\
    0 <= bno < sb_fpg fs /\ bit bbp bno = false) as Hsearch.
  { intros bp Hbp. set (start := if negb (bp =? 0) then _ else 0).
    assert (0 <= start <= sb_fpg fs / 8) as Hs.
    { subst start. destruct (Z.eqb_spec bp 0); cbn [negb]; [Z.div_mod_to_equations; lia|].
      destruct Hbp as [|Hbp]; [done|]. pose proof (dtogd_range fs bp Hg Hbp). unfold NBBY. Z.div_mod_to_equations; lia. }
    destruct (run8_search_spec bbp (sb_fpg fs) start) as (o & -> & Ho); [done|done|done|lia|lia|].
    cbn [mbind res_bind]. destruct o as [r|].
    - destruct Ho as (H1 & H2 & H3). exists r. split; [done|]. split; [Z.div_mod_to_equations; lia|]. apply H3. lia.
    - apply mapsearch_spec with (j := j); try done. lia. }
  destruct (Z.eqb_spec (dtog fs bpref) cg) as [Hcg|Hcg]; cbn [negb].
  2:{ cbn [negb mbind res_bind mret res_ret].
      destruct (Hsearch 0) as (bno & H1 & H2 & H3); [by left|]. exists bno. split_and!; done || lia || congruence. }
  destruct (Z.eqb_spec bpref 0) as [->|Hne]; cbn [negb mbind res_bind mret res_ret].
  { destruct (Hsearch 0) as (bno & H1 & H2 & H3); [by left|]. exists bno. split_and!; done || lia || congruence. }
  destruct Hp as [|Hp]; [done|]. pose proof (dtogd_range fs bpref Hg Hp) as Hd.
  rewrite isclr_ok by lia. cbn [mbind res_bind mret res_ret].
  destruct (bit bbp (dtogd fs bpref)) eqn:Eb; cbn [negb].
  - destruct (Hsearch (dtogd fs bpref)) as (bno & H1 & H2 & H3); [unfold bpref_ok; lia|]. exists bno. split_and!; done || lia || congruence.
  - eexists. split; [done|]. split; [done|]. by split.
Qed.

(** The search [ext2_nodealloccg] makes, on a bitmap with a free inode. *)
Lemma nodealloccg_pick_ok fs ibp ipref j :
  group_ok fs -> bytes_ok ibp -> zlen ibp = m_bsize fs -> 0 <= ipref ->
  0 <= j < sb_ipg fs -> bit ibp j = false ->
  exists i, nodealloccg_pick fs ibp ipref = Ok i /\ 0 <= i < sb_ipg fs /\ bit ibp i = false.
Proof.
  intros Hg Hok Hlen Hp Hj Hbj. pose proof Hg as []. unfold nodealloccg_pick.
  assert (forall ip, 0 <= ip < sb_ipg fs -> exists i,
    (loc ← free_byte ibp (ip / NBBY) (s32 (howmany (sb_ipg fs - ip) NBBY)) "ext2fs_nodealloccg: map corrupted";
     free_bit ibp loc) = Ok i /\ 0 <= i < sb_ipg fs /\ bit ibp i = false) as Hsearch.
  { intros ip Hip. unfold NBBY, howmany.
    assert ((sb_ipg fs - ip + (8 - 1)) / 8 = sb_ipg fs / 8 - ip / 8) as -> by (Z.div_mod_to_equations; lia).
    rewrite s32_id by (unfold s32_ok; Z.div_mod_to_equations; lia).
    destruct (free_byte_spec ibp (ip / 8) (sb_ipg fs / 8 - ip / 8) (sb_ipg fs / 8) j "ext2fs_nodealloccg: map corrupted")
      as (loc & b & -> & Hloc & Hb & Hne); try done; try lia; try (Z.div_mod_to_equations; lia).
    cbn [mbind res_bind].
    destruct (free_bit_spec ibp loc b) as (i & Hi & Hir & Hbi); [done|lia|done|done|].
    exists i. split; [done|]. split; [|done]. Z.div_mod_to_equations; lia. }
  destruct (Z.eqb_spec ipref 0) as [->|Hne]; cbn [negb mbind res_bind mret res_ret]; [apply Hsearch; lia|].
  rewrite crem_nonneg by lia. pose proof (Z.mod_pos_bound ipref (sb_ipg fs) ltac:(lia)) as Hm.
  rewrite isclr_ok by lia. cbn [mbind res_bind mret res_ret].
  destruct (bit ibp (ipref mod sb_ipg fs)) eqn:Eb; cbn [negb]; [by apply Hsearch|].
  eexists. split; [done|]. by split.
Qed.
