(* ===== verification/AllocSpec.v ===== *)
(** Correctness of the allocator under interference.

    [vol_inv] is what holds of a volume whenever threads may be switched: every
    group's bitmaps are readable, the free counts of a descriptor are the clear
    bits of the bitmap unless some thread holds that bitmap's buffer, and the
    superblock totals are the sums over the groups. Other threads are any
    [KernelEnv] whose steps keep [vol_inv] and leave alone what this thread
    holds ([env_ok]). Every operation of ext2_alloc.c is shown to return from
    such states without a fault, to keep [vol_inv], and to change the volume
    exactly by the block or inode it allocates or frees. *)
From stdpp Require Import gmap.
From S2P Require Import Prelude Bitmap Bytes Super Kernel Cluster Alloc.

Section spec.
Context `{KE : KernelEnv} (fs : m_ext2fs) (MAXPHYS : Z).
Context (B I : Z -> Z).  (* the bitmap blocks of each group *)

Definition bdev (cg : Z) : Z := fsbtodb fs (B cg).
Definition idev (cg : Z) : Z := fsbtodb fs (I cg).
Definition group (cg : Z) : Prop := 0 <= cg < m_gcount fs.

(** No two bitmaps share a block. *)
Record layout_ok : Prop := mk_layout_ok {
  lo_b : forall cg cg', group cg -> group cg' -> bdev cg = bdev cg' -> cg = cg';
  lo_i : forall cg cg', group cg -> group cg' -> idev cg = idev cg' -> cg = cg';
  lo_bi : forall cg cg', group cg -> group cg' -> bdev cg <> idev cg'
}.

(** Blocks that are never free: block 0 and those past the end of the volume. *)
Definition fixed_block (d : Z) : Prop := d = 0 \/ e2fs_bcount (m_e2fs fs) <= d.

Record bitmap_ok (n : Z) (fixed : Z -> Prop) (bs : list Z) : Prop := mk_bitmap_ok {
  bo_len : zlen bs = m_bsize fs;
  bo_bytes : bytes_ok bs;
  bo_fixed : forall j, 0 <= j < n -> fixed j -> bit bs j = true
}.

Definition bmap_ok (cg : Z) : list Z -> Prop :=
  bitmap_ok (sb_fpg fs) (fun j => fixed_block (cg * sb_fpg fs + first_dblock fs + j)).
Definition imap_ok : list Z -> Prop := bitmap_ok (sb_ipg fs) (fun _ => False).

Record vol_inv (fb fi : Z) (gds : list ext2_gd) (cds mcl : list Z) (cs : list csum)
  (dev bufs : gmap Z (list Z)) (others : gset Z) : Prop := mk_vol_inv {
  vi_gds : zlen gds = m_gcount fs;
  vi_gd : forall cg gd, gds !z cg = Some gd ->
    ext2bgd_b_bitmap gd = B cg /\ ext2bgd_i_bitmap gd = I cg /\
    u16_ok (ext2bgd_nbfree gd) /\ u16_ok (ext2bgd_nifree gd);
  vi_bmap : forall cg, group cg -> exists bs, dev !! bdev cg = Some bs /\ bmap_ok cg bs;
  vi_imap : forall cg, group cg -> exists bs, dev !! idev cg = Some bs /\ imap_ok bs;
  vi_bcount : forall cg gd bs, gds !z cg = Some gd -> dev !! bdev cg = Some bs ->
    bdev cg ∉ others -> bufs !! bdev cg = None ->
    ext2bgd_nbfree gd = count_clear bs (Z.to_nat (sb_fpg fs));
  vi_icount : forall cg gd bs, gds !z cg = Some gd -> dev !! idev cg = Some bs ->
    idev cg ∉ others -> bufs !! idev cg = None ->
    ext2bgd_nifree gd = count_clear bs (Z.to_nat (sb_ipg fs));
  vi_bsum : fb = u32 (sumZ (ext2bgd_nbfree <$> gds));
  vi_isum : fi = u32 (sumZ (ext2bgd_nifree <$> gds));
  vi_cds : zlen cds = m_gcount fs;
  vi_mcl : zlen mcl = m_gcount fs;
  vi_cs : zlen cs = m_gcount fs /\
    (forall cg c, cs !z cg = Some c -> zlen (cs_sum c) = contigsumsize fs MAXPHYS + 1)
}.

Definition vol_ok (w : world) : Prop :=
  vol_inv (w_fbcount w) (w_ficount w) (w_gd w) (w_contigdirs w) (w_maxcluster w) (w_clustersum w)
    (w_dev w) (w_bufs w) (w_others w).

(** What other threads leave alone: the buffers this thread holds and the
    counts they protect, the lock while it is held, the in-core inodes. *)
Record rely (w w' : world) : Prop := mk_rely {
  re_tick : w_tick w' = w_tick w;
  re_bufs : w_bufs w' = w_bufs w;
  re_locked : w_locked w' = w_locked w;
  re_inodes : w_inodes w' = w_inodes w;
  re_dev : forall b, is_Some (w_bufs w !! b) -> w_dev w' !! b = w_dev w !! b;
  re_others : forall b, is_Some (w_bufs w !! b) -> b ∉ w_others w -> b ∉ w_others w';
  re_nbfree : forall cg gd, is_Some (w_bufs w !! bdev cg) -> w_gd w !z cg = Some gd ->
    exists gd', w_gd w' !z cg = Some gd' /\ ext2bgd_nbfree gd' = ext2bgd_nbfree gd;
  re_nifree : forall cg gd, is_Some (w_bufs w !! idev cg) -> w_gd w !z cg = Some gd ->
    exists gd', w_gd w' !z cg = Some gd' /\ ext2bgd_nifree gd' = ext2bgd_nifree gd
}.

Record env_ok : Prop := mk_env_ok {
  eo_sched : forall n w, vol_ok w -> vol_ok (ke_sched n w) /\ rely w (ke_sched n w);
  eo_wait : forall n b w, vol_ok w ->
    vol_ok (ke_wait n b w) /\ rely w (ke_wait n b w) /\ b ∉ w_others (ke_wait n b w);
  eo_errno : forall n b e, ke_read_error n b = Some e -> e <> 0
}.

(** What this thread shares with the others. *)
Record shared : Type := mk_shared {
  sh_fbcount : Z;
  sh_ficount : Z;
  sh_gd : list ext2_gd;
  sh_contigdirs : list Z;
  sh_maxcluster : list Z;
  sh_clustersum : list csum;
  sh_dev : gmap Z (list Z);
  sh_others : gset Z
}.

Definition shared_of (w : world) : shared :=
  mk_shared (w_fbcount w) (w_ficount w) (w_gd w) (w_contigdirs w) (w_maxcluster w) (w_clustersum w)
    (w_dev w) (w_others w).

(** One stretch of work of the other threads, and the worlds they can bring
    this thread to from [w] while it changes nothing itself. Without other
    threads that is [w] alone. *)
Inductive others_step : shared -> shared -> Prop :=
| step_sched n w : vol_ok w -> others_step (shared_of w) (shared_of (ke_sched n w))
| step_wait n b w : vol_ok w -> others_step (shared_of w) (shared_of (ke_wait n b w)).

Definition reach (w w' : world) : Prop :=
  rtc others_step (shared_of w) (shared_of w') /\ (w_tick w <= w_tick w')%nat.

(** Between [w] and [w'] the device failed to read block [b]. *)
Definition read_failed (b : Z) (w w' : world) : Prop :=
  exists n e, (w_tick w <= n < w_tick w')%nat /\ ke_read_error n b = Some e.

(** One bit of group [cg]'s block bitmap and the counts go from [w1] to [w']
    in a single step, as every other thread sees it. *)
Definition committed_block (cg bno : Z) (v : bool) (w1 w' : world) : Prop :=
  exists gd bs bs', w_gd w1 !z cg = Some gd /\ w_dev w1 !! bdev cg = Some bs /\
    bit bs bno = negb v /\ (forall j, 0 <= j -> bit bs' j = if j =? bno then v else bit bs j) /\
    w_dev w' = <[bdev cg := bs']> (w_dev w1) /\
    w_gd w' = zinsert cg (upd_ext2bgd_nbfree (fun c => u16 (c + (if v then -1 else 1))) gd) (w_gd w1) /\
    w_fbcount w' = u32 (w_fbcount w1 + (if v then -1 else 1)) /\ w_ficount w' = w_ficount w1 /\
    w_fmod w' = 1 /\ (w_tick w1 <= w_tick w')%nat.

(** The same for an inode bitmap; [d] is the change of the directory count. *)
Definition committed_inode (cg i : Z) (v : bool) (d : Z) (w1 w' : world) : Prop :=
  exists gd bs bs', w_gd w1 !z cg = Some gd /\ w_dev w1 !! idev cg = Some bs /\
    bit bs i = negb v /\ (forall j, 0 <= j -> bit bs' j = if j =? i then v else bit bs j) /\
    w_dev w' = <[idev cg := bs']> (w_dev w1) /\
    (exists gd', w_gd w' = zinsert cg gd' (w_gd w1) /\
       ext2bgd_nifree gd' = u16 (ext2bgd_nifree gd + (if v then -1 else 1)) /\
       ext2bgd_nbfree gd' = ext2bgd_nbfree gd /\
       (d = 0 -> ext2bgd_ndirs gd' = ext2bgd_ndirs gd) /\
       (d <> 0 -> ext2bgd_ndirs gd' = u16 (ext2bgd_ndirs gd + d))) /\
    w_ficount w' = u32 (w_ficount w1 + (if v then -1 else 1)) /\ w_fbcount w' = w_fbcount w1 /\
    w_fmod w' = 1.

(** No bitmap buffer is held when an operation of the allocator starts. *)
Definition bitmaps_free (w : world) : Prop :=
  forall cg, group cg -> w_bufs w !! bdev cg = None /\ w_bufs w !! idev cg = None.

(** What [ext2_hashalloc] expects of the allocator it is given: nothing found,
    for the reason [missed], and the lock held again, or something found, by one
    committed step from a world the other threads led to, and the lock
    released. *)
Class AllocatorSpec (allocator : Z -> Z -> Z -> Z -> M world Z) (pref_ok : Z -> Prop)
  (missed : Z -> world -> world -> Prop) (found : Z -> Z -> world -> world -> Prop) : Prop :=
  allocator_spec : forall ip cg pref size w,
    vol_ok w -> w_locked w = true -> bitmaps_free w -> group cg -> pref_ok pref ->
    wp (allocator ip cg pref size) (fun r w' =>
      vol_ok w' /\ w_bufs w' = w_bufs w /\ w_inodes w' = w_inodes w /\
      ((r = 0 /\ w_locked w' = true /\ reach w w' /\ missed cg w w') \/
       (r <> 0 /\ w_locked w' = false /\ exists w1, vol_ok w1 /\ reach w w1 /\ found size r w1 w'))) w.

(** Group [cg] gave nothing on the way from [w] to [w']: its bitmap could not
    be read, or at some moment it had no free block, or no free inode. *)
Definition missed_group (bitmap : Z -> Z) (nfree : ext2_gd -> Z) (cg : Z) (w w' : world) : Prop :=
  read_failed (bitmap cg) w w' \/
  exists w1 gd, reach w w1 /\ reach w1 w' /\ w_gd w1 !z cg = Some gd /\ nfree gd = 0.
Definition missed_block : Z -> world -> world -> Prop := missed_group bdev ext2bgd_nbfree.
Definition missed_inode : Z -> world -> world -> Prop := missed_group idev ext2bgd_nifree.

Definition found_block (size r : Z) (w1 w' : world) : Prop :=
  exists cg bno, group cg /\ 0 <= bno < sb_fpg fs /\
    r = cg * sb_fpg fs + first_dblock fs + bno /\ 0 < r < e2fs_bcount (m_e2fs fs) /\
    committed_block cg bno true w1 w'.

Definition found_inode (mode r : Z) (w1 w' : world) : Prop :=
  exists cg i, group cg /\ 0 <= i < sb_ipg fs /\ r = cg * sb_ipg fs + i + 1 /\
    committed_inode cg i true (if is_dir mode then 1 else 0) w1 w'.

(** No other thread frees what this thread's file owns: a set bit of the bitmap
    at device block [a] stays set while this thread waits. *)
Definition env_keeps (a j : Z) : Prop :=
  forall n b w bs bs', vol_ok w -> w_dev w !! a = Some bs -> bit bs j = true ->
    w_dev (ke_wait n b w) !! a = Some bs' -> bit bs' j = true.

(** The bit is set in the bitmap as other threads see it. *)
Definition bit_set_on_dev (w : world) (a j : Z) : Prop :=
  exists bs, w_dev w !! a = Some bs /\ bit bs j = true.

Context (Hg : group_ok fs) (Hl : layout_ok) (He : env_ok).

(** * Lemmas on the invariant *)

(** ** Worlds the others lead to *)

Lemma reach_same w w' : shared_of w = shared_of w' -> (w_tick w <= w_tick w')%nat -> reach w w'.
Proof. unfold reach. intros ->. split; [apply rtc_refl|done]. Qed.

#[export] Instance reach_preorder : PreOrder reach.
Proof.
  split.
  - intros w. by apply reach_same.
  - intros w1 w2 w3 [H1 T1] [H2 T2]. split; [by etrans|lia].
Qed.

Lemma reach_sched n w : vol_ok w -> reach w (ke_sched n w).
Proof.
  intros Hv. destruct (eo_sched He n w Hv) as [_ Hr]. split; [by apply rtc_once, step_sched|].
  by rewrite (re_tick _ _ Hr).
Qed.

Lemma reach_wait n b w : vol_ok w -> reach w (ke_wait n b w).
Proof.
  intros Hv. destruct (eo_wait He n b w Hv) as (_ & Hr & _). split; [by apply rtc_once, step_wait|].
  by rewrite (re_tick _ _ Hr).
Qed.

(** What this thread does to its own state is nothing to the others. *)
Lemma reach_own w w1 w' : reach w w1 -> shared_of w' = shared_of w1 -> (w_tick w1 <= w_tick w')%nat -> reach w w'.
Proof. intros H1 Hs Ht. etrans; [exact H1|]. by apply reach_same. Qed.

(** Buffers held, the lock and the clock of this thread may differ. *)
Lemma reach_held w1 w2 w' :
  reach w1 w' -> shared_of w2 = shared_of w1 -> (w_tick w2 <= w_tick w1)%nat -> reach w2 w'.
Proof. intros H1 Hs Ht. etrans; [|exact H1]. by apply reach_same. Qed.

(** What the other threads do not change in one stretch of work they never do. *)
Lemma reach_keeps {A} (f : shared -> A) w w' :
  (forall n v, vol_ok v -> f (shared_of (ke_sched n v)) = f (shared_of v)) ->
  (forall n b v, vol_ok v -> f (shared_of (ke_wait n b v)) = f (shared_of v)) ->
  reach w w' -> f (shared_of w') = f (shared_of w).
Proof.
  intros Hs Hw [Hr _]. revert Hr. generalize (shared_of w), (shared_of w'). intros v v' Hr.
  induction Hr as [|v1 v2 v3 Hstep _ ->]; [done|]. destruct Hstep; auto.
Qed.

Lemma read_failed_mono b w w1 w2 w' : reach w w1 -> read_failed b w1 w2 -> reach w2 w' -> read_failed b w w'.
Proof. intros [_ T1] (n & e & Hn & Hr) [_ T2]. exists n, e. split; [lia|done]. Qed.

Lemma missed_mono f g cg w w1 w2 w' :
  reach w w1 -> missed_group f g cg w1 w2 -> reach w2 w' -> missed_group f g cg w w'.
Proof.
  intros H1 [Hf|(w3 & gd & H3 & H4 & Hgd)] H2; [left; by eapply read_failed_mono|right].
  exists w3, gd. split; [by etrans|]. split; [by etrans|done].
Qed.

Lemma gd_group gds cg : zlen gds = m_gcount fs -> group cg -> exists gd : ext2_gd, gds !z cg = Some gd.
Proof. unfold group. intros Hz Hc. apply zlookup_lt. by rewrite Hz. Qed.

Lemma group_of_gd gds cg (gd : ext2_gd) : zlen gds = m_gcount fs -> gds !z cg = Some gd -> group cg.
Proof. intros Hz Hc. apply zlookup_Some_inv in Hc as [Hc _]. unfold group. by rewrite <- Hz. Qed.

(** Holding one more buffer is harmless. *)
Lemma vol_inv_hold fb fi gds cds mcl cs dev bufs others b d :
  vol_inv fb fi gds cds mcl cs dev bufs others ->
  vol_inv fb fi gds cds mcl cs dev (<[b := d]> bufs) others.
Proof.
  intros []. constructor; try done.
  - intros cg gd bs Hgd Hbs Ho Hb. apply (vi_bcount0 cg); try done.
    destruct (decide (b = bdev cg)) as [->|]; [by rewrite lookup_insert_eq in Hb|by rewrite lookup_insert_ne in Hb].
  - intros cg gd bs Hgd Hbs Ho Hb. apply (vi_icount0 cg); try done.
    destruct (decide (b = idev cg)) as [->|]; [by rewrite lookup_insert_eq in Hb|by rewrite lookup_insert_ne in Hb].
Qed.

Lemma sum_fmap_zinsert (f : ext2_gd -> Z) gds cg gd gd' :
  gds !z cg = Some gd -> sumZ (f <$> zinsert cg gd' gds) = sumZ (f <$> gds) - f gd + f gd'.
Proof.
  intros Hgd. apply zlookup_Some_inv in Hgd as [_ Hgd]. unfold zinsert. rewrite list_fmap_insert.
  apply sumZ_insert. by rewrite list_lookup_fmap, Hgd.
Qed.

Lemma sum_fmap_bound (f : ext2_gd -> Z) gds cg gd :
  (forall cg gd, gds !z cg = Some gd -> 0 <= f gd) -> gds !z cg = Some gd -> f gd <= sumZ (f <$> gds).
Proof.
  intros Hp Hgd. apply zlookup_Some_inv in Hgd as [_ Hgd].
  apply sumZ_lookup_le with (i := Z.to_nat cg); [|by rewrite list_lookup_fmap, Hgd].
  intros y Hy. apply list_elem_of_fmap in Hy as (g & -> & Hg'). apply list_elem_of_lookup in Hg' as [i Hi].
  apply (Hp (Z.of_nat i)). rewrite zlookup_nonneg by lia. by rewrite Nat2Z.id.
Qed.

(** ** Committing one bit of a block bitmap *)

Lemma committed_tick cg bno v w1 w' : committed_block cg bno v w1 w' -> (w_tick w1 <= w_tick w')%nat.
Proof. by intros (? & ? & ? & ? & ? & ? & ? & ? & ? & ? & ? & ? & ?). Qed.

(** [bs'] is [bs] with position [i] set to [v]. *)
Definition bit_changed (bs bs' : list Z) (i : Z) (v : bool) : Prop :=
  zlen bs' = zlen bs /\ bytes_ok bs' /\ bit bs i = negb v /\
  forall j, 0 <= j -> bit bs' j = if j =? i then v else bit bs j.

(** Change of the number of free positions. *)
Definition delta (v : bool) : Z := if v then -1 else 1.

Lemma bit_changed_count bs bs' i v n :
  0 <= i < n -> bit_changed bs bs' i v ->
  count_clear bs' (Z.to_nat n) = count_clear bs (Z.to_nat n) + delta v.
Proof.
  intros Hi (_ & _ & Hb & Hj). rewrite (count_clear_update bs bs' i v) by (lia || done).
  rewrite Hb. destruct v; simpl; lia.
Qed.

Lemma bit_changed_ok n fixed bs bs' i v :
  bitmap_ok n fixed bs -> bit_changed bs bs' i v -> (v = false -> ~ fixed i) -> bitmap_ok n fixed bs'.
Proof.
  intros [] (Hlen & Hby & Hb & Hj) Hf. constructor; [lia|done|].
  intros j Hjr Hfj. rewrite Hj by lia. destruct (Z.eqb_spec j i) as [->|]; [|by apply bo_fixed0].
  destruct v; [done|]. by destruct (Hf eq_refl).
Qed.

Lemma u32_add_l a b : u32 (u32 a + b) = u32 (a + b).
Proof. unfold u32. apply Zplus_mod_idemp_l. Qed.

Lemma u16_count bs n c : 0 <= n <= 2 ^ 15 -> c = count_clear bs (Z.to_nat n) -> u16 c = c /\ u16_ok c.
Proof.
  intros Hn ->. pose proof (count_clear_range bs (Z.to_nat n)).
  assert (u16_ok (count_clear bs (Z.to_nat n))) by (unfold u16_ok; lia). split; [by apply u16_id|done].
Qed.

(** The group whose counts change, and the others. *)
Lemma zinsert_gd_cases gds cg cg' (gd gd' g : ext2_gd) :
  gds !z cg = Some gd -> zinsert cg gd' gds !z cg' = Some g ->
  (cg' = cg /\ g = gd') \/ (cg' <> cg /\ gds !z cg' = Some g).
Proof.
  intros Hgd H. apply zlookup_Some_inv in Hgd as [Hc _].
  destruct (Z.eq_dec cg' cg) as [->|Hne]; [left|right].
  - rewrite zlookup_zinsert_eq in H by done. by simplify_eq.
  - rewrite zlookup_zinsert_ne in H by lia. done.
Qed.

Lemma commit_block fb fi gds cds mcl cs dev bufs others cg gd bs bs' bno v mcl' cs' :
  vol_inv fb fi gds cds mcl cs dev bufs others ->
  gds !z cg = Some gd -> dev !! bdev cg = Some bs ->
  ext2bgd_nbfree gd = count_clear bs (Z.to_nat (sb_fpg fs)) ->
  0 <= bno < sb_fpg fs -> bit_changed bs bs' bno v ->
  (v = false -> ~ fixed_block (cg * sb_fpg fs + first_dblock fs + bno)) ->
  zlen mcl' = m_gcount fs -> zlen cs' = m_gcount fs ->
  (forall cg c, cs' !z cg = Some c -> zlen (cs_sum c) = contigsumsize fs MAXPHYS + 1) ->
  vol_inv (u32 (fb + delta v)) fi
    (zinsert cg (upd_ext2bgd_nbfree (fun c => u16 (c + delta v)) gd) gds)
    cds mcl' cs' (<[bdev cg := bs']> dev) (delete (bdev cg) bufs) others.
Proof.
  intros [] Hgd Hbs Hcnt Hb Hch Hfix Hm Hc1 Hc2. pose proof Hg as [].
  pose proof (group_of_gd _ _ _ vi_gds0 Hgd) as Hgrp.
  pose proof (bit_changed_count bs bs' bno v (sb_fpg fs) Hb Hch) as Hcnt'. rewrite <- Hcnt in Hcnt'.
  destruct (u16_count bs' (sb_fpg fs) (ext2bgd_nbfree gd + delta v)) as [Hu Hok]; [lia|done|].
  constructor; try done.
  - by rewrite zlen_zinsert.
  - intros cg' g Hg'. destruct (zinsert_gd_cases _ _ _ _ _ _ Hgd Hg') as [[-> ->]|[_ H']]; [|by apply (vi_gd0 cg')].
    destruct (vi_gd0 cg gd Hgd) as (H1 & H2 & _ & H4). split; [done|]. split; [done|]. split; [|done].
    cbn. by rewrite Hu.
  - intros cg' Hg'. destruct (Z.eq_dec cg' cg) as [->|Hne].
    + rewrite lookup_insert_eq. exists bs'. split; [done|]. destruct (vi_bmap0 cg Hg') as (b0 & Hb0 & Hbo).
      simplify_eq. by eapply bit_changed_ok.
    + rewrite lookup_insert_ne; [by apply vi_bmap0|]. intros Heq. apply (lo_b Hl) in Heq; auto.
  - intros cg' Hg'. rewrite lookup_insert_ne; [by apply vi_imap0|]. by apply (lo_bi Hl).
  - intros cg' g b0 Hg' Hb0 Ho Hbuf. destruct (zinsert_gd_cases _ _ _ _ _ _ Hgd Hg') as [[-> ->]|[Hne H']].
    + rewrite lookup_insert_eq in Hb0. simplify_eq. cbn. by rewrite Hu.
    + assert (bdev cg <> bdev cg') by (intros Heq; apply (lo_b Hl) in Heq; auto; by eapply group_of_gd).
      rewrite lookup_insert_ne in Hb0 by done. rewrite lookup_delete_ne in Hbuf by done. by eapply vi_bcount0.
  - intros cg' g b0 Hg' Hb0 Ho Hbuf.
    assert (group cg') by (eapply (group_of_gd _ _ _); [|done]; by rewrite zlen_zinsert).
    assert (bdev cg <> idev cg') by (by apply (lo_bi Hl)).
    rewrite lookup_insert_ne in Hb0 by done. rewrite lookup_delete_ne in Hbuf by done.
    destruct (zinsert_gd_cases _ _ _ _ _ _ Hgd Hg') as [[-> ->]|[Hne H']]; [|by eapply vi_icount0].
    cbn. by eapply vi_icount0.
  - rewrite (sum_fmap_zinsert _ _ _ _ _ Hgd). rewrite vi_bsum0, u32_add_l. cbn. rewrite Hu. f_equal. lia.
  - rewrite (sum_fmap_zinsert _ _ _ _ _ Hgd). rewrite vi_isum0. cbn. f_equal. lia.
Qed.

(** ** Symbolic execution of the services *)

Lemma wp_unlock (Q : unit -> world -> Prop) w :
  w_locked w = true -> Q tt (upd_w_locked (fun _ => false) w) -> wp EXT2_UNLOCK Q w.
Proof. intros Hlk HQ. unfold wp, EXT2_UNLOCK. by rewrite Hlk. Qed.

Lemma wp_lock (Q : unit -> world -> Prop) w :
  vol_ok w -> w_locked w = false ->
  (forall w1, vol_ok w1 -> rely w w1 -> reach w w1 -> Q tt (upd_w_tick S (upd_w_locked (fun _ => true) w1))) ->
  wp EXT2_LOCK Q w.
Proof.
  intros Hv Hlk HQ. unfold wp, EXT2_LOCK. rewrite Hlk. destruct (eo_sched He (w_tick w) w Hv).
  apply HQ; [done|done|by apply reach_sched].
Qed.

Lemma wp_assert_owned (Q : unit -> world -> Prop) w :
  w_locked w = true -> Q tt w -> wp LCK_MTX_ASSERT_OWNED Q w.
Proof. intros Hlk HQ. unfold wp, LCK_MTX_ASSERT_OWNED. by rewrite Hlk. Qed.

Lemma wp_GD (Q : ext2_gd -> world -> Prop) w cg gd : w_gd w !z cg = Some gd -> Q gd w -> wp (GD cg) Q w.
Proof. intros Hgd HQ. unfold wp, GD. by rewrite Hgd. Qed.

Lemma wp_upd_GD (Q : unit -> world -> Prop) w cg gd f :
  w_gd w !z cg = Some gd -> Q tt (upd_w_gd (zinsert cg (f gd)) w) -> wp (upd_GD cg f) Q w.
Proof. intros Hgd HQ. unfold wp, upd_GD. by rewrite Hgd. Qed.

Lemma wp_dataptr (Q : list Z -> world -> Prop) w b d : w_bufs w !! b = Some d -> Q d w -> wp (buf_dataptr b) Q w.
Proof. intros Hb HQ. unfold wp, buf_dataptr. by rewrite Hb. Qed.

Lemma wp_store (Q : unit -> world -> Prop) w b d d' :
  w_bufs w !! b = Some d -> Q tt (upd_w_bufs (insert b d') w) -> wp (buf_store b d') Q w.
Proof. intros Hb HQ. unfold wp, buf_store. by rewrite Hb. Qed.

Lemma wp_brelse (Q : unit -> world -> Prop) w b d :
  w_bufs w !! b = Some d -> Q tt (upd_w_bufs (delete b) w) -> wp (buf_brelse b) Q w.
Proof. intros Hb HQ. unfold wp, buf_brelse. by rewrite Hb. Qed.

Lemma wp_bdwrite (Q : unit -> world -> Prop) w b d :
  w_bufs w !! b = Some d -> Q tt (upd_w_bufs (delete b) (upd_w_dev (insert b d) w)) -> wp (buf_bdwrite b) Q w.
Proof. intros Hb HQ. unfold wp, buf_bdwrite. by rewrite Hb. Qed.

(** Reading a block that is there: an errno and an empty buffer, or its
    contents, in a world [w1] where no other thread holds it. *)
Lemma wp_bread (Q : Z -> world -> Prop) w b :
  vol_ok w -> w_bufs w !! b = None ->
  (forall w1, vol_ok w1 -> exists d, w_dev w1 !! b = Some d /\ zlen d = m_bsize fs) ->
  (forall w1 e, vol_ok w1 -> rely w w1 -> reach w w1 -> e <> 0 -> ke_read_error (w_tick w) b = Some e ->
     Q e (upd_w_bufs (insert b []) (upd_w_tick S w1))) ->
  (forall w1 d, vol_ok w1 -> rely w w1 -> reach w w1 -> b ∉ w_others w1 -> w_dev w1 !! b = Some d ->
     Q 0 (upd_w_bufs (insert b d) (upd_w_tick S w1))) ->
  wp (buf_meta_bread b (m_bsize fs)) Q w.
Proof.
  intros Hv Hb Hd Herr Hok. unfold wp, buf_meta_bread. rewrite Hb. cbv zeta.
  destruct (eo_wait He (w_tick w) b w Hv) as (Hv1 & Hr1 & Ho1). pose proof (reach_wait (w_tick w) b w Hv) as Hre.
  destruct (ke_read_error (w_tick w) b) as [e|] eqn:Ee; [by apply Herr; [..|eapply (eo_errno He)|]|].
  destruct (Hd _ Hv1) as (d & Hd1 & Hlen). cbn [w_dev upd_w_tick]. rewrite Hd1, Hlen, Z.eqb_refl. by apply Hok.
Qed.

(** A held buffer that was not changed can be released. *)
Lemma insert_delete_id (m : gmap Z (list Z)) b d : m !! b = None -> delete b (<[b := d]> m) = m.
Proof. intros. by apply delete_insert_id. Qed.

(** The summary of the group after [ext2_clusteracct]. *)
Lemma contigsumsize_range : 0 < contigsumsize fs MAXPHYS <= 32.
Proof. unfold contigsumsize, EXT2_MAXCONTIG. lia. Qed.

Lemma wp_clusteracct (Q : unit -> world -> Prop) w bbp cg bno cnt :
  vol_ok w -> group cg -> zlen bbp = m_bsize fs -> 0 <= bno < sb_fpg fs ->
  (forall mcl cs, zlen mcl = m_gcount fs -> zlen cs = m_gcount fs ->
     (forall cg c, cs !z cg = Some c -> zlen (cs_sum c) = contigsumsize fs MAXPHYS + 1) ->
     Q tt (upd_w_maxcluster (fun _ => mcl) (upd_w_clustersum (fun _ => cs) w))) ->
  wp (ext2_clusteracct fs MAXPHYS bbp cg bno cnt) Q w.
Proof.
  intros Hv Hc Hlen Hb HQ. pose proof Hg as []. unfold ext2_clusteracct.
  destruct (vi_cs _ _ _ _ _ _ _ _ _ Hv) as [Hcs1 Hcs2].
  destruct (zlookup_lt (w_clustersum w) cg) as [c Hcc]; [unfold group in Hc; lia|].
  wp_steps. apply wp_lift with (a := c); [by rewrite Hcc|]. wp_steps.
  pose proof contigsumsize_range.
  destruct (clusteracct_ok (contigsumsize fs MAXPHYS) (sb_fpg fs) bbp c bno cnt) as (c' & m & Hca & Hlc & Hm);
    [lia|lia|lia|lia|by apply (Hcs2 cg)|].
  eapply wp_lift; [done|]. wp_steps. cbn [fst snd]. wp_steps.
  apply (HQ (zinsert cg m (w_maxcluster w)) (zinsert cg c' (w_clustersum w))).
  - rewrite zlen_zinsert. by apply Hv.
  - by rewrite zlen_zinsert.
  - intros cg' c0 Hc0. destruct (Z.eq_dec cg' cg) as [->|Hne].
    + rewrite zlookup_zinsert_eq in Hc0 by (unfold group in Hc; lia). by simplify_eq.
    + rewrite zlookup_zinsert_ne in Hc0 by (unfold group in Hc; lia). by apply (Hcs2 cg').
Qed.

(** ** [ext2_alloccg] *)

(** The three ways to find nothing: the count was zero before or after the
    wait for the bitmap, or the bitmap could not be read. *)
Lemma missed_now f g cg w gd : w_gd w !z cg = Some gd -> g gd = 0 -> missed_group f g cg w w.
Proof. intros Hgd H0. right. by exists w, gd. Qed.

Lemma missed_later f g cg w w1 w' gd : reach w w1 -> reach w1 w' -> w_gd w1 !z cg = Some gd -> g gd = 0 -> missed_group f g cg w w'.
Proof. intros H1 H2 Hgd H0. right. by exists w1, gd. Qed.

Lemma missed_read f g cg w w' e : (w_tick w < w_tick w')%nat -> ke_read_error (w_tick w) (f cg) = Some e -> missed_group f g cg w w'.
Proof. intros Ht He'. left. exists (w_tick w), e. split; [lia|done]. Qed.

(** Giving up: the unchanged buffer is released and the lock taken again. *)
Lemma wp_give_up (w w1 : world) b d (Q : Z -> world -> Prop) :
  vol_ok w1 -> w_bufs w1 = w_bufs w -> w_bufs w !! b = None -> w_locked w1 = false ->
  (forall w2, vol_ok w2 -> w_bufs w2 = w_bufs w -> w_inodes w2 = w_inodes w1 -> reach (upd_w_tick S w1) w2 ->
     Q 0 (upd_w_tick S (upd_w_locked (fun _ => true) w2))) ->
  wp (buf_brelse b;; EXT2_LOCK;; mret 0) Q (upd_w_bufs (insert b d) (upd_w_tick S w1)).
Proof.
  intros Hv Hbufs Hb Hlk HQ. wp_steps.
  eapply wp_brelse; [apply lookup_insert_eq|].
  assert (delete b (<[b := d]> (w_bufs w1)) = w_bufs w1) as Heq by (apply insert_delete_id; by rewrite Hbufs).
  wp_steps. apply wp_lock.
  - unfold vol_ok. cbn. by rewrite Heq.
  - done.
  - intros w2 Hv2 Hr2 Hre2. wp_steps. apply HQ; [done| | |exact Hre2].
    + rewrite (re_bufs _ _ Hr2). cbn. by rewrite Heq.
    + by rewrite (re_inodes _ _ Hr2).
Qed.

Lemma give_up_reach w w1 w2 :
  reach (upd_w_locked (fun _ => false) w) w1 -> w_tick w1 = w_tick w -> reach (upd_w_tick S w1) w2 ->
  let w' := upd_w_tick S (upd_w_locked (fun _ => true) w2) in
  reach w w' /\ reach w1 w' /\ (w_tick w < w_tick w')%nat.
Proof.
  intros H1 Ht [H2 T2] w'. cbn in T2. assert (reach w1 w') as H3 by (split; [exact H2|cbn; lia]).
  split; [by transitivity w1|]. split; [done|]. cbn. lia.
Qed.

Lemma bmap_readable w1 cg : group cg -> vol_ok w1 -> exists d, w_dev w1 !! bdev cg = Some d /\ zlen d = m_bsize fs.
Proof. intros Hc Hv. destruct (vi_bmap _ _ _ _ _ _ _ _ _ Hv cg Hc) as (d & Hd & []). by exists d. Qed.

Lemma setbit_changed bs i bs' :
  bytes_ok bs -> 0 <= i < 8 * zlen bs -> bit bs i = false -> setbit bs i = Ok bs' -> bit_changed bs bs' i true.
Proof.
  intros Hok Hi Hb Hs. destruct (setbit_ok bs i Hi) as (b' & He' & Hlen & Hj). rewrite Hs in He'. injection He' as ->.
  split; [done|]. split; [by eapply setbit_bytes_ok|]. split; [done|].
  intros j Hj0. rewrite Hj by done. by destruct (j =? i).
Qed.

Lemma clrbit_changed bs i bs' :
  bytes_ok bs -> 0 <= i < 8 * zlen bs -> bit bs i = true -> clrbit bs i = Ok bs' -> bit_changed bs bs' i false.
Proof.
  intros Hok Hi Hb Hs. destruct (clrbit_ok bs i Hi) as (b' & He' & Hlen & Hj). rewrite Hs in He'. injection He' as ->.
  split; [done|]. split; [by eapply clrbit_bytes_ok|]. split; [done|].
  intros j Hj0. rewrite Hj by done. by destruct (j =? i).
Qed.

(** The part of [ext2_alloccg] and [ext2_blkfree] that runs with the bitmap
    buffer held and changed: lock, account, unlock, write. *)
Lemma wp_commit_block {A} (k : M world A) (Q : A -> world -> Prop) w cg gd bs bs' bno v bufs0 :
  vol_ok w -> group cg -> w_locked w = false ->
  w_bufs w = <[bdev cg := bs']> bufs0 -> bufs0 !! bdev cg = None ->
  w_gd w !z cg = Some gd -> w_dev w !! bdev cg = Some bs ->
  ext2bgd_nbfree gd = count_clear bs (Z.to_nat (sb_fpg fs)) ->
  0 <= bno < sb_fpg fs -> bit_changed bs bs' bno v ->
  (v = false -> ~ fixed_block (cg * sb_fpg fs + first_dblock fs + bno)) ->
  (forall w1 w', vol_ok w1 -> vol_ok w' -> w_bufs w' = bufs0 -> w_inodes w' = w_inodes w ->
     w_locked w' = false -> committed_block cg bno v w1 w' -> reach w w1 -> wp k Q w') ->
  wp (EXT2_LOCK;;
      ext2_clusteracct fs MAXPHYS bs' cg bno (delta v);;
      modify (upd_w_fbcount (fun c => u32 (c + delta v)));;
      upd_GD cg (upd_ext2bgd_nbfree (fun c => u16 (c + delta v)));;
      modify (upd_w_fmod (fun _ => 1));;
      EXT2_UNLOCK;;
      buf_bdwrite (bdev cg);;
      k) Q w.
Proof.
  intros Hv Hc Hlk Hbufs Hb0 Hgd Hbs Hcnt Hb Hch Hfix HQ. wp_steps.
  apply wp_lock; [done|done|]. intros w1 Hv1 Hr1 Hre1.
  assert (is_Some (w_bufs w !! bdev cg)) as Hheld by (rewrite Hbufs, lookup_insert_eq; eauto).
  destruct (re_nbfree _ _ Hr1 cg gd Hheld Hgd) as (gd1 & Hgd1 & Hnb).
  pose proof (re_dev _ _ Hr1 _ Hheld) as Hdev. rewrite Hbs in Hdev.
  wp_steps. apply wp_clusteracct; [done|done| |done|].
  { destruct Hch as (Hlen & _). rewrite Hlen. destruct (vi_bmap _ _ _ _ _ _ _ _ _ Hv cg Hc) as (b0 & Hb0' & []).
    by simplify_eq. }
  intros mcl cs Hm1 Hc1 Hc2. wp_steps. eapply wp_upd_GD; [exact Hgd1|]. wp_steps.
  apply wp_unlock; [done|]. wp_steps. eapply wp_bdwrite.
  { cbn. rewrite (re_bufs _ _ Hr1), Hbufs. apply lookup_insert_eq. }
  apply (HQ w1); try done.
  - unfold vol_ok. cbn. eapply commit_block; try done. by rewrite Hnb.
  - cbn. rewrite (re_bufs _ _ Hr1), Hbufs. by apply insert_delete_id.
  - cbn. by rewrite (re_inodes _ _ Hr1).
  - destruct Hch as (_ & _ & Hbb & Hj). exists gd1, bs, bs'. split_and!; try done. cbn. lia.
Qed.

Lemma found_block_range cg bno bs :
  group cg -> bmap_ok cg bs -> 0 <= bno < sb_fpg fs -> bit bs bno = false ->
  0 < cg * sb_fpg fs + first_dblock fs + bno < e2fs_bcount (m_e2fs fs).
Proof.
  intros Hc [] Hb Hbit. pose proof Hg as [].
  destruct (decide (fixed_block (cg * sb_fpg fs + first_dblock fs + bno))) as [Hf|Hf].
  - by rewrite (bo_fixed0 bno Hb Hf) in Hbit.
  - unfold fixed_block in Hf. unfold group in Hc. nia.
Qed.

(** The bitmap of a held group is the one its counts describe. *)
Lemma held_bmap w1 cg d :
  group cg -> vol_ok w1 -> w_dev w1 !! bdev cg = Some d -> bmap_ok cg d.
Proof. intros Hc Hv Hd. destruct (vi_bmap _ _ _ _ _ _ _ _ _ Hv cg Hc) as (b & Hb & Hok). by simplify_eq. Qed.

#[export] Instance alloccg_spec : AllocatorSpec (ext2_alloccg fs MAXPHYS) (bpref_ok fs) missed_block found_block.
Proof.
  intros ip cg pref size w Hv Hlk Hfree Hc Hp. pose proof Hg as []. unfold ext2_alloccg.
  destruct (gd_group _ _ (vi_gds _ _ _ _ _ _ _ _ _ Hv) Hc) as [gd Hgd].
  destruct (vi_gd _ _ _ _ _ _ _ _ _ Hv cg gd Hgd) as (HB & _).
  wp_steps. eapply wp_GD; [done|].
  destruct (Z.eqb_spec (ext2bgd_nbfree gd) 0); [wp_steps; split_and!; [done..|]; left; split_and!; [done..|by eapply missed_now]|].
  wp_steps. apply wp_unlock; [done|]. rewrite HB. fold (bdev cg). cbv zeta.
  destruct (Hfree cg Hc) as [Hbfree _].
  wp_steps. apply wp_bread; [done|done|intros; by apply bmap_readable| |].
  - (* the read failed *)
    intros w1 e Hv1 Hr1 Hre1 Hne Hrd. rewrite (proj2 (Z.eqb_neq e 0)) by done. cbn [negb].
    eapply wp_give_up; [done|apply (re_bufs _ _ Hr1)|done|apply (re_locked _ _ Hr1)|].
    intros w2 Hv2 Hb2 Hi2 Hre2. rewrite (re_inodes _ _ Hr1) in Hi2. split_and!; [done..|].
    destruct (give_up_reach w w1 w2 Hre1 (re_tick _ _ Hr1) Hre2) as (Hre & _ & Ht). left.
    split_and!; [done..|exact Hre|eapply missed_read; [exact Ht|exact Hrd]].
  - intros w1 d Hv1 Hr1 Hre1 Ho Hd. cbn [Z.eqb negb].
    pose proof (re_bufs _ _ Hr1) as Hbufs1. cbn in Hbufs1.
    destruct (gd_group _ _ (vi_gds _ _ _ _ _ _ _ _ _ Hv1) Hc) as [gd1 Hgd1].
    wp_steps. eapply wp_GD; [done|].
    destruct (Z.eqb_spec (ext2bgd_nbfree gd1) 0) as [|Hnz].
    + (* another thread took the last block *)
      eapply wp_give_up; [done|apply (re_bufs _ _ Hr1)|done|apply (re_locked _ _ Hr1)|].
      intros w2 Hv2 Hb2 Hi2 Hre2. rewrite (re_inodes _ _ Hr1) in Hi2. split_and!; [done..|].
      destruct (give_up_reach w w1 w2 Hre1 (re_tick _ _ Hr1) Hre2) as (Hre & Hre' & _). left.
      split_and!; [done..|exact Hre|by eapply (missed_later _ _ _ _ w1)].
    + assert (ext2bgd_nbfree gd1 = count_clear d (Z.to_nat (sb_fpg fs))) as Hcnt.
      { eapply vi_bcount; try done. by rewrite Hbufs1. }
      pose proof (held_bmap _ _ _ Hc Hv1 Hd) as Hbm. pose proof Hbm as [].
      pose proof (count_clear_range d (Z.to_nat (sb_fpg fs))).
      wp_steps. eapply wp_dataptr; [apply lookup_insert_eq|].
      destruct (alloccg_pick_ok fs d cg pref) as (bno & Hpick & Hbr & Hbit & _); [done..|lia|].
      wp_steps. eapply wp_lift; [done|]. rewrite (proj2 (Z.ltb_ge bno 0)) by lia.
      destruct (setbit_ok d bno) as (bs' & Hset & _); [lia|].
      wp_steps. eapply wp_lift; [done|]. wp_steps. eapply wp_store; [apply lookup_insert_eq|].
      eapply (wp_commit_block _ _ _ cg gd1 d bs' bno true (w_bufs w)); try done.
      * unfold vol_ok. cbn. rewrite insert_insert_eq. by apply vol_inv_hold.
      * apply (re_locked _ _ Hr1).
      * cbn. by rewrite insert_insert_eq, Hbufs1.
      * apply setbit_changed; done || lia.
      * intros w2 w' Hv2 Hv' Hb' Hi' Hlk' Hcom Hre2. wp_steps.
        split; [done|]. split; [done|]. cbn in Hi'. rewrite (re_inodes _ _ Hr1) in Hi'. split; [done|]. right.
        pose proof (found_block_range cg bno d Hc Hbm Hbr Hbit). split; [lia|]. split; [done|].
        exists w2. split; [done|]. split; [|by exists cg, bno].
        transitivity w1; [exact Hre1|]. apply (reach_held _ _ _ Hre2); [done|cbn; lia].
Qed.

(** ** Committing one bit of an inode bitmap *)

(** The descriptor after an inode comes or goes. *)
Definition gd_inode_changed (gd gd' : ext2_gd) (v : bool) : Prop :=
  ext2bgd_b_bitmap gd' = ext2bgd_b_bitmap gd /\ ext2bgd_i_bitmap gd' = ext2bgd_i_bitmap gd /\
  ext2bgd_nbfree gd' = ext2bgd_nbfree gd /\ ext2bgd_nifree gd' = u16 (ext2bgd_nifree gd + delta v).

Lemma commit_inode fb fi gds cds mcl cs dev bufs others cg gd gd' bs bs' i v :
  vol_inv fb fi gds cds mcl cs dev bufs others ->
  gds !z cg = Some gd -> dev !! idev cg = Some bs ->
  ext2bgd_nifree gd = count_clear bs (Z.to_nat (sb_ipg fs)) ->
  0 <= i < sb_ipg fs -> bit_changed bs bs' i v -> gd_inode_changed gd gd' v ->
  vol_inv fb (u32 (fi + delta v)) (zinsert cg gd' gds)
    cds mcl cs (<[idev cg := bs']> dev) (delete (idev cg) bufs) others.
Proof.
  intros [] Hgd Hbs Hcnt Hb Hch (HgB & HgI & Hgnb & Hgni). pose proof Hg as [].
  pose proof (group_of_gd _ _ _ vi_gds0 Hgd) as Hgrp.
  pose proof (bit_changed_count bs bs' i v (sb_ipg fs) Hb Hch) as Hcnt'. rewrite <- Hcnt in Hcnt'.
  destruct (u16_count bs' (sb_ipg fs) (ext2bgd_nifree gd + delta v)) as [Hu Hok]; [lia|done|].
  rewrite Hu in Hgni.
  constructor; try done.
  - by rewrite zlen_zinsert.
  - intros cg' g Hg'. destruct (zinsert_gd_cases _ _ _ _ _ _ Hgd Hg') as [[-> ->]|[_ H']]; [|by apply (vi_gd0 cg')].
    destruct (vi_gd0 cg gd Hgd) as (H1 & H2 & H3 & _). rewrite HgB, HgI, Hgnb, Hgni. by split_and!.
  - intros cg' Hg'. rewrite lookup_insert_ne; [by apply vi_bmap0|]. apply not_eq_sym; by apply (lo_bi Hl).
  - intros cg' Hg'. destruct (Z.eq_dec cg' cg) as [->|Hne].
    + rewrite lookup_insert_eq. exists bs'. split; [done|]. destruct (vi_imap0 cg Hg') as (b0 & Hb0 & Hbo).
      simplify_eq. eapply bit_changed_ok; [done|done|by intros _ []].
    + rewrite lookup_insert_ne; [by apply vi_imap0|]. intros Heq. apply (lo_i Hl) in Heq; auto.
  - intros cg' g b0 Hg' Hb0 Ho Hbuf.
    assert (group cg') by (eapply (group_of_gd _ _ _); [|done]; by rewrite zlen_zinsert).
    assert (idev cg <> bdev cg') by (apply not_eq_sym; by apply (lo_bi Hl)).
    rewrite lookup_insert_ne in Hb0 by done. rewrite lookup_delete_ne in Hbuf by done.
    destruct (zinsert_gd_cases _ _ _ _ _ _ Hgd Hg') as [[-> ->]|[Hne H']]; [|by eapply vi_bcount0].
    rewrite Hgnb. by eapply vi_bcount0.
  - intros cg' g b0 Hg' Hb0 Ho Hbuf. destruct (zinsert_gd_cases _ _ _ _ _ _ Hgd Hg') as [[-> ->]|[Hne H']].
    + rewrite lookup_insert_eq in Hb0. simplify_eq. by rewrite Hgni.
    + assert (idev cg <> idev cg') by (intros Heq; apply (lo_i Hl) in Heq; auto; by eapply group_of_gd).
      rewrite lookup_insert_ne in Hb0 by done. rewrite lookup_delete_ne in Hbuf by done. by eapply vi_icount0.
  - rewrite (sum_fmap_zinsert _ _ _ _ _ Hgd). rewrite vi_bsum0, Hgnb. f_equal. lia.
  - rewrite (sum_fmap_zinsert _ _ _ _ _ Hgd). rewrite vi_isum0, u32_add_l, Hgni. f_equal. lia.
Qed.

Lemma imap_readable w1 cg : group cg -> vol_ok w1 -> exists d, w_dev w1 !! idev cg = Some d /\ zlen d = m_bsize fs.
Proof. intros Hc Hv. destruct (vi_imap _ _ _ _ _ _ _ _ _ Hv cg Hc) as (d & Hd & []). by exists d. Qed.

Lemma held_imap w1 cg d : group cg -> vol_ok w1 -> w_dev w1 !! idev cg = Some d -> imap_ok d.
Proof. intros Hc Hv Hd. destruct (vi_imap _ _ _ _ _ _ _ _ _ Hv cg Hc) as (b & Hb & Hok). by simplify_eq. Qed.

(** Taking the lock with a changed inode bitmap in hand. *)
Lemma wp_lock_inode (Q : unit -> world -> Prop) w cg gd bs bs' bufs0 :
  vol_ok w -> w_locked w = false ->
  w_bufs w = <[idev cg := bs']> bufs0 ->
  w_gd w !z cg = Some gd -> w_dev w !! idev cg = Some bs ->
  (forall w1 gd1, vol_ok w1 -> w_bufs w1 = <[idev cg := bs']> bufs0 -> w_inodes w1 = w_inodes w ->
     w_gd w1 !z cg = Some gd1 -> ext2bgd_nifree gd1 = ext2bgd_nifree gd -> w_dev w1 !! idev cg = Some bs -> reach w w1 ->
     Q tt (upd_w_tick S (upd_w_locked (fun _ => true) w1))) ->
  wp EXT2_LOCK Q w.
Proof.
  intros Hv Hlk Hbufs Hgd Hbs HQ. apply wp_lock; [done|done|]. intros w1 Hv1 Hr1 Hre1.
  assert (is_Some (w_bufs w !! idev cg)) as Hheld by (rewrite Hbufs, lookup_insert_eq; eauto).
  destruct (re_nifree _ _ Hr1 cg gd Hheld Hgd) as (gd1 & Hgd1 & Hnb).
  apply (HQ w1 gd1); try done.
  - by rewrite (re_bufs _ _ Hr1).
  - by rewrite (re_inodes _ _ Hr1).
  - by rewrite (re_dev _ _ Hr1 _ Hheld).
Qed.

(** ** [ext2_nodealloccg] *)

(** The end of [ext2_nodealloccg], from the directory count on. *)
Lemma nodealloccg_finish (w w2 : world) cg i mode gd2 d bs' bufs0 :
  vol_ok w2 -> group cg -> 0 <= i < sb_ipg fs ->
  w_bufs w2 = <[idev cg := bs']> bufs0 -> bufs0 !! idev cg = None ->
  w_gd w2 !z cg = Some gd2 -> w_dev w2 !! idev cg = Some d ->
  ext2bgd_nifree gd2 = count_clear d (Z.to_nat (sb_ipg fs)) -> bit_changed d bs' i true ->
  w_bufs w = bufs0 -> w_inodes w2 = w_inodes w -> reach w w2 ->
  wp ((if is_dir mode then
         upd_GD cg (upd_ext2bgd_ndirs (fun c => u16 (c + 1)));;
         modify (upd_w_total_dir (fun c => u32 (c + 1)))
       else mret tt);;
      EXT2_UNLOCK;;
      buf_bdwrite (idev cg);;
      mret (cg * sb_ipg fs + i + 1)) (fun r w' =>
      vol_ok w' /\ w_bufs w' = w_bufs w /\ w_inodes w' = w_inodes w /\
      ((r = 0 /\ w_locked w' = true /\ reach w w' /\ missed_inode cg w w') \/
       (r <> 0 /\ w_locked w' = false /\ exists w1, vol_ok w1 /\ reach w w1 /\ found_inode mode r w1 w')))
    (upd_w_fmod (fun _ => 1) (upd_w_ficount (fun c => u32 (c - 1))
       (upd_w_gd (zinsert cg (upd_ext2bgd_nifree (fun c => u16 (c - 1)) gd2))
          (upd_w_tick S (upd_w_locked (fun _ => true) w2))))).
Proof.
  intros Hv Hc Hi Hbufs Hb0 Hgd Hd Hcnt Hch <- Hin Hre.
  pose proof Hg as []. pose proof (zlookup_Some_inv _ _ _ Hgd) as [Hcr _].
  set (r := cg * sb_ipg fs + i + 1). assert (r <> 0) as Hr by (unfold r, group in *; nia).
  set (gd' := upd_ext2bgd_nifree (fun c => u16 (c - 1)) gd2).
  assert (forall w' gd'' dd, dd = (if is_dir mode then 1 else 0) ->
    gd_inode_changed gd2 gd'' true ->
    (dd = 0 -> ext2bgd_ndirs gd'' = ext2bgd_ndirs gd2) ->
    (dd <> 0 -> ext2bgd_ndirs gd'' = u16 (ext2bgd_ndirs gd2 + dd)) ->
    w_fbcount w' = w_fbcount w2 -> w_ficount w' = u32 (w_ficount w2 - 1) ->
    w_gd w' = zinsert cg gd'' (w_gd w2) -> w_contigdirs w' = w_contigdirs w2 ->
    w_maxcluster w' = w_maxcluster w2 -> w_clustersum w' = w_clustersum w2 ->
    w_dev w' = w_dev w2 -> w_bufs w' = w_bufs w2 -> w_others w' = w_others w2 -> w_inodes w' = w_inodes w2 ->
    w_locked w' = true -> w_fmod w' = 1 ->
    wp (EXT2_UNLOCK;; buf_bdwrite (idev cg);; mret r) (fun r w' =>
      vol_ok w' /\ w_bufs w' = w_bufs w /\ w_inodes w' = w_inodes w /\
      ((r = 0 /\ w_locked w' = true /\ reach w w' /\ missed_inode cg w w') \/
       (r <> 0 /\ w_locked w' = false /\ exists w1, vol_ok w1 /\ reach w w1 /\ found_inode mode r w1 w'))) w') as Hend.
  { intros w' gd'' dd -> Hgc Hd0 Hd1 E1 E2 E3 E4 E5 E6 E7 E8 E9 E10 E11 E12.
    wp_steps. apply wp_unlock; [done|]. wp_steps. eapply wp_bdwrite; [cbn; by rewrite E8, Hbufs, lookup_insert_eq|].
    wp_steps. split; [|split; [|split; [by cbn; rewrite E10|]]].
    - unfold vol_ok. cbn. rewrite E1, E2, E3, E4, E5, E6, E7, E8, E9. by eapply (commit_inode _ _ _ _ _ _ _ _ _ cg gd2 gd'' d bs' i true).
    - cbn. rewrite E8, Hbufs. by apply insert_delete_id.
    - right. split; [done|]. split; [done|]. exists w2. split; [done|]. split; [done|]. exists cg, i.
      split; [done|]. split; [done|]. split; [done|]. destruct Hch as (_ & _ & Hbb & Hj), Hgc as (_ & _ & Hnb & Hni).
      exists gd2, d, bs'. cbn. rewrite E1, E2, E3, E7, E12. split_and!; try done. by exists gd''. }
  destruct (is_dir mode) eqn:Edir.
  - apply wp_bind, wp_bind. eapply wp_upd_GD; [cbn; by apply zlookup_zinsert_eq|]. apply wp_modify.
    eapply (Hend _ (upd_ext2bgd_ndirs (fun c => u16 (c + 1)) gd') 1); try done.
    cbn. unfold zinsert. by rewrite list_insert_insert_eq.
  - apply wp_bind, wp_ret. eapply (Hend _ gd' 0); done.
Qed.

#[export] Instance nodealloccg_spec : AllocatorSpec (ext2_nodealloccg fs) (fun ipref => 0 <= ipref) missed_inode found_inode.
Proof.
  intros ip cg pref size w Hv Hlk Hfree Hc Hp. pose proof Hg as []. unfold ext2_nodealloccg. cbv zeta.
  set (ipref := if pref - 1 =? -1 then 0 else pref - 1).
  assert (0 <= ipref) as Hip by (subst ipref; destruct (Z.eqb_spec (pref - 1) (-1)); lia).
  destruct (gd_group _ _ (vi_gds _ _ _ _ _ _ _ _ _ Hv) Hc) as [gd Hgd].
  destruct (vi_gd _ _ _ _ _ _ _ _ _ Hv cg gd Hgd) as (_ & HI & _).
  wp_steps. eapply wp_GD; [done|].
  destruct (Z.eqb_spec (ext2bgd_nifree gd) 0); [wp_steps; split_and!; [done..|]; left; split_and!; [done..|by eapply missed_now]|].
  wp_steps. apply wp_unlock; [done|]. rewrite HI. fold (idev cg). cbv zeta.
  destruct (Hfree cg Hc) as [_ Hbfree].
  wp_steps. apply wp_bread; [done|done|intros; by apply imap_readable| |].
  - intros w1 e Hv1 Hr1 Hre1 Hne Hrd. rewrite (proj2 (Z.eqb_neq e 0)) by done. cbn [negb].
    eapply wp_give_up; [done|apply (re_bufs _ _ Hr1)|done|apply (re_locked _ _ Hr1)|].
    intros w2 Hv2 Hb2 Hi2 Hre2. rewrite (re_inodes _ _ Hr1) in Hi2. split_and!; [done..|].
    destruct (give_up_reach w w1 w2 Hre1 (re_tick _ _ Hr1) Hre2) as (Hre & _ & Ht). left.
    split_and!; [done..|exact Hre|eapply missed_read; [exact Ht|exact Hrd]].
  - intros w1 d Hv1 Hr1 Hre1 Ho Hd. cbn [Z.eqb negb].
    pose proof (re_bufs _ _ Hr1) as Hbufs1. cbn in Hbufs1.
    destruct (gd_group _ _ (vi_gds _ _ _ _ _ _ _ _ _ Hv1) Hc) as [gd1 Hgd1].
    wp_steps. eapply wp_GD; [done|].
    destruct (Z.eqb_spec (ext2bgd_nifree gd1) 0) as [|Hnz].
    + eapply wp_give_up; [done|apply (re_bufs _ _ Hr1)|done|apply (re_locked _ _ Hr1)|].
      intros w2 Hv2 Hb2 Hi2 Hre2. rewrite (re_inodes _ _ Hr1) in Hi2. split_and!; [done..|].
      destruct (give_up_reach w w1 w2 Hre1 (re_tick _ _ Hr1) Hre2) as (Hre & Hre' & _). left.
      split_and!; [done..|exact Hre|by eapply (missed_later _ _ _ _ w1)].
    + assert (ext2bgd_nifree gd1 = count_clear d (Z.to_nat (sb_ipg fs))) as Hcnt.
      { eapply vi_icount; try done. by rewrite Hbufs1. }
      pose proof (held_imap _ _ _ Hc Hv1 Hd) as [].
      pose proof (count_clear_range d (Z.to_nat (sb_ipg fs))).
      destruct (count_clear_pos d (Z.to_nat (sb_ipg fs))) as (j & Hj & Hbj); [lia|].
      wp_steps. eapply wp_dataptr; [apply lookup_insert_eq|].
      destruct (nodealloccg_pick_ok fs d ipref j) as (i & Hpick & Hir & Hbit); [done|done|done|done|lia|done|].
      wp_steps. eapply wp_lift; [done|].
      destruct (setbit_ok d i) as (bs' & Hset & _); [lia|].
      wp_steps. eapply wp_lift; [done|]. wp_steps. eapply wp_store; [apply lookup_insert_eq|].
      assert (bit_changed d bs' i true) as Hch by (apply setbit_changed; done || lia).
      wp_steps. eapply (wp_lock_inode _ _ cg gd1 d bs' (w_bufs w)); [| | |done|done|].
      { unfold vol_ok. cbn. rewrite insert_insert_eq. by apply vol_inv_hold. }
      { apply (re_locked _ _ Hr1). }
      { cbn. by rewrite insert_insert_eq, Hbufs1. }
      intros w2 gd2 Hv2 Hb2 Hi2 Hgd2 Hnif Hd2 Hre2. cbn in Hi2. rewrite (re_inodes _ _ Hr1) in Hi2.
      assert (reach w w2) as Hre by (transitivity w1; [exact Hre1|]; apply (reach_held _ _ _ Hre2); [done|cbn; lia]).
      apply wp_bind. eapply wp_upd_GD; [done|]. do 2 apply wp_bind, wp_modify.
      apply nodealloccg_finish with (w2 := w2) (gd2 := gd2) (d := d) (bs' := bs') (bufs0 := w_bufs w); try done.
      by rewrite Hnif.
Qed.

(** ** [ext2_hashalloc] *)

(** The search over the groups, for any allocator. [J] holds while nothing is
    found, [T cg] records that group [cg] was tried, [F] is what a find gives. *)
Section hashalloc.
Context (allocator : Z -> Z -> Z -> Z -> M world Z) (ip size : Z).
Context (pref_ok : Z -> Prop) (J : world -> Prop) (T : Z -> world -> Prop) (F : Z -> world -> Prop).
Context (Hpref0 : pref_ok 0).
Context (Halloc : forall cg pref w, J w -> group cg -> pref_ok pref ->
  wp (allocator ip cg pref size) (fun r w' =>
    (r = 0 /\ J w' /\ T cg w' /\ forall cg', T cg' w -> T cg' w') \/ (r <> 0 /\ F r w')) w).

(** The outcome of part of the search that tries the groups in [S]. *)
Definition searched (S : Z -> Prop) (w : world) (r : Z) (w' : world) : Prop :=
  (r = 0 /\ J w' /\ (forall cg, S cg -> T cg w') /\ forall cg, T cg w -> T cg w') \/ (r <> 0 /\ F r w').

(** Trying one group, then going on only if it gave nothing. *)
Lemma wp_try (Q : Z -> world -> Prop) cg pref (k : M world Z) w :
  J w -> group cg -> pref_ok pref ->
  (forall r w', r <> 0 -> F r w' -> Q r w') ->
  (forall w', J w' -> T cg w' -> (forall c, T c w -> T c w') -> wp k Q w') ->
  wp (result ← allocator ip cg pref size; if negb (result =? 0) then mret result else k) Q w.
Proof.
  intros Hj Hc Hp HF Hk. apply wp_bind. eapply wp_mono; [by apply Halloc|].
  intros r w' [(-> & Hj' & Ht & Hm)|[Hr Hf]]; cbn beta.
  - by apply Hk.
  - rewrite (proj2 (Z.eqb_neq r 0)) by done. cbn [negb]. apply wp_ret. by apply HF.
Qed.

Lemma brute_loop_spec n : forall cg w, J w -> group cg ->
  wp (brute_loop fs allocator ip size n cg)
     (searched (fun c => exists i, 0 <= i < Z.of_nat n /\ c = (cg + i) mod m_gcount fs) w) w.
Proof.
  pose proof (gr_gcount _ Hg). induction n as [|n IH]; intros cg w Hj Hc; cbn [brute_loop].
  - apply wp_ret. left. split_and!; try done. intros c (i & Hi & _). lia.
  - apply wp_try; [done|done|done|by right|]. intros w1 Hj1 Ht1 Hm1.
    assert (group (if cg + 1 =? m_gcount fs then 0 else cg + 1)) as Hc1.
    { unfold group in *. destruct (Z.eqb_spec (cg + 1) (m_gcount fs)); lia. }
    eapply wp_mono; [by apply (IH _ w1)|]. intros r w2 [(-> & Hj2 & Hs2 & Hm2)|[Hr Hf]]; [|by right].
    left. split_and!; [done|done| |auto]. intros c (i & Hi & ->). unfold group in *.
    destruct (Z.eq_dec i 0) as [->|Hi0].
    { rewrite Z.add_0_r, Z.mod_small by lia. auto. }
    apply Hs2. exists (i - 1). split; [lia|].
    destruct (Z.eqb_spec (cg + 1) (m_gcount fs)) as [He1|He1]; [|f_equal; lia].
    replace (cg + i) with (0 + (i - 1) + 1 * m_gcount fs) by lia. by rewrite Z_mod_plus_full.
Qed.

Lemma quad_loop_spec fuel : forall i cg w, J w -> group cg -> 0 < i ->
  m_gcount fs <= i * 2 ^ Z.of_nat fuel ->
  wp (quad_loop fs allocator ip size (S fuel) i cg)
     (searched (fun c => i < m_gcount fs /\ c = (cg + i) mod m_gcount fs) w) w.
Proof.
  pose proof (gr_gcount _ Hg). induction fuel as [|fuel IH]; intros i cg w Hj Hc Hi Hf.
  - cbn [quad_loop]. rewrite (proj2 (Z.ltb_ge i (m_gcount fs))) by lia.
    apply wp_ret. left. split_and!; try done. lia.
  - cbn [quad_loop]. destruct (Z.ltb_spec i (m_gcount fs)) as [Hlt|Hge].
    2:{ apply wp_ret. left. split_and!; try done. lia. }
    set (cg1 := if cg + i >=? m_gcount fs then cg + i - m_gcount fs else cg + i).
    assert (group cg1 /\ cg1 = (cg + i) mod m_gcount fs) as [Hc1 Hc1m].
    { unfold group in *. subst cg1. destruct (Z.geb_spec (cg + i) (m_gcount fs)).
      - split; [lia|]. apply (Z.mod_unique_pos _ _ 1); lia.
      - split; [lia|]. symmetry. apply Z.mod_small. lia. }
    apply wp_try; [done|done|done|by right|]. intros w1 Hj1 Ht1 Hm1.
    apply wp_bind. eapply wp_lift.
    { unfold mul_int. rewrite (proj2 (Z.ltb_lt (i * 2) (2 ^ 31))) by lia. done. }
    eapply wp_mono; [apply (IH (i * 2) cg1 w1); [done|done|lia|]|].
    { rewrite Nat2Z.inj_succ, Z.pow_succ_r in Hf by lia. lia. }
    intros r w2 [(-> & Hj2 & Hs2 & Hm2)|[Hr Hfd]]; [|by right].
    left. split_and!; [done|done| |auto]. intros c (_ & ->). rewrite <- Hc1m. auto.
Qed.

(** Nothing is found only after every group was tried. *)
Lemma hashalloc_spec cg pref w :
  J w -> w_locked w = true -> group cg -> pref_ok pref ->
  wp (ext2_hashalloc fs allocator ip size cg pref) (searched group w) w.
Proof.
  intros Hj Hlk Hc Hp. pose proof (gr_gcount _ Hg) as Hgc. unfold ext2_hashalloc.
  apply wp_bind. apply wp_assert_owned; [done|].
  apply wp_try; [done|done|done|by right|]. intros w1 Hj1 Ht1 Hm1.
  apply wp_bind. eapply wp_mono; [apply (quad_loop_spec 31 1 cg w1); [done|done|lia|]|].
  { transitivity (2 ^ 30); [lia|]. by vm_compute. }
  intros r w2 [(-> & Hj2 & Hs2 & Hm2)|[Hr Hf]]; cbn beta.
  2:{ rewrite (proj2 (Z.eqb_neq r 0)) by done. apply wp_ret. by right. }
  cbn [Z.eqb negb].
  eapply wp_mono; [apply (brute_loop_spec _ ((cg + 2) mod m_gcount fs) w2); [done|]|].
  { unfold group. apply Z.mod_pos_bound. lia. }
  intros r w3 [(-> & Hj3 & Hs3 & Hm3)|[Hr Hf]]; [|by right].
  left. split_and!; [done|done| |auto]. intros c Hc'. unfold group in *.
  assert (exists i, 0 <= i < m_gcount fs /\ c = (cg + i) mod m_gcount fs) as (i & Hi & ->).
  { exists ((c - cg) mod m_gcount fs). split; [apply Z.mod_pos_bound; lia|].
    rewrite Zplus_mod_idemp_r. replace (cg + (c - cg)) with c by lia. symmetry. apply Z.mod_small. lia. }
  destruct (Z.eq_dec i 0) as [->|]; [rewrite Z.add_0_r, Z.mod_small by lia; auto|].
  destruct (Z.eq_dec i 1) as [->|]; [apply Hm3, Hs2; lia|].
  apply Hs3. exists (i - 2). split; [lia|]. rewrite Zplus_mod_idemp_l. f_equal. lia.
Qed.

End hashalloc.

(** ** [ext2_alloc] *)

Lemma ino_group ino : 1 <= ino <= m_gcount fs * sb_ipg fs -> u64_ok ino ->
  group (ino_to_cg fs ino) /\ s32 (ino_to_cg fs ino) = ino_to_cg fs ino.
Proof.
  intros Hi Hu. pose proof Hg as []. unfold ino_to_cg, group. rewrite gr_m_ipg.
  assert (u64 (ino - 1) = ino - 1) as -> by (unfold u64, u64_ok in *; apply Z.mod_small; lia).
  assert (0 <= (ino - 1) / sb_ipg fs < m_gcount fs)
    by (split; [apply Z.div_pos; lia|apply Z.div_lt_upper_bound; nia]).
  split; [done|]. apply s32_id. unfold s32_ok. lia.
Qed.

Lemma block_group d : first_dblock fs <= d < e2fs_bcount (m_e2fs fs) ->
  group (dtog fs d) /\ s32 (dtog fs d) = dtog fs d /\ 0 <= dtogd fs d < sb_fpg fs /\
  dtog fs d * sb_fpg fs + first_dblock fs + dtogd fs d = d.
Proof.
  intros Hd. pose proof Hg as []. pose proof (dtogd_range fs d Hg ltac:(lia)) as Hr. unfold dtog, dtogd, group in *.
  fold (first_dblock fs) in *. rewrite gr_bpg, crem_nonneg in * by lia. rewrite cdiv_nonneg by lia.
  pose proof (Z.div_mod (d - first_dblock fs) (sb_fpg fs) ltac:(lia)).
  assert (0 <= (d - first_dblock fs) / sb_fpg fs < m_gcount fs)
    by (split; [apply Z.div_pos; lia|apply Z.div_lt_upper_bound; nia]).
  split; [done|]. split; [apply s32_id; unfold s32_ok; lia|]. split; [done|lia].
Qed.

(** A preferred block is inside the volume's blocks, or absent. *)
Definition pref_valid (bpref : Z) : Prop := bpref = 0 \/ first_dblock fs <= bpref.

Definition alloc_found (w : world) (r : Z) (w' : world) : Prop :=
  vol_ok w' /\ w_bufs w' = w_bufs w /\ w_inodes w' = w_inodes w /\ w_locked w' = false /\
  exists w1, vol_ok w1 /\ reach w w1 /\ found_block (m_bsize fs) r w1 w'.

(** Every group was tried and gave nothing. *)
Definition all_missed (w w' : world) : Prop := forall cg, group cg -> missed_block cg w w'.

Lemma hashalloc_alloccg w ip cg pref :
  vol_ok w -> w_locked w = true -> bitmaps_free w -> group cg -> bpref_ok fs pref ->
  wp (ext2_hashalloc fs (ext2_alloccg fs MAXPHYS) ip (m_bsize fs) cg pref)
     (fun r w' => (r = 0 /\ vol_ok w' /\ w_bufs w' = w_bufs w /\ w_inodes w' = w_inodes w /\ w_locked w' = true /\
                     reach w w' /\ all_missed w w') \/
                  (r <> 0 /\ alloc_found w r w')) w.
Proof.
  intros Hv Hlk Hfree Hc Hp.
  eapply wp_mono.
  - apply (hashalloc_spec (ext2_alloccg fs MAXPHYS) ip (m_bsize fs) (bpref_ok fs)
      (fun w' => vol_ok w' /\ w_bufs w' = w_bufs w /\ w_inodes w' = w_inodes w /\ w_locked w' = true /\ reach w w')
      (fun cg w' => missed_block cg w w') (alloc_found w)); try done; [by left|].
    intros cg' pref' w1 (Hv1 & Hb1 & Hi1 & Hl1 & Hr1) Hc' Hp'.
    eapply wp_mono; [apply (alloccg_spec ip cg' pref' (m_bsize fs) w1); try done|].
    { intros c Hgc. rewrite Hb1. by apply Hfree. }
    intros r w2 (Hv2 & Hb2 & Hi2 & [(-> & Hl2 & Hr2 & Hm2)|(Hr & Hl2 & w3 & Hv3 & Hr3 & Hf)]).
    + left. split; [done|]. split; [split_and!; try done; try congruence; by etrans|].
      split; [by eapply missed_mono|]. intros c Hm. eapply missed_mono; [|exact Hm|exact Hr2]. reflexivity.
    + right. split; [done|]. split_and!; try done; try congruence. exists w3. split; [done|]. split; [by etrans|done].
  - intros r w' [(-> & (H1 & H2 & H3 & H4 & H5) & Hall & _)|[Hr Hf]]; [left|right]; by split_and!.
Qed.

(** The in-core inode after a block was added to it. *)
Definition inode_grown (lbn b : Z) (i i' : inode) : Prop :=
  i_blocks i' = u64 (i_blocks i + m_bsize fs / 512) /\ i_next_alloc_block i' = u32 lbn /\
  i_next_alloc_goal i' = u32 b /\ i_flag i' = Z.lor (i_flag i) (Z.lor IN_CHANGE IN_UPDATE) /\
  i_size i' = i_size i /\ i_db i' = i_db i /\ i_ib i' = i_ib i.

(** What [ext2_alloc] turns down before it looks: a whole block of a full
    volume, and the reserve of the superuser. *)
Definition refused (w : world) (size uid : Z) : Prop :=
  (size = m_bsize fs /\ w_fbcount w = 0) \/ (uid <> 0 /\ w_fbcount w < e2fs_rbcount (m_e2fs fs)).

(** The outcome of [ext2_alloc]. *)
Lemma ext2_alloc_wp w ip lbn bpref size uid i :
  vol_ok w -> w_locked w = true -> bitmaps_free w ->
  w_inodes w !! ip = Some i -> 1 <= ip <= m_gcount fs * sb_ipg fs -> u64_ok ip ->
  pref_valid bpref -> e2fs_bcount (m_e2fs fs) <= 2 ^ 31 ->
  wp (ext2_alloc fs MAXPHYS ip lbn bpref size uid) (fun eb w' =>
    vol_ok w' /\ w_locked w' = false /\ w_bufs w' = w_bufs w /\
    ((eb = (ENOSPC, 0) /\ w_inodes w' = w_inodes w /\ reach w w' /\ (refused w size uid \/ all_missed w w')) \/
     (exists b w1 i', eb = (0, b) /\ ~ refused w size uid /\ vol_ok w1 /\ reach w w1 /\
        found_block (m_bsize fs) b w1 w' /\
        w_inodes w' = <[ip := i']> (w_inodes w) /\ inode_grown lbn b i i'))) w.
Proof.
  intros Hv Hlk Hfree Hin Hip Hiu Hp Hmax. pose proof Hg as []. unfold ext2_alloc.
  assert (forall Q : Z * Z -> world -> Prop,
    (forall w', w' = upd_w_locked (fun _ => false) w -> reach w w' -> Q (ENOSPC, 0) w') ->
    wp (EXT2_UNLOCK;; mret (ENOSPC, 0)) Q w) as Hno.
  { intros Q HQ. apply wp_bind, wp_unlock; [done|]. apply wp_ret, HQ; [done|]. by apply reach_same. }
  wp_steps. apply wp_assert_owned; [done|]. wp_steps.
  destruct ((size =? m_bsize fs) && (w_fbcount w =? 0)) eqn:E1.
  { assert (refused w size uid) as Href by (unfold refused; lia). apply Hno. intros w' -> Hre. by auto 10. }
  destruct (negb (uid =? 0) && (w_fbcount w <? e2fs_rbcount (m_e2fs fs))) eqn:E2.
  { assert (refused w size uid) as Href by (unfold refused; lia). apply Hno. intros w' -> Hre. by auto 10. }
  assert (~ refused w size uid) as Href by (unfold refused; lia). clear Hno E1 E2.
  set (bp := if bpref >=? _ then 0 else bpref).
  assert (bp = 0 \/ first_dblock fs <= bp < e2fs_bcount (m_e2fs fs)) as Hbp.
  { subst bp. destruct (Z.geb_spec bpref (e2fs_bcount (m_e2fs fs))); [by left|]. destruct Hp; [by left|right; lia]. }
  clearbody bp.
  set (cg := if bp =? 0 then _ else _).
  assert (group cg /\ s32 cg = cg) as [Hc ->].
  { subst cg. destruct (Z.eqb_spec bp 0); [by apply ino_group|]. destruct Hbp as [|Hbp]; [done|].
    destruct (block_group bp Hbp) as (? & ? & _). done. }
  apply wp_bind. eapply wp_mono; [apply hashalloc_alloccg; try done|].
  { destruct Hbp; [by left|right; lia]. }
  intros r w' [(-> & Hv' & Hb' & Hi' & Hl' & Hre & Hall)|(Hr & Hv' & Hb' & Hi' & Hl' & w1 & Hv1 & Hre & Hf)]; cbn beta.
  - change (s32 0 >? 0) with false. cbn [negb]. wp_steps. apply wp_unlock; [done|]. wp_steps.
    split_and!; [done..|]. left. by auto.
  - pose proof Hf as (cg1 & bno & _ & _ & _ & Hrr & _). rewrite s32_id by (unfold s32_ok; lia).
    rewrite (proj2 (Z.gtb_lt r 0)) by lia. wp_steps.
    unfold wp, upd_inode. rewrite Hi', Hin. cbn [mbind M_bind]. apply wp_ret.
    split; [done|]. split; [done|]. split; [done|]. right. eexists r, w1, _.
    split; [done|]. split; [done|]. split; [done|]. split; [done|]. split; [done|]. split; [cbn; by rewrite Hi'|]. by split_and!.
Qed.

(** C19: called with the mount lock held, [ext2_alloc] returns on every device
    and under every interference with the lock released and the volume
    consistent. It gives ENOSPC, with the inode and everything shared left to
    the other threads, only when the volume is full, when the reserve of the
    superuser is asked for by someone else, or when every group was tried and
    each one's bitmap could not be read or had no free block at some moment of
    the call. Otherwise it gives a block of the volume that is free in the world
    the other threads led to from this one, and a single step takes exactly it
    out of its group's bitmap and counts; the block is added to the inode's
    block count. *)
Theorem ext2_alloc_spec w ip lbn bpref size uid i :
  vol_ok w -> w_locked w = true -> bitmaps_free w ->
  w_inodes w !! ip = Some i -> 1 <= ip <= m_gcount fs * sb_ipg fs -> u64_ok ip ->
  pref_valid bpref -> e2fs_bcount (m_e2fs fs) <= 2 ^ 31 ->
  wp (ext2_alloc fs MAXPHYS ip lbn bpref size uid) (fun eb w' =>
    vol_ok w' /\ w_locked w' = false /\ w_bufs w' = w_bufs w /\
    ((eb = (ENOSPC, 0) /\ w_inodes w' = w_inodes w /\ reach w w' /\ (refused w size uid \/ all_missed w w')) \/
     (exists b w1 i', eb = (0, b) /\ ~ refused w size uid /\ vol_ok w1 /\ reach w w1 /\
        found_block (m_bsize fs) b w1 w' /\
        w_inodes w' = <[ip := i']> (w_inodes w) /\ inode_grown lbn b i i'))) w.
Proof. intros. by apply ext2_alloc_wp. Qed.

(** ** Giving back *)

(** [wp_bread] with the block's bit known to be set. *)
Lemma wp_bread_owned (Q : Z -> world -> Prop) w b j :
  vol_ok w -> w_bufs w !! b = None -> bit_set_on_dev w b j -> env_keeps b j ->
  (forall w1, vol_ok w1 -> exists d, w_dev w1 !! b = Some d /\ zlen d = m_bsize fs) ->
  (forall w1 e, vol_ok w1 -> rely w w1 -> reach w w1 -> e <> 0 -> bit_set_on_dev w1 b j ->
     ke_read_error (w_tick w) b = Some e -> Q e (upd_w_bufs (insert b []) (upd_w_tick S w1))) ->
  (forall w1 d, vol_ok w1 -> rely w w1 -> reach w w1 -> b ∉ w_others w1 -> w_dev w1 !! b = Some d -> bit d j = true ->
     Q 0 (upd_w_bufs (insert b d) (upd_w_tick S w1))) ->
  wp (buf_meta_bread b (m_bsize fs)) Q w.
Proof.
  intros Hv Hb (bs & Hbs & Hbit) Hk Hd Herr Hok. unfold wp, buf_meta_bread. rewrite Hb. cbv zeta.
  destruct (eo_wait He (w_tick w) b w Hv) as (Hv1 & Hr1 & Ho1). pose proof (reach_wait (w_tick w) b w Hv) as Hre1.
  destruct (Hd _ Hv1) as (d & Hd1 & Hlen).
  pose proof (Hk (w_tick w) b w bs d Hv Hbs Hbit Hd1) as Hbit1.
  destruct (ke_read_error (w_tick w) b) as [e|] eqn:Ee.
  - apply Herr; [done|done|done|by eapply (eo_errno He)|by exists d|done].
  - cbn [w_dev upd_w_tick]. rewrite Hd1, Hlen, Z.eqb_refl. by apply Hok.
Qed.

(** The buffer of a block that could not be read is released. *)
Lemma read_failed_here w w1 w' b e :
  reach w w1 -> w_tick w1 = w_tick w -> ke_read_error (w_tick w) b = Some e ->
  shared_of w' = shared_of w1 -> w_tick w' = S (w_tick w1) -> reach w w' /\ read_failed b w w'.
Proof.
  intros H1 Ht He' Hs Ht'. split; [apply (reach_own _ _ _ H1 Hs); lia|]. exists (w_tick w), e. split; [lia|done].
Qed.

Lemma ext2_blkfree_wp w ip bno size :
  vol_ok w -> w_locked w = false -> bitmaps_free w ->
  (e2fs_bcount (m_e2fs fs) <= u32 bno -> ext2_blkfree fs MAXPHYS ip bno size w = Ok (tt, w)) /\
  (first_dblock fs <= bno < e2fs_bcount (m_e2fs fs) -> 0 < bno -> u32_ok bno ->
   let cg := dtog fs bno in let j := dtogd fs bno in
   bit_set_on_dev w (bdev cg) j -> env_keeps (bdev cg) j ->
   wp (ext2_blkfree fs MAXPHYS ip bno size) (fun _ w' =>
     vol_ok w' /\ w_locked w' = false /\ w_bufs w' = w_bufs w /\ w_inodes w' = w_inodes w /\
     ((bit_set_on_dev w' (bdev cg) j /\ reach w w' /\ read_failed (bdev cg) w w') \/
      exists w1, vol_ok w1 /\ reach w w1 /\ committed_block cg j false w1 w')) w).
Proof.
  intros Hv Hlk Hfree. split.
  { intros Hge. unfold ext2_blkfree. rewrite (proj2 (Z.geb_le (u32 bno) _)) by lia. done. }
  intros Hb Hpos Hu cg j Hset Hkeep. pose proof Hg as [].
  destruct (block_group bno Hb) as (Hc & Hs32 & Hj & Hsum).
  unfold ext2_blkfree. rewrite Hs32, u32_id by done. fold cg j in Hc, Hj, Hsum |- *.
  destruct (Z.geb_spec bno (e2fs_bcount (m_e2fs fs))); [lia|].
  destruct (gd_group _ _ (vi_gds _ _ _ _ _ _ _ _ _ Hv) Hc) as [gd Hgd].
  destruct (vi_gd _ _ _ _ _ _ _ _ _ Hv cg gd Hgd) as (HB & _).
  destruct (Hfree cg Hc) as [Hbfree _].
  wp_steps. eapply wp_GD; [done|]. rewrite HB. fold (bdev cg). cbv zeta.
  wp_steps. apply (wp_bread_owned _ _ _ j); [done|done|done|done|intros; by apply bmap_readable| |].
  - intros w1 e Hv1 Hr1 Hre1 Hne Hst Hrd. rewrite (proj2 (Z.eqb_neq e 0)) by done. cbn [negb].
    pose proof (re_bufs _ _ Hr1) as Hbufs1.
    eapply wp_brelse; [apply lookup_insert_eq|].
    assert (delete (bdev cg) (<[bdev cg := []]> (w_bufs w1)) = w_bufs w1) as Heq
      by (apply insert_delete_id; by rewrite Hbufs1).
    split; [unfold vol_ok; cbn; by rewrite Heq|]. split; [by rewrite <- Hlk, <- (re_locked _ _ Hr1)|].
    split; [cbn; by rewrite Heq|]. split; [by rewrite <- (re_inodes _ _ Hr1)|]. left. split; [done|].
    eapply (read_failed_here w w1); [done|apply (re_tick _ _ Hr1)|done|done|done].
  - intros w1 d Hv1 Hr1 Hre1 Ho Hd Hbit. cbn [Z.eqb negb].
    pose proof (re_bufs _ _ Hr1) as Hbufs1.
    destruct (gd_group _ _ (vi_gds _ _ _ _ _ _ _ _ _ Hv1) Hc) as [gd1 Hgd1].
    pose proof (held_bmap _ _ _ Hc Hv1 Hd) as Hbm. pose proof Hbm as [].
    wp_steps. eapply wp_dataptr; [apply lookup_insert_eq|]. wp_steps.
    eapply wp_lift; [apply isclr_ok; lia|]. rewrite Hbit. cbn [negb].
    destruct (clrbit_ok d j) as (bs' & Hclr & _); [lia|].
    wp_steps. eapply wp_lift; [done|]. wp_steps. eapply wp_store; [apply lookup_insert_eq|].
    eapply (wp_commit_block _ _ _ cg gd1 d bs' j false (w_bufs w)); try done.
    + unfold vol_ok. cbn. rewrite insert_insert_eq. by apply vol_inv_hold.
    + by rewrite <- Hlk, <- (re_locked _ _ Hr1).
    + cbn. by rewrite insert_insert_eq, Hbufs1.
    + eapply vi_bcount; try done. by rewrite Hbufs1.
    + apply clrbit_changed; done || lia.
    + intros _. rewrite Hsum. unfold fixed_block. lia.
    + intros w2 w' Hv2 Hv' Hb' Hi' Hlk' Hcom Hre2. wp_steps.
      split; [done|]. split; [done|]. split; [done|].
      split; [by rewrite Hi', <- (re_inodes _ _ Hr1)|]. right. exists w2. split; [done|]. split; [|done].
      transitivity w1; [done|]. apply (reach_held _ _ _ Hre2); [done|cbn; lia].
Qed.

(** C21: freeing an allocated block of the volume never panics, whatever other
    threads do to other blocks: in the world they led to from this one the
    block's bit is cleared and the counts grow, in one step. Only when the read
    of the bitmap fails during the call does the block stay allocated, with
    nothing shared changed by this thread. A block number past the end of the
    volume changes nothing. *)
Theorem ext2_blkfree_spec w ip bno size :
  vol_ok w -> w_locked w = false -> bitmaps_free w ->
  (e2fs_bcount (m_e2fs fs) <= u32 bno -> ext2_blkfree fs MAXPHYS ip bno size w = Ok (tt, w)) /\
  (first_dblock fs <= bno < e2fs_bcount (m_e2fs fs) -> 0 < bno -> u32_ok bno ->
   let cg := dtog fs bno in let j := dtogd fs bno in
   bit_set_on_dev w (bdev cg) j -> env_keeps (bdev cg) j ->
   wp (ext2_blkfree fs MAXPHYS ip bno size) (fun _ w' =>
     vol_ok w' /\ w_locked w' = false /\ w_bufs w' = w_bufs w /\ w_inodes w' = w_inodes w /\
     ((bit_set_on_dev w' (bdev cg) j /\ reach w w' /\ read_failed (bdev cg) w w') \/
      exists w1, vol_ok w1 /\ reach w w1 /\ committed_block cg j false w1 w')) w).
Proof. apply ext2_blkfree_wp. Qed.

(** The end of [ext2_vfree], under the lock. *)
Lemma vfree_finish (w w2 : world) cg i mode gd2 d bs' :
  vol_ok w2 -> group cg -> 0 <= i < sb_ipg fs ->
  w_bufs w2 = <[idev cg := bs']> (w_bufs w) -> w_bufs w !! idev cg = None ->
  w_gd w2 !z cg = Some gd2 -> w_dev w2 !! idev cg = Some d ->
  ext2bgd_nifree gd2 = count_clear d (Z.to_nat (sb_ipg fs)) -> bit_changed d bs' i false ->
  w_inodes w2 = w_inodes w -> reach w w2 ->
  wp (modify (upd_w_ficount (fun c => u32 (c + 1)));;
      upd_GD cg (upd_ext2bgd_nifree (fun c => u16 (c + 1)));;
      (if is_dir mode then
         upd_GD cg (upd_ext2bgd_ndirs (fun c => u16 (c - 1)));;
         modify (upd_w_total_dir (fun c => u32 (c - 1)))
       else mret tt);;
      modify (upd_w_fmod (fun _ => 1));;
      EXT2_UNLOCK;;
      buf_bdwrite (idev cg);;
      mret 0) (fun r w' =>
      r = 0 /\ vol_ok w' /\ w_bufs w' = w_bufs w /\ w_inodes w' = w_inodes w /\ w_locked w' = false /\
      exists w1, vol_ok w1 /\ reach w w1 /\ committed_inode cg i false (if is_dir mode then -1 else 0) w1 w')
    (upd_w_tick S (upd_w_locked (fun _ => true) w2)).
Proof.
  intros Hv Hc Hi Hbufs Hb0 Hgd Hd Hcnt Hch Hin Hre.
  pose proof (zlookup_Some_inv _ _ _ Hgd) as [Hcr _].
  set (gd' := upd_ext2bgd_nifree (fun c => u16 (c + 1)) gd2).
  set (Qf := fun (r : Z) (w' : world) => r = 0 /\ vol_ok w' /\ _).
  assert (forall w' gd'' dd, dd = (if is_dir mode then -1 else 0) ->
    gd_inode_changed gd2 gd'' false ->
    (dd = 0 -> ext2bgd_ndirs gd'' = ext2bgd_ndirs gd2) ->
    (dd <> 0 -> ext2bgd_ndirs gd'' = u16 (ext2bgd_ndirs gd2 + dd)) ->
    w_fbcount w' = w_fbcount w2 -> w_ficount w' = u32 (w_ficount w2 + 1) ->
    w_gd w' = zinsert cg gd'' (w_gd w2) -> w_contigdirs w' = w_contigdirs w2 ->
    w_maxcluster w' = w_maxcluster w2 -> w_clustersum w' = w_clustersum w2 ->
    w_dev w' = w_dev w2 -> w_bufs w' = w_bufs w2 -> w_others w' = w_others w2 -> w_inodes w' = w_inodes w2 ->
    w_locked w' = true ->
    wp (modify (upd_w_fmod (fun _ => 1));; EXT2_UNLOCK;; buf_bdwrite (idev cg);; mret 0) Qf w') as Hend.
  { intros w' gd'' dd -> Hgc Hd0 Hd1 E1 E2 E3 E4 E5 E6 E7 E8 E9 E10 E11.
    wp_steps. apply wp_unlock; [done|]. wp_steps. eapply wp_bdwrite; [cbn; by rewrite E8, Hbufs, lookup_insert_eq|].
    wp_steps. unfold Qf. split; [done|]. split; [|split; [|split; [by cbn; rewrite E10|split; [done|]]]].
    - unfold vol_ok. cbn. rewrite E1, E2, E3, E4, E5, E6, E7, E8, E9.
      by eapply (commit_inode _ _ _ _ _ _ _ _ _ cg gd2 gd'' d bs' i false).
    - cbn. rewrite E8, Hbufs. by apply insert_delete_id.
    - exists w2. split; [done|]. split; [done|]. destruct Hch as (_ & _ & Hbb & Hj), Hgc as (_ & _ & Hnb & Hni).
      exists gd2, d, bs'. cbn. rewrite E1, E2, E3, E7. split_and!; try done. by exists gd''. }
  apply wp_bind, wp_modify. apply wp_bind. eapply wp_upd_GD; [done|].
  destruct (is_dir mode) eqn:Edir.
  - apply wp_bind, wp_bind. eapply wp_upd_GD; [cbn; by apply zlookup_zinsert_eq|]. apply wp_modify.
    eapply (Hend _ (upd_ext2bgd_ndirs (fun c => u16 (c - 1)) gd') (-1)); try done.
    cbn. unfold zinsert. by rewrite list_insert_insert_eq.
  - apply wp_bind, wp_ret. eapply (Hend _ gd' 0); done.
Qed.

Lemma ino_index ino : 1 <= ino <= m_gcount fs * sb_ipg fs -> u64_ok ino ->
  0 <= u64 (ino - 1) mod sb_ipg fs < sb_ipg fs /\
  ino_to_cg fs ino * sb_ipg fs + u64 (ino - 1) mod sb_ipg fs + 1 = ino.
Proof.
  intros Hi Hu. pose proof Hg as []. unfold ino_to_cg. rewrite gr_m_ipg.
  assert (u64 (ino - 1) = ino - 1) as -> by (unfold u64, u64_ok in *; apply Z.mod_small; lia).
  pose proof (Z.mod_pos_bound (ino - 1) (sb_ipg fs) ltac:(lia)).
  pose proof (Z.div_mod (ino - 1) (sb_ipg fs) ltac:(lia)). lia.
Qed.

Lemma ext2_vfree_wp w ino mode :
  vol_ok w -> w_locked w = false -> bitmaps_free w -> m_gcount fs * sb_ipg fs < 2 ^ 32 ->
  (m_gcount fs * sb_ipg fs < u32 ino -> ext2_vfree fs false ino mode w = Fault (Panic "ext2_vfree: range")) /\
  (1 <= ino <= m_gcount fs * sb_ipg fs ->
   let cg := ino_to_cg fs ino in let i := u64 (ino - 1) mod sb_ipg fs in
   bit_set_on_dev w (idev cg) i -> env_keeps (idev cg) i ->
   wp (ext2_vfree fs false ino mode) (fun r w' =>
     r = 0 /\ vol_ok w' /\ w_locked w' = false /\ w_bufs w' = w_bufs w /\ w_inodes w' = w_inodes w /\
     ((bit_set_on_dev w' (idev cg) i /\ reach w w' /\ read_failed (idev cg) w w') \/
      exists w1, vol_ok w1 /\ reach w w1 /\ committed_inode cg i false (if is_dir mode then -1 else 0) w1 w')) w).
Proof.
  intros Hv Hlk Hfree Hmax. pose proof Hg as [].
  assert (u32 (m_ipg fs * m_gcount fs) = m_gcount fs * sb_ipg fs) as Hn
    by (rewrite gr_m_ipg, u32_id; [lia|unfold u32_ok; nia]).
  split.
  { intros Hgt. unfold ext2_vfree. rewrite Hn, (proj2 (Z.gtb_lt (u32 ino) _)) by lia. done. }
  intros Hi cg i Hset Hkeep. assert (u64_ok ino) as Hu64 by (unfold u64_ok; lia).
  destruct (ino_group ino Hi Hu64) as [Hc Hs32]. destruct (ino_index ino Hi Hu64) as [Hir _].
  unfold ext2_vfree. rewrite Hn, Hs32, u32_id by (unfold u32_ok; lia). fold cg i in Hc, Hir |- *.
  destruct (Z.gtb_spec ino (m_gcount fs * sb_ipg fs)); [lia|].
  destruct (gd_group _ _ (vi_gds _ _ _ _ _ _ _ _ _ Hv) Hc) as [gd Hgd].
  destruct (vi_gd _ _ _ _ _ _ _ _ _ Hv cg gd Hgd) as (_ & HI & _).
  destruct (Hfree cg Hc) as [_ Hbfree].
  wp_steps. eapply wp_GD; [done|]. rewrite HI. fold (idev cg). cbv zeta.
  wp_steps. apply (wp_bread_owned _ _ _ i); [done|done|done|done|intros; by apply imap_readable| |].
  - intros w1 e Hv1 Hr1 Hre1 Hne Hst Hrd. rewrite (proj2 (Z.eqb_neq e 0)) by done. cbn [negb].
    pose proof (re_bufs _ _ Hr1) as Hbufs1.
    wp_steps. eapply wp_brelse; [apply lookup_insert_eq|].
    assert (delete (idev cg) (<[idev cg := []]> (w_bufs w1)) = w_bufs w1) as Heq
      by (apply insert_delete_id; by rewrite Hbufs1).
    wp_steps. split; [done|]. split; [unfold vol_ok; cbn; by rewrite Heq|].
    split; [by rewrite <- Hlk, <- (re_locked _ _ Hr1)|].
    split; [cbn; by rewrite Heq|]. split; [by rewrite <- (re_inodes _ _ Hr1)|]. left. split; [done|].
    eapply (read_failed_here w w1); [done|apply (re_tick _ _ Hr1)|done|done|done].
  - intros w1 d Hv1 Hr1 Hre1 Ho Hd Hbit. cbn [Z.eqb negb].
    pose proof (re_bufs _ _ Hr1) as Hbufs1.
    destruct (gd_group _ _ (vi_gds _ _ _ _ _ _ _ _ _ Hv1) Hc) as [gd1 Hgd1].
    pose proof (held_imap _ _ _ Hc Hv1 Hd) as [].
    wp_steps. eapply wp_dataptr; [apply lookup_insert_eq|]. wp_steps.
    eapply wp_lift; [apply isclr_ok; lia|]. rewrite Hbit. cbn [negb andb].
    destruct (clrbit_ok d i) as (bs' & Hclr & _); [lia|].
    wp_steps. eapply wp_lift; [done|]. wp_steps. eapply wp_store; [apply lookup_insert_eq|].
    wp_steps. eapply (wp_lock_inode _ _ cg gd1 d bs' (w_bufs w)); [| | |done|done|].
    { unfold vol_ok. cbn. rewrite insert_insert_eq. by apply vol_inv_hold. }
    { by rewrite <- Hlk, <- (re_locked _ _ Hr1). }
    { cbn. by rewrite insert_insert_eq, Hbufs1. }
    intros w2 gd2 Hv2 Hb2 Hi2 Hgd2 Hnif Hd2 Hre2. cbn in Hi2. rewrite (re_inodes _ _ Hr1) in Hi2.
    assert (reach w w2) as Hre by (transitivity w1; [exact Hre1|]; apply (reach_held _ _ _ Hre2); [done|cbn; lia]).
    eapply wp_mono.
    + apply (vfree_finish w w2 cg i mode gd2 d bs'); try done.
      * rewrite Hnif. eapply (vi_icount _ _ _ _ _ _ _ _ _ Hv1); try done. by rewrite Hbufs1.
      * apply clrbit_changed; done || lia.
    + intros r w' (-> & ? & ? & ? & ? & ?). split_and!; try done. by right.
Qed.

(** Freeing an allocated inode of a read-write volume never panics: its bit
    is cleared and the counts of free inodes and, for a directory, of
    directories are updated in one step, or, when the bitmap cannot be read,
    nothing changes; a number past the last inode does panic. *)
Theorem ext2_vfree_spec w ino mode :
  vol_ok w -> w_locked w = false -> bitmaps_free w -> m_gcount fs * sb_ipg fs < 2 ^ 32 ->
  (m_gcount fs * sb_ipg fs < u32 ino -> ext2_vfree fs false ino mode w = Fault (Panic "ext2_vfree: range")) /\
  (1 <= ino <= m_gcount fs * sb_ipg fs ->
   let cg := ino_to_cg fs ino in let i := u64 (ino - 1) mod sb_ipg fs in
   bit_set_on_dev w (idev cg) i -> env_keeps (idev cg) i ->
   wp (ext2_vfree fs false ino mode) (fun r w' =>
     r = 0 /\ vol_ok w' /\ w_locked w' = false /\ w_bufs w' = w_bufs w /\ w_inodes w' = w_inodes w /\
     ((bit_set_on_dev w' (idev cg) i /\ reach w w' /\ read_failed (idev cg) w w') \/
      exists w1, vol_ok w1 /\ reach w w1 /\ committed_inode cg i false (if is_dir mode then -1 else 0) w1 w')) w).
Proof. apply ext2_vfree_wp. Qed.

End spec.
