(* ===== verification/ClusterAlloc.v ===== *)
(** Allocation of a run of blocks: [ext2_clusteralloc] of ext2_alloc.c. The
    summary of the group says whether there is a run that is long enough; the
    bitmap is searched for it and its blocks are taken one by one under the
    mount lock. *)
From stdpp Require Import gmap.
From S2P Require Import Prelude Bitmap Bytes Super Kernel Cluster Alloc AllocSpec.

Section clusteralloc.
Context `{KE : KernelEnv} (fs : m_ext2fs) (MAXPHYS : Z).

(** [cs_sum[i]], [n] entries from [i] on: where the first positive one is. *)
Fixpoint larger_cluster (sump : list Z) (n : nat) (i : Z) : res Z :=
  match n with
  | O => mret i
  | S n' => v ← access (sump !z i); if v >? 0 then mret i else larger_cluster sump n' (i + 1)
  end.

(** The largest run there is, below [len]: the new [e2fs_maxcluster]. *)
Definition smaller_cluster (sump : list Z) (len : Z) : res Z :=
  if len - 1 >? 0 then max_loop sump (Z.to_nat (len - 1)) else mret (len - 1).

(** The search of the bitmap, [n] positions from [got]: where the loop stops and
    how many free blocks in a row end there. *)
Fixpoint find_run (bbp : list Z) (len : Z) (n : nat) (got loc bt run : Z) : res (Z * Z) :=
  match n with
  | O => mret (got, run)
  | S n' =>
      b ← byte_at bbp loc;
      let run := if negb (Z.land b bt =? 0) then 0 else run + 1 in
      if (Z.land b bt =? 0) && (run =? len) then mret (got, run)
      else let '(loc', bt') := next_pos got loc bt in find_run bbp len n' (got + 1) loc' bt' run
  end.

(** Where the search starts: at the preferred block, if it is of the group. *)
Definition cluster_start (cg bpref : Z) : Z :=
  let bpref := if negb (dtog fs bpref =? cg) then 0 else bpref in
  if negb (bpref =? 0) then dtogd fs bpref else bpref.

Definition cluster_search (bbp : list Z) (cg bpref len : Z) : res (Z * Z) :=
  let bpref := cluster_start cg bpref in
  find_run bbp len (Z.to_nat (sb_fpg fs - bpref)) bpref (cdiv bpref NBBY)
    (Z.shiftl 1 (crem bpref NBBY)) 0.

(** The loop that makes sure the blocks are free, [n] of them from [i] on. *)
Fixpoint check_map (bbp : list Z) (n : nat) (i : Z) : res unit :=
  match n with
  | O => mret tt
  | S n' =>
      c ← isclr bbp i;
      if (c : bool) then check_map bbp n' (i + 1) else Fault (Panic "ext2_clusteralloc: map mismatch")
  end.

(** The loop that takes them; [len] rounds are enough as [e2fs_fpb] is positive. *)
Fixpoint take_blocks (bp cg bno len : Z) (n : nat) (i : Z) : M world unit :=
  if i <? len then
    match n with
    | O => lift (Fault NoFuel)
    | S n' =>
        bbp ← buf_dataptr bp;
        bbp ← lift (setbit bbp (bno + i));
        buf_store bp bbp;;
        ext2_clusteracct fs MAXPHYS bbp cg (bno + i) (-1);;
        modify (upd_w_fbcount (fun c => u32 (c - 1)));;
        upd_GD cg (upd_ext2bgd_nbfree (fun c => u16 (c - 1)));;
        take_blocks bp cg bno len n' (i + m_fpb fs)
    end
  else mret tt.

(** [ext2_clusteralloc]: as [ext2_alloccg], for [len] blocks. *)
Definition ext2_clusteralloc (ip cg bpref len : Z) : M world Z :=
  mcl ← gets w_maxcluster;
  m ← lift (access (mcl !z cg));
  if m <? len then mret 0 else
  EXT2_UNLOCK;;
  gd ← GD cg;
  let bp := fsbtodb fs (ext2bgd_b_bitmap gd) in
  error ← buf_meta_bread bp (m_bsize fs);
  if negb (error =? 0) then (EXT2_LOCK;; buf_brelse bp;; mret 0) else
  EXT2_LOCK;;
  cs ← gets w_clustersum;
  c ← lift (access (cs !z cg));
  let csz := contigsumsize fs MAXPHYS in
  i ← lift (larger_cluster (cs_sum c) (Z.to_nat (csz - len + 1)) len);
  if i >? csz then
    i ← lift (smaller_cluster (cs_sum c) len);
    modify (upd_w_maxcluster (zinsert cg i));;
    buf_brelse bp;;
    mret 0
  else
  EXT2_UNLOCK;;
  bbp ← buf_dataptr bp;
  r ← lift (cluster_search bbp cg bpref len);
  let '(got, run) := (r : Z * Z) in
  if got >=? sb_fpg fs then (EXT2_LOCK;; buf_brelse bp;; mret 0) else
  lift (check_map bbp (Z.to_nat (len - 1)) (got - run + 1));;
  let bno := got - run + 1 in
  if bno >=? sb_fpg fs then lift (Fault (Panic "ext2_clusteralloc: allocated out of group")) else
  EXT2_LOCK;;
  take_blocks bp cg bno len (Z.to_nat len) 0;;
  modify (upd_w_fmod (fun _ => 1));;
  EXT2_UNLOCK;;
  buf_bdwrite bp;;
  mret (cg * sb_fpg fs + first_dblock fs + bno).

End clusteralloc.

(** * Lemmas *)

Lemma larger_cluster_ok sump n : forall i,
  0 <= i -> i + Z.of_nat n <= zlen sump ->
  exists j, larger_cluster sump n i = Ok j /\ i <= j <= i + Z.of_nat n /\
    (j < i + Z.of_nat n -> exists v, sump !z j = Some v /\ 0 < v) /\
    (forall k v, i <= k < j -> sump !z k = Some v -> v <= 0).
Proof.
  induction n as [|n IH]; intros i Hi Hn; simpl.
  - exists i. split; [done|]. split; [lia|]. split; lia.
  - destruct (zlookup_lt sump i) as [v Hv]; [lia|]. rewrite Hv. cbn.
    destruct (v >? 0) eqn:E.
    + exists i. split; [done|]. split; [lia|]. split; [|lia]. intros _. exists v. split; [done|lia].
    + destruct (IH (i + 1)) as (j & Hj & Hr & Hp & Hz); [lia..|]. exists j. split; [done|]. split; [lia|].
      split; [intros; apply Hp; lia|]. intros k x Hk Hx.
      destruct (Z.eq_dec k i) as [->|]; [simplify_eq; lia|]. apply (Hz k); [lia|done].
Qed.

Lemma smaller_cluster_ok sump len :
  0 < len <= zlen sump -> exists m, smaller_cluster sump len = Ok m.
Proof.
  intros Hl. unfold smaller_cluster. destruct (len - 1 >? 0) eqn:E; [|eauto].
  destruct (max_loop_spec sump (Z.to_nat (len - 1))) as (m & -> & _); [lia|eauto].
Qed.

(** No [len] free blocks in a row between positions [p] and [q]. *)
Definition no_run (bbp : list Z) (p q len : Z) : Prop :=
  forall s, p <= s -> s + len <= q -> ~ clear_range bbp s (s + len).

(** The free blocks that end at [got] are [run], and no more from [p] on. *)
Definition run_at (bbp : list Z) (p got run : Z) : Prop :=
  clear_range bbp (got - run) got /\ p <= got - run /\ (got - run = p \/ bit bbp (got - run - 1) = true).

Lemma no_run_step bbp p got run len :
  0 <= run < len -> no_run bbp p got len -> run_at bbp p got run ->
  bit bbp got = true \/ run + 1 < len -> no_run bbp p (got + 1) len.
Proof.
  intros Hr Hno (_ & Hp & Hb) Hstep s Hs Hend Hc.
  destruct (decide (s + len <= got)) as [|Hlt]; [by apply (Hno s)|].
  destruct Hstep as [Hbit|Hlen]; [by rewrite (Hc got) in Hbit by lia|].
  destruct Hb as [|Hb]; [lia|]. by rewrite (Hc (got - run - 1)) in Hb by lia.
Qed.

(** What the search finds: the first [len] free blocks in a row from [p] on,
    the last one at [g]; or none. *)
Lemma find_run_spec bbp p len n : forall got loc bt run,
  0 <= run < len -> 0 <= p -> got + Z.of_nat n <= 8 * zlen bbp -> pos_at got loc bt ->
  no_run bbp p got len -> run_at bbp p got run ->
  exists g r, find_run bbp len n got loc bt run = Ok (g, r) /\ got <= g <= got + Z.of_nat n /\
    no_run bbp p g len /\
    (g < got + Z.of_nat n -> r = len /\ p + len <= g + 1 /\ clear_range bbp (g - len + 1) (g + 1)).
Proof.
  induction n as [|n IH]; intros got loc bt run Hr Hp0 Hn Hp Hno Hrun; simpl.
  - exists got, run. split; [done|]. split; [lia|]. split; [done|lia].
  - pose proof Hrun as (Hc & Hpg & Hb).
    destruct (pos_test bbp got loc bt) as (b & -> & Ht); [lia|done|]. cbn. rewrite Ht.
    assert ((Z.land b bt =? 0) = negb (bit bbp got)) as -> by (by rewrite <- Ht, negb_involutive).
    destruct (next_pos got loc bt) as [loc' bt'] eqn:En.
    assert (pos_at (got + 1) loc' bt') as Hp' by (eapply next_pos_at; [lia|done..]).
    destruct (bit bbp got) eqn:Eb; cbn [negb andb].
    + destruct (IH (got + 1) loc' bt' 0) as (g & r & Hf & Hgr & Hng & Hs);
        [lia|done|lia|done|apply (no_run_step _ _ _ run); [done..|by left]| |].
      { split; [intros k; lia|]. split; [lia|]. right. by replace (got + 1 - 0 - 1) with got by lia. }
      exists g, r. split; [done|]. split; [lia|]. split; [done|]. intros. apply Hs. lia.
    + assert (clear_range bbp (got - run) (got + 1)) as Hc'.
      { intros k Hk. destruct (Z.eq_dec k got) as [->|]; [done|]. apply Hc. lia. }
      destruct (Z.eqb_spec (run + 1) len) as [E|E].
      * exists got, (run + 1). split; [done|]. split; [lia|]. split; [done|]. intros _. split; [done|]. split; [lia|].
        intros k Hk. apply Hc'. lia.
      * destruct (IH (got + 1) loc' bt' (run + 1)) as (g & r & Hf & Hgr & Hng & Hs);
          [lia|done|lia|done|apply (no_run_step _ _ _ run); [done..|right; lia]| |].
        { unfold run_at. replace (got + 1 - (run + 1)) with (got - run) by lia. by split. }
        exists g, r. split; [done|]. split; [lia|]. split; [done|]. intros. apply Hs. lia.
Qed.

Lemma check_map_ok bbp n : forall i,
  0 <= i -> i + Z.of_nat n <= 8 * zlen bbp -> clear_range bbp i (i + Z.of_nat n) -> check_map bbp n i = Ok tt.
Proof.
  induction n as [|n IH]; intros i Hi Hn Hc; simpl; [done|].
  rewrite isclr_ok by lia. rewrite (Hc i) by lia. cbn. apply IH; [lia..|]. intros k Hk. apply Hc. lia.
Qed.

Lemma cluster_start_range fs cg bpref : group_ok fs -> bpref_ok fs bpref -> 0 <= cluster_start fs cg bpref < sb_fpg fs.
Proof.
  intros Hg Hp. pose proof Hg as []. unfold cluster_start.
  destruct (Z.eqb_spec (dtog fs bpref) cg); cbn [negb]; [|cbn; lia].
  destruct (Z.eqb_spec bpref 0); cbn [negb]; [lia|]. destruct Hp as [|Hp]; [done|]. by apply dtogd_range.
Qed.

Lemma cluster_search_ok fs bbp cg bpref len :
  group_ok fs -> zlen bbp = m_bsize fs -> bpref_ok fs bpref -> 0 < len ->
  let p := cluster_start fs cg bpref in
  exists got r, cluster_search fs bbp cg bpref len = Ok (got, r) /\ p <= got <= sb_fpg fs /\ no_run bbp p got len /\
    (got < sb_fpg fs -> r = len /\ p + len <= got + 1 /\ clear_range bbp (got - len + 1) (got + 1)).
Proof.
  intros Hg Hz Hp Hl p. pose proof Hg as []. unfold cluster_search. cbv zeta. fold p.
  pose proof (cluster_start_range fs cg bpref Hg Hp) as Hpr. fold p in Hpr. clearbody p.
  destruct (find_run_spec bbp p len (Z.to_nat (sb_fpg fs - p)) p (cdiv p NBBY) (Z.shiftl 1 (crem p NBBY)) 0)
    as (g & r & Hf & Hgr & Hno & Hs); [lia|lia|lia| |intros s Hs0 Hs1; lia| |].
  { rewrite cdiv_nonneg, crem_nonneg by (unfold NBBY; lia). done. }
  { split; [intros k; lia|]. split; [lia|]. left. lia. }
  exists g, r. split; [done|]. split; [lia|]. split; [done|]. intros. apply Hs. lia.
Qed.

(** * The blocks that are taken *)

Section spec.
Context `{KE : KernelEnv} (fs : m_ext2fs) (MAXPHYS : Z) (B I : Z -> Z).
Context (Hg : group_ok fs) (Hl : layout_ok fs B I) (He : env_ok fs MAXPHYS B I).

Local Notation bdev := (bdev fs B).
Local Notation vol_inv := (vol_inv fs MAXPHYS B I).
Local Notation vol_ok := (vol_ok fs MAXPHYS B I).
Local Notation reach := (reach fs MAXPHYS B I).

(** [len] blocks from [bno] on go from free to used in one step. *)
Definition committed_cluster (cg bno len : Z) (w1 w' : world) : Prop :=
  exists gd bs bs', w_gd w1 !z cg = Some gd /\ w_dev w1 !! bdev cg = Some bs /\
    clear_range bs bno (bno + len) /\
    (forall j, 0 <= j -> bit bs' j = (bno <=? j) && (j <? bno + len) || bit bs j) /\
    w_dev w' = <[bdev cg := bs']> (w_dev w1) /\
    w_gd w' = zinsert cg (upd_ext2bgd_nbfree (fun c => c - len) gd) (w_gd w1) /\
    0 <= ext2bgd_nbfree gd - len /\
    w_fbcount w' = u32 (w_fbcount w1 - len) /\ w_ficount w' = w_ficount w1 /\ w_fmod w' = 1.

(** Of a group whose bitmap is held the counts may change. *)
Lemma vol_inv_take fb fi gds cds mcl cs dev bufs others cg gd b mcl' cs' :
  vol_inv fb fi gds cds mcl cs dev bufs others -> gds !z cg = Some gd -> 0 < ext2bgd_nbfree gd ->
  zlen mcl' = m_gcount fs -> zlen cs' = m_gcount fs ->
  (forall cg c, cs' !z cg = Some c -> zlen (cs_sum c) = contigsumsize fs MAXPHYS + 1) ->
  vol_inv (u32 (fb - 1)) fi (zinsert cg (upd_ext2bgd_nbfree (fun c => u16 (c - 1)) gd) gds)
    cds mcl' cs' dev (<[bdev cg := b]> bufs) others.
Proof.
  intros [] Hgd Hpos Hm Hc1 Hc2. destruct (vi_gd cg gd Hgd) as (H1 & H2 & H3 & H4).
  assert (u16 (ext2bgd_nbfree gd - 1) = ext2bgd_nbfree gd - 1) as Hu by (apply u16_id; unfold u16_ok in *; lia).
  constructor; try done.
  - by rewrite zlen_zinsert.
  - intros cg' g Hg'. destruct (zinsert_gd_cases _ _ _ _ _ _ Hgd Hg') as [[-> ->]|[_ H']]; [|by apply (vi_gd cg')].
    split_and!; try done. cbn. rewrite Hu. unfold u16_ok in *. lia.
  - intros cg' g b0 Hg' Hb0 Ho Hbuf. destruct (zinsert_gd_cases _ _ _ _ _ _ Hgd Hg') as [[-> ->]|[Hne H']].
    + by rewrite lookup_insert_eq in Hbuf.
    + rewrite lookup_insert_ne in Hbuf; [by eapply vi_bcount|].
      intros Heq. apply (lo_b _ _ _ Hl) in Heq; [done|by eapply group_of_gd..].
  - intros cg' g b0 Hg' Hb0 Ho Hbuf. rewrite lookup_insert_None in Hbuf. destruct Hbuf as [Hbuf _].
    destruct (zinsert_gd_cases _ _ _ _ _ _ Hgd Hg') as [[-> ->]|[Hne H']]; [|by eapply vi_icount].
    cbn. by eapply vi_icount.
  - rewrite (sum_fmap_zinsert _ _ _ _ _ Hgd). rewrite vi_bsum. unfold Z.sub at 1. rewrite u32_add_l. cbn. rewrite Hu. f_equal. lia.
  - rewrite (sum_fmap_zinsert _ _ _ _ _ Hgd). rewrite vi_isum. cbn. f_equal. lia.
Qed.

(** The bitmap is written once the counts describe it. *)
Lemma vol_inv_write fb fi gds cds mcl cs dev bufs others cg gd bs :
  vol_inv fb fi gds cds mcl cs dev bufs others -> gds !z cg = Some gd -> bmap_ok fs cg bs ->
  ext2bgd_nbfree gd = count_clear bs (Z.to_nat (sb_fpg fs)) ->
  vol_inv fb fi gds cds mcl cs (<[bdev cg := bs]> dev) (delete (bdev cg) bufs) others.
Proof.
  intros [] Hgd Hbm Hcnt. pose proof (group_of_gd _ _ _ _ vi_gds Hgd) as Hgrp. constructor; try done.
  - intros cg' Hg'. destruct (Z.eq_dec cg' cg) as [->|Hne]; [rewrite lookup_insert_eq; by exists bs|].
    rewrite lookup_insert_ne; [by apply vi_bmap|]. intros Heq. apply (lo_b _ _ _ Hl) in Heq; auto.
  - intros cg' Hg'. rewrite lookup_insert_ne; [by apply vi_imap|]. by apply (lo_bi _ _ _ Hl).
  - intros cg' g b0 Hg' Hb0 Ho Hbuf. destruct (Z.eq_dec cg' cg) as [->|Hne].
    + rewrite lookup_insert_eq in Hb0. by simplify_eq.
    + assert (bdev cg <> bdev cg') by (intros Heq; apply (lo_b _ _ _ Hl) in Heq; auto; by eapply group_of_gd).
      rewrite lookup_insert_ne in Hb0 by done. rewrite lookup_delete_ne in Hbuf by done. by eapply vi_bcount.
  - intros cg' g b0 Hg' Hb0 Ho Hbuf.
    assert (bdev cg <> idev fs I cg') by (apply (lo_bi _ _ _ Hl); [done|by eapply group_of_gd]).
    rewrite lookup_insert_ne in Hb0 by done. rewrite lookup_delete_ne in Hbuf by done. by eapply vi_icount.
Qed.

(** The loop at its [k]-th round: [w1] is the volume when the lock was taken,
    with [bs] the bitmap of the group. *)
Record taken (cg bno : Z) (gd : ext2_gd) (bs : list Z) (bufs0 : gmap Z (list Z)) (w1 : world)
  (k : Z) (bs' : list Z) (w : world) : Prop := mk_taken {
  tk_vol : vol_ok w;
  tk_locked : w_locked w = true;
  tk_bufs : w_bufs w = <[bdev cg := bs']> bufs0;
  tk_dev : w_dev w = w_dev w1;
  tk_gd : w_gd w = zinsert cg (upd_ext2bgd_nbfree (fun c => c - k) gd) (w_gd w1);
  tk_fb : w_fbcount w = u32 (w_fbcount w1 - k);
  tk_fi : w_ficount w = w_ficount w1;
  tk_inodes : w_inodes w = w_inodes w1;
  tk_bmap : bmap_ok fs cg bs';
  tk_count : count_clear bs' (Z.to_nat (sb_fpg fs)) = ext2bgd_nbfree gd - k;
  tk_bits : forall j, 0 <= j -> bit bs' j = (bno <=? j) && (j <? bno + k) || bit bs j
}.

Lemma taken_clear cg bno gd bs bufs0 w1 k bs' w len :
  taken cg bno gd bs bufs0 w1 k bs' w -> clear_range bs bno (bno + len) ->
  0 <= bno -> 0 <= k < len -> bno + len <= sb_fpg fs ->
  bit bs' (bno + k) = false /\ 0 < ext2bgd_nbfree gd - k.
Proof.
  intros [] Hc Hb Hk Hlen.
  assert (bit bs' (bno + k) = false) as Hbit.
  { rewrite tk_bits0 by lia. rewrite (Hc (bno + k)) by lia.
    rewrite (proj2 (Z.ltb_ge (bno + k) (bno + k))) by lia. by rewrite andb_false_r. }
  split; [done|]. rewrite <- tk_count0. apply count_clear_0 with (j := bno + k); [lia|done].
Qed.

Lemma take_blocks_spec cg bno len gd bs bufs0 w1 n (Q : unit -> world -> Prop) :
  m_fpb fs = 1 -> group fs cg -> w_gd w1 !z cg = Some gd -> clear_range bs bno (bno + len) ->
  0 <= bno -> bno + len <= sb_fpg fs ->
  (forall bs' w', taken cg bno gd bs bufs0 w1 len bs' w' -> Q tt w') ->
  forall k bs' w, 0 <= k -> k + Z.of_nat n = len -> taken cg bno gd bs bufs0 w1 k bs' w ->
  wp (take_blocks fs MAXPHYS (bdev cg) cg bno len n k) Q w.
Proof.
  intros Hfpb Hgrp Hgd Hc Hb Hlen HQ. induction n as [|n IH]; intros k bs' w Hk Hn Ht; simpl.
  { rewrite (proj2 (Z.ltb_ge k len)) by lia. assert (k = len) as -> by lia. wp_steps. by eapply HQ. }
  rewrite (proj2 (Z.ltb_lt k len)) by lia.
  destruct (taken_clear _ _ _ _ _ _ _ _ _ len Ht Hc) as [Hbit Hpos]; [lia..|]. pose proof Hg as [].
  destruct Ht as []. pose proof tk_bmap0 as [].
  assert (zlen (w_gd w1) = m_gcount fs) as Hz by (rewrite <- (vi_gds _ _ _ _ _ _ _ _ _ _ _ _ _ tk_vol0), tk_gd0; by rewrite zlen_zinsert).
  assert (w_gd w !z cg = Some (upd_ext2bgd_nbfree (fun c => c - k) gd)) as Hgdw.
  { rewrite tk_gd0. apply zlookup_zinsert_eq. rewrite Hz. done. }
  destruct (setbit_ok bs' (bno + k)) as (b2 & Hset & Hz2 & Hb2); [lia|].
  pose proof (setbit_changed bs' (bno + k) b2 bo_bytes ltac:(lia) Hbit Hset) as Hch.
  wp_steps. eapply wp_dataptr; [rewrite tk_bufs0; apply lookup_insert_eq|].
  wp_steps. eapply wp_lift; [done|]. wp_steps. eapply wp_store; [rewrite tk_bufs0; apply lookup_insert_eq|].
  wp_steps. eapply (wp_clusteracct fs MAXPHYS B I Hg); [|done|lia|lia|].
  { unfold AllocSpec.vol_ok. cbn. by apply vol_inv_hold. }
  intros mcl cs Hm Hc1 Hc2. wp_steps. eapply wp_upd_GD; [exact Hgdw|]. rewrite Hfpb.
  apply IH with (bs' := b2); [lia|lia|].
  pose proof (vi_gd _ _ _ _ _ _ _ _ _ _ _ _ _ tk_vol0 cg _ Hgdw) as (_ & _ & Hu & _). cbn in Hu.
  constructor; try done; cbn.
  - unfold AllocSpec.vol_ok. cbn. eapply vol_inv_take; done || cbn; lia.
  - by rewrite tk_bufs0, insert_insert_eq.
  - rewrite tk_gd0. unfold zinsert. rewrite list_insert_insert_eq. f_equal. unfold upd_ext2bgd_nbfree. cbn. f_equal.
    rewrite u16_id by (unfold u16_ok in *; lia). lia.
  - rewrite tk_fb0. unfold Z.sub at 1. rewrite u32_add_l. f_equal. lia.
  - eapply bit_changed_ok; [done|exact Hch|done].
  - rewrite (bit_changed_count bs' b2 (bno + k) true (sb_fpg fs)) by (lia || done). rewrite tk_count0. cbn. lia.
  - intros j Hj. rewrite Hb2, tk_bits0 by done. destruct (Z.eqb_spec j (bno + k)) as [->|]; cbn [orb].
    + rewrite (proj2 (Z.leb_le bno (bno + k))), (proj2 (Z.ltb_lt (bno + k) (bno + (k + 1)))) by lia. done.
    + f_equal. destruct (bno <=? j); [|done]. cbn. destruct (Z.ltb_spec j (bno + k)), (Z.ltb_spec j (bno + (k + 1))); lia || done.
Qed.

(** ** The bitmap's buffer *)

(** The buffer of the group's bitmap is held with contents [d]; [bs] is on the
    device, and the count of the group is that of [bs]. *)
Record held (cg : Z) (bufs0 : gmap Z (list Z)) (d bs : list Z) (w : world) : Prop := mk_held {
  hd_vol : vol_ok w;
  hd_bufs : w_bufs w = <[bdev cg := d]> bufs0;
  hd_dev : w_dev w !! bdev cg = Some bs;
  hd_gd : exists gd, w_gd w !z cg = Some gd /\ ext2bgd_nbfree gd = count_clear bs (Z.to_nat (sb_fpg fs))
}.

Lemma wp_bread_held cg (Q : Z -> world -> Prop) w :
  vol_ok w -> group fs cg -> bitmaps_free fs B I w ->
  (forall e d bs w', (e = 0 -> d = bs) -> (e <> 0 -> read_failed (bdev cg) w w') -> held cg (w_bufs w) d bs w' ->
     w_inodes w' = w_inodes w -> w_locked w' = w_locked w -> reach w w' -> Q e w') ->
  wp (buf_meta_bread (bdev cg) (m_bsize fs)) Q w.
Proof.
  intros Hv Hc Hfree HQ. destruct (Hfree cg Hc) as [Hb _]. unfold wp, buf_meta_bread. rewrite Hb. cbv zeta.
  destruct (eo_wait _ _ _ _ He (w_tick w) (bdev cg) w Hv) as (Hv1 & Hr1 & Ho1).
  pose proof (reach_wait fs MAXPHYS B I He (w_tick w) (bdev cg) w Hv) as Hre1.
  set (w1 := ke_wait _ _ w) in *. pose proof (re_bufs _ _ _ _ _ Hr1) as Hbufs.
  destruct (gd_group _ _ _ (vi_gds _ _ _ _ _ _ _ _ _ _ _ _ _ Hv1) Hc) as [gd Hgd].
  destruct (vi_bmap _ _ _ _ _ _ _ _ _ _ _ _ _ Hv1 cg Hc) as (bs & Hbs & []).
  assert (forall d, held cg (w_bufs w) d bs (upd_w_bufs (insert (bdev cg) d) (upd_w_tick S w1))) as Hheld.
  { intros d. constructor; cbn; [unfold AllocSpec.vol_ok; cbn; by apply vol_inv_hold|by rewrite Hbufs|done|].
    exists gd. split; [done|]. eapply vi_bcount; [exact Hv1|done..|by rewrite Hbufs]. }
  pose proof (re_inodes _ _ _ _ _ Hr1). pose proof (re_locked _ _ _ _ _ Hr1).
  pose proof (re_tick _ _ _ _ _ Hr1) as Ht.
  assert (forall d, reach w (upd_w_bufs (insert (bdev cg) d) (upd_w_tick S w1))) as Hre.
  { intros d. eapply reach_own; [exact Hre1|done|cbn; lia]. }
  destruct (ke_read_error (w_tick w) (bdev cg)) as [e|] eqn:Ee.
  - cbn. apply (HQ _ [] bs); [| |apply Hheld|done|done|apply Hre]; [intros ->; by destruct (eo_errno _ _ _ _ He _ _ _ Ee)|].
    intros _. exists (w_tick w), e. split; [cbn; lia|done].
  - cbn [w_dev upd_w_tick]. rewrite Hbs, bo_len, Z.eqb_refl. by apply (HQ _ bs bs).
Qed.

Lemma wp_lock_held cg bufs0 d bs (Q : unit -> world -> Prop) w :
  held cg bufs0 d bs w -> w_locked w = false ->
  (forall w', held cg bufs0 d bs w' -> w_inodes w' = w_inodes w -> w_locked w' = true -> reach w w' -> Q tt w') ->
  wp EXT2_LOCK Q w.
Proof.
  intros [] Hlk HQ. apply (wp_lock fs MAXPHYS B I He); [done|done|]. intros w1 Hv1 Hr1 Hre1.
  assert (is_Some (w_bufs w !! bdev cg)) as Hh by (rewrite hd_bufs0, lookup_insert_eq; eauto).
  apply HQ; [|apply (re_inodes _ _ _ _ _ Hr1)|done|eapply reach_own; [exact Hre1|done|cbn; lia]]. constructor; cbn; [done|by rewrite (re_bufs _ _ _ _ _ Hr1)| |].
  - by rewrite (re_dev _ _ _ _ _ Hr1 _ Hh).
  - destruct hd_gd0 as (gd & Hgd & Hcnt). destruct (re_nbfree _ _ _ _ _ Hr1 cg gd Hh Hgd) as (gd' & H1 & H2).
    exists gd'. by rewrite H2.
Qed.

Lemma wp_brelse_held cg bufs0 d bs (Q : unit -> world -> Prop) w :
  group fs cg -> bufs0 !! bdev cg = None -> held cg bufs0 d bs w ->
  (forall w', vol_ok w' -> w_bufs w' = bufs0 -> w_inodes w' = w_inodes w -> w_locked w' = w_locked w ->
     shared_of w' = shared_of w -> w_tick w' = w_tick w -> Q tt w') ->
  wp (buf_brelse (bdev cg)) Q w.
Proof.
  intros Hc Hb0 [] HQ. eapply wp_brelse; [rewrite hd_bufs0; apply lookup_insert_eq|].
  destruct hd_gd0 as (gd & Hgd & Hcnt).
  apply HQ; [|cbn; rewrite hd_bufs0; by apply insert_delete_id|done..].
  unfold AllocSpec.vol_ok in *. cbn.
  rewrite <- (insert_id (w_dev w) (bdev cg) bs) by done. eapply vol_inv_write; [done|done| |done].
  destruct (vi_bmap _ _ _ _ _ _ _ _ _ _ _ _ _ hd_vol0 cg Hc) as (b & Hb & Hok). by simplify_eq.
Qed.

Lemma held_unlock cg bufs0 d bs w l :
  held cg bufs0 d bs w -> held cg bufs0 d bs (upd_w_locked (fun _ => l) w).
Proof. intros []. by constructor. Qed.

(** [e2fs_maxcluster] is only a hint. *)
Lemma held_maxcluster cg bufs0 d bs w i m :
  held cg bufs0 d bs w -> held cg bufs0 d bs (upd_w_maxcluster (zinsert i m) w).
Proof.
  intros []. constructor; try done. destruct hd_vol0. constructor; cbn; try done. by rewrite zlen_zinsert.
Qed.

(** From the lock to the write of the bitmap. *)
Lemma wp_commit_cluster {A} (k : M world A) (Q : A -> world -> Prop) w cg bno len bs bufs0 :
  m_fpb fs = 1 -> group fs cg -> bufs0 !! bdev cg = None -> held cg bufs0 bs bs w -> w_locked w = false ->
  clear_range bs bno (bno + len) -> 0 <= bno -> 0 < len -> bno + len <= sb_fpg fs ->
  (forall w1 w', vol_ok w1 -> vol_ok w' -> w_bufs w' = bufs0 -> w_inodes w' = w_inodes w -> w_locked w' = false ->
     reach w w1 -> w_dev w1 !! bdev cg = Some bs -> committed_cluster cg bno len w1 w' -> wp k Q w') ->
  wp (EXT2_LOCK;; take_blocks fs MAXPHYS (bdev cg) cg bno len (Z.to_nat len) 0;;
      modify (upd_w_fmod (fun _ => 1));; EXT2_UNLOCK;; buf_bdwrite (bdev cg);; k) Q w.
Proof.
  intros Hfpb Hc Hb0 Hh Hlk Hcl Hbno Hlen Hend HQ. wp_steps. eapply wp_lock_held; [done|done|].
  intros w1 [Hv1 Hbufs Hdev (gd & Hgd & Hcnt)] Hi1 Hlk1 Hre1. wp_steps.
  pose proof (vi_gd _ _ _ _ _ _ _ _ _ _ _ _ _ Hv1 cg gd Hgd) as (_ & _ & Hu & _).
  apply (take_blocks_spec cg bno len gd bs bufs0 w1) with (bs' := bs); try done; try lia.
  2:{ assert (upd_ext2bgd_nbfree (fun c => c - 0) gd = gd) as Heta.
      { destruct gd. unfold upd_ext2bgd_nbfree. cbn. by rewrite Z.sub_0_r. }
      constructor; try done.
      - rewrite Heta. unfold zinsert. apply zlookup_Some_inv in Hgd as [_ Hgd]. by rewrite list_insert_id.
      - rewrite Z.sub_0_r, (vi_bsum _ _ _ _ _ _ _ _ _ _ _ _ _ Hv1). unfold u32. by rewrite Zmod_mod.
      - destruct (vi_bmap _ _ _ _ _ _ _ _ _ _ _ _ _ Hv1 cg Hc) as (b & Hb & Hok). by simplify_eq.
      - lia.
      - intros j Hj. destruct (Z.leb_spec bno j), (Z.ltb_spec j (bno + 0)); lia || done. }
  intros bs' w2 []. assert (0 <= ext2bgd_nbfree gd - len) as Hpos.
  { rewrite <- tk_count0. apply count_clear_range. }
  wp_steps. apply wp_unlock; [done|]. wp_steps. eapply wp_bdwrite; [cbn; rewrite tk_bufs0; apply lookup_insert_eq|].
  apply (HQ w1); cbn; try done.
  - unfold AllocSpec.vol_ok. cbn.
    assert (zlen (w_gd w1) = m_gcount fs) as Hz by apply (vi_gds _ _ _ _ _ _ _ _ _ _ _ _ _ Hv1).
    eapply vol_inv_write with (gd := upd_ext2bgd_nbfree (fun c => c - len) gd); [exact tk_vol0| |done|done].
    rewrite tk_gd0. apply zlookup_zinsert_eq. by rewrite Hz.
  - rewrite tk_bufs0. by apply insert_delete_id.
  - by rewrite tk_inodes0.
  - exists gd, bs, bs'. cbn. by rewrite tk_dev0, tk_gd0, tk_fb0, tk_fi0.
Qed.

Lemma cluster_range cg bno len bs :
  group fs cg -> bmap_ok fs cg bs -> 0 <= bno -> 0 < len -> bno + len <= sb_fpg fs ->
  clear_range bs bno (bno + len) ->
  0 < cg * sb_fpg fs + first_dblock fs + bno /\
  cg * sb_fpg fs + first_dblock fs + bno + len <= e2fs_bcount (m_e2fs fs).
Proof.
  intros Hc Hb H0 Hlen Hend Hcl.
  pose proof (found_block_range fs Hg cg bno bs Hc Hb ltac:(lia) (Hcl bno ltac:(lia))).
  pose proof (found_block_range fs Hg cg (bno + len - 1) bs Hc Hb ltac:(lia) (Hcl (bno + len - 1) ltac:(lia))). lia.
Qed.

(** Why [ext2_clusteralloc] finds nothing: [e2fs_maxcluster] says there is no
    run that is long enough, the bitmap cannot be read, or it has no such run
    from where the search starts; or the summary has none, and then
    [e2fs_maxcluster] is lowered to the largest there is. *)
Definition cluster_missed (cg bpref len : Z) (w w' : world) : Prop :=
  (reach w w' /\
   ((exists m, w_maxcluster w !z cg = Some m /\ m < len) \/
    read_failed (bdev cg) w w' \/
    exists w1 bs, reach w w1 /\ reach w1 w' /\ w_dev w1 !! bdev cg = Some bs /\
      no_run bs (cluster_start fs cg bpref) (sb_fpg fs) len)) \/
  (exists w1 c m, reach w w1 /\ w_clustersum w1 !z cg = Some c /\
     (forall k v, len <= k <= contigsumsize fs MAXPHYS -> cs_sum c !z k = Some v -> v <= 0) /\
     smaller_cluster (cs_sum c) len = Ok m /\
     shared_of w' = shared_of (upd_w_maxcluster (zinsert cg m) w1)).

(** What [ext2_clusteralloc] promises, from the state [w] it is called in. *)
Definition cluster_result (cg bpref len : Z) (w : world) (r : Z) (w' : world) : Prop :=
  vol_ok w' /\ w_bufs w' = w_bufs w /\ w_inodes w' = w_inodes w /\
  ((r = 0 /\ w_locked w' = true /\ cluster_missed cg bpref len w w') \/
   (0 < r /\ r + len <= e2fs_bcount (m_e2fs fs) /\ w_locked w' = false /\
    exists bno w1 bs, cluster_start fs cg bpref <= bno /\ bno + len <= sb_fpg fs /\
      r = cg * sb_fpg fs + first_dblock fs + bno /\
      vol_ok w1 /\ reach w w1 /\ w_dev w1 !! bdev cg = Some bs /\
      no_run bs (cluster_start fs cg bpref) (bno + len - 1) len /\ committed_cluster cg bno len w1 w')).

(** The two ways out without blocks: from the label fail, with the lock held,
    and from fail_lock. *)
Lemma wp_cluster_fail w w1 cg bpref len d bs :
  group fs cg -> w_bufs w !! bdev cg = None -> held cg (w_bufs w) d bs w1 -> w_inodes w1 = w_inodes w ->
  w_locked w1 = true ->
  (forall w', shared_of w' = shared_of w1 -> w_tick w' = w_tick w1 -> cluster_missed cg bpref len w w') ->
  wp (buf_brelse (bdev cg);; mret 0) (cluster_result cg bpref len w) w1.
Proof.
  intros Hc Hb Hh Hi Hlk Hm. wp_steps. eapply wp_brelse_held; [done|done|done|]. intros w2 Hv2 Hb2 Hi2 Hlk2 Hs2 Ht2.
  wp_steps. split_and!; [done|done|congruence|]. left. split; [done|]. split; [congruence|by apply Hm].
Qed.

Lemma wp_cluster_fail_lock w w1 cg bpref len d bs :
  group fs cg -> w_bufs w !! bdev cg = None -> held cg (w_bufs w) d bs w1 -> w_inodes w1 = w_inodes w ->
  w_locked w1 = false -> (forall w', reach w1 w' -> cluster_missed cg bpref len w w') ->
  wp (EXT2_LOCK;; buf_brelse (bdev cg);; mret 0) (cluster_result cg bpref len w) w1.
Proof.
  intros Hc Hb Hh Hi Hlk Hm. wp_steps. eapply wp_lock_held; [done|done|]. intros w2 Hh2 Hi2 Hlk2 Hre2.
  eapply wp_cluster_fail; [done|done|done|congruence|done|]. intros w' Hs Ht. apply Hm.
  eapply reach_own; [exact Hre2|done|lia].
Qed.

(** The search of the bitmap and what follows, with the lock released again. *)
Lemma wp_cluster_take w w1 cg bpref len bs :
  m_fpb fs = 1 -> group fs cg -> bpref_ok fs bpref -> 0 < len ->
  w_bufs w !! bdev cg = None -> held cg (w_bufs w) bs bs w1 -> w_inodes w1 = w_inodes w -> w_locked w1 = false -> reach w w1 ->
  wp (r ← lift (cluster_search fs bs cg bpref len);
      let '(got, run) := (r : Z * Z) in
      if got >=? sb_fpg fs then (EXT2_LOCK;; buf_brelse (bdev cg);; mret 0) else
      lift (check_map bs (Z.to_nat (len - 1)) (got - run + 1));;
      let bno := got - run + 1 in
      if bno >=? sb_fpg fs then lift (Fault (Panic "ext2_clusteralloc: allocated out of group")) else
      EXT2_LOCK;;
      take_blocks fs MAXPHYS (bdev cg) cg bno len (Z.to_nat len) 0;;
      modify (upd_w_fmod (fun _ => 1));;
      EXT2_UNLOCK;;
      buf_bdwrite (bdev cg);;
      mret (cg * sb_fpg fs + first_dblock fs + bno)) (cluster_result cg bpref len w) w1.
Proof.
  intros Hfpb Hc Hp Hlen Hb0 Hh Hi Hlk Hre. pose proof Hg as []. pose proof Hh as [Hv1 _ Hdev _].
  pose proof (held_bmap fs MAXPHYS B I w1 cg bs Hc Hv1 Hdev) as Hbm. pose proof Hbm as [].
  destruct (cluster_search_ok fs bs cg bpref len) as (got & r & Hs & Hr & Hno & Hfound); [done..|].
  pose proof (cluster_start_range fs cg bpref Hg Hp) as Hst.
  wp_steps. eapply wp_lift; [done|]. cbv beta iota.
  destruct (got >=? sb_fpg fs) eqn:Eg.
  { eapply wp_cluster_fail_lock; [done..|]. intros w' Hre'. left. split; [by transitivity w1|]. right. right.
    exists w1, bs. split_and!; try done. assert (got = sb_fpg fs) as <- by lia. done. }
  destruct Hfound as (-> & Hge & Hcl); [lia|].
  wp_steps. eapply wp_lift; [apply check_map_ok; [lia|lia|intros k Hk; apply Hcl; lia]|]. cbv zeta.
  destruct (got - len + 1 >=? sb_fpg fs) eqn:Eb; [lia|].
  replace (got + 1) with (got - len + 1 + len) in Hcl by lia.
  destruct (cluster_range cg (got - len + 1) len bs Hc Hbm) as [Hr0 Hr1]; [lia..|done|].
  eapply wp_commit_cluster; try done; try lia.
  intros w2 w3 Hv2 Hv3 Hb3 Hi3 Hlk3 Hre2 Hdev2 Hcom. wp_steps. split_and!; [done|done|congruence|].
  right. split_and!; [lia|lia|done|]. exists (got - len + 1), w2, bs.
  assert (reach w w2) by (by transitivity w1).
  split_and!; try done; try lia. by replace (got - len + 1 + len - 1) with got by lia.
Qed.

(** C20: [ext2_clusteralloc] returns from every consistent volume, whatever the
    other threads do, with the volume consistent. It finds nothing, with the lock
    held, only if [e2fs_maxcluster] is below [len], the read of the bitmap fails,
    the bitmap has no [len] free blocks in a row from where the search starts, or
    the summary of the group counts none, and then [e2fs_maxcluster] becomes the
    largest run it counts; nothing else that is shared changes. Otherwise it
    returns the first block of the first such run from where the search starts,
    in the world the other threads led to: one step sets the bits of these and no
    others, takes [len] from the free counts of the group and of the volume, and
    the lock is released. *)
Theorem ext2_clusteralloc_spec w ip cg bpref len :
  m_fpb fs = 1 -> vol_ok w -> w_locked w = true -> bitmaps_free fs B I w -> group fs cg ->
  bpref_ok fs bpref -> 0 < len <= contigsumsize fs MAXPHYS ->
  wp (ext2_clusteralloc fs MAXPHYS ip cg bpref len) (cluster_result cg bpref len w) w.
Proof.
  intros Hfpb Hv Hlk Hfree Hc Hp Hlen. unfold ext2_clusteralloc. wp_steps.
  destruct (zlookup_lt (w_maxcluster w) cg) as [m Hm]; [by rewrite (vi_mcl _ _ _ _ _ _ _ _ _ _ _ _ _ Hv)|].
  apply wp_lift with (a := m); [by rewrite Hm|]. destruct (Z.ltb_spec m len) as [Hmlt|_].
  { wp_steps. split_and!; [done..|]. left. split; [done|]. split; [done|]. left. split; [done|]. left. by exists m. }
  destruct (gd_group _ _ _ (vi_gds _ _ _ _ _ _ _ _ _ _ _ _ _ Hv) Hc) as [gd Hgd].
  destruct (vi_gd _ _ _ _ _ _ _ _ _ _ _ _ _ Hv cg gd Hgd) as (HB & _).
  wp_steps. apply wp_unlock; [done|]. wp_steps. eapply wp_GD; [done|]. cbv zeta. rewrite HB. fold (bdev cg).
  destruct (Hfree cg Hc) as [Hb0 _].
  wp_steps. apply wp_bread_held; [done|done|done|]. cbn [w_bufs upd_w_locked]. intros e d bs w1 Hd Hrd Hh1 Hi1 Hlk1 Hre1. cbn in Hi1, Hlk1.
  change (reach w w1) in Hre1. change (e <> 0 -> read_failed (bdev cg) w w1) in Hrd.
  destruct (Z.eqb_spec e 0) as [He0|He0]; cbn [negb].
  2:{ eapply wp_cluster_fail_lock; [done..|]. intros w' Hre'. left. split; [by transitivity w1|]. right. left.
      by apply (read_failed_mono fs MAXPHYS B I _ w w w1 w'); [|apply Hrd|]. }
  specialize (Hd He0). subst d.
  wp_steps. eapply wp_lock_held; [done|done|]. intros w2 Hh2 Hi2 Hlk2 Hre2. pose proof Hh2 as [Hv2 _ _ _].
  assert (reach w w2) as Hre by (by transitivity w1).
  destruct (vi_cs _ _ _ _ _ _ _ _ _ _ _ _ _ Hv2) as [Hcs1 Hcs2].
  destruct (zlookup_lt (w_clustersum w2) cg) as [c Hcc]; [by rewrite Hcs1|].
  wp_steps. apply wp_lift with (a := c); [by rewrite Hcc|]. pose proof (Hcs2 cg c Hcc) as Hcz.
  destruct (larger_cluster_ok (cs_sum c) (Z.to_nat (contigsumsize fs MAXPHYS - len + 1)) len) as (i & Hi & Hir & _ & Hnone);
    [lia|lia|].
  wp_steps. eapply wp_lift; [done|]. destruct (Z.gtb_spec i (contigsumsize fs MAXPHYS)) as [Hgt|_].
  { destruct (smaller_cluster_ok (cs_sum c) len) as [j Hj]; [lia|].
    wp_steps. eapply wp_lift; [done|]. apply wp_bind, wp_modify.
    eapply wp_cluster_fail; [done|done|by apply held_maxcluster|cbn; congruence|done|].
    intros w' Hs _. right. exists w2, c, j. split_and!; try done. intros k v Hk. apply Hnone. lia. }
  wp_steps. apply wp_unlock; [done|]. wp_steps.
  eapply wp_dataptr; [cbn; rewrite (hd_bufs _ _ _ _ _ Hh2); apply lookup_insert_eq|].
  apply wp_cluster_take; try done; [lia|by apply held_unlock|cbn; congruence].
Qed.

End spec.
