(* ===== verification/AllocExamples.v ===== *)
(** A concrete volume of two groups and concrete other threads, on which the
    theorems of AllocSpec.v apply: their hypotheses hold together. *)
From stdpp Require Import gmap.
From S2P Require Import Prelude Bitmap Bytes Super Ihash Kernel SuperExamples Cluster Alloc AllocSpec.

(** * Other threads that finish what they were doing *)

(** While this thread waits, every buffer another thread holds is given back
    with the counts of its group brought up to date. *)
Section settle.
Context (fs : m_ext2fs) (MAXPHYS : Z) (B I : Z -> Z).

Definition settle_gd (w : world) (n : nat) (gd : ext2_gd) : ext2_gd :=
  let cg := Z.of_nat n in
  let gd := match w_bufs w !! bdev fs B cg, w_dev w !! bdev fs B cg with
            | None, Some bs => upd_ext2bgd_nbfree (fun _ => count_clear bs (Z.to_nat (sb_fpg fs))) gd
            | _, _ => gd
            end in
  match w_bufs w !! idev fs I cg, w_dev w !! idev fs I cg with
  | None, Some bs => upd_ext2bgd_nifree (fun _ => count_clear bs (Z.to_nat (sb_ipg fs))) gd
  | _, _ => gd
  end.

Definition settle (w : world) : world :=
  let gds := imap (settle_gd w) (w_gd w) in
  upd_w_others (fun _ => ∅)
    (upd_w_fbcount (fun _ => u32 (sumZ (ext2bgd_nbfree <$> gds)))
      (upd_w_ficount (fun _ => u32 (sumZ (ext2bgd_nifree <$> gds)))
        (upd_w_gd (fun _ => gds) w))).

Lemma settle_lookup w cg gd' :
  imap (settle_gd w) (w_gd w) !z cg = Some gd' ->
  exists gd, w_gd w !z cg = Some gd /\ gd' = settle_gd w (Z.to_nat cg) gd /\ 0 <= cg.
Proof.
  unfold zlookup. case_match eqn:E; [done|]. rewrite list_lookup_imap. intros H.
  destruct (w_gd w !! Z.to_nat cg) as [gd|] eqn:Hg; [|done]. cbn in H. simplify_eq.
  exists gd. split; [done|]. split; [done|lia].
Qed.

Lemma settle_lookup_rev w cg gd :
  w_gd w !z cg = Some gd -> imap (settle_gd w) (w_gd w) !z cg = Some (settle_gd w (Z.to_nat cg) gd).
Proof.
  unfold zlookup. case_match eqn:E; [done|]. rewrite list_lookup_imap. by intros ->.
Qed.

Context (Hg : group_ok fs).

Lemma settle_ok w : vol_ok fs MAXPHYS B I w -> vol_ok fs MAXPHYS B I (settle w) /\ rely fs B I w (settle w).
Proof.
  intros []. pose proof Hg as []. split.
  - constructor; cbn; try done.
    + unfold zlen in *. by rewrite length_imap.
    + intros cg gd' Hgd. destruct (settle_lookup _ _ _ Hgd) as (gd & H & -> & Hcg).
      destruct (vi_gd cg gd H) as (H1 & H2 & H3 & H4).
      assert (forall bs n, 0 < n <= 8 * m_bsize fs -> u16_ok (count_clear bs (Z.to_nat n))) as Hcb.
      { intros bs n Hn. pose proof (count_clear_range bs (Z.to_nat n)). unfold u16_ok. lia. }
      unfold settle_gd. cbv zeta. repeat case_match; cbn; split_and!; auto.
    + intros cg gd' bs Hgd Hbs _ Hb. destruct (settle_lookup _ _ _ Hgd) as (gd & H & -> & Hcg).
      unfold settle_gd. cbv zeta. rewrite Z2Nat.id, Hb, Hbs by done. repeat case_match; done.
    + intros cg gd' bs Hgd Hbs _ Hb. destruct (settle_lookup _ _ _ Hgd) as (gd & H & -> & Hcg).
      unfold settle_gd. cbv zeta. rewrite Z2Nat.id, Hb, Hbs by done. done.
  - constructor; cbn; try done.
    + intros cg gd [d Hd] Hgd. eexists. split; [by apply settle_lookup_rev|].
      pose proof (zlookup_Some_inv _ _ _ Hgd) as [Hr _].
      unfold settle_gd. cbv zeta. rewrite Z2Nat.id, Hd by lia. repeat case_match; done.
    + intros cg gd [d Hd] Hgd. eexists. split; [by apply settle_lookup_rev|].
      pose proof (zlookup_Some_inv _ _ _ Hgd) as [Hr _].
      unfold settle_gd. cbv zeta. rewrite Z2Nat.id, Hd by lia. repeat case_match; done.
Qed.
End settle.

(** * The volume of SuperExamples.v, with its bitmaps *)

Definition MAXPHYS0 : Z := 131072.
Definition B0 (cg : Z) : Z := 3 + 16 * cg.
Definition I0 (cg : Z) : Z := 4 + 16 * cg.

Definition bitmap0 (first second : Z) : list Z := first :: second :: replicate 1022 0.

Definition gds0 : list ext2_gd :=
  [mk_gd 3 4 5 8 5 1 0 0 0 0 0 0; mk_gd 19 20 21 12 8 0 0 0 0 0 0 0].

Definition dev0 : gmap Z (list Z) :=
  <[6 := bitmap0 255 0]> (<[8 := bitmap0 7 0]> (<[38 := bitmap0 15 0]> (<[40 := bitmap0 0 0]> ∅))).

Definition inode0 : inode :=
  mk_inode 0 2 1 0 0 0 0 0 0 0 0x41ED 2 0 0 1024 2 0 0 0 0 0 0 0 0 7 0
    (replicate 12 0) (replicate 3 0) 0 0 0 0.

Definition csum0 : csum := mk_csum 0 (replicate 33 0).

Definition world0 (locked : bool) : world :=
  mk_world 20 13 0 1 gds0 [0; 0] [32; 32] [csum0; csum0] dev0 ∅ ∅ locked {[2 := inode0]} 0 ∅ ∅ (mk_ihash None 0 None ∅ 0) ∅.

#[export] Instance env0 : KernelEnv :=
  mk_env (fun n b => if (n =? 7)%nat then Some EIO else None) (fun _ _ => None) (fun _ _ => false)
    (fun _ _ size => replicate (Z.to_nat size) 0) (fun n => Z.of_nat n) (fun n => (Z.of_nat n, 0))
    (fun _ w => w) (fun _ _ w => settle fs0 B0 I0 w).

Lemma group0_cases cg : group fs0 cg -> cg = 0 \/ cg = 1.
Proof. unfold group. change (m_gcount fs0) with 2. lia. Qed.

Lemma group_ok0 : group_ok fs0.
Proof. constructor; vm_compute; done || (split; done). Qed.

Lemma layout_ok0 : layout_ok fs0 B0 I0.
Proof.
  constructor; intros cg cg' H1%group0_cases H2%group0_cases;
    destruct H1 as [-> | ->], H2 as [-> | ->]; vm_compute; done.
Qed.

Lemma env_ok0 : env_ok fs0 MAXPHYS0 B0 I0.
Proof.
  constructor.
  - intros n w Hv. split; [done|]. constructor; try done; eauto.
  - intros n b w Hv. destruct (settle_ok fs0 MAXPHYS0 B0 I0 group_ok0 w Hv) as [H1 H2].
    split; [done|]. split; [done|]. cbn. apply not_elem_of_empty.
  - intros n b e. cbn. case_match; [|done]. by intros [= <-].
Qed.

Lemma gds0_cases cg gd : gds0 !z cg = Some gd ->
  (cg = 0 /\ gd = mk_gd 3 4 5 8 5 1 0 0 0 0 0 0) \/ (cg = 1 /\ gd = mk_gd 19 20 21 12 8 0 0 0 0 0 0 0).
Proof.
  intros H. pose proof (zlookup_Some_inv _ _ _ H) as [Hr Hl]. change (zlen gds0) with 2 in Hr.
  assert (cg = 0 \/ cg = 1) as [-> | ->] by lia; vm_compute in Hl; injection Hl as <-; auto.
Qed.

Lemma bitmap0_bytes a b : u8_ok a -> u8_ok b -> bytes_ok (bitmap0 a b).
Proof.
  intros Ha Hb. constructor; [done|]. constructor; [done|]. apply Forall_replicate. unfold u8_ok. lia.
Qed.

(** All positions below a small bound. *)
Lemma forall_below n (P : Z -> bool) : forallb P (seqZ 0 n) = true -> forall j, 0 <= j < n -> P j = true.
Proof. intros H j Hj. rewrite forallb_forall in H. apply H, list_elem_of_In, elem_of_seqZ. lia. Qed.

Lemma bmap_ok0 cg a b :
  u8_ok a -> u8_ok b ->
  forallb (fun j => bit (bitmap0 a b) j || negb ((cg * 16 + 1 + j =? 0) || (33 <=? cg * 16 + 1 + j))) (seqZ 0 16) = true ->
  bmap_ok fs0 cg (bitmap0 a b).
Proof.
  intros Ha Hb Hf. constructor; [by vm_compute|by apply bitmap0_bytes|].
  intros j Hj Hfix. change (sb_fpg fs0) with 16 in *. pose proof (forall_below _ _ Hf j Hj) as H.
  unfold fixed_block in Hfix. cbn in H, Hfix. destruct (bit _ j); [done|]. lia.
Qed.

Lemma imap_ok0 a b : u8_ok a -> u8_ok b -> imap_ok fs0 (bitmap0 a b).
Proof. intros Ha Hb. constructor; [by vm_compute|by apply bitmap0_bytes|by intros]. Qed.

Lemma vol_ok0 locked : vol_ok fs0 MAXPHYS0 B0 I0 (world0 locked).
Proof.
  constructor; cbn [w_gd w_dev w_fbcount w_ficount w_contigdirs w_maxcluster w_clustersum w_bufs w_others world0].
  - done.
  - intros cg gd [[-> ->]|[-> ->]]%gds0_cases; vm_compute; done.
  - intros cg [-> | ->]%group0_cases; eexists; (split; [vm_compute; reflexivity|]);
      apply bmap_ok0; vm_compute; done.
  - intros cg [-> | ->]%group0_cases; eexists; (split; [vm_compute; reflexivity|]);
      apply imap_ok0; vm_compute; done.
  - intros cg gd bs [[-> ->]|[-> ->]]%gds0_cases Hbs _ _; vm_compute in Hbs; injection Hbs as <-; by vm_compute.
  - intros cg gd bs [[-> ->]|[-> ->]]%gds0_cases Hbs _ _; vm_compute in Hbs; injection Hbs as <-; by vm_compute.
  - by vm_compute.
  - by vm_compute.
  - done.
  - done.
  - split; [done|]. intros cg c H. apply zlookup_Some_inv in H as [Hr Hl]. change (0 <= cg < 2) in Hr.
    assert (cg = 0 \/ cg = 1) as [-> | ->] by lia; vm_compute in Hl; injection Hl as <-; done.
Qed.

Lemma bitmaps_free0 locked : bitmaps_free fs0 B0 I0 (world0 locked).
Proof. intros cg _. done. Qed.

(** Block 1 is in use, and no other thread frees it. *)
Lemma env_keeps0 a j : env_keeps fs0 MAXPHYS0 B0 I0 a j.
Proof. intros n b w bs bs' _ Hbs Hbit. cbn. intros Hbs'. by simplify_eq. Qed.

(** * The theorems at this volume *)

(** The witnesses state a run and its outcome. *)
Lemma ext2_alloc_witness :
  w_locked (world0 true) = true /\ w_inodes (world0 true) !! 2 = Some inode0 /\
  wp (ext2_alloc fs0 MAXPHYS0 2 0 9 1024 0) (fun eb w' =>
    vol_ok fs0 MAXPHYS0 B0 I0 w' /\ w_locked w' = false /\ w_bufs w' = w_bufs (world0 true) /\
    ((eb = (ENOSPC, 0) /\ w_inodes w' = w_inodes (world0 true) /\ reach fs0 MAXPHYS0 B0 I0 (world0 true) w' /\
      (refused fs0 (world0 true) 1024 0 \/ all_missed fs0 MAXPHYS0 B0 I0 (world0 true) w')) \/
     (exists b w1 i', eb = (0, b) /\ ~ refused fs0 (world0 true) 1024 0 /\ vol_ok fs0 MAXPHYS0 B0 I0 w1 /\
        reach fs0 MAXPHYS0 B0 I0 (world0 true) w1 /\ found_block fs0 B0 (m_bsize fs0) b w1 w' /\
        w_inodes w' = <[2 := i']> (w_inodes (world0 true)) /\ inode_grown fs0 0 b inode0 i'))) (world0 true).
Proof.
  split; [reflexivity|]. split; [reflexivity|].
  apply (ext2_alloc_spec fs0 MAXPHYS0 B0 I0 group_ok0 layout_ok0 env_ok0);
    [apply vol_ok0|reflexivity|apply bitmaps_free0|reflexivity|vm_compute; split; discriminate|
     vm_compute; split; done|right; vm_compute; discriminate|vm_compute; discriminate].
Defined.

Lemma ext2_blkfree_witness :
  wp (ext2_blkfree fs0 MAXPHYS0 2 1 1024) (fun _ w' =>
     vol_ok fs0 MAXPHYS0 B0 I0 w' /\ w_locked w' = false /\ w_bufs w' = w_bufs (world0 false) /\
     w_inodes w' = w_inodes (world0 false) /\
     ((bit_set_on_dev w' (bdev fs0 B0 0) 0 /\ reach fs0 MAXPHYS0 B0 I0 (world0 false) w' /\
       read_failed (bdev fs0 B0 0) (world0 false) w') \/
      exists w1, vol_ok fs0 MAXPHYS0 B0 I0 w1 /\ reach fs0 MAXPHYS0 B0 I0 (world0 false) w1 /\ committed_block fs0 B0 0 0 false w1 w')) (world0 false).
Proof.
  apply (proj2 (ext2_blkfree_spec fs0 MAXPHYS0 B0 I0 group_ok0 layout_ok0 env_ok0 (world0 false) 2 1 1024
    (vol_ok0 false) eq_refl (bitmaps_free0 false)));
    [vm_compute; split; [discriminate|reflexivity]|reflexivity|vm_compute; split; [discriminate|reflexivity]| |
     apply env_keeps0].
  eexists. split; [vm_compute; reflexivity|reflexivity].
Defined.

Lemma ext2_vfree_witness :
  wp (ext2_vfree fs0 false 2 0x41ED) (fun r w' =>
     r = 0 /\ vol_ok fs0 MAXPHYS0 B0 I0 w' /\ w_locked w' = false /\ w_bufs w' = w_bufs (world0 false) /\
     w_inodes w' = w_inodes (world0 false) /\
     ((bit_set_on_dev w' (idev fs0 I0 0) 1 /\ reach fs0 MAXPHYS0 B0 I0 (world0 false) w' /\
       read_failed (idev fs0 I0 0) (world0 false) w') \/
      exists w1, vol_ok fs0 MAXPHYS0 B0 I0 w1 /\ reach fs0 MAXPHYS0 B0 I0 (world0 false) w1 /\ committed_inode fs0 I0 0 1 false (-1) w1 w')) (world0 false).
Proof.
  apply (proj2 (ext2_vfree_spec fs0 MAXPHYS0 B0 I0 group_ok0 layout_ok0 env_ok0 (world0 false) 2 0x41ED
    (vol_ok0 false) eq_refl (bitmaps_free0 false) eq_refl));
    [vm_compute; split; discriminate| |apply env_keeps0].
  eexists. split; [vm_compute; reflexivity|reflexivity].
Defined.
