(* ===== verification/ClusterExamples.v ===== *)
(** A run of three blocks in the second group of the volume of
    AllocExamples.v, whose summary knows of a run of twelve. *)
From stdpp Require Import gmap.
From S2P Require Import Prelude Bitmap Bytes Super SuperExamples Kernel Cluster Alloc AllocSpec AllocExamples ClusterAlloc.

Definition world_cl : world :=
  upd_w_clustersum (fun _ => [csum0; mk_csum 1 (zinsert 12 1 (replicate 33 0))]) (world0 true).

Lemma vol_ok_cl : vol_ok fs0 MAXPHYS0 B0 I0 world_cl.
Proof.
  destruct (vol_ok0 true). constructor; try done. split; [done|].
  intros cg c H. apply zlookup_Some_inv in H as [Hr Hl]. change (0 <= cg < 2) in Hr.
  assert (cg = 0 \/ cg = 1) as [-> | ->] by lia; vm_compute in Hl; injection Hl as <-; done.
Qed.

(** Blocks 21, 22 and 23 are taken: the first four of the group are in use. *)
Example clusteralloc_run :
  match ext2_clusteralloc fs0 MAXPHYS0 2 1 0 3 world_cl with
  | Ok (r, w') => r = 21 /\ w_fbcount w' = 17 /\ w_dev w' !! 38 = Some (bitmap0 127 0) /\ w_locked w' = false
  | Fault _ => False
  end.
Proof. vm_compute. done. Qed.

Lemma ext2_clusteralloc_witness :
  w_locked world_cl = true /\ 3 <= contigsumsize fs0 MAXPHYS0 /\
  wp (ext2_clusteralloc fs0 MAXPHYS0 2 1 0 3) (cluster_result fs0 MAXPHYS0 B0 I0 1 0 3 world_cl) world_cl.
Proof.
  split; [reflexivity|]. split; [vm_compute; discriminate|].
  apply (ext2_clusteralloc_spec fs0 MAXPHYS0 B0 I0 group_ok0 layout_ok0 env_ok0);
    [reflexivity|apply vol_ok_cl|reflexivity|apply (bitmaps_free0 true)|vm_compute; split; [discriminate|reflexivity]|
     by left|split; [reflexivity|vm_compute; discriminate]].
Defined.
