(* ===== verification/Extents.v ===== *)
(** The ext4 extent tree, ext2_extents.c.

    A node of the tree is a header of 12 bytes followed by entries of 12 bytes;
    the root is the 60 bytes of the inode's block pointers, the others fill a
    block of the device. Entries are addressed by slot, the header being where
    slot -1 would be. *)
From stdpp Require Import gmap.
From S2P Require Import Prelude Bitmap Bytes Super Kernel Cluster Alloc.

(** * Nodes *)

Definition EXT4_EXT_MAGIC : Z := 0xf30a.
Definition EXT4_EXT_CACHE_NO : Z := 0.
Definition EXT4_EXT_CACHE_GAP : Z := 1.
Definition EXT4_EXT_CACHE_IN : Z := 2.

Record ext4_extent : Type := mk_extent { e_blk : Z; e_len : Z; e_start_hi : Z; e_start_lo : Z }.
Record ext4_extent_index : Type := mk_index { ei_blk : Z; ei_leaf_lo : Z; ei_leaf_hi : Z; ei_unused : Z }.

Definition extent_layout : list nat := [4; 2; 2; 4]%nat.
Definition index_layout : list nat := [4; 4; 2; 2]%nat.
Definition extent_fields (e : ext4_extent) : list Z := [e_blk e; e_len e; e_start_hi e; e_start_lo e].
Definition index_fields (x : ext4_extent_index) : list Z := [ei_blk x; ei_leaf_lo x; ei_leaf_hi x; ei_unused x].

(** Byte offset of a slot, entries being counted from [ehp + 1]. *)
Definition slot_off (s : Z) : Z := 12 * (s + 1).

Definition get_extent (node : list Z) (s : Z) : res ext4_extent :=
  l ← fields_get node (slot_off s) extent_layout;
  match l with [a; b; c; d] => mret (mk_extent a b c d) | _ => Fault OutOfBounds end.
Definition put_extent (node : list Z) (s : Z) (e : ext4_extent) : res (list Z) :=
  fields_put node (slot_off s) extent_layout (extent_fields e).
Definition get_index (node : list Z) (s : Z) : res ext4_extent_index :=
  l ← fields_get node (slot_off s) index_layout;
  match l with [a; b; c; d] => mret (mk_index a b c d) | _ => Fault OutOfBounds end.
Definition put_index (node : list Z) (s : Z) (x : ext4_extent_index) : res (list Z) :=
  fields_put node (slot_off s) index_layout (index_fields x).

Definition eh_magic (node : list Z) : res Z := get16 node 0.
Definition eh_ecount (node : list Z) : res Z := get16 node 2.
Definition eh_max (node : list Z) : res Z := get16 node 4.
Definition eh_depth (node : list Z) : res Z := get16 node 6.
Definition set_ecount (node : list Z) (v : Z) : res (list Z) := put16 node 2 v.

(** The assignments to a header the code makes, in order; [eh_gen] is left. *)
Definition set_header (node : list Z) (mx ecount depth : Z) : res (list Z) :=
  node ← put16 node 0 EXT4_EXT_MAGIC; node ← put16 node 4 mx;
  node ← put16 node 6 depth; put16 node 2 ecount.

(** * The searches *)

(** The halving loop on slots [l], ..., [r]: [key m] is the first block of slot
    [m]. The fuel bounds the rounds. *)
Fixpoint binsearch_loop (key : Z -> res Z) (lbn : Z) (fuel : nat) (l r : Z) : res Z :=
  match fuel with
  | O => Fault NoFuel
  | S fuel' =>
      if l <=? r then
        let m := l + (r - l) / 2 in
        k ← key m;
        if lbn <? k then binsearch_loop key lbn fuel' l (m - 1)
        else binsearch_loop key lbn fuel' (m + 1) r
      else mret (l - 1)
  end.

Definition extent_key (node : list Z) (m : Z) : res Z := e ← get_extent node m; mret (e_blk e).
Definition index_key (node : list Z) (m : Z) : res Z := x ← get_index node m; mret (ei_blk x).

(** [path->ep_index]. *)
Definition ext4_ext_binsearch_index (node : list Z) (lbn : Z) : res Z :=
  n ← eh_ecount node; binsearch_loop (index_key node) lbn (S (Z.to_nat n)) 0 (n - 1).

(** [path->ep_ext], not assigned when the node has no entry. *)
Definition ext4_ext_binsearch (node : list Z) (lbn : Z) : res (option Z) :=
  n ← eh_ecount node;
  if n =? 0 then mret None
  else s ← binsearch_loop (extent_key node) lbn (S (Z.to_nat n)) 0 (n - 1); mret (Some s).

(** * The cache of the last extent *)

Definition ext4_ext_in_cache (ip : inode) (lbn : Z) : Z * option ext4_extent :=
  if ec_type ip =? EXT4_EXT_CACHE_NO then (EXT4_EXT_CACHE_NO, None)
  else if (lbn >=? ec_blk ip) && (lbn <? u32 (ec_blk ip + ec_len ip))
  then (ec_type ip, Some (mk_extent (ec_blk ip) (u16 (ec_len ip))
          (Z.land (Z.shiftr (ec_start ip) 32) 0xffff) (Z.land (ec_start ip) 0xffffffff)))
  else (EXT4_EXT_CACHE_NO, None).

Definition ext4_ext_put_cache (ep : ext4_extent) (type : Z) (ip : inode) : inode :=
  upd_ec_start (fun _ => Z.lor (Z.shiftl (e_start_hi ep) 32) (e_start_lo ep))
    (upd_ec_len (fun _ => e_len ep) (upd_ec_blk (fun _ => e_blk ep) (upd_ec_type (fun _ => type) ip))).

(** * Paths *)

(** Where a node lies: in the inode, or in the buffer of a device block. *)
Inductive node_at : Type := InInode | InBuf (b : Z).

(** struct ext4_extent_path; the pointers into the node are slots of it. *)
Record ext_path : Type := mk_path {
  ep_depth : Z; ep_bp : option Z; ep_ext : option Z; ep_index : option Z; ep_header : option node_at
}.

(** The path a caller declares: [{ .ep_bp = NULL }]. *)
Definition path0 : ext_path := mk_path 0 None None None None.

(** The 60 bytes of [i_db] and the [i_ib] behind it. *)
Definition inode_area (ip : inode) : list Z := concat (le_split 4 <$> (i_db ip ++ i_ib ip)).

Fixpoint words (n : nat) (bs : list Z) : list Z :=
  match n with O => [] | S n' => le_combine (take 4 bs) :: words n' (drop 4 bs) end.

Definition set_inode_area (bs : list Z) (ip : inode) : inode :=
  upd_i_ib (fun _ => words 3 (drop 48 bs)) (upd_i_db (fun _ => words 12 bs) ip).

Section extents.
Context `{KernelEnv} (fs : m_ext2fs) (MAXPHYS : Z).

Abbreviation K := (M world).

Definition node_read (ip : Z) (n : node_at) : K (list Z) :=
  match n with
  | InInode => i ← VTOI ip; mret (inode_area i)
  | InBuf b => buf_dataptr b
  end.

Definition node_write (ip : Z) (n : node_at) (bs : list Z) : K unit :=
  match n with
  | InInode => upd_inode ip (set_inode_area bs)
  | InBuf b => buf_store b bs
  end.

Definition deref {A} (o : option A) : K A :=
  match o with Some a => mret a | None => halt NullDeref end.

(** The descent of [ext4_ext_find_extent], [depth] levels from the node of
    [path]: the path, and whether every level could be read. *)
Fixpoint find_descend (ip lbn : Z) (depth : nat) (path : ext_path) : K (ext_path * bool) :=
  match depth with
  | O => mret (path, true)
  | S depth' =>
      hdr ← deref (ep_header path);
      node ← node_read ip hdr;
      s ← lift (ext4_ext_binsearch_index node lbn);
      x ← lift (get_index node s);
      let nblk := Z.lor (Z.shiftl (ei_leaf_hi x) 32) (ei_leaf_lo x) in
      (match ep_bp path with Some b => buf_brelse b | None => mret tt end);;
      let b := fsbtodb fs nblk in
      error ← buf_meta_bread b (m_fsize fs);
      if negb (error =? 0) then
        buf_brelse b;; mret (mk_path 0 None None (Some s) (ep_header path), false)
      else find_descend ip lbn depth' (mk_path 0 (Some b) None (Some s) (Some (InBuf b)))
  end.

(** [ext4_ext_find_extent]: the path as it is left, and whether the result is
    not NULL. *)
Definition ext4_ext_find_extent (ip lbn : Z) (path : ext_path) : K (ext_path * bool) :=
  root ← node_read ip InInode;
  magic ← lift (eh_magic root);
  if negb (magic =? EXT4_EXT_MAGIC) then mret (path, false) else
  depth ← lift (eh_depth root);
  r ← find_descend ip lbn (Z.to_nat depth)
        (mk_path (ep_depth path) (ep_bp path) (ep_ext path) (ep_index path) (Some InInode));
  let '(path, found) := r in
  if negb (found : bool) then mret (path, false) else
  hdr ← deref (ep_header path);
  node ← node_read ip hdr;
  s ← lift (ext4_ext_binsearch node lbn);
  mret (mk_path 0 (ep_bp path) s None (ep_header path), true).

(** [ext4_ext_drop_refs]: [ep_depth] is a uint16_t, so the test of the loop
    always holds and its second round reads past the only path there is. *)
Definition ext4_ext_drop_refs (path : ext_path) : K unit :=
  if 0 <=? ep_depth path then
    (match ep_bp path with Some b => buf_brelse b | None => mret tt end);;
    halt OutOfBounds
  else mret tt.

Definition ext4_ext_mark_dirty : inode -> inode := or_flag (Z.lor IN_CHANGE IN_UPDATE).

(** [ext4_ext_new_block]; [uid] is kauth_cred_getuid(NOCRED). *)
Definition ext4_ext_new_block (ip uid : Z) : K (Z * Z) :=
  EXT2_LOCK;;
  r ← ext2_alloc fs MAXPHYS ip 0 0 (m_bsize fs) uid;
  EXT2_UNLOCK;;
  let '(error, newp) := r in
  if negb (error =? 0) then mret (error, newp) else
  let b := fsbtodb fs newp in
  ok ← buf_getblk b (m_bsize fs);
  if negb (ok : bool) then (ext2_blkfree fs MAXPHYS ip newp (m_bsize fs);; mret (EIO, newp)) else
  buf_store b (replicate (Z.to_nat (m_bsize fs)) 0);;
  error ← buf_bwrite b;
  if negb (error =? 0) then (ext2_blkfree fs MAXPHYS ip newp (m_bsize fs);; mret (error, newp))
  else mret (0, newp).
(** ** Changing the tree *)

(** [n] entries copied one by one between nodes, or inside one:
    [dst[di + j] = src[si + j]] for j = 0, ..., n - 1. *)
Fixpoint copy_entries (src dst : list Z) (si di : Z) (n : nat) : res (list Z) :=
  match n with
  | O => mret dst
  | S n' => e ← get_extent src si; dst ← put_extent dst di e;
            copy_entries src dst (si + 1) (di + 1) n'
  end.

(** [ex[i] = ex[i - 1]] from [i] down while [i > lo], [ex] being slot [base]. *)
Fixpoint shift_right (node : list Z) (base i lo : Z) (fuel : nat) : res (list Z) :=
  if i >? lo then
    match fuel with
    | O => Fault NoFuel
    | S fuel' =>
        e ← get_extent node (base + i - 1); node ← put_extent node (base + i) e;
        shift_right node base (i - 1) lo fuel'
    end
  else mret node.

(** [ex[i] = ex[i + 1]] for i = 0, ..., n - 1, [ex] being slot [base]. *)
Fixpoint shift_left (node : list Z) (base : Z) (n : nat) : res (list Z) :=
  match n with
  | O => mret node
  | S n' => e ← get_extent node (base + 1); node ← put_extent node base e;
            shift_left node (base + 1) n'
  end.

Definition zero_block : list Z := replicate (Z.to_nat (m_bsize fs)) 0.

Definition blocks_add (n : Z) : inode -> inode := upd_i_blocks (fun c => u64 (c + n)).

(** The contents [ext4_ext_grow_depth0] builds: the left leaf, the right leaf
    and the new root. *)
Definition grow_left (node : list Z) : res (list Z) :=
  mx ← eh_max node;
  let nblks := mx / 2 in
  old ← put16 zero_block 0 EXT4_EXT_MAGIC; old ← put16 old 4 mx; old ← put16 old 6 0;
  old ← copy_entries node old 0 0 (Z.to_nat nblks);
  set_ecount old nblks.

Definition grow_right (node : list Z) (newext : ext4_extent) : res (list Z) :=
  mx ← eh_max node;
  nw ← set_header zero_block mx 1 0;
  put_extent nw 0 newext.

Definition grow_root (root left right : list Z) (old_block new_block : Z) : res (list Z) :=
  root ← put16 root 0 EXT4_EXT_MAGIC; root ← put16 root 4 3; root ← put16 root 2 2; root ← put16 root 6 1;
  l0 ← get_extent left 0;
  root ← put_index root 0 (mk_index (e_blk l0) (u32 old_block) 0 0);
  r0 ← get_extent right 0;
  put_index root 1 (mk_index (e_blk r0) (u32 new_block) 0 0).

Definition free_block (ip b : Z) : K unit := ext2_blkfree fs MAXPHYS ip b (m_bsize fs).

Definition ext4_ext_grow_depth0 (ip uid : Z) (path : ext_path) (newext : ext4_extent) : K Z :=
  r ← ext4_ext_new_block ip uid;
  let '(error, old_block) := r in
  if negb (error =? 0) then mret error else
  r ← ext4_ext_new_block ip uid;
  let '(error, new_block) := r in
  if negb (error =? 0) then (free_block ip old_block;; mret error) else
  let old_bp := fsbtodb fs old_block in
  let new_bp := fsbtodb fs new_block in
  ok ← buf_getblk old_bp (m_bsize fs);
  if negb (ok : bool) then (free_block ip old_block;; free_block ip new_block;; mret EIO) else
  ok ← buf_getblk new_bp (m_bsize fs);
  if negb (ok : bool) then
    (buf_brelse old_bp;; free_block ip old_block;; free_block ip new_block;; mret EIO)
  else
  hdr ← deref (ep_header path);
  node ← node_read ip hdr;
  left ← lift (grow_left node);
  buf_store old_bp left;;
  right ← lift (grow_right node newext);
  buf_store new_bp right;;
  root ← node_read ip InInode;
  root ← lift (grow_root root left right old_block new_block);
  node_write ip InInode root;;
  upd_inode ip (fun i => ext4_ext_mark_dirty (blocks_add (m_bsize fs / 512 * 2) i));;
  error ← buf_bwrite old_bp;
  error ← (if negb (error =? 0) then mret error else buf_bwrite new_bp);
  if negb (error =? 0) then
    (upd_inode ip (blocks_add (- (m_bsize fs / 512 * 2)));;
     free_block ip old_block;; free_block ip new_block;; mret error)
  else mret 0.

(** The two halves [ext4_ext_split_leaf] leaves: the old node and the new one. *)
Fixpoint find_place (r : list Z) (blk i : Z) (fuel : nat) : res (list Z * Z) :=
  if i >? 0 then
    e ← get_extent r (i - 1);
    if e_blk e >? blk then
      match fuel with
      | O => Fault NoFuel
      | S fuel' => r ← put_extent r i e; find_place r blk (i - 1) fuel'
      end
    else mret (r, i)
  else mret (r, i).

Definition split_nodes (node : list Z) (newext : ext4_extent) : res (list Z * list Z) :=
  mx ← eh_max node; depth ← eh_depth node;
  let nblks := mx / 2 in
  r ← put16 zero_block 0 EXT4_EXT_MAGIC; r ← put16 r 4 mx; r ← put16 r 6 depth;
  r ← copy_entries node r nblks 0 (Z.to_nat (mx - nblks));
  r ← set_ecount r (mx - nblks);
  l ← set_ecount node nblks;
  r0 ← get_extent r 0;
  if e_blk newext <? e_blk r0 then
    l ← shift_right l 0 nblks 0 (Z.to_nat nblks);
    l ← put_extent l 0 newext;
    l ← set_ecount l (u16 (nblks + 1));
    mret (l, r)
  else
    p ← find_place r (e_blk newext) (mx - nblks) (Z.to_nat (mx - nblks));
    r ← put_extent p.1 p.2 newext;
    r ← set_ecount r (u16 (mx - nblks + 1));
    mret (l, r).

Definition ext4_ext_split_leaf (ip : Z) (path : ext_path) (newext : ext4_extent) (new_block : Z) : K Z :=
  let bp := fsbtodb fs new_block in
  ok ← buf_getblk bp (m_bsize fs);
  if negb (ok : bool) then (free_block ip new_block;; mret EIO) else
  hdr ← deref (ep_header path);
  node ← node_read ip hdr;
  halves ← lift (split_nodes node newext);
  node_write ip hdr halves.1;;
  buf_store bp halves.2;;
  upd_inode ip (fun i => ext4_ext_mark_dirty (blocks_add (m_bsize fs / 512) i));;
  buf_bwrite bp.

(** A node with room: the entries from the found slot on are moved up. *)
Definition insert_in_node (node : list Z) (s : Z) (newext : ext4_extent) : res (list Z) :=
  n ← eh_ecount node;
  node ← shift_right node s n s (Z.to_nat (n - s));
  node ← put_extent node s newext;
  set_ecount node (u16 (n + 1)).

Definition ext4_ext_insert_extent (ip uid : Z) (path : ext_path) (newext : ext4_extent) : K (Z * ext_path) :=
  hdr ← deref (ep_header path);
  node ← node_read ip hdr;
  n ← lift (eh_ecount node);
  mx ← lift (eh_max node);
  if n <? mx then
    s ← deref (ep_ext path);
    node ← lift (insert_in_node node s newext);
    node_write ip hdr node;;
    upd_inode ip (fun i => ext4_ext_mark_dirty (blocks_add (m_bsize fs / 512) i));;
    mret (0, path)
  else
    depth ← lift (eh_depth node);
    if depth =? 0 then (error ← ext4_ext_grow_depth0 ip uid path newext; mret (error, path)) else
    r ← ext4_ext_new_block ip uid;
    let '(error, new_block) := r in
    if negb (error =? 0) then mret (error, path) else
    let newext := mk_extent (e_blk newext) (e_len newext) (e_start_hi newext) (u32 new_block) in
    error ← ext4_ext_split_leaf ip path newext new_block;
    if negb (error =? 0) then mret (error, path)
    else mret (0, mk_path (ep_depth path) None (ep_ext path) (ep_index path) (ep_header path)).

(** [ext4_ext_rm_extent]. *)
Definition rm_range (ex : ext4_extent) (lbn len : Z) : Z * Z :=
  if lbn >? e_blk ex * m_bsize fs then
    let free_start := u32 (e_start_lo ex + u32 (lblkno fs lbn - e_blk ex)) in
    (free_start, Z.min len (u32 (e_len ex - u32 (free_start - e_start_lo ex))))
  else (e_start_lo ex, Z.min len (e_len ex)).

Definition rm_node (node : list Z) (s free_start free_len : Z) : res (list Z) :=
  ex ← get_extent node s;
  let phys_start := e_start_lo ex in
  let phys_len := e_len ex in
  if (free_start =? phys_start) && (free_len =? phys_len) then
    n ← eh_ecount node;
    let k := Z.max 0 (n - s - 1) in
    node ← shift_left node s (Z.to_nat k);
    node ← put_extent node (s + k) (mk_extent 0 0 0 0);
    set_ecount node (u16 (n - 1))
  else if free_start =? phys_start then
    put_extent node s (mk_extent (u32 (e_blk ex + free_len)) (u16 (e_len ex - free_len)) (e_start_hi ex)
      (u32 (e_start_lo ex + free_len)))
  else if u32 (free_start + free_len) =? u32 (phys_start + phys_len) then
    put_extent node s (mk_extent (e_blk ex) (u16 (e_len ex - free_len)) (e_start_hi ex) (e_start_lo ex))
  else
    put_extent node s (mk_extent (e_blk ex) (u16 (free_start - phys_start)) (e_start_hi ex) (e_start_lo ex)).

Fixpoint free_run (ip start : Z) (n : nat) : K unit :=
  match n with
  | O => mret tt
  | S n' => free_block ip (u32 start);; free_run ip (start + 1) n'
  end.

Definition ext4_ext_rm_extent (ip : Z) (path : ext_path) (lbn len : Z) : K Z :=
  match ep_ext path with
  | None => mret EIO
  | Some s =>
      if ep_depth path >? 0 then mret EIO else
      hdr ← deref (ep_header path);
      node ← node_read ip hdr;
      ex ← lift (get_extent node s);
      let '(free_start, free_len) := rm_range ex lbn len in
      free_run ip free_start (Z.to_nat (s32 free_len));;
      upd_inode ip (fun i => or_flag (Z.lor IN_CHANGE IN_UPDATE)
        (blocks_add (- u32 (m_bsize fs / 512 * free_len)) i));;
      node ← node_read ip hdr;
      node ← lift (rm_node node s free_start free_len);
      node_write ip hdr node;;
      mret 0
  end.

End extents.
