(* ===== verification/ExtentsSpec.v ===== *)
(** What the extent code does: its searches and its cache are right, and its
    changes to the tree are not ([ext4_ext_drop_refs] and [ext4_ext_new_block]
    never return, an insertion breaks the order the searches rely on). *)
From stdpp Require Import gmap.
From S2P Require Import Prelude Bitmap Bytes Super SuperExamples Kernel Cluster Alloc AllocSpec AllocExamples Extents.

(** * The searches *)

(** [s] is the last of the [n] entries that starts at or before [lbn]; -1 when
    none does. *)
Definition last_le (k : Z -> Z) (n lbn s : Z) : Prop :=
  -1 <= s < n /\ (forall i, 0 <= i <= s -> k i <= lbn) /\ (forall i, s < i < n -> lbn < k i).

Lemma binsearch_loop_spec (key : Z -> res Z) (k : Z -> Z) n lbn :
  (forall m, 0 <= m < n -> key m = Ok (k m)) ->
  (forall i j, 0 <= i <= j -> j < n -> k i <= k j) ->
  forall fuel l r, 0 <= l -> l <= r + 1 -> r < n -> r - l + 2 <= Z.of_nat fuel ->
  (forall i, 0 <= i < l -> k i <= lbn) -> (forall i, r < i < n -> lbn < k i) ->
  exists s, binsearch_loop key lbn fuel l r = Ok s /\ last_le k n lbn s.
Proof.
  intros Hkey Hsort. induction fuel as [|fuel IH]; intros l r Hl Hlr Hr Hf Hlo Hhi; [lia|].
  cbn [binsearch_loop]. destruct (Z.leb_spec l r) as [Hle|Hgt].
  - set (m := l + (r - l) / 2). assert (l <= m <= r) as Hm by (subst m; Z.div_mod_to_equations; lia).
    cbv zeta. rewrite Hkey by lia. cbn [mbind res_bind].
    destruct (Z.ltb_spec lbn (k m)) as [Hlt|Hge].
    + apply IH; try lia; [done|]. intros i Hi. destruct (decide (r < i)); [apply Hhi; lia|].
      pose proof (Hsort m i). lia.
    + apply IH; try lia; [|done]. intros i Hi. destruct (decide (i < l)); [apply Hlo; lia|].
      pose proof (Hsort i m). lia.
  - exists (l - 1). split; [done|]. split; [lia|]. split; intros i Hi; [apply Hlo; lia|apply Hhi; lia].
Qed.

(** A node with [n] readable extents whose first blocks are [k]. *)
Definition extents_of (node : list Z) (n : Z) (k : Z -> Z) : Prop :=
  eh_ecount node = Ok n /\ 0 <= n /\
  (forall m, 0 <= m < n -> exists e, get_extent node m = Ok e /\ e_blk e = k m) /\
  (forall i j, 0 <= i <= j -> j < n -> k i <= k j).

Lemma binsearch_spec node n k lbn :
  extents_of node n k -> 0 < n -> exists s, ext4_ext_binsearch node lbn = Ok (Some s) /\ last_le k n lbn s.
Proof.
  intros (He & Hn & Hk & Hs) Hn0. unfold ext4_ext_binsearch. rewrite He. cbn [mbind res_bind].
  rewrite (proj2 (Z.eqb_neq n 0)) by lia.
  destruct (binsearch_loop_spec (extent_key node) k n lbn) with (fuel := S (Z.to_nat n)) (l := 0) (r := n - 1)
    as (s & Hb & Hl); try done; try lia.
  - intros m Hm. unfold extent_key. destruct (Hk m Hm) as (e & -> & <-). done.
  - rewrite Hb. eauto.
Qed.

Lemma node_read_inode `{KernelEnv} ip i w : w_inodes w !! ip = Some i -> node_read ip InInode w = Ok (inode_area i, w).
Proof. intros Hi. unfold node_read. erewrite bind_run; [done|]. unfold VTOI. by rewrite Hi. Qed.

Lemma find_extent_inline_run `{KernelEnv} fs ip i lbn n k w path :
  w_inodes w !! ip = Some i ->
  eh_magic (inode_area i) = Ok EXT4_EXT_MAGIC -> eh_depth (inode_area i) = Ok 0 ->
  extents_of (inode_area i) n k -> 0 < n ->
  exists s, ext4_ext_find_extent fs ip lbn path w =
      Ok ((mk_path 0 (ep_bp path) (Some s) None (Some InInode), true), w) /\
    last_le k n lbn s.
Proof.
  intros Hi Hm Hd Hx Hn. destruct (binsearch_spec _ n k lbn Hx Hn) as (s & Hs & Hl). exists s. split; [|done].
  pose proof (node_read_inode ip i w Hi) as Hroot. unfold ext4_ext_find_extent.
  erewrite bind_run by exact Hroot. erewrite bind_run by (by apply lift_run).
  rewrite Z.eqb_refl. cbn [negb]. erewrite bind_run by (by apply lift_run).
  cbn [Z.to_nat find_descend]. erewrite bind_run by reflexivity. cbn [negb ep_header].
  erewrite bind_run by reflexivity. erewrite bind_run by exact Hroot. by erewrite bind_run by (by apply lift_run).
Qed.

(** In an inode whose extents fit in the inode itself, ordered by first
    block, [ext4_ext_find_extent] reads nothing from the device and leaves the
    path at the last extent that starts at or before the block asked for. *)
Theorem find_extent_inline `{KernelEnv} fs ip i lbn n k w path :
  w_inodes w !! ip = Some i ->
  eh_magic (inode_area i) = Ok EXT4_EXT_MAGIC -> eh_depth (inode_area i) = Ok 0 ->
  extents_of (inode_area i) n k -> 0 < n ->
  exists s, ext4_ext_find_extent fs ip lbn path w =
      Ok ((mk_path 0 (ep_bp path) (Some s) None (Some InInode), true), w) /\
    last_le k n lbn s.
Proof. apply find_extent_inline_run. Qed.

(** * The cache *)

Definition extent_in_range (e : ext4_extent) : Prop :=
  u32_ok (e_blk e) /\ u16_ok (e_len e) /\ u16_ok (e_start_hi e) /\ u32_ok (e_start_lo e).

Lemma testbit_u32_high z k : u32_ok z -> 32 <= k -> Z.testbit z k = false.
Proof. intros Hz Hk. rewrite <- (u32_id z Hz). unfold u32. apply Z.mod_pow2_bits_high. lia. Qed.

(** The two parts of a 48-bit block number come out as they went in. *)
Lemma start_parts hi lo :
  u16_ok hi -> u32_ok lo ->
  Z.land (Z.shiftr (Z.lor (Z.shiftl hi 32) lo) 32) 0xffff = hi /\
  Z.land (Z.lor (Z.shiftl hi 32) lo) 0xffffffff = lo.
Proof.
  intros Hh Hl. change 0xffff with (Z.ones 16). change 0xffffffff with (Z.ones 32).
  rewrite !Z.land_ones by lia. rewrite Z.shiftr_lor, Z.shiftr_shiftl_l, Z.shiftl_0_r by lia.
  assert (Z.shiftr lo 32 = 0) as ->.
  { apply Z.bits_inj'. intros k Hk. rewrite Z.shiftr_spec, Z.bits_0 by done. apply testbit_u32_high; [done|lia]. }
  rewrite Z.lor_0_r. split; [by apply u16_id|].
  apply Z.bits_inj'. intros k Hk. destruct (decide (k < 32)).
  - rewrite Z.mod_pow2_bits_low, Z.lor_spec, Z.shiftl_spec_low by lia. done.
  - rewrite Z.mod_pow2_bits_high by lia. by rewrite testbit_u32_high by (done || lia).
Qed.

(** After [ext4_ext_put_cache] the cache answers with the same extent for
    every block the extent covers, and with nothing for the other blocks. *)
Theorem ext_cache_roundtrip ip ep type lbn :
  extent_in_range ep -> type <> EXT4_EXT_CACHE_NO -> e_blk ep + e_len ep < 2 ^ 32 ->
  ext4_ext_in_cache (ext4_ext_put_cache ep type ip) lbn =
    if decide (e_blk ep <= lbn < e_blk ep + e_len ep) then (type, Some ep) else (EXT4_EXT_CACHE_NO, None).
Proof.
  intros (Hb & Hn & Hh & Hl) Ht Hmax. unfold ext4_ext_in_cache, ext4_ext_put_cache. cbn.
  rewrite (proj2 (Z.eqb_neq type _)) by done. unfold u32_ok, u16_ok in *.
  rewrite u32_id by (unfold u32_ok; lia).
  destruct (start_parts (e_start_hi ep) (e_start_lo ep)) as [-> ->]; [done|done|].
  rewrite u16_id by done. destruct (decide _) as [Hin|Hin].
  - destruct (Z.geb_spec lbn (e_blk ep)), (Z.ltb_spec lbn (e_blk ep + e_len ep)); try lia. by destruct ep.
  - destruct (Z.geb_spec lbn (e_blk ep)), (Z.ltb_spec lbn (e_blk ep + e_len ep)); done || lia.
Qed.

(** * What cannot return *)

(** [ext4_ext_drop_refs] never returns: for any path whose buffer is held
    its loop goes on past the one path it was given, because its test compares
    an unsigned 16-bit depth with zero. *)
Theorem drop_refs_diverges `{KernelEnv} path w :
  0 <= ep_depth path -> (forall b, ep_bp path = Some b -> is_Some (w_bufs w !! b)) ->
  ext4_ext_drop_refs path w = Fault OutOfBounds.
Proof.
  intros Hd Hb. unfold ext4_ext_drop_refs. rewrite (proj2 (Z.leb_le 0 _)) by done.
  destruct (ep_bp path) as [b|]; [|done].
  destruct (Hb b eq_refl) as [d Hdd]. erewrite bind_run; [done|]. unfold buf_brelse. by rewrite Hdd.
Qed.

(** [ext4_ext_new_block] never returns on a consistent volume: [ext2_alloc]
    gives the mount lock up, and the unlock that follows it is of a lock that
    is not held. *)
Theorem new_block_misuses_lock `{KE : KernelEnv} fs MAXPHYS B I w ip uid i :
  group_ok fs -> layout_ok fs B I -> env_ok fs MAXPHYS B I ->
  vol_ok fs MAXPHYS B I w -> w_locked w = false -> bitmaps_free fs B I w ->
  w_inodes w !! ip = Some i -> 1 <= ip <= m_gcount fs * sb_ipg fs -> u64_ok ip ->
  e2fs_bcount (m_e2fs fs) <= 2 ^ 31 ->
  ext4_ext_new_block fs MAXPHYS ip uid w = Fault LockMisuse.
Proof.
  intros Hg Hl He Hv Hlk Hfree Hi Hip Hu Hmax. unfold ext4_ext_new_block.
  destruct (eo_sched _ _ _ _ He (w_tick w) w Hv) as [Hv1 Hr1].
  erewrite bind_run; [|unfold EXT2_LOCK; by rewrite Hlk].
  set (w1 := upd_w_tick S _).
  destruct (wp_run _ _ _ (ext2_alloc_wp fs MAXPHYS B I Hg Hl He w1 ip 0 0 (m_bsize fs) uid i Hv1 eq_refl
    ltac:(intros c Hc; cbn; rewrite (re_bufs _ _ _ _ _ Hr1); by apply Hfree)
    ltac:(cbn; by rewrite (re_inodes _ _ _ _ _ Hr1)) Hip Hu ltac:(by left) Hmax)) as (eb & w2 & Hrun & _ & Hlk2 & _).
  erewrite bind_run by exact Hrun. apply bind_fault. unfold EXT2_UNLOCK. by rewrite Hlk2.
Qed.

(** * Inserting into a node with room *)

Lemma put_get_extent node s e node' :
  extent_in_range e -> put_extent node s e = Ok node' ->
  get_extent node' s = Ok e /\ (forall s', s' <> s -> get_extent node' s' = get_extent node s') /\
  (s <> -1 -> eh_ecount node' = eh_ecount node) /\ zlen node' = zlen node.
Proof.
  intros (H1 & H2 & H3 & H4) Hp. unfold get_extent, put_extent in *. split; [|split; [|split]].
  - rewrite (fields_get_put _ _ _ _ _ Hp); [by destruct e|].
    unfold fields_fit, extent_layout, extent_fields, u32_ok, u16_ok in *.
    repeat first [apply Forall2_nil_2 | apply Forall2_cons_2; [cbn; lia|]].
  - intros s' Hne. rewrite (fields_get_disj _ _ _ _ _ _ Hp); [done|].
    rewrite fields_encode_len by done. change (layout_size extent_layout) with 12. unfold slot_off. lia.
  - intros Hs. unfold eh_ecount, get16. unfold get_le.
    rewrite (get_put_bytes_disj _ _ _ _ 2 2 Hp); [done|].
    rewrite fields_encode_len by done. change (layout_size extent_layout) with 12. unfold slot_off. lia.
  - by eapply put_bytes_len.
Qed.

Lemma put_extent_defined node s e : 0 <= s -> slot_off s + 12 <= zlen node -> exists node', put_extent node s e = Ok node'.
Proof.
  intros Hs Hl. unfold put_extent, fields_put. eexists. apply put_bytes_ok; [unfold slot_off; lia|].
  rewrite fields_encode_len by done. change (layout_size extent_layout) with 12. lia.
Qed.

Lemma get_extent_defined node s : 0 <= s -> slot_off s + 12 <= zlen node -> exists e, get_extent node s = Ok e.
Proof.
  intros Hs Hl. unfold get_extent. destruct (fields_get_ok node extent_layout (slot_off s)) as (vs & -> & Hv).
  - unfold slot_off. lia.
  - change (layout_size extent_layout) with 12. done.
  - do 4 (destruct vs as [|? vs]; [done|]). destruct vs; [|done]. cbn. eauto.
Qed.

Lemma get_extent_range node s e : bytes_ok node -> get_extent node s = Ok e -> extent_in_range e.
Proof.
  intros Hb. unfold get_extent. destruct (fields_get node (slot_off s) extent_layout) as [l|] eqn:Hl; [|done].
  pose proof (fields_get_fit _ _ _ _ Hb Hl) as Hf. cbn.
  repeat (destruct l as [|? l]; [by inversion Hf; subst; done|]).
  destruct l; [|done]. intros [= <-]. unfold extent_layout, fields_fit in Hf.
  repeat match goal with H : Forall2 _ (_ :: _) (_ :: _) |- _ => inversion H; clear H; subst end.
  unfold extent_in_range, u32_ok, u16_ok. cbn in *. lia.
Qed.

Lemma set_ecount_frame node v node' : set_ecount node v = Ok node' -> u16_ok v ->
  eh_ecount node' = Ok v /\ forall s, 0 <= s -> get_extent node' s = get_extent node s.
Proof.
  intros H Hv. split.
  - unfold eh_ecount, get16. rewrite (get_put_le_same _ _ _ _ _ H). f_equal. by apply u16_id.
  - intros s Hs. unfold get_extent. rewrite (fields_get_disj _ _ _ _ _ _ H); [done|].
    unfold zlen. rewrite length_le_split. unfold slot_off. lia.
Qed.

(** Inserting after the last of two or more extents of a node with room
    does not append: the last extent is overwritten by the new one, the slot
    after it keeps whatever was there, and the count grows, so the node loses
    an extent and gains a stale entry. *)
Theorem insert_after_last_loses node n ex newext :
  bytes_ok node -> eh_ecount node = Ok n -> 2 <= n < 2 ^ 15 -> slot_off (2 * n - 1) + 12 <= zlen node ->
  extent_in_range newext -> get_extent node n = Ok ex ->
  exists node', insert_in_node node (n - 1) newext = Ok node' /\ eh_ecount node' = Ok (n + 1) /\
    get_extent node' (n - 1) = Ok newext /\ get_extent node' n = Ok ex /\
    (forall s, 0 <= s < n - 1 -> get_extent node' s = get_extent node s).
Proof.
  intros Hb Hn Hnr Hlen Hnew Hex. unfold insert_in_node. rewrite Hn. cbn [mbind res_bind].
  replace (Z.to_nat (n - (n - 1))) with 1%nat by lia. cbn [shift_right].
  destruct (Z.gtb_spec n (n - 1)); [|lia].
  destruct (get_extent_defined node (n - 1 + n - 1)) as [e He]; [lia|unfold slot_off in *; lia|].
  rewrite He. cbn [mbind res_bind].
  destruct (put_extent_defined node (n - 1 + n) e) as [n1 H1]; [lia|unfold slot_off in *; lia|].
  rewrite H1. cbn [mbind res_bind]. destruct (Z.gtb_spec (n - 1) (n - 1)); [lia|].
  destruct (put_get_extent _ _ _ _ (get_extent_range _ _ _ Hb He) H1) as (_ & Hne1 & Hec1 & Hl1).
  cbn [mbind res_bind mret res_ret].
  destruct (put_extent_defined n1 (n - 1) newext) as [n2 H2]; [lia|rewrite Hl1; unfold slot_off in *; lia|].
  rewrite H2. cbn [mbind res_bind].
  destruct (put_get_extent _ _ _ _ Hnew H2) as (Hsame & Hne2 & Hec2 & Hl2).
  assert (u16 (n + 1) = n + 1) as -> by (apply u16_id; unfold u16_ok; lia).
  destruct (put_le_ok n2 2 2 (n + 1)) as [n3 H3]; [lia|unfold slot_off, zlen in *; cbn; lia|].
  unfold set_ecount, put16. rewrite H3.
  destruct (set_ecount_frame _ _ _ H3) as [Hc Hfr]; [unfold u16_ok; lia|].
  exists n3. split; [done|]. split; [done|].
  split; [by rewrite Hfr by lia|]. split.
  - rewrite Hfr, Hne2, Hne1 by lia. done.
  - intros s Hs. rewrite Hfr, Hne2, Hne1 by lia. done.
Qed.

