(* ===== verification/Frame.v ===== *)
(** What a definition leaves alone. A frame is a preorder on worlds that the
    services of the kernel respect; [framed R m] says that every run of [m] stays
    within [R] when other threads do. Two frames are used: the buffers and the
    contents of a file, and the size of an inode. The hint database [framed] and
    the tactic [frame] go through a definition. *)
From stdpp Require Import gmap.
From S2P Require Import Prelude Bitmap Bytes Super Kernel Cluster Alloc Extents.

(** What updates of the volume, its lock and its buffers stay within. *)
Class Frame (R : world -> world -> Prop) : Prop := mk_frame {
  fr_po :: PreOrder R;
  fr_tick : forall f w, R w (upd_w_tick f w);
  fr_locked : forall f w, R w (upd_w_locked f w);
  fr_bufs : forall f w, R w (upd_w_bufs f w);
  fr_dev : forall f w, R w (upd_w_dev f w);
  fr_gd : forall f w, R w (upd_w_gd f w);
  fr_fbcount : forall f w, R w (upd_w_fbcount f w);
  fr_ficount : forall f w, R w (upd_w_ficount f w);
  fr_fmod : forall f w, R w (upd_w_fmod f w);
  fr_total_dir : forall f w, R w (upd_w_total_dir f w);
  fr_contigdirs : forall f w, R w (upd_w_contigdirs f w);
  fr_maxcluster : forall f w, R w (upd_w_maxcluster f w);
  fr_clustersum : forall f w, R w (upd_w_clustersum f w)
}.

(** The same for the buffers of files. *)
Class FrameFiles (R : world -> world -> Prop) : Prop := mk_frame_files {
  fr_fbufs : forall f w, R w (upd_w_fbufs f w);
  fr_fdata : forall f w, R w (upd_w_fdata f w)
}.

(** A change of an in-core inode within the frame. *)
Definition frame_inode (R : world -> world -> Prop) (j : Z) (f : inode -> inode) : Prop :=
  forall w i, w_inodes w !! j = Some i -> R w (upd_w_inodes (insert j (f i)) w).

Record env_within `{KernelEnv} (R : world -> world -> Prop) : Prop := mk_env_within {
  ew_sched : forall n w, R w (ke_sched n w);
  ew_wait : forall n b w, R w (ke_wait n b w)
}.

Definition framed `{KernelEnv} (R : world -> world -> Prop) {A} (m : M world A) : Prop :=
  forall w a w', m w = Ok (a, w') -> R w w'.

Section frame.
Context `{KernelEnv} (R : world -> world -> Prop) `{!Frame R}.

Lemma wp_framed {A} (m : M world A) (Q : A -> world -> Prop) w :
  framed R m -> wp m Q w -> wp m (fun a w' => Q a w' /\ R w w') w.
Proof. unfold framed, wp. intros Hf. destruct (m w) as [[a w']|] eqn:E; [|done]. eauto. Qed.

Lemma framed_ret {A} (a : A) : framed R (mret a).
Proof. intros w b w' [= <- <-]. done. Qed.

Lemma framed_bind {A B} (m : M world A) (k : A -> M world B) :
  framed R m -> (forall a, framed R (k a)) -> framed R (m ≫= k).
Proof.
  intros Hm Hk w b w'. unfold mbind, M_bind. destruct (m w) as [[a w1]|] eqn:E; [|done]. intros Hr.
  etransitivity; [by eapply Hm|by eapply Hk].
Qed.

Lemma framed_halt {A} f : framed R (halt f : M world A).
Proof. by intros w a w'. Qed.

Lemma framed_lift {A} (r : res A) : framed R (lift r).
Proof. intros w a w'. unfold lift. destruct r; [|done]. by intros [= <- <-]. Qed.

Lemma framed_gets {A} (f : world -> A) : framed R (gets f).
Proof. by intros w a w' [= <- <-]. Qed.

Lemma framed_modify (f : world -> world) : (forall w, R w (f w)) -> framed R (modify f).
Proof. intros Hf w a w' [= <- <-]. done. Qed.

Context (Henv : env_within R).

(** A service is a chain of updates, after what other threads do. *)
Lemma fr_step w w1 w' : R w w1 -> R w1 w' -> R w w'.
Proof. intros; by etransitivity. Qed.

#[local] Ltac chain := repeat first
  [ done | apply (ew_sched R Henv) | apply (ew_wait R Henv)
  | eapply fr_step; [|first [apply fr_tick | apply fr_locked | apply fr_bufs | apply fr_dev | apply fr_gd
                            | apply fr_fbufs | apply fr_fdata]] ].
#[local] Ltac service := intros w a w'; cbn [mbind M_bind mret M_ret]; repeat case_match; intros [= <- <-]; chain.

Lemma framed_lock : framed R EXT2_LOCK.
Proof. unfold EXT2_LOCK. service. Qed.
Lemma framed_unlock : framed R EXT2_UNLOCK.
Proof. unfold EXT2_UNLOCK. service. Qed.
Lemma framed_assert : framed R LCK_MTX_ASSERT_OWNED.
Proof. unfold LCK_MTX_ASSERT_OWNED. service. Qed.
Lemma framed_bread b n : framed R (buf_meta_bread b n).
Proof. unfold buf_meta_bread. service. Qed.
Lemma framed_getblk b n : framed R (buf_getblk b n).
Proof. unfold buf_getblk. service. Qed.
Lemma framed_dataptr b : framed R (buf_dataptr b).
Proof. unfold buf_dataptr. service. Qed.
Lemma framed_store b d : framed R (buf_store b d).
Proof. unfold buf_store. service. Qed.
Lemma framed_brelse b : framed R (buf_brelse b).
Proof. unfold buf_brelse. service. Qed.
Lemma framed_bdwrite b : framed R (buf_bdwrite b).
Proof. unfold buf_bdwrite. service. Qed.
Lemma framed_bwrite b : framed R (buf_bwrite b).
Proof. unfold buf_bwrite. service. Qed.
Lemma framed_VTOI i : framed R (VTOI i).
Proof. unfold VTOI. service. Qed.
Lemma framed_GD cg : framed R (GD cg).
Proof. unfold GD. service. Qed.
Lemma framed_upd_GD cg f : framed R (upd_GD cg f).
Proof. unfold upd_GD. service. Qed.
Lemma framed_random : framed R read_random.
Proof. unfold read_random. service. Qed.
Lemma framed_now : framed R nanotime.
Proof. unfold nanotime. service. Qed.

Lemma framed_upd_inode j f : frame_inode R j f -> framed R (upd_inode j f).
Proof. intros Hf w a w'. unfold upd_inode. destruct (w_inodes w !! j) as [i|] eqn:Hi; [|done]. intros [= <- <-]. by apply Hf. Qed.

Section files.
Context `{!FrameFiles R}.

Lemma framed_file_bread i lbn n : framed R (file_meta_bread i lbn n).
Proof. unfold file_meta_bread. service. Qed.
Lemma framed_file_getblk i lbn n : framed R (file_getblk i lbn n).
Proof. unfold file_getblk. service. Qed.
Lemma framed_ref_dataptr r : framed R (ref_dataptr r).
Proof. destruct r; [apply framed_dataptr|]. cbn [ref_dataptr]. service. Qed.
Lemma framed_ref_store r d : framed R (ref_store r d).
Proof. destruct r; [apply framed_store|]. cbn [ref_store]. service. Qed.
Lemma framed_ref_brelse r : framed R (ref_brelse r).
Proof. destruct r; [apply framed_brelse|]. cbn [ref_brelse]. service. Qed.
Lemma framed_ref_bdwrite r : framed R (ref_bdwrite r).
Proof. destruct r; [apply framed_bdwrite|]. cbn [ref_bdwrite]. service. Qed.
Lemma framed_ref_bwrite r : framed R (ref_bwrite r).
Proof. destruct r; [apply framed_bwrite|]. cbn [ref_bwrite]. service. Qed.
End files.

End frame.

Create HintDb framed.
#[export] Hint Resolve framed_ret framed_halt framed_lift framed_gets framed_lock framed_unlock framed_assert
  framed_bread framed_getblk framed_dataptr framed_store framed_brelse framed_bdwrite framed_bwrite
  framed_VTOI framed_GD framed_upd_GD framed_random framed_now
  framed_file_bread framed_file_getblk framed_ref_dataptr framed_ref_store framed_ref_brelse framed_ref_bdwrite
  framed_ref_bwrite : framed.
#[export] Hint Extern 0 (Frame _) => assumption || (typeclasses eauto) : framed.
#[export] Hint Extern 0 (FrameFiles _) => assumption || (typeclasses eauto) : framed.

(** Goes through a definition whose parts are known to be framed; what is left
    are the changes of inodes. *)
Ltac frame_modify :=
  apply framed_modify; intros ?;
  first [apply fr_fbcount | apply fr_ficount | apply fr_fmod | apply fr_total_dir | apply fr_contigdirs
        | apply fr_maxcluster | apply fr_clustersum | apply fr_gd].
Ltac frame :=
  repeat first
    [ solve [eauto with framed nocore typeclass_instances]
    | lazymatch goal with
      | |- framed _ (_ ≫= _) => apply framed_bind; [try typeclasses eauto|..|intros ?]
      | |- framed _ (modify _) => frame_modify
      | |- framed _ (upd_inode _ _) => apply framed_upd_inode
      | |- framed _ (match ?x with _ => _ end) => destruct x
      | |- framed _ (let _ := _ in _) => cbv zeta
      | |- forall _, _ => intros ?
      end ].

(** Changes of an inode that keep its size. *)
Class FrameSize (R : world -> world -> Prop) : Prop :=
  fr_size : forall w j i i', w_inodes w !! j = Some i -> i_size i' = i_size i -> R w (upd_w_inodes (insert j i') w).

Lemma framed_keep_size `{KernelEnv} R `{!FrameSize R} j f : (forall i, i_size (f i) = i_size i) -> framed R (upd_inode j f).
Proof. intros Hf. apply framed_upd_inode. intros w i Hi. by apply (fr_size w j i). Qed.

Ltac frame_sizes := frame; try (let Hi := fresh in intros ? ? Hi; eapply fr_size; [exact Hi|reflexivity]).

(** * The allocator *)

Section alloc.
Context `{KernelEnv} (R : world -> world -> Prop) `{!Frame R, !FrameSize R} (Henv : env_within R) (fs : m_ext2fs) (MAXPHYS : Z).

Lemma framed_clusteracct bbp cg bno cnt : framed R (ext2_clusteracct fs MAXPHYS bbp cg bno cnt).
Proof. unfold ext2_clusteracct. frame. Qed.
#[local] Hint Resolve framed_clusteracct : framed.

Lemma framed_alloccg i cg pref size : framed R (ext2_alloccg fs MAXPHYS i cg pref size).
Proof. unfold ext2_alloccg. frame. Qed.

Lemma framed_nodealloccg i cg pref mode : framed R (ext2_nodealloccg fs i cg pref mode).
Proof. unfold ext2_nodealloccg. frame. Qed.

Section hashalloc.
Context (allocator : Z -> Z -> Z -> Z -> M world Z) (Ha : forall i cg pref size, framed R (allocator i cg pref size)).

Lemma framed_quad i size fuel : forall k cg, framed R (quad_loop fs allocator i size fuel k cg).
Proof. induction fuel as [|fuel IH]; intros k cg; cbn [quad_loop]; frame. Qed.

Lemma framed_brute i size n : forall cg, framed R (brute_loop fs allocator i size n cg).
Proof. induction n as [|n IH]; intros cg; cbn [brute_loop]; frame. Qed.

Lemma framed_hashalloc i size cg pref : framed R (ext2_hashalloc fs allocator i size cg pref).
Proof. unfold ext2_hashalloc. pose proof framed_quad. pose proof framed_brute. frame. Qed.
End hashalloc.

Lemma framed_alloc i lbn bpref size uid : framed R (ext2_alloc fs MAXPHYS i lbn bpref size uid).
Proof. unfold ext2_alloc. pose proof framed_hashalloc. pose proof framed_alloccg. frame_sizes. Qed.

Lemma framed_blkfree i bno size : framed R (ext2_blkfree fs MAXPHYS i bno size).
Proof. unfold ext2_blkfree. frame. Qed.

Lemma framed_vfree ronly ino mode : framed R (ext2_vfree fs ronly ino mode).
Proof. unfold ext2_vfree. frame. Qed.

Lemma framed_blkpref i lbn indx bap blocknr : framed R (ext2_blkpref fs i lbn indx bap blocknr).
Proof. unfold ext2_blkpref. frame. Qed.

(** * The extent tree *)

#[local] Hint Resolve framed_alloc framed_blkfree framed_vfree framed_blkpref : framed.

Lemma framed_deref {A} (o : option A) : framed R (deref o).
Proof. unfold deref. frame. Qed.
Lemma framed_node_read i n : framed R (node_read i n).
Proof. unfold node_read. frame. Qed.
Lemma framed_node_write i n bs : framed R (node_write i n bs).
Proof. unfold node_write. frame_sizes. Qed.
#[local] Hint Resolve @framed_deref framed_node_read framed_node_write : framed.

Lemma framed_find_descend i lbn depth : forall path, framed R (find_descend fs i lbn depth path).
Proof. induction depth as [|depth IH]; intros path; cbn [find_descend]; frame. Qed.
#[local] Hint Resolve framed_find_descend : framed.

Lemma framed_find_extent i lbn path : framed R (ext4_ext_find_extent fs i lbn path).
Proof. unfold ext4_ext_find_extent. frame. Qed.

Lemma framed_drop_refs path : framed R (ext4_ext_drop_refs path).
Proof. unfold ext4_ext_drop_refs. frame. Qed.

Lemma framed_new_block i uid : framed R (ext4_ext_new_block fs MAXPHYS i uid).
Proof. unfold ext4_ext_new_block. frame. Qed.
#[local] Hint Resolve framed_new_block : framed.

Lemma framed_free_block i b : framed R (free_block fs MAXPHYS i b).
Proof. unfold free_block. frame. Qed.
#[local] Hint Resolve framed_free_block : framed.

Lemma framed_grow_depth0 i uid path e : framed R (ext4_ext_grow_depth0 fs MAXPHYS i uid path e).
Proof. unfold ext4_ext_grow_depth0. frame_sizes. Qed.

Lemma framed_split_leaf i path e b : framed R (ext4_ext_split_leaf fs MAXPHYS i path e b).
Proof. unfold ext4_ext_split_leaf. frame_sizes. Qed.
#[local] Hint Resolve framed_grow_depth0 framed_split_leaf : framed.

Lemma framed_insert_extent i uid path e : framed R (ext4_ext_insert_extent fs MAXPHYS i uid path e).
Proof. unfold ext4_ext_insert_extent. frame_sizes. Qed.

End alloc.

#[export] Hint Resolve framed_clusteracct framed_alloc framed_blkfree framed_vfree framed_blkpref @framed_deref
  framed_node_read framed_node_write framed_find_extent framed_drop_refs framed_new_block framed_insert_extent : framed.

(** * The two frames *)

(** The buffers this thread holds of files, and what the file [ip] holds. *)
Record file_frame (ip : Z) (w w' : world) : Prop := mk_file_frame {
  ff_fbufs : w_fbufs w' = w_fbufs w;
  ff_fdata : forall lbn, w_fdata w' !! (ip, lbn) = w_fdata w !! (ip, lbn)
}.

#[global] Instance file_frame_po ip : PreOrder (file_frame ip).
Proof. split; [by constructor|]. intros w1 w2 w3 [] []. constructor; congruence. Qed.
#[global] Instance file_frame_frame ip : Frame (file_frame ip).
Proof. constructor; [apply _|intros; by constructor..]. Qed.
#[global] Instance file_frame_size ip : FrameSize (file_frame ip).
Proof. intros w j i i' _ _. by constructor. Qed.

Abbreviation env_frame ip := (env_within (file_frame ip)).

(** The size of inode [ip]. *)
Definition size_frame (ip : Z) (w w' : world) : Prop := i_size <$> w_inodes w' !! ip = i_size <$> w_inodes w !! ip.

#[global] Instance size_frame_po ip : PreOrder (size_frame ip).
Proof. split; [done|]. unfold size_frame. intros w1 w2 w3 H1 H2. congruence. Qed.
#[global] Instance size_frame_frame ip : Frame (size_frame ip).
Proof. constructor; [apply _|done..]. Qed.
#[global] Instance size_frame_files ip : FrameFiles (size_frame ip).
Proof. by constructor. Qed.
#[global] Instance size_frame_size ip : FrameSize (size_frame ip).
Proof.
  intros w j i i' Hi Hs. unfold size_frame. cbn. destruct (decide (j = ip)) as [->|Hne].
  - rewrite lookup_insert_eq, Hi. cbn. by rewrite Hs.
  - by rewrite lookup_insert_ne.
Qed.
