(* ===== verification/Bmap.v ===== *)
(** From logical to device blocks, ext2_bmap.c: the path of indirect blocks that
    leads to a logical block ([ext2_getlbns]), the walk along it
    ([ext2_bmaparray]), the same through an extent tree ([ext4_bmapext]) and
    the operations on byte offsets built on them. *)
From stdpp Require Import gmap.
From S2P Require Import Prelude Bitmap Bytes Super Kernel Cluster Alloc Extents.

(** struct indir. *)
Record indir : Type := mk_indir { in_lbn : Z; in_off : Z }.

Section mount_macros.
Context (fs : m_ext2fs).

(** The fields of struct ext2mount that [ext2_mountfs] derives from the superblock. *)
Definition um_nindir : Z := m_bsize fs / 4.
Definition um_bptrtodb : Z := e2fs_log_bsize (m_e2fs fs) + 1.
Definition um_seqinc : Z := m_fpb fs.

(** [blkptrtodb] of an e2fs_daddr_t, and of a daddr64_t. *)
Definition blkptrtodb32 (b : Z) : Z := u32 (Z.shiftl b um_bptrtodb).
Definition blkptrtodb64 (b : Z) : Z := s64 (Z.shiftl b um_bptrtodb).

Definition is_sequential (a b : Z) : bool := b =? a + um_seqinc.
End mount_macros.

(** * ext2_getlbns *)

Section getlbns.
Context (nindir : Z).

(** The search for the level: [i] levels are left to try. [None] is EFBIG. *)
Fixpoint find_level (i : nat) (blockcnt bn : Z) : option (nat * Z * Z) :=
  match i with
  | O => None
  | S i' =>
      let qblockcnt := blockcnt * nindir in
      if bn <? qblockcnt then Some (i, blockcnt, bn)
      else find_level i' qblockcnt (bn - qblockcnt)
  end.

Fixpoint lbn_path (rounds : nat) (realbn metalbn blockcnt bn : Z) : list indir :=
  match rounds with
  | O => []
  | S rounds' =>
      if metalbn =? realbn then []
      else
        let off := (bn / blockcnt) mod nindir in
        mk_indir metalbn off ::
          lbn_path rounds' realbn (metalbn - (-1 + off * blockcnt)) (blockcnt / nindir) bn
  end.

(** An errno, or the entries written to [ap], whose number goes to [*nump]. *)
Definition ext2_getlbns (bn : Z) : list indir + Z :=
  let realbn := bn in
  let bn := if bn <? 0 then - bn else bn in
  if bn <? NDADDR then inl []
  else
    match find_level (Z.to_nat NIADDR) 1 (bn - NDADDR) with
    | None => inr EFBIG
    | Some (i, blockcnt, bn) =>
        let off := NIADDR - Z.of_nat i in
        let metalbn := if 0 <=? realbn then - (realbn - bn + off) else - (- realbn - bn + off) in
        inl (mk_indir metalbn off :: lbn_path (4 - i) realbn metalbn blockcnt bn)
    end.
End getlbns.

(** * The walk *)

(** [for (++bn; bn < limit && *runp < maxrun && is_sequential(bap[bn - 1], bap[bn]); ++bn, ++*runp)],
    from [bn] with [*runp = run] on. *)
Fixpoint run_forward (fs : m_ext2fs) (bap : list Z) (limit maxrun : Z) (fuel : nat) (bn run : Z) : res Z :=
  if (bn <? limit) && (run <? maxrun) then
    a ← access (bap !z (bn - 1)); b ← access (bap !z bn);
    if is_sequential fs a b then
      match fuel with
      | O => Fault NoFuel
      | S fuel' => run_forward fs bap limit maxrun fuel' (bn + 1) (run + 1)
      end
    else mret run
  else mret run.

(** [for (--bn; bn >= 0 && *runb < maxrun && is_sequential(bap[bn], bap[bn + 1]); --bn, ++*runb)]. *)
Fixpoint run_backward (fs : m_ext2fs) (bap : list Z) (maxrun : Z) (fuel : nat) (bn run : Z) : res Z :=
  if (bn >=? 0) && (run <? maxrun) then
    a ← access (bap !z bn); b ← access (bap !z (bn + 1));
    if is_sequential fs a b then
      match fuel with
      | O => Fault NoFuel
      | S fuel' => run_backward fs bap maxrun fuel' (bn - 1) (run + 1)
      end
    else mret run
  else mret run.

(** What the caller's pointers hold afterwards; [bnp] is not written on error. *)
Record bmap_result : Type := mk_bmap { bm_error : Z; bm_bnp : option Z; bm_run : Z; bm_runb : Z }.

Definition bmap_failed (error : Z) : bmap_result := mk_bmap error None 0 0.

(** Both runs around entry [bn] of [bap]. *)
Definition measure_runs (fs : m_ext2fs) (bap : list Z) (limit maxrun bn : Z) (runp runb : bool) : res (Z * Z) :=
  if runp then
    run ← run_forward fs bap limit maxrun (Z.to_nat (limit - bn)) (bn + 1) 0;
    back ← (if runb && (bn >? 0) then run_backward fs bap maxrun (Z.to_nat bn) (bn - 1) 0 else mret 0);
    mret (run, back)
  else mret (0, 0).

(** An indirect block as the array of block numbers it holds. *)
Definition daddrs (bs : list Z) : list Z := words (Z.to_nat (zlen bs / 4)) bs.

Section bmap.
Context `{KernelEnv} (fs : m_ext2fs).

(** [ioattr.io_maxreadcnt] of the mount. *)
Context (io_maxreadcnt : Z).

Abbreviation K := (M world).

Definition bmap_maxrun (runp : bool) : Z :=
  if runp then Z.max 0 (s32 (io_maxreadcnt / m_bsize fs) - 1) else 0.

Definition release (bp : option Z) : K unit :=
  match bp with Some b => buf_brelse b | None => mret tt end.

(** The loop over the entries after the first. [bp] is the buffer in hand,
    [runs] what the runs hold. The result is an errno or the last address. *)
Fixpoint bmap_walk (bn : Z) (runp runb : bool) (path : list indir) (bp : option Z) (daddr : Z) (runs : Z * Z)
    : K (Z + Z * (Z * Z)) :=
  match path with
  | [] => release bp;; mret (inr (daddr, runs))
  | a :: path' =>
      if (daddr =? 0) || (in_lbn a =? bn) then release bp;; mret (inr (daddr, runs))
      else
        release bp;;
        let b := blkptrtodb64 fs daddr in
        error ← buf_meta_bread b (m_bsize fs);
        if negb (error =? 0) then (buf_brelse b;; mret (inl error))
        else
          data ← buf_dataptr b;
          let bap := daddrs data in
          daddr' ← lift (access (bap !z in_off a));
          runs' ← (if match path' with [] => true | _ => false end && negb (daddr' =? 0)
                   then lift (measure_runs fs bap (um_nindir fs) (bmap_maxrun runp) (in_off a) runp runb)
                   else mret runs);
          bmap_walk bn runp runb path' (Some b) daddr' runs'
  end.

Definition ext2_bmaparray (ip bn : Z) (runp runb : bool) : K bmap_result :=
  i ← VTOI ip;
  match ext2_getlbns (um_nindir fs) bn with
  | inr error => mret (bmap_failed error)
  | inl [] =>
      p ← lift (access (i_db i !z bn));
      let bnp := blkptrtodb32 fs p in
      if bnp =? 0 then mret (mk_bmap 0 (Some (-1)) 0 0)
      else
        runs ← lift (measure_runs fs (i_db i) NDADDR (bmap_maxrun runp) bn runp runb);
        mret (mk_bmap 0 (Some bnp) (fst runs) (snd runs))
  | inl (a :: path) =>
      daddr ← lift (access (i_ib i !z in_off a));
      r ← bmap_walk bn runp runb path None daddr (0, 0);
      match r with
      | inl error => mret (mk_bmap error None 0 0)
      | inr (daddr, runs) =>
          let bnp := blkptrtodb64 fs daddr in
          mret (mk_bmap 0 (Some (if bnp =? 0 then -1 else bnp)) (fst runs) (snd runs))
      end
  end.

(** [ext4_bmapext]: the buffer of the path is not released. *)
Definition ext4_bmapext (ip bn : Z) : K bmap_result :=
  r ← ext4_ext_find_extent fs ip bn path0;
  match ep_ext (fst r) with
  | None => mret (bmap_failed EIO)
  | Some s =>
      hdr ← deref (ep_header (fst r));
      node ← node_read ip hdr;
      ep ← lift (get_extent node s);
      let start := Z.lor (e_start_lo ep) (Z.shiftl (e_start_hi ep) 32) in
      let bnp := fsbtodb fs (bn - e_blk ep + start) in
      mret (mk_bmap 0 (Some (if bnp =? 0 then -1 else bnp)) 0 0)
  end.

(** [ext2_blockmap]: an errno, or the device block (-1 for a hole) and the
    bytes that follow it contiguously; both pointers are asked for. *)
Definition blockmap_contig (foffset size isize run : Z) : Z :=
  let contig := (run + 1) * m_bsize fs - blkoff fs foffset in
  let contig := if contig >? size then size else contig in
  let contig := if foffset + contig >? isize then isize - foffset else contig in
  if contig <? 0 then 0 else contig.

Definition ext2_blockmap (ip foffset size : Z) : K (Z * Z + Z) :=
  i ← VTOI ip;
  let lbn := lblkno fs foffset in
  r ← (if has_feature (i_flag i) IN_E4EXTENTS then ext4_bmapext ip lbn
       else ext2_bmaparray ip lbn true false);
  if negb (bm_error r =? 0) then mret (inr (bm_error r))
  else
    bn ← deref (bm_bnp r);
    if bn <? 0 then mret (inl (-1, 0))
    else mret (inl (bn + Z.shiftr (blkoff fs foffset) 9, blockmap_contig foffset size (i_size i) (bm_run r))).

Definition ext2_blktooff (lblkno : Z) : Z := s64 (lblkno * m_bsize fs).
Definition ext2_offtoblk (offset : Z) : Z := cdiv offset (m_bsize fs).

End bmap.
