(* ===== verification/BmapSpec.v ===== *)
(** Block mapping is right: the path of [ext2_getlbns] is the mixed-radix
    representation of the block, [ext2_bmaparray] follows it to the address the
    tree of indirect blocks holds, and the byte ranges of [ext2_blockmap] stay
    inside the file. *)
From stdpp Require Import gmap.
From S2P Require Import Prelude Bitmap Bytes Super Kernel Cluster Alloc Extents ExtentsSpec Bmap.

(** * Paths as numbers in base [n] *)

Section radix.
Context (n : Z) (Hn : 4 <= n).

(** The number that digits, most significant first, stand for. *)
Fixpoint digits (os : list Z) : Z :=
  match os with [] => 0 | o :: os' => o * n ^ zlen os' + digits os' end.

Definition is_digit (o : Z) : Prop := 0 <= o < n.

(** The first block that [level] levels of indirection map. *)
Definition level_base (level : Z) : Z :=
  if level =? 1 then NDADDR
  else if level =? 2 then NDADDR + n
  else if level =? 3 then NDADDR + n + n ^ 2
  else NDADDR + n + n ^ 2 + n ^ 3.

(** The first data block below the indirect block that the first [k] offsets lead to. *)
Definition first_below (os : list Z) (k : nat) : Z := digits (take k os ++ replicate (length os - k) 0).

Lemma zlen_cons {A} (x : A) l : zlen (x :: l) = zlen l + 1.
Proof. unfold zlen. cbn. lia. Qed.

Lemma digits_range os : Forall is_digit os -> 0 <= digits os < n ^ zlen os.
Proof.
  induction 1 as [|o os [Ho1 Ho2] _ IH]; [change (0 <= 0 < n ^ 0); lia|]. cbn [digits]. rewrite zlen_cons.
  assert (0 <= zlen os) by (unfold zlen; lia). rewrite Z.pow_add_r, Z.pow_1_r by lia.
  assert (0 <= o * n ^ zlen os) by (apply Z.mul_nonneg_nonneg; lia).
  assert (o * n ^ zlen os <= (n - 1) * n ^ zlen os) by (apply Z.mul_le_mono_nonneg_r; lia). lia.
Qed.

Lemma digits_zeros k : digits (replicate k 0) = 0.
Proof. induction k; [done|]. cbn. by rewrite IHk. Qed.

Lemma first_below_0 os : first_below os 0 = 0.
Proof. unfold first_below. cbn. apply digits_zeros. Qed.

Lemma first_below_S o os k :
  (k <= length os)%nat -> first_below (o :: os) (S k) = o * n ^ zlen os + first_below os k.
Proof.
  intros Hk. unfold first_below. cbn [take length Nat.sub app digits]. f_equal. f_equal. f_equal.
  unfold zlen. rewrite length_app, length_take, length_replicate. lia.
Qed.

Lemma first_below_all os : first_below os (length os) = digits os.
Proof. unfold first_below. by rewrite firstn_all, Nat.sub_diag, app_nil_r. Qed.

(** The entries after the first, when the block asked for is a data block. *)
Lemma lbn_path_data rounds : forall realbn meta bn,
  0 <= realbn -> 0 <= bn -> meta + Z.of_nat rounds <= 0 ->
  let p := lbn_path n rounds realbn meta (n ^ (Z.of_nat rounds - 1)) bn in
  length p = rounds /\ Forall is_digit (in_off <$> p) /\ digits (in_off <$> p) = bn mod n ^ Z.of_nat rounds /\
  (forall k e, p !! k = Some e -> in_lbn e = meta + Z.of_nat k - first_below (in_off <$> p) k).
Proof.
  induction rounds as [|rounds IH]; intros realbn meta bn Hr Hbn Hm; cbn [lbn_path].
  { cbv zeta. split_and!; [done|constructor|by rewrite Z.mod_1_r|done]. }
  rewrite (proj2 (Z.eqb_neq _ _)) by lia. cbv zeta.
  replace (Z.of_nat (S rounds) - 1) with (Z.of_nat rounds) by lia.
  set (B := n ^ Z.of_nat rounds). assert (0 < B) as HB by (apply Z.pow_pos_nonneg; lia).
  set (off := (bn / B) mod n). assert (0 <= off < n) as Hoff by (apply Z.mod_pos_bound; lia).
  assert (lbn_path n rounds realbn (meta - (-1 + off * B)) (B / n) bn =
          lbn_path n rounds realbn (meta - (-1 + off * B)) (n ^ (Z.of_nat rounds - 1)) bn) as ->.
  { destruct rounds as [|r]; [done|]. f_equal. subst B. rewrite Nat2Z.inj_succ, Z.pow_succ_r by lia.
    rewrite Z.mul_comm, Z.div_mul by lia. f_equal. lia. }
  destruct (IH realbn (meta - (-1 + off * B)) bn) as (Hlen & Hdig & Hval & Hlbn); [done|done|nia|].
  cbv zeta in *. revert Hlen Hdig Hval Hlbn.
  set (p := lbn_path _ _ _ _ _ _). intros Hlen Hdig Hval Hlbn. rewrite fmap_cons. cbn [in_off length].
  assert (zlen (in_off <$> p) = Z.of_nat rounds) as Hz by (unfold zlen; rewrite length_fmap; lia).
  split; [lia|]. split; [by constructor|]. split.
  - cbn [digits]. rewrite Hz, Hval. fold B. rewrite Nat2Z.inj_succ, Z.pow_succ_r by lia. fold B.
    rewrite (Z.mul_comm n B), Z.rem_mul_r by lia. subst off. lia.
  - intros [|k] e He; cbn in He.
    + injection He as <-. rewrite first_below_0. cbn. lia.
    + rewrite (Hlbn _ _ He), first_below_S, Hz; [fold B; lia|].
      apply lookup_lt_Some in He. rewrite length_fmap. lia.
Qed.

(** The level [find_level] chooses. *)
Lemma find_level_spec bn : 0 <= bn ->
  match find_level n 3 1 bn with
  | None => n + n ^ 2 + n ^ 3 <= bn
  | Some (i, blockcnt, r) =>
      let level := 4 - Z.of_nat i in
      (1 <= i <= 3)%nat /\ blockcnt = n ^ (level - 1) /\ 0 <= r < n ^ level /\
      NDADDR + bn = level_base level + r
  end.
Proof.
  intros Hb. cbn [find_level].
  pose proof (Z.pow_0_r n) as E0. pose proof (Z.pow_1_r n) as E1.
  assert (n ^ 2 = n * n) as E2 by ring. assert (n ^ 3 = n * n * n) as E3 by ring.
  destruct (Z.ltb_spec bn (1 * n)); [|destruct (Z.ltb_spec (bn - 1 * n) (1 * n * n));
    [|destruct (Z.ltb_spec (bn - 1 * n - 1 * n * n) (1 * n * n * n))]]; [..|lia].
  - change (4 - Z.of_nat 3) with 1. change (1 - 1) with 0. change (level_base 1) with NDADDR.
    cbv zeta. rewrite E0, E1. lia.
  - change (4 - Z.of_nat 2) with 2. change (2 - 1) with 1. change (level_base 2) with (NDADDR + n).
    cbv zeta. rewrite E1, E2. lia.
  - change (4 - Z.of_nat 1) with 3. change (3 - 1) with 2. change (level_base 3) with (NDADDR + n + n ^ 2).
    cbv zeta. rewrite E2, E3. lia.
Qed.

(** What the path of a data block is. *)
Definition path_of (bn : Z) (a : indir) (path : list indir) : Prop :=
  let os := in_off <$> path in
  let level := zlen path in
  1 <= level <= 3 /\ in_off a = level - 1 /\ in_lbn a = - (level_base level + (level - 1)) /\
  Forall is_digit os /\ bn = level_base level + digits os /\
  (forall k e, path !! k = Some e ->
     in_lbn e = - (level_base level + first_below os k + (level - 1 - Z.of_nat k))).

Lemma getlbns_data bn : 0 <= bn ->
  match ext2_getlbns n bn with
  | inl [] => bn < NDADDR
  | inl (a :: path) => path_of bn a path
  | inr e => e = EFBIG /\ level_base 4 <= bn
  end.
Proof.
  intros Hb. unfold ext2_getlbns. rewrite (proj2 (Z.ltb_ge bn 0)) by lia. cbv zeta.
  destruct (Z.ltb_spec bn NDADDR) as [Hd|Hd]; [done|].
  pose proof (find_level_spec (bn - NDADDR) ltac:(lia)) as Hlv. change (Z.to_nat NIADDR) with 3%nat.
  destruct (find_level n 3 1 (bn - NDADDR)) as [[[i blockcnt] r]|];
    [|split; [done|]; change (level_base 4) with (NDADDR + n + n ^ 2 + n ^ 3); lia].
  cbv zeta in Hlv. destruct Hlv as (Hi & -> & Hr & Hbn).
  rewrite (proj2 (Z.leb_le 0 bn)) by lia. change NIADDR with 3.
  set (level := 4 - Z.of_nat i) in *. assert (level = Z.of_nat (4 - i)) as Hlev by lia.
  set (meta := - (bn - r + (3 - Z.of_nat i))).
  assert (meta = - (level_base level + (level - 1))) as Hmeta by (unfold meta, NDADDR in *; lia).
  assert (NDADDR <= level_base level) as Hbase.
  { unfold level_base. assert (0 < n ^ 2) by (apply Z.pow_pos_nonneg; lia).
    assert (0 < n ^ 3) by (apply Z.pow_pos_nonneg; lia). repeat case_match; lia. }
  destruct (lbn_path_data (4 - i) bn meta r) as (Hlen & Hdig & Hval & Hlbn);
    [lia|lia|unfold NDADDR in *; lia|].
  rewrite <- Hlev in *. revert Hlen Hdig Hval Hlbn. cbv zeta. set (p := lbn_path _ _ _ _ _ _).
  intros Hlen Hdig Hval Hlbn.
  unfold path_of. cbv zeta. assert (zlen p = level) as -> by (unfold zlen; lia). cbn [in_off in_lbn].
  rewrite Z.mod_small in Hval by lia.
  split_and!; try lia; [done|]. intros k e He. rewrite (Hlbn _ _ He), Hmeta. lia.
Qed.

Lemma digits_inj os : forall os', length os = length os' -> Forall is_digit os -> Forall is_digit os' ->
  digits os = digits os' -> os = os'.
Proof.
  induction os as [|o os IH]; intros [|o' os'] Hl H1 H2 He; try done.
  apply Forall_cons_1 in H1 as [Ho H1]. apply Forall_cons_1 in H2 as [Ho' H2].
  cbn [digits length] in *. injection Hl as Hl. assert (zlen os = zlen os') as Hz by (unfold zlen; lia).
  pose proof (digits_range os H1) as Hr. pose proof (digits_range os' H2) as Hr'. rewrite <- Hz in *.
  set (B := n ^ zlen os) in *.
  assert (o = o') as <- by nia. f_equal. apply IH; try done. lia.
Qed.

Lemma level_base_S level : 1 <= level <= 3 -> level_base (level + 1) = level_base level + n ^ level.
Proof.
  intros Hl. pose proof (Z.pow_1_r n). assert (level = 1 \/ level = 2 \/ level = 3) as [->|[->| ->]] by lia.
  - change (level_base (1 + 1)) with (NDADDR + n). change (level_base 1) with NDADDR. lia.
  - change (level_base (2 + 1)) with (NDADDR + n + n ^ 2). change (level_base 2) with (NDADDR + n). lia.
  - change (level_base (3 + 1)) with (NDADDR + n + n ^ 2 + n ^ 3).
    change (level_base 3) with (NDADDR + n + n ^ 2). lia.
Qed.

Lemma level_base_mono l1 l2 : 1 <= l1 <= l2 -> l2 <= 4 -> level_base l1 <= level_base l2.
Proof.
  intros H1 H2. assert (0 < n ^ 1) by (apply Z.pow_pos_nonneg; lia).
  assert (0 < n ^ 2) by (apply Z.pow_pos_nonneg; lia).
  assert (0 < n ^ 3) by (apply Z.pow_pos_nonneg; lia).
  assert (level_base 2 = level_base 1 + n ^ 1) as E2 by (apply (level_base_S 1); lia).
  assert (level_base 3 = level_base 2 + n ^ 2) as E3 by (apply (level_base_S 2); lia).
  assert (level_base 4 = level_base 3 + n ^ 3) as E4 by (apply (level_base_S 3); lia).
  assert (l1 = 1 \/ l1 = 2 \/ l1 = 3 \/ l1 = 4) as Hl1 by lia.
  assert (l2 = 1 \/ l2 = 2 \/ l2 = 3 \/ l2 = 4) as Hl2 by lia.
  destruct Hl1 as [->|[->|[->| ->]]], Hl2 as [->|[->|[->| ->]]]; lia.
Qed.

(** The path of a block is determined by the block's place in its level. *)
Lemma getlbns_offs os :
  1 <= zlen os <= 3 -> Forall is_digit os ->
  exists a path, ext2_getlbns n (level_base (zlen os) + digits os) = inl (a :: path) /\
    in_off a = zlen os - 1 /\ in_off <$> path = os.
Proof.
  intros Hl Hd. pose proof (digits_range os Hd) as Hr. pose proof (level_base_S _ Hl) as HS.
  assert (level_base 1 <= level_base (zlen os)) as Hb1 by (apply level_base_mono; lia).
  assert (level_base (zlen os + 1) <= level_base 4) as Hb4 by (apply level_base_mono; lia).
  change (level_base 1) with 12 in Hb1.
  pose proof (getlbns_data (level_base (zlen os) + digits os) ltac:(lia)) as Hp.
  destruct (ext2_getlbns n _) as [[|a path]|e]; [unfold NDADDR in Hp; lia| |lia].
  destruct Hp as (Hl' & Ha & _ & Hd' & He & _). pose proof (digits_range _ Hd') as Hr'.
  assert (zlen (in_off <$> path) = zlen path) as Hz by (unfold zlen; by rewrite length_fmap).
  rewrite Hz in Hr'. pose proof (level_base_S _ Hl') as HS'.
  assert (zlen os = zlen path) as Hll.
  { destruct (Z.lt_trichotomy (zlen os) (zlen path)) as [Hlt|[->|Hlt]]; [|done|].
    - pose proof (level_base_mono (zlen os + 1) (zlen path) ltac:(lia) ltac:(lia)). lia.
    - pose proof (level_base_mono (zlen path + 1) (zlen os) ltac:(lia) ltac:(lia)). lia. }
  exists a, path. rewrite Hll in *. split; [done|]. split; [done|]. symmetry.
  apply digits_inj; try done; [unfold zlen in *; rewrite length_fmap; lia|lia].
Qed.

Lemma digits_app pre o : digits (pre ++ [o]) = digits pre * n + o.
Proof.
  induction pre as [|x pre IH]; [cbn; change (zlen (@nil Z)) with 0; rewrite Z.pow_0_r; lia|].
  cbn [app digits]. rewrite IH. replace (zlen (pre ++ [o])) with (zlen pre + 1) by (unfold zlen; rewrite length_app; cbn; lia).
  rewrite Z.pow_add_r, Z.pow_1_r by (unfold zlen; lia). lia.
Qed.
End radix.

(** [ext2_getlbns] gives no path to a direct block, EFBIG to a block beyond
    what three levels of indirection reach, and to every other block a path of
    at most four entries: the first selects the level, the others are the
    digits of the block within that level in base "pointers per block", each
    with the negative number under which its indirect block is known. *)
Theorem getlbns_spec n bn : 4 <= n -> 0 <= bn ->
  match ext2_getlbns n bn with
  | inl [] => bn < NDADDR
  | inl (a :: path) => path_of n bn a path
  | inr e => e = EFBIG /\ level_base n 4 <= bn
  end.
Proof. intros. by apply getlbns_data. Qed.

Lemma getlbns_spec_witness :
  4 <= 256 /\ 0 <= 66000 /\
  path_of 256 66000 (mk_indir (-65806) 2) [mk_indir (-65806) 0; mk_indir (-65805) 0; mk_indir (-65804) 196].
Proof. split; [lia|]. split; [lia|]. exact (getlbns_spec 256 66000 ltac:(lia) ltac:(lia)). Defined.

(** * The runs *)

Lemma run_forward_spec fs bap limit maxrun fuel : forall bn run,
  1 <= bn -> limit <= zlen bap -> limit - bn <= Z.of_nat fuel -> 0 <= run ->
  exists r, run_forward fs bap limit maxrun fuel bn run = Ok (run + r) /\ 0 <= r /\
    (r = 0 \/ run + r <= maxrun /\ bn + r <= limit) /\
    forall j a, 0 <= j <= r -> bap !z (bn - 1) = Some a -> bap !z (bn - 1 + j) = Some (a + j * um_seqinc fs).
Proof.
  assert (forall bn a, bap !z (bn - 1) = Some a ->
    forall j, 0 <= j <= 0 -> bap !z (bn - 1 + j) = Some (a + j * um_seqinc fs)) as Hz.
  { intros bn a Ha j Hj. replace j with 0 by lia. by rewrite Z.add_0_r, Z.mul_0_l, Z.add_0_r. }
  induction fuel as [|fuel IH]; intros bn run Hbn Hl Hf Hr; cbn [run_forward].
  - rewrite (proj2 (Z.ltb_ge bn limit)) by lia. cbn. exists 0. rewrite Z.add_0_r.
    split_and!; eauto; lia.
  - destruct (Z.ltb_spec bn limit), (Z.ltb_spec run maxrun); cbn [andb];
      try (exists 0; rewrite Z.add_0_r; split_and!; eauto; lia).
    destruct (zlookup_lt bap (bn - 1)) as [a Ha]; [lia|]. destruct (zlookup_lt bap bn) as [b Hb]; [lia|].
    rewrite Ha, Hb. cbn. unfold is_sequential. destruct (Z.eqb_spec b (a + um_seqinc fs)) as [->|Hne].
    + destruct (IH (bn + 1) (run + 1)) as (r & -> & Hr0 & Hrm & Hseq); try lia.
      exists (r + 1). split; [f_equal; lia|]. split; [lia|]. split; [right; lia|].
      intros j a' Hj [= <-]. destruct (decide (j = 0)) as [->|Hj0].
      * by rewrite Z.add_0_r, Z.mul_0_l, Z.add_0_r.
      * replace (bn - 1 + j) with (bn + 1 - 1 + (j - 1)) by lia. rewrite (Hseq (j - 1) (a + um_seqinc fs)); [f_equal; lia|lia|].
        by replace (bn + 1 - 1) with bn by lia.
    + exists 0. rewrite Z.add_0_r. split_and!; eauto; try lia.
      intros j a' Hj H2. apply Hz; [congruence|lia].
Qed.

(** * Following the indirect blocks *)

Lemma words_lookup n bs k : (k < n)%nat -> words n bs !! k = Some (le_combine (take 4 (drop (4 * k) bs))).
Proof.
  revert bs k. induction n as [|n IH]; intros bs k Hk; [lia|]. destruct k as [|k]; [done|].
  cbn [words lookup list_lookup]. rewrite IH by lia. rewrite drop_drop. by replace (4 * S k)%nat with (4 + 4 * k)%nat by lia.
Qed.

Lemma daddrs_range bs o q : bytes_ok bs -> daddrs bs !z o = Some q -> u32_ok q.
Proof.
  intros Hb Hq. apply zlookup_Some_inv in Hq as [Hr Hq]. unfold daddrs in Hq.
  pose proof (lookup_lt_Some _ _ _ Hq) as Hlt.
  assert (forall n bs, length (words n bs) = n) as Hlen by (clear; induction n; intros; cbn; auto).
  rewrite Hlen in Hlt. rewrite words_lookup in Hq by done.
  assert (q = le_combine (take 4 (drop (4 * Z.to_nat o) bs))) as -> by congruence.
  assert (bytes_ok (take 4 (drop (4 * Z.to_nat o) bs))) as Hb' by (by apply Forall_take, Forall_drop).
  pose proof (le_combine_range _ Hb') as Hc. unfold u32_ok. split; [lia|].
  eapply Z.lt_le_trans; [apply Hc|]. apply Z.pow_le_mono_r; [lia|].
  unfold zlen. rewrite length_take. lia.
Qed.

Lemma zlen_daddrs bs : zlen (daddrs bs) = zlen bs / 4.
Proof.
  assert (forall n bs, length (words n bs) = n) as Hlen by (clear; induction n; intros; cbn; auto).
  unfold daddrs. unfold zlen at 1. rewrite Hlen. assert (0 <= zlen bs / 4); [|lia].
  unfold zlen. apply Z.div_pos; lia.
Qed.

Section walk.
Context `{KernelEnv} (fs : m_ext2fs) (io_maxreadcnt : Z).

(** The device block a pointer stands for; -1 is a hole. *)
Definition dev_block (p : Z) : Z := if p =? 0 then -1 else p * 2 ^ um_bptrtodb fs.

(** The pointer that offsets lead to in the tree below pointer [p], from the
    contents of the device. *)
Fixpoint tree_ptr (dev : gmap Z (list Z)) (p : Z) (offs : list Z) : option Z :=
  match offs with
  | [] => Some p
  | o :: offs' =>
      if p =? 0 then Some 0
      else bs ← dev !! blkptrtodb64 fs p; q ← daddrs bs !z o; tree_ptr dev q offs'
  end.

(** The pointer of logical block [bn] of a file: what the on-disk format says. *)
Definition file_ptr (dev : gmap Z (list Z)) (i : inode) (bn : Z) : option Z :=
  match ext2_getlbns (um_nindir fs) bn with
  | inr _ => None
  | inl [] => i_db i !z bn
  | inl (a :: path) => p ← i_ib i !z in_off a; tree_ptr dev p (in_off <$> path)
  end.

(** The indirect blocks on the way lie in [S] and can be read. *)
Fixpoint tree_in (S : gset Z) (dev : gmap Z (list Z)) (p : Z) (offs : list Z) : Prop :=
  match offs with
  | [] => True
  | o :: offs' =>
      p = 0 \/
      blkptrtodb64 fs p ∈ S /\ exists bs q, dev !! blkptrtodb64 fs p = Some bs /\ bytes_ok bs /\
        zlen bs = m_bsize fs /\ daddrs bs !z o = Some q /\ tree_in S dev q offs'
  end.

(** No other thread touches the file's indirect blocks, which the caller
    ensures by holding the file; a failing read gives an errno. *)
Record file_env (ip : Z) (S : gset Z) : Prop := mk_file_env {
  fe_bufs : forall n b w, w_bufs (ke_wait n b w) = w_bufs w;
  fe_inode : forall n b w, w_inodes (ke_wait n b w) !! ip = w_inodes w !! ip;
  fe_dev : forall n b w d, d ∈ S -> w_dev (ke_wait n b w) !! d = w_dev w !! d;
  fe_errno : forall n b e, ke_read_error n b = Some e -> e <> 0
}.

Record file_same (ip : Z) (S : gset Z) (w w' : world) : Prop := mk_file_same {
  fs_inode : w_inodes w' !! ip = w_inodes w !! ip;
  fs_dev : forall d, d ∈ S -> w_dev w' !! d = w_dev w !! d
}.

Context (ip : Z) (S : gset Z) (Henv : file_env ip S).

#[local] Instance file_same_po : PreOrder (file_same ip S).
Proof.
  split; [by constructor|]. intros w1 w2 w3 [] []. constructor; [congruence|].
  intros d Hd. rewrite fs_dev1 by done. by apply fs_dev0.
Qed.

(** Reading a block that is not held. *)
Lemma meta_bread_file w b bs :
  w_bufs w !! b = None -> b ∈ S -> w_dev w !! b = Some bs ->
  wp (buf_meta_bread b (zlen bs)) (fun e w' => file_same ip S w w' /\
    (e <> 0 /\ (exists n b', ke_read_error n b' = Some e) /\ w_bufs w' = <[b := []]> (w_bufs w) \/ e = 0 /\ w_bufs w' = <[b := bs]> (w_bufs w))) w.
Proof.
  intros Hb HS Hd. destruct Henv as [Hbufs Hino Hdev Herr].
  unfold wp, buf_meta_bread. rewrite Hb. cbv zeta.
  destruct (ke_read_error (w_tick w) b) as [e|] eqn:He.
  - split; [constructor; cbn; auto|]. left. cbn. rewrite Hbufs. split; [by eapply Herr|]. eauto.
  - cbn. rewrite Hdev, Hd by done. rewrite Z.eqb_refl.
    split; [constructor; cbn; auto|]. right. cbn. by rewrite Hbufs.
Qed.

(** [bp] is the one buffer held beyond [bufs]. *)
Definition in_hand (bp : option Z) (bufs : gmap Z (list Z)) (w : world) : Prop :=
  match bp with
  | None => w_bufs w = bufs
  | Some b => bufs !! b = None /\ exists d, w_bufs w = <[b := d]> bufs
  end.

Lemma release_wp bp bufs w :
  in_hand bp bufs w -> wp (release bp) (fun _ w' => file_same ip S w w' /\ w_bufs w' = bufs) w.
Proof.
  destruct bp as [b|]; cbn.
  - intros [Hb [d Hd]]. unfold wp, buf_brelse. rewrite Hd, lookup_insert_eq. split; [by constructor|].
    cbn. rewrite Hd. by apply delete_insert_id.
  - intros Hw. split; [by constructor|done].
Qed.


(** What the runs found at a leaf mean: [run] more entries after offset [o] of
    the same last block hold consecutive addresses. *)
Definition run_ok (dev : gmap Z (list Z)) (runp : bool) (p : Z) (offs : list Z) (q run : Z) : Prop :=
  0 <= run /\ (run = 0 \/ runp = true /\ run <= bmap_maxrun fs io_maxreadcnt runp /\
    exists pre o, offs = pre ++ [o] /\ o + run < um_nindir fs /\
      forall k, 0 <= k <= run -> tree_ptr dev p (pre ++ [o + k]) = Some (q + k * um_seqinc fs)).

Definition walk_post (dev : gmap Z (list Z)) (runp : bool) (p : Z) (offs : list Z) (r : Z + Z * (Z * Z)) : Prop :=
  match r with
  | inl e => e <> 0 /\ exists n b, ke_read_error n b = Some e
  | inr (q, (run, back)) => tree_ptr dev p offs = Some q /\ back = 0 /\ run_ok dev runp p offs q run
  end.

Lemma tree_ptr_hole dev offs : tree_ptr dev 0 offs = Some 0.
Proof. by destruct offs. Qed.

Lemma run_ok_0 dev runp p offs q : run_ok dev runp p offs q 0.
Proof. split; [lia|by left]. Qed.

(** One level up. *)
Lemma run_ok_cons dev runp p o offs q x run :
  (forall offs', tree_ptr dev p (o :: offs') = tree_ptr dev x offs') ->
  run_ok dev runp x offs q run -> run_ok dev runp p (o :: offs) q run.
Proof.
  intros Hstep [H0 [->|(Hr & Hm & pre & o' & -> & Ho' & Hk)]]; [apply run_ok_0|].
  split; [done|]. right. split; [done|]. split; [done|]. exists (o :: pre), o'. split; [done|]. split; [done|].
  intros k Hkr. cbn [app]. rewrite Hstep. by apply Hk.
Qed.

(** The runs measured at the last level. *)
Lemma measure_runs_leaf dev runp p o bs q :
  p <> 0 -> dev !! blkptrtodb64 fs p = Some bs -> zlen bs = m_bsize fs ->
  0 <= o -> daddrs bs !z o = Some q ->
  exists run, measure_runs fs (daddrs bs) (um_nindir fs) (bmap_maxrun fs io_maxreadcnt runp) o runp false = Ok (run, 0) /\
    run_ok dev runp p [o] q run.
Proof.
  intros Hp Hbs Hl Ho Hq. unfold measure_runs. destruct runp; [|exists 0; split; [done|split; [lia|by left]]].
  destruct (run_forward_spec fs (daddrs bs) (um_nindir fs) (bmap_maxrun fs io_maxreadcnt true)
    (Z.to_nat (um_nindir fs - o)) (o + 1) 0) as (run & Hrun & Hr0 & Hrm & Hseq); try lia.
  { rewrite zlen_daddrs, Hl. unfold um_nindir. lia. }
  rewrite Hrun. cbn. exists run. split; [done|]. split; [done|].
  destruct Hrm as [->|Hrm]; [by left|right]. split; [done|]. split; [lia|]. exists [], o.
  split; [done|]. split; [lia|]. intros k Hk. cbn. rewrite (proj2 (Z.eqb_neq p 0)) by done. rewrite Hbs. cbn.
  replace (o + k) with (o + 1 - 1 + k) by lia. rewrite (Hseq k q); [done|lia|].
  by replace (o + 1 - 1) with o by lia.
Qed.

Lemma bmap_walk_wp dev bufs bn runp path :
  (forall d, d ∈ S -> bufs !! d = None) -> 0 <= bn ->
  Forall (fun a => in_lbn a <> bn /\ 0 <= in_off a) path ->
  forall bp daddr w, (forall d, d ∈ S -> w_dev w !! d = dev !! d) -> in_hand bp bufs w ->
  tree_in S dev daddr (in_off <$> path) ->
  wp (bmap_walk fs io_maxreadcnt bn runp false path bp daddr (0, 0)) (fun r w' =>
    file_same ip S w w' /\ w_bufs w' = bufs /\ walk_post dev runp daddr (in_off <$> path) r) w.
Proof.
  intros Hfree Hbn. induction path as [|a path IH]; intros Hpath bp daddr w Hdev Hbp Htree; cbn [bmap_walk].
  { apply wp_bind. eapply wp_mono; [by apply release_wp|]. intros _ w1 [Hs Hb]. apply wp_ret.
    split; [done|]. split; [done|]. split; [done|]. split; [done|]. apply run_ok_0. }
  apply Forall_cons_1 in Hpath as [[Ha Hoff] Hpath]. rewrite (proj2 (Z.eqb_neq _ _) Ha), orb_false_r.
  destruct (Z.eqb_spec daddr 0) as [->|Hd0].
  { apply wp_bind. eapply wp_mono; [by apply release_wp|]. intros _ w1 [Hs Hb]. apply wp_ret.
    split; [done|]. split; [done|]. split; [done|]. split; [done|]. apply run_ok_0. }
  apply wp_bind. eapply wp_mono; [by apply release_wp|]. intros _ w1 [Hs1 Hb1]. cbv zeta.
  rewrite fmap_cons in Htree. cbn [tree_in] in Htree.
  destruct Htree as [|(HS & bs & q & Hbs & Hbytes & Hlen & Hq & Hrest)]; [done|].
  apply wp_bind. rewrite <- Hlen. eapply wp_mono.
  { apply meta_bread_file; [by rewrite Hb1, Hfree|done|]. by rewrite (fs_dev _ _ _ _ Hs1), Hdev by done. }
  intros e w2 [Hs2 He].
  assert (file_same ip S w w2) as Hs12 by (by etransitivity).
  destruct He as [(He & Hex & Hb2)|[-> Hb2]].
  - rewrite (proj2 (Z.eqb_neq e 0) He). cbn [negb]. apply wp_bind.
    eapply wp_mono; [apply (release_wp (Some _) bufs); split; [by apply Hfree|]; exists []; by rewrite Hb2, Hb1|].
    intros _ w3 [Hs3 Hb3]. apply wp_ret. split; [by etransitivity|done].
  - cbn [Z.eqb negb]. apply wp_bind. unfold wp at 1, buf_dataptr. rewrite Hb2, lookup_insert_eq.
    apply wp_bind. eapply wp_lift; [by rewrite Hq|].
    assert (forall offs, tree_ptr dev daddr (in_off a :: offs) = tree_ptr dev q offs) as Hstep.
    { intros offs. cbn [tree_ptr]. rewrite (proj2 (Z.eqb_neq daddr 0)), Hbs by done. cbn. by rewrite Hq. }
    assert (in_hand (Some (blkptrtodb64 fs daddr)) bufs w2) as Hhand.
    { split; [by apply Hfree|]. exists bs. by rewrite Hb2, Hb1. }
    destruct path as [|a2 path].
    + apply wp_bind. assert (exists run, (if true && negb (q =? 0)
          then lift (measure_runs fs (daddrs bs) (um_nindir fs) (bmap_maxrun fs io_maxreadcnt runp) (in_off a) runp false)
          else mret (0, 0)) w2 = Ok ((run, 0), w2) /\ run_ok dev runp daddr [in_off a] q run) as (run & Hrun & Hok).
      { destruct (Z.eqb_spec q 0); cbn [negb andb].
        - exists 0. split; [done|]. apply run_ok_0.
        - destruct (measure_runs_leaf dev runp daddr (in_off a) bs q) as (run & Hm & Hok); try done.
          exists run. split; [by apply lift_run|done]. }
      unfold wp at 1. rewrite Hrun. cbn [bmap_walk].
      apply wp_bind. eapply wp_mono; [by apply release_wp|]. intros _ w3 [Hs3 Hb3]. apply wp_ret.
      split; [by etransitivity|]. split; [done|]. cbn -[tree_ptr]. by rewrite Hstep.
    + cbn [andb]. apply wp_bind, wp_ret. eapply wp_mono; [apply IH; try done|].
      { intros d Hd. rewrite (fs_dev _ _ _ _ Hs12) by done. by apply Hdev. }
      intros r w3 (Hs3 & Hb3 & Hpost). split; [by etransitivity|]. split; [done|].
      destruct r as [|[x [run back]]]; [done|]. destruct Hpost as (Hx & Hback & Hrun).
      rewrite fmap_cons. split; [by rewrite Hstep|]. split; [done|]. by eapply run_ok_cons.
Qed.

Lemma tree_ptr_u32 dev offs : forall p q,
  u32_ok p -> tree_in S dev p offs -> tree_ptr dev p offs = Some q -> u32_ok q.
Proof.
  induction offs as [|o offs IH]; intros p q Hp Hin Hq; cbn in *; [by simplify_eq|].
  destruct Hin as [->|(HS & bs & x & Hbs & Hbytes & Hlen & Hx & Hrest)]; [cbn in Hq; by simplify_eq|].
  case_match; [by simplify_eq|]. rewrite Hbs in Hq. cbn in Hq. rewrite Hx in Hq. cbn in Hq.
  eapply IH; [|done|done]. by eapply daddrs_range.
Qed.

(** What a successful answer says about the block asked for and its followers. *)
Definition bmap_right (dev : gmap Z (list Z)) (i : inode) (bn : Z) (runp : bool) (r : bmap_result) : Prop :=
  exists q, 0 <= q /\ file_ptr dev i bn = Some q /\ bm_bnp r = Some (dev_block q) /\ bm_runb r = 0 /\
    0 <= bm_run r /\ (bm_run r = 0 \/ bm_run r <= bmap_maxrun fs io_maxreadcnt runp) /\
    forall k, 0 <= k <= bm_run r -> file_ptr dev i (bn + k) = Some (q + k * um_seqinc fs).

Definition bmap_post (dev : gmap Z (list Z)) (i : inode) (bn : Z) (runp : bool) (r : bmap_result) : Prop :=
  (bm_error r = 0 /\ bn < level_base (um_nindir fs) 4 /\ bmap_right dev i bn runp r) \/
  (bm_error r = EFBIG /\ level_base (um_nindir fs) 4 <= bn) \/
  (bm_error r <> 0 /\ exists n b, ke_read_error n b = Some (bm_error r)).

(** The inode is in core, its direct pointers are blocks of a volume of at most
    2^32 sectors, and the indirect blocks on the way to [bn] can be read. *)
Record file_ok (dev : gmap Z (list Z)) (i : inode) (bn : Z) : Prop := mk_file_ok {
  fo_db : zlen (i_db i) = NDADDR;
  fo_db_range : Forall (fun p => 0 <= p /\ p * 2 ^ um_bptrtodb fs < 2 ^ 32) (i_db i);
  fo_ib : zlen (i_ib i) = NIADDR;
  fo_ib_range : Forall u32_ok (i_ib i);
  fo_tree : match ext2_getlbns (um_nindir fs) bn with
            | inl (a :: path) => forall p, i_ib i !z in_off a = Some p -> tree_in S dev p (in_off <$> path)
            | _ => True
            end
}.

Lemma dev_block64 q : 1 <= um_bptrtodb fs <= 3 -> u32_ok q ->
  (if blkptrtodb64 fs q =? 0 then -1 else blkptrtodb64 fs q) = dev_block q.
Proof.
  intros Hs [Hq1 Hq2]. unfold blkptrtodb64, dev_block. rewrite Z.shiftl_mul_pow2 by lia.
  assert (2 ^ um_bptrtodb fs = 2 \/ 2 ^ um_bptrtodb fs = 4 \/ 2 ^ um_bptrtodb fs = 8) as Hp.
  { assert (um_bptrtodb fs = 1 \/ um_bptrtodb fs = 2 \/ um_bptrtodb fs = 3) as [->|[->| ->]] by lia; cbn; lia. }
  rewrite s64_id by (unfold s64_ok; lia).
  destruct (Z.eqb_spec (q * 2 ^ um_bptrtodb fs) 0), (Z.eqb_spec q 0); lia.
Qed.

Lemma direct_right dev i bn p runp :
  1 <= um_bptrtodb fs <= 3 -> 0 <= bn < NDADDR -> file_ok dev i bn -> i_db i !z bn = Some p ->
  exists run,
    (if blkptrtodb32 fs p =? 0 then mret (mk_bmap 0 (Some (-1)) 0 0)
     else runs ← measure_runs fs (i_db i) NDADDR (bmap_maxrun fs io_maxreadcnt runp) bn runp false;
          mret (mk_bmap 0 (Some (blkptrtodb32 fs p)) (fst runs) (snd runs))) =
      Ok (mk_bmap 0 (Some (dev_block p)) run 0) /\
    bmap_right dev i bn runp (mk_bmap 0 (Some (dev_block p)) run 0).
Proof.
  intros Hs Hbn [Hdb Hrange _ _ _] Hp.
  assert (forall b, b < NDADDR -> 0 <= b -> file_ptr dev i b = i_db i !z b) as Hfp.
  { intros b H1 H2. unfold file_ptr, ext2_getlbns. rewrite (proj2 (Z.ltb_ge b 0)) by lia.
    by rewrite (proj2 (Z.ltb_lt b NDADDR)). }
  apply zlookup_Some_inv in Hp as Hp'. destruct Hp' as [_ Hp'].
  destruct (proj1 (Forall_lookup _ _) Hrange _ _ Hp') as [Hp0 Hp1].
  assert (blkptrtodb32 fs p = p * 2 ^ um_bptrtodb fs) as Hblk.
  { unfold blkptrtodb32. rewrite Z.shiftl_mul_pow2 by lia. apply u32_id. split; [|done].
    apply Z.mul_nonneg_nonneg; [done|]. apply Z.pow_nonneg. lia. }
  assert (0 < 2 ^ um_bptrtodb fs) by (apply Z.pow_pos_nonneg; lia).
  assert (forall run, 0 <= run -> (run = 0 \/ run <= bmap_maxrun fs io_maxreadcnt runp /\ bn + run < NDADDR) ->
    (forall k, 0 <= k <= run -> i_db i !z (bn + k) = Some (p + k * um_seqinc fs)) ->
    bmap_right dev i bn runp (mk_bmap 0 (Some (dev_block p)) run 0)) as Hright.
  { intros run Hrun0 Hm Hseq. exists p. cbn. split; [done|]. split; [by rewrite Hfp by lia|]. split; [done|]. split; [done|].
    split; [done|]. split; [destruct Hm as [|[]]; auto|]. intros k Hk. rewrite Hfp by lia. by apply Hseq. }
  assert (forall k, 0 <= k <= 0 -> i_db i !z (bn + k) = Some (p + k * um_seqinc fs)) as Hz.
  { intros k Hk. replace k with 0 by lia. by rewrite Z.add_0_r, Z.mul_0_l, Z.add_0_r. }
  rewrite Hblk. destruct (Z.eqb_spec (p * 2 ^ um_bptrtodb fs) 0) as [Hp2|Hp2].
  - exists 0. assert (p = 0) as -> by nia. split; [done|]. apply Hright; [lia|by left|done].
  - assert (dev_block p = p * 2 ^ um_bptrtodb fs) as Hdev.
    { unfold dev_block. rewrite (proj2 (Z.eqb_neq p 0)); [done|]. intros ->. lia. }
    unfold measure_runs. destruct runp.
    + destruct (run_forward_spec fs (i_db i) NDADDR (bmap_maxrun fs io_maxreadcnt true)
        (Z.to_nat (NDADDR - bn)) (bn + 1) 0) as (run & Hrun & Hr0 & Hrm & Hseq); try lia.
      rewrite Hrun. cbn. exists run. rewrite <- Hdev. split; [done|]. apply Hright; [done|lia|].
      intros k Hk. replace (bn + k) with (bn + 1 - 1 + k) by lia. apply Hseq; [lia|].
      by replace (bn + 1 - 1) with bn by lia.
    + exists 0. rewrite <- Hdev. split; [done|]. apply Hright; [lia|by left|done].
Qed.

(** The walk never meets the number of the data block it is after. *)
Lemma path_entries bn a path :
  4 <= um_nindir fs -> 0 <= bn -> path_of (um_nindir fs) bn a path ->
  Forall (fun e => in_lbn e <> bn /\ 0 <= in_off e) path.
Proof.
  intros Hn Hbn (Hl & Ha & _ & Hdig & Hval & Hlbn).
  apply Forall_forall. intros e He. apply list_elem_of_In, list_elem_of_lookup in He as [k Hk].
  pose proof (Hlbn _ _ Hk) as He. apply lookup_lt_Some in Hk as Hkl.
  assert (0 <= first_below (um_nindir fs) (in_off <$> path) k) as Hf0.
  { unfold first_below. apply (digits_range (um_nindir fs) Hn). apply Forall_app. split; [by apply Forall_take|].
    apply Forall_replicate. unfold is_digit. lia. }
  pose proof (level_base_mono (um_nindir fs) Hn 1 (zlen path) ltac:(lia) ltac:(lia)) as Hm.
  change (level_base _ 1) with 12 in Hm. split; [unfold zlen in *; lia|].
  assert (is_digit (um_nindir fs) (in_off e)) as [? _]; [|done].
  eapply (proj1 (Forall_lookup _ _) Hdig k). by rewrite list_lookup_fmap, Hk.
Qed.

Lemma indirect_right dev i bn a path p runp q run back :
  4 <= um_nindir fs -> ext2_getlbns (um_nindir fs) bn = inl (a :: path) -> path_of (um_nindir fs) bn a path ->
  i_ib i !z in_off a = Some p -> 0 <= q ->
  walk_post dev runp p (in_off <$> path) (inr (q, (run, back))) ->
  bn < level_base (um_nindir fs) 4 /\ bmap_right dev i bn runp (mk_bmap 0 (Some (dev_block q)) run back).
Proof.
  intros Hn Hg (Hl & Ha & _ & Hdig & Hval & _) Hp Hq0 (Hq & -> & Hr0 & Hrun).
  assert (zlen (in_off <$> path) = zlen path) as Hz by (unfold zlen; by rewrite length_fmap).
  pose proof (digits_range _ Hn _ Hdig) as Hr. pose proof (level_base_S (um_nindir fs) _ Hl) as HS. rewrite Hz in Hr.
  pose proof (level_base_mono (um_nindir fs) Hn (zlen path + 1) 4 ltac:(lia) ltac:(lia)) as Hm4.
  split; [lia|].
  assert (file_ptr dev i bn = Some q) as Hfp by (unfold file_ptr; rewrite Hg, Hp; exact Hq).
  exists q. cbn. split; [done|]. split; [done|]. split; [done|]. split; [done|]. split; [done|].
  destruct Hrun as [->|(-> & Hmax & pre & o & Hoffs & Ho & Hseq)].
  { split; [by left|]. intros k Hk. replace k with 0 by lia. by rewrite Z.add_0_r, Z.mul_0_l, Z.add_0_r. }
  split; [by right|]. intros k Hk. rewrite Hoffs in *.
  apply Forall_app in Hdig as [Hpre Hlast]. apply Forall_singleton in Hlast as [Ho0 _].
  assert (zlen (pre ++ [o + k]) = zlen path) as Hz'.
  { rewrite <- Hz. unfold zlen. by rewrite !length_app. }
  destruct (getlbns_offs _ Hn (pre ++ [o + k])) as (a' & path' & Hg' & Ha' & Hoffs').
  { by rewrite Hz'. }
  { apply Forall_app. split; [done|]. apply Forall_singleton. unfold is_digit. lia. }
  rewrite Hz' in *. rewrite digits_app in *. unfold file_ptr.
  replace (bn + k) with (level_base (um_nindir fs) (zlen path) + (digits (um_nindir fs) pre * um_nindir fs + (o + k))) by lia.
  rewrite Hg', Ha', <- Ha, Hp, Hoffs'. by apply Hseq.
Qed.

Lemma bmaparray_wp w i bn runp :
  4 <= um_nindir fs -> 1 <= um_bptrtodb fs <= 3 -> 0 <= bn ->
  w_inodes w !! ip = Some i -> file_ok (w_dev w) i bn -> (forall d, d ∈ S -> w_bufs w !! d = None) ->
  wp (ext2_bmaparray fs io_maxreadcnt ip bn runp false) (fun r w' =>
    file_same ip S w w' /\ w_bufs w' = w_bufs w /\ bmap_post (w_dev w) i bn runp r) w.
Proof.
  intros Hn Hs Hbn Hi Hok Hfree. unfold ext2_bmaparray.
  apply wp_bind. unfold wp at 1, VTOI. rewrite Hi. pose proof (getlbns_data _ Hn bn Hbn) as Hp.
  pose proof Hok as [Hdb Hrange Hib Hibr Htree].
  destruct (ext2_getlbns (um_nindir fs) bn) as [[|a path]|e] eqn:Hg.
  - destruct (zlookup_lt (i_db i) bn) as [p Hpb]; [lia|].
    apply wp_bind. eapply wp_lift; [by rewrite Hpb|].
    destruct (direct_right (w_dev w) i bn p runp Hs ltac:(lia) Hok Hpb) as (run & Heq & Hright).
    assert (bn < level_base (um_nindir fs) 4).
    { pose proof (level_base_mono (um_nindir fs) Hn 1 4 ltac:(lia) ltac:(lia)) as Hm.
      change (level_base _ 1) with NDADDR in Hm. lia. }
    cbv zeta. destruct (blkptrtodb32 fs p =? 0).
    + apply wp_ret. split; [by constructor|]. split; [done|]. left.
      injection Heq as Hd Hr. rewrite Hd. subst run. split; [done|]. split; [lia|done].
    + destruct (measure_runs _ _ _ _ _ _ _) as [runs|f] eqn:Hm; [|done].
      apply wp_bind. eapply wp_lift; [done|]. cbn in Heq. apply wp_ret.
      split; [by constructor|]. split; [done|]. left.
      injection Heq as Hd Hf Hs'. rewrite Hd, Hf, Hs'. split; [done|]. split; [lia|done].
  - pose proof Hp as Hpath. destruct Hp as (Hl & Ha & _).
    destruct (zlookup_lt (i_ib i) (in_off a)) as [p Hp]; [unfold NIADDR in *; lia|].
    apply wp_bind. eapply wp_lift; [by rewrite Hp|]. apply wp_bind.
    eapply wp_mono; [apply (bmap_walk_wp (w_dev w) (w_bufs w)); try done; [|by apply Htree]|].
    { by eapply path_entries. }
    intros r w' (Hsame & Hb & Hpost). destruct r as [e|[q [run back]]].
    + apply wp_ret. split; [done|]. split; [done|]. right. right. exact Hpost.
    + assert (u32_ok q) as Hq.
      { destruct Hpost as [Hq _]. eapply tree_ptr_u32; [|by apply Htree|exact Hq].
        apply zlookup_Some_inv in Hp as [_ Hp]. by apply (proj1 (Forall_lookup _ _) Hibr _ _ Hp). }
      cbv zeta. rewrite dev_block64 by done.
      apply wp_ret. split; [done|]. split; [done|]. left. cbn [fst snd bm_error]. split; [done|].
      apply (indirect_right (w_dev w) i bn a path p runp q run back); try done. by destruct Hq.
  - apply wp_ret. split; [by constructor|]. split; [done|]. right. left. done.
Qed.

(** C37: [ext2_bmaparray] returns, releases every buffer it took, leaves the
    file alone, and answers what the on-disk format says: the address the
    direct pointer or the tree of indirect blocks gives (-1 for a hole), and a
    run whose every block continues that address; a block no path leads to is
    EFBIG, and the only other errors are those of the device. *)
Theorem bmaparray_spec w i bn runp :
  4 <= um_nindir fs -> 1 <= um_bptrtodb fs <= 3 -> 0 <= bn ->
  w_inodes w !! ip = Some i -> file_ok (w_dev w) i bn -> (forall d, d ∈ S -> w_bufs w !! d = None) ->
  wp (ext2_bmaparray fs io_maxreadcnt ip bn runp false) (fun r w' =>
    file_same ip S w w' /\ w_bufs w' = w_bufs w /\ bmap_post (w_dev w) i bn runp r) w.
Proof. apply bmaparray_wp. Qed.

(** * Bytes *)

(** The geometry the macros of the mount rely on; blocks are not divided into
    fragments. *)
Record bmap_geometry : Prop := mk_bmap_geometry {
  bg_shift : 1 <= um_bptrtodb fs <= 3;
  bg_bsize : m_bsize fs = 512 * 2 ^ um_bptrtodb fs;
  bg_bshift : m_bshift fs = um_bptrtodb fs + 9;
  bg_qbmask : m_qbmask fs = 2 ^ m_bshift fs - 1;
  bg_seqinc : um_seqinc fs = 1
}.

Lemma bg_pow : bmap_geometry -> m_bsize fs = 2 ^ m_bshift fs /\ 1024 <= m_bsize fs.
Proof.
  intros [Hs Hb Hsh _ _]. rewrite Hb, Hsh, Z.pow_add_r by lia.
  assert (um_bptrtodb fs = 1 \/ um_bptrtodb fs = 2 \/ um_bptrtodb fs = 3) as [->|[->| ->]] by lia; lia.
Qed.

Lemma lblkno_div loc : bmap_geometry -> lblkno fs loc = loc / m_bsize fs.
Proof. intros Hg. destruct (bg_pow Hg) as [-> _]. destruct Hg. unfold lblkno. apply Z.shiftr_div_pow2. lia. Qed.

Lemma blkoff_mod loc : bmap_geometry -> blkoff fs loc = loc mod m_bsize fs.
Proof. intros Hg. destruct (bg_pow Hg) as [Hb _]. destruct Hg as [Hs _ Hsh Hq _]. apply (blkoff_pow2 fs (m_bshift fs)); [lia|done|lia]. Qed.

(** The byte of the device that holds byte [off] of the file. *)
Definition byte_addr (dev : gmap Z (list Z)) (i : inode) (off : Z) : option Z :=
  q ← file_ptr dev i (off / m_bsize fs); Some (q * m_bsize fs + off mod m_bsize fs).

Lemma blockmap_contig_min foffset size isize run :
  blockmap_contig fs foffset size isize run =
    Z.max 0 (Z.min (Z.min ((run + 1) * m_bsize fs - blkoff fs foffset) size) (isize - foffset)).
Proof.
  unfold blockmap_contig. cbv zeta. set (c := (run + 1) * m_bsize fs - blkoff fs foffset).
  destruct (Z.gtb_spec c size);
    match goal with |- context [?a >? isize] => destruct (Z.gtb_spec a isize) end;
    match goal with |- context [?a <? 0] => destruct (Z.ltb_spec a 0) end; lia.
Qed.

Lemma contig_bytes dev i foffset size runp r q x :
  bmap_geometry -> 0 <= foffset -> file_ptr dev i (foffset / m_bsize fs) = Some q -> q <> 0 ->
  (forall k, 0 <= k <= bm_run r -> file_ptr dev i (foffset / m_bsize fs + k) = Some (q + k * um_seqinc fs)) ->
  bm_bnp r = Some (dev_block q) -> 0 <= bm_run r -> runp = true ->
  0 <= x < blockmap_contig fs foffset size (i_size i) (bm_run r) ->
  byte_addr dev i (foffset + x) =
    Some ((dev_block q + Z.shiftr (blkoff fs foffset) 9) * 512 + foffset mod 512 + x).
Proof.
  intros Hg Hf Hq Hq0 Hrun Hbnp Hr0 _ Hx. pose proof (bg_pow Hg) as [_ Hb].
  assert (x < (bm_run r + 1) * m_bsize fs - foffset mod m_bsize fs) as Hxc.
  { rewrite blockmap_contig_min, blkoff_mod in Hx by done. lia. }
  set (bs := m_bsize fs) in *. set (k := (foffset + x) / bs - foffset / bs).
  pose proof (Z.div_mod foffset bs ltac:(lia)) as Hdm. pose proof (Z.div_mod (foffset + x) bs ltac:(lia)) as Hdm2.
  pose proof (Z.mod_pos_bound foffset bs ltac:(lia)) as Hmb. pose proof (Z.mod_pos_bound (foffset + x) bs ltac:(lia)) as Hmb2.
  assert (0 <= k <= bm_run r) as Hk.
  { unfold k. assert (foffset / bs <= (foffset + x) / bs) by (apply Z.div_le_mono; lia). split; [lia|].
    assert ((foffset + x) / bs < foffset / bs + bm_run r + 1); [|lia]. apply Z.div_lt_upper_bound; [lia|]. lia. }
  pose proof (Hrun k Hk) as Hqk. unfold byte_addr. fold bs.
  replace (foffset / bs + k) with ((foffset + x) / bs) in Hqk by (unfold k; lia). rewrite Hqk. cbn. f_equal.
  rewrite (bg_seqinc Hg), blkoff_mod by done. fold bs. unfold dev_block. rewrite (proj2 (Z.eqb_neq q 0)) by done.
  assert ((foffset + x) mod bs = foffset + x - (foffset / bs + k) * bs) as -> by (unfold k; lia).
  rewrite Z.shiftr_div_pow2 by lia. change (2 ^ 9) with 512.
  assert (foffset mod 512 = (foffset mod bs) mod 512) as ->.
  { symmetry. apply Z.mod_mod_divide. exists (2 ^ um_bptrtodb fs).
    rewrite Z.mul_comm. exact (bg_bsize Hg). }
  pose proof (Z.div_mod (foffset mod bs) 512 ltac:(lia)) as H512.
  assert (q * bs = q * 2 ^ um_bptrtodb fs * 512) as Hqb by (rewrite (bg_bsize Hg : bs = _); lia). lia.
Qed.

(** [ext2_blockmap] of a file without extents answers a hole with -1 and no
    bytes; otherwise the bytes it reports are those asked for, inside the file,
    and each of them lies on the device where the answer says, counting from
    the device block the answer starts with. *)
Theorem blockmap_spec w i foffset size :
  bmap_geometry -> 4 <= um_nindir fs -> 0 <= foffset -> 0 <= size ->
  w_inodes w !! ip = Some i -> has_feature (i_flag i) IN_E4EXTENTS = false ->
  file_ok (w_dev w) i (foffset / m_bsize fs) -> (forall d, d ∈ S -> w_bufs w !! d = None) ->
  wp (ext2_blockmap fs io_maxreadcnt ip foffset size) (fun r w' =>
    file_same ip S w w' /\ w_bufs w' = w_bufs w /\
    match r with
    | inr e => e <> 0
    | inl (bpn, run) =>
        bpn = -1 /\ run = 0 /\ file_ptr (w_dev w) i (foffset / m_bsize fs) = Some 0 \/
        0 <= run <= size /\ (run = 0 \/ foffset + run <= i_size i) /\
        forall x, 0 <= x < run ->
          byte_addr (w_dev w) i (foffset + x) = Some (bpn * 512 + foffset mod 512 + x)
    end) w.
Proof.
  intros Hg Hn Hf Hsz Hi Hflag Hok Hfree. pose proof (bg_pow Hg) as [_ Hb]. unfold ext2_blockmap.
  apply wp_bind. unfold wp at 1, VTOI. rewrite Hi. cbv zeta. rewrite Hflag, lblkno_div by done.
  apply wp_bind. eapply wp_mono.
  { apply bmaparray_wp; try done; [exact (bg_shift Hg)|apply Z.div_pos; lia]. }
  intros r w' (Hsame & Hbufs & Hpost). destruct Hpost as [(He & _ & q & Hqp & Hq & Hbnp & _ & Hr0 & _ & Hrun)|Hbad].
  - rewrite He, Hbnp. cbn [Z.eqb negb deref]. apply wp_bind, wp_ret.
    destruct (decide (q = 0)) as [->|Hq0].
    { change (dev_block 0 <? 0) with true. apply wp_ret. split; [done|]. split; [done|]. by left. }
    assert (0 <= dev_block q) as Hd.
    { unfold dev_block. rewrite (proj2 (Z.eqb_neq q 0)) by done.
      apply Z.mul_nonneg_nonneg; [done|apply Z.pow_nonneg; lia]. }
    rewrite (proj2 (Z.ltb_ge _ _) Hd). apply wp_ret. split; [done|]. split; [done|]. right.
    split; [|split; [|intros x Hx; by eapply contig_bytes]].
    + rewrite blockmap_contig_min. lia.
    + rewrite blockmap_contig_min. lia.
  - assert (bm_error r <> 0) as Hne by (destruct Hbad as [[-> _]|[? _]]; done).
    rewrite (proj2 (Z.eqb_neq _ _) Hne). cbn [negb]. by apply wp_ret.
Qed.
End walk.

(** * Extents *)

(** For an inode whose extents are in the inode itself, [ext4_bmapext]
    computes the address from the last extent that starts at or before the
    block asked for, whether or not that extent reaches it: a block in a hole
    behind an extent is mapped to the blocks that follow the extent on the
    device, never to a hole. *)
Theorem bmapext_inline `{KernelEnv} fs ip i bn n k w :
  w_inodes w !! ip = Some i ->
  eh_magic (inode_area i) = Ok EXT4_EXT_MAGIC -> eh_depth (inode_area i) = Ok 0 ->
  extents_of (inode_area i) n k -> 0 < n -> k 0 <= bn ->
  exists s e, last_le k n bn s /\ 0 <= s /\ get_extent (inode_area i) s = Ok e /\ e_blk e = k s /\
    ext4_bmapext fs ip bn w =
      Ok (let bnp := fsbtodb fs (bn - e_blk e + Z.lor (e_start_lo e) (Z.shiftl (e_start_hi e) 32)) in
          mk_bmap 0 (Some (if bnp =? 0 then -1 else bnp)) 0 0, w).
Proof.
  intros Hi Hm Hd Hx Hn Hk0.
  destruct (find_extent_inline_run fs ip i bn n k w path0 Hi Hm Hd Hx Hn) as (s & Hf & Hl).
  assert (0 <= s) as Hs.
  { destruct (decide (0 <= s)); [done|]. destruct Hl as (Hr & _ & Hhi). pose proof (Hhi 0). lia. }
  destruct Hx as (_ & _ & Hget & _). destruct Hl as (Hr & Hlo & Hhi).
  destruct (Hget s ltac:(lia)) as (e & He & Hek). exists s, e.
  split; [done|]. split; [done|]. split; [done|]. split; [done|].
  unfold ext4_bmapext. erewrite bind_run by exact Hf. cbn [fst ep_ext ep_header].
  erewrite bind_run by reflexivity. erewrite bind_run by (by eapply node_read_inode).
  by erewrite bind_run by (by apply lift_run).
Qed.
