(* ===== verification/Balloc.v ===== *)
(** Blocks for a file, ext2_balloc.c: the buffer of a logical block, with a block
    of the device allocated for it, and for the indirect blocks that lead to it,
    where there is none yet. *)
From stdpp Require Import gmap.
From S2P Require Import Prelude Bitmap Bytes Super Kernel InodeCnv Cluster Alloc Extents Bmap.

Definition BA_CLRBUF : Z := 0x10000.
Definition IO_SYNC : Z := 0x4.

Section balloc.
Context `{KernelEnv} (fs : m_ext2fs) (MAXPHYS : Z).

(** The uid of the caller, and the one [NOCRED] stands for. *)
Context (cr_uid nocred_uid : Z).

Abbreviation K := (M world).

(** An errno and [*bpp]. *)
Definition balloc_result : Type := Z * option bufref.
Definition failed (error : Z) : balloc_result := (error, None).

Definition fragroundup (size : Z) : Z := howmany size (m_fsize fs) * m_fsize fs.

(** [fs->i_size >= (uint64_t)((lbn + 1) * fs->e2fs_bsize)] *)
Definition block_inside (i : inode) (lbn : Z) : bool := i_size i >=? u64 ((lbn + 1) * m_bsize fs).

Definition clear_if (flags : Z) (r : bufref) : K unit := if has_feature flags BA_CLRBUF then buf_clear r else mret tt.

(** A read of a block of the file; a failed read lets the buffer go. *)
Definition read_file_block (ip lbn size : Z) : K balloc_result :=
  error ← file_meta_bread ip lbn size;
  if negb (error =? 0) then (ref_brelse (FileBuf ip lbn);; mret (failed error))
  else mret (0, Some (FileBuf ip lbn)).

(** The pointers of an inode lie one after the other, so that [&ip->i_db[0]] is
    read beyond the direct ones. *)
Definition pointers (i : inode) : list Z := i_db i ++ i_ib i.

Definition set_db (lbn v : Z) : inode -> inode := upd_i_db (zinsert lbn v).
Definition set_ib (level v : Z) : inode -> inode := upd_i_ib (zinsert level v).

(** ** Extents *)

Definition ext2_ext_balloc (ip lbn size flags : Z) : K balloc_result :=
  r ← ext4_ext_find_extent fs ip lbn path0;
  let path := fst r in
  i ← VTOI ip;
  phys ← (match ep_ext path with
          | Some s =>
              hdr ← deref (ep_header path);
              node ← node_read ip hdr;
              ep ← lift (get_extent node s);
              mret (if (lbn >=? e_blk ep) && (lbn <? e_blk ep + e_len ep)
                    then u32 (e_start_lo ep + u32 (lbn - e_blk ep)) else 0)
          | None => mret 0
          end);
  if negb (phys =? 0) && block_inside i lbn then
    error ← file_meta_bread ip (lblkno fs phys) size;
    ext4_ext_drop_refs path;;
    mret (error, Some (FileBuf ip (lblkno fs phys)))
  else
    EXT2_LOCK;;
    r ← ext2_alloc fs MAXPHYS ip lbn 0 size cr_uid;
    let '(error, newb) := r in
    EXT2_UNLOCK;;
    if negb (error =? 0) then (ext4_ext_drop_refs path;; mret (failed error))
    else
      r ← ext4_ext_insert_extent fs MAXPHYS ip nocred_uid path (mk_extent (u32 lbn) 1 0 (u32 newb));
      let '(error, path) := r in
      if negb (error =? 0) then
        (ext2_blkfree fs MAXPHYS ip newb size;; ext4_ext_drop_refs path;; mret (failed error))
      else
        ok ← file_getblk ip lbn size;
        if negb (ok : bool) then (ext4_ext_drop_refs path;; mret (failed EIO))
        else
          clear_if flags (FileBuf ip lbn);;
          upd_inode ip (or_flag (Z.lor IN_CHANGE IN_UPDATE));;
          ext4_ext_drop_refs path;;
          mret (0, Some (FileBuf ip lbn)).

(** ** Direct blocks *)

(** The block is there, and the file does not reach its end: the fragment that
    would have been grown. *)
Definition balloc_tail (ip lbn size : Z) (i : inode) : K balloc_result :=
  let osize := s32 (fragroundup (blkoff fs (i_size i))) in
  let nsize := s32 (fragroundup size) in
  if nsize <=? osize then read_file_block ip lbn osize
  else halt (Panic "ext2_balloc: Something is terribly wrong").

(** A new block for direct pointer [lbn]. *)
Definition balloc_new_direct (ip lbn size flags : Z) (i : inode) : K balloc_result :=
  let nsize := if block_inside i lbn then m_bsize fs else s32 (fragroundup size) in
  EXT2_LOCK;;
  j ← VTOI ip;
  pref ← ext2_blkpref fs ip lbn lbn (Some (pointers j)) 0;
  r ← ext2_alloc fs MAXPHYS ip lbn pref nsize cr_uid;
  let '(error, newb) := r in
  if negb (error =? 0) then mret (failed error)
  else
    upd_inode ip (set_db lbn (u32 newb));;
    ok ← file_getblk ip lbn nsize;
    if negb (ok : bool) then
      upd_inode ip (set_db lbn 0);; ext2_blkfree fs MAXPHYS ip newb nsize;; mret (failed EIO)
    else (clear_if flags (FileBuf ip lbn);; mret (0, Some (FileBuf ip lbn))).

Definition balloc_direct (ip lbn size flags : Z) : K balloc_result :=
  i ← VTOI ip;
  nb ← lift (access (i_db i !z lbn));
  if negb (nb =? 0) && block_inside i lbn then read_file_block ip lbn (m_bsize fs)
  else
    r ← (if negb (nb =? 0) then balloc_tail ip lbn size i else balloc_new_direct ip lbn size flags i);
    if negb (fst r =? 0) then mret r
    else (upd_inode ip (or_flag (Z.lor IN_CHANGE IN_UPDATE));; mret r).

(** ** Indirect blocks *)

(** A new indirect block [newb], zeroed on the device before anything points to
    it. On failure the block is given back. *)
Definition zero_indirect (ip newb : Z) : K Z :=
  let b := fsbtodb fs newb in
  ok ← buf_getblk b (m_bsize fs);
  if negb (ok : bool) then (ext2_blkfree fs MAXPHYS ip newb (m_bsize fs);; mret EIO)
  else
    buf_clear (DevBuf b);;
    error ← buf_bwrite b;
    if negb (error =? 0) then (ext2_blkfree fs MAXPHYS ip newb (m_bsize fs);; mret error) else mret 0.

(** The first indirect block: an errno, or the block and [pref]. *)
Definition balloc_first (ip lbn : Z) (a : indir) : K (Z * Z + Z) :=
  i ← VTOI ip;
  nb ← lift (access (i_ib i !z in_off a));
  if negb (nb =? 0) then mret (inl (nb, 0))
  else
    EXT2_LOCK;;
    j ← VTOI ip;
    pref ← ext2_blkpref fs ip lbn (in_off a + NDADDR) (Some (pointers j)) 0;
    let pref := u32 pref in
    r ← ext2_alloc fs MAXPHYS ip lbn pref (m_bsize fs) cr_uid;
    let '(error, newb) := r in
    if negb (error =? 0) then mret (inr error)
    else
      error ← zero_indirect ip newb;
      if negb (error =? 0) then mret (inr error)
      else
        upd_inode ip (fun i => or_flag (Z.lor IN_CHANGE IN_UPDATE) (set_ib (in_off a) (u32 newb) i));;
        mret (inl (newb, pref)).

(** An indirect block as the array it holds, and an entry of it stored. *)
Definition set_entry (data : list Z) (off v : Z) : res (list Z) := put32 data (4 * off) v.

(** The write of a changed indirect block, whose errno the code drops. *)
Definition put_indirect (b flags : Z) : K unit :=
  if has_feature flags IO_SYNC then (_ ← buf_bwrite b; mret tt) else buf_bdwrite b.

(** The last level is in the buffer of [fsbtodb indirb], its entry [nb]. *)
Record at_leaf : Type := mk_leaf { lf_indirb : Z; lf_indir : indir; lf_nb : Z; lf_pref : Z }.

(** The loop over the levels: [a] is the entry of [indirs] to look at in block
    [indirb], [rest] those after it. *)
Fixpoint balloc_walk (ip lbn flags : Z) (indirb pref : Z) (a : indir) (rest : list indir) : K (at_leaf + Z) :=
  let b := fsbtodb fs indirb in
  error ← buf_meta_bread b (m_bsize fs);
  if negb (error =? 0) then (buf_brelse b;; mret (inr error))
  else
    data ← buf_dataptr b;
    nb ← lift (access (daddrs data !z in_off a));
    match rest with
    | [] => mret (inl (mk_leaf indirb a nb pref))
    | a' :: rest' =>
        if negb (nb =? 0) then (buf_brelse b;; balloc_walk ip lbn flags nb pref a' rest')
        else
          EXT2_LOCK;;
          pref ← (if pref =? 0 then
                    p ← ext2_blkpref fs ip lbn (in_off a') (Some (daddrs data)) (u32 (in_lbn a')); mret (u32 p)
                  else mret pref);
          r ← ext2_alloc fs MAXPHYS ip lbn pref (m_bsize fs) cr_uid;
          let '(error, newb) := r in
          if negb (error =? 0) then (buf_brelse b;; mret (inr error))
          else
            error ← zero_indirect ip newb;
            if negb (error =? 0) then (EXT2_UNLOCK;; buf_brelse b;; mret (inr error))
            else
              data ← lift (set_entry data (in_off a) (u32 newb));
              buf_store b data;;
              put_indirect b flags;;
              balloc_walk ip lbn flags newb pref a' rest'
    end.

(** The data block under the last level. *)
Definition balloc_data (ip lbn flags : Z) (l : at_leaf) : K balloc_result :=
  let b := fsbtodb fs (lf_indirb l) in
  let off := in_off (lf_indir l) in
  if lf_nb l =? 0 then
    data ← buf_dataptr b;
    EXT2_LOCK;;
    pref ← ext2_blkpref fs ip lbn off (Some (daddrs data)) (u32 (in_lbn (lf_indir l)));
    r ← ext2_alloc fs MAXPHYS ip lbn (u32 pref) (m_bsize fs) cr_uid;
    let '(error, newb) := r in
    if negb (error =? 0) then (buf_brelse b;; mret (failed error))
    else
      data' ← lift (set_entry data off (u32 newb));
      buf_store b data';;
      ok ← file_getblk ip lbn (m_bsize fs);
      if negb (ok : bool) then
        data'' ← lift (set_entry data' off 0);
        buf_store b data'';;
        ext2_blkfree fs MAXPHYS ip newb (m_bsize fs);;
        buf_brelse b;;
        mret (failed EIO)
      else
        clear_if flags (FileBuf ip lbn);;
        put_indirect b flags;;
        mret (0, Some (FileBuf ip lbn))
  else
    buf_brelse b;;
    if has_feature flags BA_CLRBUF then read_file_block ip lbn (m_bsize fs)
    else
      ok ← file_getblk ip lbn (m_bsize fs);
      if negb (ok : bool) then mret (failed EIO) else mret (0, Some (FileBuf ip lbn)).

Definition balloc_indirect (ip lbn flags : Z) : K balloc_result :=
  match ext2_getlbns (um_nindir fs) lbn with
  | inr error => mret (failed error)
  | inl (a0 :: a1 :: rest) =>
      r ← balloc_first ip lbn a0;
      match r with
      | inr error => mret (failed error)
      | inl (nb, pref) =>
          r ← balloc_walk ip lbn flags nb pref a1 rest;
          match r with inr error => mret (failed error) | inl l => balloc_data ip lbn flags l end
      end
  | inl _ => halt OutOfBounds
  end.

(** The hint for a sequential writer. *)
Definition next_alloc (lbn : Z) (i : inode) : inode :=
  if lbn =? u32 (i_next_alloc_block i + 1) then
    upd_i_next_alloc_goal (fun g => u32 (g + 1)) (upd_i_next_alloc_block (fun b => u32 (b + 1)) i)
  else i.

Definition ext2_balloc (ip lbn size flags : Z) : K balloc_result :=
  if lbn <? 0 then mret (failed EFBIG)
  else
    i ← VTOI ip;
    if has_feature (i_flag i) IN_E4EXTENTS then ext2_ext_balloc ip lbn size flags
    else
      upd_inode ip (next_alloc lbn);;
      if lbn <? NDADDR then balloc_direct ip lbn size flags else balloc_indirect ip lbn flags.

End balloc.
