(* ===== verification/BallocSpec.v ===== *)
(** What [ext2_balloc] does: for direct blocks in full, for files of extents
    that it cannot return. *)
From stdpp Require Import gmap.
From S2P Require Import Prelude Bitmap Bytes Super Kernel InodeCnv Cluster Alloc AllocSpec Frame Extents Bmap Balloc.

(** * Files of extents *)

(** Every result of [m] satisfies [P]. *)
Definition yields {A} (P : A -> Prop) (m : M world A) : Prop := forall w a w', m w = Ok (a, w') -> P a.

Lemma yields_ret {A} (P : A -> Prop) a : P a -> yields P (mret a).
Proof. by intros HP w b w' [= <- <-]. Qed.

Lemma yields_bind {A B} (Q : A -> Prop) (P : B -> Prop) (m : M world A) (k : A -> M world B) :
  yields Q m -> (forall a, Q a -> yields P (k a)) -> yields P (m ≫= k).
Proof.
  intros Hm Hk w b w'. unfold mbind, M_bind. destruct (m w) as [[a w1]|] eqn:E; [|done]. apply Hk. by eapply Hm.
Qed.

Lemma yields_any {A} (m : M world A) : yields (fun _ => True) m.
Proof. by intros w a w' _. Qed.

Lemma yields_then {A B} (P : B -> Prop) (m : M world A) (k : A -> M world B) :
  (forall a, yields P (k a)) -> yields P (m ≫= k).
Proof. intros Hk. apply (yields_bind (fun _ => True)); [apply yields_any|auto]. Qed.

(** A run of [m] never returns. *)
Definition stuck {A} (m : M world A) : Prop := forall w, exists f, m w = Fault f.

Lemma stuck_halt {A} f : stuck (halt f : M world A).
Proof. intros w. by exists f. Qed.

Lemma stuck_bind {A B} (P : A -> Prop) (m : M world A) (k : A -> M world B) :
  yields P m -> (forall a, P a -> stuck (k a)) -> stuck (m ≫= k).
Proof.
  intros Hm Hk w. unfold mbind, M_bind. destruct (m w) as [[a w1]|f] eqn:E; [|by exists f]. apply Hk. by eapply Hm.
Qed.

Lemma stuck_then {A B} (m : M world A) (k : A -> M world B) : (forall a, stuck (k a)) -> stuck (m ≫= k).
Proof. intros Hk. apply (stuck_bind (fun _ => True)); [apply yields_any|auto]. Qed.

Lemma stuck_first {A B} (m : M world A) (k : A -> M world B) : stuck m -> stuck (m ≫= k).
Proof. intros Hm w. destruct (Hm w) as [f Hf]. exists f. by apply bind_fault. Qed.

Section extents.
Context `{KernelEnv} (fs : m_ext2fs) (MAXPHYS cr_uid nocred_uid : Z).

Lemma find_descend_depth ip lbn depth : forall path, 0 <= ep_depth path ->
  yields (fun r => 0 <= ep_depth (fst r)) (find_descend fs ip lbn depth path).
Proof.
  induction depth as [|depth IH]; intros path Hp; cbn [find_descend]; [by apply yields_ret|].
  do 6 (apply yields_then; intros ?; cbv zeta). case_match; [|by apply IH].
  apply yields_then. intros _. by apply yields_ret.
Qed.

Lemma find_extent_depth ip lbn path : 0 <= ep_depth path ->
  yields (fun r => 0 <= ep_depth (fst r)) (ext4_ext_find_extent fs ip lbn path).
Proof.
  intros Hp. unfold ext4_ext_find_extent. do 2 (apply yields_then; intros ?). case_match; [by apply yields_ret|].
  apply yields_then. intros ?. eapply yields_bind; [by apply find_descend_depth|]. intros [path' found] Hp'.
  destruct found; cbn [negb]; [|by apply yields_ret]. do 3 (apply yields_then; intros ?). by apply yields_ret.
Qed.

Lemma insert_extent_depth ip path e : 0 <= ep_depth path ->
  yields (fun r => 0 <= ep_depth (snd r)) (ext4_ext_insert_extent fs MAXPHYS ip nocred_uid path e).
Proof.
  intros Hp. unfold ext4_ext_insert_extent. do 4 (apply yields_then; intros ?). case_match.
  { do 4 (apply yields_then; intros ?). by apply yields_ret. }
  apply yields_then. intros ?. case_match. { apply yields_then. intros ?. by apply yields_ret. }
  apply yields_then. intros [error b]. case_match; [by apply yields_ret|].
  apply yields_then. intros ?. case_match; by apply yields_ret.
Qed.

Lemma drop_refs_stuck path : 0 <= ep_depth path -> stuck (ext4_ext_drop_refs path).
Proof.
  intros Hp. unfold ext4_ext_drop_refs. rewrite (proj2 (Z.leb_le 0 (ep_depth path))) by done.
  apply stuck_then. intros _. apply stuck_halt.
Qed.

Lemma ext_balloc_stuck ip lbn size flags : stuck (ext2_ext_balloc fs MAXPHYS cr_uid nocred_uid ip lbn size flags).
Proof.
  unfold ext2_ext_balloc. eapply stuck_bind; [apply find_extent_depth; cbn; lia|]. intros [path found] Hp. cbn in Hp |- *.
  do 2 (apply stuck_then; intros ?). case_match.
  { apply stuck_then. intros ?. by apply stuck_first, drop_refs_stuck. }
  apply stuck_then. intros _. apply stuck_then. intros [error newb]. apply stuck_then. intros _.
  case_match; [by apply stuck_first, drop_refs_stuck|].
  eapply stuck_bind; [by apply insert_extent_depth|]. intros [error' path'] Hp'. cbn in Hp'.
  case_match; [apply stuck_then; intros _; by apply stuck_first, drop_refs_stuck|].
  apply stuck_then. intros ok. destruct ok; cbn [negb]; [|by apply stuck_first, drop_refs_stuck].
  do 2 (apply stuck_then; intros _). by apply stuck_first, drop_refs_stuck.
Qed.

(** On a file of extents [ext2_balloc] never returns: every way through it
    ends in [ext4_ext_drop_refs], which runs past the one path there is, or in a
    fault before that. Such a file can be read, but not written to. *)
Theorem balloc_extents_stuck ip lbn size flags w i :
  0 <= lbn -> w_inodes w !! ip = Some i -> has_feature (i_flag i) IN_E4EXTENTS = true ->
  exists f, ext2_balloc fs MAXPHYS cr_uid nocred_uid ip lbn size flags w = Fault f.
Proof.
  intros Hl Hi Hf. unfold ext2_balloc. destruct (Z.ltb_spec lbn 0); [lia|].
  assert (VTOI ip w = Ok (i, w)) as Hv by (unfold VTOI; by rewrite Hi). rewrite (bind_run _ _ _ _ _ Hv), Hf.
  apply ext_balloc_stuck.
Qed.
End extents.

(** * Direct blocks *)

Lemma wp_VTOI `{KernelEnv} (Q : inode -> world -> Prop) w ip i : w_inodes w !! ip = Some i -> Q i w -> wp (VTOI ip) Q w.
Proof. intros Hi HQ. unfold wp, VTOI. by rewrite Hi. Qed.

Lemma wp_upd_inode `{KernelEnv} (Q : unit -> world -> Prop) w ip i f :
  w_inodes w !! ip = Some i -> Q tt (upd_w_inodes (insert ip (f i)) w) -> wp (upd_inode ip f) Q w.
Proof. intros Hi HQ. unfold wp, upd_inode. by rewrite Hi. Qed.

Section direct.
Context `{KE : KernelEnv} (fs : m_ext2fs) (MAXPHYS : Z) (B I : Z -> Z).
Context (Hg : group_ok fs) (Hl : layout_ok fs B I) (He : env_ok fs MAXPHYS B I).
Context (Hfsize : m_fsize fs = m_bsize fs) (Hmask : m_qbmask fs = m_bsize fs - 1).
Context (Hpow : exists k, 0 <= k /\ m_bsize fs = 2 ^ k) (Hmax : e2fs_bcount (m_e2fs fs) <= 2 ^ 31).
Context (cr_uid nocred_uid ip : Z) (Hip : 1 <= ip <= m_gcount fs * sb_ipg fs) (Hiu : u64_ok ip).
Context (Hframe : env_frame ip).

(** While this thread waits, others allocate but free nothing. *)
Definition env_no_free : Prop := forall cg j, group fs cg -> env_keeps fs MAXPHYS B I (bdev fs B cg) j.
Context (Hnofree : env_no_free).

#[local] Abbreviation reach := (reach fs MAXPHYS B I).

(** The state of the volume that the allocator's theorems speak of. *)
Record vol_same (w w' : world) : Prop := mk_vol_same {
  vs_vol : vol_ok fs MAXPHYS B I w';
  vs_locked : w_locked w' = false;
  vs_bufs : w_bufs w' = w_bufs w;
  vs_fdata : forall l, w_fdata w' !! (ip, l) = w_fdata w !! (ip, l)
}.

Definition idle (w : world) : Prop := vol_ok fs MAXPHYS B I w /\ w_locked w = false /\ bitmaps_free fs B I w.

Lemma idle_same w w' : idle w -> vol_same w w' -> idle w'.
Proof. intros (_ & _ & Hf) []. split; [done|]. split; [done|]. intros cg Hc. rewrite vs_bufs0. by apply Hf. Qed.

Lemma vol_same_trans w1 w2 w3 : vol_same w1 w2 -> vol_same w2 w3 -> vol_same w1 w3.
Proof. intros [] []. constructor; congruence. Qed.

Lemma vol_same_refl w : idle w -> vol_same w w.
Proof. intros (H1 & H2 & _). by constructor. Qed.

(** Only what is not part of the volume differs. *)
Lemma vol_same_of w w' :
  idle w -> w_fbcount w' = w_fbcount w -> w_ficount w' = w_ficount w -> w_gd w' = w_gd w ->
  w_contigdirs w' = w_contigdirs w -> w_maxcluster w' = w_maxcluster w -> w_clustersum w' = w_clustersum w ->
  w_dev w' = w_dev w -> w_bufs w' = w_bufs w -> w_others w' = w_others w -> w_locked w' = w_locked w ->
  (forall l, w_fdata w' !! (ip, l) = w_fdata w !! (ip, l)) -> vol_same w w'.
Proof.
  intros (Hv & Hlk & _) H1 H2 H3 H4 H5 H6 H7 H8 H9 H10 H11. constructor; [|congruence|done|done].
  unfold vol_ok. by rewrite H1, H2, H3, H4, H5, H6, H7, H8, H9.
Qed.

(** A wait. *)
Lemma wait_same w n b : idle w ->
  vol_same w (ke_wait n b w) /\ w_inodes (ke_wait n b w) = w_inodes w /\ w_fbufs (ke_wait n b w) = w_fbufs w.
Proof.
  intros (Hv & Hlk & Hf). destruct (eo_wait _ _ _ _ He n b w Hv) as (Hv' & Hr & _).
  destruct (ew_wait _ Hframe n b w) as [Hfb Hfd]. split; [|split; [apply Hr|done]].
  constructor; [done|by rewrite (re_locked _ _ _ _ _ Hr)|apply Hr|done].
Qed.

Lemma wait_bit w n b cg j : idle w -> group fs cg -> bit_set_on_dev w (bdev fs B cg) j ->
  bit_set_on_dev (ke_wait n b w) (bdev fs B cg) j.
Proof.
  intros Hid Hc (bs & Hbs & Hbit). pose proof Hid as (Hv & _).
  destruct (wait_same w n b Hid) as ([Hv' _ _ _] & _).
  destruct (bmap_readable fs MAXPHYS B I _ _ Hc Hv') as (bs' & Hbs' & _). exists bs'. split; [done|].
  by eapply (Hnofree cg j Hc n b w bs bs' Hv).
Qed.

(** What the caller gets: the buffer, or an errno and no buffer. *)
Definition holds (w w' : world) (lbn : Z) (d : list Z) : Prop := w_fbufs w' = <[(ip, lbn) := d]> (w_fbufs w).

(** Between [w] and [w'] a read of block [lbn] of a file failed with [e]. *)
Definition read_error (lbn : Z) (w w' : world) (e : Z) : Prop :=
  exists n, (w_tick w <= n < w_tick w')%nat /\ ke_read_error n lbn = Some e.

Lemma wait_reach w n b : idle w ->
  reach w (ke_wait n b w) /\ w_tick (ke_wait n b w) = w_tick w.
Proof.
  intros (Hv & _). split; [by apply reach_wait|]. destruct (eo_wait _ _ _ _ He n b w Hv) as (_ & Hr & _). apply Hr.
Qed.

Lemma file_bread_wp w lbn d :
  idle w -> w_fbufs w !! (ip, lbn) = None -> w_fdata w !! (ip, lbn) = Some d -> zlen d = m_bsize fs ->
  wp (read_file_block ip lbn (m_bsize fs)) (fun r w' => vol_same w w' /\ w_inodes w' = w_inodes w /\ reach w w' /\
    (r = (0, Some (FileBuf ip lbn)) /\ holds w w' lbn d \/
     exists e, e <> 0 /\ r = failed e /\ w_fbufs w' = w_fbufs w /\ read_error lbn w w' e)) w.
Proof.
  intros Hid Hfb Hd Hlen. destruct (wait_reach w (w_tick w) lbn Hid) as [Hre Ht]. destruct (wait_same w (w_tick w) lbn Hid) as (Hs & Hin & Hfbw). pose proof Hs as [_ _ _ Hfd].
  unfold read_file_block. apply wp_bind. unfold wp at 1, file_meta_bread. rewrite Hfb. cbv zeta.
  assert (forall f, vol_same w (upd_w_fbufs f (upd_w_tick S (ke_wait (w_tick w) lbn w)))) as Hs' by (intros f; by destruct Hs).
  destruct (ke_read_error (w_tick w) lbn) as [e|] eqn:Ee.
  - pose proof (eo_errno _ _ _ _ He _ _ _ Ee) as Hne. rewrite (proj2 (Z.eqb_neq e 0)) by done. cbn [negb].
    apply wp_bind. unfold wp at 1. cbn. rewrite lookup_insert_eq. apply wp_ret. split; [by destruct Hs|]. split; [done|].
    split; [eapply reach_own; [exact Hre|done|cbn; lia]|].
    right. exists e. split; [done|]. split; [done|]. split; [cbn; rewrite Hfbw; by apply delete_insert_id|].
    exists (w_tick w). split; [cbn; lia|done].
  - cbn. rewrite Hfd, Hd, Hlen, Z.eqb_refl. cbn. apply wp_ret. split; [apply Hs'|]. split; [done|].
    split; [eapply reach_own; [exact Hre|done|cbn; lia]|]. left. split; [done|].
    unfold holds. cbn. by rewrite Hfbw.
Qed.

(** On the way from [w] to [w'] this thread took block [b], which was free in
    the world the others had led to, by one committed step, and changed nothing
    else the threads share. *)
Definition taken (w : world) (b : Z) (w' : world) : Prop :=
  exists w1 w2, reach w w1 /\ vol_ok fs MAXPHYS B I w1 /\ found_block fs B (m_bsize fs) b w1 w2 /\ reach w2 w'.

(** There was no block for this caller. *)
Definition no_room (w w' : world) : Prop :=
  exists w1, reach w w1 /\ reach w1 w' /\
    (refused fs w1 (m_bsize fs) cr_uid \/ all_missed fs MAXPHYS B I w1 w').

Lemma found_block_bit b w1 w2 :
  found_block fs B (m_bsize fs) b w1 w2 ->
  group fs (dtog fs b) /\ first_dblock fs <= b < e2fs_bcount (m_e2fs fs) /\ 0 < b /\
  bit_set_on_dev w2 (bdev fs B (dtog fs b)) (dtogd fs b).
Proof.
  intros (cg & bno & Hc & Hbno & Hb & Hr & (gd & bs & bs' & _ & _ & _ & Hbits & Hdev & _)). pose proof Hg as [].
  assert (0 <= cg) by apply Hc.
  assert (first_dblock fs <= b < e2fs_bcount (m_e2fs fs)) as Hrange by nia.
  assert (dtog fs b = cg /\ dtogd fs b = bno) as [Hcg Hd].
  { unfold dtog, dtogd. fold (first_dblock fs). rewrite gr_bpg, crem_nonneg, cdiv_nonneg by lia. subst b.
    replace (cg * sb_fpg fs + first_dblock fs + bno - first_dblock fs) with (cg * sb_fpg fs + bno) by lia.
    split; [rewrite Z.div_add_l by lia; rewrite Z.div_small by lia; lia|].
    rewrite Z.add_comm, Z_mod_plus_full. by apply Z.mod_small. }
  rewrite Hcg, Hd. split; [done|]. split; [done|]. split; [lia|]. exists bs'. rewrite Hdev, lookup_insert_eq.
  split; [done|]. rewrite Hbits by lia. by rewrite Z.eqb_refl.
Qed.

(** ** The preference *)

Definition pointers_ok (i : inode) : Prop := zlen (i_db i) = NDADDR /\ zlen (i_ib i) = NIADDR /\ Forall u32_ok (pointers i).

Lemma last_nonzero_ok l n : (n <= length l)%nat -> Forall u32_ok l ->
  exists o, last_nonzero l n = Ok o /\ (forall v, o = Some v -> 0 <= v).
Proof.
  intros Hn Hok. induction n as [|n IH]; cbn [last_nonzero]; [by exists None|].
  destruct (zlookup_lt l (Z.of_nat n)) as [v Hv]; [unfold zlen; lia|]. rewrite Hv. cbn.
  destruct (Z.eqb_spec v 0); cbn [negb]; [apply IH; lia|]. exists (Some v). split; [done|]. intros ? [= <-].
  apply zlookup_Some_inv in Hv as [_ Hv]. apply (proj1 (Forall_lookup _ _) Hok _ _ Hv).
Qed.

Lemma blkpref_ok i lbn indx bap blocknr :
  0 <= indx <= zlen bap -> Forall u32_ok bap -> u32_ok (i_next_alloc_goal i) -> u32_ok blocknr ->
  exists p, blkpref fs i lbn indx (Some bap) blocknr = Ok p /\ 0 <= p.
Proof.
  intros Hi Hb Hgoal Hnr. pose proof Hg as []. unfold blkpref. case_match; [eexists; split; [done|apply Hgoal]|].
  destruct (last_nonzero_ok bap (Z.to_nat indx)) as (o & -> & Ho); [unfold zlen in *; lia|done|]. cbn.
  destruct o as [v|]; [eexists; split; [done|by apply Ho]|]. eexists. split; [done|].
  case_match; [apply Hnr|]. pose proof (u32_range (u32 (i_block_group i * m_bpg fs) + first_dblock fs)) as [? _]. done.
Qed.

Lemma pref_valid_nonneg p : 0 <= p -> pref_valid fs p.
Proof. intros Hp. pose proof Hg as []. unfold pref_valid. lia. Qed.

(** ** A new block *)

Lemma lock_wp (Q : unit -> world -> Prop) w :
  idle w ->
  (forall w1, vol_ok fs MAXPHYS B I w1 -> w_locked w1 = true -> bitmaps_free fs B I w1 -> w_bufs w1 = w_bufs w ->
     w_inodes w1 = w_inodes w -> file_frame ip w w1 -> reach w w1 -> Q tt w1) ->
  wp EXT2_LOCK Q w.
Proof.
  intros (Hv & Hlk & Hf) HQ. unfold wp, EXT2_LOCK. rewrite Hlk.
  destruct (eo_sched _ _ _ _ He (w_tick w) w Hv) as [Hv1 Hr]. destruct (ew_sched _ Hframe (w_tick w) w) as [H1 H2].
  apply HQ; [done|done| |apply Hr|apply Hr|by constructor|].
  2:{ eapply reach_own; [by apply reach_sched|done|cbn; lia]. }
  intros cg Hc. cbn. rewrite (re_bufs _ _ _ _ _ Hr). by apply Hf.
Qed.

(** A block for the inode [i], taken under the lock. *)
Definition alloc_post (w : world) (lbn size : Z) (i : inode) (eb : Z * Z) (w' : world) : Prop :=
  vol_same w w' /\ w_fbufs w' = w_fbufs w /\
  ((eb = (ENOSPC, 0) /\ w_inodes w' = w_inodes w /\ reach w w' /\
      (refused fs w size cr_uid \/ all_missed fs MAXPHYS B I w w')) \/
   (exists b w1 i', eb = (0, b) /\ ~ refused fs w size cr_uid /\ vol_ok fs MAXPHYS B I w1 /\ reach w w1 /\
      found_block fs B (m_bsize fs) b w1 w' /\
      w_inodes w' = <[ip := i']> (w_inodes w) /\ inode_grown fs lbn b i i')).

Lemma alloc_block_wp {A} (k : Z * Z -> M world A) (Q : A -> world -> Prop) w lbn bap indx i (wanted : Z -> Z) size blocknr :
  idle w -> w_inodes w !! ip = Some i -> u32_ok (i_next_alloc_goal i) -> u32_ok blocknr ->
  0 <= indx <= zlen bap -> Forall u32_ok bap -> (forall p, 0 <= p -> 0 <= wanted p) ->
  (forall eb w', alloc_post w lbn size i eb w' -> wp (k eb) Q w') ->
  wp (pref ← ext2_blkpref fs ip lbn indx (Some bap) blocknr;
      r ← ext2_alloc fs MAXPHYS ip lbn (wanted pref) size cr_uid; k r) Q (upd_w_locked (fun _ => true) w).
Proof.
  intros (Hv & Hlk & Hf) Hi Hgoal Hnr Hindx Hbap Hw HQ.
  destruct (blkpref_ok i lbn indx bap blocknr Hindx Hbap Hgoal Hnr) as (p & Hp & Hp0).
  apply wp_bind. unfold ext2_blkpref. apply wp_bind, wp_assert_owned; [done|].
  apply wp_bind. eapply wp_VTOI; [exact Hi|]. eapply wp_lift; [exact Hp|]. apply wp_bind.
  eapply wp_mono; [apply (wp_framed (file_frame ip)); [frame|]; eapply (ext2_alloc_wp fs MAXPHYS B I Hg Hl He)|];
    try done; [apply pref_valid_nonneg, Hw, Hp0|].
  intros eb w' [(Hv' & Hlk' & Hb' & Hout) [Hfb Hfd]]. apply HQ. split; [by constructor|]. split; [done|].
  exact Hout.
Qed.

(** Giving back a block just allocated. *)
Lemma free_new_wp w b size :
  idle w -> group fs (dtog fs b) -> first_dblock fs <= b < e2fs_bcount (m_e2fs fs) -> 0 < b ->
  bit_set_on_dev w (bdev fs B (dtog fs b)) (dtogd fs b) ->
  wp (ext2_blkfree fs MAXPHYS ip b size) (fun _ w' => vol_same w w' /\ w_inodes w' = w_inodes w /\ w_fbufs w' = w_fbufs w /\
    (w_tick w <= w_tick w')%nat) w.
Proof.
  intros (Hv & Hlk & Hf) Hc Hb Hb0 Hset.
  eapply wp_mono; [apply (wp_framed (file_frame ip)); [frame|];
    apply (proj2 (ext2_blkfree_wp fs MAXPHYS B I Hg Hl He w ip b size Hv Hlk Hf))|]; try done.
  - unfold u32_ok. lia.
  - by apply Hnofree.
  - intros _ w' [(Hv' & Hlk' & Hb' & Hi' & Hout) [Hfb Hfd]]. split; [by constructor|]. split; [done|]. split; [done|].
    destruct Hout as [(_ & [_ Ht] & _)|(w1 & _ & [_ Ht] & Hcom)]; [done|].
    pose proof (committed_tick _ _ _ _ _ _ _ Hcom). lia.
Qed.


(** Reading an [idle] state under the lock. *)
Lemma unlocked_idle w : vol_ok fs MAXPHYS B I w -> bitmaps_free fs B I w -> idle (upd_w_locked (fun _ => false) w).
Proof. intros Hv Hf. split; [done|]. split; [done|]. done. Qed.

(** ** The outcome *)

Definition same_but_db (i i' : inode) : Prop :=
  i_size i' = i_size i /\ i_ib i' = i_ib i /\ u32_ok (i_next_alloc_goal i') /\
  has_feature (i_flag i') IN_E4EXTENTS = has_feature (i_flag i) IN_E4EXTENTS.

(** The marks a change leaves do not make a file one of extents. *)
Lemma mark_extents f : has_feature (Z.lor f (Z.lor IN_CHANGE IN_UPDATE)) IN_E4EXTENTS = has_feature f IN_E4EXTENTS.
Proof. unfold has_feature. rewrite Z.land_lor_distr_l. by rewrite Z.lor_0_r. Qed.

(** Why there is no buffer: the block could not be read, or, where there was
    none, there was no room for one or the kernel had no buffer for it. *)
Definition direct_error (w : world) (i : inode) (lbn e : Z) (w' : world) : Prop :=
  (i_db i !z lbn <> Some 0 /\ reach w w' /\ read_error lbn w w' e) \/
  (i_db i !z lbn = Some 0 /\ e = ENOSPC /\ reach w w' /\ no_room w w') \/
  (i_db i !z lbn = Some 0 /\ e = EIO /\ exists n, (w_tick w <= n < w_tick w')%nat /\ ke_getblk_null n lbn = true).

Definition direct_post (w : world) (i : inode) (lbn flags : Z) (r : balloc_result) (w' : world) : Prop :=
  vol_same w w' /\ exists i', w_inodes w' = <[ip := i']> (w_inodes w) /\ same_but_db i i' /\
  match r with
  | (e, None) => e <> 0 /\ i_db i' = i_db i /\ w_fbufs w' = w_fbufs w /\ direct_error w i lbn e w'
  | (e, Some bp) => e = 0 /\ bp = FileBuf ip lbn /\ exists d, holds w w' lbn d /\
      (i_db i !z lbn <> Some 0 -> i_db i' = i_db i /\ w_fdata w !! (ip, lbn) = Some d /\ reach w w') /\
      (i_db i !z lbn = Some 0 -> exists b, taken w b w' /\ i_db i' = zinsert lbn b (i_db i) /\
         bit_set_on_dev w' (bdev fs B (dtog fs b)) (dtogd fs b) /\
         (has_feature flags BA_CLRBUF = true -> Forall (eq 0) d))
  end.

Lemma frag_whole size : 0 < size <= m_bsize fs -> s32 (fragroundup fs size) = m_bsize fs.
Proof.
  intros Hs. pose proof Hg as []. unfold fragroundup, howmany. rewrite Hfsize.
  assert ((size + (m_bsize fs - 1)) / m_bsize fs = 1) as ->.
  { symmetry. apply Z.div_unique with (r := size - 1); lia. }
  rewrite Z.mul_1_l. apply s32_id. unfold s32_ok. lia.
Qed.

Lemma clear_if_wp w lbn flags d :
  w_fbufs w !! (ip, lbn) = Some d ->
  wp (clear_if flags (FileBuf ip lbn)) (fun _ w' => exists d', w' = upd_w_fbufs (insert (ip, lbn) d') w /\
    (has_feature flags BA_CLRBUF = true -> Forall (eq 0) d')) w.
Proof.
  intros Hd. unfold clear_if. destruct (has_feature flags BA_CLRBUF).
  - unfold buf_clear. apply wp_bind. unfold wp at 1. cbn [ref_dataptr]. rewrite Hd. unfold wp. cbn [ref_store]. rewrite Hd.
    exists (replicate (length d) 0). split; [done|]. intros _. by apply Forall_replicate.
  - apply wp_ret. exists d. split; [|done]. destruct w; unfold upd_w_fbufs; cbn in *. by rewrite insert_id.
Qed.

Lemma new_direct_wp w i lbn size flags :
  idle w -> w_inodes w !! ip = Some i -> pointers_ok i -> u32_ok (i_next_alloc_goal i) ->
  0 <= lbn < NDADDR -> i_db i !z lbn = Some 0 -> w_fbufs w !! (ip, lbn) = None ->
  0 < size <= m_bsize fs ->
  wp (balloc_new_direct fs MAXPHYS cr_uid ip lbn size flags i) (direct_post w i lbn flags) w.
Proof.
  intros Hid Hi Hptr Hgoal Hl12 Hz Hnb Hsize. pose proof Hptr as (Hdb & Hib & Hu32). unfold balloc_new_direct. cbv zeta.
  assert ((if block_inside fs i lbn then m_bsize fs else s32 (fragroundup fs size)) = m_bsize fs) as ->
    by (case_match; [done|by apply frag_whole]).
  apply wp_bind. eapply lock_wp; [exact Hid|]. intros w1 Hv1 Hlk1 Hf1 Hb1 Hi1 [Hfb1 Hfd1] Hre1.
  apply wp_bind. eapply wp_VTOI; [by rewrite Hi1|].
  set (w1' := upd_w_locked (fun _ => false) w1).
  assert (w1 = upd_w_locked (fun _ => true) w1') as Hw1 by (subst w1'; destruct w1; cbn in *; by subst).
  assert (idle w1') as Hid1 by (by apply unlocked_idle).
  change (reach w w1') in Hre1.
  assert (vol_same w w1') as Hs1 by (by constructor).
  rewrite Hw1. clear Hw1.
  assert (zlen (pointers i) = 15) as Hplen.
  { unfold pointers, zlen in *. rewrite length_app, Nat2Z.inj_add, Hdb, Hib. done. }
  eapply (alloc_block_wp _ _ w1' lbn (pointers i) lbn i (fun p => p));
    [exact Hid1|subst w1'; cbn; by rewrite Hi1|done|done|rewrite Hplen; unfold NDADDR in *; lia|done|done|].
  intros eb w2 (Hs2 & Hfb2 & Hout). pose proof (idle_same _ _ Hid1 Hs2) as Hid2.
  pose proof (vol_same_trans _ _ _ Hs1 Hs2) as Hs02.
  destruct Hout as [(-> & Hin2 & Hre2 & Hno)|(b & w3 & i2 & -> & _ & Hv3 & Hre3 & Hfound & Hin2 & Hgrown)].
  { cbn [Z.eqb ENOSPC negb]. apply wp_ret. split; [done|]. exists i. split.
    - rewrite Hin2. subst w1'. cbn. rewrite Hi1. symmetry. by apply insert_id.
    - split; [done|]. split; [done|]. split; [done|]. split; [rewrite Hfb2; subst w1'; by cbn|].
      right. left. split; [done|]. split; [done|]. split; [by transitivity w1'|]. by exists w1'. }
  destruct (found_block_bit b w3 w2 Hfound) as (Hc & Hbr & Hb0 & Hset). cbn [Z.eqb negb].
  assert (u32 b = b) as Hub by (apply u32_id; unfold u32_ok; lia).
  destruct Hgrown as (_ & _ & Hgoal2 & Hflag2 & Hsz2 & Hdb2 & Hib2).
  assert (forall v v', same_but_db i (set_db lbn v (set_db lbn v' i2))) as Hsame2.
  { intros v v'. split; [done|]. split; [done|]. cbn. rewrite Hgoal2, Hflag2. split; [apply u32_range|apply mark_extents]. }
  assert (forall v, same_but_db i (set_db lbn v i2)) as Hsame3.
  { intros v. split; [done|]. split; [done|]. cbn. rewrite Hgoal2, Hflag2. split; [apply u32_range|apply mark_extents]. }
  assert (w_inodes w2 !! ip = Some i2) as Hi2 by (rewrite Hin2; apply lookup_insert_eq).
  assert (w_inodes w1' = w_inodes w) as Hi1' by done.
  apply wp_bind. eapply wp_upd_inode; [exact Hi2|]. set (i3 := set_db lbn (u32 b) i2).
  set (w4 := upd_w_inodes _ w2). assert (vol_same w2 w4) as Hs4 by (apply vol_same_of; done).
  pose proof (idle_same _ _ Hid2 Hs4) as Hid4.
  destruct (wait_same w4 (w_tick w4) lbn Hid4) as (Hs5 & Hin5 & Hfb5).
  destruct (wait_reach w4 (w_tick w4) lbn Hid4) as [Hre5 Ht5].
  assert (w_tick w <= w_tick w4)%nat as Ht4.
  { destruct Hfound as (cg & bno & _ & _ & _ & _ & Hcom). pose proof (committed_tick _ _ _ _ _ _ _ Hcom).
    destruct Hre1 as [_ ?], Hre3 as [_ ?]. cbn. lia. }
  assert (forall w5, shared_of w5 = shared_of (ke_wait (w_tick w4) lbn w4) -> (w_tick w4 <= w_tick w5)%nat -> taken w b w5) as Htaken.
  { intros w5 Hs Ht. exists w3, w2. split; [by transitivity w1'|]. split; [done|]. split; [done|].
    eapply reach_own; [exact Hre5|done|lia]. }
  pose proof (wait_bit w4 (w_tick w4) lbn _ _ Hid4 Hc Hset) as Hset5.
  pose proof (vol_same_trans _ _ _ Hs02 (vol_same_trans _ _ _ Hs4 Hs5)) as Hs05.
  pose proof (idle_same _ _ Hid4 Hs5) as Hid5.
  assert (w_fbufs (ke_wait (w_tick w4) lbn w4) = w_fbufs w) as Hfbw.
  { rewrite Hfb5. subst w4. cbn. rewrite Hfb2. subst w1'. by cbn. }
  assert (w_inodes (ke_wait (w_tick w4) lbn w4) = <[ip := i3]> (w_inodes w)) as Hinw.
  { rewrite Hin5. subst w4. cbn. by rewrite Hin2, insert_insert_eq, Hi1'. }
  apply wp_bind. unfold wp at 1, file_getblk.
  assert (w_fbufs w4 !! (ip, lbn) = None) as -> by (rewrite <- Hfb5, Hfbw; done). cbv zeta.
  destruct (ke_getblk_null (w_tick w4) lbn) eqn:Enull; cbn [negb].
  - set (w5 := upd_w_tick S (ke_wait (w_tick w4) lbn w4)).
    assert (w_inodes w5 = <[ip := i3]> (w_inodes w)) as Hin5' by exact Hinw.
    assert (w_fbufs w5 = w_fbufs w) as Hfb5' by exact Hfbw.
    apply wp_bind. eapply wp_upd_inode; [rewrite Hin5'; apply lookup_insert_eq|].
    set (w6 := upd_w_inodes _ w5). assert (vol_same (ke_wait (w_tick w4) lbn w4) w6) as Hs6 by (apply vol_same_of; done).
    pose proof (idle_same _ _ Hid5 Hs6) as Hid6.
    apply wp_bind. eapply wp_mono; [apply free_new_wp; [exact Hid6|done|done|done|exact Hset5]|].
    intros _ w7 (Hs7 & Hin7 & Hfb7 & Ht7). apply wp_ret.
    split; [by eapply vol_same_trans; [exact Hs05|]; eapply vol_same_trans|].
    exists (set_db lbn 0 i3). split; [|split; [apply Hsame2|split; [done|split]]].
    + rewrite Hin7. change (w_inodes w6) with (<[ip := set_db lbn 0 i3]> (w_inodes w5)). by rewrite Hin5', insert_insert_eq.
    + cbn. rewrite Hdb2. unfold zinsert. rewrite list_insert_insert_eq. apply list_insert_id.
      by apply zlookup_Some_inv in Hz as [_ Hz].
    + rewrite Hfb7. split; [exact Hfb5'|]. right. right. split; [done|]. split; [done|].
      exists (w_tick w4). split; [|done]. unfold w6, w5 in Ht7. cbn [w_tick upd_w_inodes upd_w_tick] in Ht7. lia.
  - set (w5 := upd_w_fbufs _ _).
    assert (vol_same (ke_wait (w_tick w4) lbn w4) w5) as Hs6 by (apply vol_same_of; done).
    apply wp_bind. eapply wp_mono; [eapply clear_if_wp; subst w5; cbn; apply lookup_insert_eq|].
    intros _ w6 (d' & -> & Hclr). apply wp_ret.
    split; [eapply vol_same_trans; [exact Hs05|]; eapply vol_same_trans; [exact Hs6|]; apply vol_same_of; [by eapply idle_same|done..]|].
    exists i3. split; [exact Hinw|]. split; [apply Hsame3|]. split; [done|]. split; [done|]. exists d'. split; [|split].
    + unfold holds. assert (w_fbufs w5 = <[(ip, lbn) := ke_stale (w_tick w4) lbn (m_bsize fs)]> (w_fbufs w)) as Hfb5' by (by rewrite <- Hfbw).
      change (w_fbufs (upd_w_fbufs (insert (ip, lbn) d') w5)) with (<[(ip, lbn) := d']> (w_fbufs w5)).
      by rewrite Hfb5', insert_insert_eq.
    + by rewrite Hz.
    + intros _. exists b. split; [apply Htaken; [done|unfold w5; cbn [w_tick upd_w_fbufs upd_w_tick]; lia]|]. split; [cbn; by rewrite Hdb2, Hub|].
      split; [exact Hset5|done].
Qed.


Lemma blkoff_block o : blkoff fs o = o mod m_bsize fs.
Proof. destruct Hpow as (k & Hk & Hb). by apply (blkoff_pow2 fs k). Qed.

Lemma frag_tail n : n mod m_bsize fs <> 0 -> s32 (fragroundup fs (blkoff fs n)) = m_bsize fs.
Proof.
  intros Hn. pose proof Hg as []. rewrite blkoff_block. apply frag_whole.
  pose proof (Z.mod_pos_bound n (m_bsize fs) ltac:(lia)). lia.
Qed.

Lemma frag_none n : n mod m_bsize fs = 0 -> s32 (fragroundup fs (blkoff fs n)) = 0.
Proof.
  intros Hn. pose proof Hg as []. rewrite blkoff_block, Hn. unfold fragroundup, howmany. rewrite Hfsize, Z.div_small by lia. done.
Qed.

(** A block the file has is inside it, or holds its end. *)
Definition present_ok (w : world) (i : inode) (lbn : Z) : Prop :=
  i_db i !z lbn <> Some 0 ->
  (block_inside fs i lbn = true \/ i_size i mod m_bsize fs <> 0) /\
  exists d, w_fdata w !! (ip, lbn) = Some d /\ zlen d = m_bsize fs.

Lemma next_alloc_same lbn i :
  i_db (next_alloc lbn i) = i_db i /\ i_ib (next_alloc lbn i) = i_ib i /\ i_size (next_alloc lbn i) = i_size i /\
  i_flag (next_alloc lbn i) = i_flag i.
Proof. unfold next_alloc. by case_match. Qed.

Lemma next_alloc_goal lbn i : u32_ok (i_next_alloc_goal i) -> u32_ok (i_next_alloc_goal (next_alloc lbn i)).
Proof. intros Hi. unfold next_alloc. case_match; [apply u32_range|done]. Qed.

Lemma direct_post_mark w i lbn flags r w' :
  direct_post w i lbn flags r w' ->
  wp (upd_inode ip (or_flag (Z.lor IN_CHANGE IN_UPDATE))) (fun _ w'' => direct_post w i lbn flags r w'') w'.
Proof.
  intros [Hs (i' & Hin & Hsame & Hr)].
  eapply wp_upd_inode; [rewrite Hin; apply lookup_insert_eq|]. split; [by destruct Hs|].
  exists (or_flag (Z.lor IN_CHANGE IN_UPDATE) i'). split; [cbn; by rewrite Hin, insert_insert_eq|].
  split; [|by destruct r as [e [bp|]]]. destruct Hsame as (G1 & G2 & G3 & G4). split; [done|]. split; [done|].
  split; [done|]. cbn. by rewrite mark_extents.
Qed.

(** Reading a block the file has. *)
Lemma read_present_wp w i lbn flags :
  idle w -> w_inodes w !! ip = Some i -> u32_ok (i_next_alloc_goal i) -> w_fbufs w !! (ip, lbn) = None ->
  i_db i !z lbn <> Some 0 ->
  (exists d, w_fdata w !! (ip, lbn) = Some d /\ zlen d = m_bsize fs) ->
  wp (read_file_block ip lbn (m_bsize fs)) (direct_post w i lbn flags) w.
Proof.
  intros Hid Hi Hgoal Hnb Hz (d & Hd & Hlen). eapply wp_mono; [by apply (file_bread_wp w lbn d)|].
  intros r w' (Hs & Hin & Hre & Hout). split; [done|]. exists i. split; [rewrite Hin; symmetry; by apply insert_id|].
  split; [done|]. destruct Hout as [[-> Hh]|(e & He0 & -> & Hfb & Hrd)]; [|split_and!; try done; by left].
  split; [done|]. split; [done|]. exists d. split; [done|]. split; [done|]. by intros H0.
Qed.

Lemma balloc_direct_wp w i lbn size flags :
  idle w -> w_inodes w !! ip = Some i -> pointers_ok i -> u32_ok (i_next_alloc_goal i) ->
  0 <= lbn < NDADDR -> 0 < size <= m_bsize fs -> w_fbufs w !! (ip, lbn) = None -> present_ok w i lbn ->
  wp (balloc_direct fs MAXPHYS cr_uid ip lbn size flags) (direct_post w i lbn flags) w.
Proof.
  intros Hid Hi Hptr Hgoal Hl12 Hsize Hnb Hpres. pose proof Hptr as (Hdb & _). unfold balloc_direct.
  apply wp_bind. eapply wp_VTOI; [exact Hi|]. destruct (zlookup_lt (i_db i) lbn) as [p Hp]; [lia|].
  apply wp_bind. eapply wp_lift; [by rewrite Hp|].
  assert (forall r w', direct_post w i lbn flags r w' ->
    wp (if negb (fst r =? 0) then mret r else upd_inode ip (or_flag (Z.lor IN_CHANGE IN_UPDATE));; mret r)
      (direct_post w i lbn flags) w') as Hend.
  { intros r w' Hr. destruct (Z.eqb_spec (fst r) 0) as [H0|H0]; cbn [negb]; [|by apply wp_ret].
    apply wp_bind. eapply wp_mono; [by apply direct_post_mark|]. intros ? w'' Hr'. by apply wp_ret. }
  destruct (Z.eqb_spec p 0) as [->|Hne]; cbn [negb andb].
  - apply wp_bind. eapply wp_mono; [by apply new_direct_wp|]. apply Hend.
  - assert (i_db i !z lbn <> Some 0) as Hz by (rewrite Hp; congruence).
    destruct (Hpres Hz) as [Hin Hd]. destruct (block_inside fs i lbn); [by apply read_present_wp|].
    destruct Hin as [|Hin]; [done|]. apply wp_bind. unfold balloc_tail. cbv zeta.
    rewrite frag_tail, frag_whole, Z.leb_refl by done. eapply wp_mono; [by apply read_present_wp|]. apply Hend.
Qed.

Lemma balloc_wp w i lbn size flags :
  idle w -> w_inodes w !! ip = Some i -> has_feature (i_flag i) IN_E4EXTENTS = false ->
  pointers_ok i -> u32_ok (i_next_alloc_goal i) ->
  0 <= lbn < NDADDR -> 0 < size <= m_bsize fs -> w_fbufs w !! (ip, lbn) = None -> present_ok w i lbn ->
  wp (ext2_balloc fs MAXPHYS cr_uid nocred_uid ip lbn size flags) (direct_post w i lbn flags) w.
Proof.
  intros Hid Hi Hf Hptr Hgoal Hl12 Hsize Hnb Hpres. unfold ext2_balloc.
  rewrite (proj2 (Z.ltb_ge lbn 0)) by lia. apply wp_bind. eapply wp_VTOI; [exact Hi|]. rewrite Hf.
  apply wp_bind. eapply wp_upd_inode; [exact Hi|]. rewrite (proj2 (Z.ltb_lt lbn NDADDR)) by lia.
  destruct (next_alloc_same lbn i) as (E1 & E2 & E3 & E4). set (w1 := upd_w_inodes _ w).
  assert (vol_same w w1) as Hs1 by (apply vol_same_of; done).
  eapply wp_mono; [apply (balloc_direct_wp w1 (next_alloc lbn i)); try done|].
  - apply lookup_insert_eq.
  - unfold pointers_ok, pointers in *. by rewrite E1, E2.
  - by apply next_alloc_goal.
  - unfold present_ok, block_inside in *. by rewrite E1, E3.
  - intros r w' [Hs (i' & Hin & (G1 & G2 & G3 & G4) & Hr)]. split; [by eapply vol_same_trans|]. exists i'.
    split; [rewrite Hin; cbn; apply insert_insert_eq|]. rewrite E4 in G4. split; [unfold same_but_db; by rewrite G1, G2, E3, E2|].
    destruct r as [e [bp|]]; unfold direct_error in Hr; rewrite ?E1 in Hr; done.
Qed.

(** C32: [ext2_balloc] on a direct block of a file without extents, under every
    interference in which other threads free nothing, returns with the volume
    consistent, the lock released and no device buffer held. Where the file has
    the block, it gives the block's buffer, or the errno of a read that failed
    during the call, and touches nothing. Where it has not, it gives a buffer,
    zeroed when asked for, and this call took a block that was free in the world
    the other threads led to, in one step, entered it at that pointer and at no
    other, and its bit is still set; or it gives ENOSPC, when the caller was
    refused or every group was tried in vain, or EIO, when the kernel had no
    buffer, and the pointers are as they were. *)
Theorem balloc_direct_spec w i lbn size flags :
  idle w -> w_inodes w !! ip = Some i -> has_feature (i_flag i) IN_E4EXTENTS = false ->
  pointers_ok i -> u32_ok (i_next_alloc_goal i) ->
  0 <= lbn < NDADDR -> 0 < size <= m_bsize fs -> w_fbufs w !! (ip, lbn) = None -> present_ok w i lbn ->
  wp (ext2_balloc fs MAXPHYS cr_uid nocred_uid ip lbn size flags) (direct_post w i lbn flags) w.
Proof. apply balloc_wp. Qed.

(** A block that lies wholly behind the end of a file whose size is a
    multiple of the block size makes [ext2_balloc] panic: what [ext2_write]
    leaves behind when it runs out of room. *)
Theorem balloc_behind_end_panics w i lbn size flags p :
  w_inodes w !! ip = Some i -> has_feature (i_flag i) IN_E4EXTENTS = false ->
  0 <= lbn < NDADDR -> i_db i !z lbn = Some p -> p <> 0 -> 0 < size <= m_bsize fs ->
  block_inside fs i lbn = false -> i_size i mod m_bsize fs = 0 ->
  ext2_balloc fs MAXPHYS cr_uid nocred_uid ip lbn size flags w =
    Fault (Panic "ext2_balloc: Something is terribly wrong").
Proof.
  intros Hi Hf Hl12 Hp Hp0 Hsize Hin Hmod. pose proof Hg as []. unfold ext2_balloc.
  rewrite (proj2 (Z.ltb_ge lbn 0)) by lia.
  assert (VTOI ip w = Ok (i, w)) as Hv by (unfold VTOI; by rewrite Hi). rewrite (bind_run _ _ _ _ _ Hv), Hf.
  set (w1 := upd_w_inodes (insert ip (next_alloc lbn i)) w).
  assert (upd_inode ip (next_alloc lbn) w = Ok (tt, w1)) as Hu by (unfold upd_inode; by rewrite Hi).
  rewrite (bind_run _ _ _ _ _ Hu), (proj2 (Z.ltb_lt lbn NDADDR)) by lia. unfold balloc_direct.
  destruct (next_alloc_same lbn i) as (E1 & _ & E3 & _).
  assert (VTOI ip w1 = Ok (next_alloc lbn i, w1)) as Hv1 by (unfold VTOI; subst w1; cbn; by rewrite lookup_insert_eq).
  rewrite (bind_run _ _ _ _ _ Hv1). assert (lift (access (i_db (next_alloc lbn i) !z lbn)) w1 = Ok (p, w1)) as Hv2 by (by rewrite E1, Hp).
  rewrite (bind_run _ _ _ _ _ Hv2), (proj2 (Z.eqb_neq p 0)) by done. cbn [negb andb].
  assert (block_inside fs (next_alloc lbn i) lbn = false) as -> by (unfold block_inside in *; by rewrite E3).
  apply bind_fault. unfold balloc_tail. cbv zeta. rewrite E3, frag_none, frag_whole by done.
  by rewrite (proj2 (Z.leb_gt (m_bsize fs) 0)) by lia.
Qed.

End direct.
