(* ===== verification/FileExamples.v ===== *)
(** Two concrete files on the volume of AllocExamples.v, one with indirect
    blocks and one with extents, on which the theorems about extents and block
    mapping apply. *)
From stdpp Require Import gmap.
From S2P Require Import Prelude Bitmap Bytes Super SuperExamples Kernel InodeCnv Cluster Alloc AllocSpec AllocExamples Frame Extents ExtentsSpec Bmap BmapSpec Balloc BallocSpec.

(** * A file of direct and indirect blocks *)

(** Blocks 0, 1, 2 at 100, 101, 102; an indirect block at 50 that holds
    60, 61, 63 for blocks 12, 13, 14. *)
Definition inode1 : inode :=
  mk_inode 0 12 2 0 0 0 0 0 0 0 0x81A4 1 0 0 20000 12 0 0 0 0 0 0 0 0 9 0
    ([100; 101; 102] ++ replicate 9 0) [50; 0; 0] 0 0 0 0.

Definition indirect1 : list Z := concat (le_split 4 <$> [60; 61; 63]) ++ replicate 1012 0.

(** * A file of extents in the inode *)

(** Blocks 0-3 at 100, blocks 8-9 at 200. *)
Definition inode2 : inode :=
  mk_inode IN_E4EXTENTS 13 3 0 0 0 0 0 0 0 0x81A4 1 0 0 10000 6 0 0 0 0 0 0 0 0 9 0
    [0x2F30A; 4; 0; 0; 4; 100; 8; 2; 200; 0; 0; 0] [0; 0; 0] 0 0 0 0.

Definition world1 : world :=
  upd_w_inodes (fun m => <[12 := inode1]> (<[13 := inode2]> m)) (upd_w_dev (<[100 := indirect1]>) (world0 false)).

Definition keys2 (i : Z) : Z := if i =? 0 then 0 else 8.

Lemma extents_of2 : extents_of (inode_area inode2) 2 keys2.
Proof.
  split; [vm_compute; reflexivity|]. split; [lia|]. split.
  - intros m Hm. assert (m = 0 \/ m = 1) as [-> | ->] by lia; (eexists; split; [vm_compute; reflexivity|reflexivity]).
  - intros i j Hi Hj. unfold keys2. destruct (Z.eqb_spec i 0), (Z.eqb_spec j 0); lia.
Qed.

Lemma file_env1 ip S : file_env ip S.
Proof. constructor; try done. intros n b e. cbn. case_match; [|done]. by intros [= <-]. Qed.

Definition S1 : gset Z := {[100]}.

Lemma indirect1_bytes : bytes_ok indirect1.
Proof. unfold bytes_ok. apply Forall_app. split; [|by apply Forall_replicate].
  match goal with |- Forall _ ?l => let l' := eval vm_compute in l in change l with l' end.
  repeat first [apply Forall_nil_2 | apply Forall_cons_2; [split; [discriminate|reflexivity]|]].
Qed.

Lemma file_ok1 bn : bn = 0 \/ bn = 12 \/ bn = 14 -> file_ok fs0 S1 (w_dev world1) inode1 bn.
Proof.
  intros Hbn. constructor; try done.
  - repeat first [apply Forall_nil_2 | apply Forall_cons_2; [vm_compute; split; [discriminate|reflexivity]|]].
  - repeat first [apply Forall_nil_2 | apply Forall_cons_2; [vm_compute; split; [discriminate|reflexivity]|]].
  - destruct Hbn as [->|[->| ->]]; cbn; [done|..]; intros p Hp; vm_compute in Hp; injection Hp as <-;
      right; (split; [vm_compute; set_solver|]); eexists indirect1, _;
      (split; [vm_compute; reflexivity|]); (split; [apply indirect1_bytes|]); split_and!; done.
Qed.

Lemma bmap_geometry0 : bmap_geometry fs0.
Proof. constructor; vm_compute; done || (split; done). Qed.

Lemma free1 (d : Z) : d ∈ S1 -> w_bufs world1 !! d = None.
Proof. done. Qed.

(** * The theorems at these files *)

Lemma bmaparray_spec_witness :
  w_inodes world1 !! 12 = Some inode1 /\
  wp (ext2_bmaparray fs0 131072 12 12 true false) (fun r w' =>
    file_same 12 S1 world1 w' /\ w_bufs w' = w_bufs world1 /\ bmap_post fs0 131072 (w_dev world1) inode1 12 true r) world1.
Proof.
  split; [reflexivity|]. apply (bmaparray_spec fs0 131072 12 S1 (file_env1 12 S1) world1 inode1 12 true).
  - vm_compute. discriminate.
  - vm_compute. split; discriminate.
  - lia.
  - reflexivity.
  - apply file_ok1. right. by left.
  - apply free1.
Defined.

Lemma blockmap_spec_witness :
  w_inodes world1 !! 12 = Some inode1 /\
  wp (ext2_blockmap fs0 131072 12 12800 4096) (fun r w' =>
    file_same 12 S1 world1 w' /\ w_bufs w' = w_bufs world1 /\
    match r with
    | inr e => e <> 0
    | inl (bpn, run) =>
        bpn = -1 /\ run = 0 /\ file_ptr fs0 (w_dev world1) inode1 (12800 / m_bsize fs0) = Some 0 \/
        0 <= run <= 4096 /\ (run = 0 \/ 12800 + run <= i_size inode1) /\
        forall x, 0 <= x < run ->
          byte_addr fs0 (w_dev world1) inode1 (12800 + x) = Some (bpn * 512 + 12800 mod 512 + x)
    end) world1.
Proof.
  split; [reflexivity|].
  apply (blockmap_spec fs0 131072 12 S1 (file_env1 12 S1) world1 inode1 12800 4096 bmap_geometry0).
  - vm_compute. discriminate.
  - lia.
  - lia.
  - reflexivity.
  - reflexivity.
  - apply file_ok1. right. by left.
  - apply free1.
Defined.

(** The run of that file at byte 12800: two blocks less half of the first. *)
Example blockmap_run1 :
  match ext2_blockmap fs0 131072 12 12800 4096 world1 with
  | Ok (r, _) => r = inl (60 * 2 + 1, 1536)
  | Fault _ => False
  end.
Proof. vm_compute. reflexivity. Qed.

Lemma find_extent_inline_witness :
  w_inodes world1 !! 13 = Some inode2 /\
  exists s, ext4_ext_find_extent fs0 13 5 path0 world1 =
      Ok ((mk_path 0 (ep_bp path0) (Some s) None (Some InInode), true), world1) /\ last_le keys2 2 5 s.
Proof.
  split; [reflexivity|].
  apply (find_extent_inline fs0 13 inode2 5 2 keys2 world1 path0);
    [reflexivity|vm_compute; reflexivity|vm_compute; reflexivity|exact extents_of2|lia].
Defined.

(** Block 5 lies in the hole behind the first extent, and is mapped. *)
Lemma bmapext_inline_witness :
  w_inodes world1 !! 13 = Some inode2 /\
  exists s e, last_le keys2 2 5 s /\ 0 <= s /\ get_extent (inode_area inode2) s = Ok e /\ e_blk e = keys2 s /\
    ext4_bmapext fs0 13 5 world1 =
      Ok (let bnp := fsbtodb fs0 (5 - e_blk e + Z.lor (e_start_lo e) (Z.shiftl (e_start_hi e) 32)) in
          mk_bmap 0 (Some (if bnp =? 0 then -1 else bnp)) 0 0, world1).
Proof.
  split; [reflexivity|].
  apply (bmapext_inline fs0 13 inode2 5 2 keys2 world1);
    [reflexivity|vm_compute; reflexivity|vm_compute; reflexivity|exact extents_of2|lia|vm_compute; discriminate].
Defined.

Definition extent2 : ext4_extent := mk_extent 8 2 0 200.

Lemma extent2_in_range : extent_in_range extent2.
Proof. by vm_compute. Qed.

Lemma ext_cache_roundtrip_witness :
  extent_in_range extent2 /\
  ext4_ext_in_cache (ext4_ext_put_cache extent2 EXT4_EXT_CACHE_IN inode2) 9 =
    if decide (8 <= 9 < 8 + 2) then (EXT4_EXT_CACHE_IN, Some extent2) else (EXT4_EXT_CACHE_NO, None).
Proof.
  split; [exact extent2_in_range|].
  apply (ext_cache_roundtrip inode2 extent2 EXT4_EXT_CACHE_IN 9 extent2_in_range); [discriminate|reflexivity].
Defined.

Definition world1_held : world := upd_w_bufs (<[50 := []]>) world1.

Lemma drop_refs_diverges_witness :
  ext4_ext_drop_refs (mk_path 0 (Some 50) None None (Some (InBuf 50))) world1_held = Fault OutOfBounds.
Proof. apply drop_refs_diverges; [cbn; lia|]. intros b [= <-]. exists []. reflexivity. Defined.

Lemma new_block_misuses_lock_witness :
  w_inodes (world0 false) !! 2 = Some inode0 /\
  ext4_ext_new_block fs0 MAXPHYS0 2 0 (world0 false) = Fault LockMisuse.
Proof.
  split; [reflexivity|].
  apply (new_block_misuses_lock fs0 MAXPHYS0 B0 I0 (world0 false) 2 0 inode0 group_ok0 layout_ok0 env_ok0 (vol_ok0 false));
    [reflexivity|apply bitmaps_free0|reflexivity|vm_compute; split; discriminate|vm_compute; split; done|
     vm_compute; discriminate].
Defined.

Lemma insert_after_last_loses_witness :
  exists node', insert_in_node (inode_area inode2) 1 (mk_extent 12 1 0 300) = Ok node' /\ eh_ecount node' = Ok 3 /\
    get_extent node' 1 = Ok (mk_extent 12 1 0 300) /\ get_extent node' 2 = Ok (mk_extent 0 0 0 0) /\
    (forall s, 0 <= s < 1 -> get_extent node' s = get_extent (inode_area inode2) s).
Proof.
  apply (insert_after_last_loses (inode_area inode2) 2 (mk_extent 0 0 0 0) (mk_extent 12 1 0 300)).
  - match goal with |- bytes_ok ?l => let l' := eval vm_compute in l in change l with l' end.
    repeat first [apply Forall_nil_2 | apply Forall_cons_2; [split; [discriminate|reflexivity]|]].
  - vm_compute. reflexivity.
  - lia.
  - vm_compute. discriminate.
  - by vm_compute.
  - vm_compute. reflexivity.
Defined.

(** * New blocks *)

Lemma env_frame0 ip : env_frame ip.
Proof. by split. Qed.

Lemma env_no_free0 : env_no_free fs0 MAXPHYS0 B0 I0.
Proof. intros cg j _. apply env_keeps0. Qed.

Lemma idle1 : idle fs0 MAXPHYS0 B0 I0 world1.
Proof. split; [|split; [reflexivity|apply bitmaps_free0]]. destruct (vol_ok0 false). constructor; try done.
  - intros cg Hcg. destruct (vi_bmap cg Hcg) as (bs & Hbs & Hok). exists bs. split; [|done]. cbn.
    rewrite lookup_insert_ne; [done|]. destruct (group0_cases cg Hcg) as [-> | ->]; done.
  - intros cg Hcg. destruct (vi_imap cg Hcg) as (bs & Hbs & Hok). exists bs. split; [|done]. cbn.
    rewrite lookup_insert_ne; [done|]. destruct (group0_cases cg Hcg) as [-> | ->]; done.
  - intros cg gd bs Hgd Hbs. assert (group fs0 cg) as Hcg by (apply zlookup_Some_inv in Hgd as [Hr _]; exact Hr).
    cbn in Hbs. rewrite lookup_insert_ne in Hbs by (destruct (group0_cases cg Hcg) as [-> | ->]; done).
    by apply (vi_bcount cg gd bs).
  - intros cg gd bs Hgd Hbs. assert (group fs0 cg) as Hcg by (apply zlookup_Some_inv in Hgd as [Hr _]; exact Hr).
    cbn in Hbs. rewrite lookup_insert_ne in Hbs by (destruct (group0_cases cg Hcg) as [-> | ->]; done).
    by apply (vi_icount cg gd bs).
Qed.

Lemma fs0_pow : exists k, 0 <= k /\ m_bsize fs0 = 2 ^ k.
Proof. exists 10. split; [lia|reflexivity]. Qed.

(** Block 5 of the first file is a hole. *)
Lemma balloc_direct_witness :
  w_inodes world1 !! 12 = Some inode1 /\
  wp (ext2_balloc fs0 MAXPHYS0 0 0 12 5 1024 BA_CLRBUF)
    (direct_post fs0 MAXPHYS0 B0 I0 0 12 world1 inode1 5 BA_CLRBUF) world1.
Proof.
  split; [reflexivity|].
  apply (balloc_direct_spec fs0 MAXPHYS0 B0 I0 group_ok0 layout_ok0 env_ok0 eq_refl eq_refl fs0_pow
    ltac:(vm_compute; discriminate) 0 0 12 ltac:(vm_compute; split; discriminate) ltac:(vm_compute; split; [discriminate|done])
    (env_frame0 12) env_no_free0 world1 inode1 5 1024 BA_CLRBUF idle1);
    [reflexivity|reflexivity| |vm_compute; split; [discriminate|done]|vm_compute; split; [discriminate|done]|
     vm_compute; split; [done|discriminate]|reflexivity|by intros Hn].
  split; [reflexivity|]. split; [reflexivity|]. unfold pointers, inode1. cbn.
  repeat first [apply Forall_nil_2 | apply Forall_cons_2; [vm_compute; split; [discriminate|reflexivity]|]].
Defined.

(** A file of one block with a second one behind its end. *)
Definition inode3 : inode :=
  mk_inode 0 14 4 0 0 0 0 0 0 0 0x81A4 1 0 0 1024 4 0 0 0 0 0 0 0 0 9 0
    ([100; 101] ++ replicate 10 0) [0; 0; 0] 0 0 0 0.
Definition world3 : world := upd_w_inodes (<[14 := inode3]>) (world0 false).

Lemma balloc_behind_end_panics_witness :
  w_inodes world3 !! 14 = Some inode3 /\ block_inside fs0 inode3 1 = false /\
  ext2_balloc fs0 MAXPHYS0 0 0 14 1 1024 0 world3 = Fault (Panic "ext2_balloc: Something is terribly wrong").
Proof.
  split; [reflexivity|]. split; [reflexivity|].
  apply (balloc_behind_end_panics fs0 MAXPHYS0 group_ok0 eq_refl eq_refl fs0_pow 0 0 14 world3 inode3 1 1024 0 101);
    [reflexivity|reflexivity|vm_compute; split; [discriminate|done]|reflexivity|discriminate|
     vm_compute; split; [done|discriminate]|reflexivity|reflexivity].
Defined.

Lemma balloc_extents_witness :
  w_inodes world1 !! 13 = Some inode2 /\ exists f, ext2_balloc fs0 MAXPHYS0 0 0 13 9 1024 0 world1 = Fault f.
Proof.
  split; [reflexivity|]. apply (balloc_extents_stuck fs0 MAXPHYS0 0 0 13 9 1024 0 world1 inode2); [lia|reflexivity|reflexivity].
Defined.

(** * Inodes on disk *)

Lemma inode_ex_in_range : inode_in_range inode_ex.
Proof. constructor; vm_compute; done || (split; done). Qed.

Lemma inode_disk_roundtrip_witness :
  inode_in_range inode_ex /\ i_size (reread fs0 inode_ex inode0 dinode_ex) = 2 ^ 33 + 5 /\
  i_uid (reread fs0 inode_ex inode0 dinode_ex) = 70000 mod 2 ^ 16.
Proof.
  split; [exact inode_ex_in_range|].
  pose proof (inode_disk_roundtrip fs0 inode_ex inode0 dinode_ex inode_ex_in_range) as H. cbv zeta in H.
  destruct H as (_ & _ & _ & _ & _ & _ & _ & _ & _ & Hs & _ & Hu & _). split; [exact Hs|exact Hu].
Defined.

Lemma dinode_ex_in_range : dinode_in_range dinode_ex.
Proof.
  constructor; [reflexivity|..]; unfold fields_fit, dinode_ex, dinode_fields, dinode_extra_fields, dinode_layout,
    dinode_extra_layout; cbn; repeat first [apply Forall2_nil_2 | apply Forall2_cons_2; [lia|]].
Qed.

Definition table1 : list Z :=
  match dinode_store fs0 (replicate 1024 0) 128 dinode_ex with Ok bs => bs | Fault _ => [] end.

Lemma dinode_store_load_witness :
  dinode_store fs0 (replicate 1024 0) 128 dinode_ex = Ok table1 /\ zlen table1 = 1024.
Proof.
  assert (dinode_store fs0 (replicate 1024 0) 128 dinode_ex = Ok table1) as H by (vm_compute; reflexivity).
  split; [exact H|]. exact (proj1 (dinode_store_load fs0 (replicate 1024 0) 128 dinode_ex table1 dinode_ex_in_range H)).
Defined.
