(* ===== verification/Dir.v ===== *)
(** Directories, ext2_lookup.c and [ext2_blkatoff] of ext2_subr.c: the search
    for a name and for room, and the changes to a directory block.

    A directory block is the bytes of its buffer; an entry is named by its
    offset in the block. The panics of the code are faults. *)
From stdpp Require Import gmap.
From S2P Require Import Prelude Bitmap Bytes Super Kernel InodeCnv Cluster Alloc Extents Bmap.

(** * Entries: struct ext2fs_direct_2 *)

Definition EXT2_DIR_PAD : Z := 4.
Definition EXT2_DIR_ROUND : Z := 3.
Definition EXT2_DIR_REC_LEN (name_len : Z) : Z := Z.land (name_len + 8 + EXT2_DIR_ROUND) (Z.lnot EXT2_DIR_ROUND).

Definition e2d_ino (blk : list Z) (ep : Z) : res Z := get32 blk ep.
Definition e2d_reclen (blk : list Z) (ep : Z) : res Z := get16 blk (ep + 4).
Definition e2d_namlen (blk : list Z) (ep : Z) : res Z := get8 blk (ep + 6).
Definition e2d_type (blk : list Z) (ep : Z) : res Z := get8 blk (ep + 7).
Definition e2d_name (blk : list Z) (ep namlen : Z) : res (list Z) := get_bytes blk (ep + 8) (Z.to_nat namlen).

Definition EXT2_FT_UNKNOWN : Z := 0.
Definition EXT2_FT_REG_FILE : Z := 1.
Definition EXT2_FT_DIR : Z := 2.
Definition EXT2_FT_CHRDEV : Z := 3.
Definition EXT2_FT_BLKDEV : Z := 4.
Definition EXT2_FT_FIFO : Z := 5.
Definition EXT2_FT_SOCK : Z := 6.
Definition EXT2_FT_SYMLINK : Z := 7.

(** <sys/dirent.h> *)
Definition DT_UNKNOWN : Z := 0.
Definition DT_FIFO : Z := 1.
Definition DT_CHR : Z := 2.
Definition DT_DIR : Z := 4.
Definition DT_BLK : Z := 6.
Definition DT_REG : Z := 8.
Definition DT_LNK : Z := 10.
Definition DT_SOCK : Z := 12.
Definition IFTODT (mode : Z) : Z := Z.shiftr (Z.land mode IFMT) 12.

Definition ext2_ft_to_dt : list Z :=
  [DT_UNKNOWN; DT_REG; DT_DIR; DT_CHR; DT_BLK; DT_FIFO; DT_SOCK; DT_LNK].
Definition FTTODT (ft : Z) : Z := default DT_UNKNOWN (ext2_ft_to_dt !z ft).

Definition dt_to_ext2_ft : list Z :=
  [EXT2_FT_UNKNOWN; EXT2_FT_FIFO; EXT2_FT_CHRDEV; EXT2_FT_UNKNOWN; EXT2_FT_DIR; EXT2_FT_UNKNOWN;
   EXT2_FT_BLKDEV; EXT2_FT_UNKNOWN; EXT2_FT_REG_FILE; EXT2_FT_UNKNOWN; EXT2_FT_SYMLINK; EXT2_FT_UNKNOWN;
   EXT2_FT_SOCK; EXT2_FT_UNKNOWN; EXT2_FT_UNKNOWN].
Definition DTTOFT (dt : Z) : Z := default EXT2_FT_UNKNOWN (dt_to_ext2_ft !z dt).

Definition EEXIST : Z := 17.
Definition ENOENT : Z := 2.
Definition ENOTDIR : Z := 20.
Definition EISDIR : Z := 21.
Definition EJUSTRETURN : Z := -2.

(** [roundup2(x, y)] for a power of two [y]. *)
Definition roundup2 (x y : Z) : Z := Z.land (x + (y - 1)) (Z.lnot (y - 1)).

(** * struct componentname *)

Inductive nameiop : Type := LOOKUP | CREATE | DELETE | RENAME.
#[global] Instance nameiop_eq_dec : EqDecision nameiop.
Proof. solve_decision. Defined.

Record componentname : Type := mk_cn {
  cn_nameiop : nameiop; cn_name : list Z; cn_islastcn : bool; cn_makeentry : bool
}.
Definition cn_namelen (cnp : componentname) : Z := zlen (cn_name cnp).

(** * Checks *)

(** The conditions of [ext2_dirbadentry], in order; the message is left out. *)
Definition dirbadentry (fs : m_ext2fs) (blk : list Z) (ep entryoffsetinblock : Z) : res bool :=
  reclen ← e2d_reclen blk ep; namlen ← e2d_namlen blk ep; ino ← e2d_ino blk ep;
  mret ((reclen <? EXT2_DIR_REC_LEN 1) || negb (reclen mod 4 =? 0) ||
        (reclen <? EXT2_DIR_REC_LEN namlen) || (entryoffsetinblock + reclen >? m_bsize fs) ||
        (ino >? e2fs_icount (m_e2fs fs))).

(** * Search *)

Inductive slotstatus : Type := SLOT_NONE | SLOT_COMPACT | SLOT_FOUND.
#[global] Instance slotstatus_eq_dec : EqDecision slotstatus.
Proof. solve_decision. Defined.

(** The slot variables of [ext2_lookup_ino]. *)
Record slots : Type := mk_slots {
  sl_status : slotstatus; sl_offset : Z; sl_size : Z; sl_freespace : Z
}.

(** The slot accounting for one entry. *)
Definition note_slot (slotneeded i_offset ino reclen namlen : Z) (s : slots) : slots :=
  match sl_status s with
  | SLOT_FOUND => s
  | _ =>
      let size := if negb (ino =? 0) then reclen - EXT2_DIR_REC_LEN namlen else reclen in
      if size >? 0 then
        if size >=? slotneeded then mk_slots SLOT_FOUND i_offset reclen (sl_freespace s)
        else if decide (sl_status s = SLOT_NONE) then
          let free := sl_freespace s + size in
          let off := if sl_offset s =? -1 then i_offset else sl_offset s in
          if free >=? slotneeded then mk_slots SLOT_COMPACT off (i_offset + reclen - off) free
          else mk_slots SLOT_NONE off (sl_size s) free
        else s
      else s
  end.

(** The search state: [bp] is the block in hand. *)
Record search : Type := mk_search {
  se_offset : Z; se_inblock : Z; se_prevoff : Z; se_enduseful : Z; se_slots : slots; se_bp : option bufref
}.

(** What ends the loop: the end of the range, or a matching entry at the
    current position, with its inode and name length. *)
Inductive search_end : Type := NotFound | Found (ino namlen : Z) | SearchError (errno : Z).

Section dir.
Context `{KernelEnv} (fs : m_ext2fs).

(** Whether the mount is read-only, and the build-time switch for the complete
    checks of each entry. *)
Context (ronly dirchk : bool).

Abbreviation K := (M world).

(** [ext2_blkatoff]: an errno, or the buffer and the offset in it. *)
Definition ext2_blkatoff (ip offset : Z) : K (bufref * Z + Z) :=
  i ← VTOI ip;
  let lbn := lblkno fs offset in
  let normal : K (bufref * Z + Z) :=
    error ← file_meta_bread ip lbn (m_fsize fs);
    if negb (error =? 0) then (ref_brelse (FileBuf ip lbn);; mret (inr error))
    else mret (inl (FileBuf ip lbn, blkoff fs offset)) in
  if negb (has_feature (i_flag i) IN_E4EXTENTS) then normal
  else
    r ← ext4_ext_find_extent fs ip lbn path0;
    let '(path, found) := r in
    if negb (found : bool) then normal
    else
      match ep_ext path with
      | None => normal
      | Some s =>
          hdr ← deref (ep_header path);
          node ← node_read ip hdr;
          ep ← lift (get_extent node s);
          let newblk := lbn - e_blk ep + Z.lor (e_start_lo ep) (Z.shiftl (e_start_hi ep) 32) in
          (match ep_bp path with Some b => buf_brelse b | None => mret tt end);;
          let b := fsbtodb fs newblk in
          error ← buf_meta_bread b (m_fsize fs);
          if negb (error =? 0) then (buf_brelse b;; mret (inr error))
          else mret (inl (DevBuf b, blkoff fs offset))
      end.

Definition release_opt (bp : option bufref) : K unit :=
  match bp with Some r => ref_brelse r | None => mret tt end.

Definition ext2_dirbad (how : string) : K unit :=
  if ronly then mret tt else halt (Panic how).

(** "If necessary, get the next directory block": the buffer to look at, and
    the offset in it. *)
Definition next_block (ip : Z) (s : search) : K (option bufref * Z + Z) :=
  if Z.land (se_offset s) (m_bsize fs - 1) =? 0 then
    release_opt (se_bp s);;
    b ← ext2_blkatoff ip (se_offset s);
    match b with
    | inr error => mret (inr error)
    | inl (bp, _) => mret (inl (Some bp, 0))
    end
  else mret (inl (se_bp s, se_inblock s)).

(** "If still looking for a slot, and at a DIRBLKSIZE boundary, have to start
    looking for free space again." *)
Definition reset_slots (sl : slots) (at_start : bool) : slots :=
  if bool_decide (sl_status sl = SLOT_NONE) && at_start then mk_slots SLOT_NONE (-1) (sl_size sl) 0 else sl.

(** The [searchloop] of [ext2_lookup_ino] up to [endsearch]. *)
Fixpoint search_loop (ip : Z) (cnp : componentname) (slotneeded endsearch : Z) (fuel : nat) (s : search)
    : K (search * search_end) :=
  if se_offset s <? endsearch then
    match fuel with
    | O => halt NoFuel
    | S fuel' =>
        let DIRBLKSIZ := m_bsize fs in
        r ← next_block ip s;
        match r with
        | inr error => mret (s, SearchError error)
        | inl (bp, inblock) =>
            let sl := reset_slots (se_slots s) (Z.land inblock (DIRBLKSIZ - 1) =? 0) in
            ref ← deref bp;
            blk ← ref_dataptr ref;
            reclen ← lift (e2d_reclen blk inblock);
            bad ← (if dirchk then lift (dirbadentry fs blk inblock inblock) else mret false);
            if (reclen =? 0) || bad then
              ext2_dirbad "mangled entry";;
              let i := DIRBLKSIZ - Z.land inblock (DIRBLKSIZ - 1) in
              search_loop ip cnp slotneeded endsearch fuel'
                (mk_search (se_offset s + i) (inblock + i) (se_prevoff s) (se_enduseful s) sl bp)
            else
              ino ← lift (e2d_ino blk inblock);
              namlen ← lift (e2d_namlen blk inblock);
              let sl := note_slot slotneeded (se_offset s) ino reclen namlen sl in
              matched ← (if negb (ino =? 0) && (namlen =? cn_namelen cnp) then
                           name ← lift (e2d_name blk inblock namlen);
                           mret (bool_decide (name = cn_name cnp))
                         else mret false);
              if matched : bool then
                mret (mk_search (se_offset s) inblock (se_prevoff s) (se_enduseful s) sl bp, Found ino namlen)
              else
                let i_offset := se_offset s + reclen in
                search_loop ip cnp slotneeded endsearch fuel'
                  (mk_search i_offset (inblock + reclen) (se_offset s)
                     (if negb (ino =? 0) then i_offset else se_enduseful s) sl bp)
        end
    end
  else mret (s, NotFound).

(** Room for every step of a search over [n] bytes. *)
Definition search_fuel (n : Z) : nat := S (Z.to_nat n).

Definition creating (cnp : componentname) : bool :=
  (bool_decide (cn_nameiop cnp = CREATE) || bool_decide (cn_nameiop cnp = RENAME)) && cn_islastcn cnp.

(** Both passes: from the position of the last lookup to the end, then from the
    beginning to that position. The result says how many passes were left. *)
Definition search_dir (ip : Z) (cnp : componentname) : K (search * search_end * Z) :=
  dp ← VTOI ip;
  let DIRBLKSIZ := m_bsize fs in
  let slotneeded := if creating cnp then EXT2_DIR_REC_LEN (cn_namelen cnp) else 0 in
  let sl := mk_slots (if creating cnp then SLOT_NONE else SLOT_FOUND) (-1) 0 0 in
  let diroff := i_diroff dp in
  let endsearch := s32 (roundup2 (i_size dp) DIRBLKSIZ) in
  if negb (bool_decide (cn_nameiop cnp = LOOKUP)) || (diroff =? 0) || (u64 diroff >? i_size dp) then
    r ← search_loop ip cnp slotneeded endsearch (search_fuel endsearch) (mk_search 0 0 0 0 sl None);
    mret (r, 1)
  else
    let inblock := Z.land diroff (DIRBLKSIZ - 1) in
    b ← (if negb (inblock =? 0) then
           b ← ext2_blkatoff ip diroff;
           match b with inr error => mret (inr error) | inl (bp, _) => mret (inl (Some bp)) end
         else mret (inl None));
    match b with
    | inr error => mret (mk_search diroff inblock diroff 0 sl None, SearchError error, 2)
    | inl bp =>
        r ← search_loop ip cnp slotneeded endsearch (search_fuel endsearch)
              (mk_search diroff inblock diroff 0 sl bp);
        let '(s, e) := r in
        match e with
        | NotFound =>
            r ← search_loop ip cnp slotneeded diroff (search_fuel diroff)
                  (mk_search 0 (se_inblock s) (se_prevoff s) (se_enduseful s) (se_slots s) (se_bp s));
            mret (r, 1)
        | _ => mret (r, 2)
        end
    end.


(** * ext2_lookup_ino *)

(** The functions of other files and of the kernel it calls: [ext2_vget] and
    [vnode_get], each an errno; and the uid of the caller. *)
Context (ext2_vget vnode_get : Z -> K Z) (cr_uid : Z).

(** [*vpp] and [*dd_ino] by inode number. *)
Record lookup_result : Type := mk_lookup { lk_error : Z; lk_vp : option Z; lk_dd : option Z }.

(** A name that is not there: where a new entry may go is left in the inode. *)
Definition lookup_notfound (ip : Z) (cnp : componentname) (s : search) : K lookup_result :=
  release_opt (se_bp s);;
  dp ← VTOI ip;
  if creating cnp && negb (i_nlink dp =? 0) then
    let sl := se_slots s in
    let '(offset, count, enduseful) :=
      if decide (sl_status sl = SLOT_NONE) then
        let off := s32 (roundup2 (i_size dp) (m_bsize fs)) in (off, 0, off)
      else (sl_offset sl, sl_size sl, Z.max (se_enduseful s) (sl_offset sl + sl_size sl)) in
    upd_inode ip (upd_i_offset (fun _ => offset));;
    upd_inode ip (upd_i_count (fun _ => count));;
    upd_inode ip (upd_i_endoff (fun _ => s32 (roundup2 enduseful (m_bsize fs))));;
    mret (mk_lookup EJUSTRETURN None None)
  else mret (mk_lookup ENOENT None None).

Definition ISVTX : Z := 0x200.

(** A name that is there, with inode [ino]. *)
Definition lookup_found (ip : Z) (cnp : componentname) (want_dd : bool) (s : search) (passes ino namlen : Z)
    : K lookup_result :=
  let dd := if want_dd then Some ino else None in
  dp ← VTOI ip;
  (if (passes =? 2) && (se_inblock s + EXT2_DIR_REC_LEN namlen >? i_size dp) then
     ext2_dirbad "i_size too small";;
     upd_inode ip (fun i => or_flag (Z.lor IN_CHANGE IN_UPDATE)
       (upd_i_size (fun _ => se_inblock s + EXT2_DIR_REC_LEN namlen) i))
   else mret tt);;
  release_opt (se_bp s);;
  (if cn_islastcn cnp && bool_decide (cn_nameiop cnp = LOOKUP)
   then upd_inode ip (upd_i_diroff (fun _ => Z.land (se_offset s) (Z.lnot (m_bsize fs - 1)))) else mret tt);;
  if bool_decide (cn_nameiop cnp = DELETE) && cn_islastcn cnp then
    upd_inode ip (upd_i_offset (fun _ => se_offset s));;
    upd_inode ip (upd_i_count (fun _ =>
      if Z.land (se_offset s) (m_bsize fs - 1) =? 0 then 0 else se_offset s - se_prevoff s));;
    if want_dd then mret (mk_lookup 0 None dd)
    else if i_number dp =? ino then (vnode_get ip;; mret (mk_lookup 0 (Some ip) dd))
    else
      error ← ext2_vget ino;
      if negb (error =? 0) then mret (mk_lookup error None dd)
      else
        dp ← VTOI ip;
        tdp ← VTOI ino;
        if has_feature (i_mode dp) ISVTX && negb (cr_uid =? 0) && negb (cr_uid =? i_uid dp) &&
           negb (i_uid tdp =? cr_uid)
        then (vnode_put ino;; mret (mk_lookup EPERM None dd))
        else mret (mk_lookup 0 (Some ino) dd)
  else if bool_decide (cn_nameiop cnp = RENAME) && cn_islastcn cnp then
    upd_inode ip (upd_i_offset (fun _ => se_offset s));;
    if i_number dp =? ino then mret (mk_lookup EISDIR None dd)
    else if want_dd then mret (mk_lookup 0 None dd)
    else
      error ← ext2_vget ino;
      if negb (error =? 0) then mret (mk_lookup error None dd) else mret (mk_lookup 0 (Some ino) dd)
  else if want_dd then mret (mk_lookup 0 None dd)
  else if i_number dp =? ino then
    error ← vnode_get ip;
    if negb (error =? 0) then mret (mk_lookup error None dd) else mret (mk_lookup 0 (Some ip) dd)
  else
    error ← ext2_vget ino;
    if negb (error =? 0) then mret (mk_lookup error None dd) else mret (mk_lookup 0 (Some ino) dd).

Definition ext2_lookup_ino (ip : Z) (cnp : componentname) (want_dd : bool) : K lookup_result :=
  r ← search_dir ip cnp;
  let '(s, e, passes) := r in
  match e with
  | SearchError error => mret (mk_lookup error None None)
  | NotFound => lookup_notfound ip cnp s
  | Found ino namlen => lookup_found ip cnp want_dd s passes ino namlen
  end.

End dir.

(** * Changing a block *)

Section block.
Context (fs : m_ext2fs).

(** The bytes of [newdir] that are copied: the header, the name and its NUL,
    and what the stack held behind them. *)
Definition newdir_bytes (ino reclen type : Z) (name stale : list Z) : list Z :=
  take (Z.to_nat (EXT2_DIR_REC_LEN (zlen name)))
    (le_split 4 ino ++ le_split 2 reclen ++ [u8 (zlen name); type] ++ name ++ [0] ++ stale).

(** The compaction loop of [ext2_direnter]; [base] is the offset of [dirbuf],
    [ep] that of the entry being packed. *)
Fixpoint compact_loop (base i_count : Z) (fuel : nat) (blk : list Z) (ep dsize spacefree loc : Z)
    : res (list Z * Z * Z * Z) :=
  if loc <? i_count then
    match fuel with
    | O => Fault NoFuel
    | S fuel' =>
        let nep := base + loc in
        ino ← e2d_ino blk ep;
        r ← (if negb (ino =? 0) then blk ← put16 blk (ep + 4) dsize; mret (blk, ep + dsize, spacefree)
             else mret (blk, ep, spacefree + dsize));
        let '(blk, ep, spacefree) := r in
        namlen ← e2d_namlen blk nep;
        reclen ← e2d_reclen blk nep;
        let dsize := EXT2_DIR_REC_LEN namlen in
        bytes ← get_bytes blk nep (Z.to_nat dsize);
        blk ← put_bytes blk ep bytes;
        compact_loop base i_count fuel' blk ep dsize (spacefree + (reclen - dsize)) (loc + reclen)
    end
  else mret (blk, ep, dsize, spacefree).

(** The block after [ext2_direnter] put the entry into the room of [i_count]
    bytes at [base]. *)
Definition direnter_block (blk : list Z) (base i_count ino type : Z) (name stale : list Z) : res (list Z) :=
  let newentrysize := EXT2_DIR_REC_LEN (zlen name) in
  namlen ← e2d_namlen blk base;
  reclen ← e2d_reclen blk base;
  let dsize := EXT2_DIR_REC_LEN namlen in
  r ← compact_loop base i_count (Z.to_nat i_count) blk base dsize (reclen - dsize) reclen;
  let '(blk, ep, dsize, spacefree) := r in
  epino ← e2d_ino blk ep;
  if epino =? 0 then
    if u32 (spacefree + dsize) <? newentrysize then Fault (Panic "ext2_direnter: compact1")
    else put_bytes blk ep (newdir_bytes ino (u16 (spacefree + dsize)) type name stale)
  else
    if spacefree <? newentrysize then Fault (Panic "ext2_direnter: compact2")
    else
      blk ← put16 blk (ep + 4) dsize;
      put_bytes blk (ep + dsize) (newdir_bytes ino (u16 spacefree) type name stale).

(** [ext2_dirremove] on the block: at [ep] the entry itself when it is the
    first of its block, else the one before it. *)
Definition dirremove_first (blk : list Z) (ep : Z) : res (list Z) := put32 blk ep 0.

Definition dirremove_merge (blk : list Z) (ep : Z) : res (list Z) :=
  reclen ← e2d_reclen blk ep;
  rreclen ← e2d_reclen blk (ep + reclen);
  put16 blk (ep + 4) (u16 (reclen + rreclen)).

Definition dirrewrite_block (blk : list Z) (ep ino type : Z) : res (list Z) :=
  blk ← put32 blk ep ino; put8 blk (ep + 7) type.

Definition new_type (mode : Z) : Z :=
  if has_feature (e2fs_features_incompat (m_e2fs fs)) EXT2F_INCOMPAT_FTYPE then DTTOFT (IFTODT mode) else EXT2_FT_UNKNOWN.
End block.

(** * The operations *)

Section operations.
Context `{KernelEnv} (fs : m_ext2fs).

(** Whether the mount is asynchronous, the block size its statfs reports, what
    the stack holds behind [newdir]'s name; the calls through the vnode layer:
    a read or write of a file by vn_rdwr (an errno, or the bytes read), and
    [ext2_truncate] and [ext2_vget] of other files. *)
Context (DOINGASYNC : bool) (f_bsize : Z) (stale : list Z).
Context (vn_write : Z -> list Z -> Z -> M world Z) (vn_read : Z -> Z -> Z -> M world (list Z + Z)).
Context (ext2_truncate : Z -> Z -> M world Z) (ext2_vget : Z -> M world Z) (is_dir : Z -> bool).

Abbreviation K := (M world).

(** A changed block written back, [delay] when the write may be delayed; the
    inode is marked in either case. *)
Definition write_back (ip : Z) (bp : bufref) (blk : list Z) (delay : bool) : K Z :=
  ref_store bp blk;;
  error ← (if delay then (ref_bdwrite bp;; mret 0) else ref_bwrite bp);
  upd_inode ip (or_flag (Z.lor IN_CHANGE IN_UPDATE));;
  mret error.

(** The block at [offset] changed by [f] and written back. *)
Definition dir_update (ip : Z) (f : list Z -> Z -> res (list Z)) (delay : bool) (offset : Z) : K Z :=
  b ← ext2_blkatoff fs ip offset;
  match b with
  | inr error => mret error
  | inl (bp, ep) => blk ← ref_dataptr bp; blk ← lift (f blk ep); write_back ip bp blk delay
  end.

(** [ext2_direnter]: an entry for inode [ino] of mode [mode]. *)
Definition ext2_direnter (ino mode ip : Z) (name : list Z) : K Z :=
  let DIRBLKSIZ := m_bsize fs in
  let type := new_type fs mode in
  let newentrysize := EXT2_DIR_REC_LEN (zlen name) in
  dp ← VTOI ip;
  if i_count dp =? 0 then
    if negb (Z.land (i_offset dp) (DIRBLKSIZ - 1) =? 0) then halt (Panic "ext2_direnter: newblk")
    else
      error ← vn_write ip (newdir_bytes ino (u16 DIRBLKSIZ) type name stale) (i_offset dp);
      if DIRBLKSIZ >? f_bsize then halt (Panic "ext2_direnter: frag size")
      else if error =? 0 then
        upd_inode ip (fun dp => or_flag IN_CHANGE (upd_i_size (fun sz => roundup2 sz DIRBLKSIZ) dp));;
        mret 0
      else mret error
  else
    (if i_offset dp + i_count dp >? i_size dp
     then upd_inode ip (upd_i_size (fun _ => i_offset dp + i_count dp)) else mret tt);;
    b ← ext2_blkatoff fs ip (i_offset dp);
    match b with
    | inr error => mret error
    | inl (bp, base) =>
        blk ← ref_dataptr bp;
        blk ← lift (direnter_block blk base (i_count dp) ino type name stale);
        error ← write_back ip bp blk DOINGASYNC;
        dp ← VTOI ip;
        if (error =? 0) && negb (i_endoff dp =? 0) && (u64 (i_endoff dp) <? i_size dp)
        then ext2_truncate ip (i_endoff dp) else mret error
    end.

Definition ext2_dirremove (ip : Z) : K Z :=
  dp ← VTOI ip;
  if i_count dp =? 0 then dir_update ip dirremove_first false (i_offset dp)
  else dir_update ip dirremove_merge DOINGASYNC (i_offset dp - i_count dp).

Definition ext2_dirrewrite (ip ino mode : Z) : K Z :=
  dp ← VTOI ip;
  dir_update ip (fun blk ep => dirrewrite_block blk ep ino (new_type fs mode)) false (i_offset dp).

Definition MINDIRSIZ : Z := 12.
Definition dot : Z := 46.

(** [ext2_dirempty]: the offset moves on by the record lengths read. *)
Fixpoint dirempty_loop (ip parentino : Z) (fuel : nat) (off : Z) : K Z :=
  dp ← VTOI ip;
  if off <? i_size dp then
    match fuel with
    | O => halt NoFuel
    | S fuel' =>
        r ← vn_read ip MINDIRSIZ off;
        match r with
        | inr _ => mret 0
        | inl d =>
            if negb (zlen d =? MINDIRSIZ) then mret 0
            else
              reclen ← lift (e2d_reclen d 0);
              ino ← lift (e2d_ino d 0);
              namlen ← lift (e2d_namlen d 0);
              name ← lift (get_bytes d 8 4);
              if reclen =? 0 then mret 0
              else if ino =? 0 then dirempty_loop ip parentino fuel' (off + reclen)
              else if namlen >? 2 then mret 0
              else if negb (bool_decide (name !! 0%nat = Some dot)) then mret 0
              else if namlen =? 1 then dirempty_loop ip parentino fuel' (off + reclen)
              else if bool_decide (name !! 1%nat = Some dot) && (ino =? parentino)
              then dirempty_loop ip parentino fuel' (off + reclen)
              else mret 0
        end
    end
  else mret 1.

Definition ext2_dirempty (ip parentino : Z) : K Z :=
  dp ← VTOI ip; dirempty_loop ip parentino (S (Z.to_nat (i_size dp))) 0.

(** [ext2_checkpath], the walk up from [target]; the fuel bounds its length. The
    I/O count on each vnode of the walk is released, that on [target] too. The
    template's [dotdot_type] is read where its name length is meant. *)
Fixpoint checkpath_loop (source : Z) (fuel : nat) (vp : Z) : K Z :=
  match fuel with
  | O => halt NoFuel
  | S fuel' =>
      if negb (is_dir vp) then (vnode_put vp;; mret ENOTDIR)
      else
        r ← vn_read vp 24 0;
        match r with
        | inr error => vnode_put vp;; mret error
        | inl d =>
            dotdot_ino ← lift (e2d_ino d 12);
            dotdot_type ← lift (e2d_type d 12);
            name ← lift (get_bytes d 20 4);
            if negb (dotdot_type =? 2) || negb (bool_decide (name !! 0%nat = Some dot)) ||
               negb (bool_decide (name !! 1%nat = Some dot))
            then (vnode_put vp;; mret ENOTDIR)
            else if dotdot_ino =? source then (vnode_put vp;; mret EINVAL)
            else if dotdot_ino =? EXT2_ROOTINO then (vnode_put vp;; mret 0)
            else
              vnode_put vp;;
              error ← ext2_vget dotdot_ino;
              if negb (error =? 0) then mret error else checkpath_loop source fuel' dotdot_ino
        end
  end.

Definition ext2_checkpath (source target : Z) (fuel : nat) : K Z :=
  if target =? source then (vnode_put target;; mret EEXIST)
  else if target =? EXT2_ROOTINO then (vnode_put target;; mret 0)
  else checkpath_loop source fuel target.

End operations.

(** * ext2_readdir *)

(** A struct dirent as it is copied out, and a struct uio: the entries moved so
    far are at the end of [uio_out]. *)
Record dirent : Type := mk_dirent { d_ino : Z; d_type : Z; d_name : list Z }.
Record uio : Type := mk_uio { uio_offset : Z; uio_resid : Z; uio_out : list dirent }.

Section readdir.
Context `{KernelEnv} (fs : m_ext2fs).

(** [uiomove] of the [n]-th entry, and where the name starts in the kernel's
    struct dirent. *)
Context (uiomove_error : Z -> Z) (d_name_offset : Z).

Definition EXT2_DIRENT_RECLEN (namlen : Z) : Z := u16 (Z.land (d_name_offset + namlen + 1 + 3) (Z.lnot 3)).

Abbreviation K := (M world).

(** The entries of one block, up to byte [readcnt] of it; [offset] is the
    position in the directory, [startresid] the room there was at the start. *)
Fixpoint readdir_block (blk : list Z) (readcnt startoffset startresid : Z) (fuel : nat) (dp offset : Z) (u : uio)
    : res (Z * Z * uio) :=
  if (uio_resid u >? 0) && (dp <? readcnt) then
    match fuel with
    | O => Fault NoFuel
    | S fuel' =>
        reclen ← e2d_reclen blk dp;
        if (reclen <=? 6) || (dp + reclen >? readcnt) then mret (EIO, offset, u)
        else
          namlen ← e2d_namlen blk dp;
          type ← e2d_type blk dp;
          if 6 + namlen >? reclen then mret (EIO, offset, u)
          else
            ino ← e2d_ino blk dp;
            if (offset <? startoffset) || (ino =? 0)
            then readdir_block blk readcnt startoffset startresid fuel' (dp + reclen) (offset + reclen) u
            else
              name ← e2d_name blk dp namlen;
              let d_reclen := EXT2_DIRENT_RECLEN namlen in
              if d_reclen >? uio_resid u then
                mret (if uio_resid u =? startresid then EINVAL else EJUSTRETURN, offset, u)
              else
                let error := uiomove_error (zlen (uio_out u)) in
                if negb (error =? 0) then mret (error, offset, u)
                else
                  readdir_block blk readcnt startoffset startresid fuel' (dp + reclen) (offset + reclen)
                    (mk_uio (uio_offset u + d_reclen) (uio_resid u - d_reclen)
                       (uio_out u ++ [mk_dirent ino (FTTODT type) name]))
    end
  else mret (0, offset, u).

(** The loop over blocks: an errno, the position and the uio. *)
Fixpoint readdir_loop (ip startoffset startresid : Z) (fuel : nat) (offset : Z) (u : uio) : K (Z * Z * uio) :=
  dp ← VTOI ip;
  if (uio_resid u >? 0) && (uio_offset u <? i_size dp) then
    match fuel with
    | O => halt NoFuel
    | S fuel' =>
        let DIRBLKSIZ := m_bsize fs in
        b ← ext2_blkatoff fs ip (uio_offset u);
        match b with
        | inr error => mret (error, offset, u)
        | inl (bp, _) =>
            blk ← ref_dataptr bp;
            let boff := lblkno fs (uio_offset u) * DIRBLKSIZ in
            let bcount := zlen blk in
            let readcnt := if boff + bcount >? i_size dp then i_size dp - boff else bcount in
            let skipcnt := Z.land (uio_offset u - boff) (Z.lnot (DIRBLKSIZ - 1)) in
            r ← lift (readdir_block blk readcnt startoffset startresid (Z.to_nat readcnt) skipcnt (boff + skipcnt) u);
            let '(error, offset, u) := r in
            ref_brelse bp;;
            let u := mk_uio offset (uio_resid u) (uio_out u) in
            if error =? 0 then readdir_loop ip startoffset startresid fuel' offset u else mret (error, offset, u)
        end
    end
  else mret (0, offset, u).

(** [ext2_readdir]: an errno, the uio, the number of entries and whether the
    end was reached, which is told only without an error. *)
Definition ext2_readdir (ip : Z) (u : uio) : K (Z * uio * Z * option bool) :=
  if uio_offset u <? 0 then mret (EINVAL, u, 0, None)
  else
    dp ← VTOI ip;
    r ← readdir_loop ip (uio_offset u) (uio_resid u) (S (Z.to_nat (i_size dp))) (uio_offset u) u;
    let '(error, offset, u') := r in
    let u' := mk_uio offset (uio_resid u') (uio_out u') in
    let error := if error =? EJUSTRETURN then 0 else error in
    mret (error, u', zlen (uio_out u') - zlen (uio_out u),
          if error =? 0 then Some (i_size dp <=? offset) else None).

End readdir.
