(* ===== verification/DirSpec.v ===== *)
(** A directory block as a list of entries, and what the operations of Dir.v do
    to that list. *)
From stdpp Require Import gmap.
From S2P Require Import Prelude Bitmap Bytes Super Kernel InodeCnv Cluster Alloc Extents Bmap Dir.

(** * Parts of a buffer *)

Lemma get_bytes_sub blk o n bytes k m :
  get_bytes blk o n = Ok bytes -> (k + m <= n)%nat ->
  get_bytes blk (o + Z.of_nat k) m = Ok (take m (drop k bytes)).
Proof.
  unfold get_bytes at 1. case_match eqn:E; [|done]. apply andb_true_iff in E as [E1%Z.leb_le E2%Z.leb_le].
  intros [= <-] Hk. rewrite get_bytes_ok by lia. f_equal.
  rewrite skipn_firstn_comm, take_take, drop_drop. f_equal; [lia|]. f_equal. lia.
Qed.

Lemma put_bytes_sub blk off new blk' k m :
  put_bytes blk off new = Ok blk' -> (k + m <= length new)%nat ->
  get_bytes blk' (off + Z.of_nat k) m = Ok (take m (drop k new)).
Proof. intros H. apply get_bytes_sub. by eapply get_put_bytes_same. Qed.

Lemma get_bytes_len blk o n bytes : get_bytes blk o n = Ok bytes -> length bytes = n.
Proof.
  unfold get_bytes. case_match eqn:E; [|done]. apply andb_true_iff in E as [E1%Z.leb_le E2%Z.leb_le].
  intros [= <-]. rewrite length_take, length_drop. unfold zlen in *. lia.
Qed.

Lemma get_bytes_inv blk o n bytes : get_bytes blk o n = Ok bytes -> 0 <= o /\ o + Z.of_nat n <= zlen blk.
Proof. unfold get_bytes. case_match eqn:E; [|done]. by apply andb_true_iff in E as [E1%Z.leb_le E2%Z.leb_le]. Qed.

(** * Entries *)

Record dent : Type := mk_dent { de_ino : Z; de_reclen : Z; de_namlen : Z; de_type : Z; de_name : list Z }.

Definition get_dent (blk : list Z) (o : Z) : res dent :=
  ino ← e2d_ino blk o; reclen ← e2d_reclen blk o; namlen ← e2d_namlen blk o; type ← e2d_type blk o;
  name ← e2d_name blk o namlen; mret (mk_dent ino reclen namlen type name).

Record dent_ok (e : dent) : Prop := mk_dent_ok {
  do_ino : u32_ok (de_ino e);
  do_namlen : 0 <= de_namlen e < 2 ^ 8;
  do_reclen : EXT2_DIR_REC_LEN (de_namlen e) <= de_reclen e < 2 ^ 16;
  do_align : de_reclen e mod 4 = 0
}.

Lemma rec_len n : EXT2_DIR_REC_LEN n = 4 * ((n + 11) / 4).
Proof.
  unfold EXT2_DIR_REC_LEN, EXT2_DIR_ROUND. replace (n + 8 + 3) with (n + 11) by lia.
  rewrite <- Z.ldiff_land. change 3 with (Z.ones 2). rewrite Z.ldiff_ones_r by lia.
  rewrite Z.shiftr_div_pow2, Z.shiftl_mul_pow2 by lia. change (2 ^ 2) with 4. lia.
Qed.

Lemma rec_len_bounds n : n + 8 <= EXT2_DIR_REC_LEN n <= n + 11 /\ EXT2_DIR_REC_LEN n mod 4 = 0.
Proof.
  rewrite rec_len. split; [Z.div_mod_to_equations; lia|]. rewrite Z.mul_comm. apply Z_mod_mult.
Qed.

(** Two places hold the same [n] bytes. *)
Definition same_bytes (blk : list Z) (o : Z) (blk' : list Z) (o' : Z) (n : Z) : Prop :=
  forall k m, Z.of_nat k + Z.of_nat m <= n -> get_bytes blk' (o' + Z.of_nat k) m = get_bytes blk (o + Z.of_nat k) m.

Lemma same_bytes_put blk off new blk' o n :
  put_bytes blk off new = Ok blk' -> o + n <= off \/ off + zlen new <= o -> same_bytes blk o blk' o n.
Proof. intros H Hd k m Hk. apply (get_put_bytes_disj _ _ _ _ _ _ H). lia. Qed.

Lemma same_bytes_copy blk o n bytes off blk' :
  get_bytes blk o n = Ok bytes -> put_bytes blk off bytes = Ok blk' -> same_bytes blk o blk' off (Z.of_nat n).
Proof.
  intros Hg Hp k m Hk. pose proof (get_bytes_len _ _ _ _ Hg) as Hl.
  rewrite (put_bytes_sub _ _ _ _ k m Hp) by lia. by rewrite (get_bytes_sub _ _ _ _ k m Hg) by lia.
Qed.

Lemma same_bytes_trans b1 o1 b2 o2 b3 o3 n :
  same_bytes b1 o1 b2 o2 n -> same_bytes b2 o2 b3 o3 n -> same_bytes b1 o1 b3 o3 n.
Proof. intros H1 H2 k m Hk. rewrite H2 by done. by apply H1. Qed.

Lemma same_bytes_le b1 o1 b2 o2 n n' : same_bytes b1 o1 b2 o2 n -> n' <= n -> same_bytes b1 o1 b2 o2 n'.
Proof. intros H Hn k m Hk. apply H. lia. Qed.

Lemma same_header blk o blk' o' n :
  same_bytes blk o blk' o' n -> 8 <= n ->
  e2d_ino blk' o' = e2d_ino blk o /\ e2d_reclen blk' o' = e2d_reclen blk o /\
  e2d_namlen blk' o' = e2d_namlen blk o /\ e2d_type blk' o' = e2d_type blk o.
Proof.
  intros H Hn. unfold e2d_ino, e2d_reclen, e2d_namlen, e2d_type, get32, get16, get8, get_le.
  pose proof (H 0%nat 4%nat ltac:(lia)) as H0. cbn in H0. rewrite !Z.add_0_r in H0. rewrite H0.
  rewrite (H 4%nat 2%nat ltac:(lia) : get_bytes blk' (o' + 4) 2 = _).
  rewrite (H 6%nat 1%nat ltac:(lia) : get_bytes blk' (o' + 6) 1 = _).
  by rewrite (H 7%nat 1%nat ltac:(lia) : get_bytes blk' (o' + 7) 1 = _).
Qed.

Lemma same_name blk o blk' o' n namlen :
  same_bytes blk o blk' o' n -> 0 <= namlen -> 8 + namlen <= n -> e2d_name blk' o' namlen = e2d_name blk o namlen.
Proof.
  intros H H0 Hn. unfold e2d_name. apply (H 8%nat (Z.to_nat namlen)). lia.
Qed.

Lemma get_dent_same blk o blk' o' n e :
  get_dent blk o = Ok e -> 0 <= de_namlen e -> 8 + de_namlen e <= n -> same_bytes blk o blk' o' n ->
  get_dent blk' o' = Ok e.
Proof.
  intros He Hn0 Hn Hs. destruct (same_header _ _ _ _ _ Hs ltac:(lia)) as (H1 & H2 & H3 & H4).
  unfold get_dent in *. rewrite H1, H2, H3, H4.
  destruct (e2d_ino blk o); [|done]; destruct (e2d_reclen blk o); [|done]; destruct (e2d_namlen blk o) as [namlen|]; [|done];
    destruct (e2d_type blk o); [|done]; cbn in *.
  destruct (e2d_name blk o namlen) as [name|] eqn:Hname; [|done]. cbn in He. injection He as <-. cbn in *.
  rewrite (same_name _ _ _ _ _ _ Hs Hn0 Hn), Hname. done.
Qed.

Lemma get_dent_parts blk o e :
  get_dent blk o = Ok e ->
  e2d_ino blk o = Ok (de_ino e) /\ e2d_reclen blk o = Ok (de_reclen e) /\ e2d_namlen blk o = Ok (de_namlen e) /\
  e2d_type blk o = Ok (de_type e) /\ e2d_name blk o (de_namlen e) = Ok (de_name e).
Proof.
  unfold get_dent. destruct (e2d_ino blk o); [|done]; destruct (e2d_reclen blk o); [|done];
    destruct (e2d_namlen blk o) as [namlen|]; [|done]; destruct (e2d_type blk o); [|done]; cbn.
  destruct (e2d_name blk o namlen) eqn:Hn; [|done]. intros [= <-]. done.
Qed.

(** A new record length. *)
Lemma get_dent_set_reclen blk o e v blk' :
  get_dent blk o = Ok e -> 0 <= de_namlen e -> put16 blk (o + 4) v = Ok blk' -> u16_ok v ->
  get_dent blk' o = Ok (mk_dent (de_ino e) v (de_namlen e) (de_type e) (de_name e)).
Proof.
  intros He Hn Hp Hv. destruct (get_dent_parts _ _ _ He) as (H1 & H2 & H3 & H4 & H5).
  unfold get_dent, e2d_ino, e2d_reclen, e2d_namlen, e2d_type, e2d_name, get32, get16, get8 in *.
  unfold put16 in Hp. rewrite !(get_put_le_disj _ _ _ _ _ o 4 Hp) by lia. rewrite H1. cbn [mbind res_bind].
  rewrite (get_put_le_same _ _ _ _ _ Hp), Z.mod_small by done. cbn [mbind res_bind].
  rewrite !(get_put_le_disj _ _ _ _ _ (o + 6) 1 Hp), H3 by lia. cbn [mbind res_bind].
  rewrite !(get_put_le_disj _ _ _ _ _ (o + 7) 1 Hp), H4 by lia. cbn [mbind res_bind].
  unfold put_le in Hp. rewrite (get_put_bytes_disj _ _ _ _ (o + 8) _ Hp), H5; [done|].
  right. unfold zlen. rewrite length_le_split. lia.
Qed.

(** * Blocks *)

(** The entries [es] fill the block from [o] to [fin]. *)
Fixpoint chain (blk : list Z) (o : Z) (es : list dent) (fin : Z) : Prop :=
  match es with
  | [] => o = fin
  | e :: es' => get_dent blk o = Ok e /\ dent_ok e /\ chain blk (o + de_reclen e) es' fin
  end.

Definition dir_block (blk : list Z) (es : list dent) : Prop := chain blk 0 es (zlen blk).

Definition total (es : list dent) : Z := sumZ (de_reclen <$> es).

Lemma dent_ok_size e : dent_ok e -> 8 + de_namlen e <= de_reclen e /\ 8 <= de_reclen e.
Proof. intros [_ Hn Hr _]. pose proof (rec_len_bounds (de_namlen e)) as [Hb _]. lia. Qed.

Lemma chain_total blk es : forall o fin, chain blk o es fin -> fin = o + total es /\ 0 <= total es.
Proof.
  induction es as [|e es IH]; intros o fin H; cbn in H.
  - subst. unfold total. cbn. lia.
  - destruct H as (_ & Hok & H). destruct (IH _ _ H) as [-> ?]. pose proof (dent_ok_size e Hok).
    unfold total in *. rewrite fmap_cons. cbn [sumZ foldr]. unfold sumZ in *. lia.
Qed.

Lemma total_app es1 es2 : total (es1 ++ es2) = total es1 + total es2.
Proof. unfold total, sumZ. rewrite fmap_app, foldr_app. induction es1 as [|e es1 IH]; cbn; lia. Qed.

Lemma chain_app blk es1 es2 : forall o fin,
  chain blk o (es1 ++ es2) fin <-> exists mid, chain blk o es1 mid /\ chain blk mid es2 fin.
Proof.
  induction es1 as [|e es1 IH]; intros o fin; cbn.
  - split; [intros H; by exists o|by intros (? & -> & ?)].
  - split.
    + intros (He & Hok & H). apply IH in H as (mid & H1 & H2). by exists mid.
    + intros (mid & (He & Hok & H1) & H2). split; [done|]. split; [done|]. apply IH. by exists mid.
Qed.

(** A store outside the entries' range leaves them alone. *)
Lemma chain_same blk blk' es : forall o fin,
  chain blk o es fin -> (forall p n, o <= p -> p + n <= fin -> same_bytes blk p blk' p n) -> chain blk' o es fin.
Proof.
  induction es as [|e es IH]; intros o fin H Hs; [done|]. cbn in *. destruct H as (He & Hok & H).
  pose proof (dent_ok_size e Hok). destruct (chain_total _ _ _ _ H) as [? ?]. split; [|split; [done|]].
  - eapply (get_dent_same _ _ _ _ (de_reclen e)); [done|apply Hok|lia|]. apply Hs; lia.
  - apply IH; [done|]. intros p n Hp Hn. apply Hs; lia.
Qed.

Lemma chain_put blk es o fin off new blk' :
  chain blk o es fin -> put_bytes blk off new = Ok blk' -> fin <= off \/ off + zlen new <= o -> chain blk' o es fin.
Proof.
  intros H Hp Hd. eapply chain_same; [done|]. intros p n Hp1 Hp2. eapply same_bytes_put; [done|]. lia.
Qed.

(** What a directory means: the entries in use, as inode, type and name. *)
Fixpoint in_use (es : list dent) : list (Z * Z * list Z) :=
  match es with
  | [] => []
  | e :: es' => if de_ino e =? 0 then in_use es' else (de_ino e, de_type e, de_name e) :: in_use es'
  end.

Lemma in_use_app es1 es2 : in_use (es1 ++ es2) = in_use es1 ++ in_use es2.
Proof. induction es1 as [|e es1 IH]; [done|]. cbn. case_match; [done|]. cbn. by rewrite IH. Qed.

Lemma in_use_same e e' :
  de_ino e' = de_ino e -> de_type e' = de_type e -> de_name e' = de_name e -> in_use [e'] = in_use [e].
Proof. intros H1 H2 H3. cbn. by rewrite H1, H2, H3. Qed.

(** * Removing an entry *)

Lemma dirremove_merge_block blk pre e r post :
  dir_block blk (pre ++ e :: r :: post) -> zlen blk < 2 ^ 16 ->
  exists blk' e', dirremove_merge blk (total pre) = Ok blk' /\ zlen blk' = zlen blk /\
    dir_block blk' (pre ++ e' :: post) /\
    in_use (pre ++ e' :: post) = in_use (pre ++ [e]) ++ in_use post.
Proof.
  intros Hb Hlen. unfold dir_block in *. apply chain_app in Hb as (mid & Hpre & Hrest).
  destruct (chain_total _ _ _ _ Hpre) as [-> ?]. cbn in Hrest.
  destruct Hrest as (He & Hok & Hr & Hokr & Hpost). rewrite Z.add_0_l in *.
  destruct (chain_total _ _ _ _ Hpost) as [Hfin ?].
  pose proof (dent_ok_size e Hok). pose proof (dent_ok_size r Hokr).
  destruct (get_dent_parts _ _ _ He) as (_ & Hel & _). destruct (get_dent_parts _ _ _ Hr) as (_ & Hrl & _).
  unfold dirremove_merge. rewrite Hel. cbn [mbind res_bind]. rewrite Hrl. cbn [mbind res_bind].
  destruct (put_le_ok blk (total pre + 4) 2 (u16 (de_reclen e + de_reclen r))) as [blk' Hp]; [lia|lia|].
  assert (u16 (de_reclen e + de_reclen r) = de_reclen e + de_reclen r) as Hu by (apply u16_id; unfold u16_ok; lia).
  exists blk', (mk_dent (de_ino e) (de_reclen e + de_reclen r) (de_namlen e) (de_type e) (de_name e)).
  split; [exact Hp|]. split; [by eapply put_le_len|]. rewrite Hu in Hp. split.
  - rewrite (put_le_len _ _ _ _ _ Hp). apply chain_app. exists (total pre).
    assert (zlen (le_split 2 (de_reclen e + de_reclen r)) = 2) as Hsz by done.
    split; [eapply chain_put; [exact Hpre|exact Hp|lia]|]. cbn [chain de_reclen]. split; [|split].
    + eapply get_dent_set_reclen; [done|apply Hok|exact Hp|unfold u16_ok; lia].
    + destruct Hok, Hokr. constructor; cbn; [done|done|lia|].
      rewrite Z.add_mod, do_align0, do_align1 by lia. done.
    + rewrite Z.add_assoc. eapply chain_put; [exact Hpost|exact Hp|lia].
  - rewrite !in_use_app. cbn. case_match; by rewrite ?app_nil_r, <- ?app_assoc.
Qed.

(** Taking an entry that is not the first of its block out merges its room
    into the entry before it: the block is again a list of entries, and exactly
    the entry removed is no longer in use. *)
Theorem dirremove_merge_spec blk pre e r post :
  dir_block blk (pre ++ e :: r :: post) -> zlen blk < 2 ^ 16 ->
  exists blk' e', dirremove_merge blk (total pre) = Ok blk' /\ zlen blk' = zlen blk /\
    dir_block blk' (pre ++ e' :: post) /\
    in_use (pre ++ e' :: post) = in_use (pre ++ [e]) ++ in_use post.
Proof. apply dirremove_merge_block. Qed.

Lemma dirremove_first_block blk e post :
  dir_block blk (e :: post) ->
  exists blk' e', dirremove_first blk 0 = Ok blk' /\ zlen blk' = zlen blk /\
    dir_block blk' (e' :: post) /\ de_reclen e' = de_reclen e /\ in_use (e' :: post) = in_use post.
Proof.
  intros (He & Hok & Hpost). destruct (chain_total _ _ _ _ Hpost) as [Hfin ?]. pose proof (dent_ok_size e Hok).
  destruct (put_le_ok blk 0 4 0) as [blk' Hp]; [lia|lia|].
  exists blk', (mk_dent 0 (de_reclen e) (de_namlen e) (de_type e) (de_name e)).
  split; [exact Hp|]. split; [by eapply put_le_len|]. split; [|done].
  unfold dir_block. rewrite (put_le_len _ _ _ _ _ Hp). cbn [chain de_reclen]. split; [|split].
  - destruct (get_dent_parts _ _ _ He) as (G1 & G2 & G3 & G4 & G5).
    unfold get_dent, e2d_ino, e2d_reclen, e2d_namlen, e2d_type, e2d_name, get32, get16, get8 in *.
    rewrite (get_put_le_same _ _ _ _ _ Hp). cbn [mbind res_bind].
    rewrite !(get_put_le_disj _ _ _ _ _ (0 + 4) 2 Hp), G2 by lia. cbn [mbind res_bind].
    rewrite !(get_put_le_disj _ _ _ _ _ (0 + 6) 1 Hp), G3 by lia. cbn [mbind res_bind].
    rewrite !(get_put_le_disj _ _ _ _ _ (0 + 7) 1 Hp), G4 by lia. cbn [mbind res_bind].
    unfold put_le in Hp. rewrite (get_put_bytes_disj _ _ _ _ (0 + 8) _ Hp), G5; [done|].
    right. unfold zlen. rewrite length_le_split. lia.
  - destruct Hok. by constructor.
  - eapply chain_put; [exact Hpost|exact Hp|]. unfold zlen. rewrite length_le_split. lia.
Qed.

(** Taking the first entry of a block out clears its inode and nothing
    else. *)
Theorem dirremove_first_spec blk e post :
  dir_block blk (e :: post) ->
  exists blk' e', dirremove_first blk 0 = Ok blk' /\ zlen blk' = zlen blk /\
    dir_block blk' (e' :: post) /\ de_reclen e' = de_reclen e /\ in_use (e' :: post) = in_use post.
Proof. apply dirremove_first_block. Qed.

(** * Adding an entry *)

(** What the entries in use need when they are packed. *)
Fixpoint packed (es : list dent) : Z :=
  match es with
  | [] => 0
  | e :: es' => (if de_ino e =? 0 then 0 else EXT2_DIR_REC_LEN (de_namlen e)) + packed es'
  end.

Lemma packed_app es1 es2 : packed (es1 ++ es2) = packed es1 + packed es2.
Proof. induction es1 as [|e es1 IH]; [done|]. cbn. rewrite IH. lia. Qed.

Definition trim (e : dent) : dent :=
  mk_dent (de_ino e) (EXT2_DIR_REC_LEN (de_namlen e)) (de_namlen e) (de_type e) (de_name e).

Definition header_ok (e : dent) : Prop := u32_ok (de_ino e) /\ 0 <= de_namlen e < 2 ^ 8.

Lemma dent_ok_header e : dent_ok e -> header_ok e.
Proof. by intros []. Qed.

Lemma trim_ok e : header_ok e -> dent_ok (trim e).
Proof.
  intros [Hi Hn]. pose proof (rec_len_bounds (de_namlen e)) as [Hb Ha]. constructor; cbn; try done. lia.
Qed.

(** The state of the compaction between two rounds: [dn] is packed up to [ep],
    where [cur] has been copied to, and [rest] starts at [pos]. *)
Record compacting (blk : list Z) (base ep pos fin : Z) (dn : list dent) (cur : dent) (rest : list dent) : Prop :=
  mk_compacting {
  co_base : 0 <= base;
  co_done : chain blk base dn ep;
  co_cur : get_dent blk ep = Ok cur;
  co_hdr : header_ok cur;
  co_pos : ep + EXT2_DIR_REC_LEN (de_namlen cur) <= pos;
  co_rest : chain blk pos rest fin;
  co_fin : fin <= zlen blk
}.

Lemma compact_loop_spec base i_count rest : forall fuel blk ep loc dn cur,
  compacting blk base ep (base + loc) (base + i_count) dn cur rest -> (length rest <= fuel)%nat ->
  exists blk' ep' dn' cur',
    compact_loop base i_count fuel blk ep (EXT2_DIR_REC_LEN (de_namlen cur))
      (base + loc - ep - EXT2_DIR_REC_LEN (de_namlen cur)) loc =
      Ok (blk', ep', EXT2_DIR_REC_LEN (de_namlen cur'), base + i_count - ep' - EXT2_DIR_REC_LEN (de_namlen cur')) /\
    compacting blk' base ep' (base + i_count) (base + i_count) dn' cur' [] /\ zlen blk' = zlen blk /\
    in_use (dn' ++ [cur']) = in_use (dn ++ [cur]) ++ in_use rest /\
    total dn' + packed [cur'] = total dn + packed [cur] + packed rest /\
    (forall p n, p + n <= base \/ base + i_count <= p -> same_bytes blk p blk' p n).
Proof.
  induction rest as [|n rest IH]; intros fuel blk ep loc dn cur [Hbase Hdone Hcur Hhdr Hpos Hrest Hfin] Hfuel.
  - cbn in Hrest. assert (loc = i_count) as -> by lia.
    exists blk, ep, dn, cur. destruct fuel; cbn [compact_loop]; rewrite Z.ltb_irrefl;
      (split; [done|]; split; [by constructor|]; split; [done|]; split; [by rewrite app_nil_r|]; split; [cbn; lia|done]).
  - destruct fuel as [|fuel]; [cbn in Hfuel; lia|]. cbn in Hfuel. cbn [chain] in Hrest.
    destruct Hrest as (Hn & Hokn & Hrest). destruct (chain_total _ _ _ _ Hrest) as [Hft Ht0].
    pose proof (dent_ok_size n Hokn) as [Hn8 Hn8']. destruct (chain_total _ _ _ _ Hdone) as [Hep Hd0].
    pose proof (rec_len_bounds (de_namlen cur)) as [Hrc _]. pose proof (rec_len_bounds (de_namlen n)) as [Hrn _].
    assert (EXT2_DIR_REC_LEN (de_namlen n) <= de_reclen n) as Hrnr by apply Hokn.
    assert (0 <= de_namlen n) as Hnn by apply Hokn. destruct Hhdr as [Hci Hcn].
    cbn [compact_loop]. rewrite (proj2 (Z.ltb_lt loc i_count)) by lia. cbv zeta.
    destruct (get_dent_parts _ _ _ Hcur) as (Gi & _). rewrite Gi. cbn [mbind res_bind].
    assert (exists blk1 ep1 dn1,
      (if negb (de_ino cur =? 0)
       then blk ← put16 blk (ep + 4) (EXT2_DIR_REC_LEN (de_namlen cur));
            mret (blk, ep + EXT2_DIR_REC_LEN (de_namlen cur), base + loc - ep - EXT2_DIR_REC_LEN (de_namlen cur))
       else mret (blk, ep, base + loc - ep - EXT2_DIR_REC_LEN (de_namlen cur) + EXT2_DIR_REC_LEN (de_namlen cur))) =
        Ok (blk1, ep1, base + loc - ep1) /\
      chain blk1 base dn1 ep1 /\ ep <= ep1 /\ ep1 <= base + loc /\ zlen blk1 = zlen blk /\
      in_use dn1 = in_use (dn ++ [cur]) /\ total dn1 = total dn + packed [cur] /\
      (forall p m, p + m <= base \/ base + loc <= p -> same_bytes blk p blk1 p m))
      as (blk1 & ep1 & dn1 & Hif & Hdone1 & He1 & He2 & Hl1 & Hu1 & Ht1 & Hs1).
    { destruct (Z.eqb_spec (de_ino cur) 0) as [H0|H0]; cbn [negb].
      - exists blk, ep, dn. split; [f_equal; f_equal; lia|]. split_and!; try done; try lia.
        + rewrite in_use_app. cbn. rewrite (proj2 (Z.eqb_eq _ _) H0). by rewrite app_nil_r.
        + cbn. rewrite (proj2 (Z.eqb_eq _ _) H0). lia.
      - destruct (put_le_ok blk (ep + 4) 2 (EXT2_DIR_REC_LEN (de_namlen cur))) as [blk1 Hp]; [lia|lia|].
        assert (zlen (le_split 2 (EXT2_DIR_REC_LEN (de_namlen cur))) = 2) as Hsz by done.
        unfold put16. rewrite Hp. exists blk1, (ep + EXT2_DIR_REC_LEN (de_namlen cur)), (dn ++ [trim cur]).
        split; [cbn [mbind res_bind]; f_equal; f_equal; lia|]. split; [|split_and!; try done; try lia].
        + apply chain_app. exists ep. split; [eapply chain_put; [exact Hdone|exact Hp|lia]|]. cbn.
          split; [|split; [by apply trim_ok|done]].
          eapply get_dent_set_reclen; [done|lia|exact Hp|unfold u16_ok; lia].
        + by eapply put_le_len.
        + rewrite !in_use_app. f_equal.
        + rewrite total_app. cbn. rewrite (proj2 (Z.eqb_neq _ _) H0). lia.
        + intros p m Hd. eapply same_bytes_put; [exact Hp|]. lia. }
    rewrite Hif. cbn [mbind res_bind].
    assert (get_dent blk1 (base + loc) = Ok n) as Hn1.
    { eapply (get_dent_same _ _ _ _ (de_reclen n)); [done|lia|lia|]. apply Hs1. lia. }
    destruct (get_dent_parts _ _ _ Hn1) as (_ & Hrl & Hnl & _). rewrite Hnl. cbn [mbind res_bind].
    rewrite Hrl. cbn [mbind res_bind].
    rewrite get_bytes_ok by lia. cbn [mbind res_bind].
    set (bytes := take _ _). assert (get_bytes blk1 (base + loc) (Z.to_nat (EXT2_DIR_REC_LEN (de_namlen n))) = Ok bytes)
      as Hget by (apply get_bytes_ok; lia).
    assert (zlen bytes = EXT2_DIR_REC_LEN (de_namlen n)) as Hbl.
    { pose proof (get_bytes_len _ _ _ _ Hget) as Hl. unfold zlen. lia. }
    destruct (put_bytes blk1 ep1 bytes) as [blk2|] eqn:Hput.
    2:{ rewrite put_bytes_ok in Hput by lia. done. }
    cbn [mbind res_bind]. pose proof (put_bytes_len _ _ _ _ Hput) as Hl2.
    destruct (IH fuel blk2 ep1 (loc + de_reclen n) dn1 n) as (blk' & ep' & dn' & cur' & Hrun & Hco & Hlen & Hu & Htot & Hs).
    + constructor; try lia.
      * eapply chain_put; [exact Hdone1|exact Hput|lia].
      * eapply (get_dent_same _ _ _ _ (EXT2_DIR_REC_LEN (de_namlen n))); [exact Hn1|lia|lia|].
        replace (EXT2_DIR_REC_LEN (de_namlen n)) with (Z.of_nat (Z.to_nat (EXT2_DIR_REC_LEN (de_namlen n)))) by lia.
        by eapply same_bytes_copy.
      * by apply dent_ok_header.
      * eapply chain_put; [|exact Hput|rewrite Hbl; lia].
        eapply chain_same; [rewrite Z.add_assoc; exact Hrest|]. intros p m Hp1 Hp2. apply Hs1. lia.
    + lia.
    + exists blk', ep', dn', cur'. split; [|split; [done|split; [lia|split; [|split]]]].
      * rewrite <- Hrun. f_equal; lia.
      * rewrite Hu, (in_use_app dn1), Hu1. change (n :: rest) with ([n] ++ rest).
        by rewrite (in_use_app [n]), app_assoc.
      * cbn [packed] in *. lia.
      * intros p m Hd. eapply same_bytes_trans; [apply Hs1; lia|]. eapply same_bytes_trans; [|by apply Hs].
        eapply same_bytes_put; [exact Hput|]. rewrite Hbl. lia.
Qed.

(** The new entry as [newdir_bytes] lays it out. *)
Lemma newdir_len ino reclen type name stale :
  3 <= zlen stale -> zlen (newdir_bytes ino reclen type name stale) = EXT2_DIR_REC_LEN (zlen name).
Proof.
  intros Hs. pose proof (rec_len_bounds (zlen name)) as [Hb _]. unfold newdir_bytes, zlen in *.
  rewrite length_take, !length_app, !length_le_split. cbn [length]. lia.
Qed.

(** An entry that was written, with anything behind its name. *)
Lemma get_dent_put blk off ino reclen type name pad blk' :
  put_bytes blk off (le_split 4 ino ++ le_split 2 reclen ++ [u8 (zlen name); type] ++ name ++ pad) = Ok blk' ->
  u32_ok ino -> u16_ok reclen -> u8_ok type -> zlen name < 2 ^ 8 ->
  get_dent blk' off = Ok (mk_dent ino reclen (zlen name) type name).
Proof.
  intros Hp Hi Hr Ht Hn.
  assert (forall k m, (k + m <= 8 + length name)%nat ->
    get_bytes blk' (off + Z.of_nat k) m =
      Ok (take m (drop k (le_split 4 ino ++ le_split 2 reclen ++ [u8 (zlen name); type] ++ name)))) as Hsub.
  { intros k m Hk. rewrite (put_bytes_sub _ _ _ _ k m Hp) by (rewrite !length_app, !length_le_split; cbn [length]; lia). f_equal.
    replace (le_split 4 ino ++ le_split 2 reclen ++ [u8 (zlen name); type] ++ name ++ pad) with
      ((le_split 4 ino ++ le_split 2 reclen ++ [u8 (zlen name); type] ++ name) ++ pad) by (by rewrite <- !app_assoc).
    rewrite drop_app_le by (rewrite !length_app, !length_le_split; cbn [length]; lia).
    rewrite take_app_le; [done|]. rewrite length_drop, !length_app, !length_le_split. cbn [length]. lia. }
  unfold get_dent, e2d_ino, e2d_reclen, e2d_namlen, e2d_type, e2d_name, get32, get16, get8, get_le.
  pose proof (Hsub 0%nat 4%nat ltac:(lia)) as G0. cbn [Z.of_nat] in G0. rewrite Z.add_0_r in G0. rewrite G0.
  rewrite (Hsub 4%nat 2%nat ltac:(lia) : get_bytes blk' (off + 4) 2 = _).
  rewrite (Hsub 6%nat 1%nat ltac:(lia) : get_bytes blk' (off + 6) 1 = _).
  rewrite (Hsub 7%nat 1%nat ltac:(lia) : get_bytes blk' (off + 7) 1 = _).
  cbn [mbind res_bind mret res_ret].
  assert (le_combine (take 1 (drop 6 (le_split 4 ino ++ le_split 2 reclen ++ [u8 (zlen name); type] ++ name))) = zlen name)
    as ->.
  { cbn. rewrite Z.add_0_r. apply u8_id. unfold u8_ok, zlen in *. lia. }
  rewrite (Hsub 8%nat (Z.to_nat (zlen name)) ltac:(unfold zlen; lia) : get_bytes blk' (off + 8) _ = _).
  cbn [mbind res_bind mret res_ret]. f_equal.
  f_equal.
  - change (take 4 (drop 0 (le_split 4 ino ++ _))) with (le_split 4 ino). rewrite le_combine_split. by apply Z.mod_small.
  - change (take 2 (drop 4 (le_split 4 ino ++ le_split 2 reclen ++ _))) with (le_split 2 reclen).
    rewrite le_combine_split. by apply Z.mod_small.
  - change (take 1 (drop 7 (le_split 4 ino ++ le_split 2 reclen ++ [u8 (zlen name); type] ++ name))) with [type].
    cbn [le_combine]. lia.
  - change (drop 8 (le_split 4 ino ++ le_split 2 reclen ++ [u8 (zlen name); type] ++ name)) with name.
    unfold zlen. rewrite Nat2Z.id. apply firstn_all.
Qed.

Lemma newdir_split ino reclen type name stale :
  exists pad, newdir_bytes ino reclen type name stale =
    le_split 4 ino ++ le_split 2 reclen ++ [u8 (zlen name); type] ++ name ++ pad.
Proof.
  pose proof (rec_len_bounds (zlen name)) as [Hb _]. unfold newdir_bytes.
  set (N := Z.to_nat (EXT2_DIR_REC_LEN (zlen name))). exists (take (N - (8 + length name)) ([0] ++ stale)).
  replace (le_split 4 ino ++ le_split 2 reclen ++ [u8 (zlen name); type] ++ name ++ [0] ++ stale) with
    ((le_split 4 ino ++ le_split 2 reclen ++ [u8 (zlen name); type] ++ name) ++ [0] ++ stale) by (by rewrite <- !app_assoc).
  rewrite take_app_ge by (rewrite !length_app, !length_le_split; cbn [length]; unfold N, zlen in *; lia).
  by rewrite <- !app_assoc, !length_app, !length_le_split.
Qed.

Lemma get_dent_newdir blk off ino reclen type name stale blk' :
  put_bytes blk off (newdir_bytes ino reclen type name stale) = Ok blk' ->
  u32_ok ino -> u16_ok reclen -> u8_ok type -> zlen name < 2 ^ 8 ->
  get_dent blk' off = Ok (mk_dent ino reclen (zlen name) type name).
Proof. destruct (newdir_split ino reclen type name stale) as [pad ->]. apply get_dent_put. Qed.

Lemma chain_aligned blk es : forall o fin, chain blk o es fin -> total es mod 4 = 0.
Proof.
  induction es as [|e es IH]; intros o fin H; [done|]. destruct H as (_ & [_ _ _ Ha] & H).
  unfold total in *. cbn. rewrite Z.add_mod by lia. fold (sumZ (de_reclen <$> es)). by rewrite Ha, (IH _ _ H).
Qed.

(** The last step of [ext2_direnter]: the new entry after the packed ones. *)
Lemma place_new blk base ep fin dn o v ino type name stale :
  chain blk base dn ep -> ep <= o -> 0 <= base -> fin <= zlen blk -> 3 <= zlen stale ->
  u32_ok ino -> u8_ok type -> zlen name < 2 ^ 8 -> v = fin - o -> v mod 4 = 0 -> v < 2 ^ 16 ->
  EXT2_DIR_REC_LEN (zlen name) <= v ->
  exists blk', put_bytes blk o (newdir_bytes ino (u16 v) type name stale) = Ok blk' /\ zlen blk' = zlen blk /\
    chain blk' base dn ep /\ chain blk' o [mk_dent ino v (zlen name) type name] fin /\
    (forall p n, p + n <= o \/ fin <= p -> same_bytes blk p blk' p n).
Proof.
  intros Hd Hep Hbase Hfin Hst Hi Ht Hn -> Hmod Hmax Hroom.
  pose proof (newdir_len ino (u16 (fin - o)) type name stale Hst) as Hlen.
  destruct (chain_total _ _ _ _ Hd) as [-> ?]. pose proof (rec_len_bounds (zlen name)) as [Hb _].
  assert (0 <= zlen name) by (unfold zlen; lia).
  destruct (put_bytes blk o (newdir_bytes ino (u16 (fin - o)) type name stale)) as [blk'|] eqn:Hp.
  2:{ rewrite put_bytes_ok in Hp by lia. done. }
  exists blk'. split; [done|]. split; [by eapply put_bytes_len|].
  split; [eapply chain_put; [exact Hd|exact Hp|lia]|]. split.
  - assert (u16 (fin - o) = fin - o) as Hu by (apply u16_id; unfold u16_ok; lia). rewrite Hu in Hp.
    split; [|split; [|cbn; lia]].
    + eapply get_dent_newdir; [exact Hp|done|unfold u16_ok; lia|done|done].
    + constructor; cbn; [done|lia|lia|done].
  - intros p n Hd'. eapply same_bytes_put; [exact Hp|]. lia.
Qed.

Lemma mod4_sub a b : a mod 4 = 0 -> b mod 4 = 0 -> (a - b) mod 4 = 0.
Proof. intros Ha Hb. rewrite Zminus_mod, Ha, Hb. done. Qed.

Lemma direnter_block_ok blk pre mid post ino type name stale :
  dir_block blk (pre ++ mid ++ post) -> mid <> [] -> zlen blk < 2 ^ 16 -> 3 <= zlen stale ->
  u32_ok ino -> ino <> 0 -> u8_ok type -> zlen name < 2 ^ 8 ->
  EXT2_DIR_REC_LEN (zlen name) <= total mid - packed mid ->
  exists blk' mid', direnter_block blk (total pre) (total mid) ino type name stale = Ok blk' /\
    zlen blk' = zlen blk /\ dir_block blk' (pre ++ mid' ++ post) /\ total mid' = total mid /\
    in_use (pre ++ mid' ++ post) = in_use pre ++ in_use mid ++ [(ino, type, name)] ++ in_use post.
Proof.
  intros Hb Hne Hlen Hst Hi Hi0 Ht Hn Hroom. unfold dir_block in Hb.
  apply chain_app in Hb as (base & Hpre & Hb). apply chain_app in Hb as (fin & Hmid & Hpost).
  destruct (chain_total _ _ _ _ Hpre) as [Hbase Hp0]. destruct (chain_total _ _ _ _ Hmid) as [Hfin Hm0].
  destruct (chain_total _ _ _ _ Hpost) as [Hend Hpo0]. pose proof (chain_aligned _ _ _ _ Hmid) as Hma.
  replace (total pre) with base by lia. assert (0 <= base) as Hb0 by lia. clear Hbase.
  destruct mid as [|m rest]; [done|]. pose proof Hmid as (Hm & Hokm & Hrest).
  pose proof (dent_ok_size m Hokm) as [_ Hm8]. destruct (get_dent_parts _ _ _ Hm) as (_ & Hrl & Hnl & _).
  assert (EXT2_DIR_REC_LEN (de_namlen m) <= de_reclen m) as Hmr by apply Hokm.
  unfold direnter_block. rewrite Hnl. cbn [mbind res_bind]. rewrite Hrl. cbn [mbind res_bind]. cbv zeta.
  destruct (compact_loop_spec base (total (m :: rest)) rest (Z.to_nat (total (m :: rest))) blk base (de_reclen m) [] m)
    as (blk1 & ep & dn & cur & Hrun & [_ Hdn Hcur Hhdr Hpos _ Hfin1] & Hl1 & Hu1 & Ht1 & Hs1).
  { constructor; try done; try lia; [by apply dent_ok_header|by rewrite <- Hfin]. }
  { assert (forall es o f, chain blk o es f -> Z.of_nat (length es) <= total es) as Hcount.
    { clear. induction es as [|e es IH]; intros o f H; [done|]. destruct H as (_ & Hok & H).
      pose proof (dent_ok_size e Hok). specialize (IH _ _ H). unfold total in *. cbn. fold (sumZ (de_reclen <$> es)). lia. }
    pose proof (Hcount _ _ _ Hmid) as Hc. cbn [length] in Hc. lia. }
  replace (base + de_reclen m - base - EXT2_DIR_REC_LEN (de_namlen m))
    with (de_reclen m - EXT2_DIR_REC_LEN (de_namlen m)) in Hrun by lia.
  rewrite Hrun. cbn [mbind res_bind]. destruct (get_dent_parts _ _ _ Hcur) as (Hci & _). rewrite Hci. cbn [mbind res_bind].
  destruct (chain_total _ _ _ _ Hdn) as [Hep Hd0]. pose proof (chain_aligned _ _ _ _ Hdn) as Hda.
  pose proof (rec_len_bounds (de_namlen cur)) as [Hcb Hca]. pose proof (rec_len_bounds (zlen name)) as [Hnb _].
  assert (0 <= zlen name) as Hnz by (unfold zlen; lia). pose proof Hhdr as [_ Hcn].
  set (T := total (m :: rest)) in *. change (total []) with 0 in Ht1. cbn [app] in Hu1.
  assert (packed (m :: rest) = packed [m] + packed rest) as Hpk by (by rewrite <- packed_app).
  assert (in_use (m :: rest) = in_use [m] ++ in_use rest) as Hum by (by rewrite <- (in_use_app [m])).
  assert (forall blk2 mid2, chain blk2 base mid2 (base + T) -> zlen blk2 = zlen blk1 ->
    (forall p n, p + n <= base \/ base + T <= p -> same_bytes blk1 p blk2 p n) ->
    in_use mid2 = in_use (m :: rest) ++ [(ino, type, name)] ->
    zlen blk2 = zlen blk /\ dir_block blk2 (pre ++ mid2 ++ post) /\ total mid2 = T /\
    in_use (pre ++ mid2 ++ post) = in_use pre ++ in_use (m :: rest) ++ [(ino, type, name)] ++ in_use post) as Hfinish.
  { intros blk2 mid2 Hc2 Hl2 Hs2 Hu2. split; [lia|]. split; [|split].
    - unfold dir_block. apply chain_app. exists base. assert (zlen blk2 = zlen blk) as -> by lia. split.
      + eapply chain_same; [exact Hpre|]. intros p n Hp1 Hp2. eapply same_bytes_trans; [apply Hs1|apply Hs2]; lia.
      + apply chain_app. exists (base + T). split; [done|].
        eapply chain_same; [rewrite <- Hfin; exact Hpost|]. intros p n Hp1 Hp2.
        eapply same_bytes_trans; [apply Hs1|apply Hs2]; lia.
    - destruct (chain_total _ _ _ _ Hc2). lia.
    - rewrite !in_use_app, Hu2. by rewrite <- !app_assoc. }
  destruct (Z.eqb_spec (de_ino cur) 0) as [H0|H0].
  - replace (base + T - ep - EXT2_DIR_REC_LEN (de_namlen cur) + EXT2_DIR_REC_LEN (de_namlen cur)) with (base + T - ep) by lia.
    assert (packed [cur] = 0) as Hpc by (cbn; by rewrite H0).
    rewrite u32_id by (unfold u32_ok; lia). rewrite (proj2 (Z.ltb_ge _ _)) by lia.
    destruct (place_new blk1 base ep (base + T) dn ep (base + T - ep) ino type name stale)
      as (blk2 & -> & Hl2 & Hd2 & Hn2 & Hs2); try done; try lia.
    { replace (base + T - ep) with (T - total dn) by lia. by apply mod4_sub. }
    exists blk2, (dn ++ [mk_dent ino (base + T - ep) (zlen name) type name]). split; [done|]. apply Hfinish; [|done| |].
    + apply chain_app. by exists ep.
    + intros p n Hd'. apply Hs2. lia.
    + rewrite in_use_app in *. rewrite Hum, <- Hu1. cbn. rewrite H0, (proj2 (Z.eqb_neq ino 0)) by done. cbn.
      by rewrite app_nil_r.
  - assert (packed [cur] = EXT2_DIR_REC_LEN (de_namlen cur)) as Hpc
      by (cbn; rewrite (proj2 (Z.eqb_neq _ _) H0); lia).
    rewrite (proj2 (Z.ltb_ge _ _)) by lia.
    destruct (put_le_ok blk1 (ep + 4) 2 (EXT2_DIR_REC_LEN (de_namlen cur))) as [blk2 Hp]; [lia|lia|].
    assert (zlen (le_split 2 (EXT2_DIR_REC_LEN (de_namlen cur))) = 2) as Hsz by done.
    unfold put16 at 1. rewrite Hp. cbn [mbind res_bind]. pose proof (put_le_len _ _ _ _ _ Hp) as Hl2.
    set (o := ep + EXT2_DIR_REC_LEN (de_namlen cur)).
    assert (chain blk2 base (dn ++ [trim cur]) o) as Hdn2.
    { apply chain_app. exists ep. split; [eapply chain_put; [exact Hdn|exact Hp|lia]|]. cbn.
      destruct Hhdr. split; [|split; [by apply trim_ok|done]].
      eapply get_dent_set_reclen; [done|lia|exact Hp|unfold u16_ok; lia]. }
    destruct (place_new blk2 base o (base + T) (dn ++ [trim cur]) o (base + T - o) ino type name stale)
      as (blk3 & Hput & Hl3 & Hd3 & Hn3 & Hs3); try done; try lia.
    { replace (base + T - o) with (T - (total dn + EXT2_DIR_REC_LEN (de_namlen cur))) by lia.
      apply mod4_sub; [done|]. by rewrite Z.add_mod, Hda, Hca by lia. }
    replace (base + T - ep - EXT2_DIR_REC_LEN (de_namlen cur)) with (base + T - o) by lia. rewrite Hput.
    exists blk3, ((dn ++ [trim cur]) ++ [mk_dent ino (base + T - o) (zlen name) type name]). split; [done|].
    apply Hfinish; [|lia| |].
    + apply chain_app. by exists o.
    + intros p n Hd'. eapply same_bytes_trans; [|apply Hs3; lia]. eapply same_bytes_put; [exact Hp|]. lia.
    + rewrite !in_use_app in *. rewrite Hum, <- Hu1. cbn.
      rewrite (proj2 (Z.eqb_neq _ _) H0), (proj2 (Z.eqb_neq ino 0)) by done. done.
Qed.

(** [ext2_direnter] finds room where the lookup said there is some: when the
    entries of the region need, packed, little enough to leave room for the new
    name, it does not panic; the block is again a list of entries that fill it,
    the entries in use are the old ones followed, in the region, by the new one,
    and nothing outside the region moves. *)
Theorem direnter_block_spec blk pre mid post ino type name stale :
  dir_block blk (pre ++ mid ++ post) -> mid <> [] -> zlen blk < 2 ^ 16 -> 3 <= zlen stale ->
  u32_ok ino -> ino <> 0 -> u8_ok type -> zlen name < 2 ^ 8 ->
  EXT2_DIR_REC_LEN (zlen name) <= total mid - packed mid ->
  exists blk' mid', direnter_block blk (total pre) (total mid) ino type name stale = Ok blk' /\
    zlen blk' = zlen blk /\ dir_block blk' (pre ++ mid' ++ post) /\ total mid' = total mid /\
    in_use (pre ++ mid' ++ post) = in_use pre ++ in_use mid ++ [(ino, type, name)] ++ in_use post.
Proof. apply direnter_block_ok. Qed.
