(* ===== verification/DirSearch.v ===== *)
(** The search of [ext2_lookup_ino] on a directory whose blocks are lists of
    entries: it finds the first entry of that name, and when a name is to be
    created, room for it that [ext2_direnter] can use. *)
From stdpp Require Import gmap.
From S2P Require Import Prelude Bitmap Bytes Super Kernel InodeCnv Cluster Alloc Extents Bmap Dir DirSpec.

Record dir_geometry (fs : m_ext2fs) : Prop := mk_dir_geometry {
  dg_bshift : m_bsize fs = 2 ^ m_bshift fs;
  dg_bshift_pos : 0 <= m_bshift fs;
  dg_qbmask : m_qbmask fs = m_bsize fs - 1;
  dg_fsize : m_fsize fs = m_bsize fs;
  dg_bsize : 12 <= m_bsize fs < 2 ^ 16
}.

Lemma land_mask fs o : dir_geometry fs -> Z.land o (m_bsize fs - 1) = o mod m_bsize fs.
Proof.
  intros []. rewrite dg_bshift0. replace (2 ^ m_bshift fs - 1) with (Z.ones (m_bshift fs)) by (rewrite Z.ones_equiv; lia).
  by apply Z.land_ones.
Qed.

Lemma lblkno_block fs lbn k :
  dir_geometry fs -> 0 <= k < m_bsize fs -> lblkno fs (lbn * m_bsize fs + k) = lbn.
Proof.
  intros [Hb H0 _ _ _] Hk. unfold lblkno. rewrite Z.shiftr_div_pow2, <- Hb by done.
  rewrite Z.div_add_l by lia. rewrite Z.div_small by lia. lia.
Qed.

Lemma mod_block fs lbn k : dir_geometry fs -> 0 <= k < m_bsize fs -> (lbn * m_bsize fs + k) mod m_bsize fs = k.
Proof. intros [] Hk. rewrite Z.add_comm, Z_mod_plus_full. by apply Z.mod_small. Qed.

Section search.
Context `{KernelEnv} (fs : m_ext2fs) (Hgeo : dir_geometry fs).

(** The directory: inode [ip] with [nblk] blocks, whose entries are [D]. *)
Context (ip nblk : Z) (D : Z -> list dent).

(** What the directory's blocks hold, and what other threads leave alone while
    this one waits: the directory, which the caller holds. *)
Record dir_data (w : world) : Prop := mk_dir_data {
  dd_nblk : 0 <= nblk;
  dd_size : nblk * m_bsize fs < 2 ^ 31 - m_bsize fs;
  dd_inode : exists dp, w_inodes w !! ip = Some dp /\ i_size dp = nblk * m_bsize fs /\
               has_feature (i_flag dp) IN_E4EXTENTS = false;
  dd_blocks : forall lbn, 0 <= lbn < nblk -> exists blk, w_fdata w !! (ip, lbn) = Some blk /\
                zlen blk = m_bsize fs /\ dir_block blk (D lbn)
}.

Record dir_env : Prop := mk_dir_env {
  de_fbufs : forall n b w, w_fbufs (ke_wait n b w) = w_fbufs w;
  de_inodes : forall n b w, w_inodes (ke_wait n b w) = w_inodes w;
  de_fdata : forall n b w lbn, w_fdata (ke_wait n b w) !! (ip, lbn) = w_fdata w !! (ip, lbn);
  de_errno : forall n b e, ke_read_error n b = Some e -> e <> 0
}.

(** Nothing of the directory changed. *)
Record dir_same (w w' : world) : Prop := mk_dir_same {
  ds_inodes : w_inodes w' = w_inodes w;
  ds_fdata : forall lbn, w_fdata w' !! (ip, lbn) = w_fdata w !! (ip, lbn)
}.

#[global] Instance dir_same_po : PreOrder dir_same.
Proof.
  split; [by constructor|]. intros w1 w2 w3 [] []. constructor; [congruence|]. intros lbn. congruence.
Qed.

Lemma dir_data_same w w' : dir_same w w' -> dir_data w -> dir_data w'.
Proof.
  intros [Hi Hd] []. constructor; try done; [by rewrite Hi|].
  intros lbn Hl. rewrite Hd. by apply dd_blocks0.
Qed.

Context (Henv : dir_env).

(** A buffer of the directory or none, beyond the buffers [fb]. *)
Definition holding (bp : option bufref) (fb : gmap (Z * Z) (list Z)) (w : world) : Prop :=
  match bp with
  | None => w_fbufs w = fb
  | Some (FileBuf p lbn) => p = ip /\ fb !! (ip, lbn) = None /\ exists d, w_fbufs w = <[(ip, lbn) := d]> fb
  | Some (DevBuf _) => False
  end.

Definition no_bufs (fb : gmap (Z * Z) (list Z)) : Prop := forall lbn, fb !! (ip, lbn) = None.

Lemma release_opt_wp bp fb w :
  holding bp fb w -> wp (release_opt bp) (fun _ w' => dir_same w w' /\ w_fbufs w' = fb) w.
Proof.
  destruct bp as [[|p lbn]|]; cbn; [done| |intros Hw; split; [by constructor|done]].
  intros (-> & Hn & d & Hd). unfold wp. rewrite Hd, lookup_insert_eq. split; [by constructor|].
  cbn. rewrite Hd. by apply delete_insert_id.
Qed.

(** Reading a block of a file without extents. *)
Lemma blkatoff_block_wp w lbn k dp blk :
  w_inodes w !! ip = Some dp -> has_feature (i_flag dp) IN_E4EXTENTS = false ->
  w_fdata w !! (ip, lbn) = Some blk -> zlen blk = m_bsize fs -> w_fbufs w !! (ip, lbn) = None -> 0 <= k < m_bsize fs ->
  wp (ext2_blkatoff fs ip (lbn * m_bsize fs + k)) (fun r w' => dir_same w w' /\
    match r with
    | inr e => w_fbufs w' = w_fbufs w /\ e <> 0 /\ exists n b, ke_read_error n b = Some e
    | inl (bp, off) => bp = FileBuf ip lbn /\ off = k /\ w_fbufs w' = <[(ip, lbn) := blk]> (w_fbufs w)
    end) w.
Proof.
  intros Hdp Hext Hd Hlen Hno Hk. unfold ext2_blkatoff.
  apply wp_bind. unfold wp at 1, VTOI. rewrite Hdp. cbv zeta. rewrite Hext. cbn [negb].
  rewrite lblkno_block by done.
  apply wp_bind. unfold wp at 1, file_meta_bread. rewrite Hno. cbv zeta.
  destruct Henv as [Hfb Hin Hfd Herr].
  destruct (ke_read_error (w_tick w) lbn) as [e|] eqn:He.
  - rewrite (proj2 (Z.eqb_neq e 0)) by (by eapply Herr). cbn [negb].
    apply wp_bind. unfold wp at 1. cbn. rewrite lookup_insert_eq. apply wp_ret.
    split; [constructor; cbn; auto|]. split; [|split; [by eapply Herr|eauto]].
    cbn. rewrite Hfb. by apply delete_insert_id.
  - cbn. rewrite Hfd, Hd, (dg_fsize _ Hgeo), Hlen, Z.eqb_refl. cbn. apply wp_ret.
    split; [constructor; cbn; auto|]. split; [done|]. split; [|by rewrite Hfb].
    unfold blkoff. rewrite (dg_qbmask _ Hgeo), land_mask by done. by apply mod_block.
Qed.

(** Reading block [lbn]. *)
Lemma blkatoff_wp w lbn k :
  dir_data w -> no_bufs (w_fbufs w) -> 0 <= lbn < nblk -> 0 <= k < m_bsize fs ->
  wp (ext2_blkatoff fs ip (lbn * m_bsize fs + k)) (fun r w' => dir_same w w' /\
    match r with
    | inr e => w_fbufs w' = w_fbufs w /\ e <> 0 /\ exists n b, ke_read_error n b = Some e
    | inl (bp, off) => bp = FileBuf ip lbn /\ off = k /\ exists blk, w_fbufs w' = <[(ip, lbn) := blk]> (w_fbufs w) /\
        zlen blk = m_bsize fs /\ dir_block blk (D lbn)
    end) w.
Proof.
  intros [_ _ (dp & Hdp & _ & Hext) Hblk] Hno Hl Hk. destruct (Hblk lbn Hl) as (blk & Hd & Hlen & Hes).
  eapply wp_mono; [by apply (blkatoff_block_wp w lbn k dp blk)|].
  intros r w' [Hs Hr]. split; [done|]. destruct r as [[bp off]|e]; [|done]. destruct Hr as (-> & -> & Hfb).
  split; [done|]. split; [done|]. by exists blk.
Qed.

(** * Room *)

Definition free_in (es : list dent) : Z := total es - packed es.

(** Entries [mid] of one block, at [off] and [size] long, leave enough room. *)
Definition region_ok (needed off size : Z) : Prop :=
  exists lbn pre mid post, 0 <= lbn < nblk /\ D lbn = pre ++ mid ++ post /\ mid <> [] /\
    off = lbn * m_bsize fs + total pre /\ size = total mid /\ needed <= free_in mid.

(** The slot variables after the entries [pre] of block [lbn]. *)
Definition slots_inv (needed lbn : Z) (pre : list dent) (sl : slots) : Prop :=
  match sl_status sl with
  | SLOT_NONE =>
      pre = [] \/
      sl_freespace sl = free_in pre /\ free_in pre < needed /\
      (sl_offset sl = -1 /\ free_in pre = 0 \/
       exists p1 p2, pre = p1 ++ p2 /\ p2 <> [] /\ free_in p1 = 0 /\ sl_offset sl = lbn * m_bsize fs + total p1)
  | _ => region_ok needed (sl_offset sl) (sl_size sl)
  end.

Lemma free_in_app a b : free_in (a ++ b) = free_in a + free_in b.
Proof. unfold free_in. rewrite total_app, packed_app. lia. Qed.

Lemma total_cons e es : total (e :: es) = de_reclen e + total es.
Proof. done. Qed.

Lemma free_in_one e : free_in [e] =
  (if negb (de_ino e =? 0) then de_reclen e - EXT2_DIR_REC_LEN (de_namlen e) else de_reclen e).
Proof. unfold free_in. rewrite total_cons. change (total []) with 0. cbn. destruct (de_ino e =? 0); cbn; lia. Qed.

Lemma free_in_pos e : dent_ok e -> 0 <= free_in [e].
Proof. intros Hok. rewrite free_in_one. pose proof (dent_ok_size e Hok). destruct Hok. case_match; lia. Qed.

(** At the start of a block the accounting starts again. *)
Lemma reset_inv needed lbn pre sl :
  slots_inv needed lbn pre sl -> 0 < needed ->
  let sl' := reset_slots sl (bool_decide (pre = [])) in
  match sl_status sl' with
  | SLOT_NONE => sl_freespace sl' = free_in pre /\ free_in pre < needed /\
      (sl_offset sl' = -1 /\ free_in pre = 0 \/
       exists p1 p2, pre = p1 ++ p2 /\ p2 <> [] /\ free_in p1 = 0 /\ sl_offset sl' = lbn * m_bsize fs + total p1)
  | _ => region_ok needed (sl_offset sl') (sl_size sl')
  end.
Proof.
  unfold slots_inv, reset_slots. intros Hsl Hn. destruct (sl_status sl) eqn:Hst;
    [|rewrite bool_decide_eq_false_2 by done; cbn; by rewrite Hst..].
  rewrite (bool_decide_eq_true_2 (SLOT_NONE = SLOT_NONE)) by done. cbn [andb].
  destruct (decide (pre = [])) as [->|Hne].
  - rewrite bool_decide_eq_true_2 by done. cbn. split; [done|]. split; [done|]. by left.
  - rewrite bool_decide_eq_false_2 by done. rewrite Hst. by destruct Hsl.
Qed.

Lemma total_nonneg es : Forall dent_ok es -> 0 <= total es.
Proof.
  induction 1 as [|e es Hok _ IH]; [done|]. rewrite total_cons. pose proof (dent_ok_size e Hok). lia.
Qed.

(** Growing the candidate region by one entry. *)
Lemma grow_region needed lbn pre e rest p1 p2 :
  0 <= lbn < nblk -> D lbn = pre ++ e :: rest -> pre ++ [e] = p1 ++ p2 -> p2 <> [] -> free_in p1 = 0 ->
  needed <= free_in pre + free_in [e] ->
  region_ok needed (lbn * m_bsize fs + total p1)
    (lbn * m_bsize fs + total pre + de_reclen e - (lbn * m_bsize fs + total p1)).
Proof.
  intros Hl HD Hp Hne H0 Hle. exists lbn, p1, p2, rest.
  assert (free_in p1 + free_in p2 = free_in pre + free_in [e]) as Hf by (by rewrite <- !free_in_app, Hp).
  assert (total p1 + total p2 = total pre + de_reclen e) as Ht.
  { rewrite <- total_app, <- Hp, total_app, total_cons. change (total []) with 0. lia. }
  split; [done|]. split; [|split_and!; try done; lia].
  rewrite HD. change (e :: rest) with ([e] ++ rest). by rewrite app_assoc, Hp, <- app_assoc.
Qed.

Lemma single_region needed lbn pre e rest :
  0 <= lbn < nblk -> D lbn = pre ++ e :: rest -> needed <= free_in [e] ->
  region_ok needed (lbn * m_bsize fs + total pre) (de_reclen e).
Proof.
  intros Hl HD Hn. exists lbn, pre, [e], rest. split_and!; try done; try lia.
  rewrite total_cons. change (total []) with 0. lia.
Qed.

Lemma note_slot_inv needed lbn pre e rest sl :
  0 <= lbn < nblk -> D lbn = pre ++ e :: rest -> Forall dent_ok pre -> dent_ok e -> 0 < needed ->
  slots_inv needed lbn pre sl ->
  slots_inv needed lbn (pre ++ [e])
    (note_slot needed (lbn * m_bsize fs + total pre) (de_ino e) (de_reclen e) (de_namlen e)
       (reset_slots sl (bool_decide (pre = [])))).
Proof.
  intros Hl HD Hpre Hok Hn Hsl. pose proof (reset_inv _ _ _ _ Hsl Hn) as Hsl'. revert Hsl'. cbv zeta.
  set (sl' := reset_slots _ _). intros Hsl'. clearbody sl'. clear sl Hsl.
  pose proof (free_in_pos e Hok) as Hfp. pose proof (free_in_one e) as Hf.
  unfold note_slot. rewrite <- Hf. clear Hf.
  assert (sl_status sl' <> SLOT_NONE -> slots_inv needed lbn (pre ++ [e]) sl') as Hkeep.
  { unfold slots_inv. by destruct (sl_status sl'). }
  destruct (sl_status sl') eqn:Hst; [| |by apply Hkeep].
  2:{ destruct (Z.gtb_spec (free_in [e]) 0); [|by apply Hkeep].
      destruct (Z.geb_spec (free_in [e]) needed); [by eapply single_region|]. by apply Hkeep. }
  clear Hkeep.
  destruct Hsl' as (Hfree & Hlt & Hoff).
  destruct (Z.gtb_spec (free_in [e]) 0) as [Hpos|Hz].
  - destruct (Z.geb_spec (free_in [e]) needed) as [Hge|Hlt']; [by eapply single_region|].
    destruct (decide (SLOT_NONE = SLOT_NONE)) as [_|]; [|done]. rewrite Hfree.
    assert (exists p1 p2, pre ++ [e] = p1 ++ p2 /\ p2 <> [] /\ free_in p1 = 0 /\
      (if sl_offset sl' =? -1 then lbn * m_bsize fs + total pre else sl_offset sl') = lbn * m_bsize fs + total p1)
      as (p1 & p2 & Hp & Hne & H0 & ->).
    { destruct Hoff as [[-> H0]|(p1 & p2 & -> & Hne & H0 & ->)].
      - rewrite Z.eqb_refl. by exists pre, [e].
      - exists p1, (p2 ++ [e]). split; [by rewrite app_assoc|]. split; [by destruct p2|]. split; [done|].
        apply Forall_app in Hpre as [Hp1 _]. pose proof (total_nonneg p1 Hp1). destruct Hgeo.
        rewrite (proj2 (Z.eqb_neq _ _)); [done|]. nia. }
    destruct (Z.geb_spec (free_in pre + free_in [e]) needed) as [Hge|Hlt2]; [by eapply grow_region|].
    unfold slots_inv. cbn. right. rewrite free_in_app. split; [done|]. split; [done|]. right. by exists p1, p2.
  - unfold slots_inv. rewrite Hst. right. assert (free_in [e] = 0) as He0 by lia. rewrite free_in_app, He0, Z.add_0_r.
    split; [done|]. split; [done|]. destruct Hoff as [[-> H0]|(p1 & p2 & -> & Hne & H0 & ->)]; [by left|right].
    exists p1, (p2 ++ [e]). split; [by rewrite app_assoc|]. split; [by destruct p2|done].
Qed.

(** * The loop *)

Context (cnp : componentname).

Definition matches (e : dent) : Prop := de_ino e <> 0 /\ de_name e = cn_name cnp.

(** Every entry in use in block [lbn] among [pre] ends at or before [u]. *)
Definition covers (u lbn : Z) (pre : list dent) : Prop :=
  forall p e q, pre = p ++ e :: q -> de_ino e <> 0 -> lbn * m_bsize fs + total p + de_reclen e <= u.

Definition needed : Z := if creating cnp then EXT2_DIR_REC_LEN (cn_namelen cnp) else 0.

(** The blocks searched. *)
Context (lo hi : Z) (Hrange : 0 <= lo <= hi /\ hi <= nblk).

(** The search stands before [rest] in block [lbn], [fb] being the buffers held
    besides its own. *)
Record standing (w : world) (s : search) (lbn : Z) (pre rest : list dent) (fb : gmap (Z * Z) (list Z)) : Prop :=
  mk_standing {
  st_lbn : lo <= lbn;
  st_here : lbn < hi /\ D lbn = pre ++ rest /\ rest <> [] \/ lbn = hi /\ pre = [];
  st_off : se_offset s = lbn * m_bsize fs + total pre;
  st_hold : holding (se_bp s) fb w;
  st_mid : pre <> [] -> se_bp s = Some (FileBuf ip lbn) /\ se_inblock s = total pre /\
             exists blk, w_fbufs w = <[(ip, lbn) := blk]> fb /\ zlen blk = m_bsize fs /\ dir_block blk (D lbn);
  st_before : forall l, lo <= l < lbn -> Forall (fun e => ~ matches e) (D l);
  st_pre : Forall (fun e => ~ matches e) pre;
  st_slots : creating cnp = true -> slots_inv needed lbn pre (se_slots s) /\
               (sl_status (se_slots s) = SLOT_NONE -> forall l, lo <= l < lbn -> free_in (D l) < needed);
  st_prev : forall p x, pre = p ++ [x] -> se_prevoff s = lbn * m_bsize fs + total p;
  st_useful : creating cnp = true -> (forall l, lo <= l < lbn -> covers (se_enduseful s) l (D l)) /\ covers (se_enduseful s) lbn pre /\
                se_enduseful s <= se_offset s
}.

Definition found_at (s : search) (ino namlen : Z) : Prop :=
  exists lbn pre x post, lo <= lbn < hi /\ D lbn = pre ++ x :: post /\ matches x /\
    ino = de_ino x /\ namlen = de_namlen x /\
    (forall l, lo <= l < lbn -> Forall (fun e => ~ matches e) (D l)) /\ Forall (fun e => ~ matches e) pre /\
    se_offset s = lbn * m_bsize fs + total pre /\ se_inblock s = total pre /\
    (forall p y, pre = p ++ [y] -> se_prevoff s = lbn * m_bsize fs + total p).

Definition not_found (s : search) : Prop :=
  (forall l, lo <= l < hi -> Forall (fun e => ~ matches e) (D l)) /\
  (creating cnp = true ->
     (forall l, lo <= l < hi -> covers (se_enduseful s) l (D l)) /\ se_enduseful s <= hi * m_bsize fs /\
     match sl_status (se_slots s) with
     | SLOT_NONE => forall l, lo <= l < hi -> free_in (D l) < needed
     | _ => region_ok needed (sl_offset (se_slots s)) (sl_size (se_slots s))
     end).

Definition search_post (fb : gmap (Z * Z) (list Z)) (r : search * search_end) (w : world) : Prop :=
  match r with
  | (s, Found ino namlen) => holding (se_bp s) fb w /\ found_at s ino namlen
  | (s, NotFound) => holding (se_bp s) fb w /\ not_found s
  | (s, SearchError e) => w_fbufs w = fb /\ e <> 0 /\ exists n b, ke_read_error n b = Some e
  end.

Lemma block_entries w lbn : dir_data w -> 0 <= lbn < nblk -> Forall dent_ok (D lbn) /\ total (D lbn) = m_bsize fs.
Proof.
  intros [_ _ _ Hb] Hl. destruct (Hb lbn Hl) as (blk & _ & Hlen & Hes). unfold dir_block in Hes. split.
  - revert Hes. generalize 0, (zlen blk). generalize (D lbn). clear.
    induction l as [|e es IH]; intros o f H; [constructor|]. destruct H as (_ & Hok & H). constructor; [done|by eapply IH].
  - destruct (chain_total _ _ _ _ Hes). lia.
Qed.

Lemma next_block_wp w s lbn pre rest fb :
  dir_data w -> no_bufs fb -> standing w s lbn pre rest fb -> lbn < hi ->
  wp (next_block fs ip s) (fun r w' => dir_same w w' /\
    match r with
    | inr e => w_fbufs w' = fb /\ e <> 0 /\ exists n b, ke_read_error n b = Some e
    | inl (bp, inblock) => bp = Some (FileBuf ip lbn) /\ inblock = total pre /\
        exists blk, w_fbufs w' = <[(ip, lbn) := blk]> fb /\ zlen blk = m_bsize fs /\ dir_block blk (D lbn)
    end) w.
Proof.
  intros Hd Hno [] Hl. destruct st_here0 as [(_ & HD & Hne)|[? _]]; [|lia].
  destruct (block_entries w lbn Hd ltac:(lia)) as [Hok Ht]. rewrite HD in Hok, Ht. apply Forall_app in Hok as [Hokp Hokr].
  rewrite total_app in Ht. pose proof (total_nonneg _ Hokp).
  assert (0 < total rest) as Hr.
  { destruct rest as [|e rest]; [done|]. apply Forall_cons_1 in Hokr as [He Hokr]. rewrite total_cons.
    pose proof (dent_ok_size e He). pose proof (total_nonneg _ Hokr). lia. }
  unfold next_block. rewrite land_mask, st_off0, mod_block by (done || lia).
  destruct (Z.eqb_spec (total pre) 0) as [Hz|Hz].
  - assert (pre = []) as ->.
    { destruct pre as [|e pre]; [done|]. apply Forall_cons_1 in Hokp as [He Hokp]. rewrite total_cons in Hz.
      pose proof (dent_ok_size e He). pose proof (total_nonneg _ Hokp). lia. }
    apply wp_bind. eapply wp_mono; [by apply release_opt_wp|]. intros _ w1 [Hs1 Hb1].
    apply wp_bind. rewrite Hz. eapply wp_mono.
    { apply (blkatoff_wp w1 lbn 0); [by eapply dir_data_same|by rewrite Hb1|lia|destruct Hgeo; lia]. }
    intros r w2 [Hs2 Hr2]. destruct r as [[bp off]|e]; apply wp_ret.
    + split; [by etransitivity|]. destruct Hr2 as (-> & -> & blk & Hb2 & Hbl). split; [done|]. split; [done|].
      exists blk. by rewrite Hb2, Hb1.
    + split; [by etransitivity|]. destruct Hr2 as (Hb2 & He & Hex). split; [by rewrite Hb2, Hb1|done].
  - assert (pre <> []) as Hp by (intros ->; done). destruct (st_mid0 Hp) as (Hbp & Hin & blk & Hblk).
    apply wp_ret. split; [done|]. split; [done|]. split; [done|]. by exists blk.
Qed.

Lemma covers_mono u u' lbn pre : covers u lbn pre -> u <= u' -> covers u' lbn pre.
Proof. intros Hc Hu p e q Hp Hi. pose proof (Hc p e q Hp Hi). lia. Qed.

Lemma covers_snoc u u' lbn pre e :
  covers u lbn pre -> u <= u' -> (de_ino e <> 0 -> lbn * m_bsize fs + total pre + de_reclen e <= u') ->
  covers u' lbn (pre ++ [e]).
Proof.
  intros Hc Hu He p x q Hp Hi. destruct q as [|y q _] using rev_ind.
  - apply app_inj_tail in Hp as [-> ->]. by apply He.
  - rewrite app_comm_cons, app_assoc in Hp. apply app_inj_tail in Hp as [-> _].
    pose proof (Hc p x q eq_refl Hi). lia.
Qed.

Lemma dir_block_ne w lbn : dir_data w -> 0 <= lbn < nblk -> D lbn <> [].
Proof. intros Hd Hl He. destruct (block_entries w lbn Hd Hl) as [_ Ht]. rewrite He in Ht. destruct Hgeo. cbn in Ht. lia. Qed.

(** Past an entry that does not match. *)
Lemma standing_step w0 w s lbn pre e rest fb blk :
  dir_data w -> no_bufs fb -> standing w0 s lbn pre (e :: rest) fb -> lbn < hi -> ~ matches e ->
  w_fbufs w = <[(ip, lbn) := blk]> fb -> zlen blk = m_bsize fs -> dir_block blk (D lbn) ->
  exists lbn' pre' rest',
    standing w
      (mk_search (se_offset s + de_reclen e) (total pre + de_reclen e) (se_offset s)
         (if negb (de_ino e =? 0) then se_offset s + de_reclen e else se_enduseful s)
         (note_slot needed (se_offset s) (de_ino e) (de_reclen e) (de_namlen e)
            (reset_slots (se_slots s) (bool_decide (pre = [])))) (Some (FileBuf ip lbn))) lbn' pre' rest' fb.
Proof.
  intros Hd Hno [] Hl Hm Hfb Hlen Hblk. destruct st_here0 as [(_ & HD & _)|[? _]]; [|lia].
  destruct (block_entries w lbn Hd ltac:(lia)) as [Hok Ht]. rewrite HD in Hok, Ht. apply Forall_app in Hok as [Hokp Hokr].
  apply Forall_cons_1 in Hokr as [Hoke Hokr]. rewrite total_app, total_cons in Ht.
  pose proof (dent_ok_size e Hoke) as [_ He8]. pose proof (total_nonneg _ Hokp) as Hp0.
  set (s' := mk_search _ _ _ _ _ _).
  assert (creating cnp = true -> slots_inv needed lbn (pre ++ [e]) (se_slots s')) as Hslots.
  { intros Hc. destruct (st_slots0 Hc) as [Hsl _]. unfold s'. cbn [se_slots]. rewrite st_off0.
    eapply note_slot_inv; try done; try lia. unfold needed. rewrite Hc.
    pose proof (rec_len_bounds (cn_namelen cnp)) as [Hb _]. unfold cn_namelen, zlen in *. lia. }
  assert (sl_status (se_slots s') = SLOT_NONE -> sl_status (se_slots s) = SLOT_NONE) as Hnone.
  { unfold s', note_slot, reset_slots. cbn [se_slots]. destruct (sl_status (se_slots s)) eqn:Hst; [done|..];
      rewrite bool_decide_eq_false_2 by done; cbn [andb]; rewrite Hst; repeat case_match; cbn; congruence. }
  assert (forall u, (forall l, lo <= l < lbn -> covers (se_enduseful s) l (D l)) -> se_enduseful s <= u ->
    forall l, lo <= l < lbn -> covers u l (D l)) as Hmono.
  { intros u Hc Hu l Hl'. eapply covers_mono; [by apply Hc|done]. }
  assert (creating cnp = true -> se_enduseful s <= se_enduseful s' /\ se_enduseful s' <= se_offset s' /\
    covers (se_enduseful s') lbn (pre ++ [e])) as Huse.
  { intros Hcr. destruct (st_useful0 Hcr) as (_ & Hc & Hle). unfold s'. cbn [se_enduseful se_offset].
    destruct (Z.eqb_spec (de_ino e) 0); cbn [negb]; (split; [lia|split; [lia|]]);
      (eapply covers_snoc; [exact Hc|lia|]); [done|lia]. }
  assert (holding (se_bp s') fb w) as Hhold by (split; [done|split; [apply Hno|by exists blk]]).
  assert (Forall (fun e => ~ matches e) (pre ++ [e])) as Hpre by (apply Forall_app; split; [done|by constructor]).
  destruct rest as [|e2 rest].
  - assert (D lbn = pre ++ [e]) as HD' by done. exists (lbn + 1), [], (D (lbn + 1)).
    change (total []) with 0 in Ht. constructor.
    + lia.
    + destruct (decide (lbn + 1 < hi)); [left|right; split; [lia|done]]. split; [done|]. split; [done|].
      eapply dir_block_ne; [done|lia].
    + unfold s'. cbn [se_offset]. rewrite st_off0. change (total []) with 0. lia.
    + done.
    + done.
    + intros l Hl'. destruct (decide (l = lbn)) as [->|]; [by rewrite HD'|apply st_before0; lia].
    + constructor.
    + intros Hc. specialize (Hslots Hc). split.
      * unfold slots_inv in *. destruct (sl_status (se_slots s')); [by left|done|done].
      * intros Hst l Hl'. destruct (st_slots0 Hc) as [_ Hfree]. destruct (decide (l = lbn)) as [->|]; [|apply Hfree; [by apply Hnone|lia]].
        unfold slots_inv in Hslots. rewrite Hst in Hslots. rewrite HD'. destruct Hslots as [Hnil|(_ & Hlt & _)]; [|done].
        by destruct pre.
    + intros p x Hp. by destruct p.
    + intros Hcr. destruct (st_useful0 Hcr) as (Hc & _ & _). destruct (Huse Hcr) as (Hu1 & Hu2 & Hu3).
      split; [|split; [by intros [|] ? ?|done]].
      intros l Hl'. destruct (decide (l = lbn)) as [->|]; [by rewrite HD'|]. eapply Hmono; [exact Hc|done|lia].
  - exists lbn, (pre ++ [e]), (e2 :: rest). constructor; try done.
    + left. split; [done|]. split; [|done]. rewrite HD. by rewrite <- app_assoc.
    + unfold s'. cbn [se_offset]. rewrite st_off0, total_app, total_cons. change (total []) with 0. lia.
    + intros _. split; [done|]. split; [|by exists blk].
      unfold s'. cbn [se_inblock]. rewrite total_app, total_cons. change (total []) with 0. lia.
    + intros Hc. split; [by apply Hslots|]. intros Hst. destruct (st_slots0 Hc) as [_ Hfree]. by apply Hfree, Hnone.
    + intros p x Hp. apply app_inj_tail in Hp as [<- _]. unfold s'. cbn [se_prevoff]. done.
    + intros Hcr. destruct (st_useful0 Hcr) as (Hc & _ & _). destruct (Huse Hcr) as (Hu1 & Hu2 & Hu3).
      split; [by apply Hmono|done].
Qed.

(** The entry the search stands before. *)
Lemma entry_at w blk lbn pre e rest :
  dir_data w -> 0 <= lbn < nblk -> D lbn = pre ++ e :: rest -> dir_block blk (D lbn) ->
  get_dent blk (total pre) = Ok e /\ dent_ok e /\
  0 <= total pre < m_bsize fs /\ (total pre =? 0) = bool_decide (pre = []).
Proof.
  intros Hd Hl HD Hblk. destruct (block_entries w lbn Hd Hl) as [Hok Ht]. rewrite HD in Hok, Ht, Hblk.
  apply Forall_app in Hok as [Hokp Hokr]. apply Forall_cons_1 in Hokr as [Hoke Hokr].
  rewrite total_app, total_cons in Ht. pose proof (dent_ok_size e Hoke). pose proof (total_nonneg _ Hokp).
  pose proof (total_nonneg _ Hokr). unfold dir_block in Hblk. apply chain_app in Hblk as (mid & Hpre & Hrest).
  destruct (chain_total _ _ _ _ Hpre) as [-> _]. cbn in Hrest. destruct Hrest as (He & _). rewrite Z.add_0_l in He.
  split; [done|]. split; [done|]. split; [lia|].
  destruct pre as [|x pre]; [done|]. apply Forall_cons_1 in Hokp as [Hx Hokp].
  rewrite total_cons. pose proof (dent_ok_size x Hx). pose proof (total_nonneg _ Hokp).
  rewrite bool_decide_eq_false_2 by done. apply Z.eqb_neq. lia.
Qed.

Lemma standing_end w s lbn pre rest fb :
  dir_data w -> standing w s lbn pre rest fb ->
  (se_offset s < hi * m_bsize fs -> lbn < hi) /\
  (hi * m_bsize fs <= se_offset s -> not_found s).
Proof.
  intros Hd []. destruct Hgeo as [_ _ _ _ Hbs]. destruct st_here0 as [(Hl & HD & Hne)|[-> ->]].
  - split; [done|]. intros Hle. exfalso.
    destruct (block_entries w lbn Hd ltac:(lia)) as [Hok Ht]. rewrite HD in Hok, Ht. apply Forall_app in Hok as [_ Hokr].
    destruct rest as [|e rest]; [done|]. apply Forall_cons_1 in Hokr as [He Hokr].
    rewrite total_app, total_cons in Ht. pose proof (dent_ok_size e He). pose proof (total_nonneg _ Hokr). nia.
  - change (total []) with 0 in st_off0. split; [lia|]. intros _. split; [by apply st_before0|].
    intros Hcr. destruct (st_useful0 Hcr) as (Hc & _ & Hle). split; [by apply Hc|]. split; [lia|].
    destruct (st_slots0 Hcr) as [Hsl Hfree]. unfold slots_inv in Hsl.
    destruct (sl_status (se_slots s)); [by apply Hfree|done|done].
Qed.

(** The test for the name, on an entry. *)
Lemma name_test blk o e (w : world) :
  get_dent blk o = Ok e -> dent_ok e ->
  exists m : bool, ((if negb (de_ino e =? 0) && (de_namlen e =? cn_namelen cnp)
     then (name ← lift (e2d_name blk o (de_namlen e)); mret (bool_decide (name = cn_name cnp)))
     else mret false) : M world bool) w = Ok (m, w) /\ (m = true <-> matches e).
Proof.
  intros He [_ Hn _ _]. destruct (get_dent_parts _ _ _ He) as (_ & _ & _ & _ & Gname).
  assert (zlen (de_name e) = de_namlen e) as Hlen.
  { unfold e2d_name in Gname. pose proof (get_bytes_len _ _ _ _ Gname). unfold zlen. lia. }
  destruct (negb (de_ino e =? 0) && (de_namlen e =? cn_namelen cnp)) eqn:Ht.
  - exists (bool_decide (de_name e = cn_name cnp)). split; [by erewrite bind_run by (by apply lift_run)|].
    apply andb_true_iff in Ht as [Hi _]. apply negb_true_iff, Z.eqb_neq in Hi. rewrite bool_decide_eq_true.
    unfold matches. tauto.
  - exists false. split; [done|]. split; [done|]. intros [Hi Heq]. exfalso. apply andb_false_iff in Ht as [Ht|Ht].
    + apply negb_false_iff, Z.eqb_eq in Ht. done.
    + apply Z.eqb_neq in Ht. apply Ht. unfold cn_namelen. by rewrite <- Heq.
Qed.

Lemma search_loop_wp ronly : forall fuel w s lbn pre rest fb,
  dir_data w -> no_bufs fb -> standing w s lbn pre rest fb -> hi * m_bsize fs - se_offset s <= Z.of_nat fuel ->
  wp (search_loop fs ronly false ip cnp needed (hi * m_bsize fs) fuel s)
    (fun r w' => dir_same w w' /\ search_post fb r w') w.
Proof.
  induction fuel as [|fuel IH]; intros w s lbn pre rest fb Hd Hno Hst Hfuel; cbn [search_loop];
    destruct (standing_end _ _ _ _ _ _ Hd Hst) as [Hin Hout];
    destruct (Z.ltb_spec (se_offset s) (hi * m_bsize fs)) as [Hlt|Hge]; try lia;
    try (apply wp_ret; split; [done|]; split; [by destruct Hst|by apply Hout]).
  specialize (Hin Hlt). apply wp_bind. eapply wp_mono; [by eapply next_block_wp|].
  intros r w1 [Hs1 Hr]. destruct r as [[bp inblock]|e]; [|apply wp_ret; by split].
  destruct Hr as (-> & -> & blk & Hfb & Hlen & Hblk). cbv zeta.
  pose proof (st_here _ _ _ _ _ _ Hst) as Hhere. destruct Hhere as [(_ & HD & Hne)|[? _]]; [|lia].
  pose proof (st_lbn _ _ _ _ _ _ Hst) as Hl0.
  destruct rest as [|e rest]; [done|].
  destruct (entry_at w blk lbn pre e rest Hd ltac:(lia) HD Hblk) as (He & Hok & Hr & Hstart).
  destruct (get_dent_parts _ _ _ He) as (Gi & Gr & Gn & _ & Gname). pose proof (dent_ok_size e Hok) as [_ He8].
  rewrite land_mask, Z.mod_small, Hstart by done.
  cbn [deref]. apply wp_bind, wp_ret. apply wp_bind. unfold wp at 1. cbn [ref_dataptr]. rewrite Hfb, lookup_insert_eq.
  apply wp_bind. eapply wp_lift; [exact Gr|]. apply wp_bind, wp_ret.
  rewrite (proj2 (Z.eqb_neq (de_reclen e) 0)) by lia. cbn [orb].
  apply wp_bind. eapply wp_lift; [exact Gi|]. apply wp_bind. eapply wp_lift; [exact Gn|].
  apply wp_bind. destruct (name_test blk (total pre) e w1 He Hok) as (m & Hm & Hmatch).
  unfold wp at 1. rewrite Hm. pose proof (dir_data_same _ _ Hs1 Hd) as Hd1.
  destruct m.
  - apply wp_ret. split; [done|]. split; [split; [done|]; split; [apply Hno|by exists blk]|].
    destruct Hst. exists lbn, pre, e, rest. split; [lia|]. split; [done|]. split; [by apply Hmatch|].
    do 4 (split; [done|]). split; [exact st_off0|]. done.
  - assert (~ matches e) as Hnm by (intros Hm'; by apply Hmatch in Hm').
    destruct (standing_step w w1 s lbn pre e rest fb blk Hd1 Hno Hst Hin Hnm Hfb Hlen Hblk) as (lbn' & pre' & rest' & Hst').
    eapply wp_mono; [eapply IH; [exact Hd1|exact Hno|exact Hst'|cbn [se_offset]; lia]|].
    intros r w2 [Hs2 Hpost]. split; [by etransitivity|done].
Qed.
End search.

(** * Both passes *)

Section both.
Context `{KernelEnv} (fs : m_ext2fs) (Hgeo : dir_geometry fs) (ip nblk : Z) (D : Z -> list dent).
Context (Henv : dir_env ip) (cnp : componentname).

Lemma roundup2_block n : 0 <= n -> roundup2 (n * m_bsize fs) (m_bsize fs) = n * m_bsize fs.
Proof.
  intros Hn. destruct Hgeo. unfold roundup2. rewrite <- Z.ldiff_land. rewrite dg_bshift0.
  replace (2 ^ m_bshift fs - 1) with (Z.ones (m_bshift fs)) by (rewrite Z.ones_equiv; lia).
  rewrite Z.ldiff_ones_r, Z.shiftr_div_pow2, Z.shiftl_mul_pow2 by done. rewrite Z.ones_equiv.
  assert (0 < 2 ^ m_bshift fs) by (apply Z.pow_pos_nonneg; lia).
  rewrite Z.div_add_l by lia. rewrite Z.div_small by lia. lia.
Qed.

(** The search has nothing behind it. *)
Lemma standing_start w s lo hi fb :
  dir_data fs ip nblk D w -> 0 <= lo <= hi /\ hi <= nblk ->
  se_offset s = lo * m_bsize fs -> holding ip (se_bp s) fb w -> (creating cnp = true -> se_enduseful s <= se_offset s) ->
  (creating cnp = true -> sl_status (se_slots s) = SLOT_NONE) ->
  standing fs ip nblk D cnp lo hi w s lo [] (D lo) fb.
Proof.
  intros Hd Hr Hoff Hh Hu Hsl. constructor; try done.
  - destruct (decide (lo < hi)); [left|right; split; [lia|done]]. split; [done|]. split; [done|].
    eapply dir_block_ne; [done|done|lia].
  - rewrite Hoff. change (total []) with 0. lia.
  - intros l Hl. lia.
  - intros Hcr. unfold slots_inv. rewrite (Hsl Hcr). split; [by left|]. intros _ l Hl. lia.
  - intros p x Hp. by destruct p.
  - intros Hcr. split; [intros l Hl; lia|]. split; [by intros [|] ? ?|]. by apply Hu.
Qed.

(** What [search_dir] answers for the directory as a whole. *)
Definition dir_post (fb : gmap (Z * Z) (list Z)) (r : search * search_end * Z) (w : world) : Prop :=
  let '(s, e, _) := r in
  match e with
  | Found ino namlen => holding ip (se_bp s) fb w /\
      exists lbn pre x post, 0 <= lbn < nblk /\ D lbn = pre ++ x :: post /\ matches cnp x /\
        ino = de_ino x /\ namlen = de_namlen x /\ se_offset s = lbn * m_bsize fs + total pre /\
        se_inblock s = total pre /\ (forall p y, pre = p ++ [y] -> se_prevoff s = lbn * m_bsize fs + total p)
  | NotFound => holding ip (se_bp s) fb w /\ not_found fs nblk D cnp 0 nblk s
  | SearchError e => w_fbufs w = fb /\ e <> 0 /\ exists n b, ke_read_error n b = Some e
  end.

Lemma dir_post_of lo hi fb passes r w :
  0 <= lo <= hi /\ hi <= nblk -> search_post fs ip nblk D cnp lo hi fb r w ->
  (forall s, r = (s, NotFound) -> lo = 0 /\ hi = nblk) -> dir_post fb (r, passes) w.
Proof.
  intros Hr Hpost Hfull. destruct r as [s [|ino namlen|e]]; cbn in *; [|..].
  - destruct (Hfull s eq_refl) as [-> ->]. done.
  - destruct Hpost as [Hh (lbn & pre & x & post & Hl & HD & Hm & -> & -> & _ & _ & Ho & Hi & Hp)].
    split; [done|]. exists lbn, pre, x, post. split; [lia|]. done.
  - done.
Qed.

Lemma search_loop_from ronly w s lo hi fb endsearch fuel :
  dir_data fs ip nblk D w -> no_bufs ip fb -> 0 <= lo <= hi /\ hi <= nblk ->
  se_offset s = lo * m_bsize fs -> holding ip (se_bp s) fb w -> (creating cnp = true -> se_enduseful s <= se_offset s) ->
  (creating cnp = true -> sl_status (se_slots s) = SLOT_NONE) ->
  endsearch = hi * m_bsize fs -> endsearch <= Z.of_nat fuel ->
  wp (search_loop fs ronly false ip cnp (needed cnp) endsearch fuel s)
    (fun r w' => dir_same ip w w' /\ search_post fs ip nblk D cnp lo hi fb r w') w.
Proof.
  intros Hd Hno Hr Hoff Hh Hu Hsl -> Hfuel.
  eapply search_loop_wp; [done|done|done|done|done|by eapply standing_start|]. destruct Hgeo. nia.
Qed.

Lemma search_dir_wp ronly w dp d :
  dir_data fs ip nblk D w -> no_bufs ip (w_fbufs w) ->
  w_inodes w !! ip = Some dp -> i_diroff dp = d * m_bsize fs -> 0 <= d -> i_diroff dp < 2 ^ 31 ->
  wp (search_dir fs ronly false ip cnp) (fun r w' => dir_same ip w w' /\ dir_post (w_fbufs w) r w') w.
Proof.
  intros Hd Hno Hdp Hdo Hd0 Hdmax. pose proof Hd as [Hn Hsz (dp' & Hdp' & Hsize & _) _].
  rewrite Hdp in Hdp'. injection Hdp' as <-. pose proof Hgeo as [_ _ _ _ Hbs]. unfold search_dir.
  apply wp_bind. unfold wp at 1, VTOI. rewrite Hdp. cbv zeta.
  rewrite Hsize, roundup2_block by done. rewrite s32_id by (unfold s32_ok; nia).
  fold (needed cnp).
  assert (forall sz, creating cnp = true ->
    sl_status (mk_slots (if creating cnp then SLOT_NONE else SLOT_FOUND) (-1) sz 0) = SLOT_NONE) as Hsl by (by intros sz ->).
  destruct (negb (bool_decide (cn_nameiop cnp = LOOKUP)) || (i_diroff dp =? 0) || (u64 (i_diroff dp) >? nblk * m_bsize fs)) eqn:Hone.
  - apply wp_bind. eapply wp_mono.
    { eapply (search_loop_from ronly w _ 0 nblk (w_fbufs w)); try done; [by apply Hsl|]. unfold search_fuel. lia. }
    intros r w' [Hs Hpost]. apply wp_ret. split; [done|]. eapply (dir_post_of 0 nblk); [lia|done|done].
  - apply orb_false_iff in Hone as [Hone Hle]. apply orb_false_iff in Hone as [Hop Hnz].
    apply negb_false_iff, bool_decide_eq_true in Hop. apply Z.eqb_neq in Hnz.
    assert (creating cnp = false) as Hcr by (unfold creating; by rewrite Hop).
    assert (u64 (i_diroff dp) = i_diroff dp) as Hu by (unfold u64; apply Z.mod_small; nia).
    rewrite Hu in Hle. assert (i_diroff dp <= nblk * m_bsize fs) as Hle' by (destruct (Z.gtb_spec (i_diroff dp) (nblk * m_bsize fs)); lia).
    clear Hle. rename Hle' into Hle. rewrite Hdo in Hle. assert (d <= nblk) as Hdn by nia.
    rewrite land_mask, Hdo by done. rewrite Z_mod_mult. cbn [Z.eqb negb]. apply wp_bind, wp_ret.
    rewrite <- Hdo. apply wp_bind. eapply wp_mono.
    { eapply (search_loop_from ronly w _ d nblk (w_fbufs w)); try done; [by rewrite Hcr|by rewrite Hcr|].
      unfold search_fuel. lia. }
    intros [s e] w1 [Hs1 Hpost1]. destruct e as [|ino namlen|err].
    + destruct Hpost1 as [Hh1 [Hnf _]]. apply wp_bind. eapply wp_mono.
      { eapply (search_loop_from ronly w1 _ 0 d (w_fbufs w)); try done; try lia.
        - by eapply dir_data_same.
        - by rewrite Hcr.
        - by rewrite Hcr.
        - unfold search_fuel. lia. }
      intros [s2 e2] w2 [Hs2 Hpost2]. apply wp_ret. split; [by etransitivity|].
      destruct e2 as [|ino namlen|err].
      * destruct Hpost2 as [Hh2 [Hnf2 _]]. split; [done|]. split; [|by rewrite Hcr].
        intros l Hl. destruct (decide (l < d)); [apply Hnf2; lia|apply Hnf; lia].
      * by eapply (dir_post_of 0 d).
      * by eapply (dir_post_of 0 d).
    + apply wp_ret. split; [done|]. by eapply (dir_post_of d nblk).
    + apply wp_ret. split; [done|]. by eapply (dir_post_of d nblk).
Qed.

(** C28: the search of [ext2_lookup_ino] in a directory whose blocks are lists of
    entries returns, changes nothing and keeps at most the buffer it stopped in.
    It answers with an entry in use of that name, its inode and the offsets of
    it and of the entry before it, exactly when the directory has one - in one
    pass, or in two when the last lookup left a block to start at. When a name
    to be created is not there, it leaves either room that packing the entries
    of one stretch of a block yields, or the knowledge that no block has enough. *)
Theorem search_dir_spec ronly w dp d :
  dir_data fs ip nblk D w -> no_bufs ip (w_fbufs w) ->
  w_inodes w !! ip = Some dp -> i_diroff dp = d * m_bsize fs -> 0 <= d -> i_diroff dp < 2 ^ 31 ->
  wp (search_dir fs ronly false ip cnp) (fun r w' => dir_same ip w w' /\ dir_post (w_fbufs w) r w') w.
Proof. apply search_dir_wp. Qed.
End both.
