(* ===== verification/DirOps.v ===== *)
(** The operations on a directory, from the search to the block written back:
    an entry is added where the search left room, and taken out where the search
    found it. *)
From stdpp Require Import gmap.
From S2P Require Import Prelude Bitmap Bytes Super Kernel InodeCnv Cluster Alloc Extents Bmap Dir DirSpec DirSearch.

Lemma new_type_u8 fs mode : u8_ok (new_type fs mode).
Proof.
  assert (Forall u8_ok dt_to_ext2_ft) as Hall.
  { repeat first [apply Forall_nil_2 | apply Forall_cons_2; [by vm_compute|]]. }
  unfold new_type. case_match; [|done]. unfold DTTOFT.
  destruct (dt_to_ext2_ft !z IFTODT mode) as [t|] eqn:Ht; [|done].
  apply zlookup_Some_inv in Ht as [_ Ht]. by apply (proj1 (Forall_lookup _ _) Hall _ _ Ht).
Qed.

Section ops.
Context `{KernelEnv} (fs : m_ext2fs) (Hgeo : dir_geometry fs) (ip nblk : Z) (D : Z -> list dent).
Context (Henv : dir_env ip).
Context (async : bool) (f_bsize : Z) (stale : list Z) (Hstale : 3 <= zlen stale).
Context (vn_write : Z -> list Z -> Z -> M world Z) (ext2_truncate : Z -> Z -> M world Z).

(** Block [lbn] holds [es], and nothing else of any file changed. *)
Definition rewritten (w w' : world) (lbn : Z) (es : list dent) : Prop :=
  exists blk, zlen blk = m_bsize fs /\ dir_block blk es /\
    w_fdata w' !! (ip, lbn) = Some blk /\
    forall l, l <> lbn -> w_fdata w' !! (ip, l) = w_fdata w !! (ip, l).

Definition marked (w w' : world) (dp : inode) : Prop :=
  w_inodes w' = <[ip := or_flag (Z.lor IN_CHANGE IN_UPDATE) dp]> (w_inodes w).

(** Writing a changed block back. *)
Lemma write_back_wp w lbn blk0 blk es dp fb delay :
  w_fbufs w = <[(ip, lbn) := blk0]> fb -> fb !! (ip, lbn) = None -> w_inodes w !! ip = Some dp ->
  zlen blk = m_bsize fs -> dir_block blk es ->
  wp (write_back ip (FileBuf ip lbn) blk delay) (fun e w' => w_fbufs w' = fb /\ marked w w' dp /\
    (e = 0 /\ rewritten w w' lbn es \/
     w_fdata w' = w_fdata w /\ exists n b, ke_write_error n b = Some e)) w.
Proof.
  intros Hfb Hno Hdp Hlen Hes. unfold write_back.
  apply wp_bind. unfold wp at 1. cbn [ref_store]. rewrite Hfb, lookup_insert_eq.
  apply wp_bind. destruct delay.
  - apply wp_bind. unfold wp at 1. cbn. rewrite Hfb, insert_insert_eq, lookup_insert_eq. apply wp_ret.
    apply wp_bind. unfold wp at 1, upd_inode. cbn. rewrite Hdp. apply wp_ret. split; [|split].
    + cbn. rewrite ?Hfb, ?insert_insert_eq. by apply delete_insert_id.
    + done.
    + left. split; [done|]. exists blk. split; [done|]. split; [done|]. cbn. rewrite lookup_insert_eq. split; [done|].
      intros l Hl. apply lookup_insert_ne. congruence.
  - unfold wp at 1. cbn. rewrite Hfb, insert_insert_eq, lookup_insert_eq.
    destruct (ke_write_error (w_tick w) lbn) as [e|] eqn:He.
    + apply wp_bind. unfold wp at 1, upd_inode. cbn. rewrite Hdp. apply wp_ret. split; [|split; [done|]].
      * cbn. rewrite ?Hfb, ?insert_insert_eq. by apply delete_insert_id.
      * right. split; [done|]. eauto.
    + apply wp_bind. unfold wp at 1, upd_inode. cbn. rewrite Hdp. apply wp_ret. split; [|split; [done|]].
      * cbn. rewrite ?Hfb, ?insert_insert_eq. by apply delete_insert_id.
      * left. split; [done|]. exists blk. split; [done|]. split; [done|]. cbn. rewrite lookup_insert_eq. split; [done|].
        intros l Hl. apply lookup_insert_ne. congruence.
Qed.

(** What an operation that changes block [lbn] may do: it succeeds, and the
    block's new entries satisfy [R], or a read or the write fails and the
    directory is as it was. *)
Definition changed_or_failed (w w' : world) (dp : inode) (e lbn : Z) (R : list dent -> Prop) : Prop :=
  w_fbufs w' = w_fbufs w /\
  (e = 0 /\ marked w w' dp /\ (exists es, R es /\ rewritten w w' lbn es) \/
   (marked w w' dp \/ w_inodes w' = w_inodes w) /\
   (forall l, w_fdata w' !! (ip, l) = w_fdata w !! (ip, l)) /\
   exists n b, ke_write_error n b = Some e \/ ke_read_error n b = Some e).

(** One block read, changed and written back. *)
Lemma change_block_wp w dp (f : list Z -> Z -> res (list Z)) delay lbn k (R : list dent -> Prop) :
  dir_data fs ip nblk D w -> no_bufs ip (w_fbufs w) -> w_inodes w !! ip = Some dp ->
  0 <= lbn < nblk -> 0 <= k < m_bsize fs ->
  (forall blk, zlen blk = m_bsize fs -> dir_block blk (D lbn) ->
     exists blk' es, f blk k = Ok blk' /\ zlen blk' = m_bsize fs /\ dir_block blk' es /\ R es) ->
  wp (dir_update fs ip f delay (lbn * m_bsize fs + k)) (fun e w' => changed_or_failed w w' dp e lbn R) w.
Proof.
  intros Hd Hno Hdp Hl Hk Hf. unfold dir_update. apply wp_bind. eapply wp_mono; [by eapply blkatoff_wp|].
  intros r w1 [[Hin Hfd] Hr]. destruct r as [[bp off]|e].
  - destruct Hr as (-> & -> & blk & Hfb & Hlen & Hes). destruct (Hf blk Hlen Hes) as (blk' & es & Hblk & Hlen' & Hes' & HR).
    apply wp_bind. unfold wp at 1. cbn [ref_dataptr]. rewrite Hfb, lookup_insert_eq.
    apply wp_bind. eapply wp_lift; [exact Hblk|].
    eapply wp_mono; [eapply write_back_wp; try done; by rewrite Hin|].
    intros e w2 (Hb2 & Hm2 & Hres). assert (marked w w2 dp) as Hm by (unfold marked in *; by rewrite <- Hin).
    split; [done|]. destruct Hres as [[-> (b2 & Hbl & Hbe & Hb & Hbo)]|[Hsame Hex]].
    + left. split; [done|]. split; [done|]. exists es. split; [done|]. exists b2. do 3 (split; [done|]).
      intros l Hne. rewrite Hbo by done. apply Hfd.
    + right. split; [by left|]. split; [intros l; rewrite Hsame; apply Hfd|]. destruct Hex as (n & b & Hex). eauto.
  - apply wp_ret. destruct Hr as (Hb & _ & n & b & Hex). split; [done|]. right.
    split; [by right|]. split; [done|]. eauto.
Qed.

(** The entry that the search found, by the offsets it leaves in the inode. *)
Definition remove_at (dp : inode) (lbn : Z) (pre : list dent) (x : dent) (post : list dent) : Prop :=
  0 <= lbn < nblk /\ D lbn = pre ++ x :: post /\ i_offset dp = lbn * m_bsize fs + total pre /\
  match pre with
  | [] => i_count dp = 0
  | _ => exists p y, pre = p ++ [y] /\ i_count dp = de_reclen y
  end.

Lemma place_in_block w lbn pre x post :
  dir_data fs ip nblk D w -> 0 <= lbn < nblk -> D lbn = pre ++ x :: post -> 0 <= total pre < m_bsize fs.
Proof.
  intros Hd Hl HD. destruct (block_entries fs ip nblk D w lbn Hd Hl) as [Hok Ht]. rewrite HD in Hok, Ht.
  apply Forall_app in Hok as [Hokp Hokr]. apply Forall_cons_1 in Hokr as [Hx Hokr].
  rewrite total_app, total_cons in Ht. pose proof (total_nonneg _ Hokp). pose proof (total_nonneg _ Hokr).
  pose proof (dent_ok_size x Hx). lia.
Qed.

Lemma dirremove_wp w dp lbn pre x post :
  dir_data fs ip nblk D w -> no_bufs ip (w_fbufs w) -> w_inodes w !! ip = Some dp ->
  remove_at dp lbn pre x post ->
  wp (ext2_dirremove fs async ip) (fun e w' =>
    changed_or_failed w w' dp e lbn (fun es => in_use es = in_use pre ++ in_use post)) w.
Proof.
  intros Hd Hno Hdp (Hl & HD & Hoff & Hcount). pose proof (place_in_block w lbn pre x post Hd Hl HD) as Hk.
  unfold ext2_dirremove. apply wp_bind. unfold wp at 1, VTOI. rewrite Hdp. destruct Hgeo as [_ _ _ _ Hbs].
  destruct pre as [|y0 pre0].
  - rewrite Hcount. cbn [Z.eqb]. rewrite Hoff. change (total []) with 0.
    apply change_block_wp; try done. intros blk Hlen Hes. rewrite HD in Hes.
    destruct (dirremove_first_block blk x post Hes) as (blk' & e' & H1 & H2 & H3 & _ & H5).
    exists blk', (e' :: post). split; [done|]. split; [by rewrite H2|]. done.
  - destruct Hcount as (p & y & Hp & Hc). rewrite Hp in *. rewrite <- app_assoc in HD. cbn [app] in HD.
    destruct (block_entries fs ip nblk D w lbn Hd Hl) as [Hok _]. rewrite HD in Hok. apply Forall_app in Hok as [Hokp Hok].
    apply Forall_cons_1 in Hok as [Hy _]. pose proof (dent_ok_size y Hy). pose proof (total_nonneg _ Hokp).
    rewrite Hc, (proj2 (Z.eqb_neq (de_reclen y) 0)) by lia.
    rewrite total_app, total_cons in Hoff, Hk. change (total []) with 0 in *.
    replace (i_offset dp - de_reclen y) with (lbn * m_bsize fs + total p) by lia.
    apply change_block_wp; try done; [lia|]. intros blk Hlen Hes. rewrite HD in Hes.
    destruct (dirremove_merge_block blk p y x post Hes) as (blk' & e' & G1 & G2 & G3 & G4); [lia|].
    exists blk', (p ++ e' :: post). split; [done|]. split; [by rewrite G2|]. done.
Qed.

(** C30: [ext2_dirremove] takes exactly the entry the search found out of use: the
    block stays a list of entries with all the others, the other blocks are
    untouched, no buffer stays held, and when the device fails the directory is
    as it was. *)
Theorem dirremove_spec w dp lbn pre x post :
  dir_data fs ip nblk D w -> no_bufs ip (w_fbufs w) -> w_inodes w !! ip = Some dp ->
  remove_at dp lbn pre x post ->
  wp (ext2_dirremove fs async ip) (fun e w' =>
    changed_or_failed w w' dp e lbn (fun es => in_use es = in_use pre ++ in_use post)) w.
Proof. apply dirremove_wp. Qed.

(** The room for the new name in block [lbn], as the search leaves it in the
    inode of the directory. *)
Record room_at (dp : inode) (name : list Z) (lbn : Z) (pre mid post : list dent) : Prop := mk_room_at {
  ra_lbn : 0 <= lbn < nblk;
  ra_block : D lbn = pre ++ mid ++ post;
  ra_mid : mid <> [];
  ra_offset : i_offset dp = lbn * m_bsize fs + total pre;
  ra_count : i_count dp = total mid;
  ra_room : EXT2_DIR_REC_LEN (zlen name) <= free_in mid
}.

(** The directory is longer than its last block in use. *)
Definition long_tail (dp : inode) : bool := negb (i_endoff dp =? 0) && (u64 (i_endoff dp) <? i_size dp).

(** The block of the room goes first; a directory with a long tail is cut when
    that was written. *)
Lemma direnter_run w dp ino mode name lbn pre mid post :
  dir_data fs ip nblk D w -> no_bufs ip (w_fbufs w) -> w_inodes w !! ip = Some dp -> room_at dp name lbn pre mid post ->
  u32_ok ino -> ino <> 0 -> zlen name < 2 ^ 8 ->
  exists e w2, changed_or_failed w w2 dp e lbn (fun es =>
      in_use es = in_use pre ++ in_use mid ++ [(ino, new_type fs mode, name)] ++ in_use post) /\
    ext2_direnter fs async f_bsize stale vn_write ext2_truncate ino mode ip name w =
      (if (e =? 0) && long_tail dp then ext2_truncate ip (i_endoff dp) else mret e) w2.
Proof.
  intros Hd Hno Hdp [Hl HD Hne Hoff Hcount Hroom] Hino Hino0 Hname. pose proof Hgeo as [_ _ _ _ Hbs].
  destruct (block_entries fs ip nblk D w lbn Hd Hl) as [Hok Ht]. rewrite HD in Hok, Ht.
  apply Forall_app in Hok as [Hokp Hok]. apply Forall_app in Hok as [Hokm Hoko].
  rewrite !total_app in Ht. pose proof (total_nonneg _ Hokp). pose proof (total_nonneg _ Hoko).
  assert (0 < total mid) as Hmid.
  { destruct mid as [|m mid]; [done|]. apply Forall_cons_1 in Hokm as [Hm Hokm]. rewrite total_cons.
    pose proof (dent_ok_size m Hm). pose proof (total_nonneg _ Hokm). lia. }
  pose proof Hd as [_ _ (dp' & Hdp' & Hsize & _) _]. rewrite Hdp in Hdp'. injection Hdp' as <-.
  unfold ext2_direnter. cbv zeta. rewrite (bind_run _ _ w dp w) by (unfold VTOI; by rewrite Hdp).
  rewrite Hcount, (proj2 (Z.eqb_neq (total mid) 0)) by lia.
  destruct (Z.gtb_spec (i_offset dp + total mid) (i_size dp)) as [Hgt|_]; [rewrite Hoff, Hsize in Hgt; nia|].
  rewrite (bind_run _ _ w tt w) by done. rewrite Hoff.
  destruct (wp_run _ _ _ (blkatoff_wp fs Hgeo ip nblk D Henv w lbn (total pre) Hd Hno Hl ltac:(lia))) as (r & w1 & Hrun & [Hin Hfd] & Hr).
  rewrite (bind_run _ _ _ _ _ Hrun). destruct r as [[bp off]|e].
  2:{ destruct Hr as (Hb & He0 & n & b & Hex). exists e, w1. split.
      - split; [done|]. right. split; [by right|]. split; [done|]. eauto.
      - by rewrite (proj2 (Z.eqb_neq e 0)) by done. }
  destruct Hr as (-> & -> & blk & Hfb & Hlen & Hes). rewrite HD in Hes.
  destruct (direnter_block_ok blk pre mid post ino (new_type fs mode) name stale Hes Hne ltac:(lia) Hstale Hino Hino0
    (new_type_u8 fs mode) Hname Hroom) as (blk' & mid' & Hblk & Hlen' & Hes' & _ & Huse).
  rewrite (bind_run _ _ w1 blk w1) by (cbn [ref_dataptr]; by rewrite Hfb, lookup_insert_eq).
  rewrite Hblk. rewrite (bind_run _ _ w1 blk' w1) by done.
  destruct (wp_run _ _ _ (write_back_wp w1 lbn blk blk' _ dp (w_fbufs w) async Hfb (Hno lbn)
    ltac:(by rewrite Hin) ltac:(lia) Hes')) as (e & w2 & Hrun2 & Hb2 & Hm2 & Hres).
  rewrite (bind_run _ _ _ _ _ Hrun2). assert (marked w w2 dp) as Hm by (unfold marked in *; by rewrite <- Hin).
  rewrite (bind_run _ _ w2 (or_flag (Z.lor IN_CHANGE IN_UPDATE) dp) w2) by (unfold VTOI; unfold marked in Hm; by rewrite Hm, lookup_insert_eq).
  exists e, w2. split.
  - split; [done|]. destruct Hres as [[-> (b2 & Hbl & Hbe & Hb & Hbo)]|[Hsame Hex]].
    + left. split; [done|]. split; [done|]. exists (pre ++ mid' ++ post). split; [done|]. exists b2. do 3 (split; [done|]).
      intros l Hne'. rewrite Hbo by done. apply Hfd.
    + right. split; [by left|]. split; [intros l; rewrite Hsame; apply Hfd|]. destruct Hex as (n & b & Hex). eauto.
  - unfold long_tail. by rewrite andb_assoc.
Qed.

Lemma direnter_wp w dp ino mode name lbn pre mid post :
  dir_data fs ip nblk D w -> no_bufs ip (w_fbufs w) -> w_inodes w !! ip = Some dp ->
  0 <= lbn < nblk -> D lbn = pre ++ mid ++ post -> mid <> [] ->
  i_offset dp = lbn * m_bsize fs + total pre -> i_count dp = total mid ->
  EXT2_DIR_REC_LEN (zlen name) <= free_in mid ->
  (i_endoff dp = 0 \/ i_size dp <= u64 (i_endoff dp)) ->
  u32_ok ino -> ino <> 0 -> zlen name < 2 ^ 8 ->
  wp (ext2_direnter fs async f_bsize stale vn_write ext2_truncate ino mode ip name) (fun e w' =>
    changed_or_failed w w' dp e lbn (fun es =>
      in_use es = in_use pre ++ in_use mid ++ [(ino, new_type fs mode, name)] ++ in_use post)) w.
Proof.
  intros Hd Hno Hdp Hl HD Hne Hoff Hcount Hroom Hend Hino Hino0 Hname.
  destruct (direnter_run w dp ino mode name lbn pre mid post) as (e & w2 & Hres & Hrun); try done.
  assert (long_tail dp = false) as Htail.
  { unfold long_tail. destruct Hend as [->|Hend]; [done|]. rewrite (proj2 (Z.ltb_ge _ _)) by lia. apply andb_false_r. }
  unfold wp. by rewrite Hrun, Htail, andb_false_r.
Qed.

(** Where the search found no room, a new block is written at the offset it
    left, and the size is rounded up to it. *)
Definition append_entry (ino mode : Z) (name : list Z) (offset : Z) : M world Z :=
  error ← vn_write ip (newdir_bytes ino (u16 (m_bsize fs)) (new_type fs mode) name stale) offset;
  if error =? 0 then upd_inode ip (fun dp => or_flag IN_CHANGE (upd_i_size (fun sz => roundup2 sz (m_bsize fs)) dp));; mret 0
  else mret error.

Lemma direnter_append_run w dp ino mode name :
  w_inodes w !! ip = Some dp -> i_count dp = 0 -> Z.land (i_offset dp) (m_bsize fs - 1) = 0 -> m_bsize fs <= f_bsize ->
  ext2_direnter fs async f_bsize stale vn_write ext2_truncate ino mode ip name w = append_entry ino mode name (i_offset dp) w.
Proof.
  intros Hdp Hc Ho Hf. unfold ext2_direnter. cbv zeta. rewrite (bind_run _ _ w dp w) by (unfold VTOI; by rewrite Hdp).
  rewrite Hc, Ho. cbn [Z.eqb negb]. rewrite Z.gtb_ltb, (proj2 (Z.ltb_ge _ _)) by lia. done.
Qed.

(** C29: [ext2_direnter], given the room the search left in the inode, enters the
    new name: it does not panic, the block the room is in keeps every entry in
    use and gets the new one, the other blocks are untouched, no buffer stays
    held, and when the device fails the directory is as it was. *)
Theorem direnter_spec w dp ino mode name lbn pre mid post :
  dir_data fs ip nblk D w -> no_bufs ip (w_fbufs w) -> w_inodes w !! ip = Some dp ->
  0 <= lbn < nblk -> D lbn = pre ++ mid ++ post -> mid <> [] ->
  i_offset dp = lbn * m_bsize fs + total pre -> i_count dp = total mid ->
  EXT2_DIR_REC_LEN (zlen name) <= free_in mid ->
  (i_endoff dp = 0 \/ i_size dp <= u64 (i_endoff dp)) ->
  u32_ok ino -> ino <> 0 -> zlen name < 2 ^ 8 ->
  wp (ext2_direnter fs async f_bsize stale vn_write ext2_truncate ino mode ip name) (fun e w' =>
    changed_or_failed w w' dp e lbn (fun es =>
      in_use es = in_use pre ++ in_use mid ++ [(ino, new_type fs mode, name)] ++ in_use post)) w.
Proof. apply direnter_wp. Qed.
End ops.
