(* ===== verification/ReadWrite.v ===== *)
(** Reading and writing files, ext2_readwrite.c: the buffer-cache paths for
    directories and symbolic links, and what the file system does around the
    cluster layer for regular files. *)
From stdpp Require Import gmap.
From S2P Require Import Prelude Bitmap Bytes Super Kernel InodeCnv Cluster Alloc Extents Bmap Dir Balloc.

(** A struct uio of one segment: where in the file, how much is left, and the
    bytes moved so far (of a read) or left to move (of a write). *)
Record buio : Type := mk_buio { u_offset : Z; u_resid : Z; u_data : list Z }.

Definition IO_APPEND : Z := 0x2.

Section rw.
Context `{KernelEnv} (fs : m_ext2fs) (MAXPHYS cr_uid nocred_uid : Z).

(** The types of vnodes; whether the caller of a read or write is a user
    process; [uiomove] at a file offset: an errno; the cluster layer and the page
    cache; [ext2_update] of ext2_inode.c. *)
Context (vnode_isdir vnode_isreg : Z -> bool) (uio_isuserspace : bool) (uiomove_error : Z -> Z).
Context (cluster_read : Z -> buio -> Z -> Z -> M world (Z * buio)).
Context (cluster_write : Z -> buio -> Z -> Z -> Z -> Z -> Z -> M world Z).
Context (ubc_setsize : Z -> Z -> M world unit) (ext2_update : Z -> bool -> M world Z).

Abbreviation K := (M world).

(** [uiomove] out of and into the kernel; a failing one moves nothing. *)
Definition uiomove_out (bytes : list Z) (u : buio) : Z * buio :=
  let e := uiomove_error (u_offset u) in
  (e, if e =? 0 then mk_buio (u_offset u + zlen bytes) (u_resid u - zlen bytes) (u_data u ++ bytes) else u).
Definition uiomove_in (n : Z) (u : buio) : Z * list Z * buio :=
  let e := uiomove_error (u_offset u) in
  (e, take (Z.to_nat n) (u_data u),
   if e =? 0 then mk_buio (u_offset u + n) (u_resid u - n) (drop (Z.to_nat n) (u_data u)) else u).

(** How much of a block one round of [ext2_meta_read] moves. *)
Definition read_chunk (i_size off blkoffset buf_count resid : Z) : Z :=
  let bytes := buf_count - blkoffset in
  let bytes := if bytes >? resid then resid else bytes in
  if off + bytes >? i_size then i_size - off else bytes.

Fixpoint ext2_meta_read (fuel : nat) (ip : Z) (u : buio) : K (Z * buio) :=
  if u_resid u >? 0 then
    match fuel with
    | O => halt NoFuel
    | S fuel' =>
        let off := u_offset u in
        i ← VTOI ip;
        if off >=? i_size i then mret (0, u)
        else
          b ← ext2_blkatoff fs ip off;
          match b with
          | inr error => mret (error, u)
          | inl (bp, _) =>
              d ← ref_dataptr bp;
              let blkoffset := blkoff fs off in
              let bytes := read_chunk (i_size i) off blkoffset (zlen d) (u_resid u) in
              if bytes <=? 0 then (ref_brelse bp;; mret (0, u))
              else
                data ← lift (get_bytes d blkoffset (Z.to_nat bytes));
                let '(error, u) := uiomove_out data u in
                ref_brelse bp;;
                if negb (error =? 0) then mret (error, u) else ext2_meta_read fuel' ip u
          end
    end
  else mret (0, u).

(** The loop of [ext2_meta_write]; the flags of the inode are set by the caller. *)
Fixpoint meta_write_loop (fuel : nat) (ip ioflag : Z) (u : buio) : K (Z * buio) :=
  if u_resid u >? 0 then
    match fuel with
    | O => halt NoFuel
    | S fuel' =>
        let off := u_offset u in
        let lbn := lblkno fs off in
        let blkoffset := blkoff fs off in
        let xfersize := m_bsize fs - blkoffset in
        let xfersize := if xfersize >? u_resid u then u_resid u else xfersize in
        let flags := if (xfersize =? m_bsize fs) && (blkoffset =? 0) then 0 else BA_CLRBUF in
        r ← ext2_balloc fs MAXPHYS nocred_uid nocred_uid ip lbn (m_bsize fs) flags;
        let '(error, bpp) := r in
        if negb (error =? 0) then mret (error, u)
        else
          bp ← deref bpp;
          d ← ref_dataptr bp;
          let '(error, data, u) := uiomove_in xfersize u in
          if negb (error =? 0) then (ref_brelse bp;; mret (error, u))
          else
            d ← lift (put_bytes d blkoffset data);
            ref_store bp d;;
            let bytes := off + xfersize in
            i ← VTOI ip;
            (if bytes >? i_size i then upd_inode ip (upd_i_size (fun _ => bytes)) else mret tt);;
            error ← (if has_feature ioflag IO_SYNC then ref_bwrite bp else (ref_bdwrite bp;; mret 0));
            if negb (error =? 0) then mret (error, u) else meta_write_loop fuel' ip ioflag u
    end
  else mret (0, u).

Definition ext2_meta_write (ip ioflag : Z) (u : buio) : K (Z * buio) :=
  r ← meta_write_loop (S (Z.to_nat (u_resid u))) ip ioflag u;
  upd_inode ip (or_flag (Z.lor IN_CHANGE IN_UPDATE));;
  mret r.

Definition ext2_read (ip ioflag : Z) (u : buio) : K (Z * buio) :=
  if vnode_isdir ip && uio_isuserspace then mret (EISDIR, u)
  else if u_offset u <? 0 then mret (EINVAL, u)
  else if negb (vnode_isreg ip) then ext2_meta_read (S (Z.to_nat (u_resid u))) ip u
  else if u_resid u =? 0 then mret (0, u)
  else
    i ← VTOI ip;
    r ← cluster_read ip u (i_size i) ioflag;
    let '(error, u) := r in
    (if error =? 0 then upd_inode ip (or_flag IN_ACCESS) else mret tt);;
    mret (error, u).

(** The loop of [ext2_extend_alloc], over [n] blocks from [lbn]. *)
Fixpoint extend_loop (n : nat) (ip lbn : Z) : K Z :=
  match n with
  | O => mret 0
  | S n' =>
      r ← ext2_balloc fs MAXPHYS cr_uid nocred_uid ip lbn (m_fsize fs) 0;
      let '(error, bp) := r in
      if negb (error =? 0) then mret error
      else (release_opt bp;; extend_loop n' ip (lbn + 1))
  end.

Definition ext2_extend_alloc (ip offset len : Z) : K Z :=
  if len <=? 0 then mret 0
  else
    let lbn := lblkno fs offset in
    let endlbn := lblkno fs (offset + len - 1) in
    extend_loop (Z.to_nat (endlbn - lbn + 1)) ip lbn.

Definition ext2_write (ip ioflag : Z) (u : buio) : K Z :=
  if vnode_isdir ip && uio_isuserspace then mret EISDIR
  else if negb (vnode_isreg ip) then
    if u_offset u <? 0 then mret EINVAL
    else (r ← ext2_meta_write ip ioflag u; mret (fst r))
  else
    i ← VTOI ip;
    let u := if has_feature ioflag IO_APPEND then mk_buio (i_size i) (u_resid u) (u_data u) else u in
    let offset := u_offset u in
    let resid := u_resid u in
    if offset <? 0 then mret EINVAL
    else if resid =? 0 then mret 0
    else if s64 (offset + resid) >? m_maxfilesize fs then mret EFBIG
    else
      let oldEOF := i_size i in
      let newEOF := Z.max oldEOF (offset + resid) in
      error ← ext2_extend_alloc ip offset resid;
      if negb (error =? 0) then mret error
      else
        (if newEOF >? oldEOF then upd_inode ip (upd_i_size (fun _ => newEOF));; ubc_setsize ip newEOF else mret tt);;
        let headOff := Z.ldiff offset (m_qbmask fs) in
        let tailOff := roundup2 (offset + resid) (m_bsize fs) in
        error ← cluster_write ip u oldEOF newEOF headOff tailOff ioflag;
        if negb (error =? 0) then
          (if newEOF >? oldEOF then upd_inode ip (upd_i_size (fun _ => oldEOF));; ubc_setsize ip oldEOF else mret tt);;
          mret error
        else
          upd_inode ip (or_flag (Z.lor IN_CHANGE IN_UPDATE));;
          if has_feature ioflag IO_SYNC then ext2_update ip true else mret 0.

(** What the pager's entries ask of the cluster layer. *)
Context (cluster_pagein cluster_pageout : Z -> Z -> M world Z).

Definition ext2_pagein (ip : Z) : K Z := i ← VTOI ip; cluster_pagein ip (i_size i).
Definition ext2_pageout (rdonly : bool) (ip : Z) : K Z :=
  if rdonly then mret EROFS else (i ← VTOI ip; cluster_pageout ip (i_size i)).

End rw.
