(* ===== verification/MetaRead.v ===== *)
(** Reading a file through the buffer cache gives its bytes, and with that
    [ext2_dirempty] decides whether a directory has other entries than [.] and
    [..]. *)
From stdpp Require Import gmap.
From S2P Require Import Prelude Bitmap Bytes Super Kernel InodeCnv Cluster Alloc Extents Bmap Dir DirSpec DirSearch Balloc ReadWrite.

Lemma zlookup_app_l {A} (l1 l2 : list A) k : k < zlen l1 -> (l1 ++ l2) !z k = l1 !z k.
Proof.
  unfold zlookup, zlen. intros Hk. case_match eqn:E; [done|]. apply Z.ltb_ge in E. apply lookup_app_l. lia.
Qed.

Lemma zlookup_app_r {A} (l1 l2 : list A) k : zlen l1 <= k -> (l1 ++ l2) !z k = l2 !z (k - zlen l1).
Proof.
  unfold zlookup, zlen. intros Hk. rewrite !(proj2 (Z.ltb_ge _ _)) by lia. rewrite lookup_app_r by lia. f_equal. lia.
Qed.

Lemma zlookup_sub {A} (l : list A) o n k : 0 <= o -> 0 <= k < n -> take (Z.to_nat n) (drop (Z.to_nat o) l) !z k = l !z (o + k).
Proof.
  intros Ho Hk. rewrite !zlookup_nonneg by lia. rewrite lookup_take_lt, lookup_drop by lia. f_equal. lia.
Qed.

Section read.
Context `{KernelEnv} (fs : m_ext2fs) (Hgeo : dir_geometry fs) (ip : Z) (Henv : dir_env ip).
Context (uiomove_error : Z -> Z).

(** Byte [x] of the file. *)
Definition file_byte (w : world) (x : Z) : option Z :=
  match w_fdata w !! (ip, x / m_bsize fs) with Some blk => blk !z (x mod m_bsize fs) | None => None end.

(** A file without extents whose blocks up to its size can be read. *)
Record readable (w : world) (dp : inode) : Prop := mk_readable {
  rd_inode : w_inodes w !! ip = Some dp;
  rd_flag : has_feature (i_flag dp) IN_E4EXTENTS = false;
  rd_blocks : forall lbn, 0 <= lbn -> lbn * m_bsize fs < i_size dp -> exists blk, w_fdata w !! (ip, lbn) = Some blk /\ zlen blk = m_bsize fs
}.

Lemma readable_same w w' dp : dir_same ip w w' -> readable w dp -> readable w' dp.
Proof. intros [Hi Hd] []. constructor; [by rewrite Hi|done|]. intros l Hl Hs. rewrite Hd. by apply rd_blocks0. Qed.

Lemma file_byte_same w w' x : dir_same ip w w' -> file_byte w' x = file_byte w x.
Proof. intros [_ Hd]. unfold file_byte. by rewrite Hd. Qed.

(** What a failure of a read may be. *)
Definition io_error (e : Z) : Prop := (exists n b, ke_read_error n b = Some e) \/ exists o, uiomove_error o = e.

(** [u'] is [u] with the bytes of the file from its offset on, as many as were
    asked for and are there when the read succeeds. *)
Definition read_post (w : world) (dp : inode) (u : buio) (r : Z * buio) (w' : world) : Prop :=
  dir_same ip w w' /\ w_fbufs w' = w_fbufs w /\ exists bytes,
    snd r = mk_buio (u_offset u + zlen bytes) (u_resid u - zlen bytes) (u_data u ++ bytes) /\
    (forall k, 0 <= k < zlen bytes -> file_byte w (u_offset u + k) = bytes !z k) /\
    (fst r = 0 -> zlen bytes = Z.max 0 (Z.min (u_resid u) (i_size dp - u_offset u))) /\
    (fst r <> 0 -> io_error (fst r)).

Lemma read_stop w dp u e :
  (e = 0 -> u_resid u <= 0 \/ i_size dp <= u_offset u) -> (e <> 0 -> io_error e) -> read_post w dp u (e, u) w.
Proof.
  intros Hz He. split; [done|]. split; [done|]. exists []. split.
  { rewrite app_nil_r. change (zlen []) with 0. rewrite Z.add_0_r, Z.sub_0_r. by destruct u. }
  split; [intros k Hk; change (zlen []) with 0 in Hk; lia|]. split; [|done]. cbn. intros ->. change (zlen []) with 0.
  destruct (Hz eq_refl); lia.
Qed.

Lemma meta_read_wp dp fuel : forall w u,
  readable w dp -> no_bufs ip (w_fbufs w) -> 0 <= u_offset u -> u_resid u <= Z.of_nat fuel ->
  wp (ext2_meta_read fs uiomove_error fuel ip u) (read_post w dp u) w.
Proof.
  pose proof Hgeo as [_ _ Hqb _ Hbs]. induction fuel as [|fuel IH]; intros w u Hrd Hno Hoff Hfuel;
    cbn [ext2_meta_read]; destruct (Z.gtb_spec (u_resid u) 0) as [Hpos|Hpos]; try lia.
  1, 3: by apply wp_ret, read_stop; [by left|].
  pose proof Hrd as [Hdp Hflag Hblocks].
  apply wp_bind. unfold wp at 1, VTOI. rewrite Hdp. destruct (Z.geb_spec (u_offset u) (i_size dp)) as [Hend|Hin].
  { apply wp_ret, read_stop; [by right|done]. }
  set (lbn := u_offset u / m_bsize fs). set (k := u_offset u mod m_bsize fs).
  assert (u_offset u = lbn * m_bsize fs + k) as Hdec by (unfold lbn, k; rewrite Z.mul_comm; apply Z.div_mod; lia).
  assert (0 <= k < m_bsize fs) as Hk by (apply Z.mod_pos_bound; lia).
  assert (0 <= lbn) as Hl0 by (apply Z.div_pos; lia).
  destruct (Hblocks lbn Hl0 ltac:(lia)) as (blk & Hblk & Hlen).
  apply wp_bind. rewrite Hdec. eapply wp_mono; [by eapply (blkatoff_block_wp fs Hgeo ip Henv w lbn k dp blk)|].
  rewrite <- Hdec. intros r w1 [Hs1 Hr]. destruct r as [[bp off]|e].
  2:{ destruct Hr as (Hfb & He0 & Herr). apply wp_ret. split; [done|]. split; [done|].
      destruct (read_stop w dp u e) as (_ & _ & Hb); [done|intros _; by left|done]. }
  destruct Hr as (-> & -> & Hfb1). cbn zeta.
  apply wp_bind. unfold wp at 1. cbn [ref_dataptr]. rewrite Hfb1, lookup_insert_eq.
  assert (blkoff fs (u_offset u) = k) as -> by (unfold blkoff; rewrite Hqb; by apply land_mask).
  rewrite Hlen. set (n := read_chunk _ _ _ _ _).
  assert (0 < n /\ n <= m_bsize fs - k /\ n <= u_resid u /\ n <= i_size dp - u_offset u /\
    (n = m_bsize fs - k \/ n = u_resid u \/ n = i_size dp - u_offset u)) as (Hn0 & Hn1 & Hn2 & Hn3 & Hn4).
  { subst n. unfold read_chunk. cbv zeta. destruct (Z.gtb_spec (m_bsize fs - k) (u_resid u)) as [Hgt|Hgt];
      [destruct (Z.gtb_spec (u_offset u + u_resid u) (i_size dp))|destruct (Z.gtb_spec (u_offset u + (m_bsize fs - k)) (i_size dp))]; lia. }
  destruct (Z.leb_spec n 0); [lia|]. apply wp_bind. eapply wp_lift; [apply get_bytes_ok; lia|].
  set (chunk := take (Z.to_nat n) (drop (Z.to_nat k) blk)).
  assert (zlen chunk = n) as Hcl.
  { subst chunk. unfold zlen in *. rewrite length_take, length_drop. lia. }
  assert (forall j, 0 <= j < n -> file_byte w (u_offset u + j) = chunk !z j) as Hbytes.
  { intros j Hj. subst chunk. rewrite zlookup_sub by lia. unfold file_byte.
    replace (u_offset u + j) with (lbn * m_bsize fs + (k + j)) by lia.
    rewrite Z.div_add_l, (Z.div_small (k + j)) by lia. rewrite Z.add_0_r, Hblk. by rewrite mod_block by (done || lia). }
  unfold uiomove_out. cbv zeta. cbn [fst snd].
  assert (forall Q : unit -> world -> Prop, Q tt (upd_w_fbufs (delete (ip, lbn)) w1) -> wp (ref_brelse (FileBuf ip lbn)) Q w1) as Hrel.
  { intros Q HQ. unfold wp. cbn [ref_brelse]. by rewrite Hfb1, lookup_insert_eq. }
  set (w2 := upd_w_fbufs (delete (ip, lbn)) w1).
  assert (dir_same ip w w2) as Hs2 by (destruct Hs1; by constructor).
  assert (w_fbufs w2 = w_fbufs w) as Hfb2 by (cbn; rewrite Hfb1; by apply delete_insert_id).
  apply wp_bind, Hrel. fold w2. destruct (Z.eqb_spec (uiomove_error (u_offset u)) 0) as [He0|He0]; cbn [negb].
  - rewrite Hcl. eapply wp_mono; [apply (IH w2)|].
    + by eapply readable_same.
    + intros l. by rewrite Hfb2.
    + cbn. lia.
    + cbn. lia.
    + intros [e u'] w3 (Hs3 & Hfb3 & bytes & Hu' & Hb & Hfull & Herr). cbn [u_offset u_resid u_data fst snd] in *.
      split; [by etransitivity|]. split; [congruence|]. exists (chunk ++ bytes). rewrite zlen_app, Hcl. split; [|split; [|split]].
      * cbn [snd]. rewrite Hu'. rewrite <- app_assoc. f_equal; lia.
      * intros j Hj. destruct (decide (j < n)) as [Hlt|Hge].
        -- rewrite zlookup_app_l by lia. apply Hbytes. lia.
        -- rewrite zlookup_app_r by lia. rewrite Hcl, <- (Hb (j - n)) by lia.
           rewrite (file_byte_same w w2) by done. f_equal. lia.
      * cbn [fst]. intros He. rewrite (Hfull He). lia.
      * done.
  - apply wp_ret. split; [done|]. split; [done|].
    destruct (read_stop w dp u (uiomove_error (u_offset u))) as (_ & _ & Hb); [done|intros _; right; eauto|done].
Qed.

(** Reading a file without extents through the buffer cache returns, changes
    nothing and moves the bytes of the file from the offset on, exactly as many
    as were asked for and lie before the end of the file, or fewer when a read
    or a copy fails, whose errno it returns. *)
Theorem meta_read_spec dp w u :
  readable w dp -> no_bufs ip (w_fbufs w) -> 0 <= u_offset u ->
  wp (ext2_meta_read fs uiomove_error (S (Z.to_nat (u_resid u))) ip u) (read_post w dp u) w.
Proof. intros Hrd Hno Hoff. apply meta_read_wp; [done|done|done|lia]. Qed.

(** * vn_rdwr on a directory *)

(** [vn_rdwr(UIO_READ, ...)] of [n] bytes at [off] on a directory's vnode comes
    to [ext2_meta_read]: the bytes read, or an errno. *)
Definition vn_read (p n off : Z) : M world (list Z + Z) :=
  r ← ext2_meta_read fs uiomove_error (S (Z.to_nat n)) p (mk_buio off n []);
  mret (if fst r =? 0 then inl (u_data (snd r)) else inr (fst r)).

(** * ext2_dirempty *)

Context (nblk : Z) (D : Z -> list dent) (parentino : Z).

Definition dot_entry (e : dent) : Prop :=
  de_name e = [dot] \/ (de_name e = [dot; dot] /\ de_ino e = parentino).

Definition harmless (e : dent) : Prop := de_ino e = 0 \/ dot_entry e.

(** Entries as the kernel makes them. *)
Definition well_made (e : dent) : Prop := 12 <= de_reclen e /\ (de_ino e <> 0 -> 1 <= de_namlen e).

Lemma dir_readable w dp : dir_data fs ip nblk D w -> w_inodes w !! ip = Some dp -> readable w dp /\ i_size dp = nblk * m_bsize fs.
Proof.
  intros [Hn _ (dp' & Hdp & Hs & Hf) Hb] Hi. rewrite Hi in Hdp. injection Hdp as <-. split; [|done]. constructor; try done.
  intros l Hl Hlt. pose proof Hgeo as []. destruct (Hb l ltac:(nia)) as (blk & Hblk & Hlen & _). by exists blk.
Qed.

(** The bytes of a read of [n] bytes in block [lbn]. *)
Lemma file_bytes_block w lbn blk o n bytes :
  w_fdata w !! (ip, lbn) = Some blk -> zlen blk = m_bsize fs -> 0 <= o -> o + n <= m_bsize fs -> zlen bytes = n -> 0 <= n ->
  (forall k, 0 <= k < n -> file_byte w (lbn * m_bsize fs + o + k) = bytes !z k) -> get_bytes blk o (Z.to_nat n) = Ok bytes.
Proof.
  intros Hb Hlen Ho Hn Hbl Hn0 Hk. rewrite get_bytes_ok by lia. f_equal. apply list_eq. intros j.
  destruct (decide (Z.of_nat j < n)) as [Hj|Hj].
  - pose proof (Hk (Z.of_nat j) ltac:(lia)) as Hj'. unfold file_byte in Hj'. pose proof Hgeo as [].
    replace (lbn * m_bsize fs + o + Z.of_nat j) with (lbn * m_bsize fs + (o + Z.of_nat j)) in Hj' by lia.
    rewrite Z.div_add_l, (Z.div_small (o + Z.of_nat j)) in Hj' by lia. rewrite Z.add_0_r, Hb in Hj'.
    rewrite mod_block in Hj' by (done || lia). rewrite !zlookup_nonneg in Hj' by lia.
    rewrite lookup_take_lt, lookup_drop by lia. rewrite Nat2Z.id in Hj'. rewrite <- Hj'. f_equal. lia.
  - rewrite !lookup_ge_None_2; [done| |]; unfold zlen in *; [lia|]. rewrite length_take, length_drop. lia.
Qed.


(** The first 12 bytes of an entry: its header and the start of its name. *)
Lemma entry_head blk o e d :
  get_dent blk o = Ok e -> dent_ok e -> well_made e -> get_bytes blk o 12 = Ok d ->
  e2d_ino d 0 = Ok (de_ino e) /\ e2d_reclen d 0 = Ok (de_reclen e) /\ e2d_namlen d 0 = Ok (de_namlen e) /\
  exists nm, get_bytes d 8 4 = Ok nm /\ length nm = 4%nat /\ (de_namlen e <= 4 -> de_name e = take (Z.to_nat (de_namlen e)) nm).
Proof.
  intros He Hok [H12 _] Hd. pose proof (get_bytes_len _ _ _ _ Hd) as Hl.
  assert (same_bytes blk o d 0 12) as Hs.
  { intros k m Hkm. rewrite (get_bytes_sub _ _ _ _ k m Hd) by lia. rewrite get_bytes_ok by (unfold zlen; lia).
    f_equal. f_equal. f_equal. lia. }
  destruct (same_header _ _ _ _ _ Hs ltac:(lia)) as (E1 & E2 & E3 & _).
  destruct (get_dent_parts _ _ _ He) as (G1 & G2 & G3 & _ & G5). rewrite E1, E2, E3, G1, G2, G3.
  do 3 (split; [done|]). exists (drop 8 d). split; [|split].
  - rewrite get_bytes_ok by (unfold zlen; lia). change (Z.to_nat 8) with 8%nat. f_equal. apply take_ge. rewrite length_drop. lia.
  - rewrite length_drop. lia.
  - intros Hn. destruct Hok as [_ Hn0 _ _].
    assert (get_bytes blk (o + 8) (Z.to_nat (de_namlen e)) = Ok (take (Z.to_nat (de_namlen e)) (drop 8 d))) as Hg.
    { change 8 with (Z.of_nat 8) at 1. apply (get_bytes_sub _ _ 12); [done|lia]. }
    unfold e2d_name in G5. rewrite Hg in G5. by injection G5.
Qed.

(** The tests of the loop on an entry in use: whether it goes on. *)
Lemma dots_test e nm :
  length nm = 4%nat -> (de_namlen e <= 4 -> de_name e = take (Z.to_nat (de_namlen e)) nm) ->
  zlen (de_name e) = de_namlen e -> 1 <= de_namlen e ->
  dot_entry e <->
    de_namlen e <= 2 /\ nm !! 0%nat = Some dot /\
    (de_namlen e = 1 \/ nm !! 1%nat = Some dot /\ de_ino e = parentino).
Proof.
  intros Hl Hn Hz H1. unfold dot_entry. destruct nm as [|a [|b nm]]; try done. cbn [lookup list_lookup].
  destruct (decide (de_namlen e = 1)) as [E1|E1]; [|destruct (decide (de_namlen e = 2)) as [E2|E2]].
  - rewrite Hn, E1 by lia. change (take (Z.to_nat 1) (a :: b :: nm)) with [a]. split.
    + intros [[= ->]|[[=] _]]. split; [lia|]. split; [done|by left].
    + intros (_ & [= ->] & _). by left.
  - rewrite Hn, E2 by lia. change (take (Z.to_nat 2) (a :: b :: nm)) with [a; b]. split.
    + intros [[=]|[[= -> ->] Hp]]. split; [lia|]. split; [done|by right].
    + intros (_ & [= ->] & [|[[= ->] Hp]]); [done|]. by right.
  - split; [|lia]. intros [Hd|[Hd _]]; rewrite Hd in Hz; unfold zlen in Hz; cbn in Hz; lia.
Qed.

(** What is still to be seen from block [lbn] on. *)
Definition to_go (lbn : Z) (rest : list dent) : Prop :=
  Forall harmless rest /\ forall l, lbn < l < nblk -> Forall harmless (D l).

Definition at_entry (lbn : Z) (pre rest : list dent) : Prop :=
  0 <= lbn < nblk /\ D lbn = pre ++ rest /\ rest <> [] \/ lbn = nblk /\ pre = [] /\ rest = [].

(** Past entry [e]: the next one, or the next block. *)
Lemma next_entry w lbn pre e rest :
  dir_data fs ip nblk D w -> at_entry lbn pre (e :: rest) ->
  exists lbn' pre' rest', at_entry lbn' pre' rest' /\
    lbn' * m_bsize fs + total pre' = lbn * m_bsize fs + total pre + de_reclen e /\
    (to_go lbn (e :: rest) <-> harmless e /\ to_go lbn' rest').
Proof.
  intros Hd [(Hl & HD & _)|(_ & _ & ?)]; [|done].
  destruct (block_entries fs ip nblk D w lbn Hd Hl) as [_ Ht]. destruct rest as [|e' rest].
  - assert (lbn * m_bsize fs + total pre + de_reclen e = (lbn + 1) * m_bsize fs) as Hend.
    { rewrite HD, total_app, total_cons in Ht. change (total []) with 0 in Ht. lia. }
    destruct (decide (lbn + 1 < nblk)) as [Hlt|Hge].
    + exists (lbn + 1), [], (D (lbn + 1)). split; [|split].
      * left. split; [lia|]. split; [done|]. by apply (dir_block_ne fs Hgeo ip nblk D w (lbn + 1) Hd); lia.
      * change (total []) with 0. lia.
      * unfold to_go. rewrite Forall_cons_iff. split.
        -- intros [[He _] Hl']. split; [done|]. split; [apply Hl'; lia|]. intros l Hr. apply Hl'. lia.
        -- intros [He [Hr Hl']]. split; [split; [done|constructor]|]. intros l Hr'.
           destruct (decide (l = lbn + 1)) as [->|]; [done|apply Hl'; lia].
    + exists nblk, [], []. split; [by right|].
      split; [change (total []) with 0; assert (nblk = lbn + 1) as Hn1 by lia; rewrite Hn1; lia|].
      unfold to_go. rewrite Forall_cons_iff. split.
      * intros [[He _] _]. split; [done|]. split; [constructor|]. intros l Hr. lia.
      * intros [He _]. split; [split; [done|constructor]|]. intros l Hr. lia.
  - exists lbn, (pre ++ [e]), (e' :: rest). split; [|split].
    + left. split; [done|]. split; [by rewrite HD, <- app_assoc|done].
    + rewrite total_app, total_cons. change (total []) with 0. lia.
    + unfold to_go. rewrite Forall_cons_iff. tauto.
Qed.

Definition empty_post (w : world) (lbn : Z) (rest : list dent) (r : Z) (w' : world) : Prop :=
  dir_same ip w w' /\ w_fbufs w' = w_fbufs w /\
  (r = 1 /\ to_go lbn rest \/ r = 0 /\ (~ to_go lbn rest \/ exists e, e <> 0 /\ io_error e)).

Context (Hmade : forall l, 0 <= l < nblk -> Forall well_made (D l)).

Lemma dirempty_from fuel : forall w lbn pre rest,
  dir_data fs ip nblk D w -> no_bufs ip (w_fbufs w) -> at_entry lbn pre rest ->
  nblk * m_bsize fs - (lbn * m_bsize fs + total pre) <= Z.of_nat fuel ->
  wp (dirempty_loop vn_read ip parentino fuel (lbn * m_bsize fs + total pre)) (empty_post w lbn rest) w.
Proof.
  pose proof Hgeo as [_ _ _ _ Hbs]. induction fuel as [|fuel IH]; intros w lbn pre rest Hd Hno Hat Hfuel.
  all: pose proof Hd as [Hnb _ (dp & Hdp & _) Hblocks]; destruct (dir_readable w dp Hd Hdp) as [Hrd Hsize];
    cbn [dirempty_loop]; apply wp_bind; unfold wp at 1, VTOI; rewrite Hdp, Hsize;
    destruct Hat as [(Hl & HD & Hne)|(-> & -> & ->)].
  2, 4: change (total []) with 0; rewrite Z.add_0_r, Z.ltb_irrefl; apply wp_ret; split; [done|]; split; [done|]; left;
    split; [done|]; split; [constructor|intros l Hr; lia].
  all: destruct (block_entries fs ip nblk D w lbn Hd Hl) as [Hoks Ht]; destruct rest as [|e rest]; [done|];
    rewrite HD in Hoks, Ht; apply Forall_app in Hoks as [Hokp Hoks]; apply Forall_cons_1 in Hoks as [Hok Hoks];
    rewrite total_app, total_cons in Ht; pose proof (total_nonneg _ Hokp); pose proof (total_nonneg _ Hoks);
    pose proof (Hmade lbn Hl) as Hm; rewrite HD in Hm; apply Forall_app in Hm as [_ Hm];
    apply Forall_cons_1 in Hm as [Hm _]; pose proof Hm as [H12 Hnam].
  { nia. }
  rewrite (proj2 (Z.ltb_lt _ _)) by nia.
  destruct (Hblocks lbn Hl) as (blk & Hblk & Hlen & Hes). unfold dir_block in Hes. rewrite HD in Hes.
  apply chain_app in Hes as (mid & Hpre & Hrest). destruct (chain_total _ _ _ _ Hpre) as [-> _].
  destruct Hrest as (Hdent & _ & _). rewrite Z.add_0_l in Hdent.
  apply wp_bind. unfold vn_read. apply wp_bind. eapply wp_mono.
  { apply (meta_read_wp dp (S (Z.to_nat MINDIRSIZ)) w (mk_buio (lbn * m_bsize fs + total pre) MINDIRSIZ [])); cbn; try done; nia. }
  intros [err u'] w1 (Hs1 & Hfb1 & bytes & Hu' & Hbytes & Hfull & Herr). cbn [fst snd u_offset u_resid u_data] in *.
  rewrite Hu'. cbn [u_data app]. apply wp_ret. destruct (Z.eqb_spec err 0) as [->|He0].
  2:{ apply wp_ret. split; [done|]. split; [done|]. right. split; [done|]. right. exists err. split; [done|by apply Herr]. }
  assert (zlen bytes = 12) as Hb12 by (rewrite Hfull, Hsize by done; unfold MINDIRSIZ; nia).
  rewrite Hb12. change (negb (12 =? MINDIRSIZ)) with false.
  assert (get_bytes blk (total pre) 12 = Ok bytes) as Hgb.
  { apply (file_bytes_block w lbn blk (total pre) 12 bytes); try done; try lia. intros j Hj. apply Hbytes. lia. }
  destruct (entry_head blk (total pre) e bytes Hdent Hok Hm Hgb) as (E1 & E2 & E3 & nm & E4 & Hnl & Hnm).
  apply wp_bind. eapply wp_lift; [exact E2|]. apply wp_bind. eapply wp_lift; [exact E1|].
  apply wp_bind. eapply wp_lift; [exact E3|]. apply wp_bind. eapply wp_lift; [exact E4|].
  rewrite (proj2 (Z.eqb_neq (de_reclen e) 0)) by lia.
  destruct (next_entry w lbn pre e rest Hd) as (lbn' & pre' & rest' & Hat' & Hoff' & Hgo).
  { left. by split. }
  pose proof (dir_data_same fs ip nblk D w w1 Hs1 Hd) as Hd1.
  assert (harmless e -> wp (dirempty_loop vn_read ip parentino fuel (lbn * m_bsize fs + total pre + de_reclen e))
    (empty_post w lbn (e :: rest)) w1) as Hcont.
  { intros Hh. rewrite <- Hoff'. eapply wp_mono; [apply (IH w1 lbn' pre' rest'); try done|].
    - intros l. by rewrite Hfb1.
    - lia.
    - intros r w2 (Hs2 & Hfb2 & Hr). split; [by etransitivity|]. split; [congruence|].
      destruct Hr as [[-> Hg]|[-> Hg]]; [left|right]; (split; [done|]); [by apply Hgo|].
      destruct Hg as [Hg|Hg]; [left|by right]. intros Hg'. by apply Hgo in Hg' as [_ Hg']. }
  assert (~ harmless e -> wp (mret 0) (empty_post w lbn (e :: rest)) w1) as Hstop.
  { intros Hh. apply wp_ret. split; [done|]. split; [done|]. right. split; [done|]. left. intros [Hf _].
    by apply Forall_cons_1 in Hf as [Hf _]. }
  destruct (Z.eqb_spec (de_ino e) 0) as [Hi0|Hi0]; [apply Hcont; by left|].
  destruct (get_dent_parts _ _ _ Hdent) as (_ & _ & _ & _ & Hname). unfold e2d_name in Hname.
  assert (zlen (de_name e) = de_namlen e) as Hnz.
  { pose proof (get_bytes_len _ _ _ _ Hname) as Hnl'. pose proof (Hnam Hi0). unfold zlen. lia. }
  pose proof (dots_test e nm Hnl Hnm Hnz (Hnam Hi0)) as Hdots.
  assert (harmless e <-> dot_entry e) as Hhd by (unfold harmless; tauto).
  destruct (Z.gtb_spec (de_namlen e) 2) as [Hgt|Hle]; [apply Hstop; rewrite Hhd, Hdots; lia|].
  destruct (bool_decide_reflect (nm !! 0%nat = Some dot)) as [Hd0|Hd0]; cbn [negb]; [|apply Hstop; rewrite Hhd, Hdots; tauto].
  destruct (Z.eqb_spec (de_namlen e) 1) as [Hn1|Hn1]; [apply Hcont, Hhd, Hdots; auto|].
  destruct (bool_decide_reflect (nm !! 1%nat = Some dot)) as [Hd1'|Hd1']; cbn [andb]; [|apply Hstop; rewrite Hhd, Hdots; tauto].
  destruct (Z.eqb_spec (de_ino e) parentino) as [Hp|Hp]; [apply Hcont, Hhd, Hdots; auto|apply Hstop; rewrite Hhd, Hdots; tauto].
Qed.

(** [ext2_dirempty], reading the directory through the vnode, answers 1 only
    when every entry in use is [.] or is [..] to the given parent, and answers 1
    for every such directory unless a read fails; it changes nothing. So
    [ext2_rmdir] never removes a directory that has other entries. *)
Theorem dirempty_spec w :
  dir_data fs ip nblk D w -> no_bufs ip (w_fbufs w) ->
  wp (ext2_dirempty vn_read ip parentino) (fun r w' => dir_same ip w w' /\ w_fbufs w' = w_fbufs w /\
    (r = 1 /\ (forall l, 0 <= l < nblk -> Forall harmless (D l)) \/
     r = 0 /\ (~ (forall l, 0 <= l < nblk -> Forall harmless (D l)) \/ exists e, e <> 0 /\ io_error e))) w.
Proof.
  intros Hd Hno. pose proof Hd as [Hn _ (dp & Hdp & Hsize & _) _]. unfold ext2_dirempty.
  apply wp_bind. unfold wp at 1, VTOI. rewrite Hdp, Hsize.
  assert (exists rest, at_entry 0 [] rest /\ (to_go 0 rest <-> (forall l, 0 <= l < nblk -> Forall harmless (D l))))
    as (rest & Hat & Hgo).
  { destruct (decide (0 < nblk)) as [Hpos|Hz].
    - exists (D 0). split.
      + left. split; [lia|]. split; [done|]. apply (dir_block_ne fs Hgeo ip nblk D w 0 Hd). lia.
      + unfold to_go. split.
        * intros [H1 H2] l Hl. destruct (decide (l = 0)) as [->|]; [done|apply H2; lia].
        * intros Hf. split; [apply Hf; lia|]. intros l Hl. apply Hf. lia.
    - assert (nblk = 0) as Hn0 by lia. exists []. split; [right; by rewrite Hn0|].
      unfold to_go. split; [intros _ l Hl; lia|]. intros _. split; [constructor|]. intros l Hl. lia. }
  eapply wp_mono.
  { apply (dirempty_from _ w 0 [] rest Hd Hno Hat). change (total []) with 0. pose proof Hgeo as []. nia. }
  intros r w' (Hs & Hfb & Hr). split; [done|]. split; [done|]. by rewrite <- !Hgo.
Qed.

End read.
