(* ===== verification/DirExamples.v ===== *)
(** A concrete directory on the volume of AllocExamples.v, on which the
    theorems about directories apply. *)
From stdpp Require Import gmap.
From S2P Require Import Prelude Bitmap Bytes Super SuperExamples Kernel InodeCnv Cluster Alloc AllocSpec AllocExamples Extents Bmap Dir DirSpec DirSearch DirOps Balloc ReadWrite MetaRead.

(** * The directory *)

Definition name_of (s : string) : list Z := (fun c => Z.of_nat (Ascii.nat_of_ascii c)) <$> String.list_ascii_of_string s.

Definition entry (ino reclen type : Z) (name : list Z) : list Z :=
  le_split 4 ino ++ le_split 2 reclen ++ [zlen name; type] ++ name ++
  replicate (Z.to_nat (reclen - 8 - zlen name)) 0.

Definition dirblk1 : list Z :=
  entry 11 12 2 (name_of ".") ++ entry 2 12 2 (name_of "..") ++ entry 12 12 1 (name_of "a") ++
  entry 13 988 1 (name_of "bcd").

Definition de_dot : dent := mk_dent 11 12 1 2 (name_of ".").
Definition de_dotdot : dent := mk_dent 2 12 2 2 (name_of "..").
Definition de_a : dent := mk_dent 12 12 1 1 (name_of "a").
Definition de_bcd : dent := mk_dent 13 988 3 1 (name_of "bcd").
Definition dents1 (lbn : Z) : list dent := [de_dot; de_dotdot; de_a; de_bcd].

(** The directory with what a search for [a] to delete leaves in its inode,
    and with what a search for room leaves. *)
Definition dirnode (offset count endoff : Z) : inode :=
  mk_inode 0 11 2 count endoff 0 offset 0 0 0 0x41ED 2 0 0 1024 2 0 0 0 0 0 0 0 0 9 0
    (100 :: replicate 11 0) [0; 0; 0] 0 0 0 0.

Definition dirworld (dp : inode) : world :=
  upd_w_fdata (<[(11, 0) := dirblk1]>) (upd_w_inodes (<[11 := dp]>) (world0 false)).

Lemma dirblk1_ok : dir_block dirblk1 (dents1 0).
Proof.
  unfold dir_block, dents1, chain.
  repeat (split; [vm_compute; reflexivity|]; split; [constructor; vm_compute; (split; [discriminate|reflexivity]) || (split; [discriminate|reflexivity]) || reflexivity|]).
  vm_compute. reflexivity.
Qed.

Lemma dir_geometry0 : dir_geometry fs0.
Proof. constructor; vm_compute; done || (split; done). Qed.

Lemma dir_env1 : dir_env 11.
Proof. constructor; try done. intros n b e. cbn. case_match; [|done]. by intros [= <-]. Qed.

Lemma dir_data1 dp :
  i_size dp = 1024 -> has_feature (i_flag dp) IN_E4EXTENTS = false -> dir_data fs0 11 1 dents1 (dirworld dp).
Proof.
  intros Hs Hf. constructor; [lia|vm_compute; reflexivity|exists dp; split_and!; [apply lookup_insert_eq|by rewrite Hs|done]|].
  intros lbn Hl. assert (lbn = 0) as -> by lia. exists dirblk1. split; [apply lookup_insert_eq|].
  split; [vm_compute; reflexivity|apply dirblk1_ok].
Qed.

Definition cn_a : componentname := mk_cn DELETE (name_of "a") true true.
Definition cn_new : componentname := mk_cn CREATE (name_of "new") true true.

(** * Runs *)

Example search_a : match search_dir fs0 false false 11 cn_a (dirworld (dirnode 0 0 0)) with
  | Ok (s, e, passes, _) => e = Found 12 1 /\ se_offset s = 24 /\ se_prevoff s = 12 /\ passes = 1
  | Fault _ => False end.
Proof. vm_compute. done. Qed.

Example search_room : match search_dir fs0 false false 11 cn_new (dirworld (dirnode 0 0 0)) with
  | Ok (s, e, _, _) => e = NotFound /\ se_slots s = mk_slots SLOT_FOUND 36 988 0
  | Fault _ => False end.
Proof. vm_compute. done. Qed.

(** * The theorems at this directory *)

Lemma dirremove_merge_witness :
  dir_block dirblk1 ([de_dot] ++ de_dotdot :: de_a :: [de_bcd]) /\ zlen dirblk1 < 2 ^ 16 /\
  exists blk' e', dirremove_merge dirblk1 (total [de_dot]) = Ok blk' /\ zlen blk' = zlen dirblk1 /\
    dir_block blk' ([de_dot] ++ e' :: [de_bcd]) /\
    in_use ([de_dot] ++ e' :: [de_bcd]) = in_use ([de_dot] ++ [de_dotdot]) ++ in_use [de_bcd].
Proof.
  split; [exact dirblk1_ok|]. split; [vm_compute; reflexivity|].
  apply (dirremove_merge_spec dirblk1 [de_dot] de_dotdot de_a [de_bcd] dirblk1_ok). vm_compute. reflexivity.
Defined.

Lemma dirremove_first_witness :
  dir_block dirblk1 (de_dot :: [de_dotdot; de_a; de_bcd]) /\
  exists blk' e', dirremove_first dirblk1 0 = Ok blk' /\ zlen blk' = zlen dirblk1 /\
    dir_block blk' (e' :: [de_dotdot; de_a; de_bcd]) /\ de_reclen e' = 12 /\
    in_use (e' :: [de_dotdot; de_a; de_bcd]) = in_use [de_dotdot; de_a; de_bcd].
Proof.
  split; [exact dirblk1_ok|]. apply (dirremove_first_spec dirblk1 de_dot [de_dotdot; de_a; de_bcd] dirblk1_ok).
Defined.

Lemma direnter_block_witness :
  dir_block dirblk1 ([de_dot; de_dotdot; de_a] ++ [de_bcd] ++ []) /\
  exists blk' mid', direnter_block dirblk1 36 988 14 1 (name_of "new") [0; 0; 0] = Ok blk' /\
    zlen blk' = zlen dirblk1 /\ dir_block blk' ([de_dot; de_dotdot; de_a] ++ mid' ++ []) /\ total mid' = total [de_bcd] /\
    in_use ([de_dot; de_dotdot; de_a] ++ mid' ++ []) =
      in_use [de_dot; de_dotdot; de_a] ++ in_use [de_bcd] ++ [(14, 1, name_of "new")] ++ in_use [].
Proof.
  split; [exact dirblk1_ok|].
  apply (direnter_block_spec dirblk1 [de_dot; de_dotdot; de_a] [de_bcd] [] 14 1 (name_of "new") [0; 0; 0] dirblk1_ok);
    vm_compute; done || (split; done) || discriminate.
Defined.

Lemma search_dir_witness :
  w_inodes (dirworld (dirnode 0 0 0)) !! 11 = Some (dirnode 0 0 0) /\
  wp (search_dir fs0 false false 11 cn_new) (fun r w' => dir_same 11 (dirworld (dirnode 0 0 0)) w' /\
    dir_post fs0 11 1 dents1 cn_new (w_fbufs (dirworld (dirnode 0 0 0))) r w') (dirworld (dirnode 0 0 0)).
Proof.
  split; [reflexivity|].
  apply (search_dir_spec fs0 dir_geometry0 11 1 dents1 dir_env1 cn_new false (dirworld (dirnode 0 0 0)) (dirnode 0 0 0) 0);
    [by apply dir_data1|by intros lbn|reflexivity|reflexivity|lia|vm_compute; reflexivity].
Defined.

Lemma dirremove_witness :
  remove_at fs0 1 dents1 (dirnode 24 12 0) 0 [de_dot; de_dotdot] de_a [de_bcd] /\
  wp (ext2_dirremove fs0 false 11) (fun e w' =>
    changed_or_failed fs0 11 (dirworld (dirnode 24 12 0)) w' (dirnode 24 12 0) e 0
      (fun es => in_use es = in_use [de_dot; de_dotdot] ++ in_use [de_bcd])) (dirworld (dirnode 24 12 0)).
Proof.
  assert (remove_at fs0 1 dents1 (dirnode 24 12 0) 0 [de_dot; de_dotdot] de_a [de_bcd]) as Hr.
  { split; [lia|]. split; [reflexivity|]. split; [vm_compute; reflexivity|]. by exists [de_dot], de_dotdot. }
  split; [exact Hr|].
  apply (dirremove_spec fs0 dir_geometry0 11 1 dents1 dir_env1 false (dirworld (dirnode 24 12 0)) (dirnode 24 12 0) 0
    [de_dot; de_dotdot] de_a [de_bcd]); [by apply dir_data1|by intros lbn|reflexivity|exact Hr].
Defined.

(** The room after [bcd], as the search above left it. *)
Lemma direnter_witness :
  w_inodes (dirworld (dirnode 36 988 1024)) !! 11 = Some (dirnode 36 988 1024) /\
  wp (ext2_direnter fs0 false 1024 [0; 0; 0] (fun _ _ _ => mret 0) (fun _ _ => mret 0) 14 0x81A4 11 (name_of "new"))
    (fun e w' => changed_or_failed fs0 11 (dirworld (dirnode 36 988 1024)) w' (dirnode 36 988 1024) e 0
      (fun es => in_use es = in_use [de_dot; de_dotdot; de_a] ++ in_use [de_bcd] ++
         [(14, new_type fs0 0x81A4, name_of "new")] ++ in_use [])) (dirworld (dirnode 36 988 1024)).
Proof.
  split; [reflexivity|].
  apply (direnter_spec fs0 dir_geometry0 11 1 dents1 dir_env1 false 1024 [0; 0; 0] ltac:(done) (fun _ _ _ => mret 0)
    (fun _ _ => mret 0) (dirworld (dirnode 36 988 1024)) (dirnode 36 988 1024) 14 0x81A4 (name_of "new") 0
    [de_dot; de_dotdot; de_a] [de_bcd] []);
    [by apply dir_data1|by intros lbn|reflexivity|lia|reflexivity|discriminate|vm_compute; reflexivity|
     vm_compute; reflexivity|vm_compute; discriminate|right; vm_compute; discriminate|vm_compute; split; [discriminate|reflexivity]|
     discriminate|vm_compute; reflexivity].
Defined.

Lemma readable1 dp : i_size dp = 1024 -> has_feature (i_flag dp) IN_E4EXTENTS = false -> readable fs0 11 (dirworld dp) dp.
Proof.
  intros Hs Hf. constructor; [apply lookup_insert_eq|done|]. intros lbn Hl Hlt. rewrite Hs in Hlt.
  assert (lbn = 0) as -> by (change (m_bsize fs0) with 1024 in Hlt; lia). exists dirblk1. split; [apply lookup_insert_eq|vm_compute; reflexivity].
Qed.

Lemma meta_read_witness :
  readable fs0 11 (dirworld (dirnode 0 0 0)) (dirnode 0 0 0) /\
  wp (ext2_meta_read fs0 (fun _ => 0) 21 11 (mk_buio 5 20 []))
    (read_post fs0 11 (fun _ => 0) (dirworld (dirnode 0 0 0)) (dirnode 0 0 0) (mk_buio 5 20 [])) (dirworld (dirnode 0 0 0)).
Proof.
  split; [by apply readable1|].
  apply (meta_read_spec fs0 dir_geometry0 11 dir_env1 (fun _ => 0) (dirnode 0 0 0) (dirworld (dirnode 0 0 0)) (mk_buio 5 20 []));
    [by apply readable1|by intros lbn|vm_compute; discriminate].
Defined.

Lemma well_made1 l : 0 <= l < 1 -> Forall well_made (dents1 l).
Proof. intros _. repeat first [apply Forall_nil_2 | apply Forall_cons_2; [split; [vm_compute; discriminate|intros _; vm_compute; discriminate]|]]. Qed.

(** The directory has the entries [a] and [bcd]. *)
Lemma dirempty_witness :
  dir_data fs0 11 1 dents1 (dirworld (dirnode 0 0 0)) /\
  wp (ext2_dirempty (vn_read fs0 (fun _ => 0)) 11 2) (fun r w' =>
    dir_same 11 (dirworld (dirnode 0 0 0)) w' /\ w_fbufs w' = w_fbufs (dirworld (dirnode 0 0 0)) /\
    (r = 1 /\ (forall l, 0 <= l < 1 -> Forall (harmless 2) (dents1 l)) \/
     r = 0 /\ (~ (forall l, 0 <= l < 1 -> Forall (harmless 2) (dents1 l)) \/ exists e, e <> 0 /\ io_error (fun _ => 0) e)))
    (dirworld (dirnode 0 0 0)).
Proof.
  split; [by apply dir_data1|].
  apply (dirempty_spec fs0 dir_geometry0 11 dir_env1 (fun _ => 0) 1 dents1 2 well_made1); [by apply dir_data1|by intros lbn].
Defined.
