(* ===== verification/Inode.v ===== *)
(** Inodes and their blocks, ext2_inode.c: writing an inode back, truncation,
    and what happens when a vnode is given up. *)
From stdpp Require Import gmap.
From S2P Require Import Prelude Bitmap Bytes Super Ihash Kernel InodeCnv Cluster Alloc Extents Bmap Balloc.

Definition SINGLE : nat := 0.
Definition DOUBLE : nat := 1.
Definition TRIPLE : nat := 2.

(** [btodb] of ext2_apple.h and the macros of fs.h that ext2_inode.c uses. *)
Definition btodb (bytes : Z) : Z := Z.shiftr bytes 9.
Definition numfrags (fs : m_ext2fs) (loc : Z) : Z := Z.shiftr loc (m_bshift fs).
Definition blksize (fs : m_ext2fs) : Z := m_fsize fs.
Definition NINDIR (fs : m_ext2fs) : Z := m_bsize fs / 4.
Definition EXT2_MAXSYMLINKLEN : Z := 60.

Section inode.
Context `{KernelEnv} `{HashEnv} (fs : m_ext2fs) (MAXPHYS cr_uid nocred_uid : Z).

(** fs->e2fs_ronly; MNT_RDONLY and MNT_ASYNC of the mount; the type of a vnode. *)
Context (ronly mnt_rdonly async : bool) (vnode_isdev vnode_islnk : Z -> bool).

(** Services of XNU: the page cache, the buffers of a vnode and the vnode itself. *)
Context (ubc_setsize : Z -> Z -> M world unit) (buf_invalidateblks : Z -> M world Z).
Context (buf_markinvalid : Z -> M world unit) (buf_setsize : bufref -> Z -> M world unit).
Context (vnode_recycle vnode_removefsref vnode_clearfsnode : Z -> M world unit).

Abbreviation K := (M world).

(** ** Times and the disk inode *)

Definition any_flag (i : inode) (m : Z) : bool := negb (Z.land (i_flag i) m =? 0).

(** What [ext2_itimes_locked] does to an inode at time [ts]. [i_modrev], which
    only NFS reads, is left out. *)
Definition touch_times (ts : Z * Z) (i : inode) : inode :=
  let '(sec, nsec) := ts in
  let i := if any_flag i IN_ACCESS
           then upd_i_atimensec (fun _ => s32 nsec) (upd_i_atime (fun _ => s32 sec) i) else i in
  let i := if any_flag i IN_UPDATE
           then upd_i_mtimensec (fun _ => s32 nsec) (upd_i_mtime (fun _ => s32 sec) i) else i in
  if any_flag i IN_CHANGE
  then upd_i_ctimensec (fun _ => s32 nsec) (upd_i_ctime (fun _ => s32 sec) i) else i.

Definition ext2_itimes (ip : Z) : K unit :=
  i ← VTOI ip;
  if any_flag i (Z.lor IN_ACCESS (Z.lor IN_CHANGE IN_UPDATE)) then
    upd_inode ip (or_flag (if vnode_isdev ip then IN_LAZYMOD else IN_MODIFIED));;
    (if mnt_rdonly then mret tt else (ts ← nanotime; upd_inode ip (touch_times ts)));;
    upd_inode ip (clear_flag (Z.lor IN_ACCESS (Z.lor IN_CHANGE IN_UPDATE)))
  else mret tt.

Definition ext2_update (ip : Z) (waitfor : bool) : K Z :=
  ext2_itimes ip;;
  i ← VTOI ip;
  if negb (any_flag i IN_MODIFIED) && negb waitfor then mret 0
  else if ronly then mret 0
  else
    upd_inode ip (clear_flag (Z.lor IN_LAZYACCESS (Z.lor IN_LAZYMOD IN_MODIFIED)));;
    gd ← GD (ino_to_cg fs (i_number i));
    let b := fsbtodb fs (ino_to_fsba fs gd (i_number i)) in
    error ← buf_meta_bread b (m_bsize fs);
    if negb (error =? 0) then (buf_brelse b;; mret error)
    else
      d ← buf_dataptr b;
      let off := m_isize fs * ino_to_fsbo fs (i_number i) in
      i ← VTOI ip;
      ei ← lift (dinode_load fs d off);
      d ← lift (dinode_store fs d off (ext2_i2ei fs i ei));
      buf_store b d;;
      if waitfor && negb async then buf_bwrite b else (buf_bdwrite b;; mret 0).

(** ** Indirect blocks *)

(** The blocks of [n] entries of [bap], from entry [i] down, with what is under
    each: the errno of the last failure and the sectors released. [nlbn] is the
    logical block the recursive calls are told. *)
Fixpoint trunc_entries (sub : option (Z -> Z -> Z -> K (Z * Z))) (ip : Z) (bap : list Z) (factor : Z)
    (n : nat) (i nlbn : Z) (allerror released : Z) : K (Z * Z * Z) :=
  match n with
  | O => mret (allerror, released, nlbn)
  | S n' =>
      nb ← lift (access (bap !z i));
      if nb =? 0 then trunc_entries sub ip bap factor n' (i - 1) (nlbn + factor) allerror released
      else
        r ← (match sub with
             | Some indirtrunc =>
                 r ← indirtrunc nlbn (fsbtodb fs nb) (-1);
                 let '(error, blkcount) := r in
                 mret (if negb (error =? 0) then error else allerror, s64 (released + blkcount))
             | None => mret (allerror, released)
             end);
        let '(allerror, released) := r in
        ext2_blkfree fs MAXPHYS ip nb (m_bsize fs);;
        trunc_entries sub ip bap factor n' (i - 1) (nlbn + factor) allerror (s64 (released + btodb (m_bsize fs)))
  end.

(** The block of pointers with its entries from [last + 1] on zeroed. *)
Definition clear_tail (d : list Z) (last : Z) : res (list Z) :=
  if last + 1 >? NINDIR fs then Fault OutOfBounds
  else put_bytes d (4 * (last + 1)) (replicate (Z.to_nat (4 * (NINDIR fs - (last + 1)))) 0).

(** [ext2_indirtrunc]: the errno and [*countp]. *)
Fixpoint ext2_indirtrunc (level : nat) (ip lbn dbn lastbn : Z) : K (Z * Z) :=
  let factor := NINDIR fs ^ Z.of_nat level in
  let last := if lastbn >? 0 then cdiv lastbn factor else lastbn in
  error ← buf_meta_bread dbn (m_bsize fs);
  if negb (error =? 0) then (buf_brelse dbn;; mret (error, 0))
  else
    d ← buf_dataptr dbn;
    let bap := daddrs d in
    d' ← lift (clear_tail d last);
    buf_store dbn d';;
    (if last =? -1 then buf_markinvalid dbn else mret tt);;
    allerror ← (if async then (buf_bdwrite dbn;; mret 0) else buf_bwrite dbn);
    let n := NINDIR fs - 1 in
    let sub := match level with O => None | S l => Some (ext2_indirtrunc l ip) end in
    r ← trunc_entries sub ip bap factor (Z.to_nat (n - last)) n (lbn + 1 - n * factor) allerror 0;
    let '(allerror, released, nlbn) := r in
    match sub with
    | Some indirtrunc =>
        if lastbn >=? 0 then
          nb ← lift (access (bap !z last));
          if nb =? 0 then mret (allerror, released)
          else
            r ← indirtrunc nlbn (fsbtodb fs nb) (crem lastbn factor);
            let '(error, blkcount) := r in
            mret (if negb (error =? 0) then error else allerror, s64 (released + blkcount))
        else mret (allerror, released)
    | None => mret (allerror, released)
    end.

(** ** Truncation *)

(** The pointers as bytes, [i_shortlink], and a store over the first of them. *)
Definition shortlink (i : inode) : list Z := concat (le_split 4 <$> pointers i).
Definition put_shortlink (bytes : list Z) (i : inode) : inode :=
  let w := words 15 (bytes ++ drop (length bytes) (shortlink i)) in
  upd_i_db (fun _ => take 12 w) (upd_i_ib (fun _ => drop 12 w) i).

(** [bzero(&oip->i_shortlink, n)]. *)
Definition clear_shortlink (n : Z) (i : inode) : inode := put_shortlink (replicate (Z.to_nat n) 0) i.

Definition change_update : inode -> inode := or_flag (Z.lor IN_CHANGE IN_UPDATE).

Definition trunc_symlink (ip : Z) : K Z :=
  upd_inode ip (fun i => change_update (upd_i_size (fun _ => 0) (clear_shortlink (i_size i) i)));;
  ext2_update ip true.

(** The policy for the buffer of the last block. *)
Definition put_last (bp : bufref) (flags : Z) : K unit :=
  if has_feature flags IO_SYNC then (_ ← ref_bwrite bp; mret tt)
  else if async then ref_bdwrite bp else ref_bawrite bp.

Definition trunc_grow (ip osize length flags cred_uid : Z) : K Z :=
  if length >? m_maxfilesize fs then mret EFBIG
  else
    ubc_setsize ip length;;
    let offset := s32 (blkoff fs (length - 1)) in
    let lbn := s32 (lblkno fs (length - 1)) in
    let flags := Z.lor flags BA_CLRBUF in
    r ← ext2_balloc fs MAXPHYS cred_uid nocred_uid ip lbn (offset + 1) flags;
    let '(error, bpp) := r in
    if negb (error =? 0) then (ubc_setsize ip osize;; mret error)
    else
      upd_inode ip (upd_i_size (fun _ => length));;
      bp ← deref bpp;
      put_last bp flags;;
      upd_inode ip change_update;;
      ext2_update ip (negb async).

(** The bytes of the last block behind the new end are zeroed: an errno. *)
Definition trunc_partial (ip length flags cred_uid : Z) : K Z :=
  let offset := s32 (blkoff fs length) in
  if offset =? 0 then (upd_inode ip (upd_i_size (fun _ => length));; mret 0)
  else
    let lbn := s32 (lblkno fs length) in
    let flags := Z.lor flags BA_CLRBUF in
    r ← ext2_balloc fs MAXPHYS cred_uid nocred_uid ip lbn offset flags;
    let '(error, bpp) := r in
    if negb (error =? 0) then mret error
    else
      upd_inode ip (upd_i_size (fun _ => length));;
      let size := s32 (blksize fs) in
      bp ← deref bpp;
      d ← ref_dataptr bp;
      d ← lift (put_bytes d offset (replicate (Z.to_nat (size - offset)) 0));
      ref_store bp d;;
      buf_setsize bp size;;
      put_last bp flags;;
      mret 0.

(** [lastblock] and [lastiblock], the last block to keep at each level. *)
Definition lastblock (length : Z) : Z := s32 (lblkno fs (length + m_bsize fs - 1) - 1).
Definition lastiblocks (last : Z) : list Z :=
  let l0 := s32 (last - NDADDR) in
  let l1 := s32 (l0 - NINDIR fs) in
  [l0; l1; s32 (l1 - NINDIR fs * NINDIR fs)].

(** The pointers with those to be freed set to zero, and the levels normalized. *)
Definition kept_ib (lasti ib : list Z) : list Z := zip_with (fun l b => if l <? 0 then 0 else b) lasti ib.
Definition kept_db (last : Z) (db : list Z) : list Z := imap (fun i b => if Z.of_nat i >? last then 0 else b) db.
Definition normal (lasti : list Z) : list Z := (fun l => if l <? 0 then -1 else l) <$> lasti.

(** The levels from [level] down: the errno of the last failure, the sectors
    released, and whether a level was kept, which ends the work. *)
Fixpoint trunc_levels (ip : Z) (lasti : list Z) (level : nat) (allerror released : Z) : K (Z * Z * bool) :=
  let lbn := nth level [- NDADDR; - NDADDR - NINDIR fs - 1; - NDADDR - NINDIR fs - 1 - NINDIR fs * NINDIR fs - 1] 0 in
  i ← VTOI ip;
  bn0 ← lift (access (i_ib i !z Z.of_nat level));
  last ← lift (access (lasti !z Z.of_nat level));
  let bn := s32 bn0 in
  r ← (if negb (bn =? 0) then
         r ← ext2_indirtrunc level ip (s32 lbn) (fsbtodb fs bn) last;
         let '(error, count) := r in
         let allerror := if negb (error =? 0) then error else allerror in
         let released := s64 (released + count) in
         if last <? 0 then
           upd_inode ip (set_ib (Z.of_nat level) 0);;
           ext2_blkfree fs MAXPHYS ip bn (m_fsize fs);;
           mret (allerror, s64 (released + btodb (m_bsize fs)))
         else mret (allerror, released)
       else mret (allerror, released));
  let '(allerror, released) := r in
  if last >=? 0 then mret (allerror, released, true)
  else match level with
       | O => mret (allerror, released, false)
       | S level' => trunc_levels ip lasti level' allerror released
       end.

(** The direct blocks from [i] down to [last + 1]. *)
Fixpoint trunc_direct (ip : Z) (n : nat) (i released : Z) : K Z :=
  match n with
  | O => mret released
  | S n' =>
      x ← VTOI ip;
      bn ← lift (access (i_db x !z i));
      let bn := s32 bn in
      if bn =? 0 then trunc_direct ip n' (i - 1) released
      else
        upd_inode ip (set_db i 0);;
        ext2_blkfree fs MAXPHYS ip bn (blksize fs);;
        trunc_direct ip n' (i - 1) (s64 (released + btodb (blksize fs)))
  end.

(** The last direct block: blocks are not divided into fragments, so that
    nothing of it is released. *)
Definition trunc_frag (ip last length released : Z) : K Z :=
  x ← VTOI ip;
  bn ← lift (access (i_db x !z last));
  let bn := s32 bn in
  if bn =? 0 then mret released
  else
    let oldspace := blksize fs in
    upd_inode ip (upd_i_size (fun _ => length));;
    let newspace := blksize fs in
    if newspace =? 0 then halt (Panic "ext2_truncate: newspace")
    else if oldspace - newspace >? 0 then
      ext2_blkfree fs MAXPHYS ip (s32 (bn + numfrags fs newspace)) (oldspace - newspace);;
      mret (s64 (released + btodb (oldspace - newspace)))
    else mret released.

(** The blocks past [last], once the inode on disk no longer has them. *)
Definition trunc_blocks (ip last length : Z) (lasti : list Z) (allerror : Z) : K (Z * Z) :=
  r ← trunc_levels ip lasti TRIPLE allerror 0;
  let '(allerror, released, kept) := r in
  if (kept : bool) then mret (allerror, released)
  else
    released ← trunc_direct ip (Z.to_nat (NDADDR - 1 - last)) (NDADDR - 1) released;
    if last <? 0 then mret (allerror, released)
    else (released ← trunc_frag ip last length released; mret (allerror, released)).

Definition trunc_shrink (ip osize length flags cred_uid : Z) : K Z :=
  error ← trunc_partial ip length flags cred_uid;
  if negb (error =? 0) then mret error
  else
    let last := lastblock length in
    let lasti := lastiblocks last in
    old ← VTOI ip;
    upd_inode ip (fun i => change_update (upd_i_ib (kept_ib lasti) (upd_i_db (kept_db last) i)));;
    allerror ← ext2_update ip (negb async);
    upd_inode ip (fun i => upd_i_size (fun _ => osize) (upd_i_ib (fun _ => i_ib old) (upd_i_db (fun _ => i_db old) i)));;
    error ← buf_invalidateblks ip;
    let allerror := if negb (error =? 0) && (allerror =? 0) then error else allerror in
    ubc_setsize ip length;;
    r ← trunc_blocks ip last length (normal lasti) allerror;
    let '(allerror, released) := r in
    upd_inode ip (fun i =>
      or_flag IN_CHANGE (upd_i_blocks (fun b => if b >=? u64 released then u64 (b - released) else 0) (upd_i_size (fun _ => length) i)));;
    ubc_setsize ip length;;
    mret allerror.

(** [ext2_ext_truncate], for files of extents. *)
Definition ext2_ext_truncate (ip length : Z) : K Z :=
  i ← VTOI ip;
  if u64 length >=? i_size i then
    (if u64 length >? i_size i then
       upd_inode ip (fun i => change_update (upd_i_size (fun _ => u64 length) i));; ubc_setsize ip length
     else mret tt);;
    ext2_update ip false
  else
    let lbn := lblkno fs length in
    let len := u32 (Z.shiftr (blkoff fs length + m_bsize fs - 1) (m_bshift fs)) in
    let len := if len =? 0 then 1 else len in
    r ← ext4_ext_find_extent fs ip lbn path0;
    let path := fst r in
    match ep_ext path with
    | None => ext4_ext_drop_refs path;; mret 0
    | Some _ =>
        error ← ext4_ext_rm_extent fs MAXPHYS ip path lbn len;
        ext4_ext_drop_refs path;;
        if negb (error =? 0) then mret error
        else
          upd_inode ip (fun i => change_update (upd_i_size (fun _ => u64 length) i));;
          error ← buf_invalidateblks ip;
          ubc_setsize ip length;;
          mret error
    end.

(** [cred_uid] is the caller's uid, or that of NOCRED. *)
Definition ext2_truncate (ip length flags cred_uid : Z) : K Z :=
  i ← VTOI ip;
  if length <? 0 then mret EINVAL
  else if has_feature (i_flag i) IN_E4EXTENTS then ext2_ext_truncate ip length
  else if vnode_islnk ip && (i_size i <? EXT2_MAXSYMLINKLEN) then trunc_symlink ip
  else if i_size i =? u64 length then (upd_inode ip change_update;; ext2_update ip false)
  else if s64 (i_size i) <? length then trunc_grow ip (s64 (i_size i)) length flags cred_uid
  else trunc_shrink ip (s64 (i_size i)) length flags cred_uid.

(** ** Giving an inode up *)

Definition ext2_inactive (ip : Z) : K Z :=
  i ← VTOI ip;
  error ← (if i_mode i =? 0 then mret 0
           else
             error ← (if i_nlink i <=? 0 then
                        error ← ext2_truncate ip 0 0 nocred_uid;
                        upd_inode ip (set_db 0 0);;
                        j ← VTOI ip;
                        upd_inode ip (fun i => change_update (upd_i_mode (fun _ => 0) i));;
                        ext2_vfree fs ronly (i_number j) (i_mode j);;
                        mret error
                      else mret 0);
             j ← VTOI ip;
             (if any_flag j (Z.lor IN_ACCESS (Z.lor IN_CHANGE (Z.lor IN_MODIFIED IN_UPDATE)))
              then _ ← ext2_update ip false; mret tt else mret tt);;
             mret error);
  j ← VTOI ip;
  (if i_mode j =? 0 then vnode_recycle ip else mret tt);;
  mret error.

(** A vnode without an inode is left alone; the mutex of the inode is not part
    of the model. *)
Definition ext2_reclaim (ip : Z) : K Z :=
  o ← gets (fun w => w_inodes w !! ip);
  match o with
  | None => mret 0
  | Some i =>
      (if any_flag i IN_LAZYMOD then upd_inode ip (or_flag IN_MODIFIED);; _ ← ext2_update ip false; mret tt else mret tt);;
      on_hash (ext2_ihashrem ip);;
      vnode_removefsref ip;;
      vnode_clearfsnode ip;;
      modify (upd_w_inodes (delete ip));;
      on_hash (modify (upd_ih_inodes (delete ip)));;
      mret 0
  end.

End inode.
