(* ===== verification/Vget.v ===== *)
(** Inodes coming into memory: ext2_vget and its callers in ext2_vfsops.c, and
    [ext2_valloc] of ext2_alloc.c, which makes a new one. *)
From stdpp Require Import gmap.
From S2P Require Import Prelude Bitmap Bytes Super Ihash Kernel InodeCnv Cluster Alloc Extents Bmap Balloc Dir Inode.

Definition ESTALE : Z := 70.
Definition EOVERFLOW : Z := 84.

(** The vnode types of <sys/vnode.h>. *)
Inductive vtype : Type := VNON | VREG | VDIR | VBLK | VCHR | VLNK | VSOCK | VFIFO | VBAD | VSTR | VCPLX.

#[export] Instance vtype_eq_dec : EqDecision vtype.
Proof. solve_decision. Defined.

(** What [ext2_vget_typed] puts in a struct vnode_fsparam; the rest of it is
    the same for every vnode. *)
Record vnode_fsparam : Type := mk_fsparam {
  vnfs_vtype : vtype;
  vnfs_fsnode : Z;
  vnfs_markroot : bool;
  vnfs_rdev : Z;
  vnfs_filesize : Z
}.

(** What the vnode layer of XNU answers at the [n]-th call: whether memory and
    a lock for an inode can be had, the errno of [vnode_create], the id of a new
    vnode, and its type for a mode. *)
Class VnodeEnv : Type := mk_vnode_env {
  ve_malloc_null : nat -> bool;
  ve_lock_null : nat -> bool;
  ve_create : nat -> vnode_fsparam -> Z;
  ve_vid : nat -> Z -> Z;
  IFTOVT : Z -> vtype
}.

Section vget.
Context `{KernelEnv} `{HashEnv} `{VnodeEnv} (fs : m_ext2fs).

(** The address of the struct ext2mount, MNT_RDONLY, fs->e2fs_ronly, and a bound
    on the restarts of [ext2_ihashget]. *)
Context (ump : Z) (mnt_rdonly ronly : bool) (restarts : nat).

Abbreviation K := (M world).

Definition malloc_null : K bool := fun w => Ok (ve_malloc_null (w_tick w), upd_w_tick S w).
Definition lock_null : K bool := fun w => Ok (ve_lock_null (w_tick w), upd_w_tick S w).
Definition vnode_create (vfsp : vnode_fsparam) : K Z := fun w => Ok (ve_create (w_tick w) vfsp, upd_w_tick S w).
Definition vnode_vid (vp : Z) : K Z := fun w => Ok (ve_vid (w_tick w) vp, upd_w_tick S w).

(** A struct inode as [_MALLOC] with M_ZERO leaves it, with its number. *)
Definition inode_zero (ino : Z) : inode :=
  mk_inode 0 ino 0 0 0 0 0 0 0 0 0 0 0 0 0 0 0 0 0 0 0 0 0 0 0 0 (replicate 12 0) (replicate 3 0) 0 0 0 0.

(** The pointers of blocks behind the end of the file. The number of blocks is
    an [int]: where it came out negative the loop would start below [i_db]. *)
Definition zero_unused (i : inode) : res inode :=
  if negb (has_feature (i_flag i) IN_E4EXTENTS) && (S_ISDIR (i_mode i) || S_ISREG (i_mode i)) then
    let used_blocks := s32 (u64 (i_size i + m_bsize fs - 1) / m_bsize fs) in
    if used_blocks <? 0 then Fault OutOfBounds
    else mret (upd_i_db (imap (fun n b => if used_blocks <=? Z.of_nat n then 0 else b)) i)
  else mret i.

(** The inode read from its slot. *)
Definition fill_inode (ino : Z) (ei : ext2fs_dinode) : res inode :=
  let i := ext2_ei2i fs ei (inode_zero ino) in
  zero_unused (upd_i_next_alloc_goal (fun _ => 0) (upd_i_next_alloc_block (fun _ => 0)
    (upd_i_block_group (fun _ => u32 (ino_to_cg fs ino)) i))).

(** A generation number for an inode that has none. *)
Definition set_gen (i : inode) : K inode :=
  if i_gen i =? 0 then
    gen ← read_random;
    let i := upd_i_gen (fun _ => u32 (u32 gen + 1)) i in
    mret (if mnt_rdonly then i else or_flag IN_MODIFIED i)
  else mret i.

(** The vnode for an inode; [vmode] is what the inode is about to become. *)
Definition fsparam_of (ino vmode : Z) (i : inode) : vnode_fsparam :=
  let vt := IFTOVT (if vmode =? 0 then i_mode i else vmode) in
  mk_fsparam vt ino (ino =? EXT2_ROOTINO)
    (if (vmode =? 0) && (bool_decide (vt = VBLK) || bool_decide (vt = VCHR)) then s32 (default 0 (i_db i !! 0%nat)) else 0)
    (if vmode =? 0 then i_size i else 0).

(** The disk inode: an errno, or what the slot holds. *)
Definition read_slot (ino : Z) : K (ext2fs_dinode + Z) :=
  gd ← GD (ino_to_cg fs ino);
  let b := fsbtodb fs (ino_to_fsba fs gd ino) in
  error ← buf_meta_bread b (m_bsize fs);
  if negb (error =? 0) then (buf_brelse b;; mret (inr error))
  else
    d ← buf_dataptr b;
    ei ← lift (dinode_load fs d (m_isize fs * ino_to_fsbo fs ino));
    buf_brelse b;;
    mret (inl ei).

(** The in-core inode and its vnode go by the inode's number: one of them per
    number and mount. Two threads that ask for the same inode at once can both
    miss it in the hash and both make it, as nothing serialises them; the model
    keeps the later of the two. *)
Definition publish (ino : Z) (i : inode) : K unit :=
  vid ← vnode_vid ino;
  modify (upd_w_inodes (insert ino i));;
  on_hash (modify (upd_ih_inodes (insert ino (mk_hinode ino ump (Some ino) vid None None))));;
  on_hash (ext2_ihashins ino).

(** [vnode_getwithvid] and [vnode_create] leave an I/O count on the vnode. *)
Definition ext2_vget_typed (ino vmode : Z) : K (Z * option Z) :=
  r ← on_hash (ext2_ihashget restarts ump ino);
  let '(error, vpp) := r in
  if negb (error =? 0) then mret (error, vpp)
  else
    match vpp with
    | Some vp => vnode_ref vp;; mret (0, Some vp)
    | None =>
        null ← malloc_null;
        if (null : bool) then mret (ENOMEM, None)
        else
          null ← lock_null;
          if (null : bool) then mret (ENOMEM, None)
          else
            r ← read_slot ino;
            match r with
            | inr error => mret (error, None)
            | inl ei =>
                i ← lift (fill_inode ino ei);
                i ← set_gen i;
                error ← vnode_create (fsparam_of ino vmode i);
                if negb (error =? 0) then mret (error, None)
                else (vnode_ref ino;; publish ino i;; mret (0, Some ino))
            end
    end.

Definition ext2_vget (ino : Z) : K (Z * option Z) := ext2_vget_typed ino 0.

Definition ext2_root : K (Z * option Z) :=
  r ← ext2_vget EXT2_ROOTINO;
  let '(error, nvp) := r in
  if negb (error =? 0) then mret (error, None) else mret (0, nvp).

(** ** File handles: two little-endian words, the number and the generation *)

Definition sizeof_ext2fid : Z := 8.

Definition ext2_fhtovp (fhp : list Z) : K (Z * option Z) :=
  if zlen fhp <? sizeof_ext2fid then mret (EINVAL, None)
  else
    ino ← lift (get32 fhp 0);
    gen ← lift (get32 fhp 4);
    if (ino <? EXT2_ROOTINO) || (ino >? u32 (m_gcount fs * sb_ipg fs)) then mret (ESTALE, None)
    else
      r ← ext2_vget ino;
      let '(error, nvp) := r in
      if negb (error =? 0) then mret (error, None)
      else
        nvp ← deref nvp;
        i ← VTOI nvp;
        if (i_mode i =? 0) || negb (i_gen i =? gen) || (i_nlink i <=? 0)
        then (vnode_put nvp;; mret (ESTALE, None))
        else mret (0, Some nvp).

(** [*fhlenp] and the handle, stored in the caller's buffer [fhp]. *)
Definition ext2_vptofh (vp fhlen : Z) (fhp : list Z) : K (Z * Z * list Z) :=
  if fhlen <? sizeof_ext2fid then mret (EOVERFLOW, sizeof_ext2fid, fhp)
  else
    i ← VTOI vp;
    fhp ← lift (put32 fhp 0 (u32 (i_number i)));
    fhp ← lift (put32 fhp 4 (i_gen i));
    mret (0, sizeof_ext2fid, fhp).

(** ** A new inode *)

(** The count of contiguous directories of a group goes up for a directory and
    down for a file. *)
Definition count_contig (isdir : bool) (cg : Z) : K unit :=
  cds ← gets w_contigdirs;
  c ← lift (access (cds !z cg));
  let c' := if isdir then (if c <? 255 then c + 1 else c) else (if c >? 0 then c - 1 else c) in
  modify (upd_w_contigdirs (zinsert cg c')).

(** What is left of the inode that used the slot before. *)
Definition reset_inode (i : inode) : inode :=
  upd_i_ib (fun _ => replicate 3 0) (upd_i_db (fun _ => replicate 12 0)
    (upd_i_flags (fun _ => 0) (upd_i_mode (fun _ => 0) (upd_i_blocks (fun _ => 0) (upd_i_size (fun _ => 0) i))))).

Definition next_gen (ip : Z) : K unit :=
  i ← VTOI ip;
  if (i_gen i =? 0) || (u32 (i_gen i + 1) =? 0) then
    gen ← read_random;
    upd_inode ip (upd_i_gen (fun _ => u32 (Z.shiftr (u32 gen) 1 + 1)))
  else upd_inode ip (upd_i_gen (fun g => u32 (g + 1))).

Definition noinodes : K (Z * option Z) := EXT2_UNLOCK;; mret (ENOSPC, None).

Definition ext2_valloc (pvp mode : Z) : K (Z * option Z) :=
  pip ← VTOI pvp;
  EXT2_LOCK;;
  ficount ← gets w_ficount;
  if ficount =? 0 then noinodes
  else
    cg ← (if is_dir mode then ext2_dirpref fs pvp else mret (s32 (ino_to_cg fs (i_number pip))));
    count_contig (is_dir mode) cg;;
    let ipref := u32 (cg * sb_ipg fs + 1) in
    ino ← ext2_hashalloc fs (ext2_nodealloccg fs) pvp mode cg ipref;
    if ino =? 0 then noinodes
    else
      r ← ext2_vget_typed ino (u16 mode);
      let '(error, vpp) := r in
      if negb (error =? 0) then (_ ← ext2_vfree fs ronly ino mode; mret (error, vpp))
      else
        vp ← deref vpp;
        upd_inode vp reset_inode;;
        next_gen vp;;
        ts ← nanotime;
        upd_inode vp (fun i => upd_i_birthnsec (fun _ => s32 (snd ts)) (upd_i_birthtime (fun _ => s32 (fst ts)) i));;
        mret (0, Some vp).

End vget.
