(* ===== verification/Vnops.v ===== *)
(** The vnode operations, ext2_vnops.c: making, naming, renaming and removing
    files, and their attributes.

    The I/O counts on vnodes are part of the state. The name cache is left out,
    as are i_modrev and the locks of single inodes; [SUIDDIR] is not compiled. *)
From stdpp Require Import gmap.
From S2P Require Import Prelude Bitmap Bytes Super Ihash Kernel InodeCnv Cluster Alloc Extents Bmap Balloc Dir Inode Vget.
From stdpp Require Import list.
#[local] Open Scope Z_scope.

Definition EXDEV : Z := 18.
Definition ENOTTY : Z := 25.
Definition EMLINK : Z := 31.
Definition ENOTEMPTY : Z := 66.
Definition EOPNOTSUPP : Z := 102.

Definition EXT2_LINK_MAX : Z := 32000.
Definition ISUID : Z := 0x800.
Definition ISGID : Z := 0x400.
Definition S_ISTXT : Z := 0x200.
Definition IFLNK : Z := 0xA000.

(** <sys/stat.h> and <sys/fcntl.h>. *)
Definition ALLPERMS : Z := 0xFFF.
Definition UF_IMMUTABLE : Z := 0x2.
Definition UF_APPEND : Z := 0x4.
Definition APPEND : Z := Z.lor UF_APPEND SF_APPEND.
Definition IMMUTABLE : Z := Z.lor UF_IMMUTABLE SF_IMMUTABLE.
Definition FWRITE : Z := 0x2.
Definition O_APPEND : Z := 0x8.
Definition VNOVAL : Z := u32 (-1).

(** [dbtob] of a number of sectors. *)
Definition dbtob (db : Z) : Z := u64 (db * 512).

(** [ip->i_nlink += d] on a short. *)
Definition add_nlink (d : Z) : inode -> inode := upd_i_nlink (fun n => s16 (n + d)).

(** ** Directory templates *)

(** struct ext2fs_dirtemplate: 24 bytes. *)
Definition dirtemplate_bytes (dot_ino dotdot_ino dotdot_reclen type : Z) : list Z :=
  le_split 4 dot_ino ++ le_split 2 12 ++ [1; type] ++ [dot; 0; 0; 0] ++
  le_split 4 dotdot_ino ++ le_split 2 dotdot_reclen ++ [2; type] ++ [dot; dot; 0; 0].

(** mastertemplate or omastertemplate, filled in. *)
Definition dirtemplate (fs : m_ext2fs) (ino parent : Z) : list Z :=
  let type := if has_feature (e2fs_features_incompat (m_e2fs fs)) EXT2F_INCOMPAT_FTYPE then EXT2_FT_DIR else EXT2_FT_UNKNOWN in
  dirtemplate_bytes ino parent (u16 (m_bsize fs - 12)) type.

(** What may be asked to change of a struct vnode_attr, what [ext2_getattr]
    gives, and the names [ext2_pathconf] knows. *)
Record vattr : Type := mk_vattr {
  va_flags : option Z; va_uid : option Z; va_gid : option Z; va_data_size : option Z;
  va_access_time : option (Z * Z); va_modify_time : option (Z * Z); va_create_time : option (Z * Z);
  va_mode : option Z
}.

Inductive attr : Type := A_flags | A_uid | A_gid | A_data_size | A_access_time | A_modify_time | A_create_time | A_mode.

#[export] Instance attr_eq_dec : EqDecision attr.
Proof. solve_decision. Defined.

Record vattrs : Type := mk_vattrs {
  ga_fsid : Z; ga_fileid : Z; ga_mode : Z; ga_nlink : Z; ga_uid : Z; ga_gid : Z; ga_rdev : Z;
  ga_data_size : Z; ga_total_size : Z; ga_total_alloc : Z; ga_flags : Z; ga_gen : Z; ga_type : vtype; ga_iosize : Z;
  ga_access_time : Z * Z; ga_modify_time : Z * Z; ga_change_time : Z * Z; ga_create_time : option (Z * Z)
}.

Inductive pathconf_name : Type :=
| PC_LINK_MAX | PC_NAME_MAX | PC_PATH_MAX | PC_PIPE_BUF | PC_CHOWN_RESTRICTED | PC_NO_TRUNC | PC_MIN_HOLE_SIZE
| PC_ASYNC_IO | PC_PRIO_IO | PC_SYNC_IO | PC_ALLOC_SIZE_MIN | PC_FILESIZEBITS | PC_REC_INCR_XFER_SIZE
| PC_REC_MAX_XFER_SIZE | PC_REC_MIN_XFER_SIZE | PC_REC_XFER_ALIGN | PC_SYMLINK_MAX | PC_OTHER (n : Z).

Section vnops.
Context `{KE : KernelEnv} `{HE : HashEnv} `{VE : VnodeEnv} (fs : m_ext2fs).

(** The mount: its address, statfs and flags, the uid of the caller and that of
    NOCRED, the read limit, the bounds on restarts and on walks up the tree. *)
Context (MAXPHYS ump f_bsize f_iosize f_fsid cr_uid nocred_uid : Z).
Context (ronly mnt_rdonly async : bool) (restarts depth : nat).

(** The vnodes: their types and mounts. *)
Context (vnode_vtype : Z -> vtype) (vnode_mount : Z -> Z) (VTTOIF : vtype -> Z).

(** Services of XNU, as in Inode.v and Dir.v, and group membership. *)
Context (ubc_setsize : Z -> Z -> M world unit) (buf_invalidateblks : Z -> M world Z).
Context (buf_markinvalid : Z -> M world unit) (buf_setsize : bufref -> Z -> M world unit).
Context (vnode_recycle buf_flushdirtyblks : Z -> M world unit).
Context (vn_write : Z -> list Z -> Z -> M world Z) (vn_read : Z -> Z -> Z -> M world (list Z + Z)) (stale : list Z).
Context (ismember_gid : Z -> Z * bool) (uiomove : list Z -> M world Z) (buf_strategy : Z -> Z).

Abbreviation K := (M world).

Definition vnode_isdev (vp : Z) : bool := bool_decide (vnode_vtype vp = VBLK) || bool_decide (vnode_vtype vp = VCHR).
Definition vnode_islnk (vp : Z) : bool := bool_decide (vnode_vtype vp = VLNK).
Definition vnode_isdir (vp : Z) : bool := bool_decide (vnode_vtype vp = VDIR).

(** The functions of the other files on this mount. *)
Definition update (vp : Z) (waitfor : bool) : K Z := ext2_update fs ronly mnt_rdonly async vnode_isdev vp waitfor.
Definition truncate (vp length flags cred_uid : Z) : K Z :=
  ext2_truncate fs MAXPHYS nocred_uid ronly mnt_rdonly async vnode_isdev vnode_islnk ubc_setsize buf_invalidateblks
    buf_markinvalid buf_setsize vp length flags cred_uid.
Definition direnter (ip dvp : Z) (name : list Z) : K Z :=
  i ← VTOI ip;
  ext2_direnter fs async f_bsize stale vn_write (fun vp length => truncate vp length IO_SYNC cr_uid)
    (u32 (i_number i)) (i_mode i) dvp name.
Definition vget (ino : Z) : K (Z * option Z) := ext2_vget fs ump mnt_rdonly restarts ino.
Definition checkpath (source target : Z) : K Z :=
  s ← VTOI source; t ← VTOI target;
  ext2_checkpath vn_read (fun ino => r ← vget ino; mret (fst r)) vnode_isdir (i_number s) (i_number t) depth.

Definition flagged (m : Z) (i : inode) : bool := negb (Z.land (i_flags i) m =? 0).

(** ** New files *)

Definition makeinode_bad (tvp error : Z) : K (Z * option Z) :=
  upd_inode tvp (fun i => or_flag IN_CHANGE (upd_i_nlink (fun _ => 0) i));;
  vnode_put tvp;;
  mret (error, None).

(** The setgid bit goes when the caller is not known to be in the group. *)
Definition strip_setgid (i : inode) : inode :=
  if has_feature (i_mode i) ISGID then
    let '(error, ismember) := ismember_gid (i_gid i) in
    if negb (error =? 0) || negb ismember then upd_i_mode (fun m => Z.ldiff m ISGID) i else i
  else i.

Definition new_inode (mode gid nlink : Z) (i : inode) : inode :=
  upd_i_nlink (fun _ => nlink) (upd_i_mode (fun _ => u16 mode)
    (or_flag (Z.lor IN_ACCESS (Z.lor IN_CHANGE IN_UPDATE)) (upd_i_uid (fun _ => cr_uid) (upd_i_gid (fun _ => gid) i)))).

(** An errno and [*vpp]. *)
Definition ext2_makeinode (mode dvp : Z) (name : list Z) : K (Z * option Z) :=
  let mode := if Z.land mode IFMT =? 0 then Z.lor mode IFREG else mode in
  r ← ext2_valloc fs ump mnt_rdonly ronly restarts dvp mode;
  let '(error, tvp) := r in
  if negb (error =? 0) then mret (error, None)
  else
    tvp ← deref tvp;
    pdir ← VTOI dvp;
    upd_inode tvp (fun i => strip_setgid (new_inode mode (i_gid pdir) 1 i));;
    error ← update tvp (negb async);
    if negb (error =? 0) then makeinode_bad tvp error
    else
      error ← direnter tvp dvp name;
      if negb (error =? 0) then makeinode_bad tvp error else mret (0, Some tvp).

Definition MAKEIMODE (t : vtype) (mode : Z) : Z := Z.lor (VTTOIF t) mode.

Definition ext2_create (va_type : vtype) (mode dvp : Z) (name : list Z) : K (Z * option Z) :=
  ext2_makeinode (MAKEIMODE va_type mode) dvp name.

Definition ext2_mknod (va_type : vtype) (mode : Z) (va_rdev : option Z) (dvp : Z) (name : list Z) : K (Z * option Z) :=
  r ← ext2_makeinode (MAKEIMODE va_type mode) dvp name;
  let '(error, vpp) := r in
  if negb (error =? 0) then mret (error, vpp)
  else
    vp ← deref vpp;
    upd_inode vp (or_flag (Z.lor IN_ACCESS (Z.lor IN_CHANGE IN_UPDATE)));;
    (match va_rdev with Some rdev => upd_inode vp (set_db 0 (u32 rdev)) | None => mret tt end);;
    error ← update vp true;
    if negb (error =? 0) then (vnode_put vp;; mret (error, None))
    else
      i ← VTOI vp;
      vnode_recycle vp;;
      vnode_put vp;;
      r ← vget (i_number i);
      if negb (fst r =? 0) then mret (fst r, None) else mret (0, snd r).

Definition ext2_symlink (va_mode dvp : Z) (name target : list Z) : K (Z * option Z) :=
  r ← ext2_makeinode (Z.lor IFLNK va_mode) dvp name;
  let '(error, vpp) := r in
  if negb (error =? 0) then mret (error, vpp)
  else
    vp ← deref vpp;
    let len := s32 (zlen target) in
    error ← (if len <? EXT2_MAXSYMLINKLEN then
               upd_inode vp (fun i => change_update (upd_i_size (fun _ => u64 len) (put_shortlink target i)));; mret 0
             else vn_write vp target 0);
    (if negb (error =? 0) then vnode_put vp else mret tt);;
    mret (error, vpp).

(** The bytes of the target are handed to [uiomove], or read by [vn_rdwr]. *)
Definition ext2_readlink (vp : Z) : K (Z * list Z) :=
  i ← VTOI vp;
  let isize := s32 (i_size i) in
  if isize <? EXT2_MAXSYMLINKLEN then
    let bytes := take (Z.to_nat isize) (shortlink i) in
    error ← uiomove bytes; mret (error, bytes)
  else
    r ← vn_read vp isize 0;
    match r with inl bytes => mret (0, bytes) | inr error => mret (error, []) end.

(** ** Opening, closing, writing back *)

Definition ext2_open (vp mode : Z) : K Z :=
  if vnode_isdev vp then mret EOPNOTSUPP
  else
    i ← VTOI vp;
    if flagged APPEND i && (Z.land mode (Z.lor FWRITE O_APPEND) =? FWRITE) then mret EPERM else mret 0.

Definition ext2_close (vp : Z) : K Z := ext2_itimes mnt_rdonly vnode_isdev vp;; mret 0.

Definition ext2_fsync (vp : Z) : K Z := buf_flushdirtyblks vp;; update vp true.

Definition ext2_strategy (vp : Z) : K Z :=
  if vnode_isdev vp then halt (Panic "ext2_strategy: spec") else _ ← VTOI vp; mret (buf_strategy vp).

Definition ext2_ioctl : Z := ENOTTY.

(** ** Attributes *)

Definition ext2_getattr (vp : Z) : K vattrs :=
  ext2_itimes mnt_rdonly vnode_isdev vp;;
  i ← VTOI vp;
  let nsec (n : Z) := if E2DI_HAS_XTIME fs then n else 0 in
  mret (mk_vattrs (u32 f_fsid) (i_number i) (Z.ldiff (i_mode i) IFMT) (u32 (i_nlink i)) (i_uid i) (i_gid i)
    (default 0 (i_db i !! 0%nat)) (i_size i) (i_size i) (dbtob (i_blocks i)) (i_flags i) (i_gen i) (IFTOVT (i_mode i)) (u32 f_iosize)
    (i_atime i, nsec (i_atimensec i)) (i_mtime i, nsec (i_mtimensec i)) (i_ctime i, nsec (i_ctimensec i))
    (if E2DI_HAS_XTIME fs then Some (i_birthtime i, i_birthnsec i) else None)).

Definition ext2_chmod (vp mode : Z) : K Z :=
  upd_inode vp (fun i => or_flag IN_CHANGE (upd_i_mode (fun m => u16 (Z.lor (Z.ldiff m ALLPERMS) (Z.land mode ALLPERMS))) i));;
  mret 0.

(** The owner and group of an inode, [VNOVAL] for no change. *)
Definition change_owner (uid gid : Z) (i : inode) : inode :=
  let uid := if uid =? VNOVAL then i_uid i else uid in
  let gid := if gid =? VNOVAL then i_gid i else gid in
  let i' := or_flag IN_CHANGE (upd_i_uid (fun _ => uid) (upd_i_gid (fun _ => gid) i)) in
  if negb (Z.land (i_mode i) (Z.lor ISUID ISGID) =? 0) && (negb (i_uid i =? uid) || negb (i_gid i =? gid))
  then upd_i_mode (fun m => Z.ldiff m (Z.lor ISUID ISGID)) i' else i'.

Definition ext2_chown (vp uid gid : Z) : K Z := upd_inode vp (change_owner uid gid);; mret 0.

(** A stage of [ext2_setattr]: it goes on with the attributes handled so far,
    or the call returns. *)
Definition stage : Type := list attr + Z * list attr.

Definition rdonly_or (done : list attr) (k : K stage) : K stage := if mnt_rdonly then mret (inr (EROFS, done)) else k.

Definition setattr_flags (vp : Z) (vap : vattr) : K stage :=
  match va_flags vap with
  | Some f =>
      if negb (Z.land f (Z.lnot (Z.lor SF_APPEND (Z.lor SF_IMMUTABLE UF_NODUMP))) =? 0) then mret (inr (EOPNOTSUPP, []))
      else
        rdonly_or [] (
          upd_inode vp (fun i => or_flag IN_CHANGE (upd_i_flags (fun _ => f) i));;
          i ← VTOI vp;
          if flagged (Z.lor IMMUTABLE APPEND) i then mret (inr (0, [A_flags])) else mret (inl [A_flags]))
  | None => i ← VTOI vp; if flagged (Z.lor IMMUTABLE APPEND) i then mret (inr (EPERM, [])) else mret (inl [])
  end.

Definition setattr_owner (vp : Z) (vap : vattr) (done : list attr) : K stage :=
  match va_uid vap, va_gid vap with
  | None, None => mret (inl done)
  | u, g =>
      rdonly_or done (
        error ← ext2_chown vp (default VNOVAL u) (default VNOVAL g);
        if negb (error =? 0) then mret (inr (error, done)) else mret (inl (done ++ [A_uid; A_gid])))
  end.

Definition setattr_size (vp : Z) (vap : vattr) (done : list attr) : K stage :=
  match va_data_size vap with
  | None => mret (inl done)
  | Some size =>
      let go : K stage :=
        error ← truncate vp (s64 size) 0 cr_uid;
        if negb (error =? 0) then mret (inr (error, done)) else mret (inl (done ++ [A_data_size])) in
      match vnode_vtype vp with
      | VDIR => mret (inr (EISDIR, done))
      | VLNK | VREG => rdonly_or done go
      | _ => go
      end
  end.

Definition set_time (put : Z -> Z -> inode -> inode) (vp : Z) (a : attr) (t : option (Z * Z)) (done : list attr) : K (list attr) :=
  match t with
  | Some (sec, nsec) => upd_inode vp (put (s32 sec) (s32 nsec));; mret (done ++ [a])
  | None => mret done
  end.

Definition setattr_times (vp : Z) (vap : vattr) (done : list attr) : K stage :=
  match va_access_time vap, va_modify_time vap, va_create_time vap with
  | None, None, None => mret (inl done)
  | a, m, c =>
      rdonly_or done (
        (if a then upd_inode vp (or_flag IN_ACCESS) else mret tt);;
        (if m then upd_inode vp (or_flag (Z.lor IN_CHANGE IN_UPDATE)) else mret tt);;
        ext2_itimes mnt_rdonly vnode_isdev vp;;
        done ← set_time (fun s n i => upd_i_atimensec (fun _ => n) (upd_i_atime (fun _ => s) i)) vp A_access_time a done;
        done ← set_time (fun s n i => upd_i_mtimensec (fun _ => n) (upd_i_mtime (fun _ => s) i)) vp A_modify_time m done;
        done ← (if E2DI_HAS_XTIME fs
                then set_time (fun s n i => upd_i_birthnsec (fun _ => n) (upd_i_birthtime (fun _ => s) i)) vp A_create_time c done
                else mret done);
        error ← update vp false;
        if negb (error =? 0) then mret (inr (error, done)) else mret (inl done))
  end.

Definition setattr_mode (vp : Z) (vap : vattr) (done : list attr) : K stage :=
  match va_mode vap with
  | None => mret (inl done)
  | Some mode =>
      rdonly_or done (
        error ← ext2_chmod vp (s32 mode);
        if negb (error =? 0) then mret (inr (error, done)) else mret (inl (done ++ [A_mode])))
  end.

Definition and_then (m : K stage) (k : list attr -> K stage) : K stage :=
  r ← m; match r with inl done => k done | inr r => mret (inr r) end.

(** An errno, and the attributes marked as supported. *)
Definition ext2_setattr (vp : Z) (vap : vattr) : K (Z * list attr) :=
  r ← and_then (and_then (and_then (and_then (setattr_flags vp vap) (setattr_owner vp vap)) (setattr_size vp vap))
        (setattr_times vp vap)) (setattr_mode vp vap);
  mret (match r with inl done => (0, done) | inr r => r end).

(** ** Names *)

Definition ext2_remove (vp dvp : Z) : K Z :=
  i ← VTOI vp;
  d ← VTOI dvp;
  if flagged (Z.lor IMMUTABLE APPEND) i || flagged APPEND d then mret EPERM
  else
    error ← ext2_dirremove fs async dvp;
    (if error =? 0 then upd_inode vp (fun i => or_flag IN_CHANGE (add_nlink (-1) i)) else mret tt);;
    mret error.

Definition ext2_link (vp tdvp : Z) (name : list Z) : K Z :=
  i ← VTOI vp;
  if u16 (i_nlink i) >=? EXT2_LINK_MAX then mret EMLINK
  else if flagged (Z.lor IMMUTABLE APPEND) i then mret EPERM
  else
    upd_inode vp (fun i => or_flag IN_CHANGE (add_nlink 1 i));;
    error ← update vp (negb async);
    error ← (if error =? 0 then direnter vp tdvp name else mret error);
    (if negb (error =? 0) then upd_inode vp (fun i => or_flag IN_CHANGE (add_nlink (-1) i)) else mret tt);;
    mret error.

(** The block of a new directory, with its template: an errno. *)
Definition mkdir_block (tvp dvp : Z) : K Z :=
  i ← VTOI tvp;
  d ← VTOI dvp;
  if u32 (m_bsize fs) >? u32 f_bsize then halt (Panic "ext2_mkdir: blksize")
  else
    upd_inode tvp (fun i => change_update (upd_i_size (fun _ => m_bsize fs) i));;
    r ← ext2_balloc fs MAXPHYS cr_uid nocred_uid tvp 0 (m_bsize fs) BA_CLRBUF;
    let '(error, bpp) := r in
    if negb (error =? 0) then mret error
    else
      bp ← deref bpp;
      blk ← ref_dataptr bp;
      blk ← lift (put_bytes blk 0 (dirtemplate fs (u32 (i_number i)) (u32 (i_number d))));
      ref_store bp blk;;
      ref_bwrite bp.

Definition ext2_mkdir (va_mode dvp : Z) (name : list Z) : K (Z * option Z) :=
  d ← VTOI dvp;
  if u16 (i_nlink d) >=? EXT2_LINK_MAX then mret (EMLINK, None)
  else
    let dmode := Z.lor (Z.land va_mode 0x1FF) IFDIR in
    r ← ext2_valloc fs ump mnt_rdonly ronly restarts dvp dmode;
    let '(error, tvp) := r in
    if negb (error =? 0) then mret (error, None)
    else
      tvp ← deref tvp;
      d ← VTOI dvp;
      upd_inode tvp (new_inode dmode (i_gid d) 2);;
      _ ← update tvp true;
      upd_inode dvp (fun d => or_flag IN_CHANGE (add_nlink 1 d));;
      error ← update dvp (negb async);
      error ← (if negb (error =? 0) then mret error
               else
                 error ← mkdir_block tvp dvp;
                 error ← (if error =? 0 then direnter tvp dvp name else mret error);
                 (if negb (error =? 0) then upd_inode dvp (fun d => or_flag IN_CHANGE (add_nlink (-1) d)) else mret tt);;
                 mret error);
      if negb (error =? 0) then
        upd_inode tvp (fun i => or_flag IN_CHANGE (upd_i_nlink (fun _ => 0) i));;
        vnode_put tvp;;
        mret (error, None)
      else mret (0, Some tvp).

Definition ext2_rmdir (vp dvp : Z) : K Z :=
  i ← VTOI vp;
  d ← VTOI dvp;
  empty ← (if negb (i_nlink i =? 2) then mret 0 else ext2_dirempty vn_read vp (i_number d));
  if empty =? 0 then mret ENOTEMPTY
  else if flagged APPEND d || flagged (Z.lor IMMUTABLE APPEND) i then mret EPERM
  else
    error ← ext2_dirremove fs async dvp;
    if negb (error =? 0) then mret error
    else
      upd_inode dvp (fun d => or_flag IN_CHANGE (add_nlink (-1) d));;
      upd_inode vp (add_nlink (-2));;
      truncate vp 0 IO_SYNC cr_uid.

(** ** Renaming *)

(** [abortit], and the end of the error paths: [xp] is the target while it is
    not NULL. *)
Definition rename_abort (fvp fdvp tdvp : Z) (tvp : option Z) (error : Z) : K Z :=
  vnode_put tdvp;;
  (match tvp with Some tvp => vnode_put tvp | None => mret tt end);;
  vnode_put fdvp;;
  vnode_put fvp;;
  mret error.

Definition rename_out (fvp : Z) (doingdirectory : bool) (error : Z) : K Z :=
  (if doingdirectory then upd_inode fvp (clear_flag IN_RENAME) else mret tt);;
  upd_inode fvp (fun i => clear_flag IN_RENAME (or_flag IN_CHANGE (add_nlink (-1) i)));;
  vnode_put fvp;;
  mret error.

Definition rename_bad (fvp tdvp : Z) (xp : option Z) (doingdirectory : bool) (error : Z) : K Z :=
  (match xp with Some xp => vnode_put xp | None => mret tt end);;
  vnode_put tdvp;;
  rename_out fvp doingdirectory error.

(** "If target doesn't exist, link the target to the source": an errno for
    [bad]. *)
Definition rename_enter (fvp tdvp : Z) (tname : list Z) (moved : bool) : K Z :=
  error ← (if moved then
             d ← VTOI tdvp;
             if u16 (i_nlink d) >=? EXT2_LINK_MAX then mret EMLINK
             else
               upd_inode tdvp (fun d => or_flag IN_CHANGE (add_nlink 1 d));;
               update tdvp (negb async)
           else mret 0);
  if negb (error =? 0) then mret error
  else
    error ← direnter fvp tdvp tname;
    if negb (error =? 0) then
      (if moved then
         upd_inode tdvp (fun d => or_flag IN_CHANGE (add_nlink (-1) d));; _ ← update tdvp true; mret tt
       else mret tt);;
      mret error
    else (vnode_put tdvp;; mret 0).

(** "Otherwise, rewrite the target directory entry": [newparent] tells whether
    the parent changes. The inodes of one mount are on one device. *)
Definition rename_replace (fvp tdvp tvp : Z) (doingdirectory newparent : bool) : K Z :=
  i ← VTOI fvp;
  d ← VTOI tdvp;
  x ← VTOI tvp;
  if i_number x =? i_number i then halt (Panic "ext2_rename: same file")
  else if has_feature (i_mode d) S_ISTXT && negb (cr_uid =? 0) && negb (cr_uid =? i_uid d) && negb (i_uid x =? cr_uid)
  then mret EPERM
  else
    error ← (if Z.land (i_mode x) IFMT =? IFDIR then
               empty ← ext2_dirempty vn_read tvp (i_number d);
               if (empty =? 0) || (i_nlink x >? 2) then mret ENOTEMPTY
               else if negb doingdirectory then mret ENOTDIR else mret 0
             else if doingdirectory then mret EISDIR else mret 0);
    if negb (error =? 0) then mret error
    else
      error ← ext2_dirrewrite fs tdvp (u32 (i_number i)) (i_mode i);
      if negb (error =? 0) then mret error
      else
        (if doingdirectory && negb newparent then upd_inode tdvp (fun d => or_flag IN_CHANGE (add_nlink (-1) d)) else mret tt);;
        vnode_put tdvp;;
        upd_inode tvp (add_nlink (-1));;
        (if doingdirectory then
           upd_inode tvp (add_nlink (-1));;
           x ← VTOI tvp;
           if negb (i_nlink x =? 0) then halt (Panic "ext2_rename: linked directory")
           else (_ ← truncate tvp 0 IO_SYNC cr_uid; mret tt)
         else mret tt);;
        upd_inode tvp (or_flag IN_CHANGE);;
        vnode_put tvp;;
        mret 0.

(** The ".." of a directory that moved; its type is read where the length of the
    name is meant. *)
Definition rename_dotdot (fvp newparent : Z) : K unit :=
  r ← vn_read fvp 24 0;
  match r with
  | inr _ => mret tt
  | inl d =>
      dotdot_type ← lift (e2d_type d 12);
      name ← lift (get_bytes d 20 4);
      if negb (dotdot_type =? 2) || negb (bool_decide (name !! 0%nat = Some dot)) || negb (bool_decide (name !! 1%nat = Some dot))
      then ext2_dirbad ronly "rename: mangled dir"
      else
        d ← lift (put32 d 12 (u32 newparent));
        _ ← vn_write fvp d 0; mret tt
  end.

(** "Unlink the source." The source is always the inode it was before. *)
Definition rename_unlink (fvp fdvp newparent : Z) (moved : bool) : K Z :=
  (if moved then
     upd_inode fdvp (fun d => or_flag IN_CHANGE (add_nlink (-1) d));;
     rename_dotdot fvp newparent
   else mret tt);;
  error ← ext2_dirremove fs async fdvp;
  (if error =? 0 then upd_inode fvp (fun i => or_flag IN_CHANGE (add_nlink (-1) i)) else mret tt);;
  upd_inode fvp (clear_flag IN_RENAME);;
  vnode_put fdvp;;
  vnode_put fvp;;
  vnode_put fvp;;
  mret error.

(** What follows once the source has been checked. *)
Definition rename_move (fvp fdvp tdvp : Z) (tvp : option Z) (tname : list Z) (oldparent : Z) (doingdirectory : bool) : K Z :=
  vnode_put fdvp;;
  d ← VTOI tdvp;
  upd_inode fvp (fun i => or_flag IN_CHANGE (add_nlink 1 i));;
  error ← update fvp (negb async);
  if negb (error =? 0) then rename_bad fvp tdvp tvp doingdirectory error
  else
    let newparent := if oldparent =? s32 (i_number d) then 0 else s32 (i_number d) in
    let moved := doingdirectory && negb (newparent =? 0) in
    error ← (if moved then checkpath fvp tdvp else mret 0);
    if negb (error =? 0) then rename_out fvp doingdirectory error
    else
      error ← (match tvp with
               | None => rename_enter fvp tdvp tname moved
               | Some xp => rename_replace fvp tdvp xp doingdirectory (negb (newparent =? 0))
               end);
      if negb (error =? 0) then rename_bad fvp tdvp tvp doingdirectory error
      else rename_unlink fvp fdvp newparent moved.

(** [isdotdot] is the ISDOTDOT flag of either name. *)
Definition ext2_rename (fvp fdvp tdvp : Z) (tvp : option Z) (fname tname : list Z) (isdotdot : bool) : K Z :=
  let abort := rename_abort fvp fdvp tdvp tvp in
  if negb (vnode_mount fvp =? vnode_mount tdvp) ||
     match tvp with Some tvp => negb (vnode_mount fvp =? vnode_mount tvp) | None => false end
  then abort EXDEV
  else
    denied ← (match tvp with
              | Some tvp => x ← VTOI tvp; d ← VTOI tdvp; mret (flagged (Z.lor IMMUTABLE APPEND) x || flagged APPEND d)
              | None => mret false
              end);
    if (denied : bool) then abort EPERM
    else if bool_decide (Some fvp = tvp) then abort 0
    else
      d ← VTOI fdvp;
      i ← VTOI fvp;
      if i_nlink i >=? EXT2_LINK_MAX then abort EMLINK
      else if flagged (Z.lor IMMUTABLE APPEND) i || flagged APPEND d then abort EPERM
      else if Z.land (i_mode i) IFMT =? IFDIR then
        if bool_decide (fname = [dot]) || (fdvp =? fvp) || isdotdot || has_feature (i_flag i) IN_RENAME then abort EINVAL
        else
          upd_inode fvp (or_flag IN_RENAME);;
          rename_move fvp fdvp tdvp tvp tname (s32 (i_number d)) true
      else rename_move fvp fdvp tdvp tvp tname 0 false.

(** ** Limits *)

Definition NAME_MAX : Z := 255.
Definition PATH_MAX : Z := 1024.
Definition PIPE_BUF : Z := 512.
Definition MAXPATHLEN : Z := 1024.

(** An errno and [*a_retval]. *)
Definition ext2_pathconf (PAGE_SIZE : Z) (name : pathconf_name) : Z + Z :=
  match name with
  | PC_LINK_MAX => inl EXT2_LINK_MAX
  | PC_NAME_MAX => inl NAME_MAX
  | PC_PATH_MAX => inl PATH_MAX
  | PC_PIPE_BUF => inl PIPE_BUF
  | PC_CHOWN_RESTRICTED | PC_NO_TRUNC => inl 1
  | PC_MIN_HOLE_SIZE | PC_REC_INCR_XFER_SIZE | PC_REC_MIN_XFER_SIZE => inl f_iosize
  | PC_ASYNC_IO => inr EINVAL
  | PC_PRIO_IO | PC_SYNC_IO => inl 0
  | PC_ALLOC_SIZE_MIN => inl f_bsize
  | PC_FILESIZEBITS => inl 64
  | PC_REC_MAX_XFER_SIZE => inl (-1)
  | PC_REC_XFER_ALIGN => inl PAGE_SIZE
  | PC_SYMLINK_MAX => inl MAXPATHLEN
  | PC_OTHER _ => inr EINVAL
  end.

End vnops.
