(* ===== verification/FrameOps.v ===== *)
(** Frames that may change any inode: what the operations on files and
    directories leave alone. The frame used is the I/O count this thread holds on
    a vnode. *)
From stdpp Require Import gmap.
From S2P Require Import Prelude Bitmap Bytes Super Ihash Kernel InodeCnv Cluster Alloc Extents Frame Bmap Balloc Dir Inode.

Class FrameInodes (R : world -> world -> Prop) : Prop := fr_inodes : forall f w, R w (upd_w_inodes f w).

#[export] Instance frame_inodes_size R : FrameInodes R -> FrameSize R.
Proof. intros Hf w j i i' _ _. apply fr_inodes. Qed.

Ltac frame_any := frame; try (let Hi := fresh in intros ? ? Hi; apply fr_inodes).

Section ops.
Context `{KE : KernelEnv} (R : world -> world -> Prop) `{!Frame R, !FrameFiles R, !FrameInodes R} (Henv : env_within R).
Context (fs : m_ext2fs) (MAXPHYS cr_uid nocred_uid : Z).

Lemma framed_upd_any j f : framed R (upd_inode j f).
Proof. apply framed_upd_inode. intros w i _. apply fr_inodes. Qed.
#[local] Hint Resolve framed_upd_any : framed.

(** ** ext2_balloc *)

Lemma framed_read_block ip lbn size : framed R (read_file_block ip lbn size).
Proof. unfold read_file_block. frame_any. Qed.
#[local] Hint Resolve framed_read_block : framed.

Lemma framed_buf_clear bp : framed R (buf_clear bp).
Proof. unfold buf_clear. frame_any. Qed.
#[local] Hint Resolve framed_buf_clear : framed.

Lemma framed_clear_if flags bp : framed R (clear_if flags bp).
Proof. unfold clear_if. frame_any. Qed.
#[local] Hint Resolve framed_clear_if : framed.

Lemma framed_ext_balloc ip lbn size flags : framed R (ext2_ext_balloc fs MAXPHYS cr_uid nocred_uid ip lbn size flags).
Proof. unfold ext2_ext_balloc. frame_any. Qed.

Lemma framed_balloc_direct ip lbn size flags : framed R (balloc_direct fs MAXPHYS cr_uid ip lbn size flags).
Proof. unfold balloc_direct, balloc_tail, balloc_new_direct. frame_any. Qed.

Lemma framed_zero_indirect ip newb : framed R (zero_indirect fs MAXPHYS ip newb).
Proof. unfold zero_indirect. frame_any. Qed.
#[local] Hint Resolve framed_zero_indirect : framed.

Lemma framed_balloc_first ip lbn a : framed R (balloc_first fs MAXPHYS cr_uid ip lbn a).
Proof. unfold balloc_first. frame_any. Qed.

Lemma framed_put_indirect b flags : framed R (put_indirect b flags).
Proof. unfold put_indirect. frame_any. Qed.
#[local] Hint Resolve framed_put_indirect : framed.

Lemma framed_balloc_walk ip lbn flags rest : forall indirb pref a,
  framed R (balloc_walk fs MAXPHYS cr_uid ip lbn flags indirb pref a rest).
Proof. induction rest as [|a' rest IH]; intros indirb pref a; cbn [balloc_walk]; frame_any. Qed.

Lemma framed_balloc_data ip lbn flags l : framed R (balloc_data fs MAXPHYS cr_uid ip lbn flags l).
Proof. unfold balloc_data. frame_any. Qed.
#[local] Hint Resolve framed_ext_balloc framed_balloc_direct framed_balloc_first framed_balloc_walk framed_balloc_data : framed.

Lemma framed_balloc ip lbn size flags : framed R (ext2_balloc fs MAXPHYS cr_uid nocred_uid ip lbn size flags).
Proof. unfold ext2_balloc, balloc_indirect. frame_any. Qed.
End ops.
#[export] Hint Resolve framed_upd_any framed_balloc : framed.

(** ** Inodes and truncation *)

Section inode.
Context `{KE : KernelEnv} (R : world -> world -> Prop) `{!Frame R, !FrameFiles R, !FrameInodes R} (Henv : env_within R).
Context (fs : m_ext2fs) (MAXPHYS nocred_uid : Z) (ronly mnt_rdonly async : bool) (vnode_isdev vnode_islnk : Z -> bool).
Context (ubc_setsize : Z -> Z -> M world unit) (buf_invalidateblks : Z -> M world Z).
Context (buf_markinvalid : Z -> M world unit) (buf_setsize : bufref -> Z -> M world unit).

Lemma framed_itimes ip : framed R (ext2_itimes mnt_rdonly vnode_isdev ip).
Proof. unfold ext2_itimes. frame_any. Qed.
#[local] Hint Resolve framed_itimes : framed.

Lemma framed_update ip waitfor : framed R (ext2_update fs ronly mnt_rdonly async vnode_isdev ip waitfor).
Proof. unfold ext2_update. frame_any. Qed.
#[local] Hint Resolve framed_update : framed.

(** The services of the page cache stay within the frame. *)
Context (Hubc : forall ip n, framed R (ubc_setsize ip n)) (Hinval : forall ip, framed R (buf_invalidateblks ip)).
Context (Hmark : forall b, framed R (buf_markinvalid b)) (Hsize : forall bp n, framed R (buf_setsize bp n)).

Lemma framed_bawrite bp : framed R (ref_bawrite bp).
Proof. unfold ref_bawrite. frame_any. Qed.
#[local] Hint Resolve framed_bawrite : framed.

Lemma framed_put_last bp flags : framed R (put_last async bp flags).
Proof. unfold put_last. frame_any. Qed.
#[local] Hint Resolve framed_put_last : framed.

Lemma framed_trunc_entries sub ip bap factor n : (forall k, sub = Some k -> forall a b c, framed R (k a b c)) ->
  forall i nlbn allerror released, framed R (trunc_entries fs MAXPHYS sub ip bap factor n i nlbn allerror released).
Proof.
  intros Hsub. induction n as [|n IH]; intros i nlbn allerror released; cbn [trunc_entries]; [frame_any|].
  destruct sub as [k|]; [specialize (Hsub k eq_refl)|]; frame_any.
Qed.

Lemma framed_indirtrunc ip level : forall lbn dbn lastbn,
  framed R (ext2_indirtrunc fs MAXPHYS async buf_markinvalid level ip lbn dbn lastbn).
Proof.
  induction level as [|level IH]; intros lbn dbn lastbn; cbn [ext2_indirtrunc].
  - assert (forall k : Z -> Z -> Z -> M world (Z * Z), None = Some k -> forall a b c, framed R (k a b c)) as Hsub by done.
    pose proof (fun bap factor => framed_trunc_entries None ip bap factor) as Hent. frame_any.
  - assert (forall k, Some (ext2_indirtrunc fs MAXPHYS async buf_markinvalid level ip) = Some k -> forall a b c, framed R (k a b c)) as Hsub
      by by intros k [= <-].
    pose proof (fun bap factor n => framed_trunc_entries _ ip bap factor n Hsub) as Hent. frame_any.
Qed.
#[local] Hint Resolve framed_indirtrunc : framed.

Lemma framed_trunc_levels ip lasti level : forall allerror released,
  framed R (trunc_levels fs MAXPHYS async buf_markinvalid ip lasti level allerror released).
Proof. induction level as [|level IH]; intros allerror released; cbn [trunc_levels]; frame_any. Qed.
#[local] Hint Resolve framed_trunc_levels : framed.

Lemma framed_trunc_direct ip n : forall i released, framed R (trunc_direct fs MAXPHYS ip n i released).
Proof. induction n as [|n IH]; intros i released; cbn [trunc_direct]; frame_any. Qed.
#[local] Hint Resolve framed_trunc_direct : framed.

Lemma framed_trunc_blocks ip last length lasti allerror :
  framed R (trunc_blocks fs MAXPHYS async buf_markinvalid ip last length lasti allerror).
Proof. unfold trunc_blocks, trunc_frag. frame_any. Qed.
#[local] Hint Resolve framed_trunc_blocks : framed.

Lemma framed_trunc_shrink ip osize length flags cred_uid :
  framed R (trunc_shrink fs MAXPHYS nocred_uid ronly mnt_rdonly async vnode_isdev ubc_setsize buf_invalidateblks buf_markinvalid buf_setsize ip osize length flags cred_uid).
Proof. unfold trunc_shrink, trunc_partial. frame_any. Qed.

Lemma framed_free_run ip n : forall start, framed R (free_run fs MAXPHYS ip start n).
Proof. pose proof framed_free_block. induction n as [|n IH]; intros start; cbn [free_run]; frame_any. Qed.
#[local] Hint Resolve framed_free_run : framed.

Lemma framed_rm_extent ip path lbn len : framed R (ext4_ext_rm_extent fs MAXPHYS ip path lbn len).
Proof. unfold ext4_ext_rm_extent. frame_any. Qed.
#[local] Hint Resolve framed_rm_extent : framed.

Lemma framed_ext_truncate ip length :
  framed R (ext2_ext_truncate fs MAXPHYS ronly mnt_rdonly async vnode_isdev ubc_setsize buf_invalidateblks ip length).
Proof. unfold ext2_ext_truncate. frame_any. Qed.
#[local] Hint Resolve framed_trunc_shrink framed_ext_truncate : framed.

Lemma framed_truncate ip length flags cred_uid :
  framed R (ext2_truncate fs MAXPHYS nocred_uid ronly mnt_rdonly async vnode_isdev vnode_islnk ubc_setsize buf_invalidateblks
    buf_markinvalid buf_setsize ip length flags cred_uid).
Proof. unfold ext2_truncate, trunc_symlink, trunc_grow. frame_any. Qed.
End inode.
#[export] Hint Resolve framed_itimes framed_update : framed.

(** ** Directories *)

Section dir.
Context `{KE : KernelEnv} (R : world -> world -> Prop) `{!Frame R, !FrameFiles R, !FrameInodes R} (Henv : env_within R).
Context (fs : m_ext2fs) (async : bool) (f_bsize : Z) (stale : list Z).
Context (vn_write : Z -> list Z -> Z -> M world Z) (vn_read : Z -> Z -> Z -> M world (list Z + Z)) (truncate : Z -> Z -> M world Z).
Context (Hwrite : forall ip d off, framed R (vn_write ip d off)) (Hread : forall ip n off, framed R (vn_read ip n off)).
Context (Htrunc : forall ip n, framed R (truncate ip n)).

Lemma framed_blkatoff ip off : framed R (ext2_blkatoff fs ip off).
Proof. unfold ext2_blkatoff. frame_any. Qed.
#[local] Hint Resolve framed_blkatoff : framed.

Lemma framed_write_back ip bp blk delay : framed R (write_back ip bp blk delay).
Proof. unfold write_back. frame_any. Qed.
#[local] Hint Resolve framed_write_back : framed.

Lemma framed_dir_update ip f delay off : framed R (dir_update fs ip f delay off).
Proof. unfold dir_update. frame_any. Qed.
#[local] Hint Resolve framed_dir_update : framed.

Lemma framed_dirremove ip : framed R (ext2_dirremove fs async ip).
Proof. unfold ext2_dirremove. frame_any. Qed.

Lemma framed_dirrewrite ip ino mode : framed R (ext2_dirrewrite fs ip ino mode).
Proof. unfold ext2_dirrewrite. frame_any. Qed.

Lemma framed_dirempty ip parentino : framed R (ext2_dirempty vn_read ip parentino).
Proof.
  assert (forall fuel off, framed R (dirempty_loop vn_read ip parentino fuel off)) as Hloop.
  { induction fuel as [|fuel IH]; intros off; cbn [dirempty_loop]; frame_any. }
  unfold ext2_dirempty. frame_any.
Qed.

Lemma framed_direnter ino mode ip name : framed R (ext2_direnter fs async f_bsize stale vn_write truncate ino mode ip name).
Proof. unfold ext2_direnter. frame_any. Qed.
End dir.
#[export] Hint Resolve framed_blkatoff framed_dirremove framed_dirrewrite : framed.

(** ** The I/O counts of vnodes *)

Definition count_frame (vp : Z) (w w' : world) : Prop := iocount w' vp <= iocount w vp.

#[export] Instance count_frame_po vp : PreOrder (count_frame vp).
Proof. unfold count_frame. split; [intros w; lia|intros w1 w2 w3 ??; lia]. Qed.
#[export] Instance count_frame_frame vp : Frame (count_frame vp).
Proof. constructor; [apply _|intros; unfold count_frame; reflexivity..]. Qed.
#[export] Instance count_frame_files vp : FrameFiles (count_frame vp).
Proof. constructor; intros f w; unfold count_frame; reflexivity. Qed.
#[export] Instance count_frame_inodes vp : FrameInodes (count_frame vp).
Proof. intros f w. unfold count_frame. reflexivity. Qed.

Lemma framed_put `{KernelEnv} vp q : framed (count_frame vp) (vnode_put q).
Proof.
  intros w a w'. unfold vnode_put. case_match; [done|]. intros [= _ <-]. unfold count_frame, iocount. cbn.
  destruct (decide (q = vp)) as [->|Hne]; [rewrite lookup_insert_eq; cbn; lia|by rewrite lookup_insert_ne].
Qed.
#[export] Hint Resolve framed_put : framed.
