(* ===== verification/Mount.v ===== *)
(** Mounting and unmounting, ext2_vfsops.c: the superblock in memory and on the
    device, the memory a mount allocates, writing the volume's metadata back,
    and the replay of a journal. *)
From stdpp Require Import gmap.
From S2P Require Import Prelude Bitmap Bytes Super Ihash Kernel InodeCnv Cluster Alloc Extents Bmap Balloc Dir Inode.

(** * The superblock as bytes: struct ext2fs *)

Definition sb_layout : list nat :=
  (replicate 13 4 ++ replicate 6 2 ++ replicate 4 4 ++ [2; 2; 4; 2; 2; 4; 4; 4] ++ replicate 16 1 ++ replicate 16 1 ++
   replicate 64 1 ++ [4; 1; 1; 2] ++ replicate 16 1 ++ [4; 4; 4] ++ replicate 4 4 ++ [1; 1; 2; 4; 4; 4] ++
   replicate 17 4 ++ [4; 4; 4; 2; 2; 4; 2; 2; 8; 4; 1; 1; 2; 8])%nat.

Definition sb_fields (es : ext2fs) : list Z :=
  [e2fs_icount es; e2fs_bcount es; e2fs_rbcount es; e2fs_fbcount es; e2fs_ficount es; e2fs_first_dblock es;
   e2fs_log_bsize es; e2fs_log_fsize es; e2fs_bpg es; e2fs_fpg es; e2fs_ipg es; e2fs_mtime es; e2fs_wtime es] ++
  [e2fs_mnt_count es; e2fs_max_mnt_count es; e2fs_magic es; e2fs_state es; e2fs_beh es; e2fs_minrev es] ++
  [e2fs_lastfsck es; e2fs_fsckintv es; e2fs_creator es; e2fs_rev es] ++
  [e2fs_ruid es; e2fs_rgid es; e2fs_first_ino es; e2fs_inode_size es; e2fs_block_group_nr es;
   e2fs_features_compat es; e2fs_features_incompat es; e2fs_features_rocompat es] ++
  e2fs_uuid es ++ e2fs_vname es ++ e2fs_fsmnt es ++
  [e2fs_algo es; e2fs_prealloc es; e2fs_dir_prealloc es; e2fs_reserved_ngdb es] ++
  e3fs_journal_uuid es ++ [e3fs_journal_inum es; e3fs_journal_dev es; e3fs_last_orphan es] ++ e3fs_hash_seed es ++
  [e3fs_def_hash_version es; e3fs_jnl_backup_type es; e3fs_desc_size es; e3fs_default_mount_opts es;
   e3fs_first_meta_bg es; e3fs_mkfs_time es] ++
  e3fs_jnl_blks es ++
  [e4fs_bcount_hi es; e4fs_rbcount_hi es; e4fs_fbcount_hi es; e4fs_min_extra_isize es; e4fs_want_extra_isize es;
   e4fs_flags es; e4fs_raid_stride es; e4fs_mmpintv es; e4fs_mmpblk es; e4fs_raid_stripe_wid es;
   e4fs_log_gpf es; e4fs_char_pad2 es; e4fs_pad es; e4fs_kbytes_written es].

(** The members by their position; a [char] is read as its byte. *)
Definition member (l : list Z) (n : nat) : Z := nth n l 0.
Definition members (l : list Z) (n k : nat) : list Z := take k (drop n l).

Definition sb_of_fields (l : list Z) : ext2fs :=
  mk_ext2fs (member l 0) (member l 1) (member l 2) (member l 3) (member l 4) (member l 5) (member l 6) (member l 7) (member l 8) (member l 9) (member l 10) (member l 11) (member l 12)
    (member l 13) (member l 14) (member l 15) (member l 16) (member l 17) (member l 18) (member l 19) (member l 20) (member l 21) (member l 22)
    (member l 23) (member l 24) (member l 25) (member l 26) (member l 27) (member l 28) (member l 29) (member l 30)
    (members l 31 16) (members l 47 16) (members l 63 64) (member l 127) (member l 128) (member l 129) (member l 130)
    (members l 131 16) (member l 147) (member l 148) (member l 149) (members l 150 4) (member l 154) (member l 155) (member l 156) (member l 157) (member l 158) (member l 159)
    (members l 160 17) (member l 177) (member l 178) (member l 179) (member l 180) (member l 181) (member l 182) (member l 183) (member l 184) (member l 185) (member l 186) (member l 187) (member l 188) (member l 189) (member l 190).

Definition sizeof_reserved2 : nat := 640.

(** [reserved2], the rest of the block, comes along with the members. *)
Definition sb_load (bs : list Z) : res (ext2fs * list Z) :=
  l ← fields_get bs 0 sb_layout;
  rest ← get_bytes bs (layout_size sb_layout) sizeof_reserved2;
  mret (sb_of_fields l, rest).

Definition sb_bytes (es : ext2fs) (reserved2 : list Z) : list Z := fields_encode sb_layout (sb_fields es) ++ reserved2.

Definition ext2fs_eta (es : ext2fs) : ext2fs :=
  mk_ext2fs (e2fs_icount es) (e2fs_bcount es) (e2fs_rbcount es) (e2fs_fbcount es) (e2fs_ficount es) (e2fs_first_dblock es)
    (e2fs_log_bsize es) (e2fs_log_fsize es) (e2fs_bpg es) (e2fs_fpg es) (e2fs_ipg es) (e2fs_mtime es) (e2fs_wtime es)
    (e2fs_mnt_count es) (e2fs_max_mnt_count es) (e2fs_magic es) (e2fs_state es) (e2fs_beh es) (e2fs_minrev es)
    (e2fs_lastfsck es) (e2fs_fsckintv es) (e2fs_creator es) (e2fs_rev es) (e2fs_ruid es) (e2fs_rgid es)
    (e2fs_first_ino es) (e2fs_inode_size es) (e2fs_block_group_nr es)
    (e2fs_features_compat es) (e2fs_features_incompat es) (e2fs_features_rocompat es)
    (e2fs_uuid es) (e2fs_vname es) (e2fs_fsmnt es) (e2fs_algo es) (e2fs_prealloc es) (e2fs_dir_prealloc es)
    (e2fs_reserved_ngdb es) (e3fs_journal_uuid es) (e3fs_journal_inum es) (e3fs_journal_dev es) (e3fs_last_orphan es)
    (e3fs_hash_seed es) (e3fs_def_hash_version es) (e3fs_jnl_backup_type es) (e3fs_desc_size es)
    (e3fs_default_mount_opts es) (e3fs_first_meta_bg es) (e3fs_mkfs_time es) (e3fs_jnl_blks es)
    (e4fs_bcount_hi es) (e4fs_rbcount_hi es) (e4fs_fbcount_hi es) (e4fs_min_extra_isize es) (e4fs_want_extra_isize es)
    (e4fs_flags es) (e4fs_raid_stride es) (e4fs_mmpintv es) (e4fs_mmpblk es) (e4fs_raid_stripe_wid es)
    (e4fs_log_gpf es) (e4fs_char_pad2 es) (e4fs_pad es) (e4fs_kbytes_written es).

Definition upd_e2fs_fbcount : (Z -> Z) -> ext2fs -> ext2fs := ltac:(mk_setter ext2fs_eta e2fs_fbcount).
Definition upd_e2fs_ficount : (Z -> Z) -> ext2fs -> ext2fs := ltac:(mk_setter ext2fs_eta e2fs_ficount).
Definition upd_e2fs_wtime : (Z -> Z) -> ext2fs -> ext2fs := ltac:(mk_setter ext2fs_eta e2fs_wtime).
Definition upd_e2fs_state : (Z -> Z) -> ext2fs -> ext2fs := ltac:(mk_setter ext2fs_eta e2fs_state).
Definition upd_e3fs_jnl_blks : (list Z -> list Z) -> ext2fs -> ext2fs := ltac:(mk_setter ext2fs_eta e3fs_jnl_blks).

(** * The state of a mount *)

(** What a mount allocates. *)
Inductive obj : Type := Ump | MFs | Es | Lock | Gd | Contigdirs | MaxCluster | ClusterSum | CsSum (i : Z).

Definition obj_code (o : obj) : Z * Z :=
  match o with
  | Ump => (0, 0) | MFs => (1, 0) | Es => (2, 0) | Lock => (3, 0) | Gd => (4, 0) | Contigdirs => (5, 0)
  | MaxCluster => (6, 0) | ClusterSum => (7, 0) | CsSum i => (8, i)
  end.
Definition obj_of (c : Z * Z) : obj :=
  match c with
  | (0, _) => Ump | (1, _) => MFs | (2, _) => Es | (3, _) => Lock | (4, _) => Gd | (5, _) => Contigdirs
  | (6, _) => MaxCluster | (7, _) => ClusterSum | (_, i) => CsSum i
  end.

#[export] Instance obj_eq_dec : EqDecision obj.
Proof. solve_decision. Defined.
#[export] Instance obj_countable : Countable obj.
Proof. by apply (inj_countable' obj_code obj_of); intros []. Defined.

(** [k_heap] is the memory that is allocated, [k_ptrs] the pointers to it in the
    structures that are not NULL, which a free leaves as they are. The world is
    the running volume, with the counters of the superblock in it; [k_es] holds
    the other members of the superblock. *)
Record mstate : Type := mk_mstate {
  k_world : world;
  k_heap : gset obj;
  k_ptrs : gset obj;
  k_es : ext2fs;
  k_reserved2 : list Z;
  k_fs : m_ext2fs;
  k_wasvalid : bool;
  k_fsprivate : bool;
  k_local : bool
}.

Definition mstate_eta (s : mstate) : mstate :=
  mk_mstate (k_world s) (k_heap s) (k_ptrs s) (k_es s) (k_reserved2 s) (k_fs s) (k_wasvalid s) (k_fsprivate s) (k_local s).
Definition upd_k_world : (world -> world) -> mstate -> mstate := ltac:(mk_setter mstate_eta k_world).
Definition upd_k_heap : (gset obj -> gset obj) -> mstate -> mstate := ltac:(mk_setter mstate_eta k_heap).
Definition upd_k_ptrs : (gset obj -> gset obj) -> mstate -> mstate := ltac:(mk_setter mstate_eta k_ptrs).
Definition upd_k_es : (ext2fs -> ext2fs) -> mstate -> mstate := ltac:(mk_setter mstate_eta k_es).
Definition upd_k_reserved2 : (list Z -> list Z) -> mstate -> mstate := ltac:(mk_setter mstate_eta k_reserved2).
Definition upd_k_fs : (m_ext2fs -> m_ext2fs) -> mstate -> mstate := ltac:(mk_setter mstate_eta k_fs).
Definition upd_k_wasvalid : (bool -> bool) -> mstate -> mstate := ltac:(mk_setter mstate_eta k_wasvalid).
Definition upd_k_fsprivate : (bool -> bool) -> mstate -> mstate := ltac:(mk_setter mstate_eta k_fsprivate).
Definition upd_k_local : (bool -> bool) -> mstate -> mstate := ltac:(mk_setter mstate_eta k_local).

Abbreviation KM := (M mstate).

(** A step of the running volume. *)
Definition on_world {A} (m : M world A) : KM A := fun s =>
  match m (k_world s) with Ok (a, w) => Ok (a, upd_k_world (fun _ => w) s) | Fault f => Fault f end.

(** ** Memory *)

Section mount.
Context `{KernelEnv} (MAXPHYS : Z).

(** MNT_RDONLY and MNT_FORCE, and which allocations give NULL. *)
Context (ronly force : bool) (malloc_null : obj -> bool).

(** An allocation: whether the pointer is not NULL. *)
Definition kalloc (o : obj) : KM bool :=
  if malloc_null o then mret false
  else (modify (fun s => upd_k_ptrs ({[o]} ∪.) (upd_k_heap ({[o]} ∪.) s));; mret true).

(** [_FREE] and [lck_mtx_free] of a pointer, which may be NULL. *)
Definition kfree (o : obj) : KM unit := fun s =>
  if decide (o ∈ k_ptrs s) then
    if decide (o ∈ k_heap s) then Ok (tt, upd_k_heap (.∖ {[o]}) s) else Fault HeapMisuse
  else Ok (tt, s).

Definition not_null (o : obj) : KM bool := gets (fun s => bool_decide (o ∈ k_ptrs s)).

(** The bytes of an array of [n] elements whose size is computed in an [int]:
    [(int)(n * sizeof)], as [_MALLOC] takes it. *)
Definition int_bytes (n size : Z) : Z := u64 (s32 (u64 (n * size))).
Definition sizeof_csum : Z := 16.

(** [_FREE(sump->cs_sum)] of [n] groups, from the first on. *)
Fixpoint free_cs_sums (n : nat) : KM unit :=
  match n with O => mret tt | S n' => free_cs_sums n';; kfree (CsSum (Z.of_nat n')) end.

Definition free_clustersum : KM unit :=
  p ← not_null ClusterSum;
  if (p : bool) then
    fs ← gets k_fs;
    let n := s32 (m_gcount fs) in
    if sizeof_csum * n >? int_bytes (m_gcount fs) sizeof_csum then halt OutOfBounds
    else (free_cs_sums (Z.to_nat n);; kfree ClusterSum)
  else mret tt.

(** ** Writing the metadata back *)

(** The superblock in memory. *)
Definition es_now (s : mstate) : ext2fs :=
  upd_e2fs_ficount (fun _ => w_ficount (k_world s)) (upd_e2fs_fbcount (fun _ => w_fbcount (k_world s)) (k_es s)).

(** [MNT_WAIT] or not: [buf_bwrite] or [buf_bawrite]. *)
Definition put_block (waitfor : bool) (b : Z) : KM Z :=
  if waitfor then on_world (buf_bwrite b) else (on_world (buf_bdwrite b);; mret 0).

Definition ext2_sbupdate (waitfor : bool) : KM Z :=
  ok ← on_world (buf_getblk SBLOCK SBSIZE);
  if negb ok then mret EIO
  else
    s ← gets id;
    on_world (buf_store SBLOCK (sb_bytes (es_now s) (k_reserved2 s)));;
    put_block waitfor SBLOCK.

(** The table behind [fs->e2fs_gd], which the allocator updates in place. *)
Fixpoint store_gds (gdsize i : Z) (gds : list ext2_gd) (tbl : list Z) : res (list Z) :=
  match gds with
  | [] => mret tbl
  | gd :: gds' => tbl' ← EXT2_GD_store tbl gdsize i gd; store_gds gdsize (i + 1) gds' tbl'
  end.
Definition gd_table (s : mstate) : res (list Z) := store_gds (m_gdsize (k_fs s)) 0 (w_gd (k_world s)) (m_gd (k_fs s)).

(** The device block of the [i]-th block of the table. *)
Definition gd_block (fs : m_ext2fs) (i : Z) : Z := fsbtodb fs (u32 (e2fs_first_dblock (m_e2fs fs) + 1 + i)).

(** The table's blocks from the [i]-th on: [error] and [allerror] of the code. *)
Fixpoint cgupdate_loop (waitfor : bool) (n : nat) (i error allerror : Z) : KM (Z * Z) :=
  match n with
  | O => mret (error, allerror)
  | S n' =>
      fs ← gets k_fs;
      let b := gd_block fs i in
      ok ← on_world (buf_getblk b (m_bsize fs));
      if negb ok then mret (error, EIO)
      else
        s ← gets id;
        tbl ← lift (gd_table s);
        d ← lift (get_bytes tbl (i * m_bsize fs) (Z.to_nat (m_bsize fs)));
        on_world (buf_store b d);;
        e ← put_block waitfor b;
        cgupdate_loop waitfor n' (i + 1) (if waitfor then e else error) allerror
  end.

Definition ext2_cgupdate (waitfor : bool) : KM Z :=
  allerror ← ext2_sbupdate waitfor;
  fs ← gets k_fs;
  r ← cgupdate_loop waitfor (Z.to_nat (s32 (m_gdbcount fs))) 0 0 allerror;
  let '(error, allerror) := r in
  mret (if (allerror =? 0) && negb (error =? 0) then error else allerror).

(** ** Synchronisation *)

Section sync.
(** The vnodes [vnode_iterate] visits, and what [ext2_update] needs. *)
Context (vnodes : world -> list Z) (mnt_rdonly async : bool) (vnode_isdev : Z -> bool).

(** The callback: [sa_error] after it. *)
Definition ext2_sync_callback (waitfor : bool) (vp sa_error : Z) : KM Z :=
  o ← gets (fun s => w_inodes (k_world s) !! vp);
  match o with
  | None => mret sa_error
  | Some i =>
      if any_flag i (Z.lor IN_ACCESS (Z.lor IN_CHANGE (Z.lor IN_MODIFIED IN_UPDATE))) then
        fs ← gets k_fs;
        error ← on_world (ext2_update fs ronly mnt_rdonly async vnode_isdev vp waitfor);
        mret (if negb (error =? 0) then error else sa_error)
      else mret sa_error
  end.

Fixpoint sync_vnodes (waitfor : bool) (vps : list Z) (sa_error : Z) : KM Z :=
  match vps with
  | [] => mret sa_error
  | vp :: vps' => sa_error ← ext2_sync_callback waitfor vp sa_error; sync_vnodes waitfor vps' sa_error
  end.

Definition ext2_sync (waitfor : bool) : KM Z :=
  fmod ← gets (fun s => w_fmod (k_world s));
  if negb (fmod =? 0) && ronly then mret EINVAL
  else
    vps ← gets (fun s => vnodes (k_world s));
    sa_error ← sync_vnodes waitfor vps 0;
    fmod ← gets (fun s => w_fmod (k_world s));
    if negb (fmod =? 0) then
      modify (upd_k_world (upd_w_fmod (fun _ => 0)));;
      ts ← on_world nanotime;
      modify (upd_k_es (upd_e2fs_wtime (fun _ => u32 (fst ts))));;
      error ← ext2_cgupdate waitfor;
      mret (if negb (error =? 0) then error else sa_error)
    else mret sa_error.
End sync.

(** ** Replaying a journal *)

Definition EXT2_JOURNALINO : Z := 8.
Definition JBD_MAGIC : Z := 0xc03b3998.
Definition JBD_DESCRIPTOR_BLOCK : Z := 1.
Definition JBD_COMMIT_BLOCK : Z := 2.
Definition sizeof_jbd_header : Z := 12.

(** [jbp]: the buffer behind each journal block, by its device block. *)
Definition journal_bufs : Type := list (option Z).

(** The copy of one journalled block to its place: [jsb_bp] afterwards. *)
Definition replay_block (bsize jb tag : Z) (jsb : option Z) : KM (option Z) :=
  d ← on_world (buf_dataptr jb);
  magic ← lift (get32 d 0);
  let jdata := if magic =? JBD_MAGIC then sizeof_jbd_header else 0 in
  ok ← on_world (buf_getblk tag bsize);
  if negb ok then mret None
  else
    data ← lift (get_bytes d jdata (Z.to_nat bsize));
    on_world (buf_store tag data);;
    _ ← on_world (buf_bwrite tag);
    mret (Some tag).

(** The tags of the descriptor block [d], read from block [home], from offset
    [p] on; [i] moves along with them. The bound of the loop is computed from
    the buffer of the current [i]; with the buffer of another block the
    comparison has no meaning. *)
Fixpoint replay_tags (fuel : nat) (nblocks start bsize home : Z) (jbp : journal_bufs) (d : list Z) (p i : Z) (jsb : option Z)
    : KM (Z * option Z) :=
  match fuel with
  | O => halt NoFuel
  | S fuel' =>
      o ← lift (access (jbp !z i));
      jb ← (match o with Some jb => mret jb | None => halt NullDeref end);
      if negb (jb =? home) then halt OutOfBounds
      else if p + 8 >? bsize then mret (i, jsb)
      else
        tag ← lift (get32 d p);
        if tag =? 0 then mret (i, jsb)
        else
          let i := i + 1 in
          let i := if u32 (start + i) >=? nblocks then s32 (u32 (i - nblocks)) else i in
          o ← lift (access (jbp !z i));
          jsb ← (match o with Some jb => replay_block bsize jb tag jsb | None => mret jsb end);
          let p := p + 8 in
          flags ← lift (get32 d (p + 4));
          if negb (Z.land flags 8 =? 0) then mret (i, jsb)
          else replay_tags fuel' nblocks start bsize home jbp d p i jsb
  end.

(** The walk over the journal: the buffers, [next_sequence] and [jsb_bp]. *)
Fixpoint replay_loop (fuel : nat) (nblocks start bsize : Z) (jbp : journal_bufs) (i next_sequence : Z) (jsb : option Z)
    : KM (journal_bufs * Z * option Z) :=
  if negb (i <? s32 nblocks) then mret (jbp, next_sequence, jsb)
  else
    match fuel with
    | O => halt NoFuel
    | S fuel' =>
        let dbn := u32 (start + u32 i) in
        let dbn := if dbn >=? nblocks then u32 (dbn - nblocks) else dbn in
        _ ← lift (access (jbp !z i));
        error ← on_world (buf_meta_bread dbn bsize);
        let jbp := zinsert i (Some dbn) jbp in
        if negb (error =? 0) then mret (jbp, next_sequence, jsb)
        else
          d ← on_world (buf_dataptr dbn);
          magic ← lift (get32 d 0);
          blocktype ← lift (get32 d 4);
          seq ← lift (get32 d 8);
          if negb (magic =? JBD_MAGIC) || negb (seq =? next_sequence) then
            on_world (buf_brelse dbn);;
            mret (zinsert i None jbp, next_sequence, jsb)
          else if blocktype =? JBD_COMMIT_BLOCK then
            replay_loop fuel' nblocks start bsize jbp (i + 1) (u32 (next_sequence + 1)) jsb
          else if blocktype =? JBD_DESCRIPTOR_BLOCK then
            r ← replay_tags (Z.to_nat bsize) nblocks start bsize dbn jbp d sizeof_jbd_header i jsb;
            let '(i, jsb) := r in
            replay_loop fuel' nblocks start bsize jbp (i + 1) next_sequence jsb
          else replay_loop fuel' nblocks start bsize jbp (i + 1) next_sequence jsb
    end.

Fixpoint release_journal (jbp : journal_bufs) : KM unit :=
  match jbp with
  | [] => mret tt
  | Some b :: jbp' => on_world (buf_brelse b);; release_journal jbp'
  | None :: jbp' => release_journal jbp'
  end.

(** The array of buffers is allocated and freed here; an allocation that gives
    NULL is not modelled, as the first access would fault. *)
Definition ext2_journal_replay : KM unit :=
  es ← gets k_es;
  fs ← gets k_fs;
  start ← lift (access (e3fs_jnl_blks es !! 0%nat));
  if start =? 0 then mret tt
  else
    seq ← lift (access (e3fs_jnl_blks es !! 1%nat));
    let sequence := if seq =? 0 then 1 else seq in
    nblocks ← lift (access (e3fs_jnl_blks es !! 2%nat));
    if nblocks =? 0 then mret tt
    else
      r ← replay_loop (Z.to_nat nblocks) nblocks start (m_bsize fs) (replicate (Z.to_nat nblocks) None) 0 sequence None;
      let '(jbp, next_sequence, jsb) := r in
      modify (upd_k_es (upd_e3fs_jnl_blks (fun l => <[0%nat := 0]> (<[1%nat := next_sequence]> l))));;
      modify (upd_k_world (upd_w_fmod (fun _ => 1)));;
      release_journal jbp;;
      match jsb with Some b => on_world (buf_brelse b) | None => mret tt end.

(** ** Mounting *)

Fixpoint decode_gds (tbl : list Z) (gdsize i : Z) (n : nat) : res (list ext2_gd) :=
  match n with
  | O => mret []
  | S n' => gd ← EXT2_GD tbl gdsize i; gds ← decode_gds tbl gdsize (i + 1) n'; mret (gd :: gds)
  end.

(** The read loop of [compute_sb_data], through the buffer cache: an errno, with
    the arrays freed, or the table, which has [size] bytes. *)
Fixpoint read_table (fs : m_ext2fs) (size : Z) (n : nat) (i : Z) (tbl : list Z) : KM (list Z + Z) :=
  match n with
  | O => mret (inl tbl)
  | S n' =>
      let b := fsbtodb fs i in
      error ← on_world (buf_meta_bread b (m_bsize fs));
      if negb (error =? 0) then
        kfree Contigdirs;; kfree Gd;; on_world (buf_brelse b);; mret (inr error)
      else
        d ← on_world (buf_dataptr b);
        p ← not_null Gd;
        if negb p then halt NullDeref
        else if zlen tbl + m_bsize fs >? size then halt OutOfBounds
        else (on_world (buf_brelse b);; read_table fs size n' (i + 1) (tbl ++ d))
  end.

(** [compute_sb_data] as [ext2_mountfs] calls it: the in-core superblock, the
    arrays it allocates, and the descriptors of the running volume. *)
Definition mount_sb_data : KM Z :=
  es ← gets k_es;
  g ← lift (sb_geometry es);
  match g with
  | inr error => mret error
  | inl (fs, db_count) =>
      modify (upd_k_fs (fun _ => fs));;
      _ ← kalloc Gd;
      _ ← kalloc Contigdirs;
      r ← read_table fs (gd_alloc (m_bsize fs) db_count) (Z.to_nat db_count) (logic_sb_block (m_bsize fs) + 1) [];
      match r with
      | inr error => mret error
      | inl tbl =>
          total_dir ← lift (total_dir_loop tbl (m_gdsize fs) 0 (Z.to_nat (s32 (m_gcount fs))) 0);
          gds ← lift (decode_gds tbl (m_gdsize fs) 0 (Z.to_nat (m_gcount fs)));
          let fs := with_table fs tbl total_dir in
          modify (upd_k_fs (fun _ => fs));;
          modify (upd_k_world (fun w => upd_w_contigdirs (fun _ => m_contigdirs fs)
            (upd_w_total_dir (fun _ => total_dir) (upd_w_gd (fun _ => gds) w))));;
          mret 0
      end
  end.

(** The cluster summary of [n] groups from the [i]-th on, in arrays of [lp] and
    [sump] bytes: false when an allocation failed. *)
Fixpoint alloc_cs_sums (lp sump : Z) (n : nat) (i : Z) : KM bool :=
  match n with
  | O => mret true
  | S n' =>
      if (4 * (i + 1) >? lp) || (sizeof_csum * (i + 1) >? sump) then halt OutOfBounds
      else
        p ← kalloc (CsSum i);
        if negb p then mret false else alloc_cs_sums lp sump n' (i + 1)
  end.

Definition alloc_clustersum : KM Z :=
  fs ← gets k_fs;
  let size := contigsumsize fs MAXPHYS in
  if negb (size >? 0) then mret 0
  else
    p1 ← kalloc MaxCluster;
    p2 ← kalloc ClusterSum;
    if negb (p1 && p2) then mret ENOMEM
    else
      ok ← alloc_cs_sums (int_bytes (m_gcount fs) 4) (int_bytes (m_gcount fs) sizeof_csum) (Z.to_nat (s32 (m_gcount fs))) 0;
      if negb ok then mret ENOMEM
      else
        let n := Z.to_nat (m_gcount fs) in
        modify (upd_k_world (fun w => upd_w_clustersum (fun _ => replicate n (mk_csum 0 (replicate (Z.to_nat (size + 1)) 0)))
          (upd_w_maxcluster (fun _ => replicate n size) w)));;
        mret 0.

(** The label [out]: [bp] is the superblock's buffer, while it is held. *)
Definition mountfs_out (bp : bool) (error : Z) : KM Z :=
  (if bp then on_world (buf_brelse SBLOCK) else mret tt);;
  p ← not_null Ump;
  if negb p then mret error
  else
    kfree Lock;;
    p ← not_null MFs;
    (if (p : bool) then
       free_clustersum;;
       kfree MaxCluster;; kfree Gd;; kfree Contigdirs;; kfree Es;; kfree MFs
     else mret tt);;
    kfree Ump;;
    modify (upd_k_fsprivate (fun _ => false));;
    mret error.

(** The allocations before the superblock is copied, in order: false when one
    gave NULL. *)
Fixpoint kallocs (os : list obj) : KM bool :=
  match os with
  | [] => mret true
  | o :: os' => p ← kalloc o; if (p : bool) then kallocs os' else mret false
  end.

(** The end of [ext2_mountfs], once nothing can fail any more. *)
Definition mountfs_finish : KM Z :=
  modify (fun s => upd_k_wasvalid (fun _ => has_feature (e2fs_state (k_es s)) E2FS_ISCLEAN) s);;
  (if ronly then mret tt
   else
     modify (upd_k_world (upd_w_fmod (fun _ => 1)));;
     modify (upd_k_es (upd_e2fs_state (fun s => Z.ldiff s E2FS_ISCLEAN))));;
  modify (upd_k_fsprivate (fun _ => true));;
  modify (upd_k_local (fun _ => true));;
  (if ronly then mret tt else (_ ← ext2_sbupdate true; mret tt));;
  mret 0.

Definition ext2_mountfs : KM Z :=
  error ← on_world (buf_meta_bread SBLOCK SBSIZE);
  if negb (error =? 0) then mountfs_out true error
  else
    d ← on_world (buf_dataptr SBLOCK);
    r ← lift (sb_load d);
    let '(es, rest) := r in
    match mountfs_admit es ronly force with
    | Some error => mountfs_out true error
    | None =>
        ok ← kallocs [Ump; MFs; Es; Lock];
        if negb ok then mountfs_out true ENOMEM
        else
          modify (fun s => upd_k_world (fun w => upd_w_ficount (fun _ => e2fs_ficount es) (upd_w_fbcount (fun _ => e2fs_fbcount es) w))
            (upd_k_reserved2 (fun _ => rest) (upd_k_es (fun _ => es) s)));;
          error ← mount_sb_data;
          if negb (error =? 0) then mountfs_out true error
          else
            on_world (buf_brelse SBLOCK);;
            (if negb ronly && has_feature (e2fs_features_incompat es) EXT2F_INCOMPAT_RECOVER
             then ext2_journal_replay else mret tt);;
            error ← alloc_clustersum;
            if negb (error =? 0) then mountfs_out false error else mountfs_finish
    end.

Definition EXT2_ARGSVERSION : Z := 1.

(** [data] is None for a NULL pointer; [copyin] gives an errno or the version. *)
Definition ext2_mount (isupdate : bool) (data : option (Z + Z)) : KM Z :=
  if isupdate then mret ENOTSUP
  else
    let error := match data with
                 | Some (inr error) => error
                 | Some (inl version) => if version =? EXT2_ARGSVERSION then 0 else EINVAL
                 | None => 0
                 end in
    if negb (error =? 0) then mret error
    else
      error ← ext2_mountfs;
      if negb (error =? 0) then mret error
      else (fs ← gets k_fs; _ ← lift (statfs_internal fs); mret 0).

(** ** Unmounting *)

Definition ext2_unmount (vflush : M world Z) (buf_invalidateblks : M world Z) : KM Z :=
  error ← on_world vflush;
  if negb (error =? 0) then mret error
  else
    (if ronly then mret tt
     else
       error ← ext2_cgupdate true;
       if error =? 0 then
         wasvalid ← gets k_wasvalid;
         (if (wasvalid : bool) then modify (upd_k_es (upd_e2fs_state (fun s => Z.lor s E2FS_ISCLEAN))) else mret tt);;
         _ ← ext2_sbupdate true; mret tt
       else mret tt);;
    _ ← on_world buf_invalidateblks;
    free_clustersum;;
    kfree MaxCluster;; kfree Gd;; kfree Contigdirs;; kfree Es;; kfree MFs;;
    kfree Lock;; kfree Ump;;
    modify (upd_k_fsprivate (fun _ => false));;
    modify (upd_k_local (fun _ => false));;
    mret 0.

(** ** Attributes of the volume *)

Record vfs_attr : Type := mk_vfs_attr {
  va_bsize : Z; va_iosize : Z; va_blocks : Z; va_bfree : Z; va_bavail : Z; va_bused : Z; va_files : Z; va_ffree : Z
}.

(** The capability words, which are constants, are left out. *)
Definition ext2_vfs_getattr : KM (vfs_attr + Z) :=
  s ← gets id;
  let fs := k_fs s in
  r ← lift (statfs_internal (mk_m_ext2fs (es_now s) (m_bsize fs) (m_bshift fs) (m_bpg fs) (m_qbmask fs) (m_fsbtodb fs)
    (m_ipg fs) (m_ipb fs) (m_itpg fs) (m_fsize fs) (m_fpb fs) (m_fpg fs) (m_gdbcount fs) (m_gcount fs) (m_isize fs)
    (m_total_dir fs) (m_contigdirs fs) (m_maxfilesize fs) (m_gd fs) (m_gdsize fs)));
  match r with
  | inr error => mret (inr error)
  | inl st => mret (inl (mk_vfs_attr (f_bsize st) (f_iosize st) (f_blocks st) (f_bfree st) (f_bavail st)
      (u64 (f_blocks st - f_bfree st)) (f_files st) (f_ffree st)))
  end.

End mount.
