(* ===== verification/MountSpec.v ===== *)
(** Mounting: what the superblock on the device holds, the memory of a mount,
    and that a volume unmounted in order is mounted again as it was. *)
From stdpp Require Import gmap.
From S2P Require Import Prelude Bitmap Bytes Super Ihash Kernel InodeCnv Cluster Alloc AllocSpec Extents Bmap Balloc BallocSpec Dir Inode Mount.
From stdpp Require Import list.
#[local] Open Scope Z_scope.

(** * The superblock and the descriptors as bytes *)

Record sb_ok (es : ext2fs) : Prop := mk_sb_ok {
  so_fit : fields_fit sb_layout (sb_fields es);
  so_uuid : length (e2fs_uuid es) = 16%nat;
  so_vname : length (e2fs_vname es) = 16%nat;
  so_fsmnt : length (e2fs_fsmnt es) = 64%nat;
  so_juuid : length (e3fs_journal_uuid es) = 16%nat;
  so_seed : length (e3fs_hash_seed es) = 4%nat;
  so_jnl : length (e3fs_jnl_blks es) = 17%nat
}.

Lemma members_app pre l post n k : length pre = n -> length l = k -> members (pre ++ l ++ post) n k = l.
Proof. intros <- <-. unfold members. by rewrite drop_app_length, take_app_length. Qed.

Lemma sb_of_sb_fields es : sb_ok es -> sb_of_fields (sb_fields es) = es.
Proof.
  intros [_ H1 H2 H3 H4 H5 H6]. destruct es as []. cbn in H1, H2, H3, H4, H5, H6.
  repeat match goal with
  | H : length ?l = S _ |- _ => destruct l as [|? l]; [discriminate H|]; apply (f_equal Nat.pred) in H; cbn in H
  | H : length ?l = O |- _ => apply nil_length_inv in H; subst l
  end. reflexivity.
Qed.

Lemma fields_get_prefix ws vs rest :
  fields_fit ws vs -> length ws = length vs -> fields_get (fields_encode ws vs ++ rest) 0 ws = Ok vs.
Proof.
  intros Hf Hl. set (z := replicate (length (fields_encode ws vs)) 0).
  assert (fields_put (z ++ rest) 0 ws vs = Ok (fields_encode ws vs ++ rest)) as Hput.
  { unfold fields_put. rewrite put_bytes_ok; [|done|unfold zlen, z; rewrite length_app, length_replicate; lia].
    change (Z.to_nat 0) with 0%nat. cbn [take app Nat.add]. rewrite drop_app_length'; [done|]. unfold z. by rewrite length_replicate. }
  exact (fields_get_put _ _ _ _ _ Hput Hf).
Qed.

Lemma sb_fields_len es : sb_ok es -> length sb_layout = length (sb_fields es).
Proof. intros [_ H1 H2 H3 H4 H5 H6]. unfold sb_fields. rewrite !length_app, H1, H2, H3, H4, H5, H6. reflexivity. Qed.

Lemma sb_load_bytes es rest : sb_ok es -> length rest = sizeof_reserved2 -> sb_load (sb_bytes es rest) = Ok (es, rest).
Proof.
  intros Hok Hr. pose proof (sb_fields_len es Hok) as Hl. unfold sb_load, sb_bytes.
  rewrite fields_get_prefix by (try apply Hok; done). cbn [mbind res_bind].
  pose proof (fields_encode_len sb_layout (sb_fields es) Hl) as He.
  rewrite get_bytes_ok by (rewrite ?zlen_app, ?He; unfold zlen; vm_compute layout_size; unfold sizeof_reserved2 in *; lia).
  cbn [mbind res_bind]. rewrite sb_of_sb_fields by done. rewrite <- He. unfold zlen.
  rewrite drop_app_length' by lia. by rewrite take_ge by (rewrite Hr; unfold sizeof_reserved2; lia).
Qed.

Lemma sb_bytes_len es rest : sb_ok es -> length rest = sizeof_reserved2 -> zlen (sb_bytes es rest) = SBSIZE.
Proof.
  intros Hok Hr. unfold sb_bytes. rewrite zlen_app, (fields_encode_len _ _ (sb_fields_len es Hok)). unfold zlen. rewrite Hr. reflexivity.
Qed.

Lemma store_gds_spec gdsize gds : 32 <= gdsize -> Forall gd_in_range gds -> forall i tbl,
  0 <= i -> (i + zlen gds) * gdsize <= zlen tbl ->
  exists tbl', store_gds gdsize i gds tbl = Ok tbl' /\ zlen tbl' = zlen tbl /\
    decode_gds tbl' gdsize i (length gds) = Ok gds /\
    (forall j, j < i -> EXT2_GD tbl' gdsize j = EXT2_GD tbl gdsize j).
Proof.
  intros Hg. induction 1 as [|gd gds Hgd _ IH]; intros i tbl Hi Hlen; [by exists tbl|].
  assert (zlen (gd :: gds) = 1 + zlen gds) as Hz by (unfold zlen; cbn [length]; lia). rewrite Hz in Hlen.
  pose proof (Zle_0_nat (length gds)). assert (0 <= zlen gds) by (unfold zlen; lia).
  assert (zlen (fields_encode gd_layout (gd_fields gd)) = 32) as He by (by rewrite fields_encode_len).
  assert (exists tbl1, EXT2_GD_store tbl gdsize i gd = Ok tbl1) as [tbl1 H1].
  { unfold EXT2_GD_store, fields_put. eexists. apply put_bytes_ok; [nia|]. rewrite He. nia. }
  pose proof (gd_store_get _ _ _ _ _ Hg Hgd H1) as [Hget Hother].
  assert (zlen tbl1 = zlen tbl) as Hl1 by (by eapply put_bytes_len).
  destruct (IH (i + 1) tbl1) as (tbl' & Hst & Hl' & Hdec & Hbelow); [lia|rewrite Hl1; nia|].
  exists tbl'. cbn [store_gds]. rewrite H1. cbn [mbind res_bind]. split; [done|]. split; [lia|]. split.
  - cbn [length decode_gds]. rewrite Hbelow, Hget by lia. cbn [mbind res_bind]. rewrite Hdec. done.
  - intros j Hj. rewrite Hbelow by lia. apply Hother. lia.
Qed.

(** * Steps of a mount *)

Section mount.
Context `{KE : KernelEnv} (MAXPHYS : Z) (ronly force : bool).

Lemma wp_on_world {A} (m : M world A) (Q : A -> mstate -> Prop) s :
  wp m (fun a w => Q a (upd_k_world (fun _ => w) s)) (k_world s) -> wp (on_world m) Q s.
Proof. unfold wp, on_world. by destruct (m (k_world s)) as [[a w]|f]. Qed.

Lemma wp_kfree (Q : unit -> mstate -> Prop) s o :
  (o ∈ k_ptrs s -> o ∈ k_heap s) ->
  Q tt (if decide (o ∈ k_ptrs s) then upd_k_heap (.∖ {[o]}) s else s) -> wp (kfree o) Q s.
Proof. intros Hin. unfold wp, kfree. destruct (decide (o ∈ k_ptrs s)) as [Hp|]; [|done]. destruct (decide (o ∈ k_heap s)) as [|Hn]; [done|]. by destruct (Hn (Hin Hp)). Qed.

(** A device that is read without errors while no other thread uses it. *)
Record quiet_dev : Prop := mk_quiet_dev {
  qd_wait : forall n b w, ke_wait n b w = w;
  qd_read : forall n b, ke_read_error n b = None
}.

(** Time passes. *)
Definition later (k : nat) (w : world) : world := upd_w_tick (fun _ => k) w.
Definition later_s (k : nat) (s : mstate) : mstate := upd_k_world (later k) s.

Lemma later_self w : later (w_tick w) w = w.
Proof. by destruct w. Qed.
Lemma bufs_self w f : f (w_bufs w) = w_bufs w -> upd_w_bufs f w = w.
Proof. intros Hf. unfold upd_w_bufs. rewrite Hf. by destruct w. Qed.
Lemma later_s_self s : later_s (w_tick (k_world s)) s = s.
Proof. destruct s. unfold later_s, upd_k_world. cbn. by rewrite later_self. Qed.

(** Block [b] is read as [size] bytes by this thread, or is missing. *)
Definition readable (w : world) (b size : Z) : Prop :=
  w_bufs w !! b = None /\ forall d, w_dev w !! b = Some d -> zlen d = size.

(** The buffer cache as a function. *)
Definition bread_of (dev : gmap Z (list Z)) (b size : Z) : list Z + Z :=
  match dev !! b with Some d => inl d | None => inr EIO end.

Lemma wp_bread_quiet (Q : Z -> world -> Prop) w b size :
  quiet_dev -> readable w b size ->
  match bread_of (w_dev w) b size with
  | inl d => Q 0 (upd_w_bufs (insert b d) (later (S (w_tick w)) w))
  | inr e => Q e (upd_w_bufs (insert b []) (later (S (w_tick w)) w))
  end -> wp (buf_meta_bread b size) Q w.
Proof.
  intros [Hw Hr] [Hb Hd]. unfold wp, buf_meta_bread, bread_of. rewrite Hb, Hw, Hr. cbn [w_dev upd_w_tick].
  destruct (w_dev w !! b) as [d|] eqn:E; [|done]. by rewrite (Hd d), Z.eqb_refl.
Qed.

(** The arrays freed when a block of the table cannot be read. *)
Lemma wp_free_arrays {A} (k : M mstate A) (Q : A -> mstate -> Prop) s :
  Gd ∈ k_ptrs s -> k_heap s = k_ptrs s ->
  wp k Q (upd_k_heap (.∖ {[Gd; Contigdirs]}) s) -> wp (kfree Contigdirs;; kfree Gd;; k) Q s.
Proof.
  intros Hgd Hheap HQ. wp_steps. apply wp_kfree; [by rewrite Hheap|].
  wp_steps. apply wp_kfree; [case_decide; cbn; rewrite Hheap; [set_solver|done]|].
  match goal with |- wp _ _ ?s' => replace s' with (upd_k_heap (.∖ {[Gd; Contigdirs]}) s); [done|] end.
  destruct s as [w heap ptrs es rsv fs0 wv fp loc]. unfold upd_k_heap. cbn in *. subst heap.
  repeat case_decide; cbn in *; f_equal; set_solver.
Qed.

(** The table of descriptors. *)
Lemma read_table_wp (Q : list Z + Z -> mstate -> Prop) fs size n : forall i tbl s,
  quiet_dev -> (forall j, i <= j < i + Z.of_nat n -> fsbtodb fs j = Z.shiftl j (m_fsbtodb fs) /\ readable (k_world s) (fsbtodb fs j) (m_bsize fs)) ->
  Gd ∈ k_ptrs s -> k_heap s = k_ptrs s ->
  (forall k, match read_gd_blocks (bread_of (w_dev (k_world s))) (m_fsbtodb fs) (m_bsize fs) size i n tbl with
   | Ok (inl t) => Q (inl t) (later_s k s)
   | Ok (inr e) => Q (inr e) (later_s k (upd_k_heap (.∖ {[Gd; Contigdirs]}) s))
   | Fault _ => False
   end) -> wp (read_table fs size n i tbl) Q s.
Proof.
  induction n as [|n IH]; intros i tbl s Hq Hrd Hgd Hheap HQ; cbn [read_table read_gd_blocks] in *.
  { wp_steps. rewrite <- (later_s_self s). apply HQ. }
  destruct (Hrd i) as [Hshift Hri]; [lia|]. pose proof Hri as [Hfree _].
  wp_steps. apply wp_on_world. apply (wp_bread_quiet _ _ _ _ Hq Hri). rewrite Hshift. rewrite Hshift in Hfree.
  unfold bread_of in HQ |- * at 1. destruct (w_dev (k_world s) !! Z.shiftl i (m_fsbtodb fs)) as [d|] eqn:Ed.
  - cbn [Z.eqb negb]. wp_steps. apply wp_on_world. eapply wp_dataptr; [apply lookup_insert_eq|]. wp_steps.
    unfold not_null. wp_steps. cbn [k_ptrs upd_k_world]. rewrite bool_decide_true by done. cbn [negb].
    destruct (zlen tbl + m_bsize fs >? size); [by specialize (HQ 0%nat)|].
    wp_steps. apply wp_on_world. eapply wp_brelse; [apply lookup_insert_eq|].
    set (k := S (w_tick (k_world s))).
    match goal with |- wp _ _ ?s' => replace s' with (later_s k s) end.
    2: { unfold later_s, upd_k_world. cbn. f_equal. unfold later, upd_w_tick, upd_w_bufs. cbn. f_equal. symmetry. by apply delete_insert_id. }
    apply IH; try done.
    intros j Hj. apply Hrd. lia.
  - change (EIO =? 0) with false. cbn [negb].
    apply wp_free_arrays; [done..|]. wp_steps. apply wp_on_world. eapply wp_brelse; [apply lookup_insert_eq|].
    specialize (HQ (S (w_tick (k_world s)))). wp_steps.
    assert (upd_w_bufs (delete (Z.shiftl i (m_fsbtodb fs))) (upd_w_bufs (insert (Z.shiftl i (m_fsbtodb fs)) [])
      (later (S (w_tick (k_world s))) (k_world s))) = later (S (w_tick (k_world s))) (k_world s)) as Hw.
    { unfold later, upd_w_tick, upd_w_bufs. cbn. f_equal. by apply delete_insert_id. }
    unfold later_s, upd_k_world, upd_k_heap in *. cbn in *. by rewrite Hw.
Qed.

Lemma decode_gds_ok tbl gdsize : 32 <= gdsize -> forall n i, 0 <= i -> (i + Z.of_nat n) * gdsize <= zlen tbl ->
  exists gds, decode_gds tbl gdsize i n = Ok gds /\ length gds = n.
Proof.
  intros Hg. induction n as [|n IH]; intros i Hi Hl; cbn [decode_gds]; [by exists []|].
  destruct (gd_decode_ok tbl (i * gdsize)) as [gd Hgd]; [nia..|]. unfold EXT2_GD. rewrite Hgd. cbn [mbind res_bind].
  destruct (IH (i + 1)) as (gds & -> & Hlen); [lia|nia|]. exists (gd :: gds). cbn. by rewrite Hlen.
Qed.

(** The array of the cluster summaries has a size that is an [int]. *)
Definition summary_fits (fs : m_ext2fs) : Prop := 0 <= m_gcount fs /\ sizeof_csum * m_gcount fs < 2 ^ 31.

Lemma int_bytes_fits fs size : summary_fits fs -> 0 <= size <= sizeof_csum -> int_bytes (m_gcount fs) size = m_gcount fs * size.
Proof.
  intros [H1 H2] Hs. unfold sizeof_csum, int_bytes in *.
  assert (0 <= m_gcount fs * size < 2 ^ 31) by nia.
  assert (u64 (m_gcount fs * size) = m_gcount fs * size) as -> by (apply Z.mod_small; lia).
  rewrite s32_id by (unfold s32_ok; lia). apply Z.mod_small. lia.
Qed.

(** The superblocks [compute_sb_data] works on, of volumes whose table of
    descriptors and cluster summary fit the sizes they are allocated with. *)
Record mountable (es : ext2fs) (w : world) : Prop := mk_mountable {
  mn_compat : check_sb_compat es ronly = 0;
  mn_ranges : es_ranges es;
  mn_fsize : e2fs_log_fsize es <= 20;
  mn_blocks : e2fs_first_dblock es < e2fs_bcount es;
  mn_max : e2fs_bcount es - e2fs_first_dblock es + e2fs_bpg es - 1 < 2 ^ 31;
  mn_table : forall fs n j, sb_geometry es = Ok (inl (fs, n)) -> logic_sb_block (m_bsize fs) < j <= logic_sb_block (m_bsize fs) + n ->
    readable w (fsbtodb fs j) (m_bsize fs);
  mn_fits : forall fs n, sb_geometry es = Ok (inl (fs, n)) -> n * m_bsize fs < 2 ^ 32 /\ summary_fits fs
}.

Lemma sg_shift es fs n : sb_geometry_ok es fs n -> 0 <= m_fsbtodb fs <= 3.
Proof.
  intros [_ Hbs Hg Hc _ _ _ Hok]. destruct (Hok (replicate (Z.to_nat (m_gcount fs * m_gdsize fs)) 0) 0) as [_ _ H1 H2 _].
  { unfold zlen. rewrite length_replicate. nia. }
  cbn in H1, H2. split; [done|]. destruct (Z.le_gt_cases (m_fsbtodb fs) 3); [done|].
  assert (2 ^ 4 <= 2 ^ m_fsbtodb fs) by (apply Z.pow_le_mono_r; lia). lia.
Qed.

Lemma sg_address es fs n j : sb_geometry_ok es fs n -> 0 <= j <= n + 1 -> fsbtodb fs j = Z.shiftl j (m_fsbtodb fs).
Proof.
  intros Hg Hj. pose proof (sg_shift _ _ _ Hg). unfold fsbtodb. apply s64_id. unfold s64_ok. rewrite Z.shiftl_mul_pow2 by lia.
  pose proof (sg_blocks _ _ _ Hg). assert (1 <= 2 ^ m_fsbtodb fs <= 2 ^ 3) by (split; [apply (Z.pow_le_mono_r 2 0); lia|apply Z.pow_le_mono_r; lia]).
  nia.
Qed.

Lemma logic_sb_range b : 0 <= logic_sb_block b <= 1.
Proof. unfold logic_sb_block. case_match; lia. Qed.

(** Some block of the table cannot be read. *)
Definition table_missing (es : ext2fs) (w : world) : Prop := exists fs n j,
  sb_geometry es = Ok (inl (fs, n)) /\ logic_sb_block (m_bsize fs) < j <= logic_sb_block (m_bsize fs) + n /\
  w_dev w !! fsbtodb fs j = None.

Lemma read_gd_blocks_err dev shift bsize size n : forall first tbl e, read_gd_blocks (bread_of dev) shift bsize size first n tbl = Ok (inr e) ->
  e = EIO /\ exists j, first <= j < first + Z.of_nat n /\ dev !! Z.shiftl j shift = None.
Proof.
  induction n as [|n IH]; intros first tbl e; cbn [read_gd_blocks]; [done|]. unfold bread_of at 1.
  destruct (dev !! Z.shiftl first shift) eqn:Ed; [|intros [= <-]; split; [done|exists first; split; [lia|done]]].
  destruct (_ >? size); [done|]. intros (-> & j & Hj & Hd)%IH. split; [done|]. exists j. split; [lia|done].
Qed.

Lemma read_gd_blocks_all dev shift bsize size n : forall first tbl t, read_gd_blocks (bread_of dev) shift bsize size first n tbl = Ok (inl t) ->
  forall j, first <= j < first + Z.of_nat n -> is_Some (dev !! Z.shiftl j shift).
Proof.
  induction n as [|n IH]; intros first tbl t; cbn [read_gd_blocks]; [lia|]. unfold bread_of at 1.
  destruct (dev !! Z.shiftl first shift) eqn:Ed; [|done]. destruct (_ >? size); [done|]. intros H j Hj.
  destruct (decide (j = first)) as [->|]; [by eexists|]. eapply IH; [exact H|lia].
Qed.

(** The state of a mount whose table has been read, for an in-core superblock
    and its descriptors. *)
Definition with_volume (fs : m_ext2fs) (gds : list ext2_gd) (s : mstate) : mstate :=
  upd_k_fs (fun _ => fs) (upd_k_world (fun w => upd_w_contigdirs (fun _ => m_contigdirs fs)
    (upd_w_total_dir (fun _ => m_total_dir fs) (upd_w_gd (fun _ => gds) w))) s).

(** ** The memory of a mount *)

(** All pointers of the structures, those in [F] freed. *)
Definition freed (F : gset obj) (s : mstate) : mstate := upd_k_heap (fun _ => k_ptrs s ∖ F) s.

Lemma freed_none s : k_heap s = k_ptrs s -> freed ∅ s = s.
Proof. intros Hh. destruct s. unfold freed, upd_k_heap. cbn in *. subst. by rewrite (difference_empty_L _). Qed.

Lemma wp_kfree_once (Q : unit -> mstate -> Prop) s F o :
  o ∉ F -> Q tt (freed ({[o]} ∪ F) s) -> wp (kfree o) Q (freed F s).
Proof.
  intros Ho HQ. apply wp_kfree; [cbn; set_solver|].
  match goal with |- Q tt ?s' => replace s' with (freed ({[o]} ∪ F) s); [done|] end.
  destruct s as [w heap ptrs es rsv fs0 wv fp loc]. unfold freed, upd_k_heap. cbn.
  case_decide; f_equal; set_solver.
Qed.

Definition cs_sums (n : nat) : gset obj := list_to_set (CsSum <$> seqZ 0 (Z.of_nat n)).

Lemma elem_of_cs_sums n o : o ∈ cs_sums n <-> exists i, o = CsSum i /\ 0 <= i < Z.of_nat n.
Proof. unfold cs_sums. rewrite elem_of_list_to_set, list_elem_of_fmap. setoid_rewrite elem_of_seqZ. naive_solver. Qed.

Lemma cs_sums_S n : cs_sums (S n) = {[CsSum (Z.of_nat n)]} ∪ cs_sums n.
Proof.
  apply set_eq. intros o. rewrite elem_of_union, elem_of_singleton, !elem_of_cs_sums. split.
  - intros (i & -> & Hi). destruct (decide (i = Z.of_nat n)) as [->|]; [by left|]. right. exists i. split; [done|lia].
  - intros [->|(i & -> & Hi)]; [exists (Z.of_nat n)|exists i]; (split; [done|lia]).
Qed.

Lemma free_cs_sums_wp (Q : unit -> mstate -> Prop) n : forall s F,
  (forall i, CsSum i ∉ F) -> Q tt (freed (cs_sums n ∪ F) s) -> wp (free_cs_sums n) Q (freed F s).
Proof.
  revert Q. induction n as [|n IH]; intros Q s F HF HQ; cbn [free_cs_sums].
  - wp_steps. by assert (cs_sums 0 ∪ F = F) as <- by (apply (left_id_L ∅ (∪))).
  - wp_steps. apply IH; [done|]. apply wp_kfree_once.
    + rewrite elem_of_union, elem_of_cs_sums. intros [(i & [= ->] & Hi)|Hi]; [lia|by apply (HF _ Hi)].
    + by rewrite cs_sums_S, <- (assoc_L (∪)) in HQ.
Qed.

(** Everything a mount of [n] groups may have allocated. *)
Definition all_objs (n : nat) : gset obj := {[Ump; MFs; Es; Lock; Gd; Contigdirs; MaxCluster; ClusterSum]} ∪ cs_sums n.

Lemma free_clustersum_wp (Q : unit -> mstate -> Prop) s F :
  (forall i, CsSum i ∉ F) -> ClusterSum ∉ F -> (ClusterSum ∉ k_ptrs s -> forall i, CsSum i ∉ k_ptrs s) ->
  (ClusterSum ∈ k_ptrs s -> summary_fits (k_fs s)) ->
  Q tt (freed ({[ClusterSum]} ∪ cs_sums (Z.to_nat (s32 (m_gcount (k_fs s)))) ∪ F) s) -> wp free_clustersum Q (freed F s).
Proof.
  intros HF1 HF2 Hcs Hfit HQ. unfold free_clustersum, not_null. wp_steps. change (k_ptrs (freed F s)) with (k_ptrs s).
  case_bool_decide as Hin.
  - wp_steps. change (k_fs (freed F s)) with (k_fs s). specialize (Hfit Hin).
    rewrite (int_bytes_fits _ _ Hfit) by (unfold sizeof_csum; lia). destruct Hfit as [Hg1 Hg2]. unfold sizeof_csum in *.
    rewrite (s32_id (m_gcount _)) in * by (unfold s32_ok; lia). destruct (Z.gtb_spec (16 * m_gcount (k_fs s)) (m_gcount (k_fs s) * 16)); [lia|].
    wp_steps. apply free_cs_sums_wp; [done|].
    apply wp_kfree_once; [|by rewrite (assoc_L (∪))].
    rewrite elem_of_union, elem_of_cs_sums. intros [(i & [=] & _)|?]; done.
  - wp_steps. match goal with |- Q tt ?s1 => match type of HQ with Q tt ?s2 => replace s1 with s2; [done|] end end.
    specialize (Hcs Hin). unfold freed, upd_k_heap. f_equal. apply set_eq. intros o.
    rewrite !elem_of_difference, !elem_of_union, elem_of_singleton, elem_of_cs_sums. split; [intros [? Ho]; split; tauto|].
    intros [Ho Hno]. split; [done|]. intros [[->|(i & -> & _)]|?]; [done|by apply (Hcs i)|done].
Qed.

(** The structures of a mount of which some part has been allocated. *)
Record partial (s : mstate) : Prop := mk_partial {
  pt_live : k_heap s = k_ptrs s;
  pt_objs : k_ptrs s ⊆ all_objs (Z.to_nat (s32 (m_gcount (k_fs s))));
  pt_cs : ClusterSum ∉ k_ptrs s -> forall i, CsSum i ∉ k_ptrs s;
  pt_mfs : MFs ∉ k_ptrs s -> k_ptrs s ⊆ {[Ump; Lock]};
  pt_ump : Ump ∉ k_ptrs s -> k_ptrs s = ∅;
  pt_fits : ClusterSum ∈ k_ptrs s -> summary_fits (k_fs s)
}.

Lemma freed_all s F : k_ptrs s ⊆ F -> freed F s = upd_k_heap (fun _ => ∅) s.
Proof. intros Hs. unfold freed, upd_k_heap. f_equal. set_solver. Qed.

Lemma wp_kfrees {A} (k : M mstate A) (Q : A -> mstate -> Prop) s F o :
  o ∉ F -> wp k Q (freed ({[o]} ∪ F) s) -> wp (kfree o;; k) Q (freed F s).
Proof. intros Ho HQ. wp_steps. by apply wp_kfree_once. Qed.

Section free_all.
Context (s : mstate) (F : gset obj) (Hp : partial s) (HF : F ⊆ {[Lock]}).
Let n := Z.to_nat (s32 (m_gcount (k_fs s))).

Definition freed_but_lock : gset obj := all_objs n ∖ {[Lock; Ump]} ∪ F.

Lemma free_arrays_wp {A} (k : M mstate A) (Q : A -> mstate -> Prop) :
  wp k Q (freed ({[Es; Contigdirs; Gd; MaxCluster; ClusterSum]} ∪ cs_sums n ∪ F) s) ->
  wp (free_clustersum;; kfree MaxCluster;; kfree Gd;; kfree Contigdirs;; kfree Es;; k) Q (freed F s).
Proof.
  intros HQ. assert (forall o, o <> Lock -> o ∉ F) as HF' by set_solver.
  apply wp_bind, free_clustersum_wp; [intros i; by apply HF'|by apply HF'|apply Hp|apply Hp|]. fold n.
  assert (forall o, (forall i, o <> CsSum i) -> o ∉ cs_sums n) as Hcs by (intros o Ho (i & -> & _)%elem_of_cs_sums; by apply (Ho i)).
  do 4 (apply wp_kfrees; [rewrite ?not_elem_of_union, ?elem_of_singleton; repeat split; try done; [by apply Hcs|by apply HF']|]).
  match goal with |- wp _ _ (freed ?G _) => match type of HQ with wp _ _ (freed ?G' _) => replace G with G'; [done|] end end.
  apply set_eq. intros o. set_solver.
Qed.

Lemma mfs_last : MFs ∉ {[Es; Contigdirs; Gd; MaxCluster; ClusterSum]} ∪ cs_sums n ∪ F.
Proof. rewrite !not_elem_of_union, elem_of_cs_sums. split; [split; [set_solver|by intros (i & [=] & _)]|set_solver]. Qed.

Lemma but_lock_eq : {[MFs]} ∪ ({[Es; Contigdirs; Gd; MaxCluster; ClusterSum]} ∪ cs_sums n ∪ F) = freed_but_lock.
Proof.
  apply set_eq. intros o. unfold freed_but_lock, all_objs.
  assert (o ∈ cs_sums n -> o <> Lock /\ o <> Ump) by (intros (i & -> & _)%elem_of_cs_sums; done). set_solver.
Qed.
End free_all.

(** A step of the world does not touch the memory of the mount. *)
Lemma partial_world s f : partial s -> partial (upd_k_world f s).
Proof. by intros []. Qed.

Lemma mountfs_out_wp (Q : Z -> mstate -> Prop) s bp error :
  partial s -> (bp = true -> is_Some (w_bufs (k_world s) !! SBLOCK)) ->
  (forall s', k_heap s' = ∅ -> k_world s' = (if bp then upd_w_bufs (delete SBLOCK) (k_world s) else k_world s) ->
     (k_fsprivate s' = false \/ k_fsprivate s' = k_fsprivate s) -> Q error s') ->
  wp (mountfs_out bp error) Q s.
Proof.
  intros Hp Hbp HQ. unfold mountfs_out. apply wp_bind.
  set (s1 := upd_k_world (fun w => if bp then upd_w_bufs (delete SBLOCK) w else w) s).
  assert (wp (if bp then on_world (buf_brelse SBLOCK) else mret tt)
    (fun _ s' => s' = s1) s) as Hrel.
  { subst s1. destruct bp; [|wp_steps; by destruct s]. destruct (Hbp eq_refl) as [d Hd]. apply wp_on_world. by eapply wp_brelse. }
  eapply wp_mono; [exact Hrel|]. intros _ ? ->. assert (partial s1) as Hp1 by (by apply partial_world).
  assert (forall s', k_heap s' = ∅ -> k_world s' = k_world s1 -> k_fsprivate s' = false \/ k_fsprivate s' = k_fsprivate s1 -> Q error s') as HQ1.
  { intros s' Hh Hw Hf. apply HQ; [done| |exact Hf]. rewrite Hw. unfold s1. by destruct bp. }
  clearbody s1. clear Hrel HQ Hp Hbp s. rename s1 into s, HQ1 into HQ, Hp1 into Hp.
  unfold not_null. wp_steps. case_bool_decide as Hu; cbn [negb].
  2: { wp_steps. apply HQ; [|done|by right]. by rewrite (pt_live _ Hp), (pt_ump _ Hp). }
  rewrite <- (freed_none s (pt_live _ Hp)). apply wp_kfrees; [set_solver|]. wp_steps.
  change (k_ptrs (freed _ s)) with (k_ptrs s). case_bool_decide as Hm.
  - apply free_arrays_wp; [done|set_solver|]. apply wp_kfree_once; [apply mfs_last; set_solver|]. rewrite but_lock_eq by set_solver. wp_steps.
    apply wp_kfree_once; [unfold freed_but_lock; rewrite elem_of_union, elem_of_difference; set_solver|].
    wp_steps. apply HQ; [|done|by left]. rewrite freed_all; [done|]. unfold freed_but_lock. intros o Ho%(pt_objs _ Hp).
    destruct (decide (o = Ump)), (decide (o = Lock)); set_solver.
  - wp_steps. apply wp_kfree_once; [set_solver|]. wp_steps. apply HQ; [|done|by left]. rewrite freed_all; [done|].
    pose proof (pt_mfs _ Hp Hm). set_solver.
Qed.

(** ** Allocation *)

Context (malloc_null : obj -> bool).

Lemma wp_kalloc (Q : bool -> mstate -> Prop) s o :
  (malloc_null o = true -> Q false s) ->
  (malloc_null o = false -> Q true (upd_k_ptrs ({[o]} ∪.) (upd_k_heap ({[o]} ∪.) s))) -> wp (kalloc malloc_null o) Q s.
Proof. intros H1 H2. unfold kalloc. destruct (malloc_null o); wp_steps; auto. Qed.

Definition arrays : gset obj := {[Gd]} ∪ (if malloc_null Contigdirs then ∅ else {[Contigdirs]}).

Definition alloc_arrays (s : mstate) : mstate := upd_k_ptrs (arrays ∪.) (upd_k_heap (arrays ∪.) s).

Lemma wp_alloc_arrays {A} (k : M mstate A) (Q : A -> mstate -> Prop) s :
  malloc_null Gd = false -> wp k Q (alloc_arrays s) -> wp (_ ← kalloc malloc_null Gd; _ ← kalloc malloc_null Contigdirs; k) Q s.
Proof.
  intros Hgd HQ. wp_steps. apply wp_kalloc; [by rewrite Hgd|]. intros _. wp_steps.
  unfold alloc_arrays, arrays in HQ. apply wp_kalloc; intros Hc; rewrite Hc in HQ.
  - by rewrite (right_id_L ∅ (∪)) in HQ.
  - destruct s as [w heap ptrs es rsv fs0 wv fp loc]. unfold upd_k_ptrs, upd_k_heap in *. cbn in *.
    assert (forall X : gset obj, {[Contigdirs]} ∪ ({[Gd]} ∪ X) = {[Gd]} ∪ {[Contigdirs]} ∪ X) as Hx by set_solver. by rewrite !Hx.
Qed.

Lemma arrays_freed X : Gd ∉ X -> Contigdirs ∉ X -> (arrays ∪ X) ∖ {[Gd; Contigdirs]} = X.
Proof. unfold arrays. intros H1 H2. case_match; set_solver. Qed.

Lemma mount_sb_data_wp (Q : Z -> mstate -> Prop) s :
  quiet_dev -> mountable (k_es s) (k_world s) -> malloc_null Gd = false -> k_heap s = k_ptrs s ->
  Gd ∉ k_ptrs s -> Contigdirs ∉ k_ptrs s ->
  (forall errno s', compute_sb_data (bread_of (w_dev (k_world s))) (k_es s) = Ok (inr errno) -> k_heap s' = k_heap s ->
     (exists k, k_world s' = later k (k_world s)) -> k_fsprivate s' = k_fsprivate s ->
     (k_ptrs s' = k_ptrs s /\ sb_geometry (k_es s) = Ok (inr errno) \/ k_ptrs s' = arrays ∪ k_ptrs s /\ table_missing (k_es s) (k_world s)) ->
     Q errno s') ->
  (forall fs gds k, ~ table_missing (k_es s) (k_world s) -> summary_fits fs -> compute_sb_data (bread_of (w_dev (k_world s))) (k_es s) = Ok (inl fs) -> geometry_ok fs ->
     m_e2fs fs = k_es s -> zlen (m_gd fs) = m_gdbcount fs * m_bsize fs ->
     decode_gds (m_gd fs) (m_gdsize fs) 0 (Z.to_nat (m_gcount fs)) = Ok gds ->
     Q 0 (with_volume fs gds (later_s k (alloc_arrays s)))) ->
  wp (mount_sb_data malloc_null) Q s.
Proof.
  intros Hq [Hc Hr Hfz Hlt Hmax Htbl Hfits] Hgdn Hheap Hn1 Hn2 Herr Hok. unfold mount_sb_data. wp_steps.
  unfold compute_sb_data in Herr, Hok.
  destruct (sb_geometry_spec _ _ Hc Hr Hfz Hlt Hmax) as [[errno He]|(fs & n & He & Hg)].
  { eapply wp_lift; [exact He|]. rewrite He in Herr. cbn [mbind res_bind] in Herr.
    apply wp_ret. apply Herr; [done|done| |done|by left]. exists (w_tick (k_world s)). by rewrite later_self. }
  eapply wp_lift; [exact He|]. rewrite He in Herr, Hok. cbn [mbind res_bind] in Herr, Hok. pose proof (sg_blocks _ _ _ Hg) as Hn.
  apply wp_bind, wp_modify. apply wp_alloc_arrays; [done|]. wp_steps.
  pose proof (logic_sb_range (m_bsize fs)) as Hlsb. apply read_table_wp; [done| |cbn; unfold arrays; set_solver|cbn; by rewrite Hheap|].
  { intros j Hj. rewrite Z2Nat.id in Hj by lia. split; [eapply sg_address; [done|lia]|]. apply (Htbl fs n); [done|lia]. }
  intros k. change (k_world (alloc_arrays _)) with (k_world s). destruct (Hfits fs n He) as [Hbytes Hsum].
  assert (forall j d, logic_sb_block (m_bsize fs) + 1 <= j < logic_sb_block (m_bsize fs) + 1 + Z.of_nat (Z.to_nat n) ->
    bread_of (w_dev (k_world s)) (Z.shiftl j (m_fsbtodb fs)) (m_bsize fs) = inl d -> zlen d = m_bsize fs) as Hblk.
  { intros j d Hj. rewrite Z2Nat.id in Hj by lia. destruct (Htbl fs n j He) as [_ Hd]; [lia|].
    unfold bread_of. rewrite <- (sg_address _ _ _ j Hg) by lia. case_match eqn:Ed; [|done]. intros [= <-]. by apply Hd. }
  pose proof (sg_bsize _ _ _ Hg).
  destruct (read_gd_blocks _ _ _ _ _ _ _) as [[tbl|errno]|f] eqn:Ert; cbn [mbind res_bind] in Herr, Hok; wp_steps.
  3: { apply read_gd_blocks_fault in Ert as [_ Hs]; [|exact Hblk|lia]. unfold zlen in Hs. cbn [length] in Hs. rewrite Z2Nat.id in Hs by lia.
       rewrite (proj2 (gd_alloc_fits (m_bsize fs) n ltac:(lia) ltac:(lia)) Hbytes) in Hs. lia. }
  2: { apply read_gd_blocks_err in Ert as (-> & j & Hj & Hd). rewrite Z2Nat.id in Hj by lia.
       apply Herr; [done| |by exists k|done|right]. { cbn. rewrite Hheap. apply arrays_freed; set_solver. }
       split; [done|]. exists fs, n, j. split; [done|]. split; [lia|]. rewrite (sg_address _ _ _ j Hg) by lia. exact Hd. }
  pose proof Ert as Hlen. apply read_gd_blocks_len in Hlen as [Hlen _]; [|exact Hblk].
  unfold zlen in Hlen at 2. cbn [length] in Hlen. rewrite Z2Nat.id in Hlen by lia.
  pose proof (sg_covers _ _ _ Hg). pose proof (sg_gdsize _ _ _ Hg). pose proof (sg_gcount _ _ _ Hg).
  assert (s32 (m_gcount fs) = m_gcount fs) as Hs by (apply s32_id; unfold s32_ok; lia).
  destruct (total_dir_loop_ok tbl (m_gdsize fs)) with (n := Z.to_nat (s32 (m_gcount fs))) (i := 0) (acc := 0) as [t Ht]; [lia|lia|rewrite Hs; lia|].
  destruct (decode_gds_ok tbl (m_gdsize fs)) with (n := Z.to_nat (m_gcount fs)) (i := 0) as (gds & Hgds & _); [lia|lia|lia|].
  eapply wp_lift; [exact Ht|]. wp_steps. eapply wp_lift; [exact Hgds|]. wp_steps.
  rewrite Ht in Hok. cbn [mbind res_bind] in Hok.
  assert (~ table_missing (k_es s) (k_world s)) as Hall.
  { intros (fs' & n' & j & He' & Hj & Hnone). rewrite He in He'. injection He' as <- <-.
    destruct (read_gd_blocks_all _ _ _ _ _ _ _ _ Ert j) as [d Hd]; [rewrite Z2Nat.id; lia|].
    rewrite (sg_address _ _ _ j Hg) in Hnone by lia. congruence. }
  specialize (Hok (with_table fs tbl t) gds k Hall Hsum eq_refl). unfold with_volume in Hok.
  apply Hok; [apply (sg_ok _ _ _ Hg); lia|apply Hg| |done].
  cbn. rewrite (sg_gdbcount _ _ _ Hg). lia.
Qed.

Definition added (X : gset obj) (s : mstate) : mstate := upd_k_ptrs (X ∪.) (upd_k_heap (X ∪.) s).

Lemma added_added X Y s : added X (added Y s) = added (X ∪ Y) s.
Proof. destruct s. unfold added, upd_k_ptrs, upd_k_heap. cbn. by rewrite !(assoc_L (∪)). Qed.
Lemma added_none s : added ∅ s = s.
Proof. destruct s. unfold added, upd_k_ptrs, upd_k_heap. cbn. by rewrite !(left_id_L ∅ (∪)). Qed.

Lemma wp_kalloc_added (Q : bool -> mstate -> Prop) X s o :
  (malloc_null o = true -> Q false (added X s)) -> (malloc_null o = false -> Q true (added ({[o]} ∪ X) s)) ->
  wp (kalloc malloc_null o) Q (added X s).
Proof.
  intros H1 H2. apply wp_kalloc; [done|]. intros Hn. specialize (H2 Hn). rewrite <- added_added in H2. exact H2.
Qed.

Definition base : gset obj := {[Lock; Es; MFs; Ump]}.

(** The first allocations: a prefix of them when one gives NULL. *)
Lemma kallocs_wp (Q : bool -> mstate -> Prop) s :
  (forall X, X = ∅ \/ X = {[Ump]} \/ X = {[MFs; Ump]} \/ X = {[Es; MFs; Ump]} -> Q false (added X s)) ->
  ((forall o, o ∈ base -> malloc_null o = false) -> Q true (added base s)) -> wp (kallocs malloc_null [Ump; MFs; Es; Lock]) Q s.
Proof.
  intros Hf Ht. rewrite <- (added_none s). cbn [kallocs]. wp_steps. apply wp_kalloc_added; intros H1; [wp_steps; apply Hf; tauto|].
  assert ({[Ump]} ∪ ∅ = ({[Ump]} : gset obj)) as -> by set_solver.
  wp_steps. apply wp_kalloc_added; intros H2; [wp_steps; apply Hf; tauto|].
  wp_steps. apply wp_kalloc_added; intros H3; [wp_steps; apply Hf; tauto|].
  assert ({[Es]} ∪ ({[MFs]} ∪ {[Ump]}) = ({[Es; MFs; Ump]} : gset obj)) as -> by set_solver.
  wp_steps. apply wp_kalloc_added; intros H4; [wp_steps; apply Hf; tauto|].
  assert ({[Lock]} ∪ {[Es; MFs; Ump]} = base) as -> by set_solver. wp_steps. apply Ht. unfold base. set_solver.
Qed.

(** The summaries of the groups. *)
Lemma alloc_cs_sums_wp (Q : bool -> mstate -> Prop) s X lp sump n : forall i,
  (i <= n)%nat -> 4 * Z.of_nat n <= lp -> sizeof_csum * Z.of_nat n <= sump ->
  (forall m, (m <= n)%nat -> Q false (added (cs_sums m ∪ X) s)) -> Q true (added (cs_sums n ∪ X) s) ->
  wp (alloc_cs_sums malloc_null lp sump (n - i) (Z.of_nat i)) Q (added (cs_sums i ∪ X) s).
Proof.
  intros i Hi Hlp Hsump Hf Ht. remember (n - i)%nat as k eqn:Hk. revert i Hi Hk. unfold sizeof_csum in *.
  induction k as [|k IH]; intros i Hi Hk; cbn [alloc_cs_sums].
  - wp_steps. by replace i with n by lia.
  - unfold sizeof_csum. destruct (Z.gtb_spec (4 * (Z.of_nat i + 1)) lp); [lia|]. destruct (Z.gtb_spec (16 * (Z.of_nat i + 1)) sump); [lia|]. cbn [orb].
    wp_steps. apply wp_kalloc_added; intros _; [wp_steps; apply Hf; lia|]. cbn [negb].
    assert ({[CsSum (Z.of_nat i)]} ∪ (cs_sums i ∪ X) = cs_sums (S i) ∪ X) as -> by (by rewrite cs_sums_S, (assoc_L (∪))).
    replace (Z.of_nat i + 1) with (Z.of_nat (S i)) by lia. apply IH; lia.
Qed.

Lemma alloc_clustersum_wp (Q : Z -> mstate -> Prop) s X : let n := Z.to_nat (s32 (m_gcount (k_fs s))) in
  summary_fits (k_fs s) ->
  (forall Y, Y ⊆ {[MaxCluster; ClusterSum]} ∪ cs_sums n -> (ClusterSum ∉ Y -> forall i, CsSum i ∉ Y) -> Q ENOMEM (added (Y ∪ X) s)) ->
  (forall mc cs, Q 0 (upd_k_world (fun w => upd_w_clustersum (fun _ => cs) (upd_w_maxcluster (fun _ => mc) w))
     (added (cs_sums n ∪ {[ClusterSum; MaxCluster]} ∪ X) s))) ->
  wp (alloc_clustersum MAXPHYS malloc_null) Q (added X s).
Proof.
  intros n Hfit Hf Ht. unfold alloc_clustersum. wp_steps. change (k_fs (added X s)) with (k_fs s).
  assert (contigsumsize (k_fs s) MAXPHYS >? 0 = true) as -> by (unfold contigsumsize, EXT2_MAXCONTIG; lia). cbn [negb]. wp_steps.
  apply wp_kalloc_added; intros H1; wp_steps; apply wp_kalloc_added; intros H2; cbn [andb negb]; wp_steps.
  - rewrite <- (left_id_L ∅ (∪) X). apply Hf; set_solver.
  - apply Hf; set_solver.
  - apply Hf; set_solver.
  - assert ({[ClusterSum]} ∪ ({[MaxCluster]} ∪ X) = cs_sums 0 ∪ ({[ClusterSum; MaxCluster]} ∪ X)) as -> by set_solver.
    rewrite !(int_bytes_fits _ _ Hfit) by (unfold sizeof_csum; lia). pose proof Hfit as [Hg1 Hg2]. unfold sizeof_csum in *.
    assert (Z.of_nat n = m_gcount (k_fs s)) as Hn by (unfold n; rewrite s32_id by (unfold s32_ok; lia); lia).
    replace (Z.to_nat (s32 (m_gcount (k_fs s)))) with (n - 0)%nat by (unfold n; lia).
    apply (alloc_cs_sums_wp _ s ({[ClusterSum; MaxCluster]} ∪ X) _ _ n 0%nat); [lia|lia|unfold sizeof_csum; lia| |].
    + intros m Hm. wp_steps. rewrite (assoc_L (∪)). apply Hf; [|set_solver].
      intros o. rewrite elem_of_union, elem_of_cs_sums. intros [(i & -> & Hi)|Ho]; [|set_solver].
      apply elem_of_union. right. apply elem_of_cs_sums. exists i. split; [done|lia].
    + wp_steps. rewrite (assoc_L (∪)). apply Ht.
Qed.

(** What writing one block through [buf_getblk] does to the world: at most that
    block of the device. *)
Lemma wp_getblk_quiet (Q : bool -> world -> Prop) w b size :
  quiet_dev -> w_bufs w !! b = None ->
  Q false (later (S (w_tick w)) w) ->
  (forall d, Q true (upd_w_bufs (insert b d) (later (S (w_tick w)) w))) -> wp (buf_getblk b size) Q w.
Proof. intros [Hw _] Hb Hf Ht. unfold wp, buf_getblk. rewrite Hb, Hw. cbv zeta. destruct (ke_getblk_null _ _); [exact Hf|apply Ht]. Qed.

Lemma sbupdate_wp (Q : Z -> mstate -> Prop) s :
  quiet_dev -> w_bufs (k_world s) !! SBLOCK = None ->
  (forall e s', k_heap s' = k_heap s -> k_ptrs s' = k_ptrs s -> k_fs s' = k_fs s -> k_fsprivate s' = k_fsprivate s ->
     k_local s' = k_local s -> w_bufs (k_world s') = w_bufs (k_world s) -> Q e s') -> wp (ext2_sbupdate true) Q s.
Proof.
  intros Hq Hb HQ. unfold ext2_sbupdate, put_block. wp_steps. apply wp_on_world. apply wp_getblk_quiet; [done..| |].
  - cbn [negb]. wp_steps. by apply HQ.
  - intros d. cbn [negb]. wp_steps. apply wp_on_world. eapply wp_store; [apply lookup_insert_eq|]. wp_steps.
    apply wp_on_world. unfold wp, buf_bwrite. cbn [w_bufs upd_w_bufs k_world upd_k_world]. rewrite insert_insert_eq, lookup_insert_eq. cbv zeta.
    match goal with |- context [ke_write_error ?n ?b] => destruct (ke_write_error n b) end;
      (apply HQ; try done); cbn; rewrite ?insert_insert_eq; by apply delete_insert_id.
Qed.

(** Everything a successful mount of a volume has allocated. *)
Definition mount_objs (fs : m_ext2fs) : gset obj :=
  cs_sums (Z.to_nat (s32 (m_gcount fs))) ∪ {[ClusterSum; MaxCluster]} ∪ (arrays ∪ base).

Lemma mount_objs_all fs : mount_objs fs ⊆ all_objs (Z.to_nat (s32 (m_gcount fs))).
Proof. unfold mount_objs, all_objs, arrays, base. case_match; set_solver. Qed.

Definition mountfs_post (e : Z) (s' : mstate) : Prop :=
  w_bufs (k_world s') = ∅ /\
  if e =? 0 then k_fsprivate s' = true /\ k_heap s' = mount_objs (k_fs s') /\ k_ptrs s' = k_heap s'
  else k_fsprivate s' = false /\ k_heap s' = ∅.

Lemma mountfs_finish_wp s :
  quiet_dev -> w_bufs (k_world s) = ∅ -> k_heap s = mount_objs (k_fs s) -> k_ptrs s = k_heap s ->
  wp (mountfs_finish ronly) mountfs_post s.
Proof.
  intros Hq Hb Hh Hp. unfold mountfs_finish. wp_steps. destruct ronly; wp_steps; [by split|].
  apply sbupdate_wp; [done|cbn; by rewrite Hb|]. intros e s' H1 H2 H3 H4 _ H6. wp_steps.
  split; [by rewrite H6|]. cbn [Z.eqb]. rewrite H4, H1, H2, H3. done.
Qed.

Definition idle_mount (s : mstate) : Prop :=
  k_heap s = ∅ /\ k_ptrs s = ∅ /\ k_fsprivate s = false /\ w_bufs (k_world s) = ∅.

(** A device whose superblock can be read and, when it is admitted, describes a
    volume whose table is there. *)
Record mount_input (s : mstate) (es : ext2fs) (rest : list Z) : Prop := mk_mount_input {
  mi_block : exists d, w_dev (k_world s) !! SBLOCK = Some d /\ zlen d = SBSIZE /\ sb_load d = Ok (es, rest);
  mi_recover : has_feature (e2fs_features_incompat es) EXT2F_INCOMPAT_RECOVER = false;
  mi_mountable : mountfs_admit es ronly force = None -> mountable es (k_world s);
  mi_gd : malloc_null Gd = false
}.

(** The table lies behind the superblock. *)
Lemma sg_apart es fs n j : sb_geometry_ok es fs n -> logic_sb_block (m_bsize fs) < j <= logic_sb_block (m_bsize fs) + n ->
  fsbtodb fs j <> SBLOCK.
Proof.
  intros Hg Hj. pose proof (logic_sb_range (m_bsize fs)). rewrite (sg_address _ _ _ j Hg) by lia.
  pose proof (sg_bsize _ _ _ Hg). pose proof (sg_shift _ _ _ Hg) as Hs. rewrite Z.shiftl_mul_pow2 by lia. unfold SBLOCK, logic_sb_block, SBSIZE in *.
  destruct (sg_ok _ _ _ Hg (replicate (Z.to_nat (m_gcount fs * m_gdsize fs)) 0) 0) as [_ _ Hsh _ _].
  { pose proof (sg_gcount _ _ _ Hg). pose proof (sg_gdsize _ _ _ Hg). unfold zlen. rewrite length_replicate. nia. }
  cbn in Hsh. assert (m_fsbtodb fs = 0 \/ m_fsbtodb fs = 1 \/ m_fsbtodb fs = 2 \/ m_fsbtodb fs = 3) as [E|[E|[E|E]]] by lia;
    rewrite E in *; destruct (m_bsize fs >? 1024) eqn:E2; lia.
Qed.

Lemma mountable_geometry es w fs n : mountable es w -> sb_geometry es = Ok (inl (fs, n)) -> sb_geometry_ok es fs n.
Proof.
  intros [H1 H2 H3 H4 H5 _ _] He. destruct (sb_geometry_spec _ _ H1 H2 H3 H4 H5) as [[errno He']|(fs' & n' & He' & Hg)]; congruence.
Qed.

(** The superblock's buffer does not matter. *)
Lemma mountable_holding es w w' : mountable es w ->
  (forall b, b <> SBLOCK -> w_bufs w' !! b = w_bufs w !! b) -> w_dev w' = w_dev w -> mountable es w'.
Proof.
  intros Hm Hb Hd. pose proof Hm as [H1 H2 H3 H4 H5 H6 H7]. constructor; [done..| |done]. intros fs n j Hg Hj. destruct (H6 fs n j Hg Hj) as [Ha Hr].
  split; [|by rewrite Hd]. rewrite Hb; [done|]. eapply sg_apart; [by eapply mountable_geometry|done].
Qed.

Lemma compute_sb_data_errno dev es e : compute_sb_data (bread_of dev) es = Ok (inr e) -> e <> 0.
Proof.
  unfold compute_sb_data. destruct (sb_geometry es) as [[[fs n]|e']|f] eqn:Eg; cbn [mbind res_bind]; [|intros [= ->]|done].
  - destruct (read_gd_blocks _ _ _ _ _ _ _) as [[|]|] eqn:Er; cbn [mbind res_bind]; [destruct (total_dir_loop _ _ _ _ _); done| |done].
    apply read_gd_blocks_err in Er as [-> _]. by intros [= <-].
  - revert Eg. unfold sb_geometry. destruct (shl_int _ _); cbn [mbind res_bind]; [|done]. repeat case_match; by intros [= <-].
Qed.

(** A state as what it has allocated, added to nothing. *)
Definition cleared (s : mstate) : mstate := upd_k_ptrs (fun _ => ∅) (upd_k_heap (fun _ => ∅) s).

Lemma added_cleared X s : k_heap s = X -> k_ptrs s = X -> added X (cleared s) = s.
Proof. destruct s. unfold added, cleared, upd_k_ptrs, upd_k_heap. cbn. intros -> ->. by rewrite (right_id_L ∅ (∪)). Qed.

Lemma partial_added s X : k_heap s = ∅ -> k_ptrs s = ∅ -> 
  X ⊆ all_objs (Z.to_nat (s32 (m_gcount (k_fs s)))) -> (ClusterSum ∉ X -> forall i, CsSum i ∉ X) ->
  (MFs ∉ X -> X ⊆ {[Ump; Lock]}) -> (Ump ∉ X -> X = ∅) -> (ClusterSum ∈ X -> summary_fits (k_fs s)) -> partial (added X s).
Proof.
  intros Hh Hp H1 H2 H3 H4 H5. assert (k_ptrs (added X s) = X) as Hx by (cbn; rewrite Hp; apply (right_id_L ∅ (∪))).
  constructor; rewrite ?Hx; try done. cbn. by rewrite Hh, (right_id_L ∅ (∪)).
Qed.

(** The state in which the table is read: the superblock held and copied. *)
Definition mount_copied (es : ext2fs) (rest d : list Z) (X : gset obj) (s : mstate) : mstate :=
  upd_k_world (fun w => upd_w_ficount (fun _ => e2fs_ficount es) (upd_w_fbcount (fun _ => e2fs_fbcount es)
      (upd_w_bufs (insert SBLOCK d) (later (S (w_tick w)) w))))
    (upd_k_reserved2 (fun _ => rest) (upd_k_es (fun _ => es) (added X s))).

(** What follows the copy of the superblock. *)
Definition mountfs_rest : M mstate Z :=
  error ← mount_sb_data malloc_null;
  if negb (error =? 0) then mountfs_out true error
  else
    on_world (buf_brelse SBLOCK);;
    error ← alloc_clustersum MAXPHYS malloc_null;
    if negb (error =? 0) then mountfs_out false error else mountfs_finish ronly.

(** [ext2_mountfs] down to the reading of the table, for any continuation. *)
Lemma mountfs_start_wp (Q : Z -> mstate -> Prop) s es rest :
  quiet_dev -> idle_mount s -> mount_input s es rest ->
  (forall e s', e <> 0 -> w_bufs (k_world s') = ∅ -> k_fsprivate s' = false -> k_heap s' = ∅ -> Q e s') ->
  (mountfs_admit es ronly force = None -> (forall o, o ∈ base -> malloc_null o = false) -> forall d,
    wp mountfs_rest Q (mount_copied es rest d base s)) ->
  wp (ext2_mountfs MAXPHYS ronly force malloc_null) Q s.
Proof.
  intros Hq (Hh & Hp & Hf & Hb) [(d & Hd & Hlen & Hload) Hrec Hmn Hgd] Hout Hgo. unfold ext2_mountfs. wp_steps. apply wp_on_world.
  apply wp_bread_quiet; [done| |].
  { split; [by rewrite Hb|]. intros d' Hd'. by simplify_eq. }
  unfold bread_of. rewrite Hd. cbn [Z.eqb negb]. wp_steps. apply wp_on_world. eapply wp_dataptr; [apply lookup_insert_eq|].
  wp_steps. eapply wp_lift; [exact Hload|]. cbv beta iota. set (s1 := upd_k_world _ (upd_k_world _ s)).
  assert (forall X e, e <> 0 -> partial (added X s1) -> wp (mountfs_out true e) Q (added X s1)) as Hfail.
  { intros X e He Hpt. apply mountfs_out_wp; [done|intros _; exists d; apply lookup_insert_eq|].
    intros s' H1 H2 H3. apply Hout; [done| |by destruct H3 as [->| ->]|done].
    rewrite H2. cbn. rewrite Hb. by apply delete_insert_id. }
  assert (forall X, X ⊆ base -> (MFs ∉ X -> X ⊆ {[Ump; Lock]}) -> (Ump ∉ X -> X = ∅) -> partial (added X s1)) as Hpart.
  { intros X HX H1 H2. apply partial_added; [done|done|clear -HX; unfold all_objs, base in *; set_solver| |done|done|].
    - intros _ i Hi%HX. unfold base in Hi. set_solver.
    - intros Hi%HX. unfold base in Hi. set_solver. }
  destruct (mountfs_admit es ronly force) as [e|] eqn:Ea.
  - rewrite <- (added_none s1). apply Hfail; [|apply Hpart; set_solver].
    unfold mountfs_admit in Ea. repeat case_match; simplify_eq; done.
  - wp_steps. apply kallocs_wp.
    + intros X HX. cbn [negb]. apply Hfail; [done|]. destruct HX as [->|[->|[->| ->]]]; apply Hpart; unfold base; set_solver.
    + intros Hbase. cbn [negb]. apply wp_bind, wp_modify. specialize (Hgo eq_refl Hbase d). rewrite Hrec. rewrite andb_false_r.
      match goal with |- wp _ _ ?s2 => replace s2 with (mount_copied es rest d base s) by done end.
      eapply wp_mono; [exact Hgo|]. done.
Qed.

(** Nothing fails before the table is read. *)
Lemma mountfs_start_run s es rest :
  quiet_dev -> idle_mount s -> mount_input s es rest -> mountfs_admit es ronly force = None -> (forall o, o ∈ base -> malloc_null o = false) ->
  exists d, ext2_mountfs MAXPHYS ronly force malloc_null s = mountfs_rest (mount_copied es rest d base s).
Proof.
  intros Hq (Hh & Hp & Hf & Hb) [(d & Hd & Hlen & Hload) Hrec Hmn Hgd] Ha Hbase. exists d. unfold ext2_mountfs.
  set (w1 := upd_w_bufs (insert SBLOCK d) (later (S (w_tick (k_world s))) (k_world s))). set (s1 := upd_k_world (fun _ => w1) s).
  assert (on_world (buf_meta_bread SBLOCK SBSIZE) s = Ok (0, s1)) as Hread.
  { assert (wp (buf_meta_bread SBLOCK SBSIZE) (fun e w => e = 0 /\ w = w1) (k_world s)) as H.
    { apply wp_bread_quiet; [done| |unfold bread_of; by rewrite Hd]. split; [by rewrite Hb|]. intros d' Hd'. by simplify_eq. }
    apply wp_run in H as (e & w & Hrun & -> & ->). unfold on_world. by rewrite Hrun. }
  rewrite (bind_run _ _ _ _ _ Hread). cbn [Z.eqb negb].
  rewrite (bind_run _ _ s1 d s1) by (unfold on_world, buf_dataptr; cbn; rewrite lookup_insert_eq; by destruct s).
  rewrite (bind_run _ _ s1 (es, rest) s1) by (by apply lift_run). rewrite Ha.
  assert (kallocs malloc_null [Ump; MFs; Es; Lock] s1 = Ok (true, added base s1)) as Hk.
  { assert (wp (kallocs malloc_null [Ump; MFs; Es; Lock]) (fun ok s' => ok = true -> s' = added base s1) s1) as H by (by apply kallocs_wp).
    apply wp_run in H as (ok & s' & Hrun & H). rewrite Hrun. destruct ok; [by rewrite H|]. exfalso. revert Hrun. cbn [kallocs]. unfold kalloc.
    rewrite !Hbase by (unfold base; set_solver). done. }
  rewrite (bind_run _ _ _ _ _ Hk). cbn [negb].
  rewrite (bind_run _ _ (added base s1) tt (mount_copied es rest d base s)) by done.
  unfold mountfs_rest, mbind, M_bind. destruct (mount_sb_data _ _) as [[e s2]|f]; [|done]. destruct (negb (e =? 0)); [done|].
  destruct (on_world _ s2) as [[[] s3]|f]; [|done]. by rewrite Hrec, andb_false_r.
Qed.

(** A [kfree] that has been done, among others. *)
Lemma kfree_run o s : o ∈ k_ptrs s -> o ∈ k_heap s -> kfree o s = Ok (tt, upd_k_heap (.∖ {[o]}) s).
Proof. intros. unfold kfree. by rewrite !decide_True. Qed.
Lemma kfree_null o s : o ∉ k_ptrs s -> kfree o s = Ok (tt, s).
Proof. intros. unfold kfree. by rewrite decide_False. Qed.

(** The error path after [compute_sb_data] has freed the table: it is freed
    again, through the pointer in the structure. *)
Lemma mountfs_out_double_free s d error :
  k_heap s = base -> k_ptrs s = arrays ∪ base -> w_bufs (k_world s) !! SBLOCK = Some d -> mountfs_out true error s = Fault HeapMisuse.
Proof.
  intros Hh Hp Hb. unfold mountfs_out. set (s1 := upd_k_world (upd_w_bufs (delete SBLOCK)) s).
  assert (forall o, o ∈ base -> o ∈ k_ptrs s1) as Hbase by (intros o Ho; cbn; rewrite Hp; set_solver).
  rewrite (bind_run _ _ s tt s1) by (unfold on_world, buf_brelse; by rewrite Hb).
  rewrite (bind_run _ _ s1 true s1) by (unfold not_null, gets; rewrite bool_decide_true by (apply Hbase; set_solver); done). cbn [negb].
  assert (kfree Lock s1 = Ok (tt, upd_k_heap (.∖ {[Lock]}) s1)) as HL.
  { apply kfree_run; [apply Hbase; set_solver|]. cbn. rewrite Hh. set_solver. }
  rewrite (bind_run _ _ _ _ _ HL). set (s2 := upd_k_heap _ s1). change (k_ptrs s1) with (k_ptrs s2) in Hbase.
  rewrite (bind_run _ _ s2 true s2) by (unfold not_null, gets; rewrite bool_decide_true by (apply Hbase; set_solver); done).
  apply bind_fault.
  assert (free_clustersum s2 = Ok (tt, s2)) as HC.
  { unfold free_clustersum. rewrite (bind_run _ _ s2 false s2); [done|]. unfold not_null, gets. rewrite bool_decide_false; [done|].
    cbn. rewrite Hp. unfold arrays, base. case_match; set_solver. }
  rewrite (bind_run _ _ _ _ _ HC).
  rewrite (bind_run _ _ _ _ _ (kfree_null MaxCluster s2 ltac:(cbn; rewrite Hp; clear; unfold arrays, base; case_match; set_solver))).
  apply bind_fault. unfold kfree. rewrite decide_True by (cbn; rewrite Hp; unfold arrays; set_solver).
  rewrite decide_False; [done|]. cbn. rewrite Hh. unfold base. set_solver.
Qed.

(** [ext2_mountfs] gets to the table of descriptors, and it cannot be read. *)
Definition table_error (es : ext2fs) (w : world) : Prop :=
  mountfs_admit es ronly force = None /\ (forall o, o ∈ base -> malloc_null o = false) /\ table_missing es w.

Lemma mountfs_no_error_wp s es rest :
  quiet_dev -> idle_mount s -> mount_input s es rest -> ~ table_error es (k_world s) ->
  wp (ext2_mountfs MAXPHYS ronly force malloc_null) mountfs_post s.
Proof.
  intros Hq Hi Hin Htab. pose proof Hi as (Hh & Hp & Hf & Hb). apply (mountfs_start_wp _ s es rest); [done..| |].
  { intros e s' He H1 H2 H3. split; [done|]. by rewrite (proj2 (Z.eqb_neq e 0)). }
  intros Ha Hbase d. unfold mountfs_rest. set (s1 := mount_copied es rest d base s).
  assert (forall F s', partial s' -> w_bufs (k_world s') = <[SBLOCK := d]> (w_bufs (k_world s)) -> k_fsprivate s' = false -> F <> 0 ->
    wp (mountfs_out true F) mountfs_post s') as Hout.
  { intros F s' Hpt Hbw Hfp HF. apply mountfs_out_wp; [done|intros _; rewrite Hbw; exists d; apply lookup_insert_eq|].
    intros s2 H1 H2 H3. split; [rewrite H2; cbn; rewrite Hbw, Hb; by apply delete_insert_id|].
    rewrite (proj2 (Z.eqb_neq F 0)) by done. split; [by destruct H3 as [->| ->]|done]. }
  assert (mountable es (k_world s1)) as Hmn.
  { apply (mountable_holding es (k_world s)); [by apply Hin| |done]. intros b Hne. cbn. by rewrite lookup_insert_ne. }
  assert (k_heap s1 = base /\ k_ptrs s1 = base) as [Hheap Hptrs] by (cbn; rewrite Hh, Hp; by rewrite (right_id_L ∅ (∪))).
  apply wp_bind, mount_sb_data_wp; [done|done|by apply Hin|by rewrite Hheap|rewrite Hptrs; unfold base; set_solver..| |].
  - intros e s' He H1 (k & Hk) H2 Hptr. apply compute_sb_data_errno in He. rewrite (proj2 (Z.eqb_neq e 0)) by done. cbn [negb].
    apply Hout; [|by rewrite Hk|by rewrite H2|done]. destruct Hptr as [[Hptr _]|[_ Hmiss]]; [|by destruct Htab].
    rewrite <- (added_cleared base s') by congruence. apply partial_added; [done|done|unfold all_objs, base; set_solver|unfold base; set_solver..].
  - intros fs gds k _ Hsum _ _ _ _ _. cbn [Z.eqb negb]. wp_steps. apply wp_on_world. eapply wp_brelse; [apply lookup_insert_eq|].
    wp_steps. set (s2 := upd_k_world _ _).
    assert (k_heap s2 = arrays ∪ base /\ k_ptrs s2 = arrays ∪ base) as [Hh2 Hp2] by (cbn; rewrite Hh, Hp; by rewrite !(right_id_L ∅ (∪))).
    assert (w_bufs (k_world s2) = ∅) as Hb2 by (cbn; rewrite Hb; by apply delete_insert_id).
    rewrite <- (added_cleared (arrays ∪ base) s2) by done. apply alloc_clustersum_wp; change (k_fs (cleared s2)) with fs; [done|..].
    + intros Y HY Hcs. cbn [Z.eqb negb]. change (ENOMEM =? 0) with false. cbn [negb]. apply mountfs_out_wp; [|done|].
      * apply partial_added; [done|done| | |clear; unfold base; set_solver|clear; unfold base; set_solver|by intros _].
        -- change (k_fs (cleared s2)) with fs. unfold all_objs, arrays, base. clear -HY. case_match; set_solver.
        -- intros HnC i. unfold arrays, base in *. specialize (Hcs ltac:(set_solver) i). case_match; set_solver.
      * intros s' H1 H2 H3. split; [by rewrite H2|]. change (ENOMEM =? 0) with false. cbn. split; [by destruct H3 as [->| ->]|done].
    + intros mc cs. cbn [Z.eqb negb]. apply mountfs_finish_wp; [done|done| |done]. cbn. by rewrite (right_id_L ∅ (∪)).
Qed.

Lemma mountfs_table_error s es rest :
  quiet_dev -> idle_mount s -> mount_input s es rest -> table_error es (k_world s) ->
  ext2_mountfs MAXPHYS ronly force malloc_null s = Fault HeapMisuse.
Proof.
  intros Hq Hi Hin (Ha & Hbase & Hmiss). pose proof Hi as (Hh & Hp & Hf & Hb).
  destruct (mountfs_start_run s es rest) as [d ->]; [done..|]. set (s1 := mount_copied es rest d base s).
  assert (mountable es (k_world s1)) as Hmn.
  { apply (mountable_holding es (k_world s)); [by apply Hin| |done]. intros b Hne. cbn. by rewrite lookup_insert_ne. }
  assert (k_heap s1 = base /\ k_ptrs s1 = base) as [Hheap Hptrs] by (cbn; rewrite Hh, Hp; by rewrite (right_id_L ∅ (∪))).
  assert (wp (mount_sb_data malloc_null) (fun e s' => e <> 0 /\ k_heap s' = base /\ k_ptrs s' = arrays ∪ base /\
    w_bufs (k_world s') !! SBLOCK = Some d) s1) as H.
  { apply mount_sb_data_wp; [done|done|by apply Hin|by rewrite Hheap|rewrite Hptrs; unfold base; set_solver..| |].
    - intros e s' He H1 (k & Hk) _ Hptr. apply compute_sb_data_errno in He. split; [done|]. split; [by rewrite H1|].
      split; [|rewrite Hk; apply lookup_insert_eq]. destruct Hptr as [[_ Hg]|[Hptr _]]; [|by rewrite Hptr, Hptrs].
      destruct Hmiss as (fs & n & j & Hg' & _). change (k_es s1) with es in Hg. congruence.
    - intros fs gds k Hno. by destruct Hno. }
  apply wp_run in H as (e & s2 & Hrun & He & H1 & H2 & H3). unfold mountfs_rest. rewrite (bind_run _ _ _ _ _ Hrun).
  rewrite (proj2 (Z.eqb_neq e 0)) by done. cbn [negb]. by eapply mountfs_out_double_free.
Qed.


End mount.
