(* ===== verification/UnmountSpec.v ===== *)
(** Unmounting: what is written, and that a volume unmounted in order is read by
    the next mount as it was left. *)
From stdpp Require Import gmap.
From S2P Require Import Prelude Bitmap Bytes Super Ihash Kernel InodeCnv Cluster Alloc AllocSpec Extents Bmap Balloc BallocSpec Dir Inode Mount MountSpec.
From stdpp Require Import list.
#[local] Open Scope Z_scope.

(** * The geometry depends on nothing a running volume changes *)

Definition set_es (es : ext2fs) (fs : m_ext2fs) : m_ext2fs :=
  mk_m_ext2fs es (m_bsize fs) (m_bshift fs) (m_bpg fs) (m_qbmask fs) (m_fsbtodb fs) (m_ipg fs) (m_ipb fs)
    (m_itpg fs) (m_fsize fs) (m_fpb fs) (m_fpg fs) (m_gdbcount fs) (m_gcount fs) (m_isize fs) (m_total_dir fs)
    (m_contigdirs fs) (m_maxfilesize fs) (m_gd fs) (m_gdsize fs).

(** A superblock that differs from [es] in what a running volume changes. *)
Definition running (es : ext2fs) (fb fi wt st : Z) (jb : list Z) : ext2fs :=
  upd_e2fs_fbcount (fun _ => fb) (upd_e2fs_ficount (fun _ => fi) (upd_e2fs_wtime (fun _ => wt)
    (upd_e2fs_state (fun _ => st) (upd_e3fs_jnl_blks (fun _ => jb) es)))).

Lemma ok_inl_inv (a fs : m_ext2fs) (m n : Z) :
  Ok (inl (a, m) : m_ext2fs * Z + Z) = Ok (inl (fs, n)) -> a = fs /\ m = n.
Proof. by intros [= -> ->]. Qed.

Lemma set_es_mk es' es a b c d e f g h i j k l m n o p q r s :
  set_es es' (mk_m_ext2fs es a b c d e f g h i j k l m n o p q r s) = mk_m_ext2fs es' a b c d e f g h i j k l m n o p q r s.
Proof. reflexivity. Qed.

Lemma geometry_running es fb fi wt st jb fs n :
  sb_geometry es = Ok (inl (fs, n)) -> sb_geometry (running es fb fi wt st jb) = Ok (inl (set_es (running es fb fi wt st jb) fs, n)).
Proof.
  unfold sb_geometry. set (X := running es fb fi wt st jb). cbv zeta.
  repeat match goal with |- context [?f X] =>
    lazymatch type of (f X) with ext2fs => fail | Z => progress change (f X) with (f es) end end.
  clearbody X. destruct (shl_int _ _); [|done]. cbn [mbind res_bind].
  repeat match goal with |- (if ?c then _ else _) = _ -> _ => destruct c; [done|] end.
  intros [Hfs <-]%ok_inl_inv. rewrite <- Hfs, set_es_mk. reflexivity.
Qed.

Section unmount.
Context `{KE : KernelEnv} (MAXPHYS : Z) (malloc_null : obj -> bool).

(** * Writing back *)

(** A device that also writes without errors. *)
Record good_dev : Prop := mk_good_dev {
  gv_quiet : quiet_dev;
  gv_write : forall n b, ke_write_error n b = None;
  gv_getblk : forall n b, ke_getblk_null n b = false
}.

(** The world with the device in another state, some time later. *)
Definition on_disk (dev : gmap Z (list Z)) (k : nat) (s : mstate) : mstate :=
  upd_k_world (fun w => upd_w_dev (fun _ => dev) (later k w)) s.

Lemma on_disk_self s : on_disk (w_dev (k_world s)) (w_tick (k_world s)) s = s.
Proof. destruct s as [w heap ptrs es rsv fs0 wv fp loc]. by destruct w. Qed.

(** One buffer held. *)
Definition holding (b : Z) (d : list Z) (k : nat) (s : mstate) : mstate :=
  upd_k_world (fun w => upd_w_bufs (insert b d) (later k w)) s.

Lemma wp_getblk_good (Q : bool -> mstate -> Prop) s b size :
  good_dev -> w_bufs (k_world s) !! b = None -> (forall d k, Q true (holding b d k s)) -> wp (on_world (buf_getblk b size)) Q s.
Proof.
  intros [Hq _ Hg] Hb HQ. apply wp_on_world. unfold wp, buf_getblk. rewrite Hb, (qd_wait Hq). cbv zeta. rewrite Hg.
  exact (HQ _ (S (w_tick (k_world s)))).
Qed.

Lemma wp_store_held (Q : unit -> mstate -> Prop) s b d d' k : Q tt (holding b d k s) -> wp (on_world (buf_store b d)) Q (holding b d' k s).
Proof.
  intros HQ. apply wp_on_world. eapply wp_store; [apply lookup_insert_eq|].
  unfold holding, upd_k_world, upd_w_bufs in *. cbn in *. by rewrite insert_insert_eq.
Qed.

Lemma wp_put_good (Q : Z -> mstate -> Prop) s b d k :
  good_dev -> w_bufs (k_world s) !! b = None ->
  (forall k, Q 0 (on_disk (<[b := d]> (w_dev (k_world s))) k s)) -> wp (put_block true b) Q (holding b d k s).
Proof.
  intros [_ Hw _] Hb HQ. unfold put_block. apply wp_on_world.
  unfold wp, buf_bwrite. cbn [w_bufs upd_w_bufs k_world upd_k_world holding later upd_w_tick]. rewrite lookup_insert_eq. cbv zeta. rewrite Hw.
  specialize (HQ (S k)). revert HQ. unfold on_disk, upd_k_world, holding, later, upd_w_dev, upd_w_tick, upd_w_bufs. cbn.
  by rewrite delete_insert_id.
Qed.

Lemma sbupdate_good (Q : Z -> mstate -> Prop) s :
  good_dev -> w_bufs (k_world s) = ∅ ->
  (forall k, Q 0 (on_disk (<[SBLOCK := sb_bytes (es_now s) (k_reserved2 s)]> (w_dev (k_world s))) k s)) ->
  wp (ext2_sbupdate true) Q s.
Proof.
  intros Hg Hb HQ. unfold ext2_sbupdate. wp_steps. apply wp_getblk_good; [done|by rewrite Hb|]. intros d k. cbn [negb].
  wp_steps. apply wp_store_held. apply wp_put_good; [done|by rewrite Hb|exact HQ].
Qed.

(** The [j]-th block of a table. *)
Definition table_block (fs : m_ext2fs) (tbl : list Z) (j : Z) : list Z :=
  take (Z.to_nat (m_bsize fs)) (drop (Z.to_nat (j * m_bsize fs)) tbl).

Lemma cgupdate_loop_wp (Q : Z * Z -> mstate -> Prop) fs tbl n : forall i s allerror,
  good_dev -> w_bufs (k_world s) = ∅ -> k_fs s = fs -> gd_table s = Ok tbl -> 0 < m_bsize fs -> 0 <= i ->
  (i + Z.of_nat n) * m_bsize fs <= zlen tbl ->
  (forall j j', i <= j < i + Z.of_nat n -> i <= j' < i + Z.of_nat n -> gd_block fs j = gd_block fs j' -> j = j') ->
  (forall dev' k,
     (forall j, i <= j < i + Z.of_nat n -> dev' !! gd_block fs j = Some (table_block fs tbl j)) ->
     (forall b, (forall j, i <= j < i + Z.of_nat n -> b <> gd_block fs j) -> dev' !! b = w_dev (k_world s) !! b) ->
     Q (0, allerror) (on_disk dev' k s)) ->
  wp (cgupdate_loop true n i 0 allerror) Q s.
Proof.
  induction n as [|n IH]; intros i s allerror Hg Hb Hfs Htbl Hbs Hi Hlen Hinj HQ; cbn [cgupdate_loop].
  { wp_steps. rewrite <- (on_disk_self s). apply HQ; [intros j Hj; lia|done]. }
  assert (get_bytes tbl (i * m_bsize fs) (Z.to_nat (m_bsize fs)) = Ok (table_block fs tbl i)) as Hget by (apply get_bytes_ok; nia).
  wp_steps. rewrite Hfs. apply wp_getblk_good; [done|by rewrite Hb|]. intros d k. cbn [negb]. wp_steps.
  eapply wp_lift; [exact Htbl|]. wp_steps. eapply wp_lift; [exact Hget|]. wp_steps. apply wp_store_held.
  wp_steps. apply wp_put_good; [done|by rewrite Hb|]. intros k1. apply IH; try done; [lia|nia|intros j j' Hj Hj'; apply Hinj; lia|].
  intros dev' k2 Hin Hout. change (on_disk dev' k2 (on_disk _ k1 s)) with (on_disk dev' k2 s). apply HQ.
  - intros j Hj. destruct (decide (j = i)) as [->|]; [|apply Hin; lia]. rewrite Hout; [apply lookup_insert_eq|].
    intros j' Hj' Heq. apply Hinj in Heq; lia.
  - intros b Hne. rewrite Hout by (intros j Hj; apply Hne; lia). apply lookup_insert_ne. intros <-. apply (Hne i); [lia|done].
Qed.

(** * A mounted volume *)

(** What a mount leaves: its descriptors are in a table of their size, and its
    cluster summary in an array of its size. *)
Record mounted (s : mstate) (fs0 : m_ext2fs) (n : Z) : Prop := mk_mounted {
  md_geom : sb_geometry (m_e2fs (k_fs s)) = Ok (inl (fs0, n));
  md_geom_ok : sb_geometry_ok (m_e2fs (k_fs s)) fs0 n;
  md_fs : exists tbl t, k_fs s = with_table fs0 tbl t /\ zlen tbl = n * m_bsize fs0;
  md_es : exists wt st jb, es_now s = running (m_e2fs (k_fs s)) (w_fbcount (k_world s)) (w_ficount (k_world s)) wt st jb;
  md_gds : Forall gd_in_range (w_gd (k_world s));
  md_len : zlen (w_gd (k_world s)) = m_gcount fs0;
  md_fdb : e2fs_first_dblock (m_e2fs (k_fs s)) = logic_sb_block (m_bsize fs0);
  md_sb : sb_ok (es_now s);
  md_rest : length (k_reserved2 s) = sizeof_reserved2;
  md_live : k_heap s = mount_objs malloc_null (k_fs s) /\ k_ptrs s = k_heap s;
  md_idle : w_bufs (k_world s) = ∅;
  md_alloc : zlen (m_gd (k_fs s)) = gd_alloc (m_bsize fs0) n;
  md_summary : summary_fits (k_fs s)
}.

(** The table of a volume, concatenated from its blocks. *)
Lemma read_blocks dev shift bsize size tbl0 n : forall first acc,
  0 <= bsize -> zlen acc + Z.of_nat n * bsize <= size -> (forall j, 0 <= j < Z.of_nat n -> dev !! Z.shiftl (first + j) shift = Some (take (Z.to_nat bsize) (drop (Z.to_nat (j * bsize)) tbl0))) ->
  zlen tbl0 = Z.of_nat n * bsize -> read_gd_blocks (bread_of dev) shift bsize size first n acc = Ok (inl (acc ++ tbl0)).
Proof.
  revert tbl0. induction n as [|n IH]; intros tbl0 first acc Hb Hsize Hdev Hlen; cbn [read_gd_blocks].
  - assert (tbl0 = []) as -> by (apply nil_length_inv; unfold zlen in Hlen; lia). by rewrite app_nil_r.
  - unfold bread_of at 1. pose proof (Hdev 0) as H0. rewrite Z.add_0_r in H0. rewrite H0 by lia. cbn [Z.mul Z.to_nat drop].
    destruct (Z.gtb_spec (zlen acc + bsize) size); [nia|].
    rewrite (IH (drop (Z.to_nat bsize) tbl0)); [|done|unfold zlen in *; rewrite length_app, length_take; lia| |unfold zlen in *; rewrite length_drop; lia].
    + f_equal. rewrite <- (assoc_L (++)). by rewrite take_drop.
    + intros j Hj. replace (first + 1 + j) with (first + (j + 1)) by lia. rewrite Hdev by lia. f_equal. f_equal.
      rewrite drop_drop. f_equal. nia.
Qed.

(** The state written at the end: marked clean when it was clean at the mount. *)
Definition es_left (s : mstate) : ext2fs :=
  if k_wasvalid s then upd_e2fs_state (fun st => Z.lor st E2FS_ISCLEAN) (es_now s) else es_now s.

Lemma sb_ok_state es v : sb_ok es -> u16_ok v -> sb_ok (upd_e2fs_state (fun _ => v) es).
Proof.
  intros [Hf H1 H2 H3 H4 H5 H6] Hv. constructor; try done.
  assert (sb_fields (upd_e2fs_state (fun _ => v) es) = <[16%nat := v]> (sb_fields es)) as -> by reflexivity.
  assert (sb_layout = <[16%nat := 2%nat]> sb_layout) as -> by reflexivity. apply Forall2_insert; [done|exact Hv].
Qed.

Lemma lor_range a b n : 0 <= n -> 0 <= a < 2 ^ n -> 0 <= b < 2 ^ n -> 0 <= Z.lor a b < 2 ^ n.
Proof.
  intros Hn Ha Hb. assert (Z.lor a b mod 2 ^ n = Z.lor a b) as <-; [|apply Z.mod_pos_bound; lia].
  rewrite <- Z.land_ones, Z.land_lor_distr_l, !Z.land_ones by done. by rewrite !Z.mod_small.
Qed.

Lemma sb_ok_left s : sb_ok (es_now s) -> sb_ok (es_left s).
Proof.
  intros Hok. unfold es_left. case_match; [|done].
  change (upd_e2fs_state (fun st => Z.lor st E2FS_ISCLEAN) (es_now s)) with (upd_e2fs_state (fun _ => Z.lor (e2fs_state (es_now s)) 1) (es_now s)).
  apply sb_ok_state; [done|]. destruct Hok as [Hf _ _ _ _ _ _].
  pose proof (Forall2_lookup_lr _ _ _ 16%nat 2%nat (e2fs_state (es_now s)) Hf eq_refl eq_refl) as Hst.
  by apply (lor_range _ 1 16).
Qed.

Lemma es_left_running s fs0 n : mounted s fs0 n -> exists wt st jb,
  es_left s = running (m_e2fs (k_fs s)) (w_fbcount (k_world s)) (w_ficount (k_world s)) wt st jb.
Proof.
  intros Hm. destruct (md_es _ _ _ Hm) as (wt & st & jb & He). unfold es_left. rewrite He.
  destruct (k_wasvalid s); [exists wt, (Z.lor st E2FS_ISCLEAN), jb; reflexivity|by exists wt, st, jb].
Qed.

(** What a mount reads from a device with that superblock and that table. *)
Lemma remount_reads s fs0 n es tbl dev : mounted s fs0 n ->
  (exists wt st jb, es = running (m_e2fs (k_fs s)) (w_fbcount (k_world s)) (w_ficount (k_world s)) wt st jb) ->
  zlen tbl = n * m_bsize fs0 -> decode_gds tbl (m_gdsize fs0) 0 (Z.to_nat (m_gcount fs0)) = Ok (w_gd (k_world s)) ->
  (forall j, 0 <= j < n -> dev !! gd_block (k_fs s) j = Some (table_block (k_fs s) tbl j)) ->
  exists fs', compute_sb_data (bread_of dev) es = Ok (inl fs') /\
    decode_gds (m_gd fs') (m_gdsize fs') 0 (Z.to_nat (m_gcount fs')) = Ok (w_gd (k_world s)).
Proof.
  intros Hm (wt & st & jb & ->) Hlen Hdec Hdev. pose proof (md_geom_ok _ _ _ Hm) as Hg. pose proof (sg_blocks _ _ _ Hg) as Hn.
  destruct (md_fs _ _ _ Hm) as (tbl0 & t0 & Hfs & _). unfold compute_sb_data.
  rewrite (geometry_running _ _ _ _ _ _ _ _ (md_geom _ _ _ Hm)). cbn [mbind res_bind].
  pose proof (sg_bsize _ _ _ Hg). pose proof (sg_gcount _ _ _ Hg). pose proof (sg_gdsize _ _ _ Hg). pose proof (sg_covers _ _ _ Hg).
  pose proof (logic_sb_range (m_bsize fs0)).
  assert (gd_alloc (m_bsize fs0) n = n * m_bsize fs0) as Halloc.
  { destruct (md_fs _ _ _ Hm) as (tbl1 & t1 & Hfs1 & Hl1). rewrite <- (md_alloc _ _ _ Hm), Hfs1. exact Hl1. }
  rewrite (read_blocks _ _ _ _ tbl); cycle 1.
  - cbn. lia.
  - cbn [m_bsize set_es]. rewrite Halloc. unfold zlen. cbn [length]. lia.
  - intros j Hj. rewrite Z2Nat.id in Hj by lia. specialize (Hdev j Hj). unfold table_block, gd_block in Hdev. rewrite md_fdb with (1 := Hm) in Hdev.
    rewrite Hfs in Hdev. cbn in Hdev |- *. rewrite u32_id in Hdev by (unfold u32_ok; lia).
    change (fsbtodb (with_table fs0 tbl0 t0)) with (fsbtodb fs0) in Hdev. rewrite (sg_address _ _ _ _ Hg) in Hdev by lia. exact Hdev.
  - cbn. lia.
  - cbn [app]. destruct (total_dir_loop_ok tbl (m_gdsize fs0)) with (n := Z.to_nat (s32 (m_gcount fs0))) (i := 0) (acc := 0) as [t Ht]; [lia|lia| |].
    { rewrite s32_id by (unfold s32_ok; lia). lia. }
    cbn [m_gdsize m_gcount set_es mbind res_bind app]. rewrite Ht. cbn [mbind res_bind]. eexists. split; [reflexivity|]. exact Hdec.
Qed.

Lemma mounted_table s fs0 n : mounted s fs0 n -> exists tbl, gd_table s = Ok tbl /\ zlen tbl = n * m_bsize fs0 /\
  decode_gds tbl (m_gdsize fs0) 0 (Z.to_nat (m_gcount fs0)) = Ok (w_gd (k_world s)).
Proof.
  intros Hm. pose proof (md_geom_ok _ _ _ Hm) as Hg. destruct (md_fs _ _ _ Hm) as (tbl0 & t0 & Hfs & Hlen).
  pose proof (sg_covers _ _ _ Hg). unfold gd_table. rewrite Hfs. cbn [m_gdsize m_gd with_table].
  destruct (store_gds_spec (m_gdsize fs0) (w_gd (k_world s)) (sg_gdsize _ _ _ Hg) (md_gds _ _ _ Hm) 0 tbl0) as (tbl & Hst & Hl & Hdec & _);
    [done|rewrite (md_len _ _ _ Hm); lia|].
  exists tbl. split; [done|]. split; [lia|]. rewrite <- Hdec. f_equal. rewrite <- (md_len _ _ _ Hm). unfold zlen. by rewrite Nat2Z.id.
Qed.

(** The addresses of the blocks of the table. *)
Lemma gd_block_addr s fs0 n j : mounted s fs0 n -> 0 <= j < n ->
  gd_block (k_fs s) j = Z.shiftl (logic_sb_block (m_bsize fs0) + 1 + j) (m_fsbtodb fs0) /\ gd_block (k_fs s) j <> SBLOCK.
Proof.
  intros Hm Hj. pose proof (md_geom_ok _ _ _ Hm) as Hg. destruct (md_fs _ _ _ Hm) as (tbl0 & t0 & Hfs & _).
  pose proof (sg_blocks _ _ _ Hg). pose proof (logic_sb_range (m_bsize fs0)). unfold gd_block. rewrite md_fdb with (1 := Hm).
  rewrite u32_id by (unfold u32_ok; lia). rewrite Hfs. change (fsbtodb (with_table fs0 tbl0 t0)) with (fsbtodb fs0).
  split; [eapply sg_address; [done|lia]|]. eapply sg_apart; [done|lia].
Qed.

Lemma cgupdate_good (Q : Z -> mstate -> Prop) s fs0 n tbl : good_dev -> mounted s fs0 n -> gd_table s = Ok tbl -> zlen tbl = n * m_bsize fs0 ->
  (forall dev k, (forall j, 0 <= j < n -> dev !! gd_block (k_fs s) j = Some (table_block (k_fs s) tbl j)) -> Q 0 (on_disk dev k s)) ->
  wp (ext2_cgupdate true) Q s.
Proof.
  intros Hgd Hm Htbl Hlen HQ. pose proof (md_geom_ok _ _ _ Hm) as Hg. destruct (md_fs _ _ _ Hm) as (tbl0 & t0 & Hfs & _).
  pose proof (sg_blocks _ _ _ Hg). pose proof (sg_bsize _ _ _ Hg). pose proof (md_idle _ _ _ Hm) as Hidle. pose proof (sg_shift _ _ _ Hg).
  assert (m_gdbcount (k_fs s) = n) as Hn by (rewrite Hfs; apply Hg).
  assert (m_bsize (k_fs s) = m_bsize fs0) as Hbs by (by rewrite Hfs).
  unfold ext2_cgupdate. wp_steps. apply sbupdate_good; [done..|]. intros k1. wp_steps. set (s1 := on_disk _ k1 s).
  change (k_fs s1) with (k_fs s). rewrite Hn, s32_id by (unfold s32_ok; lia).
  apply (cgupdate_loop_wp _ (k_fs s) tbl); [done|done|done|exact Htbl|lia|done|rewrite Hbs; lia| |].
  - intros j j' Hj Hj' Heq. rewrite Z2Nat.id in Hj, Hj' by lia. destruct (gd_block_addr s fs0 n j Hm) as [E _]; [lia|].
    destruct (gd_block_addr s fs0 n j' Hm) as [E' _]; [lia|]. rewrite E, E', !Z.shiftl_mul_pow2 in Heq by lia.
    apply Z.mul_reg_r in Heq; [lia|]. pose proof (Z.pow_pos_nonneg 2 (m_fsbtodb fs0)). lia.
  - intros dev k Hin _. wp_steps. change (on_disk dev k s1) with (on_disk dev k s). apply HQ.
    intros j Hj. apply Hin. rewrite Z2Nat.id; lia.
Qed.

(** Everything is given back at the end. *)
Lemma unmount_release_wp (Q : Z -> mstate -> Prop) s :
  partial s ->
  (forall s', k_heap s' = ∅ -> k_world s' = k_world s -> k_fsprivate s' = false -> k_local s' = false -> Q 0 s') ->
  wp (free_clustersum;; kfree MaxCluster;; kfree Gd;; kfree Contigdirs;; kfree Es;; kfree MFs;; kfree Lock;; kfree Ump;;
      modify (upd_k_fsprivate (fun _ => false));; modify (upd_k_local (fun _ => false));; mret 0) Q s.
Proof.
  intros Hp HQ. rewrite <- (freed_none s (pt_live _ Hp)). apply free_arrays_wp; [done|set_solver|].
  apply wp_kfrees; [apply (mfs_last s ∅ Hp); set_solver|]. rewrite but_lock_eq by (done || set_solver).
  apply wp_kfrees; [unfold freed_but_lock; rewrite elem_of_union, elem_of_difference; set_solver|].
  apply wp_kfrees; [unfold freed_but_lock; rewrite !elem_of_union, elem_of_difference; set_solver|].
  wp_steps. apply HQ; [|done..]. rewrite freed_all; [done|]. unfold freed_but_lock. intros o Ho%(pt_objs _ Hp). clear -Ho.
  destruct (decide (o = Ump)), (decide (o = Lock)); set_solver.
Qed.

(** C17: A volume that is unmounted in order is mounted again as it was left:
    after [ext2_unmount] of a writable mount, with nothing left to flush and a
    device that works, the superblock read back is the one in memory, marked
    clean when it was clean at the mount, with the free counts of the running
    volume, [compute_sb_data] accepts it, and the table it reads holds the
    descriptors of the running volume. All memory has been given back. *)
Theorem unmount_remount s fs0 n vflush inval :
  good_dev -> mounted s fs0 n -> (forall w, vflush w = Ok (0, w)) -> (forall w, inval w = Ok (0, w)) ->
  wp (ext2_unmount false vflush inval) (fun e s' => e = 0 /\ k_heap s' = ∅ /\ k_fsprivate s' = false /\
    let dev := w_dev (k_world s') in
    (exists d, dev !! SBLOCK = Some d /\ sb_load d = Ok (es_left s, k_reserved2 s)) /\
    exists fs', compute_sb_data (bread_of dev) (es_left s) = Ok (inl fs') /\
      decode_gds (m_gd fs') (m_gdsize fs') 0 (Z.to_nat (m_gcount fs')) = Ok (w_gd (k_world s))) s.
Proof.
  intros Hgd Hm Hfl Hinv. destruct (mounted_table _ _ _ Hm) as (tbl & Htbl & Hlen & Hdec).
  pose proof (sb_ok_left s (md_sb _ _ _ Hm)) as Hok. pose proof (md_rest _ _ _ Hm) as Hrest. pose proof (md_idle _ _ _ Hm) as Hidle.
  unfold ext2_unmount. wp_steps. apply wp_on_world. unfold wp at 1. rewrite Hfl. cbn [Z.eqb negb].
  replace (upd_k_world (fun _ => k_world s) s) with s by (by destruct s).
  apply wp_bind, wp_bind. apply (cgupdate_good _ s fs0 n tbl); [done..|]. intros dev k Hdev. cbn [Z.eqb].
  wp_steps. change (k_wasvalid (on_disk dev k s)) with (k_wasvalid s).
  set (s1 := if k_wasvalid s then upd_k_es (upd_e2fs_state (fun st => Z.lor st E2FS_ISCLEAN)) (on_disk dev k s) else on_disk dev k s).
  assert (es_now s1 = es_left s /\ w_bufs (k_world s1) = ∅ /\ w_dev (k_world s1) = dev /\ k_reserved2 s1 = k_reserved2 s) as (He1 & Hb1 & Hd1 & Hr1).
  { unfold s1, es_left. by destruct (k_wasvalid s). }
  assert (k_fs s1 = k_fs s /\ k_heap s1 = k_heap s /\ k_ptrs s1 = k_ptrs s) as (Hf1 & Hh1 & Hp1) by (unfold s1; by destruct (k_wasvalid s)).
  match goal with |- wp _ ?P _ => assert (P tt s1) as HP; [|unfold s1 in HP; destruct (k_wasvalid s); [apply wp_modify|apply wp_ret]; exact HP] end.
  wp_steps. apply sbupdate_good; [done..|]. intros k2. wp_steps. apply wp_on_world. unfold wp at 1. rewrite Hinv.
  set (s2 := upd_k_world _ _). destruct (md_live _ _ _ Hm) as [Hlive1 Hlive2].
  assert (partial s2) as Hpart.
  { constructor; cbn; rewrite ?Hf1, ?Hh1, ?Hp1, ?Hlive2, ?Hlive1; [done|apply mount_objs_all|unfold mount_objs, base; set_solver..|intros _; apply (md_summary _ _ _ Hm)]. }
  apply unmount_release_wp; [done|]. intros s' H1 H2 H3 _. split; [done|]. split; [done|]. split; [done|]. rewrite H2.
  change (w_dev (k_world s2)) with (<[SBLOCK := sb_bytes (es_now s1) (k_reserved2 s1)]> (w_dev (k_world s1))). rewrite Hd1, He1, Hr1. split.
  - eexists. split; [apply lookup_insert_eq|]. by apply sb_load_bytes.
  - apply (remount_reads s fs0 n _ tbl); [done|by eapply es_left_running|done|done|].
    intros j Hj. destruct (gd_block_addr s fs0 n j Hm Hj) as [_ Hne]. rewrite lookup_insert_ne by done. by apply Hdev.
Qed.
End unmount.
