(* ===== verification/MountExamples.v ===== *)
(** The volume of SuperExamples.v as bytes on a device, mounted and unmounted:
    the theorems of MountSpec.v and UnmountSpec.v apply to it. *)
From stdpp Require Import gmap.
From S2P Require Import Prelude Bitmap Bytes Super SuperExamples Ihash Kernel InodeCnv Cluster Alloc AllocSpec AllocExamples Extents Bmap Balloc BallocSpec Dir Inode Mount MountSpec UnmountSpec.
From stdpp Require Import list.
#[local] Open Scope Z_scope.

Definition es1 : ext2fs :=
  mk_ext2fs 16 33 1 20 13 1 0 0 16 16 8 0 0 0 20 E2FS_MAGIC 1 1 0 0 0 0 1 0 0 11 128 0 0 2 1
    (replicate 16 0) (replicate 16 0) (replicate 64 0) 0 0 0 0 (replicate 16 0) 0 0 0 (replicate 4 0) 0 0 0 0 0 0
    (replicate 17 0) 0 0 0 0 0 0 0 0 0 0 0 0 0 0.

Definition table1 : list Z :=
  fields_encode gd_layout (gd_fields (mk_gd 3 4 5 8 5 1 0 0 0 0 0 0)) ++
  fields_encode gd_layout (gd_fields (mk_gd 19 20 21 12 8 0 0 0 0 0 0 0)) ++ replicate 960 0.

Definition env_quiet : KernelEnv :=
  mk_env (fun _ _ => None) (fun _ _ => None) (fun _ _ => false) (fun _ _ size => replicate (Z.to_nat size) 0)
    (fun n => Z.of_nat n) (fun n => (Z.of_nat n, 0)) (fun _ w => w) (fun _ _ w => w).

Lemma good_dev1 : @good_dev env_quiet.
Proof. by constructor. Qed.

(** The device before a mount; with [table] false the block of descriptors is
    missing, so that reading it fails. *)
Definition disk1 (table : bool) : gmap Z (list Z) :=
  let d := {[SBLOCK := sb_bytes es1 (replicate 640 0)]} in if table then <[4 := table1]> d else d.
Definition world_empty (dev : gmap Z (list Z)) : world :=
  mk_world 0 0 0 0 [] [] [] [] dev ∅ ∅ false ∅ 0 ∅ ∅ (mk_ihash None 0 None ∅ 0) ∅.
Definition before (table : bool) : mstate := mk_mstate (world_empty (disk1 table)) ∅ ∅ es0 [] fs0 false false false.

(** The allocation of the fourth summary of a group fails, or none. *)
Definition no_null (o : obj) : bool := false.
Definition null_at (o' o : obj) : bool := bool_decide (o = o').

Definition mounts (m : M mstate Z) (s : mstate) : option (Z * mstate) := match m s with Ok r => Some r | Fault _ => None end.

(** A mount that succeeds, one that runs out of memory half-way, and one whose
    table cannot be read: there the arrays are freed twice. *)
Example mount_succeeds : fst <$> mounts (@ext2_mountfs env_quiet 131072 false false no_null) (before true) = Some 0.
Proof. vm_compute. reflexivity. Qed.
Example mount_out_of_memory : match @ext2_mountfs env_quiet 131072 false false (null_at (CsSum 1)) (before true) with
  | Ok (e, s) => e = ENOMEM /\ k_heap s = ∅ | Fault _ => False end.
Proof. vm_compute. done. Qed.
Example mount_double_free : @ext2_mountfs env_quiet 131072 false false no_null (before false) = Fault HeapMisuse.
Proof. vm_compute. reflexivity. Qed.

Definition mounted1 : mstate :=
  match @ext2_mountfs env_quiet 131072 false false no_null (before true) with Ok (_, s) => s | Fault _ => before true end.

Lemma mountable1 w : w_bufs w !! 4 = None -> w_dev w = disk1 true -> mountable false es1 w.
Proof.
  intros Hb Hd. constructor; [reflexivity|constructor; vm_compute; congruence|vm_compute; congruence|vm_compute; congruence|vm_compute; congruence| |intros fs n Hg; vm_compute in Hg; injection Hg as <- <-; split; [|split]; vm_compute; congruence].
  intros fs n j Hg Hj. vm_compute in Hg. injection Hg as <- <-. cbn [m_bsize] in Hj. change (logic_sb_block 1024) with 1 in Hj.
  assert (j = 2) as -> by lia. split; [exact Hb|]. rewrite Hd. vm_compute. by intros d [= <-].
Qed.

Lemma mount_input1 : mount_input false false no_null (before true) es1 (replicate 640 0).
Proof.
  constructor; [|reflexivity| |reflexivity].
  - eexists. split; [reflexivity|]. split; vm_compute; reflexivity.
  - intros _. by apply mountable1.
Qed.

Lemma table_there : ~ table_missing es1 (k_world (before true)).
Proof.
  intros (fs & n & j & Hg & Hj & Hnone). vm_compute in Hg. injection Hg as <- <-. cbn [m_bsize] in Hj. change (logic_sb_block 1024) with 1 in Hj.
  assert (j = 2) as -> by lia. vm_compute in Hnone. discriminate.
Qed.

Lemma mount_input2 : mount_input false false no_null (before false) es1 (replicate 640 0).
Proof.
  constructor; [|reflexivity| |reflexivity].
  - eexists. split; [reflexivity|]. split; vm_compute; reflexivity.
  - intros _. destruct (mountable1 (world_empty (disk1 true)) eq_refl eq_refl) as [H1 H2 H3 H4 H5 _ H7]. constructor; [done..| |done].
    intros fs n j Hg Hj. vm_compute in Hg. injection Hg as <- <-. cbn [m_bsize] in Hj. change (logic_sb_block 1024) with 1 in Hj.
    assert (j = 2) as -> by lia. by split.
Qed.


(** The mounted volume. *)
Definition geom1 : m_ext2fs := mk_m_ext2fs es1 1024 10 16 1023 1 8 8 1 1024 1 16 1 2 128 0 [] 0 [] 32.

Lemma geom_ok1 : sb_geometry_ok es1 geom1 1.
Proof.
  pose proof (mountable1 (world_empty (disk1 true)) eq_refl eq_refl) as Hm.
  apply (mountable_geometry false es1 (world_empty (disk1 true))); [done|]. vm_compute. reflexivity.
Qed.

Lemma Forall2_fits ws vs :
  (length ws =? length vs)%nat && forallb (fun p => (0 <=? snd p) && (snd p <? 2 ^ (8 * Z.of_nat (fst p)))) (zip ws vs) = true ->
  Forall2 (fun w v => 0 <= v < 2 ^ (8 * Z.of_nat w)) ws vs.
Proof.
  revert vs. induction ws as [|w ws IH]; intros [|v vs] H; try done. cbn in H.
  apply andb_true_iff in H as [Hl [Hv Hr]%andb_true_iff]. constructor; [lia|]. apply IH. cbn in Hl. by rewrite Hl.
Qed.

Lemma mounted_ok1 : mounted no_null mounted1 geom1 1.
Proof.
  assert (m_e2fs (k_fs mounted1) = es1) as He by (vm_compute; reflexivity).
  assert (k_fs mounted1 = with_table geom1 table1 1) as Hf by (vm_compute; reflexivity).
  constructor; rewrite ?He.
  - vm_compute. reflexivity.
  - apply geom_ok1.
  - exists table1, 1. split; [exact Hf|]. vm_compute. reflexivity.
  - exists 0, 0, (replicate 17 0). vm_compute. reflexivity.
  - assert (w_gd (k_world mounted1) = gds0) as -> by (vm_compute; reflexivity).
    repeat first [apply Forall_nil_2 | apply Forall_cons_2]; vm_compute; repeat constructor; congruence.
  - vm_compute. reflexivity.
  - vm_compute. reflexivity.
  - assert (es_now mounted1 = upd_e2fs_state (fun _ => 0) es1) as -> by (vm_compute; reflexivity).
    constructor; [|vm_compute; reflexivity..]. unfold fields_fit. apply Forall2_fits. vm_compute. reflexivity.
  - vm_compute. reflexivity.
  - split; vm_compute; reflexivity.
  - vm_compute. reflexivity.
  - vm_compute. reflexivity.
  - split; vm_compute; congruence.
Qed.

Lemma unmount_remount_witness : let s := mounted1 in let flush : M world Z := fun w => Ok (0, w) in
  (mounted no_null s geom1 1 /\ e2fs_state (es_left s) = 1) /\
  wp (@ext2_unmount env_quiet false flush flush) (fun e s' => e = 0 /\ k_heap s' = ∅ /\ k_fsprivate s' = false /\
    let dev := w_dev (k_world s') in
    (exists d, dev !! SBLOCK = Some d /\ sb_load d = Ok (es_left s, k_reserved2 s)) /\
    exists fs', compute_sb_data (bread_of dev) (es_left s) = Ok (inl fs') /\
      decode_gds (m_gd fs') (m_gdsize fs') 0 (Z.to_nat (m_gcount fs')) = Ok (w_gd (k_world s))) s.
Proof.
  intros s flush. split; [split; [apply mounted_ok1|vm_compute; reflexivity]|].
  apply (unmount_remount (KE := env_quiet) no_null mounted1 geom1 1 flush flush); [apply good_dev1|apply mounted_ok1|done|done].
Defined.

(** A journal of one transaction: the descriptor at block 6 announces one block
    that goes to block 8, then come the block and its commit record. The walk
    looks for the block's buffer before it has read it, and faults. *)
Definition jblock (words : list Z) : list Z := concat (le_split 4 <$> words) ++ replicate (1024 - 4 * length words) 0.
Definition journal_disk : gmap Z (list Z) :=
  <[1 := jblock [JBD_MAGIC; JBD_DESCRIPTOR_BLOCK; 1; 8; 0; 9; 0; 0; 0]]>
  (<[2 := jblock [7; 7; 7]]> (<[3 := jblock [JBD_MAGIC; JBD_COMMIT_BLOCK; 1]]> (disk1 true))).
Definition with_journal : mstate :=
  mk_mstate (world_empty journal_disk) ∅ ∅ (upd_e3fs_jnl_blks (fun _ => [1; 1; 8] ++ replicate 14 0) es1) [] fs0 false false false.
Example journal_faults : @ext2_journal_replay env_quiet with_journal = Fault NullDeref.
Proof. vm_compute. reflexivity. Qed.
