(* ===== verification/UpdateSpec.v ===== *)
(** Writing an inode back: [ext2_update] stores the inode, its times brought up to
    date, in its slot of the inode table and leaves the other slots alone. *)
From stdpp Require Import gmap.
From S2P Require Import Prelude Bitmap Bytes Super Ihash Kernel InodeCnv Cluster Alloc AllocSpec Extents Bmap Balloc BallocSpec Inode.

(** The bytes of a slot that the conversions read and write. *)
Definition slot_size (fs : m_ext2fs) : Z := if E2DI_HAS_XTIME fs then 156 else 128.

Lemma dinode_of_fields_total l x : length l = 37%nat -> length x = 8%nat -> exists ei, dinode_of_fields l x = Ok ei.
Proof.
  intros Hl Hx. do 37 (destruct l as [|? l]; [done|]). destruct l; [|done].
  do 8 (destruct x as [|? x]; [done|]). destruct x; [|done]. eexists. reflexivity.
Qed.

Lemma dinode_load_ok fs bs off : 0 <= off -> off + slot_size fs <= zlen bs -> exists ei, dinode_load fs bs off = Ok ei.
Proof.
  intros H0 Hn. unfold dinode_load, slot_size in *.
  destruct (fields_get_ok bs dinode_layout off) as (l & -> & Hl); [done|change (layout_size dinode_layout) with 128; case_match; lia|].
  cbn [mbind res_bind]. destruct (E2DI_HAS_XTIME fs).
  - destruct (fields_get_ok bs dinode_extra_layout (off + 128)) as (x & -> & Hx);
      [lia|change (layout_size dinode_extra_layout) with 28; lia|]. cbn [mbind res_bind]. by apply dinode_of_fields_total.
  - by apply dinode_of_fields_total.
Qed.

Lemma dinode_store_ok fs bs off ei : length (e2di_blocks ei) = 15%nat -> 0 <= off -> off + slot_size fs <= zlen bs ->
  exists bs', dinode_store fs bs off ei = Ok bs'.
Proof.
  intros Hbl H0 Hn. unfold dinode_store, slot_size, fields_put in *.
  assert (zlen (fields_encode dinode_layout (dinode_fields ei)) = 128) as L1.
  { rewrite fields_encode_len; [reflexivity|]. unfold dinode_fields, dinode_layout. rewrite !length_app, Hbl. reflexivity. }
  rewrite put_bytes_ok by (case_match; lia). cbn [mbind res_bind]. case_match; [|by eexists].
  eexists. apply put_bytes_ok; [lia|]. rewrite fields_encode_len by done. change (layout_size dinode_extra_layout) with 28.
  assert (forall a b c : list Z, zlen (a ++ b ++ c) = zlen a + zlen b + zlen c) as Happ by (intros; rewrite !zlen_app; lia).
  rewrite Happ, L1. unfold zlen in *. rewrite length_take, length_drop. lia.
Qed.

Section update.
Context `{KE : KernelEnv} (fs : m_ext2fs) (ronly mnt_rdonly async : bool) (vnode_isdev : Z -> bool) (ip : Z).

(** While this thread waits for the block of the inode table, others may write
    the other inodes of that block. *)
Record update_env (b : Z) : Prop := mk_update_env {
  ue_wait : forall n w, w_bufs (ke_wait n b w) = w_bufs w /\ w_inodes (ke_wait n b w) = w_inodes w /\ w_hash (ke_wait n b w) = w_hash w /\
    (forall d, w_dev w !! b = Some d -> exists d', w_dev (ke_wait n b w) !! b = Some d' /\ zlen d' = zlen d);
  ue_read : forall n e, ke_read_error n b = Some e -> e <> 0;
  ue_write : forall n e, ke_write_error n b = Some e -> e <> 0
}.

(** The inode after [ext2_itimes] at time [ts]. *)
Definition itimes_of (ts : Z * Z) (i : inode) : inode :=
  if any_flag i (Z.lor IN_ACCESS (Z.lor IN_CHANGE IN_UPDATE)) then
    let i := or_flag (if vnode_isdev ip then IN_LAZYMOD else IN_MODIFIED) i in
    clear_flag (Z.lor IN_ACCESS (Z.lor IN_CHANGE IN_UPDATE)) (if mnt_rdonly then i else touch_times ts i)
  else i.

Definition same_volume (w w' : world) : Prop := w_dev w' = w_dev w /\ w_bufs w' = w_bufs w /\ w_gd w' = w_gd w /\ w_hash w' = w_hash w.

Lemma itimes_wp w i : w_inodes w !! ip = Some i ->
  wp (ext2_itimes mnt_rdonly vnode_isdev ip) (fun _ w' => exists ts,
    w_inodes w' = <[ip := itimes_of ts i]> (w_inodes w) /\ same_volume w w') w.
Proof.
  intros Hi. unfold ext2_itimes. wp_steps. eapply wp_VTOI; [exact Hi|]. unfold itimes_of. case_match.
  - wp_steps. eapply wp_upd_inode; [exact Hi|]. wp_steps. destruct mnt_rdonly.
    + apply wp_ret. eapply wp_upd_inode; [apply lookup_insert_eq|]. exists (0, 0). split; [|done]. cbn. by rewrite insert_insert_eq.
    + wp_steps. unfold wp at 1, nanotime. eapply wp_upd_inode; [apply lookup_insert_eq|].
      eapply wp_upd_inode; [cbn; apply lookup_insert_eq|]. eexists. split; [|done]. cbn. by rewrite !insert_insert_eq.
  - apply wp_ret. exists (0, 0). split; [|done]. by rewrite insert_id.
Qed.

(** The inode after a write. *)
Definition written (i : inode) : inode := clear_flag (Z.lor IN_LAZYACCESS (Z.lor IN_LAZYMOD IN_MODIFIED)) i.

(** What is on the device after a write of inode [i] to the slot at [off] of
    block [b], whose contents were [d] when the buffer was had. *)
Definition slot_written (b off : Z) (i : inode) (dev dev' : gmap Z (list Z)) : Prop :=
  exists d ei d', dev !! b = Some d /\ dinode_load fs d off = Ok ei /\ dinode_store fs d off (ext2_i2ei fs i ei) = Ok d' /\
    dev' = <[b := d']> dev /\
    (forall off2, off2 + slot_size fs <= off \/ off + slot_size fs <= off2 -> dinode_load fs d' off2 = dinode_load fs d off2).

Definition update_post (waitfor : bool) (b off : Z) (i : inode) (w : world) (r : Z) (w' : world) : Prop :=
  exists ts, let i1 := itimes_of ts i in
    w_bufs w' = w_bufs w /\ w_hash w' = w_hash w /\
    if (negb (any_flag i1 IN_MODIFIED) && negb waitfor) || ronly
    then r = 0 /\ w_inodes w' = <[ip := i1]> (w_inodes w) /\ w_dev w' = w_dev w
    else w_inodes w' = <[ip := written i1]> (w_inodes w) /\
      exists n w1, w_dev w1 = w_dev w /\ let dev := w_dev (ke_wait n b w1) in
        (r = 0 /\ slot_written b off (written i1) dev (w_dev w') \/ r <> 0 /\ w_dev w' = dev).

Lemma update_wp waitfor w i gd d :
  w_inodes w !! ip = Some i -> length (i_db i) = 12%nat -> length (i_ib i) = 3%nat ->
  w_gd w !z ino_to_cg fs (i_number i) = Some gd ->
  let b := fsbtodb fs (ino_to_fsba fs gd (i_number i)) in let off := m_isize fs * ino_to_fsbo fs (i_number i) in
  update_env b -> w_bufs w !! b = None -> w_dev w !! b = Some d -> zlen d = m_bsize fs ->
  0 <= off -> off + slot_size fs <= m_bsize fs ->
  wp (ext2_update fs ronly mnt_rdonly async vnode_isdev ip waitfor) (update_post waitfor b off i w) w.
Proof.
  intros Hi Hdb Hib Hgd b off He Hbuf Hd Hlen Hoff Hend. unfold ext2_update. apply wp_bind.
  eapply wp_mono; [by apply itimes_wp|]. intros [] w1 (ts & Hi1 & Hd1 & Hb1 & Hg1 & Hh1). set (i1 := itimes_of ts i) in *.
  assert (i_number i1 = i_number i /\ i_db i1 = i_db i /\ i_ib i1 = i_ib i) as (Hnum & Hdb1 & Hib1).
  { unfold i1, itimes_of, touch_times. repeat case_match; done. }
  wp_steps. eapply wp_VTOI; [rewrite Hi1; apply lookup_insert_eq|].
  destruct (negb (any_flag i1 IN_MODIFIED) && negb waitfor) eqn:Es.
  { apply wp_ret. exists ts. cbv zeta. fold i1. rewrite Es. split; [done|]. split; [done|]. cbn [orb]. done. }
  destruct ronly eqn:Er.
  { apply wp_ret. exists ts. cbv zeta. fold i1. rewrite Er, orb_true_r. done. }
  wp_steps. eapply wp_upd_inode; [rewrite Hi1; apply lookup_insert_eq|]. fold (written i1). rewrite Hnum.
  wp_steps. eapply wp_GD; [cbn; rewrite Hg1; exact Hgd|]. fold b off. cbv zeta.
  set (w2 := upd_w_inodes _ w1). wp_steps. unfold wp at 1, buf_meta_bread.
  assert (w_bufs w2 !! b = None) as -> by (unfold w2; cbn; by rewrite Hb1). cbv zeta.
  destruct (ue_wait _ He (w_tick w2) w2) as (Hb3 & Hi3 & Hh3 & Hd3). set (w3 := ke_wait (w_tick w2) b w2) in *.
  assert (w_inodes w3 = <[ip := written i1]> (w_inodes w)) as Hi3'.
  { rewrite Hi3. unfold w2. cbn. by rewrite Hi1, insert_insert_eq. }
  assert (w_bufs w3 = w_bufs w) as Hb3' by (rewrite Hb3; unfold w2; cbn; done).
  destruct (Hd3 d) as (d3 & Hd3' & Hlen3); [unfold w2; cbn; by rewrite Hd1|].
  assert (forall r w', w_bufs w' = w_bufs w -> w_hash w' = w_hash w3 ->
            (r = 0 /\ slot_written b off (written i1) (w_dev w3) (w_dev w') \/ r <> 0 /\ w_dev w' = w_dev w3) ->
            w_inodes w' = w_inodes w3 -> update_post waitfor b off i w r w') as Hdone.
  { intros r w' Hbw Hhw Hr Hiw. exists ts. cbv zeta. fold i1. rewrite Es, Er. cbn [orb]. split; [done|].
    split; [rewrite Hhw, Hh3; exact Hh1|]. split; [by rewrite Hiw|].
    exists (w_tick w2), w2. split; [unfold w2; cbn; by rewrite Hd1|done]. }
  destruct (ke_read_error (w_tick w2) b) as [e|] eqn:Ee.
  - pose proof (ue_read _ He _ _ Ee) as Hne. rewrite (proj2 (Z.eqb_neq e 0)) by done. cbn [negb].
    wp_steps. eapply wp_brelse; [apply lookup_insert_eq|]. apply wp_ret. apply (Hdone e); [|done|by right|done].
    cbn. rewrite Hb3'. by apply delete_insert_id.
  - cbn [w_dev upd_w_tick]. rewrite Hd3', Hlen3, Hlen, Z.eqb_refl. cbn [Z.eqb negb].
    destruct (dinode_load_ok fs d3 off) as (ei & Hei); [done|lia|].
    assert (length (e2di_blocks (ext2_i2ei fs (written i1) ei)) = 15%nat) as Hbl by (cbn; by rewrite length_app, Hdb1, Hib1, Hdb, Hib).
    destruct (dinode_store_ok fs d3 off (ext2_i2ei fs (written i1) ei) Hbl) as (d' & Hd'); [done|lia|].
    pose proof (dinode_store_other fs d3 off _ d' Hbl Hd') as [_ Hother].
    wp_steps. eapply wp_dataptr; [apply lookup_insert_eq|]. wp_steps. eapply wp_VTOI; [cbn; rewrite Hi3'; apply lookup_insert_eq|].
    wp_steps. eapply wp_lift; [exact Hei|]. wp_steps. eapply wp_lift; [exact Hd'|]. wp_steps.
    eapply wp_store; [apply lookup_insert_eq|].
    assert (slot_written b off (written i1) (w_dev w3) (<[b := d']> (w_dev w3))) as Hslot by (exists d3, ei, d'; done).
    assert (delete b (<[b := d']> (<[b := d3]> (w_bufs w3))) = w_bufs w) as Hdel by (rewrite insert_insert_eq, Hb3'; by apply delete_insert_id).
    destruct (waitfor && negb async).
    + unfold wp, buf_bwrite. cbn [w_bufs upd_w_bufs upd_w_tick]. rewrite lookup_insert_eq. cbv zeta. cbn [w_tick].
      match goal with |- context [ke_write_error ?n b] => destruct (ke_write_error n b) as [e|] eqn:Ew end.
      * apply (Hdone e); [exact Hdel|done|right; split; [by eapply ue_write|done]|done].
      * apply (Hdone 0); [exact Hdel|done|by left|done].
    + wp_steps. eapply wp_bdwrite; [apply lookup_insert_eq|]. apply wp_ret. apply (Hdone 0); [exact Hdel|done|by left|done].
Qed.
(** C27: [ext2_update] brings the times up to date and, when the inode was
    modified or the caller waits, and the mount is not read-only, marks it clean
    and stores it in its slot of the inode table as [ext2_i2ei] has it; the other
    slots of that block keep what other threads last put there. When the block
    cannot be read or written the device keeps its contents, the errno is
    returned, and the inode is marked clean all the same. *)
Theorem update_spec waitfor w i gd d :
  w_inodes w !! ip = Some i -> length (i_db i) = 12%nat -> length (i_ib i) = 3%nat ->
  w_gd w !z ino_to_cg fs (i_number i) = Some gd ->
  let b := fsbtodb fs (ino_to_fsba fs gd (i_number i)) in let off := m_isize fs * ino_to_fsbo fs (i_number i) in
  update_env b -> w_bufs w !! b = None -> w_dev w !! b = Some d -> zlen d = m_bsize fs ->
  0 <= off -> off + slot_size fs <= m_bsize fs ->
  wp (ext2_update fs ronly mnt_rdonly async vnode_isdev ip waitfor) (update_post waitfor b off i w) w.
Proof. apply update_wp. Qed.
End update.
