(* ===== verification/RwSpec.v ===== *)
(** Writing a regular file within its direct blocks: blocks are added, none is
    moved, and the size changes exactly when the write succeeds. *)
From stdpp Require Import gmap.
From S2P Require Import Prelude Bitmap Bytes Super Kernel InodeCnv Cluster Alloc AllocSpec Extents Frame Bmap Dir Balloc BallocSpec ReadWrite Inode UpdateSpec.

Section write.
Context `{KE : KernelEnv} (fs : m_ext2fs) (MAXPHYS : Z) (B I : Z -> Z).
Context (Hg : group_ok fs) (Hl : layout_ok fs B I) (He : env_ok fs MAXPHYS B I).
Context (Hfsize : m_fsize fs = m_bsize fs) (Hmask : m_qbmask fs = m_bsize fs - 1) (Hshift : 0 <= m_bshift fs).
Context (Hpow : m_bsize fs = 2 ^ m_bshift fs) (Hmax : e2fs_bcount (m_e2fs fs) <= 2 ^ 31).
Context (cr_uid nocred_uid ip : Z) (Hip : 1 <= ip <= m_gcount fs * sb_ipg fs) (Hiu : u64_ok ip).
Context (Hframe : env_frame ip) (Hnofree : env_no_free fs MAXPHYS B I).

Abbreviation vol_same := (vol_same fs MAXPHYS B I ip).
Abbreviation idle := (idle fs MAXPHYS B I).

Lemma bsize_pow : exists k, 0 <= k /\ m_bsize fs = 2 ^ k.
Proof. by exists (m_bshift fs). Qed.

(** An inode to which blocks were added: none it had has moved. *)
Record extended (i i' : inode) : Prop := mk_extended {
  ex_size : i_size i' = i_size i;
  ex_ib : i_ib i' = i_ib i;
  ex_goal : u32_ok (i_next_alloc_goal i');
  ex_flag : has_feature (i_flag i') IN_E4EXTENTS = has_feature (i_flag i) IN_E4EXTENTS;
  ex_ptr : pointers_ok i';
  ex_kept : forall l, i_db i !z l <> Some 0 -> i_db i' !z l = i_db i !z l
}.

Lemma extended_trans i1 i2 i3 : extended i1 i2 -> extended i2 i3 -> extended i1 i3.
Proof.
  intros [] []. constructor; try congruence. intros l Hl'. rewrite ex_kept1; [by apply ex_kept0|].
  by rewrite ex_kept0.
Qed.

(** From [w] to [w'] this thread took free blocks, each in one committed step,
    and otherwise let the others work. *)
Definition progress : world -> world -> Prop :=
  rtc (fun v v' => reach fs MAXPHYS B I v v' \/ exists b, taken fs MAXPHYS B I v b v').

Lemma progress_reach w w' : reach fs MAXPHYS B I w w' -> progress w w'.
Proof. intros H. apply rtc_once. by left. Qed.

(** Blocks [a], ..., [b - 1] of a file are there. *)
Definition mapped (i : inode) (a b : Z) : Prop := forall l, a <= l < b -> i_db i !z l <> Some 0.

(** One block. *)
Lemma balloc_one_wp w i lbn :
  idle w -> w_inodes w !! ip = Some i -> has_feature (i_flag i) IN_E4EXTENTS = false ->
  pointers_ok i -> u32_ok (i_next_alloc_goal i) -> 0 <= lbn < NDADDR ->
  w_fbufs w !! (ip, lbn) = None -> present_ok fs ip w i lbn ->
  wp (ext2_balloc fs MAXPHYS cr_uid nocred_uid ip lbn (m_fsize fs) 0) (fun r w' =>
    vol_same w w' /\ exists i', w_inodes w' = <[ip := i']> (w_inodes w) /\ extended i i' /\
    (forall l, l <> lbn -> i_db i' !z l = i_db i !z l) /\
    match r with
    | (e, None) => e <> 0 /\ w_fbufs w' = w_fbufs w /\ direct_error fs MAXPHYS B I cr_uid w i lbn e w'
    | (e, Some bp) => e = 0 /\ bp = FileBuf ip lbn /\ mapped i' lbn (lbn + 1) /\ progress w w' /\
        exists d, w_fbufs w' = <[(ip, lbn) := d]> (w_fbufs w)
    end) w.
Proof.
  intros Hid Hi Hf Hptr Hgoal Hl12 Hnb Hpres. pose proof Hg as [].
  assert (wp (ext2_balloc fs MAXPHYS cr_uid nocred_uid ip lbn (m_fsize fs) 0) (direct_post fs MAXPHYS B I cr_uid ip w i lbn 0) w) as Hrun.
  { apply (balloc_wp fs MAXPHYS B I Hg Hl He Hfsize Hmask bsize_pow Hmax cr_uid nocred_uid ip Hip Hiu Hframe Hnofree); try done.
    rewrite Hfsize. lia. }
  eapply wp_mono; [exact Hrun|]. clear Hrun. intros r w' [Hs (i' & Hin & (G1 & G2 & G3 & G4) & Hr)].
  split; [done|]. exists i'. split; [done|]. destruct Hptr as (Hdb & Hib & Hall).
  assert (forall v, u32_ok v -> zlen (zinsert lbn v (i_db i)) = NDADDR /\ Forall u32_ok (zinsert lbn v (i_db i) ++ i_ib i)) as Hins.
  { intros v Hv. split; [by rewrite zlen_zinsert|]. unfold pointers in Hall. apply Forall_app in Hall as [Ha Hb].
    apply Forall_app. split; [|done]. unfold zinsert. by apply Forall_insert. }
  assert (i_db i' = i_db i \/ i_db i !z lbn = Some 0 /\ exists v, u32_ok v /\ v <> 0 /\ i_db i' = zinsert lbn v (i_db i)) as Hdb'.
  { destruct r as [e [bp|]]; [|left; by destruct Hr as (_ & ? & _)]. destruct Hr as (_ & _ & d & _ & Hr1 & Hr2).
    destruct (decide (i_db i !z lbn = Some 0)) as [Hz|Hz]; [|left; by apply Hr1].
    right. split; [done|]. destruct (Hr2 Hz) as (b & (w1 & w2 & _ & _ & Hfound & _) & Hd & _).
    destruct (found_block_bit fs B Hg Hmax b w1 w2 Hfound) as (_ & Hb & Hb0 & _). exists b. unfold u32_ok. split; [lia|]. split; [lia|done]. }
  split; [|split].
  - constructor; [done|done|done|done| |].
    + unfold pointers_ok, pointers. rewrite G2. destruct Hdb' as [->|(_ & v & Hv & _ & ->)]; [done|].
      destruct (Hins v Hv). done.
    + intros l Hl'. destruct Hdb' as [->|(Hz & v & _ & _ & ->)]; [done|]. apply zlookup_zinsert_ne; [lia|congruence].
  - intros l Hne. destruct Hdb' as [->|(_ & v & _ & _ & ->)]; [done|]. apply zlookup_zinsert_ne; [lia|done].
  - destruct r as [e [bp|]]; [|by destruct Hr as (? & _ & ? & ?)]. destruct Hr as (-> & -> & d & Hh & Hr1 & Hr2).
    split; [done|]. split; [done|]. split; [|split; [|by exists d]].
    2:{ destruct (decide (i_db i !z lbn = Some 0)) as [Hz|Hz].
        - destruct (Hr2 Hz) as (b & Htaken & _). apply rtc_once. right. by exists b.
        - apply progress_reach. by destruct (Hr1 Hz) as (_ & _ & ?). }
    intros l Hl'. assert (l = lbn) as -> by lia.
    destruct (decide (i_db i !z lbn = Some 0)) as [Hz|Hz]; [|by destruct (Hr1 Hz) as [-> _]].
    destruct Hdb' as [Heq|(_ & v & _ & Hv0 & ->)].
    + destruct (Hr2 Hz) as (b & (w1 & w2 & _ & _ & Hfound & _) & Hd & _).
      destruct (found_block_bit fs B Hg Hmax b w1 w2 Hfound) as (_ & _ & Hb0 & _).
      rewrite Hd, zlookup_zinsert_eq by lia. intros [= ->]. lia.
    + rewrite zlookup_zinsert_eq by lia. by intros [= ->].
Qed.

Lemma extended_refl i : pointers_ok i -> u32_ok (i_next_alloc_goal i) -> extended i i.
Proof. by constructor. Qed.

Lemma present_ok_same w w' i i' l :
  present_ok fs ip w i l -> i_db i' !z l = i_db i !z l -> i_size i' = i_size i ->
  w_fdata w' !! (ip, l) = w_fdata w !! (ip, l) -> present_ok fs ip w' i' l.
Proof. unfold present_ok, block_inside. intros Hp H1 H2 H3. by rewrite H1, H2, H3. Qed.

(** Why a loop over blocks [a], ..., [b - 1] stops: a block of it was not to be
    had. *)
Definition range_error (w : world) (a b e : Z) (w' : world) : Prop :=
  exists l w1 i1, a <= l < b /\ progress w w1 /\ w_inodes w1 !! ip = Some i1 /\
    direct_error fs MAXPHYS B I cr_uid w1 i1 l e w'.

(** What such a loop leaves. *)
Definition extended_range (w : world) (i : inode) (a b e : Z) (w' : world) : Prop :=
  vol_same w w' /\ w_fbufs w' = w_fbufs w /\ (e = 0 -> progress w w') /\ (e <> 0 -> range_error w a b e w') /\ exists i', w_inodes w' = <[ip := i']> (w_inodes w) /\ extended i i' /\
    (forall l, l < a \/ b <= l -> i_db i' !z l = i_db i !z l) /\ (e = 0 -> mapped i' a b).

Lemma extend_loop_wp n : forall w i lbn,
  idle w -> w_inodes w !! ip = Some i -> has_feature (i_flag i) IN_E4EXTENTS = false ->
  pointers_ok i -> u32_ok (i_next_alloc_goal i) -> 0 <= lbn -> lbn + Z.of_nat n <= NDADDR ->
  (forall l, lbn <= l < lbn + Z.of_nat n -> w_fbufs w !! (ip, l) = None /\ present_ok fs ip w i l) ->
  wp (extend_loop fs MAXPHYS cr_uid nocred_uid n ip lbn) (extended_range w i lbn (lbn + Z.of_nat n)) w.
Proof.
  induction n as [|n IH]; intros w i lbn Hid Hi Hf Hptr Hgoal Hl0 Hln Hall; cbn [extend_loop].
  - apply wp_ret. split; [by apply vol_same_refl|]. split; [done|]. split; [by intros _; apply rtc_refl|]. split; [done|]. exists i.
    split; [symmetry; by apply insert_id|]. split; [by apply extended_refl|]. split; [done|]. intros _ l Hl'. lia.
  - destruct (Hall lbn ltac:(lia)) as [Hnb Hpres].
    apply wp_bind. eapply wp_mono; [apply (balloc_one_wp w i lbn); try done; lia|].
    intros [e bp] w1 (Hs1 & i1 & Hin1 & Hex1 & Hother & Hr). destruct bp as [bp|].
    2:{ destruct Hr as (He0 & Hfb1 & Herr). rewrite (proj2 (Z.eqb_neq e 0)) by done. apply wp_ret.
        split; [done|]. split; [done|]. split; [done|].
        split; [intros _; exists lbn, w, i; split; [lia|]; split; [apply rtc_refl|done]|]. exists i1. split; [done|]. split; [done|]. split; [|done].
        intros l Hl'. apply Hother. lia. }
    destruct Hr as (-> & -> & Hmap & Hprog & d & Hfb1). cbn [Z.eqb negb].
    apply wp_bind. cbn [release_opt]. unfold wp at 1. cbn [ref_brelse]. rewrite Hfb1, lookup_insert_eq.
    set (w2 := upd_w_fbufs _ w1).
    assert (vol_same w1 w2) as Hs2 by (apply vol_same_of; [by eapply idle_same|done..]).
    assert (vol_same w w2) as Hs02 by (by eapply vol_same_trans).
    assert (w_fbufs w2 = w_fbufs w) as Hfb2 by (cbn; rewrite Hfb1; by apply delete_insert_id).
    assert (w_inodes w2 = <[ip := i1]> (w_inodes w)) as Hin2 by done.
    assert (progress w w2) as Hprog2.
    { etrans; [exact Hprog|]. apply progress_reach, reach_same; [done|cbn; lia]. }
    destruct Hex1 as [E1 E2 E3 E4 E5 E6].
    eapply wp_mono; [apply (IH w2 i1 (lbn + 1)); try done; try lia|].
    + by eapply idle_same.
    + rewrite Hin2. apply lookup_insert_eq.
    + by rewrite E4.
    + intros l Hl'. destruct (Hall l ltac:(lia)) as [H1 H2]. rewrite Hfb2. split; [done|].
      eapply present_ok_same; [exact H2|apply Hother; lia|done|apply Hs02].
    + intros e w3 (Hs3 & Hfb3 & Hp3 & Herr3 & i3 & Hin3 & Hex3 & Hother3 & Hmap3).
      split; [by eapply vol_same_trans|]. split; [congruence|].
      split; [intros He0; etrans; [exact Hprog2|by apply Hp3]|].
      split; [intros He0; destruct (Herr3 He0) as (l & v & j & Hl' & Hv & Hj); exists l, v, j;
              split; [lia|]; split; [by etrans|done]|].
      exists i3.
      split; [by rewrite Hin3, Hin2, insert_insert_eq|]. split; [by eapply extended_trans|]. split.
      * intros l Hl'. rewrite Hother3 by lia. apply Hother. lia.
      * intros ->. intros l Hl'. destruct (decide (l = lbn)) as [->|Hne].
        -- rewrite (ex_kept _ _ Hex3); apply Hmap; lia.
        -- apply Hmap3; [done|lia].
Qed.

(** The calls into the kernel: the cluster layer and the page cache leave the
    volume and the in-core inode alone. *)
Context (vnode_isdir vnode_isreg : Z -> bool) (userspace : bool) (uiomove_error : Z -> Z).
Context (cluster_write : Z -> buio -> Z -> Z -> Z -> Z -> Z -> M world Z).
Context (ubc_setsize : Z -> Z -> M world unit) (ronly mnt_rdonly async : bool) (vnode_isdev : Z -> bool).
Definition kernel_keeps {A} (m : M world A) : Prop :=
  forall w, idle w -> wp m (fun _ w' => idle w' /\ w_inodes w' = w_inodes w) w.
Context (Hcluster : forall u a b c d e, kernel_keeps (cluster_write ip u a b c d e)).
Context (Hubc : forall n, kernel_keeps (ubc_setsize ip n)).

Abbreviation update := (ext2_update fs ronly mnt_rdonly async vnode_isdev).
Abbreviation run_with := (fun update => ext2_write fs MAXPHYS cr_uid nocred_uid vnode_isdir vnode_isreg userspace
  uiomove_error cluster_write ubc_setsize update ip).

(** A write, and all of it but the writing back of the inode. *)
Definition run_write : Z -> buio -> M world Z := run_with update.
Definition transfer : Z -> buio -> M world Z := run_with (fun _ _ => mret 0).

(** Why a write of bytes [a], ..., [b - 1] fails: a block of the range was not to
    be had, or the cluster layer failed. *)
Definition write_error (w : world) (a b e : Z) (w' : world) : Prop :=
  range_error w (lblkno fs a) (lblkno fs (b - 1) + 1) e w' \/
  exists u o n h t f w1 w2, cluster_write ip u o n h t f w1 = Ok (e, w2).

(** The outcome of a write of bytes [a], ..., [b - 1], before the inode is
    written back. *)
Definition write_post (w : world) (i : inode) (a b e : Z) (w' : world) : Prop :=
  idle w' /\ exists i', w_inodes w' = <[ip := i']> (w_inodes w) /\ pointers_ok i' /\
    (forall l, i_db i !z l <> Some 0 -> i_db i' !z l = i_db i !z l) /\ i_ib i' = i_ib i /\
    (forall l, l < lblkno fs a \/ lblkno fs (b - 1) < l -> i_db i' !z l = i_db i !z l) /\
    (e <> 0 -> i_size i' = i_size i /\ write_error w a b e w') /\
    (e = 0 -> i_size i' = Z.max (i_size i) b /\ mapped i' (lblkno fs a) (lblkno fs (b - 1) + 1)).

(** Where [ext2_update] finds inode [i] of the volume [w]. *)
Definition table_block (gd : ext2_gd) (i : inode) : Z := fsbtodb fs (ino_to_fsba fs gd (i_number i)).
Definition table_off (i : inode) : Z := m_isize fs * ino_to_fsbo fs (i_number i).

Definition update_ready (w : world) (i : inode) : Prop :=
  exists gd d, w_gd w !z ino_to_cg fs (i_number i) = Some gd /\ update_env (table_block gd i) /\
    w_bufs w !! table_block gd i = None /\ w_dev w !! table_block gd i = Some d /\ zlen d = m_bsize fs /\
    0 <= table_off i /\ table_off i + slot_size fs <= m_bsize fs.

(** The outcome of a write. A synchronous one that gets as far as writing the
    inode back returns what [ext2_update] returns. *)
Definition write_outcome (ioflag : Z) (w : world) (i : inode) (a b e : Z) (w' : world) : Prop :=
  (write_post w i a b e w' /\ (has_feature ioflag IO_SYNC = true -> e <> 0)) \/
  (has_feature ioflag IO_SYNC = true /\ exists w1 i1 gd,
     write_post w i a b 0 w1 /\ w_inodes w1 !! ip = Some i1 /\
     w_gd w1 !z ino_to_cg fs (i_number i1) = Some gd /\
     update_post fs ronly mnt_rdonly vnode_isdev ip true (table_block gd i1) (table_off i1) i1 w1 e w').

(** Setting the size of the file, through the page cache. *)
Lemma set_size_wp w i n : idle w -> w_inodes w !! ip = Some i ->
  wp (upd_inode ip (upd_i_size (fun _ => n));; ubc_setsize ip n)
    (fun _ w' => idle w' /\ w_inodes w' = <[ip := upd_i_size (fun _ => n) i]> (w_inodes w)) w.
Proof.
  intros Hid Hi. apply wp_bind. eapply wp_upd_inode; [exact Hi|].
  eapply wp_mono; [apply Hubc; by destruct Hid|]. intros [] w' [Hid' Hin']. by split.
Qed.

(** Where a write starts. *)
Definition write_uio (ioflag : Z) (i : inode) (u : buio) : buio :=
  if has_feature ioflag IO_APPEND then mk_buio (i_size i) (u_resid u) (u_data u) else u.

Lemma lblkno_range a b : 0 <= a -> a < b -> 0 <= lblkno fs a <= lblkno fs (b - 1).
Proof.
  intros Ha Hb. unfold lblkno. rewrite !Z.shiftr_div_pow2 by done.
  assert (0 < 2 ^ m_bshift fs) by (apply Z.pow_pos_nonneg; lia).
  split; [apply Z.div_pos; lia|apply Z.div_le_mono; lia].
Qed.

Lemma write_wp w i ioflag u0 :
  vnode_isreg ip = true -> vnode_isdir ip = false ->
  idle w -> w_inodes w !! ip = Some i -> has_feature (i_flag i) IN_E4EXTENTS = false ->
  pointers_ok i -> u32_ok (i_next_alloc_goal i) ->
  let u := write_uio ioflag i u0 in let a := u_offset u in let b := a + u_resid u in
  0 <= a -> 0 < u_resid u -> b <= m_maxfilesize fs -> b < 2 ^ 63 -> lblkno fs (b - 1) < NDADDR ->
  (forall l, lblkno fs a <= l <= lblkno fs (b - 1) -> w_fbufs w !! (ip, l) = None /\ present_ok fs ip w i l) ->
  wp (transfer ioflag u0) (write_post w i a b) w.
Proof.
  intros Hreg Hdir Hid Hi Hf Hptr Hgoal u a b Ha Hres Hfit Hb63 Hdirect Hall. unfold transfer, ext2_write.
  rewrite Hdir, Hreg. cbn [andb negb]. apply wp_bind. eapply wp_VTOI; [exact Hi|].
  change (if has_feature ioflag IO_APPEND then _ else u0) with u. clearbody u. cbv zeta. fold a b.
  rewrite (proj2 (Z.ltb_ge a 0)), (proj2 (Z.eqb_neq (u_resid u) 0)) by lia.
  rewrite s64_id by (unfold s64_ok; lia). destruct (Z.gtb_spec b (m_maxfilesize fs)) as [|_]; [lia|].
  pose proof (lblkno_range a b Ha ltac:(lia)) as [Ha0 Hle].
  apply wp_bind. unfold ext2_extend_alloc. destruct (Z.leb_spec (u_resid u) 0); [lia|]. cbv zeta.
  replace (a + u_resid u - 1) with (b - 1) by lia. set (n := Z.to_nat _).
  assert (lblkno fs a + Z.of_nat n = lblkno fs (b - 1) + 1) as Hn by lia.
  eapply wp_mono; [apply (extend_loop_wp n w i (lblkno fs a)); try done; try lia; intros l Hl'; apply Hall; lia|].
  rewrite Hn. intros e w1 (Hs1 & Hfb1 & Hprog & Herr & i1 & Hin1 & [E1 E2 E3 E4 E5 E6] & Hother & Hmap).
  pose proof (idle_same _ _ _ _ _ _ _ Hid Hs1) as Hid1.
  assert (w_inodes w1 !! ip = Some i1) as Hi1 by (rewrite Hin1; apply lookup_insert_eq).
  (* a failed write keeps the blocks and has the old size *)
  assert (forall e w', e <> 0 -> idle w' -> w_inodes w' = <[ip := upd_i_size (fun _ => i_size i) i1]> (w_inodes w) ->
    write_error w a b e w' -> write_post w i a b e w') as Hfail.
  { intros e' w' He' Hid' Hin' Hwhy. split; [done|]. eexists. split; [exact Hin'|]. cbn.
    split_and!; try done. intros l Hl'. apply Hother. lia. }
  assert (i1 = upd_i_size (fun _ => i_size i) i1) as Hi1same by (rewrite <- E1; by destruct i1).
  destruct (Z.eqb_spec e 0) as [->|He0]; cbn [negb].
  2:{ apply wp_ret. apply Hfail; [done|done|by rewrite <- Hi1same|left; by apply Herr]. }
  specialize (Hmap eq_refl). set (oldEOF := i_size i). set (newEOF := Z.max oldEOF b).
  apply wp_bind.
  assert (wp (if newEOF >? oldEOF then upd_inode ip (upd_i_size (fun _ => newEOF));; ubc_setsize ip newEOF else mret tt)
    (fun _ w2 => idle w2 /\ w_inodes w2 = <[ip := upd_i_size (fun _ => newEOF) i1]> (w_inodes w1)) w1) as Hgrow.
  { destruct (Z.gtb_spec newEOF oldEOF); [by apply set_size_wp|]. apply wp_ret. split; [done|]. symmetry. apply insert_id.
    rewrite Hi1. f_equal. assert (newEOF = i_size i) as -> by (fold oldEOF; lia). done. }
  eapply wp_mono; [exact Hgrow|]. intros _ w2 [Hid2 Hin2].
  apply wp_bind. destruct (wp_run _ _ _ (Hcluster u oldEOF newEOF (Z.ldiff a (m_qbmask fs)) (roundup2 b (m_bsize fs)) ioflag w2 Hid2))
    as (e & w3 & Hrun & Hid3 & Hin3).
  unfold wp at 1. rewrite Hrun.
  assert (w_inodes w3 = <[ip := upd_i_size (fun _ => newEOF) i1]> (w_inodes w)) as Hin03.
  { rewrite Hin3, Hin2, Hin1. by rewrite insert_insert_eq. }
  destruct (Z.eqb_spec e 0) as [->|He0]; cbn [negb].
  - assert (write_post w i a b 0 (upd_w_inodes (insert ip (or_flag (Z.lor IN_CHANGE IN_UPDATE) (upd_i_size (fun _ => newEOF) i1))) w3)) as Hok.
    { split; [by destruct Hid3|]. eexists. split; [cbn; rewrite Hin03; apply insert_insert_eq|]. cbn. split_and!; try done.
      intros l Hl'. apply Hother. lia. }
    apply wp_bind. eapply wp_upd_inode; [rewrite Hin03; apply lookup_insert_eq|].
    destruct (has_feature ioflag IO_SYNC); by apply wp_ret.
  - apply wp_bind.
    assert (wp (if newEOF >? oldEOF then upd_inode ip (upd_i_size (fun _ => oldEOF));; ubc_setsize ip oldEOF else mret tt)
      (fun _ w4 => idle w4 /\ w_inodes w4 = <[ip := upd_i_size (fun _ => oldEOF) i1]> (w_inodes w)) w3) as Hback.
    { destruct (Z.gtb_spec newEOF oldEOF).
      - eapply wp_mono; [apply set_size_wp; [done|rewrite Hin03; apply lookup_insert_eq]|]. intros _ w4 [Hid4 Hin4].
        split; [done|]. by rewrite Hin4, Hin03, insert_insert_eq.
      - apply wp_ret. split; [done|]. rewrite Hin03. by assert (newEOF = oldEOF) as -> by lia. }
    eapply wp_mono; [exact Hback|]. intros _ w4 [Hid4 Hin4]. apply wp_ret. apply Hfail; try done.
    right. eauto 10.
Qed.

(** The writing back of the inode is the last thing a write does. *)
Lemma write_split ioflag u0 w e w1 :
  vnode_isreg ip = true -> vnode_isdir ip = false -> 0 < u_resid u0 ->
  transfer ioflag u0 w = Ok (e, w1) ->
  run_write ioflag u0 w = if has_feature ioflag IO_SYNC && (e =? 0) then update ip true w1 else Ok (e, w1).
Proof.
  intros Hreg Hdir Hres. unfold run_write, transfer, ext2_write. rewrite Hdir, Hreg. cbn [andb negb].
  unfold mbind, M_bind. destruct (VTOI ip w) as [[i w0]|]; [|done]. fold (write_uio ioflag i u0).
  assert (u_resid (write_uio ioflag i u0) = u_resid u0) as Hr by (unfold write_uio; by case_match).
  set (u := write_uio ioflag i u0) in *. cbv zeta. rewrite (proj2 (Z.eqb_neq (u_resid u) 0)) by lia.
  destruct (u_offset u <? 0); [intros [= <- <-]; by rewrite andb_false_r|].
  destruct (_ >? m_maxfilesize fs); [intros [= <- <-]; by rewrite andb_false_r|].
  destruct (ext2_extend_alloc _ _ _ _ _ _ _ _) as [[e1 v1]|]; [|done].
  destruct (Z.eqb_spec e1 0) as [->|He1]; cbn [negb].
  2:{ intros [= <- <-]. by rewrite (proj2 (Z.eqb_neq e1 0)), andb_false_r. }
  match goal with |- context [match ?m v1 with _ => _ end] => destruct (m v1) as [[x v2]|]; [|done] end.
  destruct (cluster_write _ _ _ _ _ _ _ _) as [[e2 v3]|]; [|done].
  destruct (Z.eqb_spec e2 0) as [->|He2]; cbn [negb].
  - destruct (upd_inode _ _ v3) as [[y v4]|]; [|done]. destruct (has_feature ioflag IO_SYNC); intros [= <- <-]; done.
  - match goal with |- context [match ?m v3 with _ => _ end] => destruct (m v3) as [[y v4]|]; [|done] end. intros [= <- <-].
    by rewrite (proj2 (Z.eqb_neq e2 0)), andb_false_r.
Qed.

Lemma write_outcome_wp w i ioflag u0 :
  vnode_isreg ip = true -> vnode_isdir ip = false -> w_inodes w !! ip = Some i -> 0 < u_resid u0 ->
  let u := write_uio ioflag i u0 in let a := u_offset u in let b := a + u_resid u in
  (has_feature ioflag IO_SYNC = true -> forall w1 i1,
     transfer ioflag u0 w = Ok (0, w1) -> w_inodes w1 !! ip = Some i1 -> update_ready w1 i1) ->
  wp (transfer ioflag u0) (write_post w i a b) w -> wp (run_write ioflag u0) (write_outcome ioflag w i a b) w.
Proof.
  intros Hreg Hdir Hi Hres u a b Hready (e & w1 & Hrun & Hpost)%wp_run.
  unfold wp. rewrite (write_split _ _ _ _ _ Hreg Hdir Hres Hrun).
  destruct (has_feature ioflag IO_SYNC) eqn:Es; [|left; by split; [|rewrite Es]].
  destruct (Z.eqb_spec e 0) as [->|He0]; [|by left].
  destruct Hpost as (Hid & i1 & Hin & Hrest). assert (w_inodes w1 !! ip = Some i1) as Hi1 by (rewrite Hin; apply lookup_insert_eq).
  destruct (Hready eq_refl w1 i1 Hrun Hi1) as (gd & d & Hgd & Henv & Hbuf & Hd & Hlen & Hoff & Hend).
  pose proof Hrest as ((Hdb & Hib & _) & _). unfold zlen, NDADDR, NIADDR in Hdb, Hib.
  pose proof (update_wp fs ronly mnt_rdonly async vnode_isdev ip true w1 i1 gd d Hi1 ltac:(lia) ltac:(lia) Hgd Henv Hbuf Hd Hlen Hoff Hend)
    as (e & w' & Hup & Hpost)%wp_run. rewrite Hup.
  right. split; [done|]. exists w1, i1, gd. split; [split; [done|by exists i1]|done].
Qed.

(** A write that starts in a block behind the end of the file panics. *)
Lemma write_behind_end w i ioflag u0 p :
  vnode_isreg ip = true -> vnode_isdir ip = false ->
  w_inodes w !! ip = Some i -> has_feature (i_flag i) IN_E4EXTENTS = false ->
  let u := write_uio ioflag i u0 in let a := u_offset u in let b := a + u_resid u in
  0 <= a -> 0 < u_resid u -> b <= m_maxfilesize fs -> b < 2 ^ 63 -> lblkno fs (b - 1) < NDADDR ->
  i_db i !z lblkno fs a = Some p -> p <> 0 -> block_inside fs i (lblkno fs a) = false -> i_size i mod m_bsize fs = 0 ->
  run_write ioflag u0 w = Fault (Panic "ext2_balloc: Something is terribly wrong").
Proof.
  intros Hreg Hdir Hi Hf u a b Ha Hres Hfit Hb63 Hdirect Hp Hp0 Hin Hmod. pose proof Hg as []. unfold run_write, ext2_write.
  rewrite Hdir, Hreg. cbn [andb negb].
  assert (VTOI ip w = Ok (i, w)) as Hv by (unfold VTOI; by rewrite Hi). rewrite (bind_run _ _ _ _ _ Hv).
  change (if has_feature ioflag IO_APPEND then _ else u0) with u. clearbody u. cbv zeta. fold a b.
  rewrite (proj2 (Z.ltb_ge a 0)), (proj2 (Z.eqb_neq (u_resid u) 0)) by lia.
  rewrite s64_id by (unfold s64_ok; lia). destruct (Z.gtb_spec b (m_maxfilesize fs)) as [|_]; [lia|].
  pose proof (lblkno_range a b Ha ltac:(lia)) as [Ha0 Hle].
  apply bind_fault. unfold ext2_extend_alloc. destruct (Z.leb_spec (u_resid u) 0); [lia|]. cbv zeta.
  replace (a + u_resid u - 1) with (b - 1) by lia.
  destruct (Z.to_nat (lblkno fs (b - 1) - lblkno fs a + 1)) as [|n] eqn:En; [lia|]. cbn [extend_loop].
  apply bind_fault. eapply (balloc_behind_end_panics fs MAXPHYS Hg Hfsize Hmask bsize_pow); try done; try lia.
Qed.


End write.
