(* ===== verification/VnopsSpec.v ===== *)
(** The vnode operations: what [ext2_setattr] does on a read-only mount, that a
    short symbolic link survives the trip through the disk, what removing and
    linking do to the directory and the link count, and that renaming a file
    releases one I/O count too many. *)
From stdpp Require Import gmap.
From S2P Require Import Prelude Bitmap Bytes Super Ihash Kernel InodeCnv Cluster Alloc AllocSpec Extents Frame Bmap Balloc BallocSpec Dir DirSpec DirSearch DirOps Inode UpdateSpec Vget Vnops FrameOps.
From stdpp Require Import list.
#[local] Open Scope Z_scope.

(** ** Short symbolic links *)

Lemma words_bytes n : forall bs, length bs = (4 * n)%nat -> bytes_ok bs -> concat (le_split 4 <$> words n bs) = bs.
Proof.
  induction n as [|n IH]; intros bs Hl Hok; [by destruct bs|]. cbn [words fmap list_fmap concat].
  rewrite <- (take_drop 4 bs) in Hok. apply Forall_app in Hok as [H1 H2].
  rewrite le_split_combine, IH; [apply take_drop|rewrite length_drop; lia|done|rewrite length_take; lia|done].
Qed.

Lemma words_len n bs : length (words n bs) = n.
Proof. revert bs. induction n as [|n IH]; intros bs; cbn; [done|by rewrite IH]. Qed.

Lemma shortlink_bytes i : length (i_db i) = 12%nat -> length (i_ib i) = 3%nat -> length (shortlink i) = 60%nat /\ bytes_ok (shortlink i).
Proof.
  intros Hd Hb. unfold shortlink, pointers. assert (forall l : list Z, length (concat (le_split 4 <$> l)) = (4 * length l)%nat) as Hlen.
  { induction l as [|x l IH]; [done|]. rewrite fmap_cons. cbn [concat length]. rewrite length_app, length_le_split, IH. lia. }
  split; [rewrite Hlen, length_app, Hd, Hb; lia|]. apply Forall_concat. apply Forall_forall. intros x (y & -> & _)%list_elem_of_fmap. apply le_split_bytes_ok.
Qed.

Lemma put_shortlink_bytes bytes i : length (i_db i) = 12%nat -> length (i_ib i) = 3%nat -> (length bytes <= 60)%nat -> bytes_ok bytes ->
  let j := put_shortlink bytes i in length (i_db j) = 12%nat /\ length (i_ib j) = 3%nat /\ shortlink j = bytes ++ drop (length bytes) (shortlink i).
Proof.
  intros Hd Hb Hl Hok. destruct (shortlink_bytes i Hd Hb) as [Hsl Hsok]. unfold put_shortlink.
  set (w := words 15 _). assert (length w = 15%nat) as Hw by apply words_len. cbv zeta. cbn [i_db i_ib upd_i_db upd_i_ib].
  rewrite length_take, length_drop, Hw. split; [done|]. split; [done|]. unfold shortlink at 1, pointers. cbn [i_db i_ib upd_i_db upd_i_ib].
  rewrite take_drop. apply words_bytes.
  - rewrite length_app, length_drop. lia.
  - apply Forall_app. split; [done|]. by apply Forall_drop.
Qed.

(** The inode of a new link, as [ext2_symlink] leaves it. *)
Definition linked (target : list Z) (i : inode) : inode :=
  change_update (upd_i_size (fun _ => u64 (s32 (zlen target))) (put_shortlink target i)).

(** A target in the pointers is what [ext2_readlink] hands out. *)
Lemma readlink_short `{KernelEnv} vn_read uiomove target k vp w :
  zlen target < EXT2_MAXSYMLINKLEN -> i_size k = zlen target -> take (length target) (shortlink k) = target -> w_inodes w !! vp = Some k ->
  ext2_readlink vn_read uiomove vp w = (e ← uiomove target; mret (e, target)) w.
Proof.
  intros Hlen Hs Hk Hi. change EXT2_MAXSYMLINKLEN with 60 in Hlen. assert (zlen target = Z.of_nat (length target)) as Hz by done.
  unfold ext2_readlink. rewrite (bind_run _ _ w k w) by (unfold VTOI; by rewrite Hi).
  rewrite Hs, s32_id by (unfold s32_ok; lia). change EXT2_MAXSYMLINKLEN with 60. rewrite (proj2 (Z.ltb_lt _ _)) by lia.
  by rewrite Hz, Nat2Z.id, Hk.
Qed.

Section linked.
Context (target : list Z) (i : inode) (Hlen : zlen target < EXT2_MAXSYMLINKLEN) (Hok : bytes_ok target).
Context (Hd : length (i_db i) = 12%nat) (Hb : length (i_ib i) = 3%nat).

Lemma linked_short : i_size (linked target i) = zlen target /\ take (length target) (shortlink (linked target i)) = target.
Proof using All.
  change EXT2_MAXSYMLINKLEN with 60 in Hlen. assert (zlen target = Z.of_nat (length target)) as Hz by done.
  destruct (put_shortlink_bytes target i Hd Hb ltac:(lia) Hok) as (_ & _ & Hs). split.
  - unfold linked. cbn. rewrite s32_id by (unfold s32_ok; lia). unfold u64. apply Z.mod_small. lia.
  - change (shortlink (linked target i)) with (shortlink (put_shortlink target i)). rewrite Hs. by rewrite take_app_length.
Qed.

(** The inode that is read back from the disk has the same pointers and size. *)
Lemma linked_from_disk fs ino ei : Z.land (i_mode i) IFMT = IFLNK -> 0 < i_nlink i < 2 ^ 15 ->
  exists j, fill_inode fs ino (ext2_i2ei fs (linked target i) ei) = Ok j /\
    i_size j = zlen target /\ take (length target) (shortlink j) = target.
Proof using All.
  intros Hmode Hn. destruct linked_short as [Hsize Hshort]. change EXT2_MAXSYMLINKLEN with 60 in Hlen.
  assert (zlen target = Z.of_nat (length target)) as Hz by done.
  destruct (put_shortlink_bytes target i Hd Hb ltac:(lia) Hok) as (Hjd & Hjb & _). set (l := linked target i) in *.
  assert (S_ISREG (i_mode i) = false) as Hreg by (unfold S_ISREG; rewrite Hmode; done).
  assert (S_ISDIR (i_mode i) = false) as Hdir by (unfold S_ISDIR; rewrite Hmode; done).
  assert ((u16 (i_nlink i) =? 0) = false) as Hnz by (rewrite u16_id by (unfold u16_ok; lia); lia).
  unfold fill_inode. set (f := ext2_ei2i _ _ _).
  assert (i_mode f = i_mode i /\ pointers f = pointers l /\ i_size f = zlen target) as (Hfm & Hfp & Hfs).
  { set (j := put_shortlink target i) in *. split; [|split].
    - change (i_mode f) with (if negb (u16 (i_nlink i) =? 0) then i_mode i else 0). by rewrite Hnz.
    - unfold pointers. change (i_db f) with (take 12 (i_db j ++ i_ib j)). change (i_ib f) with (take 3 (drop 12 (i_db j ++ i_ib j))).
      change (i_db l) with (i_db j). change (i_ib l) with (i_ib j). rewrite <- Hjd. rewrite take_app_length, drop_app_length.
      by rewrite (take_ge (i_ib j)) by lia.
    - change (i_size f) with (let m := if negb (u16 (i_nlink i) =? 0) then i_mode i else 0 in
        if S_ISREG m then Z.lor (u32 (i_size l)) (Z.shiftl (e2di_size_high (ext2_i2ei fs l ei)) 32) else u32 (i_size l)).
      cbv zeta. rewrite Hnz. cbn [negb]. rewrite Hreg, Hsize. apply u32_id. unfold u32_ok. lia. }
  unfold zero_unused. cbn [i_flag i_mode upd_i_next_alloc_goal upd_i_next_alloc_block upd_i_block_group]. rewrite Hfm, Hreg, Hdir, andb_false_r.
  eexists. split; [reflexivity|]. split; [exact Hfs|]. unfold shortlink. rewrite <- Hshort at 2. unfold shortlink. by rewrite <- Hfp.
Qed.
End linked.

Section vnops.
Context `{KE : KernelEnv} `{HE : HashEnv} `{VE : VnodeEnv} (fs : m_ext2fs).
Context (MAXPHYS ump f_bsize f_iosize f_fsid cr_uid nocred_uid : Z).
Context (ronly mnt_rdonly async : bool) (restarts depth : nat).
Context (vnode_vtype : Z -> vtype) (vnode_mount : Z -> Z) (VTTOIF : vtype -> Z).
Context (ubc_setsize : Z -> Z -> M world unit) (buf_invalidateblks : Z -> M world Z).
Context (buf_markinvalid : Z -> M world unit) (buf_setsize : bufref -> Z -> M world unit).
Context (vnode_recycle buf_flushdirtyblks : Z -> M world unit).
Context (vn_write : Z -> list Z -> Z -> M world Z) (vn_read : Z -> Z -> Z -> M world (list Z + Z)) (stale : list Z).
Context (ismember_gid : Z -> Z * bool) (uiomove : list Z -> M world Z).

#[local] Abbreviation update := (update fs ronly mnt_rdonly async vnode_vtype).
#[local] Abbreviation direnter := (direnter fs MAXPHYS f_bsize cr_uid nocred_uid ronly mnt_rdonly async vnode_vtype
  ubc_setsize buf_invalidateblks buf_markinvalid buf_setsize vn_write stale).
#[local] Abbreviation setattr := (ext2_setattr fs MAXPHYS cr_uid nocred_uid ronly mnt_rdonly async vnode_vtype
  ubc_setsize buf_invalidateblks buf_markinvalid buf_setsize).
#[local] Abbreviation rename := (ext2_rename fs MAXPHYS ump f_bsize cr_uid nocred_uid ronly mnt_rdonly async restarts depth vnode_vtype vnode_mount
  ubc_setsize buf_invalidateblks buf_markinvalid buf_setsize vn_write vn_read stale).

(** ** Making a symbolic link *)

#[local] Abbreviation makeinode := (ext2_makeinode fs MAXPHYS ump f_bsize cr_uid nocred_uid ronly mnt_rdonly async restarts vnode_vtype
  ubc_setsize buf_invalidateblks buf_markinvalid buf_setsize vn_write stale ismember_gid).
#[local] Abbreviation symlink := (ext2_symlink fs MAXPHYS ump f_bsize cr_uid nocred_uid ronly mnt_rdonly async restarts vnode_vtype
  ubc_setsize buf_invalidateblks buf_markinvalid buf_setsize vn_write stale ismember_gid).

Lemma makeinode_bad_result tvp e w r w1 : e <> 0 -> makeinode_bad tvp e w = Ok (r, w1) -> r = (e, None).
Proof.
  intros He. unfold makeinode_bad, mbind, M_bind. destruct (upd_inode _ _ w) as [[[] w2]|]; [|done].
  destruct (vnode_put tvp w2) as [[[] w3]|]; [|done]. by intros [= <- _].
Qed.

(** A vnode comes with success, and only with it. *)
Lemma makeinode_result mode dvp name w e vpp w1 : makeinode mode dvp name w = Ok ((e, vpp), w1) ->
  (e <> 0 /\ vpp = None) \/ (e = 0 /\ exists vp, vpp = Some vp).
Proof.
  unfold ext2_makeinode. intros Hrun. apply bind_Ok in Hrun as ([e1 tvp] & w2 & _ & Hrun).
  destruct (Z.eqb_spec e1 0) as [->|He1]; cbn [negb] in Hrun; [|injection Hrun as <- <- _; by left].
  do 3 apply bind_Ok in Hrun as (? & ? & _ & Hrun). apply bind_Ok in Hrun as (e2 & w3 & _ & Hrun).
  destruct (Z.eqb_spec e2 0) as [->|He2]; cbn [negb] in Hrun; [|apply makeinode_bad_result in Hrun; [injection Hrun as -> ->; by left|done]].
  apply bind_Ok in Hrun as (e3 & w4 & _ & Hrun).
  destruct (Z.eqb_spec e3 0) as [->|He3]; cbn [negb] in Hrun; [|apply makeinode_bad_result in Hrun; [injection Hrun as -> ->; by left|done]].
  injection Hrun as <- <- _. right. split; [done|]. by eexists.
Qed.

(** C15: [ext2_symlink] of a target of less than 60 bytes hands on the errno with
    which the new inode could not be made. Else it returns the vnode, with the
    target in the pointers of the inode and nothing else changed, and
    [ext2_readlink] hands out exactly the target: at once, and from the inode
    that [ext2_vget] makes of the disk inode [ext2_update] writes. *)
Theorem symlink_readlink va_mode dvp name target w : zlen target < EXT2_MAXSYMLINKLEN -> bytes_ok target ->
  match makeinode (Z.lor IFLNK va_mode) dvp name w with
  | Fault f => symlink va_mode dvp name target w = Fault f
  | Ok ((e, vpp), w1) =>
      (e <> 0 /\ symlink va_mode dvp name target w = Ok ((e, None), w1)) \/
      (e = 0 /\ exists vp, vpp = Some vp /\
       forall i, w_inodes w1 !! vp = Some i -> length (i_db i) = 12%nat -> length (i_ib i) = 3%nat ->
       exists w2, symlink va_mode dvp name target w = Ok ((0, Some vp), w2) /\
         w2 = upd_w_inodes (insert vp (linked target i)) w1 /\
         ext2_readlink vn_read uiomove vp w2 = (e ← uiomove target; mret (e, target)) w2 /\
         (Z.land (i_mode i) IFMT = IFLNK -> 0 < i_nlink i < 2 ^ 15 -> forall ino ei,
          exists j, fill_inode fs ino (ext2_i2ei fs (linked target i) ei) = Ok j /\
            forall vp' w', w_inodes w' !! vp' = Some j ->
              ext2_readlink vn_read uiomove vp' w' = (e ← uiomove target; mret (e, target)) w'))
  end.
Proof.
  intros Hlen Hok. unfold ext2_symlink. destruct (makeinode _ _ _ w) as [[[e vpp] w1]|f] eqn:Hmake; [|by apply bind_fault].
  destruct (makeinode_result _ _ _ _ _ _ _ Hmake) as [[He ->]|[-> (vp & ->)]].
  { left. split; [done|]. rewrite (bind_run _ _ _ _ _ Hmake). by rewrite (proj2 (Z.eqb_neq e 0)). }
  right. split; [done|]. exists vp. split; [done|]. intros i Hi Hd Hb. destruct (linked_short target i Hlen Hok Hd Hb) as [Hs Hsh].
  exists (upd_w_inodes (insert vp (linked target i)) w1). split_and!; [|done| |].
  - rewrite (bind_run _ _ _ _ _ Hmake). cbn [Z.eqb negb deref]. unfold mbind, M_bind, upd_inode, mret, M_ret.
    change EXT2_MAXSYMLINKLEN with 60 in *. assert (0 <= zlen target) by apply Nat2Z.is_nonneg.
    rewrite s32_id by (unfold s32_ok; lia). rewrite (proj2 (Z.ltb_lt _ _)) by lia. rewrite Hi. cbn [Z.eqb negb].
    unfold linked. rewrite s32_id by (unfold s32_ok; lia). done.
  - apply (readlink_short _ _ _ (linked target i)); try done. cbn. apply lookup_insert_eq.
  - intros Hmode Hn ino ei. destruct (linked_from_disk target i Hlen Hok Hd Hb fs ino ei Hmode Hn) as (j & Hj & Hsj & Hshj).
    exists j. split; [done|]. intros vp' w' Hw'. by apply (readlink_short _ _ _ j).
Qed.

(** ** Renaming *)

(** A run that does not end in success. *)
Definition no_success (m : M world Z) (w : world) : Prop := forall w', m w <> Ok (0, w').

Lemma no_success_bind {A} (m : M world A) (k : A -> M world Z) w :
  (forall a w', m w = Ok (a, w') -> no_success (k a) w') -> no_success (m ≫= k) w.
Proof. intros Hk w'. unfold mbind, M_bind. destruct (m w) as [[a w1]|] eqn:E; [|done]. by apply (Hk a w1). Qed.

Lemma no_success_errno (m : M world unit) e w : e <> 0 -> no_success (m;; mret e) w.
Proof. intros He. apply no_success_bind. intros _ w1 _ w2. cbn. by intros [= ]. Qed.

Lemma no_success_ret e w : e <> 0 -> no_success (mret e) w.
Proof. intros He w1. cbn. by intros [= ]. Qed.

Ltac errno := repeat first [ apply no_success_ret; done | apply no_success_bind; intros ? ? _ ].

Section rename.
Context (fdvp : Z).

(** Nothing but this operation changes the number of I/O counts on the directory
    it takes the name from. *)
#[local] Abbreviation within := (framed (count_frame fdvp)).
Context (Henv : env_within (count_frame fdvp)).
Context (Hubc : forall ip n, within (ubc_setsize ip n)) (Hinval : forall ip, within (buf_invalidateblks ip)).
Context (Hmark : forall b, within (buf_markinvalid b)) (Hsize : forall bp n, within (buf_setsize bp n)).
Context (Hwrite : forall ip d off, within (vn_write ip d off)) (Hread : forall ip n off, within (vn_read ip n off)).

Definition none_left (w : world) : Prop := iocount w fdvp <= 0.

Lemma none_left_framed {A} (m : M world A) (k : A -> M world Z) w :
  within m -> none_left w -> (forall a w', none_left w' -> no_success (k a) w') -> no_success (m ≫= k) w.
Proof. intros Hm Hw Hk. apply no_success_bind. intros a w' E. apply Hk. specialize (Hm w a w' E). unfold none_left, count_frame in *. lia. Qed.

Lemma framed_direnter_vnops ip dvp name : within (direnter ip dvp name).
Proof using Henv Hubc Hinval Hmark Hsize Hwrite.
  unfold Vnops.direnter. apply framed_bind; [apply _|frame|]. intros i. apply framed_direnter; try done; try apply _.
  intros q n. unfold truncate. by apply framed_truncate; try apply _.
Qed.

Lemma rename_abort_fails fvp tdvp tvp e w : e <> 0 -> no_success (rename_abort fvp fdvp tdvp tvp e) w.
Proof. intros He. unfold rename_abort. errno. Qed.

Lemma rename_bad_fails fvp tdvp xp dir e w : e <> 0 -> no_success (rename_bad fvp tdvp xp dir e) w.
Proof. intros He. unfold rename_bad, rename_out. errno. Qed.

(** The second release of the directory's I/O count panics. *)
Lemma rename_unlink_fails fvp newparent w : none_left w -> no_success (rename_unlink fs ronly async vn_write vn_read fvp fdvp newparent false) w.
Proof using Henv.
  intros Hw. unfold rename_unlink. eapply none_left_framed; [frame|done|]. intros _ w1 Hw1.
  eapply none_left_framed; [frame|done|]. intros e w2 Hw2.
  eapply none_left_framed; [|done|]. { frame_any. } intros _ w3 Hw3.
  eapply none_left_framed; [frame_any|done|]. intros _ w4 Hw4. apply no_success_bind.
  intros a w5. unfold vnode_put, none_left in *. destruct (Z.ltb_spec (iocount w4 fdvp) 1); [done|lia].
Qed.

Lemma rename_enter_framed fvp tdvp tname :
  within (rename_enter fs MAXPHYS f_bsize cr_uid nocred_uid ronly mnt_rdonly async vnode_vtype ubc_setsize buf_invalidateblks
    buf_markinvalid buf_setsize vn_write stale fvp tdvp tname false).
Proof using Henv Hubc Hinval Hmark Hsize Hwrite. unfold rename_enter. pose proof framed_direnter_vnops. frame_any. Qed.

Lemma rename_replace_framed fvp tdvp tvp newparent :
  within (rename_replace fs MAXPHYS cr_uid nocred_uid ronly mnt_rdonly async vnode_vtype ubc_setsize buf_invalidateblks
    buf_markinvalid buf_setsize vn_read fvp tdvp tvp false newparent).
Proof using Henv Hread.
  unfold rename_replace. assert (forall ip p, within (ext2_dirempty vn_read ip p)) by (intros; by apply framed_dirempty; try apply _).
  frame_any.
Qed.

Lemma rename_move_fails fvp tdvp tvp tname w : iocount w fdvp = 1 ->
  no_success (rename_move fs MAXPHYS ump f_bsize cr_uid nocred_uid ronly mnt_rdonly async restarts depth vnode_vtype ubc_setsize buf_invalidateblks
    buf_markinvalid buf_setsize vn_write vn_read stale fvp fdvp tdvp tvp tname 0 false) w.
Proof using Henv Hubc Hinval Hmark Hsize Hwrite Hread.
  intros Hw. unfold rename_move. apply no_success_bind. intros [] w1. unfold vnode_put. rewrite Hw. cbn [Z.ltb Z.compare Pos.compare Pos.compare_cont].
  intros [= <-]. assert (none_left (upd_w_iocount (insert fdvp (1 - 1)) w)) as H1.
  { unfold none_left, iocount. cbn. rewrite lookup_insert_eq. cbn. lia. }
  eapply none_left_framed; [frame|exact H1|]. intros d w2 H2.
  eapply none_left_framed; [frame_any|exact H2|]. intros _ w3 H3.
  eapply none_left_framed; [frame|exact H3|]. intros e w4 H4.
  destruct (Z.eqb_spec e 0) as [->|Hne]; cbn [negb]; [|by apply rename_bad_fails].
  cbn [andb]. eapply none_left_framed; [frame|exact H4|]. intros e w5 H5.
  destruct (Z.eqb_spec e 0) as [->|Hne]; cbn [negb]; [|unfold rename_out; errno].
  eapply none_left_framed; [destruct tvp; [apply rename_replace_framed|apply rename_enter_framed]|exact H5|]. intros e w6 H6.
  destruct (Z.eqb_spec e 0) as [->|Hne]; cbn [negb]; [by apply rename_unlink_fails|by apply rename_bad_fails].
Qed.

(** C14: The caller of rename holds one I/O count on each of its vnodes and keeps
    it. [ext2_rename] of a file never returns success: it releases the count on
    the source's directory before it enters the new name, and once more, which
    panics, after it has taken out the old one. *)
Theorem rename_file_panics fvp tdvp tvp fname tname isdotdot w :
  iocount w fdvp = 1 -> tvp <> Some fvp ->
  (forall i, w_inodes w !! fvp = Some i -> Z.land (i_mode i) IFMT <> IFDIR) ->
  forall w', rename fvp fdvp tdvp tvp fname tname isdotdot w <> Ok (0, w').
Proof using Henv Hubc Hinval Hmark Hsize Hwrite Hread.
  intros Hw Hne Hmode. change (no_success (rename fvp fdvp tdvp tvp fname tname isdotdot) w). unfold ext2_rename.
  match goal with |- no_success (if ?b then _ else _) _ => destruct b end; [by apply rename_abort_fails|]. apply no_success_bind. intros denied w1 Hd.
  assert (w1 = w) as ->.
  { destruct tvp as [t|]; [|by injection Hd]. revert Hd. unfold mbind, M_bind, VTOI.
    destruct (w_inodes w !! t); [|done]. destruct (w_inodes w !! tdvp); [|done]. by intros [= _ <-]. }
  destruct denied; [by apply rename_abort_fails|]. rewrite bool_decide_eq_false_2 by congruence.
  apply no_success_bind. unfold VTOI at 1. destruct (w_inodes w !! fdvp) as [d|]; [|done]. intros ? ? [= <- <-].
  apply no_success_bind. unfold VTOI at 1. destruct (w_inodes w !! fvp) as [i|]; [|done]. intros ? ? [= <- <-].
  do 2 (match goal with |- no_success (if ?b then _ else _) _ => destruct b end; [by apply rename_abort_fails|]).
  rewrite (proj2 (Z.eqb_neq _ _)) by by apply Hmode. by apply rename_move_fails.
Qed.
End rename.

(** ** A read-only mount *)

Definition no_change : vattr := mk_vattr None None None None None None None None.

(** A stage that leaves the volume alone: it refuses, or nothing was asked of it. *)
Definition refuses (m : M world stage) (w : world) (idle : Prop) : Prop :=
  (exists e, e <> 0 /\ m w = Ok (inr (e, []), w)) \/ (m w = Ok (inl [], w) /\ idle).

Lemma refuses_then m k w P Q : refuses m w P -> refuses (k []) w Q -> refuses (and_then m k) w (P /\ Q).
Proof.
  intros [(e & He & Hm)|[Hm HP]] Hk; unfold refuses, and_then, mbind, M_bind; rewrite Hm.
  - left. by exists e.
  - destruct Hk as [(e & He & ->)|[-> HQ]]; [left; by exists e|by right].
Qed.

Section rdonly.
Context (Hro : mnt_rdonly = true) (vp : Z) (vap : vattr) (w : world) (i : inode) (Hi : w_inodes w !! vp = Some i).

Lemma refused_ret e P : e <> 0 -> refuses (mret (inr (e, []))) w P.
Proof. intros He. left. by exists e. Qed.
Lemma idle_ret (P : Prop) : P -> refuses (mret (inl [])) w P.
Proof. intros HP. by right. Qed.
Lemma refused_rdonly k P : refuses (rdonly_or mnt_rdonly [] k) w P.
Proof using Hro. unfold rdonly_or. rewrite Hro. by apply refused_ret. Qed.

Ltac refuse := first [by apply refused_rdonly | by apply refused_ret | by apply idle_ret].

Lemma refuses_flags : refuses (setattr_flags mnt_rdonly vp vap) w (va_flags vap = None /\ flagged (Z.lor IMMUTABLE APPEND) i = false).
Proof using Hro Hi.
  unfold setattr_flags. destruct (va_flags vap) as [f|]; [case_match; refuse|].
  unfold refuses, mbind, M_bind, VTOI. rewrite Hi. destruct (flagged _ i); [left; by exists EPERM|by right].
Qed.
Lemma refuses_owner : refuses (setattr_owner mnt_rdonly vp vap []) w (va_uid vap = None /\ va_gid vap = None).
Proof using Hro. unfold setattr_owner. repeat case_match; refuse. Qed.
Lemma refuses_size : vnode_vtype vp ∈ [VREG; VDIR; VLNK] ->
  refuses (setattr_size fs MAXPHYS cr_uid nocred_uid ronly mnt_rdonly async vnode_vtype ubc_setsize buf_invalidateblks
    buf_markinvalid buf_setsize vp vap []) w (va_data_size vap = None).
Proof using Hro.
  intros Ht. unfold setattr_size. destruct (va_data_size vap); [|refuse].
  rewrite !elem_of_cons, elem_of_nil in Ht. destruct Ht as [-> |[-> |[-> |[]]]]; refuse.
Qed.
Lemma refuses_times : refuses (setattr_times fs ronly mnt_rdonly async vnode_vtype vp vap []) w
  (va_access_time vap = None /\ va_modify_time vap = None /\ va_create_time vap = None).
Proof using Hro. unfold setattr_times. repeat case_match; refuse. Qed.
Lemma refuses_mode : refuses (setattr_mode mnt_rdonly vp vap []) w (va_mode vap = None).
Proof using Hro. unfold setattr_mode. case_match; refuse. Qed.
End rdonly.

(** On a read-only mount [ext2_setattr] of a file, directory or symbolic link
    changes nothing, neither the inode nor the device, says it supports nothing,
    and returns an error as soon as one attribute is to change. *)
Theorem setattr_rdonly vp vap w i : mnt_rdonly = true -> w_inodes w !! vp = Some i -> vnode_vtype vp ∈ [VREG; VDIR; VLNK] ->
  exists e, setattr vp vap w = Ok ((e, []), w) /\ (e = 0 -> vap = no_change /\ flagged (Z.lor IMMUTABLE APPEND) i = false).
Proof.
  intros Hro Hi Ht.
  pose proof (refuses_then _ _ _ _ _ (refuses_then _ _ _ _ _ (refuses_then _ _ _ _ _ (refuses_then _ _ _ _ _
    (refuses_flags Hro vp vap w i Hi) (refuses_owner Hro vp vap w)) (refuses_size Hro vp vap w Ht)) (refuses_times Hro vp vap w))
    (refuses_mode Hro vp vap w)) as Hall.
  unfold ext2_setattr, mbind, M_bind. destruct Hall as [(e & He & ->)|[-> (((((Hf & Hfl) & Hu & Hg) & Hs) & Ha & Hm & Hc) & Hmo)]].
  - exists e. split; [done|]. by intros ->.
  - exists 0. split; [done|]. intros _. split; [|done]. destruct vap. cbn in *. by subst.
Qed.

(** ** Removing and linking *)

Section names.
Context (Hgeo : dir_geometry fs) (dvp nblk : Z) (D : Z -> list dent) (Hdenv : dir_env dvp).

Lemma marked_other w w' d vp : marked dvp w w' d -> vp <> dvp -> w_inodes w' !! vp = w_inodes w !! vp.
Proof. intros Hm Hne. unfold marked in Hm. by rewrite Hm, lookup_insert_ne. Qed.

Lemma failed_other w w' d e lbn R vp : changed_or_failed fs dvp w w' d e lbn R -> vp <> dvp -> w_inodes w' !! vp = w_inodes w !! vp.
Proof. intros [_ [(_ & Hm & _)|[[Hm|Hm] _]]] Hne; [by eapply marked_other|by eapply marked_other|by rewrite Hm]. Qed.

(** C16: [ext2_remove] refuses, with nothing changed, files that are immutable or
    append-only and directories that are append-only. Else it takes the entry the
    search found out of the directory, and lowers the link count of the file
    exactly when that succeeded. *)
Theorem remove_spec w vp i d lbn pre x post :
  dir_data fs dvp nblk D w -> no_bufs dvp (w_fbufs w) -> w_inodes w !! vp = Some i -> w_inodes w !! dvp = Some d -> vp <> dvp ->
  remove_at fs nblk D d lbn pre x post ->
  wp (ext2_remove fs async vp dvp) (fun e w' =>
    if flagged (Z.lor IMMUTABLE APPEND) i || flagged APPEND d then e = EPERM /\ w' = w
    else exists w1, changed_or_failed fs dvp w w1 d e lbn (fun es => in_use es = in_use pre ++ in_use post) /\
      w' = if e =? 0 then upd_w_inodes (insert vp (or_flag IN_CHANGE (add_nlink (-1) i))) w1 else w1) w.
Proof.
  intros Hd Hno Hi Hdi Hne Hat. unfold ext2_remove. wp_steps. eapply wp_VTOI; [exact Hi|]. wp_steps. eapply wp_VTOI; [exact Hdi|].
  case_match; [by apply wp_ret|]. wp_steps. eapply wp_mono; [by apply (dirremove_wp fs Hgeo dvp nblk D Hdenv async w d lbn pre x post)|].
  intros e w1 Hr. pose proof (failed_other _ _ _ _ _ _ vp Hr Hne) as Hi1. wp_steps. destruct (Z.eqb_spec e 0) as [->|He].
  - eapply wp_upd_inode; [by rewrite Hi1|]. apply wp_ret. by exists w1.
  - apply wp_ret, wp_ret. exists w1. split; [done|]. by rewrite (proj2 (Z.eqb_neq e 0)).
Qed.

(** The inode's slot of the inode table can be read and written. *)
Record slot_at (w : world) (i : inode) : Prop := mk_slot_at {
  sa_db : length (i_db i) = 12%nat;
  sa_ib : length (i_ib i) = 3%nat;
  sa_block : exists gd d, w_gd w !z ino_to_cg fs (i_number i) = Some gd /\
    let b := fsbtodb fs (ino_to_fsba fs gd (i_number i)) in
    update_env b /\ w_bufs w !! b = None /\ w_dev w !! b = Some d /\ zlen d = m_bsize fs;
  sa_off : 0 <= m_isize fs * ino_to_fsbo fs (i_number i) /\ m_isize fs * ino_to_fsbo fs (i_number i) + slot_size fs <= m_bsize fs
}.

Lemma s16_pred a : s16 (s16 a + -1) = s16 (a - 1).
Proof.
  unfold s16. replace ((a + 2 ^ 15) mod 2 ^ 16 - 2 ^ 15 + -1 + 2 ^ 15) with ((a + 2 ^ 15) mod 2 ^ 16 - 1) by lia.
  rewrite Zminus_mod_idemp_l. by replace (a + 2 ^ 15 - 1) with (a - 1 + 2 ^ 15) by lia.
Qed.

(** An update leaves the directories alone, and the identity of the inode. *)
Lemma update_other w vp i waitfor : env_within (file_frame dvp) -> w_inodes w !! vp = Some i -> slot_at w i ->
  wp (update vp waitfor) (fun _ w' => file_frame dvp w w' /\ exists j, w_inodes w' = <[vp := j]> (w_inodes w) /\
    i_nlink j = i_nlink i /\ i_number j = i_number i /\ i_mode j = i_mode i) w.
Proof.
  intros Henv Hi [Hdb Hib (gd & d & Hgd & He & Hb & Hd & Hl) [H0 Hend]].
  assert (FrameInodes (file_frame dvp)) by (intros f w0; by constructor).
  eapply wp_mono; [apply (wp_framed (file_frame dvp)); [unfold Vnops.update; frame_any|]|].
  - by apply (update_wp fs ronly mnt_rdonly async (vnode_isdev vnode_vtype) vp waitfor w i gd d).
  - intros r w' [(ts & _ & _ & Hr) Hf]. split; [done|].
    assert (forall ts, let i1 := itimes_of mnt_rdonly (vnode_isdev vnode_vtype) vp ts i in
      i_nlink i1 = i_nlink i /\ i_number i1 = i_number i /\ i_mode i1 = i_mode i) as Hit.
    { intros t. unfold itimes_of, touch_times. repeat case_match; done. }
    destruct (Hit ts) as (? & ? & ?). case_match; [destruct Hr as (_ & Hr & _)|destruct Hr as (Hr & _)]; eexists; (split; [exact Hr|done]).
Qed.

(** Where the new name of a link goes: into a block of the directory, or behind
    its last one. *)
Inductive link_slot : Type :=
| in_block (lbn : Z) (pre mid post : list dent)
| at_end.

Definition slot_found (d : inode) (name : list Z) (s : link_slot) : Prop :=
  match s with
  | in_block lbn pre mid post => room_at fs nblk D d name lbn pre mid post
  | at_end => i_count d = 0 /\ Z.land (i_offset d) (m_bsize fs - 1) = 0 /\ m_bsize fs <= f_bsize
  end.

(** The directory holds what it held; the link count of [vp]. *)
Definition dir_kept (w w' : world) : Prop := forall l, w_fdata w' !! (dvp, l) = w_fdata w !! (dvp, l).
Definition counted (w : world) (vp n : Z) : Prop := i_nlink <$> w_inodes w !! vp = Some n.

(** The link counted, as [ext2_link] does first, and taken back on an error. *)
Definition count_link (vp : Z) (i : inode) (w : world) : world := upd_w_inodes (insert vp (or_flag IN_CHANGE (add_nlink 1 i))) w.
Definition take_back (vp error : Z) : M world Z :=
  (if negb (error =? 0) then upd_inode vp (fun i => or_flag IN_CHANGE (add_nlink (-1) i)) else mret tt);; mret error.

(** Why a link is not made before its name is on its way to the directory. *)
Definition not_linked (w w' : world) (vp : Z) (i : inode) (s : link_slot) (e : Z) : Prop :=
  (e = EMLINK /\ EXT2_LINK_MAX <= u16 (i_nlink i) /\ w' = w) \/
  (e = EPERM /\ flagged (Z.lor IMMUTABLE APPEND) i = true /\ w' = w) \/
  (exists w1, update vp (negb async) (count_link vp i w) = Ok (e, w1)) \/
  (s <> at_end /\ exists n b, ke_write_error n b = Some e \/ ke_read_error n b = Some e).

(** C13: [ext2_link] refuses a file with the most links allowed, or that may not
    change. Else it raises the link count and writes the inode; when that fails,
    or the block of the directory cannot be read or written, the count is what
    it was and so is the directory. With its name in the directory the link is
    made, unless the directory has unused blocks behind it, which are cut off:
    an error of [ext2_truncate] takes the count back while the name stays. A
    name that needs a new block is one write of the vnode layer, and any error
    of that write takes the count back. *)
Theorem link_spec w vp i d name s :
  env_within (file_frame dvp) -> (forall n b e, ke_write_error n b = Some e -> e <> 0) -> 3 <= zlen stale ->
  dir_data fs dvp nblk D w -> no_bufs dvp (w_fbufs w) -> w_inodes w !! vp = Some i -> w_inodes w !! dvp = Some d -> vp <> dvp ->
  slot_at w i -> s16 (i_nlink i) = i_nlink i -> u32_ok (i_number i) -> i_number i <> 0 -> zlen name < 2 ^ 8 -> slot_found d name s ->
  let link := ext2_link fs MAXPHYS f_bsize cr_uid nocred_uid ronly mnt_rdonly async vnode_vtype ubc_setsize buf_invalidateblks buf_markinvalid
        buf_setsize vn_write stale vp dvp name in
  (exists e w', link w = Ok (e, w') /\ e <> 0 /\ dir_kept w w' /\ counted w' vp (i_nlink i) /\ not_linked w w' vp i s e) \/
  (u16 (i_nlink i) < EXT2_LINK_MAX /\ flagged (Z.lor IMMUTABLE APPEND) i = false /\
   exists w2, counted w2 vp (s16 (i_nlink i + 1)) /\
     match s with
     | in_block lbn pre mid post =>
         (exists es, rewritten fs dvp w w2 lbn es /\
            in_use es = in_use pre ++ in_use mid ++ [(i_number i, new_type fs (i_mode i), name)] ++ in_use post) /\
         link w = (if long_tail d
                   then error ← truncate fs MAXPHYS nocred_uid ronly mnt_rdonly async vnode_vtype ubc_setsize buf_invalidateblks
                          buf_markinvalid buf_setsize dvp (i_endoff d) IO_SYNC cr_uid; take_back vp error
                   else mret 0) w2
     | at_end =>
         dir_kept w w2 /\
         link w = (error ← append_entry fs dvp stale vn_write (i_number i) (i_mode i) name (i_offset d); take_back vp error) w2
     end).
Proof.
  intros Henv Hwr Hstale Hd Hno Hi Hdi Hne Hslot Hs16 Hino Hino0 Hname Hs. cbv zeta. unfold ext2_link.
  rewrite (bind_run _ _ w i w) by (unfold VTOI; by rewrite Hi).
  assert (counted w vp (i_nlink i)) as Hc0 by (unfold counted; by rewrite Hi).
  destruct (Z.geb_spec (u16 (i_nlink i)) EXT2_LINK_MAX) as [|Hlt].
  { left. exists EMLINK, w. split_and!; try done. left. split_and!; [done|lia|done]. }
  destruct (flagged _ i) eqn:Hfl. { left. exists EPERM, w. split_and!; try done. right. by left. }
  rewrite (bind_run _ _ w tt (count_link vp i w)) by (unfold upd_inode; by rewrite Hi). set (w1 := count_link vp i w).
  set (i1 := or_flag IN_CHANGE (add_nlink 1 i)).
  destruct (wp_run _ _ _ (update_other w1 vp i1 (negb async) Henv (lookup_insert_eq _ _ _) ltac:(by destruct Hslot)))
    as (e & w2 & Hup & [Hfb2 Hfd2] & j & Hi2 & Hj & Hjn & Hjm).
  rewrite (bind_run _ _ _ _ _ Hup).
  assert (w_inodes w2 = <[vp := j]> (w_inodes w)) as Hi2' by (rewrite Hi2; unfold w1, count_link; cbn; by rewrite insert_insert_eq).
  assert (forall w' k e, w_inodes w' !! vp = Some k -> i_nlink k = i_nlink j -> e <> 0 ->
      exists w3, take_back vp e w' = Ok (e, w3) /\ w_fdata w3 = w_fdata w' /\ counted w3 vp (i_nlink i)) as Hback.
  { intros w' k e' Hk Hn He. eexists. unfold take_back. rewrite (proj2 (Z.eqb_neq e' 0)) by done. cbn [negb]. unfold mbind, M_bind, upd_inode. rewrite Hk.
    split; [reflexivity|]. split; [done|]. unfold counted. cbn. rewrite lookup_insert_eq. cbn. rewrite Hn, Hj. cbn.
    rewrite s16_pred. replace (i_nlink i + 1 - 1) with (i_nlink i) by lia. by rewrite Hs16. }
  destruct (Z.eqb_spec e 0) as [->|He].
  2:{ rewrite (bind_run _ _ w2 e w2) by done. left.
      destruct (Hback w2 j e ltac:(rewrite Hi2'; apply lookup_insert_eq) eq_refl He) as (w3 & Hrun & Hf3 & Hc3).
      exists e, w3. split_and!; [exact Hrun|done| |done|right; right; left; by exists w2]. intros l. rewrite Hf3. apply Hfd2. }
  assert (dir_data fs dvp nblk D w2) as Hd2.
  { destruct Hd as [? ? (dp & Hdp & Hdp2) Hblk]. constructor; [done|done| |].
    - exists dp. split; [|done]. by rewrite Hi2', lookup_insert_ne.
    - intros q Hq. destruct (Hblk q Hq) as (blk & ? & ?). exists blk. split; [|done]. rewrite Hfd2. done. }
  change ((error ← direnter vp dvp name; take_back vp error) w2) with ((direnter vp dvp name ≫= take_back vp) w2).
  assert (exists m, direnter vp dvp name w2 = m w2 /\ m = ext2_direnter fs async f_bsize stale vn_write
      (fun vp length => truncate fs MAXPHYS nocred_uid ronly mnt_rdonly async vnode_vtype ubc_setsize buf_invalidateblks
        buf_markinvalid buf_setsize vp length IO_SYNC cr_uid) (i_number i) (i_mode i) dvp name) as (m & Hm & ->).
  { eexists. split; [|reflexivity]. unfold Vnops.direnter.
    rewrite (bind_run _ _ w2 j w2) by (unfold VTOI; by rewrite Hi2', lookup_insert_eq). rewrite Hjn, Hjm.
    change (i_number i1) with (i_number i). change (i_mode i1) with (i_mode i). by rewrite u32_id. }
  assert (w_inodes w2 !! dvp = Some d) as Hdi2 by (by rewrite Hi2', lookup_insert_ne).
  assert (counted w2 vp (s16 (i_nlink i + 1))) as Hc2 by (unfold counted; rewrite Hi2', lookup_insert_eq; cbn; by rewrite Hj).
  destruct s as [lbn pre mid post|].
  - destruct (direnter_run fs Hgeo dvp nblk D Hdenv async f_bsize stale Hstale vn_write
      (fun vp length => truncate fs MAXPHYS nocred_uid ronly mnt_rdonly async vnode_vtype ubc_setsize buf_invalidateblks
        buf_markinvalid buf_setsize vp length IO_SYNC cr_uid) w2 d (i_number i) (i_mode i) name lbn pre mid post Hd2
      ltac:(intros q; rewrite Hfb2; apply Hno) Hdi2 Hs Hino Hino0 Hname) as (e & w3 & Hr & Hrun).
    pose proof (failed_other _ _ _ _ _ _ vp Hr Hne) as Hi3. rewrite Hi2', lookup_insert_eq in Hi3.
    destruct Hr as [_ [(-> & _ & es & Hes & Hre)|(_ & Hsame & n & b & Herr)]].
    + right. split; [lia|]. split; [done|]. exists w3. split; [unfold counted; rewrite Hi3; cbn; by rewrite Hj|]. split.
      * exists es. split; [|done]. destruct Hre as (blk & ? & ? & ? & Hoth). exists blk. do 3 (split; [done|]).
        intros q Hq. rewrite Hoth by done. apply Hfd2.
      * transitivity ((direnter vp dvp name ≫= take_back vp) w2); [done|].
        transitivity (((if long_tail d then truncate fs MAXPHYS nocred_uid ronly mnt_rdonly async vnode_vtype ubc_setsize buf_invalidateblks
          buf_markinvalid buf_setsize dvp (i_endoff d) IO_SYNC cr_uid else mret 0) ≫= take_back vp) w3); [|by destruct (long_tail d)].
        unfold mbind, M_bind. rewrite Hm, Hrun. cbn [Z.eqb andb]. by destruct (long_tail d).
    + assert (e <> 0) as He by (destruct Herr as [Herr|Herr]; [by apply Hwr in Herr|by apply (de_errno _ Hdenv) in Herr]).
      rewrite (proj2 (Z.eqb_neq e 0)) in Hrun by done. cbn [andb] in Hrun.
      destruct (Hback w3 j e Hi3 eq_refl He) as (w4 & Hrun4 & Hf4 & Hc4). left. exists e, w4. split_and!; [|done| |done|].
      * change ((direnter vp dvp name ≫= take_back vp) w2 = Ok (e, w4)). by rewrite (bind_run _ _ w2 e w3) by (by rewrite Hm, Hrun).
      * intros q. rewrite Hf4, Hsame. apply Hfd2.
      * right. right. right. split; [done|]. eauto.
  - destruct Hs as (Hcnt & Hoff & Hfb). right. split; [lia|]. split; [done|]. exists w2. split; [done|]. split; [exact Hfd2|].
    change ((direnter vp dvp name ≫= take_back vp) w2 = (append_entry fs dvp stale vn_write (i_number i) (i_mode i) name (i_offset d) ≫= take_back vp) w2).
    unfold mbind, M_bind. rewrite Hm. by rewrite (direnter_append_run fs dvp async f_bsize stale vn_write _ w2 d).
Qed.
End names.
End vnops.
