(* ===== verification/VgetSpec.v ===== *)
(** The in-core inodes and their hash agree: an inode is in memory exactly when
    it is in the hash under its number, and [ext2_vget_typed] and [ext2_reclaim]
    keep it so. *)
From stdpp Require Import gmap.
From S2P Require Import Prelude Bitmap Bytes Super Ihash IhashSpec Kernel InodeCnv Cluster Alloc AllocSpec Extents Bmap Balloc BallocSpec Dir Inode UpdateSpec Vget.
From stdpp Require Import list.
#[local] Open Scope Z_scope.

Section vget.
Context `{KE : KernelEnv} `{HE : HashEnv} `{VE : VnodeEnv} (fs : m_ext2fs) (ump : Z) (mnt_rdonly : bool) (restarts : nat).

Lemma wp_on_hash {A} (m : M ihash A) (Q : A -> world -> Prop) w :
  wp m (fun a h => Q a (upd_w_hash (fun _ => h) w)) (w_hash w) -> wp (on_hash m) Q w.
Proof. unfold wp, on_hash. by destruct (m (w_hash w)) as [[a h]|f]. Qed.

(** What other threads do while this one waits leaves the in-core inodes of
    this mount, the hash and the buffers alone. *)
Record core_env : Prop := mk_core_env {
  ce_sched : forall n h, he_sched n h = h;
  ce_vid : forall t vp vid, he_getwithvid t vp vid = 0;
  ce_wait : forall n b w, let w' := ke_wait n b w in
    w_bufs w' = w_bufs w /\ w_inodes w' = w_inodes w /\ w_hash w' = w_hash w /\ w_gd w' = w_gd w /\
    (forall d, w_dev w !! b = Some d -> exists d', w_dev w' !! b = Some d' /\ zlen d' = zlen d);
  ce_read : forall n b e, ke_read_error n b = Some e -> e <> 0
}.

Lemma core_hash_env : core_env -> @hash_env HE.
Proof. intros He. constructor; intros n h; rewrite (ce_sched He); [by eexists|done]. Qed.

Lemma core_alone ip : core_env -> leaves_alone ip.
Proof. intros He n h i Hi. rewrite (ce_sched He). by exists i. Qed.

(** The mutex, the table and the inodes of the hash are as they were. *)
Definition same_hash (h h' : ihash) : Prop :=
  ih_tbl h' = ih_tbl h /\ ih_mask h' = ih_mask h /\ ih_mtx h' = ih_mtx h /\ ih_inodes h' = ih_inodes h.

Lemma hash_walk_state h ump' ino fuel : forall p r h', hash_walk fuel ump' ino p h = Ok (r, h') -> h' = h.
Proof.
  induction fuel as [|fuel IH]; intros [ip|] r h'; cbn [hash_walk]; try done; [by intros [= _ <-]|..|by intros [= _ <-]].
  unfold mbind, M_bind, hash_deref. destruct (ih_inodes h !! ip) as [i|]; [|done].
  destruct (_ || _); [apply IH|]. destruct (h_vnode i); [by intros [= _ <-]|apply IH].
Qed.

Lemma ihashget_state n h ino r h' : core_env -> ih_mtx h = Some false -> ext2_ihashget n ump ino h = Ok (r, h') -> same_hash h h'.
Proof.
  intros He Hm. assert (forall k, same_hash h (upd_ih_tick k (upd_ih_mtx (fun _ => Some false) h))) as Hsame by (by repeat split).
  destruct n; cbn [ext2_ihashget]; unfold mbind, M_bind, gets, lh_first, hash_lock, vnode_getwithvid, hash_unlock, mret, M_ret;
    (destruct (ih_tbl h) as [t|] eqn:Et; [|intros [= _ <-]; by repeat split]); rewrite Hm, (ce_sched He); cbn [ih_tbl ih_mask upd_ih_tick upd_ih_mtx];
    rewrite Et; (destruct (t !z _) as [p|]; [|done]);
    match goal with |- context [hash_walk ?f ?u ?i ?p ?s] => destruct (hash_walk f u i p s) as [[r' h1]|] eqn:Ew; [|done] end;
    apply hash_walk_state in Ew as ->; destruct r' as [[vp vid]|]; cbn [ih_mtx upd_ih_tick upd_ih_mtx];
    rewrite ?(ce_vid He); cbn; intros [= _ <-]; by repeat split.
Qed.

(** ** The invariant *)

Record incore (w : world) : Prop := mk_incore {
  ic_hash : exists C, hash_ok (w_hash w) C;
  ic_mtx : ih_mtx (w_hash w) = Some false;
  ic_number : forall ip i, w_inodes w !! ip = Some i -> i_number i = ip;
  ic_hashed : forall ip, is_hashed (w_hash w) ip <-> is_Some (w_inodes w !! ip);
  ic_key : forall ip, is_hashed (w_hash w) ip -> exists vid, key <$> ih_inodes (w_hash w) !! ip = Some (ip, ump, Some ip, vid)
}.

Lemma hashed_same h h' ip : same_hash h h' -> is_hashed h' ip <-> is_hashed h ip.
Proof. intros (_ & _ & _ & E). unfold is_hashed. by rewrite E. Qed.

Lemma incore_same w w' : incore w -> same_hash (w_hash w) (w_hash w') -> w_inodes w' = w_inodes w ->
  (exists C, hash_ok (w_hash w') C) -> incore w'.
Proof.
  intros [H1 H2 H3 H4 H5] Hs Hi Hok. pose proof Hs as (Ht & Hk & Hm & Hin). constructor.
  - done.
  - by rewrite Hm.
  - by rewrite Hi.
  - intros ip. by rewrite (hashed_same _ _ _ Hs), Hi.
  - intros ip Hh%(hashed_same _ _ _ Hs). rewrite Hin. auto.
Qed.

(** Looking an inode up: the inode itself when it is in memory. *)
Lemma get_wp (Q : Z * option Z -> world -> Prop) w ino : core_env -> incore w ->
  (forall w', incore w' -> same_hash (w_hash w) (w_hash w') -> w_inodes w' = w_inodes w -> w_bufs w' = w_bufs w -> w_gd w' = w_gd w ->
     w_dev w' = w_dev w -> Q (0, if decide (is_Some (w_inodes w !! ino)) then Some ino else None) w') ->
  wp (on_hash (ext2_ihashget restarts ump ino)) Q w.
Proof.
  intros He Hw HQ. destruct (ic_hash _ Hw) as [C Hok]. apply wp_on_hash.
  pose proof (ihashget_wp (core_hash_env He) restarts (w_hash w) C ump ino Hok (ic_mtx _ Hw) (fun t vp vid _ => ce_vid He t vp vid)) as Hget.
  unfold wp in Hget |- *. destruct (ext2_ihashget restarts ump ino (w_hash w)) as [[[e vpp] h']|] eqn:E; [|done].
  apply ihashget_state in E as Hsame; [|done|apply Hw]. destruct Hget as ([C' Hok'] & Hm & He0 & Hr). cbn in He0, Hr. subst e.
  assert (incore (upd_w_hash (fun _ => h') w)) as Hw' by (apply (incore_same w); [done|done|done|by exists C']).
  specialize (HQ (upd_w_hash (fun _ => h') w) Hw' Hsame eq_refl eq_refl eq_refl eq_refl).
  assert (vpp = if decide (is_Some (w_inodes w !! ino)) then Some ino else None) as ->; [|done].
  destruct vpp as [vp|].
  - destruct Hr as (ip & vid & t & [Hh Hk] & _). apply (hashed_same _ _ _ Hsame) in Hh as Hh0. destruct (ic_key _ Hw _ Hh0) as [vid' Hk'].
    destruct Hsame as (_ & _ & _ & Hin). rewrite Hin, Hk' in Hk. injection Hk as -> -> _.
    apply (ic_hashed _ Hw) in Hh0. by rewrite decide_True.
  - rewrite decide_False; [done|]. intros Hs. apply (ic_hashed _ Hw) in Hs as Hh. destruct (ic_key _ Hw _ Hh) as [vid' Hk'].
    apply (Hr ino ino vid'). split; [by apply (hashed_same _ _ _ Hsame)|]. destruct Hsame as (_ & _ & _ & Hin). by rewrite Hin.
Qed.

(** ** Reading an inode *)

Definition slot_block (gd : ext2_gd) (ino : Z) : Z := fsbtodb fs (ino_to_fsba fs gd ino).
Definition slot_off (ino : Z) : Z := m_isize fs * ino_to_fsbo fs ino.

(** The slot of an inode can be read, and what other threads leave in it while
    its block is waited for has a size the code can count in blocks. *)
Record slot_ready (w : world) (ino : Z) (gd : ext2_gd) : Prop := mk_slot_ready {
  sl_gd : w_gd w !z ino_to_cg fs ino = Some gd;
  sl_free : w_bufs w !! slot_block gd ino = None;
  sl_dev : exists d, w_dev w !! slot_block gd ino = Some d /\ zlen d = m_bsize fs;
  sl_off : 0 <= slot_off ino /\ slot_off ino + slot_size fs <= m_bsize fs;
  sl_fill : forall n w1 d ei, w_dev w1 = w_dev w -> w_dev (ke_wait n (slot_block gd ino) w1) !! slot_block gd ino = Some d ->
    dinode_load fs d (slot_off ino) = Ok ei -> is_ok (fill_inode fs ino ei)
}.

(** The inodes, the hash, the held buffers and the descriptors are as they were. *)
Definition same_core (w w' : world) : Prop :=
  w_inodes w' = w_inodes w /\ w_hash w' = w_hash w /\ w_bufs w' = w_bufs w /\ w_gd w' = w_gd w.

Lemma read_slot_wp (Q : ext2fs_dinode + Z -> world -> Prop) w ino gd :
  core_env -> slot_ready w ino gd ->
  (forall w' e, same_core w w' -> e <> 0 -> Q (inr e) w') ->
  (forall w' n w1 d ei, same_core w w' -> w_dev w1 = w_dev w -> w_dev (ke_wait n (slot_block gd ino) w1) !! slot_block gd ino = Some d ->
     dinode_load fs d (slot_off ino) = Ok ei -> Q (inl ei) w') ->
  wp (read_slot fs ino) Q w.
Proof.
  intros He [Hgd Hfree (d & Hd & Hlen) [H0 Hend] _] Herr Hok. set (b := slot_block gd ino) in *.
  unfold read_slot. wp_steps. eapply wp_GD; [exact Hgd|]. fold (slot_block gd ino). fold b. wp_steps. unfold wp at 1, buf_meta_bread.
  rewrite Hfree. cbv zeta. destruct (ce_wait He (w_tick w) b w) as (Hb' & Hi' & Hh' & Hg' & Hd').
  set (w2 := ke_wait (w_tick w) b w) in *.
  assert (forall x, delete b (<[b := x]> (w_bufs w2)) = w_bufs w) as Hdel by (intros x; rewrite Hb'; by apply delete_insert_id).
  destruct (ke_read_error (w_tick w) b) as [e|] eqn:Ee.
  - pose proof (ce_read He _ _ _ Ee) as Hne. rewrite (proj2 (Z.eqb_neq e 0)) by done. cbn [negb]. wp_steps.
    eapply wp_brelse; [apply lookup_insert_eq|]. apply wp_ret. apply Herr; [|done]. repeat split; try done. apply Hdel.
  - destruct (Hd' d Hd) as (d2 & Hd2 & Hlen2). cbn [w_dev upd_w_tick]. rewrite Hd2, Hlen2, Hlen, Z.eqb_refl. cbn [Z.eqb negb].
    wp_steps. eapply wp_dataptr; [apply lookup_insert_eq|].
    destruct (dinode_load_ok fs d2 (slot_off ino)) as (ei & Hei); [done|lia|].
    wp_steps. eapply wp_lift; [exact Hei|]. wp_steps. eapply wp_brelse; [apply lookup_insert_eq|]. apply wp_ret.
    apply (Hok _ (w_tick w) w d2); try done. repeat split; try done. apply Hdel.
Qed.

Lemma fill_inode_number ino ei i : fill_inode fs ino ei = Ok i -> i_number i = ino.
Proof. unfold fill_inode, zero_unused. repeat case_match; try done; by intros [= <-]. Qed.

Lemma set_gen_wp (Q : inode -> world -> Prop) w i :
  (forall n g f, Q (upd_i_gen g (upd_i_flag f i)) (upd_w_tick n w)) -> wp (set_gen mnt_rdonly i) Q w.
Proof.
  intros HQ. unfold set_gen. case_match; [|apply wp_ret; specialize (HQ (fun n => n) (fun g => g) (fun f => f)); by destruct i, w].
  wp_steps. unfold wp at 1, read_random. apply wp_ret. destruct mnt_rdonly; [|exact (HQ S (fun _ => u32 (u32 (ke_random (w_tick w)) + 1)) (fun f => Z.lor f IN_MODIFIED))].
  specialize (HQ S (fun _ => u32 (u32 (ke_random (w_tick w)) + 1)) (fun f => f)). by destruct i.
Qed.

(** ** The hash after an inode was added *)

Lemma hash_ok_fresh h C ip i : hash_ok h C -> ~ is_hashed h ip -> le_prev i = None ->
  hash_ok (upd_ih_inodes (insert ip i) h) C.
Proof.
  intros Hok Hn Hp. assert (forall b, ip ∉ C b) as Hout by (intros b Hin; apply Hn; by eapply chain_hashed).
  destruct (hk_tbl _ _ Hok) as (t & Ht & Hlen & Hseg). constructor; [apply Hok|apply Hok| |apply Hok| |].
  - exists t. split; [done|]. split; [done|]. intros b p Hb. eapply seg_frame; [apply same_links_insert, Hout|by apply Hseg].
  - intros b q Hq. destruct (hk_chain _ _ Hok _ _ Hq) as (j & Hj & ->). exists j. split; [|done].
    cbn. rewrite lookup_insert_ne; [done|]. intros ->. by apply (Hout (chain_of h j)).
  - intros q j Hj [l Hl]. cbn in Hj. apply lookup_insert_Some in Hj as [[<- <-]|[Hne Hj]]; [congruence|].
    apply (hk_hashed _ _ Hok q j Hj). by exists l.
Qed.

Lemma hashed_fresh h ip i q : ~ is_hashed h ip -> le_prev i = None -> is_hashed (upd_ih_inodes (insert ip i) h) q <-> is_hashed h q.
Proof.
  intros Hn Hp. unfold is_hashed. cbn. split.
  - intros (j & Hj & Hs). apply lookup_insert_Some in Hj as [[<- <-]|[Hne Hj]]; [rewrite Hp in Hs; by destruct Hs|by exists j].
  - intros (j & Hj & Hs). exists j. split; [|done]. rewrite lookup_insert_ne; [done|]. intros ->. apply Hn. by exists j.
Qed.

Lemma publish_wp (Q : unit -> world -> Prop) w ino i : core_env -> incore w -> w_inodes w !! ino = None -> i_number i = ino ->
  (forall w', incore w' -> w_inodes w' = <[ino := i]> (w_inodes w) -> w_bufs w' = w_bufs w -> w_gd w' = w_gd w -> Q tt w') ->
  wp (publish ump ino i) Q w.
Proof.
  intros He Hw Hnone Hnum HQ. destruct (ic_hash _ Hw) as [C Hok]. unfold publish. wp_steps. unfold wp at 1, vnode_vid.
  wp_steps. apply wp_on_hash. wp_steps. apply wp_on_hash. cbn [w_hash upd_w_hash upd_w_inodes upd_w_tick].
  assert (~ is_hashed (w_hash w) ino) as Hn by (intros Hh%(ic_hashed _ Hw); rewrite Hnone in Hh; by destruct Hh).
  set (x := mk_hinode ino ump (Some ino) _ None None). set (h1 := upd_ih_inodes (insert ino x) (w_hash w)).
  eapply wp_mono; [apply (ihashins_wp (core_hash_env He) h1 C ino x); [by apply core_alone|by apply hash_ok_fresh|apply Hw|apply lookup_insert_eq|done]|].
  intros [] h2 (Hok2 & Hm2 & Hk2 & Hset). rewrite (ce_sched He) in Hk2, Hset. cbn [abs_op] in Hset.
  apply HQ; [|done..].
  assert (forall q, is_hashed h2 q <-> is_hashed (w_hash w) q \/ q = ino) as Hset'
    by (intros q; by rewrite Hset; unfold h1; rewrite (hashed_fresh _ _ x)).
  constructor; cbn [w_hash w_inodes upd_w_hash upd_w_inodes upd_w_tick].
  - done.
  - done.
  - intros ip j Hj. apply lookup_insert_Some in Hj as [[<- <-]|[_ Hj]]; [done|by apply (ic_number _ Hw)].
  - intros ip. rewrite Hset', (ic_hashed _ Hw). destruct (decide (ip = ino)) as [->|Hne].
    + rewrite lookup_insert_eq. split; [by eexists|by right].
    + rewrite lookup_insert_ne by done. split; [by intros [?|?]|by left].
  - intros ip Hh. rewrite Hk2. unfold h1. cbn. destruct (decide (ip = ino)) as [->|Hne].
    + rewrite lookup_insert_eq. by eexists.
    + rewrite lookup_insert_ne by done. apply (ic_key _ Hw). apply Hset' in Hh as [?|?]; done.
Qed.

(** ** ext2_vget_typed *)

(** What a call returns: an errno, with nothing changed; the inode that was in
    memory; or one made from its slot of the inode table. *)
Definition vget_post (w : world) (ino : Z) (gd : ext2_gd) (r : Z * option Z) (w' : world) : Prop :=
  incore w' /\ w_bufs w' = w_bufs w /\ w_gd w' = w_gd w /\
  match r with
  | (e, None) => e <> 0 /\ w_inodes w !! ino = None /\ w_inodes w' = w_inodes w
  | (e, Some vp) => e = 0 /\ vp = ino /\
      if decide (is_Some (w_inodes w !! ino)) then w_inodes w' = w_inodes w
      else exists n w1 d ei i g f, w_dev w1 = w_dev w /\
        w_dev (ke_wait n (slot_block gd ino) w1) !! slot_block gd ino = Some d /\
        dinode_load fs d (slot_off ino) = Ok ei /\ fill_inode fs ino ei = Ok i /\
        w_inodes w' = <[ino := upd_i_gen g (upd_i_flag f i)]> (w_inodes w)
  end.

Lemma vget_typed_wp w ino vmode gd : core_env -> incore w -> (forall w1, w_dev w1 = w_dev w -> w_gd w1 = w_gd w -> w_bufs w1 = w_bufs w -> slot_ready w1 ino gd) ->
  wp (ext2_vget_typed fs ump mnt_rdonly restarts ino vmode) (vget_post w ino gd) w.
Proof.
  intros He Hw Hready. unfold ext2_vget_typed. wp_steps. apply get_wp; [done..|]. intros w1 Hw1 Hs1 Hi1 Hb1 Hg1 Hd1.
  cbn [Z.eqb negb]. case_decide as Hin.
  { wp_steps. unfold wp at 1, vnode_ref. apply wp_ret. split; [|by rewrite decide_True].
    apply (incore_same w1); [done|by repeat split|done|apply Hw1]. }
  assert (w_inodes w !! ino = None) as Hnone by by apply eq_None_not_Some.
  assert (forall w' e, incore w' -> same_core w1 w' -> e <> 0 -> vget_post w ino gd (e, None) w') as Hfail.
  { intros w' e Hc (Hi & _ & Hb & Hg) Hne. split; [done|]. split; [by rewrite Hb|]. split; [by rewrite Hg|]. split; [done|]. split; [done|by rewrite Hi]. }
  assert (forall w', same_core w1 w' -> incore w') as Hcore.
  { intros w' (Hi & Hh & _). apply (incore_same w1); [done| |done|]; rewrite Hh; [by repeat split|apply Hw1]. }
  assert (forall n, same_core w1 (upd_w_tick n w1)) as Htick by by repeat split.
  wp_steps. unfold wp at 1, malloc_null. case_match; [apply wp_ret; apply Hfail; [apply Hcore| |]; done|].
  wp_steps. unfold wp at 1, lock_null. case_match; [apply wp_ret; apply Hfail; [apply Hcore| |]; done|].
  wp_steps. eapply read_slot_wp; [done|apply (Hready _); done|..].
  { intros w' e Hc Hne. apply wp_ret. by apply Hfail; [apply Hcore| |]. }
  intros w2 n wr d ei Hc2 Hdr Hdd Hei.
  assert (is_ok (fill_inode fs ino ei)) as [i Hfi].
  { eapply (sl_fill w1 ino gd); [by apply Hready| |exact Hdd|exact Hei]. exact Hdr. }
  wp_steps. eapply wp_lift; [exact Hfi|]. wp_steps. apply set_gen_wp. intros k g f. wp_steps. unfold wp at 1, vnode_create.
  pose proof Hc2 as (Hi2 & Hh2 & Hb2 & Hg2). cbn in Hi2, Hb2, Hg2.
  match goal with |- context [ve_create ?a ?b] => destruct (Z.eqb_spec (ve_create a b) 0) as [Hz|Hz] end; cbn [negb].
  2:{ apply wp_ret. apply Hfail; [apply Hcore|..|done]; done. }
  wp_steps. unfold wp at 1, vnode_ref. wp_steps. apply publish_wp; [done|by apply Hcore|cbn; by rewrite Hi2, Hi1|by apply (fill_inode_number _ _ _ Hfi)|].
  intros w3 Hw3 Hi3 Hb3 Hg3. apply wp_ret. split; [done|]. split; [rewrite Hb3; cbn; by rewrite Hb2|]. split; [rewrite Hg3; cbn; by rewrite Hg2|].
  split; [done|]. split; [done|]. rewrite decide_False by done.
  exists n, wr, d, ei, i, g, f. split; [by rewrite Hdr|]. split; [done|]. split; [done|]. split; [done|]. rewrite Hi3. cbn. by rewrite Hi2, Hi1.
Qed.

(** While no other thread makes or drops inodes, asking for one never makes a
    second copy of it and never leaves the hash and the in-core inodes apart: the
    call returns the inode that is in memory, or the one its slot of the inode
    table holds, which is then in memory and in the hash, or an errno, and then
    nothing changed. No buffer is kept. *)
Theorem vget_incore w ino vmode gd : core_env -> incore w ->
  (forall w1, w_dev w1 = w_dev w -> w_gd w1 = w_gd w -> w_bufs w1 = w_bufs w -> slot_ready w1 ino gd) ->
  wp (ext2_vget_typed fs ump mnt_rdonly restarts ino vmode) (vget_post w ino gd) w.
Proof. apply vget_typed_wp. Qed.

(** ** Giving an inode back *)

Lemma incore_update w w' ip i i' : incore w -> w_inodes w !! ip = Some i -> i_number i' = i_number i ->
  w_inodes w' = <[ip := i']> (w_inodes w) -> w_hash w' = w_hash w -> incore w'.
Proof.
  intros Hw Hi Hnum Hi' Hh. constructor; rewrite ?Hh, ?Hi'; try apply Hw.
  - intros q j Hj. apply lookup_insert_Some in Hj as [[<- <-]|[_ Hj]]; [rewrite Hnum|]; by apply (ic_number _ Hw).
  - intros q. rewrite (ic_hashed _ Hw). destruct (decide (q = ip)) as [->|]; [by rewrite Hi, lookup_insert_eq|by rewrite lookup_insert_ne].
Qed.

Lemma itimes_of_number isdev ip ts i : i_number (itimes_of mnt_rdonly isdev ip ts i) = i_number i.
Proof. unfold itimes_of, touch_times. repeat case_match; done. Qed.

Section reclaim.
Context (ronly async : bool) (vnode_isdev : Z -> bool) (vnode_removefsref vnode_clearfsnode : Z -> M world unit).

(** The vnode layer forgets the vnode; nothing of the file system changes. *)
Hypothesis (Hrem : forall ip w, vnode_removefsref ip w = Ok (tt, w)) (Hclear : forall ip w, vnode_clearfsnode ip w = Ok (tt, w)).
Hypothesis (Hwrite : forall n b e, ke_write_error n b = Some e -> e <> 0).

Lemma core_update_env b : core_env -> update_env b.
Proof.
  intros He. constructor; [|intros n e; apply (ce_read He)|intros n e; apply Hwrite].
  intros n w. destruct (ce_wait He n b w) as (? & ? & ? & ? & ?). done.
Qed.

(** What is left to do once the inode has been written. *)
Lemma forget_wp w ip (Q : Z -> world -> Prop) : core_env -> incore w -> is_Some (w_inodes w !! ip) ->
  (forall w', incore w' -> w_inodes w' = delete ip (w_inodes w) -> w_bufs w' = w_bufs w -> w_dev w' = w_dev w -> Q 0 w') ->
  wp (on_hash (ext2_ihashrem ip);; vnode_removefsref ip;; vnode_clearfsnode ip;;
      modify (upd_w_inodes (delete ip));; on_hash (modify (upd_ih_inodes (delete ip)));; mret 0) Q w.
Proof using Hrem Hclear.
  intros He Hw Hin HQ. destruct (ic_hash _ Hw) as [C Hok]. apply (ic_hashed _ Hw) in Hin as Hh. destruct Hh as (x & Hx & _).
  wp_steps. apply wp_on_hash. eapply wp_mono; [apply (ihashrem_wp (core_hash_env He) (w_hash w) C ip x); [by apply core_alone|done|apply Hw|done]|].
  intros [] h2 (Hok2 & Hm2 & Hk2 & Hset). rewrite (ce_sched He) in Hk2, Hset. cbn [abs_op] in Hset.
  wp_steps. unfold wp at 1. rewrite Hrem. wp_steps. unfold wp at 1. rewrite Hclear. wp_steps. apply wp_on_hash. wp_steps.
  assert (~ is_hashed h2 ip) as Hout by (intros Hc; by apply Hset in Hc as [_ ?]).
  assert (forall q, is_hashed (upd_ih_inodes (delete ip) h2) q <-> is_hashed h2 q) as Hdel.
  { intros q. unfold is_hashed. cbn. destruct (decide (q = ip)) as [->|Hne].
    - rewrite lookup_delete_eq. split; [by intros (? & ? & _)|]. intros Hc. by destruct Hout.
    - by rewrite lookup_delete_ne. }
  apply HQ; [|done..]. constructor; cbn [w_hash w_inodes upd_w_hash upd_w_inodes].
  - destruct Hok2 as [C2 Hok2]. exists C2. destruct (hk_tbl _ _ Hok2) as (t & Ht & Hlen & Hseg).
    assert (forall b, ip ∉ C2 b) as Hno by (intros b Hb; apply Hout; by eapply chain_hashed).
    constructor; [apply Hok2|apply Hok2| |apply Hok2| |].
    + exists t. split; [done|]. split; [done|]. intros b p Hb. eapply seg_frame; [|by apply Hseg].
      intros q Hq. cbn. rewrite lookup_delete_ne; [done|]. intros ->. by apply (Hno b).
    + intros b q Hq. destruct (hk_chain _ _ Hok2 _ _ Hq) as (j & Hj & ->). exists j. split; [|done]. cbn.
      rewrite lookup_delete_ne; [done|]. intros ->. by apply (Hno (chain_of h2 j)).
    + intros q j Hj Hs. cbn in Hj. apply lookup_delete_Some in Hj as [_ Hj]. by apply (hk_hashed _ _ Hok2).
  - done.
  - intros q j Hj. apply lookup_delete_Some in Hj as [_ Hj]. by apply (ic_number _ Hw).
  - intros q. rewrite Hdel, Hset, (ic_hashed _ Hw). destruct (decide (q = ip)) as [->|Hne].
    + rewrite lookup_delete_eq. split; [by intros [_ ?]|by intros [? ?]].
    + rewrite lookup_delete_ne by done. split; [by intros [? _]|by split].
  - intros q Hq. apply Hdel, Hset in Hq as [Hq Hne]. cbn. rewrite lookup_delete_ne, Hk2 by done. by apply (ic_key _ Hw).
Qed.

(** [ext2_reclaim] takes an inode out of memory and out of the hash
    together, whether or not it had to be written and whether or not the write
    failed; it always returns 0. *)
Theorem reclaim_incore w ip gd : core_env -> incore w ->
  (forall i, w_inodes w !! ip = Some i -> length (i_db i) = 12%nat /\ length (i_ib i) = 3%nat) -> slot_ready w ip gd ->
  wp (ext2_reclaim fs ronly mnt_rdonly async vnode_isdev vnode_removefsref vnode_clearfsnode ip)
    (fun r w' => r = 0 /\ incore w' /\ w_inodes w' = delete ip (w_inodes w) /\ w_bufs w' = w_bufs w) w.
Proof using Hrem Hclear Hwrite.
  intros He Hw Hlen Hslot. unfold ext2_reclaim. wp_steps. destruct (w_inodes w !! ip) as [i|] eqn:Hi.
  2:{ apply wp_ret. split; [done|]. split; [done|]. split; [by rewrite delete_id|done]. }
  apply wp_bind. pose proof (ic_number _ Hw _ _ Hi) as Hnum.
  assert (forall w1 i1, w_bufs w1 = w_bufs w -> incore w1 -> w_inodes w1 = <[ip := i1]> (w_inodes w) ->
    wp (on_hash (ext2_ihashrem ip);; vnode_removefsref ip;; vnode_clearfsnode ip;;
      modify (upd_w_inodes (delete ip));; on_hash (modify (upd_ih_inodes (delete ip)));; mret 0)
      (fun r w' => r = 0 /\ incore w' /\ w_inodes w' = delete ip (w_inodes w) /\ w_bufs w' = w_bufs w) w1) as Hrest.
  { intros w1 i1 Hb1 Hw1 Hi1. apply forget_wp; [done|done|rewrite Hi1, lookup_insert_eq; by eexists|].
    intros w' Hw' Hi' Hb' _. split; [done|]. split; [done|]. rewrite Hi', Hi1, delete_insert_eq. split; [done|congruence]. }
  case_match.
  - wp_steps. eapply wp_upd_inode; [exact Hi|]. set (j := or_flag IN_MODIFIED i). set (w1 := upd_w_inodes _ w).
    assert (incore w1) as Hw1 by by apply (incore_update w w1 ip i j).
    destruct Hslot as [Hgd Hfree (d & Hd & Hdl) [H0 Hend] _]. destruct (Hlen _ eq_refl) as [Hl1 Hl2]. rewrite <- Hnum in Hgd, Hfree, Hd, H0, Hend.
    wp_steps. eapply wp_mono.
    { apply (update_wp fs ronly mnt_rdonly async vnode_isdev ip false w1 j gd d); try done; [apply lookup_insert_eq|by apply core_update_env]. }
    intros r w2 (ts & Hb2 & Hh2 & Hr). apply wp_ret.
    assert (exists i2, i_number i2 = ip /\ w_inodes w2 = <[ip := i2]> (w_inodes w)) as (i2 & Hn2 & Hi2).
    { case_match; [destruct Hr as (_ & Hi2 & _)|destruct Hr as (Hi2 & _)]; rewrite Hi2; unfold w1; cbn; rewrite insert_insert_eq;
        (eexists; split; [|reflexivity]); cbn; by rewrite itimes_of_number. }
    eapply (Hrest w2 i2); [by rewrite Hb2| |done].
    apply (incore_update w w2 ip i i2); [done|done|congruence|done|by rewrite Hh2].
  - apply wp_ret. apply (Hrest w i); [done|done|by rewrite insert_id].
Qed.
End reclaim.
End vget.
