(* ===== verification/VgetExamples.v ===== *)
(** An inode read from the volume of AllocExamples.v and given back: the
    theorems of VgetSpec.v apply to it. *)
From stdpp Require Import gmap.
From S2P Require Import Prelude Bitmap Bytes Super SuperExamples Ihash IhashSpec Kernel InodeCnv Cluster Alloc AllocSpec AllocExamples Extents Bmap Balloc BallocSpec Dir Inode UpdateSpec Vget VgetSpec Mount MountExamples.
From stdpp Require Import list.
#[local] Open Scope Z_scope.

#[local] Existing Instance env_quiet | 0.
Definition hash_quiet : HashEnv := mk_hash_env 64 false false (fun _ _ _ => 0) (fun _ h => h).
#[local] Existing Instance hash_quiet | 0.
Definition vnodes_quiet : VnodeEnv :=
  mk_vnode_env (fun _ => false) (fun _ => false) (fun _ _ => 0) (fun n _ => Z.of_nat n) (fun _ => VREG).
#[local] Existing Instance vnodes_quiet | 0.

(** Inode 2, a file of one block, in its slot of block 10; a second pointer was
    left behind the end of the file. *)
Definition file2 : inode :=
  upd_i_size (fun _ => 700) (upd_i_gen (fun _ => 9) (upd_i_nlink (fun _ => 1) (upd_i_mode (fun _ => IFREG)
    (upd_i_db (fun _ => [7; 5] ++ replicate 10 0) (inode_zero 2))))).
Definition block10 : list Z :=
  match (ei ← dinode_load fs0 (replicate 1024 0) 128; dinode_store fs0 (replicate 1024 0) 128 (ext2_i2ei fs0 file2 ei)) with
  | Ok d => d
  | Fault _ => []
  end.
Definition hash_empty : ihash := mk_ihash (Some (replicate 4 None)) 3 (Some false) ∅ 0.
Definition world12 : world :=
  mk_world 20 13 0 1 gds0 [0; 0] [32; 32] [csum0; csum0] (<[10 := block10]> dev0) ∅ ∅ false ∅ 0 ∅ ∅ hash_empty ∅.
Definition ump0 : Z := 4096.
Definition gd12 : ext2_gd := mk_gd 3 4 5 8 5 1 0 0 0 0 0 0.

Lemma core_quiet : core_env.
Proof. constructor; try done. intros n b w. repeat split. intros d Hd. by exists d. Qed.

Lemma incore12 : incore ump0 world12.
Proof.
  assert (forall ip, ~ is_hashed (w_hash world12) ip) as Hno by by intros ip (i & Hi & _).
  constructor; [|done|done|..].
  - exists (fun _ => []). constructor; [by eexists|done| |by intros; apply NoDup_nil_2|by intros b ip ?%elem_of_nil|done].
    exists (replicate 4 None). split; [done|]. split; [done|]. intros b p [_ Hp]%zlookup_Some_inv. by apply lookup_replicate in Hp as [-> _].
  - intros ip. split; [by intros ?%Hno|by intros [? ?]].
  - by intros ip ?%Hno.
Qed.

Lemma slot12 w1 : w_dev w1 = w_dev world12 -> w_gd w1 = w_gd world12 -> w_bufs w1 = w_bufs world12 -> slot_ready fs0 w1 2 gd12.
Proof.
  intros Hd Hg Hb. assert (slot_block fs0 gd12 2 = 10) as Hs by (vm_compute; reflexivity). constructor; rewrite ?Hs.
  - rewrite Hg. vm_compute. reflexivity.
  - by rewrite Hb.
  - exists block10. rewrite Hd. split; vm_compute; reflexivity.
  - vm_compute. by split.
  - intros n w2 d ei Hw2 Hd2 Hei. cbn in Hd2. rewrite Hw2, Hd in Hd2. vm_compute in Hd2. injection Hd2 as <-. vm_compute in Hei. injection Hei as <-.
    eexists. vm_compute. reflexivity.
Qed.

(** The first call reads the inode, the second one finds it. *)
Definition vget12 : M world (Z * option Z) := ext2_vget fs0 ump0 false 3 2.
Definition world_after {A} (m : M world A) (w : world) : world := match m w with Ok (_, w') => w' | Fault _ => w end.
Lemma wp_world_after {A} (m : M world A) (Q : A -> world -> Prop) w : wp m Q w -> exists a, Q a (world_after m w).
Proof. unfold wp, world_after. destruct (m w) as [[a w']|]; [by exists a|done]. Qed.
Definition world13 : world := world_after vget12 world12.
Example vget_reads : (fun r => (fst r, i_db <$> w_inodes (snd r) !! 2)) <$> match vget12 world12 with Ok x => Some x | _ => None end =
  Some ((0, Some 2), Some ([7] ++ replicate 11 0)).
Proof. vm_compute. reflexivity. Qed.
Example vget_finds : fst <$> match vget12 world13 with Ok x => Some x | _ => None end = Some (0, Some 2).
Proof. vm_compute. reflexivity. Qed.

Lemma vget_incore_witness : (core_env /\ incore ump0 world12) /\
  wp (ext2_vget_typed fs0 ump0 false 3 2 0) (vget_post fs0 ump0 world12 2 gd12) world12.
Proof.
  split; [split; [apply core_quiet|apply incore12]|].
  apply (vget_incore fs0 ump0 false 3 world12 2 0 gd12); [apply core_quiet|apply incore12|apply slot12].
Defined.

Lemma vget12_run : exists r, vget_post fs0 ump0 world12 2 gd12 r world13.
Proof. apply wp_world_after. unfold vget12, ext2_vget. apply vget_typed_wp; [apply core_quiet|apply incore12|apply slot12]. Qed.

Lemma incore13 : incore ump0 world13.
Proof. destruct vget12_run as [r Hr]. apply Hr. Qed.

(** The inode with a lazy change, to be written before it goes. *)
Definition world14 : world := upd_w_inodes (alter (or_flag IN_LAZYMOD) 2) world13.

Lemma incore_flag w ip m : incore ump0 w -> incore ump0 (upd_w_inodes (alter (or_flag m) ip) w).
Proof.
  intros Hw. destruct (w_inodes w !! ip) as [i|] eqn:Hi.
  - apply (incore_update ump0 w _ ip i (or_flag m i)); try done. cbn. apply map_eq. intros q. destruct (decide (q = ip)) as [->|].
    + by rewrite lookup_alter_eq, Hi, lookup_insert_eq.
    + by rewrite lookup_alter_ne, lookup_insert_ne.
  - assert (upd_w_inodes (alter (or_flag m) ip) w = w) as -> by (destruct w; unfold upd_w_inodes; cbn in *; f_equal; apply map_eq; intros q; destruct (decide (q = ip)) as [->|]; [by rewrite lookup_alter_eq, Hi|by rewrite lookup_alter_ne]).
    done.
Qed.

Lemma incore14 : incore ump0 world14.
Proof. apply incore_flag, incore13. Qed.

Lemma reclaim_incore_witness : (core_env /\ incore ump0 world14 /\ fmap i_flag (w_inodes world14 !! 2) = Some IN_LAZYMOD) /\
  wp (ext2_reclaim fs0 false false false (fun _ => false) (fun _ => mret tt) (fun _ => mret tt) 2)
    (fun r w' => r = 0 /\ incore ump0 w' /\ w_inodes w' = delete 2 (w_inodes world14) /\ w_bufs w' = w_bufs world14) world14.
Proof.
  assert (forall i, w_inodes world14 !! 2 = Some i -> length (i_db i) = 12%nat /\ length (i_ib i) = 3%nat) as Hlen
    by (intros i; vm_compute; intros [= <-]; by split).
  split; [split; [apply core_quiet|split; [apply incore14|vm_compute; reflexivity]]|].
  apply (reclaim_incore fs0 ump0 false false false (fun _ => false) (fun _ => mret tt) (fun _ => mret tt)) with (gd := gd12);
    [reflexivity|reflexivity|discriminate|apply core_quiet|apply incore14|exact Hlen|apply slot12; vm_compute; reflexivity].
Defined.
