(* ===== verification/VnopsExamples.v ===== *)
(** Two directories and a file on the volume of AllocExamples.v: the theorems of
    VnopsSpec.v apply to them, and a rename runs into its panic. *)
From stdpp Require Import gmap.
From S2P Require Import Prelude Bitmap Bytes Super SuperExamples Ihash Kernel InodeCnv Cluster Alloc AllocSpec AllocExamples Extents Frame Bmap Balloc Dir DirSpec DirSearch DirOps DirExamples Inode Vget Vnops FrameOps Mount MountExamples UpdateSpec VnopsSpec VgetExamples.
From stdpp Require Import list.
#[local] Open Scope Z_scope.

#[local] Existing Instance env_quiet | 0.
#[local] Existing Instance hash_quiet | 0.
#[local] Existing Instance vnodes_quiet | 0.

(** Inode 12 is the file "a" of directory 11; directory 13 has the same entries,
    and room for a new one behind the last. *)
Definition file12 : inode :=
  mk_inode 0 12 3 0 0 0 0 0 0 0 0x81A4 1 0 0 5 2 0 0 0 0 0 0 0 0 9 0 (101 :: replicate 11 0) [0; 0; 0] 0 0 0 0.
Definition dir13 : inode := upd_i_diroff (fun _ => 0) (mk_inode 0 13 2 988 1024 0 36 0 0 0 0x41ED 2 0 0 1024 2 0 0 0 0 0 0 0 0 9 0
    (102 :: replicate 11 0) [0; 0; 0] 0 0 0 0).
Definition world20 : world :=
  upd_w_iocount (fun _ => {[11 := 1; 12 := 1; 13 := 1]})
    (upd_w_dev (<[42 := replicate 1024 0]>)
      (upd_w_fdata (fun _ => {[(11, 0) := dirblk1; (13, 0) := dirblk1]})
        (upd_w_inodes (fun _ => {[11 := dirnode 24 12 0; 12 := file12; 13 := dir13]}) (world0 false)))).

Definition vtype0 (vp : Z) : vtype := if vp =? 12 then VREG else VDIR.
Definition no_ubc (_ _ : Z) : M world unit := mret tt.
Definition no_inval20 (_ : Z) : M world Z := mret 0.
Definition no_mark (_ : Z) : M world unit := mret tt.
Definition no_setsize (_ : bufref) (_ : Z) : M world unit := mret tt.
Definition no_write (_ : Z) (_ : list Z) (_ : Z) : M world Z := mret EIO.
Definition no_read (_ _ _ : Z) : M world (list Z + Z) := mret (inr EIO).
Definition stale0 : list Z := [0; 0; 0].

Definition rename20 : M world Z :=
  ext2_rename fs0 MAXPHYS0 4096 1024 0 0 false false false 3 8 vtype0 (fun _ => 0) no_ubc no_inval20 no_mark no_setsize no_write no_read stale0
    12 11 13 None (name_of "a") (name_of "b") false.

(** Everything works until the old entry is gone; then the count on directory
    11 is released for the second time. *)
Example rename_run : rename20 world20 = Fault (Panic "vnode_put").
Proof. vm_compute. reflexivity. Qed.

Lemma quiet_within vp : env_within (count_frame vp).
Proof. constructor; intros; unfold count_frame; cbn; reflexivity. Qed.

Lemma rename_file_panics_witness : (iocount world20 11 = 1 /\ w_inodes world20 !! 12 = Some file12) /\
  forall w', rename20 world20 <> Ok (0, w').
Proof.
  split; [split; vm_compute; reflexivity|].
  apply (rename_file_panics fs0 MAXPHYS0 4096 1024 0 0 false false false 3 8 vtype0 (fun _ => 0) no_ubc no_inval20 no_mark no_setsize
    no_write no_read stale0 11 (quiet_within 11)); try (intros; by apply framed_ret; try apply _).
  - vm_compute. reflexivity.
  - discriminate.
  - intros i Hi. assert (w_inodes world20 !! 12 = Some file12) as E by (vm_compute; reflexivity). rewrite E in Hi. injection Hi as <-. vm_compute. discriminate.
Defined.

Lemma setattr_rdonly_witness : (vtype0 12 ∈ [VREG; VDIR; VLNK]) /\
  let vap := mk_vattr None (Some 5) None None None None None (Some 511) in
  exists e, ext2_setattr fs0 MAXPHYS0 0 0 true true false vtype0 no_ubc no_inval20 no_mark no_setsize 12 vap world20 = Ok ((e, []), world20) /\
    (e = 0 -> vap = no_change /\ flagged (Z.lor IMMUTABLE APPEND) file12 = false).
Proof.
  assert (vtype0 12 ∈ [VREG; VDIR; VLNK]) as Ht by (change (vtype0 12) with VREG; left). split; [exact Ht|]. cbv zeta.
  apply (setattr_rdonly fs0 MAXPHYS0 0 0 true true false vtype0 no_ubc no_inval20 no_mark no_setsize 12 _ world20 file12);
    [reflexivity|vm_compute; reflexivity|exact Ht].
Defined.

(** A short link made in directory 13: the whole of [ext2_symlink] runs, from
    the inode allocated to the name entered. *)
Definition world21 : world := upd_w_hash (fun _ => hash_empty) (upd_w_tick (fun _ => 50%nat) world20).
Definition make21 : M world (Z * option Z) :=
  ext2_makeinode fs0 MAXPHYS0 4096 1024 0 0 false false false 3 vtype0 no_ubc no_inval20 no_mark no_setsize no_write stale0 (fun _ => (0, true))
    (Z.lor IFLNK 511) 13 (name_of "ln").
Definition symlink21 : M world (Z * option Z) :=
  ext2_symlink fs0 MAXPHYS0 4096 1024 0 0 false false false 3 vtype0 no_ubc no_inval20 no_mark no_setsize no_write stale0 (fun _ => (0, true))
    511 13 (name_of "ln") (name_of "../b").
Definition readlink21 : Z -> M world (Z * list Z) := ext2_readlink no_read (fun _ => mret 0).
Definition new21 : Z := match make21 world21 with Ok ((_, Some vp), _) => vp | _ => 0 end.
Definition inode21 : inode := match make21 world21 with Ok ((_, Some vp), w) => default file12 (w_inodes w !! vp) | _ => file12 end.

Lemma make21_run : exists w1, make21 world21 = Ok ((0, Some new21), w1) /\ w_inodes w1 !! new21 = Some inode21.
Proof.
  assert (match make21 world21 with Ok ((e, Some vp), w) => bool_decide (e = 0) && bool_decide (is_Some (w_inodes w !! vp)) | _ => false end = true) as H
    by (vm_compute; reflexivity).
  unfold new21, inode21. destruct (make21 world21) as [[[e [vp|]] w]|]; [|discriminate H|discriminate H].
  apply andb_prop in H as [->%bool_decide_eq_true H]. apply bool_decide_eq_true in H as [i Hi]. exists w. by rewrite Hi.
Qed.

Lemma symlink_readlink_witness : exists w2, symlink21 world21 = Ok ((0, Some new21), w2) /\
  readlink21 new21 w2 = (e ← (mret 0 : M world Z); mret (e, name_of "../b")) w2 /\
  forall ino ei, exists j, fill_inode fs0 ino (ext2_i2ei fs0 (linked (name_of "../b") inode21) ei) = Ok j /\
    forall vp' w', w_inodes w' !! vp' = Some j -> readlink21 vp' w' = (e ← (mret 0 : M world Z); mret (e, name_of "../b")) w'.
Proof.
  pose proof (symlink_readlink fs0 MAXPHYS0 4096 1024 0 0 false false false 3 vtype0 no_ubc no_inval20 no_mark no_setsize no_write no_read stale0
    (fun _ => (0, true)) (fun _ => mret 0) 511 13 (name_of "ln") (name_of "../b") world21) as H.
  assert (zlen (name_of "../b") < EXT2_MAXSYMLINKLEN) as Hlen by (vm_compute; reflexivity).
  assert (bytes_ok (name_of "../b")) as Hok
    by (change (name_of "../b") with [46; 46; 47; 98]; repeat first [apply Forall_nil_2 | apply Forall_cons_2; [unfold u8_ok; lia|]]).
  specialize (H Hlen Hok). change (ext2_makeinode _ _ _ _ _ _ _ _ _ _ _ _ _ _ _ _ _ _ _ _ _) with make21 in H.
  destruct make21_run as (w1 & Hrun & Hi). rewrite Hrun in H. destruct H as [[H _]|(_ & vp & Hvp & H)]; [by destruct H|].
  apply (inj Some) in Hvp. destruct Hvp. destruct (H inode21 Hi) as (w2 & Hs & _ & Hr & Hdisk); [vm_compute; reflexivity|vm_compute; reflexivity|].
  exists w2. split; [exact Hs|]. split; [exact Hr|]. apply Hdisk; [vm_compute; reflexivity|vm_compute; split; reflexivity].
Defined.

Lemma dir_env20 ip : dir_env ip.
Proof. constructor; done. Qed.

Lemma dir_data20 ip d : w_inodes world20 !! ip = Some d -> i_size d = 1024 -> has_feature (i_flag d) IN_E4EXTENTS = false ->
  w_fdata world20 !! (ip, 0) = Some dirblk1 -> dir_data fs0 ip 1 dents1 world20.
Proof.
  intros Hd Hs Hf Hb. constructor; [lia|vm_compute; reflexivity|exists d; split_and!; [done|by rewrite Hs|done]|].
  intros lbn Hl. assert (lbn = 0) as -> by lia. exists dirblk1. split; [done|]. split; [vm_compute; reflexivity|apply dirblk1_ok].
Qed.

Lemma remove_spec_witness :
  remove_at fs0 1 dents1 (dirnode 24 12 0) 0 [de_dot; de_dotdot] de_a [de_bcd] /\
  wp (ext2_remove fs0 false 12 11) (fun e w' =>
    if flagged (Z.lor IMMUTABLE APPEND) file12 || flagged APPEND (dirnode 24 12 0) then e = EPERM /\ w' = world20
    else exists w1, changed_or_failed fs0 11 world20 w1 (dirnode 24 12 0) e 0
        (fun es => in_use es = in_use [de_dot; de_dotdot] ++ in_use [de_bcd]) /\
      w' = if e =? 0 then upd_w_inodes (insert 12 (or_flag IN_CHANGE (add_nlink (-1) file12))) w1 else w1) world20.
Proof.
  assert (remove_at fs0 1 dents1 (dirnode 24 12 0) 0 [de_dot; de_dotdot] de_a [de_bcd]) as Hr.
  { split; [lia|]. split; [reflexivity|]. split; [vm_compute; reflexivity|]. by exists [de_dot], de_dotdot. }
  split; [exact Hr|].
  apply (remove_spec fs0 false dir_geometry0 11 1 dents1 (dir_env20 11) world20 12 file12 (dirnode 24 12 0) 0 [de_dot; de_dotdot] de_a [de_bcd]);
    [apply (dir_data20 11 (dirnode 24 12 0)); vm_compute; reflexivity|by intros lbn|vm_compute; reflexivity|vm_compute; reflexivity|discriminate|exact Hr].
Defined.

Lemma slot20 : slot_at fs0 world20 file12.
Proof.
  constructor; [reflexivity|reflexivity| |vm_compute; split; discriminate].
  exists (mk_gd 19 20 21 12 8 0 0 0 0 0 0 0), (replicate 1024 0). split; [vm_compute; reflexivity|]. cbv zeta.
  assert (fsbtodb fs0 (ino_to_fsba fs0 (mk_gd 19 20 21 12 8 0 0 0 0 0 0 0) (i_number file12)) = 42) as -> by (vm_compute; reflexivity).
  split; [|split_and!; vm_compute; reflexivity]. constructor; [|done|done]. intros n w. repeat split. intros d Hd. by exists d.
Qed.

(** The new name goes behind the last entry of the only block of directory 13. *)
Definition link20 (inval : Z -> M world Z) (write : Z -> list Z -> Z -> M world Z) : M world Z :=
  ext2_link fs0 MAXPHYS0 1024 0 0 false false false vtype0 no_ubc inval no_mark no_setsize write stale0 12 13 (name_of "new").

Lemma room20 d : i_offset d = 36 -> i_count d = 988 -> room_at fs0 1 dents1 d (name_of "new") 0 [de_dot; de_dotdot; de_a] [de_bcd] [].
Proof. intros Ho Hc. constructor; [lia|reflexivity|discriminate|rewrite Ho; vm_compute; reflexivity|rewrite Hc; vm_compute; reflexivity|vm_compute; discriminate]. Qed.

Lemma link_spec_witness : (w_inodes world20 !! 12 = Some file12 /\ w_inodes world20 !! 13 = Some dir13 /\ long_tail dir13 = false) /\
  let s := in_block 0 [de_dot; de_dotdot; de_a] [de_bcd] [] in
  let link := link20 no_inval20 no_write in
  (exists e w', link world20 = Ok (e, w') /\ e <> 0 /\ dir_kept 13 world20 w' /\ counted w' 12 (i_nlink file12) /\
     not_linked fs0 false false false vtype0 world20 w' 12 file12 s e) \/
  (u16 (i_nlink file12) < EXT2_LINK_MAX /\ flagged (Z.lor IMMUTABLE APPEND) file12 = false /\
   exists w2, counted w2 12 (s16 (i_nlink file12 + 1)) /\
     (exists es, rewritten fs0 13 world20 w2 0 es /\
        in_use es = in_use [de_dot; de_dotdot; de_a] ++ in_use [de_bcd] ++ [(i_number file12, new_type fs0 (i_mode file12), name_of "new")] ++ in_use []) /\
     link world20 = Ok (0, w2)).
Proof.
  split; [split_and!; vm_compute; reflexivity|]. cbv zeta.
  destruct (link_spec fs0 MAXPHYS0 1024 0 0 false false false vtype0 no_ubc no_inval20 no_mark no_setsize no_write stale0 dir_geometry0 13 1 dents1 (dir_env20 13)
    world20 12 file12 dir13 (name_of "new") (in_block 0 [de_dot; de_dotdot; de_a] [de_bcd] [])) as [H|H];
    [constructor; intros; by constructor|done|vm_compute; discriminate|apply (dir_data20 13 dir13); vm_compute; reflexivity|by intros lbn
    |vm_compute; reflexivity|vm_compute; reflexivity|discriminate|apply slot20|vm_compute; reflexivity|vm_compute; split; [discriminate|reflexivity]|discriminate
    |vm_compute; reflexivity|by apply room20|by left|].
  right. destruct H as (Hn & Hf & w2 & Hc & Hes & Hrun). split; [exact Hn|]. split; [exact Hf|]. exists w2. split; [exact Hc|]. split; [exact Hes|exact Hrun].
Defined.

(** The count of file 12 after a link, and the first entry of [name] in a block of
    directory 13. *)
Definition links_of (m : M world Z) (w : world) : option (Z * option Z) :=
  match m w with Ok (e, w') => Some (e, i_nlink <$> w_inodes w' !! 12) | Fault _ => None end.
Definition holds_name (m : M world Z) (w : world) (lbn off : nat) (name : list Z) : option bool :=
  match m w with
  | Ok (_, w') => (fun blk => bool_decide (take (length name) (drop off blk) = name)) <$> w_fdata w' !! (13, Z.of_nat lbn)
  | Fault _ => None
  end.

Example link_run : links_of (link20 no_inval20 no_write) world20 = Some (0, Some 2) /\
  holds_name (link20 no_inval20 no_write) world20 0 56 (name_of "new") = Some true.
Proof. vm_compute. split; reflexivity. Qed.

(** A second block of the directory is unused. Cutting it off reports an error:
    the count is taken back, and the name stays. *)
Definition world22 : world := upd_w_inodes (alter (fun d => upd_i_endoff (fun _ => 1024) (upd_i_size (fun _ => 2048) d)) 13) world20.
Definition inval_fails (_ : Z) : M world Z := mret EIO.

Example link_cut_fails : links_of (link20 inval_fails no_write) world22 = Some (EIO, Some 1) /\
  holds_name (link20 inval_fails no_write) world22 0 56 (name_of "new") = Some true.
Proof. vm_compute. split; reflexivity. Qed.

(** No room in the block: the new block is written, and then the write reports
    an error, as a synchronous one does whose inode cannot be written. *)
Definition world23 : world := upd_w_inodes (alter (fun d => upd_i_offset (fun _ => 1024) (upd_i_count (fun _ => 0) d)) 13) world20.
Definition write_then_fail (ip : Z) (bytes : list Z) (off : Z) : M world Z :=
  modify (upd_w_fdata (insert (ip, off / 1024) bytes));; mret EIO.

Example link_append_fails : links_of (link20 no_inval20 write_then_fail) world23 = Some (EIO, Some 1) /\
  holds_name (link20 no_inval20 write_then_fail) world23 1 8 (name_of "new") = Some true.
Proof. vm_compute. split; reflexivity. Qed.
