(* ===== verification/TruncSpec.v ===== *)
(** Freeing the blocks of a file: [ext2_indirtrunc] gives back exactly the
    blocks that lie behind the last one to be kept.

    The blocks under an indirect block are listed with the index of the first
    block of data each leads to; a block is behind [lastbn] when that index is.
    Other threads are assumed to leave the device alone meanwhile, so that what
    is free afterwards can be told from what was free before. *)
From stdpp Require Import gmap.
From S2P Require Import Prelude Bitmap Bytes Super Ihash Kernel InodeCnv Cluster Alloc AllocSpec Extents Bmap BmapSpec Balloc BallocSpec Inode.
From stdpp Require Import list.
#[local] Open Scope Z_scope.

Section trunc.
Context `{KE : KernelEnv} (fs : m_ext2fs) (MAXPHYS : Z) (B I : Z -> Z).
Context (Hg : group_ok fs) (Hl : layout_ok fs B I) (He : env_ok fs MAXPHYS B I).
Context (Hmax : e2fs_bcount (m_e2fs fs) <= 2 ^ 31) (Hb4 : m_bsize fs mod 4 = 0).
Context (Hsched : forall n w, vol_ok fs MAXPHYS B I w -> w_dev (ke_sched n w) = w_dev w).
Context (Hwait : forall n b w, vol_ok fs MAXPHYS B I w -> w_dev (ke_wait n b w) = w_dev w).
Context (Hread : forall n b, ke_read_error n b = None).
Context (async : bool) (buf_markinvalid : Z -> M world unit).
Context (Hinval : forall b w d, w_bufs w !! b = Some d -> exists d', buf_markinvalid b w = Ok (tt, upd_w_bufs (insert b d') w)).

#[local] Abbreviation vol_ok := (vol_ok fs MAXPHYS B I).
#[local] Abbreviation bdev := (bdev fs B).
#[local] Abbreviation idev := (idev fs I).
#[local] Abbreviation dev_of := (fsbtodb fs).

Definition valid (d : Z) : Prop := first_dblock fs <= d < e2fs_bcount (m_e2fs fs) /\ 0 < d.
Definition allocated (w : world) (d : Z) : Prop := bit_set_on_dev w (bdev (dtog fs d)) (dtogd fs d).
Definition not_bitmap (b : Z) : Prop := forall cg, group fs cg -> b <> bdev cg /\ b <> idev cg.

Lemma quiet w w' : reach fs MAXPHYS B I w w' -> w_dev w' = w_dev w.
Proof. by apply (reach_keeps fs MAXPHYS B I sh_dev). Qed.

(** From [w] to [w'] the blocks [L] became free, and nothing else changed on the
    device but the bitmaps and the blocks at the addresses [T]. *)
Record trims (w w' : world) (L T : list Z) : Prop := mk_trims {
  tr_idle : idle fs MAXPHYS B I w';
  tr_bufs : w_bufs w' = w_bufs w;
  tr_inodes : w_inodes w' = w_inodes w;
  tr_bits : forall d, valid d -> allocated w' d <-> allocated w d /\ d ∉ L;
  tr_dev : forall b, not_bitmap b -> b ∉ T -> w_dev w' !! b = w_dev w !! b
}.

Lemma trims_refl w : idle fs MAXPHYS B I w -> trims w w [] [].
Proof. intros Hid. constructor; try done. intros d _. split; [intros; split; [done|apply not_elem_of_nil]|tauto]. Qed.

Lemma trims_trans w1 w2 w3 L1 L2 T1 T2 : trims w1 w2 L1 T1 -> trims w2 w3 L2 T2 -> trims w1 w3 (L1 ++ L2) (T1 ++ T2).
Proof.
  intros H1 H2. constructor; [apply H2| | | |].
  - by rewrite (tr_bufs _ _ _ _ H2), (tr_bufs _ _ _ _ H1).
  - by rewrite (tr_inodes _ _ _ _ H2), (tr_inodes _ _ _ _ H1).
  - intros d Hd. rewrite (tr_bits _ _ _ _ H2 d Hd), (tr_bits _ _ _ _ H1 d Hd), not_elem_of_app. tauto.
  - intros b Hb [? ?]%not_elem_of_app. by rewrite (tr_dev _ _ _ _ H2), (tr_dev _ _ _ _ H1).
Qed.

Lemma trims_more w w' L L' T T' : trims w w' L T -> (forall d, d ∈ L <-> d ∈ L') -> (forall b, b ∈ T -> b ∈ T') -> trims w w' L' T'.
Proof.
  intros H HL HT. constructor; try apply H.
  - intros d Hd. by rewrite (tr_bits _ _ _ _ H d Hd), HL.
  - intros b Hb Hn. apply H; [done|]. by intros ?%HT.
Qed.

(** ** One block *)

Lemma valid_u32 d : valid d -> u32_ok d.
Proof. intros [[_ ?] ?]. unfold u32_ok. lia. Qed.

Lemma allocated_at w d : valid d -> group fs (dtog fs d) -> allocated w d <->
  exists bs, w_dev w !! bdev (dtog fs d) = Some bs /\ bit bs (dtogd fs d) = true.
Proof. done. Qed.

Lemma block_differs d d' : valid d -> valid d' -> d <> d' -> dtog fs d = dtog fs d' -> dtogd fs d <> dtogd fs d'.
Proof.
  intros [Hd _] [Hd' _] Hne Hc Hj. destruct (block_group fs Hg d Hd) as (_ & _ & _ & H1).
  destruct (block_group fs Hg d' Hd') as (_ & _ & _ & H2). rewrite Hc, Hj in H1. lia.
Qed.

Lemma blkfree_quiet w ip d size :
  idle fs MAXPHYS B I w -> valid d -> allocated w d ->
  wp (ext2_blkfree fs MAXPHYS ip d size) (fun _ w' => trims w w' [d] []) w.
Proof.
  intros (Hv & Hlk & Hf) Hd Hset. pose proof Hd as [Hr Hpos].
  destruct (ext2_blkfree_wp fs MAXPHYS B I Hg Hl He w ip d size Hv Hlk Hf) as [_ Hfree].
  eapply wp_mono; [apply Hfree; [done|done|by apply valid_u32|done|]|].
  { intros n b w1 bs bs' Hv1 Hbs Hbit Hbs'. rewrite Hwait in Hbs' by done. by simplify_eq. }
  intros _ w' (Hv' & Hlk' & Hb' & Hi' & Hout). destruct Hout as [(_ & _ & n & e & _ & He')|(w1 & Hv1 & Hmv & Hcom)]; [by rewrite Hread in He'|].
  apply quiet in Hmv. destruct Hcom as (gd & bs & bs' & Hgd & Hbs & Hbit & Hbits & Hdev & _). rewrite Hmv in Hbs, Hdev.
  destruct (block_group fs Hg d Hr) as (Hc & _ & Hj & _).
  constructor; [|done|done| |].
  - split; [done|]. split; [done|]. intros cg Hcg. rewrite Hb'. by apply Hf.
  - intros d' Hd'. unfold allocated, bit_set_on_dev. rewrite Hdev, list_elem_of_singleton.
    destruct (block_group fs Hg d' (proj1 Hd')) as (Hc' & _ & Hj' & _).
    destruct (decide (dtog fs d' = dtog fs d)) as [Heq|Hne].
    + rewrite Heq, lookup_insert_eq, Hbs. split.
      * intros (x & [= <-] & Hx). rewrite Hbits in Hx by lia. case_match eqn:E; [done|]. split; [by exists bs|].
        intros ->. apply Z.eqb_neq in E. done.
      * intros [(x & [= <-] & Hx) Hne]. exists bs'. split; [done|]. rewrite Hbits by lia.
        rewrite (proj2 (Z.eqb_neq _ _)); [done|]. by apply block_differs.
    + rewrite lookup_insert_ne; [|intros Hbd; apply Hne; symmetry; by apply (lo_b _ _ _ Hl)].
      split; [intros H; split; [done|]; by intros ->|tauto].
  - intros b Hb _. rewrite Hdev, lookup_insert_ne; [done|]. intros <-. by destruct (Hb _ Hc).
Qed.

(** ** A block that is no bitmap *)

Lemma vol_bufs w f : vol_ok w -> (forall cg, group fs cg -> f (w_bufs w) !! bdev cg = w_bufs w !! bdev cg /\ f (w_bufs w) !! idev cg = w_bufs w !! idev cg) ->
  vol_ok (upd_w_bufs f w).
Proof.
  intros [] Hf. constructor; try done; cbn.
  - intros cg gd bs Hgd Hbs Ho Hn. apply (vi_bcount cg gd bs); try done. destruct (Hf cg) as [<- _]; [|done].
    by eapply (group_of_gd fs).
  - intros cg gd bs Hgd Hbs Ho Hn. apply (vi_icount cg gd bs); try done. destruct (Hf cg) as [_ <-]; [|done].
    by eapply (group_of_gd fs).
Qed.

Lemma vol_dev w b d : vol_ok w -> not_bitmap b -> vol_ok (upd_w_dev (insert b d) w).
Proof.
  intros [] Hb. constructor; try done; cbn.
  - intros cg Hc. destruct (Hb cg Hc) as [? _]. rewrite lookup_insert_ne by done. by apply vi_bmap.
  - intros cg Hc. destruct (Hb cg Hc) as [_ ?]. rewrite lookup_insert_ne by done. by apply vi_imap.
  - intros cg gd bs Hgd. destruct (Hb cg) as [? _]; [by eapply (group_of_gd fs)|]. rewrite lookup_insert_ne by done. by apply vi_bcount.
  - intros cg gd bs Hgd. destruct (Hb cg) as [_ ?]; [by eapply (group_of_gd fs)|]. rewrite lookup_insert_ne by done. by apply vi_icount.
Qed.

(** ** The blocks under an indirect block *)

Definition ptrs (dev : gmap Z (list Z)) (b : Z) : list Z := daddrs (default [] (dev !! b)).

(** What entry [i], the block [e], leads to: the blocks under it and itself. *)
Definition entry_blocks (sub : Z -> list (Z * Z)) (factor i e : Z) : list (Z * Z) :=
  if e =? 0 then [] else (prod_map (Z.add (i * factor)) id <$> sub e) ++ [(i * factor, e)].

(** The same for [n] entries from [i0] on. *)
Fixpoint blocks_of (sub : Z -> list (Z * Z)) (factor : Z) (bap : list Z) (i0 : Z) (n : nat) : list (Z * Z) :=
  match n with
  | O => []
  | S n' => blocks_of sub factor bap i0 n' ++ entry_blocks sub factor (i0 + Z.of_nat n') (default 0 (bap !z (i0 + Z.of_nat n')))
  end.

(** The blocks under the indirect block at device address [b], each with the
    index of the first data block it leads to. *)
Fixpoint tree (level : nat) (dev : gmap Z (list Z)) (b : Z) : list (Z * Z) :=
  let sub := match level with O => fun _ => [] | S l => fun e => tree l dev (dev_of e) end in
  blocks_of sub (NINDIR fs ^ Z.of_nat level) (ptrs dev b) 0 (Z.to_nat (NINDIR fs)).

Definition below (level : nat) (dev : gmap Z (list Z)) : Z -> list (Z * Z) :=
  match level with O => fun _ => [] | S l => fun e => tree l dev (dev_of e) end.

Lemma tree_eq level dev b :
  tree level dev b = blocks_of (below level dev) (NINDIR fs ^ Z.of_nat level) (ptrs dev b) 0 (Z.to_nat (NINDIR fs)).
Proof. by destruct level. Qed.

(** Every indirect block is there. *)
Fixpoint tree_wf (level : nat) (dev : gmap Z (list Z)) (b : Z) : Prop :=
  (exists d, dev !! b = Some d /\ zlen d = m_bsize fs) /\
  match level with
  | O => True
  | S l => forall i e, ptrs dev b !z i = Some e -> e <> 0 -> tree_wf l dev (dev_of e)
  end.

Definition wf_below (level : nat) (dev : gmap Z (list Z)) (e : Z) : Prop :=
  match level with O => True | S l => tree_wf l dev (dev_of e) end.

(** The blocks behind [lastbn]. *)
Definition gone (level : nat) (dev : gmap Z (list Z)) (b lastbn : Z) : list Z :=
  snd <$> filter (fun p => lastbn < fst p) (tree level dev b).

Lemma NINDIR_pos : 256 <= NINDIR fs /\ 4 * NINDIR fs = m_bsize fs.
Proof.
  pose proof Hg as []. unfold NINDIR. pose proof (Z.div_mod (m_bsize fs) 4 ltac:(lia)). split; [|lia].
  apply Z.div_le_lower_bound; lia.
Qed.

Lemma ptrs_len level dev b : tree_wf level dev b -> zlen (ptrs dev b) = NINDIR fs.
Proof.
  intros Hw. assert (exists d, dev !! b = Some d /\ zlen d = m_bsize fs) as (d & Hd & Hlen) by (destruct level; apply Hw).
  unfold ptrs. rewrite Hd. cbn. pose proof NINDIR_pos. rewrite zlen_daddrs. unfold NINDIR. by rewrite Hlen.
Qed.

Section blocks.
Context (sub sub' : Z -> list (Z * Z)) (factor : Z) (bap : list Z).

Lemma blocks_app i0 a b : blocks_of sub factor bap i0 (a + b) = blocks_of sub factor bap i0 a ++ blocks_of sub factor bap (i0 + Z.of_nat a) b.
Proof.
  induction b as [|b IH]; cbn [blocks_of]; [by rewrite Nat.add_0_r, app_nil_r|].
  rewrite Nat.add_succ_r. cbn [blocks_of]. rewrite IH, <- app_assoc. do 3 f_equal; [lia|]. do 2 f_equal. lia.
Qed.

Lemma blocks_one i : blocks_of sub factor bap i 1 = entry_blocks sub factor i (default 0 (bap !z i)).
Proof. cbn. by rewrite Z.add_0_r. Qed.

Lemma blocks_ext i0 n : (forall i e, i0 <= i < i0 + Z.of_nat n -> bap !z i = Some e -> e <> 0 -> sub e = sub' e) ->
  blocks_of sub factor bap i0 n = blocks_of sub' factor bap i0 n.
Proof.
  induction n as [|n IH]; cbn [blocks_of]; [done|]. intros Hs. rewrite IH; [|intros i e ?; apply Hs; lia]. f_equal.
  unfold entry_blocks. destruct (bap !z _) as [e|] eqn:E; [|done]. cbn. destruct (Z.eqb_spec e 0); [done|].
  erewrite Hs; [done| |exact E|done]. lia.
Qed.

Lemma blocks_entry i0 n i e : i0 <= i < i0 + Z.of_nat n -> bap !z i = Some e -> e <> 0 ->
  forall d, d = e \/ d ∈ (snd <$> sub e) -> d ∈ (snd <$> blocks_of sub factor bap i0 n).
Proof.
  intros Hi He' Hne d Hd. assert (n = (Z.to_nat (i - i0) + (1 + (n - 1 - Z.to_nat (i - i0))))%nat) as -> by lia.
  rewrite blocks_app, blocks_app, blocks_one, !fmap_app, !elem_of_app. right. left.
  replace (i0 + Z.of_nat (Z.to_nat (i - i0))) with i by lia. rewrite He'. cbn. unfold entry_blocks.
  rewrite (proj2 (Z.eqb_neq e 0)) by done. rewrite fmap_app, elem_of_app, <- list_fmap_compose. cbn.
  destruct Hd as [->|Hd]; [right; left|left]. done.
Qed.

Lemma blocks_keys i0 n lo hi : 0 < factor -> 0 <= i0 ->
  (forall e k d, (k, d) ∈ sub e -> 0 <= k < factor) -> lo <= i0 * factor -> (i0 + Z.of_nat n) * factor <= hi ->
  forall k d, (k, d) ∈ blocks_of sub factor bap i0 n -> lo <= k < hi.
Proof.
  intros Hf Hi0 Hs Hlo. revert hi. induction n as [|n IH]; intros hi Hhi k d; cbn [blocks_of]; [by intros ?%elem_of_nil|].
  rewrite elem_of_app. intros [Hin|Hin]; [apply (IH hi) in Hin; [done|nia]|]. unfold entry_blocks in Hin.
  case_match; [by apply elem_of_nil in Hin|]. apply elem_of_app in Hin as [Hin|Hin].
  - apply list_elem_of_fmap in Hin as ([k' d'] & [= -> ->] & Hin). apply Hs in Hin. nia.
  - apply list_elem_of_singleton in Hin as [= -> ->]. nia.
Qed.
End blocks.

Lemma below_frame level dev dev' e :
  dev' !! dev_of e = dev !! dev_of e -> (forall d, d ∈ (snd <$> below level dev e) -> dev' !! dev_of d = dev !! dev_of d) ->
  below level dev' e = below level dev e /\ (wf_below level dev e -> wf_below level dev' e).
Proof.
  revert e. induction level as [|l IH]; intros e He' Hd; [done|]. cbn [below wf_below] in *.
  assert (ptrs dev' (dev_of e) = ptrs dev (dev_of e)) as Hp by (unfold ptrs; by rewrite He').
  assert (forall i m, 0 <= i < NINDIR fs -> ptrs dev (dev_of e) !z i = Some m -> m <> 0 ->
            below l dev' m = below l dev m /\ (wf_below l dev m -> wf_below l dev' m)) as Hsub.
  { intros i m Hi Hm Hne. pose proof NINDIR_pos. apply IH.
    - apply Hd. rewrite tree_eq. by apply (blocks_entry _ _ _ 0 _ i m); [lia| | |left].
    - intros d Hin. apply Hd. rewrite tree_eq. by apply (blocks_entry _ _ _ 0 _ i m); [lia| | |right]. }
  split.
  - rewrite !tree_eq, Hp. symmetry. apply blocks_ext. intros i m Hi Hm Hne. symmetry. apply (Hsub i); [|done|done].
    pose proof NINDIR_pos. lia.
  - intros Hw. pose proof (ptrs_len _ _ _ Hw) as Hlen. destruct l as [|l]; cbn [tree_wf] in *.
    + destruct Hw as [(d & ? & ?) _]. split; [|done]. exists d. by rewrite He'.
    + destruct Hw as [(d & ? & ?) Hw]. split; [exists d; by rewrite He'|]. intros i m Hm Hne. rewrite Hp in Hm.
      pose proof (zlookup_Some_inv _ _ _ Hm) as [Hi _]. destruct (Hsub i m) as [_ Hsubw]; [lia|done|done|]. apply Hsubw. by apply (Hw i).
Qed.

Lemma tree_keys level dev b : forall k d, (k, d) ∈ tree level dev b -> 0 <= k < NINDIR fs ^ Z.of_nat level * NINDIR fs.
Proof.
  revert b. induction level as [|l IH]; intros b k d Hin; rewrite tree_eq in Hin; pose proof NINDIR_pos.
  - eapply blocks_keys in Hin; [exact Hin|lia|lia| |lia|lia]. by intros ? ? ? ?%elem_of_nil.
  - assert (0 < NINDIR fs ^ Z.of_nat l) by (apply Z.pow_pos_nonneg; lia).
    rewrite Nat2Z.inj_succ, Z.pow_succ_r in * by lia. eapply blocks_keys in Hin; [exact Hin|nia|lia| |lia|nia].
    intros e k' d' Hin'. apply IH in Hin'. lia.
Qed.

Lemma below_keys level dev e k d : (k, d) ∈ below level dev e -> 0 <= k < NINDIR fs ^ Z.of_nat level.
Proof.
  destruct level as [|l]; [by intros ?%elem_of_nil|]. intros Hin%tree_keys. rewrite Nat2Z.inj_succ, Z.pow_succ_r by lia. lia.
Qed.

Lemma filter_all (m : Z) (l : list (Z * Z)) : (forall k d, (k, d) ∈ l -> m < k) -> filter (fun p => m < fst p) l = l.
Proof.
  induction l as [|[k d] l IH]; intros Hall; [done|]. rewrite filter_cons_True by (apply (Hall k d); left).
  f_equal. apply IH. intros k' d' ?. apply (Hall k' d'). by right.
Qed.

Lemma filter_none (m : Z) (l : list (Z * Z)) : (forall k d, (k, d) ∈ l -> k <= m) -> filter (fun p => m < fst p) l = [].
Proof.
  induction l as [|[k d] l IH]; intros Hall; [done|]. rewrite filter_cons_False by (cbn; specialize (Hall k d ltac:(left)); lia).
  apply IH. intros k' d' ?. apply (Hall k' d'). by right.
Qed.

Lemma filter_shift (m a : Z) (l : list (Z * Z)) :
  snd <$> filter (fun p => m < fst p) (prod_map (Z.add a) id <$> l) = snd <$> filter (fun p => m - a < fst p) l.
Proof.
  induction l as [|[k d] l IH]; [done|]. rewrite fmap_cons. cbn [prod_map].
  destruct (decide (m < a + k)).
  - rewrite !filter_cons_True by (cbn; lia). rewrite !fmap_cons. cbn. by rewrite IH.
  - rewrite !filter_cons_False by (cbn; lia). done.
Qed.

(** What is behind [lastbn] in the entry that leads to it. *)
Definition gone_below (level : nat) (dev : gmap Z (list Z)) (e m : Z) : list Z :=
  if e =? 0 then [] else match level with O => [] | S l => gone l dev (dev_of e) m end.

Lemma gone_all level dev b : gone level dev b (-1) = snd <$> tree level dev b.
Proof. unfold gone. rewrite filter_all; [done|]. intros k d ?%tree_keys. lia. Qed.

Lemma gone_split level dev b lastbn e : let f := NINDIR fs ^ Z.of_nat level in let last := lastbn / f in
  0 <= lastbn < f * NINDIR fs -> ptrs dev b !z last = Some e ->
  gone level dev b lastbn = gone_below level dev e (lastbn mod f) ++
    (snd <$> blocks_of (below level dev) f (ptrs dev b) (last + 1) (Z.to_nat (NINDIR fs - 1 - last))).
Proof.
  intros f last Hlast He'. pose proof NINDIR_pos. assert (0 < f) by (apply Z.pow_pos_nonneg; lia).
  pose proof (Z.div_mod lastbn f ltac:(lia)) as Hdm. pose proof (Z.mod_pos_bound lastbn f ltac:(lia)). fold last in Hdm.
  assert (0 <= last) by (apply Z.div_pos; lia). assert (last < NINDIR fs) by (apply Z.div_lt_upper_bound; lia).
  unfold gone. rewrite tree_eq. fold f.
  replace (Z.to_nat (NINDIR fs)) with (Z.to_nat last + (1 + Z.to_nat (NINDIR fs - 1 - last)))%nat by lia.
  rewrite blocks_app, blocks_app, blocks_one, !filter_app, !fmap_app.
  rewrite filter_none; [|intros k d Hin; eapply (blocks_keys _ _ _ 0 _ 0 (last * f)) in Hin; [nia|lia|lia| |lia|lia];
                         intros ? ? ?; apply below_keys].
  replace (0 + Z.of_nat (Z.to_nat last)) with last by lia. rewrite He'. cbn [app default from_option fmap list_fmap id]. f_equal.
  - unfold entry_blocks, gone_below. destruct (Z.eqb_spec e 0); [done|]. rewrite filter_app, fmap_app, filter_shift.
    rewrite (filter_none lastbn [_]); [|intros k d Hin; apply list_elem_of_singleton in Hin as [= -> ->]; nia].
    rewrite app_nil_r. replace (lastbn - last * f) with (lastbn mod f) by lia. by destruct level.
  - rewrite filter_all; [done|]. intros k d Hin. eapply (blocks_keys _ _ _ (last + 1) _ ((last + 1) * f) _) in Hin; [nia|lia|lia| |lia|reflexivity].
    intros ? ? ?. apply below_keys.
Qed.

(** ** Freeing them *)

Definition sectors : Z := btodb (m_bsize fs).

Record block_ok (w : world) (d : Z) : Prop := mk_block_ok {
  bk_valid : valid d;
  bk_alloc : allocated w d;
  bk_bitmap : not_bitmap (dev_of d);
  bk_buf : w_bufs w !! dev_of d = None
}.

(** The file owns indirect block [r] and everything under it, once each. *)
Record owned (w : world) (level : nat) (r : Z) : Prop := mk_owned {
  ow_wf : tree_wf level (w_dev w) (dev_of r);
  ow_nodup : NoDup (r :: (snd <$> tree level (w_dev w) (dev_of r)));
  ow_ok : forall d, d ∈ r :: (snd <$> tree level (w_dev w) (dev_of r)) -> block_ok w d
}.

(** The blocks of [n] entries of [bap], still to be freed. *)
Definition todo (w : world) (level : nat) (bap : list Z) (i0 : Z) (n : nat) : list Z :=
  snd <$> blocks_of (below level (w_dev w)) (NINDIR fs ^ Z.of_nat level) bap i0 n.
Record pending (w : world) (level : nat) (bap : list Z) (i0 : Z) (n : nat) : Prop := mk_pending {
  pe_wf : forall i e, i0 <= i < i0 + Z.of_nat n -> bap !z i = Some e -> e <> 0 -> wf_below level (w_dev w) e;
  pe_nodup : NoDup (todo w level bap i0 n);
  pe_ok : forall d, d ∈ todo w level bap i0 n -> block_ok w d
}.

Lemma dev_of_inj a b : valid a -> valid b -> dev_of a = dev_of b -> a = b.
Proof.
  intros Ha%valid_u32 Hb%valid_u32. pose proof Hg as []. unfold fsbtodb, u32_ok in *. rewrite !Z.shiftl_mul_pow2 by lia.
  assert (0 < 2 ^ m_fsbtodb fs <= 2 ^ 3) as Hp by (split; [apply Z.pow_pos_nonneg; lia|apply Z.pow_le_mono_r; lia]).
  change (2 ^ 3) with 8 in Hp. rewrite !s64_id by (unfold s64_ok; nia). nia.
Qed.

Lemma not_in_dev d (L : list Z) : valid d -> (forall d', d' ∈ L -> valid d') -> d ∉ L -> dev_of d ∉ (dev_of <$> L).
Proof. intros Hv HL Hd (d' & Heq & Hin)%list_elem_of_fmap. apply dev_of_inj in Heq; [by subst|done|by apply HL]. Qed.

Lemma block_ok_trims w w' L T d : trims w w' L T -> block_ok w d -> d ∉ L -> block_ok w' d.
Proof. intros H [] Hd. constructor; [done| |done|by rewrite (tr_bufs _ _ _ _ H)]. by apply (tr_bits _ _ _ _ H). Qed.

(** What is pending stays so while other blocks are freed. *)
Lemma pending_trims w w' level bap i0 n L T :
  trims w w' L (dev_of <$> T) -> (forall d, d ∈ T -> valid d) -> pending w level bap i0 n -> (forall d, d ∈ todo w level bap i0 n -> d ∉ L /\ d ∉ T) ->
  pending w' level bap i0 n /\ todo w' level bap i0 n = todo w level bap i0 n.
Proof.
  intros Ht HT [Hw Hnd Hok] Hdis.
  assert (forall d, d ∈ todo w level bap i0 n -> w_dev w' !! dev_of d = w_dev w !! dev_of d) as Hdev.
  { intros d Hd. apply (tr_dev _ _ _ _ Ht); [by apply (Hok d Hd)|]. apply not_in_dev; [by apply (Hok d Hd)|done|by apply Hdis]. }
  assert (forall i e, i0 <= i < i0 + Z.of_nat n -> bap !z i = Some e -> e <> 0 ->
            below level (w_dev w') e = below level (w_dev w) e /\ (wf_below level (w_dev w) e -> wf_below level (w_dev w') e)) as Hsub.
  { intros i e Hi Hent Hne. apply below_frame.
    - apply Hdev. by apply (blocks_entry _ _ _ i0 n i e); [|..|left].
    - intros d Hd. apply Hdev. by apply (blocks_entry _ _ _ i0 n i e); [|..|right]. }
  assert (todo w' level bap i0 n = todo w level bap i0 n) as Htodo.
  { unfold todo. f_equal. apply blocks_ext. intros i e ? ? ?. by apply (Hsub i). }
  split; [|done]. constructor; [|by rewrite Htodo|].
  - intros i e ? ? ?. apply (Hsub i); [done..|]. by apply (Hw i).
  - intros d. rewrite Htodo. intros Hd. eapply block_ok_trims; [done|by apply Hok|by apply Hdis].
Qed.

Definition sub_ok (level : nat) (sub : option (Z -> Z -> Z -> M world (Z * Z))) : Prop :=
  match level, sub with
  | O, None => True
  | S l, Some indirtrunc => forall nlbn e w, idle fs MAXPHYS B I w -> owned w l e ->
      let blocks := snd <$> tree l (w_dev w) (dev_of e) in
      wp (indirtrunc nlbn (dev_of e) (-1)) (fun r w' =>
        trims w w' blocks (dev_of <$> e :: blocks) /\ snd r = s64 (sectors * zlen blocks)) w
  | _, _ => False
  end.

Lemma s64_add_l a b : s64 (s64 a + b) = s64 (a + b).
Proof.
  unfold s64. replace ((a + 2 ^ 63) mod 2 ^ 64 - 2 ^ 63 + b + 2 ^ 63) with ((a + 2 ^ 63) mod 2 ^ 64 + b) by lia.
  rewrite Zplus_mod_idemp_l. f_equal. f_equal. lia.
Qed.
Lemma s64_add_r a b : s64 (a + s64 b) = s64 (a + b).
Proof. rewrite Z.add_comm, s64_add_l. f_equal. lia. Qed.

Lemma todo_S w level bap i0 n : todo w level bap i0 (S n) = todo w level bap i0 n ++
  (snd <$> entry_blocks (below level (w_dev w)) (NINDIR fs ^ Z.of_nat level) (i0 + Z.of_nat n) (default 0 (bap !z (i0 + Z.of_nat n)))).
Proof. unfold todo. cbn [blocks_of]. by rewrite fmap_app. Qed.

Lemma entry_list w level factor i e : e <> 0 ->
  (snd <$> entry_blocks (below level (w_dev w)) factor i e) = (snd <$> below level (w_dev w) e) ++ [e].
Proof. intros Hne. unfold entry_blocks. rewrite (proj2 (Z.eqb_neq e 0)) by done. by rewrite fmap_app, <- list_fmap_compose. Qed.

(** The recursive call for one entry, then the block itself. *)
Lemma one_entry_wp {A} (k : Z -> Z -> M world A) (Q : A -> world -> Prop) sub level ip nlbn e allerror released w :
  sub_ok level sub -> idle fs MAXPHYS B I w -> e <> 0 -> wf_below level (w_dev w) e ->
  let L := (snd <$> below level (w_dev w) e) ++ [e] in
  NoDup L -> (forall d, d ∈ L -> block_ok w d) ->
  (forall allerror' w', trims w w' L (dev_of <$> L) -> wp (k allerror' (s64 (released + sectors * (zlen L - 1)))) Q w') ->
  wp (r ← (match sub with
           | Some indirtrunc =>
               r ← indirtrunc nlbn (fsbtodb fs e) (-1);
               let '(error, blkcount) := r in
               mret (if negb (error =? 0) then error else allerror, s64 (s64 released + blkcount))
           | None => mret (allerror, s64 released)
           end);
      let '(allerror, released) := r in
      ext2_blkfree fs MAXPHYS ip e (m_bsize fs);;
      k allerror released) Q w.
Proof.
  intros Hsub Hid Hne Hw L Hnd Hok HQ. apply wp_bind. destruct level as [|l], sub as [indirtrunc|]; try done; cbn [sub_ok below wf_below] in *.
  - apply wp_ret. destruct (Hok e ltac:(set_solver)) as []. wp_steps.
    eapply wp_mono; [by apply blkfree_quiet|]. intros [] w' Ht. assert (zlen L = 1) as HL1 by done; replace released with (released + sectors * (zlen L - 1)) by (rewrite HL1; lia).
    apply HQ. eapply trims_more; [exact Ht|done|by intros ? ?%elem_of_nil].
  - set (blocks := snd <$> tree l (w_dev w) (dev_of e)) in *.
    apply NoDup_app in Hnd as (Hndb & Hdis & _).
    assert (owned w l e) as How.
    { constructor; [done| |].
      - apply NoDup_cons. split; [|done]. intros Hin. apply (Hdis e Hin). left.
      - intros d Hd. apply Hok. unfold L. apply elem_of_cons in Hd as [->|Hd]; set_solver. }
    wp_steps. eapply wp_mono; [by apply Hsub|]. fold blocks. intros [error blkcount] w1 [Ht Hc]. cbn [snd] in Hc.
    apply wp_ret. wp_steps. destruct (Hok e ltac:(set_solver)) as [Hv Ha _ _].
    eapply wp_mono; [apply blkfree_quiet; [apply Ht|done|]|].
    { apply (tr_bits _ _ _ _ Ht); [done|]. split; [done|]. intros Hin. apply (Hdis e Hin). left. }
    intros [] w' Ht'. rewrite Hc, s64_add_r, s64_add_l. replace (zlen blocks) with (zlen L - 1) by (unfold L, zlen; rewrite length_app; cbn; lia).
    apply HQ. eapply trims_more; [by eapply trims_trans|done|]. rewrite app_nil_r. intros b. rewrite fmap_cons. unfold L. rewrite fmap_app. set_solver.
Qed.

Lemma trunc_entries_wp sub level ip bap i0 n : forall nlbn allerror released w,
  sub_ok level sub -> idle fs MAXPHYS B I w -> zlen bap = NINDIR fs -> 0 <= i0 -> i0 + Z.of_nat n <= NINDIR fs -> pending w level bap i0 n ->
  wp (trunc_entries fs MAXPHYS sub ip bap (NINDIR fs ^ Z.of_nat level) n (i0 + Z.of_nat n - 1) nlbn allerror (s64 released))
    (fun r w' => let L := todo w level bap i0 n in trims w w' L (dev_of <$> L) /\ snd (fst r) = s64 (released + sectors * zlen L)) w.
Proof.
  induction n as [|n IH]; intros nlbn allerror released w Hsub Hid Hlen Hi0 Hn Hpe; cbn [trunc_entries].
  - apply wp_ret. split; [by apply trims_refl|]. change (s64 released = s64 (released + sectors * 0)). f_equal. lia.
  - replace (i0 + Z.of_nat (S n) - 1) with (i0 + Z.of_nat n) by lia.
    destruct (zlookup_lt bap (i0 + Z.of_nat n)) as [e Hent]; [lia|]. rewrite Hent. cbn [access].
    wp_steps. eapply wp_lift; [done|]. rewrite todo_S, Hent. cbn [default from_option id].
    pose proof Hpe as [Hw Hnd Hok]. rewrite todo_S, Hent in Hnd, Hok. cbn [default from_option id] in Hnd, Hok.
    apply NoDup_app in Hnd as (Hnd1 & Hdis & Hnd2).
    assert (pending w level bap i0 n) as Hpe'.
    { constructor; [intros i e' ?; apply Hw; lia|done|]. intros d Hd. apply Hok. set_solver. }
    destruct (Z.eqb_spec e 0) as [->|Hne].
    + unfold entry_blocks. cbn [Z.eqb fmap list_fmap]. rewrite app_nil_r.
      replace (i0 + Z.of_nat n) with (i0 + Z.of_nat n - 1 + 1) by lia. rewrite Z.add_simpl_r.
      apply IH; try done; lia.
    + rewrite entry_list in Hdis, Hnd2, Hok |- * by done. set (L1 := (snd <$> below level (w_dev w) e) ++ [e]) in *.
      eapply (one_entry_wp (fun a r => trunc_entries fs MAXPHYS sub ip bap _ n _ _ a (s64 (r + btodb (m_bsize fs)))) _ sub level ip nlbn e allerror released);
        [done|done|done|apply (Hw (i0 + Z.of_nat n)); [lia|done|done]|done|intros d Hd; apply Hok; set_solver|].
      intros allerror' w1 Ht1. destruct (pending_trims w w1 level bap i0 n L1 L1 Ht1) as [Hpe1 Htodo];
        [intros d Hd; apply Hok; set_solver|done|intros d Hd; split; intros Hd1; by apply (Hdis d Hd)|].
      rewrite s64_add_l. replace (i0 + Z.of_nat n) with (i0 + Z.of_nat n - 1 + 1) by lia. rewrite Z.add_simpl_r.
      eapply wp_mono; [apply IH; try done; [apply Ht1|lia]|]. cbn zeta. rewrite Htodo. intros r w' [Ht' Hr]. split.
      * eapply trims_more; [by eapply trims_trans|set_solver|]. rewrite fmap_app. set_solver.
      * rewrite Hr. f_equal. fold sectors. unfold L1, zlen. rewrite !length_app. cbn. lia.
Qed.

(** ** The indirect block itself *)

Lemma read_block_wp (Q : Z -> world -> Prop) w b d :
  idle fs MAXPHYS B I w -> w_bufs w !! b = None -> w_dev w !! b = Some d -> zlen d = m_bsize fs ->
  (forall w1, idle fs MAXPHYS B I w1 -> w_dev w1 = w_dev w -> trims w w1 [] [] -> Q 0 (upd_w_bufs (insert b d) w1)) ->
  wp (buf_meta_bread b (m_bsize fs)) Q w.
Proof.
  intros (Hv & Hlk & Hf) Hb Hd Hlen HQ. unfold wp, buf_meta_bread. rewrite Hb. cbv zeta. rewrite Hread.
  destruct (eo_wait _ _ _ _ He (w_tick w) b w Hv) as (Hv1 & Hr1 & _). cbn [w_dev upd_w_tick]. rewrite Hwait, Hd, Hlen, Z.eqb_refl by done.
  set (w1 := upd_w_tick S (ke_wait (w_tick w) b w)).
  assert (idle fs MAXPHYS B I w1) as Hid1.
  { split; [done|]. split; [by rewrite <- Hlk; apply (re_locked _ _ _ _ _ Hr1)|]. intros cg Hc. unfold w1. cbn. rewrite (re_bufs _ _ _ _ _ Hr1). by apply Hf. }
  apply (HQ w1); [done|unfold w1; cbn; by rewrite Hwait|]. constructor; [done|by apply (re_bufs _ _ _ _ _ Hr1)|by apply (re_inodes _ _ _ _ _ Hr1)| |].
  - intros x Hx. unfold allocated, bit_set_on_dev, w1. cbn. rewrite Hwait by done. split; [intros; split; [done|apply not_elem_of_nil]|tauto].
  - intros x _ _. unfold w1. cbn. by rewrite Hwait.
Qed.

Lemma put_block_wp (Q : Z -> world -> Prop) w b d :
  idle fs MAXPHYS B I w -> not_bitmap b -> w_bufs w !! b = None ->
  (forall e w', trims w w' [] [b] -> Q e w') ->
  wp (if async then (buf_bdwrite b;; mret 0) else buf_bwrite b) Q (upd_w_bufs (insert b d) w).
Proof.
  intros (Hv & Hlk & Hf) Hnb Hb HQ.
  assert (forall n, trims w (upd_w_tick n (upd_w_bufs (delete b) (upd_w_bufs (insert b d) w))) [] [b]) as Hsame.
  { intros n. constructor; try done.
    - split; [|split; [done|]]; [|intros cg Hc; cbn; rewrite delete_insert_id by done; by apply Hf].
      unfold AllocSpec.vol_ok. cbn. rewrite delete_insert_id by done. done.
    - cbn. by apply delete_insert_id.
    - intros x _. split; [intros; split; [done|apply not_elem_of_nil]|tauto]. }
  assert (forall n d', trims w (upd_w_dev (insert b d') (upd_w_tick n (upd_w_bufs (delete b) (upd_w_bufs (insert b d) w)))) [] [b]) as Hnew.
  { intros n d'. destruct (Hsame n) as [(Hv' & Hlk' & Hf') Hb' Hi' Hbits Hdev]. constructor; [|done|done| |].
    - split; [by apply vol_dev|]. done.
    - intros x Hx. unfold allocated, bit_set_on_dev. cbn. destruct (block_group fs Hg x (proj1 Hx)) as (Hc & _).
      rewrite lookup_insert_ne by apply (proj1 (Hnb _ Hc)).
      split; [intros; split; [done|apply not_elem_of_nil]|tauto].
    - intros x Hx Hn. cbn. rewrite lookup_insert_ne; [done|]. intros <-. apply Hn. left. }
  destruct async.
  - wp_steps. eapply wp_bdwrite; [apply lookup_insert_eq|]. apply wp_ret, HQ. apply (Hnew (fun n => n)).
  - unfold wp, buf_bwrite. cbn [w_bufs upd_w_bufs]. rewrite lookup_insert_eq. cbv zeta.
    destruct (ke_write_error _ b); apply HQ; [apply (Hsame S)|apply (Hnew S)].
Qed.

Lemma clear_tail_ok d last : zlen d = m_bsize fs -> -1 <= last < NINDIR fs -> exists d', clear_tail fs d last = Ok d'.
Proof.
  intros Hd Hlast. pose proof NINDIR_pos. unfold clear_tail. destruct (Z.gtb_spec (last + 1) (NINDIR fs)); [lia|].
  eexists. apply put_bytes_ok; [lia|]. unfold zlen at 1. rewrite length_replicate. lia.
Qed.

(** ** The whole *)

Lemma owned_below w level r e i : owned w (S level) r -> ptrs (w_dev w) (dev_of r) !z i = Some e -> e <> 0 ->
  forall w' L T, trims w w' L (dev_of <$> T) -> (forall d, d ∈ T -> valid d) ->
  (forall d, d = e \/ d ∈ (snd <$> tree level (w_dev w) (dev_of e)) -> d ∉ L /\ d ∉ T) ->
  owned w' level e /\ tree level (w_dev w') (dev_of e) = tree level (w_dev w) (dev_of e).
Proof.
  intros [Hw Hnd Hok] Hent Hne w' L T Ht HT Hdis. pose proof (ptrs_len _ _ _ Hw) as Hlen. pose proof (zlookup_Some_inv _ _ _ Hent) as [Hi _].
  rewrite tree_eq in Hnd, Hok. pose proof NINDIR_pos.
  assert (forall d, d = e \/ d ∈ (snd <$> tree level (w_dev w) (dev_of e)) -> block_ok w d) as Hsub.
  { intros d Hd. apply Hok. right. by apply (blocks_entry _ _ _ 0 _ i e); [lia|..]. }
  assert (forall d, d = e \/ d ∈ (snd <$> tree level (w_dev w) (dev_of e)) -> w_dev w' !! dev_of d = w_dev w !! dev_of d) as Hdev.
  { intros d Hd. apply (tr_dev _ _ _ _ Ht); [by apply Hsub|]. apply not_in_dev; [by apply Hsub|done|by apply Hdis]. }
  destruct (below_frame (S level) (w_dev w) (w_dev w') e) as [Htree Hwf]; [apply Hdev; by left|intros d Hd; apply Hdev; by right|].
  cbn [below wf_below] in *. split; [|done]. constructor.
  - apply Hwf. destruct Hw as [_ Hw]. by apply (Hw i).
  - rewrite Htree. apply NoDup_cons in Hnd as [_ Hnd].
    replace (Z.to_nat (NINDIR fs)) with (Z.to_nat i + (1 + Z.to_nat (NINDIR fs - 1 - i)))%nat in Hnd by lia.
    rewrite blocks_app, blocks_app, blocks_one, !fmap_app in Hnd. apply NoDup_app in Hnd as (_ & _ & Hnd).
    apply NoDup_app in Hnd as (Hnd & _). replace (0 + Z.of_nat (Z.to_nat i)) with i in Hnd by lia. rewrite Hent in Hnd.
    cbn [default from_option id] in Hnd. rewrite (entry_list w (S level)) in Hnd by done. cbn [below] in Hnd. by rewrite Permutation_app_comm in Hnd.
  - intros d. rewrite Htree. intros Hd%elem_of_cons. eapply block_ok_trims; [done|by apply Hsub|by apply Hdis].
Qed.

(** The result of [ext2_indirtrunc]. *)
Definition indirtrunc_post (level : nat) (r lastbn : Z) (w : world) (res : Z * Z) (w' : world) : Prop :=
  let b := dev_of r in let L := gone level (w_dev w) b lastbn in
  trims w w' L (dev_of <$> r :: (snd <$> tree level (w_dev w) b)) /\ snd res = s64 (sectors * zlen L).

(** Reading, clearing and writing the indirect block. *)
Lemma root_wp {A} (k : list Z -> Z -> M world A) (Q : A -> world -> Prop) w level r last :
  idle fs MAXPHYS B I w -> owned w level r -> -1 <= last < NINDIR fs ->
  (forall allerror w', trims w w' [] [dev_of r] -> wp (k (ptrs (w_dev w) (dev_of r)) allerror) Q w') ->
  wp (d ← buf_dataptr (dev_of r);
      d' ← lift (clear_tail fs d last);
      buf_store (dev_of r) d';;
      (if last =? -1 then buf_markinvalid (dev_of r) else mret tt);;
      allerror ← (if async then (buf_bdwrite (dev_of r);; mret 0) else buf_bwrite (dev_of r));
      k (daddrs d) allerror) Q
     (upd_w_bufs (insert (dev_of r) (default [] (w_dev w !! dev_of r))) w).
Proof.
  intros Hid [Hw Hnd Hok] Hlast HQ. destruct (Hok r ltac:(left)) as [_ _ Hnb Hbuf]. set (b := dev_of r) in *.
  assert (exists d, w_dev w !! b = Some d /\ zlen d = m_bsize fs) as (d & Hd & Hlen) by (destruct level; apply Hw).
  assert (ptrs (w_dev w) b = daddrs d) as Hp by (unfold ptrs; by rewrite Hd). rewrite Hp in HQ. rewrite Hd. cbn [default from_option id].
  destruct (clear_tail_ok d last Hlen Hlast) as [d1 Hd1].
  assert (forall d2, wp (allerror ← (if async then (buf_bdwrite b;; mret 0) else buf_bwrite b); k (daddrs d) allerror) Q (upd_w_bufs (insert b d2) w)) as Hput.
  { intros d2. apply wp_bind. apply put_block_wp; [done|done|done|]. intros e w' Ht. by apply HQ. }
  wp_steps. eapply wp_dataptr; [apply lookup_insert_eq|]. wp_steps. eapply wp_lift; [exact Hd1|]. wp_steps.
  eapply wp_store; [apply lookup_insert_eq|].
  assert (upd_w_bufs (insert b d1) (upd_w_bufs (insert b d) w) = upd_w_bufs (insert b d1) w) as -> by (unfold upd_w_bufs; cbn; by rewrite insert_insert_eq).
  apply wp_bind. destruct (last =? -1); [|apply wp_ret, (Hput d1)].
  destruct (Hinval b (upd_w_bufs (insert b d1) w) d1) as [d2 Hd2]; [apply lookup_insert_eq|].
  unfold wp at 1. rewrite Hd2.
  assert (upd_w_bufs (insert b d2) (upd_w_bufs (insert b d1) w) = upd_w_bufs (insert b d2) w) as -> by (unfold upd_w_bufs; cbn; by rewrite insert_insert_eq).
  apply (Hput d2).
Qed.

(** The root was written, the entries of the range are pending. *)
Lemma pending_after_root w w' level r i0 n :
  owned w level r -> trims w w' [] [dev_of r] -> 0 <= i0 -> i0 + Z.of_nat n <= NINDIR fs ->
  pending w' level (ptrs (w_dev w) (dev_of r)) i0 n /\
  todo w' level (ptrs (w_dev w) (dev_of r)) i0 n = todo w level (ptrs (w_dev w) (dev_of r)) i0 n.
Proof.
  intros [Hw Hnd Hok] Ht Hi0 Hn. rewrite tree_eq in Hnd, Hok. pose proof NINDIR_pos.
  replace (Z.to_nat (NINDIR fs)) with (Z.to_nat i0 + (n + Z.to_nat (NINDIR fs - i0 - Z.of_nat n)))%nat in Hnd, Hok by lia.
  rewrite blocks_app, blocks_app in Hnd, Hok. replace (0 + Z.of_nat (Z.to_nat i0)) with i0 in Hnd, Hok by lia.
  rewrite !fmap_app in Hnd, Hok. apply NoDup_cons in Hnd as [Hr Hnd]. apply NoDup_app in Hnd as (_ & _ & Hnd). apply NoDup_app in Hnd as (Hnd & _).
  change (snd <$> blocks_of (below level (w_dev w)) (NINDIR fs ^ Z.of_nat level) (ptrs (w_dev w) (dev_of r)) i0 n)
    with (todo w level (ptrs (w_dev w) (dev_of r)) i0 n) in *.
  apply (pending_trims w w' level _ i0 n [] [r]); [done| | |].
  - intros d ->%list_elem_of_singleton. apply (Hok r). left.
  - constructor; [|done|].
    + intros i e Hi Hent Hne. destruct level as [|l]; [done|]. destruct Hw as [_ Hw]. by apply (Hw i).
    + intros d Hd. apply Hok. right. rewrite !elem_of_app. auto.
  - intros d Hd. split; [apply not_elem_of_nil|]. intros ->%list_elem_of_singleton. apply Hr. rewrite !elem_of_app. auto.
Qed.

Lemma gone_below_in_tree level dev e m d : d ∈ gone_below level dev e m -> d ∈ (snd <$> below level dev e).
Proof.
  unfold gone_below, gone. case_match; [by intros ?%elem_of_nil|]. destruct level; [by intros ?%elem_of_nil|].
  intros ([k d'] & -> & [_ Hin]%list_elem_of_filter)%list_elem_of_fmap. apply list_elem_of_fmap. by exists (k, d').
Qed.

Lemma gone_in_tree level dev b m d : d ∈ gone level dev b m -> d ∈ (snd <$> tree level dev b).
Proof. unfold gone. intros ([k d'] & -> & [_ Hin]%list_elem_of_filter)%list_elem_of_fmap. apply list_elem_of_fmap. by exists (k, d'). Qed.

(** The index of the last entry that is kept, in part at least. *)
Definition last_entry (level : nat) (lastbn : Z) : Z :=
  if lastbn >? 0 then cdiv lastbn (NINDIR fs ^ Z.of_nat level) else lastbn.

Lemma gone_cases w level b lastbn :
  let f := NINDIR fs ^ Z.of_nat level in let last := last_entry level lastbn in let dev := w_dev w in
  let L := todo w level (ptrs dev b) (last + 1) (Z.to_nat (NINDIR fs - 1 - last)) in
  tree_wf level dev b -> -1 <= lastbn < f * NINDIR fs ->
  -1 <= last < NINDIR fs /\
  (lastbn = -1 /\ gone level dev b lastbn = L \/
   0 <= lastbn /\ 0 <= last /\ exists e, ptrs dev b !z last = Some e /\ gone level dev b lastbn = gone_below level dev e (lastbn mod f) ++ L).
Proof.
  intros f last dev L Hw Hl12. pose proof NINDIR_pos. assert (0 < f) by (apply Z.pow_pos_nonneg; lia).
  destruct (decide (lastbn = -1)) as [Heq|Hne].
  - assert (last = -1) as Hlast by (unfold last, last_entry; by rewrite Heq). split; [lia|]. left. split; [done|].
    rewrite Heq, gone_all, tree_eq. unfold L, todo. rewrite Hlast. do 2 f_equal. lia.
  - assert (last = lastbn / f) as Hlast.
    { unfold last, last_entry. destruct (Z.gtb_spec lastbn 0); [apply cdiv_nonneg; lia|].
      assert (lastbn = 0) as -> by lia. by rewrite Z.div_0_l by lia. }
    assert (0 <= last < NINDIR fs) by (rewrite Hlast; split; [apply Z.div_pos; lia|apply Z.div_lt_upper_bound; lia]).
    split; [lia|]. right. split; [lia|]. split; [lia|]. pose proof (ptrs_len _ _ _ Hw) as Hlen.
    destruct (zlookup_lt (ptrs dev b) last) as [e Hent]; [lia|]. exists e. split; [done|]. unfold L, todo. rewrite Hlast in *.
    apply gone_split; [fold f; lia|done].
Qed.

(** Entry [i] and what is under it, apart from the entries behind it. *)
Lemma entry_apart w l r i e d : let level := S l in
  owned w level r -> ptrs (w_dev w) (dev_of r) !z i = Some e -> e <> 0 -> d = e \/ d ∈ (snd <$> tree l (w_dev w) (dev_of e)) ->
  d ∈ (snd <$> tree level (w_dev w) (dev_of r)) /\ d <> r /\
  d ∉ todo w level (ptrs (w_dev w) (dev_of r)) (i + 1) (Z.to_nat (NINDIR fs - 1 - i)).
Proof.
  intros level [Hw Hnd _] Hent Hne Hd. pose proof NINDIR_pos. pose proof (ptrs_len _ _ _ Hw) as Hlen.
  pose proof (zlookup_Some_inv _ _ _ Hent) as [Hi _]. rewrite tree_eq in Hnd |- *.
  assert (d ∈ (snd <$> blocks_of (below level (w_dev w)) (NINDIR fs ^ Z.of_nat level) (ptrs (w_dev w) (dev_of r)) 0 (Z.to_nat (NINDIR fs)))) as Hin
    by (apply (blocks_entry _ _ _ 0 _ i e); [lia|done..]).
  apply NoDup_cons in Hnd as [Hr Hnd]. split; [done|]. split; [by intros ->|].
  replace (Z.to_nat (NINDIR fs)) with (Z.to_nat i + (1 + Z.to_nat (NINDIR fs - 1 - i)))%nat in Hnd by lia.
  rewrite blocks_app, blocks_app, blocks_one, !fmap_app in Hnd. replace (0 + Z.of_nat (Z.to_nat i)) with i in Hnd by lia.
  apply NoDup_app in Hnd as (_ & _ & Hnd). apply NoDup_app in Hnd as (_ & Hdis & _). apply Hdis.
  rewrite Hent. cbn [default from_option id]. rewrite (entry_list w level) by done. cbn [level below]. set_solver.
Qed.

(** The entry that is kept in part. *)
Definition partial (sub : option (Z -> Z -> Z -> M world (Z * Z))) (bap : list Z) (last lastbn f : Z) (r : Z * Z * Z) : M world (Z * Z) :=
  let '(allerror, released, nlbn) := r in
  match sub with
  | Some indirtrunc =>
      if lastbn >=? 0 then
        nb ← lift (access (bap !z last));
        if nb =? 0 then mret (allerror, released)
        else
          r ← indirtrunc nlbn (fsbtodb fs nb) (crem lastbn f);
          let '(error, blkcount) := r in
          mret (if negb (error =? 0) then error else allerror, s64 (released + blkcount))
      else mret (allerror, released)
  | None => mret (allerror, released)
  end.

Definition sub_partial_ok (level : nat) (sub : option (Z -> Z -> Z -> M world (Z * Z))) : Prop :=
  match level, sub with
  | O, None => True
  | S l, Some indirtrunc => forall nlbn e m w, idle fs MAXPHYS B I w -> owned w l e -> 0 <= m < NINDIR fs ^ Z.of_nat (S l) ->
      wp (indirtrunc nlbn (dev_of e) m) (indirtrunc_post l e m w) w
  | _, _ => False
  end.

Lemma partial_wp level sub r lastbn w w2 res :
  let f := NINDIR fs ^ Z.of_nat level in let b := dev_of r in let bap := ptrs (w_dev w) b in
  let last := last_entry level lastbn in let L := todo w level bap (last + 1) (Z.to_nat (NINDIR fs - 1 - last)) in
  owned w level r -> -1 <= lastbn < f * NINDIR fs -> sub_partial_ok level sub ->
  trims w w2 L (dev_of <$> r :: L) -> snd (fst res) = s64 (sectors * zlen L) ->
  wp (partial sub bap last lastbn f res) (indirtrunc_post level r lastbn w) w2.
Proof.
  intros f b bap last L How Hlastbn Hsub Ht Hrel. destruct res as [[aerr rel] nlbn]. cbn [fst snd] in Hrel. unfold partial.
  destruct (gone_cases w level b lastbn (ow_wf _ _ _ How) Hlastbn) as [Hlr Hcases]. fold f last bap L in Hlr, Hcases.
  assert (forall d, d ∈ L -> d ∈ (snd <$> tree level (w_dev w) b)) as HLin.
  { intros d Hd. apply (gone_in_tree _ _ _ lastbn). destruct Hcases as [[_ ->]|(_ & _ & e & _ & ->)]; [done|]. apply elem_of_app. by right. }
  assert (forall a, gone level (w_dev w) b lastbn = L -> indirtrunc_post level r lastbn w (a, rel) w2) as Hdone.
  { intros a Heq. unfold indirtrunc_post. fold b. rewrite Heq. split; [|done]. eapply trims_more; [exact Ht|done|].
    intros x. rewrite !fmap_cons, !elem_of_cons, !list_elem_of_fmap. naive_solver. }
  destruct Hcases as [[-> Heq]|(Hl0 & Hlast0 & e & Hent & Heq)].
  { cbn. destruct sub; by apply wp_ret, Hdone. }
  destruct level as [|l], sub as [indirtrunc|]; try done.
  { apply wp_ret, Hdone. rewrite Heq. unfold gone_below. by case_match. }
  rewrite (proj2 (Z.geb_le lastbn 0)) by lia. wp_steps. rewrite Hent. eapply wp_lift; [done|].
  unfold gone_below in Heq. destruct (Z.eqb_spec e 0) as [->|Hne]; [by apply wp_ret, Hdone|].
  pose proof NINDIR_pos. assert (0 < f) by (apply Z.pow_pos_nonneg; lia).
  rewrite crem_nonneg by lia. pose proof (Z.mod_pos_bound lastbn f ltac:(lia)) as Hm.
  assert (forall d, d = e \/ d ∈ (snd <$> tree l (w_dev w) (dev_of e)) -> d ∈ (snd <$> tree (S l) (w_dev w) b) /\ d <> r /\ d ∉ L) as Hap
    by (intros d; by apply entry_apart).
  destruct (owned_below w l r e last How Hent Hne w2 L (r :: L) Ht) as [How2 Htree].
  { intros d Hd. apply (ow_ok _ _ _ How). apply elem_of_cons in Hd as [->|Hd]; [left|right; by apply HLin]. }
  { intros d (_ & ? & ?)%Hap. rewrite not_elem_of_cons. done. }
  wp_steps. eapply wp_mono; [apply (Hsub _ e (lastbn mod f) w2); [apply Ht|done|done]|].
  intros [error count] w' [Ht' Hc]. cbn [snd] in Hc. apply wp_ret.
  assert (gone l (w_dev w2) (dev_of e) (lastbn mod f) = gone l (w_dev w) (dev_of e) (lastbn mod f)) as Hge by (unfold gone; by rewrite Htree).
  rewrite Hge in Ht', Hc. rewrite Htree in Ht'. unfold indirtrunc_post. fold b. rewrite Heq. split.
  - eapply trims_more; [by eapply trims_trans|intros d; rewrite !elem_of_app; tauto|].
    intros x. rewrite elem_of_app, !fmap_cons, !elem_of_cons, !(list_elem_of_fmap dev_of).
    intros [[->|(d & -> & Hd)]|[->|(d & -> & Hd)]]; [by left|right..].
    + exists d. split; [done|by apply HLin].
    + exists e. split; [done|]. by apply Hap; left.
    + exists d. split; [done|]. by apply Hap; right.
  - cbn [snd]. rewrite Hrel, Hc, s64_add_l, s64_add_r, zlen_app. f_equal. ring.
Qed.

(** The body, given what the recursive calls do. *)
Lemma indirtrunc_run level sub ip lbn r lastbn w :
  idle fs MAXPHYS B I w -> owned w level r -> -1 <= lastbn < NINDIR fs ^ Z.of_nat level * NINDIR fs ->
  sub = match level with O => None | S l => Some (ext2_indirtrunc fs MAXPHYS async buf_markinvalid l ip) end ->
  sub_ok level sub -> sub_partial_ok level sub ->
  wp (ext2_indirtrunc fs MAXPHYS async buf_markinvalid level ip lbn (dev_of r) lastbn) (indirtrunc_post level r lastbn w) w.
Proof.
  intros Hid How Hlastbn Hsub Hok1 Hok2. set (b := dev_of r).
  destruct (gone_cases w level b lastbn (ow_wf _ _ _ How) Hlastbn) as [Hlr _].
  set (f := NINDIR fs ^ Z.of_nat level) in *. set (last := last_entry level lastbn) in *.
  pose proof (ptrs_len _ _ _ (ow_wf _ _ _ How)) as Hlen. fold b in Hlen. pose proof (ow_ok _ _ _ How r ltac:(left)) as [_ _ Hnb Hbuf].
  assert (exists d, w_dev w !! b = Some d /\ zlen d = m_bsize fs) as (d & Hd & Hlen') by (pose proof (ow_wf _ _ _ How) as Hw; destruct level; apply Hw).
  set (n := NINDIR fs - 1). set (k := fun bap allerror => r ← trunc_entries fs MAXPHYS sub ip bap f (Z.to_nat (n - last)) n (lbn + 1 - n * f) allerror 0;
    partial sub bap last lastbn f r).
  assert (forall allerror w1, trims w w1 [] [b] -> wp (k (ptrs (w_dev w) b) allerror) (indirtrunc_post level r lastbn w) w1) as Hk.
  { intros allerror w1 Ht1. unfold k. apply wp_bind.
    destruct (pending_after_root w w1 level r (last + 1) (Z.to_nat (n - last)) How Ht1) as [Hpe Htodo]; [lia|lia|]. fold b in Hpe, Htodo.
    replace n with (last + 1 + Z.of_nat (Z.to_nat (n - last)) - 1) at 2 by lia. change 0 with (s64 0).
    eapply wp_mono; [apply (trunc_entries_wp sub level); try done; [apply Ht1|lia|lia]|]. rewrite Htodo.
    intros res w2 [Ht2 Hrel]. rewrite Z.add_0_l in Hrel. eapply partial_wp; try done.
    eapply trims_more; [by eapply trims_trans|done|by rewrite fmap_cons]. }
  assert (wp (error ← buf_meta_bread b (m_bsize fs);
      if negb (error =? 0) then (buf_brelse b;; mret (error, 0))
      else
        d ← buf_dataptr b;
        d' ← lift (clear_tail fs d last);
        buf_store b d';;
        (if last =? -1 then buf_markinvalid b else mret tt);;
        allerror ← (if async then (buf_bdwrite b;; mret 0) else buf_bwrite b);
        k (daddrs d) allerror) (indirtrunc_post level r lastbn w) w) as Hrun.
  { apply wp_bind. apply (read_block_wp _ w b d); [done|done|done|done|]. intros w1 Hid1 Hd1 Ht1. cbn [Z.eqb negb].
    assert (owned w1 level r) as How1.
    { destruct How as [Hw Hnd Hok]. constructor; rewrite Hd1; [done|done|]. intros x Hx. eapply block_ok_trims; [done|by apply Hok|apply not_elem_of_nil]. }
    pose proof (root_wp k (indirtrunc_post level r lastbn w) w1 level r last Hid1 How1 Hlr) as Hroot. fold b in Hroot.
    rewrite Hd1, Hd in Hroot. apply Hroot. intros allerror w2 Ht2. apply Hk. eapply trims_more; [by eapply trims_trans|done|done]. }
  subst sub. destruct level; exact Hrun.
Qed.

(** All levels at once. *)
Lemma indirtrunc_wp level : forall ip lbn r lastbn w,
  idle fs MAXPHYS B I w -> owned w level r -> -1 <= lastbn < NINDIR fs ^ Z.of_nat level * NINDIR fs ->
  wp (ext2_indirtrunc fs MAXPHYS async buf_markinvalid level ip lbn (dev_of r) lastbn) (indirtrunc_post level r lastbn w) w.
Proof.
  induction level as [|l IH]; intros ip lbn r lastbn w Hid How Hlastbn.
  - apply (indirtrunc_run O None); try done.
  - apply (indirtrunc_run (S l) (Some (ext2_indirtrunc fs MAXPHYS async buf_markinvalid l ip))); try done.
    + intros nlbn e w1 Hid1 How1. cbn zeta. eapply wp_mono; [apply (IH ip nlbn e (-1) w1 Hid1 How1); pose proof NINDIR_pos; split; [lia|]|].
      { assert (0 < NINDIR fs ^ Z.of_nat l) by (apply Z.pow_pos_nonneg; lia). nia. }
      unfold indirtrunc_post. by rewrite gone_all.
    + intros nlbn e m w1 Hid1 How1 Hm. apply IH; [done|done|]. rewrite Nat2Z.inj_succ, Z.pow_succ_r in Hm by lia. lia.
Qed.

(** C26: [ext2_indirtrunc] on an indirect block that the file owns, with every
    block under it, and while nobody else writes to the device, returns, frees
    exactly the blocks that lead only to data behind [lastbn], touches no block
    of the device but the bitmaps and the file's own, and counts the sectors of
    what it freed. None of it depends on whether a write fails. *)
Theorem indirtrunc_spec level ip lbn r lastbn w :
  idle fs MAXPHYS B I w -> owned w level r -> -1 <= lastbn < NINDIR fs ^ Z.of_nat level * NINDIR fs ->
  wp (ext2_indirtrunc fs MAXPHYS async buf_markinvalid level ip lbn (dev_of r) lastbn) (fun res w' =>
    let blocks := tree level (w_dev w) (dev_of r) in
    let L := snd <$> filter (fun p => lastbn < fst p) blocks in
    trims w w' L (dev_of <$> r :: (snd <$> blocks)) /\ snd res = s64 (sectors * zlen L)) w.
Proof. apply indirtrunc_wp. Qed.
End trunc.
