(* ===== verification/RwExamples.v ===== *)
(** Runs of the write path on the volume of AllocExamples.v. *)
From stdpp Require Import gmap.
From S2P Require Import Prelude Bitmap Bytes Super SuperExamples Kernel InodeCnv Cluster Alloc AllocSpec AllocExamples Extents Frame Bmap BmapSpec Dir Balloc BallocSpec FileExamples ReadWrite Inode UpdateSpec RwSpec TruncSpec.

Definition write0 (ioflag ip : Z) (u : buio) : M world Z :=
  run_write fs0 MAXPHYS0 1 0 ip (fun _ => false) (fun _ => true) true (fun _ => 0) (fun _ _ _ _ _ _ _ => mret 0)
    (fun _ _ => mret tt) false false false (fun _ => false) ioflag u.

Definition transfer0 (ioflag ip : Z) (u : buio) : M world Z :=
  transfer fs0 MAXPHYS0 1 0 ip (fun _ => false) (fun _ => true) true (fun _ => 0) (fun _ _ _ _ _ _ _ => mret 0)
    (fun _ _ => mret tt) ioflag u.

Lemma keeps_ret {A} (a : A) : kernel_keeps fs0 MAXPHYS0 B0 I0 (mret a).
Proof. intros w Hw. by split. Qed.

(** The first file, with its block of the inode table. *)
Definition table0 : Z := 42.
Definition world1t : world := upd_w_dev (<[table0 := replicate 1024 0]>) world1.

Lemma idle1t : idle fs0 MAXPHYS0 B0 I0 world1t.
Proof.
  destruct idle1 as (Hv & Hlk & Hf). split; [|done]. apply vol_dev; [done|].
  intros cg [-> | ->]%group0_cases; vm_compute; done.
Qed.

(** A synchronous write of 2000 bytes at 5220: blocks 5, 6 and 7 of the file,
    which were holes. *)
Definition uio0 : buio := mk_buio 5220 2000 (replicate 2000 7).

(** What [ext2_update] will need of the world a write leaves. *)
Definition table_view (r : res (Z * world)) : option (option Z * option Z * option (list Z) * option (list Z)) :=
  match r with
  | Ok (_, w) => Some (ext2bgd_i_tables <$> w_gd w !z 1, i_number <$> w_inodes w !! 12, w_bufs w !! table0, w_dev w !! table0)
  | Fault _ => None
  end.

Lemma view0 : table_view (transfer0 IO_SYNC 12 uio0 world1t) = Some (Some 21, Some 12, None, Some (replicate 1024 0)).
Proof. vm_compute. reflexivity. Qed.

Lemma view_inv w gt n d : table_view (Ok (0, w)) = Some (Some gt, Some n, None, Some d) ->
  exists gd i, w_gd w !z 1 = Some gd /\ ext2bgd_i_tables gd = gt /\ w_inodes w !! 12 = Some i /\ i_number i = n /\
    w_bufs w !! table0 = None /\ w_dev w !! table0 = Some d.
Proof.
  unfold table_view. destruct (w_gd w !z 1) as [gd|]; [|done]. destruct (w_inodes w !! 12) as [i|]; [|done].
  cbn [fmap option_fmap option_map]. intros [= <- <- Hb Hd].
  by exists gd, i.
Qed.

Lemma env_table0 : update_env table0.
Proof.
  constructor; [|intros n e; cbn; case_match; [|done]; by intros [= <-]|done].
  intros n w. split; [done|]. split; [done|]. split; [done|]. intros d Hd'. by exists d.
Qed.

Lemma ready0 w1 i1 : transfer0 IO_SYNC 12 uio0 world1t = Ok (0, w1) -> w_inodes w1 !! 12 = Some i1 -> update_ready fs0 w1 i1.
Proof.
  intros Hrun Hi. pose proof view0 as Hv. rewrite Hrun in Hv.
  destruct (view_inv _ _ _ _ Hv) as (gd & i & Hgd & Ht & Hi' & Hn & Hb & Hd).
  rewrite Hi in Hi'. injection Hi' as <-.
  exists gd, (replicate 1024 0). unfold table_block, table_off. rewrite Hn.
  change (ino_to_cg fs0 12) with 1. assert (fsbtodb fs0 (ino_to_fsba fs0 gd 12) = table0) as ->
    by (unfold ino_to_fsba; rewrite Ht; vm_compute; reflexivity).
  split; [exact Hgd|]. split; [exact env_table0|]. split; [exact Hb|]. split; [exact Hd|]. split; [reflexivity|].
  split; vm_compute; discriminate.
Qed.


(** * A full volume *)

Definition gd_at0 (cg : Z) : ext2_gd := default (mk_gd 0 0 0 0 0 0 0 0 0 0 0 0) (gds0 !z cg).

Definition empty_file : inode :=
  mk_inode 0 14 4 0 0 0 0 0 0 0 0x81A4 1 0 0 0 0 0 0 0 0 0 0 0 0 9 0 (replicate 12 0) [0; 0; 0] 0 0 0 0.

(** A synchronous append whose inode cannot be written back: an errno, and the
    size is that of the write. *)
Example write_sync_fails :
  match write0 (Z.lor IO_SYNC IO_APPEND) 14 (mk_buio 0 100 (replicate 100 7))
          (upd_w_tick (fun _ => 2%nat) (upd_w_inodes (<[14 := empty_file]>) world1t)) with
  | Ok (e, w) => (e, i_size <$> w_inodes w !! 14) = (EIO, Some 100)
  | Fault _ => False
  end.
Proof. vm_compute. reflexivity. Qed.

(** One free block is left. *)
Definition full_world : world :=
  upd_w_gd (fun _ => [upd_ext2bgd_nbfree (fun _ => 1) (gd_at0 0); upd_ext2bgd_nbfree (fun _ => 0) (gd_at0 1)])
    (upd_w_fbcount (fun _ => 1)
      (upd_w_dev (fun d => <[6 := bitmap0 255 127]> (<[38 := bitmap0 255 255]> d))
        (upd_w_inodes (<[14 := empty_file]>) (world0 false)))).

(** The first write runs out of room with one block of its two allocated and
    the size still 0; the next one panics. *)
Example write_after_enospc :
  match write0 0 14 (mk_buio 0 2048 (replicate 2048 7)) full_world with
  | Ok (e, w) =>
      e = ENOSPC /\ (i_size <$> w_inodes w !! 14) = Some 0 /\
      write0 0 14 (mk_buio 0 10 (replicate 10 7)) w = Fault (Panic "ext2_balloc: Something is terribly wrong")
  | Fault _ => False
  end.
Proof. vm_compute. split_and!; reflexivity. Qed.
