(* ===== verification/TruncExamples.v ===== *)
(** An indirect block on the volume of AllocExamples.v, for the theorems about
    truncation. *)
From stdpp Require Import gmap.
From S2P Require Import Prelude Bitmap Bytes Super SuperExamples Ihash Kernel InodeCnv Cluster Alloc AllocSpec AllocExamples Extents Bmap BmapSpec Balloc BallocSpec Inode UpdateSpec TruncSpec.
From stdpp Require Import list.
#[local] Open Scope Z_scope.

(** Other threads as in AllocExamples.v, and a device without errors. *)
Definition env_good : KernelEnv :=
  mk_env (fun _ _ => None) (fun _ _ => None) (fun _ _ => false)
    (fun _ _ size => replicate (Z.to_nat size) 0) (fun n => Z.of_nat n) (fun n => (Z.of_nat n, 0))
    (fun _ w => w) (fun _ _ w => settle fs0 B0 I0 w).

Lemma env_ok_good : @env_ok env_good fs0 MAXPHYS0 B0 I0.
Proof.
  constructor; [|intros n b w Hv|done].
  - intros n w Hv. split; [done|]. constructor; try done; eauto.
  - destruct (settle_ok fs0 MAXPHYS0 B0 I0 group_ok0 w Hv) as [H1 H2].
    split; [done|]. split; [done|]. cbn. apply not_elem_of_empty.
Qed.

(** Block 7 is the indirect block, its entry 1 is block 8. *)
Definition indirect7 : list Z := replicate 4 0 ++ [8; 0; 0; 0] ++ replicate 1016 0.
Definition world7 : world := upd_w_dev (<[14 := indirect7]>) (world0 false).

Definition no_inval (b : Z) : M world unit := fun w => Ok (tt, w).

Lemma not_bitmap_even b : b = 14 \/ b = 16 -> not_bitmap fs0 B0 I0 b.
Proof. intros Hb cg Hc%group0_cases. destruct Hb as [-> | ->], Hc as [-> | ->]; vm_compute; done. Qed.

Lemma idle7 : idle fs0 MAXPHYS0 B0 I0 world7.
Proof.
  split; [|split; [done|intros cg Hc; done]]. apply vol_dev; [apply (vol_ok0 false)|]. apply not_bitmap_even. by left.
Qed.

Lemma owned7 : owned fs0 B0 I0 world7 0 7.
Proof.
  assert (tree fs0 0 (w_dev world7) (fsbtodb fs0 7) = [(1, 8)]) as Htree by (vm_compute; reflexivity).
  constructor.
  - split; [|done]. exists indirect7. split; vm_compute; reflexivity.
  - rewrite Htree. apply NoDup_cons. split; [by intros ?%list_elem_of_singleton|]. apply NoDup_singleton.
  - rewrite Htree. cbn [fmap list_fmap snd]. intros d [->| ->%list_elem_of_singleton]%elem_of_cons;
      (constructor; [split; vm_compute; [split; done|done]|eexists; split; vm_compute; reflexivity|apply not_bitmap_even; vm_compute; auto|reflexivity]).
Qed.

Lemma indirtrunc_spec_witness :
  let L := snd <$> filter (fun p => 0 < fst p) (tree fs0 0 (w_dev world7) (fsbtodb fs0 7)) in
  (idle fs0 MAXPHYS0 B0 I0 world7 /\ owned fs0 B0 I0 world7 0 7 /\ L = [8]) /\
  wp (@ext2_indirtrunc env_good fs0 MAXPHYS0 false no_inval 0 12 (-12) (fsbtodb fs0 7) 0) (fun res w' =>
    let blocks := tree fs0 0 (w_dev world7) (fsbtodb fs0 7) in
    let L := snd <$> filter (fun p => 0 < fst p) blocks in
    trims fs0 MAXPHYS0 B0 I0 world7 w' L (fsbtodb fs0 <$> 7 :: (snd <$> blocks)) /\ snd res = s64 (sectors fs0 * zlen L)) world7.
Proof.
  split; [split; [apply idle7|]; split; [apply owned7|vm_compute; reflexivity]|].
  apply (@indirtrunc_spec env_good fs0 MAXPHYS0 B0 I0 group_ok0 layout_ok0 env_ok_good); try done.
  - intros b w d Hd. exists d. unfold no_inval. f_equal. f_equal. destruct w. unfold upd_w_bufs. cbn in *. by rewrite insert_id.
  - apply idle7.
  - apply owned7.
Defined.

(** * Writing inode 2 back *)

Definition world8 : world := upd_w_dev (<[10 := replicate 1024 0]>) (world0 false).

Lemma update_env8 b : update_env b.
Proof.
  constructor; [|intros n e; cbn; case_match; [|done]; by intros [= <-]|done].
  intros n w. split; [done|]. split; [done|]. split; [done|]. intros d Hd. by exists d.
Qed.

(** The owner asked for the times to be brought up to date. *)
Definition inode8 : inode := or_flag IN_UPDATE inode0.
Definition world9 : world := upd_w_inodes (fun _ => {[2 := inode8]}) world8.

Definition gd8 : ext2_gd := mk_gd 3 4 5 8 5 1 0 0 0 0 0 0.

Lemma update_spec_witness :
  let b := fsbtodb fs0 (ino_to_fsba fs0 gd8 2) in let off := m_isize fs0 * ino_to_fsbo fs0 2 in
  (w_inodes world9 !! 2 = Some inode8 /\ b = 10 /\ off = 128) /\
  wp (ext2_update fs0 false false false (fun _ => false) 2 false)
    (update_post fs0 false false (fun _ => false) 2 false b off inode8 world9) world9.
Proof.
  intros b off. split; [split_and!; vm_compute; reflexivity|].
  apply (update_spec fs0 false false false (fun _ => false) 2 false world9 inode8 gd8 (replicate 1024 0)).
  1,2,3,4,6,7,8 : vm_compute; reflexivity.
  - apply update_env8.
  - vm_compute. discriminate.
  - vm_compute. discriminate.
Defined.
