(* ===== verification/Newfs.v ===== *)
(** newfs_ext2fs, mke2fs.c: the geometry of a new volume, its superblock and
    descriptors, the bitmaps and inode tables of the groups, and the first
    directories. Byte order conversions are the identity. *)
From stdpp Require Import gmap.
From S2P Require Import Prelude Tool Bitmap Bytes Super Kernel InodeCnv Dir Mount.

(** * Options, environment and state *)

(** The globals of extern.h, set by the command line. *)
Record newfs_opts : Type := mk_newfs_opts {
  o_Nflag : bool; o_Oflag : Z; o_fssize : Z; o_inodesize : Z; o_sectorsize : Z; o_fsize : Z; o_bsize : Z;
  o_minfree : Z; o_num_inodes : Z; o_volname : option (list Z)
}.

(** The operating system: whether the n-th call that may fail (allocation or
    I/O) succeeds, the n-th random word, and the answers of the clock and the
    user database; and what the machine makes of an unsigned division by zero:
    a number, 0 on arm64, or a trap. *)
Class NewfsEnv := {
  call_ok : nat -> bool;
  random_word : nat -> Z;
  tv_sec : Z;
  geteuid : Z;
  getegid : Z;
  div_zero : option Z
}.

(** [n_fs] is [sblock] with [sb_disk] behind its pointer; the members newfs
    never sets are 0. [n_gd] is the descriptor array, [n_dev] the device as a
    function of the byte offset, [n_calls] and [n_rand] count the uses of the
    environment and [n_cg0_data] is the static of [zap_old_sblock]. *)
Record newfs_state : Type := mk_newfs_state {
  n_fs : m_ext2fs;
  n_gd : list ext2_gd;
  n_iobuf : list Z;
  n_dev : Z -> Z;
  n_calls : nat;
  n_rand : nat;
  n_cg0_data : Z
}.

Definition newfs_state_eta (s : newfs_state) : newfs_state :=
  mk_newfs_state (n_fs s) (n_gd s) (n_iobuf s) (n_dev s) (n_calls s) (n_rand s) (n_cg0_data s).
Definition upd_n_fs : (m_ext2fs -> m_ext2fs) -> newfs_state -> newfs_state := ltac:(mk_setter newfs_state_eta n_fs).
Definition upd_n_gd : (list ext2_gd -> list ext2_gd) -> newfs_state -> newfs_state := ltac:(mk_setter newfs_state_eta n_gd).
Definition upd_n_iobuf : (list Z -> list Z) -> newfs_state -> newfs_state := ltac:(mk_setter newfs_state_eta n_iobuf).
Definition upd_n_dev : ((Z -> Z) -> Z -> Z) -> newfs_state -> newfs_state := ltac:(mk_setter newfs_state_eta n_dev).
Definition upd_n_calls : (nat -> nat) -> newfs_state -> newfs_state := ltac:(mk_setter newfs_state_eta n_calls).
Definition upd_n_rand : (nat -> nat) -> newfs_state -> newfs_state := ltac:(mk_setter newfs_state_eta n_rand).
Definition upd_n_cg0_data : (Z -> Z) -> newfs_state -> newfs_state := ltac:(mk_setter newfs_state_eta n_cg0_data).

(** Changing [sb_disk] through [sblock.e2fs]. *)
Definition with_es (f : ext2fs -> ext2fs) (fs : m_ext2fs) : m_ext2fs :=
  mk_m_ext2fs (f (m_e2fs fs)) (m_bsize fs) (m_bshift fs) (m_bpg fs) (m_qbmask fs) (m_fsbtodb fs) (m_ipg fs) (m_ipb fs)
    (m_itpg fs) (m_fsize fs) (m_fpb fs) (m_fpg fs) (m_gdbcount fs) (m_gcount fs) (m_isize fs) (m_total_dir fs)
    (m_contigdirs fs) (m_maxfilesize fs) (m_gd fs) (m_gdsize fs).

Definition upd_e2fs_block_group_nr : (Z -> Z) -> ext2fs -> ext2fs := ltac:(mk_setter ext2fs_eta e2fs_block_group_nr).
Definition upd_e2fs_features_compat : (Z -> Z) -> ext2fs -> ext2fs := ltac:(mk_setter ext2fs_eta e2fs_features_compat).
Definition upd_e2fs_reserved_ngdb : (Z -> Z) -> ext2fs -> ext2fs := ltac:(mk_setter ext2fs_eta e2fs_reserved_ngdb).

Abbreviation NF := (Tool newfs_state).

(** * Constants *)

Definition EXT2_DEF_MAX_MNT_COUNT : Z := 20.
Definition EXT2_DEF_FSCKINTV : Z := 180 * 24 * 60 * 60.
Definition EXT2_RESERVED_INODES : Z := EXT2_FIRSTINO - 1.
Definition EXT2_UMASK : Z := 0x1ed.
Definition EXT2_LOSTFOUNDSIZE : Z := 16384.
Definition EXT2_LOSTFOUNDINO : Z := EXT2_FIRSTINO.
Definition EXT2_LOSTFOUNDUMASK : Z := 0x1c0.
Definition EXT2_RESIZEINOUMASK : Z := 0x180.
Definition EXT2_RESIZEINO : Z := 7.
Definition NBLOCK_SUPERBLOCK : Z := 1.
Definition NBLOCK_BLOCK_BITMAP : Z := 1.
Definition NBLOCK_INODE_BITMAP : Z := 1.
Definition LOG_MINBSIZE : Z := EXT2_MIN_BLOCK_LOG_SIZE.
Definition MINBSIZE : Z := 1024.
Definition EXT2_MAXBSIZE : Z := 4096.
Definition BBSIZE : Z := 1024.
Definition SBOFF : Z := SBLOCK * 512.
Definition MAXBSIZE : Z := 1048576.
Definition SIZEOF_GD : Z := 32.
Definition UINT16_MAX : Z := 65535.
Definition UINT32_MAX : Z := 4294967295.
Definition E2FS_BEH_DEFAULT : Z := 1.
Definition E2FS_OS_LINUX : Z := 0.

(** The macros of <sys/param.h> on unsigned operands. *)
Definition powerof2 (x : Z) : bool := Z.land (u32 (x - 1)) x =? 0.
Definition udiv (x y : Z) : res Z := if y =? 0 then Fault DivByZero else mret (x / y).
Definition uhowmany (x y : Z) : res Z :=
  if y =? 0 then Fault DivByZero else mret (if x mod y =? 0 then x / y else x / y + 1).
Definition uroundup (x y : Z) : res Z :=
  if y =? 0 then Fault DivByZero else mret (if x mod y =? 0 then x else u32 (x + (y - x mod y))).

(** The superblock and descriptors are copied into a group. *)
Definition has_backup (es : ext2fs) (c : Z) : res bool :=
  if (e2fs_rev es =? E2FS_REV0) || negb (has_feature (e2fs_features_rocompat es) EXT2F_ROCOMPAT_SPARSESUPER)
  then mret true else h ← cg_has_sb (s32 c); mret (negb (h =? 0)).

Definition resizable (es : ext2fs) : bool :=
  (e2fs_rev es >? E2FS_REV0) && has_feature (e2fs_features_compat es) EXT2F_COMPAT_RESIZE.

Definition cgbase (fs : m_ext2fs) (c : Z) : Z := u32 (e2fs_first_dblock (m_e2fs fs) + e2fs_bpg (m_e2fs fs) * c).

Definition NINDIR (fs : m_ext2fs) : Z := m_bsize fs / 4.

(** The blocks of a group that hold its metadata. *)
Definition cgoverhead (fs : m_ext2fs) (c : Z) : res Z :=
  let es := m_e2fs fs in
  let overh := u32 (NBLOCK_BLOCK_BITMAP + NBLOCK_INODE_BITMAP + m_itpg fs) in
  b ← has_backup es c;
  mret (if b : bool then
          let overh := u32 (overh + (NBLOCK_SUPERBLOCK + m_gdbcount fs)) in
          if resizable es then u32 (overh + e2fs_reserved_ngdb es) else overh
        else overh).

(** * Geometry *)

Section newfs.
Context (o : newfs_opts).
Context `{env : NewfsEnv}.

Definition ilog2 (val : Z) : NF Z :=
  if (val =? 0) || negb (powerof2 val) then errx "ilog2: not a power of 2" else mret (ffs val - 1).

(** The checks of the sizes the user asked for. *)
Definition check_sizes : NF unit :=
  _ ← require (powerof2 (o_bsize o)) "block size must be a power of 2";
  _ ← require (powerof2 (o_fsize o)) "fragment size must be a power of 2";
  _ ← require (negb (o_fsize o <? o_sectorsize o)) "fragment size is too small";
  _ ← require (negb (o_bsize o <? MINBSIZE)) "block size is too small";
  _ ← require (negb (o_bsize o >? EXT2_MAXBSIZE)) "block size is too large";
  _ ← require (o_bsize o =? o_fsize o) "block size can't be different from fragment size";
  require (negb ((o_Oflag o =? 0) && negb (o_inodesize o =? E2FS_REV0_INODE_SIZE)))
    "GOOD_OLD_REV file system format doesn't support this inode".

(** The members of the superblocks that follow from the sizes: the logarithms,
    [e2fs_fsbtodb], [e2fs_ipb] and [e2fs_first_dblock]. *)
Record newfs_sizes : Type := mk_newfs_sizes {
  s_log_bsize : Z; s_log_fsize : Z; s_bshift : Z; s_qbmask : Z; s_fsbtodb : Z; s_ipb : Z; s_first_dblock : Z
}.

Definition block_sizes : NF newfs_sizes :=
  lb ← ilog2 (o_bsize o);
  lf ← ilog2 (o_fsize o);
  let log_bsize := u32 (lb - LOG_MINBSIZE) in
  lb ← ilog2 (o_bsize o);
  ls ← ilog2 (o_sectorsize o);
  ipb ← tlift (udiv (o_bsize o) (o_inodesize o));
  mret (mk_newfs_sizes log_bsize (u32 (lf - LOG_MINBSIZE)) (u32 (log_bsize + LOG_MINBSIZE)) (u32 (o_bsize o - 1))
          (u32 (lb - ls)) ipb (if o_bsize o >? BBSIZE then 0 else 1)).

Definition minfssize (sz : newfs_sizes) : Z :=
  s64 (Z.shiftl (s_first_dblock sz + NBLOCK_SUPERBLOCK + 1 + NBLOCK_BLOCK_BITMAP + NBLOCK_INODE_BITMAP + 1 + 1 + 1)
         (s_fsbtodb sz)).

(** The number of blocks, of groups, of descriptor blocks, of inodes and of
    inode table blocks per group, and the size of the last group. *)
Record newfs_geom : Type := mk_newfs_geom {
  g_bcount : Z; g_ncg : Z; g_blocks_gd : Z; g_inodes_per_cg : Z; g_num_inodes : Z; g_iblocks_per_cg : Z;
  g_blocks_per_cg : Z; g_blocks_lastcg : Z
}.

(** The number of inodes, between the reserved ones and what the descriptors
    can count. *)
Definition clamp_inodes (ncg : Z) : Z :=
  let num_inodes := if o_num_inodes o <? EXT2_FIRSTINO then EXT2_FIRSTINO else o_num_inodes o in
  if num_inodes >? u32 (UINT16_MAX * ncg) then u32 (UINT16_MAX * ncg) else num_inodes.

(** [minblocks_per_cg]: what the last group must have room for. *)
Definition minblocks (ncg iblocks_per_cg blocks_gd : Z) : res Z :=
  let minblocks_per_cg := u32 (NBLOCK_BLOCK_BITMAP + NBLOCK_INODE_BITMAP + iblocks_per_cg + 1) in
  backup ← (if o_Oflag o =? 0 then mret true else h ← cg_has_sb (s32 (u32 (ncg - 1))); mret (negb (h =? 0)));
  mret (if backup : bool then u32 (minblocks_per_cg + (NBLOCK_SUPERBLOCK + blocks_gd)) else minblocks_per_cg).

Definition geometry (sz : newfs_sizes) : res newfs_geom :=
  let bcount := u32 (Z.shiftr (o_fssize o) (s_fsbtodb sz)) in
  let blocks_per_cg := u32 (o_bsize o * NBBY) in
  ncg ← uhowmany (u32 (bcount - s_first_dblock sz)) blocks_per_cg;
  blocks_gd ← uhowmany (u64 (SIZEOF_GD * ncg)) (o_bsize o);
  let num_inodes := clamp_inodes ncg in
  inodes_per_cg ← udiv num_inodes ncg;
  iblocks_per_cg ← uhowmany (u32 (o_inodesize o * inodes_per_cg)) (o_bsize o);
  minblocks_per_cg ← minblocks ncg iblocks_per_cg (u32 blocks_gd);
  let blocks_lastcg := u32 (bcount - s_first_dblock sz - blocks_per_cg * (ncg - 1)) in
  '(bcount, ncg, blocks_lastcg, blocks_gd, inodes_per_cg) ←
    (if blocks_lastcg <? minblocks_per_cg then
       let ncg := u32 (ncg - 1) in
       blocks_gd ← uhowmany (u64 (SIZEOF_GD * ncg)) (o_bsize o);
       inodes_per_cg ← udiv num_inodes ncg;
       mret (u32 (bcount - blocks_lastcg), ncg, blocks_per_cg, blocks_gd, inodes_per_cg)
     else mret (bcount, ncg, blocks_lastcg, blocks_gd, inodes_per_cg));
  inodes_per_cg ← uroundup inodes_per_cg (s_ipb sz);
  iblocks_per_cg ← udiv inodes_per_cg (s_ipb sz);
  mret (mk_newfs_geom bcount ncg (u32 blocks_gd) inodes_per_cg (u32 (inodes_per_cg * ncg)) iblocks_per_cg
          blocks_per_cg blocks_lastcg).

(** * The superblock *)

(** Version 4 of the random identifiers. *)
Definition uuid_get (bytes : list Z) : list Z :=
  let set (i : Z) (mask bits : Z) (l : list Z) :=
    zinsert i (Z.lor (Z.land (default 0 (l !z i)) mask) bits) l in
  set 8 0x3f 0x80 (set 6 0x0f 0x40 bytes).

(** [arc4random_buf]: four bytes of every random word. *)
Definition random_bytes (k : nat) : list Z :=
  le_split 4 (random_word k) ++ le_split 4 (random_word (k + 1)) ++ le_split 4 (random_word (k + 2)) ++
  le_split 4 (random_word (k + 3)).

(** [strlcpy(e2fs_vname, volname, 16)] into zeroed memory. *)
Definition vname_bytes (name : list Z) : list Z :=
  let kept := take 15 name in kept ++ replicate (16 - length kept) 0.

(** [sb_disk] before the reserved descriptors and the counts are known. *)
Definition new_superblock (sz : newfs_sizes) (g : newfs_geom) (uuid vname : list Z) : ext2fs :=
  let rev1 := negb (o_Oflag o =? 0) in
  mk_ext2fs (g_num_inodes g) (g_bcount g) (u32 (g_bcount g * o_minfree o) / 100) 0 0
    (s_first_dblock sz) (s_log_bsize sz) (s_log_fsize sz)
    (g_blocks_per_cg g) (g_blocks_per_cg g) (g_inodes_per_cg g)
    0 (u32 tv_sec) 0 EXT2_DEF_MAX_MNT_COUNT E2FS_MAGIC E2FS_ISCLEAN E2FS_BEH_DEFAULT 0
    (u32 tv_sec) EXT2_DEF_FSCKINTV E2FS_OS_LINUX (if rev1 then E2FS_REV1 else E2FS_REV0)
    (u16 geteuid) (u16 getegid)
    EXT2_FIRSTINO (o_inodesize o) 0
    (if rev1 then EXT2F_COMPAT_RESIZE else 0) (if rev1 then EXT2F_INCOMPAT_FTYPE else 0)
    (if rev1 then Z.lor EXT2F_ROCOMPAT_SPARSESUPER EXT2F_ROCOMPAT_LARGEFILE else 0)
    uuid vname (replicate 64 0) 0 0 0 0 (replicate 16 0) 0 0 0 (replicate 4 0) 0 0 0 0 0 0 (replicate 17 0)
    0 0 0 0 0 0 0 0 0 0 0 0 0 0.

(** [sblock]: [e2fs_ipg], [e2fs_bpg], [e2fs_gdsize] and the members behind them
    are never set. *)
Definition new_sblock (sz : newfs_sizes) (g : newfs_geom) (es : ext2fs) : m_ext2fs :=
  mk_m_ext2fs es (o_bsize o) (s_bshift sz) 0 (s_qbmask sz) (s_fsbtodb sz) 0 (s_ipb sz) (g_iblocks_per_cg g)
    (o_fsize o) 0 0 (g_blocks_gd g) (g_ncg g) 0 0 [] 0 [] 0.

(** The blocks kept behind the descriptors so that the volume can grow: those
    of a volume 1024 times as large, as far as one indirect block can name them
    and the last group has room. *)
Definition reserve_ngdb (fs : m_ext2fs) (blocks_lastcg : Z) : res Z :=
  let es := m_e2fs fs in
  let target_blocks := u64 (u32 (e2fs_bcount es - e2fs_first_dblock es) * 1024) in
  let target_blocks := if target_blocks >? UINT32_MAX then UINT32_MAX else target_blocks in
  target_ncg ← uhowmany target_blocks (e2fs_bpg es);
  target_ngdb ← uhowmany (u64 (SIZEOF_GD * u32 target_ncg)) (m_bsize fs);
  let target_ngdb := u32 target_ngdb in
  let target_ngdb := if target_ngdb >? NINDIR fs then NINDIR fs else target_ngdb in
  let reserved_ngdb := u32 (target_ngdb - m_gdbcount fs) in
  overh ← cgoverhead fs (u32 (m_gcount fs - 1));
  let room := u32 (blocks_lastcg - overh) in
  mret (if reserved_ngdb >=? room then room else reserved_ngdb).

Definition set_reserved (fs : m_ext2fs) (blocks_lastcg : Z) : res m_ext2fs :=
  if resizable (m_e2fs fs) then
    n ← reserve_ngdb fs blocks_lastcg;
    let fs := if n =? 0 then with_es (upd_e2fs_features_compat (fun f => Z.ldiff f EXT2F_COMPAT_RESIZE)) fs else fs in
    mret (with_es (upd_e2fs_reserved_ngdb (fun _ => u16 n)) fs)
  else mret fs.

(** * The descriptors *)

Definition zero_gd : ext2_gd := mk_gd 0 0 0 0 0 0 0 0 0 0 0 0.

Definition init_gd (fs : m_ext2fs) (blocks_lastcg cylno : Z) : res ext2_gd :=
  let es := m_e2fs fs in
  let boffset := cgbase fs cylno in
  backup ← has_backup es cylno;
  let boffset :=
    if backup : bool then
      let b := u32 (boffset + (NBLOCK_SUPERBLOCK + m_gdbcount fs)) in
      if resizable es then u32 (b + e2fs_reserved_ngdb es) else b
    else boffset in
  overh ← cgoverhead fs cylno;
  let size := if cylno =? u32 (m_gcount fs - 1) then blocks_lastcg else e2fs_bpg es in
  let nifree := u16 (e2fs_ipg es) in
  mret (mk_gd boffset (u32 (boffset + NBLOCK_BLOCK_BITMAP))
          (u32 (u32 (boffset + NBLOCK_BLOCK_BITMAP) + NBLOCK_INODE_BITMAP))
          (u16 (size - overh)) (if cylno =? 0 then u16 (nifree - EXT2_RESERVED_INODES) else nifree)
          0 0 0 0 0 0 0).

(** The loop over the groups, with the descriptors made so far and the counts. *)
Fixpoint init_gds (fs : m_ext2fs) (blocks_lastcg cylno : Z) (n : nat) (gds : list ext2_gd) (fbcount ficount : Z)
    : res (list ext2_gd * Z * Z) :=
  match n with
  | O => mret (gds, fbcount, ficount)
  | S n' =>
      d ← init_gd fs blocks_lastcg cylno;
      init_gds fs blocks_lastcg (cylno + 1) n' (gds ++ [d])
        (u32 (fbcount + ext2bgd_nbfree d)) (u32 (ficount + ext2bgd_nifree d))
  end.

(** * I/O *)

(** One answer of the operating system. *)
Definition os_call : NF bool :=
  k ← tgets n_calls; _ ← tmodify (upd_n_calls S); mret (call_ok k).

Definition arc4random : NF Z :=
  k ← tgets n_rand; _ ← tmodify (upd_n_rand S); mret (random_word k).

(** [pread] and [pwrite] of [size] bytes at a sector; a negative offset is
    refused. *)
Definition rdfs (bno size : Z) : NF (list Z) :=
  let offset := s32 bno * o_sectorsize o in
  ok ← os_call;
  _ ← require (ok && (0 <=? offset)) "rdfs: read error";
  tgets (fun s => n_dev s <$> seqZ offset size).

Definition write_bytes (offset : Z) (bytes : list Z) (dev : Z -> Z) : Z -> Z :=
  fun i => match bytes !z (i - offset) with Some b => b | None => dev i end.

Definition wtfs (bno size : Z) (bf : list Z) : NF unit :=
  if o_Nflag o then mret tt else
  let offset := s32 bno * o_sectorsize o in
  bytes ← tlift (get_bytes bf 0 (Z.to_nat size));
  ok ← os_call;
  _ ← require (ok && (0 <=? offset)) "wtfs: write error";
  tmodify (upd_n_dev (write_bytes offset bytes)).

(** * The superblock and descriptor copies *)

(** Superblock and descriptors in the I/O buffer, the superblock behind the
    boot block when the group starts with it. *)
Definition fill_iobuf (cylno : Z) : NF Z :=
  fs ← tgets n_fs;
  let sboff := if cgbase fs cylno =? 0 then SBOFF else 0 in
  gds ← tgets n_gd;
  buf ← tgets n_iobuf;
  buf ← tlift (put_bytes buf sboff (sb_bytes (m_e2fs fs) (replicate sizeof_reserved2 0)));
  buf ← tlift (put_bytes buf (m_bsize fs)
                 (mjoin ((fun d => fields_encode gd_layout (gd_fields d)) <$> take (Z.to_nat (m_gcount fs)) gds)));
  _ ← tmodify (upd_n_iobuf (fun _ => buf));
  mret sboff.

(** [write_backup c]: the copy in group [c]. *)
Definition write_backup (cylno : Z) : NF unit :=
  _ ← tmodify (upd_n_fs (with_es (upd_e2fs_block_group_nr (fun _ => u16 cylno))));
  sboff ← fill_iobuf cylno;
  fs ← tgets n_fs;
  buf ← tgets n_iobuf;
  wtfs (fsbtodb fs (cgbase fs cylno) + sboff / o_sectorsize o) (zlen buf - sboff) (drop (Z.to_nat sboff) buf).

(** * The bitmaps and the inode table of a group *)

(** The static [buf] has MAXBSIZE bytes, of which every user writes out the
    first block only: a store behind that block is not kept. *)
Definition buf_in_range (i : Z) : bool := (0 <=? i) && (i <? MAXBSIZE).

Definition buf_store (buf : list Z) (i v : Z) : res (list Z) :=
  if buf_in_range i then mret (zinsert i v buf) else Fault OutOfBounds.

Definition buf_setbit (buf : list Z) (i : Z) : res (list Z) :=
  buf_store buf (i / NBBY) (Z.lor (default 0 (buf !z (i / NBBY))) (Z.shiftl 1 (i mod NBBY))).

(** [memset(&buf[i], v, n)], with [n] a [size_t]. *)
Definition buf_memset (buf : list Z) (i v n : Z) : res (list Z) :=
  if (0 <=? i) && (i + n <=? MAXBSIZE)
  then mret (take (Z.to_nat i) buf ++ replicate (Nat.min (Z.to_nat n) (length buf - Z.to_nat i)) v
             ++ drop (Z.to_nat i + Z.to_nat n) buf)
  else Fault OutOfBounds.

Fixpoint buf_setbits (buf : list Z) (i : Z) (n : nat) : res (list Z) :=
  match n with O => mret buf | S n' => b ← buf_setbit buf i; buf_setbits b (i + 1) n' end.

Fixpoint buf_fill (buf : list Z) (i : Z) (n : nat) : res (list Z) :=
  match n with O => mret buf | S n' => b ← buf_store buf i 0xff; buf_fill b (i + 1) n' end.

(** The block bitmap: the blocks behind the end of the last group and the
    metadata are taken. *)
Definition block_bitmap (fs : m_ext2fs) (cylno : Z) : res (list Z) :=
  let es := m_e2fs fs in
  let buf := replicate (Z.to_nat (m_bsize fs)) 0 in
  buf ← (if cylno =? u32 (m_gcount fs - 1) then
           let nblcg := u32 (e2fs_bcount es - cgbase fs (u32 (m_gcount fs - 1))) in
           up ← uroundup nblcg NBBY;
           buf ← buf_setbits buf nblcg (Z.to_nat (up - nblcg));
           let i := if nblcg <? up then up else nblcg in
           buf_memset buf (i / NBBY) 0xff (u32 (e2fs_bpg es - i))
         else mret buf);
  overh ← cgoverhead fs cylno;
  buf ← buf_fill buf 0 (Z.to_nat (overh / NBBY));
  let i := overh / NBBY * NBBY in
  buf_setbits buf i (Z.to_nat (overh - i)).

Definition inode_bitmap (fs : m_ext2fs) (cylno : Z) : res (list Z) :=
  let buf := replicate (Z.to_nat (m_bsize fs)) 0 in
  let i := e2fs_ipg (m_e2fs fs) / NBBY in
  buf ← buf_memset buf 0 0 i;
  buf ← buf_memset buf i 0xff (u32 (m_bsize fs - i));
  if cylno =? 0 then buf_setbits buf 0 (Z.to_nat EXT2_RESERVED_INODES) else mret buf.

(** A block of inodes, clear but for their generation numbers. *)
Fixpoint set_gens (j : Z) (n : nat) (buf : list Z) : NF (list Z) :=
  match n with
  | O => mret buf
  | S n' => gen ← arc4random; buf ← tlift (put_bytes buf (o_inodesize o * j + 100) (le_split 4 gen)); set_gens (j + 1) n' buf
  end.

Fixpoint init_itable (fs : m_ext2fs) (first i : Z) (n : nat) (buf : list Z) : NF unit :=
  match n with
  | O => mret tt
  | S n' =>
      buf ← set_gens 0 (Z.to_nat (m_ipb fs)) buf;
      _ ← wtfs (fsbtodb fs (u32 (first + i))) (m_bsize fs) buf;
      init_itable fs first (i + 1) n' buf
  end.

(** [gd[c]]; the array was allocated in whole blocks. *)
Definition gd_at (c : Z) : NF ext2_gd := gds ← tgets n_gd; tlift (access (gds !z c)).

Definition initcg (cylno : Z) : NF unit :=
  fs ← tgets n_fs;
  backup ← tlift (has_backup (m_e2fs fs) cylno);
  _ ← (if backup : bool then write_backup cylno else mret tt);
  d ← gd_at cylno;
  buf ← tlift (block_bitmap fs cylno);
  _ ← wtfs (fsbtodb fs (ext2bgd_b_bitmap d)) (m_bsize fs) buf;
  buf ← tlift (inode_bitmap fs cylno);
  _ ← wtfs (fsbtodb fs (ext2bgd_i_bitmap d)) (m_bsize fs) buf;
  init_itable fs (ext2bgd_i_tables d) 0 (Z.to_nat (m_itpg fs)) (replicate (Z.to_nat (m_bsize fs)) 0).

(** * Old superblocks *)

Definition swap32 (v : Z) : Z := foldl (fun acc b => acc * 256 + b) 0 (le_split 4 v).

(** [fs_magics]: word, magic number and mask, up to the terminator. *)
Definition fs_magics : list (Z * Z * Z) :=
  [(14, E2FS_MAGIC, 0xffff); (14, E2FS_MAGIC * 65536, 0xffff0000); (14, 0xef530000, 0xffff0000);
   (343, 0x00011954, 0xffffffff); (343, 0x19540119, 0xffffffff); (0, 0x70162, 0xffffffff)].

(** The word that holds a magic number; a word behind the sector that was read
    is out of bounds. *)
Fixpoint find_magic (magics : list (Z * Z * Z)) (oldfs : list Z) : res (option Z) :=
  match magics with
  | [] => mret None
  | (offset, magic, mask) :: ms =>
      v ← get32 oldfs (4 * offset);
      if (Z.land v mask =? magic) || (Z.land (swap32 v) mask =? magic) then mret (Some offset)
      else find_magic ms oldfs
  end.

Definition zap_old_sblock (sec : Z) : NF unit :=
  if o_Nflag o then mret tt
  else if sec <? SBOFF / o_sectorsize o then mret tt
  else
    fs ← tgets n_fs;
    c ← tgets n_cg0_data;
    _ ← (if c =? 0 then
           overh ← tlift (cgoverhead fs 0);
           tmodify (upd_n_cg0_data (fun _ =>
             s32 (u32 (u32 (e2fs_first_dblock (m_e2fs fs) + overh) * m_bsize fs) / o_sectorsize o)))
         else mret tt);
    cg0_data ← tgets n_cg0_data;
    if sec >=? o_fssize o then mret tt
    else if u32 sec >=? u32 (e2fs_first_dblock (m_e2fs fs) * o_bsize o) / o_sectorsize o then
      (if sec >=? cg0_data then
         size ← tlift (uroundup SBSIZE (o_sectorsize o));
         buf ← tgets n_iobuf;
         wtfs sec size buf
       else mret tt)
    else
      oldfs ← rdfs sec SBSIZE;
      m ← tlift (find_magic fs_magics oldfs);
      match m with
      | None => mret tt
      | Some offset => oldfs ← tlift (put32 oldfs (4 * offset) 0); wtfs sec SBSIZE oldfs
      end.

(** The loop over the places a superblock could be at for one block size; the
    unsigned counter may wrap before it reaches the bound. *)
Fixpoint zap_loop (fuel : nat) (pbsize epblock pblock : Z) : NF unit :=
  if pblock <? epblock then
    match fuel with
    | O => tlift (Fault NoFuel)
    | S fuel' =>
        _ ← zap_old_sblock (s32 (u32 (s32 pblock * pbsize) / o_sectorsize o));
        zap_loop fuel' pbsize epblock (u32 (pblock + pbsize * NBBY))
    end
  else mret tt.

Definition zap_size (pbsize : Z) : NF unit :=
  fs ← tgets n_fs;
  let epblock := u32 (u64 (e2fs_bcount (m_e2fs fs) * o_bsize o) / pbsize) in
  zap_loop (Z.to_nat (epblock / (pbsize * NBBY) + 1)) pbsize epblock (if pbsize =? SBSIZE then 1 else 0).

(** * Blocks and inodes of group 0 *)

(** The bytes of [cp] behind the ones equal to [mask]. *)
Fixpoint skpc (mask : Z) (cp : list Z) : Z :=
  match cp with
  | [] => 0
  | b :: cp' => if b =? u8 mask then skpc mask cp' else zlen cp
  end.

(** The first clear bit of a byte. *)
Fixpoint first_clear (map i : Z) (n : nat) : option Z :=
  match n with
  | O => None
  | S n' => if Z.land map (Z.shiftl 1 i) =? 0 then Some i else first_clear map (i + 1) n'
  end.

(** [gd[c]] changed. *)
Definition set_gd (c : Z) (f : ext2_gd -> ext2_gd) : NF unit :=
  d ← gd_at c; tmodify (upd_n_gd (zinsert c (f d))).

Definition alloc (size mode : Z) : NF Z :=
  fs ← tgets n_fs;
  d ← gd_at 0;
  if ext2bgd_nbfree d =? 0 then mret 0
  else if size >? m_bsize fs then mret 0
  else
    ok ← os_call;
    if negb ok then mret 0
    else
      bbp ← rdfs (fsbtodb fs (ext2bgd_b_bitmap d)) (m_bsize fs);
      let len := e2fs_bpg (m_e2fs fs) / NBBY in
      bytes ← tlift (get_bytes bbp 0 (Z.to_nat len));
      let loc := skpc 0xffffffff bytes in
      if loc =? 0 then mret 0
      else
        let loc := len - loc in
        map ← tlift (byte_at bbp loc);
        match first_clear map 0 8 with
        | None => mret 0
        | Some i =>
            let bno := loc * NBBY + i in
            set ← tlift (isset bbp bno);
            _ ← require (negb set) "alloc: inconsistent bitmap";
            bbp ← tlift (setbit bbp bno);
            _ ← wtfs (fsbtodb fs (ext2bgd_b_bitmap d)) (m_bsize fs) bbp;
            _ ← set_gd 0 (upd_ext2bgd_nbfree (fun n => u16 (n - 1)));
            _ ← (if negb (Z.land mode IFDIR =? 0)
                 then set_gd 0 (upd_ext2bgd_ndirs (fun n => u16 (n + 1))) else mret tt);
            _ ← tmodify (upd_n_fs (with_es (upd_e2fs_fbcount (fun n => u32 (n - 1)))));
            mret (u32 (e2fs_first_dblock (m_e2fs fs) + bno))
        end.

(** [EXT2_DINODE_SIZE]. *)
Definition EXT2_DINODE_SIZE (es : ext2fs) : Z :=
  if e2fs_rev es >? E2FS_REV0 then e2fs_inode_size es else E2FS_REV0_INODE_SIZE.

(** [e2fs_isave]: as many bytes as an inode of the volume has, out of the 156 of
    the structure. *)
Definition e2fs_isave (es : ext2fs) (ip : ext2fs_dinode) (bp : list Z) (off : Z) : res (list Z) :=
  let bytes := fields_encode dinode_layout (dinode_fields ip) ++ fields_encode dinode_extra_layout (dinode_extra_fields ip) in
  bytes ← get_bytes bytes 0 (Z.to_nat (EXT2_DINODE_SIZE es));
  put_bytes bp off bytes.

(** [ino_to_cg] on [sblock], whose [e2fs_ipg] is not the one of the superblock:
    nothing sets it, and every inode put divides by it. *)
Definition newfs_ino_to_cg (fs : m_ext2fs) (ino : Z) : res Z :=
  if m_ipg fs =? 0 then match div_zero with Some q => mret q | None => Fault DivByZero end
  else mret (u64 (ino - 1) / m_ipg fs).

Definition iput (ip : ext2fs_dinode) (ino : Z) : NF unit :=
  ok ← os_call;
  _ ← require ok "iput: can't allocate buffer for inode";
  fs ← tgets n_fs;
  _ ← (if ino >=? EXT2_FIRSTINO then
         c ← tlift (newfs_ino_to_cg fs ino);
         d ← gd_at c;
         _ ← require (negb (ext2bgd_nifree d =? 0)) "iput: no free inode";
         d0 ← gd_at 0;
         bp ← rdfs (fsbtodb fs (ext2bgd_i_bitmap d0)) (m_bsize fs);
         used ← tlift (isset bp (ino - 1));
         _ ← require (negb used) "iput: inode already in use";
         bp ← tlift (setbit bp (ino - 1));
         _ ← wtfs (fsbtodb fs (ext2bgd_i_bitmap d0)) (m_bsize fs) bp;
         _ ← set_gd c (upd_ext2bgd_nifree (fun n => u16 (n - 1)));
         tmodify (upd_n_fs (with_es (upd_e2fs_ficount (fun n => u32 (n - 1)))))
       else mret tt);
  fs ← tgets n_fs;
  _ ← require (negb (ino >=? u32 (e2fs_ipg (m_e2fs fs) * m_gcount fs))) "iput: inode value out of range";
  c ← tlift (newfs_ino_to_cg fs ino);
  gds ← tgets n_gd;
  (* the stride of the table is e2fs_gdsize, which is 0 *)
  d ← gd_at (c * m_gdsize fs / SIZEOF_GD);
  if (e2fs_ipg (m_e2fs fs) =? 0) || (m_ipb fs =? 0) then tlift (Fault DivByZero) else
  let fsba := u64 (ino_to_fsba fs d ino) in
  let sec := s32 (fsbtodb fs fsba) in
  bp ← rdfs sec (m_bsize fs);
  let off := o_inodesize o * ino_to_fsbo fs ino in
  bp ← tlift (e2fs_isave (m_e2fs fs) ip bp off);
  gen ← arc4random;
  bp ← tlift (put32 bp (off + 100) gen);
  wtfs sec (m_bsize fs) bp.

(** * Directories *)

(** An entry of [root_dir] and the like. *)
Record proto : Type := mk_proto { pr_ino : Z; pr_type : Z; pr_name : list Z }.

(** [copy_dir]: header and name, padded with the NULs of the array. *)
Definition copy_dir (p : proto) (reclen : Z) (buf : list Z) (cp : Z) : res (list Z) :=
  put_bytes buf cp (newdir_bytes (pr_ino p) (u16 reclen) (pr_type p) (pr_name p) (replicate 3 0)).

(** All entries but the last, which takes the space that is left. *)
Fixpoint makedir_loop (ps : list proto) (buf : list Z) (cp spcleft : Z) : res (list Z) :=
  match ps with
  | [] => Fault OutOfBounds
  | [p] => copy_dir p spcleft buf cp
  | p :: ps' =>
      let reclen := EXT2_DIR_REC_LEN (zlen (pr_name p)) in
      buf ← copy_dir p reclen buf cp;
      makedir_loop ps' buf (cp + reclen) (u32 (spcleft - reclen))
  end.

Definition makedir (bsize : Z) (ps : list proto) : res (list Z) :=
  makedir_loop ps (replicate (Z.to_nat bsize) 0) 0 bsize.

Definition chars (s : string) : list Z :=
  (fun a => Z.of_N (Ascii.N_of_ascii a)) <$> String.list_ascii_of_string s.

Definition root_dir (type : Z) : list proto :=
  [mk_proto EXT2_ROOTINO type (chars "."); mk_proto EXT2_ROOTINO type (chars "..");
   mk_proto EXT2_LOSTFOUNDINO type (chars "lost+found")].
Definition lost_found_dir (type : Z) : list proto :=
  [mk_proto EXT2_LOSTFOUNDINO type (chars "."); mk_proto EXT2_ROOTINO type (chars "..")].
Definition pad_dir : proto := mk_proto 0 0 [].

(** The [e2d_type] of the first entries. *)
Definition dir_type (es : ext2fs) : Z :=
  if (e2fs_rev es >? E2FS_REV0) && has_feature (e2fs_features_incompat es) EXT2F_INCOMPAT_FTYPE
  then EXT2_FT_DIR else EXT2_FT_UNKNOWN.

(** A zeroed inode with the members that are set. *)
Definition new_dinode (mode size size_high nlink nblock : Z) (blocks : list Z) : ext2fs_dinode :=
  mk_dinode mode (u16 geteuid) size (u32 tv_sec) (u32 tv_sec) (u32 tv_sec) 0 (u16 getegid) nlink nblock 0 0
    blocks 0 0 size_high 0 0 0 0 0 0 0 0 0 0 0 0 0 0 0.

Definition zero_blocks (l : list Z) : list Z := l ++ replicate (15 - length l) 0.

(** The blocks of lost+found behind the first one. *)
Fixpoint alloc_blocks (n : nat) (acc : list Z) : NF (list Z + unit) :=
  match n with
  | O => mret (inl acc)
  | S n' =>
      fs ← tgets n_fs;
      blk ← alloc (m_bsize fs) 0;
      if blk =? 0 then mret (inr tt) else alloc_blocks n' (acc ++ [blk])
  end.

Fixpoint write_pads (blks : list Z) : NF unit :=
  match blks with
  | [] => mret tt
  | b :: bs =>
      fs ← tgets n_fs;
      buf ← tlift (copy_dir pad_dir (m_bsize fs) (replicate (Z.to_nat (m_bsize fs)) 0) 0);
      _ ← wtfs (fsbtodb fs b) (m_bsize fs) buf;
      write_pads bs
  end.

(** * The inode that holds the reserved descriptor blocks *)

(** The second level: where the copies of reserved block [i] lie in the other
    groups, and how many they are. *)
Fixpoint resize_backups (fs : m_ext2fs) (i cylno : Z) (n : nat) (acc : list Z) : NF (list Z) :=
  match n with
  | O => mret acc
  | S n' =>
      h ← (if has_feature (e2fs_features_rocompat (m_e2fs fs)) EXT2F_ROCOMPAT_SPARSESUPER
           then tlift (cg_has_sb (s32 cylno)) else mret 1);
      if h =? 0 then resize_backups fs i (cylno + 1) n' acc
      else
        _ ← require (negb (zlen acc >=? NINDIR fs)) "init_resizeino: too many block groups for the resize feature";
        resize_backups fs i (cylno + 1) n' (acc ++ [u32 (cgbase fs cylno + NBLOCK_SUPERBLOCK + i)])
  end.

(** [reserved_gdb] and [dindir_block] as bytes. *)
Definition indirect_bytes (l : list Z) (n : Z) : list Z :=
  mjoin (le_split 4 <$> (l ++ replicate (Z.to_nat n - length l) 0)).

Fixpoint resize_loop (fs : m_ext2fs) (i : Z) (n : nat) (dindir : list Z) (nblock : Z) : NF (list Z * Z) :=
  match n with
  | O => mret (dindir, nblock)
  | S n' =>
      _ ← require (negb (i >=? NINDIR fs)) "init_resizeino: too many reserved group descriptors for resize inode";
      let home := u32 (cgbase fs 0 + NBLOCK_SUPERBLOCK + i) in
      gdb ← resize_backups fs i 1 (Z.to_nat (m_gcount fs - 1)) [];
      let nblock := u32 (nblock + zlen gdb * fsbtodb fs 1) in
      _ ← wtfs (fsbtodb fs home) (m_bsize fs) (indirect_bytes gdb (NINDIR fs));
      resize_loop fs (i + 1) n' (dindir ++ [home]) (u32 (nblock + fsbtodb fs 1))
  end.

Definition init_resizeino : NF unit :=
  fs ← tgets n_fs;
  let es := m_e2fs fs in
  let isize := u64 (m_bsize fs * 12 + m_bsize fs * NINDIR fs + m_bsize fs * NINDIR fs * NINDIR fs) in
  _ ← require (negb ((isize >? UINT32_MAX) && negb (has_feature (e2fs_features_rocompat es) EXT2F_ROCOMPAT_LARGEFILE)))
        "init_resizeino: large_file rocompat feature is required to enable resize feature";
  let mode := Z.lor IFREG EXT2_RESIZEINOUMASK in
  dbl ← alloc (m_bsize fs) mode;
  _ ← require (negb (dbl =? 0)) "init_resizeino: Can't allocate a dindirect block";
  ok ← os_call;
  _ ← require ok "init_resizeino: Can't allocate buffer for a dindirect block";
  ok ← os_call;
  _ ← require ok "init_resizeino: Can't allocate buffer for group descriptor blocks";
  (* the entries of the descriptors in use are cleared without a check *)
  if m_gdbcount fs >? NINDIR fs then tlift (Fault OutOfBounds) else
  '(dindir, nblock) ← resize_loop fs (m_gdbcount fs) (Z.to_nat (e2fs_reserved_ngdb es))
                        (replicate (Z.to_nat (m_gdbcount fs)) 0) (u32 (fsbtodb fs 1));
  _ ← wtfs (fsbtodb fs dbl) (m_bsize fs) (indirect_bytes dindir (NINDIR fs));
  iput (new_dinode mode (u32 isize) (Z.shiftr isize 32) 1 nblock (zero_blocks (replicate 13 0 ++ [dbl]))) EXT2_RESIZEINO.

(** * The initial file system *)

(** The lost+found directory; [false] when a block is missing. *)
Definition make_lostfound : NF bool :=
  fs ← tgets n_fs;
  buf ← tlift (makedir (m_bsize fs) (lost_found_dir (dir_type (m_e2fs fs))));
  n ← tlift (udiv EXT2_LOSTFOUNDSIZE (m_bsize fs));
  let nblks := if n >? 12 then 12 else n in
  let mode := Z.lor IFDIR EXT2_LOSTFOUNDUMASK in
  blk ← alloc (m_bsize fs) mode;
  if blk =? 0 then mret false else
  blks ← alloc_blocks (Z.to_nat nblks - 1) [blk];
  match blks with
  | inr _ => mret false
  | inl blks =>
      _ ← wtfs (fsbtodb fs blk) (m_bsize fs) buf;
      _ ← write_pads (drop 1 blks);
      _ ← iput (new_dinode mode (u32 (m_bsize fs * nblks)) 0 2 (u32 (fsbtodb fs nblks)) (zero_blocks blks))
            EXT2_LOSTFOUNDINO;
      mret true
  end.

Definition make_root : NF bool :=
  fs ← tgets n_fs;
  buf ← tlift (makedir (m_bsize fs) (root_dir (dir_type (m_e2fs fs))));
  let mode := Z.lor IFDIR EXT2_UMASK in
  blk ← alloc (m_bsize fs) mode;
  if blk =? 0 then mret false else
  _ ← wtfs (fsbtodb fs blk) (m_bsize fs) buf;
  _ ← iput (new_dinode mode (m_bsize fs) 0 3 (u32 (fsbtodb fs 1)) (zero_blocks [blk])) EXT2_ROOTINO;
  mret true.

Definition fsinit : NF bool :=
  fs ← tgets n_fs;
  _ ← (if resizable (m_e2fs fs) then init_resizeino else mret tt);
  ok ← make_lostfound;
  if ok : bool then make_root else mret false.

(** * The program *)

(** Everything up to the first write: sizes, geometry, superblock,
    descriptors and the I/O buffer. *)
Definition prepare : NF unit :=
  _ ← check_sizes;
  sz ← block_sizes;
  _ ← require (negb (o_fssize o <? minfssize sz)) "Filesystem size < minimum size";
  g ← tlift (geometry sz);
  k ← tgets n_rand;
  _ ← tmodify (upd_n_rand (Nat.add 4));
  let uuid := uuid_get (random_bytes k) in
  _ ← require (match o_volname o with Some v => zlen v <=? 16 | None => true end) "Volume name is too long";
  let vname := match o_volname o with Some v => vname_bytes v | None => replicate 16 0 end in
  let fs := new_sblock sz g (new_superblock sz g uuid vname) in
  fs ← tlift (set_reserved fs (g_blocks_lastcg g));
  ok ← os_call;
  _ ← require ok "Can't allocate descriptors buffer";
  '(gds, fbcount, ficount) ← tlift (init_gds fs (g_blocks_lastcg g) 0 (Z.to_nat (g_ncg g)) [] 0 0);
  let fs := with_es (upd_e2fs_fbcount (fun _ => fbcount)) (with_es (upd_e2fs_ficount (fun _ => ficount)) fs) in
  let room := m_gdbcount fs * o_bsize o / SIZEOF_GD in
  _ ← tmodify (upd_n_gd (fun _ => gds ++ replicate (Z.to_nat room - length gds) zero_gd));
  ok ← os_call;
  _ ← require ok "Cannot allocate I/O buffer";
  _ ← tmodify (upd_n_iobuf (fun _ => replicate (Z.to_nat (s32 (u32 ((NBLOCK_SUPERBLOCK + m_gdbcount fs) * m_bsize fs)))) 0));
  tmodify (upd_n_fs (fun _ => fs)).

(** The last block can be reached, and no other superblock is left behind. *)
Definition check_device : NF unit :=
  if o_Nflag o then mret tt else
  _ ← require (negb (o_fssize o <=? 0)) "Preposterous size";
  buf ← tgets n_iobuf;
  _ ← wtfs (o_fssize o - 1) (o_sectorsize o) buf;
  _ ← zap_size 1024;
  _ ← zap_size 2048;
  zap_size 4096.

(** The final copy of the superblock and descriptors. *)
Definition write_master : NF unit := write_backup 0.

(** [mke2fs], without its progress report, which ends the loop over the groups
    early when nothing is written. *)
Definition mke2fs : NF unit :=
  _ ← prepare;
  _ ← check_device;
  fs ← tgets n_fs;
  _ ← tfor 0 (Z.to_nat (m_gcount fs)) initcg;
  if o_Nflag o then mret tt else
  ok ← fsinit;
  _ ← require ok "Error making filesystem";
  write_master.

End newfs.
