(* ===== verification/NewfsSpec.v ===== *)
(** What newfs_ext2fs lays down: the bitmaps of a group describe the group, the
    descriptors count what the bitmaps leave free, the blocks of the first
    directories come from the first free bit, and the superblock is one the
    driver mounts with the geometry newfs used. *)
From stdpp Require Import gmap.
From S2P Require Import Prelude Tool Bitmap Bytes Super Kernel InodeCnv Dir DirSpec Mount MountSpec Newfs.

(** * Stores into the static buffer *)

Lemma zlookup_memset (buf : list Z) i n v k :
  0 <= i -> 0 <= n -> 0 <= k < zlen buf ->
  (take (Z.to_nat i) buf ++ replicate (Nat.min (Z.to_nat n) (length buf - Z.to_nat i)) v
     ++ drop (Z.to_nat i + Z.to_nat n) buf) !z k =
  if (i <=? k) && (k <? i + n) then Some v else buf !z k.
Proof.
  intros Hi Hn Hk. unfold zlen in Hk. rewrite !zlookup_nonneg by lia.
  destruct (decide (k < i)) as [Hlt|Hge].
  - rewrite lookup_app_l by (rewrite length_take; lia). rewrite lookup_take_lt by lia.
    by rewrite (proj2 (Z.leb_gt i k)) by lia.
  - rewrite (proj2 (Z.leb_le i k)) by lia. rewrite lookup_app_r by (rewrite length_take; lia).
    rewrite length_take. replace (Nat.min (Z.to_nat i) (length buf)) with (Z.to_nat i) by lia.
    destruct (Z.ltb_spec k (i + n)).
    + rewrite lookup_app_l by (rewrite length_replicate; lia). apply lookup_replicate_2. lia.
    + rewrite lookup_app_r by (rewrite length_replicate; lia). rewrite length_replicate, lookup_drop.
      f_equal. lia.
Qed.

Lemma memset_len (buf : list Z) i n v :
  0 <= i <= zlen buf -> 0 <= n ->
  zlen (take (Z.to_nat i) buf ++ replicate (Nat.min (Z.to_nat n) (length buf - Z.to_nat i)) v
     ++ drop (Z.to_nat i + Z.to_nat n) buf) = zlen buf.
Proof. unfold zlen. intros. rewrite !length_app, length_take, length_replicate, length_drop. lia. Qed.

(** All eight bits of a byte alike. *)
Lemma fill_byte_bits (b : bool) k : 0 <= k < 8 -> Z.testbit (if b then 255 else 0) k = b.
Proof. intros Hk. destruct b; [|apply Z.bits_0]. change 255 with (Z.ones 8). apply Z.ones_spec_low. lia. Qed.

Lemma buf_memset_bits (v : bool) buf i n :
  0 <= i <= zlen buf -> 0 <= n -> i + n <= MAXBSIZE ->
  exists buf', buf_memset buf i (if v then 255 else 0) n = Ok buf' /\ zlen buf' = zlen buf /\
    forall j, 0 <= j < 8 * zlen buf ->
      bit buf' j = if (8 * i <=? j) && (j <? 8 * (i + n)) then v else bit buf j.
Proof.
  intros Hi Hn Hmax. unfold buf_memset.
  rewrite (proj2 (Z.leb_le 0 i)), (proj2 (Z.leb_le (i + n) MAXBSIZE)) by lia.
  eexists. split; [reflexivity|]. split; [by apply memset_len|]. intros j Hj. unfold bit.
  pose proof (div_NBBY_range j (zlen buf) Hj). pose proof (mod_NBBY_range j) as Hm.
  rewrite zlookup_memset by lia. unfold NBBY in *.
  pose proof (Z.div_mod j 8 ltac:(lia)).
  assert ((i <=? j / 8) && (j / 8 <? i + n) = (8 * i <=? j) && (j <? 8 * (i + n))) as ->.
  { f_equal; apply eq_true_iff_eq; rewrite ?Z.leb_le, ?Z.ltb_lt; lia. }
  destruct ((8 * i <=? j) && (j <? 8 * (i + n))); [by apply fill_byte_bits|done].
Qed.

Lemma buf_store_eq buf i v : 0 <= i < zlen buf -> zlen buf <= MAXBSIZE -> buf_store buf i v = Ok (zinsert i v buf).
Proof.
  intros. unfold buf_store, buf_in_range.
  by rewrite (proj2 (Z.leb_le 0 i)), (proj2 (Z.ltb_lt i MAXBSIZE)) by lia.
Qed.

Lemma buf_setbit_bits buf i :
  0 <= i < 8 * zlen buf -> zlen buf <= MAXBSIZE ->
  exists buf', buf_setbit buf i = Ok buf' /\ zlen buf' = zlen buf /\
    forall j, 0 <= j -> bit buf' j = (j =? i) || bit buf j.
Proof.
  intros Hi Hmax. destruct (setbit_ok buf i Hi) as (buf' & Hs & H). exists buf'. split; [|done].
  rewrite <- Hs. pose proof (div_NBBY_range _ _ Hi) as Hd. unfold buf_setbit. rewrite buf_store_eq by done.
  unfold setbit. case_match; [lia|].
  destruct (byte_at_ok buf (i / NBBY) Hd) as (b & Hb & Hl). by rewrite Hb, Hl.
Qed.

Lemma buf_setbits_bits n : forall buf i,
  0 <= i -> i + Z.of_nat n <= 8 * zlen buf -> zlen buf <= MAXBSIZE ->
  exists buf', buf_setbits buf i n = Ok buf' /\ zlen buf' = zlen buf /\
    forall j, 0 <= j -> bit buf' j = (i <=? j) && (j <? i + Z.of_nat n) || bit buf j.
Proof.
  induction n as [|n IH]; intros buf i Hi Hn Hmax; cbn [buf_setbits].
  - exists buf. split; [done|]. split; [done|]. intros j Hj.
    destruct (Z.leb_spec i j), (Z.ltb_spec j (i + Z.of_nat 0)); by (lia || done).
  - destruct (buf_setbit_bits buf i) as (b1 & Hb1 & Hl1 & Hbit1); [lia|done|]. rewrite Hb1.
    destruct (IH b1 (i + 1)) as (b2 & Hb2 & Hl2 & Hbit2); [lia..|]. cbn. rewrite Hb2.
    exists b2. split; [done|]. split; [lia|]. intros j Hj. rewrite Hbit2, Hbit1 by done. bool_cases.
Qed.

Lemma bit_zinsert_byte bs i b j :
  0 <= i < zlen bs -> 0 <= j ->
  bit (zinsert i b bs) j = if j / 8 =? i then Z.testbit b (j mod 8) else bit bs j.
Proof.
  intros Hi Hj. pose proof (bit_zinsert bs (i * 8) b j) as H. unfold NBBY in H. rewrite Z.div_mul in H by lia.
  by apply H.
Qed.

Lemma buf_fill_bits n : forall buf i,
  0 <= i -> i + Z.of_nat n <= zlen buf -> zlen buf <= MAXBSIZE ->
  exists buf', buf_fill buf i n = Ok buf' /\ zlen buf' = zlen buf /\
    forall j, 0 <= j -> bit buf' j = (8 * i <=? j) && (j <? 8 * (i + Z.of_nat n)) || bit buf j.
Proof.
  induction n as [|n IH]; intros buf i Hi Hn Hmax; cbn [buf_fill].
  - exists buf. split; [done|]. split; [done|]. intros j Hj.
    destruct (Z.leb_spec (8 * i) j), (Z.ltb_spec j (8 * (i + Z.of_nat 0))); by (lia || done).
  - rewrite buf_store_eq by lia. cbn.
    destruct (IH (zinsert i 255 buf) (i + 1)) as (b2 & Hb2 & Hl2 & Hbit2); [lia|rewrite zlen_zinsert; lia..|].
    rewrite Hb2. exists b2. split; [done|]. rewrite zlen_zinsert in Hl2. split; [done|]. intros j Hj.
    rewrite Hbit2 by done. clear Hbit2.
    rewrite bit_zinsert_byte by lia. pose proof (Z.div_mod j 8 ltac:(lia)).
    pose proof (Z.mod_pos_bound j 8 ltac:(lia)).
    destruct (Z.eqb_spec (j / 8) i) as [E|E].
    + rewrite (fill_byte_bits true) by lia.
      bool_cases; apply orb_true_r.
    + f_equal. bool_cases.
Qed.

(** * The volume newfs is about to write *)

(** Whether group [c] has the copies, how many of its blocks are metadata, and
    how many blocks it has. *)
Definition backup_in (fs : m_ext2fs) (c : Z) : bool :=
  match has_backup (m_e2fs fs) c with Ok b => b | Fault _ => false end.

Definition overhead (fs : m_ext2fs) (c : Z) : Z :=
  2 + m_itpg fs +
  (if backup_in fs c then 1 + m_gdbcount fs + (if resizable (m_e2fs fs) then e2fs_reserved_ngdb (m_e2fs fs) else 0) else 0).

Definition group_size (fs : m_ext2fs) (lastcg c : Z) : Z :=
  if c =? m_gcount fs - 1 then lastcg else e2fs_bpg (m_e2fs fs).

(** The groups tile the volume, none is smaller than its metadata, and the
    inodes of a group fill whole blocks of the table and fit its bitmap. *)
Record volume_ok (fs : m_ext2fs) (lastcg : Z) : Prop := mk_volume_ok {
  vo_bsize : m_bsize fs ∈ pow2_sizes;
  vo_first : e2fs_first_dblock (m_e2fs fs) = (if m_bsize fs >? 1024 then 0 else 1);
  vo_bpg : e2fs_bpg (m_e2fs fs) = 8 * m_bsize fs;
  vo_gcount : 0 < m_gcount fs < 177147;
  vo_last : 0 < lastcg <= 8 * m_bsize fs;
  vo_bcount : e2fs_bcount (m_e2fs fs) =
    e2fs_first_dblock (m_e2fs fs) + 8 * m_bsize fs * (m_gcount fs - 1) + lastcg;
  vo_bcount_max : e2fs_bcount (m_e2fs fs) < 2 ^ 32;
  vo_ipb : 0 < m_ipb fs;
  vo_ipg : e2fs_ipg (m_e2fs fs) = m_itpg fs * m_ipb fs;
  vo_ipg_range : EXT2_RESERVED_INODES <= e2fs_ipg (m_e2fs fs) <= 8 * m_bsize fs;
  vo_itpg : 0 < m_itpg fs <= 65536;
  vo_gdbcount : 0 < m_gdbcount fs <= 65536;
  vo_reserved : u16_ok (e2fs_reserved_ngdb (m_e2fs fs));
  vo_room : forall c, 0 <= c < m_gcount fs -> overhead fs c <= group_size fs lastcg c
}.

Lemma has_backup_ok es c : 0 <= c < 177147 -> exists b, has_backup es c = Ok b.
Proof.
  intros Hc. unfold has_backup. case_match; [by eexists|].
  destruct (cg_has_sb_ok c) as (r & Hr & _); [lia|]. rewrite s32_id by (unfold s32_ok; lia). rewrite Hr. by eexists.
Qed.

Lemma backup_in_eq fs c : 0 <= c < 177147 -> has_backup (m_e2fs fs) c = Ok (backup_in fs c).
Proof. intros Hc. unfold backup_in. by destruct (has_backup_ok (m_e2fs fs) c Hc) as [b ->]. Qed.

Section volume.
Context (fs : m_ext2fs) (lastcg : Z) (Hvol : volume_ok fs lastcg).

Lemma volume_numbers :
  1024 <= m_bsize fs <= 4096 /\ 0 <= e2fs_first_dblock (m_e2fs fs) <= 1 /\
  0 <= e2fs_reserved_ngdb (m_e2fs fs) < 65536 /\ 0 < m_itpg fs <= 65536 /\ 0 < m_gdbcount fs <= 65536.
Proof using Hvol.
  pose proof (pow2_sizes_bound _ (vo_bsize _ _ Hvol)) as Hb. pose proof (vo_first _ _ Hvol) as Hf.
  pose proof (vo_reserved _ _ Hvol) as Hr. unfold u16_ok in Hr.
  pose proof (vo_itpg _ _ Hvol). pose proof (vo_gdbcount _ _ Hvol). case_match; lia.
Qed.

Lemma overhead_range c : 2 + m_itpg fs <= overhead fs c < 2 ^ 18.
Proof using Hvol. pose proof volume_numbers. unfold overhead. repeat case_match; lia. Qed.

Lemma cgoverhead_eq c : 0 <= c < m_gcount fs -> cgoverhead fs c = Ok (overhead fs c).
Proof using Hvol.
  intros Hc. pose proof volume_numbers as Hn. pose proof (vo_gcount _ _ Hvol) as Hg. unfold cgoverhead.
  rewrite backup_in_eq by lia. cbn [mbind res_bind]. unfold overhead.
  unfold NBLOCK_BLOCK_BITMAP, NBLOCK_INODE_BITMAP, NBLOCK_SUPERBLOCK.
  destruct (backup_in fs c), (resizable (m_e2fs fs));
    rewrite ?(u32_id (1 + 1 + m_itpg fs)) by (unfold u32_ok; lia); unfold mret, res_ret; f_equal;
    rewrite ?(u32_id (1 + 1 + m_itpg fs + (1 + m_gdbcount fs))) by (unfold u32_ok; lia);
    rewrite ?u32_id by (unfold u32_ok; lia); lia.
Qed.

Lemma cgbase_eq c : 0 <= c < m_gcount fs ->
  cgbase fs c = e2fs_first_dblock (m_e2fs fs) + 8 * m_bsize fs * c /\
  0 <= cgbase fs c /\ cgbase fs c + group_size fs lastcg c <= e2fs_bcount (m_e2fs fs).
Proof using Hvol.
  intros Hc. pose proof volume_numbers as Hn. pose proof (vo_bcount _ _ Hvol) as Hb.
  pose proof (vo_last _ _ Hvol) as Hl. pose proof (vo_bcount_max _ _ Hvol) as Hm.
  unfold cgbase, group_size. rewrite (vo_bpg _ _ Hvol).
  assert (8 * m_bsize fs * c <= 8 * m_bsize fs * (m_gcount fs - 1)) by (apply Z.mul_le_mono_nonneg_l; lia).
  rewrite u32_id by (unfold u32_ok; lia). split; [done|]. split; [lia|].
  destruct (Z.eqb_spec c (m_gcount fs - 1)) as [->|]; [lia|].
  assert (8 * m_bsize fs * (c + 1) <= 8 * m_bsize fs * (m_gcount fs - 1)) by (apply Z.mul_le_mono_nonneg_l; lia). lia.
Qed.

Lemma group_size_range c : 0 <= c < m_gcount fs -> 0 < group_size fs lastcg c <= 8 * m_bsize fs.
Proof using Hvol.
  intros Hc. pose proof volume_numbers. pose proof (vo_last _ _ Hvol). unfold group_size. rewrite (vo_bpg _ _ Hvol).
  case_match; lia.
Qed.

(** The first group's metadata, a whole number of bytes and then bit by bit. *)
Lemma overhead_bits buf c :
  0 <= c < m_gcount fs -> zlen buf = m_bsize fs ->
  exists buf', (b ← buf_fill buf 0 (Z.to_nat (overhead fs c / NBBY));
                buf_setbits b (overhead fs c / NBBY * NBBY) (Z.to_nat (overhead fs c - overhead fs c / NBBY * NBBY))) = Ok buf' /\
    zlen buf' = m_bsize fs /\ forall j, 0 <= j -> bit buf' j = (j <? overhead fs c) || bit buf j.
Proof using Hvol.
  intros Hc Hlen. pose proof volume_numbers as Hn. pose proof (overhead_range c) as Ho.
  pose proof (vo_room _ _ Hvol c Hc) as Hroom. pose proof (group_size_range c Hc) as Hsz.
  pose proof (Z.div_mod (overhead fs c) NBBY ltac:(done)) as Hdm.
  pose proof (mod_NBBY_range (overhead fs c)). unfold NBBY in *.
  destruct (buf_fill_bits (Z.to_nat (overhead fs c / 8)) buf 0) as (b1 & Hb1 & Hl1 & Hbit1);
    [lia|lia|unfold MAXBSIZE; lia|]. rewrite Hb1. cbn [mbind res_bind].
  destruct (buf_setbits_bits (Z.to_nat (overhead fs c - overhead fs c / 8 * 8)) b1 (overhead fs c / 8 * 8))
    as (b2 & Hb2 & Hl2 & Hbit2); [lia|lia|unfold MAXBSIZE; lia|]. rewrite Hb2.
  exists b2. split; [done|]. split; [lia|]. intros j Hj. rewrite Hbit2, Hbit1 by done. rewrite !Z2Nat.id by lia.
  bool_cases.
Qed.

(** The bits behind the end of the last group. *)
Lemma tail_bits buf :
  zlen buf = m_bsize fs ->
  exists buf',
    (up ← uroundup lastcg NBBY;
     buf ← buf_setbits buf lastcg (Z.to_nat (up - lastcg));
     buf_memset buf ((if lastcg <? up then up else lastcg) / NBBY) 0xff
       (u32 (e2fs_bpg (m_e2fs fs) - (if lastcg <? up then up else lastcg)))) = Ok buf' /\
    zlen buf' = m_bsize fs /\ forall j, 0 <= j < 8 * m_bsize fs -> bit buf' j = (lastcg <=? j) || bit buf j.
Proof using Hvol.
  intros Hlen. pose proof volume_numbers as Hn. pose proof (vo_last _ _ Hvol) as Hl.
  rewrite (vo_bpg _ _ Hvol). unfold uroundup, NBBY. cbn [Z.eqb].
  set (up := if lastcg mod 8 =? 0 then lastcg else u32 (lastcg + (8 - lastcg mod 8))).
  assert (lastcg <= up <= 8 * m_bsize fs /\ up mod 8 = 0 /\ up < lastcg + 8) as (Hup & Hup8 & Hup').
  { subst up. pose proof (Z.div_mod lastcg 8 ltac:(lia)). pose proof (Z.mod_pos_bound lastcg 8 ltac:(lia)).
    destruct (Z.eqb_spec (lastcg mod 8) 0); [lia|]. rewrite u32_id by (unfold u32_ok; lia).
    replace (lastcg + (8 - lastcg mod 8)) with ((lastcg / 8 + 1) * 8) by lia. rewrite Z.mod_mul by lia. lia. }
  change (mret up) with (Ok up : res Z). cbn [mbind res_bind].
  replace (if lastcg <? up then up else lastcg) with up by (destruct (Z.ltb_spec lastcg up); lia).
  destruct (buf_setbits_bits (Z.to_nat (up - lastcg)) buf lastcg) as (b1 & Hb1 & Hl1 & Hbit1);
    [lia|lia|unfold MAXBSIZE; lia|]. rewrite Hb1. cbn [mbind res_bind].
  assert (up = 8 * (up / 8)) as Hup3 by (pose proof (Z.div_mod up 8 ltac:(lia)); lia).
  rewrite u32_id by (unfold u32_ok; lia).
  destruct (buf_memset_bits true b1 (up / 8) (8 * m_bsize fs - up)) as (b2 & Hb2 & Hl2 & Hbit2);
    [lia|lia|unfold MAXBSIZE; lia|]. cbn beta iota in Hb2. rewrite Hb2.
  exists b2. split; [done|]. split; [lia|]. intros j Hj.
  rewrite Hbit2, Hbit1 by lia. rewrite Z2Nat.id by lia. bool_cases.
Qed.

Lemma block_bitmap_bits c :
  0 <= c < m_gcount fs ->
  exists bm, block_bitmap fs c = Ok bm /\ zlen bm = m_bsize fs /\
    forall j, 0 <= j < 8 * m_bsize fs -> bit bm j = (j <? overhead fs c) || (group_size fs lastcg c <=? j).
Proof using Hvol.
  intros Hc. pose proof volume_numbers as Hn. pose proof (vo_gcount _ _ Hvol) as Hg.
  pose proof (vo_bcount _ _ Hvol) as Hbc. unfold block_bitmap.
  rewrite (u32_id (m_gcount fs - 1)) by (unfold u32_ok; lia).
  pose proof (cgbase_eq (m_gcount fs - 1) ltac:(lia)) as (Hcb & _).
  replace (u32 (e2fs_bcount (m_e2fs fs) - cgbase fs (m_gcount fs - 1))) with lastcg
    by (rewrite Hcb, Hbc, u32_id; [lia|]; pose proof (vo_last _ _ Hvol); unfold u32_ok; lia).
  set (zeros := replicate (Z.to_nat (m_bsize fs)) 0).
  assert (zlen zeros = m_bsize fs) as Hz by (subst zeros; unfold zlen; rewrite length_replicate; lia).
  assert (forall j, bit zeros j = false) as Hz0.
  { intros j. unfold bit. case_match eqn:E; [|done]. apply zlookup_Some_inv in E as [_ E].
    apply lookup_replicate in E as [-> _]. apply Z.bits_0. }
  assert (exists b1, (if c =? m_gcount fs - 1 then
            up ← uroundup lastcg NBBY;
            buf ← buf_setbits zeros lastcg (Z.to_nat (up - lastcg));
            buf_memset buf ((if lastcg <? up then up else lastcg) / NBBY) 255
              (u32 (e2fs_bpg (m_e2fs fs) - (if lastcg <? up then up else lastcg)))
          else mret zeros) = Ok b1 /\ zlen b1 = m_bsize fs /\
          forall j, 0 <= j < 8 * m_bsize fs -> bit b1 j = (group_size fs lastcg c <=? j)) as (b1 & Hb1 & Hl1 & Hbit1).
  { unfold group_size. rewrite (vo_bpg _ _ Hvol). destruct (c =? m_gcount fs - 1).
    - destruct (tail_bits zeros Hz) as (b & Hb & Hl & Hbit). rewrite (vo_bpg _ _ Hvol) in Hb.
      exists b. split; [done|]. split; [done|]. intros j Hj. by rewrite Hbit, Hz0, orb_false_r.
    - exists zeros. split; [done|]. split; [done|]. intros j Hj. rewrite Hz0.
      by rewrite (proj2 (Z.leb_gt _ _)) by lia. }
  cbv zeta. rewrite Hb1. cbn [mbind res_bind]. rewrite cgoverhead_eq by done. cbn [mbind res_bind].
  destruct (overhead_bits b1 c Hc Hl1) as (b2 & Hb2 & Hl2 & Hbit2). cbn [mbind res_bind] in Hb2. rewrite Hb2.
  exists b2. split; [done|]. split; [done|]. intros j Hj. by rewrite Hbit2, Hbit1 by lia.
Qed.

Lemma init_gd_nbfree c :
  0 <= c < m_gcount fs ->
  exists d, init_gd fs lastcg c = Ok d /\ ext2bgd_nbfree d = group_size fs lastcg c - overhead fs c /\
    ext2bgd_nifree d = e2fs_ipg (m_e2fs fs) - (if c =? 0 then EXT2_RESERVED_INODES else 0) /\
    ext2bgd_b_bitmap d = cgbase fs c + overhead fs c - m_itpg fs - 2 /\
    ext2bgd_i_bitmap d = ext2bgd_b_bitmap d + 1 /\ ext2bgd_i_tables d = ext2bgd_b_bitmap d + 2.
Proof using Hvol.
  intros Hc. pose proof volume_numbers as Hn. pose proof (vo_gcount _ _ Hvol) as Hg.
  pose proof (vo_room _ _ Hvol c Hc) as Hroom. pose proof (group_size_range c Hc) as Hsz.
  pose proof (overhead_range c) as Ho. pose proof (cgbase_eq c Hc) as (Hcb & Hcb0 & Hcb1).
  pose proof (vo_bcount_max _ _ Hvol) as Hm. pose proof (vo_ipg_range _ _ Hvol) as Hi.
  change EXT2_RESERVED_INODES with 10 in *.
  unfold init_gd. rewrite backup_in_eq by lia. cbn [mbind res_bind]. rewrite cgoverhead_eq by done. cbn [mbind res_bind].
  rewrite (u32_id (m_gcount fs - 1)) by (unfold u32_ok; lia).
  change (if c =? m_gcount fs - 1 then lastcg else e2fs_bpg (m_e2fs fs)) with (group_size fs lastcg c).
  eexists. split; [reflexivity|]. cbn. change EXT2_RESERVED_INODES with 10. unfold NBLOCK_SUPERBLOCK, NBLOCK_BLOCK_BITMAP, NBLOCK_INODE_BITMAP.
  assert ((if backup_in fs c then
     if resizable (m_e2fs fs) then u32 (u32 (cgbase fs c + (1 + m_gdbcount fs)) + e2fs_reserved_ngdb (m_e2fs fs))
     else u32 (cgbase fs c + (1 + m_gdbcount fs)) else cgbase fs c) = cgbase fs c + overhead fs c - m_itpg fs - 2) as ->.
  { revert Ho Hroom. unfold overhead. intros Ho Hroom.
    destruct (backup_in fs c), (resizable (m_e2fs fs));
      rewrite ?(u32_id (cgbase fs c + (1 + m_gdbcount fs))) by (unfold u32_ok; lia);
      rewrite ?u32_id by (unfold u32_ok; lia); lia. }
  rewrite (u16_id (group_size fs lastcg c - overhead fs c)) by (unfold u16_ok; lia).
  rewrite (u16_id (e2fs_ipg (m_e2fs fs))) by (unfold u16_ok; lia).
  split; [done|]. split; [destruct (c =? 0); rewrite ?u16_id by (unfold u16_ok; lia); lia|]. split; [done|].
  rewrite (u32_id (cgbase fs c + overhead fs c - m_itpg fs - 2 + 1)) by (unfold u32_ok; lia).
  rewrite u32_id by (unfold u32_ok; lia). lia.
Qed.

End volume.

(** The clear bits of a stretch. *)
Lemma count_clear_stretch bm a b n :
  0 <= a <= b -> (forall j, 0 <= j < Z.of_nat n -> bit bm j = (j <? a) || (b <=? j)) ->
  count_clear bm n = Z.max 0 (Z.min (Z.of_nat n) b - a).
Proof.
  intros Hab. induction n as [|n IH]; intros H; cbn [count_clear]; [lia|].
  rewrite IH by (intros; apply H; lia). rewrite (H (Z.of_nat n)) by lia.
  destruct (Z.ltb_spec (Z.of_nat n) a), (Z.leb_spec b (Z.of_nat n)); cbn; lia.
Qed.

(** C24: for every group of a volume whose geometry is consistent, the block
    bitmap that [initcg] writes is one block long, marks exactly the group's
    metadata and what lies behind its last block, and has as many clear bits as
    the group's descriptor counts free blocks. *)
Theorem initcg_block_bitmap fs lastcg c :
  volume_ok fs lastcg -> 0 <= c < m_gcount fs ->
  exists bm d, block_bitmap fs c = Ok bm /\ init_gd fs lastcg c = Ok d /\ zlen bm = m_bsize fs /\
    (forall j, 0 <= j < 8 * m_bsize fs -> bit bm j = (j <? overhead fs c) || (group_size fs lastcg c <=? j)) /\
    count_clear bm (Z.to_nat (8 * m_bsize fs)) = ext2bgd_nbfree d.
Proof.
  intros Hvol Hc. destruct (block_bitmap_bits fs lastcg Hvol c Hc) as (bm & Hbm & Hl & Hbit).
  destruct (init_gd_nbfree fs lastcg Hvol c Hc) as (d & Hd & Hnb & _).
  exists bm, d. split; [done|]. split; [done|]. split; [done|]. split; [done|].
  pose proof (vo_room _ _ Hvol c Hc). pose proof (group_size_range fs lastcg Hvol c Hc).
  pose proof (overhead_range fs lastcg Hvol c). pose proof (volume_numbers fs lastcg Hvol).
  rewrite (count_clear_stretch bm (overhead fs c) (group_size fs lastcg c)); [lia|lia|].
  intros j Hj. apply Hbit. lia.
Qed.

(** * The inode bitmap *)

Lemma inode_bitmap_bits fs lastcg c :
  volume_ok fs lastcg -> 0 <= c < m_gcount fs ->
  exists bm, inode_bitmap fs c = Ok bm /\ zlen bm = m_bsize fs /\
    forall j, 0 <= j < 8 * m_bsize fs ->
      bit bm j = (j <? (if c =? 0 then EXT2_RESERVED_INODES else 0)) || (e2fs_ipg (m_e2fs fs) / 8 * 8 <=? j).
Proof.
  intros Hvol Hc. pose proof (volume_numbers fs lastcg Hvol) as Hn. pose proof (vo_ipg_range _ _ Hvol) as Hi.
  change EXT2_RESERVED_INODES with 10 in *. unfold inode_bitmap, NBBY.
  set (k := e2fs_ipg (m_e2fs fs) / 8).
  assert (1 <= k <= m_bsize fs) as Hk.
  { subst k. pose proof (Z.div_mod (e2fs_ipg (m_e2fs fs)) 8 ltac:(lia)).
    pose proof (Z.mod_pos_bound (e2fs_ipg (m_e2fs fs)) 8 ltac:(lia)). lia. }
  set (zeros := replicate (Z.to_nat (m_bsize fs)) 0).
  assert (zlen zeros = m_bsize fs) as Hz by (subst zeros; unfold zlen; rewrite length_replicate; lia).
  destruct (buf_memset_bits false zeros 0 k) as (b1 & Hb1 & Hl1 & Hbit1); [lia|lia|unfold MAXBSIZE; lia|].
  cbn beta iota in Hb1. rewrite Hb1. cbn [mbind res_bind]. rewrite u32_id by (unfold u32_ok; lia).
  destruct (buf_memset_bits true b1 k (m_bsize fs - k)) as (b2 & Hb2 & Hl2 & Hbit2); [lia|lia|unfold MAXBSIZE; lia|].
  cbn beta iota in Hb2. rewrite Hb2. cbn [mbind res_bind].
  assert (forall j, 0 <= j < 8 * m_bsize fs -> bit b2 j = (k * 8 <=? j)) as Hbit.
  { intros j Hj. rewrite Hbit2, Hbit1 by lia. bool_cases. }
  destruct (Z.eqb_spec c 0) as [->|Hc0].
  - destruct (buf_setbits_bits (Z.to_nat 10) b2 0) as (b3 & Hb3 & Hl3 & Hbit3); [lia|lia|unfold MAXBSIZE; lia|].
    exists b3. split; [exact Hb3|]. split; [lia|]. intros j Hj. rewrite Hbit3, Hbit by lia. bool_cases.
  - exists b2. split; [done|]. split; [lia|]. intros j Hj. rewrite Hbit by lia. bool_cases.
Qed.

(** The inode bitmap that [initcg] writes clears the inodes of the group
    up to a multiple of eight and marks the reserved ones of group 0 and
    everything behind. The descriptor of the group counts [e2fs_ipg mod 8] more
    free inodes than the bitmap has clear bits; the comment of the code takes
    that remainder to be 0, which does not hold for four inodes in a block. *)
Theorem initcg_inode_bitmap fs lastcg c :
  volume_ok fs lastcg -> 0 <= c < m_gcount fs -> 16 <= e2fs_ipg (m_e2fs fs) ->
  exists bm d, inode_bitmap fs c = Ok bm /\ init_gd fs lastcg c = Ok d /\ zlen bm = m_bsize fs /\
    (forall j, 0 <= j < 8 * m_bsize fs ->
      bit bm j = (j <? (if c =? 0 then EXT2_RESERVED_INODES else 0)) || (e2fs_ipg (m_e2fs fs) / 8 * 8 <=? j)) /\
    count_clear bm (Z.to_nat (e2fs_ipg (m_e2fs fs))) = ext2bgd_nifree d - e2fs_ipg (m_e2fs fs) mod 8.
Proof.
  intros Hvol Hc H16. destruct (inode_bitmap_bits fs lastcg c Hvol Hc) as (bm & Hbm & Hl & Hbit).
  destruct (init_gd_nbfree fs lastcg Hvol c Hc) as (d & Hd & _ & Hni & _).
  exists bm, d. split; [done|]. split; [done|]. split; [done|]. split; [done|]. rewrite Hni.
  pose proof (vo_ipg_range _ _ Hvol) as Hi. change EXT2_RESERVED_INODES with 10 in *.
  pose proof (Z.div_mod (e2fs_ipg (m_e2fs fs)) 8 ltac:(lia)).
  pose proof (Z.mod_pos_bound (e2fs_ipg (m_e2fs fs)) 8 ltac:(lia)).
  rewrite (count_clear_stretch bm (if c =? 0 then 10 else 0) (e2fs_ipg (m_e2fs fs) / 8 * 8));
    [destruct (c =? 0); lia|destruct (c =? 0); lia|]. intros j Hj. apply Hbit. lia.
Qed.

(** * The descriptors and the counts of the superblock *)

Lemma sumZ_app l k : sumZ (l ++ k) = sumZ l + sumZ k.
Proof. unfold sumZ. induction l as [|x l IH]; cbn; lia. Qed.

Lemma u32_add a b : u32 (u32 a + b) = u32 (a + b).
Proof. unfold u32. apply Zplus_mod_idemp_l. Qed.

Lemma init_gds_run fs lastcg n : forall c gds fb fi,
  (forall i, c <= i < c + Z.of_nat n -> exists d, init_gd fs lastcg i = Ok d) ->
  exists ds, init_gds fs lastcg c n gds (u32 fb) (u32 fi) =
    Ok (gds ++ ds, u32 (fb + sumZ (ext2bgd_nbfree <$> ds)), u32 (fi + sumZ (ext2bgd_nifree <$> ds))) /\
    length ds = n /\ forall k d, ds !! k = Some d -> init_gd fs lastcg (c + Z.of_nat k) = Ok d.
Proof.
  induction n as [|n IH]; intros c gds fb fi Hex; cbn [init_gds].
  - exists []. rewrite app_nil_r. cbn. rewrite !Z.add_0_r. split; [done|]. split; [done|]. intros k d Hk. done.
  - destruct (Hex c ltac:(lia)) as [d Hd]. rewrite Hd. cbn [mbind res_bind]. rewrite !u32_add.
    destruct (IH (c + 1) (gds ++ [d]) (fb + ext2bgd_nbfree d) (fi + ext2bgd_nifree d)) as (ds & Hds & Hlen & Hlk).
    { intros i Hi. apply Hex. lia. }
    exists (d :: ds). rewrite Hds. rewrite <- app_assoc. cbn [fmap list_fmap app]. unfold sumZ. cbn [foldr]. rewrite !Z.add_assoc.
    split; [done|]. split; [cbn; lia|]. intros [|k] d' Hk; cbn in Hk.
    + simplify_eq. by rewrite Z.add_0_r.
    + apply Hlk in Hk. rewrite <- Hk. f_equal. lia.
Qed.

(** The free blocks and inodes the descriptors of a volume count. *)
Definition free_blocks (fs : m_ext2fs) (lastcg : Z) (n : nat) : Z :=
  sumZ ((fun c => group_size fs lastcg c - overhead fs c) <$> seqZ 0 (Z.of_nat n)).

Lemma sum_nbfree fs lastcg ds :
  volume_ok fs lastcg -> Z.of_nat (length ds) <= m_gcount fs ->
  (forall k d, ds !! k = Some d -> init_gd fs lastcg (Z.of_nat k) = Ok d) ->
  sumZ (ext2bgd_nbfree <$> ds) = free_blocks fs lastcg (length ds) /\
  sumZ (ext2bgd_nifree <$> ds) =
    e2fs_ipg (m_e2fs fs) * Z.of_nat (length ds) - (if decide (ds = []) then 0 else EXT2_RESERVED_INODES).
Proof.
  intros Hvol. unfold free_blocks. induction ds as [|d ds IH] using rev_ind; intros Hlen Hd.
  - split; [done|]. rewrite decide_True by done. cbn. lia.
  - rewrite length_app in *. cbn [length] in *.
    destruct IH as [IH1 IH2]; [lia| |].
    { intros k d' Hk. apply Hd. apply lookup_app_l_Some. done. }
    destruct (init_gd_nbfree fs lastcg Hvol (Z.of_nat (length ds)) ltac:(lia)) as (d' & Hd' & Hnb & Hni & _).
    rewrite (Hd (length ds) d) in Hd' by (rewrite lookup_app_r, Nat.sub_diag by lia; done). injection Hd' as <-.
    rewrite !fmap_app, !sumZ_app, IH1, IH2. cbn [fmap list_fmap]. unfold sumZ at 2 4. cbn [foldr].
    rewrite Nat2Z.inj_add, Hnb, Hni. split.
    + rewrite seqZ_app, fmap_app, sumZ_app by lia. f_equal.
    + rewrite (decide_False (P := ds ++ [d] = [])) by (by destruct ds).
      destruct ds as [|d0 ds].
      { rewrite decide_True by done. cbn [length]. change (Z.of_nat 0 =? 0) with true. cbn beta iota. lia. }
      rewrite decide_False by done. rewrite (proj2 (Z.eqb_neq _ 0)) by (cbn; lia). lia.
Qed.

(** * From the options to the volume *)

(** Options that [check_sizes] and the command line admit, for 512-byte
    sectors. *)
Record opts_ok (o : newfs_opts) : Prop := mk_opts_ok {
  oo_bsize : o_bsize o ∈ pow2_sizes;
  oo_fsize : o_fsize o = o_bsize o;
  oo_sectorsize : o_sectorsize o = 512;
  oo_inodesize : o_inodesize o = 128 \/ o_inodesize o = 256 /\ o_Oflag o <> 0;
  oo_num_inodes : u32_ok (o_num_inodes o);
  oo_fssize : 0 <= o_fssize o < 2 ^ 41;
  oo_blocks : Z.shiftr (o_fssize o) (Z.log2 (o_bsize o) - 9) < 2 ^ 32
}.

Definition sizes_of (o : newfs_opts) : newfs_sizes :=
  mk_newfs_sizes (Z.log2 (o_bsize o) - 10) (Z.log2 (o_bsize o) - 10) (Z.log2 (o_bsize o)) (o_bsize o - 1)
    (Z.log2 (o_bsize o) - 9) (o_bsize o / o_inodesize o) (if o_bsize o >? 1024 then 0 else 1).

Lemma pow2_size_cases b : b ∈ pow2_sizes -> b = 1024 \/ b = 2048 \/ b = 4096.
Proof. unfold pow2_sizes. rewrite !elem_of_cons, elem_of_nil. tauto. Qed.

Lemma block_sizes_run o w : opts_ok o -> block_sizes o w = Ok (Done (sizes_of o), w).
Proof.
  intros [Hb Hf Hs Hi _ _]. unfold block_sizes, sizes_of. rewrite Hf, Hs.
  apply pow2_size_cases in Hb as [Hb|[Hb|Hb]]; destruct Hi as [Hi|[Hi _]]; rewrite Hb, Hi; reflexivity.
Qed.

Lemma check_sizes_run o w : opts_ok o -> check_sizes o w = Ok (Done tt, w).
Proof.
  intros [Hb Hf Hs Hi _ _]. unfold check_sizes. rewrite Hf, Hs, Z.eqb_refl.
  assert ((o_Oflag o =? 0) && negb (o_inodesize o =? E2FS_REV0_INODE_SIZE) = false) as ->.
  { destruct Hi as [->|[_ Hi]]; [by rewrite andb_false_r|]. by rewrite (proj2 (Z.eqb_neq _ _) Hi). }
  apply pow2_size_cases in Hb as [Hb|[Hb|Hb]]; rewrite Hb; reflexivity.
Qed.

Lemma uhowmany_spec x y r : 0 <= x -> 0 < y -> uhowmany x y = Ok r -> (r - 1) * y < x <= r * y.
Proof.
  intros Hx Hy. unfold uhowmany. rewrite (proj2 (Z.eqb_neq y 0)) by lia. intros [= <-].
  pose proof (Z.div_mod x y ltac:(lia)). pose proof (Z.mod_pos_bound x y Hy).
  destruct (Z.eqb_spec (x mod y) 0); nia.
Qed.

Lemma uhowmany_run x y : 0 < y -> uhowmany x y = Ok (if x mod y =? 0 then x / y else x / y + 1).
Proof. intros. unfold uhowmany. by rewrite (proj2 (Z.eqb_neq y 0)) by lia. Qed.

Lemma uroundup_spec x y r : 0 <= x -> 0 < y -> x + y < 2 ^ 32 -> uroundup x y = Ok r -> x <= r < x + y /\ r = r / y * y.
Proof.
  intros Hx Hy Hmax. unfold uroundup. rewrite (proj2 (Z.eqb_neq y 0)) by lia. intros [= <-].
  pose proof (Z.div_mod x y ltac:(lia)). pose proof (Z.mod_pos_bound x y Hy).
  destruct (Z.eqb_spec (x mod y) 0) as [E|E].
  - split; [lia|]. lia.
  - rewrite u32_id by (unfold u32_ok; lia). split; [lia|].
    replace (x + (y - x mod y)) with ((x / y + 1) * y) by lia. by rewrite Z.div_mul by lia.
Qed.

Lemma clamp_inodes_range o ncg : 0 < ncg -> opts_ok o -> 0 <= clamp_inodes o ncg /\ clamp_inodes o ncg <= 65535 * ncg /\ clamp_inodes o ncg < 2 ^ 32.
Proof.
  intros Hn Ho. pose proof (oo_num_inodes _ Ho) as Hni. unfold u32_ok in Hni. unfold clamp_inodes, UINT16_MAX.
  change EXT2_FIRSTINO with 11. set (m := if o_num_inodes o <? 11 then 11 else o_num_inodes o).
  assert (0 <= m < 2 ^ 32) by (subst m; case_match; lia). clearbody m.
  pose proof (u32_range (65535 * ncg)) as Hr. unfold u32_ok in Hr.
  assert (u32 (65535 * ncg) <= 65535 * ncg) by (unfold u32; apply Z.mod_le; lia).
  destruct (m >? u32 (65535 * ncg)) eqn:E; lia.
Qed.

(** What [geometry] returns. The two middle members of the list say whether the
    last group was kept. *)
Record geom_ok (o : newfs_opts) (g : newfs_geom) : Prop := mk_geom_ok {
  go_ncg : 0 < g_ncg g <= 2 ^ 19;
  go_last : 0 < g_blocks_lastcg g <= 8 * o_bsize o;
  go_bcount : g_bcount g = (if o_bsize o >? 1024 then 0 else 1) + 8 * o_bsize o * (g_ncg g - 1) + g_blocks_lastcg g;
  go_bcount_max : g_bcount g < 2 ^ 32;
  go_bpg : g_blocks_per_cg g = 8 * o_bsize o;
  go_gd : (g_blocks_gd g - 1) * o_bsize o < 32 * g_ncg g <= g_blocks_gd g * o_bsize o;
  go_ipg : g_inodes_per_cg g = g_iblocks_per_cg g * (o_bsize o / o_inodesize o);
  go_icount : g_num_inodes g = u32 (g_inodes_per_cg g * g_ncg g);
  go_room : g_blocks_lastcg g = 8 * o_bsize o \/
    exists h, (o_Oflag o = 0 /\ h = 1 \/ o_Oflag o <> 0 /\ cg_has_sb (g_ncg g - 1) = Ok h) /\
      3 + g_iblocks_per_cg g + (if h =? 0 then 0 else 1 + g_blocks_gd g) <= g_blocks_lastcg g
}.

Lemma u64_id z : u64_ok z -> u64 z = z.
Proof. unfold u64, u64_ok. intros. by apply Z.mod_small. Qed.

Lemma res_bind_inv {A B} (m : res A) (k : A -> res B) b : m ≫= k = Ok b -> exists a, m = Ok a /\ k a = Ok b.
Proof. destruct m as [a|f]; [by exists a|done]. Qed.

Tactic Notation "bind_inv" hyp(H) "as" simple_intropattern(x) simple_intropattern(E) :=
  apply res_bind_inv in H as (x & E & H).

Lemma udiv_inv x y r : udiv x y = Ok r -> y <> 0 /\ r = x / y.
Proof. unfold udiv. case_match eqn:E; [done|]. intros [= <-]. split; [lia|done]. Qed.

(** The blocks of the inode table, computed from bytes before the inodes are
    rounded up to whole blocks and from blocks afterwards. *)
Lemma itable_blocks b isize ipg k ipg' :
  b ∈ pow2_sizes -> isize = 128 \/ isize = 256 -> 0 <= ipg <= 65535 ->
  uhowmany (u32 (isize * ipg)) b = Ok k -> uroundup ipg (b / isize) = Ok ipg' -> ipg' / (b / isize) = k.
Proof.
  intros Hb Hi Hg Hk Hr. pose proof (pow2_sizes_bound _ Hb). rewrite u32_id in Hk by (unfold u32_ok; lia).
  apply uhowmany_spec in Hk; [|lia..].
  assert (b / isize * isize = b /\ 4 <= b / isize <= 32) as [Hd Hd4].
  { apply pow2_size_cases in Hb. destruct Hb as [->|[->| ->]], Hi as [->| ->]; vm_compute; split; try done; lia. }
  apply uroundup_spec in Hr as [Hr1 Hr2]; [|lia..]. set (q := ipg' / (b / isize)) in *. nia.
Qed.

Lemma clamp_per_group o ncg ncg0 : 0 < ncg -> ncg0 <= ncg + 1 -> 0 < ncg0 -> opts_ok o ->
  0 <= clamp_inodes o ncg0 / ncg /\ clamp_inodes o ncg0 / ncg <= 131070 /\ (ncg = ncg0 -> clamp_inodes o ncg0 / ncg <= 65535).
Proof.
  intros Hn Hle Hn0 Ho. destruct (clamp_inodes_range o ncg0 Hn0 Ho) as (H1 & H2 & _).
  split; [apply Z.div_pos; lia|]. split; [|intros ->]; apply Z.div_le_upper_bound; lia.
Qed.

Lemma minblocks_inv o ncg it gd minb :
  0 < ncg < 2 ^ 31 -> 0 <= it < 2 ^ 30 -> 0 <= gd < 2 ^ 30 -> minblocks o ncg it (u32 gd) = Ok minb ->
  exists h, (o_Oflag o = 0 /\ h = 1 \/ o_Oflag o <> 0 /\ cg_has_sb (ncg - 1) = Ok h) /\
    minb = 3 + it + (if h =? 0 then 0 else 1 + gd).
Proof.
  intros Hn Hit Hgd H. unfold minblocks in H.
  unfold NBLOCK_BLOCK_BITMAP, NBLOCK_INODE_BITMAP, NBLOCK_SUPERBLOCK in H.
  rewrite (u32_id gd), (u32_id (1 + 1 + it + 1)), (u32_id (1 + 1 + it + 1 + (1 + gd))) in H by (unfold u32_ok; lia).
  rewrite (u32_id (ncg - 1)) in H by (unfold u32_ok; lia). rewrite s32_id in H by (unfold s32_ok; lia).
  bind_inv H as bk Hbk. destruct (Z.eqb_spec (o_Oflag o) 0) as [E|E].
  - injection Hbk as <-. injection H as <-. exists 1. split; [by left|]. cbn [Z.eqb]. lia.
  - bind_inv Hbk as h Hh. injection Hbk as <-. exists h. split; [by right|].
    destruct (h =? 0); cbn [negb] in H; injection H as <-; lia.
Qed.

Lemma geometry_inv o g :
  opts_ok o -> minfssize (sizes_of o) <= o_fssize o -> geometry o (sizes_of o) = Ok g -> geom_ok o g.
Proof.
  intros Ho Hmin H. pose proof (oo_bsize _ Ho) as Hb. pose proof (pow2_sizes_bound _ Hb) as Hbb.
  pose proof (oo_blocks _ Ho) as Hbl. pose proof (oo_fssize _ Ho) as Hfs.
  assert (o_inodesize o = 128 \/ o_inodesize o = 256) as Hisz by (destruct (oo_inodesize _ Ho) as [|[]]; auto).
  assert (4 <= o_bsize o / o_inodesize o <= 32) as Hipb.
  { apply pow2_size_cases in Hb. destruct Hb as [->|[->| ->]], Hisz as [->| ->]; vm_compute; split; done. }
  unfold geometry in H. cbn [s_fsbtodb s_first_dblock s_ipb sizes_of] in H. cbv zeta in H.
  set (bc := o_fssize o ≫ (Z.log2 (o_bsize o) - 9)) in *. set (first := if o_bsize o >? 1024 then 0 else 1) in *.
  assert (0 <= first <= 1) as Hf by (subst first; case_match; lia).
  assert (first + 7 <= bc) as Hbc.
  { unfold minfssize, sizes_of in Hmin. cbn [s_first_dblock s_fsbtodb] in Hmin. fold first in Hmin.
    unfold NBLOCK_SUPERBLOCK, NBLOCK_BLOCK_BITMAP, NBLOCK_INODE_BITMAP in Hmin.
    assert (1 <= Z.log2 (o_bsize o) - 9 <= 3) as Hsh by (apply pow2_size_cases in Hb as [->|[->| ->]]; vm_compute; split; done).
    subst bc. rewrite Z.shiftr_div_pow2 by lia. rewrite Z.shiftl_mul_pow2 in Hmin by lia.
    assert (2 ^ 1 <= 2 ^ (Z.log2 (o_bsize o) - 9) <= 2 ^ 3) by (split; apply Z.pow_le_mono_r; lia).
    rewrite s64_id in Hmin by (unfold s64_ok; nia). apply Z.div_le_lower_bound; [lia|]. lia. }
  rewrite (u32_id bc) in H by (unfold u32_ok; lia). rewrite (u32_id (bc - first)) in H by (unfold u32_ok; lia).
  unfold NBBY in H. rewrite (Z.mul_comm (o_bsize o) 8) in H. rewrite (u32_id (8 * o_bsize o)) in H by (unfold u32_ok; lia).
  bind_inv H as ncg Hncg. apply uhowmany_spec in Hncg as [Hncg1 Hncg2]; [|lia..].
  assert (0 < ncg <= 2 ^ 19) as Hn by nia.
  bind_inv H as gd0 Hgd0. rewrite (u64_id (SIZEOF_GD * ncg)) in Hgd0 by (unfold u64_ok, SIZEOF_GD; lia).
  bind_inv H as ipg0 Hipg0. apply udiv_inv in Hipg0 as [_ ->].
  bind_inv H as it0 Hit0. bind_inv H as minb Hminb.
  rewrite (u32_id (bc - first - 8 * o_bsize o * (ncg - 1))) in H by (unfold u32_ok; nia).
  set (last := bc - first - 8 * o_bsize o * (ncg - 1)) in *.
  assert (0 < last <= 8 * o_bsize o) as Hlast by (subst last; lia).
  assert (0 <= 8 * o_bsize o * (ncg - 1)) as Hprod by (apply Z.mul_nonneg_nonneg; lia).
  bind_inv H as t Ht. destruct t as [[[[bc' ncg'] last'] gd'] ipg'].
  bind_inv H as ipg Hipg. bind_inv H as it Hit. apply udiv_inv in Hit as [_ ->]. injection H as <-.
  assert (o_inodesize o = 128 \/ o_inodesize o = 256) as Hisz' by done.
  destruct (Z.ltb_spec last minb) as [Hlt|Hge].
  - (* the last group is dropped *)
    destruct (decide (ncg = 1)) as [->|Hn1].
    { bind_inv Ht as g1 Hg1. bind_inv Ht as i1 Hi1. apply udiv_inv in Hi1 as [Hi1 _]. by exfalso. }
    rewrite (u32_id (ncg - 1)) in Ht by (unfold u32_ok; lia).
    bind_inv Ht as g1 Hg1. rewrite (u64_id (SIZEOF_GD * (ncg - 1))) in Hg1 by (unfold u64_ok, SIZEOF_GD; lia).
    apply uhowmany_spec in Hg1; [|unfold SIZEOF_GD; lia..].
    bind_inv Ht as i1 Hi1. apply udiv_inv in Hi1 as [_ ->]. rewrite (u32_id (bc - last)) in Ht by (unfold u32_ok; lia).
    injection Ht as <- <- <- <- <-.
    destruct (clamp_per_group o (ncg - 1) ncg) as (Hc1 & Hc2 & _); [lia..|done|].
    apply uroundup_spec in Hipg as [Hr1 Hr2]; [|lia..].
    unfold SIZEOF_GD in Hg1. assert (0 <= g1 < 2 ^ 32) by nia.
    constructor; cbn [g_ncg g_blocks_lastcg g_bcount g_blocks_per_cg g_blocks_gd g_inodes_per_cg g_iblocks_per_cg g_num_inodes];
      rewrite ?(u32_id g1) by (unfold u32_ok; lia); try lia; try done.
  - injection Ht as <- <- <- <- <-.
    destruct (clamp_per_group o ncg ncg) as (Hc1 & _ & Hc2); [lia..|done|]. specialize (Hc2 eq_refl).
    pose proof (itable_blocks _ _ _ _ _ Hb Hisz (conj Hc1 Hc2) Hit0 Hipg) as Hit.
    apply uroundup_spec in Hipg as [Hr1 Hr2]; [|lia..].
    apply uhowmany_spec in Hgd0; [|unfold SIZEOF_GD; lia..].
    unfold SIZEOF_GD in Hgd0. assert (0 <= gd0 < 2 ^ 32) by nia.
    constructor; cbn [g_ncg g_blocks_lastcg g_bcount g_blocks_per_cg g_blocks_gd g_inodes_per_cg g_iblocks_per_cg g_num_inodes];
      rewrite ?(u32_id gd0) by (unfold u32_ok; lia); try lia; try done. right.
    apply (minblocks_inv o ncg it0 gd0 minb) in Hminb as (h & Hh & Hm); [|nia..].
    exists h. split; [done|]. rewrite Hit. lia.
Qed.

(** The superblocks before the reserved blocks are known. *)
Definition plain_sblock (o : newfs_opts) `{NewfsEnv} (g : newfs_geom) (uuid vname : list Z) : m_ext2fs :=
  new_sblock o (sizes_of o) g (new_superblock o (sizes_of o) g uuid vname).

(** The inodes of a group fit its bitmap and the descriptors the resize inode. *)
Record geom_fits (o : newfs_opts) (g : newfs_geom) : Prop := mk_geom_fits {
  gf_ipg : EXT2_RESERVED_INODES <= g_inodes_per_cg g <= 8 * o_bsize o;
  gf_gd : g_blocks_gd g <= o_bsize o / 4
}.

Section prepared.
Context (o : newfs_opts) `{env : NewfsEnv} (g : newfs_geom).
Context (Ho : opts_ok o) (Hg : geom_ok o g) (Hfit : geom_fits o g).

Lemma geom_numbers :
  1024 <= o_bsize o <= 4096 /\ 0 < g_iblocks_per_cg g <= 2048 /\ 0 < g_blocks_gd g <= 1024 /\
  o_bsize o / 4 <= 1024 /\ g_blocks_gd g <= o_bsize o / 4 /\ 3 + 2048 + o_bsize o / 4 <= 8 * o_bsize o /\
  0 < o_bsize o / o_inodesize o /\ 0 < g_ncg g < 177147.
Proof using Ho Hg Hfit.
  pose proof (pow2_sizes_bound _ (oo_bsize _ Ho)) as Hb. pose proof (go_gd _ _ Hg) as Hgd. pose proof (go_ncg _ _ Hg) as Hn.
  destruct Hfit as [Hi Hd]. change EXT2_RESERVED_INODES with 10 in *. pose proof (go_ipg _ _ Hg) as Hip.
  assert (o_inodesize o = 128 \/ o_inodesize o = 256) as Hisz by (destruct (oo_inodesize _ Ho) as [|[]]; auto).
  pose proof (pow2_size_cases _ (oo_bsize _ Ho)) as Hbc.
  assert (0 < g_blocks_gd g) by nia.
  assert (0 < o_bsize o / o_inodesize o) by (destruct Hbc as [->|[->| ->]], Hisz as [->| ->]; done).
  assert (o_bsize o / 4 <= 1024 /\ 3 + 2048 + o_bsize o / 4 <= 8 * o_bsize o) as [? ?]
    by (destruct Hbc as [->|[->| ->]]; vm_compute; split; done).
  assert (0 < g_iblocks_per_cg g <= 2048).
  { destruct Hbc as [Eb|[Eb|Eb]], Hisz as [Ei|Ei]; rewrite Eb, Ei in Hip; rewrite Eb in Hi;
      match type of Hip with _ = _ * ?q => let q' := eval vm_compute in q in change q with q' in Hip end; lia. }
  assert (g_ncg g < 177147).
  { destruct Hbc as [Eb|[Eb|Eb]]; rewrite Eb in Hgd, Hd;
      match type of Hd with _ <= ?q => let q' := eval vm_compute in q in change q with q' in Hd end; lia. }
  lia.
Qed.

Section fields.
Context (uuid vname : list Z).
Let fs := plain_sblock o g uuid vname.

Lemma plain_backup c : has_backup (m_e2fs fs) c = if o_Oflag o =? 0 then Ok true else h ← cg_has_sb (s32 c); mret (negb (h =? 0)).
Proof using. unfold has_backup. cbn. destruct (o_Oflag o =? 0); done. Qed.

Lemma plain_volume : volume_ok fs (g_blocks_lastcg g).
Proof using Ho Hg Hfit.
  pose proof geom_numbers as Hn. pose proof (gf_ipg _ _ Hfit) as Hi. pose proof (go_last _ _ Hg) as Hl.
  change EXT2_RESERVED_INODES with 10 in *.
  constructor; try (cbn; lia).
  - cbn. apply (oo_bsize _ Ho).
  - cbn. apply (go_bpg _ _ Hg).
  - cbn. rewrite (go_bcount _ _ Hg). lia.
  - cbn. apply (go_bcount_max _ _ Hg).
  - cbn. apply (go_ipg _ _ Hg).
  - apply (gf_ipg _ _ Hfit).
  - cbn. unfold u16_ok. lia.
  - intros c Hc. cbn in Hc. unfold overhead, group_size. cbn [m_itpg m_gdbcount m_gcount fs plain_sblock new_sblock m_e2fs].
    replace (e2fs_reserved_ngdb _) with 0 by done. replace (e2fs_bpg _) with (8 * o_bsize o) by (symmetry; apply (go_bpg _ _ Hg)).
    assert (forall b : bool, (if b then 1 + g_blocks_gd g + (if resizable (m_e2fs fs) then 0 else 0) else 0) =
      (if b then 1 + g_blocks_gd g else 0)) as Hs by (intros b; destruct b, (resizable (m_e2fs fs)); lia).
    fold fs. rewrite Hs. clear Hs. destruct (Z.eqb_spec c (g_ncg g - 1)) as [->|_]; [|case_match; lia].
    destruct (go_room _ _ Hg) as [Hr|(h & Hh & Hr)]; [rewrite Hr; case_match; lia|].
    assert (backup_in fs (g_ncg g - 1) = negb (h =? 0)) as ->; [|destruct (h =? 0); cbn [negb]; lia].
    unfold backup_in. rewrite plain_backup. rewrite s32_id by (unfold s32_ok; lia).
    destruct Hh as [[-> ->]|[Hne Hh]]; [done|]. rewrite (proj2 (Z.eqb_neq _ 0) Hne), Hh. done.
Qed.

(** The same with [n] blocks reserved, under the feature bits [f]. *)
Definition grown (n f : Z) : m_ext2fs :=
  with_es (fun es => upd_e2fs_reserved_ngdb (fun _ => n) (upd_e2fs_features_compat (fun _ => f) es)) fs.

Definition reserved_in (n f c : Z) : Z :=
  if backup_in fs c && negb (o_Oflag o =? 0) && negb (Z.land f 16 =? 0) then n else 0.

Lemma grown_overhead n f c : overhead (grown n f) c = overhead fs c + reserved_in n f c.
Proof using.
  unfold overhead, reserved_in. assert (backup_in (grown n f) c = backup_in fs c) as -> by done.
  assert (resizable (m_e2fs (grown n f)) = negb (o_Oflag o =? 0) && negb (Z.land f 16 =? 0)) as ->.
  { unfold resizable, has_feature. cbn. by destruct (o_Oflag o =? 0). }
  destruct (backup_in fs c), (negb (o_Oflag o =? 0)), (negb (Z.land f 16 =? 0)); cbn [andb];
    destruct (resizable (m_e2fs fs)); cbn; lia.
Qed.

Lemma grown_volume n f :
  u16_ok n -> n + g_blocks_gd g <= o_bsize o / 4 -> n <= g_blocks_lastcg g - overhead fs (g_ncg g - 1) ->
  volume_ok (grown n f) (g_blocks_lastcg g).
Proof using Ho Hg Hfit.
  intros Hn Hgd Hroom. pose proof geom_numbers as Hnum. destruct plain_volume.
  constructor; try assumption. intros c Hc. specialize (vo_room0 c Hc).
  rewrite grown_overhead. unfold group_size in *. cbn [m_gcount grown with_es] in *.
  change (m_gcount fs) with (g_ncg g) in *. unfold u16_ok in Hn. unfold reserved_in.
  destruct (Z.eqb_spec c (g_ncg g - 1)) as [Ec|Hne].
  - rewrite <- Ec in Hroom. destruct (_ && _); lia.
  - change (e2fs_bpg (m_e2fs (grown n f))) with (g_blocks_per_cg g). rewrite (go_bpg _ _ Hg).
    change (e2fs_bpg (m_e2fs fs)) with (g_blocks_per_cg g) in vo_room0. rewrite (go_bpg _ _ Hg) in vo_room0.
    destruct (_ && _) eqn:E; [|lia]. unfold overhead.
    change (m_itpg fs) with (g_iblocks_per_cg g). change (m_gdbcount fs) with (g_blocks_gd g).
    change (e2fs_reserved_ngdb (m_e2fs fs)) with 0. destruct (backup_in fs c), (resizable (m_e2fs fs)); lia.
Qed.

Lemma uhowmany_mono x y d p q : 0 <= x <= y -> 0 < d -> (p - 1) * d < x -> uhowmany y d = Ok q -> p <= q.
Proof using. intros Hxy Hd Hp Hq. apply uhowmany_spec in Hq; [|lia..]. nia. Qed.

Lemma reserve_ngdb_ok :
  o_Oflag o <> 0 ->
  exists n, reserve_ngdb fs (g_blocks_lastcg g) = Ok n /\ 0 <= n /\ n + g_blocks_gd g <= o_bsize o / 4 /\
    n <= g_blocks_lastcg g - overhead fs (g_ncg g - 1).
Proof using Ho Hg Hfit.
  intros Hrev. pose proof geom_numbers as Hnum. pose proof plain_volume as Hvol. pose proof (go_last _ _ Hg) as Hl.
  pose proof (go_bcount _ _ Hg) as Hbc. pose proof (go_bcount_max _ _ Hg) as Hmax. pose proof (go_gd _ _ Hg) as Hgd.
  unfold reserve_ngdb. change (m_e2fs fs) with (new_superblock o (sizes_of o) g uuid vname).
  cbn [new_superblock e2fs_bcount e2fs_first_dblock e2fs_bpg]. cbn [s_first_dblock sizes_of].
  change (m_bsize fs) with (o_bsize o). change (m_gdbcount fs) with (g_blocks_gd g). change (m_gcount fs) with (g_ncg g).
  rewrite (go_bpg _ _ Hg). set (n0 := g_bcount g - _).
  assert (0 <= 8 * o_bsize o * (g_ncg g - 1)) as Hprod by (apply Z.mul_nonneg_nonneg; lia).
  assert (n0 = 8 * o_bsize o * (g_ncg g - 1) + g_blocks_lastcg g) as Hn0 by (subst n0; lia).
  assert (0 < n0 < 2 ^ 32) as Hn0r by (case_match; lia). rewrite (u32_id n0) by (unfold u32_ok; lia).
  rewrite u64_id by (unfold u64_ok; lia).
  set (tb := if n0 * 1024 >? UINT32_MAX then UINT32_MAX else n0 * 1024).
  assert (n0 <= tb < 2 ^ 32) as Htb by (subst tb; unfold UINT32_MAX; destruct (n0 * 1024 >? _) eqn:E; lia).
  destruct (uhowmany tb (8 * o_bsize o)) as [tn|] eqn:Etn; [|rewrite uhowmany_run in Etn by lia; done].
  pose proof (uhowmany_mono n0 tb (8 * o_bsize o) (g_ncg g) tn ltac:(lia) ltac:(lia) ltac:(lia) Etn) as Htn.
  apply uhowmany_spec in Etn; [|lia..]. assert (tn <= 2 ^ 19) by nia. cbn [mbind res_bind].
  rewrite (u32_id tn) by (unfold u32_ok; lia). unfold SIZEOF_GD. rewrite (u64_id (32 * tn)) by (unfold u64_ok; lia).
  destruct (uhowmany (32 * tn) (o_bsize o)) as [td|] eqn:Etd; [|rewrite uhowmany_run in Etd by lia; done].
  pose proof (uhowmany_mono (32 * g_ncg g) (32 * tn) (o_bsize o) (g_blocks_gd g) td ltac:(lia) ltac:(lia) ltac:(lia) Etd) as Htd.
  apply uhowmany_spec in Etd; [|lia..]. assert (td <= 2 ^ 15) by nia. cbn [mbind res_bind].
  rewrite (u32_id td) by (unfold u32_ok; lia). change (NINDIR fs) with (o_bsize o / 4).
  set (t := if td >? o_bsize o / 4 then o_bsize o / 4 else td).
  assert (g_blocks_gd g <= t <= o_bsize o / 4) as Ht by (subst t; destruct (td >? _) eqn:E; lia).
  rewrite (u32_id (t - _)) by (unfold u32_ok; lia). rewrite (u32_id (g_ncg g - 1)) by (unfold u32_ok; lia).
  rewrite (cgoverhead_eq fs _ Hvol) by (change (m_gcount fs) with (g_ncg g); lia). cbn [mbind res_bind].
  pose proof (vo_room _ _ Hvol (g_ncg g - 1)) as Hroom. unfold group_size in Hroom.
  change (m_gcount fs) with (g_ncg g) in Hroom. rewrite Z.eqb_refl in Hroom.
  pose proof (overhead_range fs _ Hvol (g_ncg g - 1)). pose proof (vo_itpg _ _ Hvol).
  rewrite (u32_id (g_blocks_lastcg g - _)) by (unfold u32_ok; lia).
  eexists. split; [reflexivity|]. destruct (_ >=? _) eqn:E; lia.
Qed.

Lemma set_reserved_ok :
  exists n f, set_reserved fs (g_blocks_lastcg g) = Ok (grown n f) /\ volume_ok (grown n f) (g_blocks_lastcg g) /\
    (f = 0 \/ f = EXT2F_COMPAT_RESIZE).
Proof using Ho Hg Hfit.
  pose proof geom_numbers as Hnum. unfold set_reserved.
  assert (resizable (m_e2fs fs) = negb (o_Oflag o =? 0)) as -> by (unfold resizable; cbn; by destruct (o_Oflag o =? 0)).
  destruct (Z.eqb_spec (o_Oflag o) 0) as [E|E]; cbn [negb].
  - exists 0, 0. split; [|split; [|by left]].
    + unfold grown, fs, plain_sblock, with_es, new_sblock, new_superblock. cbn. by rewrite E.
    + apply grown_volume; [unfold u16_ok; lia|lia|].
      pose proof (vo_room _ _ plain_volume (g_ncg g - 1)) as Hroom. unfold group_size in Hroom.
      change (m_gcount fs) with (g_ncg g) in Hroom. rewrite Z.eqb_refl in Hroom. lia.
  - destruct (reserve_ngdb_ok E) as (n & Hn & Hn0 & Hn1 & Hn2). rewrite Hn. cbn [mbind res_bind].
    assert (u16_ok n) as Hu by (unfold u16_ok; lia). rewrite (u16_id n Hu).
    exists n, (if n =? 0 then 0 else EXT2F_COMPAT_RESIZE). split; [|split; [by apply grown_volume|case_match; auto]].
    unfold grown, fs, plain_sblock, with_es, new_sblock, new_superblock. rewrite (proj2 (Z.eqb_neq _ 0) E).
    by destruct (n =? 0).
Qed.
End fields.
End prepared.

(** [prepare] sets the counts of the superblock last. *)
Definition counted (fs : m_ext2fs) (fb fi : Z) : m_ext2fs :=
  with_es (upd_e2fs_fbcount (fun _ => fb)) (with_es (upd_e2fs_ficount (fun _ => fi)) fs).

Lemma counted_volume fs lastcg fb fi : volume_ok fs lastcg -> volume_ok (counted fs fb fi) lastcg.
Proof. intros []. constructor; assumption. Qed.

(** The descriptors of all groups, and the room for them. *)
Definition gds_ok (fs : m_ext2fs) (lastcg : Z) (gds : list ext2_gd) : Prop :=
  m_gcount fs <= zlen gds /\
  forall c, 0 <= c < m_gcount fs -> exists d, gds !z c = Some d /\ init_gd fs lastcg c = Ok d.

Section prepare.
Context (o : newfs_opts) `{env : NewfsEnv} (g : newfs_geom).
Context (Ho : opts_ok o) (Hmin : minfssize (sizes_of o) <= o_fssize o).
Context (Hgeo : geometry o (sizes_of o) = Ok g) (Hfit : geom_fits o g).

Lemma init_gds_all fs :
  volume_ok fs (g_blocks_lastcg g) -> m_gcount fs = g_ncg g ->
  exists ds, init_gds fs (g_blocks_lastcg g) 0 (Z.to_nat (g_ncg g)) [] 0 0 =
      Ok (ds, u32 (free_blocks fs (g_blocks_lastcg g) (Z.to_nat (m_gcount fs))),
              u32 (e2fs_ipg (m_e2fs fs) * m_gcount fs - EXT2_RESERVED_INODES)) /\
    zlen ds = m_gcount fs /\ forall k d, ds !! k = Some d -> init_gd fs (g_blocks_lastcg g) (Z.of_nat k) = Ok d.
Proof using.
  intros Hvol Hn. pose proof (vo_gcount _ _ Hvol) as Hgc. rewrite <- Hn.
  destruct (init_gds_run fs (g_blocks_lastcg g) (Z.to_nat (m_gcount fs)) 0 [] 0 0) as (ds & Hds & Hlen & Hlk).
  { intros i Hi. destruct (init_gd_nbfree fs _ Hvol i ltac:(lia)) as (d & Hd & _). by exists d. }
  exists ds. change (u32 0) with 0 in Hds. rewrite Hds. cbn [app].
  destruct (sum_nbfree fs (g_blocks_lastcg g) ds Hvol) as [Hs1 Hs2]; [lia|exact Hlk|].
  rewrite Hs1, Hs2, Hlen. rewrite decide_False by (intros ->; cbn in Hlen; lia).
  split; [|split; [unfold zlen; lia|exact Hlk]]. by rewrite Z2Nat.id by lia.
Qed.

(** The run of [prepare], with the volume it leaves spelled out. *)
Lemma prepare_wp w :
  twp (prepare o) (fun _ s => exists uuid vname n f,
      let fs := grown o g uuid vname n f in
      volume_ok fs (g_blocks_lastcg g) /\ (f = 0 \/ f = EXT2F_COMPAT_RESIZE) /\
      n_fs s = counted fs (u32 (free_blocks fs (g_blocks_lastcg g) (Z.to_nat (m_gcount fs))))
                          (u32 (e2fs_ipg (m_e2fs fs) * m_gcount fs - EXT2_RESERVED_INODES)) /\
      gds_ok fs (g_blocks_lastcg g) (n_gd s) /\
      zlen (n_iobuf s) = (1 + g_blocks_gd g) * o_bsize o /\ n_dev s = n_dev w)
    (fun s => n_dev s = n_dev w) w.
Proof using Ho Hmin Hgeo Hfit.
  pose proof (geometry_inv o g Ho Hmin Hgeo) as Hg. pose proof (geom_numbers o g Ho Hg Hfit) as Hnum.
  set (Post := fun (_ : unit) s => _). set (Out := fun s => n_dev s = n_dev w).
  unfold prepare. twp_steps. apply (twp_of_run _ tt w w); [by apply check_sizes_run|].
  twp_steps. apply (twp_of_run _ (sizes_of o) w w); [by apply block_sizes_run|].
  twp_steps. apply twp_require; [intros _|by intros ?%negb_false_iff%Z.ltb_lt].
  twp_steps. apply (twp_lift _ g); [done|]. twp_steps.
  apply twp_require; [intros _|done]. set (uuid := uuid_get _). set (vname := match o_volname o with Some v => _ | None => _ end).
  destruct (set_reserved_ok o g Ho Hg Hfit uuid vname) as (n & f & Hset & Hvol & Hf).
  twp_steps. apply (twp_lift _ (grown o g uuid vname n f)); [exact Hset|]. unfold os_call. twp_steps.
  apply twp_require; [intros _|done].
  destruct (init_gds_all (grown o g uuid vname n f) Hvol eq_refl) as (ds & Hds & Hlen & Hlk).
  twp_steps. eapply twp_lift; [exact Hds|]. cbn beta iota. twp_steps. apply twp_require; [intros _|done]. twp_steps.
  subst Post. cbv beta. exists uuid, vname, n, f. split; [done|]. split; [done|]. split; [reflexivity|]. split; [|split].
  - cbn [n_gd upd_n_fs upd_n_iobuf upd_n_calls upd_n_gd upd_n_rand n_fs]. split; [rewrite zlen_app; unfold zlen in *; lia|].
    intros c Hc. destruct (zlookup_lt ds c) as [d Hd]; [lia|]. apply zlookup_Some_inv in Hd as [_ Hd].
    exists d. split; [rewrite zlookup_nonneg by lia; by apply lookup_app_l_Some|].
    apply Hlk in Hd. by rewrite Z2Nat.id in Hd by lia.
  - cbn. unfold zlen. rewrite length_replicate. change (m_gdbcount _) with (g_blocks_gd g). change (m_bsize _) with (o_bsize o).
    rewrite (u32_id _) by (unfold u32_ok, NBLOCK_SUPERBLOCK; nia). rewrite s32_id by (unfold s32_ok, NBLOCK_SUPERBLOCK; nia).
    unfold NBLOCK_SUPERBLOCK. nia.
  - done.
Qed.
End prepare.

(** C22: with options that the checks admit, a geometry whose inodes fit the
    bitmap of a group and whose descriptors fit the resize inode, everything
    newfs computes before its first write succeeds or ends the program, and
    leaves a consistent volume: groups that tile it and hold their metadata,
    a descriptor for each, and free counts in the superblock that are the sums
    over the groups. Nothing has been written then. *)
Theorem prepare_volume o `{env : NewfsEnv} g w :
  opts_ok o -> minfssize (sizes_of o) <= o_fssize o -> geometry o (sizes_of o) = Ok g -> geom_fits o g ->
  twp (prepare o) (fun _ s =>
      volume_ok (n_fs s) (g_blocks_lastcg g) /\ gds_ok (n_fs s) (g_blocks_lastcg g) (n_gd s) /\
      m_gcount (n_fs s) = g_ncg g /\
      e2fs_fbcount (m_e2fs (n_fs s)) = u32 (free_blocks (n_fs s) (g_blocks_lastcg g) (Z.to_nat (g_ncg g))) /\
      e2fs_ficount (m_e2fs (n_fs s)) = u32 (e2fs_ipg (m_e2fs (n_fs s)) * g_ncg g - EXT2_RESERVED_INODES) /\
      n_dev s = n_dev w)
    (fun s => n_dev s = n_dev w) w.
Proof.
  intros Ho Hmin Hgeo Hfit. apply (twp_mono _ _ _ _ _ _ (prepare_wp o g Ho Hmin Hgeo Hfit w)); [|done].
  intros _ s (uuid & vname & n & f & Hvol & _ & Hfs & Hgds & _ & Hdev). rewrite Hfs.
  split; [by apply counted_volume|]. split; [exact Hgds|]. done.
Qed.

(** The members of the superblock that the driver's checks look at. *)
Record sb_made (o : newfs_opts) (g : newfs_geom) (es : ext2fs) : Prop := mk_sb_made {
  sm_magic : e2fs_magic es = E2FS_MAGIC;
  sm_log_bsize : e2fs_log_bsize es = Z.log2 (o_bsize o) - 10;
  sm_log_fsize : e2fs_log_fsize es = Z.log2 (o_bsize o) - 10;
  sm_bpg : e2fs_bpg es = 8 * o_bsize o;
  sm_ipg : e2fs_ipg es = g_inodes_per_cg g;
  sm_bcount : e2fs_bcount es = g_bcount g;
  sm_first : e2fs_first_dblock es = (if o_bsize o >? 1024 then 0 else 1);
  sm_rev : e2fs_rev es = (if o_Oflag o =? 0 then 0 else 1);
  sm_first_ino : e2fs_first_ino es = EXT2_FIRSTINO;
  sm_inode_size : e2fs_inode_size es = o_inodesize o;
  sm_incompat : e2fs_features_incompat es = (if o_Oflag o =? 0 then 0 else 2);
  sm_rocompat : e2fs_features_rocompat es = (if o_Oflag o =? 0 then 0 else 3);
  sm_desc_size : e3fs_desc_size es = 0
}.

Lemma grown_sb o `{env : NewfsEnv} g uuid vname n f fb fi :
  geom_ok o g -> sb_made o g (m_e2fs (counted (grown o g uuid vname n f) fb fi)).
Proof.
  intros Hg. constructor; try reflexivity; [exact (go_bpg _ _ Hg)|..]; cbn; by destruct (o_Oflag o =? 0).
Qed.

Lemma made_compat o g es : opts_ok o -> sb_made o g es -> check_sb_compat es false = 0.
Proof.
  intros Ho []. pose proof (pow2_size_cases _ (oo_bsize _ Ho)) as Hb. unfold check_sb_compat.
  rewrite sm_magic0, sm_log_bsize0, sm_bpg0, sm_rev0, sm_first_ino0, sm_incompat0, sm_rocompat0.
  destruct (o_Oflag o =? 0), Hb as [->|[->| ->]]; reflexivity.
Qed.

(** The driver finds the numbers newfs used. *)
Record same_geometry (k fs : m_ext2fs) : Prop := mk_same_geometry {
  sge_es : m_e2fs k = m_e2fs fs;
  sge_bsize : m_bsize k = m_bsize fs; sge_bshift : m_bshift k = m_bshift fs; sge_qbmask : m_qbmask k = m_qbmask fs;
  sge_fsbtodb : m_fsbtodb k = m_fsbtodb fs; sge_ipb : m_ipb k = m_ipb fs; sge_itpg : m_itpg k = m_itpg fs;
  sge_gcount : m_gcount k = m_gcount fs; sge_gdbcount : m_gdbcount k = m_gdbcount fs; sge_gdsize : m_gdsize k = SIZEOF_GD
}.

Lemma made_geometry o g es :
  opts_ok o -> geom_ok o g -> geom_fits o g -> g_bcount g + 8 * o_bsize o <= 2 ^ 32 -> sb_made o g es ->
  exists k, sb_geometry es = Ok (inl (k, g_blocks_gd g)) /\ m_e2fs k = es /\
    m_bsize k = o_bsize o /\ m_bshift k = Z.log2 (o_bsize o) /\ m_qbmask k = o_bsize o - 1 /\
    m_fsbtodb k = Z.log2 (o_bsize o) - 9 /\ m_ipb k = o_bsize o / o_inodesize o /\
    m_itpg k = g_iblocks_per_cg g /\ m_gcount k = g_ncg g /\ m_gdbcount k = g_blocks_gd g /\ m_gdsize k = SIZEOF_GD.
Proof.
  intros Ho Hg Hfit Hmax Hm. pose proof (geom_numbers o g Ho Hg Hfit) as Hnum.
  pose proof (go_last _ _ Hg) as Hl. pose proof (go_bcount _ _ Hg) as Hbc. pose proof (go_gd _ _ Hg) as Hgd.
  pose proof (go_ipg _ _ Hg) as Hipg. pose proof (pow2_size_cases _ (oo_bsize _ Ho)) as Hb.
  assert (u32 (g_bcount g - (if o_bsize o >? 1024 then 0 else 1) + 8 * o_bsize o - 1) / (8 * o_bsize o) = g_ncg g) as Hgc.
  { rewrite Hbc. assert (0 <= 8 * o_bsize o * (g_ncg g - 1)) by (apply Z.mul_nonneg_nonneg; lia).
    rewrite u32_id by (unfold u32_ok; case_match; lia).
    symmetry. apply Z.div_unique with (r := g_blocks_lastcg g - 1); lia. }
  assert (u32 (g_ncg g + o_bsize o / 32 - 1) / (o_bsize o / 32) = g_blocks_gd g) as Hdb.
  { assert (o_bsize o / 32 * 32 = o_bsize o /\ 32 <= o_bsize o / 32 <= 128) as [Hd Hd2].
    { destruct Hb as [->|[->| ->]]; vm_compute; split; try done; split; done. }
    rewrite u32_id by (unfold u32_ok; lia). symmetry.
    apply Z.div_unique with (r := g_ncg g + o_bsize o / 32 - 1 - o_bsize o / 32 * g_blocks_gd g); nia. }
  assert (g_inodes_per_cg g / (o_bsize o / o_inodesize o) = g_iblocks_per_cg g) as Hit by (rewrite Hipg, Z.div_mul; lia).
  unfold sb_geometry. destruct Hm.
  rewrite sm_log_bsize0, sm_log_fsize0, sm_bpg0, sm_ipg0, sm_bcount0, sm_first0, sm_rev0, sm_inode_size0, sm_rocompat0, sm_desc_size0.
  assert ((if (if o_Oflag o =? 0 then 0 else 1) =? E2FS_REV0 then E2FS_REV0_INODE_SIZE else o_inodesize o) = o_inodesize o) as ->.
  { destruct (Z.eqb_spec (o_Oflag o) 0) as [E|E]; cbn; [|done]. destruct (oo_inodesize _ Ho) as [->|[_ Hne]]; [done|by exfalso]. }
  assert (o_inodesize o = 128 \/ o_inodesize o = 256) as Hisz by (destruct (oo_inodesize _ Ho) as [|[]]; auto).
  assert (u32 (EXT2_MIN_BLOCK_LOG_SIZE + (Z.log2 (o_bsize o) - 10)) = Z.log2 (o_bsize o)) as ->
    by (destruct Hb as [->|[->| ->]]; done).
  assert (u32 (1 ≪ Z.log2 (o_bsize o)) = o_bsize o) as -> by (destruct Hb as [->|[->| ->]]; done).
  assert (shl_int EXT2_MIN_FRAG_SIZE (Z.log2 (o_bsize o) - 10) = Ok (o_bsize o)) as -> by (destruct Hb as [->|[->| ->]]; done).
  change (negb (0 =? 0)) with false. rewrite andb_false_r. cbv zeta. cbn [mbind res_bind].
  assert (negb ((if o_Oflag o =? 0 then 0 else 1) =? E2FS_REV0) &&
    ((o_inodesize o <? E2FS_REV0_INODE_SIZE) || (o_inodesize o >? o_bsize o)
     || negb (Z.land (o_inodesize o) (o_inodesize o - 1) =? 0)) = false) as ->
    by (destruct Hb as [->|[->| ->]], Hisz as [->| ->], (o_Oflag o =? 0); done).
  assert (has_feature (if o_Oflag o =? 0 then 0 else 3) EXT2F_ROCOMPAT_EXTRA_ISIZE = false) as -> by (by destruct (o_Oflag o =? 0)).
  rewrite andb_false_l. rewrite (proj2 (Z.eqb_neq (o_inodesize o) 0)) by lia.
  rewrite (proj2 (Z.eqb_neq (o_bsize o / o_inodesize o) 0)), (proj2 (Z.eqb_neq (8 * o_bsize o) 0)) by lia. cbn [orb].
  assert ((EXT2_MIN_GD_SIZE <? EXT2_MIN_GD_SIZE) || negb (Z.land EXT2_MIN_GD_SIZE (EXT2_MIN_GD_SIZE - 1) =? 0)
    || (EXT2_MIN_GD_SIZE >? o_bsize o) = false) as -> by (destruct Hb as [->|[->| ->]]; done).
  change EXT2_MIN_GD_SIZE with 32. rewrite Hgc, Hdb, Hit, s32_id by (unfold s32_ok; lia).
  eexists. split; [reflexivity|]. cbn. rewrite (u32_id (g_blocks_gd g)) by (unfold u32_ok; lia).
  repeat split; destruct Hb as [E|[E|E]]; by rewrite ?E.
Qed.

(** C23: the driver admits the superblock that newfs prepares, and computes from
    it the block size, shifts, inodes per block, inode table size, number of
    groups and number of descriptor blocks that newfs laid the volume out
    with. *)
Theorem prepare_mountable o `{env : NewfsEnv} g w :
  opts_ok o -> minfssize (sizes_of o) <= o_fssize o -> geometry o (sizes_of o) = Ok g -> geom_fits o g ->
  g_bcount g + 8 * o_bsize o <= 2 ^ 32 ->
  twp (prepare o) (fun _ s =>
      check_sb_compat (m_e2fs (n_fs s)) false = 0 /\ exists k, sb_geometry (m_e2fs (n_fs s)) = Ok (inl (k, m_gdbcount (n_fs s))) /\ same_geometry k (n_fs s))
    (fun _ => True) w.
Proof.
  intros Ho Hmin Hgeo Hfit Hmax. apply (twp_mono _ _ _ _ _ _ (prepare_wp o g Ho Hmin Hgeo Hfit w)); [|done].
  intros _ s (uuid & vname & n & f & _ & _ & Hfs & _).
  pose proof (geometry_inv o g Ho Hmin Hgeo) as Hg. rewrite Hfs.
  set (fb := u32 _). set (fi := u32 _). pose proof (grown_sb o g uuid vname n f fb fi Hg) as Hm.
  split; [by apply (made_compat o g)|].
  destruct (made_geometry o g _ Ho Hg Hfit Hmax Hm) as (k & Hk & He & H). exists k. split; [exact Hk|].
  constructor; [exact He|..]; (etransitivity; [apply H|reflexivity]).
Qed.
