(* ===== verification/NewfsOps.v ===== *)
(** The steps of newfs_ext2fs behind the bitmaps: directory blocks, allocating
    from group 0, copying the superblock and descriptors to the device and
    reading them back as the driver does, and writing an inode. *)
From stdpp Require Import gmap.
From S2P Require Import Prelude Tool Bitmap Bytes Super Kernel InodeCnv Dir DirSpec Mount MountSpec Newfs NewfsSpec.

(** * Directory blocks *)

Record proto_ok (p : proto) : Prop := mk_proto_ok {
  po_ino : u32_ok (pr_ino p);
  po_type : u8_ok (pr_type p);
  po_name : zlen (pr_name p) < 2 ^ 8
}.

Definition proto_len (p : proto) : Z := EXT2_DIR_REC_LEN (zlen (pr_name p)).

(** The entries of a directory of [room] bytes: each as long as its name needs,
    and the last one up to the end. *)
Fixpoint laid_out (ps : list proto) (room : Z) : list dent :=
  match ps with
  | [] => []
  | [p] => [mk_dent (pr_ino p) room (zlen (pr_name p)) (pr_type p) (pr_name p)]
  | p :: ps' => mk_dent (pr_ino p) (proto_len p) (zlen (pr_name p)) (pr_type p) (pr_name p) :: laid_out ps' (room - proto_len p)
  end.

Lemma laid_out_in_use ps : forall room,
  Forall (fun p => pr_ino p <> 0) ps ->
  in_use (laid_out ps room) = (fun p => (pr_ino p, pr_type p, pr_name p)) <$> ps.
Proof.
  induction ps as [|p ps IH]; intros room Hf; [done|]. inversion Hf as [|? ? Hp Hps]; subst.
  destruct ps as [|q ps]; cbn [laid_out in_use de_ino de_type de_name].
  - by rewrite (proj2 (Z.eqb_neq _ _) Hp).
  - rewrite (proj2 (Z.eqb_neq _ _) Hp). cbn [fmap list_fmap]. f_equal. by apply IH.
Qed.

Lemma proto_len_bounds p : 8 <= proto_len p /\ proto_len p mod 4 = 0.
Proof. unfold proto_len. pose proof (rec_len_bounds (zlen (pr_name p))) as [Hb Hm]. unfold zlen in *. lia. Qed.

Lemma sumZ_proto_nonneg ps : 0 <= sumZ (proto_len <$> ps).
Proof. induction ps as [|p ps IH]; [done|]. cbn. pose proof (proto_len_bounds p). unfold sumZ in IH. lia. Qed.

Lemma makedir_loop_spec ps : forall buf dn cp room,
  ps <> [] -> Forall proto_ok ps -> sumZ (proto_len <$> ps) <= room -> room mod 4 = 0 ->
  cp + room = zlen buf -> zlen buf < 2 ^ 16 -> 0 <= cp -> chain buf 0 dn cp ->
  exists blk, makedir_loop ps buf cp room = Ok blk /\ zlen blk = zlen buf /\ dir_block blk (dn ++ laid_out ps room).
Proof.
  induction ps as [|p ps IH]; intros buf dn cp room Hne Hok Hsum Hmod Hend Hmax Hcp Hdn; [done|].
  inversion Hok as [|? ? [Hi Ht Hn] Hok']; subst. cbn [fmap list_fmap sumZ foldr] in Hsum.
  fold (sumZ (proto_len <$> ps)) in Hsum. pose proof (sumZ_proto_nonneg ps). pose proof (proto_len_bounds p) as [Hp8 Hpm].
  destruct ps as [|q ps].
  - cbn [makedir_loop laid_out]. unfold copy_dir.
    destruct (place_new buf 0 cp (cp + room) dn cp room (pr_ino p) (pr_type p) (pr_name p) (replicate 3 0))
      as (blk & Hblk & Hl & Hdn' & Hnew & _); try done; try lia; [unfold proto_len in *; lia|].
    exists blk. split; [exact Hblk|]. split; [done|]. unfold dir_block. apply chain_app. exists cp.
    split; [done|]. by rewrite Hl, <- Hend.
  - assert (Hroom2 : sumZ (proto_len <$> q :: ps) <= room - proto_len p) by lia. remember (q :: ps) as ps' eqn:Eps.
    assert (makedir_loop (p :: ps') buf cp room =
      (b ← copy_dir p (proto_len p) buf cp; makedir_loop ps' b (cp + proto_len p) (u32 (room - proto_len p)))) as ->
      by (by rewrite Eps).
    assert (laid_out (p :: ps') room = mk_dent (pr_ino p) (proto_len p) (zlen (pr_name p)) (pr_type p) (pr_name p)
      :: laid_out ps' (room - proto_len p)) as -> by (by rewrite Eps).
    unfold copy_dir.
    destruct (place_new buf 0 cp (cp + proto_len p) dn cp (proto_len p) (pr_ino p) (pr_type p) (pr_name p) (replicate 3 0))
      as (b1 & Hb1 & Hl1 & Hdn' & Hnew & _); try done; try lia.
    rewrite Hb1. cbn [mbind res_bind]. rewrite u32_id by (unfold u32_ok; lia).
    destruct (IH b1 (dn ++ [mk_dent (pr_ino p) (proto_len p) (zlen (pr_name p)) (pr_type p) (pr_name p)])
      (cp + proto_len p) (room - proto_len p)) as (blk & Hblk & Hl & Hd); try done; try lia.
    + by rewrite Eps.
    + by apply mod4_sub.
    + apply chain_app. by exists cp.
    + exists blk. split; [done|]. split; [lia|]. by rewrite <- app_assoc in Hd.
Qed.

(** [makedir] returns a directory block: its entries are the given ones in
    order, as long as their names need and the last one up to the end of the
    block, and the directory lists exactly the given names with their inodes
    and types. *)
Theorem makedir_spec bsize ps :
  bsize ∈ pow2_sizes -> ps <> [] -> Forall proto_ok ps -> Forall (fun p => pr_ino p <> 0) ps ->
  sumZ (proto_len <$> ps) <= bsize ->
  exists blk, makedir bsize ps = Ok blk /\ zlen blk = bsize /\ dir_block blk (laid_out ps bsize) /\
    in_use (laid_out ps bsize) = (fun p => (pr_ino p, pr_type p, pr_name p)) <$> ps.
Proof.
  intros Hb Hne Hok Hino Hsum. pose proof (pow2_sizes_bound _ Hb) as Hbb.
  assert (bsize mod 4 = 0) as Hm by (apply pow2_size_cases in Hb as [->|[->| ->]]; done).
  assert (zlen (replicate (Z.to_nat bsize) 0) = bsize) as Hz by (unfold zlen; rewrite length_replicate; lia).
  destruct (makedir_loop_spec ps (replicate (Z.to_nat bsize) 0) [] 0 bsize) as (blk & Hblk & Hl & Hd); try done; try lia.
  exists blk. split; [exact Hblk|]. split; [lia|]. split; [exact Hd|]. by apply laid_out_in_use.
Qed.

(** * The device *)

Lemma read_written off bytes dev :
  write_bytes off bytes dev <$> seqZ off (zlen bytes) = bytes.
Proof.
  apply list_eq. intros i. rewrite list_lookup_fmap. destruct (decide (i < length bytes)%nat) as [Hi|Hi].
  - unfold zlen. rewrite (proj2 (lookup_seqZ off (Z.of_nat (length bytes)) i (off + Z.of_nat i))) by lia. cbn.
    unfold write_bytes. rewrite zlookup_nonneg by lia. replace (off + Z.of_nat i - off) with (Z.of_nat i) by lia.
    rewrite Nat2Z.id. by destruct (lookup_lt_is_Some_2 bytes i Hi) as [b ->].
  - rewrite (lookup_ge_None_2 bytes) by lia. rewrite (lookup_ge_None_2 (seqZ _ _)); [done|]. rewrite length_seqZ. unfold zlen. lia.
Qed.

(** Part of what was written. *)
Lemma read_part off bytes dev k n :
  0 <= k -> 0 <= n -> k + n <= zlen bytes ->
  write_bytes off bytes dev <$> seqZ (off + k) n = take (Z.to_nat n) (drop (Z.to_nat k) bytes).
Proof.
  intros Hk Hn Hl. rewrite <- (read_written off bytes dev) at 2. rewrite <- fmap_drop, <- fmap_take. f_equal.
  apply list_eq. intros i. destruct (decide (Z.of_nat i < n)) as [Hi|Hi].
  - rewrite lookup_take_lt by lia. rewrite lookup_drop.
    rewrite (proj2 (lookup_seqZ (off + k) n i (off + k + Z.of_nat i))) by lia.
    symmetry. apply lookup_seqZ. lia.
  - rewrite lookup_take_ge by lia. apply lookup_ge_None_2. rewrite length_seqZ. lia.
Qed.

Lemma read_len (dev : Z -> Z) off n : 0 <= n -> zlen (dev <$> seqZ off n) = n.
Proof. intros. unfold zlen. rewrite length_fmap, length_seqZ. lia. Qed.

Section steps.
Context (o : newfs_opts) `{env : NewfsEnv}.

(** All calls succeed and the sector number fits its type. *)
Lemma rdfs_run s bno size :
  call_ok (n_calls s) = true -> 0 <= s32 bno * o_sectorsize o ->
  rdfs o bno size s = Ok (Done (n_dev s <$> seqZ (s32 bno * o_sectorsize o) size), upd_n_calls S s).
Proof.
  intros Hc Ha. unfold rdfs, os_call, tgets, tmodify, require, mbind, Tool_bind, mret, Tool_ret. cbn. rewrite Hc.
  rewrite (proj2 (Z.leb_le _ _) Ha). done.
Qed.

Lemma wtfs_run s bno bf :
  o_Nflag o = false -> call_ok (n_calls s) = true -> 0 <= s32 bno * o_sectorsize o ->
  wtfs o bno (zlen bf) bf s = Ok (Done tt, upd_n_dev (write_bytes (s32 bno * o_sectorsize o) bf) (upd_n_calls S s)).
Proof.
  intros Hn Hc Ha. unfold wtfs, os_call, tgets, tmodify, require, mbind, Tool_bind, mret, Tool_ret. rewrite Hn.
  rewrite get_bytes_ok by (unfold zlen; lia). unfold zlen. rewrite Nat2Z.id, drop_0, firstn_all. cbn. rewrite Hc.
  rewrite (proj2 (Z.leb_le _ _) Ha). done.
Qed.

End steps.

(** * Allocating a block *)

Lemma skpc_spec cp :
  let r := skpc 0xffffffff cp in
  0 <= r <= zlen cp /\ (forall k, 0 <= k < zlen cp - r -> cp !z k = Some 255) /\
  (r <> 0 -> exists b, cp !z (zlen cp - r) = Some b /\ b <> 255).
Proof.
  induction cp as [|b cp IH]; cbn [skpc].
  - split; [unfold zlen; cbn; lia|]. split; [intros k Hk; unfold zlen in Hk; cbn in Hk; lia|done].
  - change (u8 0xffffffff) with 255. unfold zlen in *. cbn [length]. destruct (Z.eqb_spec b 255) as [->|Hne].
    + cbn zeta in *. destruct IH as (H1 & H2 & H3). split; [lia|]. split.
      * intros k Hk. destruct (decide (k = 0)) as [->|]; [done|]. rewrite zlookup_nonneg by lia.
        destruct (Z.to_nat k) as [|k'] eqn:E; [lia|]. cbn. specialize (H2 (k - 1) ltac:(lia)).
        rewrite zlookup_nonneg in H2 by lia. by replace (Z.to_nat (k - 1)) with k' in H2 by lia.
      * intros Hr. destruct (H3 Hr) as (b & Hb & Hb'). exists b. split; [|done].
        rewrite zlookup_nonneg in Hb |- * by lia.
        by replace (Z.to_nat (Z.of_nat (S (length cp)) - skpc 0xffffffff cp))
          with (S (Z.to_nat (Z.of_nat (length cp) - skpc 0xffffffff cp))) by lia.
    + cbn zeta. split; [lia|]. split; [intros k Hk; lia|]. intros _. exists b. split; [|done].
      by rewrite Z.sub_diag.
Qed.

(** The first clear bit of a byte that has one. *)
Lemma first_clear_byte b :
  u8_ok b -> b <> 255 ->
  exists i, first_clear b 0 8 = Some i /\ 0 <= i < 8 /\ Z.testbit b i = false /\
    forall j, 0 <= j < i -> Z.testbit b j = true.
Proof.
  intros Hb Hne.
  pose proof (byte_forall (fun b => (b =? 255) ||
    match first_clear b 0 8 with
    | Some i => (0 <=? i) && (i <? 8) && negb (Z.testbit b i)
                && forallb (fun j => (i <=? j) || Z.testbit b j) bit_index
    | None => false
    end) ltac:(vm_compute; reflexivity) b Hb) as H. cbn beta in H.
  rewrite (proj2 (Z.eqb_neq b 255) Hne) in H. cbn [orb] in H.
  destruct (first_clear b 0 8) as [i|]; [|done]. exists i. split; [done|].
  apply andb_true_iff in H as [[[H1 H2]%andb_true_iff H3]%andb_true_iff H4].
  split; [lia|]. split; [by apply negb_true_iff|]. intros j Hj.
  rewrite forallb_forall in H4. specialize (H4 j). rewrite <- list_elem_of_In in H4. unfold bit_index in H4.
  rewrite elem_of_seqZ in H4. specialize (H4 ltac:(lia)). destruct (Z.testbit b j); [done|lia].
Qed.

(** The search of [alloc]: the lowest clear bit of the bitmap. *)
Lemma alloc_search bm :
  bytes_ok bm -> 0 < count_clear bm (Z.to_nat (8 * zlen bm)) ->
  let loc := zlen bm - skpc 0xffffffff bm in
  skpc 0xffffffff bm <> 0 /\ exists map i, byte_at bm loc = Ok map /\ first_clear map 0 8 = Some i /\
    0 <= loc * 8 + i < 8 * zlen bm /\ bit bm (loc * 8 + i) = false /\
    forall j, 0 <= j < loc * 8 + i -> bit bm j = true.
Proof.
  intros Hok Hcount. pose proof (skpc_spec bm) as (H1 & H2 & H3). cbn zeta in *. set (r := skpc 0xffffffff bm) in *.
  assert (forall j, 0 <= j < (zlen bm - r) * 8 -> bit bm j = true) as Hfull.
  { intros j Hj. pose proof (Z.div_mod j 8 ltac:(lia)). pose proof (Z.mod_pos_bound j 8 ltac:(lia)).
    replace j with (j / 8 * 8 + j mod 8) by lia. rewrite (bit_byte bm (j / 8) 255) by (try apply H2; lia).
    by apply (fill_byte_bits true). }
  assert (r <> 0) as Hr.
  { intros E. apply count_clear_pos in Hcount as (j & Hj & Hb). rewrite Hfull in Hb by lia. done. }
  split; [done|]. destruct (H3 Hr) as (map & Hmap & Hne).
  destruct (first_clear_byte map (bytes_ok_at _ _ _ Hok Hmap) Hne) as (i & Hi & Hi8 & Hbit & Hlow).
  exists map, i. split; [unfold byte_at; by rewrite Hmap|]. split; [done|]. split; [lia|].
  split; [by rewrite (bit_byte bm _ map)|]. intros j Hj.
  destruct (decide (j < (zlen bm - r) * 8)); [apply Hfull; lia|].
  replace j with ((zlen bm - r) * 8 + (j - (zlen bm - r) * 8)) by lia. rewrite (bit_byte bm _ map) by (done || lia).
  apply Hlow. lia.
Qed.

(** The descriptor of group 0 after a block was taken for an inode of [mode]. *)
Definition taken_gd (mode : Z) (d : ext2_gd) : ext2_gd :=
  let d := upd_ext2bgd_nbfree (fun n => u16 (n - 1)) d in
  if negb (Z.land mode IFDIR =? 0) then upd_ext2bgd_ndirs (fun n => u16 (n + 1)) d else d.

(** The block bitmap of group 0 on the device. *)
Definition bitmap_at (o : newfs_opts) (fs : m_ext2fs) (d : ext2_gd) : Z := s32 (fsbtodb fs (ext2bgd_b_bitmap d)) * o_sectorsize o.
Definition bitmap_on (o : newfs_opts) (s : newfs_state) (d : ext2_gd) : list Z :=
  n_dev s <$> seqZ (bitmap_at o (n_fs s) d) (m_bsize (n_fs s)).

(** When the descriptor of group 0 counts the clear bits of its bitmap,
    [alloc] takes the lowest free block of the group: it marks that bit and
    no other on the device, keeps the count equal to the clear bits, counts a
    directory when the mode is one, takes the block off the superblock's count
    and returns the block's number. Without a free block it returns 0 and
    changes nothing. *)
Theorem alloc_spec o `{env : NewfsEnv} s lastcg mode d :
  o_Nflag o = false -> (forall n, call_ok n = true) -> volume_ok (n_fs s) lastcg ->
  n_gd s !z 0 = Some d -> 0 <= bitmap_at o (n_fs s) d -> bytes_ok (bitmap_on o s d) ->
  u16_ok (ext2bgd_nbfree d) -> ext2bgd_nbfree d = count_clear (bitmap_on o s d) (Z.to_nat (8 * m_bsize (n_fs s))) ->
  twp (alloc o (m_bsize (n_fs s)) mode) (fun b s' =>
      if ext2bgd_nbfree d =? 0 then b = 0 /\ s' = s
      else exists i, 0 <= i < 8 * m_bsize (n_fs s) /\ b = e2fs_first_dblock (m_e2fs (n_fs s)) + i /\
        bit (bitmap_on o s d) i = false /\ (forall j, 0 <= j < i -> bit (bitmap_on o s d) j = true) /\
        n_gd s' = zinsert 0 (taken_gd mode d) (n_gd s) /\
        n_fs s' = with_es (upd_e2fs_fbcount (fun n => u32 (n - 1))) (n_fs s) /\
        (forall j, 0 <= j < 8 * m_bsize (n_fs s) -> bit (bitmap_on o s' d) j = (j =? i) || bit (bitmap_on o s d) j) /\
        count_clear (bitmap_on o s' d) (Z.to_nat (8 * m_bsize (n_fs s))) = ext2bgd_nbfree (taken_gd mode d) /\
        (forall x, x < bitmap_at o (n_fs s) d \/ bitmap_at o (n_fs s) d + m_bsize (n_fs s) <= x -> n_dev s' x = n_dev s x))
    (fun _ => False) s.
Proof.
  intros HN Hcall Hvol Hd Haddr Hok Hnb Hcount. pose proof (volume_numbers _ _ Hvol) as Hnum.
  pose proof (vo_bpg _ _ Hvol) as Hbpg. assert (zlen (bitmap_on o s d) = m_bsize (n_fs s)) as Hlen by (apply read_len; lia).
  lazymatch goal with |- twp _ ?Q ?X _ => set (Post := Q); set (Out := X) end.
  unfold alloc. twp_steps. unfold gd_at at 1. twp_steps. apply (twp_lift _ d); [by rewrite Hd|].
  destruct (Z.eqb_spec (ext2bgd_nbfree d) 0) as [E|E]; [by apply twp_ret|].
  replace (m_bsize (n_fs s) >? m_bsize (n_fs s)) with false by lia. unfold os_call. twp_steps.
  rewrite Hcall. cbn [negb]. twp_steps.
  eapply twp_of_run; [apply rdfs_run; [apply Hcall|exact Haddr]|].
  replace (n_dev (upd_n_calls S s) <$> _) with (bitmap_on o s d) by done. set (bm := bitmap_on o s d) in *.
  rewrite Hbpg. unfold NBBY. rewrite (Z.mul_comm 8 (m_bsize (n_fs s))), Z.div_mul by lia. twp_steps.
  apply (twp_lift _ bm).
  { rewrite get_bytes_ok by lia. rewrite drop_0, firstn_all2; [done|]. unfold zlen in Hlen. lia. }
  destruct (alloc_search bm) as (Hr & map & i & Hmap & Hi & Hrange & Hbit & Hlow); [done|rewrite Hlen; unfold u16_ok in Hnb; lia|].
  rewrite Hlen in *. rewrite (proj2 (Z.eqb_neq _ _) Hr). set (loc := m_bsize (n_fs s) - skpc 0xffffffff bm) in *.
  twp_steps. apply (twp_lift _ map); [done|]. rewrite Hi. twp_steps.
  apply (twp_lift _ (bit bm (loc * 8 + i))); [apply isset_ok; lia|]. rewrite Hbit. twp_steps. apply twp_require; [intros _|done].
  destruct (setbit_ok bm (loc * 8 + i)) as (bm' & Hset & Hl' & Hbit'); [lia|]. twp_steps. apply (twp_lift _ bm'); [done|]. twp_steps.
  replace (m_bsize (n_fs s)) with (zlen bm') at 1 by lia.
  eapply twp_of_run; [apply wtfs_run; [done|apply Hcall|exact Haddr]|]. unfold set_gd, gd_at. twp_steps.
  apply (twp_lift _ d); [exact (f_equal access Hd)|]. twp_steps. set (s1 := upd_n_gd _ _).
  assert (exists s2, (if negb (Z.land mode IFDIR =? 0)
     then d0 ← (gds ← tgets n_gd; tlift (access (gds !z 0))); tmodify (upd_n_gd (zinsert 0 (upd_ext2bgd_ndirs (fun n => u16 (n + 1)) d0)))
     else mret tt) s1 = Ok (Done tt, s2) /\ n_gd s2 = zinsert 0 (taken_gd mode d) (n_gd s) /\
     n_fs s2 = n_fs s /\ n_dev s2 = write_bytes (bitmap_at o (n_fs s) d) bm' (n_dev s)) as (s2 & Hs2 & Hgd2 & Hfs2 & Hdev2).
  { assert (0 <= 0 < zlen (n_gd s)) as H0 by (split; [lia|]; apply zlookup_Some_inv in Hd as [? _]; lia).
    unfold taken_gd. destruct (negb (Z.land mode IFDIR =? 0)).
    - exists (upd_n_gd (zinsert 0 (upd_ext2bgd_ndirs (fun n => u16 (n + 1)) (upd_ext2bgd_nbfree (fun n => u16 (n - 1)) d))) s1).
      split; [|split; [|done]].
      + pose proof (zlookup_zinsert_eq (n_gd s) 0 (upd_ext2bgd_nbfree (fun n => u16 (n - 1)) d) H0) as Hg1.
        unfold tgets, tlift, tmodify, mbind, Tool_bind. change (n_gd s1) with
          (zinsert 0 (upd_ext2bgd_nbfree (fun n => u16 (n - 1)) d) (n_gd s)). by rewrite Hg1.
      + apply list_insert_insert_eq.
    - exists s1. done. }
  eapply twp_of_run; [exact Hs2|]. twp_steps. subst Post. cbn beta.
  exists (loc * 8 + i). assert (bitmap_on o (upd_n_fs (with_es (upd_e2fs_fbcount (fun n => u32 (n - 1)))) s2) d = bm') as Hbm'.
  { unfold bitmap_on, bitmap_at. cbn. rewrite Hfs2, Hdev2. replace (m_bsize (n_fs s)) with (zlen bm') by lia. apply read_written. }
  rewrite Hbm'. split; [lia|]. split; [apply u32_id; unfold u32_ok; lia|]. split; [done|]. split; [done|].
  split; [exact Hgd2|]. split; [cbn; by rewrite Hfs2|]. split; [intros j Hj; apply Hbit'; lia|]. split.
  - rewrite (count_clear_update bm bm' (loc * 8 + i) true), Hbit, <- Hcount by (lia || (intros j Hj; rewrite Hbit' by done; bool_cases)).
    unfold taken_gd. assert (u16 (ext2bgd_nbfree d - 1) = ext2bgd_nbfree d - 1) as Hu by (apply u16_id; unfold u16_ok in *; pose proof (count_clear_range bm (Z.to_nat (8 * m_bsize (n_fs s)))); lia).
    destruct (negb _); cbn; rewrite Hu; lia.
  - intros x Hx. change (n_dev (upd_n_fs _ s2)) with (n_dev s2). rewrite Hdev2. unfold write_bytes.
    destruct (bm' !z (x - bitmap_at o (n_fs s) d)) as [b|] eqn:El; [|done].
    apply zlookup_Some_inv in El as [El _]. lia.
Qed.

(** * Writing an inode *)

(** [iput] divides by [e2fs_ipg] of the in-core superblock, which traps on some
    machines. *)
Lemma iput_faults o `{env : NewfsEnv} ip ino s :
  div_zero = None -> m_ipg (n_fs s) = 0 -> call_ok (n_calls s) = true ->
  EXT2_FIRSTINO <= ino \/ ino < u32 (e2fs_ipg (m_e2fs (n_fs s)) * m_gcount (n_fs s)) ->
  iput o ip ino s = Fault DivByZero.
Proof.
  intros Hdiv Hipg Hcall Hino. unfold iput, os_call, newfs_ino_to_cg, tgets, tmodify, mbind, Tool_bind, mret, Tool_ret.
  rewrite Hcall. cbn [require negb]. unfold mret, Tool_ret. cbn [n_fs upd_n_calls]. rewrite Hipg, Hdiv.
  destruct (ino >=? EXT2_FIRSTINO) eqn:E; [done|].
  change (n_fs (upd_n_calls S s)) with (n_fs s). rewrite Hipg, ?Hdiv.
  destruct Hino as [Hino|Hino]; [lia|].
  destruct (ino >=? u32 (e2fs_ipg (m_e2fs (n_fs s)) * m_gcount (n_fs s))) eqn:E2; [lia|done].
Qed.

Definition no_ipg (s : newfs_state) : Prop := m_ipg (n_fs s) = 0.

Lemma with_es_no_ipg f s : no_ipg s -> no_ipg (upd_n_fs (with_es f) s).
Proof. done. Qed.

(** Where the division gives 0 instead, an inode of the first group goes to its
    group. *)
Lemma ino_to_cg_first `{env : NewfsEnv} fs ino : div_zero = Some 0 -> m_ipg fs = 0 -> 1 <= ino <= e2fs_ipg (m_e2fs fs) ->
  newfs_ino_to_cg fs ino = Ok ((ino - 1) / e2fs_ipg (m_e2fs fs)).
Proof. intros Hdiv Hipg Hino. unfold newfs_ino_to_cg. rewrite Hipg, Hdiv. cbn. rewrite Z.div_small by lia. done. Qed.

Section never.
Context (o : newfs_opts) `{env : NewfsEnv} (Htrap : div_zero = None).

#[local] Hint Resolve with_es_no_ipg : keeps.
#[local] Hint Extern 1 (keeps no_ipg (tmodify _)) => apply keeps_modify; intros ? ?; done : keeps.

Lemma keeps_os_call : keeps no_ipg os_call. Proof. unfold os_call. keeps_tac. Qed.
Lemma keeps_random : keeps no_ipg arc4random. Proof. unfold arc4random. keeps_tac. Qed.
#[local] Hint Resolve keeps_os_call keeps_random : keeps.
Lemma keeps_rdfs bno size : keeps no_ipg (rdfs o bno size). Proof. unfold rdfs. keeps_tac. Qed.
Lemma keeps_wtfs bno size bf : keeps no_ipg (wtfs o bno size bf). Proof. unfold wtfs. keeps_tac. Qed.
#[local] Hint Resolve keeps_rdfs keeps_wtfs : keeps.
Lemma keeps_gd_at c : keeps no_ipg (gd_at c). Proof. unfold gd_at. keeps_tac. Qed.
#[local] Hint Resolve keeps_gd_at : keeps.
Lemma keeps_set_gd c f : keeps no_ipg (set_gd c f). Proof. unfold set_gd. keeps_tac. Qed.
#[local] Hint Resolve keeps_set_gd : keeps.
Lemma keeps_alloc size mode : keeps no_ipg (alloc o size mode). Proof. unfold alloc. keeps_tac. Qed.
Lemma keeps_write_backup c : keeps no_ipg (write_backup o c). Proof. unfold write_backup, fill_iobuf. keeps_tac. Qed.
#[local] Hint Resolve keeps_alloc keeps_write_backup : keeps.
Lemma keeps_alloc_blocks n : forall acc, keeps no_ipg (alloc_blocks o n acc).
Proof. induction n; intros acc; cbn [alloc_blocks]; keeps_tac. Qed.
Lemma keeps_write_pads bs : keeps no_ipg (write_pads o bs).
Proof. induction bs; cbn [write_pads]; keeps_tac. Qed.
Lemma keeps_set_gens n : forall j buf, keeps no_ipg (set_gens o j n buf).
Proof. induction n; intros j buf; cbn [set_gens]; keeps_tac. Qed.
#[local] Hint Resolve keeps_alloc_blocks keeps_write_pads keeps_set_gens : keeps.
Lemma keeps_init_itable fs first n : forall i buf, keeps no_ipg (init_itable o fs first i n buf).
Proof. induction n; intros i buf; cbn [init_itable]; keeps_tac. Qed.
#[local] Hint Resolve keeps_init_itable : keeps.
Lemma keeps_initcg c : keeps no_ipg (initcg o c). Proof. unfold initcg. keeps_tac. Qed.
Lemma keeps_zap_old_sblock sec : keeps no_ipg (zap_old_sblock o sec). Proof. unfold zap_old_sblock. keeps_tac. Qed.
#[local] Hint Resolve keeps_initcg keeps_zap_old_sblock : keeps.
Lemma keeps_zap_loop fuel : forall pb ep p, keeps no_ipg (zap_loop o fuel pb ep p).
Proof. induction fuel; intros pb ep p; cbn [zap_loop]; keeps_tac. Qed.
#[local] Hint Resolve keeps_zap_loop : keeps.
Lemma keeps_zap_size p : keeps no_ipg (zap_size o p). Proof. unfold zap_size. keeps_tac. Qed.
#[local] Hint Resolve keeps_zap_size : keeps.
Lemma keeps_check_device : keeps no_ipg (check_device o). Proof. unfold check_device. keeps_tac. Qed.

(** [iput] does not return. *)
Lemma iput_never ip ino s : no_ipg s -> tpart (iput o ip ino) (fun _ _ => False) s.
Proof.
  intros Hs. unfold iput. eapply (tpart_keeps no_ipg); [apply keeps_os_call|done|]. intros ok s1 H1.
  eapply (tpart_keeps no_ipg); [apply keeps_require|done|]. intros _ s2 H2. apply tpart_bind. change (tpart (tgets n_fs) ?P s2) with (P (n_fs s2) s2).
  cbn beta. eapply (tpart_keeps no_ipg); [|exact H2|].
  { keeps_tac. }
  intros _ s3 H3. apply tpart_bind. change (tpart (tgets n_fs) ?P s3) with (P (n_fs s3) s3). cbn beta.
  apply tpart_bind, tpart_require. intros _. apply tpart_bind, tpart_lift. intros c Hc.
  unfold newfs_ino_to_cg in Hc. rewrite H3, Htrap in Hc. done.
Qed.

Lemma make_lostfound_never s : no_ipg s -> tpart (make_lostfound o) (fun b _ => b = false) s.
Proof.
  intros Hs. unfold make_lostfound. do 3 (eapply (tpart_keeps no_ipg); [keeps_tac|done|]; intros ? ? ?).
  eapply (tpart_keeps no_ipg); [keeps_tac|done|]. intros blk s4 H4. destruct (blk =? 0); [done|].
  eapply (tpart_keeps no_ipg); [keeps_tac|done|]. intros [blks|] s5 H5; [|done].
  do 2 (eapply (tpart_keeps no_ipg); [keeps_tac|done|]; intros ? ? ?).
  apply tpart_bind. eapply tpart_mono; [by apply iput_never|done].
Qed.

Lemma keeps_resize_backups fs i n : forall c acc, keeps no_ipg (resize_backups fs i c n acc).
Proof. induction n; intros c acc; cbn [resize_backups]; keeps_tac. Qed.
#[local] Hint Resolve keeps_resize_backups : keeps.
Lemma keeps_resize_loop fs n : forall i d nb, keeps no_ipg (resize_loop o fs i n d nb).
Proof. induction n; intros i d nb; cbn [resize_loop]; keeps_tac. Qed.
#[local] Hint Resolve keeps_resize_loop : keeps.

Lemma init_resizeino_never s : no_ipg s -> tpart (init_resizeino o) (fun _ _ => False) s.
Proof.
  intros Hs. unfold init_resizeino. do 8 (eapply (tpart_keeps no_ipg); [keeps_tac|done|]; intros ? ? ?).
  destruct (m_gdbcount _ >? NINDIR _); [done|].
  eapply (tpart_keeps no_ipg); [keeps_tac|done|]. intros [dd nb] s9 H9.
  eapply (tpart_keeps no_ipg); [keeps_tac|done|]. intros ? ? ?. by apply iput_never.
Qed.

Lemma set_reserved_ipg fs l fs' : set_reserved fs l = Ok fs' -> m_ipg fs' = m_ipg fs.
Proof.
  unfold set_reserved. case_match; [|by intros [= ->]]. intros H1. bind_inv H1 as n Hn. injection H1 as <-.
  by destruct (n =? 0).
Qed.

(** Any state: [True] is kept. *)
Lemma tpart_any {W A B} (m : Tool W A) (k : A -> Tool W B) P w :
  (forall a w', tpart (k a) P w') -> tpart (m ≫= k) P w.
Proof using. intros Hk. apply tpart_bind. unfold tpart at 1. destruct (m w) as [[[a|s] w']|]; auto. Qed.

Lemma prepare_no_ipg s : tpart (prepare o) (fun _ => no_ipg) s.
Proof.
  unfold prepare. do 7 (apply tpart_any; intros ? ?). apply tpart_bind, tpart_lift. intros fs Hfs.
  apply set_reserved_ipg in Hfs. do 2 (apply tpart_any; intros ? ?).
  apply tpart_any. intros [[gds fb] fi] s1. do 4 (apply tpart_any; intros ? ?). exact Hfs.
Qed.

(** C25: on a machine where dividing by zero traps, a run of newfs that writes
    never ends normally: it ends with an error or faults, whatever the options,
    the device and the answers of the system are. The inode of lost+found, the
    first that every volume gets, is put with a division by the [e2fs_ipg] of
    the in-core superblock, which nothing sets. *)
Theorem mke2fs_never_done s : o_Nflag o = false -> tpart (mke2fs o) (fun _ _ => False) s.
Proof.
  intros HN. unfold mke2fs. apply tpart_bind. eapply tpart_mono; [apply prepare_no_ipg|]. intros ? s1 H1.
  eapply (tpart_keeps no_ipg); [apply keeps_check_device|done|]. intros _ s2 H2.
  eapply (tpart_keeps no_ipg); [keeps_tac|done|]. intros fs s3 H3.
  eapply (tpart_keeps no_ipg); [apply keeps_for; apply keeps_initcg|done|]. intros _ s4 H4. rewrite HN.
  apply tpart_bind. unfold fsinit. eapply (tpart_keeps no_ipg); [keeps_tac|done|]. intros fs5 s5 H5.
  apply tpart_bind. assert (tpart (if resizable (m_e2fs fs5) then init_resizeino o else mret tt) (fun _ => no_ipg) s5) as Hr.
  { destruct (resizable (m_e2fs fs5)); [|done]. eapply tpart_mono; [by apply init_resizeino_never|done]. }
  eapply tpart_mono; [exact Hr|]. intros ? s6 H6. apply tpart_bind.
  eapply tpart_mono; [by apply make_lostfound_never|]. intros b s7 Hb. by rewrite Hb.
Qed.
End never.
