(* ===== verification/NewfsExamples.v ===== *)
(** The theorems about newfs_ext2fs at a volume of 100 blocks with 16 inodes,
    and what happens with inodes of 256 bytes in blocks of 1024. *)
From stdpp Require Import gmap.
From S2P Require Import Prelude Tool Bitmap Bytes Super Kernel InodeCnv Dir DirSpec Mount MountSpec Newfs NewfsSpec NewfsOps.

(** A machine where dividing by zero gives 0, and one where it traps. *)
Definition env_trap : NewfsEnv :=
  {| call_ok := fun _ => true; random_word := Z.of_nat; tv_sec := 1000; geteuid := 0; getegid := 0; div_zero := None |}.
#[local] Instance env_os : NewfsEnv :=
  { call_ok := fun _ => true; random_word := Z.of_nat; tv_sec := 1000; geteuid := 0; getegid := 0; div_zero := Some 0 }.

Definition small_opts : newfs_opts := mk_newfs_opts false 1 200 128 512 1024 1024 5 16 None.
Definition wide_opts : newfs_opts := mk_newfs_opts false 1 200 256 512 1024 1024 5 20 None.

(** The state at the start: static memory is 0. *)
Definition blank_es : ext2fs :=
  mk_ext2fs 0 0 0 0 0 0 0 0 0 0 0 0 0 0 0 0 0 0 0 0 0 0 0 0 0 0 0 0 0 0 0 [] [] [] 0 0 0 0 [] 0 0 0 [] 0 0 0 0 0 0 []
    0 0 0 0 0 0 0 0 0 0 0 0 0 0.
Definition blank : newfs_state :=
  mk_newfs_state (mk_m_ext2fs blank_es 0 0 0 0 0 0 0 0 0 0 0 0 0 0 0 [] 0 [] 0) [] [] (fun _ => 0) 0 0 0.

Definition done_state (r : res (outcome unit * newfs_state)) : newfs_state :=
  match r with Ok (_, s) => s | Fault _ => blank end.
Definition geom_of (o : newfs_opts) : newfs_geom :=
  match geometry o (sizes_of o) with Ok g => g | Fault _ => mk_newfs_geom 0 0 0 0 0 0 0 0 end.

Example small_geom : geom_of small_opts = mk_newfs_geom 100 1 1 16 16 2 8192 99.
Proof. reflexivity. Qed.
Example wide_geom : geom_of wide_opts = mk_newfs_geom 100 1 1 20 20 5 8192 99.
Proof. reflexivity. Qed.

Lemma small_opts_ok : opts_ok small_opts.
Proof. constructor; [apply elem_of_cons; by left|done|done|by left|split; done|split; done|done]. Qed.
Lemma wide_opts_ok : opts_ok wide_opts.
Proof. constructor; [apply elem_of_cons; by left|done|done|by right|split; done|split; done|done]. Qed.
Lemma small_fits : geom_fits small_opts (geom_of small_opts).
Proof. constructor; vm_compute; [split; done|done]. Qed.
Lemma wide_fits : geom_fits wide_opts (geom_of wide_opts).
Proof. constructor; vm_compute; [split; done|done]. Qed.

Lemma prepare_volume_witness :
  twp (prepare small_opts) (fun _ s =>
      volume_ok (n_fs s) 99 /\ gds_ok (n_fs s) 99 (n_gd s) /\ m_gcount (n_fs s) = 1 /\
      e2fs_fbcount (m_e2fs (n_fs s)) = u32 (free_blocks (n_fs s) 99 (Z.to_nat 1)) /\
      e2fs_ficount (m_e2fs (n_fs s)) = u32 (e2fs_ipg (m_e2fs (n_fs s)) * 1 - EXT2_RESERVED_INODES) /\
      n_dev s = n_dev blank)
    (fun s => n_dev s = n_dev blank) blank.
Proof. exact (prepare_volume small_opts (geom_of small_opts) blank small_opts_ok ltac:(vm_compute; discriminate) eq_refl small_fits). Defined.

Lemma prepare_mountable_witness :
  twp (prepare small_opts) (fun _ s =>
      check_sb_compat (m_e2fs (n_fs s)) false = 0 /\
      exists k, sb_geometry (m_e2fs (n_fs s)) = Ok (inl (k, m_gdbcount (n_fs s))) /\ same_geometry k (n_fs s))
    (fun _ => True) blank.
Proof. exact (prepare_mountable small_opts (geom_of small_opts) blank small_opts_ok ltac:(vm_compute; discriminate) eq_refl small_fits ltac:(vm_compute; discriminate)). Defined.

(** The volume newfs prepares for the options [o], whose last group is [l]. *)
Lemma prepared_volume o : opts_ok o -> minfssize (sizes_of o) <= o_fssize o -> geometry o (sizes_of o) = Ok (geom_of o) ->
  geom_fits o (geom_of o) ->
  twp (prepare o) (fun _ s => volume_ok (n_fs s) (g_blocks_lastcg (geom_of o))) (fun _ => True) blank.
Proof.
  intros H1 H2 H3 H4. eapply twp_mono; [apply (prepare_wp o (geom_of o) H1 H2 H3 H4)| |done].
  intros _ s (uuid & vname & n & f & Hvol & _ & -> & _). by apply counted_volume.
Qed.

Definition small_fs : m_ext2fs := Eval vm_compute in n_fs (done_state (prepare small_opts blank)).
Definition wide_fs : m_ext2fs := Eval vm_compute in n_fs (done_state (prepare wide_opts blank)).

Lemma twp_done {A} (m : NF A) (P : m_ext2fs -> Prop) w a s :
  twp m (fun _ s => P (n_fs s)) (fun _ => True) w -> m w = Ok (Done a, s) -> P (n_fs s).
Proof. unfold twp. intros H Hm. by rewrite Hm in H. Qed.

Lemma wide_volume : volume_ok wide_fs 99.
Proof.
  change wide_fs with (n_fs (done_state (prepare wide_opts blank))).
  apply (twp_done (prepare wide_opts) (fun fs => volume_ok fs 99) blank tt).
  - exact (prepared_volume wide_opts wide_opts_ok ltac:(vm_compute; discriminate) eq_refl wide_fits).
  - vm_compute. reflexivity.
Qed.

Lemma small_volume : volume_ok small_fs 99.
Proof.
  change small_fs with (n_fs (done_state (prepare small_opts blank))).
  apply (twp_done (prepare small_opts) (fun fs => volume_ok fs 99) blank tt).
  - exact (prepared_volume small_opts small_opts_ok ltac:(vm_compute; discriminate) eq_refl small_fits).
  - vm_compute. reflexivity.
Qed.

Lemma initcg_block_bitmap_witness :
  volume_ok small_fs 99 /\
  exists bm d, block_bitmap small_fs 0 = Ok bm /\ init_gd small_fs 99 0 = Ok d /\ zlen bm = 1024 /\
    (forall j, 0 <= j < 8192 -> bit bm j = (j <? overhead small_fs 0) || (group_size small_fs 99 0 <=? j)) /\
    count_clear bm (Z.to_nat 8192) = ext2bgd_nbfree d.
Proof.
  split; [apply small_volume|]. exact (initcg_block_bitmap small_fs 99 0 small_volume (conj (Z.le_refl 0) eq_refl)).
Defined.

(** Twenty inodes, four in a block: the bitmap has room for sixteen. *)
Lemma initcg_inode_bitmap_witness :
  volume_ok wide_fs 99 /\
  exists bm d, inode_bitmap wide_fs 0 = Ok bm /\ init_gd wide_fs 99 0 = Ok d /\ zlen bm = 1024 /\
    (forall j, 0 <= j < 8192 -> bit bm j = (j <? 10) || (16 <=? j)) /\
    count_clear bm (Z.to_nat 20) = ext2bgd_nifree d - 4.
Proof.
  split; [apply wide_volume|].
  exact (initcg_inode_bitmap wide_fs 99 0 wide_volume (conj (Z.le_refl 0) eq_refl) ltac:(vm_compute; discriminate)).
Defined.

Lemma makedir_spec_witness :
  exists blk, makedir 1024 (root_dir 2) = Ok blk /\ zlen blk = 1024 /\ dir_block blk (laid_out (root_dir 2) 1024) /\
    in_use (laid_out (root_dir 2) 1024) = [(2, 2, chars "."); (2, 2, chars ".."); (11, 2, chars "lost+found")].
Proof.
  apply (makedir_spec 1024 (root_dir 2)); [apply elem_of_cons; by left|done| |repeat constructor; done|vm_compute; discriminate].
  repeat constructor; vm_compute; discriminate.
Defined.

(** Group 0 of that volume with its bitmap on the device. *)
Definition small_gd0 : ext2_gd := mk_gd 3 4 5 93 6 0 0 0 0 0 0 0.
Definition small_bitmap : list Z := Eval vm_compute in match block_bitmap small_fs 0 with Ok bm => bm | Fault _ => [] end.
Definition small_ready : newfs_state :=
  mk_newfs_state small_fs [small_gd0] [] (write_bytes (bitmap_at small_opts small_fs small_gd0) small_bitmap (fun _ => 0)) 0 0 0.

Example small_gd0_made : init_gd small_fs 99 0 = Ok small_gd0.
Proof. vm_compute. reflexivity. Qed.

Lemma ready_bitmap : bitmap_on small_opts small_ready small_gd0 = small_bitmap.
Proof. exact (read_written (bitmap_at small_opts small_fs small_gd0) small_bitmap (fun _ => 0)). Qed.

Lemma ready_bytes : bytes_ok (bitmap_on small_opts small_ready small_gd0) /\
  ext2bgd_nbfree small_gd0 = count_clear (bitmap_on small_opts small_ready small_gd0) (Z.to_nat (8 * m_bsize (n_fs small_ready))).
Proof.
  rewrite ready_bitmap. split.
  2:{ assert (block_bitmap small_fs 0 = Ok small_bitmap) as Hbm by (vm_compute; reflexivity).
      destruct (block_bitmap_bits small_fs 99 small_volume 0 (conj (Z.le_refl 0) eq_refl)) as (bm & E & _ & Hbit).
      rewrite Hbm in E. injection E as E. subst bm.
      rewrite (count_clear_stretch small_bitmap 6 99); [reflexivity|lia|]. exact Hbit. }
  apply Forall_forall. intros b Hb. assert (forallb (fun b => (0 <=? b) && (b <? 256)) small_bitmap = true) as H
    by (vm_compute; reflexivity).
  rewrite forallb_forall in H. specialize (H b Hb). unfold u8_ok. lia.
Qed.

Lemma twp_result {A} (m : NF A) Q s :
  twp m Q (fun _ => False) s -> exists a s', m s = Ok (Done a, s') /\ Q a s'.
Proof. unfold twp. destruct (m s) as [[[a|e] s']|]; [eauto|done..]. Qed.

Lemma alloc_spec_witness :
  exists b s', alloc small_opts 1024 0x41ed small_ready = Ok (Done b, s') /\
    ext2bgd_nbfree (taken_gd 0x41ed small_gd0) = 92 /\ n_gd s' = zinsert 0 (taken_gd 0x41ed small_gd0) [small_gd0].
Proof.
  destruct ready_bytes as [Hb Hc].
  destruct (twp_result _ _ small_ready
    (@alloc_spec small_opts env_os small_ready 99 0x41ed small_gd0 eq_refl (fun _ => eq_refl) small_volume
      eq_refl ltac:(vm_compute; discriminate) Hb ltac:(vm_compute; split; congruence) Hc)) as (b & s' & E & H).
  change (ext2bgd_nbfree small_gd0 =? 0) with false in H.
  destruct H as (i & _ & _ & _ & _ & Hg & _). exists b, s'. split; [exact E|]. split; [reflexivity|]. exact Hg.
Defined.

Lemma mke2fs_never_done_witness :
  (@div_zero env_trap = None /\ o_Nflag small_opts = false) /\ tpart (@mke2fs small_opts env_trap) (fun _ _ => False) blank.
Proof. split; [split; reflexivity|]. exact (@mke2fs_never_done small_opts env_trap eq_refl blank eq_refl). Defined.

Example newfs_traps : @mke2fs small_opts env_trap blank = Fault DivByZero.
Proof. vm_compute. reflexivity. Qed.

(** Where it gives 0 the run ends: the ten reserved inodes and lost+found are
    taken, and 80 of the 100 blocks are free. *)
Example newfs_done : (fun r => match r with Ok (Done _, s) => Some (e2fs_ficount (m_e2fs (n_fs s)), e2fs_fbcount (m_e2fs (n_fs s))) | _ => None end)
    (mke2fs small_opts blank) = Some (5, 80).
Proof. vm_compute. reflexivity. Qed.

(** A volume of one group too small for its inodes: newfs drops the group and
    divides by the number of groups. *)
Example geometry_lone_group :
  geometry (mk_newfs_opts false 1 200 128 512 1024 1024 5 800 None) (sizes_of small_opts) = Fault DivByZero.
Proof. reflexivity. Qed.
