(* ===== verification/Fsck.v ===== *)
(** fsck_ext2fs: the state of the checker, the questions it asks, the device and
    the buffers in front of it, and the maps of blocks and inodes (utilities.c,
    the macros of fsck.h, and what setup.c and inode.c provide to all passes).
    Byte order conversions are the identity, what is only printed is left out,
    and [pfatal] ends the program when it preens. *)
From stdpp Require Import gmap.
From S2P Require Import Prelude Tool Bitmap Bytes Super Kernel InodeCnv Dir Mount Newfs.

(** * Options, environment and state *)

(** [preen], [nflag] and [lfmode], set by the command line. *)
Record fsck_opts : Type := mk_fsck_opts { o_preen : bool; o_nflag : bool; o_lfmode : Z }.

(** The system around the program: whether the n-th transfer succeeds, whether
    the n-th request for memory does, the contents of fresh memory, the clock, and the order in which [qsort] leaves
    elements, given their comparison. *)
Class FsckEnv := {
  io_ok : nat -> bool;
  mem_ok : nat -> bool;
  junk : nat -> Z;
  clock : Z;
  qsort : (nat -> nat -> Z) -> list nat -> list nat
}.

(** [struct bufarea]; its place in the list of buffers is kept in [f_lru]. *)
Record bufarea : Type := mk_bufarea {
  b_bno : Z; b_size : Z; b_errs : Z; b_inuse : bool; b_buf : list Z; b_dirty : bool
}.

(** [struct inoinfo]; the hash chains are lists of indices of [f_inos]. *)
Record inoinfo : Type := mk_inoinfo {
  i_child : option nat; i_sibling : option nat; i_parentp : option nat;
  in_number : Z; i_parent : Z; i_dotdot : Z; i_isize : Z; i_blks : list Z
}.

(** The variables of [getnextinode]; [r_bp] is its place in [r_inodebuf]. *)
Record inode_reader : Type := mk_inode_reader {
  r_nextino : Z; r_lastinum : Z; r_readcnt : Z; r_readpercg : Z; r_fullcnt : Z; r_inobufsize : Z;
  r_partialcnt : Z; r_partialsize : Z; r_inodebuf : list Z; r_bp : Z
}.

(** The globals of main.c. Pointers to buffers and to [struct inoinfo] are
    indices of [f_bufs] and [f_inos]; [f_lru] is the list that hangs on
    [bufhead], from [b_next]; [f_writable] is [fswritefd >= 0]; [f_stdin] is
    what the user has typed so far and [f_dev] the device, byte by byte. *)
Record fsck_state : Type := mk_fsck_state {
  f_sb : m_ext2fs; f_sblk : bufarea; f_asblk : bufarea; f_bufs : list bufarea; f_lru : list nat; f_pbp : option nat;
  f_pdirbp : option nat; f_startinum : Z; f_reader : inode_reader; f_dev : Z -> Z; f_calls : nat; f_stdin : list Z;
  f_yflag : bool; f_writable : bool; f_havesb : bool; f_fsmodified : bool; f_rerun : bool; f_bflag : Z;
  f_secsize : Z; f_blockmap : list Z; f_statemap : list Z; f_typemap : list Z; f_lncntp : list Z;
  f_inos : list inoinfo; f_inphead : list (list nat); f_inpsort : list nat; f_duplist : list Z;
  f_muldup : option nat; f_duphead : nat; f_zlnhead : list Z; f_badblk : Z; f_dupblk : Z; f_n_blks : Z;
  f_n_files : Z; f_maxfsblock : Z; f_maxino : Z; f_lastino : Z; f_lfdir : Z;
  f_mallocs : nat
}.

Definition fsck_state_eta (s : fsck_state) : fsck_state :=
  mk_fsck_state (f_sb s) (f_sblk s) (f_asblk s) (f_bufs s) (f_lru s) (f_pbp s) (f_pdirbp s) (f_startinum s)
    (f_reader s) (f_dev s) (f_calls s) (f_stdin s) (f_yflag s) (f_writable s) (f_havesb s) (f_fsmodified s)
    (f_rerun s) (f_bflag s) (f_secsize s) (f_blockmap s) (f_statemap s) (f_typemap s) (f_lncntp s) (f_inos s)
    (f_inphead s) (f_inpsort s) (f_duplist s) (f_muldup s) (f_duphead s) (f_zlnhead s) (f_badblk s) (f_dupblk s)
    (f_n_blks s) (f_n_files s) (f_maxfsblock s) (f_maxino s) (f_lastino s) (f_lfdir s) (f_mallocs s).
Definition upd_f_sb : (m_ext2fs -> m_ext2fs) -> fsck_state -> fsck_state := ltac:(mk_setter fsck_state_eta f_sb).
Definition upd_f_sblk : (bufarea -> bufarea) -> fsck_state -> fsck_state := ltac:(mk_setter fsck_state_eta f_sblk).
Definition upd_f_asblk : (bufarea -> bufarea) -> fsck_state -> fsck_state := ltac:(mk_setter fsck_state_eta f_asblk).
Definition upd_f_bufs : (list bufarea -> list bufarea) -> fsck_state -> fsck_state := ltac:(mk_setter fsck_state_eta f_bufs).
Definition upd_f_lru : (list nat -> list nat) -> fsck_state -> fsck_state := ltac:(mk_setter fsck_state_eta f_lru).
Definition upd_f_pbp : (option nat -> option nat) -> fsck_state -> fsck_state := ltac:(mk_setter fsck_state_eta f_pbp).
Definition upd_f_pdirbp : (option nat -> option nat) -> fsck_state -> fsck_state := ltac:(mk_setter fsck_state_eta f_pdirbp).
Definition upd_f_startinum : (Z -> Z) -> fsck_state -> fsck_state := ltac:(mk_setter fsck_state_eta f_startinum).
Definition upd_f_reader : (inode_reader -> inode_reader) -> fsck_state -> fsck_state := ltac:(mk_setter fsck_state_eta f_reader).
Definition upd_f_dev : ((Z -> Z) -> Z -> Z) -> fsck_state -> fsck_state := ltac:(mk_setter fsck_state_eta f_dev).
Definition upd_f_calls : (nat -> nat) -> fsck_state -> fsck_state := ltac:(mk_setter fsck_state_eta f_calls).
Definition upd_f_stdin : (list Z -> list Z) -> fsck_state -> fsck_state := ltac:(mk_setter fsck_state_eta f_stdin).
Definition upd_f_yflag : (bool -> bool) -> fsck_state -> fsck_state := ltac:(mk_setter fsck_state_eta f_yflag).
Definition upd_f_writable : (bool -> bool) -> fsck_state -> fsck_state := ltac:(mk_setter fsck_state_eta f_writable).
Definition upd_f_havesb : (bool -> bool) -> fsck_state -> fsck_state := ltac:(mk_setter fsck_state_eta f_havesb).
Definition upd_f_fsmodified : (bool -> bool) -> fsck_state -> fsck_state := ltac:(mk_setter fsck_state_eta f_fsmodified).
Definition upd_f_rerun : (bool -> bool) -> fsck_state -> fsck_state := ltac:(mk_setter fsck_state_eta f_rerun).
Definition upd_f_bflag : (Z -> Z) -> fsck_state -> fsck_state := ltac:(mk_setter fsck_state_eta f_bflag).
Definition upd_f_secsize : (Z -> Z) -> fsck_state -> fsck_state := ltac:(mk_setter fsck_state_eta f_secsize).
Definition upd_f_blockmap : (list Z -> list Z) -> fsck_state -> fsck_state := ltac:(mk_setter fsck_state_eta f_blockmap).
Definition upd_f_statemap : (list Z -> list Z) -> fsck_state -> fsck_state := ltac:(mk_setter fsck_state_eta f_statemap).
Definition upd_f_typemap : (list Z -> list Z) -> fsck_state -> fsck_state := ltac:(mk_setter fsck_state_eta f_typemap).
Definition upd_f_lncntp : (list Z -> list Z) -> fsck_state -> fsck_state := ltac:(mk_setter fsck_state_eta f_lncntp).
Definition upd_f_inos : (list inoinfo -> list inoinfo) -> fsck_state -> fsck_state := ltac:(mk_setter fsck_state_eta f_inos).
Definition upd_f_inphead : (list (list nat) -> list (list nat)) -> fsck_state -> fsck_state := ltac:(mk_setter fsck_state_eta f_inphead).
Definition upd_f_inpsort : (list nat -> list nat) -> fsck_state -> fsck_state := ltac:(mk_setter fsck_state_eta f_inpsort).
Definition upd_f_duplist : (list Z -> list Z) -> fsck_state -> fsck_state := ltac:(mk_setter fsck_state_eta f_duplist).
Definition upd_f_muldup : (option nat -> option nat) -> fsck_state -> fsck_state := ltac:(mk_setter fsck_state_eta f_muldup).
Definition upd_f_duphead : (nat -> nat) -> fsck_state -> fsck_state := ltac:(mk_setter fsck_state_eta f_duphead).
Definition upd_f_zlnhead : (list Z -> list Z) -> fsck_state -> fsck_state := ltac:(mk_setter fsck_state_eta f_zlnhead).
Definition upd_f_badblk : (Z -> Z) -> fsck_state -> fsck_state := ltac:(mk_setter fsck_state_eta f_badblk).
Definition upd_f_dupblk : (Z -> Z) -> fsck_state -> fsck_state := ltac:(mk_setter fsck_state_eta f_dupblk).
Definition upd_f_n_blks : (Z -> Z) -> fsck_state -> fsck_state := ltac:(mk_setter fsck_state_eta f_n_blks).
Definition upd_f_n_files : (Z -> Z) -> fsck_state -> fsck_state := ltac:(mk_setter fsck_state_eta f_n_files).
Definition upd_f_maxfsblock : (Z -> Z) -> fsck_state -> fsck_state := ltac:(mk_setter fsck_state_eta f_maxfsblock).
Definition upd_f_maxino : (Z -> Z) -> fsck_state -> fsck_state := ltac:(mk_setter fsck_state_eta f_maxino).
Definition upd_f_lastino : (Z -> Z) -> fsck_state -> fsck_state := ltac:(mk_setter fsck_state_eta f_lastino).
Definition upd_f_lfdir : (Z -> Z) -> fsck_state -> fsck_state := ltac:(mk_setter fsck_state_eta f_lfdir).
Definition upd_f_mallocs : (nat -> nat) -> fsck_state -> fsck_state := ltac:(mk_setter fsck_state_eta f_mallocs).

Definition bufarea_eta (b : bufarea) : bufarea :=
  mk_bufarea (b_bno b) (b_size b) (b_errs b) (b_inuse b) (b_buf b) (b_dirty b).
Definition upd_b_bno : (Z -> Z) -> bufarea -> bufarea := ltac:(mk_setter bufarea_eta b_bno).
Definition upd_b_errs : (Z -> Z) -> bufarea -> bufarea := ltac:(mk_setter bufarea_eta b_errs).
Definition upd_b_inuse : (bool -> bool) -> bufarea -> bufarea := ltac:(mk_setter bufarea_eta b_inuse).
Definition upd_b_buf : (list Z -> list Z) -> bufarea -> bufarea := ltac:(mk_setter bufarea_eta b_buf).
Definition upd_b_dirty : (bool -> bool) -> bufarea -> bufarea := ltac:(mk_setter bufarea_eta b_dirty).

Definition inoinfo_eta (i : inoinfo) : inoinfo :=
  mk_inoinfo (i_child i) (i_sibling i) (i_parentp i) (in_number i) (i_parent i) (i_dotdot i) (i_isize i) (i_blks i).
Definition upd_i_child : (option nat -> option nat) -> inoinfo -> inoinfo := ltac:(mk_setter inoinfo_eta i_child).
Definition upd_i_sibling : (option nat -> option nat) -> inoinfo -> inoinfo := ltac:(mk_setter inoinfo_eta i_sibling).
Definition upd_i_parentp : (option nat -> option nat) -> inoinfo -> inoinfo := ltac:(mk_setter inoinfo_eta i_parentp).
Definition upd_i_parent : (Z -> Z) -> inoinfo -> inoinfo := ltac:(mk_setter inoinfo_eta i_parent).
Definition upd_i_dotdot : (Z -> Z) -> inoinfo -> inoinfo := ltac:(mk_setter inoinfo_eta i_dotdot).
Definition upd_i_isize : (Z -> Z) -> inoinfo -> inoinfo := ltac:(mk_setter inoinfo_eta i_isize).

Definition upd_e2fs_features_rocompat : (Z -> Z) -> ext2fs -> ext2fs := ltac:(mk_setter ext2fs_eta e2fs_features_rocompat).
Definition upd_e2fs_rbcount : (Z -> Z) -> ext2fs -> ext2fs := ltac:(mk_setter ext2fs_eta e2fs_rbcount).
Definition upd_e2fs_lastfsck : (Z -> Z) -> ext2fs -> ext2fs := ltac:(mk_setter ext2fs_eta e2fs_lastfsck).

Abbreviation FK := (Tool fsck_state).

(** [roundup] of <sys/param.h> on 64-bit operands. *)
Definition roundup (x y : Z) : res Z :=
  if y =? 0 then Fault DivByZero else mret (if x mod y =? 0 then x else x + (y - x mod y)).

(** A buffer: the primary and alternate superblock, or one of the cache. *)
Inductive bufptr : Type := Sblk | Asblk | Cached (n : nat).

(** * Constants of fsck.h *)

Definition MAXDUP : Z := 10.
Definition MAXBAD : Z := 10.
Definition MAXBUFSPACE : Z := 80 * 1024.
Definition INOBUFSIZE : Z := 128 * 1024.
Definition MINBUFS : Z := 5.
Definition DEV_BSIZE : Z := 512.

Definition USTATE : Z := 1.
Definition FSTATE : Z := 2.
Definition DSTATE : Z := 3.
Definition DFOUND : Z := 4.
Definition DCLEAR : Z := 5.
Definition FCLEAR : Z := 6.

Definition STOP : Z := 0x01.
Definition SKIP : Z := 0x02.
Definition KEEPON : Z := 0x04.
Definition ALTERED : Z := 0x08.
Definition FOUND : Z := 0x10.

(** The other file types of <sys/stat.h>. *)
Definition IFIFO : Z := 0x1000.
Definition IFCHR : Z := 0x2000.
Definition IFBLK : Z := 0x6000.
Definition IFLNK : Z := 0xA000.
Definition IFSOCK : Z := 0xC000.

(** [(r & m) != 0]. *)
Definition has (r m : Z) : bool := negb (Z.land r m =? 0).

Section fsck.
Context (o : fsck_opts).
Context `{env : FsckEnv}.

(** Memory that has not been written yet. *)
Definition fresh (n : Z) : list Z := (fun i => u8 (junk i)) <$> seq 0 (Z.to_nat n).

(** A request for memory: false when it returns NULL. *)
Definition malloc : FK bool :=
  n ← tgets f_mallocs; _ ← tmodify (upd_f_mallocs S); mret (mem_ok n).

(** * Messages and questions *)

Definition pfatal (msg : string) : FK unit := if o_preen o then errx msg else mret tt.

(** The loop that reads an answer: the first character of a line counts; [F]
    answers yes to everything from now on and leaves the rest of its line; the
    end of the input is a no. [cur] is the first character of the line that is
    being skipped. *)
Fixpoint read_answer (cur : option Z) (input : list Z) : bool * bool * list Z :=
  match input with
  | [] => (false, false, [])
  | c :: rest =>
      match cur with
      | None =>
          if c =? 70 then (true, true, rest)
          else if c =? 10 then read_answer None rest
          else read_answer (Some c) rest
      | Some a =>
          if negb (c =? 10) then read_answer cur rest
          else if (a =? 121) || (a =? 89) then (true, false, rest)
          else if (a =? 110) || (a =? 78) then (false, false, rest)
          else read_answer None rest
      end
  end.

Definition reply (question : string) : FK bool :=
  _ ← pfatal "INTERNAL ERROR: GOT TO reply()";
  let persevere := String.eqb question "CONTINUE" in
  w ← tgets f_writable;
  y ← tgets f_yflag;
  if negb persevere && (o_nflag o || negb w) then mret false
  else if y || (persevere && o_nflag o) then mret true
  else
    input ← tgets f_stdin;
    let '(yes, all, rest) := read_answer None input in
    _ ← tmodify (upd_f_stdin (fun _ => rest));
    _ ← (if all : bool then tmodify (upd_f_yflag (fun _ => true)) else mret tt);
    mret yes.

(** A repair that is made without a question when preening. *)
Definition preen_or_reply (question : string) : FK bool := if o_preen o then mret true else reply question.

(** [if (reply("CONTINUE") == 0) errexit(...)]. *)
Definition continue_or_exit (msg : string) : FK unit :=
  c ← reply "CONTINUE"; require c msg.

(** * The device *)

(** The outcome of one transfer. *)
Definition io_call : FK bool := k ← tgets f_calls; _ ← tmodify (upd_f_calls S); mret (io_ok k).

Definition dev_bytes (offset size : Z) : FK (list Z) := tgets (fun w => f_dev w <$> seqZ offset size).

(** [pread] and [pwrite] fail at a negative offset. *)
Definition pread (offset size : Z) : FK (option (list Z)) :=
  ok ← io_call;
  if ok && (0 <=? offset) then bytes ← dev_bytes offset size; mret (Some bytes) else mret None.

Definition pwrite (offset : Z) (bytes : list Z) : FK bool :=
  ok ← io_call;
  if ok && (0 <=? offset) then _ ← tmodify (upd_f_dev (write_bytes offset bytes)); mret true else mret false.

Definition rwerror (mesg : string) : FK unit :=
  _ ← pfatal mesg;
  continue_or_exit "Program terminated".

(** The second try of [bread], one device sector at a time into a cleared
    buffer; a sector that goes beyond the buffer is out of bounds. *)
Fixpoint bread_sectors (fuel : nat) (offset size secsize i errs : Z) (buf : list Z) : FK (list Z * Z) :=
  if i <? size then
    match fuel with
    | O => tlift (Fault NoFuel)
    | S fuel' =>
        r ← pread (offset + i) secsize;
        match r with
        | Some bytes =>
            buf ← tlift (put_bytes buf i bytes);
            bread_sectors fuel' offset size secsize (i + secsize) errs buf
        | None => bread_sectors fuel' offset size secsize (i + secsize) (errs + 1) buf
        end
    end
  else mret (buf, errs).

Definition bread (blk size : Z) : FK (list Z * Z) :=
  let offset := blk * DEV_BSIZE in
  r ← pread offset size;
  match r with
  | Some bytes => mret (bytes, 0)
  | None =>
      _ ← rwerror "READ";
      secsize ← tgets f_secsize;
      bread_sectors (Z.to_nat size) offset size secsize 0 0 (replicate (Z.to_nat size) 0)
  end.

Fixpoint bwrite_sectors (fuel : nat) (offset size secsize i : Z) (buf : list Z) : FK unit :=
  if i <? size then
    match fuel with
    | O => tlift (Fault NoFuel)
    | S fuel' =>
        bytes ← tlift (get_bytes buf i (Z.to_nat secsize));
        _ ← pwrite (offset + i) bytes;
        bwrite_sectors fuel' offset size secsize (i + secsize) buf
    end
  else mret tt.

Definition bwrite (blk size : Z) (buf : list Z) : FK unit :=
  w ← tgets f_writable;
  if negb w then mret tt else
  let offset := blk * DEV_BSIZE in
  bytes ← tlift (get_bytes buf 0 (Z.to_nat size));
  ok ← pwrite offset bytes;
  if ok : bool then tmodify (upd_f_fsmodified (fun _ => true))
  else
    _ ← rwerror "WRITE";
    secsize ← tgets f_secsize;
    bwrite_sectors (Z.to_nat size) offset size secsize 0 buf.

(** * Buffers *)

Definition get_buf (p : bufptr) : FK bufarea :=
  match p with
  | Sblk => tgets f_sblk
  | Asblk => tgets f_asblk
  | Cached n => bs ← tgets f_bufs; tlift (access (bs !! n))
  end.

Definition upd_buf (p : bufptr) (f : bufarea -> bufarea) : FK unit :=
  match p with
  | Sblk => tmodify (upd_f_sblk f)
  | Asblk => tmodify (upd_f_asblk f)
  | Cached n => tmodify (upd_f_bufs (alter f n))
  end.

Definition dirty (p : bufptr) : FK unit := upd_buf p (upd_b_dirty (fun _ => true)).

(** The block of descriptors behind the superblock. *)
Definition gd_home (fs : m_ext2fs) (i : Z) : Z := s32 (fsbtodb fs ((if m_bsize fs >? 1024 then 0 else 1) + i + 1)).

Definition write_gds : FK unit :=
  fs ← tgets f_sb;
  tfor 0 (Z.to_nat (m_gdbcount fs)) (fun i =>
    fs ← tgets f_sb;
    bytes ← tlift (get_bytes (m_gd fs) (i * m_bsize fs) (Z.to_nat (m_bsize fs)));
    bwrite (gd_home fs i) (m_bsize fs) bytes).

Definition flush (p : bufptr) : FK unit :=
  bp ← get_buf p;
  if negb (b_dirty bp) then mret tt else
  _ ← (if b_errs bp =? 0 then mret tt else pfatal "WRITING ZERO'ED BLOCK TO DISK");
  _ ← upd_buf p (fun b => upd_b_errs (fun _ => 0) (upd_b_dirty (fun _ => false) b));
  _ ← bwrite (b_bno bp) (b_size bp) (b_buf bp);
  match p with Sblk => write_gds | _ => mret tt end.

Definition getblk (p : bufptr) (blk size : Z) : FK unit :=
  fs ← tgets f_sb;
  let dblk := s32 (fsbtodb fs blk) in
  bp ← get_buf p;
  if b_bno bp =? dblk then mret tt else
  _ ← flush p;
  '(bytes, errs) ← bread dblk size;
  upd_buf p (fun b => mk_bufarea dblk size errs (b_inuse b) bytes (b_dirty b)).

(** The buffer of a block, and the one to give up for it: the last in the list
    that is not in use. *)
Definition holds (d : Z) (bs : list bufarea) (n : nat) : bool :=
  match bs !! n with Some b => b_bno b =? d | None => false end.
Definition is_free (bs : list bufarea) (n : nat) : bool :=
  match bs !! n with Some b => negb (b_inuse b) | None => false end.

Fixpoint find_first {A : Type} (P : A -> bool) (l : list A) : option A :=
  match l with [] => None | x :: l' => if P x then Some x else find_first P l' end.

(** To the front of the list. *)
Definition touch (n : nat) (lru : list nat) : list nat := n :: filter (fun m => m <> n) lru.

Definition use_buf (n : nat) : FK nat :=
  _ ← tmodify (upd_f_lru (touch n));
  _ ← upd_buf (Cached n) (upd_b_inuse (fun _ => true));
  mret n.

Definition getdatablk (blkno size : Z) : FK nat :=
  fs ← tgets f_sb;
  bs ← tgets f_bufs;
  lru ← tgets f_lru;
  match find_first (holds (fsbtodb fs blkno) bs) lru with
  | Some n => use_buf n
  | None =>
      match find_first (is_free bs) (reverse lru) with
      | None => errx "deadlocked buffer pool"
      | Some n => _ ← getblk (Cached n) blkno size; use_buf n
      end
  end.

Definition release (p : option nat) : FK unit :=
  match p with Some n => upd_buf (Cached n) (upd_b_inuse (fun _ => false)) | None => mret tt end.

Definition getdirblk (blkno size : Z) : FK nat :=
  p ← tgets f_pdirbp;
  _ ← release p;
  n ← getdatablk blkno size;
  _ ← tmodify (upd_f_pdirbp (fun _ => Some n));
  mret n.

(** [initbarea] leaves the other members as they are. *)
Definition initbarea (b : bufarea) : bufarea :=
  mk_bufarea (-1) (b_size b) (b_errs b) false (b_buf b) false.

(** The loop that gets the buffers, [n] more after the first [i]: how many there
    are. It stops at the first that is not to be had, if there are enough. *)
Fixpoint bufinit_loop (n i : nat) : FK nat :=
  match n with
  | O => mret i
  | S n' =>
      bp ← malloc;
      bufp ← malloc;
      if bp && bufp then bufinit_loop n' (S i)
      else if MINBUFS <=? Z.of_nat i then mret i
      else errx "cannot allocate buffer pool"
  end.

(** Each new buffer goes to the front of the list. *)
Definition bufinit : FK unit :=
  fs ← tgets f_sb;
  cnt ← tlift (udiv MAXBUFSPACE (m_bsize fs));
  let cnt := Z.to_nat (if cnt <? MINBUFS then MINBUFS else cnt) in
  cnt ← bufinit_loop cnt 0;
  let b := initbarea (mk_bufarea 0 0 0 false (fresh (m_bsize fs)) false) in
  _ ← tmodify (upd_f_bufs (fun _ => replicate cnt b));
  _ ← tmodify (upd_f_lru (fun _ => reverse (seq 0 cnt)));
  _ ← tmodify (upd_f_pbp (fun _ => None));
  tmodify (upd_f_pdirbp (fun _ => None)).

(** * The superblock *)

Definition sb_of (w : fsck_state) : ext2fs := m_e2fs (f_sb w).

(** [copyback_sb]: the members in front of [e2fs_minrev], and those behind it up
    to the default owner. *)
Definition copyback_head (es : ext2fs) : list Z :=
  fields_encode (replicate 13 4%nat ++ replicate 5 2%nat)
    [e2fs_icount es; e2fs_bcount es; e2fs_rbcount es; e2fs_fbcount es; e2fs_ficount es; e2fs_first_dblock es;
     e2fs_log_bsize es; e2fs_log_fsize es; e2fs_bpg es; e2fs_fpg es; e2fs_ipg es; e2fs_mtime es; e2fs_wtime es;
     e2fs_mnt_count es; e2fs_max_mnt_count es; e2fs_magic es; e2fs_state es; e2fs_beh es].
Definition copyback_tail (es : ext2fs) : list Z :=
  fields_encode [4; 4; 4; 4; 2; 2]%nat
    [e2fs_lastfsck es; e2fs_fsckintv es; e2fs_creator es; e2fs_rev es; e2fs_ruid es; e2fs_rgid es].

Definition copyback_sb (p : bufptr) : FK unit :=
  es ← tgets sb_of;
  bp ← get_buf p;
  buf ← tlift (put_bytes (b_buf bp) 0 (copyback_head es));
  buf ← tlift (put_bytes buf 64 (copyback_tail es));
  upd_buf p (upd_b_buf (fun _ => buf)).

Definition sbdirty : FK unit := _ ← copyback_sb Sblk; dirty Sblk.

Definition upd_es (f : ext2fs -> ext2fs) : FK unit := tmodify (upd_f_sb (with_es f)).

(** The volume has types in its directory entries. *)
Definition has_ftype (w : fsck_state) : bool :=
  (e2fs_rev (sb_of w) >? E2FS_REV0) && has_feature (e2fs_features_incompat (sb_of w)) EXT2F_INCOMPAT_FTYPE.

Definition cgoverhead (c : Z) : FK Z :=
  fs ← tgets f_sb;
  let es := m_e2fs fs in
  let overh := s32 (2 + m_itpg fs) in
  sparse ← (if (e2fs_rev es >? E2FS_REV0) && has_feature (e2fs_features_rocompat es) EXT2F_ROCOMPAT_SPARSESUPER
            then h ← tlift (cg_has_sb c); mret (h =? 0) else mret false);
  mret (if sparse : bool then overh else s32 (overh + (1 + m_gdbcount fs))).

(** * The block map *)

Definition testbmap (blkno : Z) : FK bool := m ← tgets f_blockmap; tlift (isset m blkno).
Definition setbmap (blkno : Z) : FK unit :=
  m ← tgets f_blockmap; m ← tlift (setbit m blkno); tmodify (upd_f_blockmap (fun _ => m)).
Definition clrbmap (blkno : Z) : FK unit :=
  m ← tgets f_blockmap; m ← tlift (clrbit m blkno); tmodify (upd_f_blockmap (fun _ => m)).

Fixpoint allocblk_loop (i : Z) (n : nat) : FK Z :=
  match n with
  | O => mret 0
  | S n' =>
      used ← testbmap i;
      if used : bool then allocblk_loop (i + 1) n'
      else
        _ ← setbmap i;
        _ ← tmodify (upd_f_n_blks (fun k => s32 (k + 1)));
        mret i
  end.

Definition allocblk : FK Z :=
  m ← tgets f_maxfsblock;
  allocblk_loop 0 (Z.to_nat (m - 1)).

(** [chkrange]; the sums of a block number and a count wrap. *)
Definition chkrange (blk cnt : Z) : FK bool :=
  fs ← tgets f_sb;
  m ← tgets f_maxfsblock;
  let es := m_e2fs fs in
  if u32 (blk + cnt) >? u32 m then mret true else
  c ← tlift (udiv (u32 (blk - e2fs_first_dblock es)) (m_bpg fs));
  let c := s32 c in
  overh ← cgoverhead c;
  let cgdmin := u32 (e2fs_bpg es * c + overh + e2fs_first_dblock es) in
  let cgdmax := u32 (e2fs_bpg es * (c + 1) + overh + e2fs_first_dblock es) in
  mret (if u32 blk <? cgdmin then u32 (blk + cnt) >? cgdmin else u32 (blk + cnt) >? cgdmax).

(** * The maps of inodes *)

Definition statemap (ino : Z) : FK Z := m ← tgets f_statemap; tlift (access (m !z ino)).
Definition typemap (ino : Z) : FK Z := m ← tgets f_typemap; tlift (access (m !z ino)).
Definition lncntp (ino : Z) : FK Z := m ← tgets f_lncntp; tlift (access (m !z ino)).

Definition set_statemap (ino v : Z) : FK unit := _ ← statemap ino; tmodify (upd_f_statemap (zinsert ino v)).
Definition set_typemap (ino v : Z) : FK unit := _ ← typemap ino; tmodify (upd_f_typemap (zinsert ino v)).
Definition set_lncntp (ino v : Z) : FK unit := _ ← lncntp ino; tmodify (upd_f_lncntp (zinsert ino (s16 v))).
Definition add_lncntp (ino v : Z) : FK unit := c ← lncntp ino; set_lncntp ino (c + v).

Definition blkerror (ino : Z) (type : string) (blk : Z) : FK unit :=
  _ ← pfatal type;
  st ← statemap ino;
  if st =? FSTATE then set_statemap ino FCLEAR
  else if st =? DSTATE then set_statemap ino DCLEAR
  else if (st =? FCLEAR) || (st =? DCLEAR) then mret tt
  else errx "BAD STATE TO BLKERR".

(** * The description of an inode that is examined: struct inodesc *)

Inductive fixstate : Type := DONTKNOW | NOFIX | FIX | IGNORE.
Inductive idtype : Type := DATA | ADDR.
Inductive idfunc : Type :=
| F_pass1check | F_pass1bcheck | F_pass4check | F_pass2check | F_findino | F_findname | F_mkentry | F_chgino.

(** [id_dirp] is the buffer that is passed along with it. *)
Record inodesc : Type := mk_inodesc {
  id_fix : fixstate; id_func : idfunc; id_number : Z; id_parent : Z; id_blkno : Z; id_numfrags : Z;
  id_filesize : Z; id_loc : Z; id_entryno : Z; id_name : list Z; id_type : idtype
}.

Definition inodesc_eta (i : inodesc) : inodesc :=
  mk_inodesc (id_fix i) (id_func i) (id_number i) (id_parent i) (id_blkno i) (id_numfrags i) (id_filesize i)
    (id_loc i) (id_entryno i) (id_name i) (id_type i).
Definition upd_id_fix : (fixstate -> fixstate) -> inodesc -> inodesc := ltac:(mk_setter inodesc_eta id_fix).
Definition upd_id_number : (Z -> Z) -> inodesc -> inodesc := ltac:(mk_setter inodesc_eta id_number).
Definition upd_id_parent : (Z -> Z) -> inodesc -> inodesc := ltac:(mk_setter inodesc_eta id_parent).
Definition upd_id_blkno : (Z -> Z) -> inodesc -> inodesc := ltac:(mk_setter inodesc_eta id_blkno).
Definition upd_id_numfrags : (Z -> Z) -> inodesc -> inodesc := ltac:(mk_setter inodesc_eta id_numfrags).
Definition upd_id_filesize : (Z -> Z) -> inodesc -> inodesc := ltac:(mk_setter inodesc_eta id_filesize).
Definition upd_id_loc : (Z -> Z) -> inodesc -> inodesc := ltac:(mk_setter inodesc_eta id_loc).
Definition upd_id_entryno : (Z -> Z) -> inodesc -> inodesc := ltac:(mk_setter inodesc_eta id_entryno).
Definition upd_id_name : (list Z -> list Z) -> inodesc -> inodesc := ltac:(mk_setter inodesc_eta id_name).

(** A zeroed descriptor with the members that are set. *)
Definition new_idesc (type : idtype) (func : idfunc) (number parent : Z) (name : list Z) : inodesc :=
  mk_inodesc DONTKNOW func number parent 0 0 0 0 0 name type.

Definition is_data (i : inodesc) : bool := match id_type i with DATA => true | ADDR => false end.
Definition is_ignore (i : inodesc) : bool := match id_fix i with IGNORE => true | _ => false end.

(** * Blocks that are shared, and those that are given back *)

(** [pass4check] on one block: a block that is still on the list of duplicates
    loses one entry of it, any other is free again. *)
Definition drop_dup (blkno : Z) (dups : list Z) : option (list Z) :=
  match dups, list_find (fun d => d = blkno) dups with
  | head :: _, Some (i, _) => Some (drop 1 (<[i := head]> dups))
  | _, _ => None
  end.

Definition pass4_block (blkno : Z) : FK bool :=
  out ← chkrange blkno 1;
  if out : bool then mret true else
  used ← testbmap blkno;
  if negb used then mret false else
  dups ← tgets f_duplist;
  _ ← (match drop_dup blkno dups with
       | Some dups => tmodify (upd_f_duplist (fun _ => dups))
       | None =>
           _ ← clrbmap blkno;
           tmodify (upd_f_n_blks (fun k => s32 (k - 1)))
       end);
  mret false.

Fixpoint pass4_blocks (blkno : Z) (n : nat) (res : Z) : FK Z :=
  match n with
  | O => mret res
  | S n' => out ← pass4_block blkno; pass4_blocks (s32 (blkno + 1)) n' (if out : bool then SKIP else res)
  end.

Definition pass4check (idesc : inodesc) : FK (Z * inodesc) :=
  r ← pass4_blocks (id_blkno idesc) (Z.to_nat (id_numfrags idesc)) KEEPON;
  mret (r, idesc).

Definition freeblk (blkno : Z) : FK unit :=
  _ ← pass4_blocks blkno 1 KEEPON; mret tt.

(** [pass1check] *)
Definition record_dup (blkno : Z) : FK unit :=
  dups ← tgets f_duplist;
  m ← tgets f_muldup;
  match m with
  | None =>
      _ ← tmodify (upd_f_duplist (fun _ => [blkno]));
      tmodify (upd_f_muldup (fun _ => Some 0%nat))
  | Some k =>
      (* behind muldup *)
      _ ← tmodify (upd_f_duplist (fun _ => take (S k) dups ++ blkno :: drop (S k) dups));
      if bool_decide (blkno ∈ take (S k) dups) then mret tt
      else tmodify (upd_f_muldup (fun _ => Some (S k)))
  end.

(** One block: [inr] ends the scan of the inode. *)
Definition pass1_block (ino blkno : Z) (anyout : bool) (res : Z) : FK (Z + Z) :=
  out ← (if anyout then chkrange blkno 1 else mret false);
  if out : bool then mret (inl SKIP) else
  used ← testbmap blkno;
  if negb used then
    _ ← tmodify (upd_f_n_blks (fun k => s32 (k + 1)));
    _ ← setbmap blkno;
    mret (inl res)
  else
    _ ← blkerror ino "DUP" blkno;
    d ← tgets f_dupblk;
    _ ← tmodify (upd_f_dupblk (fun k => s32 (k + 1)));
    if d >=? MAXDUP then
      _ ← (if o_preen o then mret tt else continue_or_exit "");
      mret (inr STOP)
    else
      ok ← malloc;
      if negb ok then
        _ ← pfatal "DUP TABLE OVERFLOW.";
        _ ← continue_or_exit "";
        mret (inr STOP)
      else
        _ ← record_dup blkno;
        mret (inl res).

Fixpoint pass1_blocks (ino blkno : Z) (n : nat) (anyout : bool) (res entryno : Z) : FK (Z * Z) :=
  match n with
  | O => mret (res, entryno)
  | S n' =>
      r ← pass1_block ino blkno anyout res;
      match r with
      | inl res => pass1_blocks ino (s32 (blkno + 1)) n' anyout res (s32 (entryno + 1))
      | inr res => mret (res, entryno)
      end
  end.

Definition pass1check (idesc : inodesc) : FK (Z * inodesc) :=
  let blkno := id_blkno idesc in
  let ino := id_number idesc in
  anyout ← chkrange blkno (id_numfrags idesc);
  bad ← (if anyout : bool then
           _ ← blkerror ino "BAD" blkno;
           b ← tgets f_badblk;
           _ ← tmodify (upd_f_badblk (fun k => s32 (k + 1)));
           if b >=? MAXBAD then
             _ ← (if o_preen o then mret tt else continue_or_exit "");
             mret true
           else mret false
         else mret false);
  if bad : bool then mret (STOP, idesc) else
  '(r, entryno) ← pass1_blocks ino blkno (Z.to_nat (id_numfrags idesc)) anyout KEEPON (id_entryno idesc);
  mret (r, upd_id_entryno (fun _ => entryno) idesc).

(** [pass1bcheck]: the search goes over the unique part of the list from
    [duphead], which a hit moves on. *)
Fixpoint pass1b_search (ino blkno : Z) (k n : nat) : FK unit :=
  match n with
  | O => mret tt
  | S n' =>
      dups ← tgets f_duplist;
      _ ← (match dups !! k with
           | Some d =>
               if d =? blkno then
                 _ ← blkerror ino "DUP" blkno;
                 h ← tgets f_duphead;
                 hd ← tlift (match dups !! h with Some x => Ok x | None => Fault NullDeref end);
                 _ ← tmodify (upd_f_duplist (fun l => <[h := blkno]> (<[k := hd]> l)));
                 tmodify (upd_f_duphead S)
               else mret tt
           | None => mret tt
           end);
      m ← tgets f_muldup;
      if bool_decide (m = Some k) then mret tt else pass1b_search ino blkno (S k) n'
  end.

Fixpoint pass1b_blocks (ino blkno : Z) (n : nat) (res : Z) : FK Z :=
  match n with
  | O => mret res
  | S n' =>
      out ← chkrange blkno 1;
      let res := if out : bool then SKIP else res in
      dups ← tgets f_duplist;
      h ← tgets f_duphead;
      _ ← pass1b_search ino blkno h (length dups - h);
      m ← tgets f_muldup;
      h ← tgets f_duphead;
      match m with
      | None => mret STOP
      | Some k => if bool_decide (h = S k) then mret STOP else pass1b_blocks ino (s32 (blkno + 1)) n' res
      end
  end.

Definition pass1bcheck (idesc : inodesc) : FK (Z * inodesc) :=
  r ← pass1b_blocks (id_number idesc) (id_blkno idesc) (Z.to_nat (id_numfrags idesc)) KEEPON;
  mret (r, idesc).

(** What is applied to the blocks of an inode. *)
Definition addr_func (idesc : inodesc) : FK (Z * inodesc) :=
  match id_func idesc with
  | F_pass1check => pass1check idesc
  | F_pass1bcheck => pass1bcheck idesc
  | F_pass4check => pass4check idesc
  | _ => tlift (Fault NullDeref)
  end.

End fsck.
