(* ===== verification/FsckInode.v ===== *)
(** fsck_ext2fs, inode.c and the directory scan of dir.c: inodes in memory,
    the walk over the blocks of an inode ([ckinode], [iblock], [dirscan]), the
    search for a path name, and the cache of directory inodes. *)
From stdpp Require Import gmap.
From S2P Require Import Prelude Tool Bitmap Bytes Super Kernel InodeCnv Dir Mount Newfs Fsck.

Definition PATH_MAX : Z := 1024.
Definition EXT2FS_MAXNAMLEN : Z := 255.
Definition NDADDR : Z := 12.
Definition NIADDR : nat := 3.
Definition MAXSYMLINKLEN : Z := 60.

(** [strlen] of a buffer from an offset, as far as the buffer goes. *)
Fixpoint strlen_list (l : list Z) : res Z :=
  match l with
  | [] => Fault OutOfBounds
  | c :: l' => if c =? 0 then mret 0 else n ← strlen_list l'; mret (n + 1)
  end.

(** [strcmp(l, s) == 0] for a string [s] without NULs. *)
Fixpoint str_eq (l s : list Z) : res bool :=
  match l, s with
  | [], _ => Fault OutOfBounds
  | c :: _, [] => mret (c =? 0)
  | c :: l', d :: s' => if negb (c =? d) then mret false else str_eq l' s'
  end.

(** * Inodes in memory *)

(** [struct ext2fs_dinode *]: into a buffer of the cache or into the buffer of
    [getnextinode]. *)
Inductive dptr : Type := In_buf (n : nat) (off : Z) | In_reader (off : Z).

(** The members [ckinode] and its callers read. *)
Record dview : Type := mk_dview { dv_mode : Z; dv_size : Z; dv_size_high : Z; dv_blocks : list Z }.

Definition DI_MODE : Z := 0.
Definition DI_SIZE : Z := 4.
Definition DI_ATIME : Z := 8.
Definition DI_CTIME : Z := 12.
Definition DI_MTIME : Z := 16.
Definition DI_DTIME : Z := 20.
Definition DI_NLINK : Z := 26.
Definition DI_NBLOCK : Z := 28.
Definition DI_BLOCKS : Z := 40.
Definition DI_SIZE_HIGH : Z := 108.

Section inode.
Context (o : fsck_opts).
Context `{env : FsckEnv}.

Notation reply := (reply o).
Notation pfatal := (pfatal o).

Definition mem_of (p : dptr) : FK (list Z * Z) :=
  match p with
  | In_buf n off => b ← get_buf (Cached n); mret (b_buf b, off)
  | In_reader off => r ← tgets f_reader; mret (r_inodebuf r, off)
  end.

Definition set_inodebuf (f : list Z -> list Z) (r : inode_reader) : inode_reader :=
  mk_inode_reader (r_nextino r) (r_lastinum r) (r_readcnt r) (r_readpercg r) (r_fullcnt r) (r_inobufsize r)
    (r_partialcnt r) (r_partialsize r) (f (r_inodebuf r)) (r_bp r).

Definition put_mem (p : dptr) (buf : list Z) : FK unit :=
  match p with
  | In_buf n _ => upd_buf (Cached n) (upd_b_buf (fun _ => buf))
  | In_reader _ => tmodify (upd_f_reader (set_inodebuf (fun _ => buf)))
  end.

(** [dp->member], of [n] bytes. *)
Definition di_get (p : dptr) (member : Z) (n : nat) : FK Z :=
  '(bs, off) ← mem_of p; tlift (get_le bs (off + member) n).
Definition di_put (p : dptr) (member : Z) (n : nat) (v : Z) : FK unit :=
  '(bs, off) ← mem_of p; bs ← tlift (put_le bs (off + member) n v); put_mem p bs.

Definition e2di_mode p := di_get p DI_MODE 2.
Definition e2di_nlink p := di_get p DI_NLINK 2.
Definition e2di_block (p : dptr) (i : Z) : FK Z := di_get p (DI_BLOCKS + 4 * i) 4.
Definition set_block (p : dptr) (i v : Z) : FK unit := di_put p (DI_BLOCKS + 4 * i) 4 v.

(** [clearinode]: the whole structure, 156 bytes. *)
Definition clearinode (p : dptr) : FK unit :=
  '(bs, off) ← mem_of p;
  bs ← tlift (put_bytes bs off (replicate (Z.to_nat SIZEOF_DINODE) 0));
  put_mem p bs.

(** * The size of an inode *)

Definition setlarge : FK bool :=
  es ← tgets sb_of;
  if e2fs_rev es <? E2FS_REV1 then
    _ ← pfatal "LARGE FILES UNSUPPORTED ON REVISION 0 FILESYSTEMS"; mret false
  else if has_feature (e2fs_features_rocompat es) EXT2F_ROCOMPAT_LARGEFILE then mret true
  else
    yes ← preen_or_reply o "SET LARGE FILE INDICATOR";
    if negb yes then mret false
    else
      _ ← upd_es (upd_e2fs_features_rocompat (fun f => Z.lor f EXT2F_ROCOMPAT_LARGEFILE));
      _ ← sbdirty;
      mret true.

Definition fmt (mode : Z) : Z := Z.land mode IFMT.

(** [inosize], given the members it reads. *)
Definition size_of (mode size size_high : Z) : FK Z :=
  let size := if fmt mode =? IFREG then Z.lor size (Z.shiftl size_high 32) else size in
  _ ← (if size >=? 0x80000000 then setlarge else mret true);
  mret size.

Definition inosize (p : dptr) : FK Z :=
  size ← di_get p DI_SIZE 4;
  mode ← e2di_mode p;
  high ← (if fmt mode =? IFREG then di_get p DI_SIZE_HIGH 4 else mret 0);
  size_of mode size high.

Definition inossize (p : dptr) (size : Z) : FK unit :=
  mode ← e2di_mode p;
  if fmt mode =? IFREG then
    _ ← di_put p DI_SIZE_HIGH 4 (Z.shiftr size 32);
    ok ← (if size >=? 0x80000000 then setlarge else mret true);
    if negb ok then mret tt else di_put p DI_SIZE 4 size
  else if size >=? 0x80000000 then pfatal "TRYING TO SET FILESIZE"
  else di_put p DI_SIZE 4 size.

(** [inosize(&dino)] of a local copy. *)
Definition view_size (d : dview) : FK Z := size_of (dv_mode d) (dv_size d) (dv_size_high d).

(** [MIN(EXT2_DINODE_SIZE(&sblock), sizeof(dino))] bytes are copied. *)
Definition view_of (bs : list Z) : res dview :=
  mode ← get16 bs DI_MODE;
  size ← get32 bs DI_SIZE;
  high ← get32 bs DI_SIZE_HIGH;
  blocks ← fields_get bs DI_BLOCKS (replicate 15 4%nat);
  mret (mk_dview mode size high blocks).

Definition copy_dinode (p : dptr) : FK dview :=
  es ← tgets sb_of;
  '(bs, off) ← mem_of p;
  tlift (bytes ← get_bytes bs off (Z.to_nat (Z.min (EXT2_DINODE_SIZE es) SIZEOF_DINODE)); view_of bytes).

(** The argument of [ckinode]: an inode in memory or a local one. *)
Inductive dsource : Type := At (p : dptr) | Local (d : dview).

Definition src_size (s : dsource) : FK Z := match s with At p => inosize p | Local d => view_size d end.
Definition src_mode (s : dsource) : FK Z := match s with At p => e2di_mode p | Local d => mret (dv_mode d) end.
Definition src_copy (s : dsource) : FK dview := match s with At p => copy_dinode p | Local d => mret d end.

(** * Reading inodes *)

Definition fsck_ino_to_fsba (ino : Z) : FK Z :=
  fs ← tgets f_sb;
  c ← tlift (udiv (u64 (ino - 1)) (m_ipg fs));
  d ← tlift (EXT2_GD (m_gd fs) (m_gdsize fs) c);
  if e2fs_ipg (m_e2fs fs) =? 0 then tlift (Fault DivByZero) else
  b ← tlift (udiv (u64 (ino - 1) mod e2fs_ipg (m_e2fs fs)) (m_ipb fs));
  mret (u64 (ext2bgd_i_tables d + b)).

(** An inode the checker works on. *)
Definition bad_ino (ino maxino : Z) : bool := ((ino <? EXT2_FIRSTINO) && negb (ino =? EXT2_ROOTINO)) || (ino >? maxino).

(** [&pbp->b_un.b_dinode[i]]: the array has elements of 156 bytes. *)
Definition ginode (inumber : Z) : FK dptr :=
  maxino ← tgets f_maxino;
  _ ← require (negb (bad_ino inumber maxino)) "bad inode number to ginode";
  fs ← tgets f_sb;
  start ← tgets f_startinum;
  _ ← (if (start =? 0) || (inumber <? start) || (inumber >=? start + m_ipb fs) then
         iblk ← fsck_ino_to_fsba inumber;
         p ← tgets f_pbp;
         _ ← release p;
         n ← getdatablk o (s32 iblk) (m_bsize fs);
         _ ← tmodify (upd_f_pbp (fun _ => Some n));
         tmodify (upd_f_startinum (fun _ => u64 ((inumber - 1) / m_ipb fs * m_ipb fs + 1)))
       else mret tt);
  p ← tgets f_pbp;
  match p with
  | Some n => mret (In_buf n (SIZEOF_DINODE * ((inumber - 1) mod m_ipb fs)))
  | None => tlift (Fault NullDeref)
  end.

Definition inodirty : FK unit :=
  p ← tgets f_pbp;
  match p with Some n => dirty (Cached n) | None => tlift (Fault NullDeref) end.

Definition set_reader (r : inode_reader) : FK unit := tmodify (upd_f_reader (fun _ => r)).

(** The next chunk of the inode tables, when the last one is used up. *)
Definition read_chunk_of_inodes (r : inode_reader) : FK inode_reader :=
  fs ← tgets f_sb;
  let readcnt := r_readcnt r + 1 in
  fsba ← fsck_ino_to_fsba (r_lastinum r);
  let dblk := s32 (fsbtodb fs (s64 fsba)) in
  if r_readpercg r =? 0 then tlift (Fault DivByZero) else
  let last := crem readcnt (r_readpercg r) =? 0 in
  let size := if last then r_partialsize r else r_inobufsize r in
  let lastinum := u64 (r_lastinum r + (if last then r_partialcnt r else r_fullcnt r)) in
  '(bytes, _) ← bread o dblk size;
  buf ← tlift (put_bytes (r_inodebuf r) 0 bytes);
  mret (mk_inode_reader (r_nextino r) lastinum readcnt (r_readpercg r) (r_fullcnt r) (r_inobufsize r)
          (r_partialcnt r) (r_partialsize r) buf 0).

(** [getnextinode]; the stride is the size of the inodes of the volume. *)
Definition getnextinode (inumber : Z) : FK dptr :=
  r ← tgets f_reader;
  maxino ← tgets f_maxino;
  _ ← require ((inumber =? r_nextino r) && negb (inumber >? maxino)) "bad inode number to nextinode";
  let r := mk_inode_reader (u64 (r_nextino r + 1)) (r_lastinum r) (r_readcnt r) (r_readpercg r) (r_fullcnt r)
             (r_inobufsize r) (r_partialcnt r) (r_partialsize r) (r_inodebuf r) (r_bp r) in
  r ← (if inumber >=? r_lastinum r then read_chunk_of_inodes r else mret r);
  es ← tgets sb_of;
  _ ← set_reader (mk_inode_reader (r_nextino r) (r_lastinum r) (r_readcnt r) (r_readpercg r) (r_fullcnt r)
                    (r_inobufsize r) (r_partialcnt r) (r_partialsize r) (r_inodebuf r) (r_bp r + EXT2_DINODE_SIZE es));
  mret (In_reader (r_bp r)).

(** [resetinodebuf]: the loop that skips the inodes below the root runs once. *)
Definition resetinodebuf : FK unit :=
  _ ← tmodify (upd_f_startinum (fun _ => 0));
  fs ← tgets f_sb;
  let isize := EXT2_DINODE_SIZE (m_e2fs fs) in
  let inobufsize := Z.land (INOBUFSIZE + m_qbmask fs) (Z.lnot (m_qbmask fs)) in
  fullcnt ← tlift (udiv inobufsize isize);
  readpercg ← tlift (udiv (e2fs_ipg (m_e2fs fs)) fullcnt);
  let partialcnt := e2fs_ipg (m_e2fs fs) mod fullcnt in
  let exact := partialcnt =? 0 in
  r ← tgets f_reader;
  ok ← (match r_inodebuf r with [] => malloc | _ => mret true end);
  _ ← require ok "Cannot allocate space for inode buffer";
  _ ← set_reader (mk_inode_reader 1 1 0 (if exact then readpercg else readpercg + 1) fullcnt inobufsize
                    (if exact then fullcnt else partialcnt) (if exact then inobufsize else partialcnt * isize)
                    (match r_inodebuf r with [] => fresh (u32 inobufsize) | buf => buf end) 0);
  _ ← getnextinode 1;
  mret tt.

(** [freeinodebuf] *)
Definition freeinodebuf : FK unit := tmodify (upd_f_reader (set_inodebuf (fun _ => []))).

(** [ftypeok] *)
Definition ftypeok (mode : Z) : bool :=
  let f := fmt mode in
  (f =? IFDIR) || (f =? IFREG) || (f =? IFBLK) || (f =? IFCHR) || (f =? IFLNK) || (f =? IFSOCK) || (f =? IFIFO).

(** [pinode] prints the inode, whose size it asks for. *)
Definition pinode (ino : Z) : FK unit :=
  maxino ← tgets f_maxino;
  if bad_ino ino maxino then mret tt
  else p ← ginode ino; _ ← inosize p; mret tt.

(** * Directory entries *)

(** [dircheck] of the entry at [off] of a buffer. *)
Definition dircheck (idesc : inodesc) (bs : list Z) (off : Z) : FK bool :=
  w ← tgets (fun w => w);
  let bsize := m_bsize (f_sb w) in
  reclen ← tlift (e2d_reclen bs off);
  ino ← tlift (e2d_ino bs off);
  let spaceleft := bsize - u32 (id_loc idesc) mod bsize in
  if (ino >? f_maxino w) || (reclen =? 0) || (reclen >? spaceleft) || negb (Z.land reclen 3 =? 0) then mret false
  else if ino =? 0 then mret true
  else
    typed ← (if has_ftype w then mret false else t ← tlift (e2d_type bs off); mret (negb (t =? 0)));
    if typed : bool then mret true else
    namlen ← tlift (e2d_namlen bs off);
    let size := EXT2_DIR_REC_LEN namlen in
    if (reclen <? size) || (id_filesize idesc <? size) || (namlen >? EXT2FS_MAXNAMLEN) then mret false
    else
      name ← tlift (e2d_name bs off namlen);
      mret (forallb (fun c => negb (c =? 0) && negb (c =? 47)) name).

(** [inot2ext2dt] *)
Definition inot2ext2dt (type : Z) : Z :=
  if type =? DT_FIFO then EXT2_FT_FIFO
  else if type =? DT_CHR then EXT2_FT_CHRDEV
  else if type =? DT_DIR then EXT2_FT_DIR
  else if type =? DT_BLK then EXT2_FT_BLKDEV
  else if type =? DT_REG then EXT2_FT_REG_FILE
  else if type =? DT_LNK then EXT2_FT_SYMLINK
  else if type =? DT_SOCK then EXT2_FT_SOCK
  else EXT2_FT_UNKNOWN.

(** The type of the entry for an inode. *)
Definition entry_type (ino : Z) : FK Z :=
  ft ← tgets has_ftype;
  if ft : bool then t ← typemap ino; mret (inot2ext2dt t) else mret 0.

(** What a function on directory entries answers: its result, the descriptor
    and the copy of the entry it may have changed. *)
Definition entry_result : Type := Z * inodesc * list Z.

Definition findname (idesc : inodesc) (dirp : list Z) : FK entry_result :=
  namlen ← tlift (e2d_namlen dirp 0);
  ino ← tlift (e2d_ino dirp 0);
  if negb (ino =? id_parent idesc) then mret (KEEPON, idesc, dirp)
  else
    name ← tlift (e2d_name dirp 0 namlen);
    mret (Z.lor STOP FOUND, upd_id_name (fun _ => name) idesc, dirp).

Definition findino (idesc : inodesc) (dirp : list Z) : FK entry_result :=
  maxino ← tgets f_maxino;
  ino ← tlift (e2d_ino dirp 0);
  if ino =? 0 then mret (KEEPON, idesc, dirp) else
  eq ← tlift (str_eq (drop 8 dirp) (id_name idesc));
  if eq && negb (bad_ino ino maxino)
  then mret (Z.lor STOP FOUND, upd_id_parent (fun _ => ino) idesc, dirp)
  else mret (KEEPON, idesc, dirp).

(** [mkentry]: the new entry takes the room behind the name of the old one. *)
Definition mkentry (idesc : inodesc) (dirp : list Z) : FK entry_result :=
  let namlen := u8 (zlen (id_name idesc)) in
  type ← entry_type (id_parent idesc);
  let newlen := EXT2_DIR_REC_LEN namlen in
  ino ← tlift (e2d_ino dirp 0);
  oldlen ← (if negb (ino =? 0) then l ← tlift (e2d_namlen dirp 0); mret (EXT2_DIR_REC_LEN l) else mret 0);
  reclen ← tlift (e2d_reclen dirp 0);
  if reclen - oldlen <? newlen then mret (KEEPON, idesc, dirp)
  else
    dirp ← tlift (d ← put16 dirp 4 oldlen;
                  put_bytes d oldlen (le_split 4 (id_parent idesc) ++ le_split 2 (u16 (reclen - oldlen)) ++
                                      [namlen; type] ++ take (Z.to_nat namlen) (id_name idesc)));
    mret (Z.lor ALTERED STOP, idesc, dirp).

Definition chgino (idesc : inodesc) (dirp : list Z) : FK entry_result :=
  namlen ← tlift (e2d_namlen dirp 0);
  if negb (zlen (id_name idesc) =? namlen) then mret (KEEPON, idesc, dirp) else
  name ← tlift (e2d_name dirp 0 namlen);
  if negb (bool_decide (name = id_name idesc)) then mret (KEEPON, idesc, dirp)
  else
    dirp ← tlift (put32 dirp 0 (id_parent idesc));
    type ← entry_type (id_parent idesc);
    dirp ← tlift (put8 dirp 7 type);
    mret (Z.lor ALTERED STOP, idesc, dirp).

(** * The walk over an inode *)

(** A bound for the entries of one block. *)
Definition scan_fuel (bsize : Z) : nat := Z.to_nat (bsize / 4 + 2).

Section walk.
(** [path cwd ino] stands for [getpathname], whose text is only printed, and
    [entry_func] is applied to the entries of a directory. *)
Context (path : Z -> Z -> FK unit).
Context (entry_func : inodesc -> list Z -> FK entry_result).

Definition fileerror (cwd ino : Z) (errmesg : string) : FK unit :=
  _ ← pinode ino;
  _ ← path cwd ino;
  maxino ← tgets f_maxino;
  if bad_ino ino maxino then pfatal errmesg
  else
    p ← ginode ino;
    _ ← e2di_mode p;
    pfatal errmesg.

Definition direrror (ino : Z) (errmesg : string) : FK unit := fileerror ino ino errmesg.

Definition dofix (idesc : inodesc) (msg : string) : FK (bool * inodesc) :=
  match id_fix idesc with
  | DONTKNOW =>
      _ ← (if is_data idesc then direrror (id_number idesc) msg else mret tt);
      if o_preen o then mret (true, upd_id_fix (fun _ => FIX) idesc)
      else
        yes ← reply "SALVAGE";
        if negb yes then mret (false, upd_id_fix (fun _ => NOFIX) idesc)
        else mret (true, upd_id_fix (fun _ => FIX) idesc)
  | FIX => mret (true, idesc)
  | NOFIX | IGNORE => mret (false, idesc)
  end.

(** The contents of a buffer of the cache. *)
Definition buf_bytes (n : nat) : FK (list Z) := b ← get_buf (Cached n); mret (b_buf b).
Definition put_buf (n : nat) (bs : list Z) : FK unit := upd_buf (Cached n) (upd_b_buf (fun _ => bs)).

Definition advance (n : Z) (idesc : inodesc) : inodesc :=
  upd_id_loc (fun l => s32 (l + n)) (upd_id_filesize (fun f => s64 (f - n)) idesc).

(** The entry that replaces a block that is corrupted from its start. *)
Definition empty_entry (bs : list Z) (off bsize : Z) : res (list Z) :=
  put_bytes bs off (le_split 4 0 ++ le_split 2 bsize ++ [0; 0; 0]).

(** [fsck_readdir] with the place of the entry. *)
Definition readdir_next (bp : nat) (blksiz : Z) (idesc : inodesc) : FK (option (nat * Z) * inodesc) :=
  fs ← tgets f_sb;
  let bsize := m_bsize fs in
  if (id_filesize idesc <=? 0) || (id_loc idesc >=? blksiz) then mret (None, idesc)
  else
    let dploc := id_loc idesc in
    bs ← buf_bytes bp;
    reclen ← tlift (e2d_reclen bs dploc);
    let idesc := advance reclen idesc in
    if u32 (id_loc idesc) mod bsize =? 0 then mret (Some (bp, dploc), idesc)
    else
      bad ← (if (id_loc idesc <? blksiz) && (0 <? id_filesize idesc)
             then ok ← dircheck idesc bs (id_loc idesc); mret (negb ok) else mret false);
      if negb bad then mret (Some (bp, dploc), idesc)
      else
        let size := bsize - u32 (id_loc idesc) mod bsize in
        let idesc := advance size idesc in
        if is_ignore idesc then mret (None, idesc)
        else
          '(fix_it, idesc) ← dofix idesc "DIRECTORY CORRUPTED";
          bp ← getdirblk o (id_blkno idesc) blksiz;
          bs ← buf_bytes bp;
          bs ← tlift (reclen ← e2d_reclen bs dploc; put16 bs (dploc + 4) (reclen + size));
          _ ← put_buf bp bs;
          _ ← (if fix_it : bool then dirty (Cached bp) else mret tt);
          mret (Some (bp, dploc), idesc).

Definition fsck_readdir (idesc : inodesc) : FK (option (nat * Z) * inodesc) :=
  fs ← tgets f_sb;
  let bsize := m_bsize fs in
  let blksiz := u32 (id_numfrags idesc * bsize) in
  bp ← getdirblk o (id_blkno idesc) blksiz;
  if (u32 (id_loc idesc) mod bsize =? 0) && (0 <? id_filesize idesc) && (id_loc idesc <? blksiz) then
    bs ← buf_bytes bp;
    ok ← dircheck idesc bs (id_loc idesc);
    if ok : bool then readdir_next bp blksiz idesc
    else if is_ignore idesc then mret (None, idesc)
    else
      '(fix_it, idesc) ← dofix idesc "DIRECTORY CORRUPTED";
      bp ← getdirblk o (id_blkno idesc) blksiz;
      bs ← buf_bytes bp;
      bs ← tlift (empty_entry bs (id_loc idesc) bsize);
      _ ← put_buf bp bs;
      _ ← (if fix_it : bool then dirty (Cached bp) else mret tt);
      mret (Some (bp, id_loc idesc), advance bsize idesc)
  else readdir_next bp blksiz idesc.

(** The loop of [dirscan] with its copy [dbuf] of the current entry; the result
    is [inl] when the block is done. *)
Fixpoint dirscan_loop (fuel : nat) (blksiz : Z) (idesc : inodesc) (dbuf : list Z) : FK (inodesc + Z * inodesc) :=
  match fuel with
  | O => tlift (Fault NoFuel)
  | S fuel' =>
      '(r, idesc) ← fsck_readdir idesc;
      match r with
      | None => mret (inl idesc)
      | Some (bp, loc) =>
          bs ← buf_bytes bp;
          dsize ← tlift (e2d_reclen bs loc);
          entry ← tlift (get_bytes bs loc (Z.to_nat dsize));
          dbuf ← tlift (put_bytes dbuf 0 entry);
          '(n, idesc, dbuf) ← entry_func idesc dbuf;
          _ ← (if has n ALTERED then
                 bp ← getdirblk o (id_blkno idesc) blksiz;
                 bs ← buf_bytes bp;
                 entry ← tlift (get_bytes dbuf 0 (Z.to_nat dsize));
                 bs ← tlift (put_bytes bs (id_loc idesc - dsize) entry);
                 _ ← put_buf bp bs;
                 _ ← dirty (Cached bp);
                 sbdirty
               else mret tt);
          if has n STOP then mret (inr (n, idesc)) else dirscan_loop fuel' blksiz idesc dbuf
      end
  end.

Definition dirscan (idesc : inodesc) : FK (Z * inodesc) :=
  fs ← tgets f_sb;
  let bsize := m_bsize fs in
  ok ← malloc;
  _ ← require ok "out of memory";
  _ ← require (is_data idesc) "wrong type to dirscan";
  idesc ← (if (id_entryno idesc =? 0) && negb (Z.land (id_filesize idesc) (bsize - 1) =? 0)
           then up ← tlift (roundup (id_filesize idesc) bsize); mret (upd_id_filesize (fun _ => s64 up) idesc)
           else mret idesc);
  let blksiz := u32 (id_numfrags idesc * bsize) in
  out ← chkrange (id_blkno idesc) (id_numfrags idesc);
  if out : bool then mret (SKIP, upd_id_filesize (fun f => s64 (f - blksiz)) idesc)
  else
    r ← dirscan_loop (scan_fuel bsize) blksiz (upd_id_loc (fun _ => 0) idesc) (fresh bsize);
    match r with
    | inr r => mret r
    | inl idesc => mret (if 0 <? id_filesize idesc then KEEPON else STOP, idesc)
    end.

(** [idesc->id_func] on a block of addresses, or [dirscan]. *)
Definition block_func (idesc : inodesc) : FK (Z * inodesc) :=
  if is_data idesc then dirscan idesc else addr_func o idesc.

(** An empty block in a directory: the user may have the size set. *)
Definition adjust_length (idesc : inodesc) (size : Z -> Z) (store : bool) : FK bool :=
  _ ← path (id_number idesc) (id_number idesc);
  _ ← pfatal "CONTAINS EMPTY BLOCKS";
  yes ← reply "ADJUST LENGTH";
  if negb yes then mret false
  else
    p ← ginode (id_number idesc);
    old ← (if store then inosize p else mret 0);
    _ ← inossize p (u64 (size old));
    _ ← tmodify (upd_f_rerun (fun _ => true));
    _ ← inodirty;
    mret true.

(** The entries behind the end of the file, in [iblock]. *)
Fixpoint clear_behind (bp : nat) (i : Z) (n : nat) (idesc : inodesc) : FK inodesc :=
  match n with
  | O => mret idesc
  | S n' =>
      bs ← buf_bytes bp;
      a ← tlift (get32 bs (4 * i));
      if a =? 0 then clear_behind bp (i + 1) n' idesc
      else
        '(fix_it, idesc) ← dofix idesc "PARTIALLY TRUNCATED INODE";
        _ ← (if fix_it : bool then
               bs ← buf_bytes bp;
               bs ← tlift (put32 bs (4 * i) 0);
               _ ← put_buf bp bs;
               dirty (Cached bp)
             else mret tt);
        clear_behind bp (i + 1) n' idesc
  end.

(** The loop over the entries of an indirect block; [sub] handles the block an
    entry names, given what is left of the size. *)
Fixpoint iblock_entries (sub : inodesc -> Z -> FK (Z * inodesc)) (bp : nat) (sizepb : Z) (i : Z) (n : nat)
    (idesc : inodesc) (isize : Z) : FK (Z * inodesc) :=
  match n with
  | O => _ ← release (Some bp); mret (KEEPON, idesc)
  | S n' =>
      bs ← buf_bytes bp;
      a ← tlift (get32 bs (4 * i));
      if negb (a =? 0) then
        '(r, idesc) ← sub (upd_id_blkno (fun _ => s32 a) idesc) isize;
        if has r STOP then _ ← release (Some bp); mret (r, idesc)
        else iblock_entries sub bp sizepb (i + 1) n' idesc (u64 (isize - sizepb))
      else
        stop ← (if is_data idesc && (0 <? isize) then adjust_length idesc (fun old => old - isize) true else mret false);
        if stop : bool then _ ← release (Some bp); mret (STOP, idesc)
        else iblock_entries sub bp sizepb (i + 1) n' idesc (u64 (isize - sizepb))
  end.

Definition is_pass1 (idesc : inodesc) : bool := match id_func idesc with F_pass1check => true | _ => false end.

(** [iblock] on an indirect block of level [S lev]. *)
Fixpoint iblock (lev : nat) (idesc : inodesc) (isize : Z) : FK (Z * inodesc) :=
  '(r, idesc) ← (if is_data idesc then mret (KEEPON, idesc) else addr_func o idesc);
  if negb (has r KEEPON) then mret (r, idesc) else
  out ← chkrange (id_blkno idesc) (id_numfrags idesc);
  if out : bool then mret (SKIP, idesc) else
  fs ← tgets f_sb;
  let nindir := NINDIR fs in
  bp ← getdatablk o (id_blkno idesc) (m_bsize fs);
  let sizepb := u64 (m_bsize fs * nindir ^ Z.of_nat lev) in
  nif ← (if isize >? u64 (sizepb * nindir) then mret (s32 nindir)
         else n ← tlift (uhowmany isize sizepb); mret (s32 n));
  idesc ← (if is_pass1 idesc && (u64 nif <? nindir) then
             idesc ← clear_behind bp nif (Z.to_nat (nindir - nif)) idesc;
             _ ← flush o (Cached bp);
             mret idesc
           else mret idesc);
  let sub := match lev with
             | O => fun idesc _ => block_func idesc
             | S lev' => fun idesc isize => iblock lev' idesc isize
             end in
  iblock_entries sub bp sizepb 0 (Z.to_nat nif) idesc isize.

(** The loop over the direct blocks; [inr] ends the scan. *)
Fixpoint ck_direct (blocks : list Z) (i ndb : Z) (idesc : inodesc) : FK (inodesc + Z * inodesc) :=
  match blocks with
  | [] => mret (inl idesc)
  | a :: blocks' =>
      let idesc := upd_id_numfrags (fun _ => 1) idesc in
      if a =? 0 then
        fs ← tgets f_sb;
        _ ← (if is_data idesc && (0 <? ndb) then adjust_length idesc (fun _ => i * m_bsize fs) false else mret false);
        ck_direct blocks' (i + 1) (ndb - 1) idesc
      else
        '(r, idesc) ← block_func (upd_id_blkno (fun _ => s32 a) idesc);
        if has r STOP then mret (inr (r, idesc)) else ck_direct blocks' (i + 1) (ndb - 1) idesc
  end.

(** The loop over the indirect blocks, with the unsigned size that is left. *)
Fixpoint ck_indirect (blocks : list Z) (lev : nat) (remsize sizepb : Z) (idesc : inodesc) : FK (Z * inodesc) :=
  match blocks with
  | [] => mret (KEEPON, idesc)
  | a :: blocks' =>
      fs ← tgets f_sb;
      let sizepb' := u64 (sizepb * NINDIR fs) in
      if negb (a =? 0) then
        '(r, idesc) ← iblock lev (upd_id_blkno (fun _ => s32 a) idesc) remsize;
        if has r STOP then mret (r, idesc)
        else ck_indirect blocks' (S lev) (u64 (remsize - sizepb')) sizepb' idesc
      else
        stop ← (if is_data idesc && (0 <? remsize) then adjust_length idesc (fun old => old - remsize) true else mret false);
        if stop : bool then mret (KEEPON, idesc)
        else ck_indirect blocks' (S lev) (u64 (remsize - sizepb')) sizepb' idesc
  end.

Definition ckinode (dp : dsource) (idesc : inodesc) : FK (Z * inodesc) :=
  let idesc := if is_ignore idesc then idesc else upd_id_fix (fun _ => DONTKNOW) idesc in
  size ← src_size dp;
  let idesc := upd_id_filesize (fun _ => s64 size) (upd_id_entryno (fun _ => 0) idesc) in
  mode ← src_mode dp;
  let mode := fmt mode in
  short ← (if mode =? IFLNK then size ← src_size dp; mret (size <? MAXSYMLINKLEN) else mret false);
  if (mode =? IFBLK) || (mode =? IFCHR) || (mode =? IFIFO) || short then mret (KEEPON, idesc)
  else
    dino ← src_copy dp;
    fs ← tgets f_sb;
    size ← view_size dino;
    ndb ← tlift (uhowmany size (m_bsize fs));
    r ← ck_direct (take 12 (dv_blocks dino)) 0 (s64 ndb) idesc;
    match r with
    | inr r => mret r
    | inl idesc =>
        let idesc := upd_id_numfrags (fun _ => 1) idesc in
        size ← view_size dino;
        let remsize := u64 (size - u32 (m_bsize fs * NDADDR)) in
        ck_indirect (take NIADDR (drop 12 (dv_blocks dino))) 0 remsize (m_bsize fs) idesc
    end.

End walk.

(** * Path names *)

(** Inside [getpathname] the flag [busy] is set, and a nested call returns at
    once. *)
Definition path_busy (cwd ino : Z) : FK unit := mret tt.

Definition find_func (idesc : inodesc) (dirp : list Z) : FK entry_result :=
  match id_func idesc with
  | F_findino => findino idesc dirp
  | F_findname => findname idesc dirp
  | _ => tlift (Fault NullDeref)
  end.

Definition with_func (f : idfunc) (i : inodesc) : inodesc :=
  mk_inodesc (id_fix i) f (id_number i) (id_parent i) (id_blkno i) (id_numfrags i) (id_filesize i) (id_loc i)
    (id_entryno i) (id_name i) (id_type i).

Definition ck_quiet (ino : Z) (idesc : inodesc) : FK (Z * inodesc) :=
  p ← ginode ino; ckinode path_busy find_func (At p) idesc.

(** A question mark goes in front of a name that does not start at the root. *)
Definition path_end (ino cp : Z) : FK unit :=
  if negb (ino =? EXT2_ROOTINO) && (cp <=? 0) then tlift (Fault OutOfBounds) else mret tt.

(** The loop that collects the name from its end; [cp] is the place of the
    start in [namebuf], and every round takes at least one byte off it. With
    [up] the parent is looked for first. The text itself is only printed. *)
Fixpoint path_loop (fuel : nat) (up : bool) (ino cp : Z) (idesc : inodesc) : FK unit :=
  if up && (ino =? EXT2_ROOTINO) then mret tt else
  match fuel with
  | O => tlift (Fault NoFuel)
  | S fuel' =>
      '(r, idesc) ← (if up then
                       let idesc := upd_id_name (fun _ => chars "..") (with_func F_findino (upd_id_number (fun _ => ino) idesc)) in
                       ck_quiet ino idesc
                     else mret (FOUND, idesc));
      if negb (has r FOUND) then path_end ino cp else
      let dir := id_parent idesc in
      let idesc := upd_id_name (fun _ => []) (with_func F_findname (upd_id_parent (fun _ => ino) (upd_id_number (fun _ => dir) idesc))) in
      '(r, idesc) ← ck_quiet dir idesc;
      if negb (has r FOUND) then path_end ino cp else
      len ← tlift (strlen_list (id_name idesc ++ [0]));
      let cp := cp - len - 1 in
      if cp <? 0 then tlift (Fault OutOfBounds)
      else if cp <? EXT2FS_MAXNAMLEN then path_end ino cp
      else path_loop fuel' true (id_number idesc) cp idesc
  end.

Definition getpathname (curdir ino : Z) : FK unit :=
  if (curdir =? ino) && (ino =? EXT2_ROOTINO) then mret tt else
  st ← statemap curdir;
  if negb (st =? DSTATE) && negb (st =? DFOUND) then mret tt
  else
    let idesc := mk_inodesc IGNORE F_findino 0 (if curdir =? ino then 0 else curdir) 0 0 0 0 0 [] DATA in
    path_loop (Z.to_nat PATH_MAX) (curdir =? ino) ino PATH_MAX idesc.

(** * The cache of directory inodes *)

Definition numdirs (w : fsck_state) : Z := zlen (f_inphead w).

Definition bucket (inumber : Z) : FK (Z * list nat) :=
  n ← tgets numdirs;
  if n =? 0 then tlift (Fault DivByZero) else
  l ← tgets f_inphead;
  c ← tlift (access (l !z (inumber mod n)));
  mret (inumber mod n, c).

(** [inplast == listmax]: the list, of ten more than [numdirs] at first, grows by
    a hundred. *)
Definition list_full (w : fsck_state) : bool :=
  let past := zlen (f_inpsort w) - (numdirs w + 10) in (0 <=? past) && (past mod 100 =? 0).

Definition cacheino (dp : dptr) (inumber : Z) : FK unit :=
  fs ← tgets f_sb;
  size ← inosize dp;
  n ← tlift (uhowmany size (m_bsize fs));
  let blks := u32 n in
  let blks := if blks >? NDADDR then NDADDR + Z.of_nat NIADDR else blks in
  ok ← malloc;
  if negb ok then mret tt else
  '(h, chain) ← bucket inumber;
  isize ← inosize dp;
  '(bs, off) ← mem_of dp;
  blocks ← tlift (fields_get bs (off + DI_BLOCKS) (replicate (Z.to_nat blks) 4%nat));
  k ← tgets (fun w => length (f_inos w));
  let inp := mk_inoinfo None None None inumber (if inumber =? EXT2_ROOTINO then EXT2_ROOTINO else 0) 0 isize
               (s32 <$> blocks) in
  _ ← tmodify (upd_f_inos (fun l => l ++ [inp]));
  _ ← tmodify (upd_f_inphead (zinsert h (k :: chain)));
  full ← tgets list_full;
  ok ← (if (full : bool) then malloc else mret true);
  _ ← require ok "cannot increase directory list";
  tmodify (upd_f_inpsort (fun l => l ++ [k])).

Definition inoinfo_at (k : nat) : FK inoinfo := l ← tgets f_inos; tlift (access (l !! k)).
Definition upd_inoinfo (k : nat) (f : inoinfo -> inoinfo) : FK unit := tmodify (upd_f_inos (alter f k)).

Fixpoint find_inoinfo (inumber : Z) (chain : list nat) : FK nat :=
  match chain with
  | [] => errx "cannot find inode"
  | k :: chain' =>
      inp ← inoinfo_at k;
      if in_number inp =? inumber then mret k else find_inoinfo inumber chain'
  end.

Definition getinoinfo (inumber : Z) : FK nat :=
  '(_, chain) ← bucket inumber; find_inoinfo inumber chain.

End inode.
