(* ===== verification/FsckDir.v ===== *)
(** fsck_ext2fs, dir.c, pass2.c and the allocation in inode.c: the check of a
    directory entry in pass 2, allocating and clearing inodes, entering names,
    and reconnecting what has no name. *)
From stdpp Require Import gmap.
From S2P Require Import Prelude Tool Bitmap Bytes Super Kernel InodeCnv Dir Mount Newfs Fsck FsckInode.

Definition lfname : list Z := chars "lost+found".
(** [(ino_t)-1] *)
Definition NOINO : Z := 2 ^ 64 - 1.

Section dir.
Context (o : fsck_opts).
Context `{env : FsckEnv}.

Notation reply := (reply o).
Notation pfatal := (pfatal o).
Notation preen_or_reply := (preen_or_reply o).
Notation ginode := (ginode o).
Notation getpathname := (getpathname o).
Notation getdirblk := (getdirblk o).
Notation inosize := (inosize o).
Notation inossize := (inossize o).
Notation fileerror := (fileerror o getpathname).
Notation direrror := (direrror o getpathname).

(** * Pass 2: one entry of a directory *)

(** [proto]: an entry for "." or ".."; the bytes behind the name were never
    written. *)
Definition proto_bytes (ino reclen type : Z) (name : list Z) : list Z :=
  le_split 4 ino ++ le_split 2 reclen ++ [zlen name; type] ++ take 4 (name ++ [0] ++ fresh 4).
Definition entrysize : Z := 12.

(** [if (reply("FIX") == 1) ret |= ALTERED]. *)
Definition ask_fix (ret : Z) : FK Z := yes ← reply "FIX"; mret (if yes : bool then Z.lor ret ALTERED else ret).

Definition dir_type : FK Z := ft ← tgets has_ftype; mret (if ft : bool then EXT2_FT_DIR else 0).

Definition add_entryno (idesc : inodesc) : inodesc := upd_id_entryno (fun n => s32 (n + 1)) idesc.

(** [memset(dirp, 0, n); dirp->e2d_reclen = n]. *)
Definition blank_entry (d : list Z) (off n : Z) : res (list Z) :=
  d ← put_bytes d off (replicate (Z.to_nat n) 0); put16 d (off + 4) n.

(** The check of ".": the entry that follows it, if it had to be made, is at
    the offset that is returned. *)
Definition pass2_dot (idesc : inodesc) (d : list Z) : FK (inodesc * list Z * Z * Z) :=
  if negb (id_entryno idesc =? 0) then mret (idesc, d, 0, 0) else
  ino ← tlift (e2d_ino d 0);
  namlen ← tlift (e2d_namlen d 0);
  c ← tlift (get8 d 8);
  if negb (ino =? 0) && (namlen =? 1) && (c =? dot) then
    '(d, ret) ← (if negb (ino =? id_number idesc) then
                   _ ← direrror (id_number idesc) "BAD INODE NUMBER FOR '.'";
                   d ← tlift (put32 d 0 (id_number idesc));
                   ret ← ask_fix 0;
                   mret (d, ret)
                 else mret (d, 0));
    ft ← tgets has_ftype;
    type ← tlift (e2d_type d 0);
    if ft && negb (type =? EXT2_FT_DIR) then
      _ ← direrror (id_number idesc) "BAD TYPE VALUE FOR '.'";
      d ← tlift (put8 d 7 EXT2_FT_DIR);
      ret ← ask_fix ret;
      mret (idesc, d, 0, ret)
    else mret (idesc, d, 0, ret)
  else
    _ ← direrror (id_number idesc) "MISSING '.'";
    type ← dir_type;
    other ← (if negb (ino =? 0) then eq ← tlift (str_eq (drop 8 d) (chars "..")); mret (negb eq) else mret false);
    reclen ← tlift (e2d_reclen d 0);
    if other : bool then _ ← pfatal "CANNOT FIX, FIRST ENTRY IN DIRECTORY"; mret (idesc, d, 0, 0)
    else if reclen <? entrysize then _ ← pfatal "CANNOT FIX, INSUFFICIENT SPACE TO ADD '.'"; mret (idesc, d, 0, 0)
    else if reclen <? 2 * entrysize then
      d ← tlift (put_bytes d 0 (proto_bytes (id_number idesc) reclen type (chars ".")));
      ret ← ask_fix 0;
      mret (idesc, d, 0, ret)
    else
      let n := reclen - entrysize in
      d ← tlift (put_bytes d 0 (proto_bytes (id_number idesc) entrysize type (chars ".")));
      ino ← tlift (e2d_ino d 0);
      _ ← add_lncntp ino (-1);
      d ← tlift (blank_entry d entrysize n);
      ret ← ask_fix 0;
      mret (add_entryno idesc, d, entrysize, ret).

(** The state of the inode an entry names; a cleared one that the user keeps is
    looked at again. The result tells to remove the entry. *)
Fixpoint pass2_state (fuel : nat) (idesc : inodesc) (d : list Z) (off ino ret : Z) : FK (bool * list Z * Z) :=
  match fuel with
  | O => tlift (Fault NoFuel)
  | S fuel' =>
      st ← statemap ino;
      if st =? USTATE then
        if id_entryno idesc <=? 2 then mret (false, d, ret)
        else
          _ ← fileerror (id_number idesc) ino "UNALLOCATED";
          n ← reply "REMOVE";
          mret (n, d, ret)
      else if (st =? DCLEAR) || (st =? FCLEAR) then
        if id_entryno idesc <=? 2 then mret (false, d, ret)
        else if negb (st =? FCLEAR) && o_preen o then mret (true, d, ret)
        else
          _ ← fileerror (id_number idesc) ino (if st =? FCLEAR then "DUP/BAD" else "ZERO LENGTH DIRECTORY");
          n ← reply "REMOVE";
          if n : bool then mret (true, d, ret)
          else
            p ← ginode ino;
            mode ← e2di_mode p;
            _ ← set_statemap ino (if fmt mode =? IFDIR then DSTATE else FSTATE);
            nlink ← e2di_nlink p;
            _ ← set_lncntp ino nlink;
            pass2_state fuel' idesc d off ino ret
      else if (st =? DSTATE) || (st =? DFOUND) || (st =? FSTATE) then
        extraneous ← (if st =? FSTATE then mret false
                      else
                        k ← getinoinfo ino;
                        inp ← inoinfo_at k;
                        n ← (if negb (i_parent inp =? 0) && (2 <? id_entryno idesc) then
                               _ ← getpathname (id_number idesc) (id_number idesc);
                               _ ← getpathname ino ino;
                               if o_preen o then mret false else reply "REMOVE"
                             else mret false);
                        _ ← (if negb n && (2 <? id_entryno idesc)
                             then upd_inoinfo k (upd_i_parent (fun _ => id_number idesc)) else mret tt);
                        mret n);
        if extraneous : bool then mret (true, d, ret)
        else
          ft ← tgets has_ftype;
          '(d, ret) ← (if ft : bool then
                         type ← tlift (e2d_type d off);
                         want ← typemap ino;
                         if negb (type =? inot2ext2dt want) then
                           d ← tlift (put8 d (off + 7) (inot2ext2dt want));
                           _ ← fileerror (id_number idesc) ino "BAD TYPE VALUE";
                           ret ← ask_fix ret;
                           mret (d, ret)
                         else mret (d, ret)
                       else mret (d, ret));
          _ ← add_lncntp ino (-1);
          mret (false, d, ret)
      else errx "BAD STATE FOR INODE"
  end.

(** From the label [chk2]: any entry but the first two. *)
Definition pass2_entry (idesc : inodesc) (d : list Z) (off ret : Z) : FK entry_result :=
  ino ← tlift (e2d_ino d off);
  if ino =? 0 then mret (Z.lor ret KEEPON, idesc, d) else
  namlen ← tlift (e2d_namlen d off);
  c0 ← tlift (get8 d (off + 8));
  c1 ← (if (namlen <=? 2) && (c0 =? dot) && (2 <=? id_entryno idesc) && negb (namlen =? 1)
        then tlift (get8 d (off + 9)) else mret 0);
  if (namlen <=? 2) && (c0 =? dot) && (2 <=? id_entryno idesc) && ((namlen =? 1) || (c1 =? dot)) then
    _ ← direrror (id_number idesc) (if namlen =? 1 then "EXTRA '.' ENTRY" else "EXTRA '..' ENTRY");
    d ← tlift (put32 d off 0);
    ret ← ask_fix ret;
    mret (Z.lor KEEPON ret, idesc, d)
  else
    let idesc := add_entryno idesc in
    maxino ← tgets f_maxino;
    '(n, d, ret) ← (if bad_ino ino maxino then
                      _ ← fileerror (id_number idesc) ino "I OUT OF RANGE";
                      n ← reply "REMOVE";
                      mret (n, d, ret)
                    else pass2_state 2 idesc d off ino ret);
    if negb n then mret (Z.lor ret KEEPON, idesc, d)
    else
      d ← tlift (put32 d off 0);
      mret (Z.lor (Z.lor ret KEEPON) ALTERED, idesc, d).

(** From [chk1], once the entry for ".." is at [off]. *)
Definition pass2_dotdot_at (idesc : inodesc) (d : list Z) (off ret : Z) (k : nat) : FK entry_result :=
  inp ← inoinfo_at k;
  type ← dir_type;
  ino ← tlift (e2d_ino d off);
  namlen ← tlift (e2d_namlen d off);
  name ← tlift (get_bytes d (off + 8) 2);
  reclen ← tlift (e2d_reclen d off);
  if negb (ino =? 0) && (namlen =? 2) && bool_decide (name = chars "..") then
    _ ← upd_inoinfo k (upd_i_dotdot (fun _ => ino));
    ft ← tgets has_ftype;
    t ← tlift (e2d_type d off);
    '(d, ret) ← (if ft && negb (t =? EXT2_FT_DIR) then
                   _ ← direrror (id_number idesc) "BAD TYPE VALUE FOR '..'";
                   d ← tlift (put8 d (off + 7) EXT2_FT_DIR);
                   ret ← ask_fix ret;
                   mret (d, ret)
                 else mret (d, ret));
    pass2_entry idesc d off ret
  else
    '(d, ret) ← (if negb (ino =? 0) && (namlen =? 1) && negb (default 0 (name !! 0%nat) =? dot) then
                   _ ← fileerror (i_parent inp) (id_number idesc) "MISSING '..'";
                   _ ← pfatal "CANNOT FIX, SECOND ENTRY IN DIRECTORY";
                   _ ← upd_inoinfo k (upd_i_dotdot (fun _ => NOINO));
                   mret (d, ret)
                 else if reclen <? entrysize then
                   _ ← fileerror (i_parent inp) (id_number idesc) "MISSING '..'";
                   _ ← pfatal "CANNOT FIX, INSUFFICIENT SPACE TO ADD '..'";
                   _ ← upd_inoinfo k (upd_i_dotdot (fun _ => NOINO));
                   mret (d, ret)
                 else if negb (i_parent inp =? 0) then
                   _ ← upd_inoinfo k (upd_i_dotdot (fun _ => i_parent inp));
                   _ ← fileerror (i_parent inp) (id_number idesc) "MISSING '..'";
                   d ← tlift (put_bytes d off (proto_bytes (i_parent inp) reclen type (chars "..")));
                   ret ← ask_fix ret;
                   mret (d, ret)
                 else mret (d, ret));
    let idesc := add_entryno idesc in
    ino ← tlift (e2d_ino d off);
    _ ← (if negb (ino =? 0) then add_lncntp ino (-1) else mret tt);
    mret (Z.lor ret KEEPON, idesc, d).

(** From [chk1]: the second entry, which may have to be split off the first. *)
Definition pass2_dotdot (idesc : inodesc) (d : list Z) (off ret : Z) : FK entry_result :=
  if 1 <? id_entryno idesc then pass2_entry idesc d off ret else
  k ← getinoinfo (id_number idesc);
  if id_entryno idesc =? 0 then
    namlen ← tlift (e2d_namlen d off);
    let n := EXT2_DIR_REC_LEN namlen in
    reclen ← tlift (e2d_reclen d off);
    if reclen <? n + entrysize then pass2_entry idesc d off ret
    else
      ino ← tlift (e2d_ino d off);
      d ← tlift (put16 d (off + 4) n);
      _ ← add_lncntp ino (-1);
      d ← tlift (blank_entry d (off + n) (reclen - n));
      pass2_dotdot_at (add_entryno idesc) d (off + n) ret k
  else pass2_dotdot_at idesc d off ret k.

Definition pass2check (idesc : inodesc) (dirp : list Z) : FK entry_result :=
  '(idesc, d, off, ret) ← pass2_dot idesc dirp;
  pass2_dotdot idesc d off ret.

(** * The walk with all functions *)

Definition entry_func (idesc : inodesc) (dirp : list Z) : FK entry_result :=
  match id_func idesc with
  | F_findino => findino idesc dirp
  | F_findname => findname idesc dirp
  | F_mkentry => mkentry idesc dirp
  | F_chgino => chgino idesc dirp
  | F_pass2check => pass2check idesc dirp
  | _ => tlift (Fault NullDeref)
  end.

Definition ck (dp : dsource) (idesc : inodesc) : FK (Z * inodesc) := ckinode o getpathname entry_func dp idesc.

Definition add_n_files (k : Z) : FK unit := tmodify (upd_f_n_files (fun n => s32 (n + k))).

(** * Clearing and allocating inodes: inode.c *)

Definition clri (idesc : inodesc) (show : bool) : FK unit :=
  p ← ginode (id_number idesc);
  _ ← (if show then _ ← e2di_mode p; pinode o (id_number idesc) else mret tt);
  yes ← preen_or_reply "CLEAR";
  if negb yes then mret tt
  else
    _ ← add_n_files (-1);
    _ ← ck (At p) idesc;
    _ ← clearinode p;
    _ ← set_statemap (id_number idesc) USTATE;
    inodirty.

Definition freeino (ino : Z) : FK unit :=
  p ← ginode ino;
  _ ← ck (At p) (new_idesc ADDR F_pass4check ino 0 []);
  _ ← clearinode p;
  _ ← inodirty;
  _ ← set_statemap ino USTATE;
  add_n_files (-1).

(** The first unallocated inode from [ino], [maxino] when there is none. *)
Fixpoint allocino_loop (ino maxino : Z) (n : nat) : FK Z :=
  match n with
  | O => mret ino
  | S n' =>
      if negb (ino <? maxino) then mret ino
      else if (EXT2_ROOTINO <? ino) && (ino <? EXT2_FIRSTINO) then allocino_loop (ino + 1) maxino n'
      else st ← statemap ino; if st =? USTATE then mret ino else allocino_loop (ino + 1) maxino n'
  end.

Definition state_of_type (type : Z) : option Z :=
  if fmt type =? IFDIR then Some DSTATE
  else if (fmt type =? IFREG) || (fmt type =? IFLNK) then Some FSTATE
  else None.

(** The inode is allocated and gets its first block. *)
Definition init_ino (ino type : Z) : FK Z :=
  fs ← tgets f_sb;
  p ← ginode ino;
  blk ← allocblk;
  _ ← set_block p 0 blk;
  if blk =? 0 then _ ← set_statemap ino USTATE; mret 0
  else
    _ ← di_put p DI_MODE 2 type;
    _ ← di_put p DI_ATIME 4 clock;
    _ ← di_put p DI_CTIME 4 clock;
    _ ← di_put p DI_MTIME 4 clock;
    _ ← di_put p DI_DTIME 4 0;
    _ ← inossize p (m_bsize fs);
    _ ← di_put p DI_NBLOCK 4 (Z.shiftr (m_bsize fs) 9);
    _ ← add_n_files 1;
    _ ← inodirty;
    _ ← set_typemap ino (IFTODT type);
    mret ino.

Definition allocino (request type : Z) : FK Z :=
  taken ← (if request =? 0 then mret false else st ← statemap request; mret (negb (st =? USTATE)));
  if taken : bool then mret 0 else
  let request := if request =? 0 then EXT2_ROOTINO else request in
  maxino ← tgets f_maxino;
  ino ← allocino_loop request maxino (Z.to_nat maxino);
  if ino =? maxino then mret 0 else
  match state_of_type type with
  | None => mret 0
  | Some st => _ ← set_statemap ino st; init_ino ino type
  end.

(** * Directories: dir.c *)

(** [btodb] is not applied to the block that is added to the count. *)
Definition add_nblock (p : dptr) (k : Z) : FK unit :=
  n ← di_get p DI_NBLOCK 4; di_put p DI_NBLOCK 4 (u32 (n + k)).
Definition add_nlink (p : dptr) (k : Z) : FK unit :=
  n ← e2di_nlink p; di_put p DI_NLINK 2 (u16 (n + k)).

(** From the label [bad]. *)
Definition expand_undo (p : dptr) (lastbn newblk bsize : Z) : FK bool :=
  b ← e2di_block p (lastbn + 1);
  _ ← set_block p lastbn b;
  _ ← set_block p (lastbn + 1) 0;
  size ← di_get p DI_SIZE 4;
  _ ← di_put p DI_SIZE 4 (u32 (size - bsize));
  size ← inosize p;
  _ ← inossize p (u64 (size - bsize));
  _ ← add_nblock p (-1);
  _ ← freeblk newblk;
  mret false.

Definition expanddir (p : dptr) : FK bool :=
  fs ← tgets f_sb;
  let bsize := m_bsize fs in
  size ← inosize p;
  let lastbn := s32 (Z.shiftr size (m_bshift fs)) in
  if lastbn >=? NDADDR - 1 then mret false else
  b ← e2di_block p lastbn;
  if b =? 0 then mret false else
  size ← inosize p;
  if size =? 0 then mret false else
  newblk ← allocblk;
  if newblk =? 0 then mret false else
  b ← e2di_block p lastbn;
  _ ← set_block p (lastbn + 1) b;
  _ ← set_block p lastbn newblk;
  size ← inosize p;
  _ ← inossize p (u64 (size + bsize));
  _ ← add_nblock p 1;
  b ← e2di_block p (lastbn + 1);
  n ← getdirblk (s32 b) bsize;
  bp ← get_buf (Cached n);
  if negb (b_errs bp =? 0) then expand_undo p lastbn newblk bsize else
  ok ← malloc;
  _ ← require ok "out of memory";
  firstblk ← tlift (get_bytes (b_buf bp) 0 (Z.to_nat bsize));
  n ← getdirblk newblk bsize;
  bp ← get_buf (Cached n);
  if negb (b_errs bp =? 0) then expand_undo p lastbn newblk bsize else
  buf ← tlift (put_bytes (b_buf bp) 0 firstblk);
  _ ← put_buf n buf;
  _ ← dirty (Cached n);
  b ← e2di_block p (lastbn + 1);
  n ← getdirblk (s32 b) bsize;
  bp ← get_buf (Cached n);
  if negb (b_errs bp =? 0) then expand_undo p lastbn newblk bsize else
  buf ← tlift (put_bytes (b_buf bp) 0 (le_split 4 0 ++ le_split 2 bsize ++ replicate 18 0));
  _ ← put_buf n buf;
  yes ← preen_or_reply "EXPAND";
  if negb yes then expand_undo p lastbn newblk bsize
  else
    _ ← dirty (Cached n);
    _ ← inodirty;
    mret true.

(** [dirhead]: the entries of a new directory. *)
Definition dirhead_bytes (ino parent type bsize : Z) : list Z :=
  le_split 4 ino ++ le_split 2 12 ++ [1; type; dot; 0; 0; 0] ++
  le_split 4 parent ++ le_split 2 (u16 (bsize - 12)) ++ [2; type; dot; dot; 0; 0].

Definition allocdir (parent request mode : Z) : FK Z :=
  fs ← tgets f_sb;
  ino ← allocino request (Z.lor IFDIR mode);
  type ← dir_type;
  p ← ginode ino;
  b ← e2di_block p 0;
  n ← getdirblk (s32 b) (m_bsize fs);
  bp ← get_buf (Cached n);
  if negb (b_errs bp =? 0) then _ ← freeino ino; mret 0 else
  buf ← tlift (put_bytes (b_buf bp) 0 (dirhead_bytes ino parent type (m_bsize fs)));
  _ ← put_buf n buf;
  _ ← dirty (Cached n);
  _ ← di_put p DI_NLINK 2 2;
  _ ← inodirty;
  if ino =? EXT2_ROOTINO then
    nlink ← e2di_nlink p;
    _ ← set_lncntp ino nlink;
    _ ← cacheino o p ino;
    mret ino
  else
    st ← statemap parent;
    if negb (st =? DSTATE) && negb (st =? DFOUND) then _ ← freeino ino; mret 0
    else
      _ ← cacheino o p ino;
      st ← statemap parent;
      _ ← set_statemap ino st;
      _ ← (if st =? DSTATE then
             nlink ← e2di_nlink p;
             _ ← set_lncntp ino nlink;
             add_lncntp parent 1
           else mret tt);
      p ← ginode parent;
      _ ← add_nlink p 1;
      _ ← inodirty;
      mret ino.

Definition freedir (ino parent : Z) : FK unit :=
  _ ← (if negb (ino =? parent) then
         p ← ginode parent;
         _ ← add_nlink p (-1);
         inodirty
       else mret tt);
  freeino ino.

(** [changeino]: [chgino] applied to a directory. *)
Definition changeino (dir : Z) (name : list Z) (newnum : Z) : FK Z :=
  p ← ginode dir;
  '(r, _) ← ck (At p) (new_idesc DATA F_chgino dir newnum name);
  mret r.

(** [makeentry]; the second bound on [ino] is never true. *)
Definition makeentry (parent ino : Z) (name : list Z) : FK bool :=
  maxino ← tgets f_maxino;
  if ((parent <? EXT2_FIRSTINO) && negb (parent =? EXT2_ROOTINO)) || (parent >=? maxino) ||
     ((ino <? EXT2_FIRSTINO) && (ino <? EXT2_ROOTINO)) || (ino >=? maxino) then mret false
  else
    fs ← tgets f_sb;
    let idesc := new_idesc DATA F_mkentry parent ino name in
    p ← ginode parent;
    size ← inosize p;
    _ ← (if negb (size mod m_bsize fs =? 0) then
           size ← inosize p;
           up ← tlift (roundup size (m_bsize fs));
           _ ← inossize p up;
           inodirty
         else mret tt);
    '(r, idesc) ← ck (At p) idesc;
    if has r ALTERED then mret true
    else
      _ ← getpathname parent parent;
      p ← ginode parent;
      ok ← expanddir p;
      if negb ok then mret false
      else '(r, _) ← ck (At p) idesc; mret (has r ALTERED).

(** [lftempname]: a hash mark and the inode number, with as many digits as the
    largest one has. *)
Fixpoint digits (fuel : nat) (n : Z) : nat :=
  match fuel with
  | O => O
  | S fuel' => if 0 <? n then S (digits fuel' (n / 10)) else O
  end.

(** [*--cp = (in % 10) + '0'], from the end. *)
Fixpoint put_digits (n : nat) (ino : Z) (acc : list Z) : list Z :=
  match n with
  | O => acc
  | S n' => put_digits n' (ino / 10) (ino mod 10 + 48 :: acc)
  end.

Definition lftempname (maxino ino : Z) : list Z :=
  match put_digits (S (digits 20 maxino)) ino [] with _ :: l => 35 :: l | [] => [] end.

(** The directory lost+found: found in the root, or made. *)
Definition find_lfdir : FK unit :=
  lfdir ← tgets f_lfdir;
  if negb (lfdir =? 0) then mret tt else
  p ← ginode EXT2_ROOTINO;
  '(r, idesc) ← ck (At p) (new_idesc DATA F_findino EXT2_ROOTINO 0 lfname);
  if has r FOUND then tmodify (upd_f_lfdir (fun _ => id_parent idesc))
  else
    yes ← preen_or_reply "CREATE";
    if negb yes then mret tt
    else
      lf ← allocdir EXT2_ROOTINO 0 (o_lfmode o);
      _ ← tmodify (upd_f_lfdir (fun _ => lf));
      if lf =? 0 then mret tt
      else
        ok ← makeentry EXT2_ROOTINO lf lfname;
        if ok : bool then mret tt
        else _ ← freedir lf EXT2_ROOTINO; tmodify (upd_f_lfdir (fun _ => 0)).

(** The orphan gets its name in lost+found and, a directory, its new parent. *)
Definition connect (orphan parentdir : Z) (lostdir : bool) : FK bool :=
  lfdir ← tgets f_lfdir;
  st ← statemap lfdir;
  if negb (st =? DFOUND) then _ ← pfatal "SORRY. NO lost+found DIRECTORY"; mret false
  else
    maxino ← tgets f_maxino;
    ok ← makeentry lfdir orphan (lftempname maxino orphan);
    if negb ok then _ ← pfatal "SORRY. NO SPACE IN lost+found DIRECTORY"; mret false
    else
      _ ← add_lncntp orphan (-1);
      _ ← (if lostdir then
             r ← changeino orphan (chars "..") lfdir;
             _ ← (if negb (has r ALTERED) && negb (parentdir =? NOINO)
                  then _ ← makeentry orphan lfdir (chars ".."); mret tt else mret tt);
             p ← ginode lfdir;
             _ ← add_nlink p 1;
             _ ← inodirty;
             add_lncntp lfdir 1
           else mret tt);
      mret true.

(** [adjust], given [linkup]. *)
Definition adjust_with (linkup : Z -> Z -> FK bool) (idesc : inodesc) (lcnt : Z) : FK unit :=
  p ← ginode (id_number idesc);
  nlink ← e2di_nlink p;
  if nlink =? lcnt then
    ok ← linkup (id_number idesc) 0;
    if ok : bool then mret tt else clri idesc false
  else
    _ ← e2di_mode p;
    _ ← pinode o (id_number idesc);
    _ ← (if o_preen o && (lcnt <? 0) then pfatal "LINK COUNT INCREASING" else mret tt);
    yes ← preen_or_reply "ADJUST";
    if negb yes then mret tt
    else _ ← add_nlink p (- lcnt); inodirty.

(** Another lost+found when the one that was found is not a directory; [false]
    gives up. *)
Definition replace_lfdir (linkup : Z -> Z -> FK bool) : FK bool :=
  _ ← pfatal "lost+found IS NOT A DIRECTORY";
  yes ← reply "REALLOCATE";
  if negb yes then mret false
  else
    oldlfdir ← tgets f_lfdir;
    lf ← allocdir EXT2_ROOTINO 0 (o_lfmode o);
    _ ← tmodify (upd_f_lfdir (fun _ => lf));
    if lf =? 0 then _ ← pfatal "SORRY. CANNOT CREATE lost+found DIRECTORY"; mret false
    else
      r ← changeino EXT2_ROOTINO lfname lf;
      if negb (has r ALTERED) then _ ← pfatal "SORRY. CANNOT CREATE lost+found DIRECTORY"; mret false
      else
        _ ← inodirty;
        c ← lncntp oldlfdir;
        _ ← adjust_with linkup (new_idesc ADDR F_pass4check oldlfdir 0 []) (s16 (c + 1));
        _ ← set_lncntp oldlfdir 0;
        lf ← tgets f_lfdir;
        _ ← ginode lf;
        mret true.

(** [linkup]: the fuel bounds how often lost+found is replaced; each time takes
    an inode. *)
Fixpoint linkup (fuel : nat) (orphan parentdir : Z) : FK bool :=
  match fuel with
  | O => tlift (Fault NoFuel)
  | S fuel' =>
      p ← ginode orphan;
      mode ← e2di_mode p;
      let lostdir := fmt mode =? IFDIR in
      _ ← pinode o orphan;
      empty ← (if o_preen o then size ← inosize p; mret (size =? 0) else mret false);
      if empty : bool then mret false else
      yes ← preen_or_reply "RECONNECT";
      if negb yes then mret false else
      _ ← find_lfdir;
      lfdir ← tgets f_lfdir;
      if lfdir =? 0 then _ ← pfatal "SORRY. CANNOT CREATE lost+found DIRECTORY"; mret false
      else
        p ← ginode lfdir;
        mode ← e2di_mode p;
        ok ← (if negb (fmt mode =? IFDIR) then replace_lfdir (linkup fuel') else mret true);
        if negb ok then mret false else connect orphan parentdir lostdir
  end.

Definition linkup_fuel (w : fsck_state) : nat := S (Z.to_nat (f_maxino w)).

Definition link_up (orphan parentdir : Z) : FK bool :=
  n ← tgets linkup_fuel; linkup n orphan parentdir.

Definition adjust (idesc : inodesc) (lcnt : Z) : FK unit :=
  n ← tgets linkup_fuel; adjust_with (linkup n) idesc lcnt.

(** [propagate]: the lists of children, and the walk from the root. *)
Definition add_child (k : nat) : FK unit :=
  inp ← inoinfo_at k;
  if (i_parent inp =? 0) || (in_number inp =? EXT2_ROOTINO) then mret tt
  else
    pk ← getinoinfo (i_parent inp);
    _ ← upd_inoinfo k (upd_i_parentp (fun _ => Some pk));
    pinp ← inoinfo_at pk;
    _ ← upd_inoinfo k (upd_i_sibling (fun _ => i_child pinp));
    upd_inoinfo pk (upd_i_child (fun _ => Some k)).

Fixpoint add_children (ks : list nat) : FK unit :=
  match ks with [] => mret tt | k :: ks' => _ ← add_child k; add_children ks' end.

Definition next_dir (inp : inoinfo) : FK (option nat) :=
  down ← (match i_child inp with
          | Some c => cinp ← inoinfo_at c; st ← statemap (in_number cinp); mret (st =? DSTATE)
          | None => mret false
          end);
  mret (if down : bool then i_child inp
        else match i_sibling inp with Some s => Some s | None => i_parentp inp end).

(** A step down makes one more directory [DFOUND], and between two of them no
    directory is met twice unless the walk is in a cycle: more steps than the
    fuel means that it never ends. *)
Fixpoint propagate_loop (fuel : nat) (p : option nat) : FK unit :=
  match p with
  | None => mret tt
  | Some k =>
      match fuel with
      | O => tlift (Fault NoFuel)
      | S fuel' =>
          inp ← inoinfo_at k;
          _ ← set_statemap (in_number inp) DFOUND;
          next ← next_dir inp;
          propagate_loop fuel' next
      end
  end.

Definition propagate : FK unit :=
  ks ← tgets f_inpsort;
  _ ← add_children ks;
  root ← getinoinfo EXT2_ROOTINO;
  n ← tgets (fun w => length (f_inos w));
  propagate_loop ((n + 1) * (n + 1)) (Some root).

End dir.
