(* ===== verification/FsckPass.v ===== *)
(** fsck_ext2fs: the passes of the check (pass1.c to pass5.c). *)
From stdpp Require Import gmap.
From S2P Require Import Prelude Tool Bitmap Bytes Super Kernel InodeCnv Dir Mount Newfs Fsck FsckInode FsckDir.

(** [MINDIRSIZE]: the size of a directory template. *)
Definition MINDIRSIZE : Z := 24.

Section pass.
Context (o : fsck_opts).
Context `{env : FsckEnv}.

Notation reply := (reply o).
Notation pfatal := (pfatal o).
Notation preen_or_reply := (preen_or_reply o).
Notation ginode := (ginode o).
Notation getpathname := (getpathname o).
Notation inosize := (inosize o).
Notation inossize := (inossize o).
Notation fileerror := (fileerror o getpathname).
Notation direrror := (direrror o getpathname).
Notation ck := (ck o).

(** * Pass 1: blocks and sizes *)

(** Consecutive blocks, from a number that is unsigned. *)
Definition set_blocks (first n : Z) : FK unit := tfor 0 (Z.to_nat n) (fun i => setbmap (u32 (first + i))).

Definition cg_dbase (fs : m_ext2fs) (c : Z) : Z :=
  s32 (u32 (c * e2fs_bpg (m_e2fs fs) + e2fs_first_dblock (m_e2fs fs))).

(** The blocks of a group that are reserved: the inode table, the bitmaps, the
    copy of the superblock and descriptors, and what is in front of group 0. *)
Definition reserve_group (c : Z) : FK unit :=
  fs ← tgets f_sb;
  let dbase := cg_dbase fs c in
  d ← tlift (EXT2_GD (m_gd fs) (m_gdsize fs) c);
  _ ← (if u32 dbase <=? ext2bgd_i_tables d then set_blocks (ext2bgd_i_tables d) (m_itpg fs) else mret tt);
  _ ← (if u32 dbase <=? ext2bgd_b_bitmap d then setbmap (ext2bgd_b_bitmap d) else mret tt);
  _ ← (if u32 dbase <=? ext2bgd_i_bitmap d then setbmap (ext2bgd_i_bitmap d) else mret tt);
  backup ← tlift (has_backup (m_e2fs fs) c);
  _ ← (if backup : bool then
         _ ← setbmap dbase;
         tfor 1 (Z.to_nat (m_gdbcount fs)) (fun i => setbmap (s32 (dbase + i)))
       else mret tt);
  if c =? 0 then tfor 0 (Z.to_nat dbase) setbmap else mret tt.

(** The inode is not in use. *)
Definition check_unused (p : dptr) (inumber mode : Z) : FK unit :=
  _ ← (if mode =? 0 then
         '(bs, off) ← mem_of p;
         blocks ← tlift (get_bytes bs (off + DI_BLOCKS) 60);
         raw ← e2di_mode p;
         garbage ← (if negb (forallb (fun b => b =? 0) blocks) || negb (raw =? 0) then mret true
                    else size ← inosize p; mret (negb (size =? 0)));
         if garbage : bool then
           _ ← pfatal "PARTIALLY ALLOCATED INODE";
           yes ← reply "CLEAR";
           if yes : bool then p ← ginode inumber; _ ← clearinode p; inodirty else mret tt
         else mret tt
       else mret tt);
  set_statemap inumber USTATE.

(** The number of blocks the pointers of an inode may name: for a short link
    the pointers its text fills. *)
Fixpoint link_ndb (j ndb nindir : Z) (n : nat) : Z :=
  match n with
  | O => ndb
  | S n' => if 1 <? j then link_ndb (j - 1) (s32 (u64 (ndb * nindir))) nindir n' else ndb
  end.

Definition data_blocks (p : dptr) (mode : Z) : FK Z :=
  fs ← tgets f_sb;
  size ← inosize p;
  n ← tlift (uhowmany size (m_bsize fs));
  let ndb := s32 n in
  if ndb <? 0 then mret ndb else
  let ndb := if (mode =? IFBLK) || (mode =? IFCHR) then s32 (ndb + 1) else ndb in
  if mode =? IFLNK then
    size ← inosize p;
    if size <? MAXSYMLINKLEN then
      n ← tlift (uhowmany size 4);
      mret (if n >? NDADDR then link_ndb (n - NDADDR) 1 (NINDIR fs) 3 + NDADDR else n)
    else mret ndb
  else mret ndb.

(** The levels of indirection that [ndb] blocks behind the direct ones need. *)
Fixpoint indirect_levels (ndb nindir : Z) (n : nat) : Z :=
  match n with
  | O => 0
  | S n' => if 0 <? ndb then 1 + indirect_levels (ndb / nindir) nindir n' else 0
  end.

(** Some pointer of the range is not zero. *)
Fixpoint any_block (p : dptr) (j : Z) (n : nat) : FK bool :=
  match n with
  | O => mret false
  | S n' => b ← e2di_block p j; if negb (b =? 0) then mret true else any_block p (j + 1) n'
  end.

Definition bad_pointers (p : dptr) (mode ndb : Z) : FK bool :=
  if mode =? IFIFO then mret false else
  fs ← tgets f_sb;
  direct ← any_block p ndb (Z.to_nat (NDADDR - ndb));
  if direct : bool then mret true
  else
    let j := indirect_levels (ndb - NDADDR) (NINDIR fs) 32 in
    any_block p (j + NDADDR) (NIADDR - Z.to_nat j).

(** From the label [unknown]. *)
Definition unknown_type (inumber : Z) : FK unit :=
  _ ← pfatal "UNKNOWN FILE TYPE";
  _ ← set_statemap inumber FCLEAR;
  yes ← reply "CLEAR";
  if negb yes then mret tt
  else
    _ ← set_statemap inumber USTATE;
    p ← ginode inumber;
    _ ← clearinode p;
    inodirty.

(** The inode is entered in the maps, its blocks are counted. *)
Definition count_inode (p : dptr) (inumber mode : Z) (idesc : inodesc) : FK inodesc :=
  _ ← add_n_files 1;
  nlink ← e2di_nlink p;
  _ ← set_lncntp inumber nlink;
  _ ← (if nlink =? 0 then
         ok ← malloc;
         if negb ok then _ ← pfatal "LINK COUNT TABLE OVERFLOW"; continue_or_exit o ""
         else tmodify (upd_f_zlnhead (fun l => inumber :: l))
       else mret tt);
  _ ← (if mode =? IFDIR then
         size ← inosize p;
         _ ← set_statemap inumber (if size =? 0 then DCLEAR else DSTATE);
         cacheino o p inumber
       else set_statemap inumber FSTATE);
  _ ← set_typemap inumber (IFTODT mode);
  _ ← tmodify (upd_f_badblk (fun _ => 0));
  _ ← tmodify (upd_f_dupblk (fun _ => 0));
  '(_, idesc) ← ck (At p) (upd_id_number (fun _ => inumber) idesc);
  fs ← tgets f_sb;
  let idesc := upd_id_entryno (fun n => s32 (u32 (n * Z.shiftr (m_bsize fs) 9))) idesc in
  nblock ← di_get p DI_NBLOCK 4;
  if nblock =? u32 (id_entryno idesc) then mret idesc
  else
    yes ← preen_or_reply "CORRECT";
    if negb yes then mret idesc
    else
      p ← ginode inumber;
      _ ← di_put p DI_NBLOCK 4 (id_entryno idesc);
      _ ← inodirty;
      mret idesc.

Definition check_used (p : dptr) (inumber mode dtime : Z) (idesc : inodesc) : FK inodesc :=
  _ ← tmodify (upd_f_lastino (fun _ => inumber));
  p ← (if negb (dtime =? 0) then
         yes ← preen_or_reply "CORRECT";
         if negb yes then mret p
         else p ← ginode inumber; _ ← di_put p DI_DTIME 4 0; _ ← inodirty; mret p
       else mret p);
  fs ← tgets f_sb;
  size ← inosize p;
  size' ← inosize p;
  if u64 (u64 (size + m_bsize fs) - 1) <? size' then _ ← unknown_type inumber; mret idesc
  else
    hold ← (if negb (o_preen o) && (mode =? IFMT) then reply "HOLD BAD BLOCK" else mret false);
    p ← (if hold : bool then
           p ← ginode inumber;
           _ ← di_put p DI_MODE 2 (Z.lor IFREG 0x180);
           _ ← inossize p (m_bsize fs);
           _ ← inodirty;
           mret p
         else mret p);
    ndb ← data_blocks p mode;
    bad ← (if ndb <? 0 then mret true else bad_pointers p mode ndb);
    raw ← (if bad : bool then mret 0 else e2di_mode p);
    if bad || negb (ftypeok raw) then _ ← unknown_type inumber; mret idesc
    else count_inode p inumber mode idesc.

Definition checkinode (inumber : Z) (idesc : inodesc) : FK inodesc :=
  p ← getnextinode o inumber;
  if (inumber <? EXT2_FIRSTINO) && negb (inumber =? EXT2_ROOTINO) then mret idesc
  else
    raw ← e2di_mode p;
    let mode := fmt raw in
    dtime ← di_get p DI_DTIME 4;
    deleted ← (if negb (mode =? 0) && negb (dtime =? 0) then nlink ← e2di_nlink p; mret (nlink =? 0) else mret false);
    if (mode =? 0) || deleted then _ ← check_unused p inumber mode; mret idesc
    else check_used p inumber mode dtime idesc.

(** The inodes of a group, of which the last may have fewer. *)
Fixpoint pass1_inodes (inumber : Z) (n : nat) (idesc : inodesc) : FK (Z * inodesc) :=
  match n with
  | O => mret (inumber, idesc)
  | S n' =>
      es ← tgets sb_of;
      if inumber >? e2fs_icount es then mret (inumber, idesc)
      else
        idesc ← (if inumber <? EXT2_ROOTINO then mret idesc else checkinode inumber idesc);
        pass1_inodes (inumber + 1) n' idesc
  end.

Fixpoint pass1_groups (inumber : Z) (n : nat) (idesc : inodesc) : FK unit :=
  match n with
  | O => mret tt
  | S n' =>
      es ← tgets sb_of;
      '(inumber, idesc) ← pass1_inodes inumber (Z.to_nat (e2fs_ipg es)) idesc;
      pass1_groups inumber n' idesc
  end.

Definition pass1 : FK unit :=
  fs ← tgets f_sb;
  _ ← tfor 0 (Z.to_nat (m_gcount fs)) reserve_group;
  _ ← tmodify (upd_f_n_blks (fun _ => 0));
  _ ← tmodify (upd_f_n_files (fun _ => 0));
  _ ← resetinodebuf o;
  _ ← pass1_groups 1 (Z.to_nat (m_gcount fs)) (new_idesc ADDR F_pass1check 0 0 []);
  freeinodebuf.

(** * Pass 1b: the first owners of duplicate blocks *)

(** [true] ends the pass. The inode numbers start at 0. *)
Fixpoint pass1b_inodes (inumber : Z) (n : nat) (idesc : inodesc) : FK (bool * inodesc) :=
  match n with
  | O => mret (false, idesc)
  | S n' =>
      if (inumber <? EXT2_FIRSTINO) && negb (inumber =? EXT2_ROOTINO) then pass1b_inodes (inumber + 1) n' idesc
      else
        p ← ginode inumber;
        st ← statemap inumber;
        '(r, idesc) ← (if negb (st =? USTATE) then ck (At p) (upd_id_number (fun _ => inumber) idesc)
                       else mret (KEEPON, upd_id_number (fun _ => inumber) idesc));
        if has r STOP then mret (true, idesc) else pass1b_inodes (inumber + 1) n' idesc
  end.

Definition pass1b : FK unit :=
  fs ← tgets f_sb;
  _ ← tmodify (upd_f_duphead (fun _ => 0%nat));
  _ ← pass1b_inodes 0 (Z.to_nat (m_gcount fs * e2fs_ipg (m_e2fs fs))) (new_idesc ADDR F_pass1bcheck 0 0 []);
  mret tt.

(** * Pass 2: names *)

Definition new_root : FK unit :=
  ino ← allocdir o EXT2_ROOTINO EXT2_ROOTINO 0x1ed;
  require (ino =? EXT2_ROOTINO) "CANNOT ALLOCATE ROOT INODE".

Definition check_root : FK unit :=
  st ← statemap EXT2_ROOTINO;
  if st =? USTATE then
    _ ← pfatal "ROOT INODE UNALLOCATED";
    yes ← reply "ALLOCATE";
    _ ← require yes "";
    new_root
  else if st =? DCLEAR then
    _ ← pfatal "DUPS/BAD IN ROOT INODE";
    yes ← reply "REALLOCATE";
    if yes : bool then _ ← freeino o EXT2_ROOTINO; new_root else continue_or_exit o ""
  else if (st =? FSTATE) || (st =? FCLEAR) then
    _ ← pfatal "ROOT INODE NOT DIRECTORY";
    yes ← reply "REALLOCATE";
    if yes : bool then _ ← freeino o EXT2_ROOTINO; new_root
    else
      yes ← reply "FIX";
      _ ← require yes "";
      p ← ginode EXT2_ROOTINO;
      mode ← e2di_mode p;
      _ ← di_put p DI_MODE 2 (Z.lor (Z.ldiff mode IFMT) IFDIR);
      inodirty
  else if st =? DSTATE then mret tt
  else errx "BAD STATE FOR ROOT INODE".

(** [blksort]: by the first block; a directory without blocks has none. *)
Definition first_block (w : fsck_state) (k : nat) : option Z := i ← f_inos w !! k; i_blks i !! 0%nat.
Definition blksort (w : fsck_state) (a b : nat) : Z := s32 (default 0 (first_block w a) - default 0 (first_block w b)).

Definition sort_dirs : FK unit :=
  w ← tgets (fun w => w);
  if (2 <=? zlen (f_inpsort w)) && existsb (fun k => match first_block w k with None => true | Some _ => false end) (f_inpsort w)
  then tlift (Fault OutOfBounds)
  else tmodify (upd_f_inpsort (qsort (blksort w))).

(** The size in the cache, and perhaps in the inode, becomes a multiple of the
    block size. *)
Definition store_isize (k : nat) : FK unit :=
  inp ← inoinfo_at k;
  p ← ginode (in_number inp);
  _ ← inossize p (i_isize inp);
  inodirty.

Definition check_isize (k : nat) : FK unit :=
  fs ← tgets f_sb;
  inp ← inoinfo_at k;
  if i_isize inp <? MINDIRSIZE then
    _ ← direrror (in_number inp) "DIRECTORY TOO SHORT";
    up ← tlift (roundup MINDIRSIZE (m_bsize fs));
    _ ← upd_inoinfo k (upd_i_isize (fun _ => up));
    yes ← reply "FIX";
    if yes : bool then store_isize k else mret tt
  else if negb (Z.land (i_isize inp) (m_bsize fs - 1) =? 0) then
    _ ← getpathname (in_number inp) (in_number inp);
    up ← tlift (roundup (i_isize inp) (m_bsize fs));
    _ ← upd_inoinfo k (upd_i_isize (fun _ => up));
    yes ← preen_or_reply "ADJUST";
    if yes : bool then store_isize k else mret tt
  else mret tt.

(** The local inode that is scanned for a directory. *)
Definition dir_view (inp : inoinfo) : FK dview :=
  size ← (if i_isize inp >=? 0x80000000 then _ ← pfatal "TRYING TO SET FILESIZE"; mret 0 else mret (i_isize inp));
  mret (mk_dview IFDIR size 0 (take 15 ((u32 <$> i_blks inp) ++ replicate 15 0))).

Fixpoint pass2_scan (ks : list nat) (curino : inodesc) : FK unit :=
  match ks with
  | [] => mret tt
  | k :: ks' =>
      inp ← inoinfo_at k;
      if i_isize inp =? 0 then pass2_scan ks' curino
      else
        _ ← check_isize k;
        inp ← inoinfo_at k;
        dino ← dir_view inp;
        '(_, curino) ← ck (Local dino)
                         (upd_id_parent (fun _ => i_parent inp) (upd_id_number (fun _ => in_number inp) curino));
        pass2_scan ks' curino
  end.

(** The value of "..", now that the parents are known. *)
Definition pass2_parent (k : nat) : FK unit :=
  inp ← inoinfo_at k;
  if (i_parent inp =? 0) || (i_isize inp =? 0) then mret tt
  else if (i_dotdot inp =? i_parent inp) || (i_dotdot inp =? NOINO) then mret tt
  else if i_dotdot inp =? 0 then
    _ ← upd_inoinfo k (upd_i_dotdot (fun _ => i_parent inp));
    _ ← fileerror (i_parent inp) (in_number inp) "MISSING '..'";
    yes ← reply "FIX";
    if negb yes then mret tt
    else
      _ ← makeentry o (in_number inp) (i_parent inp) (chars "..");
      add_lncntp (i_parent inp) (-1)
  else
    _ ← fileerror (i_parent inp) (in_number inp) "BAD INODE NUMBER FOR '..'";
    yes ← reply "FIX";
    if negb yes then mret tt
    else
      _ ← add_lncntp (i_dotdot inp) 1;
      _ ← add_lncntp (i_parent inp) (-1);
      _ ← upd_inoinfo k (upd_i_dotdot (fun _ => i_parent inp));
      _ ← changeino o (in_number inp) (chars "..") (i_parent inp);
      mret tt.

Fixpoint pass2_parents (ks : list nat) : FK unit :=
  match ks with [] => mret tt | k :: ks' => _ ← pass2_parent k; pass2_parents ks' end.

Definition pass2 : FK unit :=
  _ ← check_root;
  _ ← sort_dirs;
  ks ← tgets f_inpsort;
  _ ← pass2_scan ks (new_idesc DATA F_pass2check 0 0 []);
  _ ← pass2_parents ks;
  propagate.

(** * Pass 3: connectivity *)

(** Up to a directory whose parent is connected or unknown; a cycle is left
    after as many steps as there are hash chains. *)
Fixpoint find_orphan (fuel : nat) (k : nat) (loopcnt : Z) : FK nat :=
  inp ← inoinfo_at k;
  if i_parent inp =? 0 then mret k else
  st ← statemap (i_parent inp);
  n ← tgets numdirs;
  if negb (st =? DSTATE) || (loopcnt >? n) then mret k
  else
    match fuel with
    | O => tlift (Fault NoFuel)
    | S fuel' => k ← getinoinfo (i_parent inp); find_orphan fuel' k (loopcnt + 1)
    end.

Definition pass3_dir (k : nat) : FK unit :=
  inp ← inoinfo_at k;
  if in_number inp =? EXT2_ROOTINO then mret tt else
  st ← statemap (in_number inp);
  if negb ((i_parent inp =? 0) || (st =? DSTATE)) || (st =? DCLEAR) then mret tt
  else
    n ← tgets numdirs;
    k ← find_orphan (Z.to_nat (n + 2)) k 0;
    inp ← inoinfo_at k;
    let orphan := in_number inp in
    _ ← link_up o orphan (i_dotdot inp);
    lfdir ← tgets f_lfdir;
    _ ← upd_inoinfo k (fun i => upd_i_parent (fun _ => lfdir) (upd_i_dotdot (fun _ => lfdir) i));
    _ ← add_lncntp lfdir (-1);
    _ ← set_statemap orphan DFOUND;
    propagate.

(** From the last directory to the first; those that are made on the way come
    behind. *)
Fixpoint pass3_dirs (ks : list nat) : FK unit :=
  match ks with [] => mret tt | k :: ks' => _ ← pass3_dir k; pass3_dirs ks' end.

Definition pass3 : FK unit := ks ← tgets f_inpsort; pass3_dirs (reverse ks).

(** * Pass 4: link counts *)

Definition pass4_inode (inumber : Z) : FK unit :=
  let idesc := new_idesc ADDR F_pass4check inumber 0 [] in
  if (inumber <? EXT2_FIRSTINO) && (EXT2_ROOTINO <? inumber) then mret tt else
  st ← statemap inumber;
  if (st =? FSTATE) || (st =? DFOUND) then
    n ← lncntp inumber;
    if negb (n =? 0) then adjust o idesc (s16 n)
    else
      zl ← tgets f_zlnhead;
      match drop_dup inumber zl with
      | Some zl => _ ← tmodify (upd_f_zlnhead (fun _ => zl)); clri o idesc true
      | None => mret tt
      end
  else if st =? DSTATE then clri o idesc true
  else if st =? DCLEAR then
    p ← ginode inumber;
    _ ← inosize p;
    clri o idesc true
  else if st =? FCLEAR then clri o idesc true
  else if st =? USTATE then mret tt
  else errx "BAD STATE FOR INODE".

Definition pass4 : FK unit :=
  last ← tgets f_lastino;
  tfor EXT2_ROOTINO (Z.to_nat (last - EXT2_ROOTINO + 1)) pass4_inode.

(** * Pass 5: the bitmaps and the counts *)

Record cg_maps : Type := mk_cg_maps { g_bbmap : list Z; g_ibmap : list Z; g_nbfree : Z; g_nifree : Z; g_ndirs : Z }.

(** The inode map of a group, from [j], the number of the inode of bit [i]. *)
Fixpoint inode_map (j i : Z) (n : nat) (ibmap : list Z) (nifree ndirs : Z) : FK (list Z * Z * Z) :=
  match n with
  | O => mret (ibmap, nifree, ndirs)
  | S n' =>
      es ← tgets sb_of;
      if (j <? EXT2_FIRSTINO) && negb (j =? EXT2_ROOTINO) then
        m ← tlift (setbit ibmap i); inode_map (j + 1) (i + 1) n' m (u32 (nifree - 1)) ndirs
      else if j >? e2fs_icount es then
        m ← tlift (setbit ibmap i); inode_map (j + 1) (i + 1) n' m nifree ndirs
      else
        st ← statemap j;
        if st =? USTATE then inode_map (j + 1) (i + 1) n' ibmap nifree ndirs
        else if (st =? DSTATE) || (st =? DCLEAR) || (st =? DFOUND) then
          m ← tlift (setbit ibmap i); inode_map (j + 1) (i + 1) n' m (u32 (nifree - 1)) (u32 (ndirs + 1))
        else if (st =? FSTATE) || (st =? FCLEAR) then
          m ← tlift (setbit ibmap i); inode_map (j + 1) (i + 1) n' m (u32 (nifree - 1)) ndirs
        else errx "BAD STATE FOR INODE"
  end.

(** The bytes from [ipg / NBBY] to the end of the block. *)
Definition fill_unused (ipg : Z) (ibmap : list Z) : list Z :=
  let k := Z.to_nat (ipg / NBBY) in take k ibmap ++ replicate (length ibmap - k) 0xff.

(** The block map of a group: the block [d] is looked up before it is compared
    with the end of the volume. *)
Fixpoint block_map (d i : Z) (n : nat) (bbmap : list Z) (nbfree : Z) : FK (list Z * Z) :=
  match n with
  | O => mret (bbmap, nbfree)
  | S n' =>
      es ← tgets sb_of;
      used ← testbmap d;
      if used || (u32 d >=? e2fs_bcount es) then
        m ← tlift (setbit bbmap i); block_map (d + 1) (i + 1) n' m nbfree
      else block_map (d + 1) (i + 1) n' bbmap (u32 (nbfree + 1))
  end.

Definition compute_maps (c : Z) : FK cg_maps :=
  fs ← tgets f_sb;
  let es := m_e2fs fs in
  let zeros := replicate (Z.to_nat (m_bsize fs)) 0 in
  '(ibmap, nifree, ndirs) ← inode_map (u32 (u32 (e2fs_ipg es * c) + 1)) 0 (Z.to_nat (e2fs_ipg es)) zeros (e2fs_ipg es) 0;
  let dbase := cg_dbase fs c in
  let dmax := cg_dbase fs (c + 1) in
  '(bbmap, nbfree) ← block_map dbase 0 (Z.to_nat (dmax - dbase)) zeros 0;
  mret (mk_cg_maps bbmap (fill_unused (e2fs_ipg es) ibmap) nbfree nifree ndirs).

(** The buffer for a kind of bitmap: taken from the cache for the first group
    and filled again for each of the others. *)
Definition bitmap_buf (p : option nat) (blkno : Z) : FK nat :=
  fs ← tgets f_sb;
  match p with
  | None => getdatablk o (s32 blkno) (m_bsize fs)
  | Some n => _ ← getblk o (Cached n) (s32 blkno) (m_bsize fs); mret n
  end.

Definition gd_of (c : Z) : FK ext2_gd := fs ← tgets f_sb; tlift (EXT2_GD (m_gd fs) (m_gdsize fs) c).

Definition with_gds (tbl : list Z) (fs : m_ext2fs) : m_ext2fs :=
  mk_m_ext2fs (m_e2fs fs) (m_bsize fs) (m_bshift fs) (m_bpg fs) (m_qbmask fs) (m_fsbtodb fs) (m_ipg fs) (m_ipb fs)
    (m_itpg fs) (m_fsize fs) (m_fpb fs) (m_fpg fs) (m_gdbcount fs) (m_gcount fs) (m_isize fs) (m_total_dir fs)
    (m_contigdirs fs) (m_maxfilesize fs) tbl (m_gdsize fs).

Definition set_counts (nbfree nifree ndirs : Z) (d : ext2_gd) : ext2_gd :=
  mk_gd (ext2bgd_b_bitmap d) (ext2bgd_i_bitmap d) (ext2bgd_i_tables d) (u16 nbfree) (u16 nifree) (u16 ndirs)
    (ext4bgd_flags d) (ext4bgd_x_bitmap d) (ext4bgd_b_bmap_csum d) (ext4bgd_i_bmap_csum d) (ext4bgd_i_unused d)
    (ext4bgd_csum d).

Definition fix_counts (c : Z) (g : cg_maps) (idesc : inodesc) : FK inodesc :=
  d ← gd_of c;
  if (ext2bgd_nbfree d =? g_nbfree g) && (ext2bgd_nifree d =? g_nifree g) && (ext2bgd_ndirs d =? g_ndirs g)
  then mret idesc
  else
    '(fix_it, idesc) ← dofix o getpathname idesc "SUMMARY INFORMATIONS WRONG";
    _ ← (if fix_it : bool then
           fs ← tgets f_sb;
           tbl ← tlift (EXT2_GD_store (m_gd fs) (m_gdsize fs) c (set_counts (g_nbfree g) (g_nifree g) (g_ndirs g) d));
           _ ← tmodify (upd_f_sb (with_gds tbl));
           sbdirty
         else mret tt);
    mret idesc.

(** A bitmap that differs from the one that was computed is replaced. *)
Definition fix_bitmap (n : nat) (map : list Z) (msg : string) (idesc : inodesc) : FK inodesc :=
  fs ← tgets f_sb;
  b ← get_buf (Cached n);
  old ← tlift (get_bytes (b_buf b) 0 (Z.to_nat (m_bsize fs)));
  if bool_decide (old = map) then mret idesc
  else
    '(fix_it, idesc) ← dofix o getpathname idesc msg;
    _ ← (if fix_it : bool then
           buf ← tlift (put_bytes (b_buf b) 0 map);
           _ ← put_buf n buf;
           dirty (Cached n)
         else mret tt);
    mret idesc.

(** One group; the sums so far and the two descriptors of repairs go along, and
    the second one serves both bitmaps. *)
Record pass5_state : Type := mk_pass5 {
  p5_bbuf : option nat; p5_ibuf : option nat; p5_nbfree : Z; p5_nifree : Z; p5_ndir : Z; p5_idesc : inodesc
}.

Definition pass5_idesc : inodesc := new_idesc ADDR F_pass4check 0 0 [].

Definition pass5_group (c : Z) (s : pass5_state) : FK pass5_state :=
  d ← gd_of c;
  bb ← bitmap_buf (p5_bbuf s) (ext2bgd_b_bitmap d);
  ib ← bitmap_buf (p5_ibuf s) (ext2bgd_i_bitmap d);
  g ← compute_maps c;
  idesc0 ← fix_counts c g pass5_idesc;
  idesc1 ← fix_bitmap bb (g_bbmap g) "BLK(S) MISSING IN BIT MAPS" pass5_idesc;
  _ ← fix_bitmap ib (g_ibmap g) "INODE(S) MISSING IN BIT MAPS" idesc1;
  mret (mk_pass5 (Some bb) (Some ib) (u32 (p5_nbfree s + g_nbfree g)) (u32 (p5_nifree s + g_nifree g))
          (u32 (p5_ndir s + g_ndirs g)) idesc0).

Fixpoint pass5_groups (c : Z) (n : nat) (s : pass5_state) : FK pass5_state :=
  match n with
  | O => mret s
  | S n' => s ← pass5_group c s; pass5_groups (c + 1) n' s
  end.

(** The summary in the superblock; the answer for the counts of the last group
    holds for it, too. *)
Definition fix_summary (s : pass5_state) : FK unit :=
  es ← tgets sb_of;
  if (e2fs_fbcount es =? p5_nbfree s) && (e2fs_ficount es =? p5_nifree s) then mret tt
  else
    '(fix_it, _) ← dofix o getpathname (p5_idesc s) "SUPERBLK SUMMARY INFORMATION BAD";
    if fix_it : bool then
      _ ← upd_es (upd_e2fs_fbcount (fun _ => p5_nbfree s));
      _ ← upd_es (upd_e2fs_ficount (fun _ => p5_nifree s));
      sbdirty
    else mret tt.

Definition pass5 : FK unit :=
  fs ← tgets f_sb;
  ibmap ← malloc;
  bbmap ← malloc;
  _ ← require (ibmap && bbmap) "out of memory";
  s ← pass5_groups 0 (Z.to_nat (m_gcount fs)) (mk_pass5 None None 0 0 0 pass5_idesc);
  fix_summary s.

End pass.
