(* ===== verification/FsckSetup.v ===== *)
(** fsck_ext2fs, setup.c, the end of the program in utilities.c, and the check
    of one file system in main.c. *)
From stdpp Require Import gmap.
From S2P Require Import Prelude Tool Bitmap Bytes Super Kernel InodeCnv Dir Mount Newfs Fsck FsckInode FsckDir FsckPass.

(** What the system says about the device: whether it can be opened for reading
    and for writing, whether it is a character device, and the answers about
    the size and number of its sectors. *)
Record fsck_device : Type := mk_fsck_device {
  dv_readable : bool; dv_writable : bool; dv_chr : bool; dv_secsize : option Z; dv_seccount : option Z
}.

Section setup.
Context (o : fsck_opts) (dv : fsck_device).
Context `{env : FsckEnv}.

Notation reply := (reply o).
Notation pfatal := (pfatal o).

(** * The superblock *)

Definition badsb (listerr : bool) (msg : string) : FK unit := if listerr then pfatal msg else mret tt.

(** The geometry that follows from the superblock; [None] for descriptors of an
    impossible size. *)
Definition readsb_geometry (es : ext2fs) : res (option m_ext2fs) :=
  gcount ← uhowmany (u32 (e2fs_bcount es - e2fs_first_dblock es)) (e2fs_bpg es);
  let bsize := u32 (Z.shiftl 1024 (e2fs_log_bsize es)) in
  let gdsize := if (e2fs_rev es >? E2FS_REV0) && has_feature (e2fs_features_incompat es) EXT2F_INCOMPAT_64BIT
                   && negb (e3fs_desc_size es =? 0) then e3fs_desc_size es else EXT2_MIN_GD_SIZE in
  if (gdsize <? EXT2_MIN_GD_SIZE) || negb (Z.land gdsize (gdsize - 1) =? 0) || (gdsize >? bsize) then mret None
  else
    gdbcount ← uhowmany gcount (bsize / gdsize);
    ipb ← udiv bsize (EXT2_DINODE_SIZE es);
    itpg ← udiv (e2fs_ipg es) ipb;
    mret (Some (mk_m_ext2fs es bsize (u32 (LOG_MINBSIZE + e2fs_log_bsize es)) (e2fs_bpg es) (u32 (bsize - 1))
                  (u32 (e2fs_log_bsize es + 1)) (e2fs_ipg es) ipb itpg 0 0 0 gdbcount gcount (EXT2_DINODE_SIZE es) 0
                  [] 0 [] gdsize)).

(** The alternate superblock with the members that may differ taken from the
    first one. *)
Definition masked_alternate (es alt : ext2fs) : ext2fs :=
  mk_ext2fs (e2fs_icount alt) (e2fs_bcount alt) (e2fs_rbcount es) (e2fs_fbcount es) (e2fs_ficount es)
    (e2fs_first_dblock alt) (e2fs_log_bsize alt) (e2fs_log_fsize alt) (e2fs_bpg alt) (e2fs_fpg alt) (e2fs_ipg alt)
    (e2fs_mtime es) (e2fs_wtime es) (e2fs_mnt_count es) (e2fs_max_mnt_count es) (e2fs_magic alt) (e2fs_state es)
    (e2fs_beh es) (e2fs_minrev alt) (e2fs_lastfsck es) (e2fs_fsckintv es) (e2fs_creator alt) (e2fs_rev alt)
    (e2fs_ruid es) (e2fs_rgid es) (e2fs_first_ino alt) (e2fs_inode_size alt) (e2fs_block_group_nr es)
    (e2fs_features_compat alt) (e2fs_features_incompat alt)
    (Z.lor (Z.ldiff (e2fs_features_rocompat alt) EXT2F_ROCOMPAT_LARGEFILE)
           (Z.land (e2fs_features_rocompat es) EXT2F_ROCOMPAT_LARGEFILE))
    (e2fs_uuid alt) (e2fs_vname alt) (e2fs_fsmnt es) (e2fs_algo alt) (e2fs_prealloc alt) (e2fs_dir_prealloc alt)
    (e2fs_reserved_ngdb alt) (e3fs_journal_uuid alt) (e3fs_journal_inum alt) (e3fs_journal_dev alt)
    (e3fs_last_orphan alt) (e3fs_hash_seed alt) (e3fs_def_hash_version alt) (e3fs_jnl_backup_type alt)
    (e3fs_desc_size alt) (e3fs_default_mount_opts alt) (e3fs_first_meta_bg alt) (e3fs_mkfs_time alt)
    (e3fs_jnl_blks alt) (e4fs_bcount_hi alt) (e4fs_rbcount_hi alt) (e4fs_fbcount_hi alt) (e4fs_min_extra_isize alt)
    (e4fs_want_extra_isize alt) (e4fs_flags alt) (e4fs_raid_stride alt) (e4fs_mmpintv alt) (e4fs_mmpblk alt)
    (e4fs_raid_stripe_wid alt) (e4fs_log_gpf alt) (e4fs_char_pad2 alt) (e4fs_pad alt) (e4fs_kbytes_written es).

Definition unsupported (es : ext2fs) : bool :=
  (e2fs_rev es >? E2FS_REV0) &&
  (negb (Z.ldiff (e2fs_features_incompat es) EXT2F_INCOMPAT_SUPP =? 0) ||
   negb (Z.ldiff (e2fs_features_rocompat es) EXT2F_ROCOMPAT_SUPP =? 0)).

Definition found_sb : FK bool := _ ← tmodify (upd_f_havesb (fun _ => true)); mret true.

(** The comparison with the copy in group 1. *)
Definition compare_alternate (listerr : bool) (es : ext2fs) : FK bool :=
  sb ← tgets f_sblk;
  asb ← tgets f_asblk;
  '(alt, rest) ← tlift (sb_load (b_buf asb));
  let buf := sb_bytes (masked_alternate es alt) rest in
  _ ← upd_buf Asblk (upd_b_buf (fun _ => buf));
  if unsupported es then _ ← badsb listerr "INCOMPATIBLE FEATURE BITS IN SUPER BLOCK"; mret false
  else if bool_decide (b_buf sb = buf) then found_sb
  else _ ← badsb listerr "VALUES IN SUPER BLOCK DISAGREE WITH THOSE IN FIRST ALTERNATE"; mret false.

Definition readsb (listerr : bool) : FK bool :=
  bflag ← tgets f_bflag;
  let super := if negb (bflag =? 0) then bflag else SBOFF / DEV_BSIZE in
  '(bytes, errs) ← bread o super SBSIZE;
  _ ← upd_buf Sblk (upd_b_buf (fun _ => bytes));
  if negb (errs =? 0) then mret false
  else
    _ ← upd_buf Sblk (fun b => mk_bufarea super SBSIZE (b_errs b) (b_inuse b) (b_buf b) (b_dirty b));
    '(es, _) ← tlift (sb_load bytes);
    _ ← tmodify (upd_f_sb (with_es (fun _ => es)));
    if negb (e2fs_magic es =? E2FS_MAGIC) then _ ← badsb listerr "MAGIC NUMBER WRONG"; mret false
    else if e2fs_log_bsize es >? 2 then _ ← badsb listerr "BAD LOG_BSIZE"; mret false
    else if e2fs_bpg es =? 0 then _ ← badsb listerr "BAD BLOCKS PER GROUP"; mret false
    else
      g ← tlift (readsb_geometry es);
      match g with
      | None => _ ← pfatal "NONSENSICAL GROUP DESCRIPTOR SIZE"; mret false
      | Some fs =>
          _ ← tmodify (upd_f_sb (fun _ => fs));
          _ ← upd_buf Sblk (upd_b_bno (fun _ => cdiv super DEV_BSIZE));
          if m_gcount fs =? 1 then found_sb
          else
            _ ← getblk o Asblk (s32 (u32 (e2fs_bpg es + e2fs_first_dblock es))) SBSIZE;
            asb ← tgets f_asblk;
            if negb (b_errs asb =? 0) then mret false
            else if negb (bflag =? 0) then found_sb
            else compare_alternate listerr es
      end.

(** The number of groups and their size, as the volume would have them with
    blocks of 1024 bytes. *)
Definition calcsb : FK (option (Z * Z)) :=
  match dv_secsize dv, dv_seccount dv with
  | Some secsz, Some seccount =>
      if (secsz =? 0) || (seccount =? 0) then _ ← pfatal "DEVICE REPORTS A ZERO-SIZED PARTITION"; mret None
      else
        let bcount := u32 (u64 (seccount * secsz) / MINBSIZE) in
        let bpg := MINBSIZE * NBBY in
        n ← tlift (uhowmany (u32 (bcount - 1)) bpg);
        mret (Some (n, bpg))
  | _, _ => _ ← pfatal "CANNOT DETERMINE DEVICE GEOMETRY"; mret None
  end.

(** The copies of the superblock, from group 1 on. *)
Fixpoint search_alternates (cg bpg : Z) (n : nat) : FK bool :=
  match n with
  | O => mret false
  | S n' =>
      _ ← tmodify (upd_f_bflag (fun _ => s32 (Z.shiftl (u32 (cg * bpg + 1)) 1)));
      ok ← readsb false;
      if ok : bool then mret true else search_alternates (cg + 1) bpg n'
  end.

(** [None] gives up; otherwise the clean flag counts or not. *)
Definition find_sb (doskipclean : bool) : FK (option bool) :=
  ok ← readsb true;
  if ok : bool then mret (Some doskipclean)
  else
    bflag ← tgets f_bflag;
    if negb (bflag =? 0) || o_preen o then mret None
    else
      proto ← calcsb;
      match proto with
      | None => mret None
      | Some (gcount, bpg) =>
          yes ← reply "LOOK FOR ALTERNATE SUPERBLOCKS";
          if negb yes then mret None
          else
            ok ← search_alternates 1 bpg (Z.to_nat (gcount - 1));
            mret (if ok : bool then Some false else None)
      end.

(** * setup *)

(** The descriptors, read block by block. *)
Fixpoint read_gds (i : Z) (n : nat) (tbl : list Z) (asked : bool) : FK (list Z) :=
  match n with
  | O => mret tbl
  | S n' =>
      fs ← tgets f_sb;
      '(bytes, errs) ← bread o (gd_home fs i) (m_bsize fs);
      asked ← (if negb (errs =? 0) && negb asked then
                 _ ← pfatal "BAD SUMMARY INFORMATION";
                 _ ← continue_or_exit o "";
                 mret true
               else mret asked);
      read_gds (i + 1) n' (tbl ++ bytes) asked
  end.

Fixpoint count_dirs (tbl : list Z) (gdsize cg : Z) (n : nat) (acc : Z) : res Z :=
  match n with
  | O => mret acc
  | S n' => d ← EXT2_GD tbl gdsize cg; count_dirs tbl gdsize (cg + 1) n' (acc + ext2bgd_ndirs d)
  end.

(** The bytes of the block map; the number of blocks is signed. *)
Definition bmapsize (maxfsblock : Z) : Z :=
  let n := if crem maxfsblock NBBY =? 0 then cdiv maxfsblock NBBY else cdiv maxfsblock NBBY + 1 in
  if crem n 2 =? 0 then n else n + (2 - crem n 2).

Definition zeros (n : Z) : list Z := replicate (Z.to_nat n) 0.

(** A map of [n] zero bytes, NULL when there is no memory for it. *)
Definition calloc_map (upd : (list Z -> list Z) -> fsck_state -> fsck_state) (n : Z) : FK bool :=
  ok ← malloc;
  _ ← tmodify (upd (fun _ => if ok : bool then zeros n else []));
  mret ok.

(** The maps; [false] goes to badsblabel. *)
Definition alloc_maps : FK bool :=
  fs ← tgets f_sb;
  maxfsblock ← tgets f_maxfsblock;
  maxino ← tgets f_maxino;
  ok ← calloc_map upd_f_blockmap (u32 (bmapsize maxfsblock));
  if negb ok then mret false else
  ok ← calloc_map upd_f_statemap (u32 (maxino + 2));
  if negb ok then mret false else
  ok ← calloc_map upd_f_typemap (u32 (maxino + 1));
  if negb ok then mret false else
  ok ← calloc_map upd_f_lncntp (u32 (maxino + 1));
  if negb ok then mret false else
  n ← tlift (count_dirs (m_gd fs) (m_gdsize fs) 0 (Z.to_nat (m_gcount fs)) 0);
  _ ← tmodify (upd_f_inos (fun _ => []));
  _ ← tmodify (upd_f_inpsort (fun _ => []));
  inpsort ← malloc;
  inphead ← malloc;
  if negb (inpsort && inphead) then mret false
  else
    _ ← tmodify (upd_f_inphead (fun _ => replicate (Z.to_nat n) []));
    mret true.

(** The checks of the superblock that may repair it; [false] gives up. *)
Definition check_sb_fields : FK bool :=
  es ← tgets sb_of;
  _ ← (if e2fs_rbcount es >? e2fs_bcount es then
         _ ← pfatal "IMPOSSIBLE RESERVED BLOCK COUNT IN SUPERBLOCK";
         yes ← reply "SET TO DEFAULT";
         if negb yes then mret tt
         else
           _ ← upd_es (upd_e2fs_rbcount (fun _ => e2fs_bcount es / 10));
           _ ← sbdirty;
           dirty Asblk
       else mret tt);
  es ← tgets sb_of;
  if negb (e2fs_bpg es =? e2fs_fpg es) then _ ← pfatal "WRONG FPG IN SUPERBLOCK"; mret false
  else
    asb ← tgets f_asblk;
    bflag ← tgets f_bflag;
    _ ← (if b_dirty asb && (bflag =? 0) then _ ← copyback_sb Asblk; flush o Asblk else mret tt);
    mret true.

Definition empty_buf : bufarea := initbarea (mk_bufarea 0 0 0 false (fresh SBSIZE) false).

Definition init_globals : FK unit :=
  _ ← tmodify (upd_f_fsmodified (fun _ => false));
  _ ← tmodify (upd_f_lfdir (fun _ => 0));
  a ← malloc;
  b ← malloc;
  _ ← require (a && b) "cannot allocate space for superblock";
  _ ← tmodify (upd_f_sblk (fun _ => empty_buf));
  _ ← tmodify (upd_f_asblk (fun _ => empty_buf));
  tmodify (upd_f_secsize (fun _ => match dv_secsize dv with Some n => if n =? 0 then DEV_BSIZE else s32 n | None => DEV_BSIZE end)).

(** * The end *)

Fixpoint flush_all (lru : list nat) : FK unit :=
  match lru with [] => mret tt | n :: lru' => _ ← flush o (Cached n); flush_all lru' end.

(** [ckfini]: the buffers are written, the primary superblock is put in place
    when another one was used, and the file system may be marked clean. The list
    of buffers is left as it is, with the buffers freed. *)
Definition ckfini (markclean : bool) : FK unit :=
  w ← tgets f_writable;
  if negb w then mret tt else
  _ ← flush o Sblk;
  havesb ← tgets f_havesb;
  sb ← tgets f_sblk;
  std ← (if havesb && negb (b_bno sb =? SBOFF / DEV_BSIZE) && negb (o_preen o)
         then reply "UPDATE STANDARD SUPERBLOCKS" else mret false);
  _ ← (if std : bool then
         _ ← upd_buf Sblk (upd_b_bno (fun _ => SBOFF / DEV_BSIZE));
         _ ← sbdirty;
         _ ← flush o Sblk;
         _ ← copyback_sb Asblk;
         _ ← dirty Asblk;
         flush o Asblk
       else mret tt);
  lru ← tgets f_lru;
  _ ← flush_all (reverse lru);
  _ ← tmodify (upd_f_bufs (fun _ => []));
  _ ← tmodify (upd_f_pbp (fun _ => None));
  _ ← tmodify (upd_f_pdirbp (fun _ => None));
  es ← tgets sb_of;
  if markclean && (Z.land (e2fs_state es) E2FS_ISCLEAN =? 0) then
    yes ← preen_or_reply o "MARK FILE SYSTEM CLEAN";
    if negb yes then mret tt
    else
      _ ← upd_es (upd_e2fs_state (fun _ => E2FS_ISCLEAN));
      _ ← sbdirty;
      flush o Sblk
  else mret tt.

(** * The start *)

(** [setup]: 1 to go on, 0 to give up, -1 for a clean file system that need not
    be checked. *)
Definition setup (skipclean : bool) : FK Z :=
  _ ← tmodify (upd_f_havesb (fun _ => false));
  _ ← tmodify (upd_f_writable (fun _ => false));
  if negb (dv_readable dv) then mret 0 else
  go ← (if negb (dv_chr dv) then _ ← pfatal "not a character device"; reply "CONTINUE" else mret true);
  if negb go then mret 0 else
  _ ← (if o_nflag o || negb (dv_writable dv) then pfatal "NO WRITE ACCESS"
       else tmodify (upd_f_writable (fun _ => true)));
  _ ← init_globals;
  found ← find_sb skipclean;
  match found with
  | None => mret 0
  | Some doskipclean =>
      fs ← tgets f_sb;
      let es := m_e2fs fs in
      if (e2fs_state es =? E2FS_ISCLEAN) && doskipclean then mret (-1)
      else
        _ ← tmodify (upd_f_maxfsblock (fun _ => s32 (e2fs_bcount es)));
        _ ← tmodify (upd_f_maxino (fun _ => u32 (m_gcount fs * e2fs_ipg es)));
        ok ← check_sb_fields;
        if negb ok then mret 0
        else
          ok ← malloc;
          _ ← require ok "out of memory";
          tbl ← read_gds 0 (Z.to_nat (m_gdbcount fs)) [] false;
          _ ← tmodify (upd_f_sb (with_gds tbl));
          ok ← alloc_maps;
          if negb ok then _ ← ckfini false; mret 0
          else _ ← bufinit; mret 1
  end.

(** [checkfilesys], up to the message for a mounted root; the result of the
    original is always 0 here. *)
Definition checkfilesys (skipclean : bool) : FK unit :=
  r ← setup skipclean;
  _ ← (if (r =? 0) then pfatal "CAN'T CHECK FILE SYSTEM." else mret tt);
  if negb (r =? 1) then mret tt
  else
    _ ← pass1 o;
    dups ← tgets f_duplist;
    _ ← (match dups with
         | [] => mret tt
         | _ => _ ← pfatal "INTERNAL ERROR: dups with -p"; pass1b o
         end);
    _ ← pass2 o;
    _ ← pass3 o;
    _ ← pass4 o;
    _ ← pass5 o;
    _ ← tmodify (upd_f_zlnhead (fun _ => []));
    _ ← tmodify (upd_f_duplist (fun _ => []));
    _ ← tmodify (upd_f_muldup (fun _ => None));
    _ ← tmodify (upd_f_inphead (fun _ => []));
    _ ← tmodify (upd_f_inpsort (fun _ => []));
    m ← tgets f_fsmodified;
    _ ← (if m : bool then
           _ ← upd_es (upd_e2fs_wtime (fun _ => u32 clock));
           _ ← upd_es (upd_e2fs_lastfsck (fun _ => u32 clock));
           sbdirty
         else mret tt);
    ckfini true.

End setup.
