(* ===== verification/FsckKeep.v ===== *)
(** fsck_ext2fs: what a whole run preserves. An invariant on the device, the
    right to write and the input that the two primitives [bwrite] and [reply]
    keep is kept by every function of the program, whatever the device holds. *)
From stdpp Require Import gmap.
From S2P Require Import Prelude Tool Bitmap Bytes Super Kernel InodeCnv Dir Mount Newfs Fsck FsckInode FsckDir FsckPass FsckSetup.

Section keep.
Context (o : fsck_opts) (dv : fsck_device).
Context `{env : FsckEnv}.
Context (R : (Z -> Z) -> bool -> list Z -> Prop).

Definition kept (w : fsck_state) : Prop := R (f_dev w) (f_writable w) (f_stdin w).

Hypothesis bwrite_kept : forall blk size buf, always kept (bwrite o blk size buf).
Hypothesis reply_kept : forall q, always kept (reply o q).

Ltac upd := intros ? Hw; exact Hw.
Ltac go := unfold add_n_files, upd_es, upd_inoinfo, set_reader; always_tac upd.

#[local] Hint Resolve bwrite_kept reply_kept : always.

Lemma pfatal_kept msg : always kept (pfatal o msg).
Proof. unfold pfatal. go. Qed.
#[local] Hint Resolve pfatal_kept : always.
Lemma preen_or_reply_kept q : always kept (preen_or_reply o q).
Proof. unfold preen_or_reply. go. Qed.
Lemma continue_or_exit_kept msg : always kept (continue_or_exit o msg).
Proof. unfold continue_or_exit. go. Qed.
#[local] Hint Resolve preen_or_reply_kept continue_or_exit_kept : always.

Lemma malloc_kept : always kept malloc.
Proof. unfold malloc. go. Qed.
#[local] Hint Resolve malloc_kept : always.

(** * The device and the buffers *)

Lemma pread_kept off size : always kept (pread off size).
Proof. unfold pread, io_call, dev_bytes. go. Qed.
#[local] Hint Resolve pread_kept : always.
Lemma rwerror_kept msg : always kept (rwerror o msg).
Proof. unfold rwerror. go. Qed.
#[local] Hint Resolve rwerror_kept : always.
Lemma bread_sectors_kept off size secsize : forall n i errs buf, always kept (bread_sectors n off size secsize i errs buf).
Proof. induction n; intros; cbn [bread_sectors]; go. Qed.
#[local] Hint Resolve bread_sectors_kept : always.
Lemma bread_kept blk size : always kept (bread o blk size).
Proof. unfold bread. go. Qed.
Lemma get_buf_kept p : always kept (get_buf p).
Proof. unfold get_buf. go. Qed.
Lemma upd_buf_kept p f : always kept (upd_buf p f).
Proof. unfold upd_buf. go. Qed.
#[local] Hint Resolve bread_kept get_buf_kept upd_buf_kept : always.
Lemma dirty_kept p : always kept (dirty p).
Proof. unfold dirty. go. Qed.
Lemma write_gds_kept : always kept (write_gds o).
Proof. unfold write_gds. go. Qed.
#[local] Hint Resolve dirty_kept write_gds_kept : always.
Lemma flush_kept p : always kept (flush o p).
Proof. unfold flush. go. Qed.
#[local] Hint Resolve flush_kept : always.
Lemma getblk_kept p blk size : always kept (getblk o p blk size).
Proof. unfold getblk. go. Qed.
Lemma use_buf_kept n : always kept (use_buf n).
Proof. unfold use_buf. go. Qed.
#[local] Hint Resolve getblk_kept use_buf_kept : always.
Lemma getdatablk_kept blk size : always kept (getdatablk o blk size).
Proof. unfold getdatablk. go. Qed.
Lemma release_kept p : always kept (release p).
Proof. unfold release. go. Qed.
#[local] Hint Resolve getdatablk_kept release_kept : always.
Lemma getdirblk_kept blk size : always kept (getdirblk o blk size).
Proof. unfold getdirblk. go. Qed.
Lemma copyback_sb_kept p : always kept (copyback_sb p).
Proof. unfold copyback_sb. go. Qed.
#[local] Hint Resolve getdirblk_kept copyback_sb_kept : always.
Lemma sbdirty_kept : always kept sbdirty.
Proof. unfold sbdirty. go. Qed.
Lemma cgoverhead_kept c : always kept (cgoverhead c).
Proof. unfold cgoverhead. go. Qed.
Lemma testbmap_kept b : always kept (testbmap b).
Proof. unfold testbmap. go. Qed.
Lemma setbmap_kept b : always kept (setbmap b).
Proof. unfold setbmap. go. Qed.
Lemma clrbmap_kept b : always kept (clrbmap b).
Proof. unfold clrbmap. go. Qed.
#[local] Hint Resolve sbdirty_kept cgoverhead_kept testbmap_kept setbmap_kept clrbmap_kept : always.
Lemma allocblk_kept : always kept allocblk.
Proof.
  unfold allocblk. apply always_bind; [go|]. intros m.
  assert (forall n i, always kept (allocblk_loop i n)) by (induction n; intros; cbn [allocblk_loop]; go). auto.
Qed.
Lemma chkrange_kept b n : always kept (chkrange b n).
Proof. unfold chkrange. go. Qed.
Lemma statemap_kept i : always kept (statemap i).
Proof. unfold statemap. go. Qed.
Lemma typemap_kept i : always kept (typemap i).
Proof. unfold typemap. go. Qed.
Lemma lncntp_kept i : always kept (lncntp i).
Proof. unfold lncntp. go. Qed.
#[local] Hint Resolve allocblk_kept chkrange_kept statemap_kept typemap_kept lncntp_kept : always.
Lemma set_statemap_kept i v : always kept (set_statemap i v).
Proof. unfold set_statemap. go. Qed.
Lemma set_typemap_kept i v : always kept (set_typemap i v).
Proof. unfold set_typemap. go. Qed.
Lemma set_lncntp_kept i v : always kept (set_lncntp i v).
Proof. unfold set_lncntp. go. Qed.
#[local] Hint Resolve set_statemap_kept set_typemap_kept set_lncntp_kept : always.
Lemma add_lncntp_kept i v : always kept (add_lncntp i v).
Proof. unfold add_lncntp. go. Qed.
Lemma blkerror_kept i t b : always kept (blkerror o i t b).
Proof. unfold blkerror. go. Qed.
#[local] Hint Resolve add_lncntp_kept blkerror_kept : always.

(** * Blocks *)

Lemma pass4_block_kept b : always kept (pass4_block b).
Proof. unfold pass4_block. go. Qed.
#[local] Hint Resolve pass4_block_kept : always.
Lemma pass4_blocks_kept : forall n b r, always kept (pass4_blocks b n r).
Proof. induction n; intros; cbn [pass4_blocks]; go. Qed.
#[local] Hint Resolve pass4_blocks_kept : always.
Lemma freeblk_kept b : always kept (freeblk b).
Proof. unfold freeblk. go. Qed.
Lemma record_dup_kept b : always kept (record_dup b).
Proof. unfold record_dup. go. Qed.
#[local] Hint Resolve freeblk_kept record_dup_kept : always.
Lemma pass1_block_kept i b out r : always kept (pass1_block o i b out r).
Proof. unfold pass1_block. go. Qed.
#[local] Hint Resolve pass1_block_kept : always.
Lemma pass1_blocks_kept i out : forall n b r e, always kept (pass1_blocks o i b n out r e).
Proof. induction n; intros; cbn [pass1_blocks]; go. Qed.
Lemma pass1b_search_kept i b : forall n k, always kept (pass1b_search o i b k n).
Proof. induction n; intros; cbn [pass1b_search]; go. Qed.
#[local] Hint Resolve pass1_blocks_kept pass1b_search_kept : always.
Lemma pass1b_blocks_kept i : forall n b r, always kept (pass1b_blocks o i b n r).
Proof. induction n; intros; cbn [pass1b_blocks]; go. Qed.
#[local] Hint Resolve pass1b_blocks_kept : always.
Lemma addr_func_kept i : always kept (addr_func o i).
Proof. unfold addr_func, pass1check, pass1bcheck, pass4check. go. Qed.
#[local] Hint Resolve addr_func_kept : always.

(** * Inodes *)

Lemma mem_of_kept p : always kept (mem_of p).
Proof. unfold mem_of. go. Qed.
Lemma put_mem_kept p b : always kept (put_mem p b).
Proof. unfold put_mem. go. Qed.
#[local] Hint Resolve mem_of_kept put_mem_kept : always.
Lemma di_get_kept p m n : always kept (di_get p m n).
Proof. unfold di_get. go. Qed.
Lemma di_put_kept p m n v : always kept (di_put p m n v).
Proof. unfold di_put. go. Qed.
#[local] Hint Resolve di_get_kept di_put_kept : always.
Lemma e2di_mode_kept p : always kept (e2di_mode p).
Proof. unfold e2di_mode. go. Qed.
Lemma e2di_nlink_kept p : always kept (e2di_nlink p).
Proof. unfold e2di_nlink. go. Qed.
Lemma e2di_block_kept p i : always kept (e2di_block p i).
Proof. unfold e2di_block. go. Qed.
Lemma set_block_kept p i v : always kept (set_block p i v).
Proof. unfold set_block. go. Qed.
Lemma clearinode_kept p : always kept (clearinode p).
Proof. unfold clearinode. go. Qed.
Lemma setlarge_kept : always kept (setlarge o).
Proof. unfold setlarge. go. Qed.
#[local] Hint Resolve e2di_mode_kept e2di_nlink_kept e2di_block_kept set_block_kept clearinode_kept setlarge_kept : always.
Lemma size_of_kept m s h : always kept (size_of o m s h).
Proof. unfold size_of. go. Qed.
#[local] Hint Resolve size_of_kept : always.
Lemma inosize_kept p : always kept (inosize o p).
Proof. unfold inosize. go. Qed.
Lemma inossize_kept p n : always kept (inossize o p n).
Proof. unfold inossize. go. Qed.
Lemma view_size_kept d : always kept (view_size o d).
Proof. unfold view_size. go. Qed.
Lemma copy_dinode_kept p : always kept (copy_dinode p).
Proof. unfold copy_dinode. go. Qed.
#[local] Hint Resolve inosize_kept inossize_kept view_size_kept copy_dinode_kept : always.
Lemma src_size_kept s : always kept (src_size o s).
Proof. unfold src_size. go. Qed.
Lemma src_mode_kept s : always kept (src_mode s).
Proof. unfold src_mode. go. Qed.
Lemma src_copy_kept s : always kept (src_copy s).
Proof. unfold src_copy. go. Qed.
Lemma fsck_ino_to_fsba_kept i : always kept (fsck_ino_to_fsba i).
Proof. unfold fsck_ino_to_fsba. go. Qed.
Lemma inodirty_kept : always kept (inodirty).
Proof. unfold inodirty. go. Qed.
#[local] Hint Resolve src_size_kept src_mode_kept src_copy_kept fsck_ino_to_fsba_kept inodirty_kept : always.
Lemma ginode_kept i : always kept (ginode o i).
Proof. unfold ginode. go. Qed.
Lemma read_chunk_of_inodes_kept r : always kept (read_chunk_of_inodes o r).
Proof. unfold read_chunk_of_inodes. go. Qed.
#[local] Hint Resolve ginode_kept read_chunk_of_inodes_kept : always.
Lemma getnextinode_kept i : always kept (getnextinode o i).
Proof. unfold getnextinode. go. Qed.
Lemma freeinodebuf_kept : always kept (freeinodebuf).
Proof. unfold freeinodebuf. go. Qed.
Lemma pinode_kept i : always kept (pinode o i).
Proof. unfold pinode. go. Qed.
#[local] Hint Resolve getnextinode_kept freeinodebuf_kept pinode_kept : always.
Lemma resetinodebuf_kept : always kept (resetinodebuf o).
Proof. unfold resetinodebuf. go. Qed.
Lemma dircheck_kept i b off : always kept (dircheck i b off).
Proof. unfold dircheck. go. Qed.
Lemma entry_type_kept i : always kept (entry_type i).
Proof. unfold entry_type. go. Qed.
#[local] Hint Resolve resetinodebuf_kept dircheck_kept entry_type_kept : always.
Lemma findname_kept i d : always kept (findname i d).
Proof. unfold findname. go. Qed.
Lemma findino_kept i d : always kept (findino i d).
Proof. unfold findino. go. Qed.
Lemma mkentry_kept i d : always kept (mkentry i d).
Proof. unfold mkentry. go. Qed.
Lemma chgino_kept i d : always kept (chgino i d).
Proof. unfold chgino. go. Qed.
Lemma buf_bytes_kept n : always kept (buf_bytes n).
Proof. unfold buf_bytes. go. Qed.
Lemma put_buf_kept n b : always kept (put_buf n b).
Proof. unfold put_buf. go. Qed.
#[local] Hint Resolve findname_kept findino_kept mkentry_kept chgino_kept buf_bytes_kept put_buf_kept : always.

(** * The walk, for a path function and an entry function that keep the invariant *)

Section walk.
Context (path : Z -> Z -> FK unit) (entry_func : inodesc -> list Z -> FK entry_result).
Hypothesis path_kept : forall a b, always kept (path a b).
Hypothesis entry_kept : forall i d, always kept (entry_func i d).
#[local] Hint Resolve path_kept entry_kept : always.
Lemma fileerror_kept c i m : always kept (fileerror o path c i m).
Proof. unfold fileerror. go. Qed.
#[local] Hint Resolve fileerror_kept : always.
Lemma direrror_kept i m : always kept (direrror o path i m).
Proof. unfold direrror. go. Qed.
#[local] Hint Resolve direrror_kept : always.
Lemma dofix_kept i m : always kept (dofix o path i m).
Proof. unfold dofix. go. Qed.
#[local] Hint Resolve dofix_kept : always.
Lemma readdir_next_kept b n i : always kept (readdir_next o path b n i).
Proof. unfold readdir_next. go. Qed.
#[local] Hint Resolve readdir_next_kept : always.
Lemma fsck_readdir_kept i : always kept (fsck_readdir o path i).
Proof. unfold fsck_readdir. go. Qed.
#[local] Hint Resolve fsck_readdir_kept : always.
Lemma dirscan_loop_kept : forall n b i d, always kept (dirscan_loop o path entry_func n b i d).
Proof. induction n; intros; cbn [dirscan_loop]; go. Qed.
#[local] Hint Resolve dirscan_loop_kept : always.
Lemma dirscan_kept i : always kept (dirscan o path entry_func i).
Proof. unfold dirscan. go. Qed.
#[local] Hint Resolve dirscan_kept : always.
Lemma block_func_kept i : always kept (block_func o path entry_func i).
Proof. unfold block_func. go. Qed.
Lemma adjust_length_kept i f b : always kept (adjust_length o path i f b).
Proof. unfold adjust_length. go. Qed.
Lemma clear_behind_kept b : forall n i d, always kept (clear_behind o path b i n d).
Proof. induction n; intros; cbn [clear_behind]; go. Qed.
#[local] Hint Resolve block_func_kept adjust_length_kept clear_behind_kept : always.
Lemma iblock_entries_kept sub b sz : (forall i n, always kept (sub i n)) -> forall n i d s, always kept (iblock_entries o path sub b sz i n d s).
Proof. intros Hsub; induction n; intros; cbn [iblock_entries]; go. Qed.
#[local] Hint Resolve iblock_entries_kept : always.
Lemma iblock_kept : forall lev i s, always kept (iblock o path entry_func lev i s).
Proof.
  induction lev; intros; cbn [iblock]; go; apply iblock_entries_kept; intros; auto with always.
Qed.
#[local] Hint Resolve iblock_kept : always.
Lemma ck_direct_kept : forall l i n d, always kept (ck_direct o path entry_func l i n d).
Proof. induction l; intros; cbn [ck_direct]; go. Qed.
Lemma ck_indirect_kept : forall l lev r s d, always kept (ck_indirect o path entry_func l lev r s d).
Proof. induction l; intros; cbn [ck_indirect]; go. Qed.
#[local] Hint Resolve ck_direct_kept ck_indirect_kept : always.
Lemma ckinode_kept p i : always kept (ckinode o path entry_func p i).
Proof. unfold ckinode. go. Qed.
End walk.
#[local] Hint Resolve fileerror_kept direrror_kept dofix_kept : always.

Lemma ck_quiet_kept i d : always kept (ck_quiet o i d).
Proof. unfold ck_quiet. go. apply ckinode_kept; intros; [unfold path_busy|unfold find_func]; go. Qed.
#[local] Hint Resolve ck_quiet_kept : always.
Lemma path_end_kept i c : always kept (path_end i c).
Proof. unfold path_end. go. Qed.
#[local] Hint Resolve path_end_kept : always.
Lemma path_loop_kept : forall n up i c d, always kept (path_loop o n up i c d).
Proof. induction n; intros; cbn [path_loop]; go. Qed.
#[local] Hint Resolve path_loop_kept : always.
Lemma getpathname_kept c i : always kept (getpathname o c i).
Proof. unfold getpathname. go. Qed.
#[local] Hint Resolve getpathname_kept : always.
Lemma bucket_kept i : always kept (bucket i).
Proof. unfold bucket. go. Qed.
Lemma inoinfo_at_kept k : always kept (inoinfo_at k).
Proof. unfold inoinfo_at. go. Qed.
#[local] Hint Resolve bucket_kept inoinfo_at_kept : always.
Lemma cacheino_kept p i : always kept (cacheino o p i).
Proof. unfold cacheino. go. Qed.
Lemma find_inoinfo_kept i : forall c, always kept (find_inoinfo i c).
Proof. induction c; intros; cbn [find_inoinfo]; go. Qed.
#[local] Hint Resolve cacheino_kept find_inoinfo_kept : always.
Lemma getinoinfo_kept i : always kept (getinoinfo i).
Proof. unfold getinoinfo. go. Qed.
#[local] Hint Resolve getinoinfo_kept : always.

(** * Directories and inodes *)

Lemma ask_fix_kept r : always kept (ask_fix o r).
Proof. unfold ask_fix. go. Qed.
Lemma dir_type_kept : always kept (FsckDir.dir_type).
Proof. unfold FsckDir.dir_type. go. Qed.
#[local] Hint Resolve ask_fix_kept dir_type_kept : always.
Lemma pass2_dot_kept i d : always kept (pass2_dot o i d).
Proof. unfold pass2_dot. go. Qed.
Lemma pass2_state_kept : forall n i d off ino r, always kept (pass2_state o n i d off ino r).
Proof. induction n; intros; cbn [pass2_state]; go. Qed.
#[local] Hint Resolve pass2_dot_kept pass2_state_kept : always.
Lemma pass2_entry_kept i d off r : always kept (pass2_entry o i d off r).
Proof. unfold pass2_entry. go. Qed.
#[local] Hint Resolve pass2_entry_kept : always.
Lemma pass2_dotdot_at_kept i d off r k : always kept (pass2_dotdot_at o i d off r k).
Proof. unfold pass2_dotdot_at. go. Qed.
#[local] Hint Resolve pass2_dotdot_at_kept : always.
Lemma pass2_dotdot_kept i d off r : always kept (pass2_dotdot o i d off r).
Proof. unfold pass2_dotdot. go. Qed.
#[local] Hint Resolve pass2_dotdot_kept : always.
Lemma pass2check_kept i d : always kept (pass2check o i d).
Proof. unfold pass2check. go. Qed.
#[local] Hint Resolve pass2check_kept : always.
Lemma entry_func_kept i d : always kept (entry_func o i d).
Proof. unfold entry_func. go. Qed.
#[local] Hint Resolve entry_func_kept : always.
Lemma ck_kept p i : always kept (ck o p i).
Proof. unfold ck. apply ckinode_kept; auto with always. Qed.
#[local] Hint Resolve ck_kept : always.
Lemma clri_kept i b : always kept (clri o i b).
Proof. unfold clri. go. Qed.
Lemma freeino_kept i : always kept (freeino o i).
Proof. unfold freeino. go. Qed.
Lemma allocino_loop_kept m : forall n i, always kept (allocino_loop i m n).
Proof. induction n; intros; cbn [allocino_loop]; go. Qed.
Lemma init_ino_kept i t : always kept (init_ino o i t).
Proof. unfold init_ino. go. Qed.
#[local] Hint Resolve clri_kept freeino_kept allocino_loop_kept init_ino_kept : always.
Lemma allocino_kept r t : always kept (allocino o r t).
Proof. unfold allocino. go. Qed.
Lemma add_nblock_kept p k : always kept (add_nblock p k).
Proof. unfold add_nblock. go. Qed.
Lemma add_nlink_kept p k : always kept (add_nlink p k).
Proof. unfold add_nlink. go. Qed.
#[local] Hint Resolve allocino_kept add_nblock_kept add_nlink_kept : always.
Lemma expand_undo_kept p a b c : always kept (expand_undo o p a b c).
Proof. unfold expand_undo. go. Qed.
#[local] Hint Resolve expand_undo_kept : always.
Lemma expanddir_kept p : always kept (expanddir o p).
Proof. unfold expanddir. go. Qed.
Lemma allocdir_kept p r m : always kept (allocdir o p r m).
Proof. unfold allocdir. go. Qed.
Lemma freedir_kept i p : always kept (freedir o i p).
Proof. unfold freedir. go. Qed.
Lemma changeino_kept d n k : always kept (changeino o d n k).
Proof. unfold changeino. go. Qed.
#[local] Hint Resolve expanddir_kept allocdir_kept freedir_kept changeino_kept : always.
Lemma makeentry_kept p i n : always kept (makeentry o p i n).
Proof. unfold makeentry. go. Qed.
#[local] Hint Resolve makeentry_kept : always.
Lemma find_lfdir_kept : always kept (find_lfdir o).
Proof. unfold find_lfdir. go. Qed.
Lemma connect_kept a b c : always kept (connect o a b c).
Proof. unfold connect. go. Qed.
#[local] Hint Resolve find_lfdir_kept connect_kept : always.
Lemma adjust_with_kept f i n : (forall a b, always kept (f a b)) -> always kept (adjust_with o f i n).
Proof. intros Hf. unfold adjust_with. go. Qed.
#[local] Hint Resolve adjust_with_kept : always.
Lemma replace_lfdir_kept f : (forall a b, always kept (f a b)) -> always kept (replace_lfdir o f).
Proof. intros Hf. unfold replace_lfdir. go. Qed.
#[local] Hint Resolve replace_lfdir_kept : always.
Lemma linkup_kept : forall n a b, always kept (linkup o n a b).
Proof. induction n; intros; cbn [linkup]; go. Qed.
#[local] Hint Resolve linkup_kept : always.
Lemma link_up_kept a b : always kept (link_up o a b).
Proof. unfold link_up. go. Qed.
Lemma adjust_kept i n : always kept (adjust o i n).
Proof. unfold adjust. go. Qed.
Lemma add_child_kept k : always kept (add_child k).
Proof. unfold add_child. go. Qed.
Lemma next_dir_kept i : always kept (next_dir i).
Proof. unfold next_dir. go. Qed.
#[local] Hint Resolve link_up_kept adjust_kept add_child_kept next_dir_kept : always.
Lemma add_children_kept : forall l, always kept (add_children l).
Proof. induction l; intros; cbn [add_children]; go. Qed.
Lemma propagate_loop_kept : forall n p, always kept (propagate_loop n p).
Proof. induction n; intros; cbn [propagate_loop]; go. Qed.
#[local] Hint Resolve add_children_kept propagate_loop_kept : always.
Lemma propagate_kept : always kept (propagate).
Proof. unfold propagate. go. Qed.
#[local] Hint Resolve propagate_kept : always.

(** * The passes *)

Lemma set_blocks_kept a n : always kept (set_blocks a n).
Proof. unfold set_blocks. go. Qed.
#[local] Hint Resolve set_blocks_kept : always.
Lemma reserve_group_kept c : always kept (reserve_group c).
Proof. unfold reserve_group. go. Qed.
Lemma check_unused_kept p i m : always kept (check_unused o p i m).
Proof. unfold check_unused. go. Qed.
Lemma data_blocks_kept p m : always kept (data_blocks o p m).
Proof. unfold data_blocks. go. Qed.
Lemma any_block_kept p : forall n j, always kept (any_block p j n).
Proof. induction n; intros; cbn [any_block]; go. Qed.
Lemma unknown_type_kept i : always kept (unknown_type o i).
Proof. unfold unknown_type. go. Qed.
#[local] Hint Resolve reserve_group_kept check_unused_kept data_blocks_kept any_block_kept unknown_type_kept : always.
Lemma bad_pointers_kept p m n : always kept (bad_pointers p m n).
Proof. unfold bad_pointers. go. Qed.
Lemma count_inode_kept p i m d : always kept (count_inode o p i m d).
Proof. unfold count_inode. go. Qed.
#[local] Hint Resolve bad_pointers_kept count_inode_kept : always.
Lemma check_used_kept p i m t d : always kept (check_used o p i m t d).
Proof. unfold check_used. go. Qed.
#[local] Hint Resolve check_used_kept : always.
Lemma checkinode_kept i d : always kept (checkinode o i d).
Proof. unfold checkinode. go. Qed.
#[local] Hint Resolve checkinode_kept : always.
Lemma pass1_inodes_kept : forall n i d, always kept (pass1_inodes o i n d).
Proof. induction n; intros; cbn [pass1_inodes]; go. Qed.
#[local] Hint Resolve pass1_inodes_kept : always.
Lemma pass1_groups_kept : forall n i d, always kept (pass1_groups o i n d).
Proof. induction n; intros; cbn [pass1_groups]; go. Qed.
#[local] Hint Resolve pass1_groups_kept : always.
Lemma pass1_kept : always kept (pass1 o).
Proof. unfold pass1. go. Qed.
Lemma pass1b_inodes_kept : forall n i d, always kept (pass1b_inodes o i n d).
Proof. induction n; intros; cbn [pass1b_inodes]; go. Qed.
#[local] Hint Resolve pass1_kept pass1b_inodes_kept : always.
Lemma pass1b_kept : always kept (pass1b o).
Proof. unfold pass1b. go. Qed.
Lemma new_root_kept : always kept (new_root o).
Proof. unfold new_root. go. Qed.
#[local] Hint Resolve pass1b_kept new_root_kept : always.
Lemma check_root_kept : always kept (check_root o).
Proof. unfold check_root. go. Qed.
Lemma sort_dirs_kept : always kept (sort_dirs).
Proof. unfold sort_dirs. go. Qed.
Lemma store_isize_kept k : always kept (store_isize o k).
Proof. unfold store_isize. go. Qed.
#[local] Hint Resolve check_root_kept sort_dirs_kept store_isize_kept : always.
Lemma check_isize_kept k : always kept (check_isize o k).
Proof. unfold check_isize. go. Qed.
Lemma dir_view_kept i : always kept (dir_view o i).
Proof. unfold dir_view. go. Qed.
#[local] Hint Resolve check_isize_kept dir_view_kept : always.
Lemma pass2_scan_kept : forall l d, always kept (pass2_scan o l d).
Proof. induction l; intros; cbn [pass2_scan]; go. Qed.
Lemma pass2_parent_kept k : always kept (pass2_parent o k).
Proof. unfold pass2_parent. go. Qed.
#[local] Hint Resolve pass2_scan_kept pass2_parent_kept : always.
Lemma pass2_parents_kept : forall l, always kept (pass2_parents o l).
Proof. induction l; intros; cbn [pass2_parents]; go. Qed.
#[local] Hint Resolve pass2_parents_kept : always.
Lemma pass2_kept : always kept (pass2 o).
Proof. unfold pass2. go. Qed.
Lemma find_orphan_kept : forall n k c, always kept (find_orphan n k c).
Proof. induction n; intros; cbn [find_orphan]; go. Qed.
#[local] Hint Resolve pass2_kept find_orphan_kept : always.
Lemma pass3_dir_kept k : always kept (pass3_dir o k).
Proof. unfold pass3_dir. go. Qed.
#[local] Hint Resolve pass3_dir_kept : always.
Lemma pass3_dirs_kept : forall l, always kept (pass3_dirs o l).
Proof. induction l; intros; cbn [pass3_dirs]; go. Qed.
#[local] Hint Resolve pass3_dirs_kept : always.
Lemma pass3_kept : always kept (pass3 o).
Proof. unfold pass3. go. Qed.
Lemma pass4_inode_kept i : always kept (pass4_inode o i).
Proof. unfold pass4_inode. go. Qed.
#[local] Hint Resolve pass3_kept pass4_inode_kept : always.
Lemma pass4_kept : always kept (pass4 o).
Proof. unfold pass4. go. Qed.
Lemma inode_map_kept : forall n j i m f d, always kept (inode_map j i n m f d).
Proof. induction n; intros; cbn [inode_map]; go. Qed.
Lemma block_map_kept : forall n d i m f, always kept (block_map d i n m f).
Proof. induction n; intros; cbn [block_map]; go. Qed.
#[local] Hint Resolve pass4_kept inode_map_kept block_map_kept : always.
Lemma compute_maps_kept c : always kept (compute_maps c).
Proof. unfold compute_maps. go. Qed.
Lemma bitmap_buf_kept p b : always kept (bitmap_buf o p b).
Proof. unfold bitmap_buf. go. Qed.
Lemma gd_of_kept c : always kept (gd_of c).
Proof. unfold gd_of. go. Qed.
#[local] Hint Resolve compute_maps_kept bitmap_buf_kept gd_of_kept : always.
Lemma fix_counts_kept c g i : always kept (fix_counts o c g i).
Proof. unfold fix_counts. go. Qed.
Lemma fix_bitmap_kept n m s i : always kept (fix_bitmap o n m s i).
Proof. unfold fix_bitmap. go. Qed.
#[local] Hint Resolve fix_counts_kept fix_bitmap_kept : always.
Lemma pass5_group_kept c s : always kept (pass5_group o c s).
Proof. unfold pass5_group. go. Qed.
#[local] Hint Resolve pass5_group_kept : always.
Lemma pass5_groups_kept : forall n c s, always kept (pass5_groups o c n s).
Proof. induction n; intros; cbn [pass5_groups]; go. Qed.
Lemma fix_summary_kept s : always kept (fix_summary o s).
Proof. unfold fix_summary. go. Qed.
#[local] Hint Resolve pass5_groups_kept fix_summary_kept : always.
Lemma pass5_kept : always kept (pass5 o).
Proof. unfold pass5. go. Qed.
#[local] Hint Resolve pass5_kept : always.

(** * The beginning and the end *)

Lemma badsb_kept l m : always kept (badsb o l m).
Proof. unfold badsb. go. Qed.
Lemma found_sb_kept : always kept (found_sb).
Proof. unfold found_sb. go. Qed.
#[local] Hint Resolve badsb_kept found_sb_kept : always.
Lemma compare_alternate_kept l e : always kept (compare_alternate o l e).
Proof. unfold compare_alternate. go. Qed.
#[local] Hint Resolve compare_alternate_kept : always.
Lemma readsb_kept l : always kept (readsb o l).
Proof. unfold readsb. go. Qed.
Lemma calcsb_kept : always kept (calcsb o dv).
Proof. unfold calcsb. go. Qed.
#[local] Hint Resolve readsb_kept calcsb_kept : always.
Lemma search_alternates_kept : forall n c b, always kept (search_alternates o c b n).
Proof. induction n; intros; cbn [search_alternates]; go. Qed.
#[local] Hint Resolve search_alternates_kept : always.
Lemma find_sb_kept b : always kept (find_sb o dv b).
Proof. unfold find_sb. go. Qed.
Lemma read_gds_kept : forall n i t a, always kept (read_gds o i n t a).
Proof. induction n; intros; cbn [read_gds]; go. Qed.
Lemma alloc_maps_kept : always kept (alloc_maps).
Proof. unfold alloc_maps, calloc_map. go. Qed.
Lemma check_sb_fields_kept : always kept (check_sb_fields o).
Proof. unfold check_sb_fields. go. Qed.
Lemma init_globals_kept : always kept (init_globals dv).
Proof. unfold init_globals. go. Qed.
Lemma bufinit_loop_kept : forall n i, always kept (bufinit_loop n i).
Proof. induction n; intros; cbn [bufinit_loop]; go. Qed.
#[local] Hint Resolve bufinit_loop_kept : always.
Lemma bufinit_kept : always kept (bufinit).
Proof. unfold bufinit. go. Qed.
Lemma flush_all_kept : forall l, always kept (flush_all o l).
Proof. induction l; intros; cbn [flush_all]; go. Qed.
#[local] Hint Resolve find_sb_kept read_gds_kept alloc_maps_kept check_sb_fields_kept init_globals_kept bufinit_kept flush_all_kept : always.
Lemma ckfini_kept b : always kept (ckfini o b).
Proof. unfold ckfini. go. Qed.
#[local] Hint Resolve ckfini_kept : always.

(** Write access is taken back at the start, and given only to a device that has
    it when the answer is not fixed to no. *)
Hypothesis deny_kept : forall w, kept w -> kept (upd_f_writable (fun _ => false) w).
Hypothesis grant_kept : o_nflag o = false -> dv_writable dv = true ->
  forall w, kept w -> kept (upd_f_writable (fun _ => true) w).

Lemma setup_kept skipclean : always kept (setup o dv skipclean).
Proof.
  unfold setup. apply always_bind; [go|]. intros _. apply always_bind; [by apply always_modify|]. intros _.
  case_match; [go|]. apply always_bind; [go|]. intros go_on. case_match; [go|]. apply always_bind.
  - destruct (o_nflag o) eqn:En, (dv_writable dv) eqn:Ew; cbn [orb negb]; try solve [go].
    apply always_modify. by apply grant_kept.
  - intros _. go.
Qed.
#[local] Hint Resolve setup_kept : always.

Lemma checkfilesys_kept skipclean : always kept (checkfilesys o dv skipclean).
Proof. unfold checkfilesys. go. Qed.

End keep.

(** * A check that may not write *)

Section readonly.
Context (o : fsck_opts) (dv : fsck_device).
Context `{env : FsckEnv}.

Definition unwritten (d : Z -> Z) (dev : Z -> Z) (w : bool) (_ : list Z) : Prop := dev = d /\ w = false.

Lemma bwrite_unwritten d blk size buf : always (kept (unwritten d)) (bwrite o blk size buf).
Proof. intros w [Hd Hw]. unfold bwrite, mbind, Tool_bind, tgets. by rewrite Hw. Qed.

Lemma reply_frame (R : (Z -> Z) -> bool -> list Z -> Prop) q :
  (forall d w i i', R d w i -> R d w i') -> always (kept R) (reply o q).
Proof.
  intros HR. unfold reply. apply always_bind; [unfold pfatal; always_tac idtac|]. intros _. cbv zeta.
  apply always_bind; [apply always_gets|]. intros wr. apply always_bind; [apply always_gets|]. intros y.
  case_match; [apply always_ret|]. case_match; [apply always_ret|].
  apply always_bind; [apply always_gets|]. intros input. destruct (read_answer None input) as [[yes all] rest].
  apply always_bind; [apply always_modify; intros s Hs; unfold kept in *; cbn; eauto|]. intros _.
  apply always_bind; [|intros; apply always_ret]. destruct all; [by apply always_modify|apply always_ret].
Qed.

(** Writing changes the device only; the question behind an error is a reply. *)
Lemma bwrite_frame (R : (Z -> Z) -> bool -> list Z -> Prop) blk size buf :
  (forall q, always (kept R) (reply o q)) -> (forall d d' w i, R d w i -> R d' w i) ->
  always (kept R) (bwrite o blk size buf).
Proof.
  intros Hr HR. assert (forall off bytes, always (kept R) (pwrite off bytes)) as Hp.
  { intros off bytes. unfold pwrite, io_call. apply always_bind.
    - apply always_bind; [apply always_gets|]. intros k. apply always_bind; [by apply always_modify|]. intros _. apply always_ret.
    - intros ok. case_match; [|apply always_ret]. apply always_bind; [|intros; apply always_ret].
      apply always_modify. intros s Hs. unfold kept in *. cbn. eauto. }
  assert (forall n off size secsize i bf, always (kept R) (bwrite_sectors n off size secsize i bf)) as Hs.
  { induction n; intros; cbn [bwrite_sectors]; always_tac idtac; auto. }
  unfold bwrite, rwerror, pfatal, continue_or_exit. always_tac ltac:(intros ? Hw; exact Hw); auto.
Qed.

(** The write flag is cleared before anything looks at it. *)
Lemma checkfilesys_start skipclean w :
  checkfilesys o dv skipclean w = checkfilesys o dv skipclean (upd_f_writable (fun _ => false) w).
Proof. reflexivity. Qed.

(** C1: a check with the option -n, or of a device that cannot be written, never
    changes a byte of the device, whatever is on it, whatever the user answers
    and however the program ends. *)
Theorem check_readonly skipclean w :
  o_nflag o = true \/ dv_writable dv = false ->
  match checkfilesys o dv skipclean w with
  | Ok (_, w') => f_dev w' = f_dev w
  | Fault _ => True
  end.
Proof.
  intros Hro. rewrite checkfilesys_start.
  assert (kept (unwritten (f_dev w)) (upd_f_writable (fun _ => false) w)) as Hw by done.
  pose proof (checkfilesys_kept o dv (unwritten (f_dev w)) (bwrite_unwritten (f_dev w))
    (fun q => reply_frame (unwritten (f_dev w)) q (fun _ _ _ _ H => H))) as Hrun.
  assert (always (kept (unwritten (f_dev w))) (checkfilesys o dv skipclean)) as Ha.
  { apply Hrun; [by intros w' [Hd _]|]. intros Hn Hdv. by destruct Hro; congruence. }
  specialize (Ha _ Hw). destruct (checkfilesys _ _ _ _) as [[oc w']|f]; [by destruct Ha|done].
Qed.

(** C2: a preening check never reads an answer: where it would have to ask, it
    ends instead. *)
Theorem preen_never_asks skipclean w :
  o_preen o = true ->
  match checkfilesys o dv skipclean w with
  | Ok (_, w') => f_stdin w' = f_stdin w
  | Fault _ => True
  end.
Proof.
  intros Hp. set (R := fun (_ : Z -> Z) (_ : bool) (i : list Z) => i = f_stdin w).
  assert (forall q, always (kept R) (reply o q)) as Hr.
  { intros q w' Hw'. unfold reply, pfatal, mbind, Tool_bind. by rewrite Hp. }
  assert (always (kept R) (checkfilesys o dv skipclean)) as Ha.
  { apply checkfilesys_kept; try done. intros blk size buf. by apply bwrite_frame. }
  specialize (Ha w eq_refl). by destruct (checkfilesys _ _ _ _) as [[oc w']|f].
Qed.

End readonly.
