(* ===== verification/FsckSpec.v ===== *)
(** fsck_ext2fs: the block map and the list of duplicates together count the
    owners of every block; allocation of blocks; the names in lost+found. *)
From stdpp Require Import gmap.
From S2P Require Import Prelude Tool Bitmap Bytes Super Kernel InodeCnv Dir Mount Newfs Fsck FsckInode FsckDir FsckPass FsckSetup.

(** * Copies of an element of a list *)

Fixpoint copies (x : Z) (l : list Z) : Z :=
  match l with [] => 0 | y :: l' => (if y =? x then 1 else 0) + copies x l' end.

Lemma copies_nonneg x l : 0 <= copies x l.
Proof. induction l; simpl; [lia|]. case_match; lia. Qed.

Lemma copies_app x l1 l2 : copies x (l1 ++ l2) = copies x l1 + copies x l2.
Proof. induction l1; simpl; [lia|]. rewrite IHl1. lia. Qed.

Lemma copies_in x l : x ∈ l <-> 0 < copies x l.
Proof.
  induction l as [|y l IH]; simpl.
  - split; [by intros ?%elem_of_nil|lia].
  - rewrite elem_of_cons, IH. pose proof (copies_nonneg x l). destruct (Z.eqb_spec y x) as [->|Hne].
    + split; [lia|by left].
    + split; [intros [->|]; [done|lia]|intros; right; lia].
Qed.

Lemma copies_insert x l i y z :
  l !! i = Some y -> copies x (<[i:=z]> l) = copies x l - (if y =? x then 1 else 0) + (if z =? x then 1 else 0).
Proof.
  revert i. induction l as [|a l IH]; intros [|i] Hl; try done; simpl in *; [simplify_eq; lia|].
  rewrite (IH _ Hl). lia.
Qed.

(** [drop_dup] takes one copy out. *)
Lemma drop_dup_spec b dups :
  match drop_dup b dups with
  | Some dups' => b ∈ dups /\ forall x, copies x dups' = copies x dups - (if x =? b then 1 else 0)
  | None => ~ b ∈ dups
  end.
Proof.
  unfold drop_dup. destruct dups as [|h t]; [by intros ?%elem_of_nil|].
  destruct (list_find (fun d => d = b) (h :: t)) as [[i y]|] eqn:Hf.
  - apply list_find_Some in Hf as (Hl & -> & _). split; [by eapply list_elem_of_lookup_2|]. intros x.
    assert (copies x (<[i:=h]> (h :: t)) = copies x (h :: t) - (if x =? b then 1 else 0) + (if h =? x then 1 else 0)) as Hc.
    { rewrite (copies_insert _ _ _ _ _ Hl), (Z.eqb_sym b x). done. }
    destruct i as [|i].
    + change (drop 1 (<[0%nat:=h]> (h :: t))) with t. cbn [lookup list_lookup] in Hl. injection Hl as ->. simpl. rewrite (Z.eqb_sym b x). lia.
    + change (<[S i:=h]> (h :: t)) with (h :: <[i:=h]> t) in *. cbn [drop]. rewrite drop_0. simpl in Hc |- *. lia.
  - apply list_find_None in Hf. intros Hin%list_elem_of_In. rewrite Forall_forall in Hf. exact (Hf b Hin eq_refl).
Qed.

(** * Owners of blocks *)

(** The number of inodes that were found to use block [b]. *)
Definition owners (w : fsck_state) (b : Z) : Z := (if bit (f_blockmap w) b then 1 else 0) + copies b (f_duplist w).

(** A duplicate block is marked in the map. *)
Definition dups_marked (w : fsck_state) : Prop := forall d, d ∈ f_duplist w -> 0 <= d /\ bit (f_blockmap w) d = true.

(** The list has its two parts: every duplicate once, up to [muldup], and the
    further copies behind it. *)
Definition dups_split (w : fsck_state) : Prop :=
  match f_muldup w with
  | None => f_duplist w = []
  | Some k => (k < length (f_duplist w))%nat /\ NoDup (take (S k) (f_duplist w)) /\
              forall d, d ∈ f_duplist w -> d ∈ take (S k) (f_duplist w)
  end.

Lemma testbmap_ok b w : 0 <= b < 8 * zlen (f_blockmap w) -> testbmap b w = Ok (Done (bit (f_blockmap w) b), w).
Proof. intros Hb. unfold testbmap, mbind, Tool_bind, tgets, tlift. by rewrite isset_ok. Qed.

Lemma setbmap_ok b w :
  0 <= b < 8 * zlen (f_blockmap w) ->
  exists m, setbmap b w = Ok (Done tt, upd_f_blockmap (fun _ => m) w) /\ zlen m = zlen (f_blockmap w) /\
    forall j, 0 <= j -> bit m j = (j =? b) || bit (f_blockmap w) j.
Proof.
  intros Hb. destruct (setbit_ok _ _ Hb) as (m & Hm & Hl & Hbit). exists m.
  unfold setbmap, mbind, Tool_bind, tgets, tlift. by rewrite Hm.
Qed.

Lemma clrbmap_ok b w :
  0 <= b < 8 * zlen (f_blockmap w) ->
  exists m, clrbmap b w = Ok (Done tt, upd_f_blockmap (fun _ => m) w) /\ zlen m = zlen (f_blockmap w) /\
    forall j, 0 <= j -> bit m j = negb (j =? b) && bit (f_blockmap w) j.
Proof.
  intros Hb. destruct (clrbit_ok _ _ Hb) as (m & Hm & Hl & Hbit). exists m.
  unfold clrbmap, mbind, Tool_bind, tgets, tlift. by rewrite Hm.
Qed.

(** Entering a duplicate adds one copy and keeps the two parts. *)
Lemma record_dup_spec b w :
  dups_split w ->
  exists dups m, record_dup b w = Ok (Done tt, upd_f_muldup (fun _ => m) (upd_f_duplist (fun _ => dups) w)) /\
    (forall x, copies x dups = copies x (f_duplist w) + (if x =? b then 1 else 0)) /\
    dups_split (upd_f_muldup (fun _ => m) (upd_f_duplist (fun _ => dups) w)).
Proof.
  unfold dups_split. destruct (f_muldup w) as [k|] eqn:Em.
  - intros (Hk & Hnd & Hall). set (l := f_duplist w) in *.
    set (dups := take (S k) l ++ b :: drop (S k) l).
    assert (length (take (S k) l) = S k) as Hlen by (rewrite length_take; lia).
    assert (forall x, copies x dups = copies x l + (if x =? b then 1 else 0)) as Hcp.
    { intros x. unfold dups. rewrite <- (take_drop (S k) l) at 3. rewrite !copies_app. simpl. rewrite (Z.eqb_sym b x). lia. }
    assert (forall d, d ∈ dups -> d = b \/ d ∈ take (S k) l) as Hin.
    { intros d. unfold dups. rewrite elem_of_app, elem_of_cons. intros [?|[?|Hd]]; [by right|by left|].
      right. apply Hall. rewrite <- (take_drop (S k) l). apply elem_of_app. by right. }
    assert (forall n, (n <= S k)%nat -> take n dups = take n l) as Htk.
    { intros n Hn. unfold dups. rewrite take_app_le by lia. by rewrite take_take, Nat.min_l by lia. }
    assert (take (S (S k)) dups = take (S k) l ++ [b]) as Htk2.
    { unfold dups. rewrite take_app_ge by lia. rewrite Hlen. f_equal. replace (S (S k) - S k)%nat with 1%nat by lia. done. }
    unfold record_dup, mbind, Tool_bind, tgets, tmodify. rewrite Em. cbn. fold l.
    case_bool_decide as Hb.
    + exists dups, (Some k). split; [rewrite <- Em; by destruct w|]. split; [done|]. cbn [f_muldup upd_f_muldup f_duplist upd_f_duplist].
      split; [unfold dups; rewrite length_app; simpl; lia|].
      rewrite Htk by lia. split; [done|]. intros d Hd. destruct (Hin d Hd) as [->|]; done.
    + exists dups, (Some (S k)). split; [done|]. split; [done|]. cbn [f_muldup upd_f_muldup f_duplist upd_f_duplist].
      split; [unfold dups; rewrite length_app; simpl; lia|]. rewrite Htk2. split.
      * apply list.NoDup_app. split; [done|]. split; [|apply NoDup_singleton]. by intros x Hx ->%list_elem_of_singleton.
      * intros d Hd. rewrite elem_of_app, list_elem_of_singleton. destruct (Hin d Hd); auto.
  - intros Hnil. exists [b], (Some 0%nat). unfold record_dup, mbind, Tool_bind, tgets, tmodify. rewrite Em. cbn.
    split; [done|]. rewrite Hnil. split; [intros x; simpl; rewrite (Z.eqb_sym b x); lia|].
    split; [lia|]. split; [apply NoDup_singleton|]. intros d. by rewrite list_elem_of_singleton.
Qed.

(** The states an inode may have when a block of it is found bad. *)
Definition counted_state (st : Z) : Prop := st = FSTATE \/ st = DSTATE \/ st = FCLEAR \/ st = DCLEAR.

Lemma blkerror_ok o ino type b w st :
  o_preen o = false -> 0 <= ino -> f_statemap w !z ino = Some st -> counted_state st ->
  exists m, blkerror o ino type b w = Ok (Done tt, upd_f_statemap (fun _ => m) w).
Proof.
  intros Hp Hi Hst Hc. unfold blkerror, pfatal. rewrite Hp.
  unfold set_statemap, statemap, mbind, Tool_bind, tgets, tlift, tmodify, mret, Tool_ret. rewrite Hst. cbn.
  destruct Hc as [-> |[-> |[-> | ->]]]; cbn; rewrite ?Hst; cbn; try (eexists; by destruct w).
  - exists (f_statemap w). by destruct w.
  - exists (f_statemap w). by destruct w.
Qed.

(** * Questions *)

(** A question changes what is left of the input, and whether all further
    answers are yes. *)
Definition answered (w w' : fsck_state) : Prop :=
  exists i y, w' = upd_f_yflag (fun _ => y) (upd_f_stdin (fun _ => i) w).

Lemma answered_refl w : answered w w.
Proof. exists (f_stdin w), (f_yflag w). by destruct w. Qed.

Lemma reply_ok o q w : o_preen o = false -> exists b w', reply o q w = Ok (Done b, w') /\ answered w w'.
Proof.
  intros Hp. unfold reply, pfatal. rewrite Hp. unfold mbind, Tool_bind, tgets, tmodify, mret, Tool_ret.
  case_match; [eauto using answered_refl|]. case_match; [eauto using answered_refl|].
  destruct (read_answer None (f_stdin w)) as [[yes all] rest]. destruct all.
  - eexists _, _. split; [done|]. by exists rest, true.
  - eexists _, _. split; [done|]. exists rest, (f_yflag w). by destruct w.
Qed.

Lemma continue_twp o msg (Q : unit -> fsck_state -> Prop) (X : fsck_state -> Prop) w :
  o_preen o = false -> (forall w', answered w w' -> Q tt w') -> (forall w', X w') -> twp (continue_or_exit o msg) Q X w.
Proof.
  intros Hp HQ HX. unfold continue_or_exit. apply twp_bind.
  destruct (reply_ok o "CONTINUE" w Hp) as (b & w' & Hr & Ha). eapply twp_of_run; [done|].
  apply twp_require; auto.
Qed.

(** * Counting an owner, and taking one away *)

(** What a step may do to the owners of the blocks: add [k] to block [b]. *)
Definition owners_add (b k : Z) (w w' : fsck_state) : Prop :=
  dups_marked w' /\ forall x, 0 <= x -> owners w' x = owners w x + (if x =? b then k else 0).

(** No duplicate more can be entered: this inode has had its ten, or there is
    no memory for it. *)
Definition no_more_dups `{FsckEnv} (w : fsck_state) : Prop := MAXDUP <= f_dupblk w \/ mem_ok (f_mallocs w) = false.

(** C3: in pass 1, when the program does not preen, every block of an inode that
    is in range is counted. A block that was free in the map is marked and
    nothing else; one that was not is counted as a duplicate of this inode and
    entered in the list, whose two parts are kept, so that its owners are one
    more. Exactly when the inode has had ten duplicates, or there is no memory for
    the entry, the scan of the inode stops, or the program ends, with the owners
    of every block what they were. *)
Theorem pass1_block_counts `{FsckEnv} o ino b res w st :
  o_preen o = false -> 0 <= b < 8 * zlen (f_blockmap w) -> dups_marked w -> dups_split w ->
  0 <= ino -> f_statemap w !z ino = Some st -> counted_state st ->
  twp (pass1_block o ino b false res)
    (fun r w' => dups_split w' /\ zlen (f_blockmap w') = zlen (f_blockmap w) /\
       match r with
       | inl r => r = res /\ owners_add b 1 w w' /\ (bit (f_blockmap w) b = true -> ~ no_more_dups w) /\
                  f_n_blks w' = (if bit (f_blockmap w) b then f_n_blks w else s32 (f_n_blks w + 1)) /\
                  f_dupblk w' = (if bit (f_blockmap w) b then s32 (f_dupblk w + 1) else f_dupblk w)
       | inr r => r = STOP /\ owners_add b 0 w w' /\ bit (f_blockmap w) b = true /\ no_more_dups w /\
                  f_n_blks w' = f_n_blks w /\ f_dupblk w' = s32 (f_dupblk w + 1)
       end)
    (fun w' => bit (f_blockmap w) b = true /\ no_more_dups w) w.
Proof.
  intros Hp Hb Hm Hs Hi Hst Hc. unfold pass1_block. apply twp_bind, twp_ret. cbn beta iota.
  apply twp_bind. eapply twp_of_run; [by apply testbmap_ok|]. cbn beta.
  destruct (bit (f_blockmap w) b) eqn:Eb; cbn [negb].
  - destruct (blkerror_ok o ino "DUP" b w st Hp Hi Hst Hc) as (m & Hrun).
    apply twp_bind. eapply twp_of_run; [exact Hrun|]. cbn beta.
    apply twp_bind, twp_gets, twp_bind, twp_modify. cbn [f_dupblk upd_f_statemap].
    (* a question, and the scan stops *)
    assert (forall w1 w', answered w1 w' -> no_more_dups w -> f_blockmap w1 = f_blockmap w -> f_duplist w1 = f_duplist w ->
      f_muldup w1 = f_muldup w -> f_n_blks w1 = f_n_blks w -> f_dupblk w1 = s32 (f_dupblk w + 1) ->
      dups_split w' /\ zlen (f_blockmap w') = zlen (f_blockmap w) /\ STOP = STOP /\ owners_add b 0 w w' /\ true = true /\
      no_more_dups w /\ f_n_blks w' = f_n_blks w /\ f_dupblk w' = s32 (f_dupblk w + 1)) as Hstop.
    { intros w1 w' (i & y & ->) Hno E1 E2 E3 E4 E5. cbn. unfold dups_split, owners_add, dups_marked, owners. cbn.
      rewrite E1, E2, E3. split_and!; try done. intros x _. destruct (x =? b); lia. }
    destruct (Z.geb_spec (f_dupblk w) MAXDUP) as [Hd|Hd].
    + assert (no_more_dups w) as Hno by (left; lia). apply twp_bind. rewrite Hp. apply continue_twp; [done| |done].
      intros w' Ha. apply twp_ret. by eapply Hstop.
    + apply twp_bind. unfold malloc at 1. apply twp_bind, twp_gets, twp_bind, twp_modify, twp_ret.
      cbn [f_mallocs upd_f_dupblk upd_f_statemap]. destruct (mem_ok (f_mallocs w)) eqn:Emem; cbn [negb].
      2:{ assert (no_more_dups w) as Hno by (by right). apply twp_bind. unfold pfatal. rewrite Hp. apply twp_ret.
          apply twp_bind. apply continue_twp; [done| |done]. intros w' Ha. apply twp_ret. by eapply Hstop. }
      match goal with |- twp _ _ _ ?u => set (w1 := u) end.
      assert (dups_split w1) as Hs1 by done. destruct (record_dup_spec b w1 Hs1) as (dups & m' & Hrd & Hcp & Hs2).
      apply twp_bind. eapply twp_of_run; [exact Hrd|]. apply twp_ret. split; [done|]. split; [done|]. split; [done|].
      split; [|split; [intros _ [?|?]; [lia|congruence]|done]]. split.
      * intros d Hd'. cbn in Hd' |- *. apply copies_in in Hd'. rewrite Hcp in Hd'. cbn in Hd'.
        destruct (decide (d = b)) as [E|E]; [subst d; split; [lia|done]|]. apply Hm, copies_in.
        rewrite (proj2 (Z.eqb_neq d b)) in Hd' by done. lia.
      * intros x _. unfold owners. cbn. rewrite Hcp. cbn. lia.
  - apply twp_bind, twp_modify. match goal with |- twp _ _ _ ?u => set (w1 := u) end.
    destruct (setbmap_ok b w1 Hb) as (m & Hrun & Hl & Hbit).
    apply twp_bind. eapply twp_of_run; [exact Hrun|]. apply twp_ret. split; [done|]. split; [done|]. split; [done|].
    split; [|by split]. split.
    + intros d Hd. destruct (Hm d Hd) as [Hd0 Hd1]. split; [done|]. cbn. rewrite Hbit by done. cbn. rewrite Hd1. apply orb_true_r.
    + intros x Hx. unfold owners. cbn. rewrite Hbit by done. cbn. destruct (Z.eqb_spec x b) as [-> |]; cbn; [rewrite Eb; lia|lia].
Qed.

(** The last owner of a block. *)
Lemma pass4_block_last b w :
  chkrange b 1 w = Ok (Done false, w) -> 0 <= b < 8 * zlen (f_blockmap w) ->
  bit (f_blockmap w) b = true -> ~ b ∈ f_duplist w ->
  exists m, pass4_block b w = Ok (Done false, upd_f_n_blks (fun k => s32 (k - 1)) (upd_f_blockmap (fun _ => m) w)) /\
    zlen m = zlen (f_blockmap w) /\ forall j, 0 <= j -> bit m j = negb (j =? b) && bit (f_blockmap w) j.
Proof.
  intros Hr Hb Hbit Hni. destruct (clrbmap_ok b w Hb) as (m & Hrun & Hm). exists m. split; [|exact Hm].
  unfold pass4_block. rewrite (tbind_run _ _ _ _ _ Hr). cbn beta iota.
  rewrite (tbind_run _ _ _ _ _ (testbmap_ok b w Hb)), Hbit. cbn [negb].
  unfold tgets at 1. unfold mbind at 1, Tool_bind at 1.
  pose proof (drop_dup_spec b (f_duplist w)) as Hd. destruct (drop_dup b (f_duplist w)) as [dups|]; [by destruct Hd|].
  rewrite (tbind_run _ _ _ tt (upd_f_n_blks (fun k => s32 (k - 1)) (upd_f_blockmap (fun _ => m) w))); [done|].
  rewrite (tbind_run _ _ _ _ _ Hrun). done.
Qed.

(** C5: giving a block back takes one of its owners away, whichever of them it
    is; the block is free in the map exactly when the last one is gone. *)
Theorem pass4_block_releases b w :
  chkrange b 1 w = Ok (Done false, w) -> 0 <= b < 8 * zlen (f_blockmap w) -> dups_marked w ->
  twp (pass4_block b)
    (fun out w' => out = false /\ owners_add b (if 0 <? owners w b then -1 else 0) w w' /\
       bit (f_blockmap w') b = (1 <? owners w b) /\
       f_n_blks w' = if owners w b =? 1 then s32 (f_n_blks w - 1) else f_n_blks w)
    (fun _ => False) w.
Proof.
  intros Hr Hb Hm. unfold pass4_block. apply twp_bind. eapply twp_of_run; [exact Hr|]. cbn beta iota.
  apply twp_bind. eapply twp_of_run; [by apply testbmap_ok|]. cbn beta.
  pose proof (copies_nonneg b (f_duplist w)) as Hn.
  destruct (bit (f_blockmap w) b) eqn:Eb; cbn [negb].
  - apply twp_bind, twp_gets. pose proof (drop_dup_spec b (f_duplist w)) as Hd.
    assert (owners w b = 1 + copies b (f_duplist w)) as Ho by (unfold owners; rewrite Eb; lia).
    rewrite (proj2 (Z.ltb_lt 0 (owners w b))) by lia.
    destruct (drop_dup b (f_duplist w)) as [dups|].
    + destruct Hd as [Hin%copies_in Hcp]. apply twp_bind, twp_modify, twp_ret. split; [done|]. split; [split|split].
      * intros d Hd'. apply copies_in in Hd'. cbn in Hd'. rewrite Hcp in Hd'. apply Hm, copies_in. case_match; lia.
      * intros x _. unfold owners. cbn. rewrite Hcp. destruct (x =? b); lia.
      * cbn. rewrite Eb. symmetry. apply Z.ltb_lt. lia.
      * cbn. destruct (Z.eqb_spec (owners w b) 1); [lia|done].
    + assert (copies b (f_duplist w) = 0) as Hc0 by (rewrite copies_in in Hd; lia).
      destruct (clrbmap_ok b w Hb) as (m & Hrun & Hl & Hbit).
      apply twp_bind, twp_bind. eapply twp_of_run; [exact Hrun|]. apply twp_modify, twp_ret. split; [done|]. split; [split|split].
      * intros d Hd'. cbn in Hd'. destruct (Hm d Hd') as [Hd0 Hd1]. split; [done|]. cbn. rewrite Hbit by done. rewrite Hd1.
        destruct (Z.eqb_spec d b); [subst; done|done].
      * intros x Hx. unfold owners. cbn. rewrite Hbit by done. destruct (Z.eqb_spec x b) as [-> |]; cbn; [rewrite Eb; lia|lia].
      * cbn. rewrite Hbit by lia. rewrite Z.eqb_refl. symmetry. apply Z.ltb_ge. lia.
      * cbn. rewrite (proj2 (Z.eqb_eq (owners w b) 1)) by lia. done.
  - assert (~ b ∈ f_duplist w) as Hni by (intros Hd%Hm; destruct Hd; congruence).
    assert (owners w b = 0) as Ho by (unfold owners; rewrite Eb; rewrite copies_in in Hni; lia).
    apply twp_ret. rewrite Ho. change (0 <? 0) with false. split; [done|]. split; [split; [done|]|done]. intros x _. destruct (x =? b); lia.
Qed.

(** * Allocating blocks *)

Lemma allocblk_loop_spec : forall n i w,
  0 <= i -> i + Z.of_nat n <= 8 * zlen (f_blockmap w) ->
  exists r w', allocblk_loop i n w = Ok (Done r, w') /\
    ((r = 0 /\ w' = w /\ forall j, i <= j < i + Z.of_nat n -> bit (f_blockmap w) j = true) \/
     (i <= r < i + Z.of_nat n /\ bit (f_blockmap w) r = false /\
      (forall j, i <= j < r -> bit (f_blockmap w) j = true) /\
      exists m, w' = upd_f_n_blks (fun k => s32 (k + 1)) (upd_f_blockmap (fun _ => m) w) /\ zlen m = zlen (f_blockmap w) /\
        forall j, 0 <= j -> bit m j = (j =? r) || bit (f_blockmap w) j)).
Proof.
  induction n as [|n IH]; intros i w Hi Hn.
  - exists 0, w. split; [done|]. left. split; [done|]. split; [done|]. lia.
  - cbn [allocblk_loop]. rewrite (tbind_run _ _ _ _ _ (testbmap_ok i w ltac:(lia))).
    destruct (bit (f_blockmap w) i) eqn:Eb.
    + destruct (IH (i + 1) w ltac:(lia) ltac:(lia)) as (r & w' & Hr & Hc). exists r, w'. split; [done|].
      assert (forall j hi, (forall j, i + 1 <= j < hi -> bit (f_blockmap w) j = true) -> i <= j < hi -> bit (f_blockmap w) j = true) as Hst.
      { intros j hi Hj Hij. destruct (decide (j = i)) as [-> |]; [done|]. apply Hj. lia. }
      destruct Hc as [(? & ? & Hall)|(? & ? & Hall & ?)].
      * left. split; [done|]. split; [done|]. intros j Hj. apply (Hst j (i + Z.of_nat (S n))); [|done]. intros k Hk. apply Hall. lia.
      * right. split; [lia|]. split; [done|]. split; [|done]. intros j Hj. by apply (Hst j r).
    + destruct (setbmap_ok i w ltac:(lia)) as (m & Hrun & Hl & Hbit).
      rewrite (tbind_run _ _ _ _ _ Hrun). exists i. eexists. split; [done|]. right. split; [lia|]. split; [done|]. split; [lia|].
      exists m. done.
Qed.

(** C8: allocblk hands out the lowest block that is free below the last one and
    marks and counts it; without one it answers 0 and changes nothing. Freeing
    the block gives the old map and count back. *)
Theorem allocblk_freeblk w :
  0 < f_maxfsblock w <= 8 * zlen (f_blockmap w) -> s32_ok (f_n_blks w) ->
  exists r w1, allocblk w = Ok (Done r, w1) /\
    ((r = 0 /\ w1 = w /\ forall j, 0 <= j < f_maxfsblock w - 1 -> bit (f_blockmap w) j = true) \/
     (0 <= r < f_maxfsblock w - 1 /\ bit (f_blockmap w) r = false /\ bit (f_blockmap w1) r = true /\
      (forall j, 0 <= j < r -> bit (f_blockmap w) j = true) /\ f_n_blks w1 = s32 (f_n_blks w + 1) /\
      (chkrange r 1 w1 = Ok (Done false, w1) -> dups_marked w ->
       twp (freeblk r)
         (fun _ w2 => f_n_blks w2 = f_n_blks w /\ forall j, 0 <= j -> bit (f_blockmap w2) j = bit (f_blockmap w) j)
         (fun _ => False) w1))).
Proof.
  intros Hm Hnb. destruct (allocblk_loop_spec (Z.to_nat (f_maxfsblock w - 1)) 0 w ltac:(lia) ltac:(lia)) as (r & w1 & Hr & Hc).
  exists r, w1. split; [exact Hr|]. destruct Hc as [(? & ? & Hall)|(Hrr & Hb & Hall & m & -> & Hl & Hbit)].
  - left. split; [done|]. split; [done|]. intros j Hj. apply Hall. lia.
  - right. split; [lia|]. split; [done|]. split; [cbn; rewrite Hbit by lia; by rewrite Z.eqb_refl|]. split; [done|]. split; [done|].
    intros Hchk Hmk. set (w1 := upd_f_n_blks _ _) in *.
    assert (~ r ∈ f_duplist w1) as Hni by (intros Hin; destruct (Hmk r Hin); congruence).
    destruct (pass4_block_last r w1 Hchk ltac:(cbn; rewrite Hl; lia) ltac:(cbn; rewrite Hbit, Z.eqb_refl by lia; done) Hni)
      as (m2 & Hrun & Hl2 & Hbit2).
    unfold freeblk. cbn [pass4_blocks]. apply twp_bind, twp_bind. eapply twp_of_run; [exact Hrun|]. apply twp_ret, twp_ret.
    split; [cbn; unfold s32_ok, s32 in *; Z.div_mod_to_equations; lia|]. intros j Hj. cbn. rewrite Hbit2 by done. cbn.
    rewrite Hbit by done. destruct (Z.eqb_spec j r) as [-> |]; [by rewrite Hb|done].
Qed.
