(* ===== verification/FsckInodeSpec.v ===== *)
(** fsck_ext2fs: where [ginode] points, when a directory can grow, what a new
    entry looks like, and the names in lost+found. *)
From stdpp Require Import gmap.
From S2P Require Import Prelude Tool Bitmap Bytes Super Kernel InodeCnv Dir Mount Newfs DirSpec Fsck FsckInode FsckDir FsckPass FsckSetup.

(** * Runs *)

Lemma tbind_done {W A B} (m : Tool W A) (k : A -> Tool W B) w b w' :
  (m ≫= k) w = Ok (Done b, w') -> exists a w1, m w = Ok (Done a, w1) /\ k a w1 = Ok (Done b, w').
Proof. unfold mbind, Tool_bind. destruct (m w) as [[[a|s] w1]|]; [eauto|done|done]. Qed.

Lemma tlift_ok {W A} (r : res A) a (w : W) : r = Ok a -> tlift r w = Ok (Done a, w).
Proof. by intros ->. Qed.

(** * The address of an inode *)

Section ginode.
Context (o : fsck_opts).
Context `{env : FsckEnv}.

(** The number of an inode within its block. *)
Definition slot_of (w : fsck_state) (ino : Z) : Z := (ino - 1) mod m_ipb (f_sb w).

Lemma ginode_pointer ino w p w' :
  ginode o ino w = Ok (Done p, w') -> exists n, p = In_buf n (SIZEOF_DINODE * slot_of w ino).
Proof.
  unfold ginode. intros (maxino & w1 & Hg1 & H)%tbind_done. injection Hg1 as <- <-.
  apply tbind_done in H as ([] & w1 & Hr & H). unfold require in Hr. case_match; [|done]. injection Hr as <-.
  apply tbind_done in H as (fs & w1 & Hg & H). injection Hg as <- <-.
  apply tbind_done in H as (start & w1 & Hg & H). injection Hg as <- <-.
  apply tbind_done in H as ([] & w1 & _ & H). apply tbind_done in H as (q & w2 & Hg & H). injection Hg as <- <-.
  destruct (f_pbp w1) as [n|]; [|done]. injection H as <- <-. by exists n.
Qed.

Lemma put_bytes_oob bs off new : zlen bs < off + zlen new -> put_bytes bs off new = Fault OutOfBounds.
Proof. intros H. unfold put_bytes. by rewrite (proj2 (Z.leb_gt _ _) H), andb_false_r. Qed.

(** C11: with inodes of 128 bytes [ginode] misses every inode that is not the
    first of its block. What [clearinode] wipes through its pointer are 156
    bytes that start 28 bytes or more behind its mode: the mode of the inode that was asked for
    stays, other inodes are hit instead, and for the last slots of a block the access is out of bounds. *)
Theorem ginode_misses ino w off w1 n b :
  ginode o ino w = Ok (Done (In_buf n off), w1) -> f_bufs w1 !! n = Some b ->
  0 < slot_of w ino < m_ipb (f_sb w) -> zlen (b_buf b) = 128 * m_ipb (f_sb w) ->
  let inode := 128 * slot_of w ino in
  inode + 28 <= off /\
  match clearinode (In_buf n off) w1 with
  | Fault f => f = OutOfBounds /\ zlen (b_buf b) < off + SIZEOF_DINODE
  | Ok (r, w2) => r = Done tt /\ exists b', f_bufs w2 !! n = Some b' /\
      get16 (b_buf b') inode = get16 (b_buf b) inode /\
      get_bytes (b_buf b') off (Z.to_nat SIZEOF_DINODE) = Ok (replicate (Z.to_nat SIZEOF_DINODE) 0)
  end.
Proof.
  intros Hg Hb Hs Hl inode. destruct (ginode_pointer _ _ _ _ Hg) as (n' & [= <- Hoff]).
  change SIZEOF_DINODE with 156 in *. split; [lia|]. unfold clearinode, mem_of, get_buf.
  rewrite (tbind_run _ _ w1 (b_buf b, off) w1).
  2:{ rewrite (tbind_run _ _ w1 b w1); [done|]. rewrite (tbind_run _ _ w1 (f_bufs w1) w1) by done. unfold tlift, access. by rewrite Hb. }
  assert (zlen (replicate (Z.to_nat 156) 0) = 156) as Hz by done. change SIZEOF_DINODE with 156 in *. cbn beta iota.
  destruct (Z.leb_spec (off + 156) (zlen (b_buf b))) as [Hle|Hgt].
  - pose proof (put_bytes_ok (b_buf b) off (replicate (Z.to_nat 156) 0) ltac:(lia) ltac:(lia)) as Hp.
    set (buf := _ ++ _) in Hp. rewrite (tbind_run _ _ w1 buf w1) by by apply tlift_ok.
    cbn -[replicate]. split; [done|]. exists (upd_b_buf (fun _ => buf) b). split; [by rewrite list_lookup_alter_eq, Hb|].
    cbn -[replicate]. split.
    + unfold get16, get_le. f_equal. apply (get_put_bytes_disj _ _ _ _ _ 2 Hp). left. lia.
    + apply (get_put_bytes_same _ _ _ _ Hp).
  - unfold mbind, Tool_bind, tlift. rewrite put_bytes_oob by lia. split; [done|lia].
Qed.

End ginode.

(** * Names in lost+found *)

Definition dec_value (l : list Z) : Z := foldl (fun a d => 10 * a + (d - 48)) 0 l.
Definition is_digit (c : Z) : Prop := 48 <= c <= 57.

Lemma dec_value_snoc l c : dec_value (l ++ [c]) = 10 * dec_value l + (c - 48).
Proof. unfold dec_value. by rewrite foldl_app. Qed.

Lemma put_digits_app n : forall ino acc, put_digits n ino acc = put_digits n ino [] ++ acc.
Proof.
  induction n as [|n IH]; intros ino acc; [done|]. cbn [put_digits].
  rewrite IH, (IH _ [_]), <- app_assoc. done.
Qed.

Lemma put_digits_spec n : forall ino,
  0 <= ino -> length (put_digits n ino []) = n /\ Forall is_digit (put_digits n ino []) /\
  dec_value (put_digits n ino []) = ino mod 10 ^ Z.of_nat n.
Proof.
  induction n as [|n IH]; intros ino Hi; [by rewrite Z.mod_1_r|].
  cbn [put_digits]. rewrite put_digits_app. destruct (IH (ino / 10) ltac:(Z.div_mod_to_equations; lia)) as (Hl & Hd & Hv).
  split; [rewrite length_app; simpl; lia|]. split.
  - apply Forall_app. split; [done|]. constructor; [|done]. unfold is_digit. pose proof (Z.mod_pos_bound ino 10). lia.
  - rewrite dec_value_snoc, Hv. replace (Z.of_nat (S n)) with (1 + Z.of_nat n) by lia.
    rewrite Z.pow_add_r, Z.pow_1_r, Z.rem_mul_r by lia. lia.
Qed.

Lemma put_digits_S n : forall ino acc, exists c, put_digits (S n) ino acc = c :: put_digits n ino acc.
Proof.
  induction n as [|n IH]; intros ino acc; [by eexists|]. destruct (IH (ino / 10) (ino mod 10 + 48 :: acc)) as [c Hc].
  by exists c.
Qed.

Lemma digits_spec fuel : forall n, 0 <= n < 10 ^ Z.of_nat fuel -> n < 10 ^ Z.of_nat (digits fuel n).
Proof.
  induction fuel as [|fuel IH]; intros n Hn; [simpl in *; lia|]. cbn [digits]. case_match eqn:E; [|simpl; lia].
  apply Z.ltb_lt in E. replace (Z.of_nat (S fuel)) with (1 + Z.of_nat fuel) in Hn by lia.
  rewrite Z.pow_add_r in Hn by lia.
  specialize (IH (n / 10) ltac:(Z.div_mod_to_equations; lia)).
  replace (Z.of_nat (S (digits fuel (n / 10)))) with (1 + Z.of_nat (digits fuel (n / 10))) by lia.
  rewrite Z.pow_add_r by lia. Z.div_mod_to_equations. lia.
Qed.

(** The name an orphan gets in lost+found is a hash mark and decimal digits
    that give its inode number back, so two orphans never share a name. *)
Theorem lftempname_number maxino ino :
  0 <= ino <= maxino -> maxino < 2 ^ 64 ->
  exists ds, lftempname maxino ino = 35 :: ds /\ Forall is_digit ds /\ length ds = digits 20 maxino /\ dec_value ds = ino.
Proof.
  intros Hi Hm. exists (put_digits (digits 20 maxino) ino []).
  destruct (put_digits_spec (digits 20 maxino) ino ltac:(lia)) as (Hl & Hd & Hv).
  split; [|split; [done|split; [done|]]].
  - unfold lftempname. destruct (put_digits_S (digits 20 maxino) ino []) as [c ->]. done.
  - rewrite Hv. apply Z.mod_small. pose proof (digits_spec 20 maxino ltac:(simpl; lia)). lia.
Qed.

(** * Growing a directory *)

Section grow.
Context (o : fsck_opts).
Context `{env : FsckEnv}.

(** The inode [p] points at starts at [off] of the bytes [bs]. *)
Definition inode_in (p : dptr) (bs : list Z) (off : Z) (w : fsck_state) : Prop := mem_of p w = Ok (Done (bs, off), w).

Lemma di_get_ok p bs off member n v w :
  inode_in p bs off w -> get_le bs (off + member) n = Ok v -> di_get p member n w = Ok (Done v, w).
Proof. intros Hp Hv. unfold di_get. rewrite (tbind_run _ _ _ _ _ Hp). cbn beta iota. unfold tlift. by rewrite Hv. Qed.

(** The size of a directory that is not too large. *)
Lemma inosize_dir p bs off mode size w :
  inode_in p bs off w -> get16 bs (off + DI_MODE) = Ok mode -> fmt mode = IFDIR ->
  get32 bs (off + DI_SIZE) = Ok size -> size < 0x80000000 -> inosize o p w = Ok (Done size, w).
Proof.
  intros Hp Hm Hf Hs Hlt. unfold inosize. rewrite (tbind_run _ _ _ _ _ (di_get_ok _ _ _ _ _ _ _ Hp Hs)).
  unfold e2di_mode. rewrite (tbind_run _ _ _ _ _ (di_get_ok _ _ _ _ _ _ _ Hp Hm)), Hf.
  change (IFDIR =? IFREG) with false. cbn beta iota. unfold size_of. rewrite Hf. change (IFDIR =? IFREG) with false. cbn beta iota.
  destruct (Z.geb_spec size 0x80000000); [lia|]. done.
Qed.

(** A directory whose size is a whole number of blocks and that has no block
    behind its end, as every sound directory, is never expanded: [expanddir]
    looks at the pointer behind the last block. *)
Theorem expanddir_sound_fails p bs off mode size w :
  inode_in p bs off w -> get16 bs (off + DI_MODE) = Ok mode -> fmt mode = IFDIR ->
  get32 bs (off + DI_SIZE) = Ok size -> 0 <= size < 0x80000000 ->
  m_bsize (f_sb w) = 2 ^ m_bshift (f_sb w) -> 0 <= m_bshift (f_sb w) -> size mod m_bsize (f_sb w) = 0 ->
  (size / m_bsize (f_sb w) < NDADDR -> get32 bs (off + (DI_BLOCKS + 4 * (size / m_bsize (f_sb w)))) = Ok 0) ->
  expanddir o p w = Ok (Done false, w).
Proof.
  intros Hp Hm Hf Hs Hr Hbs Hsh Hmod Hptr. unfold expanddir. rewrite (tbind_run _ _ w (f_sb w) w) by done. cbv zeta.
  rewrite (tbind_run _ _ _ _ _ (inosize_dir _ _ _ _ _ _ Hp Hm Hf Hs ltac:(lia))).
  rewrite Z.shiftr_div_pow2, <- Hbs by done.
  assert (0 <= size / m_bsize (f_sb w) <= size) as Hd.
  { assert (0 < m_bsize (f_sb w)) by (rewrite Hbs; apply Z.pow_pos_nonneg; lia). split; [apply Z.div_pos; lia|].
    apply Z.div_le_upper_bound; nia. }
  rewrite s32_id by (unfold s32_ok; lia). destruct (Z.geb_spec (size / m_bsize (f_sb w)) (NDADDR - 1)) as [|Hlt]; [done|].
  unfold e2di_block. rewrite (tbind_run _ _ _ _ _ (di_get_ok _ _ _ _ _ _ _ Hp (Hptr ltac:(lia)))). done.
Qed.

(** * A new entry *)

(** C12: [mkentry] puts the new entry into the room behind the name of an entry
    in use, or takes over one that is not: the records fill the place of the old
    one, and exactly the new name is added to what is in use. Without the room
    nothing changes. *)
Theorem mkentry_spec idesc d w e type :
  get_dent d 0 = Ok e -> dent_ok e -> de_reclen e <= zlen d ->
  0 < zlen (id_name idesc) < 256 -> 0 < id_parent idesc < 2 ^ 32 -> u8_ok type ->
  entry_type (id_parent idesc) w = Ok (Done type, w) ->
  if de_reclen e - packed [e] <? EXT2_DIR_REC_LEN (zlen (id_name idesc))
  then mkentry idesc d w = Ok (Done (KEEPON, idesc, d), w)
  else exists d' es, mkentry idesc d w = Ok (Done (Z.lor ALTERED STOP, idesc, d'), w) /\ zlen d' = zlen d /\
    chain d' 0 es (de_reclen e) /\ in_use es = in_use [e] ++ [(id_parent idesc, type, id_name idesc)] /\
    forall p n, de_reclen e <= p -> same_bytes d p d' p n.
Proof.
  intros He Hok Hl Hn Hi Ht Htype. destruct (get_dent_parts _ _ _ He) as (G1 & G2 & G3 & _).
  pose proof (dent_ok_size e Hok) as [Hsz _]. pose proof Hok as [Hu Hnl Hrl Hal]. pose proof (rec_len_bounds (zlen (id_name idesc))) as [Hb _].
  pose proof (rec_len_bounds (de_namlen e)) as [Hbe Hae].
  assert (u8 (zlen (id_name idesc)) = zlen (id_name idesc)) as Hu8 by (apply u8_id; unfold u8_ok; lia).
  set (oldlen := packed [e]). assert (0 <= oldlen <= de_reclen e /\ oldlen mod 4 = 0) as [Hold Hmod].
  { unfold oldlen. cbn [packed]. rewrite Z.add_0_r. destruct (de_ino e =? 0); [split; [lia|done]|lia]. }
  assert (mkentry idesc d w = (if de_reclen e - oldlen <? EXT2_DIR_REC_LEN (zlen (id_name idesc)) then mret (KEEPON, idesc, d)
    else d' ← tlift (d1 ← put16 d 4 oldlen;
                  put_bytes d1 oldlen (le_split 4 (id_parent idesc) ++ le_split 2 (u16 (de_reclen e - oldlen)) ++
                    [u8 (zlen (id_name idesc)); type] ++ id_name idesc ++ []));
         mret (Z.lor ALTERED STOP, idesc, d')) w) as ->.
  { unfold mkentry. rewrite (tbind_run _ _ _ _ _ Htype), (tbind_run _ _ _ _ _ (tlift_ok _ _ w G1)), Hu8. cbv zeta.
    rewrite (tbind_run _ _ w oldlen w).
    2:{ unfold oldlen. cbn. destruct (de_ino e =? 0); [done|]. cbn [negb]. rewrite (tbind_run _ _ _ _ _ (tlift_ok _ _ w G3)).
        cbn. by rewrite Z.add_0_r. }
    rewrite (tbind_run _ _ _ _ _ (tlift_ok _ _ w G2)). 
    assert (take (Z.to_nat (zlen (id_name idesc))) (id_name idesc) = id_name idesc ++ []) as ->; [|done].
    unfold zlen. by rewrite Nat2Z.id, firstn_all, app_nil_r. }
  case_match eqn:E; [done|]. apply Z.ltb_ge in E.
  destruct (put_le_ok d 4 2 oldlen) as [d1 Hp1]; [lia|cbn; lia|].
  pose proof (put_le_len _ _ _ _ _ Hp1) as Hl1.
  set (new := le_split 4 (id_parent idesc) ++ _).
  assert (zlen new = 8 + zlen (id_name idesc)) as Hln.
  { unfold new, zlen. rewrite !length_app, !length_le_split. cbn [length]. lia. }
  destruct (put_bytes d1 oldlen new) as [d2|] eqn:Hp2; [|rewrite put_bytes_ok in Hp2 by lia; done].
  assert (u16 (de_reclen e - oldlen) = de_reclen e - oldlen) as Hu16 by (apply u16_id; unfold u16_ok; lia).
  assert (get_dent d2 oldlen = Ok (mk_dent (id_parent idesc) (de_reclen e - oldlen) (zlen (id_name idesc)) type (id_name idesc))) as Hnew.
  { unfold new in Hp2. rewrite Hu16 in Hp2. apply (get_dent_put _ _ _ _ _ _ _ _ Hp2); unfold u32_ok, u16_ok; lia || done. }
  assert (zlen (le_split 2 oldlen) = 2) as H2 by done.
  set (n := mk_dent _ _ _ _ _) in Hnew.
  assert (dent_ok n) as Hokn.
  { unfold n. constructor; cbn [de_ino de_reclen de_namlen]; [unfold u32_ok; lia|lia|lia|]. by apply mod4_sub. }
  assert (forall p m, de_reclen e <= p -> same_bytes d p d2 p m) as Hrest.
  { intros p m Hp. eapply same_bytes_trans; eapply same_bytes_put; [exact Hp1|lia|exact Hp2|lia]. }
  assert (chain d2 oldlen [n] (de_reclen e)) as Hcn by (cbn; split; [done|]; split; [done|]; lia).
  exists d2, ((if de_ino e =? 0 then [] else [trim e]) ++ [n]).
  split; [|split; [|split; [|split; [|exact Hrest]]]].
  - unfold mbind at 1, Tool_bind at 1, tlift at 1. unfold put16. rewrite Hp1. cbn [mbind res_bind]. by rewrite Hp2.
  - by rewrite (put_bytes_len _ _ _ _ Hp2).
  - apply chain_app. exists oldlen. split; [|done]. unfold oldlen in *. cbn in *. destruct (Z.eqb_spec (de_ino e) 0) as [H0|H0]; [done|].
    cbn. split; [|split; [by apply trim_ok, dent_ok_header|lia]].
    assert (put_bytes d 4 (le_split 2 (EXT2_DIR_REC_LEN (de_namlen e))) = Ok d1) as Hp1' by (rewrite <- Hp1; unfold put_le; do 2 f_equal; lia).
    eapply (get_dent_same _ _ _ _ (EXT2_DIR_REC_LEN (de_namlen e)) (trim e)); [|cbn; lia|cbn; lia|eapply same_bytes_put; [exact Hp2|lia]].
    unfold trim. eapply get_dent_set_reclen; [exact He|lia|exact Hp1'|unfold u16_ok; lia].
  - rewrite in_use_app. f_equal; [|cbn; by rewrite (proj2 (Z.eqb_neq (id_parent idesc) 0)) by lia].
    cbn. destruct (Z.eqb_spec (de_ino e) 0) as [H0|H0]; [done|]. cbn. by rewrite (proj2 (Z.eqb_neq (de_ino e) 0)) by done.
Qed.

End grow.
