(* ===== verification/FsckSetupSpec.v ===== *)
(** fsck_ext2fs: where the superblock that was read is written back to. *)
From stdpp Require Import gmap.
From S2P Require Import Prelude Tool Bitmap Bytes Super Kernel InodeCnv Dir Mount Newfs NewfsOps Fsck FsckInode FsckDir FsckPass FsckSetup FsckInodeSpec.

Section sblk.
Context (o : fsck_opts).
Context `{env : FsckEnv}.

(** The alternate superblock and the device do not share the buffer of the
    primary one. *)
Section keep.
Context (P : bufarea -> Prop).

Definition on_sblk (w : fsck_state) : Prop := P (f_sblk w).

Ltac upd := intros ? Hw; exact Hw.
Ltac go := always_tac upd.

Lemma reply_sblk q : always on_sblk (reply o q).
Proof. unfold reply, pfatal. go. Qed.
#[local] Hint Resolve reply_sblk : always.
Lemma rwerror_sblk msg : always on_sblk (rwerror o msg).
Proof. unfold rwerror, pfatal, continue_or_exit. go. Qed.
#[local] Hint Resolve rwerror_sblk : always.
Lemma bread_sectors_sblk off size secsize : forall n i errs buf, always on_sblk (bread_sectors n off size secsize i errs buf).
Proof. induction n; intros; cbn [bread_sectors]; unfold pread, io_call, dev_bytes; go. Qed.
#[local] Hint Resolve bread_sectors_sblk : always.
Lemma bread_sblk blk size : always on_sblk (bread o blk size).
Proof. unfold bread, pread, io_call, dev_bytes. go. Qed.
Lemma bwrite_sectors_sblk off size secsize buf : forall n i, always on_sblk (bwrite_sectors n off size secsize i buf).
Proof. induction n; intros; cbn [bwrite_sectors]; unfold pwrite, io_call; go. Qed.
#[local] Hint Resolve bread_sblk bwrite_sectors_sblk : always.
Lemma bwrite_sblk blk size buf : always on_sblk (bwrite o blk size buf).
Proof. unfold bwrite, pwrite, io_call. go. Qed.
#[local] Hint Resolve bwrite_sblk : always.
Lemma getblk_asblk blk size : always on_sblk (getblk o Asblk blk size).
Proof. unfold getblk, flush, get_buf, upd_buf, pfatal. go. Qed.
End keep.

(** A result of a run that keeps a property of the primary superblock. *)
Lemma always_run {W A} (I : W -> Prop) (m : Tool W A) w oc w' : always I m -> I w -> m w = Ok (oc, w') -> I w'.
Proof. intros Hm Hw Hr. specialize (Hm w Hw). by rewrite Hr in Hm. Qed.

Definition boot_home (b : bufarea) : Prop := b_bno b = 0 /\ b_size b = SBSIZE.

Lemma compare_alternate_home l es w r w' :
  boot_home (f_sblk w) -> compare_alternate o l es w = Ok (Done r, w') -> boot_home (f_sblk w').
Proof.
  intros Hw Hr. refine (always_run (on_sblk boot_home) _ _ _ _ _ Hw Hr).
  unfold compare_alternate, badsb, found_sb, pfatal, get_buf, upd_buf. always_tac ltac:(intros ? H; exact H).
Qed.

Lemma readsb_home l w w' :
  readsb o l w = Ok (Done true, w') -> f_bflag w = 0 -> boot_home (f_sblk w').
Proof.
  intros Hr Hb. unfold readsb in Hr. apply tbind_done in Hr as (bf & w0 & Hg & Hr). injection Hg as <- <-. rewrite Hb in Hr.
  change (negb (0 =? 0)) with false in Hr. cbv zeta in Hr.
  apply tbind_done in Hr as ([bytes errs] & w1 & _ & Hr). apply tbind_done in Hr as ([] & w2 & _ & Hr).
  destruct (negb (errs =? 0)); [done|]. apply tbind_done in Hr as ([] & w3 & Hu & Hr). cbn in Hu. injection Hu as <-.
  apply tbind_done in Hr as ([es rest] & w4 & Hl & Hr). unfold tlift in Hl. destruct (sb_load bytes); [|done]. injection Hl as _ <-.
  apply tbind_done in Hr as ([] & w5 & Hu & Hr). cbn in Hu. injection Hu as <-.
  assert (forall (m : FK unit) v, (_ ← m; mret false) v <> Ok (Done true, w')) as Hno.
  { intros m v H. by apply tbind_done in H as (? & ? & _ & ?). }
  destruct (negb (e2fs_magic es =? E2FS_MAGIC)); [by apply Hno in Hr|].
  destruct (e2fs_log_bsize es >? 2); [by apply Hno in Hr|]. destruct (e2fs_bpg es =? 0); [by apply Hno in Hr|].
  apply tbind_done in Hr as (g & w4 & Hl & Hr). unfold tlift in Hl. destruct (readsb_geometry es); [|done]. injection Hl as -> <-.
  destruct g as [fs|]; [|by apply Hno in Hr].
  apply tbind_done in Hr as ([] & w5 & Hu & Hr). cbn in Hu. injection Hu as <-.
  apply tbind_done in Hr as ([] & w6 & Hu & Hr). injection Hu as <-.
  match type of Hr with _ ?u = _ => set (w7 := u) in Hr end. assert (boot_home (f_sblk w7)) as Hh by done. clearbody w7.
  destruct (m_gcount fs =? 1).
  { unfold found_sb in Hr. cbn in Hr. injection Hr as <-. done. }
  apply tbind_done in Hr as ([] & w8 & Hg & Hr).
  pose proof (always_run (on_sblk boot_home) _ _ _ _ (getblk_asblk boot_home _ _) Hh Hg) as Hh8.
  apply tbind_done in Hr as (asb & w9 & Ha & Hr). injection Ha as <- <-.
  destruct (negb (b_errs _ =? 0)); [done|]. by eapply compare_alternate_home.
Qed.

(** * Writing the superblock *)

(** The bytes of the device that a write of [n] bytes at [off] leaves alone. *)
Lemma write_bytes_other off bytes dev x : x < off \/ off + zlen bytes <= x -> write_bytes off bytes dev x = dev x.
Proof.
  intros H. unfold write_bytes. destruct (bytes !z (x - off)) eqn:E; [|done].
  apply zlookup_Some_inv in E. lia.
Qed.

Lemma bwrite_run blk size buf w :
  (forall k, io_ok k = true) -> f_writable w = true -> 0 <= blk -> 0 <= size -> size = zlen buf ->
  bwrite o blk size buf w =
    Ok (Done tt, upd_f_fsmodified (fun _ => true) (upd_f_dev (write_bytes (blk * DEV_BSIZE) buf) (upd_f_calls S w))).
Proof.
  intros Hio Hw Hb Hs ->. unfold bwrite. rewrite (tbind_run _ _ w true w) by (unfold tgets; by rewrite Hw). cbn [negb].
  rewrite (tbind_run _ _ w buf w).
  2:{ unfold tlift. rewrite get_bytes_ok by (unfold zlen in *; lia). unfold zlen. by rewrite Nat2Z.id, drop_0, firstn_all. }
  unfold pwrite, io_call, mbind, Tool_bind, tgets, tmodify, mret, Tool_ret. rewrite Hio.
  rewrite (proj2 (Z.leb_le 0 (blk * DEV_BSIZE))) by (unfold DEV_BSIZE; lia). done.
Qed.

(** The sectors of a block, and a table of descriptors that fills its blocks. *)
Record disk_geom (fs : m_ext2fs) : Prop := mk_disk_geom {
  dg_shift : 1 <= m_fsbtodb fs <= 3;
  dg_bsize : m_bsize fs = DEV_BSIZE * 2 ^ m_fsbtodb fs;
  dg_table : m_gdbcount fs * m_bsize fs <= zlen (m_gd fs);
  dg_count : 0 <= m_gdbcount fs < 2 ^ 20
}.

(** The descriptors are written behind the first two kilobytes. *)
Lemma gd_home_bounds fs i :
  disk_geom fs -> 0 <= i < m_gdbcount fs -> 2048 <= gd_home fs i * DEV_BSIZE.
Proof.
  intros [Hk Hb _ Hc] Hi. unfold gd_home, fsbtodb. rewrite Z.shiftl_mul_pow2 by lia.
  assert (2 ^ m_fsbtodb fs = 2 \/ 2 ^ m_fsbtodb fs = 4 \/ 2 ^ m_fsbtodb fs = 8) as Hp.
  { assert (m_fsbtodb fs = 1 \/ m_fsbtodb fs = 2 \/ m_fsbtodb fs = 3) as [-> |[-> | ->]] by lia; auto. }
  unfold DEV_BSIZE in *. rewrite s64_id by (unfold s64_ok; case_match; lia). rewrite s32_id by (unfold s32_ok; case_match; lia).
  destruct (Z.gtb_spec (m_bsize fs) 1024); lia.
Qed.

(** Two states that differ in the device behind the boot area only. *)
Definition same_start (w w' : fsck_state) : Prop :=
  f_sb w' = f_sb w /\ f_writable w' = true /\ forall x, x < 2048 -> f_dev w' x = f_dev w x.

Lemma write_gds_start w :
  (forall k, io_ok k = true) -> f_writable w = true -> disk_geom (f_sb w) ->
  twp (write_gds o) (fun _ w' => same_start w w') (fun _ => False) w.
Proof.
  intros Hio Hw Hg. unfold write_gds. apply twp_bind, twp_gets. pose proof Hg as [Hk Hb Ht Hc].
  apply (twp_for (fun _ w' => same_start w w')); [done|]. intros i w1 Hi (Hsb & Hw1 & Hd).
  apply twp_bind, twp_gets. rewrite Hsb. set (fs := f_sb w) in *.
  assert (0 < m_bsize fs) as Hpos by (rewrite Hb; unfold DEV_BSIZE; assert (0 < 2 ^ m_fsbtodb fs) by (apply Z.pow_pos_nonneg; lia); lia).
  assert (i * m_bsize fs + m_bsize fs <= zlen (m_gd fs)) as Hfit by nia.
  apply twp_bind. eapply twp_lift; [apply get_bytes_ok; nia|].
  set (bytes := take _ _). assert (zlen bytes = m_bsize fs) as Hl.
  { unfold bytes, zlen in *. rewrite length_take, length_drop. lia. }
  pose proof (gd_home_bounds fs i Hg ltac:(lia)) as Hh.
  eapply twp_of_run; [apply bwrite_run; try done; unfold DEV_BSIZE in *; lia|].
  split; [done|]. split; [done|]. intros x Hx. cbn. rewrite write_bytes_other by lia. by apply Hd.
Qed.

(** C10: after [readsb] has found the primary superblock, the buffer it is kept
    in is addressed to sector 0. When it is flushed, the superblock is written
    over the boot block, the first kilobyte of the device, and the primary
    superblock in the second one stays as it was. *)
Theorem superblock_over_boot_block listerr w w1 w2 :
  readsb o listerr w = Ok (Done true, w1) -> f_bflag w = 0 ->
  b_bno (f_sblk w2) = b_bno (f_sblk w1) -> b_size (f_sblk w2) = b_size (f_sblk w1) ->
  b_dirty (f_sblk w2) = true -> b_errs (f_sblk w2) = 0 -> zlen (b_buf (f_sblk w2)) = SBSIZE ->
  f_writable w2 = true -> (forall k, io_ok k = true) -> disk_geom (f_sb w2) ->
  twp (flush o Sblk)
    (fun _ w3 => f_dev w3 <$> seqZ 0 SBSIZE = b_buf (f_sblk w2) /\
                 forall x, SBOFF <= x < SBOFF + SBSIZE -> f_dev w3 x = f_dev w2 x)
    (fun _ => False) w2.
Proof.
  intros Hr Hbf Hbno Hsz Hd He Hl Hw Hio Hg. destruct (readsb_home _ _ _ Hr Hbf) as [Hb0 Hs0].
  rewrite Hb0 in Hbno. rewrite Hs0 in Hsz. unfold flush. apply twp_bind, twp_gets. rewrite Hd, He. cbn [negb].
  change (0 =? 0) with true. cbn beta iota. apply twp_bind, twp_ret, twp_bind, twp_modify, twp_bind.
  eapply twp_of_run; [apply bwrite_run; try done; rewrite ?Hbno, ?Hsz; unfold SBSIZE in *; lia|].
  eapply twp_mono; [apply write_gds_start; [done|done|exact Hg]| |done].
  intros _ w3 (_ & _ & Hdev). cbn in Hdev. rewrite Hbno in Hdev. change (0 * DEV_BSIZE) with 0 in Hdev. split.
  - rewrite <- (read_written 0 (b_buf (f_sblk w2)) (f_dev w2)), Hl. apply list_fmap_ext. intros i x Hx.
    apply list_elem_of_lookup_2, elem_of_seqZ in Hx. apply Hdev. unfold SBSIZE in *. lia.
  - intros x Hx. change SBOFF with 1024 in Hx. unfold SBSIZE in *. rewrite Hdev by lia. apply write_bytes_other. right. lia.
Qed.

End sblk.
