(* ===== verification/FsckCache.v ===== *)
(** fsck_ext2fs: the buffers are a write-back cache. The abstract state is the
    [view], the bytes a reader of the volume sees; looking for a block never
    changes it, storing into a buffer changes the bytes of its block, and the
    final flush makes the device agree with it. *)
From stdpp Require Import gmap.
From S2P Require Import Prelude Tool Bitmap Bytes Super Kernel InodeCnv Dir Mount Newfs NewfsOps Fsck FsckInode FsckDir FsckPass FsckSetup FsckInodeSpec FsckSetupSpec.

(** * Buffers and the device *)

Section bufs.
Context (spb : Z).

(** Bytes of a block of [spb] sectors. *)
Local Notation bsize := (DEV_BSIZE * spb).

Definition covers (b : bufarea) (x : Z) : bool :=
  (0 <=? b_bno b) && (b_bno b * DEV_BSIZE <=? x) && (x <? b_bno b * DEV_BSIZE + bsize).

Definition byte_of (b : bufarea) (x : Z) : option Z := b_buf b !z (x - b_bno b * DEV_BSIZE).

(** What a reader sees: the buffer of the block if there is one. *)
Definition view_of (bufs : list bufarea) (dev : Z -> Z) (x : Z) : Z :=
  match find_first (fun b => covers b x) bufs with
  | Some b => default (dev x) (byte_of b x)
  | None => dev x
  end.

Record bufs_ok (writable : bool) (dev : Z -> Z) (bufs : list bufarea) : Prop := mk_bufs_ok {
  bk_block : forall n b, bufs !! n = Some b -> 0 <= b_bno b ->
    b_size b = bsize /\ zlen (b_buf b) = bsize /\ b_errs b = 0 /\ exists k, b_bno b = k * spb;
  bk_dirty : forall n b, bufs !! n = Some b -> b_dirty b = true -> 0 <= b_bno b /\ writable = true;
  bk_distinct : forall n m b c, bufs !! n = Some b -> bufs !! m = Some c -> 0 <= b_bno b -> b_bno b = b_bno c -> n = m;
  bk_clean : forall n b x, bufs !! n = Some b -> b_dirty b = false -> covers b x = true -> byte_of b x = Some (dev x)
}.

Lemma covers_inv b x : covers b x = true <-> 0 <= b_bno b /\ b_bno b * DEV_BSIZE <= x < b_bno b * DEV_BSIZE + bsize.
Proof. unfold covers. rewrite !andb_true_iff, !Z.leb_le, Z.ltb_lt. lia. Qed.

(** Blocks that share a byte are the same. *)
Lemma covers_bno b c x k l :
  covers b x = true -> covers c x = true -> b_bno b = k * spb -> b_bno c = l * spb -> b_bno b = b_bno c.
Proof.
  intros [_ Hb]%covers_inv [_ Hc]%covers_inv Hk Hl. unfold DEV_BSIZE in *. rewrite Hk, Hl in *.
  assert (k = l) as ->; [|done].
  assert (x / (512 * spb) = k) by (symmetry; apply Z.div_unique with (r := x - k * (512 * spb)); lia).
  assert (x / (512 * spb) = l) by (symmetry; apply Z.div_unique with (r := x - l * (512 * spb)); lia). congruence.
Qed.

Lemma covers_unique wr dev bufs n m b c x :
  bufs_ok wr dev bufs -> bufs !! n = Some b -> bufs !! m = Some c -> covers b x = true -> covers c x = true -> n = m.
Proof.
  intros [] Hn Hm Hb Hc. pose proof (proj1 (covers_inv b x) Hb) as [H0 _]. pose proof (proj1 (covers_inv c x) Hc) as [H1 _].
  destruct (bk_block0 n b Hn H0) as (_ & _ & _ & k & Hk). destruct (bk_block0 m c Hm H1) as (_ & _ & _ & l & Hl).
  eapply bk_distinct0; [done..|]. by eapply covers_bno.
Qed.

Lemma find_first_spec {A} (P : A -> bool) l :
  match find_first P l with Some a => a ∈ l /\ P a = true | None => forall a, a ∈ l -> P a = false end.
Proof.
  induction l as [|a l IH]; simpl; [by intros a ?%elem_of_nil|]. destruct (P a) eqn:E; [split; [by left|done]|].
  destruct (find_first P l); [split; [by right; apply IH|apply IH]|]. intros c [->|Hc]%elem_of_cons; [done|by apply IH].
Qed.

(** The view as a relation: from a buffer, or from the device. *)
Definition sees (bufs : list bufarea) (dev : Z -> Z) (x v : Z) : Prop :=
  (exists n b, bufs !! n = Some b /\ covers b x = true /\ byte_of b x = Some v) \/
  ((forall n b, bufs !! n = Some b -> covers b x = false) /\ v = dev x).

Lemma byte_of_some wr dev bufs n b x :
  bufs_ok wr dev bufs -> bufs !! n = Some b -> covers b x = true -> exists v, byte_of b x = Some v.
Proof.
  intros [] Hn [H0 Hx]%covers_inv. destruct (bk_block0 n b Hn H0) as (_ & Hz & _). apply zlookup_lt. lia.
Qed.

Lemma view_sees wr dev bufs x v : bufs_ok wr dev bufs -> sees bufs dev x v <-> view_of bufs dev x = v.
Proof.
  intros Hok. unfold view_of. pose proof (find_first_spec (fun b => covers b x) bufs) as Hf.
  destruct (find_first _ bufs) as [b|].
  - destruct Hf as [[n Hn]%list_elem_of_lookup Hc]. destruct (byte_of_some _ _ _ _ _ _ Hok Hn Hc) as [u Hu]. rewrite Hu. cbn.
    split; [|intros <-; left; eauto]. intros [(m & c & Hm & Hcm & Hv)|[Hno _]]; [|by rewrite (Hno n b Hn) in Hc].
    assert (n = m) as <- by (by eapply (covers_unique _ _ _ n m)). congruence.
  - assert (forall n b, bufs !! n = Some b -> covers b x = false) as Hno by (intros n b Hn; apply Hf; by eapply list_elem_of_lookup_2).
    split; [|intros <-; by right]. intros [(m & c & Hm & Hcm & Hv)|[_ ->]]; [|done]. by rewrite (Hno m c Hm) in Hcm.
Qed.

Lemma view_eq wr dev bufs wr' dev' bufs' x :
  bufs_ok wr dev bufs -> bufs_ok wr' dev' bufs' -> (forall v, sees bufs dev x v -> sees bufs' dev' x v) ->
  view_of bufs' dev' x = view_of bufs dev x.
Proof. intros Hok Hok' Hs. apply (view_sees _ _ _ _ _ Hok'), Hs. by apply (view_sees _ _ _ _ _ Hok). Qed.

(** Once nothing is dirty the device is what is seen. *)
Lemma view_clean wr dev bufs x :
  bufs_ok wr dev bufs -> (forall n b, bufs !! n = Some b -> b_dirty b = false) -> view_of bufs dev x = dev x.
Proof.
  intros Hok Hcl. apply (view_sees _ _ _ _ _ Hok). pose proof (find_first_spec (fun b => covers b x) bufs) as Hf.
  destruct (find_first _ bufs) as [b|].
  - destruct Hf as [[n Hn]%list_elem_of_lookup Hc]. left. exists n, b. split; [done|]. split; [done|]. eapply bk_clean; eauto.
  - right. split; [|done]. intros n b Hn. apply Hf. by eapply list_elem_of_lookup_2.
Qed.

Lemma insert_cases (bufs : list bufarea) n b' m c :
  <[n := b']> bufs !! m = Some c -> (m = n /\ c = b') \/ (m <> n /\ bufs !! m = Some c).
Proof.
  intros H. destruct (decide (m = n)) as [->|Hne]; [left|right; by rewrite list_lookup_insert_ne in H].
  split; [done|]. apply list_lookup_insert_Some in H as [(_ & <- & _)|[? _]]; done.
Qed.

(** Two buffers with the same block and bytes cover and give the same. *)
Lemma covers_same b c x : b_bno c = b_bno b -> covers c x = covers b x.
Proof. intros E. unfold covers. by rewrite E. Qed.

Lemma byte_of_same b c x : b_bno c = b_bno b -> b_buf c = b_buf b -> byte_of c x = byte_of b x.
Proof. intros E F. unfold byte_of. by rewrite E, F. Qed.

(** ** The three things that happen to a buffer *)

(** Its block and bytes stay: it may become clean when the device has them, and
    used or free. *)
Lemma bufs_ok_same wr dev dev' bufs n b b' :
  bufs_ok wr dev bufs -> bufs !! n = Some b ->
  b_bno b' = b_bno b -> b_buf b' = b_buf b -> b_size b' = b_size b -> b_errs b' = b_errs b ->
  (b_dirty b' = true -> b_dirty b = true) ->
  (forall x, covers b x = false -> dev' x = dev x) ->
  (b_dirty b' = false -> forall x, covers b x = true -> byte_of b x = Some (dev' x)) ->
  bufs_ok wr dev' (<[n := b']> bufs) /\ forall x, view_of (<[n := b']> bufs) dev' x = view_of bufs dev x.
Proof.
  intros Hok Hn Eb Ef Es Ee Hd Hother Hown. pose proof Hok as [].
  assert (bufs_ok wr dev' (<[n := b']> bufs)) as Hok'.
  { constructor.
    - intros m c [[-> ->]|[_ Hm]]%insert_cases H0; [|by eapply bk_block0]. rewrite Eb, Ef, Es, Ee in *. by eapply bk_block0.
    - intros m c [[-> ->]|[_ Hm]]%insert_cases Hdc; [|by eapply bk_dirty0]. rewrite Eb. eapply bk_dirty0; eauto.
    - intros m k c d [[-> ->]|[_ Hm]]%insert_cases [[-> ->]|[_ Hk]]%insert_cases H0 He; rewrite ?Eb in *; eauto.
    - intros m c x [[-> ->]|[Hne Hm]]%insert_cases Hdc Hc.
      + rewrite (covers_same _ _ x Eb) in Hc. rewrite (byte_of_same _ _ x Eb Ef). by apply Hown.
      + rewrite Hother; [by eapply bk_clean0|]. destruct (covers b x) eqn:Hb; [|done].
        destruct Hne. by eapply (covers_unique _ _ _ m n). }
  split; [done|]. intros x. eapply view_eq; [done..|]. intros v [(m & c & Hm & Hc & Hv)|[Hno ->]].
  - left. destruct (decide (m = n)) as [->|Hne].
    + simplify_eq. exists n, b'. rewrite (covers_same _ _ x Eb), (byte_of_same _ _ x Eb Ef).
      split; [|done]. by apply list_lookup_insert_eq; eapply lookup_lt_Some.
    + exists m, c. by rewrite list_lookup_insert_ne.
  - right. split; [|symmetry; apply Hother; eauto]. intros m c [[-> ->]|[_ Hm]]%insert_cases; [|eauto].
    rewrite (covers_same _ _ x Eb). eauto.
Qed.

(** A clean one takes in a block that no buffer has. *)
Lemma bufs_ok_load wr dev bufs n b b' k :
  bufs_ok wr dev bufs -> bufs !! n = Some b -> b_dirty b = false -> (forall m c, bufs !! m = Some c -> b_bno c <> k * spb) ->
  b_bno b' = k * spb -> 0 <= k -> b_size b' = bsize -> b_errs b' = 0 -> b_dirty b' = false -> zlen (b_buf b') = bsize ->
  (forall x, covers b' x = true -> byte_of b' x = Some (dev x)) ->
  bufs_ok wr dev (<[n := b']> bufs) /\ forall x, view_of (<[n := b']> bufs) dev x = view_of bufs dev x.
Proof.
  intros Hok Hn Hd Hnone Eb Hk Es Ee Ed Ez Hbytes. pose proof Hok as [].
  assert (bufs_ok wr dev (<[n := b']> bufs)) as Hok'.
  { constructor.
    - intros m c [[-> ->]|[_ Hm]]%insert_cases H0; [by eauto|by eapply bk_block0].
    - intros m c [[-> ->]|[_ Hm]]%insert_cases Hdc; [congruence|by eapply bk_dirty0].
    - intros m j c d [[-> ->]|[_ Hm]]%insert_cases [[-> ->]|[_ Hj]]%insert_cases H0 He; eauto.
      + exfalso. apply (Hnone j d Hj). congruence.
      + exfalso. apply (Hnone m c Hm). congruence.
    - intros m c x [[-> ->]|[Hne Hm]]%insert_cases Hdc Hc; [by apply Hbytes|by eapply bk_clean0]. }
  assert (n < length bufs)%nat as Hlt by (by eapply lookup_lt_Some).
  split; [done|]. intros x. eapply view_eq; [done..|]. intros v Hs.
  destruct (covers b' x) eqn:Hc'.
  - left. exists n, b'. split; [by apply list_lookup_insert_eq|]. split; [done|]. rewrite (Hbytes x Hc'). f_equal.
    destruct Hs as [(m & c & Hm & Hc & Hv)|[_ ->]]; [exfalso|done].
    destruct (bk_block0 m c Hm) as (_ & _ & _ & l & Hl); [by apply covers_inv in Hc as [? _]|].
    apply (Hnone m c Hm). rewrite <- Eb. by eapply covers_bno.
  - destruct Hs as [(m & c & Hm & Hc & Hv)|[Hno ->]].
    + destruct (decide (m = n)) as [->|Hne].
      * simplify_eq. rewrite (bk_clean0 n b x Hn Hd Hc) in Hv. simplify_eq. right. split; [|done].
        intros j d [[-> ->]|[Hne Hj]]%insert_cases; [done|]. destruct (covers d x) eqn:Hdx; [|done].
        destruct Hne. by eapply (covers_unique wr dev bufs j n d _ x Hok Hj Hn Hdx).
      * left. exists m, c. by rewrite list_lookup_insert_ne.
    + right. split; [|done]. intros j d [[-> ->]|[_ Hj]]%insert_cases; eauto.
Qed.

(** Its bytes change: those of its block do, for every reader. *)
Lemma bufs_ok_store dev bufs n b b' :
  bufs_ok true dev bufs -> bufs !! n = Some b -> 0 <= b_bno b ->
  b_bno b' = b_bno b -> b_size b' = b_size b -> b_errs b' = b_errs b -> zlen (b_buf b') = bsize -> b_dirty b' = true ->
  bufs_ok true dev (<[n := b']> bufs) /\
  forall x, view_of (<[n := b']> bufs) dev x = if covers b x then default 0 (byte_of b' x) else view_of bufs dev x.
Proof.
  intros Hok Hn H0 Eb Es Ee Ez Ed. pose proof Hok as [].
  assert (bufs_ok true dev (<[n := b']> bufs)) as Hok'.
  { constructor.
    - intros m c [[-> ->]|[_ Hm]]%insert_cases Hc; [|by eapply bk_block0]. rewrite Eb, Es, Ee. destruct (bk_block0 n b Hn H0) as (? & _ & ?). eauto.
    - intros m c [[-> ->]|[_ Hm]]%insert_cases Hdc; [by rewrite Eb|by eapply bk_dirty0].
    - intros m k c d [[-> ->]|[_ Hm]]%insert_cases [[-> ->]|[_ Hk]]%insert_cases Hc He; rewrite ?Eb in *; eauto.
    - intros m c x [[-> ->]|[Hne Hm]]%insert_cases Hdc Hc; [congruence|by eapply bk_clean0]. }
  assert (n < length bufs)%nat as Hlt by (by eapply lookup_lt_Some).
  assert (<[n := b']> bufs !! n = Some b') as Hn' by (by apply list_lookup_insert_eq).
  split; [done|]. intros x. destruct (covers b x) eqn:Hc.
  - apply (view_sees _ _ _ _ _ Hok'). left. exists n, b'. rewrite (covers_same _ _ x Eb). split; [done|]. split; [done|].
    destruct (byte_of_some _ _ _ _ _ x Hok' Hn') as [v Hv]; [by rewrite (covers_same _ _ x Eb)|]. by rewrite Hv.
  - eapply view_eq; [done..|]. intros v [(m & c & Hm & Hcm & Hv)|[Hno ->]].
    + left. exists m, c. rewrite list_lookup_insert_ne; [done|]. intros ->. congruence.
    + right. split; [|done]. intros j d [[-> ->]|[_ Hj]]%insert_cases; [by rewrite (covers_same _ _ x Eb)|eauto].
Qed.

End bufs.

(** * The cache *)

Lemma alter_at {A} (f : A -> A) n (l : list A) a : l !! n = Some a -> alter f n l = <[n := f a]> l.
Proof. intros Hn. apply list_eq. intros i. destruct (decide (i = n)) as [->|Hne].
  - rewrite list_lookup_alter_eq, Hn, list_lookup_insert_eq by (by eapply lookup_lt_Some). done.
  - by rewrite list_lookup_alter_ne, list_lookup_insert_ne by done.
Qed.

Section cache.
Context (o : fsck_opts).
Context `{env : FsckEnv}.
Context (Hio : forall k, io_ok k = true).

Definition sectors (w : fsck_state) : Z := 2 ^ m_fsbtodb (f_sb w).

(** The bytes a reader of the volume sees. *)
Definition view (w : fsck_state) : Z -> Z := view_of (sectors w) (f_bufs w) (f_dev w).

Record cache_ok (w : fsck_state) : Prop := mk_cache_ok {
  co_shift : 1 <= m_fsbtodb (f_sb w) <= 3;
  co_bsize : m_bsize (f_sb w) = DEV_BSIZE * sectors w;
  co_bufs : bufs_ok (sectors w) (f_writable w) (f_dev w) (f_bufs w);
  co_lru : forall n, n ∈ f_lru w <-> (n < length (f_bufs w))%nat
}.

(** What the cache does behind the scenes: the volume looks the same. *)
Record same_volume (w w' : fsck_state) : Prop := mk_same_volume {
  sv_ok : cache_ok w';
  sv_view : forall x, view w' x = view w x;
  sv_sb : f_sb w' = f_sb w;
  sv_writable : f_writable w' = f_writable w
}.

Lemma sectors_pos w : cache_ok w -> 0 < sectors w.
Proof. intros []. unfold sectors. apply Z.pow_pos_nonneg; lia. Qed.

Lemma get_cached n b w : f_bufs w !! n = Some b -> get_buf (Cached n) w = Ok (Done b, w).
Proof. intros Hn. unfold get_buf, mbind, Tool_bind, tgets, tlift. by rewrite Hn. Qed.

Lemma upd_cached n f b w :
  f_bufs w !! n = Some b -> upd_buf (Cached n) f w = Ok (Done tt, upd_f_bufs (<[n := f b]>) w).
Proof. intros Hn. unfold upd_buf, tmodify, upd_f_bufs. by rewrite (alter_at _ _ _ _ Hn). Qed.

Lemma flush_spec n b w :
  cache_ok w -> f_bufs w !! n = Some b ->
  exists b' w', flush o (Cached n) w = Ok (Done tt, w') /\ same_volume w w' /\ f_lru w' = f_lru w /\
    f_bufs w' = <[n := b']> (f_bufs w) /\ b_bno b' = b_bno b /\ b_inuse b' = b_inuse b /\ b_dirty b' = false.
Proof.
  intros Hok Hn. pose proof (sectors_pos w Hok) as Hs. pose proof Hok as []. pose proof co_bufs0 as [].
  unfold flush. rewrite (tbind_run _ _ _ _ _ (get_cached n b w Hn)). destruct (b_dirty b) eqn:Ed; cbn [negb].
  2:{ exists b, w. split; [done|]. split; [done|]. split; [done|]. by rewrite list_insert_id. }
  destruct (bk_dirty0 n b Hn Ed) as [H0 Hw]. destruct (bk_block0 n b Hn H0) as (Hsz & Hz & He & _).
  rewrite He, Z.eqb_refl. set (b' := upd_b_errs (fun _ => 0) (upd_b_dirty (fun _ => false) b)).
  set (w1 := upd_f_bufs (<[n := b']>) w).
  assert (upd_buf (Cached n) (fun b => upd_b_errs (fun _ => 0) (upd_b_dirty (fun _ => false) b)) w = Ok (Done tt, w1)) as Hu.
  { by rewrite (upd_cached _ _ _ _ Hn). }
  rewrite (tbind_run _ _ w tt w) by done. rewrite (tbind_run _ _ _ _ _ Hu).
  pose proof (bwrite_run o (b_bno b) (b_size b) (b_buf b) w1 Hio Hw H0 ltac:(rewrite Hsz; unfold DEV_BSIZE; lia) ltac:(lia)) as Hb.
  rewrite (tbind_run _ _ _ _ _ Hb). eexists b', _. split; [reflexivity|].
  set (w2 := upd_f_fsmodified _ _).
  destruct (bufs_ok_same (sectors w) (f_writable w) (f_dev w) (f_dev w2) (f_bufs w) n b b') as [Hok' Hview']; try done.
  - intros x Hx. cbn. apply write_bytes_other. rewrite Hz. pose proof (covers_inv (sectors w) b x) as Hc.
    destruct (decide (b_bno b * DEV_BSIZE <= x < b_bno b * DEV_BSIZE + DEV_BSIZE * sectors w)); [|lia].
    rewrite (proj2 Hc) in Hx by done. done.
  - intros _ x Hx. pose proof (proj1 (covers_inv (sectors w) b x) Hx) as [_ Hr]. unfold byte_of. cbn. unfold write_bytes.
    destruct (zlookup_lt (b_buf b) (x - b_bno b * DEV_BSIZE)) as [v Hv]; [lia|]. by rewrite Hv.
  - split; [|done]. constructor; [|exact Hview'|done|done]. constructor; try done. intros m. cbn. by rewrite length_insert, co_lru0.
Qed.

Lemma same_volume_refl w : cache_ok w -> same_volume w w.
Proof. by intros. Qed.

Lemma same_volume_trans w1 w2 w3 : same_volume w1 w2 -> same_volume w2 w3 -> same_volume w1 w3.
Proof. intros [] []. constructor; congruence || done || (intros x; congruence). Qed.

(** ** Finding a block *)

(** A block number inside the volumes the program handles. *)
Definition blkno_ok (w : fsck_state) (blkno : Z) : Prop := 0 <= blkno /\ blkno * sectors w < 2 ^ 31.

Lemma fsbtodb_sectors w blkno : cache_ok w -> blkno_ok w blkno -> fsbtodb (f_sb w) blkno = blkno * sectors w.
Proof.
  intros [] [H0 H1]. unfold fsbtodb, sectors in *. rewrite Z.shiftl_mul_pow2 by lia. apply s64_id. unfold s64_ok. nia.
Qed.

Lemma bread_run blk size w :
  0 <= blk -> bread o blk size w = Ok (Done (f_dev w <$> seqZ (blk * DEV_BSIZE) size, 0), upd_f_calls S w).
Proof.
  intros H0. unfold bread, pread, io_call, dev_bytes, mbind, Tool_bind, tgets, tmodify, mret, Tool_ret. rewrite Hio.
  rewrite (proj2 (Z.leb_le 0 (blk * DEV_BSIZE))) by (unfold DEV_BSIZE; lia). done.
Qed.

Lemma read_byte (dev : Z -> Z) off n x : off <= x < off + n -> (dev <$> seqZ off n) !z (x - off) = Some (dev x).
Proof.
  intros Hx. rewrite zlookup_nonneg, list_lookup_fmap by lia.
  rewrite (proj2 (lookup_seqZ off n (Z.to_nat (x - off)) x)); [done|lia].
Qed.

(** A buffer that is not in use takes in a block that no buffer has. *)
Lemma getblk_spec n b blkno w :
  cache_ok w -> blkno_ok w blkno -> f_bufs w !! n = Some b ->
  (forall m c, f_bufs w !! m = Some c -> b_bno c <> blkno * sectors w) ->
  exists b' w', getblk o (Cached n) blkno (m_bsize (f_sb w)) w = Ok (Done tt, w') /\ same_volume w w' /\
    f_lru w' = f_lru w /\ f_bufs w' !! n = Some b' /\ b_bno b' = blkno * sectors w.
Proof.
  intros Hok Hbn Hn Hnone. pose proof (sectors_pos w Hok) as Hs. unfold getblk.
  rewrite (tbind_run _ _ w (f_sb w) w) by done. rewrite (fsbtodb_sectors w blkno Hok Hbn). destruct Hbn as [Hb0 Hb1].
  rewrite s32_id by (unfold s32_ok; nia). cbv zeta. rewrite (tbind_run _ _ _ _ _ (get_cached n b w Hn)).
  rewrite (proj2 (Z.eqb_neq _ _)) by (by eapply Hnone).
  destruct (flush_spec n b w Hok Hn) as (b1 & w1 & Hf & [Hok1 Hv1 Hsb1 Hw1] & Hl1 & Hb & Eb & Ei & Ed).
  rewrite (tbind_run _ _ _ _ _ Hf). assert (0 <= blkno * sectors w) as H0 by nia.
  rewrite (tbind_run _ _ _ _ _ (bread_run (blkno * sectors w) (m_bsize (f_sb w)) w1 H0)). cbv beta iota.
  set (w2 := upd_f_calls S w1). set (bytes := _ <$> _).
  assert (f_bufs w2 !! n = Some b1) as Hn2 by (cbn; rewrite Hb; apply list_lookup_insert_eq; by eapply lookup_lt_Some).
  rewrite (upd_cached n _ b1 w2 Hn2). set (b2 := mk_bufarea _ _ _ _ _ _). exists b2. eexists. split; [reflexivity|].
  pose proof Hok1 as []. assert (sectors w1 = sectors w) as Es by (unfold sectors; by rewrite Hsb1).
  assert (m_bsize (f_sb w) = DEV_BSIZE * sectors w) as Hbs by apply Hok. rewrite Es in *.
  destruct (bufs_ok_load (sectors w) (f_writable w1) (f_dev w1) (f_bufs w1) n b1 b2 blkno) as [Hok2 Hv2]; try done.
  - intros m c Hm. rewrite Hb in Hm. apply insert_cases in Hm as [[-> ->]|[_ Hm]]; [rewrite Eb|]; by eapply Hnone.
  - cbn. unfold bytes. rewrite read_len; [done|unfold DEV_BSIZE in *; lia].
  - intros x [_ Hx]%covers_inv. unfold byte_of. cbn in *. apply read_byte. lia.
  - split; [|split; [done|split; [|done]]].
    + constructor; [|intros x; rewrite <- Hv1; unfold view, sectors in *; cbn; rewrite Hsb1; apply Hv2|done|done].
      constructor; unfold sectors in *; cbn; rewrite ?Hsb1 in *; [done..|exact Hok2|].
      intros m. by rewrite length_insert, co_lru0.
    + cbn. apply list_lookup_insert_eq. rewrite Hb, length_insert. by eapply lookup_lt_Some.
Qed.

(** Marked as used and moved to the front. *)
Lemma use_buf_spec n b w :
  cache_ok w -> f_bufs w !! n = Some b -> 0 <= b_bno b ->
  exists w', use_buf n w = Ok (Done n, w') /\ same_volume w w' /\
    f_bufs w' = <[n := upd_b_inuse (fun _ => true) b]> (f_bufs w).
Proof.
  intros Hok Hn H0. pose proof Hok as []. unfold use_buf. rewrite (tbind_run _ _ w tt (upd_f_lru (touch n) w)) by done.
  rewrite (tbind_run _ _ _ _ _ (upd_cached n _ b (upd_f_lru (touch n) w) Hn)). eexists. split; [reflexivity|]. split; [|done].
  destruct (bufs_ok_same (sectors w) (f_writable w) (f_dev w) (f_dev w) (f_bufs w) n b (upd_b_inuse (fun _ => true) b))
    as [Hok' Hv']; try done; [intros Hd x Hx; by eapply bk_clean|].
  constructor; [|exact Hv'|done|done]. constructor; try done. intros m. cbn. rewrite length_insert, <- co_lru0.
  unfold touch. rewrite elem_of_cons, list_elem_of_filter.
  destruct (decide (m = n)) as [->|Hne]; [|naive_solver]. split; [|by left]. intros _. apply co_lru0. by eapply lookup_lt_Some.
Qed.

(** Every byte of the block of a buffer is the one that is seen. *)
Lemma view_buf w n b x :
  cache_ok w -> f_bufs w !! n = Some b -> covers (sectors w) b x = true -> byte_of b x = Some (view w x).
Proof.
  intros [] Hn Hc. destruct (byte_of_some _ _ _ _ _ _ x co_bufs0 Hn Hc) as [v Hv]. rewrite Hv. f_equal. symmetry.
  apply (view_sees _ _ _ _ _ v co_bufs0). left. eauto.
Qed.

(** ** The theorems *)

(** The blocks the buffers of the pool hold, by index. *)
Definition holds_block (w : fsck_state) (n : nat) (blkno : Z) : Prop :=
  exists b, f_bufs w !! n = Some b /\ b_bno b = blkno * sectors w /\ b_inuse b = true /\
    forall i, 0 <= i < m_bsize (f_sb w) -> b_buf b !z i = Some (view w (blkno * m_bsize (f_sb w) + i)).

Lemma use_found n b blkno w :
  cache_ok w -> blkno_ok w blkno -> f_bufs w !! n = Some b -> b_bno b = blkno * sectors w ->
  exists w', use_buf n w = Ok (Done n, w') /\ same_volume w w' /\ holds_block w' n blkno.
Proof.
  intros Hok [H0 _] Hn Eb. pose proof (sectors_pos w Hok). assert (0 <= b_bno b) as Hb0 by nia.
  destruct (use_buf_spec n b w Hok Hn Hb0) as (w' & Hr & Hsv & Hbufs). exists w'. split; [done|]. split; [done|].
  pose proof Hsv as [Hok' Hv Hsb _]. assert (sectors w' = sectors w) as Es by (unfold sectors; by rewrite Hsb).
  assert (f_bufs w' !! n = Some (upd_b_inuse (fun _ => true) b)) as Hn'.
  { rewrite Hbufs. apply list_lookup_insert_eq. by eapply lookup_lt_Some. }
  exists (upd_b_inuse (fun _ => true) b). rewrite Es. split; [done|]. split; [done|]. split; [done|]. intros i Hi.
  assert (m_bsize (f_sb w') = DEV_BSIZE * sectors w) as Hbs by (rewrite Hsb; apply Hok).
  pose proof (view_buf w' n _ (blkno * m_bsize (f_sb w') + i) Hok' Hn') as Hview. rewrite <- Hview.
  - unfold byte_of. cbn. f_equal. rewrite Eb, Hbs. lia.
  - rewrite Es. apply covers_inv. cbn. rewrite Eb, Hbs in *. split; [nia|]. lia.
Qed.

(** C6: [getdatablk] on a device without errors: the answer is a buffer marked as
    used that holds the block asked for, with the bytes that are seen there,
    whether it had them, or read them into a buffer whose own block was written
    back before; the volume looks the same as before. The check ends only when
    every buffer is in use. *)
Theorem getdatablk_spec blkno w :
  cache_ok w -> blkno_ok w blkno ->
  twp (getdatablk o blkno (m_bsize (f_sb w)))
    (fun n w' => same_volume w w' /\ holds_block w' n blkno)
    (fun w' => w' = w /\ forall n b, f_bufs w !! n = Some b -> b_inuse b = true) w.
Proof.
  intros Hok Hbn. pose proof Hok as []. unfold getdatablk. twp_steps. rewrite (fsbtodb_sectors w blkno Hok Hbn).
  pose proof (find_first_spec (holds (blkno * sectors w) (f_bufs w)) (f_lru w)) as Hf.
  destruct (find_first (holds _ _) _) as [n|].
  - destruct Hf as [_ Hh]. unfold holds in Hh. destruct (f_bufs w !! n) as [b|] eqn:Hn; [|done]. apply Z.eqb_eq in Hh.
    destruct (use_found n b blkno w Hok Hbn Hn Hh) as (w' & Hr & Hsv & Hhb). by eapply twp_of_run.
  - assert (forall m c, f_bufs w !! m = Some c -> b_bno c <> blkno * sectors w) as Hnone.
    { intros m c Hm Hc. assert (m ∈ f_lru w) as Hin by (apply co_lru0; by eapply lookup_lt_Some).
      specialize (Hf m Hin). unfold holds in Hf. rewrite Hm in Hf. by apply Z.eqb_neq in Hf. }
    pose proof (find_first_spec (is_free (f_bufs w)) (reverse (f_lru w))) as Hff.
    destruct (find_first (is_free _) _) as [n|].
    + destruct Hff as [_ Hfree]. unfold is_free in Hfree. destruct (f_bufs w !! n) as [b|] eqn:Hn; [|done].
      destruct (getblk_spec n b blkno w Hok Hbn Hn Hnone) as (b' & w1 & Hr & Hsv & _ & Hn1 & Eb).
      twp_steps. eapply twp_of_run; [exact Hr|]. pose proof Hsv as [Hok1 _ Hsb _].
      assert (sectors w1 = sectors w) as Es by (unfold sectors; by rewrite Hsb).
      destruct (use_found n b' blkno w1) as (w2 & Hr2 & Hsv2 & Hhb); [done|unfold blkno_ok; by rewrite Es|done|by rewrite Es|].
      eapply twp_of_run; [done|]. split; [by eapply same_volume_trans|done].
    + apply twp_errx. split; [done|]. intros n b Hn.
      assert (n ∈ reverse (f_lru w)) as Hin by (apply elem_of_reverse, co_lru0; by eapply lookup_lt_Some).
      specialize (Hff n Hin). unfold is_free in Hff. rewrite Hn in Hff. by apply negb_false_iff in Hff.
Qed.

Lemma flush_all_spec l : forall w,
  cache_ok w -> (forall n, n ∈ l -> (n < length (f_bufs w))%nat) ->
  exists w', flush_all o l w = Ok (Done tt, w') /\ same_volume w w' /\ length (f_bufs w') = length (f_bufs w) /\
    (forall n b, n ∈ l -> f_bufs w' !! n = Some b -> b_dirty b = false) /\
    (forall n, (forall b, f_bufs w !! n = Some b -> b_dirty b = false) -> forall b, f_bufs w' !! n = Some b -> b_dirty b = false).
Proof.
  induction l as [|n l IH]; intros w Hok Hl; cbn [flush_all].
  { exists w. split; [done|]. split; [done|]. split; [done|]. split; [by intros ? ? ?%elem_of_nil|auto]. }
  destruct (lookup_lt_is_Some_2 (f_bufs w) n) as [b Hn]; [apply Hl; by left|].
  destruct (flush_spec n b w Hok Hn) as (b1 & w1 & Hf & Hsv & _ & Hb & _ & _ & Ed).
  assert (length (f_bufs w1) = length (f_bufs w)) as Hlen by (by rewrite Hb, length_insert).
  destruct (IH w1) as (w2 & Hr & Hsv2 & Hlen2 & Hcl & Hkeep); [apply Hsv|intros m Hm; rewrite Hlen; apply Hl; by right|].
  assert (forall c, f_bufs w1 !! n = Some c -> b_dirty c = false) as Hn1.
  { intros c Hc. rewrite Hb in Hc. by apply insert_cases in Hc as [[_ ->]|[? _]]. }
  exists w2. rewrite (tbind_run _ _ _ _ _ Hf). split; [done|]. split; [by eapply same_volume_trans|]. split; [congruence|]. split.
  - intros m c [->|Hm]%elem_of_cons Hc; [by eapply Hkeep|by eapply Hcl].
  - intros m Hm. apply Hkeep. intros c Hc. rewrite Hb in Hc. apply insert_cases in Hc as [[_ ->]|[_ Hc]]; auto.
Qed.

(** C7: what is stored into a buffer of the pool and marked as dirty is on the
    device after the buffers are written at the end of the check: the bytes of
    its block are the new ones, all others those that were seen before. *)
Theorem writeback n b new w :
  cache_ok w -> f_writable w = true -> f_bufs w !! n = Some b -> 0 <= b_bno b -> zlen new = m_bsize (f_sb w) ->
  exists w', (_ ← put_buf n new; _ ← dirty (Cached n); lru ← tgets f_lru; flush_all o (reverse lru)) w = Ok (Done tt, w') /\
    cache_ok w' /\
    (forall i, 0 <= i < m_bsize (f_sb w) -> new !z i = Some (f_dev w' (b_bno b * DEV_BSIZE + i))) /\
    (forall x, ~ (b_bno b * DEV_BSIZE <= x < b_bno b * DEV_BSIZE + m_bsize (f_sb w)) -> f_dev w' x = view w x).
Proof.
  intros Hok Hw Hn H0 Hz. pose proof Hok as []. rewrite Hw in co_bufs0.
  set (b1 := upd_b_buf (fun _ => new) b). set (b2 := upd_b_dirty (fun _ => true) b1).
  set (w1 := upd_f_bufs (<[n := b1]>) w). set (w2 := upd_f_bufs (<[n := b2]>) w1).
  assert (n < length (f_bufs w))%nat as Hlt by (by eapply lookup_lt_Some).
  assert (f_bufs w1 !! n = Some b1) as Hn1 by (by apply list_lookup_insert_eq).
  assert (f_bufs w2 = <[n := b2]> (f_bufs w)) as Hb2 by (cbn; by rewrite list_insert_insert_eq).
  unfold put_buf. rewrite (tbind_run _ _ _ _ _ (upd_cached n _ b w Hn)). fold b1 w1.
  unfold dirty. rewrite (tbind_run _ _ _ _ _ (upd_cached n _ b1 w1 Hn1)). fold b2 w2.
  destruct (bufs_ok_store (sectors w) (f_dev w) (f_bufs w) n b b2) as [Hok2 Hv2]; try done; [cbn; by rewrite Hz|].
  assert (cache_ok w2) as Hc2.
  { constructor; [done|done| |intros m; rewrite Hb2, length_insert; apply co_lru0].
    change (f_writable w2) with (f_writable w). rewrite Hw, Hb2. exact Hok2. }
  rewrite (tbind_run _ _ w2 (f_lru w2) w2) by done.
  destruct (flush_all_spec (reverse (f_lru w2)) w2 Hc2) as (w3 & Hr & [Hok3 Hv3 Hsb3 _] & Hlen & Hcl & _).
  { intros m Hm. apply (proj1 (co_lru w2 Hc2 m)), elem_of_reverse, Hm. }
  exists w3. split; [done|]. split; [done|].
  assert (forall x, f_dev w3 x = if covers (sectors w) b x then default 0 (byte_of b2 x) else view w x) as Hdev.
  { intros x. rewrite <- Hv2, <- Hb2. change (f_dev w3 x = view w2 x). rewrite <- Hv3. symmetry.
    eapply view_clean; [apply Hok3|]. intros m c Hm. eapply (Hcl m c); [|done].
    apply elem_of_reverse, (co_lru w2 Hc2). rewrite <- Hlen. by eapply lookup_lt_Some. }
  rewrite co_bsize0 in *. split.
  - intros i Hi. rewrite Hdev. rewrite (proj2 (covers_inv (sectors w) b _)) by lia. unfold byte_of. cbn.
    replace (b_bno b * DEV_BSIZE + i - b_bno b * DEV_BSIZE) with i by lia.
    destruct (zlookup_lt new i) as [v Hv]; [lia|]. by rewrite Hv.
  - intros x Hx. rewrite Hdev. destruct (covers (sectors w) b x) eqn:Hc; [|done]. apply covers_inv in Hc. lia.
Qed.

End cache.
