(* ===== verification/FsckMaps.v ===== *)
(** fsck_ext2fs: what pass 5 computes for a group from the maps of the earlier
    passes, and that it looks behind the block map when the last group is
    short. *)
From stdpp Require Import gmap.
From S2P Require Import Prelude Tool Bitmap Bytes Super Kernel InodeCnv Dir Mount Newfs Fsck FsckInode FsckDir FsckPass FsckSetup FsckSpec FsckInodeSpec.

(** * Counting *)

(** How many of [n] numbers from [a] on satisfy [f]. *)
Fixpoint count (f : Z -> bool) (a : Z) (n : nat) : Z :=
  match n with O => 0 | S n' => (if f a then 1 else 0) + count f (a + 1) n' end.

Lemma count_ext f g a b n :
  (forall k, 0 <= k < Z.of_nat n -> f (a + k) = g (b + k)) -> count f a n = count g b n.
Proof.
  revert a b. induction n as [|n IH]; intros a b H; simpl; [done|]. rewrite (IH (a + 1) (b + 1)).
  - specialize (H 0). rewrite !Z.add_0_r in H. by rewrite H by lia.
  - intros k Hk. replace (a + 1 + k) with (a + (1 + k)) by lia. replace (b + 1 + k) with (b + (1 + k)) by lia.
    apply H. lia.
Qed.

Lemma count_snoc f a n : count f a (S n) = count f a n + (if f (a + Z.of_nat n) then 1 else 0).
Proof.
  revert a. induction n as [|n IH]; intros a.
  - cbn [count]. replace (a + Z.of_nat 0) with a by lia. lia.
  - change (count f a (S (S n))) with ((if f a then 1 else 0) + count f (a + 1) (S n)). rewrite IH. cbn [count].
    replace (a + 1 + Z.of_nat n) with (a + Z.of_nat (S n)) by lia. lia.
Qed.

Lemma count_range f a n : 0 <= count f a n <= Z.of_nat n.
Proof. revert a. induction n as [|n IH]; intros a; simpl; [lia|]. specialize (IH (a + 1)). case_match; lia. Qed.

Lemma count_clear_count bs n : count_clear bs n = Z.of_nat n - count (bit bs) 0 n.
Proof. induction n as [|n IH]; [done|]. rewrite count_snoc, Z.add_0_l. cbn [count_clear]. rewrite IH. destruct (bit bs (Z.of_nat n)); lia. Qed.

Lemma bit_replicate_0 n j : bit (replicate n 0) j = false.
Proof.
  unfold bit. destruct (replicate n 0 !z (j / NBBY)) as [b|] eqn:E; [|done].
  apply zlookup_Some_inv in E as [_ [-> _]%lookup_replicate]. apply Z.bits_0.
Qed.

Lemma bit_fill_unused ipg m p :
  0 <= ipg -> 0 <= p < 8 * zlen m -> bit (fill_unused ipg m) p = (8 * (ipg / 8) <=? p) || bit m p.
Proof.
  intros Hi Hp. unfold fill_unused, bit, NBBY. set (k := Z.to_nat (ipg / 8)).
  assert (0 <= ipg / 8) by (apply Z.div_pos; lia).
  assert (0 <= p / 8 < zlen m) as Hd by (apply (div_NBBY_range p); lia). unfold zlen in Hd.
  rewrite !zlookup_nonneg by lia.
  destruct (Z.leb_spec (8 * (ipg / 8)) p) as [Hle|Hlt]; cbn [orb].
  - assert (ipg / 8 <= p / 8) by (Z.div_mod_to_equations; lia).
    rewrite lookup_app_r by (rewrite length_take; lia). rewrite lookup_replicate_2 by (rewrite length_take; lia).
    assert (0 <= p mod 8 < 8) as Hm by (apply Z.mod_pos_bound; lia).
    change 0xff with (Z.ones 8). apply Z.ones_spec_low. lia.
  - assert (p / 8 < ipg / 8) by (Z.div_mod_to_equations; lia).
    rewrite lookup_app_l by (rewrite length_take; lia). by rewrite lookup_take_lt by lia.
Qed.

Lemma zlen_fill_unused ipg m : 0 <= ipg <= 8 * zlen m -> zlen (fill_unused ipg m) = zlen m.
Proof.
  intros Hi. unfold fill_unused, zlen in *. rewrite length_app, length_take, length_replicate. unfold NBBY.
  assert (ipg / 8 <= Z.of_nat (length m)) by (Z.div_mod_to_equations; lia). lia.
Qed.

(** * What the earlier passes found *)

Section maps.
Context (w : fsck_state).

Definition reserved_ino (j : Z) : bool := (j <? EXT2_FIRSTINO) && negb (j =? EXT2_ROOTINO).
Definition ino_state (j : Z) : Z := default 0 (f_statemap w !z j).
Definition ino_used (j : Z) : bool :=
  reserved_ino j || (j >? e2fs_icount (sb_of w)) || negb (ino_state j =? USTATE).
Definition ino_dir (j : Z) : bool :=
  negb (reserved_ino j || (j >? e2fs_icount (sb_of w))) &&
  ((ino_state j =? DSTATE) || (ino_state j =? DCLEAR) || (ino_state j =? DFOUND)).
Definition blk_used (d : Z) : bool := bit (f_blockmap w) d || (d >=? e2fs_bcount (sb_of w)).

(** Inodes behind the last one are marked, but not taken off the free count. *)
Definition ino_counted (j : Z) : bool :=
  reserved_ino j || (negb (j >? e2fs_icount (sb_of w)) && negb (ino_state j =? USTATE)).

(** Pass 1 gave the inode a state. *)
Definition ino_known (j : Z) : Prop :=
  reserved_ino j = true \/ e2fs_icount (sb_of w) < j \/
  exists st, f_statemap w !z j = Some st /\ USTATE <= st <= FCLEAR.

(** ** The loops *)

(** Position [i] and the positions behind it. *)
Lemma range_split (f : Z -> bool) d i n p :
  (i <=? p) && (p <? i + Z.of_nat (S n)) && f (d + (p - i)) =
  (p =? i) && f d || (i + 1 <=? p) && (p <? i + 1 + Z.of_nat n) && f (d + 1 + (p - (i + 1))).
Proof.
  replace (d + 1 + (p - (i + 1))) with (d + (p - i)) by lia. destruct (Z.eqb_spec p i) as [->|Hne].
  - replace (d + (i - i)) with d by lia. rewrite (proj2 (Z.leb_le i i)), (proj2 (Z.ltb_lt i (i + Z.of_nat (S n)))) by lia.
    rewrite (proj2 (Z.leb_gt (i + 1) i)) by lia. cbn. by rewrite orb_false_r.
  - cbn. f_equal. bool_cases.
Qed.

Lemma block_map_spec n : forall d i m nb,
  0 <= d -> d + Z.of_nat n <= 8 * zlen (f_blockmap w) -> d + Z.of_nat n <= 2 ^ 32 ->
  0 <= i -> i + Z.of_nat n <= 8 * zlen m -> u32_ok nb ->
  exists m', block_map d i n m nb w = Ok (Done (m', u32 (nb + Z.of_nat n - count blk_used d n)), w) /\ zlen m' = zlen m /\
    (forall p, 0 <= p -> bit m' p = (i <=? p) && (p <? i + Z.of_nat n) && blk_used (d + (p - i)) || bit m p).
Proof.
  induction n as [|n IH]; intros d i m nb Hd Hmap Hmax Hi Hm Hnb; cbn [block_map].
  { exists m. cbn [count]. rewrite Z.add_0_r, Z.sub_0_r, u32_id by done. split; [done|]. split; [done|].
    intros p Hp. destruct (Z.leb_spec i p), (Z.ltb_spec p (i + Z.of_nat 0)); done || lia. }
  unfold mbind at 1, Tool_bind at 1, tgets. rewrite (tbind_run _ _ _ _ _ (testbmap_ok d w ltac:(lia))).
  rewrite (u32_id d) by (unfold u32_ok; lia). fold (blk_used d). cbn [count].
  destruct (blk_used d) eqn:Eu.
  - destruct (setbit_ok m i) as (m1 & Hs & Hl1 & Hb1); [lia|].
    rewrite (tbind_run _ _ _ _ _ (tlift_ok _ _ w Hs)).
    destruct (IH (d + 1) (i + 1) m1 nb) as (m' & Hr & Hl & Hb); [lia..|done|].
    exists m'. rewrite Hr. split.
    { by replace (nb + Z.of_nat (S n) - (1 + count blk_used (d + 1) n)) with (nb + Z.of_nat n - count blk_used (d + 1) n) by lia. }
    split; [lia|]. intros p Hp.
    rewrite Hb, range_split, Eu, Hb1 by done. rewrite andb_true_r. by destruct (p =? i), (_ && _ && _).
  - destruct (IH (d + 1) (i + 1) m (u32 (nb + 1))) as (m' & Hr & Hl & Hb); [lia..| |].
    { apply u32_range. }
    exists m'. rewrite Hr. split; [|].
    { unfold u32. rewrite <- (Z.add_sub_assoc ((nb + 1) mod 2 ^ 32)), Zplus_mod_idemp_l.
      by replace (nb + Z.of_nat (S n) - (0 + count blk_used (d + 1) n)) with (nb + 1 + (Z.of_nat n - count blk_used (d + 1) n)) by lia. }
    split; [lia|]. intros p Hp. rewrite Hb, range_split, Eu by done. by rewrite andb_false_r.
Qed.

(** One inode: what it does to the map and the counts. *)
Lemma inode_map_step j i n m nf nd :
  0 <= i < 8 * zlen m -> ino_known j ->
  exists m', inode_map j i (S n) m nf nd w =
      inode_map (j + 1) (i + 1) n m' (if ino_counted j then u32 (nf - 1) else nf) (if ino_dir j then u32 (nd + 1) else nd) w /\
    zlen m' = zlen m /\ forall p, 0 <= p -> bit m' p = (p =? i) && ino_used j || bit m p.
Proof.
  intros Hi Hk. cbn [inode_map]. unfold mbind at 1, Tool_bind at 1, tgets.
  destruct (setbit_ok m i Hi) as (m1 & Hs & Hl1 & Hb1).
  assert (forall A (k : list Z -> FK A), (m ← tlift (setbit m i); k m) w = k m1 w) as Hset.
  { intros A k. by rewrite (tbind_run _ _ _ _ _ (tlift_ok _ _ w Hs)). }
  unfold ino_counted, ino_dir, ino_used. fold (reserved_ino j).
  destruct (reserved_ino j) eqn:Er; cbn [orb negb andb].
  { exists m1. rewrite Hset. split; [done|]. split; [done|]. intros p Hp. rewrite Hb1 by done. by rewrite andb_true_r. }
  destruct (j >? e2fs_icount (sb_of w)) eqn:Ei; cbn [orb negb andb].
  { exists m1. rewrite Hset. split; [done|]. split; [done|]. intros p Hp. rewrite Hb1 by done. by rewrite andb_true_r. }
  destruct Hk as [Hk|[Hk|(st & Hst & Hr)]]; [congruence|lia|].
  assert (statemap j w = Ok (Done st, w)) as Hrun.
  { unfold statemap, mbind, Tool_bind, tgets, tlift. by rewrite Hst. }
  rewrite (tbind_run _ _ _ _ _ Hrun). unfold ino_state. rewrite Hst. cbn [default from_option id].
  unfold USTATE, FSTATE, DSTATE, DFOUND, DCLEAR, FCLEAR in *.
  assert (st = 1 \/ st = 2 \/ st = 3 \/ st = 4 \/ st = 5 \/ st = 6) as Hcases by lia.
  destruct Hcases as [-> |[-> |[-> |[-> |[-> | ->]]]]]; cbn [Z.eqb Pos.eqb orb negb andb];
    [exists m; split; [done|]; split; [done|]; intros p Hp; by rewrite andb_false_r|..];
    exists m1; rewrite Hset; (split; [done|]); (split; [done|]); intros p Hp; rewrite Hb1 by done; by rewrite andb_true_r.
Qed.

Lemma inode_map_spec n : forall j i m nf nd,
  0 <= i -> i + Z.of_nat n <= 8 * zlen m -> u32_ok nf -> u32_ok nd ->
  (forall k, 0 <= k < Z.of_nat n -> ino_known (j + k)) ->
  exists m', inode_map j i n m nf nd w =
      Ok (Done (m', u32 (nf - count ino_counted j n), u32 (nd + count ino_dir j n)), w) /\ zlen m' = zlen m /\
    (forall p, 0 <= p -> bit m' p = (i <=? p) && (p <? i + Z.of_nat n) && ino_used (j + (p - i)) || bit m p).
Proof.
  induction n as [|n IH]; intros j i m nf nd Hi Hm Hnf Hnd Hk.
  { exists m. cbn [inode_map count]. rewrite Z.sub_0_r, Z.add_0_r, !u32_id by done. split; [done|]. split; [done|].
    intros p Hp. destruct (Z.leb_spec i p), (Z.ltb_spec p (i + Z.of_nat 0)); done || lia. }
  destruct (inode_map_step j i n m nf nd) as (m1 & Hr1 & Hl1 & Hb1).
  { lia. } { specialize (Hk 0 ltac:(lia)). by rewrite Z.add_0_r in Hk. }
  destruct (IH (j + 1) (i + 1) m1 (if ino_counted j then u32 (nf - 1) else nf) (if ino_dir j then u32 (nd + 1) else nd))
    as (m' & Hr & Hl & Hb).
  { lia. } { lia. } { destruct (ino_counted j); [apply u32_range|done]. } { destruct (ino_dir j); [apply u32_range|done]. }
  { intros k Hkr. replace (j + 1 + k) with (j + (1 + k)) by lia. apply Hk. lia. }
  exists m'. rewrite Hr1, Hr. split; [|split; [lia|]].
  - cbn [count]. set (c := count ino_counted _ _). set (e := count ino_dir _ _).
    assert (u32 ((if ino_counted j then u32 (nf - 1) else nf) - c) = u32 (nf - ((if ino_counted j then 1 else 0) + c))) as ->.
    { destruct (ino_counted j); [|f_equal; lia]. unfold u32. rewrite Zminus_mod_idemp_l. f_equal. lia. }
    assert (u32 ((if ino_dir j then u32 (nd + 1) else nd) + e) = u32 (nd + ((if ino_dir j then 1 else 0) + e))) as ->.
    { destruct (ino_dir j); [|f_equal; lia]. unfold u32. rewrite Zplus_mod_idemp_l. f_equal. lia. }
    done.
  - intros p Hp. rewrite Hb, range_split, Hb1 by done. by destruct (p =? i), (ino_used j), (_ && _ && _), (bit m p).
Qed.

(** ** A group *)

Local Notation fs := (f_sb w).
Local Notation es := (sb_of w).

(** Group [c] of a volume whose inodes fill its groups, with the maps pass 1
    left. *)
Record pass5_ready (c : Z) : Prop := mk_pass5_ready {
  pr_cg : 0 <= c;
  pr_ipg : 0 < e2fs_ipg es <= 8 * m_bsize fs;
  pr_ipg8 : e2fs_ipg es mod 8 = 0;
  pr_icount : e2fs_ipg es * (c + 1) <= e2fs_icount es < 2 ^ 32 - 1;
  pr_bpg : 0 < e2fs_bpg es <= 8 * m_bsize fs;
  pr_first : 0 <= e2fs_first_dblock es;
  pr_end : (c + 1) * e2fs_bpg es + e2fs_first_dblock es < 2 ^ 31;
  pr_known : forall k, 0 <= k < e2fs_ipg es -> ino_known (e2fs_ipg es * c + 1 + k)
}.

Definition first_block_of (c : Z) : Z := c * e2fs_bpg es + e2fs_first_dblock es.
Definition first_ino_of (c : Z) : Z := e2fs_ipg es * c + 1.

Lemma cg_dbase_eq c c' : pass5_ready c -> 0 <= c' <= c + 1 -> cg_dbase fs c' = first_block_of c'.
Proof.
  intros [] Hc. unfold cg_dbase. fold es. unfold first_block_of.
  assert (0 <= c' * e2fs_bpg es + e2fs_first_dblock es < 2 ^ 31) by nia.
  rewrite u32_id by (unfold u32_ok; lia). rewrite s32_id by (unfold s32_ok; lia). done.
Qed.

Lemma ino_counted_used c k :
  pass5_ready c -> 0 <= k < e2fs_ipg es -> ino_counted (first_ino_of c + k) = ino_used (first_ino_of c + k).
Proof.
  intros [] Hk. unfold ino_counted, ino_used, first_ino_of.
  assert (e2fs_ipg es * c + 1 + k >? e2fs_icount es = false) as ->; [|by rewrite orb_false_r]. nia.
Qed.

(** The inode half of [compute_maps]. *)
Lemma inode_half c :
  pass5_ready c ->
  exists m, inode_map (u32 (u32 (e2fs_ipg es * c) + 1)) 0 (Z.to_nat (e2fs_ipg es)) (replicate (Z.to_nat (m_bsize fs)) 0)
      (e2fs_ipg es) 0 w =
    Ok (Done (m, count_clear (fill_unused (e2fs_ipg es) m) (Z.to_nat (e2fs_ipg es)),
              count ino_dir (first_ino_of c) (Z.to_nat (e2fs_ipg es))), w) /\
    zlen m = m_bsize fs /\
    (forall i, 0 <= i < e2fs_ipg es -> bit (fill_unused (e2fs_ipg es) m) i = ino_used (first_ino_of c + i)) /\
    (forall i, e2fs_ipg es <= i < 8 * m_bsize fs -> bit (fill_unused (e2fs_ipg es) m) i = true).
Proof.
  intros Hp. pose proof Hp as []. set (ipg := e2fs_ipg es) in *.
  assert (u32 (u32 (ipg * c) + 1) = first_ino_of c) as ->.
  { unfold first_ino_of. fold ipg. rewrite (u32_id (ipg * c)) by (unfold u32_ok; nia). apply u32_id. unfold u32_ok. nia. }
  assert (zlen (replicate (Z.to_nat (m_bsize fs)) 0) = m_bsize fs) as Hz by (unfold zlen; rewrite length_replicate; lia).
  destruct (inode_map_spec (Z.to_nat ipg) (first_ino_of c) 0 (replicate (Z.to_nat (m_bsize fs)) 0) ipg 0)
    as (m & Hr & Hl & Hb); [lia|lia|unfold u32_ok; nia|unfold u32_ok; lia| |].
  { intros k Hk. apply pr_known0. lia. }
  assert (forall i, 0 <= i < ipg -> bit m i = ino_used (first_ino_of c + i)) as Hbit.
  { intros i Hi. rewrite Hb, bit_replicate_0, orb_false_r, Z.sub_0_r by lia.
    rewrite (proj2 (Z.leb_le 0 i)), (proj2 (Z.ltb_lt i _)) by lia. done. }
  assert (8 * (ipg / 8) = ipg) as H8 by (Z.div_mod_to_equations; lia).
  assert (forall i, 0 <= i < ipg -> bit (fill_unused ipg m) i = ino_used (first_ino_of c + i)) as Hfill.
  { intros i Hi. rewrite bit_fill_unused by lia. rewrite H8, (proj2 (Z.leb_gt ipg i)) by lia. by apply Hbit. }
  exists m. split; [|split; [lia|split; [done|]]].
  - rewrite Hr. pose proof (count_range ino_dir (first_ino_of c) (Z.to_nat ipg)).
    rewrite (u32_id (0 + _)) by (unfold u32_ok; lia). rewrite Z.add_0_l.
    rewrite count_clear_count, Z2Nat.id by lia.
    rewrite (count_ext (bit (fill_unused ipg m)) ino_counted 0 (first_ino_of c)).
    { pose proof (count_range ino_counted (first_ino_of c) (Z.to_nat ipg)). rewrite u32_id by (unfold u32_ok; nia). done. }
    intros k Hk. rewrite Z.add_0_l, Hfill by lia. symmetry. apply ino_counted_used; [done|lia].
  - intros i Hi. rewrite bit_fill_unused by lia. rewrite H8, (proj2 (Z.leb_le ipg i)) by lia. done.
Qed.

(** The block map of the earlier passes, read behind its end. *)
Lemma block_map_oob n : forall d i m nb,
  0 <= d <= 8 * zlen (f_blockmap w) -> 8 * zlen (f_blockmap w) < d + Z.of_nat n -> d + Z.of_nat n <= 2 ^ 32 ->
  0 <= i -> i + Z.of_nat n <= 8 * zlen m ->
  block_map d i n m nb w = Fault OutOfBounds.
Proof.
  induction n as [|n IH]; intros d i m nb Hd Hlt Hmax Hi Hm; [lia|]. cbn [block_map].
  unfold mbind at 1, Tool_bind at 1, tgets. destruct (Z.eq_dec d (8 * zlen (f_blockmap w))) as [E|E].
  - apply tbind_fault. unfold testbmap, mbind, Tool_bind, tgets, tlift, isset.
    rewrite (proj2 (Z.ltb_ge d 0)) by lia. unfold byte_at, zlookup.
    assert (d / NBBY = zlen (f_blockmap w)) as -> by (rewrite E; unfold NBBY; Z.div_mod_to_equations; lia).
    rewrite (proj2 (Z.ltb_ge (zlen (f_blockmap w)) 0)) by (unfold zlen; lia).
    by rewrite lookup_ge_None_2 by (unfold zlen; lia).
  - rewrite (tbind_run _ _ _ _ _ (testbmap_ok d w ltac:(lia))). case_match; [|apply IH; lia].
    destruct (setbit_ok m i) as (m1 & Hs & Hl1 & _); [lia|].
    rewrite (tbind_run _ _ _ _ _ (tlift_ok _ _ w Hs)). apply IH; lia.
Qed.

(** C4: what pass 5 computes for a group whose blocks the block map covers: a
    block bitmap that marks the blocks pass 1 found an owner for and those
    behind the end of the volume; an inode bitmap that marks the reserved inodes
    and those with a state, and all that follows the last one; and counts that
    are the clear bits of the two and the directories of the group. *)
Theorem compute_maps_spec c :
  pass5_ready c -> first_block_of (c + 1) <= 8 * zlen (f_blockmap w) ->
  exists g, compute_maps c w = Ok (Done g, w) /\
    zlen (g_bbmap g) = m_bsize fs /\ zlen (g_ibmap g) = m_bsize fs /\
    (forall i, 0 <= i < e2fs_bpg es -> bit (g_bbmap g) i = blk_used (first_block_of c + i)) /\
    (forall i, e2fs_bpg es <= i -> bit (g_bbmap g) i = false) /\
    g_nbfree g = count_clear (g_bbmap g) (Z.to_nat (e2fs_bpg es)) /\
    (forall i, 0 <= i < e2fs_ipg es -> bit (g_ibmap g) i = ino_used (first_ino_of c + i)) /\
    (forall i, e2fs_ipg es <= i < 8 * m_bsize fs -> bit (g_ibmap g) i = true) /\
    g_nifree g = count_clear (g_ibmap g) (Z.to_nat (e2fs_ipg es)) /\
    g_ndirs g = count ino_dir (first_ino_of c) (Z.to_nat (e2fs_ipg es)).
Proof.
  intros Hp Hmap. pose proof Hp as []. destruct (inode_half c Hp) as (im & Hi & Hil & Hib & Hit).
  unfold compute_maps. unfold mbind at 1, Tool_bind at 1, tgets. cbv zeta. fold es. rewrite (tbind_run _ _ _ _ _ Hi). cbv beta iota.
  rewrite !(cg_dbase_eq c) by (done || lia).
  set (dn := Z.to_nat (first_block_of (c + 1) - first_block_of c)).
  assert (Z.of_nat dn = e2fs_bpg es) as Hdn by (subst dn; unfold first_block_of; lia).
  assert (zlen (replicate (Z.to_nat (m_bsize fs)) 0) = m_bsize fs) as Hz by (unfold zlen; rewrite length_replicate; lia).
  assert (0 <= first_block_of c /\ first_block_of c + e2fs_bpg es = first_block_of (c + 1) /\ first_block_of (c + 1) < 2 ^ 31)
    as (Hf1 & Hf2 & Hf3) by (unfold first_block_of; split; [nia|split; [nia|done]]).
  destruct (block_map_spec dn (first_block_of c) 0 (replicate (Z.to_nat (m_bsize fs)) 0) 0) as (bm & Hr & Hl & Hb);
    [lia|lia|lia|lia|lia|unfold u32_ok; lia|].
  rewrite (tbind_run _ _ _ _ _ Hr). eexists. split; [reflexivity|]. cbn [g_bbmap g_ibmap g_nbfree g_nifree g_ndirs].
  assert (forall i, 0 <= i < e2fs_bpg es -> bit bm i = blk_used (first_block_of c + i)) as Hbit.
  { intros i Hir. rewrite Hb, bit_replicate_0, orb_false_r, Z.sub_0_r by lia.
    rewrite (proj2 (Z.leb_le 0 i)), (proj2 (Z.ltb_lt i _)) by lia. done. }
  split; [lia|]. split; [rewrite zlen_fill_unused; lia|]. split; [done|]. split; [|split; [|done]].
  - intros i Hir. rewrite Hb, bit_replicate_0 by lia. rewrite (proj2 (Z.ltb_ge i _)) by lia. by rewrite andb_false_r.
  - rewrite count_clear_count. replace (Z.to_nat (e2fs_bpg es)) with dn by lia.
    rewrite (count_ext (bit bm) blk_used 0 (first_block_of c)) by (intros k Hk; apply Hbit; lia).
    pose proof (count_range blk_used (first_block_of c) dn). apply u32_id. unfold u32_ok. lia.
Qed.

(** C9: when the block map ends inside the group, because the volume does, pass
    5 reads behind it. *)
Theorem compute_maps_short c :
  pass5_ready c -> first_block_of c <= 8 * zlen (f_blockmap w) < first_block_of (c + 1) ->
  compute_maps c w = Fault OutOfBounds.
Proof.
  intros Hp Hmap. pose proof Hp as []. destruct (inode_half c Hp) as (im & Hi & Hil & _).
  unfold compute_maps. unfold mbind at 1, Tool_bind at 1, tgets. cbv zeta. fold es. rewrite (tbind_run _ _ _ _ _ Hi). cbv beta iota.
  rewrite !(cg_dbase_eq c) by (done || lia). apply tbind_fault.
  assert (zlen (replicate (Z.to_nat (m_bsize fs)) 0) = m_bsize fs) as Hz by (unfold zlen; rewrite length_replicate; lia).
  unfold first_block_of in *. apply block_map_oob; lia || nia.
Qed.

End maps.
