(* ===== verification/FsckExamples.v ===== *)
(** fsck_ext2fs: the theorems at concrete states: a volume of one group with
    blocks of 1024 bytes. *)
From stdpp Require Import gmap.
From S2P Require Import Prelude Tool Bitmap Bytes Super Kernel InodeCnv Dir Mount Newfs DirSpec Fsck FsckInode FsckDir FsckPass FsckSetup FsckKeep FsckSpec FsckInodeSpec FsckSetupSpec FsckCache FsckMaps.

Definition zs (n : nat) : list Z := replicate n 0.
Definition ex_es : ext2fs :=
  mk_ext2fs 16 65 3 56 5 1 0 0 64 64 16 0 0 0 20 E2FS_MAGIC 0 1 0 0 0 0 1 0 0 11 128 0 0 EXT2F_INCOMPAT_FTYPE 1
    (zs 16) (zs 16) (zs 64) 0 0 0 0 (zs 16) 0 0 0 (zs 4) 0 0 0 0 0 0 (zs 17) 0 0 0 0 0 0 0 0 0 0 0 0 0 0.
(** Three inodes to a block keep the buffers small. *)
Definition ex_fs : m_ext2fs := mk_m_ext2fs ex_es 1024 10 64 1023 1 16 3 2 0 0 0 1 1 128 0 [] 0 [] 32.

#[export] Instance ex_env : FsckEnv :=
  {| io_ok := fun _ => true; mem_ok := fun _ => true; junk := fun _ => 0; clock := 0; qsort := fun _ l => l |}.

Definition ex_buf (bytes : list Z) : bufarea := mk_bufarea 0 1024 0 false bytes false.
Definition ex_state (dev : Z -> Z) (bufs : list bufarea) (blockmap statemap dups : list Z) (muldup : option nat) : fsck_state :=
  mk_fsck_state ex_fs (ex_buf []) (ex_buf []) bufs (seq 0 (length bufs)) (Some 0%nat) None 1
    (mk_inode_reader 0 0 0 0 0 0 0 0 [] 0) dev 0 [] true true true false false 0 512 blockmap statemap
    (zs 17) (zs 17) [] [] [] dups muldup 0 [] 0 0 3 0 16 16 16 0 0.

Definition ask : fsck_opts := mk_fsck_opts false false 0.
Definition preen : fsck_opts := mk_fsck_opts true false 0.
Definition no : fsck_opts := mk_fsck_opts false true 0.
Definition ex_dev : fsck_device := mk_fsck_device true true true (Some 512) (Some 200).

Lemma check_readonly_witness :
  match checkfilesys no ex_dev true (ex_state (fun x => x mod 256) [] [] [] [] None) with
  | Ok (_, w') => f_dev w' = (fun x => x mod 256)
  | Fault _ => True
  end.
Proof. apply (check_readonly no ex_dev true (ex_state (fun x => x mod 256) [] [] [] [] None)). by left. Defined.

Lemma preen_never_asks_witness :
  match checkfilesys preen ex_dev true (ex_state (fun x => x mod 256) [] [] [] [] None) with
  | Ok (_, w') => f_stdin w' = []
  | Fault _ => True
  end.
Proof. by apply (preen_never_asks preen ex_dev true (ex_state (fun x => x mod 256) [] [] [] [] None)). Defined.

(** Block 3 is found a second time, in inode 2. *)
Definition ex_dup : fsck_state := ex_state (fun _ => 0) [] [8; 0] [0; 0; FSTATE] [] None.

Lemma pass1_block_counts_witness :
  owners ex_dup 3 = 1 /\
  twp (pass1_block ask 2 3 false KEEPON)
    (fun r w' => dups_split w' /\ r = inl KEEPON /\ owners w' 3 = 2 /\ f_dupblk w' = 1) (fun _ => False) ex_dup.
Proof.
  assert (~ no_more_dups ex_dup) as Hmore by (intros [H|H]; by vm_compute in H).
  split; [reflexivity|]. eapply twp_mono.
  - apply (pass1_block_counts ask 2 3 KEEPON ex_dup FSTATE); try reflexivity; try by vm_compute.
    + by intros d Hd%elem_of_nil.
    + by left.
  - intros r w' (Hs & _ & Hr). split; [done|]. destruct r as [r|r].
    + destruct Hr as (-> & [_ Ho] & _ & _ & Hd). split; [done|]. by rewrite (Ho 3) by lia.
    + by destruct Hr as (_ & _ & _ & Hno & _).
  - by intros w' [_ Hno].
Defined.

(** Two inodes own block 9 of eight inode table blocks and one gives it back. *)
Definition ex_two : fsck_state := ex_state (fun _ => 0) [] [255; 3] [] [9] (Some 0%nat).

Lemma pass4_block_releases_witness :
  owners ex_two 9 = 2 /\
  twp (pass4_block 9) (fun out w' => out = false /\ owners w' 9 = 1 /\ bit (f_blockmap w') 9 = true) (fun _ => False) ex_two.
Proof.
  split; [reflexivity|]. eapply twp_mono.
  - apply (pass4_block_releases 9 ex_two); try reflexivity; try by vm_compute.
    intros d [= ->]%list_elem_of_singleton. by vm_compute.
  - intros out w' (-> & [_ Ho] & Hb & _). split; [done|]. split; [by rewrite (Ho 9) by lia|by rewrite Hb].
  - done.
Defined.

Lemma allocblk_freeblk_witness :
  exists r w1, allocblk (ex_state (fun _ => 0) [] [255; 1] [] [] None) = Ok (Done r, w1) /\ r = 9 /\
    twp (freeblk 9) (fun _ w2 => bit (f_blockmap w2) 9 = false) (fun _ => False) w1.
Proof.
  destruct (allocblk_freeblk (ex_state (fun _ => 0) [] [255; 1] [] [] None)) as (r & w1 & Hr & Hc); [by vm_compute..|].
  exists r, w1. split; [exact Hr|]. vm_compute in Hr. injection Hr as Hr Hw. subst r. split; [done|].
  destruct Hc as [(H & _)|(_ & _ & _ & _ & _ & Hf)]; [done|]. eapply twp_mono; [apply Hf| |done].
  - subst w1. reflexivity.
  - by intros d Hd%elem_of_nil.
  - intros _ w2 [_ Hb]. by rewrite Hb.
Defined.

(** Inode 15 is in the third slot of a block of three: 156 bytes from 312 on. *)
Definition ex_inodes : fsck_state := upd_f_startinum (fun _ => 13) (ex_state (fun _ => 0) [ex_buf (replicate 384 7)] [] [] [] None).

Lemma ginode_misses_witness :
  ginode ask 15 ex_inodes = Ok (Done (In_buf 0 312), ex_inodes) /\
  256 + 28 <= 312 /\ clearinode (In_buf 0 312) ex_inodes = Fault OutOfBounds.
Proof.
  split; [reflexivity|].
  destruct (ginode_misses ask 15 ex_inodes 312 ex_inodes 0 (ex_buf (replicate 384 7)) eq_refl eq_refl
    ltac:(by vm_compute) eq_refl) as [Hoff Hc].
  split; [exact Hoff|]. destruct (clearinode (In_buf 0 312) ex_inodes) as [[oc w2]|f] eqn:E.
  - vm_compute in E. discriminate E.
  - by destruct Hc as [-> _].
Defined.

Lemma lftempname_number_witness : lftempname 4096 123 = chars "#0123" /\ dec_value (chars "0123") = 123.
Proof.
  destruct (lftempname_number 4096 123 ltac:(lia) ltac:(lia)) as (ds & Hl & _ & _ & Hv).
  assert (ds = chars "0123") as -> by (vm_compute in Hl; by injection Hl as <-).
  by split.
Defined.

(** A directory of one block, in the first slot. *)
Definition ex_dirinode : list Z :=
  le_split 2 0x41ed ++ zs 2 ++ le_split 4 1024 ++ zs 32 ++ le_split 4 7 ++ zs 112.
Definition ex_dir : fsck_state := ex_state (fun _ => 0) [ex_buf ex_dirinode] [] [] [] None.

Lemma expanddir_sound_fails_witness : expanddir ask (In_buf 0 0) ex_dir = Ok (Done false, ex_dir).
Proof.
  apply (expanddir_sound_fails ask (In_buf 0 0) ex_dirinode 0 0x41ed 1024 ex_dir); try reflexivity; by vm_compute.
Defined.

Definition ex_entry : list Z := le_split 4 2 ++ le_split 2 40 ++ [2; 2; 46; 46] ++ zs 30.

Lemma mkentry_spec_witness :
  exists d' es, mkentry (new_idesc DATA F_mkentry 2 12 (chars "#12")) ex_entry ex_dir =
      Ok (Done (Z.lor ALTERED STOP, new_idesc DATA F_mkentry 2 12 (chars "#12"), d'), ex_dir) /\
    chain d' 0 es 40 /\ in_use es = [(2, 2, chars ".."); (12, 0, chars "#12")].
Proof.
  destruct (mkentry_spec (new_idesc DATA F_mkentry 2 12 (chars "#12")) ex_entry ex_dir (mk_dent 2 40 2 2 (chars "..")) 0)
    as (d' & es & Hr & _ & Hc & Hu & _); try reflexivity; try by vm_compute.
  by exists d', es.
Defined.

(** The device with the superblock in its second kilobyte. *)
Definition ex_device : Z -> Z :=
  let sb := sb_bytes ex_es (zs 640) in fun x => default 0 (sb !z (x - 1024)).
Definition ex_read : fsck_state :=
  match readsb ask true (ex_state ex_device [] [] [] [] None) with Ok (_, w) => w | Fault _ => ex_dir end.
Definition ex_marked : fsck_state :=
  upd_f_sb (with_gds (zs 1024)) (upd_f_sblk (upd_b_dirty (fun _ => true)) ex_read).

Lemma superblock_over_boot_block_witness :
  twp (flush ask Sblk)
    (fun _ w3 => f_dev w3 <$> seqZ 0 1024 = b_buf (f_sblk ex_marked) /\
                 forall x, 1024 <= x < 2048 -> f_dev w3 x = f_dev ex_marked x)
    (fun _ => False) ex_marked.
Proof.
  apply (superblock_over_boot_block ask true (ex_state ex_device [] [] [] [] None) ex_read ex_marked);
    try (vm_compute; reflexivity); [constructor; by vm_compute].
Defined.

(** The reserved inodes, the root, a directory and a file in one group; the block
    map covers the group, or is a byte too short. *)
Definition ex_maps (blockmap : list Z) : fsck_state :=
  ex_state (fun _ => 0) [] blockmap ([0; 0; DSTATE] ++ zs 8 ++ [DSTATE; FSTATE; USTATE; USTATE; USTATE; USTATE]) [] None.

Lemma ex_maps_ready blockmap : pass5_ready (ex_maps blockmap) 0.
Proof.
  constructor; try (vm_compute; repeat split; discriminate || reflexivity).
  intros k Hk. change (e2fs_ipg _) with 16 in Hk. change (e2fs_ipg _ * 0 + 1) with 1. unfold ino_known.
  assert (k = 1 \/ k = 10 \/ k = 11 \/ 12 <= k \/ (k <> 1 /\ k < 10)) as [-> |[-> |[-> |[Hk'|[Hne Hlt]]]]] by lia;
    [right; right; eexists; (split; [reflexivity|vm_compute; split; discriminate])..| |].
  - assert (k = 12 \/ k = 13 \/ k = 14 \/ k = 15) as [-> |[-> |[-> | ->]]] by lia;
      right; right; eexists; (split; [reflexivity|vm_compute; split; discriminate]).
  - left. unfold reserved_ino, EXT2_FIRSTINO, EXT2_ROOTINO.
    rewrite (proj2 (Z.ltb_lt (1 + k) 11)), (proj2 (Z.eqb_neq (1 + k) 2)) by lia. done.
Qed.

Lemma compute_maps_spec_witness :
  exists g, compute_maps 0 (ex_maps [255; 1; 0; 0; 0; 0; 0; 0; 0]) = Ok (Done g, ex_maps [255; 1; 0; 0; 0; 0; 0; 0; 0]) /\
    bit (g_bbmap g) 7 = true /\ bit (g_bbmap g) 8 = false /\ g_nbfree g = 56 /\ g_nifree g = 4 /\ g_ndirs g = 2.
Proof.
  destruct (compute_maps_spec (ex_maps [255; 1; 0; 0; 0; 0; 0; 0; 0]) 0 (ex_maps_ready _))
    as (g & Hr & _ & _ & Hb & _ & _ & _ & _ & _ & Hd); [by vm_compute|].
  exists g. split; [exact Hr|]. rewrite (Hb 7), (Hb 8), Hd by (vm_compute; repeat split; discriminate || reflexivity).
  vm_compute in Hr. injection Hr as <-. vm_compute. repeat split.
Defined.

Lemma compute_maps_short_witness :
  pass5_ready (ex_maps (zs 8)) 0 /\ compute_maps 0 (ex_maps (zs 8)) = Fault OutOfBounds.
Proof.
  split; [apply ex_maps_ready|]. apply (compute_maps_short (ex_maps (zs 8)) 0 (ex_maps_ready _)). vm_compute. split; [discriminate|reflexivity].
Defined.

(** Two buffers: one holds block 2, changed and in use, the other is new. *)
Definition ex_cache : fsck_state :=
  ex_state (fun x => x mod 256) [mk_bufarea 4 1024 0 true (replicate 1024 7) true; mk_bufarea (-1) 1024 0 false [] false]
    [] [] [] None.

Lemma ex_io k : io_ok k = true.
Proof. reflexivity. Qed.

Lemma ex_cache_cases n b :
  f_bufs ex_cache !! n = Some b ->
  (n = 0%nat /\ b = mk_bufarea 4 1024 0 true (replicate 1024 7) true) \/ (n = 1%nat /\ b = mk_bufarea (-1) 1024 0 false [] false).
Proof. destruct n as [|[|n]]; [intros [= <-]; by left|intros [= <-]; by right|done]. Qed.

Lemma ex_cache_ok : cache_ok ex_cache.
Proof.
  constructor; [vm_compute; split; discriminate|reflexivity| |].
  - constructor.
    + intros n b [[-> ->]|[-> ->]]%ex_cache_cases H0; [|by vm_compute in H0]. split_and!; [reflexivity..|by exists 2].
    + intros n b [[-> ->]|[-> ->]]%ex_cache_cases Hd; [|done]. split; [by vm_compute|reflexivity].
    + intros n m b c [[-> ->]|[-> ->]]%ex_cache_cases [[-> ->]|[-> ->]]%ex_cache_cases; done.
    + intros n b x [[-> ->]|[-> ->]]%ex_cache_cases Hd Hc; done.
  - intros n. change (f_lru ex_cache) with [0%nat; 1%nat]. change (length (f_bufs ex_cache)) with 2%nat.
    rewrite !elem_of_cons, elem_of_nil. lia.
Qed.

Lemma getdatablk_spec_witness :
  twp (getdatablk ask 3 1024) (fun n w' => same_volume ex_cache w' /\ holds_block w' n 3) (fun _ => False) ex_cache.
Proof.
  eapply twp_mono.
  - apply (getdatablk_spec ask ex_io 3 ex_cache ex_cache_ok). split; [discriminate|reflexivity].
  - done.
  - intros w' [_ H]. by specialize (H 1%nat _ eq_refl).
Defined.

Lemma writeback_witness :
  exists w', (_ ← put_buf 0 (replicate 1024 9); _ ← dirty (Cached 0); lru ← tgets f_lru; flush_all ask (reverse lru)) ex_cache
      = Ok (Done tt, w') /\ f_dev w' 2050 = 9 /\ f_dev w' 4000 = 160.
Proof.
  destruct (writeback ask ex_io 0 _ (replicate 1024 9) ex_cache ex_cache_ok eq_refl eq_refl)
    as (w' & Hr & _ & Hin & Hout); [discriminate|reflexivity|].
  exists w'. split; [exact Hr|]. split; [|exact (Hout 4000 ltac:(vm_compute; intros [_ H]; discriminate H))].
  specialize (Hin 2 ltac:(split; [discriminate|reflexivity])). change (f_dev w' 2050) with (f_dev w' (4 * DEV_BSIZE + 2)).
  vm_compute in Hin |- *. by injection Hin.
Defined.
